(* ===== verification/_CoqProject ===== *)
-Q . S2P
Prelude.v
GoStrings.v
World.v
Runtime.v
Float.v
Dfs.v
OrchTypes.v
OrchGraph.v
Scheduler.v
SchedulerFacts.v
SchedulerWave.v
OrchPlan.v
OrchControls.v
VerTypes.v
VerGraph.v
VerAdapters.v
VerEngine.v
VerFacts.v
VerRepair.v
RoutingTypes.v
Routing.v
RoutingFacts.v
AgentTypes.v
Agent.v
ProjIntel.v
Environment.v
Provisioning.v
ProvisioningFacts.v
Deployment.v
DeploymentFacts.v
DeploymentFrame.v
Project.v
Auth.v
AuthFacts.v
HttpApi.v
SharedInfra.v
ProjectComputer.v
Knowledge.v
Constitution.v
Filesystem.v
Events.v
DesignIntel.v
ProductExp.v
ProductLoop.v
AIFabric.v
AIRuntime.v
ModelRegistry.v
AuthUsers.v
PgProjects.v
PgBase.v
OrchStore.v
HttpBase.v
HttpProjects.v
HttpWork.v
HttpAuth.v
SignIn.v
HttpFabric.v
ComputerStore.v
HttpComputers.v
DeployInfra.v
HttpDeploy.v
HttpProduct.v
HttpServer.v
VerStore.v
HttpVerify.v
AgentStore.v
HttpAgents.v
ProvStore.v
HttpProvision.v
SharedStore.v
ProductStore.v
GovernStore.v
DeployStore.v
FabricStore.v
AuditStore.v
LXC.v
AgentAdapters.v
ServerMain.v
System.v
Boundary.v
