(* ===== verification/Prelude.v ===== *)
(** * A verification library for SUDA FORGE

    SUDA FORGE is a server, written in Go, that takes a product intent to deployed
    software: it plans tasks, hands them to agents, runs them in project computers,
    verifies the result, repairs it and deploys it.  This library models the packages
    under [src/internal], [src/domain], [src/adapters] and [src/cmd] as functions and
    step relations, and proves what they promise.  Every definition that models code
    carries the file, the lines and the name of what it translates; the names are those
    of the source, where they are free.

    ** The program and the files

    The HTTP boundary authenticates a request and hands it to a component; components
    call one another through small interfaces, keep their state in maps behind a mutex,
    persist it in a store, and tell the event bus what they did.  Accordingly a component
    has a file for its data and operations, one for its store over the tables of
    Postgres, and one for its handlers; the handlers of a component that is given the
    store of the server run on its tables.

    Foundations.
    - [Prelude.v]: record update, errors, results, [int] of 64 bits, insertion sort,
      iteration over maps, the lemmas and the tactics the other files share.
    - [GoStrings.v], [Float.v]: package [strings], and [float64].
    - [World.v]: computations that read the clock and call services, and what they keep.
    - [Runtime.v]: [runtime], the interface to containers, and the readiness report;
      [LXC.v]: [adapters/runtimes/lxc], which implements it.
    - [Dfs.v]: the search with three colours that three packages write out.
    - [PgBase.v]: statements that are executed or violate a constraint, one after the
      other, which the stores are made of.

    Orchestration ([internal/orchestration]).
    - [OrchTypes.v] (types.go), [OrchGraph.v] (graph.go), [OrchPlan.v] (service.go),
      [OrchControls.v] (controls.go, events.go), [OrchStore.v] (store.go).
    - [Scheduler.v] (scheduler.go) as a function, [SchedulerFacts.v] its theorems, and
      [SchedulerWave.v] the goroutines of a wave as a step relation that refines it.
    - [HttpWork.v]: the handlers of workflows.

    Verification ([internal/verification]).
    - [VerTypes.v], [VerGraph.v], [VerAdapters.v], [VerEngine.v] (with gates.go and
      deployment_gate.go), [VerRepair.v]; [VerFacts.v] the theorems of the engine;
      [VerStore.v] the store, [HttpVerify.v] the handlers.

    Routing, agents, models.
    - [RoutingTypes.v], [Routing.v], [RoutingFacts.v]: [internal/routing].
    - [AgentTypes.v], [Agent.v]: [internal/agent], and the assignment of agents to
      tasks in [internal/orchestration]; [AgentAdapters.v] the adapters,
      [AgentStore.v] the store, [HttpAgents.v] the handlers.
    - [AIFabric.v], [AIRuntime.v]: [internal/aifabric]; [FabricStore.v] its store and
      that of routing, [HttpFabric.v] the handlers of both.
    - [ModelRegistry.v]: [internal/model].

    Environments and deployments.
    - [ProjIntel.v]: [internal/projectintelligence].  [Environment.v]:
      [internal/environment].  [Provisioning.v], [ProvisioningFacts.v]:
      [internal/provisioning].  [ProvStore.v]: the stores of the three, [HttpProvision.v]
      their handlers.
    - [Deployment.v], [DeploymentFacts.v], [DeployInfra.v] (catalog.go, infrastructure.go,
      providers.go): [internal/deployment]; [DeploymentFrame.v] what its manager keeps of
      a deployment; [DeployStore.v] the store and the registry of ports, [HttpDeploy.v]
      the handlers.
    - [SharedInfra.v], [SharedStore.v]: [internal/sharedinfra].
    - [ProjectComputer.v], [ComputerStore.v]: [internal/projectcomputer];
      [HttpComputers.v] the handlers.
    - [Project.v]: [domain/project] and [internal/lifecycle]; [PgProjects.v] the table of
      projects ([internal/postgres]) next to the memberships; [HttpProjects.v] the
      handlers.
    - [Filesystem.v]: [internal/filesystem].  [Events.v]: [internal/events].

    Product.
    - [Knowledge.v], [Constitution.v], [DesignIntel.v]: the packages of these names.
    - [ProductExp.v], [ProductLoop.v]: [internal/productexperience].
    - [ProductStore.v]: the stores of knowledge and of the product experience;
      [GovernStore.v]: those of constitutions and designs, the guard of agent sessions and
      the activity of projects ([cmd/server]).
    - [HttpProduct.v]: the handlers.

    Accounts and the server.
    - [Auth.v], [AuthFacts.v]: sessions and project permissions; [AuthUsers.v]: users,
      passwords and memberships ([internal/auth]), all three over their tables;
      [Boundary.v]: the bearer boundary, which the server does not use.
    - [HttpApi.v]: middlewares and the rate limiter; [HttpAuth.v]: the handlers of
      accounts and members; [HttpBase.v]: what handlers share; [HttpServer.v]: the
      routes, the guard of the origin and the log of requests ([internal/httpapi]).
    - [AuditStore.v]: [internal/audit], its handler and the sink of deployments.
    - [ServerMain.v]: the configuration, and what [cmd/server/main.go] makes of the
      components; the two simulators.

    Components together, wired as [cmd/server/main.go] does.
    - [SignIn.v]: the handlers of accounts, the table of sessions and the middleware in
      front of the routes; and the rate limiters in front of the handlers that take a
      password.
    - [System.v]: the handlers of verifications and deployments, the table of runs, the
      engine and the deployment manager with its gate.  A state holds the tables beside
      the state of the manager; a request, the goroutine of a deployment and whatever the
      rest of the program does are steps of a history, each taken as a whole.

    ** Conventions

    - A method that changes its receiver is a function from the state to the answer and
      the new state.  Where it also waits on the outside, it is a computation [M W A]
      in a world [W] ([World.v]); a component with a state of its own runs in the pair
      of its state and the world.  Nothing is assumed of the world: the clock may jump,
      services answer what they like, contexts end at any time, unless a theorem says
      otherwise.
    - An error is a value of [goerror]; [result A] is [Ok] or [Err]; a function of the
      source that returns a value next to its error returns a pair here.  A panic is
      [None] where the code can reach one.
    - Enumerations whose underlying type is [string] have a last constructor for any
      other text.  Times and durations are nanoseconds in [Z].  A nil map is an empty
      map, where the source does not tell them apart.
    - The order in which Go ranges over a map is a parameter, [MapOrder]: every theorem
      holds for every order.
    - Cryptography (argon2, SHA-256), the parser of JSON, the case tables of Unicode,
      HTTP servers and the tools of LXC are parameters, with the hypotheses about them
      named where a theorem needs one.
    - A table is a map from its primary key to its rows, or a list of rows where the
      source reads it in the order of insertion; a statement of SQL is a function on the
      tables that is carried out when the constraints of [src/migrations] allow it and
      is an error otherwise.  Times are kept to the microsecond and an [integer] to 32
      bits; what a map of JSON values is read back as is a parameter ([Json]), and so is
      the collation of texts ([Database]).
    - Interfaces of the source are records of operations; where a client relies on more,
      a class states it, such as [LawfulAdapter] of [VerAdapters.v].

    ** Fuel

    Recursions that are not structural take fuel, and the theorems about them show that
    it suffices: the searches of [Dfs.v] take one more than the number of nodes; [Run] of
    the scheduler the number of tasks plus one, as a wave settles at least one;
    propagation of failures two rounds; [Provision] one more than the number of its
    steps, as every round settles one; the search of [Impact] two more than the number
    of edges, as an edge is followed once; the printing of numbers their digits.

    ** What the theorems show

    - Graphs: the validators accept exactly the acyclic graphs they are meant to
      ([ValidateGraph_correct] and its like for checks and plans).
    - Scheduling: termination, dependency order, outcome, retries, and that the
      concurrent waves refine the sequential ones; that a run in which every task
      succeeds in the end takes every task to success ([Run_succeeds]), while failures do
      not reach beyond the direct dependents ([Run_stalls_behind_blocked]).
    - Verification: what the verdict of a run says about its checks, which checks are
      started ([Engine_started_iff]), that a check which passed had its command run in the
      runtime of the request, and the bound of the repair loop.
    - Routing: decisions meet every hard constraint and are the best of their kind;
      [decide_within_settings] adds what the settings of a project demand, when they can
      be read.
    - Environments and deployments: a planned provisioning run is taken to READY on the
      server as it is wired ([Plan_then_Provision]), a deployment is active
      only after every step of its pipeline, failures leave the active deployment,
      cached artifacts have their checksum, a container is made by the steps it should be
      ([Create_correct]).
    - State kept in memory: invariants of every reachable state for the event bus (which
      event a subscriber gets, in which order, and which are lost: [bus_delivery]), the
      leases, the ports, the AI fabric, the registries and the knowledge graph, and the
      liveness of publication.
    - Stores: what is saved is read back, by whom it may be ([SaveWorkflow_correct],
      [session_lifetime], [settings_kept], [design_kept]) and what is lost on the way; a
      store to which the same is written as to the one in memory agrees with it
      ([pg_knowledge_agrees]), a list with the check of access ([ListVisible_agrees]);
      ports are exclusive whatever comes between two statements ([pg_ports_exclusive]);
      a loop that is resumed after a restart repeats no stage ([loop_resumes]).
    - Handlers over their stores: what reaches a handler was authenticated, and a request
      that may change something and names another origin does not reach one
      ([serve_guarded]); what an accepted request leaves behind, and that
      later requests see it ([createProject_owned], [createWorkflow_kept],
      [createVerification_kept], [planned_run_kept], [deploymentCreate_correct]); who may
      change what ([computers_guarded], [sessions_follow_transitions]).
    - Accounts: the lifetime of sessions, bootstrap and login, the last owner of a
      project, who may change members; the cookie of a login lets its user in until the
      session is ended, whatever else is requested ([sign_in_lasts]); how many passwords
      can be tried ([guesses_bounded]); and that the project access check in front of the
      handlers is never made ([project_check_bypassed]).
    - Product: exact impact analysis, the guard a constitution is of its agent's sessions ([constitution_governs]), the activity of a
      project, the run of the autonomous loop.
    - The server: what the wiring makes of all this - in every history of the server a
      project has an active deployment only after a request for one that named a
      verification run which the engine carried out for an earlier request, the command of
      each required check of that request run by the server's runtime provider and exited
      with 0 ([active_deployment_verified]), as the gate opens
      exactly for a passed run ([server_gate]); while no session starts ([no_session_starts]), no
      repair is made ([server_repairs_nothing]), no computer is created
      ([creation_never_succeeds]) and the shared cache stays empty
      ([cache_never_fills]).

    Where the code does not do what it means to do, a theorem states what it does.

    ** Not modelled

    Connections to the database that fail between two statements, and texts that Postgres
    refuses (invalid UTF-8, zero bytes); requests whose handlers interleave on the tables,
    but where a theorem says so ([pg_ports_exclusive]); decoding the body of a request,
    whose result a handler is given; service descriptions and the terminal, interfaces
    that nothing implements; connecting to the database, listening, shutting down and the
    logs.  The web application, the installers, the migrations and the scripts are not
    Go. *)

From stdpp Require Export base tactics gmap strings list fin_maps pretty sorting.
From Stdlib Require Export ZArith Lia.

#[global] Set Default Goal Selector "!".
Declare Scope go_scope.
Delimit Scope go_scope with go.
Open Scope string_scope.
Open Scope list_scope.
Open Scope Z_scope.
Open Scope go_scope.

(** ** Tactics *)

(** Prove the premises of a hypothesis, one goal each, then go on with it. *)
Ltac feed H :=
  lazymatch type of H with
  | ?A → ?B =>
      let h := fresh in
      assert A as h; [|specialize (H h); clear h; feed H]
  | _ => idtac
  end.

(** ** Record update

    A record type gives its eta expansion as an instance of [Eta]; the setter
    of a field is then derived on demand and written [r <| field := v |>]. *)

Class Eta (R : Type) := eta : R → R.
Class Setter {R E : Type} (getter : R → E) := set_field : (E → E) → R → R.
Arguments set_field {R E} getter {_} _ _ /.

Ltac solve_setter :=
  lazymatch goal with
  | |- @Setter ?R ?E ?getter =>
      let u := fresh "u" in
      let r := fresh "r" in
      intros u r;
      let t := eval hnf in (@eta R _ r) in
      let t := eval cbv beta in t in
      lazymatch eval pattern (getter r) in t with
      | ?F _ => let b := eval cbv beta in (F (u (getter r))) in exact b
      end
  end.
#[global] Hint Extern 1 (Setter _) => solve_setter : typeclass_instances.

Notation "r <| f := v |>" := (set_field f (λ _, v) r)
  (at level 1, f at next level, left associativity,
   format "r  <| f  :=  v |>") : go_scope.

(** ** Errors

    A Go [error] is a tree of wrapped values: [errors.New] makes a leaf and
    [fmt.Errorf] with [%w] makes a node whose text already contains the text of
    the wrapped error.  A nil error is [None] of [option goerror]. *)

Inductive goerror :=
  | ErrorString (text : string)
  | WrapError (text : string) (inner : goerror).

#[global] Instance goerror_eq_dec : EqDecision goerror.
Proof. solve_decision. Defined.

(** [err.Error()] *)
Definition error_text (e : goerror) : string :=
  match e with ErrorString s | WrapError s _ => s end.

(** [fmt.Errorf("...%w", e)], [pre] being the text before the verb. *)
Definition wrap_prefix (pre : string) (e : goerror) : goerror :=
  WrapError (pre +:+ error_text e) e.

(** [errors.Is] *)
Fixpoint errors_is (e target : goerror) : bool :=
  bool_decide (e = target) ||
  match e with
  | ErrorString _ => false
  | WrapError _ inner => errors_is inner target
  end.

Definition context_Canceled : goerror := ErrorString "context canceled".
Definition context_DeadlineExceeded : goerror :=
  ErrorString "context deadline exceeded".

(** Functions that return a value or an error, never both. *)
Inductive result (A : Type) :=
  | Ok (a : A)
  | Err (e : goerror).
Arguments Ok {A} a.
Arguments Err {A} e.

Definition res_bind {A B} (x : result A) (f : A → result B) : result B :=
  match x with Ok a => f a | Err e => Err e end.
Notation "'let?' x := m 'in' k" := (res_bind m (λ x, k))
  (at level 10, x pattern, m at level 100, k at level 200,
   format "'[v' 'let?'  x  :=  m  'in' '/' k ']'") : go_scope.

Definition is_ok {A} (x : result A) : bool :=
  match x with Ok _ => true | Err _ => false end.

Lemma errors_is_refl e : errors_is e e = true.
Proof. destruct e; simpl; by rewrite bool_decide_true. Qed.

Lemma res_bind_ok {A B} (x : result A) (f : A → result B) b :
  res_bind x f = Ok b ↔ ∃ a, x = Ok a ∧ f a = Ok b.
Proof. destruct x; simpl; naive_solver. Qed.

(** ** Machine integers

    Go's [int] and [int64] are 64-bit two's complement on the platforms the
    program targets; [wrap64] is the wrap-around of their arithmetic. *)

Definition wrap64 (z : Z) : Z := (z + 2 ^ 63) `mod` 2 ^ 64 - 2 ^ 63.
Definition int64_range (z : Z) : Prop := - 2 ^ 63 ≤ z < 2 ^ 63.
Definition add64 (a b : Z) : Z := wrap64 (a + b).
Definition sub64 (a b : Z) : Z := wrap64 (a - b).

Lemma wrap64_range z : int64_range (wrap64 z).
Proof.
  unfold int64_range, wrap64.
  pose proof (Z.mod_pos_bound (z + 2 ^ 63) (2 ^ 64) ltac:(lia)). lia.
Qed.

Lemma wrap64_id z : int64_range z → wrap64 z = z.
Proof. unfold int64_range, wrap64. intros. rewrite Z.mod_small; lia. Qed.

Lemma wrap64_idemp_add a b : wrap64 (wrap64 a + b) = wrap64 (a + b).
Proof.
  unfold wrap64.
  replace ((a + 2 ^ 63) `mod` 2 ^ 64 - 2 ^ 63 + b + 2 ^ 63)
    with ((a + 2 ^ 63) `mod` 2 ^ 64 + b) by lia.
  rewrite Zplus_mod_idemp_l. do 2 f_equal. lia.
Qed.

(** Adding and then subtracting the same amount is the identity, wrap-around
    included. *)
Lemma sub64_add64 a b : int64_range a → sub64 (add64 a b) b = a.
Proof.
  intros Ha. unfold sub64, add64.
  replace (wrap64 (a + b) - b) with (wrap64 (a + b) + - b) by lia.
  rewrite wrap64_idemp_add.
  replace (a + b + - b) with a by lia. by apply wrap64_id.
Qed.

(** ** Time

    A [time.Time] is the number of nanoseconds since the Unix epoch; the zero
    time of Go is the first instant of year 1. *)

Definition time_zero : Z := -62135596800 * 10 ^ 9.
Definition IsZero (t : Z) : bool := t =? time_zero.
Definition UnixNano (t : Z) : Z := wrap64 t.

(** ** Keys in lists *)

(** Elements of a list are told apart by a key without repetition. *)
Lemma NoDup_key_inj {A B} (key : A → B) l x y :
  NoDup (key <$> l) → x ∈ l → y ∈ l → key x = key y → x = y.
Proof.
  induction l as [|z l IH]; [by intros _ ?%elem_of_nil|].
  intros [Hz Hnd]%NoDup_cons Hx Hy Heq.
  apply elem_of_cons in Hx as [->|Hx], Hy as [->|Hy]; try done; [| |by apply IH].
  - destruct Hz. rewrite Heq. by apply list_elem_of_fmap_2.
  - destruct Hz. rewrite <-Heq. by apply list_elem_of_fmap_2.
Qed.

(** ** Map iteration

    [for k, v := range m] visits the entries of a map in an order the language
    leaves open and that may change from one loop to the next.  The order is an
    interface of the model: [map_range n m] lists the entries in the order the
    [n]-th such loop of a function takes, and all that is known of it is that
    it lists the entries of the map. *)

Class MapOrder := {
  map_range : ∀ {V : Type}, nat → gmap string V → list (string * V);
  map_range_perm : ∀ {V : Type} n (m : gmap string V),
    map_range n m ≡ₚ map_to_list m
}.

(** The canonical order of the map library, used by the witnesses. *)
Definition canonical_order : MapOrder :=
  {| map_range V _ m := map_to_list m; map_range_perm V _ m := reflexivity _ |}.

Section map_range.
Context `{MapOrder}.

Lemma elem_of_map_range {V} n (m : gmap string V) k v :
  (k, v) ∈ map_range n m ↔ m !! k = Some v.
Proof. by rewrite map_range_perm, elem_of_map_to_list. Qed.

Lemma map_range_keys_nodup {V} n (m : gmap string V) :
  NoDup (map_range n m).*1.
Proof. rewrite map_range_perm. apply NoDup_fst_map_to_list. Qed.

Lemma elem_of_map_range_keys {V} n (m : gmap string V) k :
  k ∈ (map_range n m).*1 ↔ is_Some (m !! k).
Proof.
  rewrite list_elem_of_fmap. split.
  - intros ([k' v] & -> & Hin). apply elem_of_map_range in Hin. by eexists.
  - intros [v Hv]. exists (k, v). split; [done|]. by apply elem_of_map_range.
Qed.

(** Values filed under a key of their own. *)
Lemma filed_keys {A} (key : A → string) (P : A → Prop) `{∀ x, Decision (P x)} (m : gmap string A) i :
  (∀ k a, m !! k = Some a → key a = k) → NoDup (key <$> filter P (map_range i m).*2).
Proof.
  intros Hk. eapply sublist_NoDup; [apply (map_range_keys_nodup i m)|].
  assert ((map_range i m).*1 = key <$> (map_range i m).*2) as ->.
  { rewrite <-list_fmap_compose. apply list_fmap_ext. intros j [k a] Hj%list_elem_of_lookup_2.
    apply elem_of_map_range in Hj. simpl. symmetry. by apply Hk. }
  apply fmap_sublist, sublist_filter.
Qed.

Lemma elem_of_filed {A} (key : A → string) (P : A → Prop) `{∀ x, Decision (P x)} (m : gmap string A) i a :
  (∀ k a, m !! k = Some a → key a = k) →
  a ∈ filter P (map_range i m).*2 ↔ m !! key a = Some a ∧ P a.
Proof.
  intros Hk. rewrite list_elem_of_filter, list_elem_of_fmap. split.
  - intros [HP ([k a'] & -> & Ha%elem_of_map_range)]. cbn in HP |- *. by rewrite (Hk _ _ Ha).
  - intros [Ha HP]. split; [done|]. exists (key a, a). split; [done|]. by apply elem_of_map_range.
Qed.
End map_range.

(** ** Dynamic values ([any]) *)

Inductive any :=
  | AnyNil
  | AnyBool (b : bool)
  | AnyInt (z : Z)
  | AnyString (s : string)
  | AnyStrings (l : list string)
  | AnyList (l : list any)
  | AnyMap (m : list (string * any)).

(** ** Sorting *)

Lemma StronglySorted_impl {A} (R1 R2 : relation A) l :
  (∀ x y, R1 x y → R2 x y) → StronglySorted R1 l → StronglySorted R2 l.
Proof.
  intros HR. induction 1 as [|x r Hr IH Hx]; constructor; [done|].
  eapply Forall_impl; [exact Hx|]. eauto.
Qed.

Lemma StronglySorted_filter {A} (R : relation A) (P : A → Prop)
    `{∀ x, Decision (P x)} l :
  StronglySorted R l → StronglySorted R (filter P l).
Proof.
  induction 1 as [|x r Hr IH Hx]; [constructor|].
  rewrite filter_cons. case_decide; [|done]. constructor; [done|].
  rewrite Forall_forall in *. intros y [_ Hy]%list_elem_of_filter. by apply Hx.
Qed.

(** [sort.Slice] and [sort.SliceStable] run an insertion sort on short slices
    (up to 12 and 20 elements); [sort_by] is that insertion sort: each element
    moves left past the elements it is less than.  Under a strict weak order it
    is the stable sort, which is what [sort.SliceStable] returns at every
    length and, when no two elements tie, what [sort.Slice] returns. *)

Section sort_by.
Context {A : Type} (less : A → A → bool).

Fixpoint insert_right (x : A) (racc : list A) : list A :=
  match racc with
  | [] => [x]
  | y :: r => if less x y then y :: insert_right x r else x :: y :: r
  end.

Definition sort_by (l : list A) : list A :=
  reverse (foldl (λ acc x, insert_right x acc) [] l).

Lemma insert_right_perm x l : insert_right x l ≡ₚ x :: l.
Proof.
  induction l as [|y l IH]; simpl; [done|].
  destruct (less x y); [|done]. rewrite IH. constructor.
Qed.

Lemma sort_by_fold_perm l acc :
  foldl (λ acc x, insert_right x acc) acc l ≡ₚ l ++ acc.
Proof.
  revert acc. induction l as [|x l IH]; intros acc; simpl; [done|].
  rewrite IH, insert_right_perm. by rewrite Permutation_middle.
Qed.

Lemma sort_by_perm l : sort_by l ≡ₚ l.
Proof.
  unfold sort_by. by rewrite reverse_Permutation, sort_by_fold_perm, app_nil_r.
Qed.

Lemma elem_of_sort_by x l : x ∈ sort_by l ↔ x ∈ l.
Proof. by rewrite sort_by_perm. Qed.

Hypothesis less_asym : ∀ x y, less x y = true → less y x = false.
Hypothesis less_negtrans : ∀ x y z,
  less x y = false → less y z = false → less x z = false.

Lemma insert_right_sorted x l :
  StronglySorted (λ a b, less a b = false) l →
  StronglySorted (λ a b, less a b = false) (insert_right x l).
Proof using less_asym less_negtrans.
  induction 1 as [|y l Hl IH Hy]; simpl.
  { repeat constructor. }
  destruct (less x y) eqn:E.
  - constructor; [done|]. rewrite insert_right_perm. constructor; eauto.
  - constructor; [by constructor|]. constructor; [done|].
    eapply Forall_impl; [exact Hy|]. simpl. eauto.
Qed.

Lemma sort_by_sorted l :
  StronglySorted (λ a b, less b a = false) (sort_by l).
Proof using less_asym less_negtrans.
  unfold sort_by.
  assert (∀ acc, StronglySorted (λ a b, less a b = false) acc →
    StronglySorted (λ a b, less a b = false)
      (foldl (λ acc x, insert_right x acc) acc l)) as Hf.
  { induction l as [|x l IH]; intros acc Ha; simpl; [done|].
    apply IH, insert_right_sorted, Ha. }
  specialize (Hf [] ltac:(constructor)).
  induction Hf as [|y r Hr IH Hy]; [constructor|].
  rewrite reverse_cons. apply StronglySorted_app_2; [|done|repeat constructor].
  intros z w Hz ->%list_elem_of_singleton.
  rewrite elem_of_reverse in Hz. by eapply Forall_forall in Hy.
Qed.
End sort_by.

(** Sorting does the same under two orders that agree on the elements. *)
Lemma insert_right_ext {A} (l1 l2 : A → A → bool) x l :
  (∀ y, y ∈ l → l1 x y = l2 x y) → insert_right l1 x l = insert_right l2 x l.
Proof.
  induction l as [|y l IH]; intros Heq; simpl; [done|].
  rewrite Heq by (by left). rewrite IH; [done|]. intros z Hz. apply Heq. by right.
Qed.

Lemma sort_by_ext {A} (l1 l2 : A → A → bool) l :
  (∀ x y, x ∈ l → y ∈ l → l1 x y = l2 x y) → sort_by l1 l = sort_by l2 l.
Proof.
  intros Heq. unfold sort_by. f_equal.
  assert (∀ acc, (∀ x y, x ∈ l → y ∈ acc ++ l → l1 x y = l2 x y) →
    foldl (λ acc x, insert_right l1 x acc) acc l =
    foldl (λ acc x, insert_right l2 x acc) acc l) as Hf.
  { clear Heq. induction l as [|x l IH]; intros acc Ha; simpl; [done|].
    rewrite (insert_right_ext l1 l2).
    - apply IH. intros y z Hy Hz. apply Ha; [by right|].
      rewrite elem_of_app, insert_right_perm, elem_of_cons in Hz.
      rewrite elem_of_app, elem_of_cons. tauto.
    - intros y Hy. apply Ha; [by left|]. rewrite elem_of_app. by left. }
  apply Hf. intros x y Hx Hy. by apply Heq.
Qed.

(** First by one order and, where it does not tell, by another. *)
Definition lex_less {A} (l1 l2 : A → A → bool) (a b : A) : bool :=
  l1 a b || (negb (l1 b a) && l2 a b).

Section lex_less.
Context {A : Type} (l1 l2 : A → A → bool).
Hypothesis asym1 : ∀ x y, l1 x y = true → l1 y x = false.
Hypothesis asym2 : ∀ x y, l2 x y = true → l2 y x = false.
Hypothesis negtrans1 : ∀ x y z, l1 x y = false → l1 y z = false → l1 x z = false.
Hypothesis negtrans2 : ∀ x y z, l2 x y = false → l2 y z = false → l2 x z = false.

Lemma lex_less_asym x y : lex_less l1 l2 x y = true → lex_less l1 l2 y x = false.
Proof using asym1 asym2.
  unfold lex_less. destruct (l1 x y) eqn:E1; simpl.
  - intros _. by rewrite (asym1 x y E1).
  - destruct (l1 y x) eqn:E2; simpl; [done|]. apply asym2.
Qed.

Lemma lex_less_negtrans x y z :
  lex_less l1 l2 x y = false → lex_less l1 l2 y z = false → lex_less l1 l2 x z = false.
Proof using negtrans1 negtrans2.
  unfold lex_less. rewrite !orb_false_iff, !andb_false_iff, !negb_false_iff.
  intros [H1 H2] [H3 H4]. split; [eauto|].
  destruct (l1 z x) eqn:Hzx; [by left|right].
  pose proof (negtrans1 y z x H3 Hzx) as Hyx. pose proof (negtrans1 z x y Hzx H1) as Hzy.
  destruct H2, H4; try congruence. eauto.
Qed.
End lex_less.

(** Go compares strings bytewise, in the lexicographic order. *)
Lemma ltb_negb_leb a b : String.ltb a b = negb (String.leb b a).
Proof.
  unfold String.ltb, String.leb. rewrite (String.compare_antisym a b).
  by destruct (String.compare b a).
Qed.

Lemma ltb_false a b : String.ltb a b = false ↔ String.le b a.
Proof.
  rewrite ltb_negb_leb. unfold String.le. destruct (String.leb b a); naive_solver.
Qed.

Lemma ltb_true a b : String.ltb a b = true ↔ ¬ String.le b a.
Proof. rewrite <-ltb_false. by destruct (String.ltb a b). Qed.

Lemma ltb_asym a b : String.ltb a b = true → String.ltb b a = false.
Proof.
  rewrite ltb_true, ltb_false. intros. by destruct (total String.le a b).
Qed.

Lemma ltb_negtrans a b c :
  String.ltb a b = false → String.ltb b c = false → String.ltb a c = false.
Proof. rewrite !ltb_false. intros. by transitivity b. Qed.

Lemma ltb_irrefl a : String.ltb a a = false.
Proof. by apply ltb_false. Qed.

(** [sort.Slice(ids, func(i, j int) bool { return ids[i] < ids[j] })] *)
Definition sort_strings : list string → list string := sort_by String.ltb.

Lemma sort_strings_perm l : sort_strings l ≡ₚ l.
Proof. apply sort_by_perm. Qed.

Lemma sort_strings_sorted l : StronglySorted String.le (sort_strings l).
Proof.
  eapply StronglySorted_impl; [|exact (sort_by_sorted _ ltb_asym ltb_negtrans l)].
  intros x y. apply ltb_false.
Qed.

(** The outcome depends on the elements only, not on the order they came in. *)
Lemma sort_strings_proper l1 l2 : l1 ≡ₚ l2 → sort_strings l1 = sort_strings l2.
Proof.
  intros Hp. eapply (StronglySorted_unique String.le);
    [apply sort_strings_sorted..|]. by rewrite !sort_strings_perm.
Qed.

#[global] Instance sort_strings_Proper :
  Proper ((≡ₚ) ==> (=)) sort_strings.
Proof. intros l1 l2. apply sort_strings_proper. Qed.

Lemma elem_of_sort_strings x l : x ∈ sort_strings l ↔ x ∈ l.
Proof. by rewrite sort_strings_perm. Qed.
