(* ===== verification/GoStrings.v ===== *)
(** * Strings of the Go standard library

    The functions of package [strings] the program calls, on byte strings.
    White space is the set of [unicode.IsSpace] in its UTF-8 encoding, so the
    trimming and splitting functions are exact for every string; the case
    mappings are exact for ASCII strings and leave a string with other bytes to
    [GoUnicode], which stands for the case tables of package [unicode]. *)

From Stdlib Require Import Ascii.
From S2P Require Import Prelude.

Module strings.

(** ** Bytes *)

Definition byte_of (c : Ascii.ascii) : nat := Ascii.nat_of_ascii c.
Definition in_range (lo hi : nat) (c : Ascii.ascii) : bool :=
  (lo <=? byte_of c)%nat && (byte_of c <=? hi)%nat.

Fixpoint forall_bytes (p : Ascii.ascii → bool) (s : string) : bool :=
  match s with
  | EmptyString => true
  | String c s => p c && forall_bytes p s
  end.
Fixpoint exists_byte (p : Ascii.ascii → bool) (s : string) : bool :=
  match s with
  | EmptyString => false
  | String c s => p c || exists_byte p s
  end.
Fixpoint map_bytes (f : Ascii.ascii → Ascii.ascii) (s : string) : string :=
  match s with
  | EmptyString => EmptyString
  | String c s => String (f c) (map_bytes f s)
  end.

Definition ascii_only : string → bool := forall_bytes (in_range 0 127).

(** [s[n:]] and [s[:n]], for [n] within the string. *)
Fixpoint drop (n : nat) (s : string) : string :=
  match n, s with
  | S n, String _ s => drop n s
  | _, _ => s
  end.
Fixpoint take (n : nat) (s : string) : string :=
  match n, s with
  | S n, String c s => String c (take n s)
  | _, _ => EmptyString
  end.

(** ** Prefixes, suffixes and parts *)

Definition HasPrefix (s pre : string) : bool := String.prefix pre s.
Definition HasSuffix (s suf : string) : bool :=
  (String.length suf <=? String.length s)%nat &&
  String.eqb (drop (String.length s - String.length suf) s) suf.
Definition TrimPrefix (s pre : string) : string :=
  if HasPrefix s pre then drop (String.length pre) s else s.
Definition TrimSuffix (s suf : string) : string :=
  if HasSuffix s suf then take (String.length s - String.length suf) s else s.

Fixpoint Contains (s sub : string) : bool :=
  HasPrefix s sub || match s with EmptyString => false | String _ s => Contains s sub end.

(** [strings.ContainsAny] for a set of ASCII characters. *)
Definition ContainsAny (s chars : string) : bool :=
  exists_byte (λ c, exists_byte (Ascii.eqb c) chars) s.

(** ** White space *)

(** The UTF-8 encodings of the runes of [unicode.IsSpace]. *)
Definition bytes (l : list nat) : string :=
  foldr (λ n s, String (Ascii.ascii_of_nat n) s) EmptyString l.
Definition wide_spaces : list string := bytes <$>
  ([ [0xC2; 0x85]; [0xC2; 0xA0]; [0xE1; 0x9A; 0x80]; [0xE2; 0x80; 0x80];
     [0xE2; 0x80; 0x81]; [0xE2; 0x80; 0x82]; [0xE2; 0x80; 0x83]; [0xE2; 0x80; 0x84];
     [0xE2; 0x80; 0x85]; [0xE2; 0x80; 0x86]; [0xE2; 0x80; 0x87]; [0xE2; 0x80; 0x88];
     [0xE2; 0x80; 0x89]; [0xE2; 0x80; 0x8A]; [0xE2; 0x80; 0xA8]; [0xE2; 0x80; 0xA9];
     [0xE2; 0x80; 0xAF]; [0xE2; 0x81; 0x9F]; [0xE3; 0x80; 0x80] ]%nat).
Definition ascii_space (c : Ascii.ascii) : bool := in_range 9 13 c || in_range 32 32 c.

(** The length of the white-space rune the string starts with, or 0. *)
Definition space_width (s : string) : nat :=
  match s with
  | EmptyString => 0
  | String c _ =>
      if ascii_space c then 1
      else match filter (λ w, HasPrefix s w = true) wide_spaces with
           | w :: _ => String.length w
           | [] => 0
           end
  end.

(** [skip] is what is left of a rune being removed. *)
Fixpoint trim_left (skip : nat) (s : string) : string :=
  match s with
  | EmptyString => EmptyString
  | String _ r =>
      match skip with
      | S k => trim_left k r
      | O => match space_width s with O => s | S k => trim_left k r end
      end
  end.
Fixpoint trim_right (s : string) : string :=
  match s with
  | EmptyString => EmptyString
  | String c r => if String.eqb (trim_left 0 s) "" then EmptyString else String c (trim_right r)
  end.
Definition TrimSpace (s : string) : string := trim_right (trim_left 0 s).

(** ** Splitting and joining *)

(** The piece being read and the pieces after it; [width] is the length of the
    separator the string starts with, or 0. *)
Fixpoint pieces (width : string → nat) (skip : nat) (s : string) : string * list string :=
  match s with
  | EmptyString => (EmptyString, [])
  | String c r =>
      match skip with
      | S k => pieces width k r
      | O =>
          match width s with
          | O => let '(p, ps) := pieces width 0 r in (String c p, ps)
          | S k => let '(p, ps) := pieces width k r in (EmptyString, p :: ps)
          end
      end
  end.
Definition split_by (width : string → nat) (s : string) : list string :=
  let '(p, ps) := pieces width 0 s in p :: ps.

(** [strings.Split] for a separator that is not empty. *)
Definition Split (s sep : string) : list string :=
  split_by (λ r, if HasPrefix r sep then String.length sep else 0%nat) s.
Definition Fields (s : string) : list string :=
  filter (λ f, f ≠ "") (split_by space_width s).
(** [strings.FieldsFunc] for a predicate on ASCII characters. *)
Definition FieldsFunc (s : string) (p : Ascii.ascii → bool) : list string :=
  filter (λ f, f ≠ "")
    (split_by (λ r, match r with String c _ => if p c then 1%nat else 0%nat
                               | EmptyString => 0%nat end) s).
Definition Join (l : list string) (sep : string) : string := String.concat sep l.

(** [strings.TrimRight] for a set of ASCII characters. *)
Fixpoint TrimRight (s chars : string) : string :=
  match s with
  | EmptyString => EmptyString
  | String c r =>
      if forall_bytes (λ c, exists_byte (Ascii.eqb c) chars) s then EmptyString
      else String c (TrimRight r chars)
  end.

(** ** Case *)

Class GoUnicode := {
  unicode_lower : string → string;
  unicode_upper : string → string;
  unicode_fold : string → string → bool
}.

Definition lower_byte (c : Ascii.ascii) : Ascii.ascii :=
  if in_range 65 90 c then Ascii.ascii_of_nat (byte_of c + 32) else c.
Definition upper_byte (c : Ascii.ascii) : Ascii.ascii :=
  if in_range 97 122 c then Ascii.ascii_of_nat (byte_of c - 32) else c.

Definition ToLower `{GoUnicode} (s : string) : string :=
  if ascii_only s then map_bytes lower_byte s else unicode_lower s.
Definition ToUpper `{GoUnicode} (s : string) : string :=
  if ascii_only s then map_bytes upper_byte s else unicode_upper s.
Definition EqualFold `{GoUnicode} (s t : string) : bool :=
  if ascii_only s && ascii_only t
  then String.eqb (map_bytes lower_byte s) (map_bytes lower_byte t)
  else unicode_fold s t.

(** Strings with other bytes left as they are, for the witnesses. *)
Definition ascii_unicode : GoUnicode :=
  {| unicode_lower s := s; unicode_upper s := s; unicode_fold := String.eqb |}.

(** ** Facts *)

Lemma drop_app s t : drop (String.length s) (s +:+ t) = t.
Proof. by induction s. Qed.

Lemma HasPrefix_iff s pre : HasPrefix s pre = true ↔ ∃ t, s = pre +:+ t.
Proof.
  unfold HasPrefix. revert s. induction pre as [|c pre IH]; intros s.
  - split; [by exists s|]. by destruct s.
  - destruct s as [|d s]; cbn [String.prefix].
    + split; [done|]. by intros [t [=]].
    + destruct (Ascii.ascii_dec c d) as [->|Hne].
      * rewrite IH. split; [intros [t ->]; by exists t|intros [t [= ->]]; by exists t].
      * split; [done|]. intros [t [= ? _]]. congruence.
Qed.

Lemma length_append s t :
  String.length (s +:+ t) = (String.length s + String.length t)%nat.
Proof. induction s as [|c s IH]; [done|]. simpl. by rewrite IH. Qed.

Lemma HasSuffix_app s t : HasSuffix (s +:+ t) t = true.
Proof.
  unfold HasSuffix. rewrite length_append.
  replace (String.length s + String.length t - String.length t)%nat
    with (String.length s) by lia.
  rewrite drop_app. apply andb_true_iff. split; [apply Nat.leb_le; lia|apply String.eqb_refl].
Qed.

Lemma take_drop n s : take n s +:+ drop n s = s.
Proof.
  revert s. induction n as [|n IH]; intros [|c s]; try done.
  exact (f_equal (String c) (IH s)).
Qed.

Lemma HasSuffix_iff s suf : HasSuffix s suf = true ↔ ∃ t, s = t +:+ suf.
Proof.
  split; [|intros [t ->]; apply HasSuffix_app].
  unfold HasSuffix. intros [_ Heq%String.eqb_eq]%andb_true_iff.
  exists (take (String.length s - String.length suf) s).
  pose proof (take_drop (String.length s - String.length suf) s) as Htd.
  by rewrite Heq in Htd.
Qed.

Lemma Contains_iff s sub : Contains s sub = true ↔ ∃ a b, s = a +:+ sub +:+ b.
Proof.
  induction s as [|c s IH]; cbn [Contains]; rewrite orb_true_iff, HasPrefix_iff.
  - split; [intros [[t Ht]|]; [by exists "", t|done]|].
    intros (a & b & Hab). left. exists b. destruct a; [done|discriminate].
  - rewrite IH. split.
    + intros [[t ->]|(a & b & ->)]; [by exists "", t|by exists (String c a), b].
    + intros ([|d a] & b & Hab); [left; by exists b|right].
      injection Hab as _ ->. by exists a, b.
Qed.

Lemma split_by_nonempty width s : split_by width s ≠ [].
Proof. unfold split_by. by destruct (pieces width 0 s). Qed.

(** Splitting at a separator that does not occur gives the string itself. *)
Lemma Split_absent s sep : Contains s sep = false → Split s sep = [s].
Proof.
  unfold Split, split_by. intros Hc.
  assert (pieces (λ r, if HasPrefix r sep then String.length sep else 0%nat) 0 s = (s, []))
    as ->; [|done].
  induction s as [|c s IH]; [done|]. cbn [Contains] in Hc.
  apply orb_false_iff in Hc as [Hp Hc]. cbn [pieces]. rewrite Hp, IH by done. done.
Qed.
End strings.

(** ** Numbers *)

Module strconv.
(** The value of a string of decimal digits. *)
Fixpoint parse_digits (acc : Z) (s : string) : option Z :=
  match s with
  | "" => Some acc
  | String c s =>
      if strings.in_range 48 57 c
      then parse_digits (acc * 10 + Z.of_nat (strings.byte_of c) - 48) s
      else None
  end.
Lemma parse_digits_nonneg acc s z : 0 ≤ acc → parse_digits acc s = Some z → 0 ≤ z.
Proof.
  revert acc. induction s as [|c s IH]; intros acc Hacc; cbn [parse_digits]; [by intros [= <-]|].
  destruct (strings.in_range 48 57 c) eqn:Hc; [|done]. apply IH.
  unfold strings.in_range in Hc. apply andb_true_iff in Hc as [Hc _]. apply Nat.leb_le in Hc.
  lia.
Qed.

(** [strconv.Atoi] without its error: what does not parse is 0, and what does not fit is
    the nearest number that does. *)
Definition Atoi (s : string) : Z :=
  let clamp z := Z.max (- 2 ^ 63) (Z.min (2 ^ 63 - 1) z) in
  let value s := if decide (s = "") then 0 else default 0 (parse_digits 0 s) in
  match s with
  | String "-"%char s => clamp (- value s)
  | String "+"%char s => clamp (value s)
  | _ => clamp (value s)
  end.
End strconv.

(** ** Digests

    [crypto/sha256.Sum256] is a function on byte strings; nothing else is used of
    it.  [encoding/hex] writes two lower-case digits a byte. *)

Module crypto.
Class Sha256 := sha256 : string → string.

Definition hex_digit (n : nat) : Ascii.ascii :=
  Ascii.ascii_of_nat (if n <? 10 then 48 + n else 87 + n)%nat.
Fixpoint hex_EncodeToString (s : string) : string :=
  match s with
  | EmptyString => EmptyString
  | String c s =>
      String (hex_digit (Ascii.nat_of_ascii c / 16)%nat)
        (String (hex_digit (Ascii.nat_of_ascii c mod 16)%nat) (hex_EncodeToString s))
  end.
End crypto.
