(* ===== verification/World.v ===== *)
(** * The world of a Go program

    Code that waits on other processes reads the clock, asks whether its
    context was cancelled and calls services; what it gets depends on when it
    asks.  [M A] is a computation in such a world: it takes the state of the
    world to a value and the state the interaction leaves.  Nothing is assumed
    of how the world moves, so a theorem over every world covers every timing of
    cancellations and every behaviour of the services. *)

From S2P Require Import Prelude.

Definition M (W A : Type) : Type := W → A * W.

Section monad.
Context {W : Type}.
Definition mret {A} (a : A) : M W A := λ w, (a, w).
Definition mthen {A B} (m : M W A) (k : A → M W B) : M W B :=
  λ w, let '(a, w) := m w in k a w.
Definition mskip : M W unit := mret tt.
End monad.

Notation "'let!' x := m 'in' k" := (mthen m (λ x, k))
  (at level 10, x pattern, m at level 100, k at level 200,
   format "'[v' 'let!'  x  :=  m  'in' '/' k ']'") : go_scope.

(** [time.Now()] and [ctx.Err()] *)
Class World (W : Type) := {
  time_Now : M W Z;
  ctx_Err : M W (option goerror)
}.

(** A world that can be inspected from the outside, for the witnesses: the clock
    ticks and the context is cancelled at a given tick. *)
Record clock_world := mkClockWorld { clock : Z; cancelled_at : option Z }.
Definition ticking : World clock_world := {|
  time_Now := λ w, (clock w, mkClockWorld (clock w + 1) (cancelled_at w));
  ctx_Err := λ w,
    (match cancelled_at w with
     | Some t => if t <=? clock w then Some context_Canceled else None
     | None => None
     end, w)
|}.

Lemma mthen_inv {W A B} (m : M W A) (k : A → M W B) w b w' :
  mthen m k w = (b, w') → ∃ a w1, m w = (a, w1) ∧ k a w1 = (b, w').
Proof. unfold mthen. destruct (m w) as [a w1]. eauto. Qed.

Lemma mthen_run {W A B} (m : M W A) (k : A → M W B) w a w1 :
  m w = (a, w1) → mthen m k w = k a w1.
Proof. unfold mthen. by intros ->. Qed.

Lemma mret_inv {W A} (a b : A) (w w' : W) : mret a w = (b, w') → a = b ∧ w = w'.
Proof. unfold mret. naive_solver. Qed.

(** ** Components with a state of their own

    A component that keeps [S] next to the world: [inside] runs a step on its
    state, [outside] a computation of the world. *)

Section component.
Context {S W : Type}.
Definition inside {A} (f : S → A * S) : M (S * W) A := λ sw,
  let '(a, s) := f sw.1 in (a, (s, sw.2)).
Definition outside {A} (c : M W A) : M (S * W) A := λ sw,
  let '(a, w) := c sw.2 in (a, (sw.1, w)).
Definition modify (f : S → S) : M (S * W) unit := inside (λ s, (tt, f s)).
Definition look {A} (f : S → A) : M (S * W) A := inside (λ s, (f s, s)).
End component.

(** The world beside the state of a component. *)
Definition world_beside {S W} `{World W} : World (S * W) :=
  {| time_Now := outside time_Now; ctx_Err := outside ctx_Err |}.

Lemma outside_inv {S W A} (c : M W A) (sw : S * W) a sw' :
  outside c sw = (a, sw') → c sw.2 = (a, sw'.2) ∧ sw'.1 = sw.1.
Proof. unfold outside. destruct (c sw.2). by intros [= <- <-]. Qed.

(** A call outside the component, and what follows it. *)
Lemma outside_then {S W A B} (c : M W A) (k : A → M (S * W) B) s w out :
  mthen (outside c) k (s, w) = out → ∃ a w1, c w = (a, w1) ∧ k a (s, w1) = out.
Proof.
  destruct out as [b sw']. intros (a & [s1 w1] & [Hc Hs]%outside_inv & Hk)%mthen_inv. cbn [fst snd] in *.
  subst s1. by exists a, w1.
Qed.

Lemma modify_inv {S W} (f : S → S) (sw : S * W) u sw' :
  modify f sw = (u, sw') → sw' = (f sw.1, sw.2).
Proof. by intros [= _ <-]. Qed.

Lemma look_inv {S W A} (f : S → A) (sw : S * W) a sw' :
  look f sw = (a, sw') → a = f sw.1 ∧ sw' = sw.
Proof. destruct sw. by intros [= <- <-]. Qed.

(** ** What a computation keeps of the state of its component *)

Definition keeps {S W A} (P : S → Prop) (c : M (S * W) A) : Prop :=
  ∀ sw a sw', c sw = (a, sw') → P sw.1 → P sw'.1.

Section keeps.
Context {S W : Type} (P : S → Prop).
Lemma keeps_mret {A} (a : A) : keeps P (mret (W := S * W) a).
Proof. by intros sw b sw' [_ <-]%mret_inv. Qed.
Lemma keeps_mskip : keeps P (mskip (W := S * W)).
Proof. apply keeps_mret. Qed.
Lemma keeps_outside {A} (c : M W A) : keeps P (outside (S := S) c).
Proof. by intros sw b sw' [_ ->]%outside_inv. Qed.
Lemma keeps_look {A} (f : S → A) : keeps P (look (W := W) f).
Proof. by intros sw b sw' [_ ->]%look_inv. Qed.
Lemma keeps_modify (f : S → S) : (∀ s, P s → P (f s)) → keeps P (modify (W := W) f).
Proof. intros Hf sw b sw' ->%modify_inv. apply Hf. Qed.
Lemma keeps_mthen {A B} (m : M (S * W) A) (k : A → M (S * W) B) :
  keeps P m → (∀ a, keeps P (k a)) → keeps P (mthen m k).
Proof. intros Hm Hk sw b sw' (a & sw1 & H1 & H2)%mthen_inv HP. eapply Hk, Hm; eauto. Qed.
End keeps.
Create HintDb keeps.
#[export] Hint Resolve keeps_mret keeps_mskip keeps_outside keeps_look keeps_mthen : keeps.

(** Goes through the cases of a computation, leaving its changes of the state. *)
Ltac keep_state :=
  repeat first
    [ progress intros
    | solve [eauto with keeps]
    | match goal with |- keeps _ (let _ := _ in _) => cbv zeta end
    | match goal with |- keeps _ (mthen _ _) => apply keeps_mthen end
    | match goal with |- keeps _ (match ?x with _ => _ end) => destruct x end
    | match goal with |- keeps _ (modify _) => apply keeps_modify end ].
