(* ===== verification/Runtime.v ===== *)
(** * The runtime provider

    [src/internal/runtime]: the interface behind which containers are created
    and commands run, and the readiness report of the host.  A provider is a
    record of computations in the world; the implementation of
    the server is in [LXC.v]. *)

From S2P Require Import Prelude GoStrings World.

Module runtime.

(* src: internal/runtime/provider.go:16-23 (Spec) *)
Record Spec := mkSpec {
  Spec_Name : string;
  WorkspacePath : string;
  Spec_CPU : Z;
  MemoryBytes : Z;
  DiskBytes : Z;
  NetworkMode : string
}.

(* src: internal/runtime/provider.go:31-38 (Status) *)
Inductive Status :=
  | StatusUnknown | StatusStopped | StatusRunning | StatusFailed
  | StatusOther (s : string).
#[global] Instance Status_eq_dec : EqDecision Status.
Proof. solve_decision. Defined.

(* src: internal/runtime/provider.go:25-29 (Runtime) *)
Record Runtime := mkRuntime {
  Runtime_ID : string;
  Runtime_Provider : string;
  Runtime_Status : Status
}.

(* src: internal/runtime/provider.go:40-46 (Command) *)
Record Command := mkCommand {
  Argv : list string;
  WorkingDir : string;
  Environment : list string;
  Interactive : bool;
  TimeoutSeconds : Z
}.

(* src: internal/runtime/provider.go:48-52 (ExecResult) *)
Record ExecResult := mkExecResult {
  ExitCode : Z;
  Stdout : string;
  Stderr : string
}.
Definition zero_ExecResult : ExecResult := mkExecResult 0 "" "".

(** [Create] and the others return an error as [None] or [Some]; a Go function
    that returns a value next to an error may return both, so does [Exec].  The
    first argument of [Exec] is the timeout the caller put on its context. *)
(* src: internal/runtime/provider.go:5-14 (Provider) *)
Record Provider (W : Type) := mkProvider {
  Name : string;
  Create : Spec → M W (Runtime * option goerror);
  Start : string → M W (option goerror);
  Stop : string → M W (option goerror);
  Restart : string → M W (option goerror);
  Destroy : string → M W (option goerror);
  GetStatus : string → M W (Status * option goerror);
  Exec : option Z → string → Command → M W (ExecResult * option goerror)
}.
Arguments Name {W}.
Arguments Create {W}.
Arguments Start {W}.
Arguments Stop {W}.
Arguments Restart {W}.
Arguments Destroy {W}.
Arguments GetStatus {W}.
Arguments Exec {W}.

(** A provider whose commands all answer [r], for the witnesses. *)
Definition answering {W} (r : ExecResult) : Provider W := {|
  Name := "answering";
  Create _ := mret (mkRuntime "rt" "answering" StatusRunning, None);
  Start _ := mret None; Stop _ := mret None; Restart _ := mret None;
  Destroy _ := mret None; GetStatus _ := mret (StatusRunning, None);
  Exec _ _ _ := mret (r, None)
|}.

(** ** Host readiness *)

(* src: internal/runtime/readiness.go:9-13 (Readiness) *)
Record Readiness := mkReadiness {
  Application : string;
  Runtime_ready : string;
  Reason : string
}.

(** [virt] is the output of [systemd-detect-virt] when it succeeds, [usernet]
    whether [/etc/lxc/lxc-usernet] can be examined. *)
(* src: internal/runtime/readiness.go:15-31 (HostReadiness) *)
Definition HostReadiness (virt : option string) (usernet : bool) : Readiness :=
  let result := mkReadiness "READY" "READY" "" in
  let result :=
    match virt with
    | None => result
    | Some data =>
        let virtualization := strings.TrimSpace data in
        if bool_decide (virtualization ∈ ["docker"; "podman"; "lxc"; "container"])
        then mkReadiness "READY" "BLOCKED"
               ("runtime host is a nested or restricted container: " +:+ virtualization)
        else result
    end in
  if usernet then result
  else mkReadiness (Application result) "BLOCKED"
         (if decide (Reason result = "") then "LXC user network policy is unavailable"
          else Reason result).

Lemma HostReadiness_ready virt usernet :
  Runtime_ready (HostReadiness virt usernet) = "READY" ↔
  usernet = true ∧ ∀ data, virt = Some data →
    strings.TrimSpace data ∉ ["docker"; "podman"; "lxc"; "container"].
Proof.
  unfold HostReadiness. destruct usernet, virt as [data|]; try case_bool_decide;
    simpl; naive_solver.
Qed.
End runtime.
