(* ===== verification/Float.v ===== *)
(** * Double-precision numbers

    [float64] of Go is IEEE 754 binary64 with rounding to nearest, which the
    Standard Library specifies on [spec_float] for a precision of 53 bits and a
    maximal exponent of 1024.  The functions compute, and nothing is assumed of
    the processor. *)

From S2P Require Import Prelude.
From Stdlib Require Export SpecFloat.

Module float64.

Definition t := spec_float.
Definition zero : t := S754_zero false.
Definition of_Z (n : Z) : t := binary_normalize 53 1024 n 0 false.
Definition add : t → t → t := SFadd 53 1024.
Definition sub : t → t → t := SFsub 53 1024.
Definition mul : t → t → t := SFmul 53 1024.
Definition div : t → t → t := SFdiv 53 1024.
Definition neg : t → t := SFopp.
Definition ltb : t → t → bool := SFltb.
Definition leb : t → t → bool := SFleb.
Definition eqb : t → t → bool := SFeqb.
Definition gtb (a b : t) : bool := SFltb b a.
Definition geb (a b : t) : bool := SFleb b a.

(** The constant [n / d] of the source, e.g. [0.35] as [lit 35 100]: both parts
    are exact and the division rounds correctly, as a literal does. *)
Definition lit (n d : Z) : t := div (of_Z n) (of_Z d).

(** [int(x)]: truncation towards zero, for a finite [x] in the range of [int]. *)
Definition trunc (x : t) : Z :=
  match x with
  | S754_finite s m e =>
      let n := if 0 <=? e then Z.pos m * 2 ^ e else Z.pos m `div` 2 ^ (- e) in
      if s then - n else n
  | _ => 0
  end.

(** [time.Duration.Seconds] *)
Definition Seconds (d : Z) : t :=
  add (of_Z (d `quot` 10 ^ 9)) (div (of_Z (d `rem` 10 ^ 9)) (of_Z (10 ^ 9))).

Definition is_nan (x : t) : bool := match x with S754_nan => true | _ => false end.

(** ** The order

    The comparison of two numbers is that of their keys: the kind, then the
    exponent, then the mantissa. *)

Definition key (x : t) : Z * Z * Z :=
  match x with
  | S754_nan => (-3, 0, 0)
  | S754_infinity true => (-2, 0, 0)
  | S754_finite true m e => (-1, - e, - Z.pos m)
  | S754_zero _ => (0, 0, 0)
  | S754_finite false m e => (1, e, Z.pos m)
  | S754_infinity false => (2, 0, 0)
  end.
Definition key_compare (a b : Z * Z * Z) : comparison :=
  let '(a1, a2, a3) := a in
  let '(b1, b2, b3) := b in
  match a1 ?= b1 with
  | Eq => match a2 ?= b2 with Eq => a3 ?= b3 | c => c end
  | c => c
  end.

Lemma compare_key x y :
  is_nan x = false → is_nan y = false → SFcompare x y = Some (key_compare (key x) (key y)).
Proof.
  destruct x as [s|s| |s m e], y as [s'|s'| |s' m' e']; try done;
    try destruct s; try destruct s'; try done; intros _ _; unfold key, key_compare.
  cbn [SFcompare]. rewrite Z.compare_refl, !Z.compare_opp, (Z.compare_antisym e e').
  rewrite (Z.compare_antisym (Z.pos m) (Z.pos m')). by destruct (e ?= e').
Qed.

Inductive key_order (a b : Z * Z * Z) : comparison → Prop :=
  | key_eq : a = b → key_order a b Eq
  | key_lt : (a.1.1 < b.1.1 ∨ (a.1.1 = b.1.1 ∧
      (a.1.2 < b.1.2 ∨ (a.1.2 = b.1.2 ∧ a.2 < b.2)))) → key_order a b Lt
  | key_gt : (b.1.1 < a.1.1 ∨ (b.1.1 = a.1.1 ∧
      (b.1.2 < a.1.2 ∨ (b.1.2 = a.1.2 ∧ b.2 < a.2)))) → key_order a b Gt.

Lemma key_compare_spec a b : key_order a b (key_compare a b).
Proof.
  destruct a as [[a1 a2] a3], b as [[b1 b2] b3]. simpl.
  destruct (Z.compare_spec a1 b1); [|constructor; simpl; lia..].
  destruct (Z.compare_spec a2 b2); [|constructor; simpl; lia..].
  destruct (Z.compare_spec a3 b3); constructor; simpl; [congruence|lia..].
Qed.

(** The order of the keys, which is total and agrees with [ltb] off NaN. *)
Definition key_ltb (x y : t) : bool :=
  match key_compare (key x) (key y) with Lt => true | _ => false end.

Lemma ltb_key x y : is_nan x = false → is_nan y = false → ltb x y = key_ltb x y.
Proof. intros Hx Hy. unfold ltb, SFltb. by rewrite compare_key. Qed.

Lemma eqb_key x y :
  is_nan x = false → is_nan y = false →
  eqb x y = negb (key_ltb x y) && negb (key_ltb y x).
Proof.
  intros Hx Hy. unfold eqb, SFeqb, key_ltb. rewrite compare_key by done.
  destruct (key_compare_spec (key x) (key y)), (key_compare_spec (key y) (key x));
    try done; exfalso; try congruence; try lia;
    match goal with H : key _ = key _ |- _ => rewrite H in *; lia end.
Qed.

Lemma key_ltb_asym x y : key_ltb x y = true → key_ltb y x = false.
Proof.
  unfold key_ltb. destruct (key_compare_spec (key x) (key y)), (key_compare_spec (key y) (key x));
    try done; intros _; exfalso; lia.
Qed.
Lemma key_ltb_negtrans x y z :
  key_ltb x y = false → key_ltb y z = false → key_ltb x z = false.
Proof.
  unfold key_ltb. destruct (key_compare_spec (key x) (key y)) as [E|?|?],
    (key_compare_spec (key y) (key z)) as [E'|?|?], (key_compare_spec (key x) (key z));
    try done; intros _ _; exfalso; try rewrite E in *; try rewrite <-E' in *; lia.
Qed.
End float64.
