(* ===== verification/Dfs.v ===== *)
(** * Depth-first search with three colours

    Three packages of the program check a dependency graph with the same
    recursive closure: [orchestration.ValidateGraph],
    [verification.ValidateChecks] and [provisioning.ValidateGraph].  A node is
    white (absent), grey while its dependencies are being visited and black
    afterwards; meeting a grey node is a cycle.  This file holds the search once,
    parametrised by what the three differ in, with its correctness: it never
    runs out of fuel, and it succeeds exactly on the graphs whose edges all
    have a target and that have no cycle. *)

From S2P Require Import Prelude.

Inductive color := Grey | Black.
#[global] Instance color_eq_dec : EqDecision color.
Proof. solve_decision. Defined.

Inductive visit_outcome :=
  | Visited (state : gmap string color)
  | Failed (e : goerror)
  | OutOfFuel.

(** The error the outermost call returns; running out of fuel is kept apart by
    an error of its own, which [search_fuel] shows never occurs. *)
Definition out_of_fuel : goerror := ErrorString "out of fuel".
Definition visit_error (r : visit_outcome) : option goerror :=
  match r with
  | Visited _ => None
  | Failed e => Some e
  | OutOfFuel => Some out_of_fuel
  end.

Section search.
(** The edges, the check made on an edge before it is followed, and the
    error a cycle through a node gives. *)
Variable deps : string → list string.
Variable missing : string → string → option goerror.
Variable cycle : string → goerror.

(** The loop over the dependencies of [id]; [visit] is the recursive call. *)
Fixpoint visit_deps (visit : string → gmap string color → visit_outcome)
    (id : string) (ds : list string) (state : gmap string color) : visit_outcome :=
  match ds with
  | [] => Visited state
  | dep :: ds =>
      match missing id dep with
      | Some e => Failed e
      | None =>
          match visit dep state with
          | Visited state => visit_deps visit id ds state
          | r => r
          end
      end
  end.

Fixpoint visit (fuel : nat) (id : string) (state : gmap string color)
    : visit_outcome :=
  match fuel with
  | O => OutOfFuel
  | S fuel =>
      match state !! id with
      | Some Grey => Failed (cycle id)
      | Some Black => Visited state
      | None =>
          match visit_deps (visit fuel) id (deps id) (<[id:=Grey]> state) with
          | Visited state => Visited (<[id:=Black]> state)
          | r => r
          end
      end
  end.

(** The loop over the roots. *)
Fixpoint visit_all (fuel : nat) (roots : list string)
    (state : gmap string color) : visit_outcome :=
  match roots with
  | [] => Visited state
  | id :: roots =>
      match visit fuel id state with
      | Visited state => visit_all fuel roots state
      | r => r
      end
  end.

(** ** Specification *)

Definition edge (x y : string) : Prop := y ∈ deps x.

(** Every path from the node ends, and every edge on it has a target. *)
Inductive grounded (x : string) : Prop :=
  grounded_intro :
    (∀ y, y ∈ deps x → missing x y = None) →
    (∀ y, y ∈ deps x → grounded y) →
    grounded x.

Lemma grounded_no_cycle x : grounded x → ¬ tc edge x x.
Proof.
  induction 1 as [x _ _ IH]. intros Hc.
  inversion Hc as [? ? Hxy|? y ? Hxy Hyx]; subst.
  - exact (IH x Hxy Hc).
  - apply (IH y Hxy). eapply tc_r; [exact Hyx|]. exact Hxy.
Qed.

Variable nodes : gset string.
Hypothesis nodes_closed : ∀ x y,
  x ∈ nodes → y ∈ deps x → missing x y = None → y ∈ nodes.

(** What a reported error witnesses. *)
Definition bad (e : goerror) : Prop :=
  (∃ x, x ∈ nodes ∧ tc edge x x ∧ e = cycle x) ∨
  (∃ x y, x ∈ nodes ∧ y ∈ deps x ∧ missing x y = Some e).

Definition blacks_grounded (state : gmap string color) : Prop :=
  ∀ b, state !! b = Some Black → grounded b.

(** What the call leaves behind: no colour is lost, no node stays grey. *)
Definition extends (state state' : gmap string color) : Prop :=
  state ⊆ state' ∧ (∀ g, state' !! g = Some Grey → state !! g = Some Grey).

#[local] Instance extends_preorder : PreOrder extends.
Proof.
  split.
  - intros st. split; auto.
  - intros s1 s2 s3 [H1 H2] [H3 H4]. split; [by etrans|auto].
Qed.

Definition visit_post (id : string) (state : gmap string color)
    (r : visit_outcome) : Prop :=
  match r with
  | Visited state' =>
      blacks_grounded state' ∧ extends state state' ∧ state' !! id = Some Black
  | Failed e => bad e
  | OutOfFuel => False
  end.

Definition visit_pre (fuel : nat) (id : string) (state : gmap string color)
    : Prop :=
  (size (nodes ∖ dom state) < fuel)%nat ∧ id ∈ nodes ∧ blacks_grounded state ∧
  (∀ g, state !! g = Some Grey → tc edge g id).

Lemma white_decreases id (state : gmap string color) :
  id ∈ nodes → state !! id = None →
  (size (nodes ∖ dom (<[id:=Grey]> state)) < size (nodes ∖ dom state))%nat.
Proof.
  intros Hid Hn. apply subset_size. rewrite dom_insert_L.
  apply not_elem_of_dom in Hn. set_solver.
Qed.

Lemma extends_size (state state' : gmap string color) :
  extends state state' →
  (size (nodes ∖ dom state') ≤ size (nodes ∖ dom state))%nat.
Proof.
  intros [Hs _]. apply subseteq_size. apply subseteq_dom in Hs. set_solver.
Qed.

(** The loop, given that the recursive call meets its specification. *)
Lemma visit_deps_spec fuel id ds :
  id ∈ nodes → ds ⊆ deps id →
  (∀ d state, visit_pre fuel d state → visit_post d state (visit fuel d state)) →
  ∀ state,
    (size (nodes ∖ dom state) < fuel)%nat → blacks_grounded state →
    state !! id = Some Grey →
    (∀ g, state !! g = Some Grey → g = id ∨ tc edge g id) →
    match visit_deps (visit fuel) id ds state with
    | Visited state' =>
        blacks_grounded state' ∧ extends state state' ∧
        ∀ y, y ∈ ds → missing id y = None ∧ state' !! y = Some Black
    | Failed e => bad e
    | OutOfFuel => False
    end.
Proof.
  intros Hid Hsub Hvisit. induction ds as [|d ds IH]; intros st Hf Hb Hg Hgr; simpl.
  { split_and!; [done|reflexivity|set_solver]. }
  assert (d ∈ deps id) as Hd by set_solver.
  destruct (missing id d) as [e|] eqn:Hm.
  { right. by exists id, d. }
  assert (visit_pre fuel d st) as Hpre.
  { split_and!; [done|eauto|done|].
    intros g [->|Ht]%Hgr; [by apply tc_once|]. by eapply tc_r. }
  specialize (Hvisit d st Hpre).
  destruct (visit fuel d st) as [st1|e|]; simpl in Hvisit; [|done..].
  destruct Hvisit as (Hb1 & Hext & Hd1).
  pose proof (extends_size _ _ Hext) as Hsz.
  assert (st1 !! id = Some Grey) as Hid1.
  { destruct Hext as [Hs _]. by eapply lookup_weaken. }
  specialize (IH ltac:(set_solver) st1 ltac:(lia) Hb1 Hid1).
  destruct (visit_deps _ id ds st1) as [st2|e|]; [|apply IH..].
  - destruct IH as (Hb2 & Hext2 & Hall).
    { intros g Hg1. apply Hgr. by apply Hext. }
    split_and!; [done|by etrans|].
    intros y [->|Hy]%elem_of_cons; [|by apply Hall].
    split; [done|]. destruct Hext2 as [Hs _]. by eapply lookup_weaken.
  - intros g Hg1. apply Hgr. by apply Hext.
  - intros g Hg1. apply Hgr. by apply Hext.
Qed.

Lemma visit_spec fuel id state :
  visit_pre fuel id state → visit_post id state (visit fuel id state).
Proof.
  revert id state. induction fuel as [|fuel IH];
    intros id st (Hf & Hid & Hb & Hgr); simpl; [lia|].
  destruct (st !! id) as [[]|] eqn:Hst; simpl.
  { left. exists id. auto. }
  { split_and!; [done|reflexivity|done]. }
  pose proof (white_decreases id st Hid Hst) as Hw.
  assert (blacks_grounded (<[id:=Grey]> st)) as Hb1.
  { intros b. rewrite lookup_insert. case_decide; [done|apply Hb]. }
  assert (∀ g, <[id:=Grey]> st !! g = Some Grey → g = id ∨ tc edge g id) as Hg1.
  { intros g. rewrite lookup_insert. case_decide; [by left|right; by apply Hgr]. }
  pose proof (visit_deps_spec fuel id (deps id) Hid ltac:(reflexivity) IH
    (<[id:=Grey]> st) ltac:(lia) Hb1 (lookup_insert_eq _ _ _) Hg1) as Hloop.
  destruct (visit_deps _ id _ _) as [st'|e|]; simpl; [|exact Hloop..].
  destruct Hloop as (Hb' & [Hs Hg'] & Hall).
  split_and!; [| |by rewrite lookup_insert_eq].
  - intros b. rewrite lookup_insert. case_decide as Hd; [|apply Hb'].
    subst b. intros _. constructor; intros y Hy; [by apply Hall|].
    apply Hb'. by apply Hall.
  - split.
    + etrans; [|apply insert_subseteq_r; [done|etrans; [|exact Hs]]];
        [reflexivity|]. by apply insert_subseteq.
    + intros g. rewrite lookup_insert. case_decide as Hd; [done|].
      intros Hgg%Hg'. by rewrite lookup_insert_ne in Hgg.
Qed.

Lemma visit_all_spec fuel roots state :
  (size nodes < fuel)%nat → list_to_set roots ⊆ nodes → blacks_grounded state →
  (∀ g, state !! g ≠ Some Grey) →
  match visit_all fuel roots state with
  | Visited state' =>
      blacks_grounded state' ∧ (∀ g, state' !! g ≠ Some Grey) ∧
      state ⊆ state' ∧ ∀ x, x ∈ roots → state' !! x = Some Black
  | Failed e => bad e
  | OutOfFuel => False
  end.
Proof.
  intros Hf. revert state. induction roots as [|id roots IH];
    intros st Hr Hb Hg; simpl.
  { split_and!; [done|done|done|set_solver]. }
  simpl in Hr.
  assert (visit_pre fuel id st) as Hpre.
  { split_and!; [|set_solver|done|by intros g ?%Hg].
    eapply Nat.le_lt_trans; [apply subseteq_size|exact Hf]. set_solver. }
  apply visit_spec in Hpre.
  destruct (visit fuel id st) as [st'|e|]; simpl in Hpre; [|done..].
  destruct Hpre as (Hb' & [Hs Hg'] & Hid).
  specialize (IH st' ltac:(set_solver) Hb' (λ g Hx, Hg g (Hg' g Hx))).
  destruct (visit_all fuel roots st') as [st2|e|]; [|exact IH..].
  destruct IH as (Hb2 & Hg2 & Hs2 & Hall). split_and!; [done|done|by etrans|].
  intros x [->|Hx]%elem_of_cons; [by eapply lookup_weaken|auto].
Qed.

(** ** The search decides groundedness, whatever the order of the roots *)

Definition search (roots : list string) : visit_outcome :=
  visit_all (S (size nodes)) roots ∅.

Definition acyclic : Prop := ∀ x, x ∈ nodes → ¬ tc edge x x.
Definition edges_present : Prop :=
  ∀ x y, x ∈ nodes → y ∈ deps x → missing x y = None.

Lemma search_cases roots :
  list_to_set roots ⊆ nodes →
  match search roots with
  | Visited _ => ∀ x, x ∈ roots → grounded x
  | Failed e => bad e
  | OutOfFuel => False
  end.
Proof.
  intros Hr. unfold search.
  assert (blacks_grounded ∅) as Hb by (intros b; by rewrite lookup_empty).
  assert (∀ g, (∅ : gmap string color) !! g ≠ Some Grey) as Hg
    by (intros g; by rewrite lookup_empty).
  pose proof (visit_all_spec (S (size nodes)) roots ∅ ltac:(lia) Hr Hb Hg) as H.
  clear Hb Hg. destruct (visit_all _ _ _) as [st|e|]; [|exact H..].
  destruct H as (Hb & _ & _ & Hall). intros x Hx. apply Hb. by apply Hall.
Qed.

Lemma search_ok_iff roots :
  list_to_set roots = nodes →
  (∃ st, search roots = Visited st) ↔ edges_present ∧ acyclic.
Proof.
  intros Hr. pose proof (search_cases roots ltac:(set_solver)) as H. split.
  - intros [st Hst]. rewrite Hst in H. split.
    + intros x y Hx Hy. destruct (H x ltac:(set_solver)) as [Hm _]. by apply Hm.
    + intros x Hx. apply grounded_no_cycle, H. set_solver.
  - intros [Hp Ha]. destruct (search roots) as [st|e|]; [by eexists| |done].
    destruct H as [(x & Hx & Hc & _)|(x & y & Hx & Hy & Hm)].
    + by destruct (Ha x Hx).
    + by rewrite (Hp x y Hx Hy) in Hm.
Qed.

Lemma search_none_iff roots :
  list_to_set roots = nodes →
  visit_error (search roots) = None ↔ edges_present ∧ acyclic.
Proof.
  intros Hr. rewrite <-(search_ok_iff roots Hr).
  destruct (search roots); simpl; naive_solver.
Qed.

Lemma search_error roots e :
  list_to_set roots ⊆ nodes → search roots = Failed e → bad e.
Proof.
  intros Hr He. pose proof (search_cases roots Hr) as H. by rewrite He in H.
Qed.

Lemma search_fuel roots :
  list_to_set roots ⊆ nodes → search roots ≠ OutOfFuel.
Proof.
  intros Hr He. pose proof (search_cases roots Hr) as H. by rewrite He in H.
Qed.
End search.
