(* ===== verification/OrchTypes.v ===== *)
(** * Orchestration: the data model

    [src/internal/orchestration/types.go].  The identifiers of tasks, workflows
    and runs are strings.  A status is an enumeration of the constants of the
    source; as its underlying type is [string], a value decoded from a request
    or a database may be any other text, which the last constructor holds (the
    zero value is the empty text). *)

From S2P Require Import Prelude.

Module orchestration.

(* src: internal/orchestration/types.go:8-8 (ID) *)
Definition ID := string.

(* src: internal/orchestration/types.go:9-21 (TaskStatus) *)
Inductive TaskStatus :=
  | TaskPending | TaskReady | TaskRunning | TaskWaiting | TaskBlocked
  | TaskSucceeded | TaskFailed | TaskCancelled | TaskTimedOut
  | TaskStatusOther (s : string).

(* src: internal/orchestration/types.go:23-36 (WorkflowStatus) *)
Inductive WorkflowStatus :=
  | WorkflowCreated | WorkflowPlanning | WorkflowPlanned | WorkflowRunning
  | WorkflowWaiting | WorkflowPaused | WorkflowCompleting | WorkflowSucceeded
  | WorkflowFailed | WorkflowCancelled
  | WorkflowStatusOther (s : string).

(* src: internal/orchestration/types.go:38-44 (ExecutionStrategy) *)
Inductive ExecutionStrategy :=
  | Sequential | Parallel | DependencyDriven
  | ExecutionStrategyOther (s : string).

(* src: internal/orchestration/types.go:46-52 (FailurePolicy) *)
Inductive FailurePolicy :=
  | FailFast | ContinueIndependent | AllowDependent
  | FailurePolicyOther (s : string).

#[global] Instance TaskStatus_eq_dec : EqDecision TaskStatus.
Proof. solve_decision. Defined.
#[global] Instance WorkflowStatus_eq_dec : EqDecision WorkflowStatus.
Proof. solve_decision. Defined.

(* src: internal/orchestration/types.go:54-57 (RetryPolicy) *)
Record RetryPolicy := mkRetryPolicy {
  Retry_MaxAttempts : Z;
  Retry_RetryableErrors : list string
}.

(* src: internal/orchestration/types.go:58-77 (Task) *)
Record Task := mkTask {
  Task_ID : string;
  Task_WorkflowID : string;
  Task_ProjectID : string;
  Task_ParentTaskID : string;
  Task_Title : string;
  Task_Description : string;
  Task_TaskType : string;
  Task_Priority : Z;
  Task_Status : TaskStatus;
  Task_Dependencies : list string;
  Task_AssignedAgent : string;
  Task_RoutingRequest : gmap string any;
  Task_Constraints : gmap string string;
  Task_Retry : RetryPolicy;
  Task_Deadline : option Z;
  Task_CreatedAt : Z;
  Task_StartedAt : option Z;
  Task_CompletedAt : option Z
}.

(* src: internal/orchestration/types.go:78-81 (TaskGraph) *)
Record TaskGraph := mkTaskGraph {
  Tasks : gmap string Task;
  Dependencies : gmap string (list string)
}.

(* src: internal/orchestration/types.go:82-93 (Workflow) *)
Record Workflow := mkWorkflow {
  Workflow_ID : string;
  Workflow_ProjectID : string;
  Workflow_Goal : string;
  Workflow_Status : WorkflowStatus;
  Workflow_Strategy : ExecutionStrategy;
  Workflow_FailurePolicy : FailurePolicy;
  Workflow_MaxParallel : Z;
  Workflow_CreatedAt : Z;
  Workflow_UpdatedAt : Z;
  Workflow_Graph : TaskGraph
}.

(* src: internal/orchestration/types.go:94-104 (TaskRun) *)
Record TaskRun := mkTaskRun {
  TaskRun_ID : string;
  TaskRun_TaskID : string;
  TaskRun_Attempt : Z;
  TaskRun_Status : TaskStatus;
  TaskRun_AgentID : string;
  TaskRun_ModelID : string;
  TaskRun_StartedAt : Z;
  TaskRun_CompletedAt : option Z;
  TaskRun_Error : string
}.

(* src: internal/orchestration/types.go:105-114 (TaskArtifact) *)
Record TaskArtifact := mkTaskArtifact {
  Artifact_ID : string;
  Artifact_ProjectID : string;
  Artifact_TaskID : string;
  Artifact_TaskRunID : string;
  Artifact_Kind : string;
  Artifact_Path : string;
  Artifact_Commit : string;
  Artifact_Metadata : gmap string any
}.

(* src: internal/orchestration/types.go:115-125 (TaskResult) *)
Record TaskResult := mkTaskResult {
  TaskResult_Status : TaskStatus;
  TaskResult_Summary : string;
  TaskResult_Artifacts : list TaskArtifact;
  TaskResult_Commit : string;
  TaskResult_ChangedFiles : list string;
  TaskResult_Tests : list string;
  TaskResult_Warnings : list string;
  TaskResult_Errors : list string;
  TaskResult_Metadata : gmap string any
}.

(* src: internal/orchestration/types.go:126-134 (Approval) *)
Record Approval := mkApproval {
  Approval_ID : string;
  Approval_WorkflowID : string;
  Approval_TaskID : string;
  Approval_Permission : string;
  Approval_Status : string;
  Approval_RequestedAt : Z;
  Approval_ResolvedAt : option Z
}.

(* src: internal/orchestration/types.go:135-142 (TaskEvent) *)
Record TaskEvent := mkTaskEvent {
  TaskEvent_ID : string;
  TaskEvent_WorkflowID : string;
  TaskEvent_TaskID : string;
  TaskEvent_Type : string;
  TaskEvent_Data : gmap string any;
  TaskEvent_CreatedAt : Z
}.

(* src: internal/orchestration/types.go:143-147 (UserIntent) *)
Record UserIntent := mkUserIntent {
  Intent_ProjectID : string;
  Intent_Goal : string;
  Intent_Context : gmap string any
}.

(* src: internal/orchestration/types.go:148-154 (PlannerInput) *)
Record PlannerInput := mkPlannerInput {
  Planner_Intent : UserIntent;
  Planner_ProjectContext : gmap string any;
  Planner_EnvironmentContext : gmap string any;
  Planner_AvailableAgents : list string;
  Planner_RoutingPolicy : string
}.

(* src: internal/orchestration/types.go:155-161 (TaskPlan) *)
Record TaskPlan := mkTaskPlan {
  Plan_Goal : string;
  Plan_Tasks : list Task;
  Plan_Dependencies : gmap string (list string);
  Plan_Strategy : ExecutionStrategy;
  Plan_EstimatedComplexity : string
}.

(* src: internal/orchestration/types.go:166-171 (ErrCycle) *)
Definition ErrCycle : goerror := ErrorString "task graph contains a cycle".
Definition ErrMissingDependency : goerror :=
  ErrorString "task graph references a missing dependency".
Definition ErrDuplicateDependency : goerror :=
  ErrorString "task graph contains duplicate dependency".
Definition ErrInvalidParent : goerror :=
  ErrorString "task has invalid parent relationship".

(** The zero values, which reading an absent key of a map gives. *)
Definition zero_RetryPolicy : RetryPolicy := mkRetryPolicy 0 [].
Definition zero_Task : Task :=
  mkTask "" "" "" "" "" "" "" 0 (TaskStatusOther "") [] "" ∅ ∅ zero_RetryPolicy
    None time_zero None None.
Definition zero_TaskResult : TaskResult :=
  mkTaskResult (TaskStatusOther "") "" [] "" [] [] [] [] ∅.

#[global] Instance eta_Task : Eta Task := λ t,
  mkTask (Task_ID t) (Task_WorkflowID t) (Task_ProjectID t) (Task_ParentTaskID t)
    (Task_Title t) (Task_Description t) (Task_TaskType t) (Task_Priority t)
    (Task_Status t) (Task_Dependencies t) (Task_AssignedAgent t)
    (Task_RoutingRequest t) (Task_Constraints t) (Task_Retry t) (Task_Deadline t)
    (Task_CreatedAt t) (Task_StartedAt t) (Task_CompletedAt t).
#[global] Instance eta_TaskGraph : Eta TaskGraph := λ g,
  mkTaskGraph (Tasks g) (Dependencies g).
#[global] Instance eta_Workflow : Eta Workflow := λ w,
  mkWorkflow (Workflow_ID w) (Workflow_ProjectID w) (Workflow_Goal w)
    (Workflow_Status w) (Workflow_Strategy w) (Workflow_FailurePolicy w)
    (Workflow_MaxParallel w) (Workflow_CreatedAt w) (Workflow_UpdatedAt w)
    (Workflow_Graph w).
#[global] Instance eta_TaskRun : Eta TaskRun := λ r,
  mkTaskRun (TaskRun_ID r) (TaskRun_TaskID r) (TaskRun_Attempt r)
    (TaskRun_Status r) (TaskRun_AgentID r) (TaskRun_ModelID r)
    (TaskRun_StartedAt r) (TaskRun_CompletedAt r) (TaskRun_Error r).
#[global] Instance eta_TaskResult : Eta TaskResult := λ r,
  mkTaskResult (TaskResult_Status r) (TaskResult_Summary r) (TaskResult_Artifacts r)
    (TaskResult_Commit r) (TaskResult_ChangedFiles r) (TaskResult_Tests r)
    (TaskResult_Warnings r) (TaskResult_Errors r) (TaskResult_Metadata r).
#[global] Instance eta_Approval : Eta Approval := λ a,
  mkApproval (Approval_ID a) (Approval_WorkflowID a) (Approval_TaskID a)
    (Approval_Permission a) (Approval_Status a) (Approval_RequestedAt a)
    (Approval_ResolvedAt a).

#[global] Instance eta_TaskEvent : Eta TaskEvent := λ e,
  mkTaskEvent (TaskEvent_ID e) (TaskEvent_WorkflowID e) (TaskEvent_TaskID e) (TaskEvent_Type e)
    (TaskEvent_Data e) (TaskEvent_CreatedAt e).
#[global] Instance eta_Intent : Eta UserIntent := λ i,
  mkUserIntent (Intent_ProjectID i) (Intent_Goal i) (Intent_Context i).
#[global] Instance eta_PlannerInput : Eta PlannerInput := λ i,
  mkPlannerInput (Planner_Intent i) (Planner_ProjectContext i) (Planner_EnvironmentContext i)
    (Planner_AvailableAgents i) (Planner_RoutingPolicy i).

(** [graph.Tasks[id]] and [graph.Dependencies[id]] *)
Definition task_at (g : TaskGraph) (id : string) : Task :=
  default zero_Task (Tasks g !! id).
Definition deps_at (g : TaskGraph) (id : string) : list string :=
  default [] (Dependencies g !! id).

End orchestration.
