(* ===== verification/OrchGraph.v ===== *)
(** * Orchestration: task graphs

    [src/internal/orchestration/graph.go]: validation, readiness and failure
    propagation, with [SortedTaskIDs] of [service.go]. *)

From S2P Require Import Prelude Dfs OrchTypes.
Import orchestration.

Module graph.
Section graph.
Context `{MapOrder}.

(** ** Validation *)

(** The loop over the dependencies of a task. *)
(* src: internal/orchestration/graph.go:10-19 (ValidateGraph) *)
Fixpoint check_deps (tasks : gmap string Task) (seen : gset string)
    (deps : list string) : option goerror :=
  match deps with
  | [] => None
  | dep :: deps =>
      if decide (dep ∈ seen) then Some ErrDuplicateDependency
      else match tasks !! dep with
           | None => Some ErrMissingDependency
           | Some _ => check_deps tasks ({[dep]} ∪ seen) deps
           end
  end.

(* src: internal/orchestration/graph.go:20-25 (ValidateGraph) *)
Definition check_parent (tasks : gmap string Task) (task : Task) : option goerror :=
  if decide (Task_ParentTaskID task = "") then None
  else match tasks !! Task_ParentTaskID task with
       | None => Some ErrInvalidParent
       | Some parent =>
           if decide (Task_WorkflowID parent = Task_WorkflowID task) then None
           else Some ErrInvalidParent
       end.

(* src: internal/orchestration/graph.go:6-26 (ValidateGraph) *)
Definition check_task (g : TaskGraph) (id : string) (task : Task) : option goerror :=
  if decide (Task_ID task = id) then
    match check_deps (Tasks g) ∅ (deps_at g id) with
    | Some e => Some e
    | None => check_parent (Tasks g) task
    end
  else Some ErrInvalidParent.

Fixpoint check_tasks (g : TaskGraph) (l : list (string * Task)) : option goerror :=
  match l with
  | [] => None
  | (id, task) :: l =>
      match check_task g id task with
      | Some e => Some e
      | None => check_tasks g l
      end
  end.

(** [visit] of the source: the dependencies of a task are followed in sorted
    order, and a missing one was reported by the first loop. *)
(* src: internal/orchestration/graph.go:27-46 (ValidateGraph) *)
Definition sorted_deps (g : TaskGraph) (id : string) : list string :=
  sort_strings (deps_at g id).
Definition graph_search (g : TaskGraph) (roots : list string) : visit_outcome :=
  search (sorted_deps g) (λ _ _, None) (λ _, ErrCycle) (dom (Tasks g)) roots.

(* src: internal/orchestration/service.go:120-127 (SortedTaskIDs) *)
Definition SortedTaskIDs (n : nat) (g : TaskGraph) : list string :=
  sort_strings (map_range n (Tasks g)).*1.

(* src: internal/orchestration/graph.go:5-58 (ValidateGraph) *)
Definition ValidateGraph (g : TaskGraph) : option goerror :=
  match check_tasks g (map_range 0 (Tasks g)) with
  | Some e => Some e
  | None => visit_error (graph_search g (SortedTaskIDs 1 g))
  end.

(** ** Readiness *)

Definition is_open (s : TaskStatus) : bool :=
  bool_decide (s = TaskPending) || bool_decide (s = TaskReady).

(* src: internal/orchestration/graph.go:67-81 (ReadyTasks) *)
Definition is_ready (g : TaskGraph) (id : string) : bool :=
  is_open (Task_Status (task_at g id)) &&
  forallb (λ dep, bool_decide (Task_Status (task_at g dep) = TaskSucceeded))
    (deps_at g id).

(* src: internal/orchestration/graph.go:59-83 (ReadyTasks) *)
Definition ReadyTasks (g : TaskGraph) : list string :=
  filter (λ id, is_ready g id = true) (SortedTaskIDs 0 g).

(** ** Failure propagation *)

Definition is_failure (s : TaskStatus) : bool :=
  bool_decide (s = TaskFailed) || bool_decide (s = TaskTimedOut) ||
  bool_decide (s = TaskCancelled).

(** The body of the loop over the tasks; [changed] is the flag it sets. *)
(* src: internal/orchestration/graph.go:88-100 (PropagateFailures) *)
Definition propagate_task (g : TaskGraph) (acc : gmap string Task * bool)
    (id : string) : gmap string Task * bool :=
  let '(tasks, changed) := acc in
  let task := default zero_Task (tasks !! id) in
  if negb (is_open (Task_Status task)) then (tasks, changed)
  else if existsb (λ dep, is_failure (Task_Status (default zero_Task (tasks !! dep))))
            (deps_at g id)
  then (<[id := task <| Task_Status := TaskBlocked |>]> tasks, true)
  else (tasks, changed).

#[local] Arguments propagate_task : simpl never.

Definition propagate_pass (n : nat) (g : TaskGraph) : TaskGraph * bool :=
  let '(tasks, changed) :=
    foldl (propagate_task g) (Tasks g, false) (map_range n (Tasks g)).*1 in
  (g <| Tasks := tasks |>, changed).

(** [for changed { ... }] *)
Fixpoint propagate_loop (fuel n : nat) (g : TaskGraph) : option TaskGraph :=
  match fuel with
  | O => None
  | S fuel =>
      let '(g, changed) := propagate_pass n g in
      if changed then propagate_loop fuel (S n) g else Some g
  end.

(* src: internal/orchestration/graph.go:84-102 (PropagateFailures) *)
Definition PropagateFailures (g : TaskGraph) : TaskGraph :=
  default g (propagate_loop 2 0 g).

(** ** Specification of a valid graph *)

Definition dependency (g : TaskGraph) (x y : string) : Prop := y ∈ deps_at g x.

Record well_formed_task (g : TaskGraph) (id : string) (t : Task) : Prop := {
  wf_id : Task_ID t = id;
  wf_nodup : NoDup (deps_at g id);
  wf_present : ∀ d, d ∈ deps_at g id → is_Some (Tasks g !! d);
  wf_parent : Task_ParentTaskID t ≠ "" →
    ∃ p, Tasks g !! Task_ParentTaskID t = Some p ∧
         Task_WorkflowID p = Task_WorkflowID t
}.

Definition well_formed (g : TaskGraph) : Prop :=
  map_Forall (well_formed_task g) (Tasks g).

Definition acyclic_graph (g : TaskGraph) : Prop :=
  ∀ id, is_Some (Tasks g !! id) → ¬ tc (dependency g) id id.

(** ** Helper lemmas *)

Lemma check_deps_none tasks seen ds :
  check_deps tasks seen ds = None ↔
  NoDup ds ∧ ∀ d, d ∈ ds → d ∉ seen ∧ is_Some (tasks !! d).
Proof.
  revert seen. induction ds as [|d ds IH]; intros seen; simpl.
  { split; [|done]. intros _. split; [constructor|set_solver]. }
  rewrite NoDup_cons. case_decide as Hs.
  { split; [done|]. intros [_ Hd]. by destruct (Hd d ltac:(left)). }
  destruct (tasks !! d) as [t|] eqn:Hd.
  - rewrite IH. split.
    + intros [Hn Hall]. split_and!; [set_solver|done|].
      intros y [->|Hy]%elem_of_cons; [by rewrite Hd; eauto|].
      destruct (Hall y Hy). split; [set_solver|done].
    + intros [[Hn Hnd] Hall]. split; [done|]. intros y Hy.
      destruct (Hall y ltac:(by right)). split; [set_solver|done].
  - split; [done|]. intros [_ Hall].
    destruct (Hall d ltac:(left)) as [_ [? ?]]. congruence.
Qed.

Lemma check_parent_none tasks t :
  check_parent tasks t = None ↔
  (Task_ParentTaskID t ≠ "" → ∃ p, tasks !! Task_ParentTaskID t = Some p ∧
     Task_WorkflowID p = Task_WorkflowID t).
Proof.
  unfold check_parent. case_decide; [naive_solver|].
  destruct (tasks !! _); [case_decide|]; naive_solver.
Qed.

Lemma check_task_none g id t :
  check_task g id t = None ↔ well_formed_task g id t.
Proof.
  unfold check_task. case_decide as Hid; [|split; [done|intros []; done]].
  destruct (check_deps _ _ _) as [e|] eqn:Hc.
  - split; [done|]. intros [_ Hn Hp _].
    assert (check_deps (Tasks g) ∅ (deps_at g id) = None); [|congruence].
    apply check_deps_none. split; [done|]. set_solver.
  - rewrite check_parent_none. apply check_deps_none in Hc as [Hn Hp].
    split; [constructor; naive_solver|by intros []].
Qed.

Lemma check_tasks_none g l :
  check_tasks g l = None ↔ ∀ id t, (id, t) ∈ l → well_formed_task g id t.
Proof.
  induction l as [|[id t] l IH]; simpl; [set_solver|].
  destruct (check_task g id t) eqn:Hc.
  - split; [done|]. intros Hall.
    by rewrite (proj2 (check_task_none g id t)) in Hc; [|apply Hall; left].
  - rewrite IH. apply check_task_none in Hc. set_solver.
Qed.

Lemma check_tasks_range n g :
  check_tasks g (map_range n (Tasks g)) = None ↔ well_formed g.
Proof.
  rewrite check_tasks_none. unfold well_formed, map_Forall.
  by setoid_rewrite elem_of_map_range.
Qed.

Lemma elem_of_SortedTaskIDs n g id :
  id ∈ SortedTaskIDs n g ↔ is_Some (Tasks g !! id).
Proof.
  unfold SortedTaskIDs. by rewrite elem_of_sort_strings, elem_of_map_range_keys.
Qed.

Lemma SortedTaskIDs_NoDup n g : NoDup (SortedTaskIDs n g).
Proof.
  unfold SortedTaskIDs. rewrite sort_strings_perm. apply map_range_keys_nodup.
Qed.

(** The order of the map does not show in the sorted identifiers. *)
Lemma SortedTaskIDs_canonical n g :
  SortedTaskIDs n g = sort_strings (map_to_list (Tasks g)).*1.
Proof. unfold SortedTaskIDs. by rewrite map_range_perm. Qed.

Lemma tc_sorted_deps g x y : tc (edge (sorted_deps g)) x y ↔ tc (dependency g) x y.
Proof.
  assert (∀ a b, edge (sorted_deps g) a b ↔ dependency g a b) as He.
  { intros a b. apply elem_of_sort_strings. }
  split; induction 1; [apply tc_once|eapply tc_l|apply tc_once|eapply tc_l];
    try apply He; eauto.
Qed.

Lemma closed g : well_formed g → ∀ x y,
  x ∈ dom (Tasks g) → y ∈ sorted_deps g x → None = @None goerror → y ∈ dom (Tasks g).
Proof.
  unfold sorted_deps. setoid_rewrite elem_of_sort_strings.
  intros Hwf x y [t Ht]%elem_of_dom Hy _.
  apply elem_of_dom. eapply wf_present; [by apply Hwf|done].
Qed.

Lemma graph_search_none g roots :
  well_formed g → list_to_set roots = dom (Tasks g) →
  visit_error (graph_search g roots) = None ↔ acyclic_graph g.
Proof.
  intros Hwf Hr. unfold graph_search.
  rewrite (search_none_iff _ _ _ _ (closed g Hwf) _ Hr).
  unfold acyclic, acyclic_graph. setoid_rewrite elem_of_dom.
  setoid_rewrite tc_sorted_deps. unfold edges_present. naive_solver.
Qed.

Lemma SortedTaskIDs_dom n g : list_to_set (SortedTaskIDs n g) = dom (Tasks g).
Proof.
  apply set_eq. intros id.
  by rewrite elem_of_list_to_set, elem_of_SortedTaskIDs, elem_of_dom.
Qed.

(** *** Failure propagation in closed form *)

Definition blocked_by (g : TaskGraph) (id : string) : bool :=
  existsb (λ dep, is_failure (Task_Status (task_at g dep))) (deps_at g id).

(** What one pass makes of a task. *)
Definition block (g : TaskGraph) (id : string) (t : Task) : Task :=
  if is_open (Task_Status t) && blocked_by g id
  then t <| Task_Status := TaskBlocked |> else t.

Definition propagated (g : TaskGraph) : TaskGraph :=
  g <| Tasks := map_imap (λ id t, Some (block g id t)) (Tasks g) |>.

(** A pass half-way: the tasks of [seen] are done, the others untouched. *)
Definition half_way (g : TaskGraph) (seen : list string)
    (tasks : gmap string Task) : Prop :=
  ∀ k, tasks !! k =
    if decide (k ∈ seen) then block g k <$> Tasks g !! k else Tasks g !! k.

Definition changes (g : TaskGraph) (id : string) : bool :=
  is_open (Task_Status (task_at g id)) && blocked_by g id.

Lemma block_failure g id t :
  is_failure (Task_Status (block g id t)) = is_failure (Task_Status t).
Proof.
  unfold block. destruct (is_open (Task_Status t)) eqn:Ho; [|done]. simpl.
  destruct (blocked_by g id); [|done]. simpl. by destruct (Task_Status t).
Qed.

Lemma half_way_failure g seen tasks dep :
  half_way g seen tasks →
  is_failure (Task_Status (default zero_Task (tasks !! dep))) =
  is_failure (Task_Status (task_at g dep)).
Proof.
  intros Hh. unfold task_at. rewrite (Hh dep). case_decide; [|done].
  destruct (Tasks g !! dep); simpl; [apply block_failure|done].
Qed.

Lemma half_way_blocked g seen tasks id :
  half_way g seen tasks →
  existsb (λ dep, is_failure (Task_Status (default zero_Task (tasks !! dep))))
    (deps_at g id) = blocked_by g id.
Proof.
  intros Hh. unfold blocked_by. induction (deps_at g id) as [|d ds IH]; simpl; [done|].
  by rewrite IH, (half_way_failure g seen tasks d Hh).
Qed.

Lemma half_way_step g seen tasks ch id :
  half_way g seen tasks → id ∉ seen → is_Some (Tasks g !! id) →
  ∃ tasks', propagate_task g (tasks, ch) id = (tasks', ch || changes g id) ∧
    half_way g (id :: seen) tasks'.
Proof.
  intros Hh Hid [t Ht]. unfold propagate_task, changes.
  rewrite (half_way_blocked g seen) by done.
  unfold task_at. rewrite Ht. simpl.
  assert (tasks !! id = Some t) as ->.
  { rewrite (Hh id), decide_False by done. done. }
  simpl. destruct (is_open (Task_Status t)) eqn:Ho; simpl;
    [destruct (blocked_by g id) eqn:Hb; simpl|].
  all: eexists; split; [by rewrite ?orb_true_r, ?orb_false_r|]; intros k.
  - rewrite lookup_insert. case_decide as Hk; [subst k|].
    + rewrite decide_True, Ht by (by left). simpl.
      unfold block. by rewrite Ho, Hb.
    + rewrite (Hh k). do 2 case_decide; set_solver.
  - rewrite (Hh k). destruct (decide (k = id)) as [->|Hk].
    + rewrite decide_False, decide_True, Ht by (done || by left). simpl.
      unfold block. by rewrite Ho, Hb.
    + do 2 case_decide; set_solver.
  - rewrite (Hh k). destruct (decide (k = id)) as [->|Hk].
    + rewrite decide_False, decide_True, Ht by (done || by left). simpl.
      unfold block. by rewrite Ho.
    + do 2 case_decide; set_solver.
Qed.

Lemma half_way_fold g l seen tasks ch :
  half_way g seen tasks → NoDup (l ++ seen) → (∀ id, id ∈ l → is_Some (Tasks g !! id)) →
  ∃ tasks', foldl (propagate_task g) (tasks, ch) l =
      (tasks', ch || existsb (changes g) l) ∧
    half_way g (reverse l ++ seen) tasks'.
Proof.
  revert seen tasks ch. induction l as [|id l IH]; intros seen tasks ch Hh Hn Hin; simpl.
  { exists tasks. by rewrite orb_false_r. }
  apply NoDup_cons in Hn as [Hid Hn]. rewrite elem_of_app in Hid.
  destruct (half_way_step g seen tasks ch id) as (ts1 & -> & Hh1);
    [done|tauto|by apply Hin; left|].
  destruct (IH (id :: seen) ts1 (ch || changes g id)) as (ts2 & -> & Hh2);
    [done| |by intros ? ?; apply Hin; right|].
  { apply NoDup_app in Hn as (? & ? & ?). apply NoDup_app.
    split_and!; [done|set_solver|by constructor; [tauto|]]. }
  exists ts2. rewrite orb_assoc. split; [done|].
  by rewrite reverse_cons, <-(assoc_L (++)).
Qed.

Lemma propagate_pass_eq n g :
  propagate_pass n g = (propagated g, existsb (changes g) (map_range n (Tasks g)).*1).
Proof.
  unfold propagate_pass, propagated.
  destruct (half_way_fold g (map_range n (Tasks g)).*1 [] (Tasks g) false)
    as (ts & -> & Hh).
  { intros k. by rewrite decide_False by set_solver. }
  { rewrite app_nil_r. apply map_range_keys_nodup. }
  { intros id. by rewrite elem_of_map_range_keys. }
  simpl. do 2 f_equal. apply map_eq. intros k. rewrite map_lookup_imap, (Hh k).
  rewrite app_nil_r. case_decide as Hk.
  - by destruct (Tasks g !! k).
  - destruct (Tasks g !! k) eqn:Ht; [|done].
    destruct Hk. rewrite elem_of_reverse. apply elem_of_map_range_keys. by eexists.
Qed.

Lemma graph_ext g1 g2 :
  Tasks g1 = Tasks g2 → Dependencies g1 = Dependencies g2 → g1 = g2.
Proof. destruct g1, g2; simpl. by intros -> ->. Qed.

Lemma propagated_stable n g :
  propagate_pass n (propagated g) = (propagated g, false).
Proof.
  rewrite propagate_pass_eq.
  assert (∀ d, is_failure (Task_Status (task_at (propagated g) d)) =
               is_failure (Task_Status (task_at g d))) as Hf.
  { intros d. unfold task_at, propagated. simpl. rewrite map_lookup_imap.
    destruct (Tasks g !! d); simpl; [apply block_failure|done]. }
  assert (∀ id, blocked_by (propagated g) id = blocked_by g id) as Hb.
  { intros id. unfold blocked_by, deps_at. simpl.
    induction (default [] (Dependencies g !! id)) as [|d ds IH]; simpl; [done|].
    by rewrite IH, Hf. }
  assert (∀ id t, Tasks g !! id = Some t →
    is_open (Task_Status (block g id t)) && blocked_by g id = false) as Hc.
  { intros id t Ht. unfold block.
    destruct (is_open (Task_Status t)) eqn:Ho, (blocked_by g id); simpl;
      by rewrite ?andb_false_r, ?Ho. }
  f_equal.
  - apply graph_ext; [|done]. apply map_eq. intros k. simpl. rewrite !map_lookup_imap.
    destruct (Tasks g !! k) as [t|] eqn:Ht; simpl; [|done].
    unfold block at 1. by rewrite Hb, Hc.
  - apply not_true_iff_false. rewrite existsb_exists.
    intros (id & Hid%list_elem_of_In%elem_of_map_range_keys & Hch).
    unfold changes in Hch. rewrite Hb in Hch. revert Hch.
    unfold task_at, propagated. simpl. rewrite map_lookup_imap.
    destruct Hid as [t' Ht']. unfold propagated in Ht'. simpl in Ht'.
    rewrite map_lookup_imap in Ht'.
    destruct (Tasks g !! id) as [t|] eqn:Ht; simpl in *; [|done].
    by rewrite Hc.
Qed.

(** The loop stops in its second pass, in every order of iteration. *)
Lemma propagate_loop_eq fuel n g :
  (2 ≤ fuel)%nat → propagate_loop fuel n g = Some (propagated g).
Proof.
  intros Hf. destruct fuel as [|[|fuel]]; [lia..|]. cbn [propagate_loop].
  rewrite propagate_pass_eq. destruct (existsb _ _); [|done].
  by rewrite propagated_stable.
Qed.

Lemma PropagateFailures_eq g : PropagateFailures g = propagated g.
Proof. unfold PropagateFailures. by rewrite propagate_loop_eq. Qed.

Lemma elem_of_ReadyTasks g id :
  id ∈ ReadyTasks g ↔ is_Some (Tasks g !! id) ∧ is_ready g id = true.
Proof.
  unfold ReadyTasks. rewrite list_elem_of_filter, elem_of_SortedTaskIDs. tauto.
Qed.

Lemma is_ready_spec g id :
  is_ready g id = true ↔
  is_open (Task_Status (task_at g id)) = true ∧
  ∀ d, d ∈ deps_at g id → Task_Status (task_at g d) = TaskSucceeded.
Proof.
  unfold is_ready. rewrite andb_true_iff, forallb_forall.
  setoid_rewrite bool_decide_eq_true. by setoid_rewrite list_elem_of_In.
Qed.

Lemma validate_none_iff g :
  ValidateGraph g = None ↔ well_formed g ∧ acyclic_graph g.
Proof.
  unfold ValidateGraph. destruct (check_tasks g _) as [e|] eqn:Hc.
  - split; [done|]. intros [Hw _]. apply (check_tasks_range 0) in Hw. congruence.
  - apply check_tasks_range in Hc.
    rewrite (graph_search_none g _ Hc (SortedTaskIDs_dom 1 g)). tauto.
Qed.

(** The search ends on every well-formed graph, whatever its cycles. *)
Lemma graph_search_ends g fuel roots :
  well_formed g → (size (Tasks g) < fuel)%nat →
  (∀ id, id ∈ roots → is_Some (Tasks g !! id)) →
  visit_all (sorted_deps g) (λ _ _, None) (λ _, ErrCycle) fuel roots ∅ ≠ OutOfFuel.
Proof.
  intros Hwf Hf Hr Hout.
  assert ((size (dom (Tasks g)) < fuel)%nat) as Hn by (by rewrite size_dom).
  pose proof (visit_all_spec (sorted_deps g) (λ _ _, None) (λ _, ErrCycle)
    (dom (Tasks g)) (closed g Hwf) fuel roots ∅ Hn) as Hv.
  rewrite Hout in Hv. apply Hv; [|intros b; by rewrite lookup_empty..].
  intros id. rewrite elem_of_list_to_set. intros Hid. by apply elem_of_dom, Hr.
Qed.

(** The only error of the search of a well-formed graph is the cycle. *)
Lemma validate_cycle g :
  well_formed g → ¬ acyclic_graph g → ValidateGraph g = Some ErrCycle.
Proof.
  intros Hwf Hc. unfold ValidateGraph.
  rewrite (proj2 (check_tasks_range 0 g) Hwf).
  pose proof (graph_search_none g _ Hwf (SortedTaskIDs_dom 1 g)) as Hno.
  pose proof (search_cases (sorted_deps g) (λ _ _, None) (λ _, ErrCycle) _
    (closed g Hwf) (SortedTaskIDs 1 g)) as Hs.
  rewrite (SortedTaskIDs_dom 1 g) in Hs. specialize (Hs ltac:(done)).
  unfold graph_search in *. destruct (search _ _ _ _ _) as [st|e|]; [tauto| |done].
  destruct Hs as [(x & _ & _ & ->)|(x & y & _ & _ & ?)]; done.
Qed.

(** ** Properties *)

(** C5: [ValidateGraph] accepts a graph exactly when it is well formed (each
    task is stored under its own identifier, its dependencies are distinct and
    present, its parent belongs to the same workflow) and no task depends on
    itself through one or more dependencies; a well-formed graph with a cycle
    gets [ErrCycle] and nothing else.  This holds whatever order the runtime
    iterates over the map in.  The recursive search ends by itself, also on
    the graphs with a cycle: on a well-formed graph a depth of one more than
    the number of tasks is enough, from any list of its tasks. *)
Theorem ValidateGraph_correct g :
  (ValidateGraph g = None ↔ well_formed g ∧ acyclic_graph g) ∧
  (well_formed g → ¬ acyclic_graph g → ValidateGraph g = Some ErrCycle) ∧
  (well_formed g → ∀ fuel roots,
    (size (Tasks g) < fuel)%nat → (∀ id, id ∈ roots → is_Some (Tasks g !! id)) →
    visit_all (sorted_deps g) (λ _ _, None) (λ _, ErrCycle) fuel roots ∅ ≠
      OutOfFuel).
Proof.
  split_and!; [exact (validate_none_iff g)|exact (validate_cycle g)|].
  intros Hwf fuel roots Hf Hr. by apply graph_search_ends.
Qed.

(** C6: [ReadyTasks] returns, sorted and without repetition, exactly the tasks
    that are pending or ready and whose dependencies have all succeeded; a
    dependency that is no task of the graph keeps its dependent from being
    ready. *)
Theorem ReadyTasks_correct g :
  StronglySorted String.le (ReadyTasks g) ∧ NoDup (ReadyTasks g) ∧
  ∀ id, id ∈ ReadyTasks g ↔
    ∃ t, Tasks g !! id = Some t ∧
      (Task_Status t = TaskPending ∨ Task_Status t = TaskReady) ∧
      ∀ d, d ∈ deps_at g id →
        ∃ td, Tasks g !! d = Some td ∧ Task_Status td = TaskSucceeded.
Proof.
  split_and!.
  - apply StronglySorted_filter, sort_strings_sorted.
  - apply NoDup_filter, SortedTaskIDs_NoDup.
  - intros id. rewrite elem_of_ReadyTasks, is_ready_spec. unfold task_at, is_open.
    split.
    + intros [[t Ht] [Ho Hd]]. rewrite Ht in Ho. exists t. split_and!; [done| |].
      * apply orb_true_iff in Ho. by rewrite !bool_decide_eq_true in Ho.
      * intros d Hin. specialize (Hd d Hin).
        destruct (Tasks g !! d) as [td|]; [by exists td|done].
    + intros (t & Ht & Hs & Hd). rewrite Ht. split_and!; [by eexists| |].
      * simpl. rewrite orb_true_iff, !bool_decide_eq_true. done.
      * intros d (td & -> & ?)%Hd. done.
Qed.

(** C7: [PropagateFailures] stops after at most two passes, in every order of
    iteration, and marks [BLOCKED] exactly the pending or ready tasks that have
    a dependency that failed, timed out or was cancelled; every other task and
    every other field is left as it was. *)
Theorem PropagateFailures_correct g :
  (∀ fuel n, (2 ≤ fuel)%nat →
    propagate_loop fuel n g = Some (PropagateFailures g)) ∧
  Dependencies (PropagateFailures g) = Dependencies g ∧
  ∀ id, Tasks (PropagateFailures g) !! id =
    (λ t, if is_open (Task_Status t) &&
             existsb (λ d, is_failure (Task_Status (task_at g d))) (deps_at g id)
          then t <| Task_Status := TaskBlocked |> else t) <$> Tasks g !! id.
Proof.
  rewrite PropagateFailures_eq. split; [|split; [done|]].
  { intros fuel n Hf. by apply propagate_loop_eq. }
  intros id. unfold propagated. simpl. rewrite map_lookup_imap.
  by destruct (Tasks g !! id).
Qed.
End graph.
End graph.
