(* ===== verification/Scheduler.v ===== *)
(** * Orchestration: the scheduler

    [src/internal/orchestration/scheduler.go].  [Run] alternates between
    failure propagation and waves: every ready task is marked running, locked
    and handed to a goroutine, and the next round starts when all goroutines of
    the wave are done.

    What the program does not decide itself is the environment [Env]: the
    answers of the task executor, the clock and the state of the context.  An
    answer may differ from one wave and from one attempt to the next, so an
    environment can describe any behaviour of a stateful executor.  [Run] is the
    function that runs the goroutines of a wave one after the other; the step
    relation [wave_step] is the concurrent execution they really have. *)

From S2P Require Import Prelude Dfs OrchTypes OrchGraph.
Import orchestration graph.

Module scheduler.

(** [ctx.Err()] at the top of the [n]-th round, [time.Now().UnixNano()] when a
    goroutine of that round names its run, and the answer of [Execute]. *)
Record Env := mkEnv {
  ctx_err : nat → option goerror;
  run_clock : nat → string → Z;
  execute : nat → Task → TaskRun → TaskResult * option goerror
}.

(* src: internal/orchestration/scheduler.go:15-20 (Scheduler) *)
Record Scheduler := mkScheduler {
  HasExecutor : bool;
  MaxParallel : Z;
  locks : gset string
}.

(* src: internal/orchestration/scheduler.go:22-27 (NewScheduler) *)
Definition NewScheduler (executor : bool) (maxParallel : Z) : Scheduler :=
  mkScheduler executor (if maxParallel <? 1 then 1 else maxParallel) ∅.

(* src: internal/orchestration/scheduler.go:28-36 (lockTask) *)
Definition lockTask (l : gset string) (id : string) : gset string * bool :=
  if decide (id ∈ l) then (l, false) else ({[id]} ∪ l, true).

(* src: internal/orchestration/scheduler.go:37-37 (unlockTask) *)
Definition unlockTask (l : gset string) (id : string) : gset string := l ∖ {[id]}.

(** ** Retries *)

(* src: internal/orchestration/scheduler.go:172-179 (containsText) *)
Definition containsText (value part : string) : bool :=
  existsb (λ i, String.eqb (String.substring i (String.length part) value) part)
    (seq 0 (String.length value + 1 - String.length part)).

(* src: internal/orchestration/scheduler.go:160-171 (retryable) *)
Definition retryable (task : Task) (err : goerror) : bool :=
  if errors_is err context_DeadlineExceeded then true
  else existsb (λ item, negb (String.eqb item "") && containsText (error_text err) item)
         (Retry_RetryableErrors (Task_Retry task)).

Definition attempts_of (task : Task) : Z :=
  if Retry_MaxAttempts (Task_Retry task) <? 1 then 1
  else Retry_MaxAttempts (Task_Retry task).

Section run.
Context `{MapOrder} (env : Env).

(** The loop [for attempt := 1; attempt <= attempts; attempt++], [n] being the
    attempts left; the calls made are returned with the answer. *)
(* src: internal/orchestration/scheduler.go:141-158 (executeWithRetry) *)
Fixpoint attempt_loop (wave : nat) (task : Task) (run : TaskRun) (n : nat)
    (attempt : Z) (last : option goerror) : TaskResult * option goerror * list TaskRun :=
  match n with
  | O => (zero_TaskResult, last, [])
  | S n =>
      let run := run <| TaskRun_Attempt := attempt |> in
      match execute env wave task run with
      | (result, None) => (result, None, [run])
      | (_, Some err) =>
          if negb (retryable task err) || (attempt =? attempts_of task)
          then (zero_TaskResult, Some err, [run])
          else
            let '(answer, calls) :=
              attempt_loop wave task run n (attempt + 1) (Some err) in
            (answer, run :: calls)
      end
  end.

(* src: internal/orchestration/scheduler.go:135-159 (executeWithRetry) *)
Definition executeWithRetry (wave : nat) (task : Task) (run : TaskRun)
    : TaskResult * option goerror * list TaskRun :=
  attempt_loop wave task run (Z.to_nat (attempts_of task)) 1 None.

(** ** Goroutines *)

(* src: internal/orchestration/scheduler.go:92-106 (Run) *)
Definition outcome_status (answer : TaskResult * option goerror) : TaskStatus :=
  match answer with
  | (_, Some err) =>
      if errors_is err context_DeadlineExceeded then TaskTimedOut
      else if errors_is err context_Canceled then TaskCancelled
      else TaskFailed
  | (result, None) =>
      if decide (TaskResult_Status result = TaskStatusOther "") then TaskSucceeded
      else TaskResult_Status result
  end.

(* src: internal/orchestration/scheduler.go:89-89 (Run) *)
Definition new_run (wave : nat) (task : Task) : TaskRun :=
  mkTaskRun ("run_" +:+ Task_ID task +:+ "_" +:+ pretty (run_clock env wave (Task_ID task)))
    (Task_ID task) 1 TaskRunning "" "" time_zero None "".

Definition run_status (wave : nat) (task : Task) : TaskStatus :=
  outcome_status (executeWithRetry wave task (new_run wave task)).1.

(** The goroutine of a task, once it has its slot: execute, read, write. *)
(* src: internal/orchestration/scheduler.go:84-108 (Run) *)
Definition goroutine (wave : nat) (tasks : gmap string Task) (task : Task)
    : gmap string Task :=
  let updated := default zero_Task (tasks !! Task_ID task) in
  <[Task_ID task := updated <| Task_Status := run_status wave task |>]> tasks.

(* src: internal/orchestration/scheduler.go:77-79 (Run) *)
Definition running (task : Task) : Task := task <| Task_Status := TaskRunning |>.

(** The loop that marks, locks and spawns. *)
(* src: internal/orchestration/scheduler.go:76-83 (Run) *)
Fixpoint launch (tasks : gmap string Task) (l : gset string) (ready : list string)
    : gmap string Task * list Task :=
  match ready with
  | [] => (tasks, [])
  | id :: ready =>
      let task := running (default zero_Task (tasks !! id)) in
      let tasks := <[id := task]> tasks in
      let '(l, ok) := lockTask l id in
      let '(tasks, spawned) := launch tasks l ready in
      (tasks, if ok then task :: spawned else spawned)
  end.

(* src: internal/orchestration/scheduler.go:75-110 (Run) *)
Definition run_wave (wave : nat) (l : gset string) (tasks : gmap string Task)
    (ready : list string) : gmap string Task :=
  let '(tasks, spawned) := launch tasks l ready in
  foldl (goroutine wave) tasks spawned.

(** ** The main loop *)

Definition is_active (s : TaskStatus) : bool :=
  is_open s || bool_decide (s = TaskRunning).
Definition is_failed (s : TaskStatus) : bool :=
  bool_decide (s = TaskFailed) || bool_decide (s = TaskTimedOut).

(** Does some task of the map have a status of the given kind?  The two loops
    of the source set a flag, so the order they run in is immaterial. *)
(* src: internal/orchestration/scheduler.go:55-64 (Run) *)
Definition some_status (p : TaskStatus → bool) (tasks : gmap string Task) : bool :=
  existsb (λ kv, p (Task_Status kv.2)) (map_range 0 tasks).

(* src: internal/orchestration/scheduler.go:119-130 (Run) *)
Definition finish (w : Workflow) : Workflow :=
  w <| Workflow_Status :=
    (if some_status is_failed (Tasks (Workflow_Graph w))
     then WorkflowFailed else WorkflowSucceeded) |>.

Definition with_tasks (w : Workflow) (tasks : gmap string Task) : Workflow :=
  w <| Workflow_Graph := (Workflow_Graph w) <| Tasks := tasks |> |>.

(** The rounds, with the list of the waves launched. *)
(* src: internal/orchestration/scheduler.go:46-133 (Run) *)
Fixpoint rounds (fuel wave : nat) (l : gset string) (w : Workflow)
    : option (Workflow * option goerror * list (list string)) :=
  match fuel with
  | O => None
  | S fuel =>
      match ctx_err env wave with
      | Some err => Some (w <| Workflow_Status := WorkflowCancelled |>, Some err, [])
      | None =>
          let w := w <| Workflow_Graph := PropagateFailures (Workflow_Graph w) |> in
          let ready := ReadyTasks (Workflow_Graph w) in
          match ready with
          | [] =>
              if some_status is_active (Tasks (Workflow_Graph w)) then Some (w, None, [])
              else Some (finish w, None, [])
          | _ =>
              let w := with_tasks w (run_wave wave l (Tasks (Workflow_Graph w)) ready) in
              if negb (some_status is_active (Tasks (Workflow_Graph w)))
              then Some (finish w, None, [ready])
              else
                match rounds fuel (S wave) l w with
                | Some (w, err, waves) => Some (w, err, ready :: waves)
                | None => None
                end
          end
      end
  end.

(* src: internal/orchestration/scheduler.go:38-134 (Run) *)
Definition Run (fuel : nat) (s : Scheduler) (w : Workflow)
    : option (Workflow * option goerror * list (list string)) :=
  match ValidateGraph (Workflow_Graph w) with
  | Some err => Some (w, Some err, [])
  | None =>
      if HasExecutor s
      then rounds fuel 0 (locks s) (w <| Workflow_Status := WorkflowRunning |>)
      else Some (w, Some (ErrorString "task executor is required"), [])
  end.
End run.
End scheduler.
