(* ===== verification/SchedulerFacts.v ===== *)
(** * Orchestration: properties of the scheduler

    Termination, dependency order and outcome of [Run], the bounds of
    [executeWithRetry], and the run in which nothing goes wrong; the definitions are
    those of [Scheduler.v]. *)

From S2P Require Import Prelude Dfs OrchTypes OrchGraph Scheduler.
Import orchestration graph scheduler.

Section facts.
Context `{MapOrder} (env : Env).

(** Every task is stored under its own identifier. *)
Definition ids_ok (tasks : gmap string Task) : Prop :=
  map_Forall (λ k t, Task_ID t = k) tasks.

Lemma some_status_true p tasks :
  some_status p tasks = true ↔
  ∃ id t, tasks !! id = Some t ∧ p (Task_Status t) = true.
Proof.
  unfold some_status. rewrite existsb_exists. split.
  - intros ([id t] & Hin%list_elem_of_In%elem_of_map_range & Hp). eauto.
  - intros (id & t & Hin & Hp). exists (id, t). split; [|done].
    by apply list_elem_of_In, elem_of_map_range.
Qed.

Lemma some_status_false p tasks :
  some_status p tasks = false ↔
  ∀ id t, tasks !! id = Some t → p (Task_Status t) = false.
Proof.
  rewrite <-not_true_iff_false, some_status_true. split.
  - intros Hn id t Ht. apply not_true_iff_false. intros Hp. apply Hn. eauto.
  - intros Ha (id & t & Ht & Hp). by rewrite (Ha id t Ht) in Hp.
Qed.

(** ** One wave *)

Lemma launch_tasks l tasks ready k :
  NoDup ready →
  (launch tasks l ready).1 !! k =
    if decide (k ∈ ready) then Some (running (default zero_Task (tasks !! k)))
    else tasks !! k.
Proof.
  revert l tasks. induction ready as [|id ready IH]; intros l tasks Hn; cbn [launch fst].
  { case_decide; [set_solver|done]. }
  apply NoDup_cons in Hn as [Hid Hn]. destruct (lockTask l id) as [l' ok].
  destruct (launch _ l' ready) as [ts sp] eqn:Hl. simpl.
  specialize (IH l' (<[id:=running (default zero_Task (tasks !! id))]> tasks) Hn).
  rewrite Hl in IH. simpl in IH.
  rewrite IH. destruct (decide (k = id)) as [->|Hk].
  - rewrite decide_False, decide_True by (done || by left).
    by rewrite lookup_insert_eq.
  - rewrite lookup_insert_ne by done. do 2 case_decide; set_solver.
Qed.

Lemma filter_fresh (l : gset string) id (ready : list string) :
  id ∉ ready →
  filter (λ x, x ∉ {[id]} ∪ l) ready = filter (λ x, x ∉ l) ready.
Proof.
  induction ready as [|x ready IH]; intros Hid; [done|].
  rewrite !filter_cons, IH by set_solver. do 2 case_decide; set_solver.
Qed.

Lemma launch_spawned l tasks ready :
  NoDup ready →
  (launch tasks l ready).2 =
    (λ id, running (default zero_Task (tasks !! id))) <$> filter (λ id, id ∉ l) ready.
Proof.
  revert l tasks. induction ready as [|id ready IH]; intros l tasks Hn; simpl; [done|].
  apply NoDup_cons in Hn as [Hid Hn].
  assert (∀ l', (launch (<[id:=running (default zero_Task (tasks !! id))]> tasks) l' ready).2 =
    (λ id, running (default zero_Task (tasks !! id))) <$> filter (λ id, id ∉ l') ready)
    as Hrest.
  { intros l'. rewrite IH by done. apply list_fmap_ext. intros i y Hy.
    rewrite lookup_insert_ne; [done|]. intros ->.
    apply list_elem_of_lookup_2, list_elem_of_filter in Hy. naive_solver. }
  unfold lockTask. rewrite filter_cons.
  destruct (decide (id ∈ l)) as [Hl|Hl].
  - rewrite decide_False by tauto. specialize (Hrest l).
    by destruct (launch _ l ready).
  - rewrite decide_True by done. specialize (Hrest ({[id]} ∪ l)).
    rewrite filter_fresh in Hrest by done.
    destruct (launch _ _ ready). simpl in *. by rewrite Hrest.
Qed.

Lemma goroutines_lookup wave tasks spawned k :
  NoDup (Task_ID <$> spawned) →
  foldl (goroutine env wave) tasks spawned !! k =
    match list_find (λ t, Task_ID t = k) spawned with
    | Some (_, t) => Some ((default zero_Task (tasks !! k))
                       <| Task_Status := run_status env wave t |>)
    | None => tasks !! k
    end.
Proof.
  revert tasks. induction spawned as [|t sp IH]; intros tasks Hn; simpl; [done|].
  apply NoDup_cons in Hn as [Ht Hn]. rewrite IH by done. unfold goroutine.
  destruct (decide (Task_ID t = k)) as [<-|Hk].
  - rewrite lookup_insert_eq. destruct (list_find _ sp) as [[i t']|] eqn:Hf; [|done].
    apply list_find_Some in Hf as (Hi & Heq & _). destruct Ht. rewrite <-Heq.
    apply list_elem_of_fmap. exists t'. split; [done|]. by eapply list_elem_of_lookup_2.
  - rewrite lookup_insert_ne by done. by destruct (list_find _ sp) as [[]|].
Qed.

(** A ready task that is free ends with the status its execution gives; one
    that another run of the scheduler has locked stays marked running; every
    other task is left alone. *)
Lemma run_wave_lookup wave l tasks ready k :
  ids_ok tasks → NoDup ready → (∀ id, id ∈ ready → is_Some (tasks !! id)) →
  run_wave env wave l tasks ready !! k =
    if decide (k ∈ ready) then
      (λ t, if decide (k ∈ l) then running t
            else t <| Task_Status := run_status env wave (running t) |>) <$> tasks !! k
    else tasks !! k.
Proof.
  intros Hids Hn Hin. unfold run_wave.
  pose proof (launch_tasks l tasks ready k Hn) as Ht.
  pose proof (launch_spawned l tasks ready Hn) as Hs.
  destruct (launch tasks l ready) as [ts sp]. simpl in *.
  assert (∀ id, id ∈ ready → Task_ID (running (default zero_Task (tasks !! id))) = id)
    as Hid.
  { intros id [t Hid]%Hin. rewrite Hid. exact (Hids _ _ Hid). }
  assert (Task_ID <$> sp = filter (λ id, id ∉ l) ready) as Hsp.
  { rewrite Hs, <-list_fmap_compose. rewrite <-list_fmap_id.
    apply list_fmap_ext. intros i id Hi.
    apply list_elem_of_lookup_2, list_elem_of_filter in Hi as [_ Hi]. by apply Hid. }
  rewrite goroutines_lookup; [|by rewrite Hsp; apply NoDup_filter].
  destruct (list_find _ sp) as [[i t]|] eqn:Hf.
  - apply list_find_Some in Hf as (Hi & <- & _).
    assert (Task_ID t ∈ filter (λ id, id ∉ l) ready) as Hf.
    { rewrite <-Hsp. apply list_elem_of_fmap. exists t. split; [done|].
      by eapply list_elem_of_lookup_2. }
    apply list_elem_of_filter in Hf as [Hl Hr]. rewrite Ht, !decide_True by done.
    rewrite Hs in Hi. apply list_elem_of_lookup_2, list_elem_of_fmap in Hi
      as (id & Hid' & [_ Hidr]%list_elem_of_filter).
    assert (Task_ID t = id) as Hti by (rewrite Hid'; by apply Hid).
    destruct (Hin id Hidr) as [t0 Ht0]. rewrite Hti, Ht0 in *.
    cbn [fmap option_fmap option_map default] in *.
    rewrite decide_False by done. by rewrite Hid'.
  - rewrite Ht. case_decide as Hr; [|done].
    destruct (Hin k Hr) as [t0 Ht0]. rewrite Ht0. cbn [default fmap option_fmap option_map].
    case_decide as Hl; [done|]. exfalso.
    assert (k ∈ Task_ID <$> sp) as (t & -> & Hts)%list_elem_of_fmap.
    { rewrite Hsp. by apply list_elem_of_filter. }
    eapply list_find_None in Hf. rewrite Forall_forall in Hf. by destruct (Hf t Hts).
Qed.

(** ** One round: failure propagation, then a wave *)

Definition round_tasks (wave : nat) (l : gset string) (g : TaskGraph)
    : gmap string Task :=
  run_wave env wave l (Tasks (PropagateFailures g)) (ReadyTasks (PropagateFailures g)).
Definition round_graph (wave : nat) (l : gset string) (g : TaskGraph) : TaskGraph :=
  (PropagateFailures g) <| Tasks := round_tasks wave l g |>.

Definition status_of (g : TaskGraph) (id : string) : TaskStatus :=
  Task_Status (task_at g id).

Lemma deps_at_propagate g id : deps_at (PropagateFailures g) id = deps_at g id.
Proof. by rewrite PropagateFailures_eq. Qed.

Lemma deps_at_round wave l g id : deps_at (round_graph wave l g) id = deps_at g id.
Proof. apply deps_at_propagate. Qed.

Lemma propagate_lookup g id :
  Tasks (PropagateFailures g) !! id = block g id <$> Tasks g !! id.
Proof.
  rewrite PropagateFailures_eq. unfold propagated. simpl.
  rewrite map_lookup_imap. by destruct (Tasks g !! id).
Qed.

Lemma propagate_ids g : ids_ok (Tasks g) → ids_ok (Tasks (PropagateFailures g)).
Proof.
  intros Hids k t. rewrite propagate_lookup. intros (t0 & Ht0 & ->)%fmap_Some.
  apply Hids in Ht0. unfold block. by destruct (_ && _).
Qed.

(** A settled task is one that is not waiting to be run. *)
Lemma propagate_settled g id :
  is_open (status_of g id) = false →
  Tasks (PropagateFailures g) !! id = Tasks g !! id.
Proof.
  rewrite propagate_lookup. unfold status_of, task_at.
  destruct (Tasks g !! id) as [t|]; simpl; [|done]. unfold block. by intros ->.
Qed.

Lemma propagate_status g id s :
  is_open s = false → s ≠ TaskBlocked →
  status_of (PropagateFailures g) id = s → status_of g id = s.
Proof.
  unfold status_of, task_at. rewrite propagate_lookup.
  destruct (Tasks g !! id) as [t|]; simpl; [|done]. unfold block.
  destruct (_ && _); [|done]. simpl. intros _ Hb <-. done.
Qed.

Lemma ready_open g id : id ∈ ReadyTasks g → is_open (status_of g id) = true.
Proof. rewrite elem_of_ReadyTasks, is_ready_spec. by intros (_ & ? & _). Qed.

Lemma ready_NoDup g : NoDup (ReadyTasks g).
Proof. apply NoDup_filter, SortedTaskIDs_NoDup. Qed.

Lemma round_lookup wave l g id :
  ids_ok (Tasks g) →
  round_tasks wave l g !! id =
    if decide (id ∈ ReadyTasks (PropagateFailures g)) then
      (λ t, if decide (id ∈ l) then running t
            else t <| Task_Status := run_status env wave (running t) |>)
        <$> Tasks (PropagateFailures g) !! id
    else Tasks (PropagateFailures g) !! id.
Proof.
  intros Hids. apply run_wave_lookup;
    [by apply propagate_ids|apply ready_NoDup|].
  intros k. rewrite elem_of_ReadyTasks. tauto.
Qed.

Lemma round_ids wave l g :
  ids_ok (Tasks g) → ids_ok (round_tasks wave l g).
Proof.
  intros Hids k t. rewrite round_lookup by done.
  assert (∀ t, Tasks (PropagateFailures g) !! k = Some t → Task_ID t = k) as Hk
    by (intros t'; by apply propagate_ids).
  case_decide; [|apply Hk]. intros (t0 & Ht0 & ->)%fmap_Some.
  apply Hk in Ht0. by case_decide.
Qed.

Lemma round_settled wave l g id :
  ids_ok (Tasks g) → is_open (status_of g id) = false →
  round_tasks wave l g !! id = Tasks g !! id.
Proof.
  intros Hids Ho. rewrite round_lookup by done.
  rewrite <-(propagate_settled g id Ho). rewrite decide_False; [done|].
  intros Hr%ready_open. revert Hr. unfold status_of, task_at.
  rewrite propagate_settled by done. fold (task_at g id).
  unfold status_of in Ho. by rewrite Ho.
Qed.
(** ** The rounds as a relation

    The ways a round can end, for proofs by rule induction. *)

Inductive rounds_to (l : gset string)
    : nat → Workflow → Workflow → option goerror → list (list string) → Prop :=
  | rounds_cancelled wave w err :
      ctx_err env wave = Some err →
      rounds_to l wave w (w <| Workflow_Status := WorkflowCancelled |>) (Some err) []
  | rounds_stalled wave w g :
      ctx_err env wave = None → g = PropagateFailures (Workflow_Graph w) →
      ReadyTasks g = [] → some_status is_active (Tasks g) = true →
      rounds_to l wave w (w <| Workflow_Graph := g |>) None []
  | rounds_done wave w g :
      ctx_err env wave = None → g = PropagateFailures (Workflow_Graph w) →
      ReadyTasks g = [] → some_status is_active (Tasks g) = false →
      rounds_to l wave w (finish (w <| Workflow_Graph := g |>)) None []
  | rounds_last wave w g ready :
      ctx_err env wave = None → g = round_graph wave l (Workflow_Graph w) →
      ready = ReadyTasks (PropagateFailures (Workflow_Graph w)) → ready ≠ [] →
      some_status is_active (Tasks g) = false →
      rounds_to l wave w (finish (w <| Workflow_Graph := g |>)) None [ready]
  | rounds_next wave w g ready w' err waves :
      ctx_err env wave = None → g = round_graph wave l (Workflow_Graph w) →
      ready = ReadyTasks (PropagateFailures (Workflow_Graph w)) → ready ≠ [] →
      some_status is_active (Tasks g) = true →
      rounds_to l (S wave) (w <| Workflow_Graph := g |>) w' err waves →
      rounds_to l wave w w' err (ready :: waves).

Lemma rounds_sound fuel wave l w w' err waves :
  rounds env fuel wave l w = Some (w', err, waves) → rounds_to l wave w w' err waves.
Proof.
  revert wave w w' err waves.
  induction fuel as [|fuel IH]; intros wave w w' err waves; [done|].
  cbn [rounds]. destruct (ctx_err env wave) as [e|] eqn:Hctx.
  { intros [= <- <- <-]. by constructor. }
  cbn [Workflow_Graph set_field].
  destruct (ReadyTasks _) as [|r ready] eqn:Hr.
  { destruct (some_status _ _) eqn:Ha; intros [= <- <- <-].
    - by eapply (rounds_stalled l wave w).
    - by eapply (rounds_done l wave w). }
  rewrite <-Hr.
  change (run_wave env wave l _ _) with (round_tasks wave l (Workflow_Graph w)).
  destruct (negb _) eqn:Ha.
  { apply negb_true_iff in Ha. intros [= <- <- <-].
    eapply (rounds_last l wave w (round_graph wave l (Workflow_Graph w)));
      [done..| |exact Ha]. by rewrite Hr. }
  apply negb_false_iff in Ha.
  destruct (rounds _ fuel _ _ _) as [[[w2 e2] ws]|] eqn:Hrec; [|done].
  intros [= <- <- <-]. apply IH in Hrec.
  eapply (rounds_next l wave w (round_graph wave l (Workflow_Graph w)));
    [done..| |exact Ha|exact Hrec]. by rewrite Hr.
Qed.

(** Enough fuel: each wave settles every task it launches. *)

Definition open_set (g : TaskGraph) : gset string :=
  dom (filter (λ kv, is_open (Task_Status kv.2) = true) (Tasks g)).

Lemma elem_of_open_set g id :
  id ∈ open_set g ↔ is_open (status_of g id) = true.
Proof.
  unfold open_set, status_of, task_at. rewrite elem_of_dom. split.
  - intros [t (Ht & Ho)%map_lookup_filter_Some]. by rewrite Ht.
  - intros Ho. destruct (Tasks g !! id) as [t|] eqn:Ht; [|done].
    exists t. by apply map_lookup_filter_Some.
Qed.

(** The executor never answers with a status that asks for another run. *)
Definition executor_settles : Prop :=
  ∀ wave task run r, execute env wave task run = (r, None) →
    is_open (TaskResult_Status r) = false.

Lemma attempt_loop_answer wave task run n attempt last r e calls :
  attempt_loop env wave task run n attempt last = (r, e, calls) →
  (e = None → last = None → n ≠ O → ∃ run', execute env wave task run' = (r, None)) ∧
  (e = None → last ≠ None → ∃ run', execute env wave task run' = (r, None)).
Proof.
  revert attempt last run calls. induction n as [|n IH]; intros attempt last run calls; simpl.
  { intros [= <- <- <-]. naive_solver. }
  destruct (execute env wave task _) as [r1 [e1|]] eqn:Hex.
  2: { intros [= <- <- <-]. eauto. }
  destruct (_ || _); [by intros [= <- <- <-]|].
  destruct (attempt_loop _ _ _ _ n _ _) as [[r2 e2] calls2] eqn:Hrec.
  intros [= <- <- <-]. apply IH in Hrec. naive_solver.
Qed.

Lemma run_status_settled wave task :
  executor_settles → is_open (run_status env wave task) = false.
Proof.
  intros Hs. unfold run_status, executeWithRetry.
  destruct (attempt_loop _ _ _ _ _ _ _) as [[r e] calls] eqn:Hal. simpl.
  destruct e as [e|]; [by repeat case_match|].
  apply attempt_loop_answer in Hal as [Hal _].
  destruct Hal as [run' Hex]; [done|done| |].
  { unfold attempts_of. case_match; lia. }
  apply Hs in Hex. simpl. by case_decide.
Qed.

Lemma round_shrinks wave l g :
  executor_settles → ids_ok (Tasks g) → ReadyTasks (PropagateFailures g) ≠ [] →
  (size (open_set (round_graph wave l g)) < size (open_set g))%nat.
Proof.
  intros Hs Hids Hr. apply subset_size.
  assert (∀ id, id ∈ ReadyTasks (PropagateFailures g) →
    is_open (status_of g id) = true ∧
    is_open (status_of (round_graph wave l g) id) = false) as Hready.
  { intros id Hid. split.
    - apply not_false_iff_true. intros Ho. apply ready_open in Hid. revert Hid.
      unfold status_of, task_at. rewrite propagate_settled by done.
      fold (task_at g id). unfold status_of in Ho. by rewrite Ho.
    - unfold status_of, task_at, round_graph. simpl. rewrite round_lookup by done.
      rewrite decide_True by done. destruct (_ !! id) as [t|]; simpl; [|done].
      case_decide; simpl; [done|]. by apply run_status_settled. }
  split.
  - intros id. rewrite !elem_of_open_set. intros Ho. apply not_false_iff_true.
    intros Hn. revert Ho. unfold status_of, task_at, round_graph. simpl.
    rewrite round_settled by done. fold (task_at g id).
    unfold status_of in Hn. by rewrite Hn.
  - intros Hsub. destruct (ReadyTasks _) as [|id rest]; [done|].
    destruct (Hready id ltac:(by left)) as [H1 H2].
    apply elem_of_open_set, Hsub, elem_of_open_set in H1. congruence.
Qed.

Lemma rounds_terminate fuel wave l w :
  executor_settles → ids_ok (Tasks (Workflow_Graph w)) →
  (size (open_set (Workflow_Graph w)) < fuel)%nat →
  is_Some (rounds env fuel wave l w).
Proof.
  intros Hs. revert wave w. induction fuel as [|fuel IH]; intros wave w Hids Hf; [lia|].
  cbn [rounds]. destruct (ctx_err env wave); [by eexists|].
  cbn [Workflow_Graph set_field].
  destruct (ReadyTasks _) as [|r ready] eqn:Hr; [case_match; by eexists|].
  rewrite <-Hr.
  change (run_wave env wave l _ _) with (round_tasks wave l (Workflow_Graph w)).
  case_match; [by eexists|].
  edestruct (IH (S wave)) as [[[w2 e2] ws] Heq]; [| |by rewrite Heq; eexists].
  - by apply round_ids.
  - eapply Nat.lt_le_trans; [|apply Nat.lt_succ_r, Hf].
    apply round_shrinks; [done..|by rewrite Hr].
Qed.
(** ** What a run leaves behind *)

Lemma rounds_settled l wave w w' err waves :
  rounds_to l wave w w' err waves → ids_ok (Tasks (Workflow_Graph w)) →
  ∀ id, is_open (status_of (Workflow_Graph w) id) = false →
    Tasks (Workflow_Graph w') !! id = Tasks (Workflow_Graph w) !! id.
Proof.
  induction 1 as [|wave w g Hc -> Hr Ha|wave w g Hc -> Hr Ha|
    wave w g ready Hc -> -> Hr Ha|wave w g ready w' err waves Hc -> -> Hr Ha Hrec IH];
    intros Hids id Ho.
  - done.
  - simpl. by apply propagate_settled.
  - simpl. by apply propagate_settled.
  - simpl. by apply round_settled.
  - assert (Tasks (Workflow_Graph (w <| Workflow_Graph :=
      round_graph wave l (Workflow_Graph w) |>)) !! id =
      Tasks (Workflow_Graph w) !! id) as Heq by (by apply round_settled).
    rewrite IH; [done|by apply round_ids|].
    unfold status_of, task_at. by rewrite Heq.
Qed.

Lemma rounds_deps l wave w w' err waves :
  rounds_to l wave w w' err waves →
  Dependencies (Workflow_Graph w') = Dependencies (Workflow_Graph w).
Proof.
  induction 1 as [|wave w g Hc ->|wave w g Hc ->|wave w g ready Hc ->|
    wave w g ready w' err waves Hc -> ? ? ? ? IH]; simpl in *;
    try rewrite IH; by rewrite ?PropagateFailures_eq.
Qed.

(** The dependencies of the tasks of wave [i] had succeeded when it started. *)
Definition waves_ordered (g : TaskGraph) (waves : list (list string)) : Prop :=
  ∀ i ready id d, waves !! i = Some ready → id ∈ ready → d ∈ deps_at g id →
    status_of g d = TaskSucceeded ∨
    ∃ j ready', (j < i)%nat ∧ waves !! j = Some ready' ∧ d ∈ ready'.

Lemma ready_deps g id d :
  id ∈ ReadyTasks (PropagateFailures g) → d ∈ deps_at g id →
  status_of g d = TaskSucceeded.
Proof.
  rewrite elem_of_ReadyTasks, is_ready_spec, deps_at_propagate.
  intros (_ & _ & Hd) Hin. by apply propagate_status, Hd.
Qed.

Lemma round_succeeded wave l g d :
  ids_ok (Tasks g) → status_of (round_graph wave l g) d = TaskSucceeded →
  status_of g d = TaskSucceeded ∨ d ∈ ReadyTasks (PropagateFailures g).
Proof.
  intros Hids. unfold status_of, task_at, round_graph. simpl.
  rewrite round_lookup by done. case_decide; [by right|].
  intros Hd. left. by apply (propagate_status g d).
Qed.

Lemma rounds_waves_ordered l wave w w' err waves :
  rounds_to l wave w w' err waves → ids_ok (Tasks (Workflow_Graph w)) →
  waves_ordered (Workflow_Graph w) waves.
Proof.
  induction 1 as [| | |wave w g ready Hc -> -> Hr Ha|
    wave w g ready w' err waves Hc -> -> Hr Ha Hrec IH]; intros Hids i rd id d Hi Hid Hd.
  - done.
  - done.
  - done.
  - destruct i; simplify_eq/=. left. by eapply ready_deps.
  - destruct i as [|i]; simplify_eq/=; [left; by eapply ready_deps|].
    specialize (IH ltac:(by apply round_ids) i rd id d Hi Hid).
    rewrite deps_at_round in IH.
    destruct IH as [Hs|(j & rd' & Hj & Hrd & Hin)]; [done| |].
    + apply round_succeeded in Hs as [?|?]; [by left| |done].
      right. exists 0%nat, (ReadyTasks (PropagateFailures (Workflow_Graph w))).
      split_and!; [lia|done|done].
    + right. exists (S j), rd'. split_and!; [lia|done|done].
Qed.

(** A launched task was waiting to run and, once the run is over, all its
    dependencies are still marked succeeded. *)
Lemma rounds_launched l wave w w' err waves :
  rounds_to l wave w w' err waves → ids_ok (Tasks (Workflow_Graph w)) →
  ∀ ready id, ready ∈ waves → id ∈ ready →
    is_open (status_of (Workflow_Graph w) id) = true ∧
    ∀ d, d ∈ deps_at (Workflow_Graph w) id →
      status_of (Workflow_Graph w') d = TaskSucceeded.
Proof.
  assert (∀ g id, id ∈ ReadyTasks (PropagateFailures g) →
    is_open (status_of g id) = true) as Hopen.
  { intros g id Hid%ready_open. apply not_false_iff_true. intros Ho. revert Hid.
    unfold status_of, task_at. rewrite propagate_settled by done.
    fold (task_at g id). unfold status_of in Ho. by rewrite Ho. }
  intros Hrel. pose proof Hrel as Hrel'. revert Hrel'.
  induction Hrel as [| | |wave w g ready Hc -> -> Hr Ha|
    wave w g ready w' err waves Hc -> -> Hr Ha Hrec IH];
    intros Hrel Hids rd id Hrd Hid; [by apply elem_of_nil in Hrd..| |].
  - apply list_elem_of_singleton in Hrd as ->. split; [by apply Hopen|].
    intros d Hd. eapply ready_deps in Hid; [|done].
    unfold status_of, task_at. erewrite rounds_settled; [exact Hid|done|done|].
    by rewrite Hid.
  - apply elem_of_cons in Hrd as [->|Hrd].
    + split; [by apply Hopen|]. intros d Hd. eapply ready_deps in Hid; [|done].
      unfold status_of, task_at. erewrite (rounds_settled _ _ w); [exact Hid|done|done|].
      by rewrite Hid.
    + destruct (IH Hrec ltac:(by apply round_ids) rd id Hrd Hid) as [Ho Hd].
      split; [|intros d ?; apply Hd; simpl; by rewrite deps_at_round].
      apply not_false_iff_true. intros Hn. revert Ho.
      unfold status_of, task_at. simpl. rewrite round_settled by done.
      fold (task_at (Workflow_Graph w) id). unfold status_of in Hn. by rewrite Hn.
Qed.

Lemma rounds_nodup l wave w w' err waves :
  rounds_to l wave w w' err waves → Forall NoDup waves.
Proof.
  induction 1 as [| | |wave w g ready Hc ? ->|wave w g ready w' err waves Hc ? ->];
    repeat constructor; try done; apply ready_NoDup.
Qed.

(** With an executor that settles its tasks, no task is launched twice: what
    a wave launched is no longer open, and later waves launch open tasks. *)
Lemma rounds_once l wave w w' err waves :
  executor_settles → rounds_to l wave w w' err waves →
  ids_ok (Tasks (Workflow_Graph w)) → NoDup (concat waves).
Proof.
  intros Hs. induction 1 as [| | |wave w g ready Hc -> -> Hr Ha|
    wave w g ready w' err waves Hc -> -> Hr Ha Hrec IH]; intros Hids; simpl;
    [constructor..|by rewrite app_nil_r; apply ready_NoDup|].
  apply NoDup_app. split_and!; [apply ready_NoDup| |by apply IH, round_ids].
  intros id Hid (rd & Hrd & Hin)%list_elem_of_In%in_concat.
  apply list_elem_of_In in Hrd, Hin.
  destruct (rounds_launched _ _ _ _ _ _ Hrec ltac:(by apply round_ids) rd id)
    as [Ho _]; [done..|].
  revert Ho. unfold status_of, task_at, round_graph. simpl.
  rewrite round_lookup, decide_True by done.
  destruct (_ !! id) as [t|]; simpl; [|done].
  case_decide; simpl; [done|]. by rewrite run_status_settled.
Qed.

Lemma rounds_outcome l wave w w' waves :
  rounds_to l wave w w' None waves → Workflow_Status w = WorkflowRunning →
  let tasks := Tasks (Workflow_Graph w') in
  (Workflow_Status w' = WorkflowSucceeded ∧
     some_status is_active tasks = false ∧ some_status is_failed tasks = false) ∨
  (Workflow_Status w' = WorkflowFailed ∧
     some_status is_active tasks = false ∧ some_status is_failed tasks = true) ∨
  (Workflow_Status w' = WorkflowRunning ∧
     some_status is_active tasks = true ∧ ReadyTasks (Workflow_Graph w') = []).
Proof.
  intros Hrel. remember None as err eqn:Herr. revert Herr.
  induction Hrel as [|wave w g Hc -> Hr Ha|wave w g Hc -> Hr Ha|
    wave w g ready Hc -> -> Hr Ha|wave w g ready w' err waves Hc -> -> Hr Ha Hrec IH];
    intros Herr Hw; simpl in *; [done| | | |by apply IH].
  - by right; right.
  - destruct (some_status is_failed _) eqn:Hf; auto.
  - destruct (some_status is_failed _) eqn:Hf; auto.
Qed.

Lemma open_set_size g : (size (open_set g) ≤ size (Tasks g))%nat.
Proof.
  unfold open_set. rewrite size_dom. apply map_subseteq_size, map_filter_subseteq.
Qed.

Lemma validated_ids g : ValidateGraph g = None → ids_ok (Tasks g).
Proof.
  rewrite validate_none_iff. intros [Hwf _] id t Ht. by destruct (Hwf id t Ht).
Qed.

Lemma Run_inv fuel s w w' err waves :
  Run env fuel s w = Some (w', err, waves) →
  waves = [] ∧ w' = w ∧ err ≠ None ∨
  ids_ok (Tasks (Workflow_Graph w)) ∧
  rounds_to (locks s) 0 (w <| Workflow_Status := WorkflowRunning |>) w' err waves.
Proof.
  unfold Run. destruct (ValidateGraph _) eqn:Hv.
  { intros [= <- <- <-]. by left. }
  apply validated_ids in Hv.
  destruct (HasExecutor s); [|by intros [= <- <- <-]; left].
  intros Hr%rounds_sound. by right.
Qed.

(** ** The attempts *)

Definition next_run (run : TaskRun) (attempt : Z) : TaskRun :=
  run <| TaskRun_Attempt := attempt |>.

(** What a sequence of calls of the executor looks like: each failed with an
    error that is retried, except the last, which gives the answer. *)
Inductive attempts_ok (wave : nat) (task : Task) (run : TaskRun)
    : Z → list TaskRun → TaskResult * option goerror → Prop :=
  | attempts_success k r :
      execute env wave task (next_run run k) = (r, None) →
      attempts_ok wave task run k [next_run run k] (r, None)
  | attempts_give_up k r err :
      execute env wave task (next_run run k) = (r, Some err) →
      retryable task err = false ∨ k = attempts_of task →
      attempts_ok wave task run k [next_run run k] (zero_TaskResult, Some err)
  | attempts_retry k r err calls answer :
      execute env wave task (next_run run k) = (r, Some err) →
      retryable task err = true → k < attempts_of task →
      attempts_ok wave task run (k + 1) calls answer →
      attempts_ok wave task run k (next_run run k :: calls) answer.

Lemma attempt_loop_ok wave task run n k last :
  (0 < n)%nat → k + Z.of_nat n - 1 = attempts_of task →
  attempts_ok wave task run k
    (attempt_loop env wave task run n k last).2
    (attempt_loop env wave task run n k last).1.
Proof.
  revert k last run. induction n as [|n IH]; intros k last run Hn Hk; [lia|].
  cbn [attempt_loop].
  destruct (execute env wave task (next_run run k)) as [r [err|]] eqn:Hex.
  2: { unfold next_run in Hex. rewrite Hex. by constructor. }
  unfold next_run in Hex. rewrite Hex.
  destruct (negb (retryable task err) || (k =? attempts_of task)) eqn:Hb.
  { eapply attempts_give_up; [exact Hex|]. apply orb_true_iff in Hb as [Hb|Hb].
    - left. by apply negb_true_iff.
    - right. by apply Z.eqb_eq. }
  apply orb_false_iff in Hb as [Hb1%negb_false_iff Hb2%Z.eqb_neq].
  specialize (IH (k + 1) (Some err) (run <| TaskRun_Attempt := k |>)
    ltac:(lia) ltac:(lia)).
  destruct (attempt_loop _ _ _ _ n _ _) as [answer calls]. simpl in *.
  eapply attempts_retry; [exact Hex|done|lia|].
  assert (∀ j, next_run (run <| TaskRun_Attempt := k |>) j = next_run run j) as Hrun
    by done.
  clear -IH Hrun. remember (k + 1) as j. clear Heqj.
  induction IH; rewrite ?Hrun in *; [by apply attempts_success| |].
  - by eapply attempts_give_up.
  - by eapply attempts_retry.
Qed.

Lemma attempts_ok_length wave task run k calls answer :
  attempts_ok wave task run k calls answer → k ≤ attempts_of task →
  1 ≤ Z.of_nat (length calls) ≤ attempts_of task - k + 1.
Proof. induction 1; intros; simpl; lia. Qed.
(** ** Dependents of a blocked task *)

(** [a] failed, [b] depends on it and [c] depends on [b] alone. *)
Definition failed_chain (g : TaskGraph) (a b c : string) (t : Task) : Prop :=
  is_failure (status_of g a) = true ∧ a ∈ deps_at g b ∧
  (is_open (status_of g b) = true ∨ status_of g b = TaskBlocked) ∧
  deps_at g c = [b] ∧ Tasks g !! c = Some t ∧ is_open (Task_Status t) = true.

Lemma failed_chain_propagate g a b c t :
  failed_chain g a b c t →
  status_of (PropagateFailures g) b = TaskBlocked ∧
  Tasks (PropagateFailures g) !! c = Some t ∧ c ∉ ReadyTasks (PropagateFailures g).
Proof.
  intros (Ha & Hab & Hb & Hc & Ht & Ho).
  assert (status_of (PropagateFailures g) b = TaskBlocked) as Hblk.
  { destruct Hb as [Hb|Hb].
    - unfold status_of, task_at. rewrite propagate_lookup.
      unfold status_of, task_at in Hb. destruct (Tasks g !! b) as [tb|]; [|done].
      simpl in *. unfold block. rewrite Hb.
      assert (blocked_by g b = true) as ->; [|done].
      apply existsb_exists. exists a. by rewrite <-list_elem_of_In.
    - unfold status_of, task_at. rewrite propagate_settled; [done|by rewrite Hb]. }
  split_and!; [done| |].
  - rewrite propagate_lookup, Ht. simpl. unfold block, blocked_by. rewrite Hc. simpl.
    fold (status_of g b). rewrite orb_false_r.
    assert (is_failure (status_of g b) = false) as ->.
    { destruct Hb as [Hb|Hb]; [|by rewrite Hb].
      unfold is_open in Hb. by destruct (status_of g b). }
    by rewrite andb_false_r.
  - rewrite elem_of_ReadyTasks, is_ready_spec, deps_at_propagate, Hc.
    intros (_ & _ & Hd). specialize (Hd b ltac:(set_solver)).
    unfold status_of in Hblk. congruence.
Qed.

Lemma failed_chain_round wave l g a b c t :
  ids_ok (Tasks g) → failed_chain g a b c t → failed_chain (round_graph wave l g) a b c t.
Proof.
  intros Hids Hch. pose proof (failed_chain_propagate g a b c t Hch) as (Hb & Ht & Hr).
  destruct Hch as (Ha & Hab & _ & Hc & _ & Ho).
  unfold failed_chain. rewrite !deps_at_round. split_and!; [|done| |done| |done].
  - unfold status_of, task_at, round_graph. simpl. rewrite round_settled; [done|done|].
    by destruct (status_of g a).
  - right. unfold status_of, task_at, round_graph. simpl. rewrite round_lookup by done.
    case_decide as Hrb; [|exact Hb]. apply ready_open in Hrb. by rewrite Hb in Hrb.
  - unfold round_graph. simpl. rewrite round_lookup by done.
    rewrite decide_False by done. done.
Qed.

Lemma rounds_failed_chain l wave w w' waves a b c t :
  rounds_to l wave w w' None waves → ids_ok (Tasks (Workflow_Graph w)) →
  failed_chain (Workflow_Graph w) a b c t →
  status_of (Workflow_Graph w') b = TaskBlocked ∧
  Tasks (Workflow_Graph w') !! c = Some t.
Proof.
  intros Hrel. remember None as err eqn:Herr. revert Herr.
  induction Hrel as [|wave w g Hc -> Hr Ha|wave w g Hc -> Hr Ha|
    wave w g ready Hc -> -> Hr Ha|wave w g ready w' err waves Hc -> -> Hr Ha Hrec IH];
    intros Herr Hids Hch; simpl in *; [done| | | |].
  - by destruct (failed_chain_propagate _ _ _ _ _ Hch) as (? & ? & _).
  - by destruct (failed_chain_propagate _ _ _ _ _ Hch) as (? & ? & _).
  - exfalso. apply (failed_chain_round wave l) in Hch as (_ & _ & _ & _ & Ht & Ho); [|done].
    eapply some_status_false in Ha; [|exact Ht].
    unfold is_active in Ha. by rewrite Ho in Ha.
  - apply IH; [done|by apply round_ids|by apply failed_chain_round].
Qed.
End facts.

(** ** Properties *)

(** C8: a run always ends: on a graph that validates, if the executor never
    answers with PENDING or READY, as many rounds as the graph has tasks, plus
    one, are enough, whatever the executor, the clock and the context do. *)
Theorem Run_terminates `{MapOrder} env s w :
  executor_settles env →
  is_Some (Run env (S (size (Tasks (Workflow_Graph w)))) s w).
Proof.
  intros Hs. unfold Run. destruct (ValidateGraph _) eqn:Hv; [by eexists|].
  destruct (HasExecutor s); [|by eexists].
  apply rounds_terminate; [done|by apply validated_ids|].
  apply Nat.lt_succ_r, open_set_size.
Qed.

(** C9: dependency order.  A task is launched only when it was waiting to run
    at the start; each of its dependencies had succeeded before the run or was
    launched in a strictly earlier wave, and is marked SUCCEEDED when the run
    ends.  No wave launches a task twice, and with an executor that never
    answers PENDING or READY no task is launched twice in the whole run. *)
Theorem Run_dependency_order `{MapOrder} env fuel s w w' err waves :
  Run env fuel s w = Some (w', err, waves) →
  let g := Workflow_Graph w in
  (∀ i ready id, waves !! i = Some ready → id ∈ ready →
    (Task_Status (task_at g id) = TaskPending ∨ Task_Status (task_at g id) = TaskReady) ∧
    ∀ d, d ∈ deps_at g id →
      Task_Status (task_at (Workflow_Graph w') d) = TaskSucceeded ∧
      (Task_Status (task_at g d) = TaskSucceeded ∨
       ∃ j ready', (j < i)%nat ∧ waves !! j = Some ready' ∧ d ∈ ready')) ∧
  Forall NoDup waves ∧
  (executor_settles env → NoDup (concat waves)).
Proof.
  intros [(-> & _)|[Hids Hrel]]%Run_inv g; [by repeat constructor|].
  split_and!; [|by eapply rounds_nodup|intros Hs; by eapply rounds_once].
  intros i ready id Hi Hid.
  pose proof (rounds_launched env _ _ _ _ _ _ Hrel Hids ready id) as Hl.
  destruct Hl as [Ho Hd]; [by eapply list_elem_of_lookup_2|done|].
  split.
  - unfold is_open, status_of in Ho. simpl in Ho.
    by rewrite orb_true_iff, !bool_decide_eq_true in Ho.
  - intros d Hdd. split; [by apply Hd|].
    by eapply (rounds_waves_ordered env _ _ _ _ _ _ Hrel Hids).
Qed.

(** C10: the status a run reports is the truth about its tasks.  SUCCEEDED means
    that no task is pending, ready or running and none failed or timed out;
    FAILED that none is pending, ready or running and one failed or timed out;
    otherwise the workflow is still RUNNING, some task is pending, ready or
    running and no task is ready. *)
Theorem Run_outcome `{MapOrder} env fuel s w w' waves :
  Run env fuel s w = Some (w', None, waves) →
  let some_task p := ∃ id t, Tasks (Workflow_Graph w') !! id = Some t ∧ p (Task_Status t) in
  let active st := st = TaskPending ∨ st = TaskReady ∨ st = TaskRunning in
  let failed st := st = TaskFailed ∨ st = TaskTimedOut in
  (Workflow_Status w' = WorkflowSucceeded ∧ ¬ some_task active ∧ ¬ some_task failed) ∨
  (Workflow_Status w' = WorkflowFailed ∧ ¬ some_task active ∧ some_task failed) ∨
  (Workflow_Status w' = WorkflowRunning ∧ some_task active ∧
   ReadyTasks (Workflow_Graph w') = []).
Proof.
  intros [(_ & _ & Herr)|[Hids Hrel]]%Run_inv some_task active failed; [done|].
  apply rounds_outcome in Hrel; [|done]. simpl in Hrel.
  assert (∀ p (P : TaskStatus → Prop), (∀ st, p st = true ↔ P st) →
    (some_status p (Tasks (Workflow_Graph w')) = true → some_task P) ∧
    (some_status p (Tasks (Workflow_Graph w')) = false → ¬ some_task P)) as Hp.
  { intros p P HP. rewrite <-not_true_iff_false, some_status_true.
    unfold some_task. setoid_rewrite HP. done. }
  destruct (Hp is_active active) as [Ha1 Ha2].
  { intros st. unfold is_active, is_open, active.
    rewrite !orb_true_iff, !bool_decide_eq_true. tauto. }
  destruct (Hp is_failed failed) as [Hf1 Hf2].
  { intros st. unfold is_failed, failed. by rewrite !orb_true_iff, !bool_decide_eq_true. }
  naive_solver.
Qed.

(** [executeWithRetry] calls the executor at least once and at most
    [max(1, MaxAttempts)] times, with the attempts numbered from 1; every call
    but the last failed with an error that is retried, and the answer is that
    of the last call (its error with an empty result when it failed). *)
Theorem executeWithRetry_correct env wave task run :
  let '(answer, calls) := executeWithRetry env wave task run in
  attempts_ok env wave task run 1 calls answer ∧
  1 ≤ Z.of_nat (length calls) ≤ Z.max 1 (Retry_MaxAttempts (Task_Retry task)).
Proof.
  assert (1 ≤ attempts_of task ∧
    attempts_of task = Z.max 1 (Retry_MaxAttempts (Task_Retry task))) as [H1 Hm].
  { unfold attempts_of. case_match; lia. }
  pose proof (attempt_loop_ok env wave task run (Z.to_nat (attempts_of task)) 1 None
    ltac:(lia) ltac:(lia)) as Hok.
  unfold executeWithRetry. destruct (attempt_loop _ _ _ _ _ _ _) as [answer calls].
  simpl in Hok. split; [done|]. apply attempts_ok_length in Hok; lia.
Qed.

(** Failures do not reach beyond the direct dependents.  If [a] failed, [b]
    depends on [a] and [c] depends on [b] only, then a run that returns without
    error leaves [b] BLOCKED and [c] exactly as it was, pending or ready, and
    returns with the workflow still RUNNING: [PropagateFailures] treats a
    blocked dependency as no failure, so [c] can neither run nor be blocked. *)
Theorem Run_stalls_behind_blocked `{MapOrder} env fuel s w w' waves a b c t :
  Run env fuel s w = Some (w', None, waves) →
  failed_chain (Workflow_Graph w) a b c t →
  Task_Status (task_at (Workflow_Graph w') b) = TaskBlocked ∧
  Tasks (Workflow_Graph w') !! c = Some t ∧
  Workflow_Status w' = WorkflowRunning.
Proof.
  intros [(_ & _ & Herr)|[Hids Hrel]]%Run_inv Hch; [done|].
  pose proof (rounds_failed_chain env _ _ _ _ _ a b c t Hrel Hids Hch) as [Hb Hc].
  split_and!; [done|done|].
  destruct Hch as (_ & _ & _ & _ & _ & Ho).
  assert (some_status is_active (Tasks (Workflow_Graph w')) = true) as Ha.
  { apply some_status_true. exists c, t. split; [done|]. unfold is_active. by rewrite Ho. }
  apply rounds_outcome in Hrel; [|done]. simpl in Hrel. rewrite Ha in Hrel. naive_solver.
Qed.

(** ** Witnesses: a chain of three tasks *)

Definition chain_task (id : string) (st : TaskStatus) : Task :=
  zero_Task <| Task_ID := id |> <| Task_Status := st |>.
Definition chain_graph (st : TaskStatus) : TaskGraph := {|
  Tasks := list_to_map ((λ '(id, st), (id, chain_task id st)) <$>
    [("a", st); ("b", TaskPending); ("c", TaskPending)]);
  Dependencies := list_to_map [("b", ["a"]); ("c", ["b"])]
|}.
Definition chain_workflow (st : TaskStatus) : Workflow :=
  mkWorkflow "w" "p" "goal" WorkflowPlanned DependencyDriven ContinueIndependent 3 0 0
    (chain_graph st).
Definition chain_env : Env := {|
  ctx_err _ := None;
  run_clock _ _ := 0;
  execute _ _ _ := (zero_TaskResult <| TaskResult_Status := TaskSucceeded |>, None)
|}.
Definition chain_run (st : TaskStatus) :=
  Run (H:=canonical_order) chain_env 4 (NewScheduler true 2) (chain_workflow st).

Lemma chain_env_settles : executor_settles chain_env.
Proof. intros wave task run r. by intros [= <-]. Qed.

Lemma Run_terminates_witness : is_Some (chain_run TaskPending).
Proof.
  exact (Run_terminates (H:=canonical_order) chain_env (NewScheduler true 2)
    (chain_workflow TaskPending) chain_env_settles).
Defined.

Lemma Run_dependency_order_witness :
  ∃ w' err, chain_run TaskPending = Some (w', err, [["a"]; ["b"]; ["c"]]) ∧
    Task_Status (task_at (Workflow_Graph w') "a") = TaskSucceeded ∧
    NoDup ["a"; "b"; "c"].
Proof.
  destruct (chain_run TaskPending) as [[[w' err] waves]|] eqn:E;
    [|vm_compute in E; discriminate].
  exists w', err. assert (waves = [["a"]; ["b"]; ["c"]]) as ->.
  { vm_compute in E. congruence. }
  split; [done|].
  destruct (Run_dependency_order (H:=canonical_order) _ _ _ _ _ _ _ E)
    as (Hd & _ & Hn).
  split; [|by apply Hn, chain_env_settles].
  refine (proj1 (proj2 (Hd 1%nat ["b"] "b" _ _) "a" _)); [done|by left|by left].
Defined.

Lemma Run_outcome_witness :
  ∃ w' waves, chain_run TaskPending = Some (w', None, waves) ∧
    Workflow_Status w' = WorkflowSucceeded.
Proof.
  destruct (chain_run TaskPending) as [[[w' err] waves]|] eqn:E;
    [|vm_compute in E; discriminate].
  assert (err = None) as -> by (vm_compute in E; congruence).
  exists w', waves. split; [done|].
  destruct (Run_outcome (H:=canonical_order) _ _ _ _ _ _ E)
    as [(Hs & _)|[(Hs & _)|(Hs & _)]]; [done|..];
    vm_compute in E; injection E as <- <-; vm_compute in Hs; discriminate.
Defined.

Lemma Run_stalls_behind_blocked_witness :
  ∃ w' waves, chain_run TaskFailed = Some (w', None, waves) ∧
    Workflow_Status w' = WorkflowRunning.
Proof.
  destruct (chain_run TaskFailed) as [[[w' err] waves]|] eqn:E;
    [|vm_compute in E; discriminate].
  assert (err = None) as -> by (vm_compute in E; congruence).
  exists w', waves. split; [done|].
  refine (proj2 (proj2 (Run_stalls_behind_blocked (H:=canonical_order) _ _ _ _ _ _
    "a" "b" "c" (chain_task "c" TaskPending) E _))).
  split_and!; [done|by left|by left|done..].
Defined.

(** ** A run that goes well

    No task of the graph has failed, the context stays alive and every task succeeds
    within its attempts.  An acyclic graph then always has a ready task until all have
    succeeded, which is where [ValidateGraph] meets the loop of [Run]. *)

(** Induction along the dependencies of a graph that validates: the search of
    [ValidateGraph] has followed each of them to its end. *)
Lemma dependency_ind `{MapOrder} g (P : string → Prop) :
  ValidateGraph g = None →
  (∀ id, is_Some (Tasks g !! id) → (∀ d, d ∈ deps_at g id → P d) → P id) →
  ∀ id, is_Some (Tasks g !! id) → P id.
Proof.
  intros Hv Hstep id Hid. pose proof Hv as [Hwf _]%validate_none_iff.
  unfold ValidateGraph in Hv. destruct (check_tasks g _); [done|].
  pose proof (search_cases (sorted_deps g) (λ _ _, None) (λ _, ErrCycle) _
    (closed g Hwf) (SortedTaskIDs 1 g)) as Hc.
  unfold graph_search in Hv. destruct (search _ _ _ _ _) as [st|e|]; [|done..].
  specialize (Hc ltac:(by rewrite SortedTaskIDs_dom) id
    ltac:(by apply elem_of_SortedTaskIDs)).
  induction Hc as [id _ _ IH]. apply Hstep; [done|]. intros d Hd.
  apply IH; [by apply elem_of_sort_strings|].
  destruct Hid as [t Ht]. by eapply wf_present; [apply Hwf|].
Qed.

Section live.
Context `{MapOrder} (env : Env) (g0 : TaskGraph).

Definition succeeded (t : Task) : Task := t <| Task_Status := TaskSucceeded |>.

(** Nothing has gone wrong yet. *)
Definition startable : Prop :=
  ∀ id t, Tasks g0 !! id = Some t →
    is_open (Task_Status t) = true ∨ Task_Status t = TaskSucceeded.
(** Every task is a success in the end, whatever the wave it is run in. *)
Definition all_succeed : Prop :=
  ∀ wave id t, Tasks g0 !! id = Some t → run_status env wave (running t) = TaskSucceeded.

(** Between two rounds: each task is as it was or has succeeded. *)
Record advanced (g : TaskGraph) : Prop := {
  adv_deps : Dependencies g = Dependencies g0;
  adv_task : ∀ id, Tasks g !! id = Tasks g0 !! id ∨
    Tasks g !! id = succeeded <$> Tasks g0 !! id
}.

Context (Hvalid : ValidateGraph g0 = None) (Hstart : startable)
  (Hexec : all_succeed) (Hctx : ∀ wave, ctx_err env wave = None).

Lemma advanced_inv g id t :
  advanced g → Tasks g !! id = Some t →
  ∃ t0, Tasks g0 !! id = Some t0 ∧ Task_ID t0 = id ∧
    (t = t0 ∧ is_open (Task_Status t) = true ∨ t = succeeded t0).
Proof.
  intros [_ Ha] Ht.
  assert (∀ t0, Tasks g0 !! id = Some t0 → Task_ID t0 = id) as Hid
    by (intros t0; by apply validated_ids).
  destruct (Ha id) as [E|E]; rewrite Ht in E.
  - symmetry in E. exists t. split; [done|]. split; [by apply Hid|].
    destruct (Hstart _ _ E) as [Ho|Ho]; [by left|right].
    destruct t. simpl in Ho. by subst.
  - symmetry in E. apply fmap_Some in E as (t0 & E & ->).
    exists t0. split_and!; [done|by apply Hid|by right].
Qed.

Lemma advanced_ids g : advanced g → ids_ok (Tasks g).
Proof. intros Ha id t Ht. destruct (advanced_inv g id t Ha Ht) as (t0 & _ & Hid & [[-> _]| ->]); done. Qed.

Lemma advanced_status g id :
  advanced g → is_Some (Tasks g0 !! id) →
  is_open (status_of g id) = true ∨ status_of g id = TaskSucceeded.
Proof.
  intros Ha [t0 Ht0]. unfold status_of, task_at.
  destruct (Tasks g !! id) as [t|] eqn:Ht.
  - destruct (advanced_inv g id t Ha Ht) as (? & _ & _ & [[-> ?]| ->]); [by left|by right].
  - destruct (adv_task g Ha id) as [E|E]; rewrite Ht, Ht0 in E; done.
Qed.

Lemma advanced_dep g id d :
  advanced g → is_Some (Tasks g !! id) → d ∈ deps_at g id → is_Some (Tasks g0 !! d).
Proof.
  intros Ha [t Ht] Hd. destruct (advanced_inv g id t Ha Ht) as (t0 & Ht0 & _).
  apply validate_none_iff in Hvalid as [Hwf _].
  eapply wf_present; [by apply Hwf|]. unfold deps_at in *. by rewrite <-(adv_deps g Ha).
Qed.

(** Nothing failed, so nothing is blocked. *)
Lemma advanced_propagate g : advanced g → PropagateFailures g = g.
Proof.
  intros Ha. rewrite PropagateFailures_eq. unfold propagated.
  enough (map_imap (λ id t, Some (block g id t)) (Tasks g) = Tasks g) as -> by by destruct g.
  apply map_eq. intros id. rewrite map_lookup_imap.
  destruct (Tasks g !! id) as [t|] eqn:Ht; [|done]. simpl. f_equal. unfold block.
  enough (blocked_by g id = false) as -> by by rewrite andb_false_r.
  unfold blocked_by. apply not_true_iff_false. rewrite existsb_exists.
  intros (d & Hd%list_elem_of_In & Hf). fold (status_of g d) in Hf.
  destruct (advanced_status g d Ha) as [Ho|Ho].
  - eapply advanced_dep; [done|by rewrite Ht; eauto|done].
  - by destruct (status_of g d).
  - by rewrite Ho in Hf.
Qed.

(** No ready task is left exactly when all have succeeded. *)
Lemma advanced_finished g :
  advanced g → ReadyTasks g = [] → open_set g = ∅.
Proof.
  intros Ha Hr.
  assert (∀ id, is_Some (Tasks g0 !! id) → status_of g id = TaskSucceeded) as Hall.
  { apply dependency_ind; [done|]. intros id Hid Hd.
    destruct (advanced_status g id Ha Hid) as [Ho|Ho]; [|done].
    assert (id ∈ ReadyTasks g) as Hin; [|by rewrite Hr in Hin; apply elem_of_nil in Hin].
    apply elem_of_ReadyTasks. rewrite is_ready_spec.
    split_and!; [|done|].
    - destruct (Tasks g !! id) eqn:E; [by eauto|].
      unfold status_of, task_at in Ho. by rewrite E in Ho.
    - intros d Hdep. apply Hd. unfold deps_at in *. by rewrite <-(adv_deps g Ha). }
  apply set_eq. intros id. rewrite elem_of_open_set. split; [|set_solver].
  intros Ho. destruct (Tasks g !! id) as [t|] eqn:Ht.
  - destruct (advanced_inv g id t Ha Ht) as (t0 & Ht0 & _).
    by rewrite Hall in Ho by (rewrite Ht0; eauto).
  - unfold status_of, task_at in Ho. by rewrite Ht in Ho.
Qed.

(** A round makes successes of the ready tasks. *)
Lemma round_advanced wave g id :
  advanced g →
  round_tasks env wave ∅ g !! id =
    if decide (id ∈ ReadyTasks g) then succeeded <$> Tasks g !! id else Tasks g !! id.
Proof.
  intros Ha. rewrite round_lookup by by apply advanced_ids.
  rewrite advanced_propagate by done. case_decide as Hr; [|done].
  destruct (Tasks g !! id) as [t|] eqn:Ht; [|done]. simpl. f_equal.
  rewrite decide_False by set_solver.
  destruct (advanced_inv g id t Ha Ht) as (t0 & Ht0 & _ & [[-> _]| ->]);
    [|change (running (succeeded t0)) with (running t0)];
    by rewrite (Hexec wave id t0 Ht0).
Qed.

Lemma advanced_round wave g : advanced g → advanced (round_graph env wave ∅ g).
Proof.
  intros Ha. split.
  - simpl. rewrite advanced_propagate by done. apply adv_deps, Ha.
  - intros id. simpl. rewrite round_advanced by done.
    destruct (adv_task g Ha id) as [->| ->]; case_decide; auto.
    right. by destruct (Tasks g0 !! id).
Qed.

Lemma round_open wave g :
  advanced g →
  list_to_set (ReadyTasks g) ⊆ open_set g ∧
  open_set (round_graph env wave ∅ g) = open_set g ∖ list_to_set (ReadyTasks g).
Proof.
  intros Ha. split.
  - intros id Hid%elem_of_list_to_set. by apply elem_of_open_set, ready_open.
  - apply set_eq. intros id.
    rewrite elem_of_difference, !elem_of_open_set, elem_of_list_to_set.
    unfold status_of, task_at. simpl. rewrite round_advanced by done.
    case_decide as Hr; [|tauto]. split; [|tauto]. by destruct (Tasks g !! id).
Qed.

Definition all_done (w : Workflow) : Workflow :=
  w <| Workflow_Graph := g0 <| Tasks := succeeded <$> Tasks g0 |> |>
    <| Workflow_Status := WorkflowSucceeded |>.

Lemma finish_all_done w :
  advanced (Workflow_Graph w) → open_set (Workflow_Graph w) = ∅ →
  some_status is_active (Tasks (Workflow_Graph w)) = false ∧ finish w = all_done w.
Proof.
  intros Ha Ho. set (g := Workflow_Graph w) in *.
  assert (Tasks g = succeeded <$> Tasks g0) as E.
  { apply map_eq. intros id. rewrite lookup_fmap.
    destruct (adv_task g Ha id) as [E|E]; [|done]. rewrite E.
    destruct (Tasks g0 !! id) as [t|] eqn:Ht; [|done]. simpl. f_equal.
    destruct (Hstart id t Ht) as [Hop|Hop]; [|by destruct t; simpl in *; subst].
    assert (id ∈ open_set g) as Hin; [|by rewrite Ho in Hin].
    apply elem_of_open_set. unfold status_of, task_at. by rewrite E. }
  assert (∀ p, p TaskSucceeded = false → some_status p (Tasks g) = false) as Hs.
  { intros p Hp. apply some_status_false. intros id t.
    rewrite E, lookup_fmap. intros (t0 & _ & ->)%fmap_Some. done. }
  split; [by apply Hs|]. unfold finish, all_done. simpl. rewrite Hs by done.
  f_equal. unfold g in *. destruct w as [? ? ? ? ? ? ? ? ? [ts ds]], Ha as [Hd _].
  simpl in *. subst. by destruct g0.
Qed.

Lemma inactive_open g : some_status is_active (Tasks g) = false → open_set g = ∅.
Proof.
  intros Hs. apply set_eq. intros id. rewrite elem_of_open_set. split; [|set_solver].
  unfold status_of, task_at. destruct (Tasks g !! id) as [t|] eqn:Ht; [|done].
  pose proof (proj1 (some_status_false _ _) Hs id t Ht) as Hn. simpl.
  unfold is_active in Hn. by apply orb_false_iff in Hn as [-> _].
Qed.

(** Each round launches the ready tasks and leaves the other open ones. *)
Lemma rounds_succeed fuel wave w :
  advanced (Workflow_Graph w) →
  (size (open_set (Workflow_Graph w)) < fuel)%nat →
  ∃ waves, rounds env fuel wave ∅ w = Some (all_done w, None, waves) ∧
    concat waves ≡ₚ elements (open_set (Workflow_Graph w)).
Proof.
  revert wave w. induction fuel as [|fuel IH]; intros wave w Ha Hf; [lia|].
  cbn [rounds]. rewrite Hctx, advanced_propagate by done.
  replace (w <| Workflow_Graph := Workflow_Graph w |>) with w by by destruct w.
  destruct (ReadyTasks (Workflow_Graph w)) as [|r ready] eqn:Hr.
  { pose proof (advanced_finished _ Ha Hr) as Ho.
    destruct (finish_all_done w Ha Ho) as [Hs Hd].
    rewrite Hs, Hd, Ho, elements_empty. by exists []. }
  rewrite <-Hr.
  pose proof (advanced_round wave _ Ha) as Ha'.
  destruct (round_open wave _ Ha) as [Hsub Ho].
  assert (elements (open_set (Workflow_Graph w)) ≡ₚ ReadyTasks (Workflow_Graph w) ++
    elements (open_set (round_graph env wave ∅ (Workflow_Graph w)))) as Hperm.
  { rewrite Ho. set (ready' := list_to_set _ : gset string) in *.
    rewrite (union_difference_L ready' (open_set (Workflow_Graph w)) Hsub) at 1.
    rewrite elements_disj_union by set_solver.
    apply Permutation_app_tail, elements_list_to_set, ready_NoDup. }
  assert (with_tasks w (run_wave env wave ∅ (Tasks (Workflow_Graph w))
    (ReadyTasks (Workflow_Graph w))) =
    w <| Workflow_Graph := round_graph env wave ∅ (Workflow_Graph w) |>) as Ew.
  { unfold with_tasks, round_graph, round_tasks. by rewrite advanced_propagate. }
  rewrite Ew. set (w' := w <| Workflow_Graph := _ |>).
  assert (all_done w' = all_done w) as Ed by done.
  destruct (some_status is_active (Tasks (Workflow_Graph w'))) eqn:Hact; simpl.
  - destruct (IH (S wave) w' Ha') as (waves & -> & Hw).
    { eapply Nat.lt_le_trans; [|apply Nat.lt_succ_r, Hf].
      change (Workflow_Graph w') with (round_graph env wave ∅ (Workflow_Graph w)).
      unfold size, set_size. simpl. rewrite (Permutation_length Hperm), length_app, Hr.
      simpl. lia. }
    exists (ReadyTasks (Workflow_Graph w) :: waves). split; [done|].
    simpl. by rewrite Hw, Hperm.
  - apply inactive_open in Hact as Ho'.
    destruct (finish_all_done w' Ha' Ho') as [_ ->].
    eexists. split; [done|]. simpl in Ho'. simpl.
    by rewrite Hperm, Ho', elements_empty.
Qed.
End live.

(** *** Property *)

(** C3: progress.  If the graph validates, no task of it has failed or is
    running, the executor exists, the context stays alive and each task ends as
    a success within its attempts, then [Run] returns without error within as
    many rounds as the graph has tasks, plus one: the workflow is SUCCEEDED, its
    graph is the one it had with every task SUCCEEDED, nothing else of it
    changed, and the waves launched every task that was pending or ready exactly
    once. *)
Theorem Run_succeeds `{MapOrder} env s w :
  let g := Workflow_Graph w in
  ValidateGraph g = None → HasExecutor s = true → locks s = ∅ →
  (∀ wave, ctx_err env wave = None) → startable g → all_succeed env g →
  ∃ waves,
    Run env (S (size (Tasks g))) s w =
      Some (w <| Workflow_Graph := g <| Tasks := succeeded <$> Tasks g |> |>
              <| Workflow_Status := WorkflowSucceeded |>, None, waves) ∧
    concat waves ≡ₚ elements (open_set g).
Proof.
  intros g Hv He Hl Hc Hs Hx. unfold Run. fold g. rewrite Hv, He, Hl.
  destruct (rounds_succeed env g Hv Hs Hx Hc (S (size (Tasks g))) 0
    (w <| Workflow_Status := WorkflowRunning |>)) as (waves & Hr & Hw).
  - split; auto.
  - simpl. fold g. apply Nat.lt_succ_r, open_set_size.
  - exists waves. by rewrite Hr.
Qed.

(** *** Witness: three tasks in a row, each failing at its first attempt *)

Definition flaky_task (id : string) : string * Task :=
  (id, (chain_task id TaskPending) <| Task_Retry := mkRetryPolicy 2 [] |>).
Definition flaky_workflow : Workflow :=
  (chain_workflow TaskPending) <| Workflow_Graph :=
    mkTaskGraph (list_to_map (flaky_task <$> ["a"; "b"; "c"]))
      (list_to_map [("b", ["a"]); ("c", ["b"])]) |>.
Definition flaky_env : Env := {|
  ctx_err _ := None;
  run_clock _ _ := 0;
  execute _ _ run :=
    if TaskRun_Attempt run =? 1 then (zero_TaskResult, Some context_DeadlineExceeded)
    else (zero_TaskResult, None)
|}.

Lemma flaky_tasks (P : string → Task → Prop) :
  (∀ id, id ∈ ["a"; "b"; "c"] → P id (flaky_task id).2) →
  ∀ id t, Tasks (Workflow_Graph flaky_workflow) !! id = Some t → P id t.
Proof.
  intros HP id t Ht. apply elem_of_list_to_map_2 in Ht.
  apply list_elem_of_fmap in Ht as (id' & [= -> ->] & Hid). by apply (HP id').
Qed.

Lemma flaky_open : elements (open_set (Workflow_Graph flaky_workflow)) ≡ₚ ["a"; "b"; "c"].
Proof.
  replace (elements _) with ["c"; "a"; "b"] by (vm_compute; reflexivity).
  apply (Permutation_app_comm ["c"] ["a"; "b"]).
Qed.

Lemma Run_succeeds_witness :
  ∃ w' waves,
    Run (H:=canonical_order) flaky_env 4 (NewScheduler true 2) flaky_workflow =
      Some (w', None, waves) ∧
    Workflow_Status w' = WorkflowSucceeded ∧ concat waves ≡ₚ ["a"; "b"; "c"].
Proof.
  destruct (Run_succeeds (H:=canonical_order) flaky_env (NewScheduler true 2)
    flaky_workflow) as (waves & Hr & Hw).
  - by vm_compute.
  - done.
  - done.
  - done.
  - unfold startable. apply flaky_tasks. by left.
  - intros wave. apply flaky_tasks. intros id _. done.
  - eexists _, waves. split; [exact Hr|]. split; [done|].
    transitivity (elements (open_set (Workflow_Graph flaky_workflow))); [exact Hw|].
    exact flaky_open.
Defined.
