(* ===== verification/SchedulerWave.v ===== *)
(** * Orchestration: a wave as concurrent goroutines

    The loop of [Run] that launches a wave, and the goroutines it spawns, as a
    step relation: every access to the shared task map and to the semaphore is
    a step of its own, and the steps of the launching loop and of the goroutines
    interleave freely.  The sequential [run_wave] of [Scheduler.v] is shown to
    be what every interleaving ends with, at most [MaxParallel] goroutines hold
    a slot at any time, and a wave never gets stuck. *)

From S2P Require Import Prelude Dfs OrchTypes OrchGraph Scheduler SchedulerFacts.
Import orchestration graph scheduler.

Module wave.

(** How far a goroutine has come.  [task] is the argument it was started with,
    [updated] the value it has read from the map and changed. *)
(* src: internal/orchestration/scheduler.go:84-108 (Run) *)
Inductive phase :=
  | Spawned (task : Task)
  | Holding (task : Task)
  | Updating (task updated : Task)
  | Written (task : Task)
  | Finished.

(** The goroutine has a slot of the semaphore. *)
Definition holds_slot (p : phase) : bool :=
  match p with Holding _ | Updating _ _ | Written _ => true | _ => false end.

(** The rest of the launching loop, the task map, the locks, the goroutines. *)
Record state := mkState {
  todo : list string;
  tasks : gmap string Task;
  held : gset string;
  goroutines : gmap string phase
}.
#[global] Instance phase_finished_dec p : Decision (p = Finished).
Proof. destruct p; (by left) || (by right). Defined.
#[global] Instance eta_state : Eta state := λ st,
  mkState (todo st) (tasks st) (held st) (goroutines st).

Definition slots (g : gmap string phase) : nat :=
  size (filter (λ kv, holds_slot kv.2 = true) g).

Section wave.
Context `{MapOrder} (env : Env) (wave : nat) (max : Z).

(* src: internal/orchestration/scheduler.go:75-110 (Run) *)
Inductive wave_step : state → state → Prop :=
  | step_launch st id rest l :
      todo st = id :: rest → lockTask (held st) id = (l, true) →
      let task := running (default zero_Task (tasks st !! id)) in
      wave_step st (mkState rest (<[id := task]> (tasks st)) l
        (<[id := Spawned task]> (goroutines st)))
  | step_locked st id rest l :
      todo st = id :: rest → lockTask (held st) id = (l, false) →
      let task := running (default zero_Task (tasks st !! id)) in
      wave_step st (mkState rest (<[id := task]> (tasks st)) l (goroutines st))
  | step_acquire st id task :
      goroutines st !! id = Some (Spawned task) →
      Z.of_nat (slots (goroutines st)) < max →
      wave_step st (st <| goroutines := <[id := Holding task]> (goroutines st) |>)
  | step_read st id task :
      goroutines st !! id = Some (Holding task) →
      let updated := (default zero_Task (tasks st !! Task_ID task))
                       <| Task_Status := run_status env wave task |> in
      wave_step st
        (st <| goroutines := <[id := Updating task updated]> (goroutines st) |>)
  | step_write st id task updated :
      goroutines st !! id = Some (Updating task updated) →
      wave_step st (mkState (todo st) (<[Task_ID task := updated]> (tasks st)) (held st)
        (<[id := Written task]> (goroutines st)))
  | step_release st id task :
      goroutines st !! id = Some (Written task) →
      wave_step st (mkState (todo st) (tasks st) (unlockTask (held st) (Task_ID task))
        (<[id := Finished]> (goroutines st))).

(** [wg.Wait()] returns. *)
Definition wave_over (st : state) : Prop :=
  todo st = [] ∧ map_Forall (λ _ p, p = Finished) (goroutines st).

Definition wave_start (l : gset string) (ts : gmap string Task) (ready : list string)
    : state := mkState ready ts l ∅.

(** ** The invariant *)

Section invariant.
Context (l0 : gset string) (ts0 : gmap string Task) (ready : list string).
Hypothesis Hids : ids_ok ts0.
Hypothesis Hnodup : NoDup ready.
Hypothesis Hready : ∀ id, id ∈ ready → is_Some (ts0 !! id).

Definition run_task (k : string) : Task := running (default zero_Task (ts0 !! k)).
Definition done_task (k : string) : Task :=
  (run_task k) <| Task_Status := run_status env wave (run_task k) |>.

Definition phase_ok (k : string) (p : phase) (now : option Task) : Prop :=
  match p with
  | Spawned t | Holding t => t = run_task k ∧ now = Some (run_task k)
  | Updating t u => t = run_task k ∧ u = done_task k ∧ now = Some (run_task k)
  | Written t => t = run_task k ∧ now = Some (done_task k)
  | Finished => now = Some (done_task k)
  end.

(** What is known of one identifier: not launched, launched while another run
    had it locked, or launched with a goroutine of its own. *)
Inductive key_ok (st : state) (k : string) : Prop :=
  | key_waiting :
      (k ∉ ready ∨ k ∈ todo st) → tasks st !! k = ts0 !! k →
      goroutines st !! k = None → (k ∈ held st ↔ k ∈ l0) → key_ok st k
  | key_locked :
      k ∈ ready → k ∉ todo st → k ∈ l0 → tasks st !! k = Some (run_task k) →
      goroutines st !! k = None → k ∈ held st → key_ok st k
  | key_started p :
      k ∈ ready → k ∉ todo st → k ∉ l0 → goroutines st !! k = Some p →
      phase_ok k p (tasks st !! k) → (k ∈ held st ↔ p ≠ Finished) → key_ok st k.

Record wave_inv (st : state) : Prop := {
  inv_suffix : todo st `suffix_of` ready;
  inv_keys : ∀ k, key_ok st k;
  inv_slots : 1 ≤ max → Z.of_nat (slots (goroutines st)) ≤ max
}.

Lemma run_task_id k : k ∈ ready → Task_ID (run_task k) = k.
Proof. intros [t Ht]%Hready. unfold run_task. rewrite Ht. exact (Hids _ _ Ht). Qed.

Lemma wave_inv_start : wave_inv (wave_start l0 ts0 ready).
Proof.
  split; simpl; [done| |].
  - intros k. apply key_waiting; simpl; [|done..].
    destruct (decide (k ∈ ready)); auto.
  - intros. unfold slots. rewrite map_filter_empty, map_size_empty. lia.
Qed.

(** A step of the goroutine or launch of [id] leaves the other keys alone. *)
Lemma key_ok_other st st' k :
  key_ok st k → (k ∈ todo st' ↔ k ∈ todo st) → tasks st' !! k = tasks st !! k →
  goroutines st' !! k = goroutines st !! k → (k ∈ held st' ↔ k ∈ held st) →
  key_ok st' k.
Proof.
  intros [Hr Ht Hg Hh|Hr Hn Hl Ht Hg Hh|p Hr Hn Hl Hg Hp Hh] Ht1 Ht2 Hg' Hh'.
  - apply key_waiting; [rewrite Ht1; done|congruence|congruence|tauto].
  - apply key_locked; [done|tauto|done|congruence|congruence|tauto].
  - apply (key_started _ _ p); [done|tauto|done|congruence|by rewrite Ht2|tauto].
Qed.

Lemma key_started_inv st k p :
  key_ok st k → goroutines st !! k = Some p →
  k ∈ ready ∧ k ∉ todo st ∧ k ∉ l0 ∧ phase_ok k p (tasks st !! k) ∧
  (k ∈ held st ↔ p ≠ Finished).
Proof.
  intros [? ? Hg ?|? ? ? ? Hg ?|p' ? ? ? Hg ? ?] Hp; [congruence..|].
  rewrite Hp in Hg. by simplify_eq.
Qed.

Lemma key_todo_inv st k :
  key_ok st k → k ∈ todo st →
  tasks st !! k = ts0 !! k ∧ goroutines st !! k = None ∧ (k ∈ held st ↔ k ∈ l0).
Proof. by intros [? ? ? ?|_ Hn|p _ Hn] Hk. Qed.

Lemma suffix_head_fresh (id : string) rest :
  id :: rest `suffix_of` ready → id ∈ ready ∧ id ∉ rest.
Proof.
  intros [pre Hpre]. rewrite Hpre in Hnodup. split; [rewrite Hpre; set_solver|].
  apply NoDup_app in Hnodup as (_ & _ & Hn). by apply NoDup_cons in Hn as [? _].
Qed.

Lemma slots_set g id p :
  slots (<[id:=p]> g) = (slots (delete id g) + if holds_slot p then 1 else 0)%nat.
Proof.
  unfold slots. rewrite map_filter_insert. simpl. case_decide as Hp.
  - rewrite Hp, map_filter_delete, <-insert_delete_eq.
    rewrite map_size_insert_None by apply lookup_delete_eq. lia.
  - apply not_true_iff_false in Hp. rewrite Hp. lia.
Qed.

Lemma slots_insert g id p p' :
  g !! id = Some p →
  (slots (<[id:=p']> g) + (if holds_slot p then 1 else 0) =
   slots g + (if holds_slot p' then 1 else 0))%nat.
Proof.
  intros Hid. rewrite slots_set. rewrite <-(insert_id g id p Hid) at 2.
  rewrite slots_set. lia.
Qed.

Lemma slots_spawn g id task :
  g !! id = None → slots (<[id:=Spawned task]> g) = slots g.
Proof. intros Hid. rewrite slots_set, delete_id by done. simpl. lia. Qed.

(** The goroutine of [id] moves from [p] to [p']. *)
Lemma wave_inv_move st id p p' ts' l' :
  wave_inv st → goroutines st !! id = Some p →
  (∀ k, k ≠ id → ts' !! k = tasks st !! k) →
  (∀ k, k ≠ id → k ∈ l' ↔ k ∈ held st) →
  phase_ok id p' (ts' !! id) → (id ∈ l' ↔ p' ≠ Finished) →
  (holds_slot p' = true → holds_slot p = true ∨ Z.of_nat (slots (goroutines st)) < max) →
  wave_inv (mkState (todo st) ts' l' (<[id:=p']> (goroutines st))).
Proof.
  intros [Hsuf Hkeys Hslots] Hp Hts Hl Hok Hheld Hslot. split; simpl; [done| |].
  - intros k. destruct (decide (k = id)) as [->|Hk].
    + destruct (key_started_inv _ _ _ (Hkeys id) Hp) as (Hr & Hn & Hl0 & _).
      apply (key_started _ _ p'); simpl; [done..|by rewrite lookup_insert_eq|done|done].
    + apply (key_ok_other st); simpl; [done|done|by apply Hts| |by apply Hl].
      by rewrite lookup_insert_ne.
  - intros Hmax. specialize (Hslots Hmax).
    pose proof (slots_insert (goroutines st) id p p' Hp) as Hs.
    destruct (holds_slot p'), (holds_slot p); try lia.
Qed.

Lemma wave_inv_step st st' : wave_inv st → wave_step st st' → wave_inv st'.
Proof.
  intros Hinv Hstep.
  destruct Hstep as [st id rest l Htodo Hlock|st id rest l Htodo Hlock|
    st id task Hp Hmax|st id task Hp|st id task updated Hp|st id task Hp].
  - destruct Hinv as [Hsuf Hkeys Hslots]. rewrite Htodo in Hsuf.
    destruct (suffix_head_fresh id rest Hsuf) as [Hin Hfresh].
    unfold lockTask in Hlock. case_decide as Hid; simplify_eq.
    destruct (key_todo_inv st id (Hkeys id)) as (Ht & Hg & Hh);
      [rewrite Htodo; by left|].
    split; simpl.
    + etrans; [|exact Hsuf]. by apply suffix_cons_r.
    + intros k. destruct (decide (k = id)) as [->|Hk].
      * apply (key_started _ _ (Spawned (run_task id))); simpl; [done..|tauto| | |].
        -- unfold task, run_task. by rewrite lookup_insert_eq, Ht.
        -- unfold task, run_task. by rewrite lookup_insert_eq, Ht.
        -- rewrite elem_of_union, elem_of_singleton. naive_solver.
      * apply (key_ok_other st); simpl; rewrite ?lookup_insert_ne by done;
          [done|rewrite Htodo, elem_of_cons; tauto|done|done|].
        rewrite elem_of_union, elem_of_singleton. tauto.
    + by rewrite slots_spawn.
  - destruct Hinv as [Hsuf Hkeys Hslots]. rewrite Htodo in Hsuf.
    destruct (suffix_head_fresh id rest Hsuf) as [Hin Hfresh].
    unfold lockTask in Hlock. case_decide as Hid; simplify_eq.
    destruct (key_todo_inv st id (Hkeys id)) as (Ht & Hg & Hh);
      [rewrite Htodo; by left|].
    split; simpl; [etrans; [|exact Hsuf]; by apply suffix_cons_r| |done].
    intros k. destruct (decide (k = id)) as [->|Hk].
    + apply key_locked; simpl; [done..|tauto| |done|done].
      unfold task, run_task. by rewrite lookup_insert_eq, Ht.
    + apply (key_ok_other st); simpl; rewrite ?lookup_insert_ne by done;
        [done|rewrite Htodo, elem_of_cons; tauto|done|done|done].
  - destruct (key_started_inv _ _ _ (inv_keys _ Hinv id) Hp) as (Hr & _ & _ & Hok & Hh).
    eapply (wave_inv_move st id (Spawned task));
      [done|done|done|done|exact Hok|naive_solver|by right].
  - destruct (key_started_inv _ _ _ (inv_keys _ Hinv id) Hp)
      as (Hr & _ & _ & [-> Hok] & Hh).
    eapply (wave_inv_move st id (Holding (run_task id)));
      [done|done|done|done| |naive_solver|by left].
    split_and!; [done| |done].
    unfold updated. by rewrite run_task_id, Hok by done.
  - destruct (key_started_inv _ _ _ (inv_keys _ Hinv id) Hp)
      as (Hr & _ & _ & (-> & -> & Hok) & Hh).
    rewrite run_task_id by done.
    eapply (wave_inv_move st id (Updating (run_task id) (done_task id)));
      [done|done| |done| |naive_solver|by left].
    + intros k Hk. by rewrite lookup_insert_ne.
    + split; [done|]. by rewrite lookup_insert_eq.
  - destruct (key_started_inv _ _ _ (inv_keys _ Hinv id) Hp)
      as (Hr & _ & _ & [-> Hok] & Hh).
    rewrite run_task_id by done.
    eapply (wave_inv_move st id (Written (run_task id)));
      [done|done|done| |exact Hok| |by left]; unfold unlockTask;
      setoid_rewrite elem_of_difference; setoid_rewrite elem_of_singleton; naive_solver.
Qed.
Lemma wave_inv_steps st st' : wave_inv st → rtc wave_step st st' → wave_inv st'.
Proof. induction 2; eauto using wave_inv_step. Qed.

Lemma wave_inv_over st :
  wave_inv st → wave_over st →
  tasks st = run_wave env wave l0 ts0 ready ∧ held st = l0.
Proof.
  intros [_ Hkeys _] [Htodo Hfin]. split.
  - apply map_eq. intros k. rewrite run_wave_lookup by done.
    destruct (Hkeys k) as [Hr Ht _ _|Hr Hn Hl Ht _ _|p Hr Hn Hl Hg Hok _].
    + rewrite decide_False by (rewrite Htodo in Hr; set_solver). done.
    + rewrite decide_True by done. destruct (Hready k Hr) as [t Ht0].
      rewrite Ht, Ht0. simpl. rewrite decide_True by done.
      unfold run_task. by rewrite Ht0.
    + rewrite decide_True by done. destruct (Hready k Hr) as [t Ht0].
      apply Hfin in Hg. subst p. simpl in Hok. rewrite Hok, Ht0. simpl.
      rewrite decide_False by done. unfold done_task, run_task. by rewrite Ht0.
  - apply set_eq. intros k.
    destruct (Hkeys k) as [_ _ _ Hh|_ _ Hl _ _ Hh|p _ _ Hl Hg _ Hh]; [done|tauto|].
    apply Hfin in Hg. subst p. naive_solver.
Qed.

(** A wave that is not over can take a step. *)
Lemma wave_inv_progress st :
  1 ≤ max → wave_inv st → wave_over st ∨ ∃ st', wave_step st st'.
Proof.
  intros Hmax [_ Hkeys Hslots].
  destruct (todo st) as [|id rest] eqn:Htodo.
  2: { right. destruct (lockTask (held st) id) as [l []] eqn:Hl;
       eexists; [by eapply step_launch|by eapply step_locked]. }
  destruct (decide (map_Forall (λ _ p, p = Finished) (goroutines st))) as [Hf|Hf].
  { by left. }
  right. apply map_not_Forall in Hf as (id & p & Hp & Hnf); [|apply _].
  destruct p as [t|t|t u|t|]; [|eexists; by econstructor..|done].
  destruct (decide (Z.of_nat (slots (goroutines st)) < max)) as [Hs|Hs].
  { eexists. by eapply step_acquire. }
  assert (slots (goroutines st) ≠ 0%nat) as Hne by lia.
  unfold slots in Hne. apply map_size_ne_0_lookup in Hne as (id' & p' & Hp').
  apply map_lookup_filter_Some in Hp' as [Hp' Hh].
  destruct p'; try done; eexists; by econstructor.
Qed.
End invariant.

(** ** Every interleaving is finite *)

Definition phase_left (p : phase) : nat :=
  match p with
  | Spawned _ => 4 | Holding _ => 3 | Updating _ _ => 2 | Written _ => 1 | Finished => 0
  end.
Definition steps_left (st : state) : nat :=
  (6 * length (todo st) +
   map_fold (λ _ p n, phase_left p + n) 0 (goroutines st))%nat.

Lemma phase_sum_insert (g : gmap string phase) id p :
  (map_fold (λ _ p n, phase_left p + n) 0 (<[id := p]> g) +
     from_option phase_left 0 (g !! id) =
   phase_left p + map_fold (λ _ p n, phase_left p + n) 0 g)%nat.
Proof.
  assert (∀ (m : gmap string phase) q, m !! id = None →
    map_fold (λ _ p n, phase_left p + n)%nat 0%nat (<[id := q]> m) =
    (phase_left q + map_fold (λ _ p n, phase_left p + n) 0 m)%nat) as Hfresh.
  { intros m q Hm. apply (map_fold_insert_L (λ _ p n, phase_left p + n)%nat); [|done].
    intros; lia. }
  destruct (g !! id) as [q|] eqn:Hg; simpl.
  - rewrite <-(insert_delete_eq g id p), Hfresh by apply lookup_delete_eq.
    rewrite <-(insert_delete_id g id q Hg) at 2.
    rewrite Hfresh by apply lookup_delete_eq. lia.
  - rewrite Hfresh by done. lia.
Qed.

Lemma wave_step_decreases st st' : wave_step st st' → (steps_left st' < steps_left st)%nat.
Proof.
  destruct 1 as [st id rest l Ht _ ?|st id rest l Ht _ ?|st id t Hg _
    |st id t Hg ?|st id t u Hg|st id t Hg]; unfold steps_left;
    cbn [todo goroutines set_field eta_state]; try rewrite Ht; simpl length.
  2: lia.
  all: match goal with |- context [<[?i := ?q]> (goroutines ?s)] =>
         pose proof (phase_sum_insert (goroutines s) i q) as Hsum end.
  all: try rewrite Hg in Hsum.
  all: simpl in Hsum |- *; lia.
Qed.

(** C11: However the steps of the launching loop and of the goroutines of a wave
    interleave, the wave ends with the task map [run_wave] computes and with the
    locks it began with; at most [max] goroutines hold a slot at any time; a
    wave that is not over can take a step, and every execution is finite. *)
Theorem wave_interleavings (l0 : gset string) (ts0 : gmap string Task)
    (ready : list string) (st : state) :
  1 ≤ max → ids_ok ts0 → NoDup ready → (∀ id, id ∈ ready → is_Some (ts0 !! id)) →
  rtc wave_step (wave_start l0 ts0 ready) st →
  Z.of_nat (slots (goroutines st)) ≤ max ∧
  (wave_over st ∨ ∃ st', wave_step st st') ∧
  (wave_over st → tasks st = run_wave env wave l0 ts0 ready ∧ held st = l0) ∧
  Acc (λ st2 st1, wave_step st1 st2) st.
Proof.
  intros Hmax Hids Hnodup Hready Hsteps.
  assert (wave_inv l0 ts0 ready st) as Hinv
    by (eapply wave_inv_steps; [done..|by apply wave_inv_start|exact Hsteps]).
  split_and!.
  - by apply Hinv.
  - by eapply wave_inv_progress.
  - intros Hover. by apply wave_inv_over.
  - assert (well_founded (λ st2 st1, wave_step st1 st2)) as Hwf; [|apply Hwf].
    apply (wf_projected lt steps_left); [|exact lt_wf].
    intros x y Hxy. by apply wave_step_decreases.
Qed.

(** ** The unsynchronised map *)

(** Two goroutines are about to write the shared map. *)
Definition racing (st : state) : Prop :=
  ∃ a b ta ua tb ub, a ≠ b ∧
    goroutines st !! a = Some (Updating ta ua) ∧
    goroutines st !! b = Some (Updating tb ub).

(** With two slots or more, a wave of two unlocked tasks reaches a state in
    which two goroutines are both about to write the task map, which nothing
    guards. *)
Theorem wave_map_race (l0 : gset string) (ts0 : gmap string Task) (a b : string) :
  2 ≤ max → a ≠ b → a ∉ l0 → b ∉ l0 →
  ∃ st, rtc wave_step (wave_start l0 ts0 [a; b]) st ∧ racing st.
Proof.
  intros Hmax Hab Ha Hb. eexists. split.
  - eapply rtc_l.
    { eapply (step_launch _ a [b] ({[a]} ∪ l0)); [done|].
      unfold lockTask. simpl. by rewrite decide_False. }
    eapply rtc_l.
    { eapply (step_launch _ b [] ({[b]} ∪ ({[a]} ∪ l0))); [done|].
      unfold lockTask. simpl. rewrite decide_False by set_solver. done. }
    eapply rtc_l.
    { eapply (step_acquire _ a).
      - simpl. rewrite lookup_insert_ne, lookup_insert_eq by done. done.
      - unfold slots. simpl. rewrite map_filter_insert_False, map_filter_delete by done.
        rewrite map_filter_insert_False, map_filter_delete by done.
        rewrite map_filter_empty, !delete_empty, map_size_empty. lia. }
    eapply rtc_l.
    { eapply (step_acquire _ b).
      - simpl. rewrite lookup_insert_ne, lookup_insert_eq by done. done.
      - unfold slots. simpl. rewrite map_filter_insert_True by done.
        rewrite map_filter_insert_False, map_filter_delete by done.
        rewrite map_filter_insert_False, map_filter_delete by done.
        rewrite map_filter_empty, !delete_empty, map_size_insert_None, map_size_empty
          by done. lia. }
    eapply rtc_l.
    { eapply (step_read _ a). simpl.
      rewrite lookup_insert_ne, lookup_insert_eq by done. done. }
    eapply rtc_l.
    { eapply (step_read _ b). simpl.
      rewrite lookup_insert_ne, lookup_insert_eq by done. done. }
    apply rtc_refl.
  - exists a, b. do 4 eexists. split; [done|]. simpl. split.
    + rewrite lookup_insert_ne, lookup_insert_eq by done. done.
    + by rewrite lookup_insert_eq.
Qed.
End wave.
End wave.

(** ** Witnesses: two independent tasks, two slots *)

Definition pair_tasks : gmap string Task :=
  list_to_map [("a", chain_task "a" TaskPending); ("b", chain_task "b" TaskPending)].

Lemma wave_interleavings_witness :
  let st := wave.wave_start ∅ pair_tasks ["a"; "b"] in
  ∃ st', wave.wave_step chain_env 1 2 st st'.
Proof.
  destruct (wave.wave_interleavings chain_env 1 2 ∅ pair_tasks ["a"; "b"]
    (wave.wave_start ∅ pair_tasks ["a"; "b"])) as (_ & [Hover|Hstep] & _).
  - lia.
  - intros id t Ht. apply elem_of_list_to_map_2 in Ht.
    repeat (apply elem_of_cons in Ht as [[= -> ->]|Ht]; [done|]).
    by apply elem_of_nil in Ht.
  - apply (bool_decide_eq_true_1 (NoDup ["a"; "b"])). by vm_compute.
  - intros id Hid. repeat (apply elem_of_cons in Hid as [->|Hid]; [by eexists|]).
    by apply elem_of_nil in Hid.
  - apply rtc_refl.
  - destruct Hover as [Hover _]. discriminate Hover.
  - exact Hstep.
Defined.

Lemma wave_map_race_witness :
  ∃ st, rtc (wave.wave_step chain_env 1 2)
    (wave.wave_start ∅ pair_tasks ["a"; "b"]) st ∧ wave.racing st.
Proof.
  exact (wave.wave_map_race chain_env 1 2 ∅ pair_tasks "a" "b"
    ltac:(lia) ltac:(discriminate) (not_elem_of_empty _) (not_elem_of_empty _)).
Defined.
