(* ===== verification/OrchPlan.v ===== *)
(** * Orchestration: plans and their workflows

    [src/internal/orchestration/service.go]: the deterministic planner,
    [ValidatePlan], which turns a plan into a task graph, and
    [Orchestrator.Plan], which gives the tasks of a validated plan the
    identifiers of a new workflow. *)

From S2P Require Import Prelude Dfs OrchTypes OrchGraph.
Import orchestration graph.

Module plan.

(** The planner interface: [Plan] of the value behind it. *)
(* src: internal/orchestration/types.go:162-164 (Planner) *)
Definition Planner := PlannerInput → result TaskPlan.

(* src: internal/orchestration/service.go:21-23 (Plan) *)
Definition planned_task (input : PlannerInput) (now : Z)
    (id title description taskType : string) (deps : list string) : Task :=
  zero_Task <| Task_ID := id |> <| Task_ProjectID := Intent_ProjectID (Planner_Intent input) |>
    <| Task_Title := title |> <| Task_Description := description |>
    <| Task_TaskType := taskType |> <| Task_Status := TaskPending |>
    <| Task_Dependencies := deps |> <| Task_CreatedAt := now |>.

(* src: internal/orchestration/service.go:14-25 (DeterministicPlanner.Plan) *)
Definition DeterministicPlanner (now : Z) : Planner := λ input,
  let goal := Intent_Goal (Planner_Intent input) in
  if decide (goal = "") then Err (ErrorString "goal is required")
  else
    let root := planned_task input now "analyze" "Analyze request" goal "ARCHITECTURE" [] in
    let implement := planned_task input now "implement" "Implement solution" goal "CODE"
      [Task_ID root] in
    let verify := planned_task input now "verify" "Verify implementation"
      "Run deterministic verification" "TEST" [Task_ID implement] in
    Ok (mkTaskPlan goal [root; implement; verify]
      (list_to_map [(Task_ID root, []); (Task_ID implement, [Task_ID root]);
                    (Task_ID verify, [Task_ID implement])])
      DependencyDriven "MEDIUM").

Section plan.
Context `{MapOrder}.

(* src: internal/orchestration/service.go:30-36 (ValidatePlan) *)
Fixpoint collect_tasks (tasks : list Task) (acc : gmap string Task)
    : result (gmap string Task) :=
  match tasks with
  | [] => Ok acc
  | task :: tasks =>
      match acc !! Task_ID task with
      | Some _ => Err (ErrorString "duplicate task id")
      | None => collect_tasks tasks (<[Task_ID task := task]> acc)
      end
  end.

(** One entry of [graph.Dependencies]: the task is stored back before it is
    looked for, a missing one as the zero task. *)
(* src: internal/orchestration/service.go:37-43 (ValidatePlan) *)
Definition touch_task (acc : result (gmap string Task)) (id : string)
    : result (gmap string Task) :=
  let? tasks := acc in
  let tasks := <[id := default zero_Task (tasks !! id)]> tasks in
  match tasks !! id with
  | None => Err ErrMissingDependency
  | Some _ => Ok tasks
  end.

(* src: internal/orchestration/service.go:26-48 (ValidatePlan) *)
Definition ValidatePlan (plan : TaskPlan) : result TaskGraph :=
  if bool_decide (Plan_Goal plan = "") || bool_decide (Plan_Tasks plan = [])
  then Err (ErrorString "plan requires goal and tasks")
  else
    let? tasks := collect_tasks (Plan_Tasks plan) ∅ in
    let? tasks := foldl touch_task (Ok tasks)
                    (map_range 0 (Plan_Dependencies plan)).*1 in
    let graph := mkTaskGraph tasks (Plan_Dependencies plan) in
    match ValidateGraph graph with
    | Some err => Err err
    | None => Ok graph
    end.

(* src: internal/orchestration/service.go:76-81 (Orchestrator) *)
Record Orchestrator := mkOrchestrator {
  Orchestrator_Planner : option Planner;
  Orchestrator_Now : option Z
}.

(* src: internal/orchestration/service.go:102-102 (Plan) *)
Definition new_id (workflowID id : string) : string := workflowID +:+ "_" +:+ id.
(* src: internal/orchestration/service.go:100-103 (Plan) *)
Definition idMap (workflowID : string) (g : TaskGraph) : gmap string string :=
  list_to_map ((λ id, (id, new_id workflowID id)) <$> (map_range 0 (Tasks g)).*1).

(* src: internal/orchestration/service.go:104-114 (Plan) *)
Definition remap_task (workflowID : string) (ids : gmap string string) (g : TaskGraph)
    (remapped : TaskGraph) (kv : string * Task) : TaskGraph :=
  let '(id, task) := kv in
  let newID := default "" (ids !! id) in
  let task := task <| Task_ID := newID |> <| Task_WorkflowID := workflowID |>
    <| Task_Dependencies := (λ dep, default "" (ids !! dep)) <$> deps_at g id |> in
  mkTaskGraph (<[newID := task]> (Tasks remapped))
    (<[newID := Task_Dependencies task]> (Dependencies remapped)).

(* src: internal/orchestration/service.go:99-114 (Plan) *)
Definition remap (workflowID : string) (g : TaskGraph) : TaskGraph :=
  foldl (remap_task workflowID (idMap workflowID g) g) (mkTaskGraph ∅ ∅)
    (map_range 1 (Tasks g)).

(** [clock] is what [time.Now().UTC()] returns. *)
(* src: internal/orchestration/service.go:83-116 (Orchestrator.Plan) *)
Definition Plan (clock : Z) (o : Orchestrator) (input : PlannerInput) : result Workflow :=
  match Orchestrator_Planner o with
  | None => Err (ErrorString "planner is required")
  | Some planner =>
      let? plan := planner input in
      let? graph := ValidatePlan plan in
      let now := default clock (Orchestrator_Now o) in
      let workflowID := "wf_" +:+ pretty (UnixNano now) in
      Ok (mkWorkflow workflowID (Intent_ProjectID (Planner_Intent input)) (Plan_Goal plan)
        WorkflowPlanned (Plan_Strategy plan) ContinueIndependent 3 now now
        (remap workflowID graph))
  end.

(** ** What a validated plan is *)

Lemma collect_tasks_ok tasks acc r :
  collect_tasks tasks acc = Ok r →
  NoDup (Task_ID <$> tasks) ∧ (∀ t, t ∈ tasks → acc !! Task_ID t = None) ∧
  r = list_to_map ((λ t, (Task_ID t, t)) <$> tasks) ∪ acc.
Proof.
  revert acc. induction tasks as [|t tasks IH]; intros acc; simpl.
  { intros [= <-]. split_and!; [constructor|by intros ? ?%elem_of_nil|by rewrite (left_id_L ∅ (∪))]. }
  destruct (acc !! Task_ID t) eqn:Ht; [done|]. intros (Hnd & Hacc & ->)%IH.
  assert (Task_ID t ∉ Task_ID <$> tasks) as Hfresh.
  { intros (t' & Heq & Hin%Hacc)%list_elem_of_fmap. rewrite Heq, lookup_insert_eq in Hin. done. }
  split_and!.
  - by constructor.
  - intros t' [->|Hin]%elem_of_cons; [done|].
    pose proof (Hacc t' Hin) as Hn. rewrite lookup_insert_None in Hn. tauto.
  - simpl. rewrite <-insert_union_l, insert_union_r; [done|].
    apply not_elem_of_list_to_map_1. by rewrite <-list_fmap_compose.
Qed.

Lemma collect_tasks_nodup tasks acc :
  NoDup (Task_ID <$> tasks) → (∀ t, t ∈ tasks → acc !! Task_ID t = None) →
  ∀ e, collect_tasks tasks acc ≠ Err e.
Proof.
  revert acc. induction tasks as [|t tasks IH]; intros acc; simpl; [done|].
  intros [Hfresh Hnd]%NoDup_cons Hacc e. rewrite Hacc by (by left).
  apply IH; [done|]. intros t' Hin. rewrite lookup_insert_ne.
  - apply Hacc. by right.
  - intros Heq. apply Hfresh. rewrite Heq. by apply list_elem_of_fmap_2.
Qed.

Lemma touch_tasks ids tasks :
  ∃ tasks', foldl touch_task (Ok tasks) ids = Ok tasks' ∧
    ∀ k, tasks' !! k =
      if decide (k ∈ ids) then Some (default zero_Task (tasks !! k)) else tasks !! k.
Proof.
  revert tasks. induction ids as [|id ids IH]; intros tasks; simpl.
  { exists tasks. by split. }
  rewrite lookup_insert_eq.
  destruct (IH (<[id := default zero_Task (tasks !! id)]> tasks)) as (r & -> & Hr).
  exists r. split; [done|]. intros k. rewrite Hr.
  destruct (decide (k = id)) as [->|Hk].
  - rewrite (decide_True _ _ (proj2 (elem_of_cons _ _ _) (or_introl eq_refl))).
    rewrite lookup_insert_eq. simpl. by case_decide.
  - rewrite lookup_insert_ne by done.
    destruct (decide (k ∈ ids)) as [Hin|Hin].
    + by rewrite decide_True by (by right).
    + by rewrite decide_False by (by rewrite elem_of_cons; intros [?|?]).
Qed.

(** The graph of a plan: its tasks by identifier, and a zero task for each other
    key of its dependency map. *)
Definition plan_graph (p : TaskPlan) : TaskGraph :=
  mkTaskGraph
    (list_to_map ((λ t, (Task_ID t, t)) <$> Plan_Tasks p) ∪
     ((λ _, zero_Task) <$> Plan_Dependencies p)) (Plan_Dependencies p).

Lemma ValidatePlan_iff p g :
  ValidatePlan p = Ok g ↔
  Plan_Goal p ≠ "" ∧ Plan_Tasks p ≠ [] ∧ NoDup (Task_ID <$> Plan_Tasks p) ∧
  g = plan_graph p ∧ ValidateGraph g = None.
Proof.
  unfold ValidatePlan. destruct (bool_decide (Plan_Goal p = "") || _) eqn:Hg.
  { apply orb_true_iff in Hg as [Hg%bool_decide_eq_true|Hg%bool_decide_eq_true]; naive_solver. }
  apply orb_false_iff in Hg as [Hg%bool_decide_eq_false Ht%bool_decide_eq_false].
  destruct (collect_tasks _ _) as [tasks|e] eqn:Hc; simpl; cycle 1.
  { split; [done|]. intros (_ & _ & Hnd & _). exfalso.
    by destruct (collect_tasks_nodup _ ∅ Hnd ltac:(done) e). }
  destruct (collect_tasks_ok _ _ _ Hc) as (Hnd & _ & ->).
  destruct (touch_tasks (map_range 0 (Plan_Dependencies p)).*1
    (list_to_map ((λ t, (Task_ID t, t)) <$> Plan_Tasks p) ∪ ∅)) as (tasks' & -> & Hl).
  simpl. assert (mkTaskGraph tasks' (Plan_Dependencies p) = plan_graph p) as Heq.
  { unfold plan_graph. f_equal. apply map_eq. intros k. rewrite Hl.
    rewrite (right_id_L ∅ (∪)), lookup_union, lookup_fmap.
    case_decide as Hk; rewrite elem_of_map_range_keys in Hk.
    - destruct Hk as [d ->]. simpl. by destruct (list_to_map _ !! k).
    - apply eq_None_not_Some in Hk. rewrite Hk. simpl. by destruct (list_to_map _ !! k). }
  rewrite Heq. destruct (ValidateGraph (plan_graph p)) eqn:Hv; naive_solver.
Qed.

(** ** The renamed graph *)

(** [task] under its new name. *)
Definition renamed (wf : string) (g : TaskGraph) (id : string) (t : Task) : Task :=
  t <| Task_ID := new_id wf id |> <| Task_WorkflowID := wf |>
    <| Task_Dependencies := new_id wf <$> deps_at g id |>.

Lemma new_id_inj wf a b : new_id wf a = new_id wf b → a = b.
Proof. unfold new_id. intros Hab. by do 2 apply (inj (String.append _)) in Hab. Qed.

Lemma idMap_lookup wf g id :
  is_Some (Tasks g !! id) → idMap wf g !! id = Some (new_id wf id).
Proof.
  intros Hid. apply elem_of_list_to_map_1.
  - rewrite <-list_fmap_compose, list_fmap_id. apply map_range_keys_nodup.
  - apply list_elem_of_fmap. exists id. split; [done|]. by apply elem_of_map_range_keys.
Qed.

Lemma remap_fold wf ids g l acc k :
  NoDup l.*1 → (∀ id, id ∈ l.*1 → ids !! id = Some (new_id wf id)) →
  (∀ id d, d ∈ deps_at g id → ids !! d = Some (new_id wf d)) →
  Tasks (foldl (remap_task wf ids g) acc l) !! new_id wf k =
    match list_to_map (M:=gmap _ _) l !! k with
    | Some t => Some (renamed wf g k t) | None => Tasks acc !! new_id wf k end ∧
  Dependencies (foldl (remap_task wf ids g) acc l) !! new_id wf k =
    match list_to_map (M:=gmap _ _) l !! k with
    | Some _ => Some (new_id wf <$> deps_at g k)
    | None => Dependencies acc !! new_id wf k end.
Proof.
  intros Hnd Hids Hdeps. revert acc Hnd Hids.
  induction l as [|[id t] l IH]; intros acc; [done|].
  intros [Hfresh Hnd]%NoDup_cons Hids. simpl in Hfresh, Hids. cbn [foldl].
  destruct (IH (remap_task wf ids g acc (id, t)) Hnd) as [-> ->].
  { intros i Hi. apply Hids. by right. }
  simpl. rewrite Hids by (by left). simpl.
  assert ((λ dep, default "" (ids !! dep)) <$> deps_at g id =
    new_id wf <$> deps_at g id) as ->.
  { apply list_fmap_ext. intros i d Hd%list_elem_of_lookup_2. by rewrite (Hdeps id d Hd). }
  destruct (decide (k = id)) as [->|Hk].
  - rewrite !lookup_insert_eq. by rewrite not_elem_of_list_to_map_1.
  - assert (new_id wf id ≠ new_id wf k) by (intros ?%new_id_inj; congruence).
    by rewrite !lookup_insert_ne by done.
Qed.

Lemma remap_fold_range wf ids g l acc n t :
  (∀ id, id ∈ l.*1 → ids !! id = Some (new_id wf id)) →
  Tasks (foldl (remap_task wf ids g) acc l) !! n = Some t →
  (∃ id, id ∈ l.*1 ∧ n = new_id wf id) ∨ Tasks acc !! n = Some t.
Proof.
  revert acc. induction l as [|[id t'] l IH]; intros acc Hids; [by right|].
  simpl. intros [(i & Hi & ->)|Hacc]%IH.
  - left. exists i. split; [by right|done].
  - simpl in Hacc. rewrite Hids in Hacc by (by left). simpl in Hacc.
    apply lookup_insert_Some in Hacc as [[<- _]|[_ Hacc]]; [|by right].
    left. exists id. split; [by left|done].
  - intros i Hi. apply Hids. by right.
Qed.

Lemma remap_lookup wf g k :
  well_formed g →  (∀ id, is_Some (Dependencies g !! id) → is_Some (Tasks g !! id)) →
  Tasks (remap wf g) !! new_id wf k = renamed wf g k <$> Tasks g !! k ∧
  deps_at (remap wf g) (new_id wf k) = new_id wf <$> deps_at g k.
Proof.
  intros Hwf Hdom. unfold remap.
  assert (∀ id, id ∈ (map_range 1 (Tasks g)).*1 → idMap wf g !! id = Some (new_id wf id))
    as Hids. { intros id Hid%elem_of_map_range_keys. by apply idMap_lookup. }
  assert (∀ id d, d ∈ deps_at g id → idMap wf g !! d = Some (new_id wf d)) as Hdeps.
  { intros id d Hd. apply idMap_lookup. destruct (Dependencies g !! id) as [ds|] eqn:Hds.
    - destruct (Hdom id ltac:(by eexists)) as [t Ht]. exact (wf_present _ _ _ (Hwf _ _ Ht) d Hd).
    - unfold deps_at in Hd. rewrite Hds in Hd. by apply elem_of_nil in Hd. }
  destruct (remap_fold wf (idMap wf g) g (map_range 1 (Tasks g)) (mkTaskGraph ∅ ∅) k
    (map_range_keys_nodup _ _) Hids Hdeps) as [HT HD].
  assert (list_to_map (M:=gmap _ _) (map_range 1 (Tasks g)) = Tasks g) as Hm.
  { rewrite <-(list_to_map_to_list (Tasks g)) at 2. apply list_to_map_proper.
    - apply map_range_keys_nodup.
    - apply map_range_perm. }
  rewrite Hm in HT, HD. unfold deps_at at 1. rewrite HT, HD. simpl.
  destruct (Tasks g !! k) eqn:Hk; split; [done..|].
  unfold deps_at. destruct (Dependencies g !! k) eqn:Hd; [|done].
  destruct (Hdom k) as [? ?]; [by eexists|congruence].
Qed.

Lemma remap_range wf g n :
  is_Some (Tasks (remap wf g) !! n) → ∃ k, is_Some (Tasks g !! k) ∧ n = new_id wf k.
Proof.
  intros [t Ht]. unfold remap in Ht. apply remap_fold_range in Ht as [(k & Hk & ->)|Ht].
  - exists k. split; [|done]. by apply elem_of_map_range_keys in Hk.
  - done.
  - intros id Hid%elem_of_map_range_keys. by apply idMap_lookup.
Qed.

(** A parent identifier of the old plan names a task of the new graph. *)
Definition parents_survive (wf : string) (g : TaskGraph) : Prop :=
  ∀ id t, Tasks g !! id = Some t → Task_ParentTaskID t ≠ "" →
    is_Some (Tasks (remap wf g) !! Task_ParentTaskID t).

Lemma plan_graph_keys p id :
  is_Some (Dependencies (plan_graph p) !! id) → is_Some (Tasks (plan_graph p) !! id).
Proof.
  intros [d Hd]. unfold plan_graph in *. simpl in *.
  rewrite lookup_union, lookup_fmap, Hd. simpl.
  destruct (list_to_map _ !! id); by eexists.
Qed.

Section remap.
Context (wf : string) (g : TaskGraph).
Hypothesis Hwf : well_formed g.
Hypothesis Hdom : ∀ id, is_Some (Dependencies g !! id) → is_Some (Tasks g !! id).

Lemma remap_Some n t' :
  Tasks (remap wf g) !! n = Some t' →
  ∃ k t, Tasks g !! k = Some t ∧ n = new_id wf k ∧ t' = renamed wf g k t.
Proof using Hwf Hdom.
  intros Hn. destruct (remap_range wf g n ltac:(by eexists)) as (k & [t Ht] & ->).
  rewrite (proj1 (remap_lookup wf g k Hwf Hdom)), Ht in Hn. simplify_eq/=. eauto.
Qed.

Lemma remap_tc x y :
  tc (dependency (remap wf g)) (new_id wf x) y →
  ∃ b, y = new_id wf b ∧ tc (dependency g) x b.
Proof using Hwf Hdom.
  intros Htc. remember (new_id wf x) as a eqn:Ha. revert x Ha.
  induction Htc as [a b Hab|a b c Hab _ IH]; intros x ->;
    unfold dependency in Hab; rewrite (proj2 (remap_lookup wf g x Hwf Hdom)) in Hab;
    apply list_elem_of_fmap in Hab as (d & -> & Hd).
  - exists d. split; [done|]. by apply tc_once.
  - destruct (IH d eq_refl) as (b & -> & Hb). exists b. split; [done|].
    by apply (tc_l _ _ d).
Qed.

Lemma remap_acyclic : acyclic_graph g → acyclic_graph (remap wf g).
Proof using Hwf Hdom.
  intros Hac n [t' Hn] Htc. apply remap_Some in Hn as (k & t & Ht & -> & ->).
  apply remap_tc in Htc as (b & <-%new_id_inj & Htc). apply (Hac k); [by eexists|done].
Qed.

Lemma remap_deps_ok n t' :
  Tasks (remap wf g) !! n = Some t' →
  Task_ID t' = n ∧ NoDup (deps_at (remap wf g) n) ∧
  (∀ d, d ∈ deps_at (remap wf g) n → is_Some (Tasks (remap wf g) !! d)).
Proof using Hwf Hdom.
  intros (k & t & Ht & -> & ->)%remap_Some. split; [done|].
  destruct (remap_lookup wf g k Hwf Hdom) as [_ ->]. split.
  - apply NoDup_fmap_2_strong; [intros x y _ _; apply new_id_inj|].
    exact (wf_nodup _ _ _ (Hwf _ _ Ht)).
  - intros d (d' & -> & Hd)%list_elem_of_fmap.
    rewrite (proj1 (remap_lookup wf g d' Hwf Hdom)).
    destruct (wf_present _ _ _ (Hwf _ _ Ht) d' Hd) as [u ->]. by eexists.
Qed.

Lemma remap_workflow n t' : Tasks (remap wf g) !! n = Some t' → Task_WorkflowID t' = wf.
Proof using Hwf Hdom. by intros (k & t & Ht & -> & ->)%remap_Some. Qed.

Lemma remap_well_formed : well_formed (remap wf g) ↔ parents_survive wf g.
Proof using Hwf Hdom.
  split.
  - intros Hw k t Ht Hp.
    destruct (wf_parent _ _ _ (Hw (new_id wf k) (renamed wf g k t)
      ltac:(rewrite (proj1 (remap_lookup wf g k Hwf Hdom)), Ht; done)) Hp)
      as (p & Hpp & _). by eexists.
  - intros Hs n t' Hn. destruct (remap_deps_ok n t' Hn) as (H1 & H2 & H3).
    split; [done..|]. intros Hp.
    destruct (remap_Some n t' Hn) as (k & t & Ht & -> & ->).
    destruct (Hs k t Ht Hp) as [p Hpp]. exists p. split; [done|].
    by rewrite (remap_workflow _ _ Hpp).
Qed.

(** The only complaint about a renamed graph is a lost parent. *)
Lemma remap_check_tasks l :
  (∀ n t', (n, t') ∈ l → Tasks (remap wf g) !! n = Some t') →
  check_tasks (remap wf g) l = None ∨ check_tasks (remap wf g) l = Some ErrInvalidParent.
Proof using Hwf Hdom.
  induction l as [|[n t'] l IH]; intros Hl; simpl; [by left|].
  pose proof (Hl n t' ltac:(by left)) as Hn.
  destruct (remap_deps_ok n t' Hn) as (H1 & H2 & H3).
  unfold check_task. rewrite decide_True by done.
  assert (check_deps (Tasks (remap wf g)) ∅ (deps_at (remap wf g) n) = None) as ->.
  { apply check_deps_none. split; [done|]. intros d Hd. split; [|by apply H3].
    apply not_elem_of_empty. }
  unfold check_parent. case_decide; [by apply IH; intros; apply Hl; right|].
  destruct (Tasks (remap wf g) !! Task_ParentTaskID t'); [|by right].
  case_decide; [by apply IH; intros; apply Hl; right|by right].
Qed.

Lemma remap_validate :
  acyclic_graph g →
  (ValidateGraph (remap wf g) = None ∧ parents_survive wf g) ∨
  (ValidateGraph (remap wf g) = Some ErrInvalidParent ∧ ¬ parents_survive wf g).
Proof using Hwf Hdom.
  intros Hac. pose proof (remap_acyclic Hac) as Hac'.
  pose proof (validate_none_iff (remap wf g)) as Hv. rewrite remap_well_formed in Hv.
  destruct (remap_check_tasks (map_range 0 (Tasks (remap wf g)))) as [Hc|Hc].
  { intros n t' Hn. by apply elem_of_map_range in Hn. }
  - left. apply check_tasks_range, remap_well_formed in Hc. tauto.
  - right. assert (ValidateGraph (remap wf g) = Some ErrInvalidParent) as Hi
      by (unfold ValidateGraph; by rewrite Hc).
    split; [done|]. rewrite Hi in Hv. intros Hs. destruct Hv as [_ Hv].
    by specialize (Hv (conj Hs Hac')).
Qed.
End remap.

(** ** Properties *)

(** [ValidatePlan] returns a graph exactly for a plan with a goal and at
    least one task, whose task identifiers are distinct and whose graph is well
    formed and acyclic; the graph holds the tasks of the plan under their
    identifiers (and a zero task for a dependency key that names none). *)
Theorem ValidatePlan_correct p g :
  ValidatePlan p = Ok g ↔
  Plan_Goal p ≠ "" ∧ Plan_Tasks p ≠ [] ∧ NoDup (Task_ID <$> Plan_Tasks p) ∧
  g = plan_graph p ∧ well_formed g ∧ acyclic_graph g.
Proof. rewrite ValidatePlan_iff, validate_none_iff. tauto. Qed.

Lemma Plan_inv clock o input w :
  Plan clock o input = Ok w →
  ∃ planner p, Orchestrator_Planner o = Some planner ∧ planner input = Ok p ∧
    well_formed (plan_graph p) ∧ acyclic_graph (plan_graph p) ∧
    Workflow_Graph w = remap (Workflow_ID w) (plan_graph p) ∧
    Workflow_Status w = WorkflowPlanned ∧ Workflow_Goal w = Plan_Goal p ∧
    Plan_Goal p ≠ "" ∧ Plan_Tasks p ≠ [].
Proof.
  unfold Plan. destruct (Orchestrator_Planner o) as [planner|]; [|done].
  intros (p & Hp & (g & Hg & [= <-])%res_bind_ok)%res_bind_ok.
  apply ValidatePlan_iff in Hg as (Hgoal & Htasks & _ & -> & Hv).
  apply validate_none_iff in Hv as [Hw Ha].
  exists planner, p. done.
Qed.

(** C12: the workflow [Orchestrator.Plan] makes of a plan is the plan renamed:
    task [id] becomes [<workflow>_id] with its dependencies renamed alike and
    nothing else added, the order of the tasks is still acyclic, and the graph
    is accepted by [ValidateGraph], or rejected with [ErrInvalidParent],
    according to whether every parent of the plan, which is not renamed, still
    names a task. *)
Theorem Plan_renames clock o input w :
  Plan clock o input = Ok w →
  ∃ planner p, Orchestrator_Planner o = Some planner ∧ planner input = Ok p ∧
    let wf := Workflow_ID w in
    let g := plan_graph p in
    (∀ id t, Tasks g !! id = Some t →
       Tasks (Workflow_Graph w) !! new_id wf id = Some (renamed wf g id t) ∧
       deps_at (Workflow_Graph w) (new_id wf id) = new_id wf <$> deps_at g id) ∧
    (∀ n, is_Some (Tasks (Workflow_Graph w) !! n) →
       ∃ id, is_Some (Tasks g !! id) ∧ n = new_id wf id) ∧
    acyclic_graph (Workflow_Graph w) ∧
    (ValidateGraph (Workflow_Graph w) = None ∧ parents_survive wf g ∨
     ValidateGraph (Workflow_Graph w) = Some ErrInvalidParent ∧ ¬ parents_survive wf g).
Proof.
  intros (planner & p & Ho & Hp & Hw & Ha & Hg & _)%Plan_inv.
  exists planner, p. split; [done|]. split; [done|]. cbv zeta. rewrite Hg.
  pose proof (plan_graph_keys p) as Hk. split_and!.
  - intros id t Ht. destruct (remap_lookup (Workflow_ID w) _ id Hw Hk) as [-> ->].
    split; [|done]. by rewrite Ht.
  - intros n. apply remap_range.
  - by apply remap_acyclic.
  - by apply remap_validate.
Qed.

End plan.
End plan.

(** ** Witness: a plan with a sub-task

    The plan validates, the workflow made of it does not: the parent of the
    sub-task is still called [analyze]. *)

Definition nested_plan (goal : string) : TaskPlan :=
  let root := zero_Task <| Task_ID := "analyze" |> in
  mkTaskPlan goal [root; root <| Task_ID := "sub" |> <| Task_ParentTaskID := "analyze" |>]
    (list_to_map [("sub", ["analyze"])]) DependencyDriven "LOW".
Definition nested_orchestrator : plan.Orchestrator :=
  plan.mkOrchestrator
    (Some (λ input, Ok (nested_plan (Intent_Goal (Planner_Intent input))))) (Some 7).
Definition nested_workflow : result Workflow :=
  plan.Plan (H:=canonical_order) 0 nested_orchestrator
    (mkPlannerInput (mkUserIntent "p" "goal" ∅) ∅ ∅ [] "").

Lemma Plan_renames_witness :
  ∃ w, nested_workflow = Ok w ∧
    ValidateGraph (H:=canonical_order) (Workflow_Graph w) = Some ErrInvalidParent.
Proof.
  destruct nested_workflow as [w|e] eqn:E; [|vm_compute in E; discriminate].
  exists w. split; [done|].
  destruct (plan.Plan_renames (H:=canonical_order) _ _ _ _ E)
    as (planner & p & Ho & Hp & _ & _ & _ & [[Hv _]|[Hv _]]); [exfalso|exact Hv].
  vm_compute in E. injection E as <-. vm_compute in Hv. discriminate.
Defined.
