(* ===== verification/OrchControls.v ===== *)
(** * Orchestration: resources, approvals, recovery and events

    [src/internal/orchestration/controls.go] and [events.go]: the resource
    manager that hands out leases, the approval gate, the recovery decision and
    the executor that reports what it runs.  The methods lock their receiver
    for their whole body, so each is one atomic operation on the state. *)

From S2P Require Import Prelude OrchTypes.
Import orchestration.

Module controls.

(** ** Resources *)

(* src: internal/orchestration/controls.go:10-16 (ResourceRequest) *)
Record ResourceRequest := mkResourceRequest {
  CPU : Z;
  MemoryMB : Z;
  DiskMB : Z;
  Resource_ProviderID : string;
  Resource_AgentID : string
}.

(* src: internal/orchestration/controls.go:21-25 (MemoryResourceManager) *)
Record MemoryResourceManager := mkManager {
  Capacity : ResourceRequest;
  Used : ResourceRequest
}.
#[global] Instance eta_ResourceRequest : Eta ResourceRequest := λ r,
  mkResourceRequest (CPU r) (MemoryMB r) (DiskMB r) (Resource_ProviderID r)
    (Resource_AgentID r).
#[global] Instance eta_MemoryResourceManager : Eta MemoryResourceManager := λ m,
  mkManager (Capacity m) (Used m).

(* src: internal/orchestration/controls.go:33-35 (Reserve) *)
Definition use (m : MemoryResourceManager) (req : ResourceRequest)
    : MemoryResourceManager :=
  m <| Used := (Used m) <| CPU := add64 (CPU (Used m)) (CPU req) |>
       <| MemoryMB := add64 (MemoryMB (Used m)) (MemoryMB req) |>
       <| DiskMB := add64 (DiskMB (Used m)) (DiskMB req) |> |>.

(** The manager after the call, and the lease (the request it gives back). *)
(* src: internal/orchestration/controls.go:27-44 (MemoryResourceManager.Reserve) *)
Definition Reserve (m : MemoryResourceManager) (req : ResourceRequest)
    : MemoryResourceManager * result ResourceRequest :=
  if (CPU (Capacity m) <? add64 (CPU (Used m)) (CPU req)) ||
     (MemoryMB (Capacity m) <? add64 (MemoryMB (Used m)) (MemoryMB req)) ||
     (DiskMB (Capacity m) <? add64 (DiskMB (Used m)) (DiskMB req))
  then (m, Err (ErrorString "resources unavailable"))
  else (use m req, Ok req).

(* src: internal/orchestration/controls.go:36-49 (resourceLease.Release) *)
Definition Release (m : MemoryResourceManager) (req : ResourceRequest)
    : MemoryResourceManager :=
  m <| Used := (Used m) <| CPU := sub64 (CPU (Used m)) (CPU req) |>
       <| MemoryMB := sub64 (MemoryMB (Used m)) (MemoryMB req) |>
       <| DiskMB := sub64 (DiskMB (Used m)) (DiskMB req) |> |>.

(** Clients that release each of their leases at most once; [ls] are the leases
    outstanding. *)
Definition reasonable (r : ResourceRequest) : Prop :=
  (0 ≤ CPU r < 2 ^ 62) ∧ (0 ≤ MemoryMB r < 2 ^ 62) ∧ (0 ≤ DiskMB r < 2 ^ 62).

Inductive lease_step :
    MemoryResourceManager * list ResourceRequest →
    MemoryResourceManager * list ResourceRequest → Prop :=
  | step_reserved m ls req m' lease :
      reasonable req → Reserve m req = (m', Ok lease) →
      lease_step (m, ls) (m', lease :: ls)
  | step_refused m ls req m' e :
      Reserve m req = (m', Err e) → lease_step (m, ls) (m', ls)
  | step_release m ls1 lease ls2 :
      lease_step (m, ls1 ++ lease :: ls2) (Release m lease, ls1 ++ ls2).

Definition total (f : ResourceRequest → Z) (ls : list ResourceRequest) : Z :=
  foldr (λ r n, f r + n) 0 ls.

Definition fits (m : MemoryResourceManager) (ls : list ResourceRequest) : Prop :=
  (CPU (Used m) = total CPU ls ∧ total CPU ls ≤ CPU (Capacity m)) ∧
  (MemoryMB (Used m) = total MemoryMB ls ∧ total MemoryMB ls ≤ MemoryMB (Capacity m)) ∧
  (DiskMB (Used m) = total DiskMB ls ∧ total DiskMB ls ≤ DiskMB (Capacity m)).

Definition new_manager (capacity : ResourceRequest) : MemoryResourceManager :=
  mkManager capacity (mkResourceRequest 0 0 0 "" "").

Lemma total_app f l1 l2 : total f (l1 ++ l2) = total f l1 + total f l2.
Proof. induction l1 as [|r l1 IH]; simpl; lia. Qed.

Lemma total_nonneg f ls : (∀ r, r ∈ ls → 0 ≤ f r) → 0 ≤ total f ls.
Proof.
  induction ls as [|r ls IH]; simpl; intros Hf; [lia|].
  pose proof (Hf r ltac:(by left)). pose proof (IH ltac:(intros; apply Hf; by right)). lia.
Qed.

Lemma add64_small a b : 0 ≤ a < 2 ^ 62 → 0 ≤ b < 2 ^ 62 → add64 a b = a + b.
Proof. intros. apply wrap64_id. unfold int64_range. lia. Qed.

Lemma sub64_small a b : 0 ≤ b ≤ a → a < 2 ^ 62 → sub64 a b = a - b.
Proof. intros. apply wrap64_id. unfold int64_range. lia. Qed.

Definition lease_inv (cap : ResourceRequest)
    (st : MemoryResourceManager * list ResourceRequest) : Prop :=
  Capacity st.1 = cap ∧ Forall reasonable st.2 ∧ fits st.1 st.2.

(** The sum of the leases in one dimension, where it matters for overflow. *)
Lemma reasonable_total ls :
  Forall reasonable ls →
  0 ≤ total CPU ls ∧ 0 ≤ total MemoryMB ls ∧ 0 ≤ total DiskMB ls.
Proof.
  intros Hls. rewrite Forall_forall in Hls.
  split_and!; apply total_nonneg; intros r Hr; apply (Hls r Hr).
Qed.

(** In a state of the invariant, a request is granted exactly when it fits. *)
Lemma Reserve_fits cap m ls req :
  reasonable cap → reasonable req → lease_inv cap (m, ls) →
  Reserve m req =
    if bool_decide (total CPU (req :: ls) ≤ CPU cap ∧
         total MemoryMB (req :: ls) ≤ MemoryMB cap ∧ total DiskMB (req :: ls) ≤ DiskMB cap)
    then (use m req, Ok req) else (m, Err (ErrorString "resources unavailable")).
Proof.
  intros (Hc1 & Hc2 & Hc3) (Hr1 & Hr2 & Hr3) (Hcap & Hls & (Hu1 & Hl1) & (Hu2 & Hl2) & Hu3 & Hl3).
  simpl in *. pose proof (reasonable_total ls Hls). subst cap.
  unfold Reserve. rewrite Hu1, Hu2, Hu3.
  rewrite !add64_small by lia. simpl.
  case_bool_decide as Hf.
  - replace (_ || _ || _) with false; [done|]. symmetry. rewrite !orb_false_iff, !Z.ltb_ge. lia.
  - replace (_ || _ || _) with true; [done|]. symmetry.
    rewrite !orb_true_iff, !Z.ltb_lt. lia.
Qed.

Lemma lease_inv_step cap st st' :
  reasonable cap → lease_inv cap st → lease_step st st' → lease_inv cap st'.
Proof.
  intros Hcap Hinv Hstep. pose proof Hinv as (Hc & Hls & Hfit).
  destruct Hstep as [m ls req m' lease Hreq Hres|m ls req m' e Hres|m ls1 lease ls2]; simpl in *.
  - rewrite (Reserve_fits cap m ls req Hcap Hreq Hinv) in Hres.
    case_bool_decide as Hf; simplify_eq/=. split_and!; [done|by constructor|].
    pose proof (reasonable_total ls Hls).
    destruct Hfit as ((Hu1 & ?) & (Hu2 & ?) & Hu3 & ?), Hreq as (? & ? & ?), Hcap as (? & ? & ?).
    unfold fits. simpl. rewrite Hu1, Hu2, Hu3, !add64_small by lia. lia.
  - unfold Reserve in Hres. case_match; simplify_eq. done.
  - apply Forall_app in Hls as [H1 [Hl H2]%Forall_cons].
    split_and!; [done|by apply Forall_app|].
    pose proof (reasonable_total ls1 H1). pose proof (reasonable_total ls2 H2).
    unfold fits in *. simpl. rewrite !total_app in *. simpl in *. subst cap.
    destruct Hfit as ((Hu1 & ?) & (Hu2 & ?) & Hu3 & ?), Hl as (? & ? & ?), Hcap as (? & ? & ?).
    rewrite Hu1, Hu2, Hu3, !sub64_small by lia. lia.
Qed.

Lemma lease_inv_steps cap st st' :
  reasonable cap → lease_inv cap st → rtc lease_step st st' → lease_inv cap st'.
Proof. intros Hcap Hinv. induction 1; eauto using lease_inv_step. Qed.

(** ** Approvals *)

(* src: internal/orchestration/controls.go:59-65 (NewInMemoryApprovalGate) *)
Definition NewInMemoryApprovalGate : gmap string Approval := ∅.

(** [stamp] is the time of the call in the layout the source formats it in. *)
(* src: internal/orchestration/controls.go:66-75 (Request) *)
Definition Request (stamp : string) (g : gmap string Approval) (a : Approval)
    : gmap string Approval * Approval :=
  let a := if decide (Approval_ID a = "")
           then a <| Approval_ID := "approval_" +:+ stamp |> else a in
  let a := a <| Approval_Status := "WAITING_FOR_APPROVAL" |> in
  (<[Approval_ID a := a]> g, a).

(* src: internal/orchestration/controls.go:76-92 (Resolve) *)
Definition Resolve (now : Z) (g : gmap string Approval) (id : string) (approved : bool)
    : gmap string Approval * result Approval :=
  match g !! id with
  | None => (g, Err (ErrorString "approval not found"))
  | Some a =>
      let a := a <| Approval_Status := if approved then "APPROVED" else "REJECTED" |>
                 <| Approval_ResolvedAt := Some now |> in
      (<[id := a]> g, Ok a)
  end.

(** ** Recovery *)

(* src: internal/orchestration/controls.go:94-101 (RecoveryAction) *)
Inductive RecoveryAction := Resume | Reconcile | Retry | Fail.
#[global] Instance RecoveryAction_eq_dec : EqDecision RecoveryAction.
Proof. solve_decision. Defined.

(** What the world answers to the three questions of the interface. *)
(* src: internal/orchestration/controls.go:103-107 (RecoveryInspector) *)
Record RecoveryInspector := mkInspector {
  AgentExists : string → bool;
  SessionExists : string → bool;
  RuntimeExists : string → bool
}.

(* src: internal/orchestration/controls.go:109-120 (RecoverStaleTask) *)
Definition RecoverStaleTask (task : Task) (run : TaskRun)
    (inspector : option RecoveryInspector) : RecoveryAction :=
  match inspector with
  | None => Fail
  | Some i =>
      if AgentExists i (TaskRun_AgentID run) && SessionExists i (TaskRun_ID run) &&
         RuntimeExists i (Task_ProjectID task)
      then Reconcile
      else if TaskRun_Attempt run <? Retry_MaxAttempts (Task_Retry task) then Retry
      else Fail
  end.

(** ** Observed execution *)

(* src: internal/orchestration/events.go:58-63 (errorString) *)
Definition errorString (err : option goerror) : string :=
  match err with None => "" | Some e => error_text e end.

(** The sink is the slice of the events published so far. *)
(* src: internal/orchestration/events.go:15-19 (Publish) *)
Definition Publish (sink : list TaskEvent) (event : TaskEvent) : list TaskEvent :=
  sink ++ [event].

(** A copy of the slice. *)
(* src: internal/orchestration/events.go:20-26 (Events) *)
Definition Events (sink : list TaskEvent) : list TaskEvent := sink.

(** [inner] is the [Cancel] of the executor that is observed, if there is one. *)
(* src: internal/orchestration/events.go:52-57 (ObservedExecutor.Cancel) *)
Definition ObservedCancel (inner : option (TaskRun → option goerror)) (run : TaskRun)
    : option goerror :=
  match inner with None => None | Some cancel => cancel run end.

(* src: internal/orchestration/events.go:28-51 (ObservedExecutor.Execute) *)
Definition ObservedExecute
    (inner : Task → TaskRun → TaskResult * option goerror)
    (now : Z) (sink : option (list TaskEvent)) (task : Task) (run : TaskRun)
    : option (list TaskEvent) * (TaskResult * option goerror) :=
  let publish sink event := (λ s, Publish s event) <$> sink in
  let sink := publish sink
    (mkTaskEvent ("event_started_" +:+ TaskRun_ID run) (Task_WorkflowID task) (Task_ID task)
       "task.started" ∅ now) in
  let '(result, err) := inner task run in
  let typ := match err with None => "task.completed" | Some _ => "task.failed" end in
  let sink := publish sink
    (mkTaskEvent ("event_done_" +:+ TaskRun_ID run) (Task_WorkflowID task) (Task_ID task)
       typ (list_to_map [("error", AnyString (errorString err));
                         ("summary", AnyString (TaskResult_Summary result))]) now) in
  (sink, (result, err)).

(** ** Properties *)

Lemma lease_inv_start cap : reasonable cap → lease_inv cap (new_manager cap, []).
Proof. intros (? & ? & ?). unfold lease_inv, fits. simpl. split_and!; [done|constructor|lia..]. Qed.

(** C13: as long as clients release a lease at most once and the amounts stay
    below 2^62, what the manager counts as used is in each dimension the sum of
    the leases outstanding and never exceeds the capacity, and a request is
    granted exactly when it fits next to those leases. *)
Theorem leases_never_overcommit cap m ls :
  reasonable cap → rtc lease_step (new_manager cap, []) (m, ls) →
  fits m ls ∧ Capacity m = cap ∧
  ∀ req, reasonable req →
    (Reserve m req = (use m req, Ok req) ↔
       total CPU (req :: ls) ≤ CPU cap ∧ total MemoryMB (req :: ls) ≤ MemoryMB cap ∧
       total DiskMB (req :: ls) ≤ DiskMB cap).
Proof.
  intros Hcap Hsteps.
  pose proof (lease_inv_steps cap _ _ Hcap (lease_inv_start cap Hcap) Hsteps) as Hinv.
  split_and!; [apply Hinv..|]. intros req Hreq.
  rewrite (Reserve_fits cap m ls req Hcap Hreq Hinv). by case_bool_decide.
Qed.

(** The bound is needed: the sum of the check wraps around. *)
Lemma Reserve_overflows :
  let m := mkManager (mkResourceRequest 4 0 0 "" "") (mkResourceRequest 1 0 0 "" "") in
  let req := mkResourceRequest (2 ^ 63 - 1) 0 0 "" "" in
  Reserve m req = (m <| Used := mkResourceRequest (- 2 ^ 63) 0 0 "" "" |>, Ok req).
Proof. vm_compute. reflexivity. Qed.

(** Releasing a lease twice gives back more than was taken. *)
Lemma Release_twice m req :
  int64_range (CPU (Used m)) →
  CPU (Used (Release (Release (use m req) req) req)) = sub64 (CPU (Used m)) (CPU req).
Proof. intros. simpl. by rewrite sub64_add64. Qed.

(** An answered request can be answered again: the last decision stands. *)
Lemma Resolve_again g id a t1 t2 b1 b2 :
  g !! id = Some a →
  ∃ g' a', Resolve t2 (Resolve t1 g id b1).1 id b2 = (g', Ok a') ∧ g' !! id = Some a' ∧
    Approval_Status a' = (if b2 then "APPROVED" else "REJECTED") ∧
    Approval_ResolvedAt a' = Some t2.
Proof.
  intros Hg. unfold Resolve. rewrite Hg. simpl. rewrite lookup_insert_eq.
  do 2 eexists. split; [done|]. split; [apply lookup_insert_eq|done].
Qed.

(** An observed execution publishes a start and an end event, in this order, and
    answers as the inner executor does. *)
Lemma ObservedExecute_transparent inner now s task run :
  ∃ e1 e2, ObservedExecute inner now (Some s) task run = (Some (s ++ [e1; e2]), inner task run) ∧
    TaskEvent_Type e1 = "task.started" ∧
    TaskEvent_Type e2 = (if (inner task run).2 then "task.failed" else "task.completed").
Proof.
  unfold ObservedExecute, Publish. destruct (inner task run) as [r err]. simpl.
  rewrite <-(assoc_L (++)). do 2 eexists. split; [done|]. by destruct err.
Qed.
End controls.

Definition lease_example : controls.ResourceRequest := controls.mkResourceRequest 2 512 10 "" "".
Lemma leases_never_overcommit_witness :
  let cap := controls.mkResourceRequest 4 1024 20 "" "" in
  let m := controls.use (controls.new_manager cap) lease_example in
  controls.fits m [lease_example].
Proof.
  intros cap m. refine (proj1 (controls.leases_never_overcommit cap m [lease_example] _ _)).
  - vm_compute. intuition congruence.
  - apply rtc_once. apply (controls.step_reserved _ _ lease_example); [|reflexivity].
    vm_compute. intuition congruence.
Defined.
