(* ===== verification/VerTypes.v ===== *)
(** * Verification: the data model

    [src/internal/verification/types.go].  A duration is a number of
    nanoseconds; [*int] is [option Z]. *)

From S2P Require Import Prelude World Runtime Float.

Module verification.

(* src: internal/verification/types.go:12-21 (Status) *)
Inductive Status :=
  | Pending | Running | Passed | Failed | Cancelled | TimedOut
  | StatusOther (s : string).

(* src: internal/verification/types.go:23-40 (CheckType) *)
Inductive CheckType :=
  | Build | Typecheck | Lint | Format | UnitTest | IntegrationTest | E2ETest
  | RuntimeHealth | HTTPHealth | DatabaseHealth | Browser | Security | Dependency
  | Custom
  | CheckTypeOther (s : string).

(* src: internal/verification/types.go:42-56 (FailureType) *)
Inductive FailureType :=
  | BuildFailure | TestFailure | TypeFailure | LintFailure | RuntimeFailure
  | BrowserFailure | DatabaseFailure | SecurityFailure | Timeout
  | EnvironmentFailure | UnknownFailure
  | FailureTypeOther (s : string).

(* src: internal/verification/types.go:58-65 (Policy) *)
Inductive Policy :=
  | Strict | Standard | Fast | CustomPolicy
  | PolicyOther (s : string).

#[global] Instance Status_eq_dec : EqDecision Status.
Proof. solve_decision. Defined.
#[global] Instance CheckType_eq_dec : EqDecision CheckType.
Proof. solve_decision. Defined.
#[global] Instance FailureType_eq_dec : EqDecision FailureType.
Proof. solve_decision. Defined.
#[global] Instance Policy_eq_dec : EqDecision Policy.
Proof. solve_decision. Defined.

(* src: internal/verification/types.go:86-92 (Summary) *)
Record Summary := mkSummary {
  RequiredPassed : Z;
  RequiredFailed : Z;
  OptionalPassed : Z;
  OptionalFailed : Z;
  Blocked : Z
}.

(* src: internal/verification/types.go:93-97 (ProjectState) *)
Record ProjectState := mkProjectState {
  State_CommitSHA : string;
  State_Worktree : string;
  State_ChangedFiles : list string
}.

(** [RetryPolicy] is its only field, the number of attempts. *)
(* src: internal/verification/types.go:99-114 (VerificationCheck) *)
Record VerificationCheck := mkCheck {
  Check_ID : string;
  Check_Type : CheckType;
  Check_Name : string;
  Check_Description : string;
  Required : bool;
  Check_Timeout : Z;
  Check_MaxAttempts : Z;
  Configuration : gmap string any;
  EnvironmentRequirements : list string;
  Check_Dependencies : list string
}.

(* src: internal/verification/types.go:123-137 (Evidence) *)
Record Evidence := mkEvidence {
  Evidence_ExitCode : option Z;
  Evidence_Stdout : string;
  Evidence_Stderr : string;
  Evidence_Duration : Z;
  TestCount : option Z;
  PassedTests : option Z;
  FailedTests : option Z;
  SkippedTests : option Z;
  HTTPStatus : option Z;
  Evidence_URL : string;
  ArtifactPath : string;
  Evidence_CommitSHA : string;
  Structured : gmap string any
}.

(* src: internal/verification/types.go:138-150 (FailureReport) *)
Record FailureReport := mkFailure {
  Failure_ID : string;
  Failure_Type : FailureType;
  Failure_CheckID : string;
  Failure_TaskID : string;
  Failure_Command : list string;
  Failure_ExitCode : option Z;
  Failure_Stdout : string;
  Failure_Stderr : string;
  StackTrace : string;
  AffectedFiles : list string;
  SuspectedCause : string;
  Severity : string;
  Retryable : bool
}.

(* src: internal/verification/types.go:115-122 (VerificationResult) *)
Record VerificationResult := mkResult {
  Result_CheckID : string;
  Result_Status : Status;
  Result_Evidence : Evidence;
  Result_Failure : option FailureReport;
  Result_StartedAt : Z;
  Result_CompletedAt : Z
}.

(* src: internal/verification/types.go:151-160 (VerificationArtifact) *)
Record VerificationArtifact := mkArtifact {
  VArtifact_ID : string;
  VArtifact_ProjectID : string;
  VArtifact_TaskID : string;
  VArtifact_RunID : string;
  VArtifact_CheckID : string;
  VArtifact_Kind : string;
  VArtifact_Path : string;
  VArtifact_Metadata : gmap string any
}.

(* src: internal/verification/types.go:161-169 (RepairPlan) *)
Record RepairPlan := mkRepairPlan {
  Problem : string;
  RootCauseHypothesis : string;
  Plan_AffectedFiles : list string;
  RecommendedChanges : list string;
  VerificationTargets : list string;
  Risk : string;
  Confidence : float64.t
}.

(* src: internal/verification/types.go:170-179 (RepairAttempt) *)
Record RepairAttempt := mkRepair {
  Repair_ID : string;
  Repair_RunID : string;
  Repair_Attempt : Z;
  Repair_Status : Status;
  Repair_Plan : RepairPlan;
  Repair_Error : string;
  Repair_StartedAt : Z;
  Repair_CompletedAt : option Z
}.

(* src: internal/verification/types.go:180-184 (VerificationProfile) *)
Record VerificationProfile := mkProfile {
  Profile_Name : string;
  Profile_Policy : Policy;
  Profile_Checks : list VerificationCheck
}.

(* src: internal/verification/types.go:67-84 (VerificationRun) *)
Record VerificationRun := mkRun {
  Run_ID : string;
  Run_ProjectID : string;
  Run_WorkflowID : string;
  Run_TaskID : string;
  Run_TaskRunID : string;
  Run_Status : Status;
  Run_StartedAt : Z;
  Run_CompletedAt : option Z;
  Run_Summary : Summary;
  Run_Profile : VerificationProfile;
  Run_Checks : list VerificationCheck;
  Run_Results : list VerificationResult;
  Run_Failures : list FailureReport;
  Run_Repairs : list RepairAttempt;
  Run_Artifacts : list VerificationArtifact;
  Run_State : ProjectState
}.

(* src: internal/verification/types.go:185-193 (ProjectContext) *)
Record ProjectContext (W : Type) := mkProject {
  Project_ID : string;
  RuntimeID : string;
  RuntimeProvider : option (runtime.Provider W);
  Workspace : string;
  CommitSHA : string;
  Worktree : string;
  ChangedFiles : list string
}.
Arguments mkProject {W}.
Arguments Project_ID {W}.
Arguments RuntimeID {W}.
Arguments RuntimeProvider {W}.
Arguments Workspace {W}.
Arguments CommitSHA {W}.
Arguments Worktree {W}.
Arguments ChangedFiles {W}.

(* src: internal/verification/types.go:194-199 (TaskContext) *)
Record TaskContext := mkTaskContext {
  TaskCtx_WorkflowID : string;
  TaskCtx_TaskID : string;
  TaskCtx_TaskRunID : string;
  TaskCtx_Description : string
}.

(* src: internal/verification/types.go:201-211 (CheckRequest) *)
Record CheckRequest := mkCheckRequest {
  Request_ProjectID : string;
  Request_WorkflowID : string;
  Request_TaskID : string;
  Request_TaskRunID : string;
  Request_RuntimeID : string;
  Request_Workspace : string;
  Request_Profile : string;
  Request_Policy : Policy;
  Request_Checks : list VerificationCheck
}.

(** ** Zero values and updates *)

Definition zero_Evidence : Evidence :=
  mkEvidence None "" "" 0 None None None None None "" "" "" ∅.
Definition zero_Summary : Summary := mkSummary 0 0 0 0 0.
Definition zero_RepairPlan : RepairPlan := mkRepairPlan "" "" [] [] [] "" float64.zero.
Definition zero_Check : VerificationCheck :=
  mkCheck "" (CheckTypeOther "") "" "" false 0 0 ∅ [] [].
Definition zero_Failure : FailureReport :=
  mkFailure "" (FailureTypeOther "") "" "" [] None "" "" "" [] "" "" false.

#[global] Instance eta_Summary : Eta Summary := λ s,
  mkSummary (RequiredPassed s) (RequiredFailed s) (OptionalPassed s) (OptionalFailed s)
    (Blocked s).
#[global] Instance eta_Check : Eta VerificationCheck := λ c,
  mkCheck (Check_ID c) (Check_Type c) (Check_Name c) (Check_Description c) (Required c)
    (Check_Timeout c) (Check_MaxAttempts c) (Configuration c) (EnvironmentRequirements c)
    (Check_Dependencies c).
#[global] Instance eta_Failure : Eta FailureReport := λ f,
  mkFailure (Failure_ID f) (Failure_Type f) (Failure_CheckID f) (Failure_TaskID f)
    (Failure_Command f) (Failure_ExitCode f) (Failure_Stdout f) (Failure_Stderr f)
    (StackTrace f) (AffectedFiles f) (SuspectedCause f) (Severity f) (Retryable f).
#[global] Instance eta_Result : Eta VerificationResult := λ r,
  mkResult (Result_CheckID r) (Result_Status r) (Result_Evidence r) (Result_Failure r)
    (Result_StartedAt r) (Result_CompletedAt r).
#[global] Instance eta_Repair : Eta RepairAttempt := λ r,
  mkRepair (Repair_ID r) (Repair_RunID r) (Repair_Attempt r) (Repair_Status r)
    (Repair_Plan r) (Repair_Error r) (Repair_StartedAt r) (Repair_CompletedAt r).
#[global] Instance eta_Run : Eta VerificationRun := λ r,
  mkRun (Run_ID r) (Run_ProjectID r) (Run_WorkflowID r) (Run_TaskID r) (Run_TaskRunID r)
    (Run_Status r) (Run_StartedAt r) (Run_CompletedAt r) (Run_Summary r) (Run_Profile r)
    (Run_Checks r) (Run_Results r) (Run_Failures r) (Run_Repairs r) (Run_Artifacts r)
    (Run_State r).
#[global] Instance eta_Project W : Eta (ProjectContext W) := λ p,
  mkProject (Project_ID p) (RuntimeID p) (RuntimeProvider p) (Workspace p) (CommitSHA p)
    (Worktree p) (ChangedFiles p).
End verification.
