(* ===== verification/VerGraph.v ===== *)
(** * Verification: the graph of checks

    [src/internal/verification/graph.go]: a profile is accepted when its checks
    have distinct identifiers and form an acyclic graph. *)

From S2P Require Import Prelude Float Dfs VerTypes.
Import verification.

Module checkgraph.

(* src: internal/verification/graph.go:5-5 (ErrCheckCycle) *)
Definition ErrCheckCycle : goerror :=
  ErrorString "verification check graph contains a cycle".
(* src: internal/verification/graph.go:6-6 (ErrCheckDependency) *)
Definition ErrCheckDependency : goerror :=
  ErrorString "verification check graph references a missing dependency".
(* src: internal/verification/graph.go:7-7 (ErrDuplicateCheck) *)
Definition ErrDuplicateCheck : goerror :=
  ErrorString "verification profile contains duplicate check id".

Section validate.
Context `{MapOrder}.

(* src: internal/verification/graph.go:10-19 (ValidateChecks) *)
Fixpoint index_checks (checks : list VerificationCheck)
    (byID : gmap string VerificationCheck) : result (gmap string VerificationCheck) :=
  match checks with
  | [] => Ok byID
  | check :: checks =>
      if decide (Check_ID check = "") then Err ErrDuplicateCheck
      else match byID !! Check_ID check with
           | Some _ => Err ErrDuplicateCheck
           | None => index_checks checks (<[Check_ID check := check]> byID)
           end
  end.

(** [byID[id].Dependencies], and the check made on each before it is visited. *)
Definition check_deps_of (byID : gmap string VerificationCheck) (id : string) : list string :=
  Check_Dependencies (default zero_Check (byID !! id)).
Definition check_missing (byID : gmap string VerificationCheck) (_ dep : string)
    : option goerror :=
  match byID !! dep with None => Some ErrCheckDependency | Some _ => None end.

(* src: internal/verification/graph.go:20-46 (ValidateChecks) *)
Definition visit_checks (byID : gmap string VerificationCheck) : visit_outcome :=
  search (check_deps_of byID) (check_missing byID) (λ _, ErrCheckCycle) (dom byID)
    (map_range 0 byID).*1.

(* src: internal/verification/graph.go:9-47 (ValidateChecks) *)
Definition ValidateChecks (checks : list VerificationCheck) : option goerror :=
  match index_checks checks ∅ with
  | Err e => Some e
  | Ok byID => visit_error (visit_checks byID)
  end.

(** ** Specification *)

Definition depends_on (checks : list VerificationCheck) (x y : string) : Prop :=
  ∃ c, c ∈ checks ∧ Check_ID c = x ∧ y ∈ Check_Dependencies c.

Record valid_checks (checks : list VerificationCheck) : Prop := {
  vc_nodup : NoDup (Check_ID <$> checks);
  vc_named : "" ∉ Check_ID <$> checks;
  vc_present : ∀ x y, depends_on checks x y → y ∈ Check_ID <$> checks;
  vc_acyclic : ∀ x, ¬ tc (depends_on checks) x x
}.

Lemma index_checks_spec checks acc :
  (∀ c, c ∈ checks → acc !! Check_ID c = None) →
  match index_checks checks acc with
  | Ok byID => NoDup (Check_ID <$> checks) ∧ "" ∉ Check_ID <$> checks ∧
      ∀ k c, byID !! k = Some c ↔ (c ∈ checks ∧ Check_ID c = k) ∨ acc !! k = Some c
  | Err e => e = ErrDuplicateCheck ∧
      ¬ (NoDup (Check_ID <$> checks) ∧ "" ∉ Check_ID <$> checks)
  end.
Proof.
  revert acc. induction checks as [|c checks IH]; intros acc Hacc; simpl.
  { split_and!; [constructor|apply not_elem_of_nil|]. intros k c.
    rewrite elem_of_nil. naive_solver. }
  case_decide as Hid.
  { split; [done|]. intros [_ Hn]. apply Hn. rewrite Hid. by left. }
  rewrite Hacc by (by left).
  destruct (decide (Check_ID c ∈ Check_ID <$> checks)) as [Hin|Hfresh].
  - assert (index_checks checks (<[Check_ID c := c]> acc) = Err ErrDuplicateCheck) as ->.
    { clear IH Hacc Hid. revert acc. apply list_elem_of_fmap in Hin as (d & Heq & Hd).
      induction checks as [|e checks IH]; [by apply elem_of_nil in Hd|].
      intros acc. simpl. case_decide; [done|].
      destruct (_ !! Check_ID e) eqn:He; [done|].
      apply elem_of_cons in Hd as [->|Hd].
      - rewrite Heq, lookup_insert_eq in He. done.
      - rewrite lookup_insert_None in He. rewrite insert_insert_ne by (symmetry; apply He).
        by apply IH. }
    split; [done|]. intros [[Hnd _]%NoDup_cons _]. done.
  - specialize (IH (<[Check_ID c := c]> acc)).
    feed IH.
    { intros d Hd. rewrite lookup_insert_ne; [apply Hacc; by right|].
      intros Heq. apply Hfresh. rewrite Heq. by apply list_elem_of_fmap_2. }
    destruct (index_checks _ _) as [byID|e].
    + destruct IH as (Hnd & Hne & Hl). split_and!.
      * by constructor.
      * rewrite not_elem_of_cons. done.
      * intros k d. rewrite Hl, lookup_insert_Some, elem_of_cons.
        destruct (decide (Check_ID c = k)) as [<-|Hk].
        -- pose proof (Hacc c ltac:(by left)). naive_solver.
        -- naive_solver.
    + destruct IH as [-> Hn]. split; [done|]. intros [[_ Hnd]%NoDup_cons Hne].
      apply not_elem_of_cons in Hne as [_ Hne]. by apply Hn.
Qed.

Section byID.
Context (checks : list VerificationCheck) (byID : gmap string VerificationCheck).
Hypothesis Hl : ∀ k c, byID !! k = Some c ↔ c ∈ checks ∧ Check_ID c = k.

Lemma byID_dom x : x ∈ dom byID ↔ x ∈ Check_ID <$> checks.
Proof using Hl.
  rewrite elem_of_dom, list_elem_of_fmap. split.
  - intros [c [Hc <-]%Hl]. eauto.
  - intros (c & -> & Hc). exists c. by apply Hl.
Qed.

Lemma byID_edge x y : edge (check_deps_of byID) x y ↔ depends_on checks x y.
Proof using Hl.
  unfold edge, check_deps_of, depends_on. split.
  - destruct (byID !! x) as [c|] eqn:Hc; simpl; [|by intros ?%elem_of_nil].
    apply Hl in Hc as [Hc <-]. eauto.
  - intros (c & Hc & <- & Hy). rewrite (proj2 (Hl _ c)) by done. done.
Qed.

Lemma byID_tc x y : tc (edge (check_deps_of byID)) x y ↔ tc (depends_on checks) x y.
Proof using Hl.
  split; induction 1; [apply tc_once|eapply tc_l|apply tc_once|eapply tc_l];
    try apply byID_edge; eauto.
Qed.

Lemma visit_checks_iff :
  visit_error (visit_checks byID) = None ↔
  (∀ x y, depends_on checks x y → y ∈ Check_ID <$> checks) ∧
  (∀ x, ¬ tc (depends_on checks) x x).
Proof using Hl.
  unfold visit_checks. rewrite search_none_iff.
  - unfold edges_present, acyclic. setoid_rewrite byID_dom. setoid_rewrite byID_tc.
    assert (∀ x y, check_missing byID x y = None ↔ y ∈ Check_ID <$> checks) as Hm.
    { intros x y. rewrite <-byID_dom, elem_of_dom. unfold check_missing.
      destruct (byID !! y); split; [by eexists|done|done|by intros []]. }
    setoid_rewrite Hm. split; intros [Hp Ha]; (split; intros x).
    + intros y Hxy. apply (Hp x); [|by apply byID_edge].
      destruct Hxy as (c & Hc & <- & _). by apply list_elem_of_fmap_2.
    + intros Htc. assert (x ∈ Check_ID <$> checks) as Hx; [|by apply (Ha x)].
      inversion Htc as [? ? (c & Hc & <- & _)|? ? ? (c & Hc & <- & _)]; subst;
        by apply list_elem_of_fmap_2.
    + intros y _ Hy. apply (Hp x). by apply byID_edge.
    + intros _. apply Ha.
  - intros x y _ _. unfold check_missing. rewrite elem_of_dom.
    destruct (byID !! y) eqn:E; [by eexists|done].
  - apply set_eq. intros x.
    by rewrite elem_of_list_to_set, elem_of_map_range_keys, elem_of_dom.
Qed.
End byID.

Lemma ValidateChecks_none checks : ValidateChecks checks = None ↔ valid_checks checks.
Proof.
  unfold ValidateChecks. pose proof (index_checks_spec checks ∅) as Hs. feed Hs; [done|].
  destruct (index_checks checks ∅) as [byID|e].
  - destruct Hs as (Hnd & Hne & Hl).
    rewrite (visit_checks_iff checks).
    + split; [intros []; by split|]. by intros [].
    + intros k c. rewrite Hl, lookup_empty. naive_solver.
  - split; [done|]. intros []. by destruct Hs as [_ []].
Qed.

(** ** Properties *)

(** [ValidateChecks] accepts a list of checks exactly when their
    identifiers are distinct and not empty, every dependency is one of them and
    no check depends on itself through one or more dependencies, in whatever
    order the map of checks is iterated over. *)
Theorem ValidateChecks_correct checks :
  ValidateChecks checks = None ↔ valid_checks checks.
Proof. exact (ValidateChecks_none checks). Qed.
End validate.
End checkgraph.
