(* ===== verification/VerAdapters.v ===== *)
(** * Verification: adapters

    [src/internal/verification/adapters.go] and the adapter registry of
    [types.go].  An adapter is a record of computations in the world; the class
    [LawfulAdapter] states what the engine relies on, and both adapters of the
    source are instances of it. *)

From S2P Require Import Prelude GoStrings World Runtime Float VerTypes.
Import verification.

Module adapters.

(* src: internal/verification/types.go:212-218 (Adapter) *)
Record Adapter (W : Type) := mkAdapter {
  Discover : ProjectContext W → M W (option goerror);
  Validate : VerificationCheck → ProjectContext W → M W (option goerror);
  Execute : VerificationCheck → ProjectContext W → M W (Evidence * option goerror);
  CollectEvidence : VerificationCheck → ProjectContext W → Evidence →
    M W (Evidence * option goerror);
  NormalizeResult : VerificationCheck → Evidence → option goerror →
    M W VerificationResult
}.
Arguments mkAdapter {W}.
Arguments Discover {W}.
Arguments Validate {W}.
Arguments Execute {W}.
Arguments CollectEvidence {W}.
Arguments NormalizeResult {W}.

(** A result is filed under the check it was made for, and an error is never
    normalised to a pass. *)
Class LawfulAdapter {W} (a : Adapter W) := {
  normalize_id : ∀ check evidence err w,
    Result_CheckID (NormalizeResult a check evidence err w).1 = Check_ID check;
  normalize_error : ∀ check evidence e w,
    Result_Status (NormalizeResult a check evidence (Some e) w).1 ≠ Passed
}.

(** ** The registry *)

(** The registrations, the latest first: a lookup finds the latest one. *)
(* src: internal/verification/types.go:219-223 (AdapterRegistry) *)
Definition AdapterRegistry (W : Type) := list (CheckType * Adapter W).
Definition NewAdapterRegistry {W} : AdapterRegistry W := [].
(* src: internal/verification/types.go:224-224 (Register) *)
Definition Register {W} (r : AdapterRegistry W) (t : CheckType) (a : Adapter W)
    : AdapterRegistry W := (t, a) :: r.
(* src: internal/verification/types.go:225-225 (Get) *)
Fixpoint Get {W} (r : AdapterRegistry W) (t : CheckType) : option (Adapter W) :=
  match r with
  | [] => None
  | (t', a) :: r => if decide (t' = t) then Some a else Get r t
  end.

(** ** Helpers *)

Definition any_strings (l : list any) : list string :=
  omap (λ x, match x with AnyString s => Some s | _ => None end) l.

(* src: internal/verification/adapters.go:99-116 (commandFor) *)
Definition commandFor (check : VerificationCheck) : list string :=
  match Configuration check !! "argv" with
  | Some (AnyStrings v) => v
  | Some (AnyList v) => any_strings v
  | _ =>
      match Configuration check !! "command" with
      | Some (AnyString v) =>
          if decide (strings.TrimSpace v = "") then [] else strings.Fields v
      | _ => []
      end
  end.

(* src: internal/verification/adapters.go:117-131 (envFor) *)
Definition envFor (check : VerificationCheck) : list string :=
  match Configuration check !! "environment" with
  | Some (AnyStrings raw) => raw
  | Some (AnyList raw) => any_strings raw
  | _ => []
  end.

(* src: internal/verification/adapters.go:132-139 (sanitize) *)
Definition sanitize `{strings.GoUnicode} (s : string) : string :=
  if existsb (strings.Contains (strings.ToUpper s))
       ["API_KEY"; "TOKEN"; "PASSWORD"; "SECRET"]
  then "[REDACTED]" else s.

(* src: internal/verification/adapters.go:140-161 (classify) *)
Definition classify (t : CheckType) : FailureType :=
  match t with
  | Build => BuildFailure
  | Typecheck => TypeFailure
  | Lint | Format => LintFailure
  | UnitTest | IntegrationTest | E2ETest => TestFailure
  | RuntimeHealth | HTTPHealth => RuntimeFailure
  | DatabaseHealth => DatabaseFailure
  | Browser => BrowserFailure
  | Security | Dependency => SecurityFailure
  | _ => UnknownFailure
  end.

(* src: internal/verification/adapters.go:162-162 (isTestCheck) *)
Definition isTestCheck (t : CheckType) : bool :=
  match t with UnitTest | IntegrationTest | E2ETest => true | _ => false end.

(* src: internal/verification/adapters.go:163-168 (severity) *)
Definition severity (required : bool) : string := if required then "HIGH" else "MEDIUM".

Section adapters.
Context `{strings.GoUnicode} {W : Type} `{World W}.

Definition failure_id (check : VerificationCheck) : string := "failure_" +:+ Check_ID check.
Definition ErrNoCommand : goerror := ErrorString "verification command is not configured".

(** ** The command adapter *)

(* src: internal/verification/adapters.go:22-48 (CommandAdapter.Execute) *)
Definition command_Execute (check : VerificationCheck) (project : ProjectContext W)
    : M W (Evidence * option goerror) :=
  match RuntimeProvider project with
  | None => mret (zero_Evidence, Some (ErrorString "project runtime provider unavailable"))
  | Some provider =>
      let argv := commandFor check in
      if decide (argv = []) then mret (zero_Evidence, Some ErrNoCommand)
      else
        let timeout := if Check_Timeout check <=? 0 then 10 * 60 * 10 ^ 9
                       else Check_Timeout check in
        let! started := time_Now in
        let! (result, err) := runtime.Exec provider (Some timeout) (RuntimeID project)
          (runtime.mkCommand argv (Workspace project) (envFor check) false
             (float64.trunc (float64.Seconds timeout))) in
        let! ended := time_Now in
        let evidence := mkEvidence (Some (runtime.ExitCode result))
          (sanitize (runtime.Stdout result)) (sanitize (runtime.Stderr result))
          (ended - started) None None None None None "" "" (CommitSHA project) ∅ in
        mret (evidence,
          match err with
          | Some e => Some e
          | None =>
              if decide (runtime.ExitCode result = 0) then None
              else Some (ErrorString ("verification command exited with code " +:+
                           pretty (runtime.ExitCode result)))
          end)
  end.

(* src: internal/verification/adapters.go:52-70 (CommandAdapter.NormalizeResult) *)
Definition command_NormalizeResult (check : VerificationCheck) (evidence : Evidence)
    (err : option goerror) : M W VerificationResult :=
  let! started := time_Now in
  let! completed := time_Now in
  let result := mkResult (Check_ID check) (StatusOther "") evidence None started completed in
  mret
    match err with
    | None =>
        if isTestCheck (Check_Type check) &&
           strings.Contains
             (strings.ToLower (Evidence_Stdout evidence +:+ " " +:+ Evidence_Stderr evidence))
             "no test files"
        then result <| Result_Status := Failed |>
               <| Result_Failure := Some (zero_Failure <| Failure_ID := failure_id check |>
                    <| Failure_Type := TestFailure |> <| Failure_CheckID := Check_ID check |>
                    <| SuspectedCause := "NO_TESTS_FOUND" |>
                    <| Severity := severity (Required check) |>) |>
        else result <| Result_Status := Passed |>
    | Some e =>
        let failureType := if errors_is e context_DeadlineExceeded then Timeout
                           else classify (Check_Type check) in
        result <| Result_Status := Failed |>
          <| Result_Failure := Some (mkFailure (failure_id check) failureType (Check_ID check)
               "" (commandFor check) (Evidence_ExitCode evidence) (Evidence_Stdout evidence)
               (Evidence_Stderr evidence) "" [] (error_text e) (severity (Required check))
               (1 <? Check_MaxAttempts check)) |>
    end.

(* src: internal/verification/adapters.go:13-70 (CommandAdapter) *)
Definition CommandAdapter : Adapter W := {|
  Discover _ := mret None;
  Validate check _ := mret (if decide (commandFor check = []) then Some ErrNoCommand else None);
  Execute := command_Execute;
  CollectEvidence _ _ evidence := mret (evidence, None);
  NormalizeResult := command_NormalizeResult
|}.

(** ** The adapter of the check types that cannot run *)

(** [err] is the error of [Execute], which never returns nil. *)
(* src: internal/verification/adapters.go:72-86 (UnsupportedAdapter) *)
Definition UnsupportedAdapter : Adapter W := {|
  Discover _ := mret None;
  Validate _ _ := mret None;
  Execute _ _ := mret (zero_Evidence,
    Some (ErrorString "verification adapter is unavailable in this environment"));
  CollectEvidence _ _ evidence := mret (evidence, None);
  NormalizeResult check evidence err :=
    let! started := time_Now in
    let! completed := time_Now in
    mret (mkResult (Check_ID check) Failed evidence
      (Some (zero_Failure <| Failure_ID := failure_id check |>
         <| Failure_Type := EnvironmentFailure |> <| Failure_CheckID := Check_ID check |>
         <| SuspectedCause := from_option error_text "" err |>
         <| Severity := severity (Required check) |>)) started completed)
|}.

(* src: internal/verification/adapters.go:88-98 (DefaultRegistry) *)
Definition DefaultRegistry : AdapterRegistry W :=
  let r := foldl (λ r t, Register r t CommandAdapter) NewAdapterRegistry
    [Build; Typecheck; Lint; Format; UnitTest; IntegrationTest; E2ETest; Custom;
     Dependency; Security] in
  foldl (λ r t, Register r t UnsupportedAdapter) r
    [RuntimeHealth; HTTPHealth; DatabaseHealth; Browser].

(** ** The laws hold *)

#[global] Instance CommandAdapter_lawful : LawfulAdapter CommandAdapter.
Proof.
  split; intros; simpl; unfold command_NormalizeResult, mthen, mret;
    destruct (time_Now w) as [t1 w1], (time_Now w1) as [t2 w2]; simpl.
  - repeat case_match; done.
  - repeat case_match; done.
Qed.

#[global] Instance UnsupportedAdapter_lawful : LawfulAdapter UnsupportedAdapter.
Proof.
  split; intros; simpl; unfold mthen, mret;
    destruct (time_Now w) as [t1 w1], (time_Now w1) as [t2 w2]; done.
Qed.

Definition LawfulRegistry (r : AdapterRegistry W) : Prop :=
  Forall (λ ta, LawfulAdapter ta.2) r.

Lemma DefaultRegistry_lawful : LawfulRegistry DefaultRegistry.
Proof.
  unfold LawfulRegistry, DefaultRegistry, Register, NewAdapterRegistry. cbn [foldl].
  repeat (apply Forall_cons; split; [apply _|]). by apply Forall_nil.
Qed.

Lemma Get_lawful r t a : LawfulRegistry r → Get r t = Some a → LawfulAdapter a.
Proof.
  induction r as [|[t' a'] r IH]; simpl; [done|].
  intros [Ha Hr]%Forall_cons Hg. case_decide; simplify_eq; [done|by apply IH].
Qed.
End adapters.
End adapters.
