(* ===== verification/VerEngine.v ===== *)
(** * Verification: the engine and the gates

    [src/internal/verification/engine.go], [gates.go] and [deployment_gate.go].
    [Run] validates the profile, runs the checks in the order of their
    identifiers and sums the results up.  The events it publishes are kept in
    the order they are sent.  The counters of the summary are bounded by the
    number of checks, so they are plain integers. *)

From S2P Require Import Prelude GoStrings World Runtime Float OrchTypes VerTypes VerGraph VerAdapters.
Import verification checkgraph adapters.

Module engine.

(** ** Profiles *)

Definition minutes (n : Z) : Z := n * 60 * 10 ^ 9.

(* src: internal/verification/engine.go:176-178 (Profile) *)
Definition required (id : string) (t : CheckType) (n argv : string) : VerificationCheck :=
  mkCheck id t n "" true (minutes 10) 1 {["command" := AnyString argv]} [] [].

(* src: internal/verification/engine.go:169-187 (Profile) *)
Definition Profile (name : string) (policy : Policy) (checks : list VerificationCheck)
    : VerificationProfile :=
  let policy := if decide (policy = PolicyOther "") then Standard else policy in
  if decide (checks = []) then
    mkProfile name policy
      match policy with
      | Strict =>
          [required "build" Build "Build" ""; required "tests" UnitTest "Tests" "";
           mkCheck "security" Security "Security" "" true (minutes 5) 1 ∅ [] []]
      | Fast =>
          [required "build" Build "Build" "";
           required "tests" UnitTest "Essential tests" ""]
      | _ =>
          [required "build" Build "Build" ""; required "tests" UnitTest "Tests" "";
           mkCheck "runtime" RuntimeHealth "Runtime health" "" true (minutes 2) 1 ∅ []
             ["build"]]
      end
  else mkProfile name policy checks.

(* src: internal/verification/engine.go:215-222 (findCheck) *)
Fixpoint findCheck (checks : list VerificationCheck) (id : string) : VerificationCheck :=
  match checks with
  | [] => zero_Check <| Check_ID := id |> <| Required := true |>
  | c :: checks => if decide (Check_ID c = id) then c else findCheck checks id
  end.

(** ** Events *)

Inductive payload :=
  | RunData (run : VerificationRun)
  | CheckData (check : VerificationCheck)
  | ResultData (result : VerificationResult).
Definition event := (string * string * payload)%type.

(** [Registry] is nil or a registry, [Events] says whether there is a sink and
    [Now] is the clock of the engine, if it has one. *)
(* src: internal/verification/engine.go:15-19 (Engine) *)
Record Engine (W : Type) := mkEngine {
  Registry : option (AdapterRegistry W);
  Events : bool;
  Now : option (M W Z)
}.
Arguments mkEngine {W}.
Arguments Registry {W}.
Arguments Events {W}.
Arguments Now {W}.

Section engine.
Context `{MapOrder} `{strings.GoUnicode} {W : Type} `{World W}.

(** ** The state of the working tree *)

Definition git (project : ProjectContext W) (args : list string) : runtime.Command :=
  runtime.mkCommand ("git" :: args) (Workspace project) [] false 10.

(** The lines of [git status --porcelain] as the source reads them: [sep] is the
    separator it splits at. *)
(* src: internal/verification/engine.go:204-208 (captureProjectState) *)
Definition status_files (sep status : string) : list string :=
  omap (λ line, if decide (3 < String.length line)%nat
                then Some (strings.TrimSpace (strings.drop 3 line)) else None)
    (strings.Split (strings.TrimSpace status) sep).

(** A backslash and the letter n, which is what the literal ["\\n"] is. *)
Definition backslash_n : string := "\n".

(* src: internal/verification/engine.go:188-214 (captureProjectState) *)
Definition captureProjectState (project : ProjectContext W) : M W (ProjectContext W) :=
  let unknown := project <| Worktree :=
    (if decide (Worktree project = "") then "unknown" else Worktree project) |> in
  match RuntimeProvider project with
  | None => mret unknown
  | Some provider =>
      if decide (RuntimeID project = "") then mret unknown
      else
        let! (sha, _) := runtime.Exec provider None (RuntimeID project)
          (git project ["rev-parse"; "HEAD"]) in
        let project :=
          if bool_decide (CommitSHA project = "") && bool_decide (runtime.ExitCode sha = 0)
          then project <| CommitSHA := strings.TrimSpace (runtime.Stdout sha) |>
          else project in
        let! (status, _) := runtime.Exec provider None (RuntimeID project)
          (git project ["status"; "--porcelain"]) in
        mret
          (if bool_decide (Worktree project = "") && bool_decide (runtime.ExitCode status = 0)
           then
             if decide (strings.TrimSpace (runtime.Stdout status) = "")
             then project <| Worktree := "clean" |>
             else project <| Worktree := "dirty" |>
                    <| ChangedFiles := ChangedFiles project ++
                         status_files backslash_n (runtime.Stdout status) |>
           else if decide (Worktree project = "") then project <| Worktree := "unknown" |>
           else project)
  end.

(** ** One check *)

(** [Cancelled], or [TimedOut] for an expired deadline. *)
Definition interrupted (err : goerror) : Status :=
  if errors_is err context_DeadlineExceeded then TimedOut else Cancelled.

(** The second read of the context, once the first has found an error. *)
Definition interruption : M W Status :=
  let! err := ctx_Err in
  mret (from_option interrupted Cancelled err).

(* src: internal/verification/engine.go:93-109 (Run) *)
Fixpoint attempt_check (adapter : Adapter W) (check : VerificationCheck)
    (project : ProjectContext W) (n : nat) (result : VerificationResult)
    : M W VerificationResult :=
  match n with
  | O => mret result
  | S n =>
      let! (evidence, err) := Execute adapter check project in
      let! (collected, collectErr) := CollectEvidence adapter check project evidence in
      let evidence := match collectErr with None => collected | Some _ => evidence end in
      let! result := NormalizeResult adapter check evidence err in
      match err with
      | None => mret result
      | Some _ =>
          let! cerr := ctx_Err in
          match cerr with
          | Some _ => let! status := interruption in
                      mret (result <| Result_Status := status |>)
          | None => attempt_check adapter check project n result
          end
      end
  end.

Definition zero_Result : VerificationResult :=
  mkResult "" (StatusOther "") zero_Evidence None time_zero time_zero.

(** The result of the check, and whether it was executed (and not refused by
    [Discover] or [Validate]). *)
(* src: internal/verification/engine.go:78-109 (Run) *)
Definition execute_check (adapter : Adapter W) (check : VerificationCheck)
    (project : ProjectContext W) : M W (VerificationResult * bool) :=
  let refused err :=
    let! result := NormalizeResult adapter check zero_Evidence (Some err) in
    mret (result, false) in
  let! derr := Discover adapter project in
  match derr with
  | Some err => refused err
  | None =>
      let! verr := Validate adapter check project in
      match verr with
      | Some err => refused err
      | None =>
          let attempts := if Check_MaxAttempts check <? 1 then 1 else Check_MaxAttempts check in
          let! result := attempt_check adapter check project (Z.to_nat attempts) zero_Result in
          mret (result, true)
      end
  end.

(* src: internal/verification/engine.go:56-61 (Run) *)
Definition is_blocked (results : gmap string VerificationResult)
    (check : VerificationCheck) : bool :=
  existsb (λ dep, match results !! dep with
                  | Some prior => negb (bool_decide (Result_Status prior = Passed))
                  | None => false
                  end) (Check_Dependencies check).

Definition blocked_cause : string := "dependency check did not pass".

(* src: internal/verification/engine.go:63-63 (Run) *)
Definition blocked_result (check : VerificationCheck) (now completed : Z)
    : VerificationResult :=
  mkResult (Check_ID check) Failed zero_Evidence
    (Some (zero_Failure <| Failure_ID := "failure_" +:+ Check_ID check |>
       <| Failure_Type := EnvironmentFailure |> <| Failure_CheckID := Check_ID check |>
       <| SuspectedCause := blocked_cause |> <| Severity := severity (Required check) |>
       <| Retryable := false |>)) now completed.

(** ** The loop over the checks *)

Record loop_state := mkLoop {
  loop_run : VerificationRun;
  loop_results : gmap string VerificationResult;
  loop_events : list event
}.
#[global] Instance eta_loop_state : Eta loop_state := λ s,
  mkLoop (loop_run s) (loop_results s) (loop_events s).

Definition publish (e : Engine W) (kind project : string) (data : payload)
    (s : loop_state) : loop_state :=
  if Events e then s <| loop_events := loop_events s ++ [(kind, project, data)] |> else s.

Definition record_result (check : VerificationCheck) (result : VerificationResult)
    (s : loop_state) : loop_state :=
  s <| loop_results := <[Check_ID check := result]> (loop_results s) |>
    <| loop_run := (loop_run s) <| Run_Results := Run_Results (loop_run s) ++ [result] |> |>.

Definition set_status (status : Status) (s : loop_state) : loop_state :=
  s <| loop_run := (loop_run s) <| Run_Status := status |> |>.

(* src: internal/verification/engine.go:112-114 (Run) *)
Definition record_artifact (request : CheckRequest) (check : VerificationCheck)
    (result : VerificationResult) (s : loop_state) : loop_state :=
  let path := ArtifactPath (Result_Evidence result) in
  if decide (path = "") then s
  else
    let run := loop_run s in
    s <| loop_run := run <| Run_Artifacts := Run_Artifacts run ++
      [mkArtifact ("artifact_" +:+ Run_ID run +:+ "_" +:+ Check_ID check)
         (Request_ProjectID request) (Request_TaskID request) (Run_ID run) (Check_ID check)
         "evidence" path ∅] |> |>.

(* src: internal/verification/engine.go:48-129 (Run) *)
Fixpoint check_loop (e : Engine W) (registry : AdapterRegistry W) (request : CheckRequest)
    (project : ProjectContext W) (now : Z) (checks : list VerificationCheck)
    (s : loop_state) : M W loop_state :=
  match checks with
  | [] => mret s
  | check :: checks =>
      let! cerr := ctx_Err in
      match cerr with
      | Some err => mret (set_status (interrupted err) s)
      | None =>
          let pid := Request_ProjectID request in
          if is_blocked (loop_results s) check then
            let! completed := time_Now in
            let result := blocked_result check now completed in
            let s := publish e "verification.check.failed" pid (ResultData result)
                       (record_result check result s) in
            check_loop e registry request project now checks s
          else
            let adapter := default UnsupportedAdapter (Get registry (Check_Type check)) in
            let s := publish e "verification.check.started" pid (CheckData check) s in
            let! (result, executed) := execute_check adapter check project in
            let s := record_result check result s in
            if negb executed then check_loop e registry request project now checks s
            else
              let s := record_artifact request check result s in
              let s := publish e
                (if decide (Result_Status result = Passed) then "verification.check.passed"
                 else "verification.check.failed") pid (ResultData result) s in
              let! cerr := ctx_Err in
              match cerr with
              | Some _ => let! status := interruption in mret (set_status status s)
              | None => check_loop e registry request project now checks s
              end
      end
  end.

(** ** The summary *)

(* src: internal/verification/engine.go:133-158 (Run) *)
Definition summarize (checks : list VerificationCheck) (s : Summary)
    (result : VerificationResult) : Summary :=
  let check := findCheck checks (Result_CheckID result) in
  let s :=
    match Result_Failure result with
    | Some f => if decide (SuspectedCause f = blocked_cause)
                then s <| Blocked := Blocked s + 1 |> else s
    | None => s
    end in
  if decide (Result_Status result = Passed) then
    if Required check then s <| RequiredPassed := RequiredPassed s + 1 |>
    else s <| OptionalPassed := OptionalPassed s + 1 |>
  else if bool_decide (Result_Status result = Cancelled) ||
          bool_decide (Result_Status result = TimedOut) then
    if Required check then s <| RequiredFailed := RequiredFailed s + 1 |>
    else s <| OptionalFailed := OptionalFailed s + 1 |>
  else if Required check then s <| RequiredFailed := RequiredFailed s + 1 |>
  else s <| OptionalFailed := OptionalFailed s + 1 |>.

(* src: internal/verification/engine.go:130-163 (Run) *)
Definition conclude (run : VerificationRun) : VerificationRun :=
  let run := if decide (Run_Status run = Running) then run <| Run_Status := Passed |>
             else run in
  let run := run <| Run_Summary := foldl (summarize (Run_Checks run)) (Run_Summary run)
                                     (Run_Results run) |>
                 <| Run_Failures := Run_Failures run ++
                      omap Result_Failure (Run_Results run) |> in
  if 0 <? RequiredFailed (Run_Summary run) then run <| Run_Status := Failed |> else run.

(** ** The run *)

Definition project_state (project : ProjectContext W) : ProjectState :=
  mkProjectState (CommitSHA project) (Worktree project) (ChangedFiles project).

(* src: internal/verification/engine.go:33-38 (Run) *)
Definition new_run (request : CheckRequest) (profile : VerificationProfile)
    (project : ProjectContext W) (now : Z) : VerificationRun :=
  mkRun ("vr_" +:+ pretty (UnixNano now)) (Request_ProjectID request)
    (Request_WorkflowID request) (Request_TaskID request) (Request_TaskRunID request)
    Running now None zero_Summary profile (Profile_Checks profile) [] [] [] []
    (project_state project).

Definition check_less (a b : VerificationCheck) : bool :=
  String.ltb (Check_ID a) (Check_ID b).

(** The run or the error, with the events sent. *)
(* src: internal/verification/engine.go:21-168 (Run) *)
Definition Run (e : Engine W) (request : CheckRequest) (project : ProjectContext W)
    : M W (result (VerificationRun * list event)) :=
  if decide (Request_ProjectID request = "")
  then mret (Err (ErrorString "project_id is required"))
  else
    let! now := time_Now in
    let! now := match Now e with Some clock => clock | None => mret now end in
    let profile := Profile (Request_Profile request) (Request_Policy request)
                     (Request_Checks request) in
    match ValidateChecks (Profile_Checks profile) with
    | Some err => mret (Err err)
    | None =>
        let project := project <| Project_ID :=
          (if decide (Project_ID project = "") then Request_ProjectID request
           else Project_ID project) |> in
        let! project := captureProjectState project in
        let s := publish e "verification.started" (Request_ProjectID request)
          (RunData (new_run request profile project now))
          (mkLoop (new_run request profile project now) ∅ []) in
        let registry := default DefaultRegistry (Registry e) in
        let checks := sort_by check_less (Profile_Checks profile) in
        let! s := check_loop e registry request project now checks s in
        let run := conclude (loop_run s) in
        let! completed := time_Now in
        let run := run <| Run_CompletedAt := Some completed |> in
        let s := publish e "verification.completed" (Request_ProjectID request)
                   (RunData run) s in
        mret (Ok (run, loop_events s))
    end.

(** ** The gates *)

(* src: internal/verification/gates.go:5-7 (TaskVerified) *)
Definition TaskVerified (run : VerificationRun) : bool :=
  bool_decide (Run_Status run = Passed) &&
  bool_decide (RequiredFailed (Run_Summary run) = 0).

(* src: internal/verification/gates.go:8-18 (WorkflowVerified) *)
Definition WorkflowVerified (runs : list VerificationRun) : bool :=
  negb (bool_decide (length runs = 0%nat)) && forallb TaskVerified runs.

(* src: internal/verification/gates.go:19-27 (ApplyTaskGate) *)
Definition ApplyTaskGate (task : option orchestration.Task) (run : VerificationRun) : bool :=
  match task with
  | None => false
  | Some task =>
      if negb (TaskVerified run) then false
      else bool_decide (orchestration.Task_Status task = orchestration.TaskSucceeded) ||
           bool_decide (orchestration.Task_Status task = orchestration.TaskRunning)
  end.

(* src: internal/verification/gates.go:28-36 (ApplyWorkflowGate) *)
Definition ApplyWorkflowGate (workflow : option orchestration.Workflow)
    (runs : list VerificationRun) : bool :=
  match workflow with
  | None => false
  | Some w =>
      if negb (WorkflowVerified runs) then false
      else bool_decide (orchestration.Workflow_Status w = orchestration.WorkflowSucceeded) ||
           bool_decide (orchestration.Workflow_Status w = orchestration.WorkflowRunning)
  end.

(* src: internal/verification/deployment_gate.go:5-5 (ErrVerificationGateFailed) *)
Definition ErrVerificationGateFailed : goerror :=
  ErrorString "deployment gate requires a passed verification run".
(* src: internal/verification/deployment_gate.go:8-15 (RequiredVerificationGate) *)
Definition Allow (run : VerificationRun) : option goerror :=
  if negb (TaskVerified run) then Some ErrVerificationGateFailed else None.
End engine.
End engine.
