(* ===== verification/VerFacts.v ===== *)
(** * Verification: what a run guarantees

    The loop of the engine is first related to a trace: which checks were
    started, which were blocked and with which results, whatever the world did
    in between.  The theorems about verdicts and about dependencies are then
    read off the trace. *)

From stdpp Require Import relations.
From S2P Require Import Prelude GoStrings World Runtime Float OrchTypes VerTypes VerGraph VerAdapters VerEngine.
Import verification checkgraph adapters engine.

Section facts.
Context `{MapOrder} `{strings.GoUnicode} {W : Type} `{World W}.

(** ** Results carry the identifier of their check *)

Lemma attempt_check_id (a : Adapter W) `{!LawfulAdapter a} check project n result w :
  n ≠ 0%nat ∨ Result_CheckID result = Check_ID check →
  Result_CheckID (attempt_check a check project n result w).1 = Check_ID check.
Proof.
  revert result w. induction n as [|n IH]; intros result w Hn; simpl.
  { by destruct Hn. }
  unfold mthen. destruct (Execute a check project w) as [[evidence err] w1].
  destruct (CollectEvidence a check project evidence w1) as [[collected cerr] w2].
  set (ev := match cerr with None => collected | Some _ => evidence end).
  pose proof (normalize_id check ev err w2) as Hid.
  destruct (NormalizeResult a check ev err w2) as [r w3]. simpl in Hid.
  destruct err; [|done]. destruct (ctx_Err w3) as [[?|] w4].
  - destruct (interruption w4) as [st w5]. done.
  - apply IH. by right.
Qed.

Lemma execute_check_id (a : Adapter W) `{!LawfulAdapter a} check project w :
  Result_CheckID (execute_check a check project w).1.1 = Check_ID check.
Proof.
  unfold execute_check, mthen.
  destruct (Discover a project w) as [[err|] w1].
  { pose proof (normalize_id check zero_Evidence (Some err) w1) as Hid.
    by destruct (NormalizeResult _ _ _ _ _). }
  destruct (Validate a check project w1) as [[err|] w2].
  { pose proof (normalize_id check zero_Evidence (Some err) w2) as Hid.
    by destruct (NormalizeResult _ _ _ _ _). }
  set (n := Z.to_nat _).
  pose proof (attempt_check_id a check project n zero_Result w2) as Hid.
  destruct (attempt_check _ _ _ _ _ _) as [r w3]. simpl in *. apply Hid. left.
  unfold n. case_match; lia.
Qed.

(** ** Traces *)

(** The result is one the adapter of the check gives, in some world. *)
Definition produced (registry : AdapterRegistry W) (c : VerificationCheck)
    (r : VerificationResult) : Prop :=
  ∃ project w, r = (execute_check (default UnsupportedAdapter (Get registry (Check_Type c)))
                      c project w).1.1.

(** Each check with whether it was started and its result; the flag says that
    the loop came to its end. *)
Inductive trace_of (registry : AdapterRegistry W) : gmap string VerificationResult → list VerificationCheck →
    list (VerificationCheck * bool * VerificationResult) → bool → Prop :=
  | trace_end m : trace_of registry m [] [] true
  | trace_stop m checks : trace_of registry m checks [] false
  | trace_blocked m c checks r tr b :
      is_blocked m c = true → Result_Status r = Failed → Result_CheckID r = Check_ID c →
      trace_of registry (<[Check_ID c := r]> m) checks tr b →
      trace_of registry m (c :: checks) ((c, false, r) :: tr) b
  | trace_ran m c checks r tr b :
      is_blocked m c = false → produced registry c r → Result_CheckID r = Check_ID c →
      trace_of registry (<[Check_ID c := r]> m) checks tr b →
      trace_of registry m (c :: checks) ((c, true, r) :: tr) b.

Definition started_event (request : CheckRequest) (c : VerificationCheck) : event :=
  ("verification.check.started", Request_ProjectID request, CheckData c).

(** What the loop adds to a state. *)
Record loop_adds (e : Engine W) (request : CheckRequest) (s s' : loop_state)
    (tr : list (VerificationCheck * bool * VerificationResult)) (b : bool) : Prop := {
  adds_results : Run_Results (loop_run s') = Run_Results (loop_run s) ++ tr.*2;
  adds_checks : Run_Checks (loop_run s') = Run_Checks (loop_run s);
  adds_summary : Run_Summary (loop_run s') = Run_Summary (loop_run s);
  adds_status : if b then Run_Status (loop_run s') = Run_Status (loop_run s)
                else Run_Status (loop_run s') = Cancelled ∨ Run_Status (loop_run s') = TimedOut;
  adds_events : Events e = true → ∀ c,
    started_event request c ∈ loop_events s' ↔
    started_event request c ∈ loop_events s ∨ (c, true) ∈ tr.*1
}.

Lemma interrupted_cases err : interrupted err = Cancelled ∨ interrupted err = TimedOut.
Proof. unfold interrupted. case_match; auto. Qed.

Lemma interruption_cases (w : W) :
  (interruption w).1 = Cancelled ∨ (interruption w).1 = TimedOut.
Proof.
  unfold interruption, mthen, mret. destruct (ctx_Err w) as [[err|] w']; simpl;
    [apply interrupted_cases|by left].
Qed.

Lemma loop_adds_stop e request s st :
  st = Cancelled ∨ st = TimedOut → loop_adds e request s (set_status st s) [] false.
Proof.
  intros Hst. split; simpl; [by rewrite app_nil_r|done..|].
  intros _ c. rewrite elem_of_nil. tauto.
Qed.

(** Publishing another event than a start leaves the rest alone. *)
Lemma loop_adds_head e request s1 s2 s' c st r tr b :
  Run_Results (loop_run s2) = Run_Results (loop_run s1) ++ [r] →
  Run_Checks (loop_run s2) = Run_Checks (loop_run s1) →
  Run_Summary (loop_run s2) = Run_Summary (loop_run s1) →
  Run_Status (loop_run s2) = Run_Status (loop_run s1) →
  (Events e = true → ∀ d, started_event request d ∈ loop_events s2 ↔
     started_event request d ∈ loop_events s1 ∨ (d = c ∧ st = true)) →
  loop_adds e request s2 s' tr b →
  loop_adds e request s1 s' ((c, st, r) :: tr) b.
Proof.
  intros Hr Hc Hs Hst He [Ar Ac As Ast Ae]. split.
  - rewrite Ar, Hr, <-(assoc_L (++)). done.
  - congruence.
  - congruence.
  - destruct b; congruence.
  - intros Hev d. rewrite Ae, He by done. rewrite fmap_cons, elem_of_cons. simpl.
    destruct st; naive_solver.
Qed.

Lemma publish_run (e : Engine W) kind pid data s : loop_run (publish e kind pid data s) = loop_run s.
Proof. unfold publish. by destruct (Events e). Qed.
Lemma publish_results (e : Engine W) kind pid data s :
  loop_results (publish e kind pid data s) = loop_results s.
Proof. unfold publish. by destruct (Events e). Qed.
Lemma publish_events (e : Engine W) kind pid data s ev :
  Events e = true →
  ev ∈ loop_events (publish e kind pid data s) ↔ ev ∈ loop_events s ∨ ev = (kind, pid, data).
Proof.
  intros He. unfold publish. rewrite He. simpl.
  by rewrite elem_of_app, list_elem_of_singleton.
Qed.
Lemma record_artifact_run request c r s :
  Run_Results (loop_run (record_artifact request c r s)) = Run_Results (loop_run s) ∧
  Run_Checks (loop_run (record_artifact request c r s)) = Run_Checks (loop_run s) ∧
  Run_Summary (loop_run (record_artifact request c r s)) = Run_Summary (loop_run s) ∧
  Run_Status (loop_run (record_artifact request c r s)) = Run_Status (loop_run s) ∧
  loop_results (record_artifact request c r s) = loop_results s ∧
  loop_events (record_artifact request c r s) = loop_events s.
Proof. unfold record_artifact. by case_decide. Qed.

(** The state a processed check leaves, as [loop_adds_head] needs it. *)
Record check_adds (e : Engine W) (request : CheckRequest) (c : VerificationCheck)
    (st : bool) (r : VerificationResult) (s1 s2 : loop_state) : Prop := {
  ca_results : Run_Results (loop_run s2) = Run_Results (loop_run s1) ++ [r];
  ca_checks : Run_Checks (loop_run s2) = Run_Checks (loop_run s1);
  ca_summary : Run_Summary (loop_run s2) = Run_Summary (loop_run s1);
  ca_status : Run_Status (loop_run s2) = Run_Status (loop_run s1);
  ca_map : loop_results s2 = <[Check_ID c := r]> (loop_results s1);
  ca_events : Events e = true → ∀ d,
    started_event request d ∈ loop_events s2 ↔
    started_event request d ∈ loop_events s1 ∨ (d = c ∧ st = true)
}.

Lemma check_adds_trace e request c st r s1 s2 s' tr b :
  check_adds e request c st r s1 s2 → loop_adds e request s2 s' tr b →
  loop_adds e request s1 s' ((c, st, r) :: tr) b.
Proof. intros [] ?. by eapply (loop_adds_head e request s1 s2). Qed.

Lemma blocked_adds e request c r s :
  check_adds e request c false r s
    (publish e "verification.check.failed" (Request_ProjectID request) (ResultData r)
       (record_result c r s)).
Proof.
  split; rewrite ?publish_run, ?publish_results; [done..|].
  intros He d. rewrite publish_events by done. simpl. unfold started_event. naive_solver.
Qed.

Lemma refused_adds e request c r s :
  check_adds e request c true r s
    (record_result c r
       (publish e "verification.check.started" (Request_ProjectID request) (CheckData c) s)).
Proof.
  split; simpl; rewrite ?publish_run, ?publish_results; [done..|].
  intros He d. rewrite publish_events by done. unfold started_event. naive_solver.
Qed.

Lemma executed_adds e request c kind r s :
  kind ≠ "verification.check.started" →
  check_adds e request c true r s
    (publish e kind (Request_ProjectID request) (ResultData r)
       (record_artifact request c r
          (record_result c r
             (publish e "verification.check.started" (Request_ProjectID request)
                (CheckData c) s)))).
Proof.
  intros Hk. destruct (refused_adds e request c r s) as [H2 H3 H4 H5 H6 H7].
  edestruct (record_artifact_run request c r) as (R1 & R2 & R3 & R4 & R5 & R6).
  split; rewrite ?publish_run, ?publish_results, ?R1, ?R2, ?R3, ?R4, ?R5; [done..|].
  intros He d. rewrite publish_events, R6, H7 by done. unfold started_event. naive_solver.
Qed.

Lemma check_loop_trace e registry request project now checks s w s' w' :
  LawfulRegistry registry →
  check_loop e registry request project now checks s w = (s', w') →
  ∃ tr b, trace_of registry (loop_results s) checks tr b ∧ loop_adds e request s s' tr b.
Proof.
  intros Hreg. revert s w. induction checks as [|c checks IH]; intros s w; simpl.
  { intros [-> _]%mret_inv. exists [], true. split; [constructor|].
    split; simpl; [by rewrite app_nil_r|done..|]. intros _ c. rewrite elem_of_nil. tauto. }
  intros (cerr & w1 & _ & Hl)%mthen_inv. destruct cerr as [err|].
  { apply mret_inv in Hl as [<- _]. exists [], false. split; [constructor|].
    apply loop_adds_stop, interrupted_cases. }
  destruct (is_blocked (loop_results s) c) eqn:Hb.
  { apply mthen_inv in Hl as (completed & w2 & _ & Hl).
    set (r := blocked_result c now completed) in Hl.
    pose proof (blocked_adds e request c r s) as Ha.
    apply IH in Hl as (tr & b & Ht & Hadds). rewrite (ca_map _ _ _ _ _ _ _ Ha) in Ht.
    exists ((c, false, r) :: tr), b. split; [by apply trace_blocked|].
    by eapply check_adds_trace. }
  apply mthen_inv in Hl as ([r executed] & w2 & Hx & Hl).
  assert (produced registry c r) as Hpr by (exists project, w1; by rewrite Hx).
  assert (Result_CheckID r = Check_ID c) as Hid.
  { assert (LawfulAdapter (default UnsupportedAdapter (Get registry (Check_Type c)))) as Hlaw.
    { destruct (Get registry (Check_Type c)) as [a|] eqn:Hg; simpl; [|apply _].
      by eapply Get_lawful. }
    pose proof (execute_check_id _ c project w1) as Hi. by rewrite Hx in Hi. }
  destruct executed; simpl in Hl; cycle 1.
  { pose proof (refused_adds e request c r s) as Ha.
    apply IH in Hl as (tr & b & Ht & Hadds). rewrite (ca_map _ _ _ _ _ _ _ Ha) in Ht.
    exists ((c, true, r) :: tr), b. split; [by apply trace_ran|].
    by eapply check_adds_trace. }
  set (kind := if decide (Result_Status r = Passed) then _ else _) in Hl.
  assert (kind ≠ "verification.check.started") as Hk by (unfold kind; by case_decide).
  pose proof (executed_adds e request c kind r s Hk) as Ha.
  apply mthen_inv in Hl as (cerr & w3 & _ & Hl). destruct cerr as [err|].
  - apply mthen_inv in Hl as (st & w4 & Hst & [<- _]%mret_inv).
    exists [(c, true, r)], false. split; [apply trace_ran; [done..|constructor]|].
    eapply check_adds_trace; [exact Ha|]. apply loop_adds_stop.
    pose proof (interruption_cases w3) as Hc. by rewrite Hst in Hc.
  - apply IH in Hl as (tr & b & Ht & Hadds). rewrite (ca_map _ _ _ _ _ _ _ Ha) in Ht.
    exists ((c, true, r) :: tr), b. split; [by apply trace_ran|].
    by eapply check_adds_trace.
Qed.

(** ** Facts about traces *)

Lemma trace_checks registry m checks tr b :
  trace_of registry m checks tr b → tr.*1.*1 `prefix_of` checks ∧ (b = true → tr.*1.*1 = checks).
Proof.
  induction 1 as [|m checks|m c checks r tr b Hb Hs Hid Ht [IHp IHe]|m c checks r tr b Hb Hpr Hid Ht [IHp IHe]];
    [done|split; [apply prefix_nil|done]|..]; rewrite !fmap_cons; simpl;
    (split; [by apply prefix_cons|intros Htrue; by rewrite IHe]).
Qed.

Lemma trace_result_id registry m checks tr b c st r :
  trace_of registry m checks tr b → (c, st, r) ∈ tr → Result_CheckID r = Check_ID c.
Proof. induction 1; rewrite ?elem_of_cons, ?elem_of_nil; naive_solver. Qed.

Lemma trace_results_ids registry m checks tr b :
  trace_of registry m checks tr b → Result_CheckID <$> tr.*2 = Check_ID <$> tr.*1.*1.
Proof. induction 1; rewrite ?fmap_cons; simpl; congruence. Qed.

(** A check was started exactly when none of the results before it that it
    depends on is a failure. *)
Lemma trace_started registry m checks tr b tr1 c st r tr2 :
  trace_of registry m checks tr b → tr = tr1 ++ (c, st, r) :: tr2 →
  NoDup (Check_ID <$> checks) → (∀ c, c ∈ checks → m !! Check_ID c = None) →
  st = true ↔ ∀ dep prior, dep ∈ Check_Dependencies c →
    (m !! dep = Some prior ∨ (prior ∈ tr1.*2 ∧ Result_CheckID prior = dep)) →
    Result_Status prior = Passed.
Proof.
  intros Ht. revert tr1. induction Ht as [|m checks
    |m c' checks r' tr b Hb Hs Hid Ht IH|m c' checks r' tr b Hb Hpr Hid Ht IH];
    intros tr1 Htr Hnd Hm; [by destruct tr1..| |].
  all: apply NoDup_cons in Hnd as [Hfresh Hnd].
  all: assert (∀ dep prior, <[Check_ID c' := r']> m !! dep = Some prior ↔
    m !! dep = Some prior ∨ (prior = r' ∧ Result_CheckID prior = dep)) as Hins
    by (intros dep prior; rewrite lookup_insert_Some; pose proof (Hm c' ltac:(by left));
        destruct (decide (Check_ID c' = dep)); naive_solver).
  all: destruct tr1 as [|x tr1]; simpl in Htr; simplify_eq.
  - split; [done|]. intros Hall. apply existsb_exists in Hb as (dep & Hdep & Hp).
    apply list_elem_of_In in Hdep. destruct (m !! dep) as [prior|] eqn:Hl; [|done].
    rewrite (Hall dep prior) in Hp by auto. done.
  - rewrite (IH tr1 eq_refl Hnd); cycle 1.
    { intros d Hd. rewrite lookup_insert_ne; [apply Hm; by right|].
      intros Heq. apply Hfresh. rewrite Heq. by apply list_elem_of_fmap_2. }
    setoid_rewrite Hins. setoid_rewrite fmap_cons. setoid_rewrite elem_of_cons. naive_solver.
  - split; [|done]. intros _ dep prior Hdep [Hl|[Hn _]]; [|by apply elem_of_nil in Hn].
    destruct (decide (Result_Status prior = Passed)) as [?|Hn]; [done|].
    assert (is_blocked m c = true) as Ht'; [|congruence].
    apply existsb_exists. exists dep. split; [by apply list_elem_of_In|].
    rewrite Hl. by rewrite bool_decide_false.
  - rewrite (IH tr1 eq_refl Hnd); cycle 1.
    { intros d Hd. rewrite lookup_insert_ne; [apply Hm; by right|].
      intros Heq. apply Hfresh. rewrite Heq. by apply list_elem_of_fmap_2. }
    setoid_rewrite Hins. setoid_rewrite fmap_cons. setoid_rewrite elem_of_cons. naive_solver.
Qed.

(** ** The summary *)

Definition failing (checks : list VerificationCheck) (r : VerificationResult) : Prop :=
  Result_Status r ≠ Passed ∧ Required (findCheck checks (Result_CheckID r)) = true.
#[global] Instance failing_dec checks r : Decision (failing checks r).
Proof. unfold failing. apply _. Defined.

Definition counted (s : Summary) : Z :=
  RequiredPassed s + RequiredFailed s + OptionalPassed s + OptionalFailed s.

Lemma summarize_spec checks s r :
  RequiredFailed (summarize checks s r) =
    RequiredFailed s + (if decide (failing checks r) then 1 else 0) ∧
  counted (summarize checks s r) = counted s + 1.
Proof.
  unfold summarize, counted, failing.
  destruct (Result_Failure r) as [f|]; [destruct (decide (SuspectedCause f = blocked_cause))|];
    repeat (case_decide || case_match); simpl; split; intuition lia || congruence.
Qed.

Lemma summary_spec checks s results :
  RequiredFailed (foldl (summarize checks) s results) =
    RequiredFailed s + Z.of_nat (length (filter (failing checks) results)) ∧
  counted (foldl (summarize checks) s results) = counted s + Z.of_nat (length results).
Proof.
  revert s. induction results as [|r results IH]; intros s; simpl; [lia|].
  destruct (IH (summarize checks s r)) as [-> ->].
  destruct (summarize_spec checks s r) as [-> ->].
  rewrite filter_cons. case_decide; simpl; lia.
Qed.

Lemma findCheck_in checks c :
  NoDup (Check_ID <$> checks) → c ∈ checks → findCheck checks (Check_ID c) = c.
Proof.
  induction checks as [|d checks IH]; simpl; [by intros _ ?%elem_of_nil|].
  intros [Hfresh Hnd]%NoDup_cons [->|Hc]%elem_of_cons; [by rewrite decide_True|].
  case_decide as Heq; [|by apply IH]. exfalso. apply Hfresh. rewrite Heq.
  by apply list_elem_of_fmap_2.
Qed.

(** ** A run and its trace *)

Record run_trace (e : Engine W) (registry : AdapterRegistry W) (request : CheckRequest) (run : VerificationRun)
    (events : list event) (tr : list (VerificationCheck * bool * VerificationResult))
    (b : bool) (st : Status) : Prop := {
  rt_valid : valid_checks (Run_Checks run);
  rt_trace : trace_of registry ∅ (sort_by check_less (Run_Checks run)) tr b;
  rt_results : Run_Results run = tr.*2;
  rt_summary : Run_Summary run =
    foldl (summarize (Run_Checks run)) zero_Summary (Run_Results run);
  rt_status : Run_Status run = (if 0 <? RequiredFailed (Run_Summary run) then Failed else st);
  rt_final : if b then st = Passed else st = Cancelled ∨ st = TimedOut;
  rt_events : Events e = true → ∀ c, started_event request c ∈ events ↔ (c, true) ∈ tr.*1
}.

Lemma conclude_spec run :
  Run_Checks (conclude run) = Run_Checks run ∧ Run_Results (conclude run) = Run_Results run ∧
  Run_Summary (conclude run) =
    foldl (summarize (Run_Checks run)) (Run_Summary run) (Run_Results run) ∧
  Run_Status (conclude run) = (if 0 <? RequiredFailed (Run_Summary (conclude run)) then Failed
    else if decide (Run_Status run = Running) then Passed else Run_Status run).
Proof.
  unfold conclude. destruct (decide (Run_Status run = Running)); cbv zeta; simpl;
    destruct (0 <? RequiredFailed (foldl _ _ _)) eqn:E; simpl; rewrite ?E; done.
Qed.

Lemma Run_has_trace e request project w run events w' :
  LawfulRegistry (default DefaultRegistry (Registry e)) →
  engine.Run e request project w = (Ok (run, events), w') →
  Profile_Checks (Profile (Request_Profile request) (Request_Policy request)
    (Request_Checks request)) = Run_Checks run ∧
  ∃ tr b st, run_trace e (default DefaultRegistry (Registry e)) request run events tr b st.
Proof.
  intros Hreg. unfold engine.Run. case_decide as Hpid; [by intros [? _]%mret_inv|].
  intros (now0 & w1 & _ & Hr)%mthen_inv. apply mthen_inv in Hr as (now & w2 & _ & Hr).
  set (profile := Profile _ _ _) in Hr.
  destruct (ValidateChecks (Profile_Checks profile)) eqn:Hv; [by apply mret_inv in Hr as [? _]|].
  apply ValidateChecks_none in Hv.
  apply mthen_inv in Hr as (project' & w3 & _ & Hr).
  set (s0 := publish _ _ _ _ _) in Hr.
  apply mthen_inv in Hr as (s & w4 & Hloop & Hr).
  apply mthen_inv in Hr as (completed & w5 & _ & [Hrun _]%mret_inv).
  injection Hrun as <- <-.
  apply check_loop_trace in Hloop as (tr & b & Ht & [Ar Ac As Ast Ae]); [|done].
  assert (loop_run s0 = engine.new_run request profile project' now) as Hs0
    by apply publish_run.
  assert (loop_results s0 = ∅) as Hm0 by apply publish_results.
  rewrite Hs0 in Ar, Ac, As, Ast. rewrite Hm0 in Ht. simpl in Ar, Ac, As, Ast.
  destruct (conclude_spec (loop_run s)) as (Cc & Cr & Cs & Cst).
  split; [simpl; by rewrite Cc, Ac|].
  exists tr, b, (if decide (Run_Status (loop_run s) = Running) then Passed
                 else Run_Status (loop_run s)).
  split; simpl; rewrite ?Cc, ?Cr, ?Cs, ?Ac, ?Ar, ?As; [done..| | |].
  - rewrite Cst, Cs, Ac, Ar, As. done.
  - destruct b; [by rewrite Ast|].
    case_decide as Hrn; [|done]. rewrite Hrn in Ast. naive_solver.
  - intros He c. rewrite publish_events, (Ae He c) by done.
    unfold s0. rewrite publish_events by done. simpl.
    unfold started_event. rewrite elem_of_nil. naive_solver.
Qed.

(** ** The order of a trace *)

Lemma check_less_sorted checks :
  StronglySorted (λ a b, check_less b a = false) (sort_by check_less checks).
Proof.
  apply sort_by_sorted; unfold check_less; intros *; [apply ltb_asym|apply ltb_negtrans].
Qed.

Lemma ltb_total a b : a ≠ b → String.ltb a b = false → String.ltb b a = true.
Proof.
  rewrite ltb_false, ltb_true. intros Hne Hab Hba. apply Hne. by apply (anti_symm String.le).
Qed.

Lemma sorted_split checks l1 c l2 :
  l1 ++ c :: l2 `prefix_of` sort_by check_less checks → NoDup (Check_ID <$> checks) →
  (∀ d, d ∈ l1 → String.ltb (Check_ID d) (Check_ID c) = true) ∧
  (∀ d, d ∈ l2 → String.ltb (Check_ID d) (Check_ID c) = false).
Proof.
  intros [l3 Hl] Hnd. pose proof (check_less_sorted checks) as Hs.
  assert (NoDup (Check_ID <$> sort_by check_less checks)) as Hnd'
    by by rewrite (sort_by_perm check_less checks).
  rewrite Hl, <-(assoc_L (++)) in Hs, Hnd'. simpl in Hs, Hnd'.
  rewrite fmap_app, fmap_cons in Hnd'.
  apply StronglySorted_app in Hs as (Hs1 & _ & Hs2).
  apply NoDup_app in Hnd' as (_ & Hd & _). split.
  - intros d Hin. apply ltb_total; [|apply (Hs1 d c); [done|by left]].
    intros Heq. apply (Hd (Check_ID d)); [by apply list_elem_of_fmap_2|].
    rewrite <-Heq. by left.
  - intros d Hin. inversion Hs2 as [|? ? _ Hf]; subst.
    eapply Forall_forall in Hf; [exact Hf|]. apply elem_of_app. by left.
Qed.

Lemma run_trace_split e registry request run events tr b st r :
  run_trace e registry request run events tr b st → r ∈ Run_Results run →
  ∃ tr1 c s tr2, tr = tr1 ++ (c, s, r) :: tr2 ∧ c ∈ Run_Checks run ∧
    Result_CheckID r = Check_ID c.
Proof.
  intros [Hv Ht Hr _ _ _ _] Hin. rewrite Hr in Hin.
  apply list_elem_of_fmap in Hin as ([[c s] r'] & -> & Hin). simpl.
  pose proof (trace_result_id _ _ _ _ _ _ _ _ Ht Hin) as Hid.
  apply list_elem_of_split in Hin as (tr1 & tr2 & ->). exists tr1, c, s, tr2.
  split; [done|]. split; [|done].
  destruct (trace_checks _ _ _ _ _ Ht) as [[l Hl] _].
  rewrite <-(elem_of_sort_by check_less), Hl, !fmap_app, !fmap_cons.
  rewrite !elem_of_app. left. right. by left.
Qed.

Lemma run_trace_complete e registry request run events tr st :
  run_trace e registry request run events tr true st →
  Result_CheckID <$> Run_Results run ≡ₚ Check_ID <$> Run_Checks run.
Proof.
  intros [_ Ht Hr _ _ _ _]. rewrite Hr, (trace_results_ids _ _ _ _ _ Ht).
  rewrite (proj2 (trace_checks _ _ _ _ _ Ht) eq_refl). by rewrite sort_by_perm.
Qed.

Lemma run_trace_failed e registry request run events tr b st :
  run_trace e registry request run events tr b st →
  RequiredFailed (Run_Summary run) =
    Z.of_nat (length (filter (failing (Run_Checks run)) (Run_Results run))) ∧
  counted (Run_Summary run) = Z.of_nat (length (Run_Results run)).
Proof.
  intros [_ _ _ -> _ _ _].
  destruct (summary_spec (Run_Checks run) zero_Summary (Run_Results run)) as [-> ->].
  unfold counted, zero_Summary. simpl. lia.
Qed.

Lemma run_trace_failing e registry request run events tr b st :
  run_trace e registry request run events tr b st →
  0 < RequiredFailed (Run_Summary run) ↔
  ∃ r, r ∈ Run_Results run ∧ failing (Run_Checks run) r.
Proof.
  intros Ht. rewrite (proj1 (run_trace_failed _ _ _ _ _ _ _ _ Ht)).
  pose proof (λ r, list_elem_of_filter (failing (Run_Checks run)) (Run_Results run) r) as Hfl.
  destruct (filter _ _) as [|r l]; simpl.
  - split; [lia|]. intros (r & Hr & Hf). exfalso. by apply (elem_of_nil r), Hfl.
  - split; [|lia]. intros _. exists r. rewrite (comm and). apply Hfl. by left.
Qed.

Lemma run_trace_passed e registry request run events tr b st c :
  run_trace e registry request run events tr b st → Run_Status run = Passed →
  c ∈ Run_Checks run → Required c = true →
  ∃ r, r ∈ Run_Results run ∧ Result_CheckID r = Check_ID c ∧ Result_Status r = Passed.
Proof.
  intros Ht Hp Hc Hreq. pose proof (run_trace_failing _ _ _ _ _ _ _ _ Ht) as Hf.
  pose proof (rt_status _ _ _ _ _ _ _ _ Ht) as Hs. pose proof (rt_final _ _ _ _ _ _ _ _ Ht) as Hfin.
  destruct (0 <? _) eqn:Hlt; [congruence|]. apply Z.ltb_ge in Hlt.
  destruct b; [|destruct Hfin; congruence].
  pose proof (run_trace_complete _ _ _ _ _ _ _ Ht) as Hperm.
  assert (Check_ID c ∈ Result_CheckID <$> Run_Results run) as Hin
    by (rewrite Hperm; by apply list_elem_of_fmap_2).
  apply list_elem_of_fmap in Hin as (r & Hid & Hr). exists r. split_and!; [done|done|].
  destruct (decide (Result_Status r = Passed)) as [?|Hn]; [done|].
  assert (0 < RequiredFailed (Run_Summary run)); [|lia]. apply Hf. exists r.
  split; [done|]. split; [done|]. rewrite <-Hid, findCheck_in; [done| |done].
  apply (rt_valid _ _ _ _ _ _ _ _ Ht).
Qed.

(** A check appears once in a trace of distinct checks. *)
Lemma trace_started_unique registry m checks tr b tr1 c s r tr2 :
  trace_of registry m checks tr b → tr = tr1 ++ (c, s, r) :: tr2 →
  NoDup (Check_ID <$> checks) → (c, true) ∈ tr.*1 ↔ s = true.
Proof.
  intros Ht -> Hnd. destruct (trace_checks _ _ _ _ _ Ht) as [[l ->] _].
  rewrite !fmap_app, !fmap_cons, <-(assoc_L (++)) in Hnd.
  apply NoDup_app in Hnd as (_ & Hd & [Hn _]%NoDup_cons).
  rewrite fmap_app, fmap_cons, elem_of_app, elem_of_cons. split; [|naive_solver].
  intros [Hin|[[= <-]|Hin]]; [exfalso|done|exfalso].
  - apply (Hd (Check_ID c)); [|by left]. apply list_elem_of_fmap_2.
    apply list_elem_of_fmap. by exists (c, true).
  - apply Hn. rewrite elem_of_app. left. apply list_elem_of_fmap_2.
    apply list_elem_of_fmap. by exists (c, true).
Qed.

(** The results before that of [c] are those of the checks that sort before it. *)
Lemma trace_before registry checks tr b tr1 c s r tr2 prior :
  trace_of registry ∅ (sort_by check_less checks) tr b → tr = tr1 ++ (c, s, r) :: tr2 →
  NoDup (Check_ID <$> checks) →
  prior ∈ tr1.*2 ↔
  prior ∈ tr.*2 ∧ String.ltb (Result_CheckID prior) (Check_ID c) = true.
Proof.
  intros Ht Htr Hnd. destruct (trace_checks _ _ _ _ _ Ht) as [Hpre _].
  rewrite Htr, !fmap_app, !fmap_cons in Hpre. simpl in Hpre.
  destruct (sorted_split _ _ _ _ Hpre Hnd) as [Hlt Hge].
  assert (∀ (l : list (VerificationCheck * bool * VerificationResult)) d sd pr,
    (d, sd, pr) ∈ l → d ∈ l.*1.*1) as Hin2.
  { intros l d sd pr Hin. apply list_elem_of_fmap. exists (d, sd). split; [done|].
    apply list_elem_of_fmap. by exists (d, sd, pr). }
  split.
  - intros Hin. split; [rewrite Htr, fmap_app, elem_of_app; by left|].
    apply list_elem_of_fmap in Hin as ([[d sd] pr] & -> & Hin). simpl.
    rewrite (trace_result_id _ _ _ _ _ d sd pr Ht) by (rewrite Htr, elem_of_app; by left).
    eapply Hlt, Hin2, Hin.
  - intros [Hin Hl]. apply list_elem_of_fmap in Hin as ([[d sd] pr] & -> & Hin). simpl in *.
    rewrite (trace_result_id _ _ _ _ _ d sd pr Ht Hin) in Hl.
    rewrite Htr, elem_of_app, elem_of_cons in Hin. destruct Hin as [Hin|[[= -> -> ->]|Hin]].
    + apply list_elem_of_fmap. by exists (d, sd, pr).
    + by rewrite ltb_irrefl in Hl.
    + rewrite (Hge d (Hin2 _ _ _ _ Hin)) in Hl. done.
Qed.

Lemma trace_entry registry m checks tr b c (s : bool) r :
  trace_of registry m checks tr b → (c, s, r) ∈ tr →
  if s then produced registry c r else Result_Status r = Failed.
Proof. induction 1; rewrite ?elem_of_cons, ?elem_of_nil; naive_solver. Qed.

(** A command check without a command is refused. *)
Lemma no_command_fails c project (w : W) :
  commandFor c = [] → Result_Status (execute_check CommandAdapter c project w).1.1 ≠ Passed.
Proof.
  intros Hc. unfold execute_check, mthen. cbn [Discover Validate CommandAdapter].
  unfold mret. rewrite decide_True by done.
  pose proof (normalize_error (a:=CommandAdapter) c zero_Evidence ErrNoCommand w) as Hn.
  by destruct (NormalizeResult CommandAdapter c zero_Evidence (Some ErrNoCommand) w).
Qed.

Lemma default_profile_build name policy :
  required "build" Build "Build" "" ∈ Profile_Checks (Profile name policy []).
Proof. unfold Profile. destruct policy; repeat case_decide; simpl; done || by left. Qed.

(** ** What the default registry lets pass *)

Lemma default_adapter t :
  default UnsupportedAdapter (Get (DefaultRegistry (W := W)) t) = CommandAdapter ∨
  default UnsupportedAdapter (Get (DefaultRegistry (W := W)) t) = UnsupportedAdapter.
Proof. destruct t; auto. Qed.

Lemma unsupported_attempt_fails c project n result (w : W) r w' :
  attempt_check UnsupportedAdapter c project n result w = (r, w') →
  Result_Status result ≠ Passed → Result_Status r ≠ Passed.
Proof.
  revert result w. induction n as [|n IH]; intros result w; cbn [attempt_check].
  { by intros [-> _]%mret_inv. }
  intros ([evidence err] & w1 & Hx & Hk)%mthen_inv _. apply mret_inv in Hx as [[= <- <-] <-].
  apply mthen_inv in Hk as ([collected cerr] & w2 & _ & Hk). apply mthen_inv in Hk as (r1 & w3 & Hn & Hk).
  set (ev := match cerr with None => _ | Some _ => _ end) in Hn.
  pose proof (normalize_error (a := UnsupportedAdapter) c ev
    (ErrorString "verification adapter is unavailable in this environment") w2) as He. rewrite Hn in He.
  apply mthen_inv in Hk as (cerr2 & w4 & _ & Hk). destruct cerr2; [|by eapply IH in Hk].
  apply mthen_inv in Hk as (st & w5 & Hst & [<- _]%mret_inv). pose proof (interruption_cases w4) as Hcs.
  rewrite Hst in Hcs. cbn in Hcs |- *. intros ->. by destruct Hcs.
Qed.

(** ** What a passed check asked of its runtime *)

(** One thing a run asks of the world: the time, the state of its context, or a command of
    the runtime [id] of the provider [p]. *)
Inductive asks (p : runtime.Provider W) (id : string) (w w' : W) : Prop :=
  | asks_time t : time_Now w = (t, w') → asks p id w w'
  | asks_context err : ctx_Err w = (err, w') → asks p id w w'
  | asks_command limit cmd r : runtime.Exec p limit id cmd w = (r, w') → asks p id w w'.
(** Between [w] and [w'] the command of the check was run in that runtime, and it exited
    with 0. *)
Definition ran_command (p : runtime.Provider W) (id dir : string) (c : VerificationCheck) (w w' : W) : Prop :=
  ∃ w1 limit cmd out w2, rtc (asks p id) w w1 ∧
    runtime.Exec p limit id cmd w1 = ((out, None), w2) ∧
    runtime.Argv cmd = commandFor c ∧ commandFor c ≠ [] ∧ runtime.Environment cmd = envFor c ∧
    runtime.WorkingDir cmd = dir ∧ runtime.ExitCode out = 0 ∧ rtc (asks p id) w2 w'.

Section asking.
Variable p : runtime.Provider W.
Variable id : string.
(** The computation only asks these things. *)
Definition asking {A} (c : M W A) : Prop := ∀ w a w', c w = (a, w') → rtc (asks p id) w w'.

Lemma asking_mret {A} (a : A) : asking (mret a).
Proof. by intros w b w' [_ <-]%mret_inv. Qed.
Lemma asking_time : asking time_Now.
Proof. intros w t w' Ht. by eapply rtc_once, asks_time. Qed.
Lemma asking_context : asking ctx_Err.
Proof. intros w err w' Hc. by eapply rtc_once, asks_context. Qed.
Lemma asking_command limit cmd : asking (runtime.Exec p limit id cmd).
Proof. intros w r w' Hx. by eapply rtc_once, asks_command. Qed.
Lemma asking_mthen {A B} (m : M W A) (k : A → M W B) :
  asking m → (∀ a, asking (k a)) → asking (mthen m k).
Proof. intros Hm Hk w b w' (a & w1 & Hw1%Hm & Hw2%Hk)%mthen_inv. by etrans. Qed.
Lemma asking_interruption : asking interruption.
Proof. apply asking_mthen; [apply asking_context|intros err; apply asking_mret]. Qed.
Lemma asking_normalize check evidence err : asking (command_NormalizeResult check evidence err).
Proof.
  do 2 (apply asking_mthen; [apply asking_time|intros]). apply asking_mret.
Qed.
Lemma asking_unsupported check evidence err :
  asking (NormalizeResult UnsupportedAdapter check evidence err).
Proof. do 2 (apply asking_mthen; [apply asking_time|intros]). apply asking_mret. Qed.

Lemma ran_command_before dir c w0 w w' :
  rtc (asks p id) w0 w → ran_command p id dir c w w' → ran_command p id dir c w0 w'.
Proof. intros Hr (w1 & limit & cmd & out & w2 & ? & ?). exists w1, limit, cmd, out, w2. split; [by etrans|done]. Qed.
Lemma ran_command_after dir c w w' w3 :
  ran_command p id dir c w w' → rtc (asks p id) w' w3 → ran_command p id dir c w w3.
Proof.
  intros (w1 & limit & cmd & out & w2 & ? & ? & ? & ? & ? & ? & ? & ?) Hr. exists w1, limit, cmd, out, w2.
  split_and!; try done. by etrans.
Qed.
End asking.
#[local] Hint Resolve asking_mret asking_time asking_context asking_command asking_interruption
  asking_normalize asking_unsupported : asking.

Section asked.
Variable p : runtime.Provider W.
Variable project : ProjectContext W.
Hypothesis Hp : RuntimeProvider project = Some p.
Notation id := (RuntimeID project).
Notation dir := (Workspace project).

Lemma command_Execute_asks c : asking p id (command_Execute c project).
Proof.
  unfold command_Execute. rewrite Hp. case_decide; [auto with asking|]. cbv zeta.
  apply asking_mthen; [auto with asking|intros t1]. apply asking_mthen; [auto with asking|intros [r err]].
  apply asking_mthen; auto with asking.
Qed.
(** The command is run, and its exit code decides. *)
Lemma command_Execute_ran c (w : W) evidence w' :
  command_Execute c project w = ((evidence, None), w') →
  ran_command p id dir c w w' ∧ Evidence_ExitCode evidence = Some 0.
Proof.
  unfold command_Execute. rewrite Hp. case_decide as Hc; [by intros [[=] _]%mret_inv|]. cbv zeta.
  intros (t1 & w1 & Ht1 & Hk)%mthen_inv. apply mthen_inv in Hk as ([r err] & w2 & Hx & Hk).
  apply mthen_inv in Hk as (t2 & w3 & Ht2 & Hk). apply mret_inv in Hk as [Hk ->].
  destruct err; [done|]. case_decide as Hz; [|done]. injection Hk as <-.
  split; [|cbn; by rewrite Hz]. eexists w1, _, _, r, w2. split; [by eapply rtc_once, asks_time|].
  split; [exact Hx|]. split_and!; try done. by eapply rtc_once, asks_time.
Qed.

Lemma command_attempt_asks c n result : asking p id (attempt_check CommandAdapter c project n result).
Proof.
  revert result. induction n as [|n IH]; intros result; cbn [attempt_check]; [auto with asking|].
  apply asking_mthen; [apply command_Execute_asks|intros [evidence err]].
  apply asking_mthen; [apply asking_mret|intros [collected cerr]].
  apply asking_mthen; [apply asking_normalize|intros r]. destruct err; [|auto with asking].
  apply asking_mthen; [auto with asking|intros [|]]; [|apply IH].
  apply asking_mthen; auto with asking.
Qed.
Lemma unsupported_attempt_asks c n result : asking p id (attempt_check UnsupportedAdapter c project n result).
Proof.
  revert result. induction n as [|n IH]; intros result; cbn [attempt_check]; [auto with asking|].
  apply asking_mthen; [apply asking_mret|intros [evidence err]].
  apply asking_mthen; [apply asking_mret|intros [collected cerr]].
  apply asking_mthen; [apply asking_unsupported|intros r]. destruct err; [|auto with asking].
  apply asking_mthen; [auto with asking|intros [|]]; [|apply IH].
  apply asking_mthen; auto with asking.
Qed.
Lemma command_attempt_ran c n result (w : W) r w' :
  attempt_check CommandAdapter c project n result w = (r, w') →
  Result_Status result ≠ Passed → Result_Status r = Passed →
  ran_command p id dir c w w' ∧ Evidence_ExitCode (Result_Evidence r) = Some 0.
Proof.
  revert result w. induction n as [|n IH]; intros result w; cbn [attempt_check].
  { intros [-> _]%mret_inv Hn Hr. done. }
  intros ([evidence err] & w1 & Hx & Hk)%mthen_inv _ Hr.
  apply mthen_inv in Hk as ([collected cerr] & w2 & Hc & Hk). apply mret_inv in Hc as [[= <- <-] <-].
  apply mthen_inv in Hk as (r1 & w3 & Hn & Hk). pose proof (asking_normalize p id _ _ _ _ _ _ Hn) as Hw3.
  destruct err as [e|].
  - pose proof (normalize_error (a := CommandAdapter) c evidence e w1) as He. rewrite Hn in He.
    apply mthen_inv in Hk as (cerr & w4 & Hw4%(asking_context p id) & Hk). destruct cerr; [|].
    + apply mthen_inv in Hk as (st & w5 & Hst & [<- _]%mret_inv). pose proof (interruption_cases w4) as Hcs.
      rewrite Hst in Hcs. cbn in Hr, Hcs. subst st. by destruct Hcs.
    + apply IH in Hk as [Hran Hcode]; [|done..]. split; [|done]. eapply ran_command_before, Hran.
      etrans; [exact (command_Execute_asks _ _ _ _ Hx)|]. by etrans.
  - apply mret_inv in Hk as [<- ->]. apply command_Execute_ran in Hx as [Hran Hcode].
    split; [by eapply ran_command_after|]. cbn [NormalizeResult CommandAdapter] in Hn. unfold command_NormalizeResult in Hn.
    apply mthen_inv in Hn as (t1 & w4 & _ & Hn). apply mthen_inv in Hn as (t2 & w5 & _ & Hn).
    apply mret_inv in Hn as [<- _]. by destruct (isTestCheck _ && _).
Qed.

(** A check with the default adapters only asks this runtime, and passes by its command. *)
Lemma default_check c (w : W) r executed w' :
  execute_check (default UnsupportedAdapter (Get DefaultRegistry (Check_Type c))) c project w = ((r, executed), w') →
  rtc (asks p id) w w' ∧ (Result_Status r = Passed → Result_CheckID r = Check_ID c ∧
    Evidence_ExitCode (Result_Evidence r) = Some 0 ∧ ran_command p id dir c w w').
Proof.
  destruct (default_adapter (Check_Type c)) as [-> | ->]; intros Hx.
  - pose proof (execute_check_id CommandAdapter c project w) as Hid. rewrite Hx in Hid. cbn [fst] in Hid.
    unfold execute_check in Hx. cbn [Discover Validate CommandAdapter] in Hx.
    apply mthen_inv in Hx as (d & w1 & [<- <-]%mret_inv & Hx). apply mthen_inv in Hx as (v & w2 & [<- <-]%mret_inv & Hx).
    case_decide; apply mthen_inv in Hx as (r1 & w3 & Hr & [[= -> _] ->]%mret_inv).
    + split; [exact (asking_normalize p id c zero_Evidence (Some ErrNoCommand) w r w' Hr)|].
      pose proof (normalize_error (a := CommandAdapter) c zero_Evidence ErrNoCommand w) as Hn.
      cbn [NormalizeResult CommandAdapter] in Hn, Hr. by rewrite Hr in Hn.
    + split; [exact (command_attempt_asks _ _ _ _ _ _ Hr)|]. intros Hpass. by apply command_attempt_ran in Hr as [? ?].
  - unfold execute_check in Hx. cbn [Discover Validate UnsupportedAdapter] in Hx.
    apply mthen_inv in Hx as (d & w1 & [<- <-]%mret_inv & Hx). apply mthen_inv in Hx as (v & w2 & [<- <-]%mret_inv & Hx).
    apply mthen_inv in Hx as (r1 & w3 & Hr & [[= -> _] ->]%mret_inv).
    split; [exact (unsupported_attempt_asks _ _ _ _ _ _ Hr)|]. intros Hpass. by apply unsupported_attempt_fails in Hr.
Qed.

(** The result passed a check of the list by its command, between the two worlds. *)
Definition passed_by_command (checks : list VerificationCheck) (w w' : W) (r : VerificationResult) : Prop :=
  ∃ c, c ∈ checks ∧ Result_CheckID r = Check_ID c ∧ Evidence_ExitCode (Result_Evidence r) = Some 0 ∧
    ran_command p id dir c w w'.
Lemma passed_widen checks checks' w0 w w' w1 r :
  checks ⊆ checks' → rtc (asks p id) w0 w → rtc (asks p id) w' w1 →
  passed_by_command checks w w' r → passed_by_command checks' w0 w1 r.
Proof.
  intros Hsub Hbefore Hafter (c & Hc & ? & ? & Hran). exists c. split_and!; [by apply Hsub|done..|].
  eapply ran_command_before; [done|]. by eapply ran_command_after.
Qed.

Lemma check_loop_commands e request now checks s (w : W) s' w' :
  check_loop e DefaultRegistry request project now checks s w = (s', w') →
  rtc (asks p id) w w' ∧ ∀ r, r ∈ Run_Results (loop_run s') → Result_Status r = Passed →
    r ∈ Run_Results (loop_run s) ∨ passed_by_command checks w w' r.
Proof.
  revert s w. induction checks as [|c checks IH]; intros s w; cbn [check_loop].
  { intros [-> <-]%mret_inv. split; [done|by left]. }
  intros (cerr & w1 & Hw1%(asking_context p id) & Hl)%mthen_inv. destruct cerr as [err|].
  { apply mret_inv in Hl as [<- ->]. split; [done|by left]. }
  assert (∀ s2 w2 r0 st, rtc (asks p id) w w2 → check_adds e request c st r0 s s2 →
    (Result_Status r0 = Passed → passed_by_command [c] w w2 r0) →
    check_loop e DefaultRegistry request project now checks s2 w2 = (s', w') →
    rtc (asks p id) w w' ∧ ∀ r, r ∈ Run_Results (loop_run s') → Result_Status r = Passed →
      r ∈ Run_Results (loop_run s) ∨ passed_by_command (c :: checks) w w' r) as Hnext.
  { intros s2 w2 r0 st Hw2 Ha Hr0 Hk. apply IH in Hk as [Hw' Hall]. split; [by etrans|]. intros r Hr Hpass.
    destruct (Hall r Hr Hpass) as [Hin|Hby].
    - rewrite (ca_results _ _ _ _ _ _ _ Ha), elem_of_app, list_elem_of_singleton in Hin.
      destruct Hin as [Hin| ->]; [by left|right]. eapply passed_widen, Hr0, Hpass; [|done..]. set_solver.
    - right. eapply passed_widen, Hby; [set_solver|done..]. }
  destruct (is_blocked (loop_results s) c).
  { apply mthen_inv in Hl as (t & w2 & Hw2%(asking_time p id) & Hl).
    refine (Hnext _ _ _ _ _ (blocked_adds e request c (blocked_result c now t) s) _ Hl); [by etrans|done]. }
  apply mthen_inv in Hl as ([r executed] & w2 & Hx & Hl). apply default_check in Hx as [Hw2 Hpass].
  assert (rtc (asks p id) w w2) as Hww2 by by etrans.
  assert (Result_Status r = Passed → passed_by_command [c] w w2 r) as Hby.
  { intros (Hid & Hcode & Hran)%Hpass. exists c. split_and!; [by left|done..|]. by apply (ran_command_before _ _ _ _ _ w1). }
  destruct executed; cbn [negb] in Hl.
  2: { refine (Hnext _ _ _ _ Hww2 (refused_adds e request c r s) Hby Hl). }
  set (kind := if decide (Result_Status r = Passed) then _ else _) in Hl.
  assert (kind ≠ "verification.check.started") as Hk by (unfold kind; by case_decide).
  pose proof (executed_adds e request c kind r s Hk) as Ha.
  apply mthen_inv in Hl as (cerr & w3 & Hw3%(asking_context p id) & Hl). destruct cerr as [err|].
  - apply mthen_inv in Hl as (st & w4 & Hw4%(asking_interruption p id) & [<- ->]%mret_inv).
    split; [etrans; [exact Hww2|]; by etrans|]. intros r0. cbn [loop_run set_status Run_Results set_field].
    rewrite (ca_results _ _ _ _ _ _ _ Ha), elem_of_app, list_elem_of_singleton. intros [Hr| ->] Hp0; [by left|right].
    eapply passed_widen, Hby, Hp0; [set_solver|done|by etrans].
  - refine (Hnext _ _ _ _ _ Ha _ Hl); [by etrans|]. intros Hp0.
    eapply passed_widen, Hby, Hp0; [set_solver|done..].
Qed.
End asked.

(** The state of the working tree is taken by commands of the same runtime. *)
Lemma captureProjectState_asks (project project' : ProjectContext W) p (w w' : W) :
  RuntimeProvider project = Some p → captureProjectState project w = (project', w') →
  rtc (asks p (RuntimeID project)) w w' ∧ RuntimeProvider project' = Some p ∧
  RuntimeID project' = RuntimeID project ∧ Workspace project' = Workspace project.
Proof.
  intros Hp. unfold captureProjectState. rewrite Hp. case_decide; [by intros [<- ->]%mret_inv|].
  intros ([sha err] & w1 & Hx1%asking_command & Hk)%mthen_inv. revert Hk. set (project1 := if (_ : bool) then _ else _).
  assert (RuntimeProvider project1 = Some p ∧ RuntimeID project1 = RuntimeID project ∧ Workspace project1 = Workspace project)
    as (Hq1 & Hq2 & Hq3) by (unfold project1; by destruct (_ && _)).
  clearbody project1. rewrite Hq2. intros ([status err2] & w2 & Hx2%asking_command & [Hk ->]%mret_inv)%mthen_inv.
  split; [by etrans|]. subst project'. by repeat (case_match || case_decide).
Qed.

(** A run of the default adapters over a provider: it was of the checks of its request, and
    each required check of a passed one was passed by its command. *)
Lemma Run_commands e request project p (w : W) run events w' :
  default DefaultRegistry (Registry e) = DefaultRegistry → (∀ clock, Now e = Some clock → clock = time_Now) →
  RuntimeProvider project = Some p → engine.Run e request project w = (Ok (run, events), w') →
  rtc (asks p (RuntimeID project)) w w' ∧
  ∀ r, r ∈ Run_Results run → Result_Status r = Passed →
    passed_by_command p project (Run_Checks run) w w' r.
Proof.
  intros Hreg Hnow Hp. unfold engine.Run. case_decide; [by intros [? _]%mret_inv|].
  intros (now0 & w1 & Hw1%(asking_time p (RuntimeID project)) & Hr)%mthen_inv. apply mthen_inv in Hr as (now & w2 & Hw2 & Hr).
  assert (rtc (asks p (RuntimeID project)) w1 w2) as Hww2.
  { destruct (Now e) as [clock|]; [|by apply mret_inv in Hw2 as [_ ->]]. rewrite (Hnow clock eq_refl) in Hw2.
    by eapply asking_time. }
  destruct (ValidateChecks _); [by apply mret_inv in Hr as [? _]|].
  apply mthen_inv in Hr as (project' & w3 & Hcap & Hr).
  apply captureProjectState_asks with (p := p) in Hcap as (Hw3 & Hp' & Hid & Hdir); [|done].
  cbn [RuntimeID Workspace set_field] in Hid, Hdir, Hw3. set (s0 := publish _ _ _ _ _) in Hr.
  apply mthen_inv in Hr as (s & w4 & Hloop & Hr). apply mthen_inv in Hr as (t & w5 & Hw5%(asking_time p (RuntimeID project)) & [Hrun ->]%mret_inv).
  injection Hrun as <- _. rewrite Hreg in Hloop.
  destruct (check_loop_trace _ _ _ _ _ _ _ _ _ _ DefaultRegistry_lawful Hloop) as (_ & _ & _ & [_ Hck _ _ _]).
  apply (check_loop_commands p project' Hp') in Hloop as [Hw4 Hall]. rewrite Hid in Hw4.
  assert (rtc (asks p (RuntimeID project)) w w3) as H03 by (etrans; [done|]; by etrans).
  split; [etrans; [done|]; by etrans|]. intros r. destruct (conclude_spec (loop_run s)) as (Hc & Hres & _).
  cbn [Run_Results Run_Checks set_field]. rewrite Hres, Hc, Hck. unfold s0 in *. rewrite publish_run in *.
  intros Hr Hpass. destruct (Hall r Hr Hpass) as [Hno|(c & Hc' & Hby)]; [by apply elem_of_nil in Hno|].
  exists c. rewrite elem_of_sort_by in Hc'. split; [done|]. rewrite Hid, Hdir in Hby. destruct Hby as (? & ? & Hran).
  split_and!; [done..|]. eapply ran_command_before; [done|]. by eapply ran_command_after.
Qed.
Lemma Run_required e request project p (w : W) run events w' c :
  default DefaultRegistry (Registry e) = DefaultRegistry → (∀ clock, Now e = Some clock → clock = time_Now) →
  RuntimeProvider project = Some p → engine.Run e request project w = (Ok (run, events), w') →
  Run_Status run = Passed → c ∈ Run_Checks run → Required c = true →
  ran_command p (RuntimeID project) (Workspace project) c w w' ∧
  ∃ r, r ∈ Run_Results run ∧ Result_CheckID r = Check_ID c ∧ Result_Status r = Passed ∧
    Evidence_ExitCode (Result_Evidence r) = Some 0.
Proof.
  intros Hreg Hnow Hp Hrun Hpass Hc Hreq. pose proof Hrun as Ht. apply Run_commands with (p := p) in Hrun as [_ Hall]; [|done..].
  apply Run_has_trace in Ht as (_ & tr & b & st & Ht); [|rewrite Hreg; apply DefaultRegistry_lawful].
  destruct (run_trace_passed _ _ _ _ _ _ _ _ c Ht Hpass Hc Hreq) as (r & Hr & Hid & Hrp).
  destruct (Hall r Hr Hrp) as (c' & Hc' & Hid' & Hcode & Hran).
  pose proof (vc_nodup _ (rt_valid _ _ _ _ _ _ _ _ Ht)) as Hnd.
  assert (c' = c) as -> by (rewrite <-(findCheck_in _ c Hnd Hc), <-(findCheck_in _ c' Hnd Hc'); congruence).
  split; [done|]. by exists r.
Qed.

(** ** Properties *)

(** C14: the verdict of a verification run, whatever the adapters and the
    context did.  A run is FAILED exactly when a required check has a result
    other than PASSED; it is PASSED only when every check has exactly one result
    and every required check passed; otherwise the run was interrupted.
    [TaskVerified] agrees with the status, and the counters of the summary
    count each result once. *)
Theorem Engine_Run_verdict e request project w run events w' :
  LawfulRegistry (default DefaultRegistry (Registry e)) →
  engine.Run e request project w = (Ok (run, events), w') →
  (Run_Status run = Failed ↔ ∃ r, r ∈ Run_Results run ∧ failing (Run_Checks run) r) ∧
  (Run_Status run = Passed →
     Result_CheckID <$> Run_Results run ≡ₚ Check_ID <$> Run_Checks run ∧
     ∀ c, c ∈ Run_Checks run → Required c = true → ∃ r,
       r ∈ Run_Results run ∧ Result_CheckID r = Check_ID c ∧ Result_Status r = Passed) ∧
  Run_Status run ∈ [Passed; Failed; Cancelled; TimedOut] ∧
  (TaskVerified run = true ↔ Run_Status run = Passed) ∧
  counted (Run_Summary run) = Z.of_nat (length (Run_Results run)).
Proof.
  intros Hreg (_ & tr & b & st & Ht)%Run_has_trace; [|done].
  pose proof (run_trace_failing _ _ _ _ _ _ _ _ Ht) as Hf.
  pose proof (rt_status _ _ _ _ _ _ _ _ Ht) as Hs. pose proof (rt_final _ _ _ _ _ _ _ _ Ht) as Hfin.
  destruct (run_trace_failed _ _ _ _ _ _ _ _ Ht) as [Hlen Hcount].
  split_and!; [| | | |done].
  - rewrite <-Hf, Hs. destruct (0 <? _) eqn:Hlt; [apply Z.ltb_lt in Hlt; by split|].
    apply Z.ltb_ge in Hlt. split; [|lia]. intros Hst.
    destruct b; [congruence|destruct Hfin; congruence].
  - intros Hp. split; [|intros c; by eapply run_trace_passed].
    rewrite Hp in Hs. destruct (0 <? _); [done|].
    destruct b; [by eapply run_trace_complete|destruct Hfin; congruence].
  - rewrite Hs, !elem_of_cons.
    destruct (0 <? _); [tauto|]. destruct b; [tauto|destruct Hfin; tauto].
  - unfold TaskVerified. rewrite andb_true_iff, !bool_decide_eq_true, Hs.
    destruct (0 <? _) eqn:Hlt; [by split; [intros []|]|].
    apply Z.ltb_ge in Hlt. split; [tauto|]. intros ->. split; [done|lia].
Qed.

(** C30: which checks are started, for an engine that publishes its events and whose
    adapters file a result under its check and never pass an error.  The engine runs the
    checks in the order of their identifiers, not of their dependencies: for a check of the
    run that has a result, its start was published exactly when every result of a dependency
    that sorts before it is PASSED.  The outcome of a dependency that sorts after it plays
    no part. *)
Theorem Engine_started_iff e request project w run events w' c r :
  LawfulRegistry (default DefaultRegistry (Registry e)) → Events e = true →
  engine.Run e request project w = (Ok (run, events), w') →
  c ∈ Run_Checks run → r ∈ Run_Results run → Result_CheckID r = Check_ID c →
  started_event request c ∈ events ↔
  ∀ prior, prior ∈ Run_Results run → Result_CheckID prior ∈ Check_Dependencies c →
    String.ltb (Result_CheckID prior) (Check_ID c) = true → Result_Status prior = Passed.
Proof.
  intros Hreg He (_ & tr & b & st & Ht)%Run_has_trace Hc Hr Hid; [|done].
  pose proof (rt_valid _ _ _ _ _ _ _ _ Ht) as [Hnd _ _ _].
  destruct (run_trace_split _ _ _ _ _ _ _ _ r Ht Hr) as (tr1 & c' & s & tr2 & Htr & Hc' & Hid').
  assert (c' = c) as ->.
  { rewrite <-(findCheck_in _ c Hnd Hc), <-(findCheck_in _ c' Hnd Hc'). congruence. }
  destruct Ht as [_ Ht Hres _ _ _ Hev]. specialize (Hev He c).
  assert (NoDup (Check_ID <$> sort_by check_less (Run_Checks run))) as Hnd'
    by by rewrite (sort_by_perm check_less).
  rewrite Hev, (trace_started_unique _ _ _ _ _ _ _ _ _ _ Ht Htr Hnd').
  rewrite (trace_started _ _ _ _ _ tr1 c s r tr2 Ht Htr Hnd' ltac:(done)), Hres.
  setoid_rewrite lookup_empty.
  setoid_rewrite (λ p, trace_before _ _ _ _ _ _ _ _ _ p Ht Htr Hnd). naive_solver.
Qed.

(** Without checks of its own a request is verified against the default
    profile of its policy, and with the default adapters this never succeeds: the
    build check of every default profile has an empty command, which the command
    adapter refuses. *)
Theorem default_profile_never_passes e request project w run events w' :
  Registry e = None → Request_Checks request = [] →
  engine.Run e request project w = (Ok (run, events), w') →
  TaskVerified run = false ∧ Run_Status run ≠ Passed.
Proof.
  intros Hreg Hno Hrun. assert (Run_Status run ≠ Passed) as Hp; cycle 1.
  { split; [|done]. unfold TaskVerified. by rewrite bool_decide_false. }
  apply Run_has_trace in Hrun as (Hchecks & tr & b & st & Ht);
    [|rewrite Hreg; apply DefaultRegistry_lawful].
  rewrite Hreg in Ht. intros Hpass. rewrite Hno in Hchecks.
  pose proof (default_profile_build (Request_Profile request) (Request_Policy request)) as Hb.
  rewrite Hchecks in Hb.
  destruct (run_trace_passed _ _ _ _ _ _ _ _ _ Ht Hpass Hb eq_refl) as (r & Hr & Hid & Hrp).
  destruct (run_trace_split _ _ _ _ _ _ _ _ r Ht Hr) as (tr1 & c & s & tr2 & Htr & Hc & Hid').
  assert (c = required "build" Build "Build" "") as ->.
  { pose proof (vc_nodup _ (rt_valid _ _ _ _ _ _ _ _ Ht)) as Hnd.
    rewrite <-(findCheck_in _ c Hnd Hc), <-(findCheck_in _ _ Hnd Hb). congruence. }
  pose proof (trace_entry _ _ _ _ _ (required "build" Build "Build" "") s r
    (rt_trace _ _ _ _ _ _ _ _ Ht)) as Hs.
  feed Hs; [rewrite Htr, elem_of_app; right; by left|].
  destruct s; [|congruence]. destruct Hs as (project' & w0 & ->).
  by apply (no_command_fails (required "build" Build "Build" "") project' w0).
Qed.

(** The changed files of a dirty working tree.  The output of
    [git status --porcelain] is split at a backslash followed by an n, not at
    line ends, and is trimmed before its first three bytes are cut off: unless
    the text contains a backslash and an n, at most one file is added, whose
    name is all the rest of the output. *)
Theorem captureProjectState_changed_files (project : ProjectContext W) provider w sha e1 w1 status e2 w2 :
  RuntimeProvider project = Some provider → RuntimeID project ≠ "" →
  Worktree project = "" →
  runtime.Exec provider None (RuntimeID project) (git project ["rev-parse"; "HEAD"]) w
    = ((sha, e1), w1) →
  runtime.Exec provider None (RuntimeID project) (git project ["status"; "--porcelain"]) w1
    = ((status, e2), w2) →
  runtime.ExitCode status = 0 →
  let text := strings.TrimSpace (runtime.Stdout status) in
  text ≠ "" → strings.Contains text backslash_n = false →
  ∃ project', captureProjectState project w = (project', w2) ∧ Worktree project' = "dirty" ∧
    ChangedFiles project' = ChangedFiles project ++
      (if decide (3 < String.length text)%nat
       then [strings.TrimSpace (strings.drop 3 text)] else []).
Proof.
  intros Hp Hid Hw Hsha Hst Hx text Ht Hc. unfold captureProjectState, mthen, git in *.
  rewrite Hp, decide_False by done. rewrite Hsha.
  destruct (bool_decide (CommitSHA project = "") && _); simpl; rewrite Hst, Hw; unfold mret;
    rewrite !bool_decide_true by done; simpl; rewrite decide_False by done;
    eexists; (split; [done|]); simpl; (split; [done|]); unfold status_files;
    fold text; rewrite strings.Split_absent by done; simpl; by case_decide.
Qed.
End facts.

(** ** Witnesses *)

(** A check [a] that depends on [b] and runs before it, in a container where
    every command exits with 0; the check [b] has no adapter. *)
Definition early_check : VerificationCheck :=
  mkCheck "a" Custom "a" "" true 0 1 {["argv" := AnyStrings ["true"]]} [] ["b"].
Definition late_check (required : bool) : VerificationCheck :=
  mkCheck "b" HTTPHealth "b" "" required 0 1 ∅ [] [].
Definition example_request (checks : list VerificationCheck) : CheckRequest :=
  mkCheckRequest "p" "" "" "" "" "" "" Standard checks.
Definition example_project (out : string) : ProjectContext clock_world :=
  mkProject "p" "rt" (Some (runtime.answering (runtime.mkExecResult 0 out ""))) "/w" "" "" [].
Definition example_run (checks : list VerificationCheck) :=
  engine.Run (H:=canonical_order) (H0:=strings.ascii_unicode) (H1:=ticking)
    (mkEngine None true None) (example_request checks) (example_project "")
    (mkClockWorld 0 None).

Lemma Engine_Run_verdict_witness :
  ∃ run events w', example_run [early_check; late_check false] = (Ok (run, events), w') ∧
    Run_Status run = Passed ∧ ∃ r, r ∈ Run_Results run ∧ Result_Status r = Passed.
Proof.
  destruct (example_run [early_check; late_check false]) as [[[run events]|err] w'] eqn:E;
    [|vm_compute in E; discriminate].
  exists run, events, w'. split; [done|].
  assert (Run_Status run = Passed ∧ early_check ∈ Run_Checks run) as [Hp Hc].
  { vm_compute in E. injection E as <- _ _. split; [done|by left]. }
  split; [done|].
  destruct (proj1 (proj2 (Engine_Run_verdict (H:=canonical_order) (H0:=strings.ascii_unicode)
    (H1:=ticking) (mkEngine None true None) _ _ _ _ _ _ (@DefaultRegistry_lawful _ _ _) E)) Hp) as [_ Hreq].
  destruct (Hreq early_check Hc eq_refl) as (r & Hr & _ & Hrp). by exists r.
Defined.

Lemma Engine_started_iff_witness :
  ∃ run events w', example_run [early_check; late_check true] = (Ok (run, events), w') ∧
    started_event (example_request [early_check; late_check true]) early_check ∈ events ∧
    Run_Status run = Failed.
Proof.
  destruct (example_run [early_check; late_check true]) as [[[run events]|err] w'] eqn:E;
    [|vm_compute in E; discriminate].
  exists run, events, w'. split; [done|].
  destruct (Run_Results run) as [|r [|r2 [|]]] eqn:Hr;
    [vm_compute in E; injection E as <- _ _; discriminate Hr..| |
     vm_compute in E; injection E as <- _ _; discriminate Hr].
  assert (early_check ∈ Run_Checks run ∧ Result_CheckID r = "a" ∧ Result_CheckID r2 = "b" ∧
    Run_Status run = Failed) as (Hc & Hid & Hid2 & Hf).
  { vm_compute in E. injection E as <- _ _. injection Hr as <- <-.
    split_and!; [by left|done..]. }
  split; [|done].
  apply (Engine_started_iff (H:=canonical_order) (H0:=strings.ascii_unicode)
    (H1:=ticking) (mkEngine None true None) _ _ _ _ _ _ early_check r
    (@DefaultRegistry_lawful _ _ _) eq_refl E Hc).
  - rewrite Hr. by left.
  - done.
  - rewrite Hr. intros prior [->|[->|[]%elem_of_nil]%elem_of_cons]%elem_of_cons.
    + rewrite Hid. by intros [?|[]%elem_of_nil]%elem_of_cons.
    + rewrite Hid2. by intros _ Hlt.
Defined.

Lemma default_profile_never_passes_witness :
  ∃ run events w', example_run [] = (Ok (run, events), w') ∧ TaskVerified run = false.
Proof.
  destruct (example_run []) as [[[run events]|err] w'] eqn:E;
    [|vm_compute in E; discriminate].
  exists run, events, w'. split; [done|].
  exact (proj1 (default_profile_never_passes (H:=canonical_order) (H0:=strings.ascii_unicode)
    (H1:=ticking) (mkEngine None true None) (example_request [])
    (example_project "") (mkClockWorld 0 None) run events w' eq_refl eq_refl E)).
Defined.

(** Two modified files are reported as one, without the first letter. *)
Lemma captureProjectState_changed_files_witness :
  ∃ project', captureProjectState (example_project " M file.go
 M other.go
") (mkClockWorld 0 None) = (project', mkClockWorld 0 None) ∧
    ChangedFiles project' = ["ile.go
 M other.go"].
Proof.
  destruct (captureProjectState_changed_files (example_project " M file.go
 M other.go
") (runtime.answering (runtime.mkExecResult 0 " M file.go
 M other.go
" "")) (mkClockWorld 0 None) (runtime.mkExecResult 0 " M file.go
 M other.go
" "") None (mkClockWorld 0 None) (runtime.mkExecResult 0 " M file.go
 M other.go
" "") None (mkClockWorld 0 None)) as (project' & Hcap & _ & Hfiles);
    [done..|].
  exists project'. split; [exact Hcap|exact Hfiles].
Defined.
