(* ===== verification/VerRepair.v ===== *)
(** * Verification: the repair loop

    [src/internal/verification/repair.go]: after a run that did not pass, the
    failures are analysed, a repair is executed and the checks are run again,
    at most [MaxAttempts] times. *)

From S2P Require Import Prelude GoStrings World Runtime Float OrchTypes VerTypes VerGraph VerAdapters VerEngine.
Import verification engine.

Module repair.

(* src: internal/verification/repair.go:12-14 (FailureAnalyzer) *)
Definition FailureAnalyzer (W : Type) :=
  VerificationRun → list FailureReport → ProjectContext W → TaskContext →
  M W (result RepairPlan).
(* src: internal/verification/repair.go:32-34 (RepairExecutor) *)
Definition RepairExecutor (W : Type) :=
  RepairPlan → ProjectContext W → TaskContext → M W (option goerror).

(* src: internal/verification/repair.go:17-30 (DeterministicFailureAnalyzer.Analyze) *)
Definition DeterministicFailureAnalyzer {W} : FailureAnalyzer W := λ _ failures _ _,
  mret
    match failures with
    | [] => Err (ErrorString "no failures to analyze")
    | f :: _ =>
        Ok (mkRepairPlan (SuspectedCause f)
          "failure requires inspection of the reported verification evidence"
          (concat (AffectedFiles <$> failures))
          ((λ f, "inspect and repair the failing verification target " +:+ Failure_CheckID f)
             <$> failures)
          (Failure_CheckID <$> failures) "MEDIUM" (float64.lit 1 2))
    end.

(** The executor hands a task of its own to the task executor, if there is one. *)
(* src: internal/verification/repair.go:35-44 (OrchestrationRepairExecutor.ExecuteRepair) *)
Definition OrchestrationRepairExecutor {W}
    (executor : option (orchestration.Task → orchestration.TaskRun →
                        M W (orchestration.TaskResult * option goerror)))
    : RepairExecutor W := λ plan project taskContext,
  match executor with
  | None => mret (Some (ErrorString "repair executor unavailable"))
  | Some execute =>
      let id := "repair_" +:+ TaskCtx_TaskID taskContext in
      let task := orchestration.mkTask id (TaskCtx_WorkflowID taskContext)
        (Project_ID project) "" "Repair verification failure" (Problem plan) "REPAIR" 0
        orchestration.TaskPending [] "" ∅ ∅ orchestration.zero_RetryPolicy None time_zero
        None None in
      let! (_, err) := execute task
        (orchestration.mkTaskRun ("repair_run_" +:+ id) id 1 orchestration.TaskRunning "" ""
           time_zero None "") in
      mret err
  end.

Inductive repair_event :=
  | RepairStarted (repair : RepairAttempt)
  | RepairFailed (repair : RepairAttempt)
  | RepairCompleted (repair : RepairAttempt)
  | RepairMaxAttempts (run_id : string) (max_attempts : Z).

(* src: internal/verification/repair.go:46-53 (RepairLoop) *)
Record RepairLoop (W : Type) := mkRepairLoop {
  Loop_Engine : option (Engine W);
  Loop_Analyzer : option (FailureAnalyzer W);
  Loop_Executor : option (RepairExecutor W);
  Loop_MaxAttempts : Z;
  Loop_Events : bool
}.
Arguments mkRepairLoop {W}.
Arguments Loop_Engine {W}.
Arguments Loop_Analyzer {W}.
Arguments Loop_Executor {W}.
Arguments Loop_MaxAttempts {W}.
Arguments Loop_Events {W}.

Definition zero_Run : VerificationRun :=
  mkRun "" "" "" "" "" (StatusOther "") time_zero None zero_Summary
    (mkProfile "" (PolicyOther "") []) [] [] [] [] [] (mkProjectState "" "" []).

Section loop.
Context `{MapOrder} `{strings.GoUnicode} {W : Type} `{World W}.
Context (l : RepairLoop W) (e : Engine W) (analyze : FailureAnalyzer W)
  (repair : RepairExecutor W) (max : Z).
Context (request : CheckRequest) (project : ProjectContext W) (task : TaskContext).

Definition send (ev : repair_event) (log : list repair_event) : list repair_event :=
  if Loop_Events l then log ++ [ev] else log.

(** One analysis and repair: the record of the attempt and the events sent. *)
(* src: internal/verification/repair.go:74-95 (Run) *)
Definition attempt_repair (run : VerificationRun) (attempt : Z) (log : list repair_event)
    : M W (RepairAttempt * list repair_event) :=
  let! analysis := analyze run (Run_Failures run) project task in
  let plan := match analysis with Ok plan => plan | Err _ => zero_RepairPlan end in
  let! started := time_Now in
  let rep := mkRepair ("repair_" +:+ Run_ID run +:+ "_" +:+ pretty attempt) (Run_ID run)
    attempt Running plan "" started None in
  let log := send (RepairStarted rep) log in
  let! err := match analysis with
              | Ok _ => repair plan project task
              | Err err => mret (Some err)
              end in
  let! completed := time_Now in
  let rep := rep <| Repair_CompletedAt := Some completed |> in
  mret
    match err with
    | Some err =>
        let rep := rep <| Repair_Status := Failed |> <| Repair_Error := error_text err |> in
        (rep, send (RepairFailed rep) log)
    | None =>
        let rep := rep <| Repair_Status := Passed |> in
        (rep, send (RepairCompleted rep) log)
    end.

(** [n] is the number of attempts left. *)
(* src: internal/verification/repair.go:73-106 (Run) *)
Fixpoint repair_rounds (n : nat) (attempt : Z) (run : VerificationRun)
    (log : list repair_event)
    : M W (VerificationRun * option goerror * list repair_event) :=
  match n with
  | O => mret (run, None, log)
  | S n =>
      if decide (Run_Status run = Passed) then mret (run, None, log)
      else
        let! (rep, log) := attempt_repair run attempt log in
        let run := run <| Run_Repairs := Run_Repairs run ++ [rep] |> in
        if decide (Repair_Status rep = Failed) then mret (run, None, log)
        else
          let priorRepairs := Run_Repairs run in
          let! again := engine.Run e request project in
          match again with
          | Err err => mret (zero_Run, Some err, log)
          | Ok (run, _) =>
              repair_rounds n (attempt + 1)
                (run <| Run_Repairs := priorRepairs ++ Run_Repairs run |>) log
          end
  end.
End loop.

Section run.
Context `{MapOrder} `{strings.GoUnicode} {W : Type} `{World W}.

Definition max_of (l : RepairLoop W) : Z :=
  if Loop_MaxAttempts l <? 1 then 1 else Loop_MaxAttempts l.

(* src: internal/verification/repair.go:55-111 (RepairLoop.Run) *)
Definition Run (l : RepairLoop W) (request : CheckRequest) (project : ProjectContext W)
    (task : TaskContext) : M W (VerificationRun * option goerror * list repair_event) :=
  match Loop_Engine l with
  | None => mret (zero_Run, Some (ErrorString "verification engine is required"), [])
  | Some e =>
      let analyze := default DeterministicFailureAnalyzer (Loop_Analyzer l) in
      let max := max_of l in
      let! first := engine.Run e request project in
      match first with
      | Err err => mret (zero_Run, Some err, [])
      | Ok (run, _) =>
          if decide (Run_Status run = Passed) then mret (run, None, [])
          else
            match Loop_Executor l with
            | None => mret (run, None, [])
            | Some repair =>
                let! (run, err, log) := repair_rounds l e analyze repair request project task
                  (Z.to_nat max) 1 run [] in
                match err with
                | Some err => mret (run, Some err, log)
                | None =>
                    mret (run, None,
                      if bool_decide (Run_Status run ≠ Passed) &&
                         (max <=? Z.of_nat (length (Run_Repairs run)))
                      then send l (RepairMaxAttempts (Run_ID run) max) log else log)
                end
            end
      end
  end.

(** ** Facts *)

Lemma check_loop_repairs e registry request project now checks s (w : W) :
  Run_Repairs (loop_run (check_loop e registry request project now checks s w).1) =
  Run_Repairs (loop_run s).
Proof.
  assert (∀ kind pid data s, Run_Repairs (loop_run (publish e kind pid data s)) =
    Run_Repairs (loop_run s)) as Hpub by (intros; unfold publish; by destruct (Events e)).
  assert (∀ c r s, Run_Repairs (loop_run (record_artifact request c r s)) =
    Run_Repairs (loop_run s)) as Hart by (intros; unfold record_artifact; by case_decide).
  revert s w. induction checks as [|c checks IH]; intros s w; simpl; [done|].
  unfold mthen. destruct (ctx_Err w) as [[err|] w1]; [done|].
  destruct (is_blocked _ _).
  { destruct (time_Now w1) as [t w2]. rewrite IH, Hpub. done. }
  destruct (execute_check _ _ _ w1) as [[r executed] w2].
  destruct executed; simpl; [|rewrite IH; simpl; by rewrite Hpub].
  destruct (ctx_Err w2) as [[err|] w3].
  - destruct (interruption w3) as [st w4]. simpl. rewrite Hpub, Hart. simpl. by rewrite Hpub.
  - rewrite IH, Hpub, Hart. simpl. by rewrite Hpub.
Qed.

(** A run of the engine has no repairs. *)
Lemma engine_run_repairs e request project (w : W) run events w' :
  engine.Run e request project w = (Ok (run, events), w') → Run_Repairs run = [].
Proof.
  unfold engine.Run. case_decide; [by intros [? _]%mret_inv|].
  intros (now0 & w1 & _ & Hr)%mthen_inv. apply mthen_inv in Hr as (now & w2 & _ & Hr).
  destruct (checkgraph.ValidateChecks _); [by apply mret_inv in Hr as [? _]|].
  apply mthen_inv in Hr as (project' & w3 & _ & Hr).
  apply mthen_inv in Hr as (s & w4 & Hloop & Hr).
  apply mthen_inv in Hr as (completed & w5 & _ & [Hrun _]%mret_inv).
  injection Hrun as <- _. simpl.
  assert (∀ r, Run_Repairs (conclude r) = Run_Repairs r) as ->.
  { intros r. unfold conclude. case_decide; simpl; by case_match. }
  pose proof (f_equal fst Hloop) as Hs. simpl in Hs. rewrite <-Hs, check_loop_repairs.
  unfold publish. by destruct (Events e).
Qed.

Lemma attempt_repair_spec l analyze rep project task run attempt log (w : W) :
  let r := (attempt_repair l analyze rep project task run attempt log w).1.1 in
  Repair_Attempt r = attempt ∧ (Repair_Status r = Passed ∨ Repair_Status r = Failed).
Proof.
  unfold attempt_repair, mthen, mret.
  destruct (analyze _ _ _ _ w) as [analysis w1]. destruct (time_Now w1) as [t1 w2].
  destruct analysis as [plan|err0].
  - destruct (rep plan project task w2) as [err w3].
    destruct (time_Now w3) as [t2 w4]. destruct err; simpl; auto.
  - destruct (time_Now w2) as [t2 w4]. simpl; auto.
Qed.

(** What the rounds add to the repairs of a run. *)
Record rounds_add (n : nat) (attempt : Z) (prior : list RepairAttempt)
    (run : VerificationRun) (new : list RepairAttempt) : Prop := {
  ra_repairs : Run_Repairs run = prior ++ new;
  ra_length : (length new ≤ n)%nat;
  ra_numbered : Repair_Attempt <$> new = (λ i, attempt + Z.of_nat i) <$> seq 0 (length new);
  ra_passed : ∀ i r, new !! i = Some r → (S i < length new)%nat → Repair_Status r = Passed;
  ra_end : Run_Status run = Passed ∨ length new = n ∨
    ∃ r, last new = Some r ∧ Repair_Status r = Failed
}.

Lemma rounds_add_cons n attempt prior run r new :
  Repair_Attempt r = attempt → Repair_Status r = Passed →
  rounds_add n (attempt + 1) (prior ++ [r]) run new →
  rounds_add (S n) attempt prior run (r :: new).
Proof.
  intros Ha Hp [R1 R2 R3 R4 R5]. split.
  - by rewrite R1, <-(assoc_L (++)).
  - simpl. lia.
  - rewrite fmap_cons, R3. cbn [length seq]. rewrite fmap_cons, <-(fmap_S_seq 0).
    rewrite <-list_fmap_compose. f_equal; [lia|].
    apply list_fmap_ext. intros i j _. simpl. lia.
  - simpl. intros [|i] r' Hi Hl; simplify_eq/=; [done|]. apply (R4 i); [done|lia].
  - destruct R5 as [?|[?|(r' & Hr & ?)]]; [by left|right; left; simpl; lia|right; right].
    exists r'. by rewrite last_cons, Hr.
Qed.

Lemma repair_rounds_spec l e analyze rep request project task n attempt run log
    (w : W) run' log' w' :
  repair_rounds l e analyze rep request project task n attempt run log w
    = ((run', None, log'), w') →
  ∃ new, rounds_add n attempt (Run_Repairs run) run' new.
Proof.
  revert attempt run log w. induction n as [|n IH]; intros attempt run log w; simpl.
  { intros [[= -> ->] _]%mret_inv. exists []. split; simpl; [by rewrite app_nil_r|done..|].
    auto. }
  case_decide as Hp.
  { intros [[= -> ->] _]%mret_inv. exists [].
    split; simpl; [by rewrite app_nil_r|lia|done|done|]. auto. }
  intros ([r log1] & w1 & Ha & Hr)%mthen_inv.
  pose proof (attempt_repair_spec l analyze rep project task run attempt log w) as [Hra Hrs].
  rewrite Ha in Hra, Hrs. simpl in Hra, Hrs.
  case_decide as Hf.
  { apply mret_inv in Hr as [[= <- <-] _]. exists [r]. split; simpl; [done|lia| | |].
    - by rewrite Hra, Z.add_0_r.
    - intros [|i] r' Hi Hl; simplify_eq/=; lia.
    - right. right. by exists r. }
  destruct Hrs as [Hrs|]; [|done].
  apply mthen_inv in Hr as (again & w2 & He & Hr).
  destruct again as [[run2 ev]|err]; [|by apply mret_inv in Hr as [? _]].
  apply engine_run_repairs in He. apply IH in Hr as [new Hnew].
  exists (r :: new). apply rounds_add_cons; [done|done|].
  simpl in Hnew. by rewrite He, app_nil_r in Hnew.
Qed.

(** ** Properties *)

(** C15: the repair loop is bounded.  A loop that returns without error made at
    most [max(1, MaxAttempts)] repairs, numbered from 1; every repair but the
    last was carried out, and the loop stops with a run that did not pass only
    when it has no executor, has used up its attempts or the last repair failed. *)
Theorem RepairLoop_bounded l request project task (w : W) run log w' :
  Run l request project task w = ((run, None, log), w') →
  let n := length (Run_Repairs run) in
  Z.of_nat n ≤ Z.max 1 (Loop_MaxAttempts l) ∧
  Repair_Attempt <$> Run_Repairs run = (λ i, 1 + Z.of_nat i) <$> seq 0 n ∧
  (∀ i r, Run_Repairs run !! i = Some r → (S i < n)%nat → Repair_Status r = Passed) ∧
  (Run_Status run = Passed ∨ Loop_Executor l = None ∨
   Z.of_nat n = Z.max 1 (Loop_MaxAttempts l) ∨
   ∃ r, last (Run_Repairs run) = Some r ∧ Repair_Status r = Failed).
Proof.
  unfold Run. assert (max_of l = Z.max 1 (Loop_MaxAttempts l)) as ->.
  { unfold max_of. case_match; lia. }
  destruct (Loop_Engine l) as [e|]; [|by intros [? _]%mret_inv].
  intros (first & w1 & He & Hr)%mthen_inv.
  destruct first as [[run0 ev]|err]; [|by apply mret_inv in Hr as [? _]].
  pose proof (engine_run_repairs _ _ _ _ _ _ _ He) as Hnone.
  case_decide as Hp.
  { apply mret_inv in Hr as [[= -> <-] _]. rewrite Hnone. simpl.
    split_and!; [lia|done|done|by left]. }
  destruct (Loop_Executor l) as [rep|].
  - apply mthen_inv in Hr as ([[run1 err] log1] & w2 & Hr & Hend).
    destruct err; apply mret_inv in Hend as [Heq _]; [done|]. injection Heq as -> _.
    apply repair_rounds_spec in Hr as [new [R1 R2 R3 R4 R5]].
    rewrite Hnone in R1. simpl in R1. rewrite R1. split_and!; [lia|done|done|].
    destruct R5 as [?|[?|?]]; [by left|right; right; left; lia|by do 3 right].
  - apply mret_inv in Hr as [[= -> <-] _]. rewrite Hnone. simpl.
    split_and!; [lia|done|done|]. right. by left.
Qed.
End run.
End repair.

(** ** Witness: a failing check that repairs do not mend *)

Definition failing_request : CheckRequest :=
  mkCheckRequest "p" "" "" "" "" "" "" Standard
    [mkCheck "b" HTTPHealth "b" "" true 0 1 ∅ [] []].
Definition idle_loop : repair.RepairLoop clock_world :=
  repair.mkRepairLoop (Some (mkEngine None false None)) None
    (Some (λ _ _ _, mret None)) 2 false.
Definition idle_run :=
  repair.Run (H:=canonical_order) (H0:=strings.ascii_unicode) (H1:=ticking) idle_loop
    failing_request (mkProject "p" "" None "" "" "" []) (mkTaskContext "" "" "" "")
    (mkClockWorld 0 None).

Lemma RepairLoop_bounded_witness :
  ∃ run log w', idle_run = ((run, None, log), w') ∧
    Z.of_nat (length (Run_Repairs run)) = 2 ∧ Z.of_nat (length (Run_Repairs run)) ≤ 2.
Proof.
  destruct idle_run as [[[run err] log] w'] eqn:E.
  assert (err = None ∧ Z.of_nat (length (Run_Repairs run)) = 2) as [-> Hn].
  { vm_compute in E. injection E as <- <- _ _. done. }
  exists run, log, w'. split; [done|]. split; [done|].
  exact (proj1 (repair.RepairLoop_bounded (H:=canonical_order) (H0:=strings.ascii_unicode)
    (H1:=ticking) idle_loop failing_request (mkProject "p" "" None "" "" "" [])
    (mkTaskContext "" "" "" "") (mkClockWorld 0 None) run log w' E)).
Defined.
