(* ===== verification/RoutingTypes.v ===== *)
(** * Model routing: the data model

    [src/internal/routing/types.go], [provider.go] and [health.go].  A capability
    is the string of its constant, which is the key of the capability maps. *)

From S2P Require Import Prelude Float.

Module routing.

(* src: internal/routing/types.go:5-25 (Capability) *)
Definition Capability := string.
Definition Coding : Capability := "coding".
Definition Reasoning : Capability := "reasoning".
Definition Architecture : Capability := "architecture".
Definition Debugging : Capability := "debugging".
Definition Refactoring : Capability := "refactoring".
Definition Frontend : Capability := "frontend".
Definition Backend : Capability := "backend".
Definition Database : Capability := "database".
Definition DevOps : Capability := "devops".
Definition Security : Capability := "security".
Definition Testing : Capability := "testing".
Definition Documentation : Capability := "documentation".
Definition Vision : Capability := "vision".
Definition ToolUse : Capability := "tool_use".
Definition StructuredOutput : Capability := "structured_output".
Definition LongContext : Capability := "long_context".
Definition FastResponse : Capability := "fast_response".

(* src: internal/routing/types.go:27-35 (Availability) *)
Inductive Availability :=
  | Available | Degraded | Unavailable | Disabled | Unknown
  | AvailabilityOther (s : string).

(* src: internal/routing/types.go:37-44 (PrivacyClass) *)
Inductive PrivacyClass :=
  | Public | Internal | Confidential | Private
  | PrivacyClassOther (s : string).

(* src: internal/routing/types.go:46-52 (LocalPolicy) *)
Inductive LocalPolicy :=
  | LocalPolicyAny | LocalFirst | LocalOnly
  | LocalPolicyOther (s : string).

(* src: internal/routing/types.go:54-64 (RoutingPolicy) *)
Inductive RoutingPolicy :=
  | Best | Cheapest | Fastest | PrivacyFirst | Balanced | CloudFirst | Custom
  | RoutingPolicyOther (s : string).

(** The text of a task type appears in the reasons of a decision. *)
(* src: internal/routing/types.go:66-80 (TaskType) *)
Inductive TaskType :=
  | TaskCode | TaskRefactor | TaskDebug | TaskArchitecture | TaskUI | TaskDatabase
  | TaskDevOps | TaskSecurity | TaskTest | TaskDocumentation | TaskGeneral
  | TaskTypeOther (s : string).
Definition TaskType_text (t : TaskType) : string :=
  match t with
  | TaskCode => "CODE" | TaskRefactor => "REFACTOR" | TaskDebug => "DEBUG"
  | TaskArchitecture => "ARCHITECTURE" | TaskUI => "UI" | TaskDatabase => "DATABASE"
  | TaskDevOps => "DEVOPS" | TaskSecurity => "SECURITY" | TaskTest => "TEST"
  | TaskDocumentation => "DOCUMENTATION" | TaskGeneral => "GENERAL"
  | TaskTypeOther s => s
  end.

#[global] Instance Availability_eq_dec : EqDecision Availability.
Proof. solve_decision. Defined.
#[global] Instance PrivacyClass_eq_dec : EqDecision PrivacyClass.
Proof. solve_decision. Defined.
#[global] Instance LocalPolicy_eq_dec : EqDecision LocalPolicy.
Proof. solve_decision. Defined.
#[global] Instance RoutingPolicy_eq_dec : EqDecision RoutingPolicy.
Proof. solve_decision. Defined.

(* src: internal/routing/types.go:82-95 (TaskProfile) *)
Record TaskProfile := mkTaskProfile {
  Profile_TaskType : TaskType;
  Language : string;
  Framework : string;
  Complexity : Z;
  ReasoningRequired : bool;
  ContextRequired : Z;
  VisionRequired : bool;
  ToolUseRequired : bool;
  Privacy : PrivacyClass;
  LatencyRequirement : string;
  BudgetLimit : float64.t;
  UserPreference : string
}.

(* src: internal/routing/types.go:96-100 (PerformanceProfile) *)
Record PerformanceProfile := mkPerformance {
  ReasoningScore : float64.t;
  CodingScore : float64.t;
  ToolUseScore : float64.t;
  VisionScore : float64.t;
  ContextScore : float64.t;
  ReliabilityScore : float64.t;
  LatencyClass : string;
  CostClass : string;
  Performance_Source : string
}.

(* src: internal/routing/types.go:101-107 (Pricing) *)
Record Pricing := mkPricing {
  InputCost : float64.t;
  OutputCost : float64.t;
  Currency : string;
  PricingUnit : string;
  EffectiveDate : Z
}.

(* src: internal/routing/types.go:108-112 (ModelResourceRequirement) *)
Record ModelResourceRequirement := mkResources {
  Resources_MemoryBytes : Z;
  VRAMBytes : Z;
  GPURequired : bool
}.

(* src: internal/routing/types.go:113-129 (ModelProfile) *)
Record ModelProfile := mkModel {
  Model_ModelID : string;
  Model_ProviderID : string;
  Model_RuntimeID : string;
  DisplayName : string;
  Capabilities : gmap Capability bool;
  Performance : PerformanceProfile;
  Model_Pricing : Pricing;
  Model_Availability : Availability;
  Local : bool;
  Remote : bool;
  ContextWindow : Z;
  PrivacyLevel : string;
  Resources : ModelResourceRequirement;
  Model_RuntimeHealthy : bool;
  SupportedAgents : list string
}.

(* src: internal/routing/types.go:130-137 (ProviderHealth) *)
Record ProviderHealth := mkHealth {
  Health_ProviderID : string;
  Health_Status : Availability;
  LatencyMS : Z;
  RateLimitRemaining : Z;
  AuthenticationOK : bool;
  CheckedAt : Z
}.

(* src: internal/routing/types.go:163-166 (ModelReference) *)
Record ModelReference := mkReference {
  Ref_ProviderID : string;
  Ref_ModelID : string
}.
#[global] Instance ModelReference_eq_dec : EqDecision ModelReference.
Proof. solve_decision. Defined.

(* src: internal/routing/types.go:142-162 (RoutingRequest) *)
Record RoutingRequest := mkRequest {
  Req_ProjectID : string;
  Req_AgentID : string;
  Req_Task : TaskProfile;
  Req_Policy : RoutingPolicy;
  PrivacyLimit : PrivacyClass;
  Req_LocalPolicy : LocalPolicy;
  Budget : float64.t;
  AvailableRuntime : bool;
  Req_RuntimeHealthy : bool;
  Offline : bool;
  AvailableMemory : Z;
  AvailableVRAM : Z;
  GPUAvailable : bool;
  Models : list ModelProfile;
  Fallbacks : list ModelReference;
  UserOverride : option ModelReference;
  ProjectPolicy : option RoutingPolicy;
  OrganizationPolicy : option RoutingPolicy;
  GlobalPolicy : option RoutingPolicy
}.

(* src: internal/routing/types.go:167-174 (CandidateResult) *)
Record CandidateResult := mkCandidate {
  Candidate_Model : ModelReference;
  Accepted : bool;
  Score : float64.t;
  Reasons : list string;
  Rejections : list string;
  Candidate_Cost : float64.t
}.

(* src: internal/routing/types.go:175-184 (RoutingDecision) *)
Record RoutingDecision := mkDecision {
  Selected : ModelReference;
  Decision_ProviderID : string;
  Reason : string;
  Alternatives : list CandidateResult;
  Rejected : list CandidateResult;
  ConstraintsApplied : list string;
  Decision_Cost : float64.t;
  Confidence : float64.t
}.

(* src: internal/routing/types.go:185-193 (UsageEvent) *)
Record UsageEvent := mkUsage {
  Usage_Type : string;
  Usage_ProviderID : string;
  Usage_ModelID : string;
  InputTokens : Z;
  OutputTokens : Z;
  Usage_Duration : Z;
  Usage_Cost : float64.t
}.

(* src: internal/routing/provider.go:12-19 (DiscoveryState) *)
Inductive DiscoveryState :=
  | Discovered | Registered | Enabled | DiscoveryDisabled
  | DiscoveryStateOther (s : string).
(* src: internal/routing/provider.go:21-24 (DiscoveredModel) *)
Record DiscoveredModel := mkDiscovered {
  Discovered_Profile : ModelProfile;
  Discovered_State : DiscoveryState
}.

#[global] Instance eta_RoutingRequest : Eta RoutingRequest := λ r,
  mkRequest (Req_ProjectID r) (Req_AgentID r) (Req_Task r) (Req_Policy r) (PrivacyLimit r)
    (Req_LocalPolicy r) (Budget r) (AvailableRuntime r) (Req_RuntimeHealthy r) (Offline r)
    (AvailableMemory r) (AvailableVRAM r) (GPUAvailable r) (Models r) (Fallbacks r)
    (UserOverride r) (ProjectPolicy r) (OrganizationPolicy r) (GlobalPolicy r).
#[global] Instance eta_CandidateResult : Eta CandidateResult := λ c,
  mkCandidate (Candidate_Model c) (Accepted c) (Score c) (Reasons c) (Rejections c)
    (Candidate_Cost c).
#[global] Instance eta_RoutingDecision : Eta RoutingDecision := λ d,
  mkDecision (Selected d) (Decision_ProviderID d) (Reason d) (Alternatives d) (Rejected d)
    (ConstraintsApplied d) (Decision_Cost d) (Confidence d).

(** [model.Capabilities[cap]] *)
Definition has_capability (m : ModelProfile) (c : Capability) : bool :=
  default false (Capabilities m !! c).

(** ** The health cache *)

(* src: internal/routing/health.go:13-15 (NewMemoryHealthCache) *)
Definition NewMemoryHealthCache : gmap string ProviderHealth := ∅.
(* src: internal/routing/health.go:16-21 (Get) *)
Definition health_Get (c : gmap string ProviderHealth) (id : string)
    : option ProviderHealth := c !! id.
(* src: internal/routing/health.go:22-26 (Put) *)
Definition health_Put (c : gmap string ProviderHealth) (h : ProviderHealth)
    : gmap string ProviderHealth := <[Health_ProviderID h := h]> c.

(** [t.Sub(u)] saturates at the bounds of a duration. *)
Definition time_Sub (t u : Z) : Z := Z.max (- 2 ^ 63) (Z.min (2 ^ 63 - 1) (t - u)).

(* src: internal/routing/health.go:27-33 (Fresh) *)
Definition health_Fresh (c : gmap string ProviderHealth) (id : string) (maxAge now : Z)
    : option ProviderHealth :=
  match health_Get c id with
  | Some h => if maxAge <? time_Sub now (CheckedAt h) then None else Some h
  | None => None
  end.

(** An entry is fresh when it was stored and is not older than [maxAge]. *)
Lemma health_Fresh_Put c h maxAge now :
  0 ≤ maxAge < 2 ^ 63 - 1 →
  health_Fresh (health_Put c h) (Health_ProviderID h) maxAge now = Some h ↔
  now - CheckedAt h ≤ maxAge.
Proof.
  intros Hm. unfold health_Fresh, health_Get, health_Put, time_Sub.
  rewrite lookup_insert_eq. destruct (maxAge <? _) eqn:E.
  - apply Z.ltb_lt in E. split; [done|lia].
  - apply Z.ltb_ge in E. split; [lia|done].
Qed.
End routing.
