(* ===== verification/Routing.v ===== *)
(** * Model routing: the router

    [src/internal/routing/router.go] and the cost estimator of [health.go].
    Scores and costs are double-precision numbers, computed in the order of the
    source (without fused operations, as Go compiles them for amd64). *)

From S2P Require Import Prelude GoStrings Float RoutingTypes.
Import routing.

Module router.

(* src: internal/routing/router.go:10-10 (ErrNoCompatibleModel) *)
Definition ErrNoCompatibleModel : goerror := ErrorString "NO_COMPATIBLE_MODEL".

(** The cost of a number of input and output tokens. *)
(* src: internal/routing/health.go:35-37 (CostEstimator) *)
Definition CostEstimator := ModelProfile → Z → Z → float64.t.

(* src: internal/routing/health.go:38-42 (TokenCostEstimator.Estimate) *)
Definition TokenCostEstimator : CostEstimator := λ model input output,
  let per_million n := float64.div (float64.of_Z n) (float64.of_Z 1000000) in
  float64.add (float64.mul (per_million input) (InputCost (Model_Pricing model)))
    (float64.mul (per_million output) (OutputCost (Model_Pricing model))).

(* src: internal/routing/router.go:12-19 (NewRouter) *)
Definition NewRouter (estimator : option CostEstimator) : CostEstimator :=
  default TokenCostEstimator estimator.

(* src: internal/routing/router.go:75-89 (effectivePolicy) *)
Definition effectivePolicy (req : RoutingRequest) : RoutingPolicy :=
  if decide (Req_Policy req = RoutingPolicyOther "") then
    match ProjectPolicy req, OrganizationPolicy req, GlobalPolicy req with
    | Some p, _, _ => p
    | None, Some p, _ => p
    | None, None, Some p => p
    | None, None, None => Balanced
    end
  else Req_Policy req.

(* src: internal/routing/router.go:187-233 (capabilityScore) *)
Definition capabilityScore (task : TaskProfile) (model : ModelProfile) : float64.t :=
  let bonus (need : bool) (cap : Capability) (weight : Z) (score : float64.t) :=
    if need && has_capability model cap then float64.add score (float64.of_Z weight)
    else score in
  let score := float64.zero in
  let score := bonus (ReasoningRequired task) Reasoning 3 score in
  let score := bonus (ToolUseRequired task) ToolUse 2 score in
  let score := bonus (VisionRequired task) Vision 3 score in
  match Profile_TaskType task with
  | TaskCode | TaskRefactor | TaskDebug => bonus true Coding 3 score
  | TaskArchitecture => bonus true Architecture 3 score
  | TaskUI => bonus true Frontend 3 score
  | TaskDatabase => bonus true Database 3 score
  | TaskDevOps => bonus true DevOps 3 score
  | TaskSecurity => bonus true Security 3 score
  | TaskTest => bonus true Testing 3 score
  | TaskDocumentation => bonus true Documentation 3 score
  | _ => score
  end.

(* src: internal/routing/router.go:244-251 (contains) *)
Definition contains (items : list string) (wanted : string) : bool :=
  existsb (λ item, String.eqb item wanted) items.

(* src: internal/routing/router.go:252-260 (confidence) *)
Definition confidence (score : float64.t) : float64.t :=
  if float64.ltb score float64.zero then float64.zero
  else if float64.gtb score (float64.of_Z 1) then float64.of_Z 1
  else score.

Section router.
Context `{strings.GoUnicode} (Estimator : CostEstimator).

(* src: internal/routing/router.go:234-243 (capabilityReasons) *)
Definition capabilityReasons (task : TaskProfile) : list string :=
  (if decide (TaskType_text (Profile_TaskType task) = "") then []
   else [strings.ToLower (TaskType_text (Profile_TaskType task)) +:+ " capability match"]) ++
  (if 0 <? ContextRequired task then ["required context fits"] else []).

(** The hard constraints in the order they are checked: the reason of the first
    one the model violates. *)
(* src: internal/routing/router.go:93-137 (evaluate) *)
Definition rejection (req : RoutingRequest) (model : ModelProfile) : option string :=
  let task := Req_Task req in
  let res := Resources model in
  let cost := Estimator model 1000 1000 in
  if negb (bool_decide (Model_Availability model = Available)) &&
     negb (bool_decide (Model_Availability model = Degraded))
  then Some "model is not available"
  else if negb (AvailableRuntime req) then Some "runtime is unavailable"
  else if Offline req && Remote model then Some "offline mode excludes remote model"
  else if negb (bool_decide (Model_RuntimeID model = "")) && negb (Model_RuntimeHealthy model)
  then Some "runtime health is not available"
  else if (0 <? Resources_MemoryBytes res) && (0 <? AvailableMemory req) &&
          (AvailableMemory req <? Resources_MemoryBytes res)
  then Some "insufficient memory"
  else if (0 <? VRAMBytes res) && (0 <? AvailableVRAM req) &&
          (AvailableVRAM req <? VRAMBytes res)
  then Some "insufficient GPU memory"
  else if GPURequired res && negb (GPUAvailable req) then Some "GPU is required"
  else if bool_decide (Req_LocalPolicy req = LocalOnly) && negb (Local model)
  then Some "local-only policy"
  else if bool_decide (PrivacyLimit req = Private) && negb (Local model)
  then Some "private project cannot use remote provider"
  else if bool_decide (Privacy task = Private) && negb (Local model)
  then Some "private task cannot use remote provider"
  else if ContextWindow model <? ContextRequired task then Some "insufficient context window"
  else if VisionRequired task && negb (has_capability model Vision)
  then Some "vision capability missing"
  else if ToolUseRequired task && negb (has_capability model ToolUse)
  then Some "tool use capability missing"
  else if negb (bool_decide (SupportedAgents model = [])) &&
          negb (contains (SupportedAgents model) (Req_AgentID req))
  then Some "agent incompatible with model"
  else if float64.gtb (Budget req) float64.zero && float64.gtb cost (Budget req)
  then Some "budget hard limit"
  else None.

(** What the policy adds to the score, and the reason it gives. *)
(* src: internal/routing/router.go:142-169 (evaluate) *)
Definition policy_bonus (policy : RoutingPolicy) (model : ModelProfile) (cost : float64.t)
    (score : float64.t) : float64.t * list string :=
  match policy with
  | Cheapest =>
      (float64.add score (float64.div (float64.of_Z 1) (float64.add (float64.of_Z 1) cost)),
       ["cost policy prefers lower estimate"])
  | Fastest =>
      if decide (LatencyClass (Performance model) = "fast")
      then (float64.add score (float64.of_Z 2), ["fast latency class"]) else (score, [])
  | Best =>
      (float64.add score (float64.add (ReasoningScore (Performance model))
                            (CodingScore (Performance model))),
       ["best policy prefers performance"])
  | PrivacyFirst =>
      if Local model
      then (float64.add score (float64.of_Z 3), ["privacy policy prefers local model"])
      else (score, [])
  | Balanced =>
      (if Local model then float64.add score (float64.lit 1 2) else score, ["balanced policy"])
  | CloudFirst =>
      if Remote model
      then (float64.add score (float64.of_Z 2), ["cloud-first preference"]) else (score, [])
  | _ => (score, [])
  end.

(* src: internal/routing/router.go:90-175 (evaluate) *)
Definition evaluate (req : RoutingRequest) (policy : RoutingPolicy) (model : ModelProfile)
    : CandidateResult :=
  let cost := Estimator model 1000 1000 in
  let ref := mkReference (Model_ProviderID model) (Model_ModelID model) in
  match rejection req model with
  | Some reason => mkCandidate ref false float64.zero [] [reason] cost
  | None =>
      let score := float64.add (capabilityScore (Req_Task req) model)
                     (ReliabilityScore (Performance model)) in
      let reasons := capabilityReasons (Req_Task req) in
      let '(score, more) := policy_bonus policy model cost score in
      let reasons := reasons ++ more in
      if bool_decide (Req_LocalPolicy req = LocalFirst) && Local model
      then mkCandidate ref true (float64.add score (float64.of_Z 2))
             (reasons ++ ["local-first preference"]) [] cost
      else mkCandidate ref true score reasons [] cost
  end.

(** The search for the override among the accepted candidates, [before] being
    those passed. *)
(* src: internal/routing/router.go:176-186 (applyOverride) *)
Fixpoint applyOverride (override : ModelReference) (before accepted rejected : list CandidateResult)
    : list CandidateResult * list CandidateResult :=
  match accepted with
  | [] => ([], rejected ++ [mkCandidate override false float64.zero []
                              ["user override violates hard constraints"] float64.zero])
  | c :: after =>
      if decide (Candidate_Model c = override) then ([c], rejected ++ before ++ after)
      else applyOverride override (before ++ [c]) after rejected
  end.

(** The order of the candidates: the higher score first, then by name. *)
(* src: internal/routing/router.go:60-68 (Decide) *)
Definition candidate_less (a b : CandidateResult) : bool :=
  if negb (float64.eqb (Score a) (Score b)) then float64.gtb (Score a) (Score b)
  else if decide (Ref_ProviderID (Candidate_Model a) = Ref_ProviderID (Candidate_Model b))
  then String.ltb (Ref_ModelID (Candidate_Model a)) (Ref_ModelID (Candidate_Model b))
  else String.ltb (Ref_ProviderID (Candidate_Model a)) (Ref_ProviderID (Candidate_Model b)).

(** A decision comes with an error when there is no model; the decision of an
    error still lists the rejections. *)
(* src: internal/routing/router.go:40-74 (Decide) *)
Definition Decide (req : RoutingRequest) : RoutingDecision * option goerror :=
  let policy := effectivePolicy req in
  let req := req <| PrivacyLimit := (if decide (PrivacyLimit req = PrivacyClassOther "")
                                     then Public else PrivacyLimit req) |> in
  let candidates := evaluate req policy <$> Models req in
  let accepted := filter (λ c, Accepted c = true) candidates in
  let rejected := filter (λ c, Accepted c = false) candidates in
  let '(accepted, rejected) :=
    match UserOverride req with
    | Some override => applyOverride override [] accepted rejected
    | None => (accepted, rejected)
    end in
  match sort_by candidate_less accepted with
  | [] => (mkDecision (mkReference "" "") "" "" [] rejected ["hard_constraints"] float64.zero
             float64.zero, Some ErrNoCompatibleModel)
  | selected :: alternatives =>
      (mkDecision (Candidate_Model selected) (Ref_ProviderID (Candidate_Model selected))
         ("Selected " +:+ Ref_ModelID (Candidate_Model selected) +:+ " because " +:+
          strings.Join (Reasons selected) ", " +:+ ".") alternatives rejected
         ["privacy"; "availability"; "capability"; "agent_compatibility"; "runtime";
          "runtime_health"; "resources"; "offline"; "budget"]
         (Candidate_Cost selected) (confidence (Score selected)), None)
  end.

(** The models a fallback names, tried one by one without the override. *)
(* src: internal/routing/router.go:25-37 (DecideWithFallbacks) *)
Fixpoint try_fallback (req : RoutingRequest) (fallback : ModelReference)
    (models : list ModelProfile) : option RoutingDecision :=
  match models with
  | [] => None
  | model :: models =>
      if bool_decide (Model_ProviderID model = Ref_ProviderID fallback) &&
         bool_decide (Model_ModelID model = Ref_ModelID fallback)
      then
        match Decide (req <| Models := [model] |> <| UserOverride := None |>) with
        | (d, None) => Some (d <| Reason := "Fallback selected after primary incompatibility: "
                                              +:+ Reason d |>)
        | (_, Some _) => try_fallback req fallback models
        end
      else try_fallback req fallback models
  end.

(* src: internal/routing/router.go:20-39 (DecideWithFallbacks) *)
Definition DecideWithFallbacks (req : RoutingRequest) : RoutingDecision * option goerror :=
  match Decide req with
  | (d, None) => (d, None)
  | (d, Some err) =>
      match head (omap (λ f, try_fallback req f (Models req)) (Fallbacks req)) with
      | Some d' => (d', None)
      | None => (d, Some err)
      end
  end.
End router.
End router.
