(* ===== verification/RoutingFacts.v ===== *)
(** * Model routing: what a decision guarantees *)

From S2P Require Import Prelude GoStrings Float RoutingTypes Routing.
Import routing router.

Section facts.
Context `{strings.GoUnicode} (Estimator : CostEstimator).

(** ** Hard constraints *)

(** A model the request may be routed to. *)
Record compatible (req : RoutingRequest) (m : ModelProfile) : Prop := {
  ok_available : Model_Availability m = Available ∨ Model_Availability m = Degraded;
  ok_runtime : AvailableRuntime req = true;
  ok_offline : Offline req = true → Remote m = false;
  ok_health : Model_RuntimeID m ≠ "" → Model_RuntimeHealthy m = true;
  ok_memory : 0 < Resources_MemoryBytes (Resources m) → 0 < AvailableMemory req →
    Resources_MemoryBytes (Resources m) ≤ AvailableMemory req;
  ok_vram : 0 < VRAMBytes (Resources m) → 0 < AvailableVRAM req →
    VRAMBytes (Resources m) ≤ AvailableVRAM req;
  ok_gpu : GPURequired (Resources m) = true → GPUAvailable req = true;
  ok_local_only : Req_LocalPolicy req = LocalOnly → Local m = true;
  ok_private_project : PrivacyLimit req = Private → Local m = true;
  ok_private_task : Privacy (Req_Task req) = Private → Local m = true;
  ok_context : ContextRequired (Req_Task req) ≤ ContextWindow m;
  ok_vision : VisionRequired (Req_Task req) = true → has_capability m Vision = true;
  ok_tools : ToolUseRequired (Req_Task req) = true → has_capability m ToolUse = true;
  ok_agent : SupportedAgents m = [] ∨ Req_AgentID req ∈ SupportedAgents m;
  ok_budget : float64.gtb (Budget req) float64.zero = true →
    float64.gtb (Estimator m 1000 1000) (Budget req) = false
}.

Lemma if_some_none {A} (b : bool) (x : A) k :
  (if b then Some x else k) = None ↔ b = false ∧ k = None.
Proof. destruct b; naive_solver. Qed.

Lemma contains_iff items wanted : contains items wanted = true ↔ wanted ∈ items.
Proof.
  unfold contains. rewrite existsb_exists. setoid_rewrite String.eqb_eq. split.
  - by intros (x & Hx%list_elem_of_In & ->).
  - intros Hx. exists wanted. split; [by apply list_elem_of_In|done].
Qed.

Lemma guard_false (b c : bool) : b && negb c = false ↔ (b = true → c = true).
Proof. destruct b, c; naive_solver. Qed.
Lemma guard_decide (P : Prop) `{Decision P} (c : bool) :
  bool_decide P && negb c = false ↔ (P → c = true).
Proof. rewrite guard_false, bool_decide_eq_true. done. Qed.

Lemma rejection_none req m : rejection Estimator req m = None ↔ compatible req m.
Proof.
  unfold rejection. rewrite !if_some_none, !guard_decide, !guard_false.
  assert (∀ a b, (0 <? a) && (0 <? b) && (b <? a) = false ↔ (0 < a → 0 < b → a ≤ b)) as Hres.
  { intros a b. rewrite !andb_false_iff, !Z.ltb_ge. lia. }
  rewrite !Hres, Z.ltb_ge, andb_false_iff, !negb_false_iff, !bool_decide_eq_true.
  rewrite (negb_true_iff (bool_decide _)), !bool_decide_eq_false, contains_iff.
  assert (∀ b c, b && c = false ↔ (b = true → c = false)) as Hand
    by (intros [] []; naive_solver).
  rewrite !Hand.
  split.
  - intros (H1 & H2 & H3 & H4 & H5 & H6 & H7 & H8 & H9 & H10 & H11 & H12 & H13 & H14 & H15 & _).
    rewrite negb_true_iff, bool_decide_eq_false in H4, H14. split; try done.
    + destruct (decide (Model_Availability m = Available)); auto.
    + intros Hoff. destruct H3; congruence.
    + destruct (decide (SupportedAgents m = [])); auto.
  - intros []. split_and!; try done; rewrite ?negb_true_iff, ?bool_decide_eq_false.
    + naive_solver.
    + destruct (Offline req); auto.
    + done.
    + naive_solver.
Qed.

Definition reference (m : ModelProfile) : ModelReference :=
  mkReference (Model_ProviderID m) (Model_ModelID m).

Lemma evaluate_spec req policy m :
  Candidate_Model (evaluate Estimator req policy m) = reference m ∧
  (Accepted (evaluate Estimator req policy m) = true ↔ compatible req m).
Proof.
  rewrite <-rejection_none. unfold evaluate.
  destruct (rejection Estimator req m); [by split|].
  destruct (policy_bonus _ _ _ _). by destruct (bool_decide _ && _).
Qed.

(** The request with the default privacy limit. *)
Definition with_default_privacy (req : RoutingRequest) : RoutingRequest :=
  req <| PrivacyLimit := (if decide (PrivacyLimit req = PrivacyClassOther "")
                          then Public else PrivacyLimit req) |>.

Lemma compatible_default req m : compatible (with_default_privacy req) m ↔ compatible req m.
Proof.
  unfold with_default_privacy. case_decide as Hp; [|destruct req; done].
  split; intros []; split; try done. simpl. by rewrite Hp.
Qed.

(** The candidates of a request. *)
Definition candidates (req : RoutingRequest) : list CandidateResult :=
  evaluate Estimator (with_default_privacy req) (effectivePolicy req) <$> Models req.
Definition accepted_of (req : RoutingRequest) : list CandidateResult :=
  filter (λ c, Accepted c = true) (candidates req).
Definition rejected_of (req : RoutingRequest) : list CandidateResult :=
  filter (λ c, Accepted c = false) (candidates req).

Lemma elem_of_accepted req c :
  c ∈ accepted_of req → ∃ m, m ∈ Models req ∧ compatible req m ∧ Candidate_Model c = reference m.
Proof.
  intros [Hacc (m & -> & Hm)%list_elem_of_fmap]%list_elem_of_filter. exists m.
  destruct (evaluate_spec (with_default_privacy req) (effectivePolicy req) m) as [Hr Ha].
  split; [done|]. split; [|done]. by apply compatible_default, Ha.
Qed.

Lemma compatible_accepted req m :
  m ∈ Models req → compatible req m →
  ∃ c, c ∈ accepted_of req ∧ Candidate_Model c = reference m.
Proof.
  intros Hm Hc. destruct (evaluate_spec (with_default_privacy req) (effectivePolicy req) m)
    as [Hr Ha]. eexists. split; [|exact Hr]. apply list_elem_of_filter.
  split; [by apply Ha, compatible_default|]. by apply list_elem_of_fmap_2.
Qed.

Lemma applyOverride_spec o before acc rej :
  (∃ c, (applyOverride o before acc rej).1 = [c] ∧ c ∈ acc ∧ Candidate_Model c = o) ∨
  ((applyOverride o before acc rej).1 = [] ∧ ∀ c, c ∈ acc → Candidate_Model c ≠ o).
Proof.
  revert before. induction acc as [|c acc IH]; intros before; simpl.
  { right. split; [done|]. by intros c ?%elem_of_nil. }
  case_decide as Hc.
  { left. exists c. split_and!; [done|by left|done]. }
  destruct (IH (before ++ [c])) as [(d & Hd & Hin & Ho)|[Hn Hno]].
  - left. exists d. split_and!; [done|by right|done].
  - right. split; [done|]. intros d [->|Hd]%elem_of_cons; auto.
Qed.

(** What a decision is: the best of the candidates that are left, which are the
    accepted ones or the override among them. *)
Definition considered (req : RoutingRequest) : list CandidateResult * list CandidateResult :=
  match UserOverride req with
  | Some o => applyOverride o [] (accepted_of req) (rejected_of req)
  | None => (accepted_of req, rejected_of req)
  end.

Lemma Decide_cases req :
  (∃ sel alts, sort_by candidate_less (considered req).1 = sel :: alts ∧
    ∃ d, Decide Estimator req = (d, None) ∧ Selected d = Candidate_Model sel ∧
      Decision_ProviderID d = Ref_ProviderID (Candidate_Model sel) ∧
      Alternatives d = alts ∧ Rejected d = (considered req).2 ∧
      Decision_Cost d = Candidate_Cost sel ∧ Confidence d = confidence (Score sel)) ∨
  ((considered req).1 = [] ∧
   ∃ d, Decide Estimator req = (d, Some ErrNoCompatibleModel) ∧ Rejected d = (considered req).2).
Proof.
  unfold Decide. cbv zeta.
  change (evaluate Estimator _ (effectivePolicy req) <$> Models _) with (candidates req).
  change (UserOverride (req <| PrivacyLimit := _ |>)) with (UserOverride req).
  change (filter (λ c, Accepted c = true) (candidates req)) with (accepted_of req).
  change (filter (λ c, Accepted c = false) (candidates req)) with (rejected_of req).
  change (match UserOverride req with
          | Some o => applyOverride o [] (accepted_of req) (rejected_of req)
          | None => (accepted_of req, rejected_of req) end) with (considered req).
  destruct (considered req) as [acc rej]. simpl.
  destruct (sort_by candidate_less acc) as [|sel alts] eqn:Hs.
  - right. split; [|by eexists]. pose proof (sort_by_perm candidate_less acc) as Hp.
    rewrite Hs in Hp. by apply Permutation_nil_l in Hp.
  - left. exists sel, alts. split; [done|]. eexists. split; [done|]. done.
Qed.

Lemma considered_accepted req c : c ∈ (considered req).1 → c ∈ accepted_of req.
Proof.
  unfold considered. destruct (UserOverride req) as [o|]; [|done].
  destruct (applyOverride_spec o [] (accepted_of req) (rejected_of req))
    as [(d & -> & Hd & _)|[-> _]].
  - by intros ->%list_elem_of_singleton.
  - by intros ?%elem_of_nil.
Qed.

Lemma Decide_sound req d :
  Decide Estimator req = (d, None) →
  ∃ m, m ∈ Models req ∧ compatible req m ∧ Selected d = reference m ∧
    Decision_ProviderID d = Model_ProviderID m.
Proof.
  intros Hd. destruct (Decide_cases req) as [(sel & alts & Hs & d' & Hd' & Hsel & Hp & _)
    |(_ & d' & Hd' & _)]; rewrite Hd in Hd'; simplify_eq.
  assert (sel ∈ accepted_of req) as (m & Hm & Hc & Hr)%elem_of_accepted.
  { apply considered_accepted. rewrite <-(elem_of_sort_by candidate_less), Hs. by left. }
  exists m. split_and!; [done|done|congruence|]. by rewrite Hp, Hr.
Qed.

Lemma try_fallback_sound req f models d :
  models ⊆ Models req → try_fallback Estimator req f models = Some d →
  ∃ m, m ∈ Models req ∧ compatible req m ∧ Selected d = reference m ∧
    Decision_ProviderID d = Model_ProviderID m.
Proof.
  induction models as [|m models IH]; intros Hsub; simpl; [done|].
  assert (models ⊆ Models req) as Hsub' by (intros x Hx; apply Hsub; by right).
  destruct (bool_decide _ && bool_decide _); [|by apply IH].
  destruct (Decide Estimator _) as [d' [e|]] eqn:Hd; [by apply IH|].
  intros [= <-]. apply Decide_sound in Hd as (m' & Hm & Hc & Hs & Hp). simpl in Hm.
  apply list_elem_of_singleton in Hm as ->. exists m.
  split_and!; [apply Hsub; by left| |done|done]. destruct Hc. by split.
Qed.

(** ** The order of the candidates *)

Definition score_less (a b : CandidateResult) : bool := float64.key_ltb (Score b) (Score a).
Definition provider_less (a b : CandidateResult) : bool :=
  String.ltb (Ref_ProviderID (Candidate_Model a)) (Ref_ProviderID (Candidate_Model b)).
Definition model_less (a b : CandidateResult) : bool :=
  String.ltb (Ref_ModelID (Candidate_Model a)) (Ref_ModelID (Candidate_Model b)).
Definition lex_candidate_less : CandidateResult → CandidateResult → bool :=
  lex_less score_less (lex_less provider_less model_less).

Lemma candidate_less_lex a b :
  float64.is_nan (Score a) = false → float64.is_nan (Score b) = false →
  candidate_less a b = lex_candidate_less a b.
Proof.
  intros Ha Hb. unfold candidate_less, lex_candidate_less, lex_less, score_less,
    provider_less, model_less.
  rewrite float64.eqb_key by done. unfold float64.gtb.
  change SFltb with float64.ltb. rewrite float64.ltb_key by done.
  destruct (float64.key_ltb (Score b) (Score a)) eqn:E1; simpl.
  { by rewrite andb_false_r. }
  rewrite andb_true_r. destruct (float64.key_ltb (Score a) (Score b)); simpl; [done|].
  case_decide as Hp.
  - by rewrite Hp, !ltb_irrefl.
  - destruct (String.ltb (Ref_ProviderID (Candidate_Model a)) _) eqn:E2; [done|].
    destruct (String.ltb (Ref_ProviderID (Candidate_Model b)) _) eqn:E3; [done|].
    exfalso. apply Hp, (anti_symm String.le); by apply ltb_false.
Qed.

Lemma lex_candidate_sorted l :
  StronglySorted (λ a b, lex_candidate_less b a = false) (sort_by lex_candidate_less l).
Proof.
  apply sort_by_sorted; unfold lex_candidate_less.
  - apply lex_less_asym; [intros x y; apply float64.key_ltb_asym|].
    intros x y. apply lex_less_asym; intros u v; apply ltb_asym.
  - apply lex_less_negtrans; [intros x y z Hxy Hyz; exact (float64.key_ltb_negtrans _ _ _ Hyz Hxy)|].
    intros x y z. apply lex_less_negtrans; intros u v t; apply ltb_negtrans.
Qed.

Lemma candidate_sorted l :
  Forall (λ c, float64.is_nan (Score c) = false) l →
  StronglySorted (λ a b, candidate_less b a = false) (sort_by candidate_less l).
Proof.
  intros Hn. rewrite Forall_forall in Hn.
  rewrite (sort_by_ext candidate_less lex_candidate_less)
    by (intros; apply candidate_less_lex; auto).
  pose proof (lex_candidate_sorted l) as Hs.
  assert (Forall (λ c, c ∈ l) (sort_by lex_candidate_less l)) as Hin
    by (rewrite sort_by_perm; by apply Forall_forall).
  induction Hs as [|x r Hs IH Hx]; [constructor|].
  apply Forall_cons in Hin as [Hxl Hin]. constructor; [by apply IH|].
  rewrite Forall_forall in *. intros y Hy.
  rewrite candidate_less_lex by auto. by apply Hx.
Qed.

(** The order of the candidates, said without the comparison of the source: the
    higher score first; among equal scores the provider that sorts first, and then the
    model that sorts first. *)
Definition ranks_before (a b : CandidateResult) : Prop :=
  let provider c := Ref_ProviderID (Candidate_Model c) in
  let model c := Ref_ModelID (Candidate_Model c) in
  float64.ltb (Score b) (Score a) = true ∨
  float64.eqb (Score a) (Score b) = true ∧
    (provider a ≠ provider b ∧ String.le (provider a) (provider b) ∨
     provider a = provider b ∧ String.le (model a) (model b)).

Lemma not_less_ranks a b :
  float64.is_nan (Score a) = false → float64.is_nan (Score b) = false →
  candidate_less b a = false → ranks_before a b.
Proof.
  intros Ha Hb. rewrite candidate_less_lex by done.
  unfold lex_candidate_less, lex_less, score_less, provider_less, model_less, ranks_before.
  rewrite float64.ltb_key, float64.eqb_key by done.
  rewrite !orb_false_iff, !andb_false_iff, !orb_false_iff, !andb_false_iff.
  rewrite !negb_false_iff, !ltb_false.
  intros [Hab [Hba|[Hp [Hp'|Hm]]]]; [by left|..].
  all: destruct (float64.key_ltb (Score b) (Score a)) eqn:E; [by left|right].
  all: rewrite Hab; split; [done|].
  all: destruct (decide (Ref_ProviderID (Candidate_Model a) =
                         Ref_ProviderID (Candidate_Model b))) as [Heq|]; [|by left].
  - by rewrite Heq, ltb_irrefl in Hp'.
  - by right.
Qed.

Lemma candidates_ranked l :
  Forall (λ c, float64.is_nan (Score c) = false) l →
  StronglySorted ranks_before (sort_by candidate_less l).
Proof.
  intros Hn. pose proof (candidate_sorted l Hn) as Hs.
  rewrite <-(sort_by_perm candidate_less l) in Hn.
  induction Hs as [|x r Hs IH Hx]; [constructor|].
  apply Forall_cons in Hn as [Hnx Hn]. constructor; [by apply IH|].
  rewrite Forall_forall in *. intros y Hy. apply not_less_ranks; auto.
Qed.

Lemma confidence_range score :
  float64.is_nan score = false →
  float64.ltb (confidence score) float64.zero = false ∧
  float64.ltb (float64.of_Z 1) (confidence score) = false.
Proof.
  intros Hn. unfold confidence.
  destruct (float64.ltb score float64.zero) eqn:H0; [done|].
  destruct (float64.gtb score (float64.of_Z 1)) eqn:H1; [done|]. done.
Qed.

Lemma DecideWithFallbacks_selects req d :
  DecideWithFallbacks Estimator req = (d, None) →
  ∃ m, m ∈ Models req ∧ compatible req m ∧ Selected d = reference m ∧
    Decision_ProviderID d = Model_ProviderID m.
Proof.
  intros Hd. unfold DecideWithFallbacks in Hd.
  destruct (Decide Estimator req) as [d0 [e|]] eqn:H0; [|simplify_eq; by apply Decide_sound].
  destruct (head _) as [d'|] eqn:Hh; simplify_eq.
  apply head_Some_elem_of, list_elem_of_omap in Hh as (f & _ & Hf).
  by eapply try_fallback_sound.
Qed.

(** ** Properties *)

(** Hard constraints cannot be bypassed.  Whatever the policy, the user's
    override and the list of fallbacks, a model the router selects is one of the
    models of the request that meets every hard constraint; in particular a
    private project or task, or a local-only policy, is only ever routed to a
    local model. *)
Theorem DecideWithFallbacks_sound req d :
  DecideWithFallbacks Estimator req = (d, None) →
  ∃ m, m ∈ Models req ∧ compatible req m ∧ Selected d = reference m ∧
    Decision_ProviderID d = Model_ProviderID m ∧
    (Req_LocalPolicy req = LocalOnly ∨ PrivacyLimit req = Private ∨
     Privacy (Req_Task req) = Private → Local m = true).
Proof.
  intros (m & Hm & Hc & Hs & Hp)%DecideWithFallbacks_selects.
  exists m. split_and!; try done. destruct Hc. naive_solver.
Qed.

(** The router answers NO_COMPATIBLE_MODEL exactly when no model of the
    request meets the hard constraints or, when the user asks for a model, when
    that model does not; an override that is answered is obeyed. *)
Theorem Decide_complete req :
  let wanted m := ∀ o, UserOverride req = Some o → reference m = o in
  (∃ d, Decide Estimator req = (d, Some ErrNoCompatibleModel)) ∧
    (∀ m, m ∈ Models req → compatible req m → ¬ wanted m) ∨
  (∃ d, Decide Estimator req = (d, None) ∧
    (∀ o, UserOverride req = Some o → Selected d = o)).
Proof.
  intros wanted. destruct (Decide_cases req) as [(sel & alts & Hs & d & Hd & Hsel & _)
    |(Hnone & d & Hd & _)].
  - right. exists d. split; [done|]. intros o Ho.
    assert (sel ∈ (considered req).1) as Hin
      by (rewrite <-(elem_of_sort_by candidate_less), Hs; by left).
    unfold considered in Hin. rewrite Ho in Hin.
    destruct (applyOverride_spec o [] (accepted_of req) (rejected_of req))
      as [(c & Hc & _ & Hm)|[Hc _]]; rewrite Hc in Hin.
    + apply list_elem_of_singleton in Hin as ->. congruence.
    + by apply elem_of_nil in Hin.
  - left. split; [by eexists|]. intros m Hm Hc Hw.
    destruct (compatible_accepted req m Hm Hc) as (c & Hacc & Hr).
    unfold considered in Hnone. destruct (UserOverride req) as [o|] eqn:Ho.
    + destruct (applyOverride_spec o [] (accepted_of req) (rejected_of req))
        as [(c' & Hc' & _)|[_ Hno]]; [congruence|].
      apply (Hno c Hacc). rewrite Hr. by apply Hw.
    + simpl in Hnone. rewrite Hnone in Hacc. by apply elem_of_nil in Hacc.
Qed.

(** C17: without an override, and when no accepted candidate's score is NaN,
    the selected model heads the accepted candidates in the order of score (the
    higher first), then provider, then model: the alternatives are the other
    accepted candidates in that order, the rejected ones are listed as they
    came, and the confidence lies between 0 and 1. *)
Theorem Decide_best req d :
  UserOverride req = None →
  Forall (λ c, float64.is_nan (Score c) = false) (accepted_of req) →
  Decide Estimator req = (d, None) →
  ∃ sel, Selected d = Candidate_Model sel ∧
    sel :: Alternatives d ≡ₚ accepted_of req ∧ Rejected d = rejected_of req ∧
    StronglySorted ranks_before (sel :: Alternatives d) ∧
    (∀ c, c ∈ accepted_of req → float64.gtb (Score c) (Score sel) = false) ∧
    float64.ltb (Confidence d) float64.zero = false ∧
    float64.gtb (Confidence d) (float64.of_Z 1) = false.
Proof.
  intros Ho Hn Hd. destruct (Decide_cases req) as [(sel & alts & Hs & d' & Hd' & Hsel & _ & Ha & Hr & _ & Hcf)
    |(_ & d' & Hd' & _)]; rewrite Hd in Hd'; simplify_eq.
  unfold considered in Hs, Hr. rewrite Ho in Hs, Hr. simpl in Hs, Hr.
  pose proof (candidate_sorted _ Hn) as Hsort. rewrite Hs in Hsort.
  pose proof (candidates_ranked _ Hn) as Hrank. rewrite Hs in Hrank.
  pose proof (sort_by_perm candidate_less (accepted_of req)) as Hperm. rewrite Hs in Hperm.
  assert (sel ∈ accepted_of req) as Hin by (rewrite <-Hperm; by left).
  rewrite Forall_forall in Hn.
  exists sel. split_and!; try done; [|rewrite Hcf; by apply confidence_range; auto..].
  intros c Hc. rewrite <-Hperm in Hc. apply elem_of_cons in Hc as [->|Hc].
  { unfold float64.gtb. change SFltb with float64.ltb. rewrite float64.ltb_key by auto.
    unfold float64.key_ltb. by destruct (float64.key_compare_spec
      (float64.key (Score sel)) (float64.key (Score sel))); [|lia|]. }
  inversion Hsort as [|? ? _ Hf]; subst. rewrite Forall_forall in Hf. specialize (Hf c Hc).
  assert (c ∈ accepted_of req) as Hca by (rewrite <-Hperm; by right).
  rewrite candidate_less_lex in Hf by auto. apply orb_false_iff in Hf as [Hf _].
  unfold float64.gtb. change SFltb with float64.ltb. by rewrite float64.ltb_key by auto.
Qed.
End facts.

(** ** Witnesses *)

Definition example_task : TaskProfile :=
  mkTaskProfile TaskCode "" "" 1 false 10 false false Private "" float64.zero "".
Definition example_model (provider id : string) (local : bool) (reliability : Z) : ModelProfile :=
  mkModel id provider "" id {[Coding := true]}
    (mkPerformance float64.zero float64.zero float64.zero float64.zero float64.zero
       (float64.lit reliability 10) "" "" "")
    (mkPricing float64.zero float64.zero "USD" "" 0) Available local (negb local) 100 ""
    (mkResources 0 0 false) true [].
Definition example_routing (task : TaskProfile) (override : option ModelReference)
    : RoutingRequest :=
  mkRequest "p" "a" task (RoutingPolicyOther "") (PrivacyClassOther "")
    LocalPolicyAny float64.zero true true false 0 0 false
    [example_model "cloud" "big" false 9; example_model "local" "small" true 5;
     example_model "local" "tiny" true 3]
    [mkReference "cloud" "big"; mkReference "local" "tiny"] override None None None.

Lemma DecideWithFallbacks_sound_witness :
  ∃ d, DecideWithFallbacks (H:=strings.ascii_unicode) TokenCostEstimator
    (example_routing example_task (Some (mkReference "cloud" "big"))) = (d, None) ∧
    Selected d = mkReference "local" "tiny".
Proof.
  destruct (DecideWithFallbacks (H:=strings.ascii_unicode) TokenCostEstimator
    (example_routing example_task (Some (mkReference "cloud" "big")))) as [d err] eqn:E.
  assert (err = None ∧ Selected d = mkReference "local" "tiny") as [-> Hs].
  { vm_compute in E. injection E as <- <-. done. }
  exists d. split; [done|].
  destruct (DecideWithFallbacks_sound (H:=strings.ascii_unicode) _ _ _ E)
    as (m & _ & _ & Hsel & _). exact Hs.
Defined.

Lemma Decide_best_witness :
  ∃ d, Decide (H:=strings.ascii_unicode) TokenCostEstimator
    (example_routing example_task None) = (d, None) ∧
    Selected d = mkReference "local" "small" ∧
    float64.gtb (Confidence d) (float64.of_Z 1) = false.
Proof.
  destruct (Decide (H:=strings.ascii_unicode) TokenCostEstimator
    (example_routing example_task None)) as [d err] eqn:E.
  assert (err = None ∧ Selected d = mkReference "local" "small") as [-> Hs].
  { vm_compute in E. injection E as <- <-. done. }
  exists d. split; [done|]. split; [done|].
  destruct (Decide_best (H:=strings.ascii_unicode) TokenCostEstimator
    (example_routing example_task None) d eq_refl) as (sel & _ & _ & _ & _ & _ & _ & Hc).
  - vm_compute. repeat constructor.
  - exact E.
  - exact Hc.
Defined.
