(* ===== verification/AgentTypes.v ===== *)
(** * Agents: the data model and the session state machine

    [src/internal/agent/domain.go], [security.go] and [normalize.go]. *)

From S2P Require Import Prelude GoStrings Float.

Module agent.

(* src: internal/agent/domain.go:11-15 (ModelReference) *)
Record ModelReference := mkModelReference {
  Reference_ProviderID : string;
  Reference_ModelID : string;
  ConfigurationID : string
}.

(* src: internal/agent/domain.go:16-32 (Capability) *)
Inductive Capability :=
  | CapabilityTerminal | CapabilityFilesystem | CapabilityGit | CapabilityBrowser
  | CapabilityWeb | CapabilityToolCalling | CapabilityInteractive | CapabilityStreaming
  | CapabilityStructuredOutput | CapabilityVision | CapabilityParallelTasks
  | CapabilityLongRunning | CapabilityHumanHandoff
  | CapabilityOther (s : string).

(* src: internal/agent/domain.go:34-46 (AgentDefinition) *)
Record AgentDefinition := mkAgentDefinition {
  Agent_ID : string;
  Agent_Name : string;
  Agent_DisplayName : string;
  Agent_Adapter : string;
  Agent_Version : string;
  Agent_Description : string;
  Agent_Capabilities : list Capability;
  RuntimeRequirements : gmap string string;
  AuthenticationMethod : string;
  Agent_Configuration : gmap string string;
  Agent_Status : string
}.

(* src: internal/agent/domain.go:47-55 (Provider) *)
Record Provider := mkAgentProvider {
  Provider_ID : string;
  Provider_Name : string;
  Provider_Type : string;
  BaseURL : string;
  AuthenticationType : string;
  Provider_Status : string;
  Provider_Configuration : gmap string string
}.

(* src: internal/agent/domain.go:56-66 (Model) *)
Record Model := mkAgentModel {
  Model_ID : string;
  Model_Provider : string;
  Model_Model : string;
  Model_DisplayName : string;
  Model_ContextWindow : Z;
  Reasoning : bool;
  Coding : bool;
  Vision : bool;
  ToolUse : bool;
  StructuredOutput : bool;
  Model_Local : bool;
  Model_Remote : bool;
  Model_InputCost : float64.t;
  Model_OutputCost : float64.t;
  Model_LatencyClass : string;
  Model_Available : string;
  Model_Metadata : gmap string string
}.

(* src: internal/agent/domain.go:67-79 (Permission) *)
Inductive Permission :=
  | PermissionFilesystemRead | PermissionFilesystemWrite | PermissionTerminalExecute
  | PermissionGitCommit | PermissionGitPush | PermissionBrowserNavigate
  | PermissionNetworkAccess | PermissionSecretRead | PermissionDeploymentExecute
  | PermissionOther (s : string).
#[global] Instance Permission_eq_dec : EqDecision Permission.
Proof. solve_decision. Defined.

(* src: internal/agent/domain.go:81-86 (PermissionPolicy) *)
Record PermissionPolicy := mkPolicy {
  Policy_ProjectID : string;
  Policy_AgentID : string;
  Allowed : list Permission;
  ApprovalRequired : list Permission
}.

(* src: internal/agent/domain.go:87-94 (CredentialReference) *)
Record CredentialReference := mkCredential {
  Credential_ID : string;
  Credential_ProjectID : string;
  Credential_ProviderID : string;
  Credential_Kind : string;
  SecretName : string;
  Credential_Metadata : gmap string string
}.

(** ** Sessions *)

(* src: internal/agent/domain.go:95-108 (SessionStatus) *)
Inductive SessionStatus :=
  | SessionCreated | SessionStarting | SessionRunning | SessionPaused | SessionWaiting
  | SessionCompleting | SessionCompleted | SessionFailed | SessionCancelled
  | SessionRecovering
  | SessionStatusOther (s : string).
#[global] Instance SessionStatus_eq_dec : EqDecision SessionStatus.
Proof. solve_decision. Defined.
Definition SessionStatus_text (s : SessionStatus) : string :=
  match s with
  | SessionCreated => "CREATED" | SessionStarting => "STARTING" | SessionRunning => "RUNNING"
  | SessionPaused => "PAUSED" | SessionWaiting => "WAITING"
  | SessionCompleting => "COMPLETING" | SessionCompleted => "COMPLETED"
  | SessionFailed => "FAILED" | SessionCancelled => "CANCELLED"
  | SessionRecovering => "RECOVERING" | SessionStatusOther s => s
  end.

(* src: internal/agent/domain.go:110-119 (Session) *)
Record Session := mkSession {
  Session_ID : string;
  Session_ProjectID : string;
  Session_AgentID : string;
  Session_Model : ModelReference;
  Session_RuntimeID : string;
  WorkingDirectory : string;
  Session_Status : SessionStatus;
  Session_CreatedAt : Z;
  Session_UpdatedAt : Z
}.
#[global] Instance eta_Session : Eta Session := λ s,
  mkSession (Session_ID s) (Session_ProjectID s) (Session_AgentID s) (Session_Model s)
    (Session_RuntimeID s) (WorkingDirectory s) (Session_Status s) (Session_CreatedAt s)
    (Session_UpdatedAt s).

(* src: internal/agent/domain.go:121-121 (ErrInvalidSessionTransition) *)
Definition ErrInvalidSessionTransition : goerror :=
  ErrorString "invalid agent session transition".

(* src: internal/agent/domain.go:131-152 (validTransition) *)
Definition validTransition (from to : SessionStatus) : bool :=
  match from, to with
  | SessionCreated, (SessionStarting | SessionCancelled) => true
  | SessionStarting, (SessionRunning | SessionFailed | SessionCancelled) => true
  | SessionRunning, (SessionPaused | SessionWaiting | SessionCompleting | SessionFailed
                    | SessionCancelled) => true
  | SessionPaused, (SessionRunning | SessionCancelled | SessionFailed) => true
  | SessionWaiting, (SessionRunning | SessionCancelled | SessionFailed) => true
  | SessionCompleting, (SessionCompleted | SessionFailed) => true
  | SessionFailed, (SessionRecovering | SessionCancelled) => true
  | SessionRecovering, (SessionStarting | SessionFailed | SessionCancelled) => true
  | _, _ => false
  end.

(* src: internal/agent/domain.go:123-130 (Transition) *)
Definition Transition (s : Session) (next : SessionStatus) (now : Z) : result Session :=
  if negb (validTransition (Session_Status s) next)
  then Err (WrapError
         (error_text ErrInvalidSessionTransition +:+ ": " +:+
          SessionStatus_text (Session_Status s) +:+ " -> " +:+ SessionStatus_text next)
         ErrInvalidSessionTransition)
  else Ok (s <| Session_Status := next |> <| Session_UpdatedAt := now |>).

(** Sequences of transitions. *)
Definition session_step (a b : SessionStatus) : Prop := validTransition a b = true.

(** Completed and cancelled sessions stay as they are. *)
Lemma session_terminal s next :
  s = SessionCompleted ∨ s = SessionCancelled → ¬ session_step s next.
Proof. unfold session_step. by intros [-> | ->]. Qed.

(** A path of transitions from CREATED to RUNNING passes through STARTING, and
    one that ends COMPLETED through COMPLETING. *)
Lemma session_running_after_starting s :
  rtc session_step SessionCreated s → s = SessionRunning →
  rtc session_step SessionCreated SessionStarting ∧ rtc session_step SessionStarting s.
Proof.
  intros Hr ->. split; [by apply rtc_once|].
  inversion Hr as [|? y ? Hy Hyr]; subst.
  unfold session_step in Hy. destruct y; try done.
  inversion Hyr as [|? z ? Hz _]; subst. unfold session_step in Hz. by destruct z.
Qed.

(** Every session that is not completed can still be cancelled. *)
Lemma session_can_cancel s :
  match s with SessionCompleted | SessionStatusOther _ => False | _ => True end →
  rtc session_step s SessionCancelled.
Proof.
  intros Hs. destruct s; try done; try (by apply rtc_once); try apply rtc_refl.
  by apply (rtc_l _ _ SessionFailed); [|apply rtc_once].
Qed.

(** ** Events *)

(* src: internal/agent/domain.go:154-171 (EventType) *)
Inductive EventType :=
  | EventSessionCreated | EventSessionStarted | EventMessage | EventThinking
  | EventToolStarted | EventToolOutput | EventFileChanged | EventCommandStarted
  | EventCommandOutput | EventCommandCompleted | EventError | EventPermissionRequired
  | EventUserInputRequired | EventSessionCompleted
  | EventTypeOther (s : string).
#[global] Instance EventType_eq_dec : EqDecision EventType.
Proof. solve_decision. Defined.

(* src: internal/agent/domain.go:173-180 (Usage) *)
Record Usage := mkUsage {
  Usage_Provider : string;
  Usage_Model : string;
  InputTokens : Z;
  OutputTokens : Z;
  DurationMS : Z;
  EstimatedCost : float64.t
}.

(* src: internal/agent/domain.go:181-190 (Event) *)
Record Event := mkEvent {
  Event_ID : string;
  Event_SessionID : string;
  Event_Type : EventType;
  Timestamp : Z;
  Normalized : gmap string any;
  Raw : gmap string any;
  Event_Usage : option Usage;
  RequiresApproval : bool
}.
#[global] Instance eta_Event : Eta Event := λ e,
  mkEvent (Event_ID e) (Event_SessionID e) (Event_Type e) (Timestamp e) (Normalized e)
    (Raw e) (Event_Usage e) (RequiresApproval e).

(* src: internal/agent/normalize.go:16-28 (Normalize) *)
Definition with_type (typ : string) (event : Event) : Event :=
  if decide (typ = "thinking") then event <| Event_Type := EventThinking |>
  else if decide (typ = "tool.started") then event <| Event_Type := EventToolStarted |>
  else if decide (typ = "tool.output") then event <| Event_Type := EventToolOutput |>
  else if decide (typ = "error") then event <| Event_Type := EventError |>
  else if decide (typ = "permission.required")
  then event <| Event_Type := EventPermissionRequired |> <| RequiresApproval := true |>
  else event.

(** [unmarshal] is [json.Unmarshal] into a [map[string]any]: the members of the
    object, or nothing when the text is no JSON object. *)
(* src: internal/agent/normalize.go:9-35 (Normalize) *)
Definition Normalize (unmarshal : string → option (list (string * any)))
    (sessionID provider rawLine : string) (now : Z) : Event :=
  let line := strings.TrimSpace rawLine in
  let event := mkEvent "" sessionID EventMessage now {["text" := AnyString line]}
    (list_to_map [("provider", AnyString provider); ("line", AnyString line)]) None false in
  match unmarshal line with
  | None => event
  | Some members =>
      let object : gmap string any := list_to_map (reverse members) in
      let event := event <| Raw := <["payload" := AnyMap members]> (Raw event) |> in
      let event := match object !! "type" with
                   | Some (AnyString typ) => with_type typ event
                   | _ => event
                   end in
      match object !! "text" with
      | Some (AnyString text) =>
          event <| Normalized := <["text" := AnyString text]> (Normalized event) |>
      | _ => event
      end
  end.

Definition asks_approval (e : Event) : Prop :=
  RequiresApproval e = true ↔ Event_Type e = EventPermissionRequired.

Lemma with_type_approval typ e :
  RequiresApproval e = false → Event_Type e = EventMessage → asks_approval (with_type typ e).
Proof.
  intros Hr Ht. unfold with_type, asks_approval.
  repeat case_decide; simpl; rewrite ?Hr, ?Ht; done.
Qed.

(** An event asks for approval exactly when it is a permission request. *)
Lemma Normalize_approval unmarshal sid provider line now :
  asks_approval (Normalize unmarshal sid provider line now).
Proof.
  unfold Normalize. destruct (unmarshal _) as [members|]; [|done].
  set (object := list_to_map (reverse members) : gmap string any).
  set (event := (mkEvent _ _ _ _ _ _ _ _) <| Raw := _ |>).
  assert (asks_approval match object !! "type" with
    | Some (AnyString typ) => with_type typ event | _ => event end) as He.
  { destruct (object !! "type") as [[]|]; try done. by apply with_type_approval. }
  destruct (object !! "text") as [[]|]; exact He.
Qed.

(** ** Permissions *)

(* src: internal/agent/security.go:8-8 (ErrPermissionDenied) *)
Definition ErrPermissionDenied : goerror := ErrorString "agent permission denied".
(* src: internal/agent/security.go:10-12 (Allows) *)
Definition Allows (p : PermissionPolicy) (permission : Permission) : bool :=
  bool_decide (permission ∈ Allowed p).
(* src: internal/agent/security.go:13-15 (NeedsApproval) *)
Definition NeedsApproval (p : PermissionPolicy) (permission : Permission) : bool :=
  bool_decide (permission ∈ ApprovalRequired p).
(* src: internal/agent/security.go:16-21 (Authorize) *)
Definition Authorize (policy : PermissionPolicy) (projectID : string)
    (permission : Permission) : option goerror :=
  if negb (bool_decide (Policy_ProjectID policy = projectID)) ||
     negb (Allows policy permission)
  then Some ErrPermissionDenied else None.
(* src: internal/agent/security.go:22-27 (ValidateCredentialReference) *)
Definition ValidateCredentialReference (ref : CredentialReference) : option goerror :=
  if existsb (λ s, bool_decide (s = ""))
       [Credential_ID ref; Credential_ProjectID ref; Credential_ProviderID ref;
        Credential_Kind ref; SecretName ref]
  then Some (ErrorString "credential reference is incomplete") else None.

(** A permission is granted within the project of the policy only. *)
Lemma Authorize_iff policy projectID permission :
  Authorize policy projectID permission = None ↔
  Policy_ProjectID policy = projectID ∧ permission ∈ Allowed policy.
Proof.
  unfold Authorize, Allows. destruct (bool_decide _) eqn:E1, (bool_decide (_ ∈ _)) eqn:E2;
    simpl; rewrite ?bool_decide_eq_true, ?bool_decide_eq_false in *; naive_solver.
Qed.
End agent.
