(* ===== verification/Agent.v ===== *)
(** * Agents: registry, sessions and assignment

    [src/internal/agent/adapter.go], [cli_adapter.go], [service.go] and the
    assignment of agents to tasks in [src/internal/orchestration/service.go] and
    [assignment.go].  Adapters, the session store and the process manager are
    interfaces of the source: records of computations in the world.  The
    streams of events and the three adapters are in [AgentAdapters.v], the store in
    [AgentStore.v]. *)

From S2P Require Import Prelude GoStrings World Runtime Float OrchTypes RoutingTypes AgentTypes.
Import agent.

Module agents.

(* src: internal/agent/adapter.go:12-22 (Adapter) *)
Record Adapter (W : Type) := mkAgentAdapter {
  Adapter_ID : string;
  Adapter_Start : Session → M W (option goerror);
  Adapter_Stop : string → M W (option goerror);
  Adapter_Resume : Session → M W (option goerror);
  Adapter_SendMessage : string → string → M W (option goerror);
  Adapter_Cancel : string → M W (option goerror);
  Adapter_Status : string → M W (result SessionStatus);
  Adapter_Capabilities : list Capability
}.
Arguments mkAgentAdapter {W}.
Arguments Adapter_ID {W}.
Arguments Adapter_Start {W}.
Arguments Adapter_Cancel {W}.
Arguments Adapter_SendMessage {W}.
Arguments Adapter_Stop {W}.
Arguments Adapter_Resume {W}.
Arguments Adapter_Status {W}.
Arguments Adapter_Capabilities {W}.

(** ** The registry *)

(* src: internal/agent/adapter.go:40-44 (Registry) *)
Record Registry (W : Type) := mkAgentRegistry {
  adapters : gmap string (Adapter W);
  definitions : gmap string AgentDefinition
}.
Arguments mkAgentRegistry {W}.
Arguments adapters {W}.
Arguments definitions {W}.
#[global] Instance eta_Registry W : Eta (Registry W) := λ r,
  mkAgentRegistry (adapters r) (definitions r).

(* src: internal/agent/adapter.go:46-48 (NewRegistry) *)
Definition NewRegistry {W} : Registry W := mkAgentRegistry ∅ ∅.

(* src: internal/agent/adapter.go:49-60 (RegisterDefinition) *)
Definition RegisterDefinition {W} (r : Registry W) (d : AgentDefinition)
    : Registry W * option goerror :=
  if bool_decide (Agent_ID d = "") || bool_decide (Agent_Adapter d = "")
  then (r, Some (ErrorString "agent definition id and adapter are required"))
  else match definitions r !! Agent_ID d with
       | Some _ => (r, Some (ErrorString "agent definition already registered"))
       | None => (r <| definitions := <[Agent_ID d := d]> (definitions r) |>, None)
       end.

(* src: internal/agent/adapter.go:61-69 (Definitions) *)
Definition Definitions {W} `{MapOrder} (r : Registry W) : list AgentDefinition :=
  (map_range 0 (definitions r)).*2.

(* src: internal/agent/adapter.go:71-82 (Register) *)
Definition Register {W} (r : Registry W) (adapter : option (Adapter W))
    : Registry W * option goerror :=
  match adapter with
  | None => (r, Some (ErrorString "adapter id is required"))
  | Some a =>
      if decide (Adapter_ID a = "") then (r, Some (ErrorString "adapter id is required"))
      else match adapters r !! Adapter_ID a with
           | Some _ => (r, Some (ErrorString "adapter already registered"))
           | None => (r <| adapters := <[Adapter_ID a := a]> (adapters r) |>, None)
           end
  end.

(* src: internal/agent/adapter.go:83-88 (Get) *)
Definition Get {W} (r : Registry W) (id : string) : option (Adapter W) := adapters r !! id.

(* src: internal/agent/adapter.go:89-97 (List) *)
Definition List {W} `{MapOrder} (r : Registry W) : list (Adapter W) :=
  (map_range 0 (adapters r)).*2.

(** Every entry is stored under its own, non-empty identifier. *)
Definition registry_ok {W} (r : Registry W) : Prop :=
  map_Forall (λ id a, Adapter_ID a = id ∧ id ≠ "") (adapters r) ∧
  map_Forall (λ id d, Agent_ID d = id ∧ id ≠ "" ∧ Agent_Adapter d ≠ "") (definitions r).

Lemma Register_ok {W} (r : Registry W) a : registry_ok r → registry_ok (Register r a).1.
Proof.
  intros [Ha Hd]. unfold Register. destruct a as [a|]; [|done].
  case_decide; [done|]. destruct (adapters r !! Adapter_ID a); [done|].
  split; [|done]. by apply map_Forall_insert_2.
Qed.

Lemma RegisterDefinition_ok {W} (r : Registry W) d :
  registry_ok r → registry_ok (RegisterDefinition r d).1.
Proof.
  intros [Ha Hd]. unfold RegisterDefinition.
  destruct (bool_decide (Agent_ID d = "")) eqn:H1; [done|].
  destruct (bool_decide (Agent_Adapter d = "")) eqn:H2; [done|]. simpl.
  destruct (definitions r !! Agent_ID d); [done|].
  apply bool_decide_eq_false in H1, H2. split; [done|]. by apply map_Forall_insert_2.
Qed.

(** ** The command-line adapter *)

(* src: internal/agent/adapter.go:33-39 (ProcessManager) *)
Record ProcessManager (W : Type) := mkProcessManager {
  Process_Start : runtime.Spec → runtime.Command → M W (result string);
  Process_Write : string → string → M W (option goerror);
  Process_Stop : string → M W (option goerror);
  Process_Status : string → M W (result string)
}.
Arguments mkProcessManager {W}.
Arguments Process_Start {W}.
Arguments Process_Write {W}.
Arguments Process_Stop {W}.
Arguments Process_Status {W}.

(** The processes of the sessions are state of the adapter. *)
(* src: internal/agent/cli_adapter.go:13-24 (CLIAdapter) *)
Record CLIAdapter (W : Type) := mkCLI {
  CLI_Name : string;
  Binary : string;
  Process : option (ProcessManager W);
  CapabilitiesList : list Capability;
  processes : gmap string string
}.
Arguments mkCLI {W}.
Arguments CLI_Name {W}.
Arguments Binary {W}.
Arguments Process {W}.
Arguments CapabilitiesList {W}.
Arguments processes {W}.
#[global] Instance eta_CLI W : Eta (CLIAdapter W) := λ a,
  mkCLI (CLI_Name a) (Binary a) (Process a) (CapabilitiesList a) (processes a).

Definition ErrNoProcess : goerror := ErrorString "agent process not found".

Section cli.
Context {W : Type}.

(* src: internal/agent/cli_adapter.go:29-41 (CLIAdapter.Start) *)
Definition CLI_Start (a : CLIAdapter W) (s : Session) : M W (CLIAdapter W * option goerror) :=
  match Process a with
  | None => mret (a, Some (ErrorString "runtime process manager is required"))
  | Some pm =>
      let! started := Process_Start pm (runtime.mkSpec (Session_RuntimeID s) "" 0 0 0 "")
        (runtime.mkCommand [Binary a] (WorkingDirectory s) [] false 0) in
      match started with
      | Err err => mret (a, Some (wrap_prefix (CLI_Name a +:+ " start: ") err))
      | Ok id => mret (a <| processes := <[Session_ID s := id]> (processes a) |>, None)
      end
  end.

(** [a.processes[id]], an empty identifier meaning that there is none; a process
    is only ever started through a process manager. *)
Definition with_process {A} (a : CLIAdapter W) (id : string) (none : A)
    (k : ProcessManager W → string → M W A) : M W A :=
  let processID := default "" (processes a !! id) in
  match Process a with
  | Some pm => if decide (processID = "") then mret none else k pm processID
  | None => mret none
  end.

(* src: internal/agent/cli_adapter.go:44-52 (CLIAdapter.SendMessage) *)
Definition CLI_SendMessage (a : CLIAdapter W) (id message : string) : M W (option goerror) :=
  with_process a id (Some ErrNoProcess) (λ pm p, Process_Write pm p (message +:+ "
")).

(* src: internal/agent/cli_adapter.go:75-90 (CLIAdapter.Status) *)
Definition CLI_Status (a : CLIAdapter W) (id : string) : M W (result SessionStatus) :=
  with_process a id (Err ErrNoProcess) (λ pm p,
    let! status := Process_Status pm p in
    mret match status with
         | Err err => Err err
         | Ok s => Ok (if decide (s = "running") then SessionRunning else SessionCompleted)
         end).

(** [Stop] and [Cancel] *)
(* src: internal/agent/cli_adapter.go:91-99 (CLIAdapter.stop) *)
Definition CLI_stop (a : CLIAdapter W) (id : string) : M W (option goerror) :=
  with_process a id (Some ErrNoProcess) (λ pm p, Process_Stop pm p).
End cli.

(** ** The session service *)

(* src: internal/agent/store.go:15-22 (Store) *)
Record Store (W : Type) := mkStore {
  Store_CreateSession : Session → M W (option goerror);
  Store_GetSession : string → string → M W (result Session);
  Store_UpdateSession : Session → M W (option goerror);
  Store_AppendEvent : Event → M W (option goerror)
}.
Arguments mkStore {W}.
Arguments Store_CreateSession {W}.
Arguments Store_GetSession {W}.
Arguments Store_UpdateSession {W}.
Arguments Store_AppendEvent {W}.

(** [Guard] is nil or the check of a permission; [Now] is the clock, which
    [Start] and [Cancel] call without testing it for nil. *)
(* src: internal/agent/service.go:13-18 (Service) *)
Record Service (W : Type) := mkService {
  Service_Store : Store W;
  Service_Adapters : Registry W;
  Guard : option (Session → Permission → M W (option goerror));
  Service_Now : M W Z
}.
Arguments mkService {W}.
Arguments Service_Store {W}.
Arguments Service_Adapters {W}.
Arguments Guard {W}.
Arguments Service_Now {W}.

Section service.
Context {W : Type} (s : Service W).

Definition zero_Session : Session :=
  mkSession "" "" "" (mkModelReference "" "" "") "" "" (SessionStatusOther "") time_zero
    time_zero.

(** An event named after the clock. *)
Definition append_event (session : string) (typ : EventType) (data : gmap string any)
    : M W (option goerror) :=
  let! t1 := Service_Now s in
  let! t2 := Service_Now s in
  Store_AppendEvent (Service_Store s)
    (mkEvent ("evt_" +:+ pretty (UnixNano t1)) session typ t2 data ∅ None false).

(* src: internal/agent/service.go:20-34 (CreateSession) *)
Definition CreateSession (session : Session) : M W (option goerror) :=
  if bool_decide (Session_ProjectID session = "") ||
     bool_decide (Session_RuntimeID session = "") ||
     bool_decide (WorkingDirectory session = "")
  then mret (Some (ErrorString "project, runtime, and working directory are required"))
  else
    let session := session <| Session_Status :=
      (if decide (Session_Status session = SessionStatusOther "") then SessionCreated
       else Session_Status session) |> in
    let! err := Store_CreateSession (Service_Store s) session in
    match err with
    | Some e => mret (Some e)
    | None =>
        append_event (Session_ID session) EventSessionCreated
          (list_to_map [("project_id", AnyString (Session_ProjectID session));
                        ("agent_id", AnyString (Session_AgentID session))])
    end.

(** Calls that end a method on an error. *)
Definition orElse (m : M W (option goerror)) (k : M W (Session * option goerror))
    : M W (Session * option goerror) :=
  let! err := m in
  match err with Some e => mret (zero_Session, Some e) | None => k end.
Definition transition (session : Session) (next : SessionStatus)
    (k : Session → M W (Session * option goerror)) : M W (Session * option goerror) :=
  let! now := Service_Now s in
  match Transition session next now with
  | Err e => mret (zero_Session, Some e)
  | Ok session => k session
  end.

(* src: internal/agent/service.go:35-69 (Start) *)
Definition Start (projectID id : string) : M W (Session * option goerror) :=
  let! got := Store_GetSession (Service_Store s) projectID id in
  match got with
  | Err e => mret (zero_Session, Some e)
  | Ok session =>
      match Get (Service_Adapters s) (Session_AgentID session) with
      | None => mret (zero_Session, Some (ErrorString
                  ("agent adapter not registered: " +:+ Session_AgentID session)))
      | Some adapter =>
          let! now := Service_Now s in
          orElse (match Guard s with
                  | Some authorize => authorize session PermissionTerminalExecute
                  | None => mret None
                  end)
            match Transition session SessionStarting now with
            | Err e => mret (zero_Session, Some e)
            | Ok session =>
                orElse (Store_UpdateSession (Service_Store s) session)
                  (let! err := Adapter_Start adapter session in
                   match err with
                   | Some e =>
                       let! now := Service_Now s in
                       let session := match Transition session SessionFailed now with
                                      | Ok failed => failed | Err _ => session end in
                       let! _ := Store_UpdateSession (Service_Store s) session in
                       mret (zero_Session, Some e)
                   | None =>
                       transition session SessionRunning (λ session,
                         orElse (Store_UpdateSession (Service_Store s) session)
                           (let! _ := append_event id EventSessionStarted ∅ in
                            mret (session, None)))
                   end)
            end
      end
  end.

(* src: internal/agent/service.go:70-80 (SendMessage) *)
Definition SendMessage (projectID id message : string) : M W (option goerror) :=
  let! got := Store_GetSession (Service_Store s) projectID id in
  match got with
  | Err e => mret (Some e)
  | Ok session =>
      match Get (Service_Adapters s) (Session_AgentID session) with
      | None => mret (Some (ErrorString "agent adapter not registered"))
      | Some adapter => Adapter_SendMessage adapter id message
      end
  end.

(* src: internal/agent/service.go:81-101 (Cancel) *)
Definition Cancel (projectID id : string) : M W (Session * option goerror) :=
  let! got := Store_GetSession (Service_Store s) projectID id in
  match got with
  | Err e => mret (zero_Session, Some e)
  | Ok session =>
      match Get (Service_Adapters s) (Session_AgentID session) with
      | None => mret (zero_Session, Some (ErrorString "agent adapter not registered"))
      | Some adapter =>
          orElse (Adapter_Cancel adapter id)
            (transition session SessionCancelled (λ session,
               orElse (Store_UpdateSession (Service_Store s) session)
                 (let! _ := append_event id EventSessionCompleted
                    {["status" := AnyString "CANCELLED"]} in
                  mret (session, None))))
      end
  end.

(** ** Facts *)

Lemma orElse_ok m k w session w' :
  orElse m k w = ((session, None), w') →
  ∃ w1, m w = (None, w1) ∧ k w1 = ((session, None), w').
Proof.
  intros (err & w1 & Hm & Hk)%mthen_inv. destruct err.
  - by apply mret_inv in Hk as [[=] _].
  - eauto.
Qed.

Lemma transition_ok session next k w out w' :
  transition session next k w = ((out, None), w') →
  validTransition (Session_Status session) next = true ∧
  ∃ now w1, k (session <| Session_Status := next |> <| Session_UpdatedAt := now |>) w1
    = ((out, None), w').
Proof.
  intros (now & w1 & _ & Hk)%mthen_inv. unfold Transition in Hk.
  destruct (validTransition _ _); simpl in Hk; [|by apply mret_inv in Hk as [[=] _]].
  split; [done|]. by exists now, w1.
Qed.

(** ** Properties *)

(** How a session gets to run.  When [Start] returns a session without
    error, the stored session was CREATED or RECOVERING, the guard (if there is
    one) allowed terminal execution for it, and then, in this order, the session
    was stored as STARTING, its adapter started it and it was stored as RUNNING;
    the session returned is the stored one with that status. *)
Theorem Start_sequence projectID id w session w' :
  Start projectID id w = ((session, None), w') →
  ∃ s0 adapter t1 t2 w1 w2 w3 w4 w5 w6 w7,
    let starting := s0 <| Session_Status := SessionStarting |> <| Session_UpdatedAt := t1 |> in
    Store_GetSession (Service_Store s) projectID id w = (Ok s0, w1) ∧
    Get (Service_Adapters s) (Session_AgentID s0) = Some adapter ∧
    (Session_Status s0 = SessionCreated ∨ Session_Status s0 = SessionRecovering) ∧
    (∀ authorize, Guard s = Some authorize →
       authorize s0 PermissionTerminalExecute w2 = (None, w3)) ∧
    Store_UpdateSession (Service_Store s) starting w3 = (None, w4) ∧
    Adapter_Start adapter starting w4 = (None, w5) ∧
    session = starting <| Session_Status := SessionRunning |> <| Session_UpdatedAt := t2 |> ∧
    Store_UpdateSession (Service_Store s) session w6 = (None, w7) ∧
    Service_Now s w5 = (t2, w6) ∧ Service_Now s w1 = (t1, w2).
Proof.
  unfold Start. intros (got & w1 & Hgot & Hr)%mthen_inv.
  destruct got as [s0|e]; [|by apply mret_inv in Hr as [[=] _]].
  destruct (Get _ _) as [adapter|] eqn:Hget; [|by apply mret_inv in Hr as [[=] _]].
  apply mthen_inv in Hr as (t1 & w2 & Ht1 & Hr).
  apply orElse_ok in Hr as (w3 & Hguard & Hr).
  unfold Transition in Hr.
  destruct (validTransition (Session_Status s0) SessionStarting) eqn:Hv; simpl in Hr;
    [|by apply mret_inv in Hr as [[=] _]].
  apply orElse_ok in Hr as (w4 & Hup & Hr).
  apply mthen_inv in Hr as (err & w5 & Hstart & Hr). destruct err as [e|].
  { apply mthen_inv in Hr as (t & w6 & _ & Hr). apply mthen_inv in Hr as (? & w7 & _ & Hr).
    by apply mret_inv in Hr as [[=] _]. }
  apply mthen_inv in Hr as (t2 & w6 & Ht2 & Hr). simpl in Hr.
  apply orElse_ok in Hr as (w7 & Hup2 & Hr).
  apply mthen_inv in Hr as (? & w8 & _ & [[= <-] ->]%mret_inv).
  exists s0, adapter, t1, t2, w1, w2, w3, w4, w5, w6, w7. split_and!; try done.
  - destruct (Session_Status s0); try done; auto.
  - intros authorize Ha. by rewrite Ha in Hguard.
Qed.

(** A cancelled session has been stopped and was in a state that allows it. *)
Lemma Cancel_ok projectID id w session w' :
  Cancel projectID id w = ((session, None), w') →
  Session_Status session = SessionCancelled ∧
  ∃ s0 w1, Store_GetSession (Service_Store s) projectID id w = (Ok s0, w1) ∧
    validTransition (Session_Status s0) SessionCancelled = true.
Proof.
  unfold Cancel. intros (got & w1 & Hgot & Hr)%mthen_inv.
  destruct got as [s0|e]; [|by apply mret_inv in Hr as [[=] _]].
  destruct (Get _ _) as [adapter|]; [|by apply mret_inv in Hr as [[=] _]].
  apply orElse_ok in Hr as (w2 & _ & Hr). apply transition_ok in Hr as (Hv & t & w3 & Hr).
  apply orElse_ok in Hr as (w4 & _ & Hr).
  apply mthen_inv in Hr as (? & w5 & _ & [[= <-] _]%mret_inv). eauto.
Qed.
End service.

(** ** Assignment of agents to tasks *)

(* src: internal/orchestration/service.go:50-55 (AgentAssignment) *)
Record AgentAssignment := mkAssignment {
  Assignment_TaskID : string;
  Assignment_AgentID : string;
  Assignment_Model : routing.ModelReference;
  Assignment_Reason : string
}.
Definition zero_Assignment : AgentAssignment :=
  mkAssignment "" "" (routing.mkReference "" "") "".

Definition zero_Decision : routing.RoutingDecision :=
  routing.mkDecision (routing.mkReference "" "") "" "" [] [] [] float64.zero float64.zero.

(* src: internal/orchestration/service.go:56-69 (CapabilityAgentSelector.Select) *)
Fixpoint Select (task : orchestration.Task) (l : list AgentDefinition)
    (decision : routing.RoutingDecision) : result AgentAssignment :=
  match l with
  | [] => Err (ErrorString "no compatible agent")
  | a :: l =>
      if decide (Agent_Status a = "DISABLED") then Select task l decision
      else Ok (mkAssignment (orchestration.Task_ID task) (Agent_ID a)
             (routing.Selected decision) "selected compatible registered agent")
  end.

(* src: internal/orchestration/assignment.go:10-26 (AssignmentService.Assign) *)
Definition Assign
    (router : option (routing.RoutingRequest → routing.RoutingDecision * option goerror))
    (selector : option (orchestration.Task → list AgentDefinition →
                        routing.RoutingDecision → result AgentAssignment))
    (build : option (orchestration.Task → routing.RoutingRequest))
    (task : orchestration.Task) (l : list AgentDefinition)
    : AgentAssignment * routing.RoutingDecision * option goerror :=
  match router, selector, build with
  | Some route, Some select, Some build =>
      let '(decision, err) := route (build task) in
      match err with
      | Some e => (zero_Assignment, decision, Some e)
      | None =>
          match select task l decision with
          | Ok a => (a, decision, None)
          | Err e => (zero_Assignment, decision, Some e)
          end
      end
  | _, _, _ =>
      (zero_Assignment, zero_Decision, Some (ErrorString "assignment dependencies are required"))
  end.

(** The first agent that is not disabled is selected. *)
Lemma Select_first task l decision a :
  Select task l decision = Ok a ↔
  ∃ l1 d l2, l = l1 ++ d :: l2 ∧ Forall (λ d, Agent_Status d = "DISABLED") l1 ∧
    Agent_Status d ≠ "DISABLED" ∧
    a = mkAssignment (orchestration.Task_ID task) (Agent_ID d) (routing.Selected decision)
          "selected compatible registered agent".
Proof.
  induction l as [|d l IH]; simpl.
  { split; [done|]. by intros ([] & ? & ? & ? & _). }
  case_decide as Hd.
  - rewrite IH. split.
    + intros (l1 & d' & l2 & -> & Hl & ?). exists (d :: l1), d', l2. split; [done|].
      split; [by constructor|done].
    + intros ([|d' l1] & d'' & l2 & [= -> ->] & Hl & Hd' & ->); [done|].
      apply Forall_cons in Hl as [_ Hl]. exists l1, d'', l2. done.
  - split.
    + intros [= <-]. exists [], d, l. done.
    + intros ([|d' l1] & d'' & l2 & [= -> ->] & Hl & Hd' & ->); [done|].
      by apply Forall_cons in Hl as [? _].
Qed.
End agents.

(** ** Witness *)

Definition example_session : Session :=
  mkSession "s" "p" "codex" (mkModelReference "" "" "") "rt" "/w" SessionCreated 0 0.
Definition example_adapter : agents.Adapter clock_world :=
  agents.mkAgentAdapter "codex" (λ _, mret None) (λ _, mret None) (λ _, mret None)
    (λ _ _, mret None) (λ _, mret None) (λ _, mret (Ok SessionRunning)) [].
Definition example_service : agents.Service clock_world :=
  agents.mkService
    (agents.mkStore (λ _, mret None) (λ _ _, mret (Ok example_session)) (λ _, mret None)
       (λ _, mret None))
    (agents.mkAgentRegistry {["codex" := example_adapter]} ∅)
    (Some (λ _ _, mret None)) (time_Now (World:=ticking)).

Lemma Start_sequence_witness :
  ∃ session w', agents.Start example_service "p" "s" (mkClockWorld 5 None)
    = ((session, None), w') ∧ Session_Status session = SessionRunning.
Proof.
  destruct (agents.Start example_service "p" "s" (mkClockWorld 5 None))
    as [[session err] w'] eqn:E.
  assert (err = None) as -> by (vm_compute in E; congruence).
  exists session, w'. split; [done|].
  destruct (agents.Start_sequence _ _ _ _ _ _ E)
    as (s0 & a & t1 & t2 & w1 & w2 & w3 & w4 & w5 & w6 & w7 & _ & _ & _ & _ & _ & _ & -> & _).
  reflexivity.
Defined.
