(* ===== verification/ProjIntel.v ===== *)
(** * Project intelligence

    [src/internal/projectintelligence]: from a project intent to requirements, a
    classification, candidate architectures and a decision.  Every step is a
    pure function of the intent. *)

From S2P Require Import Prelude GoStrings Float.

Module projectintelligence.

(* src: internal/projectintelligence/types.go:5-12 (Priority) *)
Inductive Priority :=
  | PriorityRequired | PriorityHigh | PriorityMedium | PriorityLow
  | PriorityOther (s : string).

(* src: internal/projectintelligence/types.go:14-18 (BudgetPolicy) *)
Record BudgetPolicy := mkBudget {
  MaxMonthlyCost : float64.t;
  PreferLocal : bool;
  OfflineOnly : bool
}.

(* src: internal/projectintelligence/types.go:19-27 (ProjectIntent) *)
Record ProjectIntent := mkIntent {
  Intent_ProjectID : string;
  UserPrompt : string;
  TargetAudience : string;
  Platforms : list string;
  Constraints : list string;
  Preferences : list string;
  Intent_Budget : BudgetPolicy
}.

(* src: internal/projectintelligence/types.go:28-37 (ProjectRequirement) *)
Record ProjectRequirement := mkRequirement {
  Requirement_ID : string;
  Requirement_ProjectID : string;
  Category : string;
  Description : string;
  Requirement_Priority : Priority;
  Requirement_Required : bool;
  Requirement_Source : string;
  Requirement_Confidence : float64.t
}.

(* src: internal/projectintelligence/types.go:38-43 (Classification) *)
Record Classification := mkClassification {
  PrimaryType : string;
  SecondaryTypes : list string;
  Classification_Confidence : float64.t;
  Evidence : list string
}.
#[global] Instance eta_Classification : Eta Classification := λ c,
  mkClassification (PrimaryType c) (SecondaryTypes c) (Classification_Confidence c)
    (Evidence c).

(* src: internal/projectintelligence/types.go:44-54 (TechnologyStack) *)
Record TechnologyStack := mkStack {
  Language : string;
  Framework : string;
  Stack_Runtime : string;
  PackageManager : string;
  BuildSystem : string;
  TestFramework : list string;
  E2EFramework : list string;
  Stack_Database : string;
  Infrastructure : list string
}.

(* src: internal/projectintelligence/types.go:55-67 (ArchitectureCandidate) *)
Record ArchitectureCandidate := mkCandidate {
  Candidate_ID : string;
  Stack : TechnologyStack;
  Advantages : list string;
  Disadvantages : list string;
  Compatibility : float64.t;
  Complexity : float64.t;
  Performance : float64.t;
  Maintainability : float64.t;
  Ecosystem : float64.t;
  Candidate_Confidence : float64.t;
  RejectedReason : string
}.

(* src: internal/projectintelligence/types.go:68-81 (ArchitectureDecision) *)
Record ArchitectureDecision := mkDecision {
  Decision_ID : string;
  Decision_ProjectID : string;
  Decision_Intent : ProjectIntent;
  Decision_Classification : Classification;
  Candidates : list ArchitectureCandidate;
  SelectedID : string;
  Selected : TechnologyStack;
  Decision_Reasons : list string;
  Rejected : gmap string string;
  Override : string;
  Decision_Status : string;
  Decision_CreatedAt : Z
}.
#[global] Instance eta_ArchitectureDecision : Eta ArchitectureDecision := λ d,
  mkDecision (Decision_ID d) (Decision_ProjectID d) (Decision_Intent d)
    (Decision_Classification d) (Candidates d) (SelectedID d) (Selected d)
    (Decision_Reasons d) (Rejected d) (Override d) (Decision_Status d)
    (Decision_CreatedAt d).

(* src: internal/projectintelligence/types.go:82-87 (Analysis) *)
Record Analysis := mkAnalysis {
  Analysis_Intent : ProjectIntent;
  Requirements : list ProjectRequirement;
  Analysis_Classification : Classification;
  Decision_of : ArchitectureDecision
}.

(* src: internal/projectintelligence/engine.go:12-12 (ErrOverrideIncompatible) *)
Definition ErrOverrideIncompatible : goerror :=
  ErrorString "requested technology override is incompatible with project constraints".

Section engine.
Context `{strings.GoUnicode}.

(* src: internal/projectintelligence/engine.go:120-127 (contains) *)
Definition contains (items : list string) (value : string) : bool :=
  existsb (λ item, strings.EqualFold item value) items.
(* src: internal/projectintelligence/engine.go:128-135 (containsAny) *)
Definition containsAny (s : string) (values : list string) : bool :=
  existsb (λ v, strings.Contains s (strings.ToLower v)) values.

(* src: internal/projectintelligence/engine.go:32-34 (extractRequirements) *)
Definition add_requirement (i : ProjectIntent) (cat desc : string) (p : Priority) (req : bool)
    (source : string) (confidence : float64.t) (out : list ProjectRequirement)
    : list ProjectRequirement :=
  out ++ [mkRequirement ("req_" +:+ pretty (Z.of_nat (length out) + 1)) (Intent_ProjectID i)
            cat desc p req source confidence].

(* src: internal/projectintelligence/engine.go:30-52 (extractRequirements) *)
Definition extractRequirements (i : ProjectIntent) : list ProjectRequirement :=
  let add (b : bool) cat desc p req source c out :=
    if b then add_requirement i cat desc p req source c out else out in
  let prompt := strings.ToLower (UserPrompt i) in
  let out := add true "functional" (UserPrompt i) PriorityRequired true "user_prompt"
    (float64.lit 98 100) [] in
  let out := add (strings.Contains prompt "game") "media"
    "Interactive media and game loop are required" PriorityHigh true "keyword:game"
    (float64.lit 9 10) out in
  let out := add (strings.Contains prompt "mobile" || contains (Platforms i) "mobile")
    "platform" "Mobile platform support is required" PriorityRequired true "platform"
    (float64.lit 96 100) out in
  let out := add (strings.Contains prompt "offline" || contains (Constraints i) "offline")
    "offline" "The project must work without network access" PriorityHigh true "constraint"
    (float64.lit 94 100) out in
  let out := add (strings.Contains prompt "children" ||
                  strings.Contains (strings.ToLower (TargetAudience i)) "child")
    "accessibility" "Child-friendly accessible interaction is required" PriorityHigh true
    "audience" (float64.lit 9 10) out in
  let out := add true "testing" "Automated unit and end-to-end verification is required"
    PriorityHigh true "platform_defaults" (float64.lit 85 100) out in
  add true "deployment" "The project must have a reproducible deployment target"
    PriorityMedium false "platform_defaults" (float64.lit 8 10) out.

(* src: internal/projectintelligence/engine.go:53-76 (classify) *)
Definition classify (i : ProjectIntent) : Classification :=
  let p := strings.ToLower (UserPrompt i) in
  let c := mkClassification "web" [] (float64.lit 62 100) ["default web-compatible project"] in
  let c := if containsAny p ["game"; "educational game"]
    then mkClassification "game" ["educational"; "multimedia"] (float64.lit 91 100)
           ["game keyword"; "interactive/media intent"]
    else c in
  let c := if contains (Platforms i) "mobile" || strings.Contains p "mobile"
    then mkClassification "mobile" (SecondaryTypes c ++ ["cross-platform"])
           (float64.lit 94 100) (Evidence c ++ ["mobile platform requirement"])
    else c in
  let c := if containsAny p ["api"; "backend"; "service"]
    then c <| PrimaryType := "backend" |> <| SecondaryTypes := SecondaryTypes c ++ ["API"] |>
    else c in
  if containsAny p ["AI"; "assistant"; "model"]
  then c <| SecondaryTypes := SecondaryTypes c ++ ["AI application"] |> else c.

Definition hundredth (n : Z) : float64.t := float64.lit n 100.
Definition infra : list string := ["Project Computer"; "Deployment Fabric"].
Definition react : TechnologyStack :=
  mkStack "typescript" "react" "node" "pnpm" "vite" ["vitest"] ["playwright"] "" infra.
Definition mobile : TechnologyStack :=
  mkStack "typescript" "react-native" "node" "pnpm" "expo" ["vitest"] ["playwright"] "" infra.
Definition goapi : TechnologyStack :=
  mkStack "go" "net/http" "go" "go modules" "go build" ["go test"] [] "" infra.

(* src: internal/projectintelligence/engine.go:77-88 (candidatesFor) *)
Definition candidatesFor (c : Classification) : list ArchitectureCandidate :=
  if bool_decide (PrimaryType c = "mobile") || bool_decide (PrimaryType c = "game") then
    [mkCandidate "react-native-expo" mobile
       ["cross-platform"; "fast iteration"; "existing agent compatibility"]
       ["native SDK setup required"] (hundredth 94) (hundredth 62) (hundredth 82)
       (hundredth 84) (float64.lit 9 10) (hundredth 91) "";
     mkCandidate "react-web" react ["mature web tooling"; "simple preview"]
       ["not native mobile"] (hundredth 71) (hundredth 38) (float64.lit 8 10) (hundredth 88)
       (hundredth 93) (hundredth 75) ""]
  else if bool_decide (PrimaryType c = "backend") then
    [mkCandidate "go-api" goapi ["small runtime"; "strong server tooling"]
       ["less UI support"] (hundredth 92) (hundredth 55) (hundredth 93) (float64.lit 9 10)
       (hundredth 78) (hundredth 89) "";
     mkCandidate "react-api" react ["shared TypeScript ecosystem"]
       ["larger runtime surface"] (hundredth 72) (hundredth 64) (float64.lit 7 10)
       (float64.lit 8 10) (float64.lit 9 10) (hundredth 76) ""]
  else
    [mkCandidate "react-web" react ["existing web support"; "fast preview"] ["browser-only"]
       (float64.lit 9 10) (float64.lit 4 10) (float64.lit 8 10) (hundredth 88) (hundredth 93)
       (hundredth 88) ""].

(* src: internal/projectintelligence/engine.go:106-106 (selectArchitecture) *)
Definition score_of (c : ArchitectureCandidate) : float64.t :=
  float64.add (float64.add (float64.add (float64.add (float64.add
    (float64.mul (Compatibility c) (float64.lit 30 100))
    (float64.mul (float64.sub (float64.of_Z 1) (Complexity c)) (float64.lit 15 100)))
    (float64.mul (Performance c) (float64.lit 2 10)))
    (float64.mul (Maintainability c) (float64.lit 15 100)))
    (float64.mul (Ecosystem c) (float64.lit 1 10)))
    (float64.mul (Candidate_Confidence c) (float64.lit 1 10)).

(* src: internal/projectintelligence/engine.go:93-93 (selectArchitecture) *)
Definition matches_override (override : string) (c : ArchitectureCandidate) : bool :=
  strings.Contains (strings.ToLower (Framework (Stack c))) (strings.ToLower override) ||
  strings.Contains (strings.ToLower (Language (Stack c))) (strings.ToLower override) ||
  strings.EqualFold (Candidate_ID c) override.

(** One candidate of the loop: [best] is the best score so far. *)
(* src: internal/projectintelligence/engine.go:105-116 (selectArchitecture) *)
Definition consider (acc : float64.t * ArchitectureDecision) (c : ArchitectureCandidate)
    : float64.t * ArchitectureDecision :=
  let '(best, d) := acc in
  let score := score_of c in
  let '(best, d) :=
    if float64.gtb score best then
      (score, d <| SelectedID := Candidate_ID c |> <| Selected := Stack c |>
                <| Decision_Reasons := ["highest deterministic compatibility score";
                     "fit to classified project type";
                     "existing runtime and agent compatibility"] |>)
    else (best, d) in
  (best, if decide (Candidate_ID c = SelectedID d) then d
         else d <| Rejected := <[Candidate_ID c := "lower deterministic score"]> (Rejected d) |>).

Definition zero_Stack : TechnologyStack := mkStack "" "" "" "" "" [] [] "" [].

(* src: internal/projectintelligence/engine.go:89-119 (selectArchitecture) *)
Definition selectArchitecture (i : ProjectIntent) (c : Classification)
    (candidates : list ArchitectureCandidate) (override : string) (now : Z)
    : result ArchitectureDecision :=
  let d := mkDecision ("adr_" +:+ pretty (UnixNano now)) (Intent_ProjectID i) i c candidates
    "" zero_Stack [] ∅ "" "PROPOSED" now in
  if decide (override = "") then
    Ok ((foldl consider (float64.of_Z (-1), d) candidates).2 <| Decision_Status := "PROPOSED" |>)
  else
    match head (filter (λ c, matches_override override c = true) candidates) with
    | Some candidate =>
        Ok (d <| SelectedID := Candidate_ID candidate |> <| Selected := Stack candidate |>
              <| Override := override |> <| Decision_Status := "OVERRIDE_ACCEPTED" |>
              <| Decision_Reasons := ["explicit user override";
                   "validated against project classification and available candidates"] |>)
    | None => Err (WrapError (error_text ErrOverrideIncompatible +:+ ": " +:+ override)
                     ErrOverrideIncompatible)
    end.

(* src: internal/projectintelligence/engine.go:14-29 (Analyze) *)
Definition Analyze (now : Z) (intent : ProjectIntent) (override : string) : result Analysis :=
  if bool_decide (strings.TrimSpace (Intent_ProjectID intent) = "") ||
     bool_decide (strings.TrimSpace (UserPrompt intent) = "")
  then Err (ErrorString "project_id and user_prompt are required")
  else
    let classification := classify intent in
    let candidates := candidatesFor classification in
    let? decision := selectArchitecture intent classification candidates override now in
    Ok (mkAnalysis intent (extractRequirements intent) classification decision).

(** ** Facts *)

(** The three lists of candidates that exist. *)
Lemma candidatesFor_cases c :
  candidatesFor c ∈ [candidatesFor (mkClassification "mobile" [] float64.zero []);
                     candidatesFor (mkClassification "backend" [] float64.zero []);
                     candidatesFor (mkClassification "web" [] float64.zero [])].
Proof.
  unfold candidatesFor at 1. destruct (bool_decide _ || bool_decide _); [by left|].
  destruct (bool_decide _); [right; by left|right; right; by left].
Qed.

(** A list whose first candidate has the best score: it is selected, and the
    others are recorded as rejected. *)
Lemma consider_first d first rest :
  float64.gtb (score_of first) (float64.of_Z (-1)) = true →
  Forall (λ r, float64.gtb (score_of r) (score_of first) = false ∧
               Candidate_ID r ≠ Candidate_ID first) rest →
  let d' := (foldl consider (float64.of_Z (-1), d) (first :: rest)).2 in
  SelectedID d' = Candidate_ID first ∧ Selected d' = Stack first ∧
  dom (Rejected d') = list_to_set (Candidate_ID <$> rest) ∪ dom (Rejected d) ∧
  Decision_ProjectID d' = Decision_ProjectID d ∧ Decision_ID d' = Decision_ID d.
Proof.
  intros Hf Hr. cbn [foldl].
  set (d1 := d <| SelectedID := Candidate_ID first |> <| Selected := Stack first |>
    <| Decision_Reasons := ["highest deterministic compatibility score";
         "fit to classified project type"; "existing runtime and agent compatibility"] |>).
  assert (consider (float64.of_Z (-1), d) first = (score_of first, d1)) as ->.
  { unfold consider. rewrite Hf. by rewrite decide_True. }
  assert (SelectedID d1 = Candidate_ID first ∧ Selected d1 = Stack first ∧
    Rejected d1 = Rejected d ∧ Decision_ProjectID d1 = Decision_ProjectID d ∧
    Decision_ID d1 = Decision_ID d) as (H1 & H2 & H3 & H4 & H5) by done.
  clearbody d1. rewrite <-H3, <-H4, <-H5. clear H3 H4 H5. revert d1 H1 H2.
  induction Hr as [|r rest [Hs Hid] Hr IH]; intros d1 H1 H2.
  { cbn [foldl snd]. split_and!; [done|done| |done|done].
    symmetry. apply (left_id_L ∅ (∪)). }
  cbn [foldl].
  set (d2 := d1 <| Rejected := <[Candidate_ID r := "lower deterministic score"]>
    (Rejected d1) |>).
  assert (consider (score_of first, d1) r = (score_of first, d2)) as ->.
  { unfold consider. rewrite Hs, H1. by rewrite decide_False. }
  destruct (IH d2) as (-> & -> & -> & -> & ->); [done|done|].
  split_and!; [done|done| |done|done]. subst d2. simpl. rewrite dom_insert_L. set_solver.
Qed.

Lemma best_first c :
  ∃ first rest, candidatesFor c = first :: rest ∧ Framework (Stack first) ≠ "" ∧
    float64.gtb (score_of first) (float64.of_Z (-1)) = true ∧
    Forall (λ r, float64.gtb (score_of r) (score_of first) = false ∧
                 Candidate_ID r ≠ Candidate_ID first) rest.
Proof.
  pose proof (candidatesFor_cases c) as Hc.
  repeat (apply elem_of_cons in Hc as [->|Hc]); [..|by apply elem_of_nil in Hc];
    do 2 eexists; (split; [reflexivity|]); (split; [done|]);
    (split; [vm_compute; reflexivity|]);
    repeat (apply Forall_cons; split; [split; [vm_compute; reflexivity|done]|]);
    by apply Forall_nil.
Qed.

(** ** Properties *)

(** For every intent with a project and a prompt the engine reaches a
    decision, and without an override it is the candidate with the best score:
    every other candidate of the classification has a score that is not higher
    and is recorded as rejected.  A decision made by an override selects a
    candidate the override matches, and an override no candidate matches is
    refused. *)
Theorem Analyze_decides now intent override :
  strings.TrimSpace (Intent_ProjectID intent) ≠ "" →
  strings.TrimSpace (UserPrompt intent) ≠ "" →
  let cands := candidatesFor (classify intent) in
  (override = "" →
     ∃ a first rest, Analyze now intent override = Ok a ∧ cands = first :: rest ∧
       SelectedID (Decision_of a) = Candidate_ID first ∧
       Selected (Decision_of a) = Stack first ∧
       dom (Rejected (Decision_of a)) = list_to_set (Candidate_ID <$> rest) ∧
       Forall (λ r, float64.gtb (score_of r) (score_of first) = false) rest) ∧
  (override ≠ "" →
     (∃ a c, Analyze now intent override = Ok a ∧ c ∈ cands ∧
        matches_override override c = true ∧ Selected (Decision_of a) = Stack c ∧
        Override (Decision_of a) = override) ∨
     (∃ e, Analyze now intent override = Err e ∧ errors_is e ErrOverrideIncompatible = true ∧
        Forall (λ c, matches_override override c = false) cands)).
Proof.
  intros Hp Hu cands. unfold Analyze. rewrite !bool_decide_false by done. simpl.
  fold cands. split.
  - intros ->. destruct (best_first (classify intent)) as (first & rest & Hc & _ & Hf & Hr).
    fold cands in Hc. rewrite Hc. unfold selectArchitecture. rewrite decide_True by done.
    set (d := mkDecision _ _ _ _ _ _ _ _ _ _ _ _).
    eexists _, first, rest. split; [reflexivity|]. split; [done|]. cbn [Decision_of].
    destruct (consider_first d first rest Hf Hr) as (H1 & H2 & H3 & _).
    split_and!; [exact H1|exact H2| |].
    + etrans; [exact H3|]. change (Rejected d) with (∅ : gmap string string).
      by rewrite dom_empty_L, (right_id_L ∅ (∪)).
    + eapply Forall_impl; [exact Hr|]. naive_solver.
  - intros Ho. unfold selectArchitecture. rewrite decide_False by done.
    pose proof (λ c, list_elem_of_filter (λ c, matches_override override c = true) cands c) as Hf.
    destruct (filter _ _) as [|c l]; simpl.
    + right. eexists. split; [done|]. split; [apply orb_true_r|].
      apply Forall_forall. intros c Hc. destruct (matches_override override c) eqn:E; [|done].
      exfalso. by apply (elem_of_nil c), Hf.
    + left. eexists _, c. split; [done|]. simpl.
      destruct (proj1 (Hf c) ltac:(by left)) as [Hm Hin]. done.
Qed.
End engine.
End projectintelligence.

(** ** Witness *)

Definition example_intent : projectintelligence.ProjectIntent :=
  projectintelligence.mkIntent "p" "A mobile game" "children" [] [] []
    (projectintelligence.mkBudget float64.zero false false).

Lemma Analyze_decides_witness :
  ∃ a, projectintelligence.Analyze (H:=strings.ascii_unicode) 7 example_intent "" = Ok a ∧
    projectintelligence.SelectedID (projectintelligence.Decision_of a) = "react-native-expo".
Proof.
  destruct (proj1 (projectintelligence.Analyze_decides (H:=strings.ascii_unicode) 7
    example_intent "" ltac:(vm_compute; discriminate) ltac:(vm_compute; discriminate)) eq_refl)
    as (a & first & rest & Ha & Hc & Hs & _).
  exists a. split; [exact Ha|]. rewrite Hs. vm_compute in Hc. injection Hc as <- _.
  reflexivity.
Defined.
