(* ===== verification/Environment.v ===== *)
(** * Environments

    [src/internal/environment]: the manifest made of an architecture decision,
    its fingerprint, drift between fingerprints, the resource plan and the
    verification of a running environment. *)

From S2P Require Import Prelude GoStrings World Runtime Float ProjIntel.

Module environment.

(* src: internal/environment/types.go:5-12 (Profile) *)
Inductive Profile := Minimal | Standard | Full | Custom | ProfileOther (s : string).
#[global] Instance Profile_eq_dec : EqDecision Profile.
Proof. solve_decision. Defined.

(* src: internal/environment/types.go:14-21 (Requirement) *)
Record Requirement := mkRequirement {
  Requirement_Name : string;
  Requirement_Version : string;
  Requirement_Required : bool;
  Requirement_Source : string
}.
(* src: internal/environment/types.go:22-28 (BrowserRequirement) *)
Record BrowserRequirement := mkBrowser {
  Browser_Name : string;
  Engine : string;
  Automation : string;
  Browser_Version : string;
  Browser_Required : bool
}.
(* src: internal/environment/types.go:29-33 (AgentRequirement) *)
Record AgentRequirement := mkAgent {
  AgentID : string;
  Agent_Version : string;
  Agent_Required : bool
}.
(* src: internal/environment/types.go:34-39 (EnvironmentVariable) *)
Record EnvironmentVariable := mkVariable {
  Variable_Name : string;
  Variable_Value : string;
  SecretRef : string;
  Variable_Required : bool
}.
(* src: internal/environment/types.go:40-45 (PortRequirement) *)
Record PortRequirement := mkPort {
  Port_Name : string;
  Port : Z;
  Protocol : string;
  Port_Required : bool
}.
(* src: internal/environment/types.go:46-52 (ResourceRequirement) *)
Record ResourceRequirement := mkResource {
  CPU : Z;
  MemoryBytes : Z;
  DiskBytes : Z;
  GPU : bool;
  GPUMemoryBytes : Z
}.
(* src: internal/environment/types.go:53-76 (Manifest) *)
Record Manifest := mkManifest {
  Manifest_ID : string;
  Manifest_ProjectID : string;
  Manifest_Version : string;
  BaseImage : string;
  Manifest_OS : string;
  Architecture : string;
  Manifest_Profile : Profile;
  Languages : list Requirement;
  PackageManagers : list Requirement;
  Frameworks : list Requirement;
  BuildTools : list Requirement;
  TestTools : list Requirement;
  Browsers : list BrowserRequirement;
  AgentCLIs : list AgentRequirement;
  SDKs : list Requirement;
  SystemPackages : list Requirement;
  EnvironmentVars : list EnvironmentVariable;
  Ports : list PortRequirement;
  Resources : ResourceRequirement;
  DecisionID : string;
  Manifest_Fingerprint : string;
  Manifest_CreatedAt : Z
}.
#[global] Instance eta_Manifest : Eta Manifest := λ m,
  mkManifest (Manifest_ID m) (Manifest_ProjectID m) (Manifest_Version m) (BaseImage m)
    (Manifest_OS m) (Architecture m) (Manifest_Profile m) (Languages m) (PackageManagers m)
    (Frameworks m) (BuildTools m) (TestTools m) (Browsers m) (AgentCLIs m) (SDKs m)
    (SystemPackages m) (EnvironmentVars m) (Ports m) (Resources m) (DecisionID m)
    (Manifest_Fingerprint m) (Manifest_CreatedAt m).

(* src: internal/environment/types.go:77-88 (Fingerprint) *)
Record Fingerprint := mkFingerprint {
  Value : string;
  Fingerprint_OS : string;
  Image : string;
  Fingerprint_Languages : gmap string string;
  Fingerprint_Frameworks : gmap string string;
  Tools : gmap string string;
  Agents : gmap string string;
  Browser : string;
  Fingerprint_Packages : list string;
  Fingerprint_CreatedAt : Z
}.

(* src: internal/environment/types.go:89-95 (PlanDecision) *)
Inductive PlanDecision := Approved | Degraded | Rejected | PlanDecisionOther (s : string).
#[global] Instance PlanDecision_eq_dec : EqDecision PlanDecision.
Proof. solve_decision. Defined.
(* src: internal/environment/types.go:97-102 (ResourcePlan) *)
Record ResourcePlan := mkResourcePlan {
  Plan_Decision : PlanDecision;
  Plan_Reasons : list string;
  Plan_Available : ResourceRequirement;
  Plan_Required : ResourceRequirement
}.

(* src: internal/environment/types.go:103-110 (VerificationStatus) *)
Inductive VerificationStatus :=
  | VerificationReady | VerificationDegraded | VerificationFailed | VerificationBlocked
  | VerificationStatusOther (s : string).
#[global] Instance VerificationStatus_eq_dec : EqDecision VerificationStatus.
Proof. solve_decision. Defined.
(* src: internal/environment/types.go:112-118 (VerificationCheck) *)
Record VerificationCheck := mkVCheck {
  VCheck_Name : string;
  VCheck_Required : bool;
  VCheck_Status : string;
  VCheck_Evidence : string;
  VCheck_Reason : string
}.
(* src: internal/environment/types.go:119-124 (VerificationResult) *)
Record VerificationResult := mkVResult {
  VResult_Status : VerificationStatus;
  VResult_Checks : list VerificationCheck;
  VResult_Fingerprint : Fingerprint;
  VResult_RuntimeID : string
}.

(** ** The manifest *)

(* src: internal/environment/manifest.go:97-111 (baseImage) *)
Definition baseImage (s : projectintelligence.TechnologyStack) (p : Profile) : string :=
  if decide (projectintelligence.Framework s = "react-native") then "suda/mobile-node"
  else if decide (projectintelligence.Stack_Runtime s = "go") then "suda-go"
  else if strings.Contains (projectintelligence.Stack_Runtime s) "python" then "suda-python"
  else if decide (p = Full) then "suda-base"
  else "suda/node".

(* src: internal/environment/manifest.go:112-123 (runtimeVersion) *)
Definition runtimeVersion (runtime : string) : string :=
  if decide (runtime = "node") then "22"
  else if decide (runtime = "go") then "1.23"
  else if decide (runtime = "python") then "3.12"
  else "managed".

(* src: internal/environment/manifest.go:124-133 (profileResources) *)
Definition profileResources (p : Profile) : ResourceRequirement :=
  match p with
  | Minimal => mkResource 1 1073741824 10737418240 false 0
  | Full => mkResource 4 8589934592 32212254720 false 0
  | _ => mkResource 2 4294967296 21474836480 false 0
  end.

(** The part of a manifest its fingerprint covers. *)
(* src: internal/environment/manifest.go:47-62 (FingerprintFor) *)
Record FingerprintInput := mkInput {
  Input_Version : string;
  Input_BaseImage : string;
  Input_OS : string;
  Input_Architecture : string;
  Input_Languages : list Requirement;
  Input_PackageManagers : list Requirement;
  Input_Frameworks : list Requirement;
  Input_BuildTools : list Requirement;
  Input_TestTools : list Requirement;
  Input_SDKs : list Requirement;
  Input_SystemPackages : list Requirement;
  Input_EnvironmentVars : list EnvironmentVariable;
  Input_Ports : list PortRequirement;
  Input_Browsers : list BrowserRequirement;
  Input_Agents : list AgentRequirement;
  Input_Resources : ResourceRequirement;
  Input_Profile : Profile
}.

(** [hex.EncodeToString] of the SHA-256 sum of the JSON text of the input. *)
Class Digest := digest : FingerprintInput → string.

Definition requirement (name version source : string) : Requirement :=
  mkRequirement name version true source.
Definition if_named (name : string) : list Requirement :=
  if decide (name = "") then [] else [requirement name "latest-compatible" "architecture"].

Section manifest.
Context `{Digest}.

(* src: internal/environment/manifest.go:46-65 (FingerprintFor) *)
Definition FingerprintFor (m : Manifest) : string :=
  "sha256:" +:+ digest (mkInput (Manifest_Version m) (BaseImage m) (Manifest_OS m)
    (Architecture m) (Languages m) (PackageManagers m) (Frameworks m) (BuildTools m)
    (TestTools m) (SDKs m) (SystemPackages m) (EnvironmentVars m) (Ports m) (Browsers m)
    (AgentCLIs m) (Resources m) (Manifest_Profile m)).

(* src: internal/environment/manifest.go:15-45 (FromDecision) *)
Definition FromDecision (decision : projectintelligence.ArchitectureDecision)
    (profile : Profile) (now : Z) : result Manifest :=
  let stack := projectintelligence.Selected decision in
  let pid := projectintelligence.Decision_ProjectID decision in
  if bool_decide (pid = "") || bool_decide (projectintelligence.Framework stack = "")
  then Err (ErrorString "architecture decision is incomplete")
  else
    let profile := if decide (profile = ProfileOther "") then Standard else profile in
    let runtime := projectintelligence.Stack_Runtime stack in
    let m := mkManifest ("manifest_" +:+ pid +:+ "_" +:+ pretty (UnixNano now)) pid "1"
      (baseImage stack profile) "ubuntu" "amd64" profile
      [requirement runtime (runtimeVersion runtime) "architecture"]
      (if_named (projectintelligence.PackageManager stack))
      (if_named (projectintelligence.Framework stack))
      (if_named (projectintelligence.BuildSystem stack))
      ((λ tool, requirement tool "latest-compatible" "architecture") <$>
         projectintelligence.TestFramework stack)
      ((λ tool, mkBrowser "chromium" "chromium" tool "latest-compatible" false) <$>
         projectintelligence.E2EFramework stack)
      [mkAgent "codex" "" true; mkAgent "claude_code" "" false; mkAgent "kimi" "" false]
      [] [] [] [mkPort "app" 3000 "tcp" true] (profileResources profile)
      (projectintelligence.Decision_ID decision) "" now in
    Ok (m <| Manifest_Fingerprint := FingerprintFor m |>).

(** A map filled in the order of the list, a later entry replacing an earlier. *)
Definition fill {A} (key value : A → string) (l : list A) (m : gmap string string)
    : gmap string string :=
  foldl (λ m v, <[key v := value v]> m) m l.

(* src: internal/environment/manifest.go:66-96 (BuildFingerprint) *)
Definition BuildFingerprint (m : Manifest) (now : Z) : Fingerprint :=
  let req := fill Requirement_Name Requirement_Version in
  mkFingerprint (FingerprintFor m) (Manifest_OS m) (BaseImage m)
    (req (Languages m) ∅) (req (Frameworks m) ∅)
    (req (SDKs m) (req (TestTools m) (req (BuildTools m) (req (PackageManagers m) ∅))))
    (fill AgentID Agent_Version (AgentCLIs m) ∅)
    (match Browsers m with
     | [] => ""
     | b :: _ => Browser_Name b +:+ "@" +:+ Browser_Version b
     end)
    ((λ v, Requirement_Name v +:+ "@" +:+ Requirement_Version v) <$> SystemPackages m) now.
End manifest.

(** ** Drift *)

(* src: internal/environment/drift.go:5-11 (DriftStatus) *)
Inductive DriftStatus :=
  | EnvironmentUnchanged | EnvironmentDrift | EnvironmentUnknown
  | DriftStatusOther (s : string).
(* src: internal/environment/drift.go:13-18 (DriftResult) *)
Record DriftResult := mkDrift {
  Drift_Status : DriftStatus;
  Drift_Reasons : list string;
  Expected : Fingerprint;
  Actual : Fingerprint
}.

Section drift.
Context `{MapOrder}.

(** The loop over one map of expected versions. *)
(* src: internal/environment/drift.go:31-35 (Compare) *)
Definition changed (n : nat) (kind : string) (expected actual : gmap string string)
    : list string :=
  omap (λ '(name, want),
    let got := default "" (actual !! name) in
    if decide (got = want) then None
    else Some (kind +:+ " " +:+ name +:+ " expected " +:+ want +:+ " got " +:+ got))
    (map_range n expected).

(* src: internal/environment/drift.go:20-53 (Compare) *)
Definition Compare (expected actual : Fingerprint) : DriftResult :=
  let differs (a b reason : string) := if decide (a = b) then [] else [reason] in
  let reasons :=
    differs (Fingerprint_OS expected) (Fingerprint_OS actual) "operating system changed" ++
    differs (Image expected) (Image actual) "base image changed" ++
    differs (Browser expected) (Browser actual) "browser version changed" ++
    changed 0 "language" (Fingerprint_Languages expected) (Fingerprint_Languages actual) ++
    changed 1 "tool" (Tools expected) (Tools actual) ++
    changed 2 "agent" (Agents expected) (Agents actual) in
  let status := if decide (reasons = []) then EnvironmentUnchanged else EnvironmentDrift in
  let status := if bool_decide (Value expected = "") || bool_decide (Value actual = "")
                then EnvironmentUnknown else status in
  mkDrift status reasons expected actual.

(** Every expected version is the actual one. *)
Definition agrees (expected actual : gmap string string) : Prop :=
  ∀ name want, expected !! name = Some want → default "" (actual !! name) = want.

Lemma changed_nil n kind expected actual :
  changed n kind expected actual = [] ↔ agrees expected actual.
Proof.
  unfold changed, agrees. setoid_rewrite <-(elem_of_map_range n).
  induction (map_range n expected) as [|[name want] l IH].
  { split; [|done]. by intros _ ? ? ?%elem_of_nil. }
  cbn [omap list_omap]. case_decide as Hd.
  - rewrite IH. setoid_rewrite elem_of_cons. naive_solver.
  - split; [done|]. intros Ha. exfalso. apply Hd, Ha. by left.
Qed.

(** Drift detection.  Two fingerprints compare as unchanged exactly when
    both have a value, operating system, base image and browser are the same and
    every expected language, tool and agent has the expected version.  The
    frameworks, the system packages and anything the expected environment does
    not list play no part, and the order of the maps does not matter. *)
Theorem Compare_unchanged_iff expected actual :
  Drift_Status (Compare expected actual) = EnvironmentUnchanged ↔
  Value expected ≠ "" ∧ Value actual ≠ "" ∧
  Fingerprint_OS expected = Fingerprint_OS actual ∧ Image expected = Image actual ∧
  Browser expected = Browser actual ∧
  agrees (Fingerprint_Languages expected) (Fingerprint_Languages actual) ∧
  agrees (Tools expected) (Tools actual) ∧ agrees (Agents expected) (Agents actual).
Proof.
  unfold Compare. simpl.
  rewrite <-(changed_nil 0 "language"), <-(changed_nil 1 "tool"), <-(changed_nil 2 "agent").
  destruct (bool_decide (Value expected = "")) eqn:H1; simpl;
    [apply bool_decide_eq_true in H1; naive_solver|apply bool_decide_eq_false in H1].
  destruct (bool_decide (Value actual = "")) eqn:H2; simpl;
    [apply bool_decide_eq_true in H2; naive_solver|apply bool_decide_eq_false in H2].
  assert (∀ a b r : string, (if decide (a = b) then [] else [r]) = [] ↔ a = b) as Hd
    by (intros; case_decide; naive_solver).
  case_decide as Hn; rewrite !app_nil, !Hd in Hn.
  - split; [tauto|done].
  - split; [done|]. intros. exfalso. apply Hn. tauto.
Qed.
End drift.

(* src: internal/environment/drift.go:54-58 (IsVersionCompatible) *)
Definition IsVersionCompatible (expected actual : string) : bool :=
  let expected := strings.TrimSpace expected in
  let actual := strings.TrimSpace actual in
  bool_decide (expected = "") || bool_decide (expected = "latest-compatible") ||
  bool_decide (expected = actual) ||
  (strings.HasSuffix expected ".x" &&
   strings.HasPrefix actual (strings.TrimSuffix expected ".x")).

(** The wildcard is compared as a text prefix: any 20 counts as a 2.x. *)
Lemma IsVersionCompatible_prefix : IsVersionCompatible "2.x" "20.11.0" = true.
Proof. vm_compute. reflexivity. Qed.

(** ** Resources *)

Definition mul64 (a b : Z) : Z := wrap64 (a * b).

(* src: internal/environment/planner.go:9-24 (PlanResources) *)
Definition PlanResources (required available : ResourceRequirement) : ResourcePlan :=
  if (CPU available <? CPU required) || (MemoryBytes available <? MemoryBytes required) ||
     (DiskBytes available <? DiskBytes required) || (GPU required && negb (GPU available)) ||
     (GPUMemoryBytes available <? GPUMemoryBytes required)
  then mkResourcePlan Rejected ["required resources exceed available capacity"] available
         required
  else if (CPU required =? CPU available) ||
          (mul64 (MemoryBytes available) 8 `quot` 10 <? MemoryBytes required) ||
          (mul64 (DiskBytes available) 8 `quot` 10 <? DiskBytes required)
  then mkResourcePlan Degraded ["capacity is available but operating headroom is limited"]
         available required
  else mkResourcePlan Approved
         ["capacity satisfies " +:+ pretty (CPU required) +:+ " CPU and " +:+
          pretty (MemoryBytes required) +:+ " bytes memory"] available required.

(** A plan is rejected exactly when a resource does not suffice. *)
Lemma PlanResources_rejected required available :
  Plan_Decision (PlanResources required available) = Rejected ↔
  CPU available < CPU required ∨ MemoryBytes available < MemoryBytes required ∨
  DiskBytes available < DiskBytes required ∨ (GPU required = true ∧ GPU available = false) ∨
  GPUMemoryBytes available < GPUMemoryBytes required.
Proof.
  unfold PlanResources. rewrite <-!Z.ltb_lt, <-negb_true_iff, <-andb_true_iff.
  destruct (_ <? CPU required), (_ <? MemoryBytes required), (_ <? DiskBytes required),
    (GPU required && _), (_ <? GPUMemoryBytes required); simpl; try tauto.
  case_match; naive_solver.
Qed.

(** ** Verification of a running environment *)

(* src: internal/environment/verifier.go:64-71 (safeName) *)
Definition safeName (v : string) : string :=
  if bool_decide (v ∈ ["node"; "go"; "python"; "python3"; "pnpm"; "npm"; "yarn"; "git"])
  then v else "sh".

(* src: internal/environment/verifier.go:72-79 (agentBinary) *)
Definition agentBinary (v : string) : string :=
  if decide (v = "claude_code") then "claude" else v.

(* src: internal/environment/verifier.go:40-54 (Verify) *)
Definition probes (m : Manifest) : list (string * bool * string) :=
  [("runtime", true, "printf runtime-ready"); ("filesystem", true, "test -d /workspace");
   ("git", true, "git --version")] ++
  ((λ r, ("language:" +:+ Requirement_Name r, Requirement_Required r,
          "command -v " +:+ safeName (Requirement_Name r))) <$> Languages m) ++
  ((λ r, ("package-manager:" +:+ Requirement_Name r, Requirement_Required r,
          "command -v " +:+ safeName (Requirement_Name r))) <$> PackageManagers m) ++
  ((λ a, ("agent:" +:+ AgentID a, Agent_Required a,
          "command -v " +:+ agentBinary (AgentID a))) <$> AgentCLIs m) ++
  ((λ b, ("browser:" +:+ Browser_Name b, Browser_Required b,
          "command -v chromium || command -v chromium-browser")) <$> Browsers m).

Definition shell (line : string) : runtime.Command :=
  runtime.mkCommand ["sh"; "-lc"; line] "/workspace" [] false 30.

Section verify.
Context {W : Type} `{Digest}.

(** The executor of the runtime: only [Exec] of a provider. *)
Definition RuntimeExecutor := string → runtime.Command → M W (runtime.ExecResult * option goerror).

(* src: internal/environment/verifier.go:23-39 (Verify) *)
Definition check (exec : RuntimeExecutor) (runtimeID : string) (probe : string * bool * string)
    (status : VerificationStatus) : M W (VerificationStatus * VerificationCheck) :=
  let '(name, required, line) := probe in
  let! (out, err) := exec runtimeID (shell line) in
  let failed := match err with
                | Some _ => true
                | None => negb (bool_decide (runtime.ExitCode out = 0))
                end in
  let reason := if failed
                then match err with Some e => error_text e | None => runtime.Stderr out end
                else strings.TrimSpace (runtime.Stdout out) in
  mret (if failed && required then VerificationFailed else status,
        mkVCheck name required (if failed then "FAILED" else "PASSED") reason "").

Fixpoint check_all (exec : RuntimeExecutor) (runtimeID : string)
    (ps : list (string * bool * string)) (status : VerificationStatus)
    : M W (VerificationStatus * list VerificationCheck) :=
  match ps with
  | [] => mret (status, [])
  | p :: ps =>
      let! (status, c) := check exec runtimeID p status in
      let! (status, cs) := check_all exec runtimeID ps status in
      mret (status, c :: cs)
  end.

(* src: internal/environment/verifier.go:16-63 (Verify) *)
Definition Verify (exec : option RuntimeExecutor) (runtimeID : string) (manifest : Manifest)
    (now : Z) : M W VerificationResult :=
  let fingerprint := BuildFingerprint manifest now in
  let blocked := mkVResult VerificationBlocked
    [mkVCheck "runtime" true "BLOCKED_BY_ENVIRONMENT" "" "runtime executor unavailable"]
    fingerprint runtimeID in
  match exec with
  | None => mret blocked
  | Some exec =>
      if decide (runtimeID = "") then mret blocked
      else
        let! (status, checks) := check_all exec runtimeID (probes manifest) VerificationReady in
        let status :=
          if decide (status = VerificationReady) then
            if existsb (λ c, bool_decide (VCheck_Status c = "FAILED") &&
                             negb (VCheck_Required c)) checks
            then VerificationDegraded else VerificationReady
          else status in
        mret (mkVResult status checks fingerprint runtimeID)
  end.

Lemma check_all_spec exec rid ps status w st cs w' :
  check_all exec rid ps status w = ((st, cs), w') →
  (λ c, (VCheck_Name c, VCheck_Required c)) <$> cs = fst <$> ps ∧
  Forall (λ c, VCheck_Status c = "PASSED" ∨ VCheck_Status c = "FAILED") cs ∧
  st = if existsb (λ c, bool_decide (VCheck_Status c = "FAILED") && VCheck_Required c) cs
       then VerificationFailed else status.
Proof.
  revert status w st cs w'.
  induction ps as [|[[name required] line] ps IH]; intros status w st cs w'; cbn [check_all].
  { intros [[= -> <-] _]%mret_inv. by repeat constructor. }
  intros ([s1 c] & w1 & Hc & Hr)%mthen_inv. apply mthen_inv in Hr as ([s2 cs'] & w2 & Hr & Hend).
  apply mret_inv in Hend as [[= -> <-] _].
  apply mthen_inv in Hc as ([out err] & w0 & _ & Hc). apply mret_inv in Hc as [[= <- <-] _].
  apply IH in Hr as (Hn & Hf & ->).
  split; [by rewrite !fmap_cons, Hn|].
  set (failed := match err with Some _ => true | None => _ end).
  split; [constructor; [|done]; simpl; destruct failed; auto|].
  destruct failed, required; simpl; [by destruct (existsb _ _)|done..].
Qed.

(** The verdict on an environment.  A verification that could run has one
    check for each probe of the manifest, in order, each passed or failed; it is
    FAILED exactly when a required check failed, DEGRADED when only optional
    checks failed and READY when all passed. *)
Theorem Verify_verdict exec runtimeID manifest now w r w' :
  runtimeID ≠ "" → Verify (Some exec) runtimeID manifest now w = (r, w') →
  (λ c, (VCheck_Name c, VCheck_Required c)) <$> VResult_Checks r = fst <$> probes manifest ∧
  Forall (λ c, VCheck_Status c = "PASSED" ∨ VCheck_Status c = "FAILED") (VResult_Checks r) ∧
  let failed b := ∃ c, c ∈ VResult_Checks r ∧ VCheck_Status c = "FAILED" ∧ VCheck_Required c = b in
  (VResult_Status r = VerificationFailed ↔ failed true) ∧
  (VResult_Status r = VerificationDegraded ↔ ¬ failed true ∧ failed false) ∧
  (VResult_Status r = VerificationReady ↔
     Forall (λ c, VCheck_Status c = "PASSED") (VResult_Checks r)).
Proof.
  intros Hid. unfold Verify. rewrite decide_False by done.
  intros ([st cs] & w1 & Hc & [<- _]%mret_inv)%mthen_inv.
  apply check_all_spec in Hc as (Hn & Hf & ->). simpl. split; [done|]. split; [done|].
  assert (∀ b, existsb (λ c, bool_decide (VCheck_Status c = "FAILED") &&
     (if b : bool then VCheck_Required c else negb (VCheck_Required c))) cs = true ↔
    ∃ c, c ∈ cs ∧ VCheck_Status c = "FAILED" ∧ VCheck_Required c = b) as Hex.
  { intros b. rewrite existsb_exists. setoid_rewrite andb_true_iff.
    setoid_rewrite bool_decide_eq_true. setoid_rewrite <-list_elem_of_In.
    destruct b; [done|]. by setoid_rewrite negb_true_iff. }
  assert (Forall (λ c, VCheck_Status c = "PASSED") cs ↔
    ¬ (∃ c, c ∈ cs ∧ VCheck_Status c = "FAILED" ∧ VCheck_Required c = true) ∧
    ¬ (∃ c, c ∈ cs ∧ VCheck_Status c = "FAILED" ∧ VCheck_Required c = false)) as Hall.
  { rewrite !Forall_forall in *. split.
    - intros Ha. split; intros (c & Hc & Hs & _); rewrite (Ha c Hc) in Hs; done.
    - intros [H1 H2] c Hc. destruct (Hf c Hc) as [?|Hs]; [done|]. exfalso.
      destruct (VCheck_Required c) eqn:Hr; [apply H1|apply H2]; eauto. }
  pose proof (Hex true) as H1. pose proof (Hex false) as H2. simpl in H1, H2.
  rewrite Hall, <-H1, <-H2.
  destruct (existsb (λ c, _ && VCheck_Required c) cs); simpl; [naive_solver|].
  destruct (existsb _ cs); naive_solver.
Qed.

(** A language outside the list of known names is looked for as [sh]. *)
Lemma unknown_language_probe r :
  Requirement_Name r ∉ ["node"; "go"; "python"; "python3"; "pnpm"; "npm"; "yarn"; "git"] →
  "command -v " +:+ safeName (Requirement_Name r) = "command -v sh".
Proof. intros Hn. unfold safeName. by rewrite bool_decide_false. Qed.
End verify.
End environment.

(** ** Witness *)

Definition example_manifest : environment.Manifest :=
  environment.mkManifest "m" "p" "1" "img" "ubuntu" "amd64" environment.Standard
    [environment.requirement "rust" "1" ""] [] [] [] [] [] [] [] [] [] []
    (environment.mkResource 1 1 1 false 0) "" "" 0.

Lemma Verify_verdict_witness :
  ∃ r w', environment.Verify (W:=unit) (H:=λ _, "d")
      (Some (λ _ _, mret (runtime.zero_ExecResult, None))) "rt" example_manifest 0 tt = (r, w') ∧
    environment.VResult_Status r = environment.VerificationReady.
Proof.
  destruct (environment.Verify (W:=unit) (H:=λ _, "d")
    (Some (λ _ _, mret (runtime.zero_ExecResult, None))) "rt" example_manifest 0 tt)
    as [r w'] eqn:E.
  exists r, w'. split; [done|].
  refine (proj2 (proj2 (proj2 (proj2 (proj2 (environment.Verify_verdict (H:=λ _, "d") _ "rt" _ _ _ _ _
    ltac:(discriminate) E))))) _).
  vm_compute in E. injection E as <- _. by repeat constructor.
Defined.
