(* ===== verification/Provisioning.v ===== *)
(** * Provisioning of environments

    [src/internal/provisioning]: the steps of a provisioning run, their graph
    and the manager that executes them in a runtime.  The manager keeps the runs
    in memory and, when it has one, in a store; its state is [mstate]: the map of
    runs, the events published so far and the world outside, which holds the
    store, the runtime and the clock.

    In the source the [Steps] slice of a run is shared between the copy the
    manager keeps and the copy a method works on.  Every change of a step is
    followed by a save of the same run before another call can look, so that a
    method working alone cannot tell the difference; the model copies. *)

From S2P Require Import Prelude GoStrings World Runtime Float Dfs ProjIntel Environment.

Module provisioning.

(* src: internal/provisioning/types.go:14-31 (Status) *)
Inductive Status :=
  | Planned | Allocating | CreatingRuntime | Configuring | InstallingSystem
  | InstallingLanguage | InstallingFramework | InstallingTools | InstallingAgents
  | InstallingBrowser | InstallingProject | Verifying | Ready | Failed
  | CancelRequested | Cancelled | StatusOther (s : string).
#[global] Instance Status_eq_dec : EqDecision Status.
Proof. solve_decision. Defined.

(* src: internal/provisioning/types.go:33-41 (StepStatus) *)
Inductive StepStatus :=
  | StepPending | StepRunning | StepPassed | StepFailed | StepSkipped
  | StepStatusOther (s : string).
#[global] Instance StepStatus_eq_dec : EqDecision StepStatus.
Proof. solve_decision. Defined.

(* src: internal/provisioning/types.go:56-67 (Step) *)
Record Step := mkStep {
  Step_ID : string;
  Step_Name : string;
  Step_Status : StepStatus;
  Dependencies : list string;
  Required : bool;
  Progress : Z;
  Evidence : string;
  Step_Error : string;
  Step_StartedAt : option Z;
  Step_CompletedAt : option Z
}.
#[global] Instance eta_Step : Eta Step := λ s,
  mkStep (Step_ID s) (Step_Name s) (Step_Status s) (Dependencies s) (Required s) (Progress s)
    (Evidence s) (Step_Error s) (Step_StartedAt s) (Step_CompletedAt s).

(* src: internal/provisioning/types.go:43-55 (Run) *)
Record Run := mkRun {
  Run_ID : string;
  Run_ProjectID : string;
  RuntimeID : string;
  Run_Manifest : environment.Manifest;
  Run_Status : Status;
  LastSuccessfulStep : string;
  Steps : list Step;
  Run_Error : string;
  Run_StartedAt : Z;
  Run_CompletedAt : option Z;
  Run_CancelRequested : bool
}.
#[global] Instance eta_Run : Eta Run := λ r,
  mkRun (Run_ID r) (Run_ProjectID r) (RuntimeID r) (Run_Manifest r) (Run_Status r)
    (LastSuccessfulStep r) (Steps r) (Run_Error r) (Run_StartedAt r) (Run_CompletedAt r)
    (Run_CancelRequested r).

Definition zero_Manifest : environment.Manifest :=
  environment.mkManifest "" "" "" "" "" "" (environment.ProfileOther "") [] [] [] [] [] [] [] []
    [] [] [] (environment.mkResource 0 0 0 false 0) "" "" time_zero.
Definition zero_Run : Run :=
  mkRun "" "" "" zero_Manifest (StatusOther "") "" [] "" time_zero None false.

(* src: internal/provisioning/types.go:68-77 (Event) *)
Record Event := mkEvent {
  Event_Type : string;
  Event_ProjectID : string;
  Event_RunID : string;
  StepID : string;
  Event_Status : Status;
  Message : string;
  Event_Progress : Z;
  At : Z
}.

(** ** The graph of steps *)

Definition step (id name : string) (deps : list string) (required : bool) : Step :=
  mkStep id name StepPending deps required 0 "" "" None None.

(* src: internal/provisioning/graph.go:5-18 (DefaultSteps) *)
Definition DefaultSteps : list Step := [
  step "runtime" "Create isolated runtime" [] true;
  step "configure" "Configure isolation and filesystem" ["runtime"] true;
  step "system" "Install system packages" ["configure"] true;
  step "language" "Install language runtime" ["system"] true;
  step "framework" "Install framework" ["language"] true;
  step "tools" "Install package/build/test tools" ["language"] true;
  step "agents" "Install agent CLIs" ["tools"] true;
  step "browser" "Install browser automation" ["tools"] false;
  step "project" "Install project dependencies and initialize Git" ["framework"; "tools"] true;
  step "verify" "Verify environment capabilities" ["project"; "agents"; "browser"] true
].

(* src: internal/provisioning/graph.go:20-29 (ValidateGraph) *)
Fixpoint index_steps (steps : list Step) (byID : gset string) : result (gset string) :=
  match steps with
  | [] => Ok byID
  | s :: steps =>
      if decide (Step_ID s = "") then Err (ErrorString "step id is required")
      else if decide (Step_ID s ∈ byID)
      then Err (ErrorString ("duplicate step " +:+ Step_ID s))
      else index_steps steps ({[Step_ID s]} ∪ byID)
  end.

(** The dependencies of the first step with the identifier. *)
Fixpoint step_deps (steps : list Step) (id : string) : list string :=
  match steps with
  | [] => []
  | s :: steps => if decide (Step_ID s = id) then Dependencies s else step_deps steps id
  end.
Definition step_missing (byID : gset string) (id dep : string) : option goerror :=
  if decide (dep ∈ byID) then None
  else Some (ErrorString ("step " +:+ id +:+ " depends on missing step " +:+ dep)).

(* src: internal/provisioning/graph.go:30-63 (ValidateGraph) *)
Definition visit_steps (steps : list Step) (byID : gset string) : visit_outcome :=
  search (step_deps steps) (step_missing byID)
    (λ id, ErrorString ("provisioning dependency cycle at " +:+ id)) byID (Step_ID <$> steps).

(* src: internal/provisioning/graph.go:19-64 (ValidateGraph) *)
Definition ValidateGraph (steps : list Step) : option goerror :=
  match index_steps steps ∅ with
  | Err e => Some e
  | Ok byID => visit_error (visit_steps steps byID)
  end.

(** Every step that carries a dependency's identifier has passed. *)
Definition is_ready (steps : list Step) (s : Step) : bool :=
  bool_decide (Step_Status s = StepPending) &&
  forallb (λ dep, forallb (λ c,
    negb (bool_decide (Step_ID c = dep) && negb (bool_decide (Step_Status c = StepPassed))))
    steps) (Dependencies s).

(* src: internal/provisioning/graph.go:65-85 (ReadySteps) *)
Definition ReadySteps (steps : list Step) : list Step := filter (λ s, is_ready steps s) steps.

(** ** The commands of the steps *)

(* src: internal/provisioning/manager.go:133-147 (languageBinary) *)
Definition languageBinary (m : environment.Manifest) : string :=
  match environment.Languages m with
  | [] => "sh"
  | l :: _ =>
      let name := environment.Requirement_Name l in
      if decide (name = "node") then "node"
      else if decide (name = "go") then "go"
      else if decide (name = "python") then "python3"
      else "sh"
  end.

(* src: internal/provisioning/manager.go:148-162 (agentBinary) *)
Definition agentBinary (m : environment.Manifest) : string :=
  match environment.AgentCLIs m with
  | [] => "sh"
  | a :: _ =>
      let id := environment.AgentID a in
      if decide (id = "codex") then "codex"
      else if decide (id = "claude_code") then "claude"
      else if decide (id = "kimi") then "kimi"
      else "sh"
  end.

Definition shell (line : string) : runtime.Command :=
  runtime.mkCommand ["sh"; "-lc"; line] "/workspace" [] false 60.

(* src: internal/provisioning/manager.go:119-119 (executeStep) *)
Definition commands (m : environment.Manifest) : gmap string runtime.Command :=
  list_to_map [
    ("configure", shell "test -d /workspace");
    ("system", shell "true");
    ("language", shell ("command -v " +:+ languageBinary m));
    ("framework", shell "test -f package.json || test -f go.mod || test -f pyproject.toml");
    ("tools", shell "command -v git");
    ("agents", shell ("command -v " +:+ agentBinary m));
    ("browser", shell "command -v chromium || command -v chromium-browser");
    ("project", shell "git rev-parse --is-inside-work-tree");
    ("verify", shell "test -d /workspace")].

(** ** The manager *)

(* src: internal/provisioning/types.go:94-98 (RunStore) *)
Record RunStore (W : Type) := mkRunStore {
  Store_Save : Run → M W (option goerror);
  Store_Get : string → M W (result Run)
}.
Arguments mkRunStore {W}.
Arguments Store_Save {W}.
Arguments Store_Get {W}.

(** [Events] says whether there is a sink; the cache is never used. *)
(* src: internal/provisioning/manager.go:14-22 (Manager) *)
Record Manager (W : Type) := mkManager {
  Manager_Runtime : option (runtime.Provider W);
  Manager_Store : option (RunStore W);
  Events : bool;
  Now : M W Z
}.
Arguments mkManager {W}.
Arguments Manager_Runtime {W}.
Arguments Manager_Store {W}.
Arguments Events {W}.
Arguments Now {W}.

Record mstate (W : Type) := mkState {
  runs : gmap string Run;
  published : list Event;
  outer : W
}.
Arguments mkState {W}.
Arguments runs {W}.
Arguments published {W}.
Arguments outer {W}.

(* src: internal/provisioning/manager.go:24-29 (NewManager) *)
Definition NewManager {W} (w : W) : mstate W := mkState ∅ [] w.

Section manager.
Context {W : Type} (m : Manager W).

Definition outside {A} (c : M W A) : M (mstate W) A := λ st,
  let '(a, w) := c (outer st) in (a, mkState (runs st) (published st) w).
Definition put_run (id : string) (r : Run) : M (mstate W) unit := λ st,
  (tt, mkState (<[id := r]> (runs st)) (published st) (outer st)).
Definition publish (e : Event) : M (mstate W) unit := λ st,
  (tt, mkState (runs st) (published st ++ [e]) (outer st)).

(* src: internal/provisioning/manager.go:269-273 (emit) *)
Definition emit (run : Run) (typ step message : string) (progress : Z) : M (mstate W) unit :=
  if Events m then
    let! now := outside (Now m) in
    publish (mkEvent typ (Run_ProjectID run) (Run_ID run) step (Run_Status run) message
               progress now)
  else mskip.

(* src: internal/provisioning/manager.go:260-268 (save) *)
Definition save (run : Run) : M (mstate W) (option goerror) :=
  let! _ := put_run (Run_ID run) run in
  match Manager_Store m with
  | Some store => outside (Store_Save store run)
  | None => mret None
  end.

Definition in_memory (id : string) : M (mstate W) (result Run) := λ st,
  (match runs st !! id with
   | Some run => Ok run
   | None => Err (ErrorString "provisioning run not found")
   end, st).

(* src: internal/provisioning/manager.go:243-259 (get) *)
Definition get (id : string) : M (mstate W) (result Run) :=
  match Manager_Store m with
  | Some store =>
      let! persisted := outside (Store_Get store id) in
      match persisted with
      | Ok run => let! _ := put_run id run in mret (Ok run)
      | Err _ => in_memory id
      end
  | None => in_memory id
  end.

(* src: internal/provisioning/manager.go:233-242 (mark) *)
Definition mark (run : Run) (id : string) (status : StepStatus) (evidence : string)
    (progress : Z) : Run :=
  run <| Steps :=
    ((λ s, if decide (Step_ID s = id)
           then s <| Step_Status := status |> <| Evidence := evidence |> <| Progress := progress |>
           else s) <$> Steps run) |>.

(* src: internal/provisioning/manager.go:208-215 (cancel) *)
Definition cancel (run : Run) : M (mstate W) (Run * option goerror) :=
  let! now := outside (Now m) in
  let run := run <| Run_Status := Cancelled |> <| Run_CompletedAt := Some now |> in
  let! _ := save run in
  let! _ := emit run "environment.failed" "" "Provisioning cancelled" 0 in
  mret (run, Some context_Canceled).

(* src: internal/provisioning/manager.go:216-224 (fail) *)
Definition fail (run : Run) (err : goerror) : M (mstate W) (Run * option goerror) :=
  let! now := outside (Now m) in
  let run := run <| Run_Status := Failed |> <| Run_Error := error_text err |>
                 <| Run_CompletedAt := Some now |> in
  let! _ := save run in
  let! _ := emit run "environment.failed" "" (error_text err) 0 in
  mret (run, Some err).

(** The transition gives the changed run back; its caller leaves on an error. *)
(* src: internal/provisioning/manager.go:225-232 (transition) *)
Definition transition (run : Run) (status : Status) (event message : string) (progress : Z)
    : M (mstate W) (Run * option goerror) :=
  let run := run <| Run_Status := status |> in
  let! err := save run in
  match err with
  | Some e => mret (run, Some e)
  | None => let! _ := emit run event "" message progress in mret (run, None)
  end.

(* src: internal/provisioning/manager.go:33-48 (PlanWithRuntime) *)
Definition PlanWithRuntime (projectID : string) (manifest : environment.Manifest)
    (runtimeID : string) : M (mstate W) (Run * option goerror) :=
  if bool_decide (projectID = "") ||
     negb (bool_decide (environment.Manifest_ProjectID manifest = projectID))
  then mret (zero_Run, Some (ErrorString "project ownership mismatch"))
  else match ValidateGraph DefaultSteps with
       | Some e => mret (zero_Run, Some e)
       | None =>
           let! now := outside (Now m) in
           let run := mkRun ("prov_" +:+ projectID +:+ "_" +:+ pretty (UnixNano now)) projectID
             runtimeID manifest Planned "" DefaultSteps "" now None false in
           let! err := save run in
           match err with
           | Some e => mret (zero_Run, Some e)
           | None =>
               let! _ := emit run "environment.planned" "" "Provisioning plan created" 0 in
               mret (run, None)
           end
       end.

(* src: internal/provisioning/manager.go:30-32 (Plan) *)
Definition Plan (projectID : string) (manifest : environment.Manifest)
    : M (mstate W) (Run * option goerror) :=
  PlanWithRuntime projectID manifest "".

(* src: internal/provisioning/manager.go:115-132 (executeStep) *)
Definition executeStep (p : runtime.Provider W) (run : Run) (s : Step)
    : M (mstate W) (option goerror) :=
  if decide (Step_ID s = "runtime") then mret None
  else match commands (Run_Manifest run) !! Step_ID s with
       | None => mret (Some (ErrorString ("unsupported provisioning step " +:+ Step_ID s)))
       | Some command =>
           let! (r, err) := outside (runtime.Exec p None (RuntimeID run) command) in
           mret match err with
                | Some e => Some (wrap_prefix (Step_Name s +:+ ": ") e)
                | None =>
                    if decide (runtime.ExitCode r = 0) then None
                    else Some (ErrorString (Step_Name s +:+ " failed: " +:+ runtime.Stderr r))
                end
       end.

(** The body of the loop over the ready steps goes on with a run or returns
    from the method. *)
Inductive flow := Continue (run : Run) | Return (run : Run) (err : option goerror).

Definition returning (c : M (mstate W) (Run * option goerror)) : M (mstate W) flow :=
  let! (run, err) := c in mret (Return run err).

(** The step itself: marked as passed, or the method ended. *)
(* src: internal/provisioning/manager.go:89-98 (Provision) *)
Definition perform (p : runtime.Provider W) (run : Run) (s : Step) : M (mstate W) flow :=
  if decide (Step_ID s = "runtime")
  then mret (Continue (mark run (Step_ID s) StepPassed "runtime created" 100))
  else
    let run := mark run (Step_ID s) StepRunning "" 0 in
    let! err := executeStep p run s in
    match err with
    | Some e => returning (fail (mark run (Step_ID s) StepFailed "" 0) e)
    | None => mret (Continue
        (mark run (Step_ID s) StepPassed "runtime-scoped capability verified" 100))
    end.

(* src: internal/provisioning/manager.go:88-104 (Provision) *)
Fixpoint run_ready (p : runtime.Provider W) (ready : list Step) (run : Run)
    : M (mstate W) flow :=
  match ready with
  | [] => mret (Continue run)
  | s :: ready =>
      let! f := perform p run s in
      match f with
      | Return run err => mret (Return run err)
      | Continue run =>
          let run := run <| LastSuccessfulStep := Step_ID s |> in
          let! err := save run in
          match err with
          | Some e => mret (Return zero_Run (Some e))
          | None =>
              let! _ := emit run "environment.installation.completed" (Step_ID s)
                          (Step_Name s) 100 in
              run_ready p ready run
          end
      end
  end.

(* src: internal/provisioning/manager.go:106-113 (Provision) *)
Definition finish (run : Run) : M (mstate W) (Run * option goerror) :=
  let! now := outside (Now m) in
  let run := run <| Run_Status := Ready |> <| Run_CompletedAt := Some now |> in
  let! err := save run in
  match err with
  | Some e => mret (zero_Run, Some e)
  | None =>
      let! _ := emit run "environment.ready" "" "Project Computer is ready" 100 in
      mret (run, None)
  end.

(** The unbounded loop; [None] is running out of fuel, which [rounds_total]
    excludes for the fuel [Provision] gives. *)
(* src: internal/provisioning/manager.go:80-105 (Provision) *)
Fixpoint rounds (fuel : nat) (p : runtime.Provider W) (run : Run)
    : M (mstate W) (option (Run * option goerror)) :=
  match fuel with
  | O => mret None
  | S fuel =>
      if Run_CancelRequested run then let! r := cancel run in mret (Some r)
      else match ReadySteps (Steps run) with
           | [] => let! r := finish run in mret (Some r)
           | ready =>
               let! f := run_ready p ready run in
               match f with
               | Return run err => mret (Some (run, err))
               | Continue run => rounds fuel p run
               end
           end
  end.

Definition rounds_fuel (run : Run) : nat := S (length (Steps run)).

(** The loop, and what the method does before it once the run is allocated. *)
Definition run_rounds (p : runtime.Provider W) (run : Run)
    : M (mstate W) (Run * option goerror) :=
  let! r := rounds (rounds_fuel run) p run in
  mret (default (run, Some out_of_fuel) r).

(* src: internal/provisioning/manager.go:66-105 (Provision) *)
Definition allocated (run : Run) : M (mstate W) (Run * option goerror) :=
  match Manager_Runtime m with
  | None => fail run (ErrorString "BLOCKED_BY_ENVIRONMENT: runtime provider unavailable")
  | Some p =>
      if decide (RuntimeID run = "") then
        let res := environment.Resources (Run_Manifest run) in
        let! (rt, createErr) := outside (runtime.Create p
          (runtime.mkSpec ("suda-" +:+ Run_ProjectID run) "" (environment.CPU res)
             (environment.MemoryBytes res) (environment.DiskBytes res) "controlled")) in
        match createErr with
        | Some e =>
            fail run (wrap_prefix "BLOCKED_BY_ENVIRONMENT: create project computer: " e)
        | None =>
            let run := run <| RuntimeID := runtime.Runtime_ID rt |> in
            let! err := save run in
            match err with
            | Some e => mret (zero_Run, Some e)
            | None =>
                let! _ := emit run "environment.runtime.created" "runtime"
                            "Project Computer runtime created" 0 in
                run_rounds p run
            end
        end
      else run_rounds p run
  end.

(* src: internal/provisioning/manager.go:49-114 (Provision) *)
Definition Provision (id : string) : M (mstate W) (Run * option goerror) :=
  let! got := get id in
  match got with
  | Err e => mret (zero_Run, Some e)
  | Ok run =>
      match ValidateGraph (Steps run) with
      | Some e => fail run e
      | None =>
          if decide (Run_Status run = Ready) then mret (run, None)
          else if decide (Run_Status run = Cancelled)
          then mret (run, Some (ErrorString "provisioning run is cancelled"))
          else
            let! (run, err) := transition run Allocating "environment.provisioning.started"
                                 "Provisioning started" 0 in
            match err with
            | Some e => mret (zero_Run, Some e)
            | None => allocated run
            end
      end
  end.

(* src: internal/provisioning/manager.go:163-175 (RequestCancel) *)
Definition RequestCancel (id : string) : M (mstate W) (Run * option goerror) :=
  let! got := get id in
  match got with
  | Err e => mret (zero_Run, Some e)
  | Ok run =>
      let run := run <| Run_CancelRequested := true |> <| Run_Status := CancelRequested |> in
      let! err := save run in
      match err with
      | Some e => mret (zero_Run, Some e)
      | None =>
          let! _ := emit run "environment.retry.started" "" "Cancellation requested" 0 in
          mret (run, None)
      end
  end.

(** The flag and the status are reset in a copy that is then dropped. *)
(* src: internal/provisioning/manager.go:176-187 (Resume) *)
Definition Resume (id : string) : M (mstate W) (Run * option goerror) :=
  let! got := get id in
  match got with
  | Err e => mret (zero_Run, Some e)
  | Ok run =>
      if negb (bool_decide (Run_Status run = Failed)) &&
         negb (bool_decide (Run_Status run = CancelRequested))
      then mret (run, Some (ErrorString "run is not resumable"))
      else Provision id
  end.

(* src: internal/provisioning/manager.go:188-207 (Cleanup) *)
Definition Cleanup (id : string) : M (mstate W) (option goerror) :=
  let! got := get id in
  match got with
  | Err e => mret (Some e)
  | Ok run =>
      let! _ := emit run "environment.cleanup.started" "" "Cleanup requested" 0 in
      let! err := match Manager_Runtime m with
                  | Some p => if decide (RuntimeID run = "") then mret None
                              else outside (runtime.Destroy p (RuntimeID run))
                  | None => mret None
                  end in
      match err with
      | Some e => mret (Some e)
      | None =>
          let! now := outside (Now m) in
          let run := run <| Run_Status := Cancelled |> <| Run_CompletedAt := Some now |> in
          let! err := save run in
          match err with
          | Some e => mret (Some e)
          | None =>
              let! _ := emit run "environment.cleanup.completed" "" "Cleanup completed" 100 in
              mret None
          end
      end
  end.
End manager.
End provisioning.
