(* ===== verification/ProvisioningFacts.v ===== *)
(** * Provisioning: what a run ends with

    The graph check, the rounds of ready steps and what the outcome of
    [Provision] and [Resume] says about the steps. *)

From S2P Require Import Prelude GoStrings World Runtime Float Dfs ProjIntel Environment Provisioning.
Import provisioning.

(** ** The graph *)

Lemma index_steps_ok steps byID out :
  index_steps steps byID = Ok out →
  NoDup (Step_ID <$> steps) ∧ (∀ s, s ∈ steps → Step_ID s ∉ byID) ∧
  out = byID ∪ list_to_set (Step_ID <$> steps).
Proof.
  revert byID. induction steps as [|s steps IH]; intros byID; simpl.
  { intros [= <-]. split_and!; [constructor|by intros ? ?%elem_of_nil|set_solver]. }
  case_decide; [done|]. case_decide as Hs; [done|].
  intros (Hnd & Hfresh & ->)%IH. split_and!.
  - constructor; [|done]. intros (t & Ht & Hin)%list_elem_of_fmap.
    apply (Hfresh t Hin). set_solver.
  - intros t [->|Ht]%elem_of_cons; [done|]. specialize (Hfresh t Ht). set_solver.
  - set_solver.
Qed.

(** What the execution needs of an accepted graph: distinct identifiers, and
    every dependency chain ends. *)
Record sound_steps (steps : list Step) : Prop := {
  ss_nodup : NoDup (Step_ID <$> steps);
  ss_grounded : ∀ s, s ∈ steps →
    grounded (step_deps steps) (step_missing (list_to_set (Step_ID <$> steps))) (Step_ID s)
}.

Lemma ValidateGraph_sound steps : ValidateGraph steps = None → sound_steps steps.
Proof.
  unfold ValidateGraph. destruct (index_steps steps ∅) as [byID|] eqn:Hi; [|done].
  apply index_steps_ok in Hi as (Hnd & _ & ->). rewrite (left_id_L ∅ (∪)).
  set (nodes := list_to_set (Step_ID <$> steps)). unfold visit_steps. intros Hv.
  pose proof (search_cases (step_deps steps) (step_missing nodes)
    (λ id, ErrorString ("provisioning dependency cycle at " +:+ id)) nodes) as Hc.
  feed Hc.
  { intros x y _ _. unfold step_missing. by case_decide. }
  specialize (Hc (Step_ID <$> steps) ltac:(set_solver)).
  destruct (search _ _ _ _ _); simpl in Hv; [|done..].
  split; [done|]. intros s Hs. apply Hc. by apply list_elem_of_fmap_2.
Qed.

Lemma step_deps_eq steps s :
  NoDup (Step_ID <$> steps) → s ∈ steps → step_deps steps (Step_ID s) = Dependencies s.
Proof.
  induction steps as [|t steps IH]; intros Hnd Hs; [by apply elem_of_nil in Hs|].
  apply NoDup_cons in Hnd as [Hfresh Hnd]. simpl.
  apply elem_of_cons in Hs as [->|Hs]; [by rewrite decide_True|].
  rewrite decide_False; [by apply IH|]. intros Heq. apply Hfresh. rewrite Heq.
  by apply list_elem_of_fmap_2.
Qed.

Lemma step_unique steps s t :
  NoDup (Step_ID <$> steps) → s ∈ steps → t ∈ steps → Step_ID s = Step_ID t → s = t.
Proof. apply NoDup_key_inj. Qed.

Lemma elem_of_ReadySteps steps s :
  s ∈ ReadySteps steps ↔ s ∈ steps ∧ Step_Status s = StepPending ∧
    ∀ c, c ∈ steps → Step_ID c ∈ Dependencies s → Step_Status c = StepPassed.
Proof.
  unfold ReadySteps, is_ready.
  rewrite list_elem_of_filter, Is_true_true, andb_true_iff, bool_decide_eq_true, forallb_forall.
  setoid_rewrite forallb_forall. setoid_rewrite <-list_elem_of_In.
  setoid_rewrite negb_true_iff. setoid_rewrite andb_false_iff.
  setoid_rewrite negb_false_iff. setoid_rewrite bool_decide_eq_true.
  setoid_rewrite bool_decide_eq_false. split.
  - intros [[Hp Hd] Hs]. split_and!; [done..|]. intros c Hc Hin. by destruct (Hd _ Hin c Hc).
  - intros (Hs & Hp & Hd). split_and!; [done| |done].
    intros dep Hdep c Hc. destruct (decide (Step_ID c = dep)) as [<-|]; auto.
Qed.

(** ** How the steps of a run change *)

(** A step is passed when its identifier is in the set, else left alone. *)
Definition passed_by (ids : gset string) (s s' : Step) : Prop :=
  Step_ID s' = Step_ID s ∧ Dependencies s' = Dependencies s ∧
  Step_Status s' = if decide (Step_ID s ∈ ids) then StepPassed else Step_Status s.

(** A pending step may pass, any other keeps its status. *)
Definition evolves (s s' : Step) : Prop :=
  Step_ID s' = Step_ID s ∧ Dependencies s' = Dependencies s ∧
  (Step_Status s' = Step_Status s ∨ Step_Status s = StepPending ∧ Step_Status s' = StepPassed).

#[global] Instance evolves_preorder : PreOrder evolves.
Proof.
  split; [intros s; unfold evolves; auto|]. intros s1 s2 s3 (I1 & D1 & H1) (I2 & D2 & H2).
  split_and!; [congruence..|].
  destruct H1 as [H1|[H1 H1']], H2 as [H2|[H2 H2']]; [left|right..]; intuition congruence.
Qed.

Definition pending (steps : list Step) : nat :=
  length (filter (λ s, Step_Status s = StepPending) steps).

Lemma pending_le l l' : Forall2 evolves l l' → (pending l' ≤ pending l)%nat.
Proof.
  unfold pending. induction 1 as [|s s' l l' (_ & _ & Hs) _ IH]; [done|].
  rewrite !filter_cons. repeat case_decide; simpl; try lia.
  destruct Hs as [Hs|[_ Hs]]; congruence.
Qed.

Lemma pending_lt l l' s :
  Forall2 evolves l l' → s ∈ l → Step_Status s = StepPending →
  (∀ s', s' ∈ l' → Step_ID s' = Step_ID s → Step_Status s' = StepPassed) →
  (pending l' < pending l)%nat.
Proof.
  intros Hf. revert s. induction Hf as [|t t' l l' Ht Hl IH]; intros s Hs Hp Hout.
  { by apply elem_of_nil in Hs. }
  pose proof (pending_le _ _ Hl) as Hle. unfold pending in *. rewrite !filter_cons.
  apply elem_of_cons in Hs as [->|Hs].
  - rewrite (decide_True (P:=Step_Status t = _)) by done. simpl.
    rewrite decide_False; [lia|]. rewrite Hout; [done|by left|apply Ht].
  - specialize (IH s Hs Hp (λ s' Hs', Hout s' (list_elem_of_further _ _ _ Hs'))).
    destruct Ht as (_ & _ & Ht). repeat case_decide; simpl; try lia.
    destruct Ht as [Ht|[_ Ht]]; congruence.
Qed.

Lemma evolves_ids l l' : Forall2 evolves l l' → Step_ID <$> l' = Step_ID <$> l.
Proof.
  induction 1 as [|s s' l l' (Hs & _) _ IH]; [done|]. by rewrite !fmap_cons, Hs, IH.
Qed.

Lemma Forall2_elem_of_r {A B} (R : A → B → Prop) l k y :
  Forall2 R l k → y ∈ k → ∃ x, x ∈ l ∧ R x y.
Proof.
  intros H [i Hi]%list_elem_of_lookup. destruct (Forall2_lookup_r _ _ _ _ _ H Hi) as (x & Hx & HR).
  exists x. split; [by eapply list_elem_of_lookup_2|done].
Qed.

Lemma Forall2_impl_elem {A B} (P Q : A → B → Prop) l k :
  Forall2 P l k → (∀ x y, x ∈ l → P x y → Q x y) → Forall2 Q l k.
Proof.
  induction 1 as [|x y l k Hxy _ IH]; intros Hi; constructor.
  - apply Hi; [by left|done].
  - apply IH. intros a b Ha. apply Hi. by right.
Qed.

(** A round over the ready steps. *)
Lemma round_evolves l l' :
  NoDup (Step_ID <$> l) →
  Forall2 (passed_by (list_to_set (Step_ID <$> ReadySteps l))) l l' →
  Forall2 evolves l l' ∧ (ReadySteps l ≠ [] → (pending l' < pending l)%nat).
Proof.
  intros Hnd Hr.
  assert (Forall2 evolves l l') as Hev.
  { eapply Forall2_impl_elem; [exact Hr|]. intros s s' Hs (Hi & Hd & Hst).
    split_and!; [done..|]. rewrite Hst. case_decide as Hin; [right|by left]. split; [|done].
    apply elem_of_list_to_set, list_elem_of_fmap in Hin as (t & Heq & Ht).
    apply elem_of_ReadySteps in Ht as (Ht & Hp & _).
    by rewrite (step_unique l s t Hnd Hs Ht Heq). }
  split; [done|]. intros Hne.
  destruct (ReadySteps l) as [|r rs] eqn:Er; [done|].
  assert (r ∈ ReadySteps l) as Hin by (rewrite Er; by left).
  apply elem_of_ReadySteps in Hin as (Hin & Hp & _).
  eapply pending_lt; [exact Hev|exact Hin|done|].
  intros s' Hs' Hid. destruct (Forall2_elem_of_r _ _ _ _ Hr Hs') as (s & Hs & Hi & _ & ->).
  rewrite decide_True; [done|]. rewrite <-Hi, Hid. set_solver.
Qed.

(** ** Executing *)

Section manager.
Context {W : Type} (m : Manager W).

Lemma Forall2_fmap_self {A} (R : A → A → Prop) (f : A → A) l :
  (∀ x, R x (f x)) → Forall2 R l (f <$> l).
Proof. intros Hf. induction l; constructor; auto. Qed.

(** What a successful step does to the run. *)
Lemma perform_continue p run s st run' st' :
  perform m p run s st = (Continue run', st') →
  Forall2 (passed_by {[Step_ID s]}) (Steps run) (Steps run') ∧
  Run_CancelRequested run' = Run_CancelRequested run.
Proof.
  assert (∀ x st1 ev pr, Forall2 (passed_by {[Step_ID s]}) (Steps run)
    (Steps (mark (if x : bool then mark run (Step_ID s) st1 "" 0 else run)
              (Step_ID s) StepPassed ev pr))) as Hmark.
  { intros x st1 ev pr.
    assert (Forall2 (λ a b, Step_ID b = Step_ID a ∧ Dependencies b = Dependencies a ∧
      (Step_ID a ≠ Step_ID s → Step_Status b = Step_Status a)) (Steps run)
      (Steps (if x : bool then mark run (Step_ID s) st1 "" 0 else run))) as Hf.
    { destruct x; simpl; [|apply Forall_Forall2_diag, Forall_true; auto].
      apply Forall2_fmap_self. intros a. by case_decide. }
    simpl. apply Forall2_fmap_r. eapply Forall2_impl; [exact Hf|].
    intros a b (Hi & Hd & Hs). unfold passed_by, compose. cbn beta.
    destruct (decide (Step_ID b = Step_ID s)) as [Hb|Hb]; simpl; (split_and!; [done..|]);
      case_decide as Hin; rewrite elem_of_singleton in Hin; try congruence. by apply Hs. }
  unfold perform. case_decide.
  { intros [[= <-] _]%mret_inv. split; [apply (Hmark false StepPending)|done]. }
  intros (err & st1 & _ & Hk)%mthen_inv. destruct err as [e|].
  { apply mthen_inv in Hk as ([r' e'] & st2 & _ & Hk). by apply mret_inv in Hk as [[=] _]. }
  apply mret_inv in Hk as [[= <-] _]. split; [apply (Hmark true StepRunning)|done].
Qed.

Lemma passed_by_trans ids1 ids2 s1 s2 s3 :
  passed_by ids1 s1 s2 → passed_by ids2 s2 s3 → passed_by (ids1 ∪ ids2) s1 s3.
Proof.
  intros (I1 & D1 & H1) (I2 & D2 & H2). split_and!; [congruence..|].
  rewrite H2, H1, I1. repeat case_decide; set_solver.
Qed.

Lemma Forall2_compose {A} (P Q R : A → A → Prop) l1 l2 l3 :
  (∀ x y z, P x y → Q y z → R x z) → Forall2 P l1 l2 → Forall2 Q l2 l3 → Forall2 R l1 l3.
Proof.
  intros HR HP. revert l3. induction HP as [|x y l1 l2 Hxy _ IH]; intros l3 HQ;
    inversion HQ; subst; constructor; eauto.
Qed.

Lemma run_ready_continue p ready run st run' st' :
  run_ready m p ready run st = (Continue run', st') →
  Forall2 (passed_by (list_to_set (Step_ID <$> ready))) (Steps run) (Steps run') ∧
  Run_CancelRequested run' = Run_CancelRequested run.
Proof.
  revert run st. induction ready as [|s ready IH]; intros run st; simpl.
  { intros [[= <-] _]%mret_inv. split; [|done].
    apply Forall_Forall2_diag, Forall_true. intros s. by repeat split. }
  intros (f & st1 & Hp & Hk)%mthen_inv.
  destruct f as [run1|run1 err]; [|by apply mret_inv in Hk as [[=] _]].
  apply perform_continue in Hp as [Hp Hc].
  apply mthen_inv in Hk as (err & st2 & _ & Hk).
  destruct err as [e|]; [by apply mret_inv in Hk as [[=] _]|].
  apply mthen_inv in Hk as (u & st3 & _ & Hk). apply IH in Hk as [Hr Hc'].
  split; [|by rewrite Hc'].
  eapply Forall2_compose; [|exact Hp|exact Hr]. intros. by eapply passed_by_trans.
Qed.

Lemma finish_ok run st out st' :
  finish m run st = ((out, None), st') →
  Run_Status out = Ready ∧ Steps out = Steps run ∧
  Run_CancelRequested out = Run_CancelRequested run.
Proof.
  intros (now & st1 & _ & Hk)%mthen_inv. apply mthen_inv in Hk as (err & st2 & _ & Hk).
  destruct err; [by apply mret_inv in Hk as [[=] _]|].
  apply mthen_inv in Hk as (u & st3 & _ & Hk). by apply mret_inv in Hk as [[= <-] _].
Qed.

Lemma cancel_error run st out st' : cancel m run st ≠ ((out, None), st').
Proof.
  intros (now & st1 & _ & Hk)%mthen_inv. apply mthen_inv in Hk as (err & st2 & _ & Hk).
  apply mthen_inv in Hk as (u & st3 & _ & Hk). by apply mret_inv in Hk as [[=] _].
Qed.

Lemma fail_error run e st out st' : fail m run e st ≠ ((out, None), st').
Proof.
  intros (now & st1 & _ & Hk)%mthen_inv. apply mthen_inv in Hk as (err & st2 & _ & Hk).
  apply mthen_inv in Hk as (u & st3 & _ & Hk). by apply mret_inv in Hk as [[=] _].
Qed.

(** The loop ends: every round passes a pending step. *)
Lemma rounds_total fuel p run st :
  NoDup (Step_ID <$> Steps run) → (pending (Steps run) < fuel)%nat →
  ∃ r st', rounds m fuel p run st = (Some r, st').
Proof.
  revert run st. induction fuel as [|fuel IH]; intros run st Hnd Hf; [lia|]. cbn [rounds].
  unfold mthen, mret. destruct (Run_CancelRequested run).
  { destruct (cancel m run st) as [r st1]. eauto. }
  destruct (ReadySteps (Steps run)) as [|r rs] eqn:Er.
  { destruct (finish m run st) as [r' st1]. eauto. }
  destruct (run_ready m p (r :: rs) run st) as [[run1|run1 err] st1] eqn:Hrr; [|eauto].
  apply run_ready_continue in Hrr as [Hrr _]. rewrite <-Er in Hrr.
  destruct (round_evolves _ _ Hnd Hrr) as [Hev Hlt]. apply IH.
  - by rewrite (evolves_ids _ _ Hev).
  - rewrite Er in Hlt. specialize (Hlt ltac:(done)). lia.
Qed.

Lemma run_ready_error p ready run st out st' :
  run_ready m p ready run st ≠ (Return out None, st').
Proof.
  revert run st. induction ready as [|s ready IH]; intros run st; simpl.
  { by intros [[=] _]%mret_inv. }
  intros (f & st1 & Hp & Hk)%mthen_inv. destruct f as [run1|run1 err].
  - apply mthen_inv in Hk as (err & st2 & _ & Hk).
    destruct err as [e|]; [by apply mret_inv in Hk as [[=] _]|].
    apply mthen_inv in Hk as (u & st3 & _ & Hk). by apply IH in Hk.
  - apply mret_inv in Hk as [[= -> ->] ->]. unfold perform in Hp. case_decide.
    { by apply mret_inv in Hp as [[=] _]. }
    apply mthen_inv in Hp as (err & st2 & _ & Hp). destruct err as [e|].
    + apply mthen_inv in Hp as ([r' e'] & st3 & Hf & Hp).
      apply mret_inv in Hp as [[= -> ->] ->]. by apply fail_error in Hf.
    + by apply mret_inv in Hp as [[=] _].
Qed.

Lemma rounds_ok fuel p run st out st' :
  NoDup (Step_ID <$> Steps run) → rounds m fuel p run st = (Some (out, None), st') →
  Run_Status out = Ready ∧ Run_CancelRequested run = false ∧ Run_CancelRequested out = false ∧
  Forall2 evolves (Steps run) (Steps out) ∧ ReadySteps (Steps out) = [].
Proof.
  revert run st. induction fuel as [|fuel IH]; intros run st Hnd; cbn [rounds].
  { by intros [[=] _]%mret_inv. }
  destruct (Run_CancelRequested run) eqn:Hc.
  { intros (r & st1 & Hr & Hk)%mthen_inv. apply mret_inv in Hk as [[= ->] <-].
    by apply cancel_error in Hr. }
  destruct (ReadySteps (Steps run)) as [|r rs] eqn:Er.
  { intros (r & st1 & Hr & Hk)%mthen_inv. apply mret_inv in Hk as [[= ->] <-].
    apply finish_ok in Hr as (Hs & Hst & Hc'). rewrite Hst, Hc', Hc, Er.
    split_and!; [done..| |done]. apply Forall_Forall2_diag, Forall_true. intros s. reflexivity. }
  intros (f & st1 & Hrr & Hk)%mthen_inv. destruct f as [run1|run1 err].
  - apply run_ready_continue in Hrr as [Hrr Hc1]. rewrite <-Er in Hrr.
    destruct (round_evolves _ _ Hnd Hrr) as [Hev _].
    apply IH in Hk as (Hs & Hc2 & Hc3 & Hev' & Hr); [|by rewrite (evolves_ids _ _ Hev)].
    split_and!; [done..| |done]. eapply Forall2_compose; [|exact Hev|exact Hev'].
    intros x y z. apply transitivity.
  - apply mret_inv in Hk as [[= -> ->] ->]. by apply run_ready_error in Hrr.
Qed.

(** ** The outcome of the method *)

Lemma run_rounds_ok p run st out st' :
  NoDup (Step_ID <$> Steps run) → run_rounds m p run st = ((out, None), st') →
  Run_Status out = Ready ∧ Run_CancelRequested run = false ∧ Run_CancelRequested out = false ∧
  Forall2 evolves (Steps run) (Steps out) ∧ ReadySteps (Steps out) = [].
Proof.
  intros Hnd (r & st1 & Hr & Hk)%mthen_inv. apply mret_inv in Hk as [Hk ->].
  destruct r as [r|]; simpl in Hk; [subst r|done]. by eapply rounds_ok.
Qed.

Lemma allocated_ok run st out st' :
  NoDup (Step_ID <$> Steps run) → allocated m run st = ((out, None), st') →
  Run_Status out = Ready ∧ Run_CancelRequested run = false ∧ Run_CancelRequested out = false ∧
  Forall2 evolves (Steps run) (Steps out) ∧ ReadySteps (Steps out) = [].
Proof.
  intros Hnd. unfold allocated. destruct (Manager_Runtime m) as [p|]; [|by intros ?%fail_error].
  case_decide; [|by apply run_rounds_ok].
  intros ([rt createErr] & st1 & _ & Hk)%mthen_inv.
  destruct createErr; [by apply fail_error in Hk|].
  apply mthen_inv in Hk as (err & st2 & _ & Hk).
  destruct err; [by apply mret_inv in Hk as [[=] _]|].
  apply mthen_inv in Hk as (u & st3 & _ & Hk). by apply run_rounds_ok in Hk.
Qed.

Lemma Provision_ok id st run0 st0 out st' :
  get m id st = (Ok run0, st0) → Run_Status run0 ≠ Ready →
  Provision m id st = ((out, None), st') →
  sound_steps (Steps run0) ∧ Run_Status out = Ready ∧ Run_CancelRequested run0 = false ∧
  Run_CancelRequested out = false ∧
  Forall2 evolves (Steps run0) (Steps out) ∧ ReadySteps (Steps out) = [].
Proof.
  intros Hg Hnr (got & st1 & Hg' & Hk)%mthen_inv.
  rewrite Hg in Hg'. injection Hg' as <- <-.
  destruct (ValidateGraph (Steps run0)) eqn:Hv; [by apply fail_error in Hk|].
  apply ValidateGraph_sound in Hv. rewrite decide_False in Hk by done.
  destruct (decide (Run_Status run0 = Cancelled)); [by apply mret_inv in Hk as [[=] _]|].
  apply mthen_inv in Hk as ([run1 err] & st2 & Ht & Hk).
  destruct err; [by apply mret_inv in Hk as [[=] _]|].
  apply mthen_inv in Ht as (err & st3 & _ & Ht).
  destruct err; [by apply mret_inv in Ht as [[=] _]|].
  apply mthen_inv in Ht as (u & st4 & _ & Ht). apply mret_inv in Ht as [[= <-] _].
  apply allocated_ok in Hk as (? & ? & ? & ? & ?); [|apply Hv]. split_and!; done.
Qed.

(** No step is left pending by an execution that started with pending and passed
    steps only: follow the dependencies down. *)
Lemma all_passed steps steps' :
  sound_steps steps → Forall2 evolves steps steps' → ReadySteps steps' = [] →
  Forall (λ s, Step_Status s = StepPending ∨ Step_Status s = StepPassed) steps →
  Forall (λ s, Step_Status s = StepPassed) steps'.
Proof.
  intros [Hnd Hg] Hev Hr Hall. rewrite Forall_forall in *.
  assert (∀ x, grounded (step_deps steps)
    (step_missing (list_to_set (Step_ID <$> steps))) x →
    ∀ s', s' ∈ steps' → Step_ID s' = x → Step_Status s' = StepPassed) as Hx.
  { induction 1 as [x _ _ IH]. intros s' Hs' <-.
    destruct (Forall2_elem_of_r _ _ _ _ Hev Hs') as (s & Hs & Hi & Hd & Hst).
    destruct (Hall s Hs) as [Hp|Hp], Hst as [Hst|[_ Hst]]; try congruence.
    assert (s' ∈ ReadySteps steps') as Hin; [|rewrite Hr in Hin; by apply elem_of_nil in Hin].
    apply elem_of_ReadySteps. split_and!; [done|congruence|].
    intros c Hc Hdep. eapply IH; [|exact Hc|done].
    rewrite Hi, step_deps_eq by done. by rewrite <-Hd. }
  intros s' Hs'. destruct (Forall2_elem_of_r _ _ _ _ Hev Hs') as (s & Hs & Hi & _).
  eapply Hx; [|exact Hs'|exact Hi]. by apply Hg.
Qed.

Lemma not_ready steps s :
  ReadySteps steps = [] → s ∈ steps → Step_Status s = StepPending →
  ∃ c, c ∈ steps ∧ Step_ID c ∈ Dependencies s ∧ Step_Status c ≠ StepPassed.
Proof.
  intros Hr Hs Hp.
  destruct (decide (Exists (λ c, Step_ID c ∈ Dependencies s ∧ Step_Status c ≠ StepPassed) steps))
    as [He|He]; [by apply Exists_exists in He|].
  exfalso. assert (s ∈ ReadySteps steps) as Hin; [|rewrite Hr in Hin; by apply elem_of_nil in Hin].
  apply elem_of_ReadySteps. split_and!; [done..|]. intros c Hc Hd.
  destruct (decide (Step_Status c = StepPassed)); [done|].
  destruct He. apply Exists_exists. eauto.
Qed.

(** ** A run in a healthy runtime *)

Lemma emit_runs run typ s msg pr st u st' :
  emit m run typ s msg pr st = (u, st') → runs st' = runs st.
Proof.
  unfold emit. destruct (Events m).
  - intros (t & st1 & Ht & [= _ <-])%mthen_inv. simpl.
    unfold outside in Ht. destruct (Now m _) as [t' w']. by injection Ht as _ <-.
  - by intros [= _ <-].
Qed.

Definition healthy (p : runtime.Provider W) : Prop :=
  (∀ spec w, ∃ rt w', runtime.Create p spec w = ((rt, None), w')) ∧
  (∀ t id c w, ∃ r w', runtime.Exec p t id c w = ((r, None), w') ∧ runtime.ExitCode r = 0).

Definition known_steps (ids : list string) : Prop :=
  ∀ id man, id ∈ ids → id = "runtime" ∨ is_Some (commands man !! id).

(** What the manager asks of its store, if it has one, where [holds r w] says that the store
    has the run [r]: a saved run is held, a run that is held can be saved again and is what
    the store answers, and neither the clock nor the runtime disturb it. *)
Record dependable (p : runtime.Provider W) (holds : Run → W → Prop) : Prop := mkDependable {
  dep_runtime : Manager_Runtime m = Some p;
  dep_healthy : healthy p;
  dep_create spec r w : holds r w → holds r (runtime.Create p spec w).2;
  dep_exec t id c r w : holds r w → holds r (runtime.Exec p t id c w).2;
  dep_now r w : holds r w → holds r (Now m w).2;
  dep_saved r w : match Manager_Store m with
    | Some store => ∀ w', Store_Save store r w = (None, w') → holds r w'
    | None => holds r w
    end;
  dep_save r0 r w : holds r0 w → Run_ID r = Run_ID r0 →
    match Manager_Store m with Some store => (Store_Save store r w).1 = None | None => True end;
  dep_get r w : holds r w →
    match Manager_Store m with
    | Some store => ∃ w', Store_Get store (Run_ID r) w = (Ok r, w') ∧ holds r w'
    | None => True
    end
}.

Section dependable.
Context (p : runtime.Provider W) (holds : Run → W → Prop).
Hypothesis dep : dependable p holds.

(** Some state of the run is held. *)
Definition kept (run : Run) (st : mstate W) : Prop :=
  ∃ r0, holds r0 (outer st) ∧ Run_ID run = Run_ID r0.

Lemma save_ok run st :
  kept run st → ∃ w', save m run st =
    (None, mkState (<[Run_ID run := run]> (runs st)) (published st) w') ∧ holds run w'.
Proof using dep.
  intros (r0 & Hr0 & Hid). unfold save, mthen, put_run, outside, mret.
  pose proof (dep_saved _ _ dep run (outer st)) as Hsaved.
  pose proof (dep_save _ _ dep _ run _ Hr0 Hid) as Hsave.
  destruct (Manager_Store m) as [store|]; cbn.
  - destruct (Store_Save store run (outer st)) as [err w']. cbn in Hsave. subst err.
    exists w'. split; [done|by apply Hsaved].
  - by exists (outer st).
Qed.

Lemma now_holds st t st' r :
  outside (Now m) st = (t, st') → holds r (outer st) → holds r (outer st').
Proof using dep.
  unfold outside. pose proof (dep_now _ _ dep r (outer st)) as Hn. destruct (Now m (outer st)).
  intros [= _ <-]. exact Hn.
Qed.
Lemma emit_holds run typ s msg pr st u st' r :
  emit m run typ s msg pr st = (u, st') → holds r (outer st) → holds r (outer st').
Proof using dep.
  unfold emit. destruct (Events m); [|by intros [= _ <-]].
  intros (t & st1 & Ht & [= _ <-])%mthen_inv Hr. cbn. by eapply now_holds.
Qed.

(** Saving and announcing, then going on. *)
Lemma save_then {A} run typ s msg pr st (failed : goerror → A) (k : M (mstate W) A) :
  kept run st → ∃ st', holds run (outer st') ∧
    (let! err := save m run in
     match err with
     | Some e => mret (failed e)
     | None => let! _ := emit m run typ s msg pr in k
     end) st = k st' ∧ runs st' = <[Run_ID run := run]> (runs st).
Proof using dep.
  intros (w' & Hs & Hh)%save_ok. unfold mthen at 1. rewrite Hs. unfold mthen.
  destruct (emit _ _ _ _ _ _ _) as [u st'] eqn:He. exists st'. split; [by eapply emit_holds|].
  split; [done|]. unfold emit in He. destruct (Events m); [|by injection He as _ <-].
  apply mthen_inv in He as (t & st1 & Ht & [= _ <-]). cbn.
  unfold outside in Ht. destruct (Now m _). by injection Ht as _ <-.
Qed.

Lemma perform_succeeds run s st :
  known_steps [Step_ID s] → kept run st →
  ∃ run' st', perform m p run s st = (Continue run', st') ∧ Run_ID run' = Run_ID run ∧ kept run' st'.
Proof using dep.
  intros Hk (r0 & Hr0 & Hid). unfold perform.
  case_decide as Hs; [do 2 eexists; split; [done|]; split; [done|]; by exists r0|].
  unfold mthen at 1. unfold executeStep. rewrite decide_False by done.
  destruct (Hk (Step_ID s) (Run_Manifest (mark run (Step_ID s) StepRunning "" 0))
    ltac:(by left)) as [?|[c Hc]]; [done|]. rewrite Hc. unfold mthen, outside.
  pose proof (dep_exec _ _ dep None (RuntimeID (mark run (Step_ID s) StepRunning "" 0)) c _ _ Hr0) as Hx.
  destruct (proj2 (dep_healthy _ _ dep) None (RuntimeID (mark run (Step_ID s) StepRunning "" 0)) c (outer st))
    as (r & w' & Hex & Hz). rewrite Hex in *. rewrite Hz.
  do 2 eexists. split; [done|]. split; [done|]. by exists r0.
Qed.

Lemma run_ready_succeeds ready run st :
  known_steps (Step_ID <$> ready) → kept run st →
  ∃ run' st', run_ready m p ready run st = (Continue run', st') ∧ Run_ID run' = Run_ID run ∧ kept run' st'.
Proof using dep.
  revert run st. induction ready as [|s ready IH]; intros run st Hk Hh; [by do 2 eexists|].
  cbn [run_ready]. destruct (perform_succeeds run s st) as (run1 & st1 & Hp & Hid1 & Hk1); [|done|].
  { intros id man ->%list_elem_of_singleton. apply Hk. by left. }
  unfold mthen at 1. rewrite Hp.
  destruct (save_then (run1 <| LastSuccessfulStep := Step_ID s |>) "environment.installation.completed"
    (Step_ID s) (Step_Name s) 100 st1 (λ e, Return zero_Run (Some e))
    (run_ready m p ready (run1 <| LastSuccessfulStep := Step_ID s |>))) as (st2 & Hh2 & -> & _); [done|].
  destruct (IH (run1 <| LastSuccessfulStep := Step_ID s |>) st2) as (run' & st' & Hr & Hid & Hk').
  - intros id man Hin. apply Hk. by right.
  - by eexists.
  - exists run', st'. split; [done|]. split; [by rewrite Hid|done].
Qed.

Lemma rounds_succeeds fuel run st :
  NoDup (Step_ID <$> Steps run) → (pending (Steps run) < fuel)%nat →
  Run_CancelRequested run = false → known_steps (Step_ID <$> Steps run) → kept run st →
  ∃ out st', rounds m fuel p run st = (Some (out, None), st') ∧ Run_ID out = Run_ID run ∧ holds out (outer st').
Proof using dep.
  revert run st. induction fuel as [|fuel IH]; intros run st Hnd Hf Hc Hk Hh; [lia|].
  cbn [rounds]. rewrite Hc. unfold mthen at 1 2.
  destruct (ReadySteps (Steps run)) as [|r rs] eqn:Er.
  { unfold finish, mthen at 1. destruct (outside (Now m) st) as [now st1] eqn:Ht.
    destruct (save_then (run <| Run_Status := Ready |> <| Run_CompletedAt := Some now |>) "environment.ready"
      "" "Project Computer is ready" 100 st1 (λ e, (zero_Run, Some e))
      (mret (run <| Run_Status := Ready |> <| Run_CompletedAt := Some now |>, None))) as (st2 & Hh2 & -> & _).
    { destruct Hh as (r0 & Hr0 & Hid). exists r0. split; [by eapply now_holds|done]. }
    do 2 eexists. split; [done|]. split; [done|exact Hh2]. }
  destruct (run_ready_succeeds (r :: rs) run st) as (run1 & st1 & Hrr & Hid1 & Hk1); [|done|].
  { intros id man Hid. apply Hk. rewrite <-Er in Hid.
    apply list_elem_of_fmap in Hid as (s & -> & [Hs _]%elem_of_ReadySteps).
    by apply list_elem_of_fmap_2. }
  rewrite Hrr. apply run_ready_continue in Hrr as [Hrr Hc1]. rewrite <-Er in Hrr.
  destruct (round_evolves _ _ Hnd Hrr) as [Hev Hlt]. rewrite Er in Hlt.
  specialize (Hlt ltac:(done)).
  destruct (IH run1 st1) as (out & st' & Ho & Hid & Hh');
    [by rewrite (evolves_ids _ _ Hev)|lia|by rewrite Hc1|by rewrite (evolves_ids _ _ Hev)|done|].
  exists out, st'. split; [done|]. split; [congruence|done].
Qed.

Lemma run_rounds_succeeds run st :
  NoDup (Step_ID <$> Steps run) → Run_CancelRequested run = false →
  known_steps (Step_ID <$> Steps run) → kept run st →
  ∃ out st', run_rounds m p run st = ((out, None), st') ∧ Run_ID out = Run_ID run ∧ holds out (outer st').
Proof using dep.
  intros Hnd Hc Hk Hh. unfold run_rounds, mthen, mret.
  destruct (rounds_succeeds (rounds_fuel run) run st) as (out & st' & -> & Hid & Ho); [done|..|by do 2 eexists].
  2-4: done.
  pose proof (length_filter (λ s, Step_Status s = StepPending) (Steps run)).
  unfold rounds_fuel, pending. lia.
Qed.

Lemma allocated_succeeds run st :
  NoDup (Step_ID <$> Steps run) → Run_CancelRequested run = false →
  known_steps (Step_ID <$> Steps run) → kept run st →
  ∃ out st', allocated m run st = ((out, None), st') ∧ Run_ID out = Run_ID run ∧ holds out (outer st').
Proof using dep.
  intros Hnd Hc Hk (r0 & Hr0 & Hid0). unfold allocated. rewrite (dep_runtime _ _ dep).
  case_decide; [|by apply run_rounds_succeeds; [..|exists r0]]. unfold mthen at 1, outside.
  set (spec := runtime.mkSpec ("suda-" +:+ Run_ProjectID run) ""
    (environment.CPU (environment.Resources (Run_Manifest run)))
    (environment.MemoryBytes (environment.Resources (Run_Manifest run)))
    (environment.DiskBytes (environment.Resources (Run_Manifest run))) "controlled").
  pose proof (dep_create _ _ dep spec _ _ Hr0) as Hcr.
  destruct (proj1 (dep_healthy _ _ dep) spec (outer st)) as (rt & w' & Hx). rewrite Hx in *.
  destruct (save_then (run <| RuntimeID := runtime.Runtime_ID rt |>) "environment.runtime.created" "runtime"
    "Project Computer runtime created" 0 (mkState (runs st) (published st) w') (λ e, (zero_Run, Some e))
    (run_rounds m p (run <| RuntimeID := runtime.Runtime_ID rt |>))) as (st2 & Hh2 & -> & _).
  { by exists r0. }
  destruct (run_rounds_succeeds (run <| RuntimeID := runtime.Runtime_ID rt |>) st2) as (out & st' & Ho & Hid & Hh');
    [done..|by eexists|].
  exists out, st'. split; [done|]. by rewrite Hid.
Qed.

(** The run is known to the manager: its store holds it or, without one, it is in memory. *)
Definition known (run : Run) (st : mstate W) : Prop :=
  holds run (outer st) ∧ (Manager_Store m = None → runs st !! Run_ID run = Some run).

Lemma get_known run st :
  known run st → ∃ st', get m (Run_ID run) st = (Ok run, st') ∧ known run st'.
Proof using dep.
  intros [Hh Hm]. unfold get. pose proof (dep_get _ _ dep run (outer st) Hh) as Hg.
  destruct (Manager_Store m) as [store|] eqn:Hst.
  - destruct Hg as (w' & Hg & Hh'). unfold mthen, outside, put_run, mret. rewrite Hg.
    eexists. split; [done|]. by split; [|rewrite Hst].
  - unfold in_memory. rewrite (Hm eq_refl). eexists. split; [done|]. by split; [|rewrite Hst].
Qed.

Lemma Provision_succeeds run st :
  known run st → Run_Status run = Planned →
  ValidateGraph (Steps run) = None → Run_CancelRequested run = false →
  known_steps (Step_ID <$> Steps run) →
  ∃ out st', Provision m (Run_ID run) st = ((out, None), st') ∧ Run_ID out = Run_ID run ∧ holds out (outer st').
Proof using dep.
  intros (st0 & Hg & Hk0)%get_known Hs Hv Hc Hk. unfold Provision, mthen at 1.
  rewrite Hg, Hv, Hs, !decide_False by done.
  unfold transition, mthen at 1, mthen at 1.
  destruct (save_ok (run <| Run_Status := Allocating |>) st0) as (w' & -> & Hh').
  { exists run. by destruct Hk0. }
  unfold mthen at 1, mret.
  destruct (emit _ _ _ _ _ _ _) as [u st2] eqn:He. apply (emit_holds _ _ _ _ _ _ _ _ _ He) in Hh'.
  apply ValidateGraph_sound in Hv as [Hnd _].
  destruct (allocated_succeeds (run <| Run_Status := Allocating |>) st2) as (out & st' & Ho & Hid & Hh'');
    [done..|by eexists|]. exists out, st'. split; [done|]. by rewrite Hid.
Qed.

Lemma PlanWithRuntime_known projectID manifest runtimeID st run st' :
  PlanWithRuntime m projectID manifest runtimeID st = ((run, None), st') →
  known run st' ∧ Run_Status run = Planned ∧ Steps run = DefaultSteps ∧ Run_CancelRequested run = false.
Proof using dep.
  unfold PlanWithRuntime. destruct (_ || _); [by intros [[=] _]%mret_inv|].
  destruct (ValidateGraph DefaultSteps); [by intros [[=] _]%mret_inv|].
  intros (now & st1 & _ & Hp)%mthen_inv. apply mthen_inv in Hp as (err & st2 & Hs & Hp).
  destruct err as [e|]; [by apply mret_inv in Hp as [[=] _]|].
  apply mthen_inv in Hp as (u & st3 & He & Hp). apply mret_inv in Hp as [[= <-] <-].
  split_and!; [|done..]. pose proof He as He'. apply emit_runs in He'.
  unfold save, mthen, put_run, outside, mret in Hs.
  pose proof (λ r, dep_saved _ _ dep r (outer st1)) as Hsaved. unfold known.
  rewrite He'. split; [eapply emit_holds; [exact He|]|intros Hno; rewrite Hno in Hs].
  - destruct (Manager_Store m) as [store|]; cbn in Hs; [|by injection Hs as <-; apply Hsaved].
    destruct (Store_Save store _ _) as [err w'] eqn:Hsv. injection Hs as -> <-. cbn. by eapply Hsaved.
  - injection Hs as <-. cbn. by rewrite lookup_insert_eq.
Qed.
End dependable.

Lemma default_steps_known : known_steps (Step_ID <$> DefaultSteps).
Proof.
  intros id man Hid. unfold commands. simpl in Hid.
  repeat (apply elem_of_cons in Hid as [->|Hid];
    [first [by left | right; rewrite <-?insert_union_singleton_l; simplify_map_eq; by eexists]|]).
  by apply elem_of_nil in Hid.
Qed.

(** A plan that the manager knows is carried out. *)
Lemma planned_succeeds p holds run st :
  dependable p holds → known holds run st → Run_Status run = Planned → Steps run = DefaultSteps →
  Run_CancelRequested run = false →
  ∃ out st', Provision m (Run_ID run) st = ((out, None), st') ∧ Run_ID out = Run_ID run ∧
    holds out (outer st') ∧ Run_Status out = Ready ∧
    Step_ID <$> Steps out = Step_ID <$> DefaultSteps ∧
    Forall (λ s, Step_Status s = StepPassed) (Steps out).
Proof.
  intros Hdep Hk Hs Hst Hc.
  destruct (Provision_succeeds p holds Hdep run st) as (out & st' & Ho & Hid & Hh); try done.
  { by rewrite Hst. }
  { rewrite Hst. apply default_steps_known. }
  exists out, st'. split; [done|]. split; [done|]. split; [done|].
  destruct (get_known p holds Hdep run st Hk) as (st0 & Hg & _).
  apply (Provision_ok _ _ _ _ _ _ Hg) in Ho as (Hsound & Hready & _ & _ & Hev & Hrs); [|by rewrite Hs].
  split; [done|]. rewrite <-Hst. split; [by apply evolves_ids|].
  eapply all_passed; [exact Hsound|done..|]. rewrite Hst. repeat constructor.
Qed.

(** ** Properties *)

(** What READY means.  When [Provision] returns a run that was not ready
    before without an error, its graph was accepted, its cancellation had not been
    requested when it started, and the run is READY.  A step that was not pending
    kept its status, whatever it was; a pending step has passed or is still
    pending behind a dependency that has not.  If all steps were pending or passed
    at the start, all have passed. *)
Theorem Provision_outcome id st run0 st0 out st' :
  get m id st = (Ok run0, st0) → Run_Status run0 ≠ Ready →
  Provision m id st = ((out, None), st') →
  Run_Status out = Ready ∧ Run_CancelRequested run0 = false ∧ Run_CancelRequested out = false ∧
  Forall2 (λ s s', Step_ID s' = Step_ID s ∧
    if decide (Step_Status s = StepPending)
    then Step_Status s' = StepPassed ∨ Step_Status s' = StepPending ∧
           ∃ c, c ∈ Steps out ∧ Step_ID c ∈ Dependencies s ∧ Step_Status c ≠ StepPassed
    else Step_Status s' = Step_Status s) (Steps run0) (Steps out) ∧
  (Forall (λ s, Step_Status s = StepPending ∨ Step_Status s = StepPassed) (Steps run0) →
   Forall (λ s, Step_Status s = StepPassed) (Steps out)).
Proof.
  intros Hg Hnr Hp. destruct (Provision_ok _ _ _ _ _ _ Hg Hnr Hp) as (Hsound & ? & ? & ? & Hev & Hr).
  split_and!; [done..| |by eapply all_passed].
  assert (Forall2 (λ s s', evolves s s' ∧ s' ∈ Steps out) (Steps run0) (Steps out)) as Hev'.
  { apply Forall2_flip. eapply Forall2_impl_elem; [apply Forall2_flip, Hev|]. done. }
  eapply Forall2_impl; [exact Hev'|]. intros s s' ((Hi & Hd & Hs) & Hin). split; [done|].
  case_decide as Hpend; [|destruct Hs as [?|[? _]]; done].
  destruct Hs as [Hs|[_ ?]]; [right|by left]. split; [congruence|].
  rewrite <-Hd. apply not_ready; [done..|congruence].
Qed.

(** Resuming neither retries nor un-cancels.  When [Resume] returns without
    error, the run comes back READY, its cancellation had not been requested, and
    every step that had failed is still FAILED: the reset flag and status are
    dropped, failed steps are not put back to pending, and the loop of [Provision]
    stops when no step is ready. *)
Theorem Resume_keeps_failed id st run0 st0 st1 out st' :
  get m id st = (Ok run0, st0) → get m id st0 = (Ok run0, st1) →
  Resume m id st = ((out, None), st') →
  Run_Status out = Ready ∧ Run_CancelRequested run0 = false ∧
  ∀ s, s ∈ Steps run0 → Step_Status s = StepFailed →
    ∃ s', s' ∈ Steps out ∧ Step_ID s' = Step_ID s ∧ Step_Status s' = StepFailed.
Proof.
  intros Hg Hg0 Hr. unfold Resume in Hr.
  apply mthen_inv in Hr as (got & st2 & Hg' & Hr). rewrite Hg in Hg'. injection Hg' as <- <-.
  destruct (negb (bool_decide _) && _) eqn:Hb; [by apply mret_inv in Hr as [[=] _]|].
  apply (Provision_ok _ _ run0 st1) in Hr as (_ & Hready & Hc & _ & Hev & _); [|done|].
  2: { intros Hrd. by rewrite Hrd in Hb. }
  split_and!; [done..|]. intros s [i Hi]%list_elem_of_lookup Hf.
  destruct (Forall2_lookup_l _ _ _ _ _ Hev Hi) as (s' & Hi' & Hid & _ & Hst).
  exists s'. split; [by eapply list_elem_of_lookup_2|]. split; [done|].
  destruct Hst as [->|[? _]]; [done|congruence].
Qed.
End manager.

(** ** Witnesses *)

Definition example_manager (exit : Z) : Manager unit :=
  mkManager (Some (runtime.answering (runtime.mkExecResult exit "" "no"))) None true (mret 7).
Definition example_environment : environment.Manifest :=
  zero_Manifest <| environment.Manifest_ProjectID := "p" |>.
Definition planned (exit : Z) : (Run * option goerror) * mstate unit :=
  PlanWithRuntime (example_manager exit) "p" example_environment "" (NewManager tt).

Lemma Provision_outcome_witness :
  ∃ out st2, Provision (example_manager 0) "prov_p_7" (planned 0).2 = ((out, None), st2) ∧
    Run_Status out = Ready.
Proof.
  destruct (Provision (example_manager 0) "prov_p_7" (planned 0).2) as [[out err] st2] eqn:E.
  assert (err = None) as -> by (vm_compute in E; by injection E).
  exists out, st2. split; [done|].
  eapply (Provision_outcome (example_manager 0) "prov_p_7" (planned 0).2 (planned 0).1.1
    (planned 0).2); [vm_compute; reflexivity|vm_compute; discriminate|exact E].
Defined.

(** A run that failed at its second step, resumed: READY with two steps of ten. *)
Definition failed_run : (Run * option goerror) * mstate unit :=
  Provision (example_manager 1) "prov_p_7" (planned 1).2.

Lemma Resume_keeps_failed_witness :
  ∃ out st2, Resume (example_manager 1) "prov_p_7" failed_run.2 = ((out, None), st2) ∧
    Run_Status out = Ready ∧
    Step_Status <$> Steps out = StepPassed :: StepFailed :: replicate 8 StepPending.
Proof.
  destruct (Resume (example_manager 1) "prov_p_7" failed_run.2) as [[out err] st2] eqn:E.
  assert (err = None) as -> by (vm_compute in E; by injection E).
  exists out, st2. split; [done|]. split.
  - eapply (Resume_keeps_failed (example_manager 1) "prov_p_7" failed_run.2 failed_run.1.1
      failed_run.2 failed_run.2); [vm_compute; reflexivity..|exact E].
  - vm_compute in E. by injection E as <- _.
Defined.
