(* ===== verification/Deployment.v ===== *)
(** * Deployments

    [src/internal/deployment]: the data of [types.go], the manager of
    [service.go] with its pipeline and state machine, the runtime-backed
    deployer, health checker and verification gate of [runtime_adapter.go] and
    [providers.go], and the port registry and route validator of
    [infrastructure.go].

    The manager's maps and the events it has published are its state; runtimes,
    deployers, health checkers and gates are computations of the world.  Its mutex
    is held within each access of the maps and not across the pipeline, so the
    model is of one caller at a time. *)

From S2P Require Import Prelude GoStrings World Runtime Float.

Module deployment.

(** ** Data *)

(* src: internal/deployment/types.go:9-15 (Environment) *)
Inductive Environment := Development | PreviewEnv | Production | EnvironmentOther (s : string).
#[global] Instance Environment_eq_dec : EqDecision Environment.
Proof. solve_decision. Defined.

(* src: internal/deployment/types.go:17-25 (ServiceStatus) *)
Inductive ServiceStatus :=
  | ServiceDiscovered | ServiceRunning | ServiceUnhealthy | ServiceStopped | ServiceFailed
  | ServiceStatusOther (s : string).
#[global] Instance ServiceStatus_eq_dec : EqDecision ServiceStatus.
Proof. solve_decision. Defined.

(* src: internal/deployment/types.go:27-42 (Service) *)
Record Service := mkService {
  Service_ID : string;
  Service_ProjectID : string;
  Service_Name : string;
  Service_RuntimeID : string;
  ProcessIdentity : string;
  Service_Protocol : string;
  Host : string;
  Port : Z;
  HealthEndpoint : string;
  Service_Status : ServiceStatus;
  Service_Environment : Environment;
  Service_Metadata : gmap string any;
  Service_CreatedAt : Z;
  Service_UpdatedAt : Z
}.

(* src: internal/deployment/types.go:43-49 (ExposureMode) *)
Inductive ExposureMode := Internal | PreviewExposure | Public | ExposureOther (s : string).

(* src: internal/deployment/types.go:51-64 (PortBinding) *)
Record PortBinding := mkBinding {
  Binding_ID : string;
  Binding_ProjectID : string;
  Binding_RuntimeID : string;
  Binding_ServiceID : string;
  InternalPort : Z;
  ExternalPort : Z;
  Binding_Protocol : string;
  Exposure : ExposureMode;
  Binding_Status : string;
  Binding_Health : string;
  Binding_CreatedAt : Z;
  Binding_UpdatedAt : Z
}.
#[global] Instance eta_PortBinding : Eta PortBinding := λ b,
  mkBinding (Binding_ID b) (Binding_ProjectID b) (Binding_RuntimeID b) (Binding_ServiceID b)
    (InternalPort b) (ExternalPort b) (Binding_Protocol b) (Exposure b) (Binding_Status b)
    (Binding_Health b) (Binding_CreatedAt b) (Binding_UpdatedAt b).

(* src: internal/deployment/types.go:65-76 (Preview) *)
Record Preview := mkPreview {
  Preview_ID : string;
  Preview_ProjectID : string;
  Preview_ServiceID : string;
  Preview_Environment : Environment;
  Preview_Hostname : string;
  Preview_URL : string;
  Preview_Status : string;
  AccessPolicy : string;
  Preview_CreatedAt : Z;
  Preview_UpdatedAt : Z
}.

(* src: internal/deployment/types.go:99-108 (EnvironmentConfig) *)
Record EnvironmentConfig := mkConfig {
  Config_ProjectID : string;
  Config_Environment : Environment;
  Variables : gmap string string;
  SecretReferences : list string;
  Config_CPU : Z;
  Config_MemoryBytes : Z;
  Config_DiskBytes : Z;
  DeploymentPolicy : gmap string any
}.

(* src: internal/deployment/types.go:109-115 (ReleaseStatus) *)
Inductive ReleaseStatus :=
  | ReleaseCreated | ReleaseReady | ReleaseFailed | ReleaseStatusOther (s : string).
#[global] Instance ReleaseStatus_eq_dec : EqDecision ReleaseStatus.
Proof. solve_decision. Defined.

(* src: internal/deployment/types.go:117-128 (Release) *)
Record Release := mkRelease {
  Release_ID : string;
  Release_ProjectID : string;
  GitRevision : string;
  ArtifactReferences : list string;
  BuildMetadata : gmap string any;
  Release_Environment : Environment;
  ConfigurationVersion : string;
  VerificationRunID : string;
  Release_Status : ReleaseStatus;
  Release_CreatedAt : Z
}.
#[global] Instance eta_Release : Eta Release := λ r,
  mkRelease (Release_ID r) (Release_ProjectID r) (GitRevision r) (ArtifactReferences r)
    (BuildMetadata r) (Release_Environment r) (ConfigurationVersion r) (VerificationRunID r)
    (Release_Status r) (Release_CreatedAt r).

(* src: internal/deployment/types.go:129-143 (DeploymentStatus) *)
Inductive DeploymentStatus :=
  | DeploymentPending | DeploymentPreparing | DeploymentBuilding | DeploymentTesting
  | DeploymentVerifying | DeploymentDeploying | DeploymentHealthCheck | DeploymentActive
  | DeploymentFailed | DeploymentRolledBack | DeploymentCancelled
  | DeploymentStatusOther (s : string).
#[global] Instance DeploymentStatus_eq_dec : EqDecision DeploymentStatus.
Proof. solve_decision. Defined.
Definition status_text (s : DeploymentStatus) : string :=
  match s with
  | DeploymentPending => "PENDING" | DeploymentPreparing => "PREPARING"
  | DeploymentBuilding => "BUILDING" | DeploymentTesting => "TESTING"
  | DeploymentVerifying => "VERIFYING" | DeploymentDeploying => "DEPLOYING"
  | DeploymentHealthCheck => "HEALTH_CHECK" | DeploymentActive => "ACTIVE"
  | DeploymentFailed => "FAILED" | DeploymentRolledBack => "ROLLED_BACK"
  | DeploymentCancelled => "CANCELLED" | DeploymentStatusOther s => s
  end.

(* src: internal/deployment/types.go:145-151 (DeploymentStrategy) *)
Inductive DeploymentStrategy :=
  | StrategyRecreate | StrategyBlueGreen | StrategyRolling | StrategyOther (s : string).
#[global] Instance DeploymentStrategy_eq_dec : EqDecision DeploymentStrategy.
Proof. solve_decision. Defined.

(* src: internal/deployment/types.go:153-169 (Deployment) *)
Record Deployment := mkDeployment {
  Deployment_ID : string;
  Deployment_ProjectID : string;
  Deployment_Environment : Environment;
  Version : string;
  SourceRevision : string;
  RuntimeTarget : string;
  ReleaseID : string;
  Strategy : DeploymentStrategy;
  Deployment_Status : DeploymentStatus;
  HealthStatus : string;
  FailureReason : string;
  Deployment_Metadata : gmap string any;
  Deployment_CreatedAt : Z;
  Deployment_StartedAt : option Z;
  Deployment_CompletedAt : option Z
}.
#[global] Instance eta_Deployment : Eta Deployment := λ d,
  mkDeployment (Deployment_ID d) (Deployment_ProjectID d) (Deployment_Environment d)
    (Version d) (SourceRevision d) (RuntimeTarget d) (ReleaseID d) (Strategy d)
    (Deployment_Status d) (HealthStatus d) (FailureReason d) (Deployment_Metadata d)
    (Deployment_CreatedAt d) (Deployment_StartedAt d) (Deployment_CompletedAt d).
Definition zero_Deployment : Deployment :=
  mkDeployment "" "" (EnvironmentOther "") "" "" "" "" (StrategyOther "")
    (DeploymentStatusOther "") "" "" ∅ time_zero None None.

(* src: internal/deployment/types.go:170-178 (HealthCheckType) *)
Inductive HealthCheckType :=
  | HealthHTTP | HealthTCP | HealthProcess | HealthCommand | HealthDatabase
  | HealthOther (s : string).
#[global] Instance HealthCheckType_eq_dec : EqDecision HealthCheckType.
Proof. solve_decision. Defined.

(** Durations are in nanoseconds. *)
(* src: internal/deployment/types.go:180-196 (HealthCheck) *)
Record HealthCheck := mkCheck {
  Check_ID : string;
  Check_RuntimeID : string;
  Check_ProjectID : string;
  Check_ServiceID : string;
  Check_Type : HealthCheckType;
  Target : string;
  Timeout : Z;
  Interval : Z;
  Retries : Z;
  FailureThreshold : Z;
  SuccessThreshold : Z;
  Check_Status : string;
  LastError : string;
  CheckedAt : Z
}.
#[global] Instance eta_HealthCheck : Eta HealthCheck := λ c,
  mkCheck (Check_ID c) (Check_RuntimeID c) (Check_ProjectID c) (Check_ServiceID c)
    (Check_Type c) (Target c) (Timeout c) (Interval c) (Retries c) (FailureThreshold c)
    (SuccessThreshold c) (Check_Status c) (LastError c) (CheckedAt c).

(** ** The state machine *)

Definition ErrDeploymentNotFound : goerror := ErrorString "deployment not found".
Definition ErrInvalidDeploymentTransition : goerror :=
  ErrorString "invalid deployment transition".

(* src: internal/deployment/service.go:245-269 (validTransition) *)
Definition validTransition (from to : DeploymentStatus) : bool :=
  bool_decide (from = to) ||
  match from, to with
  | DeploymentPending, (DeploymentPreparing | DeploymentCancelled)
  | DeploymentPreparing, (DeploymentBuilding | DeploymentFailed)
  | DeploymentBuilding, (DeploymentTesting | DeploymentFailed)
  | DeploymentTesting, (DeploymentVerifying | DeploymentFailed)
  | DeploymentVerifying, (DeploymentDeploying | DeploymentFailed)
  | DeploymentDeploying, (DeploymentHealthCheck | DeploymentFailed)
  | DeploymentHealthCheck, (DeploymentActive | DeploymentFailed)
  | DeploymentActive, DeploymentRolledBack => true
  | _, _ => false
  end.

(** ** The manager *)

(* src: internal/deployment/types.go:214-218 (DeploymentProvider) *)
Record DeploymentProvider (W : Type) := mkProvider {
  Provider_Deploy : Deployment → Release → EnvironmentConfig → M W (option goerror);
  Provider_Stop : Deployment → M W (option goerror);
  Provider_Status : Deployment → M W (DeploymentStatus * option goerror)
}.
Arguments mkProvider {W}.
Arguments Provider_Deploy {W}.
Arguments Provider_Stop {W}.
Arguments Provider_Status {W}.

(** The providers of the manager, each nil or present; the proxy is never used. *)
(* src: internal/deployment/service.go:17-32 (Manager) *)
Record Manager (W : Type) := mkManager {
  Manager_Runtime : option (runtime.Provider W);
  Deployer : option (DeploymentProvider W);
  Manager_Health : option (HealthCheck → M W (HealthCheck * option goerror));
  Manager_Verify : option (Deployment → M W (option goerror));
  Manager_Events : bool;
  Now : M W Z
}.
Arguments mkManager {W}.
Arguments Manager_Runtime {W}.
Arguments Deployer {W}.
Arguments Manager_Health {W}.
Arguments Manager_Verify {W}.
Arguments Manager_Events {W}.
Arguments Now {W}.

(** Its maps, and the events published: their kind and the deployment. *)
(* src: internal/deployment/service.go:20-24 (Manager) *)
Record mstate := mkState {
  releases : gmap string Release;
  deployments : gmap string Deployment;
  active : gmap string string;
  published : list (string * Deployment)
}.
#[global] Instance eta_mstate : Eta mstate := λ s,
  mkState (releases s) (deployments s) (active s) (published s).

(* src: internal/deployment/service.go:34-39 (NewManager) *)
Definition NewManager : mstate := mkState ∅ ∅ ∅ [].

Section manager.
Context {W : Type} (s : Manager W).
Notation C A := (M (mstate * W) A).

(* src: internal/deployment/service.go:270-274 (emit) *)
Definition emit (kind : string) (d : Deployment) : C unit :=
  if Manager_Events s
  then modify (λ st, st <| published := published st ++ [(kind, d)] |>)
  else mskip.

Definition put_deployment (id : string) (d : Deployment) : C unit :=
  modify (λ st, st <| deployments := <[id := d]> (deployments st) |>).

(* src: internal/deployment/service.go:40-54 (CreateRelease) *)
Definition CreateRelease (r : Release) : C Release :=
  let! r := (if decide (Release_ID r = "") then
               let! now := outside (Now s) in
               mret (r <| Release_ID := "release_" +:+ pretty (UnixNano now) |>)
             else mret r) in
  let! r := (if IsZero (Release_CreatedAt r) then
               let! now := outside (Now s) in mret (r <| Release_CreatedAt := now |>)
             else mret r) in
  let r := r <| Release_Status :=
    (if decide (Release_Status r = ReleaseStatusOther "") then ReleaseCreated
     else Release_Status r) |> in
  let! _ := modify (λ st, st <| releases := <[Release_ID r := r]> (releases st) |>) in
  mret r.

(* src: internal/deployment/service.go:55-65 (Releases) *)
Definition Releases `{MapOrder} (st : mstate) (projectID : string) : list Release :=
  filter (λ r, Release_ProjectID r = projectID) (map_range 0 (releases st)).*2.

(* src: internal/deployment/service.go:66-82 (CreateDeployment) *)
Definition CreateDeployment (d : Deployment) : C Deployment :=
  let! d := (if decide (Deployment_ID d = "") then
               let! now := outside (Now s) in
               mret (d <| Deployment_ID := "deploy_" +:+ pretty (UnixNano now) |>)
             else mret d) in
  let d := d <| Deployment_Status :=
    (if decide (Deployment_Status d = DeploymentStatusOther "") then DeploymentPending
     else Deployment_Status d) |> in
  let d := d <| Strategy :=
    (if decide (Strategy d = StrategyOther "") then StrategyRecreate else Strategy d) |> in
  let! now := outside (Now s) in
  let d := d <| Deployment_CreatedAt := now |> in
  let! _ := put_deployment (Deployment_ID d) d in
  let! _ := emit "deployment.created" d in
  mret d.

(** [Deployment]: a value or an error. *)
(* src: internal/deployment/service.go:83-91 (Deployment) *)
Definition GetDeployment (id : string) : C (Deployment * option goerror) :=
  look (λ st, match deployments st !! id with
              | Some d => (d, None)
              | None => (zero_Deployment, Some ErrDeploymentNotFound)
              end).

(* src: internal/deployment/service.go:214-232 (transition) *)
Definition transition (id : string) (status : DeploymentStatus) : C (option goerror) :=
  let! found := look (λ st, deployments st !! id) in
  match found with
  | None => mret (Some ErrDeploymentNotFound)
  | Some d =>
      if negb (validTransition (Deployment_Status d) status)
      then mret (Some (WrapError (error_text ErrInvalidDeploymentTransition +:+ ": " +:+
             status_text (Deployment_Status d) +:+ " -> " +:+ status_text status)
             ErrInvalidDeploymentTransition))
      else
        let d := d <| Deployment_Status := status |> in
        let! d := (if bool_decide (Deployment_StartedAt d = None) &&
                      negb (bool_decide (status = DeploymentPending)) then
                     let! now := outside (Now s) in
                     mret (d <| Deployment_StartedAt := Some now |>)
                   else mret d) in
        let! _ := put_deployment id d in
        let! _ := emit ("deployment." +:+ status_text status) d in
        mret None
  end.

(** The zero deployment is stored when there is none. *)
(* src: internal/deployment/service.go:233-244 (fail) *)
Definition fail (id : string) (err : goerror) : C (Deployment * option goerror) :=
  let! d := look (λ st, default zero_Deployment (deployments st !! id)) in
  let! now := outside (Now s) in
  let d := d <| Deployment_Status := DeploymentFailed |> <| FailureReason := error_text err |>
             <| Deployment_CompletedAt := Some now |> in
  let! _ := put_deployment id d in
  let! _ := emit "deployment.failed" d in
  mret (d, Some err).

(* src: internal/deployment/service.go:158-163 (prepare) *)
Definition prepare (e : EnvironmentConfig) : C (option goerror) :=
  mret (if (Config_CPU e <? 0) || (Config_MemoryBytes e <? 0) || (Config_DiskBytes e <? 0)
        then Some (ErrorString "invalid resource policy") else None).

(* src: internal/deployment/service.go:186-198 (exec) *)
Definition exec (d : Deployment) (name : string) (argv : list string) : C (option goerror) :=
  match Manager_Runtime s with
  | None => mret (Some (ErrorString "runtime provider unavailable"))
  | Some p =>
      let! (r, err) := outside (runtime.Exec p None (RuntimeTarget d)
        (runtime.mkCommand argv "/workspace" [] false 900)) in
      mret match err with
           | Some e => Some e
           | None => if decide (runtime.ExitCode r = 0) then None
                     else Some (ErrorString (name +:+ " failed: " +:+ runtime.Stderr r))
           end
  end.

(** The non-empty strings of the array, or nothing when an element is not one. *)
(* src: internal/deployment/service.go:176-183 (execConfigured) *)
Fixpoint arguments (values : list any) : option (list string) :=
  match values with
  | [] => Some []
  | AnyString v :: values =>
      if decide (v = "") then None
      else match arguments values with Some argv => Some (v :: argv) | None => None end
  | _ :: _ => None
  end.

(* src: internal/deployment/service.go:164-185 (execConfigured) *)
Definition execConfigured (d : Deployment) (name : string) : C (option goerror) :=
  match Deployment_Metadata d !! (name +:+ "_argv") with
  | None => mret (Some (ErrorString (name +:+ "_argv is required")))
  | Some (AnyList values) =>
      match arguments values with
      | None => mret (Some (ErrorString (name +:+ "_argv contains invalid argument")))
      | Some argv => exec d name argv
      end
  | Some (AnyStrings typed) => exec d name typed
  | Some _ => mret (Some (ErrorString (name +:+ "_argv must be an array")))
  end.

(* src: internal/deployment/service.go:199-213 (activate) *)
Definition activate (d : Deployment) : C (option goerror) :=
  let! found := look (λ st, deployments st !! Deployment_ID d) in
  let d := default d found in
  let! now := outside (Now s) in
  let project := Deployment_ProjectID d in
  let d := d <| Deployment_Status := DeploymentActive |>
             <| Deployment_CompletedAt := Some now |> <| HealthStatus := "PASSED" |> in
  let! _ := modify (λ st, st <| active := <[project := Deployment_ID d]> (active st) |>
    <| deployments := <[Deployment_ID d := d]> (deployments st) |>) in
  mret None.

(* src: internal/deployment/service.go:108-113 (Deploy) *)
Definition verify_step (d : Deployment) : C (option goerror) :=
  match Manager_Verify s with Some verify => outside (verify d) | None => mret None end.

(* src: internal/deployment/service.go:113-118 (Deploy) *)
Definition deploy_step (d : Deployment) (r : Release) (e : EnvironmentConfig)
    : C (option goerror) :=
  match Deployer s with
  | None => mret (Some (ErrorString "deployment provider unavailable"))
  | Some p => outside (Provider_Deploy p d r e)
  end.

(* src: internal/deployment/service.go:126-126 (Deploy) *)
Definition health_check (d : Deployment) (target : string) : HealthCheck :=
  mkCheck (Deployment_ID d +:+ "/health") (RuntimeTarget d) (Deployment_ProjectID d) ""
    HealthHTTP target (10 * 10 ^ 9) 0 2 1 1 "" "" time_zero.

(* src: internal/deployment/service.go:118-129 (Deploy) *)
Definition health_step (d : Deployment) : C (option goerror) :=
  match Manager_Health s with
  | None => mret (Some (ErrorString "health checker unavailable"))
  | Some check =>
      let missing := mret (Some (ErrorString "health_target is required before activation")) in
      match Deployment_Metadata d !! "health_target" with
      | Some (AnyString target) =>
          if decide (target = "") then missing
          else let! (_, err) := outside (check (health_check d target)) in mret err
      | _ => missing
      end
  end.

(* src: internal/deployment/service.go:103-130 (Deploy) *)
Definition deploy_steps (d : Deployment) (r : Release) (e : EnvironmentConfig)
    : list (DeploymentStatus * C (option goerror)) :=
  [(DeploymentPreparing, prepare e);
   (DeploymentBuilding, execConfigured d "build");
   (DeploymentTesting, execConfigured d "test");
   (DeploymentVerifying, verify_step d);
   (DeploymentDeploying, deploy_step d r e);
   (DeploymentHealthCheck, health_step d);
   (DeploymentActive, activate d)].

(* src: internal/deployment/service.go:131-139 (Deploy) *)
Fixpoint run_steps (id : string) (steps : list (DeploymentStatus * C (option goerror)))
    : C (Deployment * option goerror) :=
  match steps with
  | [] => GetDeployment id
  | (status, run) :: steps =>
      let! err := transition id status in
      match err with
      | Some e => fail id e
      | None =>
          let! err := run in
          match err with
          | Some e => fail id e
          | None => run_steps id steps
          end
      end
  end.

(* src: internal/deployment/service.go:92-140 (Deploy) *)
Definition Deploy (id : string) (r : Release) (e : EnvironmentConfig)
    : C (Deployment * option goerror) :=
  let! found := look (λ st, deployments st !! id) in
  match found with
  | None => mret (zero_Deployment, Some ErrDeploymentNotFound)
  | Some d =>
      let d := d <| ReleaseID :=
        (if decide (ReleaseID d = "") then Release_ID r else ReleaseID d) |> in
      run_steps id (deploy_steps d r e)
  end.

(* src: internal/deployment/service.go:141-157 (Rollback) *)
Definition Rollback (projectID target : string) : C (Deployment * option goerror) :=
  let! found := look (λ st, deployments st !! target) in
  match found with
  | None => mret (zero_Deployment, Some ErrDeploymentNotFound)
  | Some previous =>
      match Deployer s with
      | None => mret (zero_Deployment, Some (ErrorString "deployment provider unavailable"))
      | Some p =>
          let! err := outside (Provider_Deploy p previous
            (mkRelease (ReleaseID previous) projectID (SourceRevision previous) [] ∅
               (EnvironmentOther "") "" "" (ReleaseStatusOther "") time_zero)
            (mkConfig projectID (Deployment_Environment previous) ∅ [] 0 0 0 ∅)) in
          match err with
          | Some e => mret (zero_Deployment, Some e)
          | None =>
              let! _ := transition target DeploymentRolledBack in
              let! _ := emit "deployment.rolled_back" previous in
              GetDeployment target
          end
      end
  end.
End manager.

(** ** Runtime-backed providers *)

Section providers.
Context {W : Type}.

(* src: internal/deployment/runtime_adapter.go:13-26 (Deploy) *)
Definition runtime_Deploy (p : option (runtime.Provider W)) (d : Deployment) (r : Release)
    (_ : EnvironmentConfig) : M W (option goerror) :=
  match p with
  | None => mret (Some (ErrorString "runtime provider unavailable"))
  | Some p =>
      let path := "/workspace/.suda-forge/releases/" +:+ Release_ID r in
      let! (out, err) := runtime.Exec p None (RuntimeTarget d)
        (runtime.mkCommand ["sh"; "-lc"; "mkdir -p -- '" +:+ path +:+ "' && printf '%s
' '" +:+ GitRevision r +:+ "' > '" +:+ path +:+ "/REVISION'"] "/workspace" [] false 60) in
      mret match err with
           | Some e => Some e
           | None => if decide (runtime.ExitCode out = 0) then None
                     else Some (ErrorString ("runtime deployment failed: " +:+ runtime.Stderr out))
           end
  end.

(* src: internal/deployment/runtime_adapter.go:27-42 (Status) *)
Definition runtime_Status (p : option (runtime.Provider W)) (d : Deployment)
    : M W (DeploymentStatus * option goerror) :=
  match p with
  | None => mret (DeploymentFailed, Some (ErrorString "runtime provider unavailable"))
  | Some p =>
      let! (status, err) := runtime.GetStatus p (RuntimeTarget d) in
      mret match err with
           | Some e => (DeploymentFailed, Some e)
           | None =>
               if decide (status = runtime.StatusRunning) then (DeploymentActive, None)
               else if decide (status = runtime.StatusFailed) then (DeploymentFailed, None)
               else (DeploymentPending, None)
           end
  end.

(* src: internal/deployment/runtime_adapter.go:43-49 (Stop) *)
Definition runtime_Stop (p : option (runtime.Provider W)) (d : Deployment)
    : M W (option goerror) :=
  match p with
  | None => mret (Some (ErrorString "runtime provider unavailable"))
  | Some p =>
      let! (_, err) := runtime.Exec p None (RuntimeTarget d)
        (runtime.mkCommand ["sh"; "-lc"; "true"] "/workspace" [] false 30) in
      mret err
  end.

Definition RuntimeDeploymentProvider (p : option (runtime.Provider W)) : DeploymentProvider W :=
  mkProvider (runtime_Deploy p) (runtime_Stop p) (runtime_Status p).

(** The verification gate.  A nil metadata map is an empty one here; the source
    words the error for it as for a missing check. *)
(* src: internal/deployment/runtime_adapter.go:51-64 (VerificationAdapter) *)
Definition adapter_Verify (check : option (string → M W (option goerror))) (d : Deployment)
    : M W (option goerror) :=
  match check with
  | None => mret (Some (ErrorString
              "deployment requires authoritative verification evidence"))
  | Some check =>
      match Deployment_Metadata d !! "verification_run_id" with
      | Some (AnyString runID) =>
          if decide (runID = "")
          then mret (Some (ErrorString "deployment requires verification_run_id"))
          else check runID
      | _ => mret (Some (ErrorString "deployment requires verification_run_id"))
      end
  end.

(* src: internal/deployment/providers.go:89-113 (RuntimeHealthChecker) *)
Definition runtime_Check `{World W} (p : option (runtime.Provider W)) (check : HealthCheck)
    : M W (HealthCheck * option goerror) :=
  match p with
  | None => mret (check, Some (ErrorString "runtime provider unavailable"))
  | Some p =>
      let check := check <| Timeout :=
        (if Timeout check <=? 0 then 5 * 10 ^ 9 else Timeout check) |> in
      if bool_decide (Check_Type check = HealthHTTP) || bool_decide (Check_Type check = HealthTCP)
      then
        let! (r, err) := runtime.Exec p None (Check_RuntimeID check)
          (runtime.mkCommand ["sh"; "-lc"; Target check] "/workspace" [] false
             (float64.trunc (float64.Seconds (Timeout check)))) in
        match err with
        | Some e => mret (check, Some e)
        | None =>
            if decide (runtime.ExitCode r = 0) then
              let! now := time_Now in
              mret (check <| Check_Status := "PASSED" |> <| CheckedAt := now |>, None)
            else
              mret (check <| Check_Status := "FAILED" |> <| LastError := runtime.Stderr r |>,
                    Some (ErrorString (runtime.Stderr r)))
        end
      else mret (check, Some (ErrorString
             "health check type requires a runtime-backed implementation"))
  end.

(** ** Routes *)

Definition ErrInvalidRouteTarget : goerror :=
  ErrorString "route target is not a trusted project service".

(* src: internal/deployment/infrastructure.go:100-118 (TrustedRouteValidator) *)
Definition Validate (services : option (string → M W (result (list Service))))
    (preview : Preview) : M W (option goerror) :=
  match services with
  | None => mret (Some ErrInvalidRouteTarget)
  | Some services =>
      let! found := services (Preview_ProjectID preview) in
      mret match found with
           | Err e => Some e
           | Ok found =>
               if existsb (λ sv, bool_decide (Service_ID sv = Preview_ServiceID preview) &&
                    bool_decide (Service_ProjectID sv = Preview_ProjectID preview) &&
                    bool_decide (Service_Status sv = ServiceRunning)) found
               then None else Some ErrInvalidRouteTarget
           end
  end.
End providers.

(** ** The port registry *)

Definition ErrPortConflict : goerror := ErrorString "external port is already reserved".

(* src: internal/deployment/infrastructure.go:49-53 (MemoryPortRegistry) *)
Record MemoryPortRegistry := mkPorts {
  bindings : gmap string PortBinding;
  byExternal : gmap string string
}.

(* src: internal/deployment/infrastructure.go:55-57 (NewMemoryPortRegistry) *)
Definition NewMemoryPortRegistry : MemoryPortRegistry := mkPorts ∅ ∅.

Definition external_key (b : PortBinding) : string :=
  Binding_Protocol b +:+ "/" +:+ pretty (ExternalPort b).

(** Another identifier holds the port. *)
Definition conflict (r : MemoryPortRegistry) (b : PortBinding) : bool :=
  match byExternal r !! external_key b with
  | Some owner => negb (bool_decide (owner = Binding_ID b))
  | None => false
  end.

(** [now] is the time the call reads. *)
(* src: internal/deployment/infrastructure.go:58-76 (Reserve) *)
Definition Reserve (r : MemoryPortRegistry) (b : PortBinding) (now : Z)
    : MemoryPortRegistry * result PortBinding :=
  let key := external_key b in
  if conflict r b then (r, Err ErrPortConflict)
  else
    let b := b <| Binding_ID :=
      (if decide (Binding_ID b = "")
       then "port_" +:+ Binding_ProjectID b +:+ "_" +:+ pretty (ExternalPort b)
       else Binding_ID b) |> in
    let b := b <| Binding_Status := "RESERVED" |> <| Binding_UpdatedAt := now |> in
    let b := b <| Binding_CreatedAt :=
      (if IsZero (Binding_CreatedAt b) then Binding_UpdatedAt b else Binding_CreatedAt b) |> in
    (mkPorts (<[Binding_ID b := b]> (bindings r)) (<[key := Binding_ID b]> (byExternal r)), Ok b).

(* src: internal/deployment/infrastructure.go:77-87 (Release) *)
Definition ReleasePort (r : MemoryPortRegistry) (id : string)
    : MemoryPortRegistry * option goerror :=
  match bindings r !! id with
  | None => (r, Some (ErrorString "port binding not found"))
  | Some b =>
      (mkPorts (delete id (bindings r)) (delete (external_key b) (byExternal r)), None)
  end.

(* src: internal/deployment/infrastructure.go:88-98 (List) *)
Definition ListPorts `{MapOrder} (r : MemoryPortRegistry) (projectID : string)
    : list PortBinding :=
  filter (λ b, Binding_ProjectID b = projectID) (map_range 0 (bindings r)).*2.
End deployment.
