(* ===== verification/DeploymentFacts.v ===== *)
(** * Deployments: the pipeline and the port registry

    What a successful and a failed [Deploy] did, what [Rollback] leaves, and that
    reserved ports are exclusive. *)

From S2P Require Import Prelude GoStrings World Runtime Float Deployment.
Import deployment.

Section manager.
Context {W : Type} (s : Manager W).
Notation C A := (M (mstate * W) A).

(** Nothing happened outside but readings of the clock. *)
Definition clocks : relation W := rtc (λ w w', ∃ t, Now s w = (t, w')).

(** Every deployment is stored under its own identifier. *)
Definition keyed (st : mstate) : Prop :=
  map_Forall (λ id d, Deployment_ID d = id) (deployments st).

(** A status change: nothing but the status and the start time. *)
Definition restatus (status : DeploymentStatus) (d d' : Deployment) : Prop :=
  ∃ t, d' = d <| Deployment_Status := status |> <| Deployment_StartedAt := t |>.

Lemma emit_inv kind d (sw sw' : mstate * W) u :
  emit s kind d sw = (u, sw') →
  deployments sw'.1 = deployments sw.1 ∧ active sw'.1 = active sw.1 ∧ sw'.2 = sw.2.
Proof.
  unfold emit. destruct (Manager_Events s).
  - by intros ->%modify_inv.
  - by intros [_ <-]%mret_inv.
Qed.

Lemma transition_cases id status (sw sw' : mstate * W) err :
  transition s id status sw = (err, sw') →
  match err with
  | None => ∃ d d', deployments sw.1 !! id = Some d ∧
      validTransition (Deployment_Status d) status = true ∧ restatus status d d' ∧
      deployments sw'.1 = <[id := d']> (deployments sw.1) ∧ active sw'.1 = active sw.1 ∧
      clocks sw.2 sw'.2
  | Some e => sw' = sw ∧ ((deployments sw.1 !! id = None ∧ e = ErrDeploymentNotFound) ∨
      ∃ d, deployments sw.1 !! id = Some d ∧ validTransition (Deployment_Status d) status = false ∧
        errors_is e ErrInvalidDeploymentTransition = true)
  end.
Proof.
  intros (found & sw1 & Hf & Hk)%mthen_inv. apply look_inv in Hf as [-> ->].
  destruct (deployments sw.1 !! id) as [d|] eqn:Hd.
  2: { apply mret_inv in Hk as [<- <-]. auto. }
  destruct (validTransition (Deployment_Status d) status) eqn:Hv; simpl in Hk.
  2: { apply mret_inv in Hk as [<- <-]. split; [done|]. right. eauto. }
  apply mthen_inv in Hk as (d' & sw2 & Hd' & Hk).
  apply mthen_inv in Hk as (u & sw3 & Hp%modify_inv & Hk).
  apply mthen_inv in Hk as (u' & sw4 & (He1 & He2 & He3)%emit_inv & Hk).
  apply mret_inv in Hk as [<- <-]. exists d, d'. rewrite He1, He2, He3, Hp. simpl.
  destruct (bool_decide _ && _).
  - apply mthen_inv in Hd' as (now & sw5 & [Hn Hs]%outside_inv & Hd').
    apply mret_inv in Hd' as [<- <-]. rewrite Hs.
    split_and!; [done..|by eexists|done|done|]. apply rtc_once. eauto.
  - apply mret_inv in Hd' as [<- <-]. split_and!; [done..| |done|done|constructor].
    exists (Deployment_StartedAt d). by destruct d.
Qed.

Lemma fail_inv id e (sw sw' : mstate * W) out err :
  fail s id e sw = ((out, err), sw') →
  err = Some e ∧ Deployment_Status out = DeploymentFailed ∧ FailureReason out = error_text e ∧
  deployments sw'.1 = <[id := out]> (deployments sw.1) ∧ active sw'.1 = active sw.1.
Proof.
  intros (d & sw1 & Hf & Hk)%mthen_inv. apply look_inv in Hf as [-> ->].
  apply mthen_inv in Hk as (now & sw2 & [_ Hs]%outside_inv & Hk).
  apply mthen_inv in Hk as (u & sw3 & Hp%modify_inv & Hk).
  apply mthen_inv in Hk as (u' & sw4 & (He1 & He2 & _)%emit_inv & Hk).
  apply mret_inv in Hk as [[= <- <-] <-]. rewrite He1, He2, Hp. simpl. rewrite Hs. done.
Qed.

(** ** The steps of the pipeline *)

Definition configured (d : Deployment) (name : string) (argv : list string) : Prop :=
  Deployment_Metadata d !! (name +:+ "_argv") = Some (AnyStrings argv) ∨
  ∃ values, Deployment_Metadata d !! (name +:+ "_argv") = Some (AnyList values) ∧
    arguments values = Some argv.

(** The configured command of the name ran in the runtime with exit code 0. *)
Definition ran (d : Deployment) (name : string) (w w' : W) : Prop :=
  ∃ p argv r, Manager_Runtime s = Some p ∧ configured d name argv ∧
    runtime.Exec p None (RuntimeTarget d) (runtime.mkCommand argv "/workspace" [] false 900) w
      = ((r, None), w') ∧ runtime.ExitCode r = 0.
Definition gate_passed (d : Deployment) (w w' : W) : Prop :=
  match Manager_Verify s with Some verify => verify d w = (None, w') | None => w' = w end.
Definition deployed (d : Deployment) (r : Release) (e : EnvironmentConfig) (w w' : W) : Prop :=
  ∃ p, Deployer s = Some p ∧ Provider_Deploy p d r e w = (None, w').
Definition health_passed (d : Deployment) (w w' : W) : Prop :=
  ∃ check target c, Manager_Health s = Some check ∧
    Deployment_Metadata d !! "health_target" = Some (AnyString target) ∧ target ≠ "" ∧
    check (health_check d target) w = ((c, None), w').

Lemma exec_inv d name argv (sw sw' : mstate * W) err :
  exec s d name argv sw = (err, sw') → sw'.1 = sw.1 ∧
  (err = None → ∃ p r, Manager_Runtime s = Some p ∧
    runtime.Exec p None (RuntimeTarget d) (runtime.mkCommand argv "/workspace" [] false 900) sw.2
      = ((r, None), sw'.2) ∧ runtime.ExitCode r = 0).
Proof.
  unfold exec. destruct (Manager_Runtime s) as [p|].
  2: { intros [<- <-]%mret_inv. done. }
  intros ([r e] & sw1 & [Hx Hs]%outside_inv & Hk)%mthen_inv.
  apply mret_inv in Hk as [<- <-]. split; [done|]. destruct e; [done|].
  case_decide; [|done]. intros _. eauto.
Qed.

Lemma execConfigured_inv d name (sw sw' : mstate * W) err :
  execConfigured s d name sw = (err, sw') → sw'.1 = sw.1 ∧ (err = None → ran d name sw.2 sw'.2).
Proof.
  unfold execConfigured. intros Hx.
  assert (∀ argv, configured d name argv → exec s d name argv sw = (err, sw') →
    sw'.1 = sw.1 ∧ (err = None → ran d name sw.2 sw'.2)) as Hex.
  { intros argv Hc [Hs He]%exec_inv. split; [done|].
    intros (p & r & ? & ? & ?)%He. exists p, argv, r. done. }
  destruct (Deployment_Metadata d !! _) as [a|] eqn:Ha.
  2: { apply mret_inv in Hx as [<- <-]. done. }
  destruct a; try (apply mret_inv in Hx as [<- <-]; done).
  - apply (Hex l); [by left|done].
  - destruct (arguments l) as [argv|] eqn:Hl.
    + apply (Hex argv); [right; eauto|done].
    + apply mret_inv in Hx as [<- <-]. done.
Qed.

Lemma health_step_inv d (sw sw' : mstate * W) err :
  health_step s d sw = (err, sw') → sw'.1 = sw.1 ∧ (err = None → health_passed d sw.2 sw'.2).
Proof.
  unfold health_step. destruct (Manager_Health s) as [check|] eqn:Hc.
  2: { intros [<- <-]%mret_inv. done. }
  destruct (Deployment_Metadata d !! "health_target") as [[]|] eqn:Hm;
    try (intros [<- <-]%mret_inv; done).
  case_decide as Ht; [by intros [<- <-]%mret_inv|].
  intros ([c e] & sw1 & [Hx Hs]%outside_inv & Hk)%mthen_inv.
  apply mret_inv in Hk as [<- <-]. split; [done|]. intros ->. unfold health_passed. eauto 10.
Qed.

Lemma verify_step_inv d (sw sw' : mstate * W) err :
  verify_step s d sw = (err, sw') → sw'.1 = sw.1 ∧ (err = None → gate_passed d sw.2 sw'.2).
Proof.
  unfold verify_step, gate_passed. destruct (Manager_Verify s).
  - intros [Hx Hs]%outside_inv. split; [done|]. by intros ->.
  - by intros [<- <-]%mret_inv.
Qed.

Lemma deploy_step_inv d r e (sw sw' : mstate * W) err :
  deploy_step s d r e sw = (err, sw') → sw'.1 = sw.1 ∧ (err = None → deployed d r e sw.2 sw'.2).
Proof.
  unfold deploy_step, deployed. destruct (Deployer s) as [p|].
  - intros [Hx Hs]%outside_inv. split; [done|]. intros ->. eauto.
  - by intros [<- <-]%mret_inv.
Qed.

(** ** Running the steps *)

Lemma run_steps_cases id status (run : C (option goerror)) steps (sw sw' : mstate * W) out err :
  run_steps s id ((status, run) :: steps) sw = ((out, err), sw') →
  (∃ e, transition s id status sw = (Some e, sw) ∧ fail s id e sw = ((out, err), sw')) ∨
  (∃ e sw1 sw2, transition s id status sw = (None, sw1) ∧ run sw1 = (Some e, sw2) ∧
     fail s id e sw2 = ((out, err), sw')) ∨
  (∃ sw1 sw2, transition s id status sw = (None, sw1) ∧ run sw1 = (None, sw2) ∧
     run_steps s id steps sw2 = ((out, err), sw')).
Proof.
  cbn [run_steps]. intros (e1 & sw1 & Ht & Hk)%mthen_inv. destruct e1 as [e|].
  { left. destruct (transition_cases _ _ _ _ _ Ht) as [-> _]. eauto. }
  apply mthen_inv in Hk as (e2 & sw2 & Hr & Hk). destruct e2; eauto 10.
Qed.

Lemma run_steps_ok id status (run : C (option goerror)) steps (sw sw' : mstate * W) out :
  run_steps s id ((status, run) :: steps) sw = ((out, None), sw') →
  ∃ sw1 sw2, transition s id status sw = (None, sw1) ∧ run sw1 = (None, sw2) ∧
    run_steps s id steps sw2 = ((out, None), sw').
Proof.
  intros [(e & _ & Hf)|[(e & sw1 & sw2 & _ & _ & Hf)|H]]%run_steps_cases; [..|done];
    by apply fail_inv in Hf as (? & _).
Qed.

(** A step keeps the manager's maps and makes the move [R] outside. *)
Definition moves (run : C (option goerror)) (R : relation W) : Prop :=
  ∀ sw sw', run sw = (None, sw') → sw'.1 = sw.1 ∧ R sw.2 sw'.2.

Lemma restatus_trans st1 st2 d1 d2 d3 :
  restatus st1 d1 d2 → restatus st2 d2 d3 → restatus st2 d1 d3.
Proof. intros [t1 ->] [t2 ->]. by exists t2. Qed.

Lemma restatus_status status d d' : restatus status d d' → Deployment_Status d' = status.
Proof. by intros [t ->]. Qed.

(** The moves in their order, with readings of the clock between them. *)
Fixpoint timed (Rs : list (relation W)) : relation W :=
  match Rs with
  | [] => clocks
  | R :: Rs => λ w w', ∃ w1 w2, clocks w w1 ∧ R w1 w2 ∧ timed Rs w2 w'
  end.

(** The steps of a successful pipeline, seen from the stored deployment; [l]
    lists each status with its step and the move the step makes. *)
Lemma run_steps_moves id (l : list (DeploymentStatus * C (option goerror) * relation W)) rest
    (sw sw' : mstate * W) out d0 :
  Forall (λ x, moves x.1.2 x.2) l → deployments sw.1 !! id = Some d0 →
  run_steps s id (map fst l ++ rest) sw = ((out, None), sw') →
  ∃ sw2 d2, (∃ status, restatus status d0 d2) ∧
    match l with x :: _ => validTransition (Deployment_Status d0) x.1.1 = true | [] => True end ∧
    deployments sw2.1 !! id = Some d2 ∧ active sw2.1 = active sw.1 ∧
    (∀ w', clocks sw2.2 w' → timed (map snd l) sw.2 w') ∧
    run_steps s id rest sw2 = ((out, None), sw').
Proof.
  intros Hl. revert sw d0. induction Hl as [|[[status run] R] l Hm _ IH]; intros sw d0 Hd0 Hk.
  { exists sw, d0. split_and!; try done.
    exists (Deployment_Status d0), (Deployment_StartedAt d0). by destruct d0. }
  simpl in Hk. apply run_steps_ok in Hk as (sw1 & sw2 & Ht & Hr & Hk).
  apply transition_cases in Ht as (d & d1 & Hd & Hv & Hrs & Hds & Ha & Hc).
  rewrite Hd0 in Hd. injection Hd as <-. apply Hm in Hr as [Hs HR].
  apply (IH sw2 d1) in Hk as (sw3 & d2 & [st2 Hst] & _ & Hd2 & Ha2 & Hmv & Hk).
  2: { rewrite Hs, Hds. by rewrite lookup_insert_eq. }
  exists sw3, d2. split_and!; [|done|done|by rewrite Ha2, Hs| |done].
  - exists st2. by eapply restatus_trans.
  - intros w' Hw'. exists sw1.2, sw2.2. auto.
Qed.

Lemma activate_inv d (sw sw' : mstate * W) err d0 :
  deployments sw.1 !! Deployment_ID d = Some d0 → Deployment_ID d0 = Deployment_ID d →
  activate s d sw = (err, sw') →
  err = None ∧ clocks sw.2 sw'.2 ∧
  active sw'.1 = <[Deployment_ProjectID d0 := Deployment_ID d]> (active sw.1) ∧
  ∃ t, deployments sw'.1 !! Deployment_ID d = Some (d0 <| Deployment_Status := DeploymentActive |>
    <| Deployment_CompletedAt := t |> <| HealthStatus := "PASSED" |>).
Proof.
  intros Hd0 Hid (found & sw1 & Hf & Hk)%mthen_inv. apply look_inv in Hf as [-> ->].
  rewrite Hd0 in Hk. simpl in Hk.
  apply mthen_inv in Hk as (now & sw2 & [Hn Hs]%outside_inv & Hk).
  apply mthen_inv in Hk as (u & sw3 & Hp%modify_inv & Hk). apply mret_inv in Hk as [<- <-].
  rewrite Hp. simpl. rewrite Hs, Hid. split_and!; [done|apply rtc_once; eauto|done|].
  exists (Some now). by rewrite lookup_insert_eq.
Qed.

(** The deployment handed to the providers: the release is filled in. *)
Definition with_release (d : Deployment) (r : Release) : Deployment :=
  d <| ReleaseID := if decide (ReleaseID d = "") then Release_ID r else ReleaseID d |>.

(** The resource policy was looked at and has no negative entry. *)
Definition policy_accepted (e : EnvironmentConfig) : relation W := λ w w',
  w' = w ∧ 0 ≤ Config_CPU e ∧ 0 ≤ Config_MemoryBytes e ∧ 0 ≤ Config_DiskBytes e.

Lemma prepare_moves e : moves (prepare e) (policy_accepted e).
Proof.
  intros sw sw' [He <-]%mret_inv. split; [done|]. split; [done|].
  destruct (Config_CPU e <? 0) eqn:?, (Config_MemoryBytes e <? 0) eqn:?,
    (Config_DiskBytes e <? 0) eqn:?; try done. lia.
Qed.

(** The steps before the activation and the moves they make. *)
Definition provider_steps (d : Deployment) (r : Release) (e : EnvironmentConfig)
    : list (DeploymentStatus * C (option goerror) * relation W) :=
  [(DeploymentPreparing, prepare e, policy_accepted e);
   (DeploymentBuilding, execConfigured s d "build", ran d "build");
   (DeploymentTesting, execConfigured s d "test", ran d "test");
   (DeploymentVerifying, verify_step s d, gate_passed d);
   (DeploymentDeploying, deploy_step s d r e, deployed d r e);
   (DeploymentHealthCheck, health_step s d, health_passed d)].

Lemma provider_steps_move d r e : Forall (λ x, moves x.1.2 x.2) (provider_steps d r e).
Proof.
  repeat (apply List.Forall_cons; [|]); [..|constructor]; intros sw sw' Hx; simpl in *.
  - by apply prepare_moves.
  - apply execConfigured_inv in Hx as [? ?]. auto.
  - apply execConfigured_inv in Hx as [? ?]. auto.
  - apply verify_step_inv in Hx as [? ?]. auto.
  - apply deploy_step_inv in Hx as [? ?]. auto.
  - apply health_step_inv in Hx as [? ?]. auto.
Qed.

(** A pipeline that came to its end. *)
Lemma Deploy_ok id r e st w out st' w' :
  keyed st → Deploy s id r e (st, w) = ((out, None), (st', w')) →
  ∃ d, deployments st !! id = Some d ∧
    (Deployment_Status d = DeploymentPending ∨ Deployment_Status d = DeploymentPreparing) ∧
    let d' := with_release d r in
    timed [policy_accepted e; ran d' "build"; ran d' "test"; gate_passed d'; deployed d' r e;
           health_passed d'] w w' ∧
    deployments st' !! id = Some out ∧ Deployment_Status out = DeploymentActive ∧
    HealthStatus out = "PASSED" ∧ ReleaseID out = ReleaseID d ∧
    active st' = <[Deployment_ProjectID d := id]> (active st).
Proof.
  intros Hkey (found & sw1 & Hf & Hk)%mthen_inv. apply look_inv in Hf as [-> ->]. cbn [fst] in Hk.
  destruct (deployments st !! id) as [d|] eqn:Hd; [|by apply mret_inv in Hk as [[=] _]].
  exists d. split; [done|].
  change (run_steps s id (deploy_steps s (with_release d r) r e) (st, w)
    = ((out, None), (st', w'))) in Hk. set (d' := with_release d r) in *.
  change (deploy_steps s d' r e)
    with (map fst (provider_steps d' r e) ++ [(DeploymentActive, activate s d')]) in Hk.
  eapply run_steps_moves in Hk as (sw2 & d2 & [st2 Hr2] & Hv & Hd2 & Ha2 & Hmv & Hk);
    [|apply provider_steps_move|exact Hd].
  apply run_steps_ok in Hk as (sw3 & sw4 & Ht & Hact & Hend).
  apply transition_cases in Ht as (d3' & d3 & Hd3' & _ & Hr3 & Hds & Ha3 & Hc3).
  rewrite Hd2 in Hd3'. injection Hd3' as <-.
  pose proof (restatus_trans _ _ _ _ _ Hr2 Hr3) as [t Hd3]. clear Hr2 Hr3.
  assert (Deployment_ID d = id) as Hid by (by apply (Hkey id d)).
  apply (activate_inv _ _ _ _ d3) in Hact as (_ & Hc4 & Ha4 & t' & Hout).
  2: { change (Deployment_ID d') with (Deployment_ID d). by rewrite Hid, Hds, lookup_insert_eq. }
  2: { by rewrite Hd3. }
  change (Deployment_ID d') with (Deployment_ID d) in *. rewrite Hid in *.
  apply look_inv in Hend as [Hout' Hsw]. rewrite Hout in Hout'. injection Hout' as ->.
  rewrite <-Hsw in *. cbn [fst snd] in *. rewrite Ha4, Ha3, Ha2, Hd3.
  split_and!; [|apply Hmv; etrans; [exact Hc3|exact Hc4]|rewrite Hout, Hd3; done|done..].
  unfold validTransition in Hv. simpl in Hv. by destruct (Deployment_Status d); auto.
Qed.

(** C19: what an active deployment has been through.  When [Deploy] returns
    without error, the deployment was PENDING or PREPARING and, in this order, its
    resource policy was found to have no negative entry, its configured build and
    test commands ran with exit code 0, the verification gate passed (if the manager
    has one), the provider deployed it and a health check with a configured target
    passed; nothing else happened outside but readings of the clock.  It is stored
    as ACTIVE with a passed health status and is the active deployment of its
    project.  The release it was deployed with is not recorded in it. *)
Theorem Deploy_active id r e st w out st' w' :
  keyed st → Deploy s id r e (st, w) = ((out, None), (st', w')) →
  ∃ d, deployments st !! id = Some d ∧
    (Deployment_Status d = DeploymentPending ∨ Deployment_Status d = DeploymentPreparing) ∧
    let d' := with_release d r in
    timed [policy_accepted e; ran d' "build"; ran d' "test"; gate_passed d'; deployed d' r e;
           health_passed d'] w w' ∧
    deployments st' !! id = Some out ∧ Deployment_Status out = DeploymentActive ∧
    HealthStatus out = "PASSED" ∧ ReleaseID out = ReleaseID d ∧
    active st' = <[Deployment_ProjectID d := id]> (active st).
Proof. apply Deploy_ok. Qed.

(** A step keeps the manager's maps, whatever its outcome. *)
Definition keeps (run : C (option goerror)) : Prop :=
  ∀ sw err sw', run sw = (err, sw') → sw'.1 = sw.1.

Lemma provider_steps_keep d r e : Forall (λ x, keeps x.1.2) (provider_steps d r e).
Proof.
  repeat (apply List.Forall_cons; [|]); [..|constructor]; intros sw err sw' Hx; simpl in *.
  - by apply mret_inv in Hx as [_ <-].
  - by apply execConfigured_inv in Hx as [? _].
  - by apply execConfigured_inv in Hx as [? _].
  - by apply verify_step_inv in Hx as [? _].
  - by apply deploy_step_inv in Hx as [? _].
  - by apply health_step_inv in Hx as [? _].
Qed.

(** A pipeline that ends in an error ends in [fail], or reaches its rest. *)
Lemma run_steps_error id (l : list (DeploymentStatus * C (option goerror) * relation W)) rest
    (sw sw' : mstate * W) out err d0 :
  Forall (λ x, keeps x.1.2) l → deployments sw.1 !! id = Some d0 →
  run_steps s id (map fst l ++ rest) sw = ((out, Some err), sw') →
  ∃ sw2, active sw2.1 = active sw.1 ∧
    (fail s id err sw2 = ((out, Some err), sw') ∨
     (∃ d2, deployments sw2.1 !! id = Some d2 ∧ Deployment_ID d2 = Deployment_ID d0) ∧
     run_steps s id rest sw2 = ((out, Some err), sw')).
Proof.
  intros Hl. revert sw d0. induction Hl as [|[[status run] R] l Hk _ IH]; intros sw d0 Hd0 Hr.
  { exists sw. eauto 10. }
  assert (∀ e sw1, fail s id e sw1 = ((out, Some err), sw') →
    fail s id err sw1 = ((out, Some err), sw')) as Hsame.
  { intros e sw1 Hf. by destruct (fail_inv _ _ _ _ _ _ Hf) as [[= <-] _]. }
  simpl in Hr. apply run_steps_cases in Hr as [(e & _ & Hf)|[(e & sw1 & sw2 & Ht & Hx & Hf)|Hr]].
  { exists sw. eauto. }
  { apply transition_cases in Ht as (? & ? & _ & _ & _ & _ & Ha & _). apply Hk in Hx.
    exists sw2. rewrite Hx, Ha. eauto. }
  destruct Hr as (sw1 & sw2 & Ht & Hx & Hr).
  apply transition_cases in Ht as (d & d1 & Hd & _ & [t ->] & Hds & Ha & _). apply Hk in Hx.
  rewrite Hd0 in Hd. injection Hd as <-.
  eapply (IH sw2) in Hr as (sw3 & Ha3 & Hr3); [|rewrite Hx, Hds; by rewrite lookup_insert_eq].
  exists sw3. rewrite Ha3, Hx, Ha. split; [done|]. exact Hr3.
Qed.

Lemma Deploy_error id r e st w d out err sw' :
  keyed st → deployments st !! id = Some d →
  Deploy s id r e (st, w) = ((out, Some err), sw') →
  ∃ sw2, active sw2.1 = active st ∧ fail s id err sw2 = ((out, Some err), sw').
Proof.
  intros Hkey Hd (found & sw1 & Hf & Hk)%mthen_inv. apply look_inv in Hf as [-> ->]. cbn [fst] in Hk.
  rewrite Hd in Hk.
  change (run_steps s id (deploy_steps s (with_release d r) r e) (st, w)
    = ((out, Some err), sw')) in Hk. set (d' := with_release d r) in *.
  change (deploy_steps s d' r e)
    with (map fst (provider_steps d' r e) ++ [(DeploymentActive, activate s d')]) in Hk.
  eapply run_steps_error in Hk as (sw2 & Ha & [Hk|[(d2 & Hd2 & Hid2) Hk]]);
    [by exists sw2|..|apply provider_steps_keep|exact Hd].
  assert (Deployment_ID d' = id) as Hid by (by apply (Hkey id d)).
  apply run_steps_cases in Hk as [(e' & _ & Hf)|[(e' & sw3 & sw4 & Ht & Hx & _)|
    (sw3 & sw4 & Ht & Hx & Hend)]].
  { destruct (fail_inv _ _ _ _ _ _ Hf) as [[= <-] _]. by exists sw2. }
  all: apply transition_cases in Ht as (d3' & d3 & Hd3' & _ & [t ->] & Hds & _).
  all: rewrite Hd2 in Hd3'; injection Hd3' as <-.
  all: eapply activate_inv in Hx as (Hx & _ & _ & t' & Hout);
    [|rewrite Hid, Hds; by rewrite lookup_insert_eq|simpl; by rewrite Hid2].
  - done.
  - apply look_inv in Hend as [Hend _]. rewrite <-Hid, Hout in Hend. done.
Qed.

(** C20: a failed deployment.  When [Deploy] of a stored deployment returns an
    error, the deployment is stored as FAILED with the error as its reason and the
    table of active deployments is as before.  That is also what deploying a
    deployment again does: from any status but PENDING and PREPARING the first
    transition is refused, so an ACTIVE deployment becomes FAILED and stays the
    active one of its project. *)
Theorem Deploy_failure id r e st w d out err st' w' :
  keyed st → deployments st !! id = Some d →
  Deploy s id r e (st, w) = ((out, Some err), (st', w')) →
  Deployment_Status out = DeploymentFailed ∧ FailureReason out = error_text err ∧
  deployments st' !! id = Some out ∧ active st' = active st ∧
  (Deployment_Status d ≠ DeploymentPending → Deployment_Status d ≠ DeploymentPreparing →
   errors_is err ErrInvalidDeploymentTransition = true).
Proof.
  intros Hkey Hd Hk. pose proof (Deploy_error _ _ _ _ _ _ _ _ _ Hkey Hd Hk) as (sw2 & Ha & Hf).
  apply fail_inv in Hf as (_ & Hst & Hreason & Hds & Ha'). cbn [fst] in Hds, Ha'.
  split_and!; [done..|by rewrite Hds, lookup_insert_eq|by rewrite Ha'|].
  intros Hn1 Hn2. apply mthen_inv in Hk as (found & sw1 & Hl & Hk).
  apply look_inv in Hl as [-> ->]. cbn [fst] in Hk. rewrite Hd in Hk.
  assert (validTransition (Deployment_Status d) DeploymentPreparing = false) as Hv.
  { unfold validTransition. rewrite bool_decide_false by done. by destruct (Deployment_Status d). }
  apply run_steps_cases in Hk as [(e' & Ht & Hf)|Hk].
  - apply transition_cases in Ht as [_ [[Hn _]|(d1 & _ & _ & He)]]; [simpl in Hn; congruence|].
    by apply fail_inv in Hf as ([= ->] & _).
  - destruct Hk as [(? & ? & ? & Ht & _)|(? & ? & Ht & _)];
      apply transition_cases in Ht as (d1 & ? & Hd1 & Hv' & _); simpl in Hd1; congruence.
Qed.

(** ** Rolling back *)

(** A rollback hands the target to the provider for the project the caller named,
    with the release recorded in it; only an ACTIVE deployment is then marked, and
    the table of active deployments does not change. *)
Lemma Rollback_inv projectID target st w out st' w' :
  Rollback s projectID target (st, w) = ((out, None), (st', w')) →
  ∃ d p r c w1, deployments st !! target = Some d ∧ Deployer s = Some p ∧
    Release_ID r = ReleaseID d ∧ Release_ProjectID r = projectID ∧
    Provider_Deploy p d r c w = (None, w1) ∧
    Deployment_Status out = (if validTransition (Deployment_Status d) DeploymentRolledBack
                             then DeploymentRolledBack else Deployment_Status d) ∧
    deployments st' !! target = Some out ∧ active st' = active st.
Proof.
  intros (found & sw1 & Hf & Hk)%mthen_inv. apply look_inv in Hf as [-> ->]. cbn [fst] in Hk.
  destruct (deployments st !! target) as [d|] eqn:Hd; [|by apply mret_inv in Hk as [[=] _]].
  destruct (Deployer s) as [p|]; [|by apply mret_inv in Hk as [[=] _]].
  apply mthen_inv in Hk as (err & sw2 & [Hp Hs]%outside_inv & Hk).
  destruct err; [by apply mret_inv in Hk as [[=] _]|].
  apply mthen_inv in Hk as (terr & sw3 & Ht & Hk).
  apply mthen_inv in Hk as (u & sw4 & (He1 & He2 & _)%emit_inv & Hk).
  apply look_inv in Hk as [Hout Hsw]. rewrite <-Hsw in *. cbn [fst snd] in *.
  exists d, p, (mkRelease (ReleaseID d) projectID (SourceRevision d) [] ∅ (EnvironmentOther "")
    "" "" (ReleaseStatusOther "") time_zero),
    (mkConfig projectID (Deployment_Environment d) ∅ [] 0 0 0 ∅), sw2.2.
  split; [done|]. split; [done|]. split; [done|]. split; [done|]. split; [exact Hp|].
  rewrite He1 in *. rewrite He2. apply transition_cases in Ht. destruct terr as [e|].
  - destruct Ht as [-> [[Hn _]|(d1 & Hd1 & Hv & _)]]; rewrite Hs in *; [congruence|].
    rewrite Hd in Hd1. injection Hd1 as <-. rewrite Hd in *. injection Hout as ->. by rewrite Hv.
  - destruct Ht as (d1 & d2 & Hd1 & Hv & [t ->] & Hds & Ha & _). rewrite Hs in *.
    rewrite Hd in Hd1. injection Hd1 as <-. rewrite Hds, lookup_insert_eq in *.
    injection Hout as ->. by rewrite Hv, Ha.
Qed.

(** Every operation keeps the deployments under their own identifiers. *)
Lemma keyed_insert st id d : Deployment_ID d = id → keyed st →
  keyed (st <| deployments := <[id := d]> (deployments st) |>).
Proof. intros <- Hk. by apply map_Forall_insert_2. Qed.

Lemma CreateDeployment_keyed d st w out st' w' :
  keyed st → CreateDeployment s d (st, w) = (out, (st', w')) →
  keyed st' ∧ deployments st' !! Deployment_ID out = Some out.
Proof.
  intros Hkey Hc. apply mthen_inv in Hc as (d1 & sw1 & Hd1 & Hc).
  apply mthen_inv in Hc as (now & sw2 & [_ Hs]%outside_inv & Hc).
  apply mthen_inv in Hc as (u & sw3 & Hp%modify_inv & Hc).
  apply mthen_inv in Hc as (u' & sw4 & (He1 & _ & _)%emit_inv & Hc).
  apply mret_inv in Hc as [<- Hsw].
  assert (sw1.1 = st) as Hs1.
  { destruct (decide (Deployment_ID d = "")).
    - apply mthen_inv in Hd1 as (t & sw5 & [_ H5]%outside_inv & Hd1).
      by apply mret_inv in Hd1 as [_ <-].
    - by apply mret_inv in Hd1 as [_ <-]. }
  rewrite Hsw in He1. cbn [fst] in He1. rewrite Hp, Hs, Hs1 in He1. simpl in He1.
  unfold keyed. rewrite He1. split; [|by rewrite lookup_insert_eq].
  by apply map_Forall_insert_2.
Qed.
End manager.

(** ** Ports *)

(** The calls of the registry, successful or not. *)
Inductive port_step : relation MemoryPortRegistry :=
  | step_reserve r b now : port_step r (Reserve r b now).1
  | step_release r id : port_step r (ReleasePort r id).1.

(** Every binding is stored under its identifier, which is not empty, and owns
    its port. *)
Definition ports_owned (r : MemoryPortRegistry) : Prop :=
  ∀ id b, bindings r !! id = Some b →
    Binding_ID b = id ∧ id ≠ "" ∧ byExternal r !! external_key b = Some id.

(** What a successful reservation does. *)
Lemma Reserve_cases r b now r' out :
  Reserve r b now = (r', out) →
  match out with
  | Err e => r' = r ∧ e = ErrPortConflict
  | Ok b' => external_key b' = external_key b ∧ Binding_ID b' ≠ "" ∧
      (Binding_ID b ≠ "" → Binding_ID b' = Binding_ID b) ∧
      (∀ owner, byExternal r !! external_key b = Some owner → owner = Binding_ID b) ∧
      bindings r' = <[Binding_ID b' := b']> (bindings r) ∧
      byExternal r' = <[external_key b := Binding_ID b']> (byExternal r)
  end.
Proof.
  unfold Reserve. destruct (conflict r b) eqn:Hc.
  { by intros [= <- <-]. }
  intros [= <- <-]. simpl. split_and!; [done|by case_decide|by case_decide| |done|done].
  intros owner Ho. unfold conflict in Hc. rewrite Ho in Hc. by apply negb_false_iff, bool_decide_eq_true in Hc.
Qed.

Lemma port_step_owned r r' : port_step r r' → ports_owned r → ports_owned r'.
Proof.
  intros [r0 b now|r0 id] Ho.
  - destruct (Reserve r0 b now) as [r1 out] eqn:E. simpl. apply Reserve_cases in E.
    destruct out as [b'|e]; [|by destruct E as [-> _]].
    destruct E as (Hk & Hne & Hid & Howner & Hb & He). intros id c. rewrite Hb, He.
    rewrite lookup_insert. case_decide as Hd.
    + intros [= <-]. subst id. rewrite Hk. by rewrite lookup_insert_eq.
    + intros Hc. destruct (Ho id c Hc) as (Hc1 & Hc2 & Hc3). split_and!; [done..|].
      rewrite lookup_insert_ne; [done|]. intros Heq. rewrite <-Heq in Hc3.
      apply Howner in Hc3. apply Hd. rewrite Hc3. apply Hid. by rewrite <-Hc3.
  - unfold ReleasePort. destruct (bindings r0 !! id) as [b|] eqn:Hb; [|done]. simpl.
    intros id' c. simpl. rewrite lookup_delete_Some. intros [Hne Hc].
    destruct (Ho id' c Hc) as (Hc1 & Hc2 & Hc3). split_and!; [done..|].
    rewrite lookup_delete_ne; [done|]. intros Heq.
    destruct (Ho id b Hb) as (_ & _ & Hb3). rewrite Heq in Hb3. congruence.
Qed.

Lemma ports_reachable r : rtc port_step NewMemoryPortRegistry r → ports_owned r.
Proof.
  intros H. assert (ports_owned NewMemoryPortRegistry) as H0.
  { intros id b Hb. simpl in Hb. by rewrite lookup_empty in Hb. }
  revert H0. induction H as [|r1 r2 r3 H1 _ IH]; [done|]. intros Ho. eapply IH, port_step_owned; eauto.
Qed.

(** Reserved ports are exclusive.  In every state the port registry can reach,
    two bindings with the same protocol and external port are the same binding, and
    [Reserve] refuses the port of a binding to every other identifier. *)
Theorem ports_exclusive r id1 b1 :
  rtc port_step NewMemoryPortRegistry r → bindings r !! id1 = Some b1 →
  (∀ id2 b2, bindings r !! id2 = Some b2 → Binding_Protocol b2 = Binding_Protocol b1 →
     ExternalPort b2 = ExternalPort b1 → id2 = id1 ∧ b2 = b1) ∧
  (∀ b now, Binding_Protocol b = Binding_Protocol b1 → ExternalPort b = ExternalPort b1 →
     Binding_ID b ≠ id1 → Reserve r b now = (r, Err ErrPortConflict)).
Proof.
  intros Hr%ports_reachable H1. destruct (Hr id1 b1 H1) as (_ & _ & K1).
  assert (∀ b, Binding_Protocol b = Binding_Protocol b1 → ExternalPort b = ExternalPort b1 →
    external_key b = external_key b1) as Hkey by (intros b; unfold external_key; by intros -> ->).
  split.
  - intros id2 b2 H2 Hp He. destruct (Hr id2 b2 H2) as (_ & _ & K2).
    rewrite (Hkey b2 Hp He) in K2. split; congruence.
  - intros b now Hp He Hne. unfold Reserve, conflict. rewrite (Hkey b Hp He), K1.
    by rewrite bool_decide_false.
Qed.

(** A released port can stay blocked: two protocols of one project and port number
    share the generated identifier, and releasing it frees the second only. *)
Definition example_binding (protocol : string) : PortBinding :=
  mkBinding "" "p" "rt" "svc" 80 80 protocol Public "" "" time_zero time_zero.
Definition blocked_ports : MemoryPortRegistry :=
  (ReleasePort (Reserve (Reserve NewMemoryPortRegistry (example_binding "tcp") 1).1
                        (example_binding "udp") 2).1 "port_p_80").1.

Lemma released_port_blocked :
  bindings blocked_ports = ∅ ∧
  (Reserve blocked_ports (example_binding "tcp") 3).2 = Err ErrPortConflict.
Proof. split; vm_compute; reflexivity. Qed.

(** ** Witnesses *)

Definition one_port : MemoryPortRegistry :=
  (Reserve NewMemoryPortRegistry (example_binding "tcp") 1).1.

Lemma ports_exclusive_witness :
  is_Some (bindings one_port !! "port_p_80") ∧
  (Reserve one_port (example_binding "tcp") 3).2 = Err ErrPortConflict.
Proof.
  destruct (bindings one_port !! "port_p_80") as [b1|] eqn:Hb; [|vm_compute in Hb; done].
  split; [by eexists|].
  rewrite (proj2 (ports_exclusive one_port "port_p_80" b1
    (rtc_once _ _ (step_reserve _ _ _)) Hb)); [reflexivity|..|discriminate];
    vm_compute in Hb; by injection Hb as <-.
Defined.

Definition example_deployer (r : Z) : Manager unit :=
  let p := runtime.answering (runtime.mkExecResult r "" "broken") in
  mkManager (Some p) (Some (RuntimeDeploymentProvider (Some p)))
    (Some (λ c, mret (c, None))) None true (mret 5).
Definition example_deployment : Deployment :=
  zero_Deployment <| Deployment_ID := "d" |> <| Deployment_ProjectID := "p" |>
    <| Deployment_Status := DeploymentPending |>
    <| Deployment_Metadata := list_to_map
         [("build_argv", AnyStrings ["make"]); ("test_argv", AnyList [AnyString "test"]);
          ("health_target", AnyString "curl localhost")] |>.
Definition example_release : Release :=
  mkRelease "r1" "p" "abc" [] ∅ Development "" "" ReleaseCreated 1.
Definition example_config : EnvironmentConfig := mkConfig "p" Development ∅ [] 1 1 1 ∅.
Definition example_state : mstate :=
  NewManager <| deployments := {["d" := example_deployment]} |>.

Lemma example_state_keyed : keyed example_state.
Proof. by apply map_Forall_singleton. Qed.

Lemma Deploy_active_witness :
  ∃ out st', Deploy (example_deployer 0) "d" example_release example_config (example_state, tt)
    = ((out, None), (st', tt)) ∧ Deployment_Status out = DeploymentActive ∧ ReleaseID out = "".
Proof.
  destruct (Deploy (example_deployer 0) "d" example_release example_config (example_state, tt))
    as [[out err] [st' []]] eqn:E.
  assert (err = None) as -> by (vm_compute in E; by injection E).
  exists out, st'. split; [done|].
  destruct (Deploy_active (example_deployer 0) "d" example_release example_config example_state tt
    out st' tt example_state_keyed E) as (d & Hd & _ & _ & _ & Hs & _ & Hr & _).
  split; [exact Hs|]. rewrite Hr. vm_compute in Hd. by injection Hd as <-.
Defined.

(** Deploying the active deployment again. *)
Definition redeployed : mstate :=
  (Deploy (example_deployer 0) "d" example_release example_config (example_state, tt)).2.1.

Lemma Deploy_failure_witness :
  ∃ d out err st', deployments redeployed !! "d" = Some d ∧
    Deployment_Status d = DeploymentActive ∧
    Deploy (example_deployer 0) "d" example_release example_config (redeployed, tt)
      = ((out, Some err), (st', tt)) ∧
    Deployment_Status out = DeploymentFailed ∧ active st' !! "p" = Some "d".
Proof.
  destruct (deployments redeployed !! "d") as [d|] eqn:Hd; [|vm_compute in Hd; done].
  destruct (Deploy (example_deployer 0) "d" example_release example_config (redeployed, tt))
    as [[out err] [st' []]] eqn:E.
  destruct err as [err|]; [|vm_compute in E; done].
  exists d, out, err, st'. split; [done|].
  destruct (Deploy_failure (example_deployer 0) "d" example_release example_config redeployed tt d
    out err st' tt) as (Hs & _ & _ & Ha & _); [|exact Hd|exact E|].
  - unfold keyed. apply (bool_decide_eq_true_1 _). vm_compute. reflexivity.
  - split; [vm_compute in Hd; by injection Hd as <-|]. split; [done|]. split; [exact Hs|].
    rewrite Ha. vm_compute. reflexivity.
Defined.
