(* ===== verification/DeploymentFrame.v ===== *)
(** * Deployments: what the manager leaves alone

    However it ends, an operation of the manager of [Deployment.v] forgets no deployment
    and changes neither the project nor the metadata of one; the metadata are what the
    pipeline is configured with.  [evolves] relates the states before and after. *)

From S2P Require Import Prelude GoStrings World Runtime Float Deployment DeploymentFacts.
Import deployment.

(** What a deployment was asked for with. *)
Definition same_plan (d d' : Deployment) : Prop :=
  Deployment_ID d' = Deployment_ID d ∧ Deployment_ProjectID d' = Deployment_ProjectID d ∧
  Deployment_Metadata d' = Deployment_Metadata d.
#[global] Instance same_plan_preorder : PreOrder same_plan.
Proof. split; [by intros d|]. intros d1 d2 d3 (? & ? & ?) (? & ? & ?). split_and!; congruence. Qed.

(** The deployments are the same, each with the plan it had. *)
Definition evolves (st st' : mstate) : Prop :=
  ∀ id, option_Forall2 same_plan (deployments st !! id) (deployments st' !! id).
#[global] Instance evolves_preorder : PreOrder evolves.
Proof.
  split; [by intros st id; apply option_Forall2_refl|]. intros st1 st2 st3 H12 H23 id.
  specialize (H12 id). specialize (H23 id). revert H12 H23.
  destruct (deployments st1 !! id), (deployments st2 !! id), (deployments st3 !! id);
    inversion 1; inversion 1; constructor; by etrans.
Qed.

Lemma evolves_same st st' : deployments st' = deployments st → evolves st st'.
Proof. intros Hs id. rewrite Hs. by apply option_Forall2_refl. Qed.
Lemma evolves_insert st st' id d d' :
  deployments st !! id = Some d → same_plan d d' →
  deployments st' = <[id := d']> (deployments st) → evolves st st'.
Proof.
  intros Hd Hp Hs i. rewrite Hs. destruct (decide (id = i)) as [<-|Hne].
  - rewrite lookup_insert_eq, Hd. by constructor.
  - rewrite lookup_insert_ne by done. by apply option_Forall2_refl.
Qed.
Lemma evolves_known st st' id :
  evolves st st' → is_Some (deployments st !! id) → is_Some (deployments st' !! id).
Proof. intros He [d Hd]. specialize (He id). rewrite Hd in He. inversion He; by eexists. Qed.
Lemma evolves_back st st' id d' :
  evolves st st' → deployments st' !! id = Some d' → ∃ d, deployments st !! id = Some d ∧ same_plan d d'.
Proof. intros He Hd. specialize (He id). rewrite Hd in He. inversion He; eauto. Qed.
Lemma evolves_keyed st st' : evolves st st' → keyed st → keyed st'.
Proof. intros He Hk id d' Hd. apply (evolves_back _ _ _ _ He) in Hd as (d & Hd & -> & _). by apply Hk. Qed.
(** What is true of every plan stays true of every plan. *)
Lemma evolves_plans (P : string → gmap string any → Prop) st st' :
  evolves st st' → map_Forall (λ _ d, P (Deployment_ProjectID d) (Deployment_Metadata d)) (deployments st) →
  map_Forall (λ _ d, P (Deployment_ProjectID d) (Deployment_Metadata d)) (deployments st').
Proof. intros He Hp id d' Hd. apply (evolves_back _ _ _ _ He) in Hd as (d & Hd & _ & -> & ->). by apply (Hp id). Qed.

Section manager.
Context {W : Type} (s : Manager W).
Notation C A := (M (mstate * W) A).

Lemma restatus_plan status d d' : restatus status d d' → same_plan d d'.
Proof. by intros [t ->]. Qed.

Lemma transition_evolves id status (sw sw' : mstate * W) err :
  transition s id status sw = (err, sw') → evolves sw.1 sw'.1 ∧ active sw'.1 = active sw.1.
Proof.
  intros Ht%transition_cases. destruct err; [by destruct Ht as [-> _]|].
  destruct Ht as (d & d' & Hd & _ & Hr & Hds & Ha & _). split; [|done].
  eapply evolves_insert; [exact Hd|by eapply restatus_plan|exact Hds].
Qed.

Lemma fail_evolves id e (sw sw' : mstate * W) out :
  fail s id e sw = (out, sw') → is_Some (deployments sw.1 !! id) → evolves sw.1 sw'.1.
Proof.
  intros (d & sw1 & Hf & Hk)%mthen_inv [d0 Hd]. apply look_inv in Hf as [-> ->]. rewrite Hd in Hk. cbn [default] in Hk.
  apply mthen_inv in Hk as (now & sw2 & [_ Hs]%outside_inv & Hk).
  apply mthen_inv in Hk as (u & sw3 & ->%modify_inv & Hk).
  apply mthen_inv in Hk as (u' & sw4 & (He1 & _)%emit_inv & [_ <-]%mret_inv). rewrite Hs in He1.
  eapply evolves_insert; [exact Hd| |exact He1]. by split_and!.
Qed.

(** A step of a pipeline that forgets no deployment. *)
Definition evolving (id : string) (run : C (option goerror)) : Prop :=
  ∀ sw err sw', run sw = (err, sw') → keyed sw.1 → is_Some (deployments sw.1 !! id) → evolves sw.1 sw'.1.

Lemma activate_evolving d : evolving (Deployment_ID d) (activate s d).
Proof.
  intros sw err sw' (found & sw1 & Hf & Hk)%mthen_inv Hkey [d0 Hd].
  apply look_inv in Hf as [-> ->]. rewrite Hd in Hk. cbn [default] in Hk.
  apply mthen_inv in Hk as (now & sw2 & [_ Hs]%outside_inv & Hk).
  apply mthen_inv in Hk as (u & sw3 & ->%modify_inv & [_ <-]%mret_inv).
  unshelve eapply (evolves_insert _ _ (Deployment_ID d) d0 (d0 <| Deployment_Status := DeploymentActive |>
    <| Deployment_CompletedAt := Some now |> <| HealthStatus := "PASSED" |>) Hd); [by split_and!|].
  cbn. by rewrite Hs, (Hkey _ _ Hd).
Qed.

Lemma run_steps_evolves id (steps : list (DeploymentStatus * C (option goerror))) (sw sw' : mstate * W) out :
  Forall (evolving id ∘ snd) steps → run_steps s id steps sw = (out, sw') →
  keyed sw.1 → is_Some (deployments sw.1 !! id) → evolves sw.1 sw'.1.
Proof.
  intros Hl. revert sw. induction Hl as [|[status run] steps Hrun _ IH]; intros sw; cbn [run_steps].
  { intros [_ ->]%look_inv _ _. reflexivity. }
  intros (e1 & sw1 & [Ht _]%transition_evolves & Hk)%mthen_inv Hkey Hd.
  pose proof (evolves_known _ _ _ Ht Hd) as Hd1. pose proof (evolves_keyed _ _ Ht Hkey) as Hk1.
  destruct e1; [etrans; [exact Ht|by eapply fail_evolves]|].
  apply mthen_inv in Hk as (e2 & sw2 & Hr & Hk). specialize (Hrun _ _ _ Hr Hk1 Hd1).
  assert (evolves sw.1 sw2.1) as H2 by (etrans; [exact Ht|exact Hrun]).
  destruct e2.
  - etrans; [exact H2|]. eapply fail_evolves; [exact Hk|]. by apply (evolves_known sw.1).
  - etrans; [exact H2|]. apply IH; [exact Hk|by apply (evolves_keyed sw.1)|by apply (evolves_known sw.1)].
Qed.

(** Deploying and rolling back change no plan. *)
Lemma Deploy_evolves id r e (sw sw' : mstate * W) out :
  keyed sw.1 → Deploy s id r e sw = (out, sw') → evolves sw.1 sw'.1.
Proof.
  intros Hkey (found & sw1 & Hf & Hk)%mthen_inv. apply look_inv in Hf as [-> ->].
  destruct (deployments sw.1 !! id) as [d|] eqn:Hd; [|apply mret_inv in Hk as [_ <-]; reflexivity].
  eapply run_steps_evolves; [|exact Hk|done|by eexists]. fold (with_release d r).
  assert (Deployment_ID (with_release d r) = id) as Hid by (by apply (Hkey id d)).
  change (deploy_steps s (with_release d r) r e) with
    (map fst (provider_steps s (with_release d r) r e) ++ [(DeploymentActive, activate s (with_release d r))]).
  apply Forall_app. split.
  - apply (proj2 (List.Forall_map fst (evolving id ∘ snd) _)). eapply List.Forall_impl; [|apply provider_steps_keep].
    intros [[status run] R] Hr sw1 err sw2 Hx _ _. apply evolves_same. cbn in Hr. by rewrite (Hr _ _ _ Hx).
  - apply Forall_singleton. cbn. rewrite <-Hid at 1. apply activate_evolving.
Qed.

Lemma Rollback_evolves projectID target (sw sw' : mstate * W) out :
  Rollback s projectID target sw = (out, sw') → evolves sw.1 sw'.1 ∧ active sw'.1 = active sw.1.
Proof.
  intros (found & sw1 & Hf & Hk)%mthen_inv. apply look_inv in Hf as [-> ->].
  destruct (deployments sw.1 !! target) as [d|] eqn:Hd; [|by apply mret_inv in Hk as [_ <-]].
  destruct (Deployer s) as [p|]; [|by apply mret_inv in Hk as [_ <-]].
  apply mthen_inv in Hk as (err & sw2 & [_ Hs]%outside_inv & Hk).
  destruct err; [apply mret_inv in Hk as [_ <-]; by rewrite Hs|].
  apply mthen_inv in Hk as (terr & sw3 & [Ht Ha]%transition_evolves & Hk).
  apply mthen_inv in Hk as (u & sw4 & (He1 & He2 & _)%emit_inv & Hk). apply look_inv in Hk as [_ ->].
  rewrite Hs in Ht, Ha. rewrite He2. split; [|done]. etrans; [exact Ht|]. by apply evolves_same.
Qed.
End manager.
