(* ===== verification/Project.v ===== *)
(** * Projects and their lifecycle

    [src/domain/project/project.go], the project record with its state machine
    and slug, and [src/internal/lifecycle/service.go], which creates a project with
    its runtime and starts and stops it.  The table of projects is behind an
    interface, which [PgProjects.v] implements. *)

From Stdlib Require Import Ascii.
From S2P Require Import Prelude GoStrings World Runtime.

Module project.

(* src: domain/project/project.go:12-24 (Status) *)
Inductive Status :=
  | StatusCreating | StatusPreparing | StatusReady | StatusRunning | StatusStopping
  | StatusStopped | StatusRecovering | StatusFailed | StatusDestroyed
  | StatusOther (s : string).
#[global] Instance Status_eq_dec : EqDecision Status.
Proof. solve_decision. Defined.
Definition status_text (s : Status) : string :=
  match s with
  | StatusCreating => "CREATING" | StatusPreparing => "PREPARING" | StatusReady => "READY"
  | StatusRunning => "RUNNING" | StatusStopping => "STOPPING" | StatusStopped => "STOPPED"
  | StatusRecovering => "RECOVERING" | StatusFailed => "FAILED"
  | StatusDestroyed => "DESTROYED" | StatusOther s => s
  end.

(* src: domain/project/project.go:26-34 (Project) *)
Record Project := mkProject {
  ID : string;
  Name : string;
  Slug : string;
  Project_Status : Status;
  RuntimeID : string;
  CreatedAt : Z;
  UpdatedAt : Z
}.
#[global] Instance eta_Project : Eta Project := λ p,
  mkProject (ID p) (Name p) (Slug p) (Project_Status p) (RuntimeID p) (CreatedAt p) (UpdatedAt p).
Definition zero_Project : Project :=
  mkProject "" "" "" (StatusOther "") "" time_zero time_zero.

Definition ErrInvalidTransition : goerror := ErrorString "invalid project status transition".

(* src: domain/project/project.go:63-84 (allowed) *)
Definition allowed (from to : Status) : bool :=
  match from, to with
  | StatusCreating, (StatusPreparing | StatusFailed)
  | StatusPreparing, (StatusReady | StatusFailed)
  | StatusReady, (StatusRunning | StatusStopped | StatusFailed)
  | StatusRunning, (StatusStopping | StatusRecovering | StatusFailed)
  | StatusStopping, (StatusStopped | StatusFailed)
  | StatusStopped, (StatusRunning | StatusRecovering | StatusDestroyed)
  | StatusRecovering, (StatusReady | StatusRunning | StatusFailed)
  | StatusFailed, (StatusRecovering | StatusDestroyed) => true
  | _, _ => false
  end.

(** The project is left as it is when the transition is refused. *)
(* src: domain/project/project.go:54-61 (Transition) *)
Definition Transition (p : Project) (next : Status) (now : Z) : Project * option goerror :=
  if negb (allowed (Project_Status p) next)
  then (p, Some (WrapError (error_text ErrInvalidTransition +:+ ": " +:+
          status_text (Project_Status p) +:+ " -> " +:+ status_text next) ErrInvalidTransition))
  else (p <| Project_Status := next |> <| UpdatedAt := now |>, None).

(** ** The slug *)

Definition slug_byte (c : Ascii.ascii) : bool :=
  strings.in_range 97 122 c || strings.in_range 48 57 c.

(** The loop over the runes; every byte of a rune outside [a-z0-9] is outside
    too, and only the first of them can add a dash.  [last] is [lastDash] and
    [some] whether anything has been written. *)
(* src: domain/project/project.go:88-98 (slugify) *)
Fixpoint slug_loop (last some : bool) (s : string) : string :=
  match s with
  | EmptyString => EmptyString
  | String c s =>
      if slug_byte c then String c (slug_loop false true s)
      else if negb last && some then String "-"%char (slug_loop true some s)
      else slug_loop last some s
  end.

Definition TrimDashes (s : string) : string :=
  let fix left (s : string) :=
    match s with
    | String c r => if Ascii.eqb c "-"%char then left r else s
    | EmptyString => s
    end in
  strings.TrimRight (left s) "-".

(* src: domain/project/project.go:86-100 (slugify) *)
Definition slugify `{strings.GoUnicode} (value : string) : string :=
  TrimDashes (slug_loop false false (strings.ToLower (strings.TrimSpace value))).

(* src: domain/project/project.go:38-52 (New) *)
Definition New `{strings.GoUnicode} (name : string) (now : Z) : result Project :=
  let name := strings.TrimSpace name in
  if decide (name = "") then Err (ErrorString "project name is required")
  else Ok (mkProject ("proj_" +:+ pretty (UnixNano now)) name (slugify name) StatusCreating ""
             now now).

(** A slug: letters, digits and single dashes, with a dash at neither end. *)
Fixpoint slug_ok (dash_allowed : bool) (s : string) : bool :=
  match s with
  | EmptyString => true
  | String c EmptyString => slug_byte c
  | String c s => if slug_byte c then slug_ok true s
                  else Ascii.eqb c "-"%char && dash_allowed && slug_ok false s
  end.

(** As before the trailing dash is trimmed. *)
Fixpoint slug_pre (dash_allowed : bool) (s : string) : bool :=
  match s with
  | EmptyString => true
  | String c s => if slug_byte c then slug_pre true s
                  else Ascii.eqb c "-"%char && dash_allowed && slug_pre false s
  end.

Lemma slug_loop_pre last some s : slug_pre (negb last && some) (slug_loop last some s) = true.
Proof.
  revert last some. induction s as [|c s IH]; intros last some; simpl; [done|].
  destruct (slug_byte c) eqn:Hc; [simpl; rewrite Hc; apply (IH false true)|].
  destruct (negb last && some) eqn:Hb; [|rewrite <-Hb; apply IH].
  simpl. apply (IH true).
Qed.

Lemma slug_byte_dash c : slug_byte c = true → Ascii.eqb c "-"%char = false.
Proof.
  intros Hc. destruct (Ascii.eqb_spec c "-"%char) as [->|]; [vm_compute in Hc; done|done].
Qed.

Lemma TrimRight_slug d s : slug_pre d s = true → slug_ok d (strings.TrimRight s "-") = true.
Proof.
  revert d. induction s as [|c s IH]; intros d Hp; [done|].
  cbn [strings.TrimRight]. destruct (strings.forall_bytes _ (String c s)) eqn:Ha; [done|].
  cbn [slug_pre] in Hp.
  destruct (strings.TrimRight s "-") as [|c' s'] eqn:Ht.
  - simpl. destruct (slug_byte c) eqn:Hc; [done|]. exfalso.
    apply andb_true_iff in Hp as [[Hd _]%andb_true_iff _]. apply Ascii.eqb_eq in Hd as ->.
    destruct s as [|c2 s]; [vm_compute in Ha; done|]. cbn [strings.TrimRight] in Ht.
    destruct (strings.forall_bytes _ (String c2 s)) eqn:Ha2; [|done].
    cbn [strings.forall_bytes] in Ha, Ha2. by rewrite Ha2 in Ha.
  - change (slug_ok d (String c (String c' s'))) with
      (if slug_byte c then slug_ok true (String c' s')
       else Ascii.eqb c "-"%char && d && slug_ok false (String c' s')).
    destruct (slug_byte c); [by apply IH|].
    apply andb_true_iff in Hp as [-> Hp]. by apply IH.
Qed.

(** Every slug is one, though possibly the empty one. *)
Lemma slugify_ok `{strings.GoUnicode} value : slug_ok false (slugify value) = true.
Proof.
  unfold slugify, TrimDashes. set (t := slug_loop _ _ _).
  pose proof (slug_loop_pre false false (strings.ToLower (strings.TrimSpace value))) as Hp.
  fold t in Hp. simpl in Hp. destruct t as [|c t]; [done|].
  assert (slug_byte c = true) as Hc.
  { cbn [slug_pre] in Hp. destruct (slug_byte c); [done|]. by rewrite andb_false_r in Hp. }
  rewrite (slug_byte_dash c Hc). by apply TrimRight_slug.
Qed.

(** A name without Latin letters or digits has the empty slug: two such projects
    collide in the table, where the slug is unique. *)
Lemma slugify_empty : slugify (H:=strings.ascii_unicode) "???" = "".
Proof. vm_compute. reflexivity. Qed.

(** ** The lifecycle service *)

(** The table of projects, [postgres.Projects]. *)
Record Projects (W : Type) := mkProjects {
  Projects_Create : Project → M W (option goerror);
  Projects_Update : Project → M W (option goerror);
  Projects_Get : string → M W (result Project)
}.
Arguments mkProjects {W}.
Arguments Projects_Create {W}.
Arguments Projects_Update {W}.
Arguments Projects_Get {W}.

(* src: internal/lifecycle/service.go:13-17 (Service) *)
Record Service (W : Type) := mkService {
  Service_Projects : Projects W;
  Service_Runtime : runtime.Provider W;
  Now : M W Z
}.
Arguments mkService {W}.
Arguments Service_Projects {W}.
Arguments Service_Runtime {W}.
Arguments Now {W}.

Section service.
Context {W : Type} `{strings.GoUnicode} (s : Service W).

(** A call that ends the method on an error. *)
Definition orElse (m : M W (option goerror)) (k : M W (Project * option goerror))
    : M W (Project * option goerror) :=
  let! err := m in
  match err with Some e => mret (zero_Project, Some e) | None => k end.

Definition move (p : Project) (next : Status) (k : Project → M W (Project * option goerror))
    : M W (Project * option goerror) :=
  let! now := Now s in
  let '(p, err) := Transition p next now in
  match err with Some e => mret (zero_Project, Some e) | None => k p end.

(* src: internal/lifecycle/service.go:19-48 (Create) *)
Definition Create (name : string) : M W (Project * option goerror) :=
  let! now := Now s in
  match New name now with
  | Err e => mret (zero_Project, Some e)
  | Ok p =>
      orElse (Projects_Create (Service_Projects s) p)
        (move p StatusPreparing (λ p,
           orElse (Projects_Update (Service_Projects s) p)
             (let! (rt, err) := runtime.Create (Service_Runtime s)
                (runtime.mkSpec ("suda-" +:+ Slug p) "" 1 1073741824 10737418240 "controlled") in
              match err with
              | Some e =>
                  let! now := Now s in
                  let p := (Transition p StatusFailed now).1 in
                  let! _ := Projects_Update (Service_Projects s) p in
                  mret (zero_Project, Some (wrap_prefix "create project runtime: " e))
              | None =>
                  let p := p <| RuntimeID := runtime.Runtime_ID rt |> in
                  move p StatusReady (λ p,
                    orElse (Projects_Update (Service_Projects s) p) (mret (p, None)))
              end)))
  end.

(** The runtime is asked first, the state machine after. *)
(* src: internal/lifecycle/service.go:50-77 (ChangeStatus) *)
Definition ChangeStatus (id : string) (next : Status) : M W (Project * option goerror) :=
  let! got := Projects_Get (Service_Projects s) id in
  match got with
  | Err e => mret (zero_Project, Some e)
  | Ok p =>
      if decide (RuntimeID p = "")
      then mret (zero_Project, Some (ErrorString ("project " +:+ id +:+ " has no runtime")))
      else
        orElse match next with
               | StatusRunning => runtime.Start (Service_Runtime s) (RuntimeID p)
               | StatusStopped => runtime.Stop (Service_Runtime s) (RuntimeID p)
               | _ => mret (Some (ErrorString ("unsupported requested transition: " +:+
                                               status_text next)))
               end
          (move p next (λ p,
             orElse (Projects_Update (Service_Projects s) p) (mret (p, None))))
  end.

(** ** Properties *)

Lemma project_orElse_ok m k w p w' :
  orElse m k w = ((p, None), w') → ∃ w1, m w = (None, w1) ∧ k w1 = ((p, None), w').
Proof.
  intros (err & w1 & Hm & Hk)%mthen_inv. destruct err; [by apply mret_inv in Hk as [[=] _]|eauto].
Qed.

Lemma move_ok p next k w out w' :
  move p next k w = ((out, None), w') →
  allowed (Project_Status p) next = true ∧ ∃ t w1, Now s w = (t, w1) ∧
    k (p <| Project_Status := next |> <| UpdatedAt := t |>) w1 = ((out, None), w').
Proof.
  intros (t & w1 & Hn & Hk)%mthen_inv. unfold Transition in Hk.
  destruct (allowed _ _); simpl in Hk; [eauto|by apply mret_inv in Hk as [[=] _]].
Qed.

(** Changing the status of a project.  A change that succeeds was asked for
    RUNNING or STOPPED on a project with a runtime, was one the state machine
    allows, and started or stopped the runtime before the project was stored with
    the new status. *)
Theorem ChangeStatus_allowed id next w out w' :
  ChangeStatus id next w = ((out, None), w') →
  ∃ p w1 w2 w3 t, Projects_Get (Service_Projects s) id w = (Ok p, w1) ∧ RuntimeID p ≠ "" ∧
    ((next = StatusRunning ∧ runtime.Start (Service_Runtime s) (RuntimeID p) w1 = (None, w2)) ∨
     (next = StatusStopped ∧ runtime.Stop (Service_Runtime s) (RuntimeID p) w1 = (None, w2))) ∧
    allowed (Project_Status p) next = true ∧ Now s w2 = (t, w3) ∧
    out = p <| Project_Status := next |> <| UpdatedAt := t |> ∧
    Projects_Update (Service_Projects s) out w3 = (None, w').
Proof.
  intros (got & w1 & Hg & Hk)%mthen_inv.
  destruct got as [p|]; [|by apply mret_inv in Hk as [[=] _]].
  destruct (decide (RuntimeID p = "")) as [|Hr]; [by apply mret_inv in Hk as [[=] _]|].
  apply project_orElse_ok in Hk as (w2 & Hrt & Hk).
  apply move_ok in Hk as (Ha & t & w3 & Hn & Hk).
  apply project_orElse_ok in Hk as (w4 & Hu & [[= <-] <-]%mret_inv).
  exists p, w1, w2, w3, t. split_and!; try done.
  destruct next; try (by apply mret_inv in Hrt as [[=] _]); auto.
Qed.

(** A running project cannot be stopped.  Asking for STOPPED on a project
    stored as RUNNING stops its runtime and then fails, because the state machine
    leads from RUNNING to STOPPING only and the service never asks for that: the
    project is not updated and stays RUNNING. *)
Theorem stop_running_project_fails id w p w1 w2 :
  Projects_Get (Service_Projects s) id w = (Ok p, w1) → Project_Status p = StatusRunning →
  RuntimeID p ≠ "" → runtime.Stop (Service_Runtime s) (RuntimeID p) w1 = (None, w2) →
  ∃ e, ChangeStatus id StatusStopped w = ((zero_Project, Some e), (Now s w2).2) ∧
    errors_is e ErrInvalidTransition = true.
Proof.
  intros Hg Hs Hr Hstop. unfold ChangeStatus, mthen at 1. rewrite Hg, decide_False by done.
  unfold orElse, mthen at 1. rewrite Hstop. unfold move, mthen at 1, Transition. rewrite Hs.
  destruct (Now s w2) as [t w3]. by eexists.
Qed.

(** What creating a project that succeeds did. *)
Lemma Create_ok name w out w' :
  Create name w = ((out, None), w') →
  Project_Status out = StatusReady ∧ Name out = strings.TrimSpace name ∧
  Slug out = slugify (Name out) ∧
  ∃ rt w1 w2, runtime.Create (Service_Runtime s)
    (runtime.mkSpec ("suda-" +:+ Slug out) "" 1 1073741824 10737418240 "controlled") w1
      = ((rt, None), w2) ∧ RuntimeID out = runtime.Runtime_ID rt.
Proof.
  intros (now & w1 & _ & Hk)%mthen_inv. unfold New in Hk.
  destruct (decide (strings.TrimSpace name = "")); [by apply mret_inv in Hk as [[=] _]|].
  apply project_orElse_ok in Hk as (w2 & _ & Hk). apply move_ok in Hk as (_ & t & w3 & _ & Hk).
  apply project_orElse_ok in Hk as (w4 & _ & Hk).
  apply mthen_inv in Hk as ([rt err] & w5 & Hc & Hk). destruct err as [e|].
  { apply mthen_inv in Hk as (? & ? & _ & Hk). apply mthen_inv in Hk as (? & ? & _ & Hk).
    by apply mret_inv in Hk as [[=] _]. }
  apply move_ok in Hk as (_ & t' & w6 & _ & Hk).
  apply project_orElse_ok in Hk as (w7 & _ & [[= <-] _]%mret_inv). simpl in *.
  split_and!; try done. eauto.
Qed.
End service.
End project.

(** ** Witnesses *)

(** A table with one project; the world is that project. *)
Definition one_project : project.Projects project.Project :=
  project.mkProjects (λ _, mret None) (λ p _, (None, p)) (λ _ p, (Ok p, p)).
Definition example_service : project.Service project.Project :=
  project.mkService one_project (runtime.answering runtime.zero_ExecResult) (mret 9).
Definition example_project (st : project.Status) : project.Project :=
  project.mkProject "proj_1" "demo" "demo" st "rt" 1 1.

Lemma ChangeStatus_allowed_witness :
  ∃ out w', project.ChangeStatus example_service "proj_1" project.StatusRunning
      (example_project project.StatusReady) = ((out, None), w') ∧
    ∃ p t, project.allowed (project.Project_Status p) project.StatusRunning = true ∧
      out = p <| project.Project_Status := project.StatusRunning |> <| project.UpdatedAt := t |>.
Proof.
  destruct (project.ChangeStatus example_service "proj_1" project.StatusRunning
    (example_project project.StatusReady)) as [[out err] w'] eqn:E.
  assert (err = None) as -> by (vm_compute in E; by injection E).
  exists out, w'. split; [done|].
  destruct (project.ChangeStatus_allowed example_service _ _ _ _ _ E)
    as (p & ? & ? & ? & t & _ & _ & _ & Ha & _ & Ho & _). eauto.
Defined.

Lemma stop_running_project_fails_witness :
  ∃ e w', project.ChangeStatus example_service "proj_1" project.StatusStopped
      (example_project project.StatusRunning) = ((project.zero_Project, Some e), w') ∧
    errors_is e project.ErrInvalidTransition = true.
Proof.
  destruct (project.stop_running_project_fails example_service "proj_1"
    (example_project project.StatusRunning) (example_project project.StatusRunning)
    (example_project project.StatusRunning) (example_project project.StatusRunning))
    as (e & He & Hi); [reflexivity|reflexivity|discriminate|reflexivity|eauto].
Defined.
