(* ===== verification/Auth.v ===== *)
(** * Sessions and project permissions

    [src/internal/auth]: session tokens ([sessions.go]) over the table of sessions
    that [postgres.go] reads and writes, users as far as sessions and permissions
    need them ([types.go]), and project memberships ([memberships.go]).

    The SQL of the session repository is part of the source, and its five
    statements are modelled on a table of rows, with the constraints of
    [src/migrations/014_authentication.sql]; what the database does with a text
    it stores as [inet], and the error it reports for a violated constraint, are
    parameters.  Times are stored to the microsecond. *)

From Stdlib Require Import Ascii.
From S2P Require Import Prelude GoStrings World.
Import crypto.

Module auth.

(* src: internal/auth/types.go:8-15 (GlobalRole) *)
Inductive GlobalRole := RoleAdmin | RoleOperator | RoleMember | RoleViewer | RoleOther (s : string).
#[global] Instance GlobalRole_eq_dec : EqDecision GlobalRole.
Proof. solve_decision. Defined.

(* src: internal/auth/types.go:17-26 (User) *)
Record User := mkUser {
  User_ID : string;
  Email : string;
  DisplayName : string;
  Role : GlobalRole;
  User_Status : string;
  User_CreatedAt : Z;
  User_UpdatedAt : Z;
  LastLoginAt : option Z
}.

(* src: internal/auth/types.go:28-37 (Session) *)
Record Session := mkSession {
  Session_ID : string;
  Session_UserID : string;
  CreatedAt : Z;
  ExpiresAt : Z;
  LastSeenAt : option Z;
  RevokedAt : option Z;
  UserAgent : string;
  IPAddress : string
}.
Definition zero_Session : Session := mkSession "" "" time_zero time_zero None None "" "".

(* src: internal/auth/types.go:39-44 (SessionInput) *)
Record SessionInput := mkInput {
  Input_UserID : string;
  Input_TTL : Z;
  Input_UserAgent : string;
  Input_IPAddress : string
}.

(* src: internal/auth/types.go:46-53 (SessionRepository) *)
Record SessionRepository (W : Type) := mkRepository {
  CreateSession : Session → string → M W (option goerror);
  FindActiveSession : string → Z → M W (result Session);
  TouchSession : string → Z → M W (option goerror);
  RevokeSession : string → Z → M W (option goerror);
  RevokeAllUserSessions : string → Z → M W (option goerror);
  DeleteExpiredSessions : Z → M W (option goerror)
}.
Arguments mkRepository {W}.
Arguments CreateSession {W}.
Arguments FindActiveSession {W}.
Arguments TouchSession {W}.
Arguments RevokeSession {W}.
Arguments RevokeAllUserSessions {W}.
Arguments DeleteExpiredSessions {W}.

(** ** Tokens *)

(** [crypto/rand.Read] on a buffer: as many bytes as it has, or an error. *)
Class Random (W : Type) := {
  rand_Read : nat → M W (result string);
  rand_Read_length n w b w' : rand_Read n w = (Ok b, w') → String.length b = n
}.

(** [base64.RawURLEncoding]: six bits a character, no padding. *)
Definition url_alphabet : string :=
  "ABCDEFGHIJKLMNOPQRSTUVWXYZabcdefghijklmnopqrstuvwxyz0123456789-_".
Definition url_char (n : nat) : ascii := default "A"%char (String.get (n mod 64) url_alphabet).
Fixpoint RawURLEncoding (s : string) : string :=
  let b := nat_of_ascii in
  match s with
  | EmptyString => EmptyString
  | String x EmptyString =>
      String (url_char (b x / 4)) (String (url_char (b x mod 4 * 16)) EmptyString)
  | String x (String y EmptyString) =>
      String (url_char (b x / 4)) (String (url_char (b x mod 4 * 16 + b y / 16))
        (String (url_char (b y mod 16 * 4)) EmptyString))
  | String x (String y (String z s)) =>
      String (url_char (b x / 4)) (String (url_char (b x mod 4 * 16 + b y / 16))
        (String (url_char (b y mod 16 * 4 + b z / 64)) (String (url_char (b z mod 64))
          (RawURLEncoding s))))
  end%nat.

(** ** The session service *)

Definition ErrInvalidSession : goerror := ErrorString "invalid or expired session".
Definition ErrInvalidTTL : goerror := ErrorString "session ttl must be positive".
Definition DefaultSessionTTL : Z := 24 * 3600 * 10 ^ 9.
Definition SessionTokenBytes : nat := 32.

(* src: internal/auth/sessions.go:23-27 (SessionService) *)
Record SessionService (W : Type) := mkSessions {
  Repository : option (SessionRepository W);
  Sessions_Now : option (M W Z);
  TTL : Z
}.
Arguments mkSessions {W}.
Arguments Repository {W}.
Arguments Sessions_Now {W}.
Arguments TTL {W}.

Section sessions.
Context {W : Type} `{World W} `{Random W} `{Sha256} (s : SessionService W).

(* src: internal/auth/sessions.go:29-34 (now) *)
Definition now : M W Z := default time_Now (Sessions_Now s).

(* src: internal/auth/sessions.go:36-41 (ttl) *)
Definition ttl : Z := if 0 <? TTL s then TTL s else DefaultSessionTTL.

(* src: internal/auth/sessions.go:122-128 (randomToken) *)
Definition randomToken : M W (result string) :=
  let! buf := rand_Read SessionTokenBytes in
  mret (let? buf := buf in Ok (RawURLEncoding buf)).

(* src: internal/auth/sessions.go:130-136 (randomID) *)
Definition randomID : M W (result string) :=
  let! buf := rand_Read 16 in
  mret (let? buf := buf in Ok (RawURLEncoding buf)).

(* src: internal/auth/sessions.go:138-141 (hashToken) *)
Definition hashToken (token : string) : string := sha256 token.

Definition failed (e : goerror) : M W (Session * string * option goerror) :=
  mret (zero_Session, "", Some e).

(* src: internal/auth/sessions.go:45-81 (Create) *)
Definition Create (input : SessionInput) : M W (Session * string * option goerror) :=
  match Repository s with
  | None => failed (ErrorString "session repository is required")
  | Some repository =>
      if decide (strings.TrimSpace (Input_UserID input) = "")
      then failed (ErrorString "user id is required")
      else
        let ttl := if Input_TTL input =? 0 then ttl else Input_TTL input in
        if ttl <=? 0 then failed ErrInvalidTTL
        else
          let! token := randomToken in
          match token with
          | Err e => failed e
          | Ok token =>
              let! t := now in
              let! sessionID := randomID in
              match sessionID with
              | Err e => failed e
              | Ok sessionID =>
                  let session := mkSession sessionID (Input_UserID input) t (t + ttl) None None
                    (Input_UserAgent input) (Input_IPAddress input) in
                  let! err := CreateSession repository session (hashToken token) in
                  match err with
                  | Some e => failed e
                  | None => mret (session, token, None)
                  end
              end
          end
  end.

(** The checks the other methods share. *)
Definition with_repository {A} (invalid : A) (arg : string)
    (k : SessionRepository W → M W A) : M W A :=
  match Repository s with
  | None => mret invalid
  | Some repository => if decide (strings.TrimSpace arg = "") then mret invalid else k repository
  end.

(* src: internal/auth/sessions.go:83-92 (Authenticate) *)
Definition Authenticate (token : string) : M W (result Session) :=
  with_repository (Err ErrInvalidSession) token (λ repository,
    let! t := now in
    let! found := FindActiveSession repository (hashToken token) t in
    mret match found with Ok session => Ok session | Err _ => Err ErrInvalidSession end).

(* src: internal/auth/sessions.go:94-99 (Touch) *)
Definition Touch (sessionID : string) : M W (option goerror) :=
  with_repository (Some ErrInvalidSession) sessionID (λ repository,
    let! t := now in TouchSession repository sessionID t).

(* src: internal/auth/sessions.go:101-106 (Revoke) *)
Definition Revoke (token : string) : M W (option goerror) :=
  with_repository (Some ErrInvalidSession) token (λ repository,
    let! t := now in RevokeSession repository (hashToken token) t).

(* src: internal/auth/sessions.go:108-113 (RevokeAll) *)
Definition RevokeAll (userID : string) : M W (option goerror) :=
  with_repository (Some ErrInvalidSession) userID (λ repository,
    let! t := now in RevokeAllUserSessions repository userID t).

(* src: internal/auth/sessions.go:115-120 (Cleanup) *)
Definition Cleanup : M W (option goerror) :=
  match Repository s with
  | None => mret (Some (ErrorString "session repository is required"))
  | Some repository => let! t := now in DeleteExpiredSessions repository t
  end.
End sessions.

(** ** The table of sessions *)

Definition ErrSessionNotFound : goerror := ErrorString "session not found".

Record SessionRow := mkRow {
  row_id : string;
  row_user_id : string;
  row_token_hash : string;
  row_created_at : Z;
  row_expires_at : Z;
  row_last_seen_at : option Z;
  row_revoked_at : option Z;
  row_user_agent : string;
  row_ip_address : option string
}.
#[global] Instance eta_Row : Eta SessionRow := λ r,
  mkRow (row_id r) (row_user_id r) (row_token_hash r) (row_created_at r) (row_expires_at r)
    (row_last_seen_at r) (row_revoked_at r) (row_user_agent r) (row_ip_address r).

(** The users sessions may refer to, and the sessions. *)
Record database := mkDatabase { users : gset string; sessions : list SessionRow }.
#[global] Instance eta_database : Eta database := λ d, mkDatabase (users d) (sessions d).

(** The database's reading of a text as [inet], back as [host()] prints it, and
    its error for a violated constraint. *)
Class Postgres := { inet : string → option string; violation : goerror }.

(** A [timestamptz] in nanoseconds. *)
Definition micros (t : Z) : Z := t / 1000 * 1000.

Section repository.
Context {W : Type} `{Postgres}.
Notation C A := (M (database * W) A).

(** The constraints of the table: keys, the reference to users and the check. *)
Definition insertable (d : database) (r : SessionRow) : bool :=
  forallb (λ q, negb (bool_decide (row_id q = row_id r)) &&
                negb (bool_decide (row_token_hash q = row_token_hash r))) (sessions d) &&
  bool_decide (row_user_id r ∈ users d) && (row_created_at r <? row_expires_at r).

(* src: internal/auth/postgres.go:17-26 (CreateSession) *)
Definition pg_CreateSession (session : Session) (tokenHash : string) : C (option goerror) :=
  inside (λ d,
    let ip := if decide (IPAddress session = "") then Some None
              else Some <$> inet (IPAddress session) in
    match ip with
    | None => (Some violation, d)
    | Some ip =>
        let r := mkRow (Session_ID session) (Session_UserID session) tokenHash
          (micros (CreatedAt session)) (micros (ExpiresAt session)) None None
          (UserAgent session) ip in
        if insertable d r then (None, d <| sessions := sessions d ++ [r] |>)
        else (Some violation, d)
    end).

(** [revoked_at IS NULL AND expires_at > now] *)
Definition is_active (t : Z) (r : SessionRow) : bool :=
  bool_decide (row_revoked_at r = None) && (micros t <? row_expires_at r).

Definition of_row (r : SessionRow) : Session :=
  mkSession (row_id r) (row_user_id r) (row_created_at r) (row_expires_at r)
    (row_last_seen_at r) (row_revoked_at r) (row_user_agent r) (default "" (row_ip_address r)).

(* src: internal/auth/postgres.go:28-59 (FindActiveSession) *)
Definition pg_FindActiveSession (tokenHash : string) (t : Z) : C (result Session) :=
  look (λ d, match filter (λ r, row_token_hash r = tokenHash ∧ is_active t r = true) (sessions d) with
             | r :: _ => Ok (of_row r)
             | [] => Err ErrSessionNotFound
             end).

(** [UPDATE sessions SET ... WHERE ...] *)
Definition update (P : SessionRow → bool) (f : SessionRow → SessionRow) (d : database) : database :=
  d <| sessions := (λ r, if P r then f r else r) <$> sessions d |>.

(* src: internal/auth/postgres.go:61-71 (TouchSession) *)
Definition pg_TouchSession (sessionID : string) (t : Z) : C (option goerror) :=
  let! _ := modify (update (λ r, bool_decide (row_id r = sessionID) && is_active t r)
                      (λ r, r <| row_last_seen_at := Some (micros t) |>)) in
  mret None.

(* src: internal/auth/postgres.go:73-82 (RevokeSession) *)
Definition pg_RevokeSession (tokenHash : string) (t : Z) : C (option goerror) :=
  let! _ := modify (update (λ r, bool_decide (row_token_hash r = tokenHash) &&
                                 bool_decide (row_revoked_at r = None))
                      (λ r, r <| row_revoked_at := Some (micros t) |>)) in
  mret None.

(* src: internal/auth/postgres.go:84-93 (RevokeAllUserSessions) *)
Definition pg_RevokeAllUserSessions (userID : string) (t : Z) : C (option goerror) :=
  let! _ := modify (update (λ r, bool_decide (row_user_id r = userID) &&
                                 bool_decide (row_revoked_at r = None))
                      (λ r, r <| row_revoked_at := Some (micros t) |>)) in
  mret None.

Definition is_expired (t : Z) (r : SessionRow) : bool :=
  (row_expires_at r <=? micros t) ||
  match row_revoked_at r with Some v => v <=? micros t | None => false end.

(* src: internal/auth/postgres.go:95-104 (DeleteExpiredSessions) *)
Definition pg_DeleteExpiredSessions (t : Z) : C (option goerror) :=
  let! _ := modify (λ d, d <| sessions := filter (λ r, is_expired t r = false) (sessions d) |>) in
  mret None.

(* src: internal/auth/postgres.go:13-15 (PostgresSessionRepository) *)
Definition PostgresSessionRepository : SessionRepository (database * W) :=
  mkRepository pg_CreateSession pg_FindActiveSession pg_TouchSession pg_RevokeSession
    pg_RevokeAllUserSessions pg_DeleteExpiredSessions.
End repository.

(** ** Permissions *)

(* src: internal/auth/memberships.go:12-19 (ProjectPermission) *)
Inductive ProjectPermission :=
  | PermissionRead | PermissionEdit | PermissionRun | PermissionDeploy
  | PermissionOther (s : string).
#[global] Instance ProjectPermission_eq_dec : EqDecision ProjectPermission.
Proof. solve_decision. Defined.

(* src: internal/auth/memberships.go:21-27 (ProjectMembership) *)
Record ProjectMembership := mkMembership {
  Membership_ProjectID : string;
  Membership_UserID : string;
  Membership_Role : string;
  Membership_CreatedAt : Z;
  Membership_UpdatedAt : Z
}.

Definition ErrMembershipNotFound : goerror := ErrorString "project membership not found".
Definition ErrProjectPermissionDenied : goerror := ErrorString "project permission denied".

(* src: internal/auth/memberships.go:166-179 (projectPermissionAllowed) *)
Definition projectPermissionAllowed (role : string) (permission : ProjectPermission) : bool :=
  match permission with
  | PermissionRead => bool_decide (role ∈ ["owner"; "editor"; "runner"; "viewer"])
  | PermissionEdit => bool_decide (role ∈ ["owner"; "editor"])
  | PermissionRun => bool_decide (role ∈ ["owner"; "editor"; "runner"])
  | PermissionDeploy => bool_decide (role = "owner")
  | PermissionOther _ => false
  end.

(** The service, as far as it is modelled: the lookups of users and memberships
    that requests make, each repository nil or present, and the sessions. *)
(* src: internal/auth/users.go:135-140 (AuthService) *)
Record AuthService (W : Type) := mkAuth {
  FindByID : option (string → M W (User * option goerror));
  Sessions : SessionService W;
  GetMembership : option (string → string → M W (result ProjectMembership))
}.
Arguments mkAuth {W}.
Arguments FindByID {W}.
Arguments Sessions {W}.
Arguments GetMembership {W}.

(* src: internal/auth/users.go:196-201 (CurrentUser) *)
Definition CurrentUser {W} (s : AuthService W) (session : Session) : M W (User * option goerror) :=
  match FindByID s with
  | None => mret (mkUser "" "" "" (RoleOther "") "" time_zero time_zero None,
                  Some (ErrorString "user repository is required"))
  | Some find => find (Session_UserID session)
  end.

(* src: internal/auth/memberships.go:146-164 (RequireProjectAccess) *)
Definition RequireProjectAccess {W} (s : AuthService W) (user : User) (projectID : string)
    (permission : ProjectPermission) : M W (option goerror) :=
  if bool_decide (Role user = RoleAdmin) || bool_decide (Role user = RoleOperator)
  then mret None
  else match GetMembership s with
       | None => mret (Some (ErrorString "membership repository is required"))
       | Some get =>
           let! membership := get projectID (User_ID user) in
           mret match membership with
                | Err e => Some (if errors_is e ErrMembershipNotFound
                                 then ErrProjectPermissionDenied else e)
                | Ok m => if projectPermissionAllowed (Membership_Role m) permission then None
                          else Some ErrProjectPermissionDenied
                end
       end.
End auth.
