(* ===== verification/AuthFacts.v ===== *)
(** * Sessions: the lifetime of a token *)

From Stdlib Require Import Ascii.
From S2P Require Import Prelude GoStrings World Auth.
Import crypto auth.

(** ** Tokens are not blank *)

Lemma url_char_not_space n r : strings.space_width (String (url_char n) r) = 0%nat.
Proof.
  unfold url_char. pose proof (Nat.mod_upper_bound n 64 ltac:(lia)) as Hb.
  remember (n mod 64)%nat as m eqn:Hm. clear Hm.
  do 64 (destruct m as [|m]; [vm_compute; reflexivity|]). lia.
Qed.

Lemma TrimSpace_url n r : strings.TrimSpace (String (url_char n) r) ≠ "".
Proof.
  unfold strings.TrimSpace.
  assert (strings.trim_left 0 (String (url_char n) r) = String (url_char n) r) as Ht.
  { cbn [strings.trim_left]. by rewrite url_char_not_space. }
  rewrite Ht. cbn [strings.trim_right]. rewrite Ht. simpl. done.
Qed.

Lemma RawURLEncoding_not_blank s : s ≠ "" → strings.TrimSpace (RawURLEncoding s) ≠ "".
Proof.
  destruct s as [|x [|y [|z s]]]; [done|intros _..];
    cbn [RawURLEncoding]; apply TrimSpace_url.
Qed.

(** ** The rows of one token *)

Definition rows (h : string) (d : database) : list SessionRow :=
  filter (λ r, row_token_hash r = h) (sessions d).

Lemma rows_update h P f d :
  (∀ r, row_token_hash (f r) = row_token_hash r) →
  rows h (update P f d) = (λ r, if P r then f r else r) <$> rows h d.
Proof.
  intros Hf. unfold rows, update. simpl. induction (sessions d) as [|r l IH]; [done|].
  rewrite fmap_cons, !filter_cons, IH.
  assert (row_token_hash (if P r then f r else r) = row_token_hash r) as -> by (by destruct (P r)).
  by case_decide.
Qed.

Section table.
Context `{Postgres}.

Lemma rows_none h d : (∀ q, q ∈ sessions d → row_token_hash q ≠ h) → rows h d = [].
Proof.
  unfold rows. induction (sessions d) as [|q l IH]; intros Hq; [done|].
  rewrite filter_cons_False by (apply Hq; by left). apply IH. intros q' Hq'. apply Hq. by right.
Qed.

(** What the program does to the table, one statement after another. *)
Inductive session_op :=
  | OpCreate (session : Session) (hash : string)
  | OpTouch (id : string) (t : Z)
  | OpRevoke (hash : string) (t : Z)
  | OpRevokeAll (user : string) (t : Z)
  | OpDelete (t : Z).

Definition apply_op (d : database) (op : session_op) : database :=
  let run {A} (c : M (database * unit) A) := (c (d, tt)).2.1 in
  let repository := PostgresSessionRepository (W:=unit) in
  match op with
  | OpCreate session hash => run (CreateSession repository session hash)
  | OpTouch id t => run (TouchSession repository id t)
  | OpRevoke hash t => run (RevokeSession repository hash t)
  | OpRevokeAll user t => run (RevokeAllUserSessions repository user t)
  | OpDelete t => run (DeleteExpiredSessions repository t)
  end.

(** The statement leaves a session of the user with the hash and expiry alone. *)
Definition spares (h user : string) (expires : Z) (op : session_op) : Prop :=
  match op with
  | OpCreate _ _ | OpTouch _ _ => True
  | OpRevoke h' _ => h' ≠ h
  | OpRevokeAll u _ => u ≠ user
  | OpDelete t => micros t < expires
  end.
Definition reissues (h : string) (op : session_op) : Prop :=
  match op with OpCreate _ h' => h' = h | _ => False end.

(** The row of a session that can still authenticate. *)
Definition live (h id user : string) (expires : Z) (d : database) : Prop :=
  ∃ r, rows h d = [r] ∧ row_token_hash r = h ∧ row_id r = id ∧ row_user_id r = user ∧
    row_expires_at r = expires ∧ row_revoked_at r = None.
Definition dead (h : string) (d : database) : Prop :=
  Forall (λ r, row_revoked_at r ≠ None) (rows h d).

Lemma rows_create h session h' d :
  h' ≠ h → rows h (apply_op d (OpCreate session h')) = rows h d.
Proof.
  intros Hne. unfold apply_op, PostgresSessionRepository, pg_CreateSession, inside, rows. simpl.
  destruct (if decide _ then _ else _) as [ip|]; [|done].
  destruct (insertable _ _); [|done]. simpl. rewrite filter_app, filter_cons_False by done.
  by rewrite filter_nil, app_nil_r.
Qed.

Lemma rows_delete h t d :
  rows h (apply_op d (OpDelete t)) = filter (λ r, is_expired t r = false) (rows h d).
Proof.
  unfold rows. simpl. rewrite !list_filter_filter. apply list_filter_iff. tauto.
Qed.

Lemma live_step h id user expires d op :
  live h id user expires d → ¬ reissues h op → spares h user expires op →
  live h id user expires (apply_op d op).
Proof.
  intros (r & Hr & Hh & Hid & Hu & He & Hrev) Hno Hs. unfold live.
  destruct op as [session h'|id' t|h' t|u t|t]; simpl in Hno, Hs.
  - rewrite rows_create by done. eauto 10.
  - change (apply_op d (OpTouch id' t)) with (update
      (λ r, bool_decide (row_id r = id') && is_active t r)
      (λ r, r <| row_last_seen_at := Some (micros t) |>) d).
    rewrite rows_update by done. rewrite Hr. simpl. eexists. split; [done|].
    by destruct (bool_decide _ && _).
  - change (apply_op d (OpRevoke h' t)) with (update
      (λ r, bool_decide (row_token_hash r = h') && bool_decide (row_revoked_at r = None))
      (λ r, r <| row_revoked_at := Some (micros t) |>) d).
    rewrite rows_update by done. rewrite Hr. simpl.
    rewrite bool_decide_false by congruence. simpl. eauto 10.
  - change (apply_op d (OpRevokeAll u t)) with (update
      (λ r, bool_decide (row_user_id r = u) && bool_decide (row_revoked_at r = None))
      (λ r, r <| row_revoked_at := Some (micros t) |>) d).
    rewrite rows_update by done. rewrite Hr. simpl.
    rewrite bool_decide_false by congruence. simpl. eauto 10.
  - rewrite rows_delete, Hr, filter_cons_True; [eauto 10|].
    unfold is_expired. rewrite Hrev, orb_false_r. apply Z.leb_gt. lia.
Qed.

Lemma dead_step h d op : dead h d → ¬ reissues h op → dead h (apply_op d op).
Proof.
  intros Hd Hno. unfold dead in *.
  assert (∀ P f, (∀ r, row_token_hash (f r) = row_token_hash r) →
    (∀ r, row_revoked_at r ≠ None → row_revoked_at (f r) ≠ None) →
    Forall (λ r, row_revoked_at r ≠ None) (rows h (update P f d))) as Hup.
  { intros P f Hf Hk. rewrite rows_update by done. apply Forall_fmap.
    eapply Forall_impl; [exact Hd|]. intros r Hr. simpl. destruct (P r); [by apply Hk|done]. }
  destruct op as [session h'|id' t|h' t|u t|t]; simpl in Hno.
  - by rewrite rows_create.
  - by apply Hup.
  - by apply Hup.
  - by apply Hup.
  - rewrite rows_delete. rewrite Forall_forall in *.
    intros r [_ Hr]%list_elem_of_filter. by apply Hd.
Qed.

(** What is not spared is dead afterwards. *)
Lemma kill_step h id user expires d op :
  live h id user expires d → ¬ spares h user expires op → dead h (apply_op d op).
Proof.
  intros (r & Hr & Hh & Hid & Hu & He & Hrev) Hs. unfold dead.
  destruct op as [session h'|id' t|h' t|u t|t]; simpl in Hs; try tauto.
  - change (apply_op d (OpRevoke h' t)) with (update
      (λ r, bool_decide (row_token_hash r = h') && bool_decide (row_revoked_at r = None))
      (λ r, r <| row_revoked_at := Some (micros t) |>) d).
    rewrite rows_update by done. rewrite Hr. simpl. rewrite Hrev.
    destruct (decide (h' = h)) as [->|]; [|done].
    rewrite bool_decide_true by done. by repeat constructor.
  - change (apply_op d (OpRevokeAll u t)) with (update
      (λ r, bool_decide (row_user_id r = u) && bool_decide (row_revoked_at r = None))
      (λ r, r <| row_revoked_at := Some (micros t) |>) d).
    rewrite rows_update by done. rewrite Hr. simpl. rewrite Hrev.
    destruct (decide (u = user)) as [->|]; [|done].
    rewrite bool_decide_true by done. by repeat constructor.
  - rewrite rows_delete, Hr, filter_cons_False; [by rewrite filter_nil|].
    unfold is_expired. rewrite Hrev, orb_false_r. intros Hf%Z.leb_gt. lia.
Qed.

#[global] Instance spares_dec h user expires op : Decision (spares h user expires op).
Proof. destruct op; simpl; apply _. Defined.

Lemma run_ops h id user expires ops d :
  live h id user expires d → Forall (λ op, ¬ reissues h op) ops →
  (Forall (spares h user expires) ops ∧ live h id user expires (foldl apply_op d ops)) ∨
  (¬ Forall (spares h user expires) ops ∧ dead h (foldl apply_op d ops)).
Proof.
  assert (∀ ops d, dead h d → Forall (λ op, ¬ reissues h op) ops →
    dead h (foldl apply_op d ops)) as Hdead.
  { clear. induction ops as [|op ops IH]; intros d Hd Hno; [done|].
    apply Forall_cons in Hno as [Hno1 Hno]. simpl. apply IH; [by apply dead_step|done]. }
  revert d. induction ops as [|op ops IH]; intros d Hl Hno; [by left|].
  apply Forall_cons in Hno as [Hno1 Hno]. simpl. rewrite Forall_cons.
  destruct (decide (spares h user expires op)) as [Hs|Hs].
  - destruct (IH (apply_op d op)) as [[? ?]|[? ?]]; [by apply live_step|done|left|right]; tauto.
  - right. split; [tauto|]. apply Hdead; [by eapply kill_step|done].
Qed.

(** ** The service over the table *)

Context {W : Type} `{World (database * W)} `{Random (database * W)} `{Sha256}.
Variable clock : M W Z.
Variable s : SessionService (database * W).
Hypothesis on_postgres : Repository s = Some PostgresSessionRepository.
Hypothesis on_clock : Sessions_Now s = Some (outside clock).

Lemma Create_live input sw session token d w :
  Create s input sw = ((session, token, None), (d, w)) →
  strings.TrimSpace token ≠ "" ∧ Session_UserID session = Input_UserID input ∧
  live (hashToken token) (Session_ID session) (Input_UserID input)
    (micros (ExpiresAt session)) d.
Proof using on_postgres.
  unfold Create. rewrite on_postgres. case_decide; [by intros [[=] _]%mret_inv|].
  case_match; [by intros [[=] _]%mret_inv|].
  intros (rt & sw1 & Hrt & Hk)%mthen_inv. destruct rt as [tok|]; [|by apply mret_inv in Hk as [[=] _]].
  apply mthen_inv in Hrt as (buf & sw0 & Hbuf & Hrt). apply mret_inv in Hrt as [Hrt _].
  destruct buf as [buf|]; [|done]. simpl in Hrt. injection Hrt as <-.
  apply rand_Read_length in Hbuf.
  apply mthen_inv in Hk as (t & sw2 & _ & Hk). apply mthen_inv in Hk as (sid & sw3 & _ & Hk).
  destruct sid as [sid|]; [|by apply mret_inv in Hk as [[=] _]].
  apply mthen_inv in Hk as (err & sw4 & Hc & Hk).
  destruct err; [by apply mret_inv in Hk as [[=] _]|]. apply mret_inv in Hk as [[= <- <-] ->].
  split_and!; [|done|].
  { apply RawURLEncoding_not_blank. by destruct buf. }
  simpl in Hc. unfold pg_CreateSession, inside in Hc.
  destruct (if decide _ then _ else _) as [ip|]; [|done].
  destruct (insertable _ _) eqn:Hi; [|done]. injection Hc as <- _.
  unfold insertable in Hi. rewrite !andb_true_iff, forallb_forall in Hi.
  destruct Hi as [[Hi _] _]. unfold live. eexists.
  assert (∀ d0 r, (∀ q, q ∈ sessions d0 → row_token_hash q ≠ row_token_hash r) →
    rows (row_token_hash r) (d0 <| sessions := sessions d0 ++ [r] |>) = [r]) as Happ.
  { intros d0 r Hq. unfold rows. simpl. rewrite filter_app, filter_cons_True by done.
    change (rows (row_token_hash r) d0 ++ [r] = [r]). by rewrite rows_none. }
  split; [apply (Happ sw3.1 (mkRow _ _ _ _ _ _ _ _ _))|split_and!; done].
  intros q Hq%list_elem_of_In%Hi. apply andb_true_iff in Hq as [_ Hq].
  by apply negb_true_iff, bool_decide_eq_false in Hq.
Qed.

(** What [Authenticate] answers for the rows of the token. *)
Lemma Authenticate_rows token d t w1 w2 :
  strings.TrimSpace token ≠ "" → clock w1 = (t, w2) →
  Authenticate s token (d, w1) =
    (match filter (λ r, is_active t r = true) (rows (hashToken token) d) with
     | r :: _ => Ok (of_row r)
     | [] => Err ErrInvalidSession
     end, (d, w2)).
Proof using on_postgres on_clock.
  intros Hblank Hclock.
  assert (filter (λ r, is_active t r = true) (rows (hashToken token) d) =
    filter (λ r, row_token_hash r = hashToken token ∧ is_active t r = true) (sessions d)) as ->.
  { unfold rows. rewrite list_filter_filter. apply list_filter_iff. tauto. }
  unfold Authenticate, with_repository. rewrite on_postgres, decide_False by done.
  unfold now. rewrite on_clock. unfold mthen at 1, outside, default. simpl. rewrite Hclock.
  unfold mthen, look, inside. simpl. by destruct (filter _ _).
Qed.
Lemma Authenticate_live token id user expires d t w1 w2 :
  strings.TrimSpace token ≠ "" → live (hashToken token) id user expires d → clock w1 = (t, w2) →
  ∃ answer, Authenticate s token (d, w1) = (answer, (d, w2)) ∧
    match answer with
    | Ok found => micros t < expires ∧ Session_ID found = id ∧ Session_UserID found = user
    | Err e => ¬ micros t < expires ∧ e = ErrInvalidSession
    end.
Proof using on_postgres on_clock.
  intros Hblank (r & Hr & _ & Hid & Hu & He & Hrev) Hclock. rewrite (Authenticate_rows _ _ t _ w2) by done.
  eexists. split; [reflexivity|]. rewrite Hr, filter_cons.
  assert (is_active t r = (micros t <? expires)) as Hact by (unfold is_active; by rewrite Hrev, He).
  case_decide as Ha; rewrite Hact, Z.ltb_lt in Ha; simpl; tauto.
Qed.
Lemma Authenticate_dead token d t w1 w2 :
  strings.TrimSpace token ≠ "" → dead (hashToken token) d → clock w1 = (t, w2) →
  Authenticate s token (d, w1) = (Err ErrInvalidSession, (d, w2)).
Proof using on_postgres on_clock.
  intros Hblank Hd Hclock. rewrite (Authenticate_rows _ _ t _ w2) by done.
  destruct (filter _ _) as [|r l] eqn:Hf; [done|]. exfalso.
  assert (r ∈ filter (λ r, is_active t r = true) (rows (hashToken token) d)) as Hin by (rewrite Hf; by left).
  apply list_elem_of_filter in Hin as [Ha Hin]. unfold dead in Hd. rewrite Forall_forall in Hd.
  apply (Hd r Hin). unfold is_active in Ha. apply andb_true_iff in Ha as [Ha _].
  by apply bool_decide_eq_true in Ha.
Qed.

(** C23: the lifetime of a session token.  After [Create] has answered a token,
    let the program run any statements on the table, but none that issues the
    token's hash again.  Then [Authenticate] finds the session, with its
    identifier and its user, exactly when no statement revoked the token or all
    sessions of its user, no clean-up ran at a time past its expiry, and the time
    is before its expiry, all to the microsecond; in every other case it answers
    [ErrInvalidSession]. *)
Theorem session_lifetime input sw session token d w ops t w1 w2 :
  Create s input sw = ((session, token, None), (d, w)) →
  Forall (λ op, ¬ reissues (hashToken token) op) ops → clock w1 = (t, w2) →
  let alive := Forall (spares (hashToken token) (Input_UserID input) (micros (ExpiresAt session))) ops ∧
               micros t < micros (ExpiresAt session) in
  match (Authenticate s token (foldl apply_op d ops, w1)).1 with
  | Ok found => alive ∧ Session_ID found = Session_ID session ∧
                Session_UserID found = Input_UserID input
  | Err e => ¬ alive ∧ e = ErrInvalidSession
  end.
Proof using on_postgres on_clock.
  intros Hc Hno Hclock alive. apply Create_live in Hc as (Hblank & _ & Hlive).
  destruct (run_ops _ _ _ _ ops d Hlive Hno) as [[Hs Hl]|[Hs Hd]].
  - destruct (Authenticate_live _ _ _ _ _ t w1 w2 Hblank Hl Hclock) as (answer & -> & Ha).
    cbn [fst]. destruct answer; subst alive; tauto.
  - rewrite (Authenticate_dead _ _ t w1 w2) by done. cbn. subst alive. tauto.
Qed.
End table.

(** ** Witness *)

#[local] Instance example_postgres : Postgres :=
  {| inet s := Some s; violation := ErrorString "violation" |}.
#[local] Instance example_sha : Sha256 := λ s, s.
#[local] Instance example_random : Random (database * unit).
Proof.
  refine {| rand_Read n := mret (Ok (String.string_of_list_ascii (replicate n "x"%char))) |}.
  intros n w b w' [[= <-] _]%mret_inv. clear. by induction n; simpl; [|f_equal].
Defined.
#[local] Instance example_world : World (database * unit) :=
  {| time_Now := mret 0; ctx_Err := mret None |}.
Definition example_sessions : SessionService (database * unit) :=
  mkSessions (Some PostgresSessionRepository) (Some (outside (mret 5000))) 2000000.
Definition example_login : (Session * string * option goerror) * (database * unit) :=
  Create example_sessions (mkInput "u" 0 "" "") (mkDatabase {["u"]} [], tt).

Lemma session_lifetime_witness :
  ∃ session token d, example_login = ((session, token, None), (d, tt)) ∧
    is_ok (Authenticate example_sessions token (d, tt)).1 = true ∧
    is_ok (Authenticate example_sessions token
             (foldl apply_op d [OpRevoke (hashToken token) 6000], tt)).1 = false.
Proof.
  destruct example_login as [[[session token] err] [d []]] eqn:E.
  assert (err = None) as -> by (vm_compute in E; by injection E).
  exists session, token, d. split; [done|].
  assert (micros (ExpiresAt session) = 2005000) as He by (vm_compute in E; injection E as <- _ _; done).
  pose proof (λ ops Hno, session_lifetime (mret 5000) example_sessions eq_refl eq_refl _ _ _ _ _ _
    ops 5000 tt tt E Hno eq_refl) as H. split.
  - specialize (H [] ltac:(constructor)). simpl in H.
    destruct (Authenticate _ _ _).1; [done|]. destruct H as [[] _].
    split; [constructor|]. rewrite He. reflexivity.
  - specialize (H [OpRevoke (hashToken token) 6000] ltac:(repeat constructor; intros [])).
    destruct (Authenticate _ _ (foldl _ _ _, _)).1; [|done].
    destruct H as [[Hs _] _]. apply Forall_cons in Hs as [Hs _]. by destruct Hs.
Defined.
