(* ===== verification/HttpApi.v ===== *)
(** * The HTTP boundary: authentication, project access and rate limits

    From [src/internal/httpapi]: the middlewares every request passes
    ([auth.go], [project_access.go] and the composition in [server.go]) and the
    rate limiter of [security.go].  A handler takes a request to a response;
    what the routed handlers answer is left open, and so is the multiplexer, of
    which only this is used: a request carries path values once the multiplexer
    has matched it, and none before.  The routes, the
    same-origin guard and the logger, which wrap these middlewares, are in
    [HttpServer.v]. *)

From Stdlib Require Import Ascii.
From S2P Require Import Prelude GoStrings World Auth.
Import crypto auth.

Module httpapi.

(** ** Requests *)

(* src: internal/httpapi/auth.go:19-22 (AuthPrincipal) *)
Record AuthPrincipal := mkPrincipal { Principal_User : User; Principal_Session : Session }.

(** What the middlewares read of a request: the session cookie, the wildcards of
    the pattern it matched and the principal in its context. *)
Record Request := mkRequest {
  Method : string;
  Path : string;
  Cookie : option string;
  PathValues : gmap string string;
  Principal : option AuthPrincipal
}.
#[global] Instance eta_Request : Eta Request := λ r,
  mkRequest (Method r) (Path r) (Cookie r) (PathValues r) (Principal r).

(** [r.PathValue]: empty when the request was not matched against a pattern. *)
Definition PathValue (r : Request) (name : string) : string := default "" (PathValues r !! name).

(** An error written by a middleware, with the session cookie cleared or not, or
    the answer of a routed handler. *)
Inductive Response (A : Type) :=
  | Error (status : Z) (message : string) (clears_cookie : bool)
  | Answer (a : A).
Arguments Error {A}.
Arguments Answer {A}.

Definition Handler (W A : Type) := Request → M W (Response A).

(** ** Middlewares *)

(* src: internal/httpapi/auth.go:65-73 (requiresAuthentication) *)
Definition requiresAuthentication (r : Request) : bool :=
  if bool_decide (Path r ∈ ["/healthz"; "/health"; "/ready"]) then false
  else if bool_decide (Path r ∈ ["/auth/status"; "/auth/bootstrap"; "/auth/login"; "/auth/logout"])
  then false
  else strings.HasPrefix (Path r) "/api/" ||
       bool_decide (Path r ∈ ["/auth/me"; "/auth/sessions/revoke-all"]).

(* src: internal/httpapi/project_access.go:59-67 (projectIDFromRequest) *)
Definition projectIDFromRequest (r : Request) : option string :=
  let project := PathValue r "project" in
  if decide (project ≠ "") then Some project
  else
    let id := PathValue r "id" in
    if negb (bool_decide (id = "")) && strings.HasPrefix (Path r) "/api/v1/projects/"
    then Some id else None.

(* src: internal/httpapi/project_access.go:69-84 (projectPermissionForRequest) *)
Definition projectPermissionForRequest (r : Request) : ProjectPermission :=
  if bool_decide (Method r = "GET") || bool_decide (Method r = "HEAD") then PermissionRead
  else
    let path := Path r in
    if strings.HasSuffix path "/start" || strings.HasSuffix path "/stop" ||
       strings.HasSuffix path "/restart" then PermissionRun
    else if strings.Contains path "/deployments" || strings.Contains path "/previews" ||
            strings.Contains path "/domains" || strings.Contains path "/health-checks"
    then PermissionDeploy
    else if strings.Contains path "/agent-sessions" || strings.Contains path "/autonomous-loop" ||
            strings.Contains path "/visual-qa" then PermissionRun
    else PermissionEdit.

Section middleware.
Context {W A : Type} `{World W} `{Sha256}.

(** The server, as far as the middlewares use it. *)
Variable Server_Auth : option (AuthService W).

(** [None] when access is granted, else the error that was written. *)
(* src: internal/httpapi/project_access.go:12-27 (requireProjectPermission) *)
Definition requireProjectPermission (r : Request) (projectID : string)
    (permission : ProjectPermission) : M W (option (Response A)) :=
  match Principal r, Server_Auth with
  | Some principal, Some s =>
      let! err := RequireProjectAccess s (Principal_User principal) projectID permission in
      mret match err with
           | None => None
           | Some err =>
               Some (if errors_is err ErrProjectPermissionDenied || errors_is err ErrMembershipNotFound
                     then Error 403 "project permission denied" false
                     else Error 500 (error_text err) false)
           end
  | _, _ => mret (Some (Error 401 "authentication required" false))
  end.

(* src: internal/httpapi/project_access.go:45-57 (projectAccessMiddleware) *)
Definition projectAccessMiddleware (next : Handler W A) : Handler W A := λ r,
  match projectIDFromRequest r with
  | None => next r
  | Some projectID =>
      let! denied := requireProjectPermission r projectID (projectPermissionForRequest r) in
      match denied with Some e => mret e | None => next r end
  end.

(* src: internal/httpapi/auth.go:33-63 (authMiddleware) *)
Definition authMiddleware (next : Handler W A) : Handler W A := λ r,
  if negb (requiresAuthentication r) then next r
  else match Server_Auth with
       | None => mret (Error 503 "authentication service unavailable" false)
       | Some s =>
           let unauthorized clears := mret (Error 401 "authentication required" clears) in
           match Cookie r with
           | None => unauthorized false
           | Some token =>
               if decide (strings.TrimSpace token = "") then unauthorized false
               else
                 let! authenticated := Authenticate (Sessions s) token in
                 match authenticated with
                 | Err _ => unauthorized true
                 | Ok session =>
                     let! (user, err) := CurrentUser s session in
                     if bool_decide (err = None) && bool_decide (User_Status user = "active")
                     then
                       let! _ := Touch (Sessions s) (Session_ID session) in
                       next (r <| Principal := Some (mkPrincipal user session) |>)
                     else unauthorized true
                 end
           end
       end.

(** The project check is put in front of the multiplexer. *)
(* src: internal/httpapi/server.go:220-220 (Handler) *)
Definition handler (mux : Handler W A) : Handler W A :=
  authMiddleware (projectAccessMiddleware mux).

(** ** Properties *)

(** Where the path values are set, the check does what it is meant to: the next
    handler is reached only by administrators, operators and members whose role
    allows the permission the request needs. *)
Lemma projectAccess_enforced next r w a w' projectID :
  projectIDFromRequest r = Some projectID →
  projectAccessMiddleware next r w = (Answer a, w') →
  ∃ s principal w1, Server_Auth = Some s ∧ Principal r = Some principal ∧
    RequireProjectAccess s (Principal_User principal) projectID (projectPermissionForRequest r) w
      = (None, w1) ∧ next r w1 = (Answer a, w').
Proof.
  intros Hid. unfold projectAccessMiddleware. rewrite Hid.
  intros (denied & w1 & Hr & Hk)%mthen_inv.
  destruct denied as [e|].
  { apply mret_inv in Hk as [-> <-]. unfold requireProjectPermission in Hr.
    destruct (Principal r) as [pr|], Server_Auth as [s|];
      try (apply mret_inv in Hr as [[=] _]).
    apply mthen_inv in Hr as (err & w2 & _ & Hr). apply mret_inv in Hr as [Hr _].
    destruct err; [|done]. by case_match. }
  unfold requireProjectPermission in Hr.
  destruct (Principal r) as [pr|] eqn:Hp, Server_Auth as [s|];
    try (apply mret_inv in Hr as [[=] _]).
  apply mthen_inv in Hr as (err & w2 & Hra & Hr). apply mret_inv in Hr as [Hr <-].
  destruct err; [done|]. exists s, pr, w2. done.
Qed.

(** The project check is never made.  A request arrives without path values,
    because the multiplexer that sets them is behind the check: for every such
    request the check is the multiplexer itself.  So whoever has a live session of
    an active user reaches the handlers of every project, whatever the user's role
    and without one lookup of a membership. *)
Theorem project_check_bypassed (mux : Handler W A) r :
  PathValues r = ∅ →
  projectAccessMiddleware mux r = mux r ∧
  ∀ s token session user w w1 w2 e w3,
    Server_Auth = Some s → requiresAuthentication r = true → Cookie r = Some token →
    strings.TrimSpace token ≠ "" → Authenticate (Sessions s) token w = (Ok session, w1) →
    CurrentUser s session w1 = ((user, None), w2) → User_Status user = "active" →
    Touch (Sessions s) (Session_ID session) w2 = (e, w3) →
    handler mux r w = mux (r <| Principal := Some (mkPrincipal user session) |>) w3.
Proof.
  intros Hpv.
  assert (∀ r, PathValues r = ∅ → projectAccessMiddleware mux r = mux r) as Hskip.
  { intros q Hq. unfold projectAccessMiddleware, projectIDFromRequest, PathValue.
    by rewrite Hq, !lookup_empty. }
  split; [by apply Hskip|].
  intros s token session user w w1 w2 e w3 Hs Hreq Hcookie Hblank Hauth Huser Hactive Htouch.
  unfold handler, authMiddleware. rewrite Hreq, Hs, Hcookie, decide_False by done. simpl.
  unfold mthen at 1. rewrite Hauth. unfold mthen at 1. rewrite Huser, Hactive. simpl.
  unfold mthen at 1. rewrite Htouch. by rewrite Hskip.
Qed.
End middleware.

(** ** The rate limiter *)

(* src: internal/httpapi/security.go:20-23 (rateWindow) *)
Record rateWindow := mkWindow { count : Z; until : Z }.

(* src: internal/httpapi/security.go:13-18 (fixedWindowLimiter) *)
Record fixedWindowLimiter := mkLimiter {
  limit : Z;
  window : Z;
  items : gmap string rateWindow
}.

(* src: internal/httpapi/security.go:25-27 (newFixedWindowLimiter) *)
Definition newFixedWindowLimiter (limit window : Z) : fixedWindowLimiter :=
  mkLimiter limit window ∅.

(** Ten logins a minute, three bootstraps an hour, for each address. *)
(* src: internal/httpapi/security.go:47-47 (loginLimiter) *)
Definition loginLimiter : fixedWindowLimiter := newFixedWindowLimiter 10 (60 * 10 ^ 9).
(* src: internal/httpapi/security.go:48-48 (bootstrapLimiter) *)
Definition bootstrapLimiter : fixedWindowLimiter := newFixedWindowLimiter 3 (3600 * 10 ^ 9).

(** Whether the call is allowed, and how long to wait if it is not. *)
(* src: internal/httpapi/security.go:29-44 (allow) *)
Definition allow (l : fixedWindowLimiter) (key : string) (now : Z)
    : (bool * Z) * fixedWindowLimiter :=
  let store e := mkLimiter (limit l) (window l) (<[key := e]> (items l)) in
  let fresh := ((true, 0), store (mkWindow 1 (now + window l))) in
  match items l !! key with
  | None => fresh
  | Some entry =>
      if negb (now <? until entry) then fresh
      else if limit l <=? count entry then ((false, until entry - now), l)
      else ((true, 0), store (mkWindow (count entry + 1) (until entry)))
  end.

(** A sequence of calls with their keys and times: the answers. *)
Fixpoint calls (l : fixedWindowLimiter) (cs : list (string * Z)) : list bool :=
  match cs with
  | [] => []
  | (key, now) :: cs =>
      let '((ok, _), l) := allow l key now in ok :: calls l cs
  end.

(** How many calls with the key in [a, b) were allowed. *)
Fixpoint allowed_in (key : string) (a b : Z) (cs : list (string * Z)) (oks : list bool) : Z :=
  match cs, oks with
  | (k, t) :: cs, ok :: oks =>
      (if bool_decide (k = key) && (a <=? t) && (t <? b) && ok then 1 else 0) +
      allowed_in key a b cs oks
  | _, _ => 0
  end.

Fixpoint times_ordered (from : Z) (cs : list (string * Z)) : Prop :=
  match cs with [] => True | (_, t) :: cs => from ≤ t ∧ times_ordered t cs end.

(** What is known of a key when [n] of its calls in [a, b) have been allowed and
    the last call was made at [now]. *)
Definition window_inv (l : fixedWindowLimiter) (key : string) (a b now n : Z) : Prop :=
  (now < a → n = 0) ∧
  match items l !! key with
  | None => n = 0
  | Some e =>
      1 ≤ count e ≤ Z.max 1 (limit l) ∧ until e - window l ≤ now ∧
      ((until e - window l < a ∧ n ≤ count e) ∨
       (a ≤ until e - window l < b ∧ n ≤ Z.max 1 (limit l) + count e) ∨
       (b ≤ until e - window l ∧ n ≤ 2 * Z.max 1 (limit l)))
  end.

Lemma window_inv_bound l key a b now n :
  window_inv l key a b now n → n ≤ 2 * Z.max 1 (limit l).
Proof. unfold window_inv. case_match; lia. Qed.

(** One call. *)
Lemma allow_inv l key a b now n k t ok wait l' :
  0 < window l → b = a + window l → now ≤ t → window_inv l key a b now n →
  allow l k t = ((ok, wait), l') →
  limit l' = limit l ∧ window l' = window l ∧
  window_inv l' key a b t
    (n + if bool_decide (k = key) && (a <=? t) && (t <? b) && ok then 1 else 0).
Proof.
  intros Hw Hb Hnow Hinv Ha. unfold allow in Ha.
  destruct (decide (k = key)) as [->|Hne].
  - rewrite bool_decide_true by done. unfold window_inv in *.
    destruct (items l !! key) as [e|] eqn:He.
    + destruct (t <? until e) eqn:Ht; simpl in Ha.
      * destruct (limit l <=? count e) eqn:Hc; injection Ha as <- <- <-;
          (split; [done|]; split; [done|]).
        -- rewrite He, andb_false_r. lia.
        -- simpl. rewrite lookup_insert_eq. simpl. rewrite andb_true_r.
           destruct (a <=? t) eqn:?, (t <? b) eqn:?; simpl; lia.
      * injection Ha as <- <- <-. split; [done|]. split; [done|].
        simpl. rewrite lookup_insert_eq. simpl. rewrite andb_true_r.
        destruct (a <=? t) eqn:?, (t <? b) eqn:?; simpl; lia.
    + injection Ha as <- <- <-. split; [done|]. split; [done|].
      simpl. rewrite lookup_insert_eq. simpl. rewrite andb_true_r.
      destruct (a <=? t) eqn:?, (t <? b) eqn:?; simpl; lia.
  - rewrite bool_decide_false by done. simpl. rewrite Z.add_0_r.
    assert (items l' !! key = items l !! key ∧ limit l' = limit l ∧ window l' = window l)
      as (Hi & Hl & Hwd).
    { destruct (items l !! k) as [e|]; [|injection Ha as <- <- <-; simpl; by rewrite lookup_insert_ne].
      destruct (negb _); [injection Ha as <- <- <-; simpl; by rewrite lookup_insert_ne|].
      destruct (_ <=? _); injection Ha as <- <- <-; simpl; [done|by rewrite lookup_insert_ne]. }
    split; [done|]. split; [done|]. unfold window_inv in *. rewrite Hi, Hl, Hwd.
    destruct Hinv as [Hz Hinv]. split; [intros; apply Hz; lia|]. destruct (items l !! key); [lia|done].
Qed.

Lemma calls_inv l key a b now n cs :
  0 < window l → b = a + window l → times_ordered now cs → window_inv l key a b now n →
  n + allowed_in key a b cs (calls l cs) ≤ 2 * Z.max 1 (limit l).
Proof.
  revert l now n. induction cs as [|[k t] cs IH]; intros l now n Hw Hb Ho Hinv.
  { simpl. apply window_inv_bound in Hinv. lia. }
  destruct Ho as [Ht Ho]. cbn [calls].
  destruct (allow l k t) as [[ok wait] l'] eqn:Ha.
  destruct (allow_inv _ _ _ _ _ _ _ _ _ _ _ Hw Hb Ht Hinv Ha) as (Hl & Hwd & Hinv').
  cbn [allowed_in]. rewrite Z.add_assoc, <-Hl. rewrite <-Hwd in Hw, Hb.
  eapply IH; [done|done|exact Ho|exact Hinv'].
Qed.

(** The bound of the rate limiter.  However calls of different keys are mixed,
    as long as the clock does not go back, in no interval as long as the window are
    more than twice the limit (or two, if the limit is not positive) calls of one
    key allowed. *)
Theorem limiter_bound lim win cs key a from :
  0 < win → times_ordered from cs →
  allowed_in key a (a + win) cs (calls (newFixedWindowLimiter lim win) cs) ≤ 2 * Z.max 1 lim.
Proof.
  intros Hw Ho.
  apply (calls_inv (newFixedWindowLimiter lim win) key a (a + win) from 0); [done..|].
  unfold window_inv. simpl. by rewrite lookup_empty.
Qed.

(** ** Decimal digits *)

(** The buffer is filled from its end; [fuel] bounds the digits, of which an
    [int] has at most 19. *)
(* src: internal/httpapi/security.go:125-132 (strconvItoa) *)
Fixpoint itoa_loop (fuel : nat) (value : Z) (buf : string) : string :=
  match fuel with
  | O => buf
  | S fuel =>
      if 0 <? value
      then itoa_loop fuel (value `quot` 10)
             (String (ascii_of_nat (48 + Z.to_nat (value `rem` 10))) buf)
      else buf
  end.

(* src: internal/httpapi/security.go:121-133 (strconvItoa) *)
Definition strconvItoa (value : Z) : string :=
  if value =? 0 then "0" else itoa_loop 20 value "".

Lemma itoa_loop_pretty fuel x s :
  (x < 10 ^ N.of_nat fuel)%N → itoa_loop fuel (Z.of_N x) s = pretty.pretty_N_go x s.
Proof.
  revert x s. induction fuel as [|fuel IH]; intros x s Hx.
  { assert (x = 0%N) as -> by (simpl in Hx; lia). by rewrite pretty.pretty_N_go_0. }
  cbn [itoa_loop]. destruct (decide (x = 0%N)) as [->|Hn].
  { by rewrite pretty.pretty_N_go_0. }
  rewrite (proj2 (Z.ltb_lt 0 (Z.of_N x))) by lia.
  rewrite pretty.pretty_N_go_step by lia.
  rewrite Z.quot_div_nonneg, Z.rem_mod_nonneg by lia.
  change 10 with (Z.of_N 10). rewrite <-N2Z.inj_div, <-N2Z.inj_mod, IH.
  - f_equal. f_equal. pose proof (N.mod_upper_bound x 10 ltac:(lia)) as Hm.
    set (m := (x `mod` 10)%N) in *.
    assert (m = 0 ∨ m = 1 ∨ m = 2 ∨ m = 3 ∨ m = 4 ∨ m = 5 ∨ m = 6 ∨ m = 7 ∨ m = 8 ∨ m = 9)%N
      as Hc by lia.
    destruct_or! Hc; rewrite Hc; reflexivity.
  - apply N.Div0.div_lt_upper_bound. rewrite Nat2N.inj_succ, N.pow_succ_r in Hx by lia. lia.
Qed.

(** On what an [int] can hold and is not negative it is [strconv.Itoa]; of a
    negative number nothing is printed. *)
Lemma strconvItoa_correct value : 0 ≤ value < 2 ^ 63 → strconvItoa value = pretty value.
Proof.
  intros Hv. unfold strconvItoa. destruct (Z.eqb_spec value 0) as [->|Hn]; [done|].
  rewrite <-(Z2N.id value) by lia. rewrite itoa_loop_pretty.
  - destruct value as [|p|p]; [done| |lia]. simpl. done.
  - change (10 ^ N.of_nat 20)%N with 100000000000000000000%N.
    change (2 ^ 63) with 9223372036854775808 in Hv. lia.
Qed.

Lemma strconvItoa_negative value : value < 0 → strconvItoa value = "".
Proof.
  intros Hv. unfold strconvItoa. rewrite (proj2 (Z.eqb_neq value 0)) by lia.
  cbn [itoa_loop]. by rewrite (proj2 (Z.ltb_ge 0 value)) by lia.
Qed.
End httpapi.

(** ** Witnesses *)

Section witness.
Import httpapi.
#[local] Instance witness_world : World unit := {| time_Now := mret 0; ctx_Err := mret None |}.
#[local] Instance witness_sha : Sha256 := λ s, s.

Definition outsider : User := mkUser "u" "" "" RoleViewer "active" 0 0 None.
Definition their_session : Session := mkSession "s" "u" 0 1 None None "" "".
Definition any_session : SessionRepository unit :=
  mkRepository (λ _ _, mret None) (λ _ _, mret (Ok their_session)) (λ _ _, mret None)
    (λ _ _, mret None) (λ _ _, mret None) (λ _, mret None).
Definition no_members : AuthService unit :=
  mkAuth (Some (λ _, mret (outsider, None))) (mkSessions (Some any_session) None 0)
    (Some (λ _ _, mret (Err ErrMembershipNotFound))).
Definition deploy_request : Request :=
  mkRequest "POST" "/api/projects/secret/deployments" (Some "token") ∅ None.

(** An outsider's request reaches the multiplexer; matched, it would be denied. *)
Lemma project_check_bypassed_witness :
  (handler (Some no_members) (λ r, mret (Answer (Path r))) deploy_request tt).1
    = Answer "/api/projects/secret/deployments" ∧
  (projectAccessMiddleware (A:=string) (Some no_members) (λ r, mret (Answer (Path r)))
     (deploy_request <| PathValues := {["project" := "secret"]} |>
        <| Principal := Some (mkPrincipal outsider their_session) |>) tt).1
    = Error 403 "project permission denied" false.
Proof.
  split; [|vm_compute; reflexivity].
  rewrite (proj2 (project_check_bypassed (Some no_members) (λ r, mret (Answer (Path r)))
    deploy_request eq_refl) no_members "token" their_session outsider tt tt tt None tt);
    [reflexivity|reflexivity|reflexivity|reflexivity|discriminate|reflexivity..].
Defined.

Lemma limiter_bound_witness :
  let cs := [("ip", 0); ("ip", 59); ("ip", 59); ("ip", 60); ("ip", 61)] in
  calls (newFixedWindowLimiter 2 60) cs = [true; true; false; true; true] ∧
  allowed_in "ip" 5 65 cs (calls (newFixedWindowLimiter 2 60) cs) ≤ 4.
Proof.
  split; [vm_compute; reflexivity|].
  apply (limiter_bound 2 60 _ "ip" 5 0); [lia|simpl; lia].
Defined.
End witness.
