(* ===== verification/SharedInfra.v ===== *)
(** * Shared tools and the global artifact cache

    [src/internal/sharedinfra]: the registry of tools, the cache of artifacts with
    its checksums, and the resolver that looks up what a manifest needs.  The
    persistence of the cache is an interface; the Postgres implementation of it is
    in [SharedStore.v]. *)

From S2P Require Import Prelude GoStrings World Float ProjIntel Environment.
Import crypto.

Module sharedinfra.

(* src: internal/sharedinfra/types.go:5-20 (ToolCategory) *)
Inductive ToolCategory :=
  | Language | Framework | SDK | BuildTool | PackageManager | Browser | Testing | Database
  | DevOps | AIAgent | CLI | Utility | CategoryOther (s : string).

(* src: internal/sharedinfra/types.go:45-56 (Artifact) *)
Record Artifact := mkArtifact {
  Artifact_ID : string;
  Artifact_Name : string;
  Artifact_Version : string;
  Artifact_Platform : string;
  Artifact_Architecture : string;
  Size : Z;
  Checksum : string;
  Source : string;
  StorageLocation : string;
  Artifact_Metadata : gmap string string
}.

(* src: internal/sharedinfra/types.go:35-44 (ToolVersion) *)
Record ToolVersion := mkVersion {
  Version : string;
  Platform : string;
  Architecture : string;
  Version_Dependencies : list string;
  Version_Artifact : Artifact;
  InstallationMethod : string;
  VerificationMethod : string;
  Compatibility : list string
}.

(* src: internal/sharedinfra/types.go:22-34 (Tool) *)
Record Tool := mkTool {
  Tool_ID : string;
  Tool_Name : string;
  Category : ToolCategory;
  Versions : list ToolVersion;
  Platforms : list string;
  Tool_Dependencies : list string;
  Capabilities : list string;
  InstallStrategy : string;
  VerificationStrategy : string;
  ArtifactIdentity : string;
  Tool_Metadata : gmap string string
}.

(* src: internal/sharedinfra/types.go:57-64 (CacheStatus) *)
Inductive CacheStatus :=
  | CacheHit | CacheMiss | CacheCorrupt | CacheInvalid | CacheStatusOther (s : string).
#[global] Instance CacheStatus_eq_dec : EqDecision CacheStatus.
Proof. solve_decision. Defined.

(* src: internal/sharedinfra/types.go:66-72 (CacheEntry) *)
Record CacheEntry := mkEntry {
  Entry_Artifact : Artifact;
  Entry_Status : CacheStatus;
  VerifiedAt : option Z;
  LastUsedAt : option Z;
  RefCount : Z
}.
#[global] Instance eta_Entry : Eta CacheEntry := λ e,
  mkEntry (Entry_Artifact e) (Entry_Status e) (VerifiedAt e) (LastUsedAt e) (RefCount e).
Definition zero_Artifact : Artifact := mkArtifact "" "" "" "" "" 0 "" "" "" ∅.
Definition zero_Entry : CacheEntry := mkEntry zero_Artifact (CacheStatusOther "") None None 0.

(* src: internal/sharedinfra/types.go:73-80 (Resolution) *)
Record Resolution := mkResolution {
  Resolution_Requirement : string;
  ToolID : string;
  Resolution_Version : ToolVersion;
  Resolution_Cache : CacheStatus;
  Resolution_Reason : string;
  VerificationRequired : bool
}.

(** ** The registry *)

(** The registry is its map of tools. *)
(* src: internal/sharedinfra/registry.go:14-17 (Registry) *)
Definition Registry := gmap string Tool.

(* src: internal/sharedinfra/registry.go:20-28 (Register) *)
Definition Register (tools : gmap string Tool) (t : Tool) : gmap string Tool * option goerror :=
  if bool_decide (Tool_ID t = "") || bool_decide (Tool_Name t = "")
  then (tools, Some (ErrorString "tool id and name are required"))
  else (<[Tool_ID t := t]> tools, None).

(* src: internal/sharedinfra/registry.go:218-225 (Load) *)
Fixpoint Load (r : gmap string Tool) (tools : list Tool) : gmap string Tool * option goerror :=
  match tools with
  | [] => (r, None)
  | t :: tools =>
      match Register r t with
      | (r, Some e) => (r, Some e)
      | (r, None) => Load r tools
      end
  end.

(* src: internal/sharedinfra/registry.go:29-34 (Registry.Get) *)
Definition Registry_Get (r : gmap string Tool) (id : string) : option Tool := r !! id.
(* src: internal/sharedinfra/registry.go:35-43 (Registry.List) *)
Definition Registry_List `{MapOrder} (r : gmap string Tool) : list Tool := (map_range 0 r).*2.

(* src: internal/sharedinfra/registry.go:56-67 (versionMatches) *)
Definition versionMatches (actual required : string) : bool :=
  if bool_decide (required ∈ [""; "latest-compatible"; "latest"]) then true
  else if decide (actual = required) then true
  else if strings.HasSuffix required ".x"
  then strings.HasPrefix actual (strings.TrimSuffix required ".x")
  else false.

(** The first version that matches. *)
(* src: internal/sharedinfra/registry.go:44-55 (Resolve) *)
Definition Resolve (r : gmap string Tool) (toolID requiredVersion platform architecture : string)
    : result ToolVersion :=
  match r !! toolID with
  | None => Err (ErrorString ("tool " +:+ toolID +:+ " not registered"))
  | Some t =>
      match filter (λ v, versionMatches (Version v) requiredVersion = true ∧
                         (platform = "" ∨ Platform v = platform) ∧
                         (architecture = "" ∨ Architecture v = architecture)) (Versions t) with
      | v :: _ => Ok v
      | [] => Err (ErrorString ("no compatible version for " +:+ toolID +:+ " " +:+
                 requiredVersion +:+ " on " +:+ platform +:+ "/" +:+ architecture))
      end
  end.

(** ** The cache *)

(* src: internal/sharedinfra/registry.go:69-75 (CachePersistence) *)
Record CachePersistence (W : Type) := mkPersistence {
  SaveCacheBlob : Artifact → string → M W (option goerror);
  LoadCacheBlob : Artifact → M W (string * bool * option goerror);
  DeleteCacheBlob : Artifact → M W (option goerror);
  SaveCacheEntry : CacheEntry → M W (option goerror);
  LoadCacheEntries : M W (result (list CacheEntry))
}.
Arguments mkPersistence {W}.
Arguments SaveCacheBlob {W}.
Arguments LoadCacheBlob {W}.
Arguments DeleteCacheBlob {W}.
Arguments SaveCacheEntry {W}.
Arguments LoadCacheEntries {W}.

(** The cache's maps are its state; its clock and persistence are [Cache]. *)
(* src: internal/sharedinfra/registry.go:77-83 (Cache) *)
Record cstate := mkCache { entries : gmap string CacheEntry; blobs : gmap string string }.
#[global] Instance eta_cstate : Eta cstate := λ c, mkCache (entries c) (blobs c).

Record Cache (W : Type) := mkCacheService {
  cache_now : M W Z;
  Persistence : option (CachePersistence W)
}.
Arguments mkCacheService {W}.
Arguments cache_now {W}.
Arguments Persistence {W}.

(* src: internal/sharedinfra/registry.go:85-90 (NewCache) *)
Definition NewCache : cstate := mkCache ∅ ∅.

(* src: internal/sharedinfra/registry.go:91-93 (artifactKey) *)
Definition artifactKey (a : Artifact) : string :=
  strings.Join [Artifact_ID a; Artifact_Name a; Artifact_Version a; Artifact_Platform a;
                Artifact_Architecture a; Checksum a] "|".

(* src: internal/sharedinfra/registry.go:209-217 (verifyChecksum) *)
Definition verifyChecksum `{Sha256} `{strings.GoUnicode} (data expected : string) : bool :=
  if decide (expected = "") then false
  else strings.EqualFold (hex_EncodeToString (sha256 data))
         (strings.TrimPrefix expected "sha256:").

Section cache.
Context {W : Type} `{Sha256} `{strings.GoUnicode} (c : Cache W).
Notation C A := (M (cstate * W) A).

Definition put_entry (key : string) (e : CacheEntry) : C unit :=
  modify (λ s, s <| entries := <[key := e]> (entries s) |>).
Definition put_blob (key data : string) : C unit :=
  modify (λ s, s <| blobs := <[key := data]> (blobs s) |>).

(** A call of the persistence, when there is one. *)
Definition persist {A} (none : A) (k : CachePersistence W → C A) : C A :=
  match Persistence c with Some p => k p | None => mret none end.

(** The blob in memory or, when it is empty, the one the persistence loads. *)
(* src: internal/sharedinfra/registry.go:101-107 (Lookup) *)
Definition find_blob (a : Artifact) : C string :=
  let key := artifactKey a in
  let! blob := look (λ s, default "" (blobs s !! key)) in
  if decide (blob = "") then
    persist blob (λ p,
      let! (loaded, found, err) := outside (LoadCacheBlob p a) in
      if bool_decide (err = None) && found
      then let! _ := put_blob key loaded in mret loaded
      else mret blob)
  else mret blob.

(* src: internal/sharedinfra/registry.go:94-122 (Lookup) *)
Definition Lookup (a : Artifact) : C (CacheEntry * CacheStatus) :=
  let key := artifactKey a in
  let! found := look (λ s, entries s !! key) in
  match found with
  | None => mret (mkEntry a CacheMiss None None 0, CacheMiss)
  | Some e =>
      let! blob := find_blob a in
      if verifyChecksum blob (Checksum a) then
        let! now := outside (cache_now c) in
        let e := e <| Entry_Status := CacheHit |> <| LastUsedAt := Some now |>
                   <| RefCount := add64 (RefCount e) 1 |> in
        let! _ := put_entry key e in
        let! _ := persist None (λ p, outside (SaveCacheEntry p e)) in
        mret (e, CacheHit)
      else
        let e := e <| Entry_Status := CacheCorrupt |> in
        let! _ := put_entry key e in
        mret (e, CacheCorrupt)
  end.

(** A call that ends [Put] on an error. *)
Definition orElse (m : C (option goerror)) (k : C (CacheEntry * option goerror))
    : C (CacheEntry * option goerror) :=
  let! err := m in
  match err with Some e => mret (zero_Entry, Some e) | None => k end.

(* src: internal/sharedinfra/registry.go:123-167 (Put) *)
Definition Put (a : Artifact) (data : string) : C (CacheEntry * option goerror) :=
  if decide (Checksum a = "")
  then mret (zero_Entry, Some (ErrorString "artifact checksum is required"))
  else if negb (verifyChecksum data (Checksum a))
  then mret (zero_Entry, Some (ErrorString ("artifact checksum mismatch for " +:+ Artifact_ID a)))
  else
    let key := artifactKey a in
    let! found := look (λ s, entries s !! key) in
    match found with
    | Some e =>
        let! now := outside (cache_now c) in
        let e := e <| Entry_Status := CacheHit |> <| VerifiedAt := Some now |>
                   <| LastUsedAt := Some now |> <| RefCount := add64 (RefCount e) 1 |> in
        orElse (persist None (λ p, outside (SaveCacheBlob p a data)))
          (orElse (persist None (λ p, outside (SaveCacheEntry p e)))
             (let! _ := put_blob key data in
              let! _ := put_entry key e in
              mret (e, None)))
    | None =>
        let! _ := put_blob key data in
        let! now := outside (cache_now c) in
        let e := mkEntry a CacheHit (Some now) (Some now) 1 in
        orElse (persist None (λ p, outside (SaveCacheBlob p a data)))
          (let! err := persist None (λ p,
             let! err := outside (SaveCacheEntry p e) in
             match err with
             | Some err => let! _ := outside (DeleteCacheBlob p a) in mret (Some err)
             | None => mret None
             end) in
           match err with
           | Some err => mret (zero_Entry, Some err)
           | None =>
               let! _ := put_blob key data in
               let! _ := put_entry key e in
               mret (e, None)
           end)
    end.

(* src: internal/sharedinfra/registry.go:168-181 (Invalidate) *)
Definition Invalidate (a : Artifact) : C unit :=
  let key := artifactKey a in
  let! found := look (λ s, entries s !! key) in
  match found with
  | None => mret tt
  | Some e =>
      let e := e <| Entry_Status := CacheInvalid |> in
      let! _ := put_entry key e in
      let! _ := modify (λ s, s <| blobs := delete key (blobs s) |>) in
      persist tt (λ p,
        let! _ := outside (DeleteCacheBlob p a) in
        let! _ := outside (SaveCacheEntry p e) in mret tt)
  end.

(* src: internal/sharedinfra/registry.go:182-196 (Hydrate) *)
Definition Hydrate : C (option goerror) :=
  persist None (λ p,
    let! loaded := outside (LoadCacheEntries p) in
    match loaded with
    | Err e => mret (Some e)
    | Ok es =>
        let! _ := modify (λ s, s <| entries :=
          foldl (λ m e, <[artifactKey (Entry_Artifact e) := e]> m) (entries s) es |>) in
        mret None
    end).

(** The numbers of entries, of bytes and of hits. *)
(* src: internal/sharedinfra/registry.go:197-208 (Stats) *)
Definition Stats (s : cstate) : gmap string Z :=
  let es := map_to_list (entries s) in
  list_to_map
    [("entries", Z.of_nat (length es));
     ("bytes", foldr (λ ke n, Z.of_nat (String.length (default "" (blobs s !! ke.1))) + n) 0 es);
     ("hits", Z.of_nat (length (filter (λ ke, Entry_Status ke.2 = CacheHit) es)))].

(** ** The resolver *)

(* src: internal/sharedinfra/resolver.go:76-87 (reason) *)
Definition reason (s : CacheStatus) : string :=
  match s with
  | CacheHit => "artifact verified and reusable from global cache"
  | CacheMiss => "artifact is not present in global cache"
  | CacheCorrupt => "cached artifact failed integrity verification"
  | _ => "cache status requires resolution"
  end.

(* src: internal/sharedinfra/resolver.go:88-104 (normalizeTool) *)
Definition normalizeTool (v : string) : string :=
  let v := strings.ToLower (strings.TrimSpace v) in
  if bool_decide (v ∈ ["node"; "nodejs"]) then "node"
  else if bool_decide (v ∈ ["chromium"; "chrome"]) then "chromium"
  else v.

(* src: internal/sharedinfra/resolver.go:105-116 (dedup) *)
Fixpoint dedup (seen : gset string) (l : list Resolution) : list Resolution :=
  match l with
  | [] => []
  | v :: l =>
      let key := ToolID v +:+ "@" +:+ Version (Resolution_Version v) in
      if decide (key ∈ seen) then dedup seen l else v :: dedup ({[key]} ∪ seen) l
  end.

(** [has_cache] says whether the resolver has a cache. *)
(* src: internal/sharedinfra/resolver.go:22-33 (ResolveManifest) *)
Definition resolve (registry : gmap string Tool) (has_cache : bool) (platform architecture : string)
    (req name : string) : C (result Resolution) :=
  match Resolve registry name req platform architecture with
  | Err e => mret (Err e)
  | Ok v =>
      let! status := (if has_cache then
                        let! (_, status) := Lookup (Version_Artifact v) in mret status
                      else mret CacheMiss) in
      mret (Ok (mkResolution name name v status (reason status) true))
  end.

Fixpoint resolve_all (registry : gmap string Tool) (has_cache : bool)
    (platform architecture : string) (reqs : list (string * string))
    : C (result (list Resolution)) :=
  match reqs with
  | [] => mret (Ok [])
  | (req, name) :: reqs =>
      let! r := resolve registry has_cache platform architecture req (normalizeTool name) in
      match r with
      | Err e => mret (Err e)
      | Ok r =>
          let! rs := resolve_all registry has_cache platform architecture reqs in
          mret (let? rs := rs in Ok (r :: rs))
      end
  end.

(** The versions and names a manifest asks for, in order. *)
(* src: internal/sharedinfra/resolver.go:34-73 (ResolveManifest) *)
Definition requirements (m : environment.Manifest) : list (string * string) :=
  let wants := fmap (λ r, (environment.Requirement_Version r, environment.Requirement_Name r)) in
  wants (environment.Languages m) ++ wants (environment.PackageManagers m) ++
  wants (environment.Frameworks m) ++ wants (environment.BuildTools m) ++
  wants (environment.TestTools m) ++ wants (environment.SDKs m) ++
  ((λ b, (environment.Browser_Version b, environment.Browser_Name b)) <$> environment.Browsers m) ++
  ((λ a, (environment.Agent_Version a, environment.AgentID a)) <$> environment.AgentCLIs m).

(* src: internal/sharedinfra/resolver.go:17-75 (ResolveManifest) *)
Definition ResolveManifest (registry : option (gmap string Tool)) (has_cache : bool)
    (platform architecture : string) (m : environment.Manifest) : C (result (list Resolution)) :=
  match registry with
  | None => mret (Err (ErrorString "tool registry unavailable"))
  | Some registry =>
      let! rs := resolve_all registry has_cache platform architecture (requirements m) in
      mret (let? rs := rs in Ok (dedup ∅ rs))
  end.
End cache.

(** ** The default registry *)

(* src: internal/sharedinfra/resolver.go:119-125 (DefaultRegistry) *)
Definition default_tool (id : string) (cat : ToolCategory) (versions : list string) : Tool :=
  mkTool id id cat
    ((λ v, mkVersion v "linux" "amd64" [] (mkArtifact (id +:+ "@" +:+ v) id v "linux" "amd64" 0 ""
             "" "" ∅) "runtime-scoped" "binary-version-and-capability" []) <$> versions)
    ["linux"] [] [] "runtime-scoped" "binary-version-and-capability" id ∅.

(* src: internal/sharedinfra/resolver.go:117-138 (DefaultRegistry) *)
Definition DefaultRegistry : gmap string Tool :=
  (Load ∅ [
    default_tool "node" Language ["20.11.0"; "22.1.0"];
    default_tool "pnpm" PackageManager ["9.15.0"; "10.0.0"];
    default_tool "git" CLI ["2.43.0"];
    default_tool "chromium" Browser ["stable"];
    default_tool "codex" AIAgent ["latest-compatible"];
    default_tool "claude_code" AIAgent ["latest-compatible"];
    default_tool "kimi" AIAgent ["latest-compatible"];
    default_tool "playwright" Testing ["latest-compatible"];
    default_tool "react" Framework ["latest-compatible"];
    default_tool "react-native" Framework ["latest-compatible"];
    default_tool "go" Language ["1.23.0"]]).1.

(** ** Properties *)

Section facts.
Context {W : Type} `{Sha256} `{strings.GoUnicode} (c : Cache W).

Lemma find_blob_inv a (sw sw' : cstate * W) blob :
  find_blob c a sw = (blob, sw') →
  entries sw'.1 = entries sw.1 ∧ default "" (blobs sw'.1 !! artifactKey a) = blob.
Proof.
  intros (b & sw1 & Hb & Hk)%mthen_inv. apply look_inv in Hb as [-> ->].
  case_decide as He; [|by apply mret_inv in Hk as [<- <-]].
  unfold persist in Hk. destruct (Persistence c) as [p|]; [|by apply mret_inv in Hk as [<- <-]].
  apply mthen_inv in Hk as ([[loaded found] err] & sw2 & [_ Hs]%outside_inv & Hk).
  destruct (bool_decide (err = None) && found).
  - apply mthen_inv in Hk as (u & sw3 & Hp%modify_inv & Hk). apply mret_inv in Hk as [<- <-].
    rewrite Hp. simpl. rewrite Hs. by rewrite lookup_insert_eq.
  - apply mret_inv in Hk as [<- <-]. by rewrite Hs.
Qed.

Lemma find_blob_memory a (sw sw' : cstate * W) data blob :
  blobs sw.1 !! artifactKey a = Some data → data ≠ "" →
  find_blob c a sw = (blob, sw') → blob = data ∧ sw' = sw.
Proof.
  intros Hd Hne (b & sw1 & Hb & Hk)%mthen_inv. apply look_inv in Hb as [-> ->].
  rewrite Hd in Hk. cbn [default from_option id] in Hk. rewrite decide_False in Hk by done.
  by apply mret_inv in Hk as [<- <-].
Qed.

(** What a lookup answers and leaves behind. *)
Lemma Lookup_inv a (sw sw' : cstate * W) e status :
  Lookup c a sw = ((e, status), sw') →
  match entries sw.1 !! artifactKey a with
  | None => status = CacheMiss ∧ sw' = sw
  | Some e0 =>
      entries sw'.1 = <[artifactKey a := e]> (entries sw.1) ∧ Entry_Artifact e = Entry_Artifact e0 ∧
      Entry_Status e = status ∧
      status = (if verifyChecksum (default "" (blobs sw'.1 !! artifactKey a)) (Checksum a)
                then CacheHit else CacheCorrupt) ∧
      RefCount e = (if decide (status = CacheHit) then add64 (RefCount e0) 1 else RefCount e0)
  end.
Proof.
  intros (found & sw1 & Hf & Hk)%mthen_inv. apply look_inv in Hf as [-> ->].
  destruct (entries sw.1 !! artifactKey a) as [e0|] eqn:He.
  2: { apply mret_inv in Hk as [[= _ <-] <-]. done. }
  apply mthen_inv in Hk as (blob & sw1 & [Hent Hblob]%find_blob_inv & Hk).
  destruct (verifyChecksum blob (Checksum a)) eqn:Hv.
  - apply mthen_inv in Hk as (now & sw2 & [_ Hs2]%outside_inv & Hk).
    apply mthen_inv in Hk as (u & sw3 & Hp%modify_inv & Hk).
    apply mthen_inv in Hk as (err & sw4 & Hs & Hk). apply mret_inv in Hk as [[= <- <-] <-].
    assert (sw4.1 = sw3.1) as ->.
    { unfold persist in Hs. destruct (Persistence c).
      - by apply outside_inv in Hs as [_ ?].
      - by apply mret_inv in Hs as [_ <-]. }
    rewrite Hp. simpl. rewrite Hs2, Hent, Hblob, Hv. done.
  - apply mthen_inv in Hk as (u & sw3 & Hp%modify_inv & Hk).
    apply mret_inv in Hk as [[= <- <-] <-]. rewrite Hp. simpl. rewrite Hent, Hblob, Hv. done.
Qed.

(** A hit is verified.  A lookup is a miss exactly when the cache has no entry
    for the artifact.  Otherwise it is a hit exactly when the bytes the cache holds
    for it afterwards, in memory or just loaded, have the artifact's SHA-256
    checksum, and the entry says so; if they do not, the entry is marked corrupt
    and no use of it is counted. *)
Theorem Lookup_verified a st w e status st' w' :
  Lookup c a (st, w) = ((e, status), (st', w')) →
  let bytes := default "" (blobs st' !! artifactKey a) in
  (status = CacheMiss ↔ entries st !! artifactKey a = None) ∧
  (status = CacheHit ↔ is_Some (entries st !! artifactKey a) ∧
     verifyChecksum bytes (Checksum a) = true) ∧
  (∀ e0, entries st !! artifactKey a = Some e0 →
     entries st' = <[artifactKey a := e]> (entries st) ∧ Entry_Status e = status ∧
     RefCount e = if verifyChecksum bytes (Checksum a) then add64 (RefCount e0) 1
                  else RefCount e0).
Proof.
  intros Hl%Lookup_inv. simpl in Hl. destruct (entries st !! artifactKey a) as [e0|].
  - destruct Hl as (He & _ & Hs & Hst & Hr).
    destruct (verifyChecksum _ _) eqn:Hv; rewrite Hst in *; simpl in Hr;
      (split; [by split|]; split; [|by intros e1 [= <-]; rewrite ?Hv; split_and!]).
    + split; [|done]. intros _. split; [by eexists|done].
    + split; [done|]. intros [_ Hv2]. congruence.
  - destruct Hl as [-> [= <- <-]]. split_and!; [done| |done].
    split; [done|]. by intros [[? [=]] _].
Qed.

(** A stored artifact is found again. *)
Lemma Put_Lookup a data st w e st1 w1 :
  Persistence c = None → data ≠ "" → Put c a data (st, w) = ((e, None), (st1, w1)) →
  ∃ e' st2 w2, Lookup c a (st1, w1) = ((e', CacheHit), (st2, w2)) ∧
    blobs st2 !! artifactKey a = Some data.
Proof.
  intros Hnp Hne Hp. unfold Put in Hp. case_decide; [by apply mret_inv in Hp as [[=] _]|].
  destruct (verifyChecksum data (Checksum a)) eqn:Hv; simpl in Hp;
    [|by apply mret_inv in Hp as [[=] _]].
  assert (is_Some (entries st1 !! artifactKey a) ∧ blobs st1 !! artifactKey a = Some data)
    as [[e1 He1] Hb1].
  { apply mthen_inv in Hp as (found & sw1 & Hf & Hk). apply look_inv in Hf as [-> ->].
    unfold orElse, persist in Hk. rewrite Hnp in Hk. destruct (entries _ !! artifactKey a).
    - apply mthen_inv in Hk as (now & sw2 & _ & Hk).
      apply mthen_inv in Hk as (x1 & sw3 & [<- <-]%mret_inv & Hk).
      apply mthen_inv in Hk as (x2 & sw4 & [<- <-]%mret_inv & Hk).
      apply mthen_inv in Hk as (u & sw5 & Hp1%modify_inv & Hk).
      apply mthen_inv in Hk as (u' & sw6 & Hp2%modify_inv & Hk).
      apply mret_inv in Hk as [_ Hsw]. rewrite Hp2, Hp1 in Hsw. injection Hsw as <- _. simpl.
      rewrite !lookup_insert_eq. by split; [eexists|].
    - apply mthen_inv in Hk as (u0 & sw2 & _ & Hk). apply mthen_inv in Hk as (now & sw3 & _ & Hk).
      apply mthen_inv in Hk as (x1 & sw4 & [<- <-]%mret_inv & Hk).
      apply mthen_inv in Hk as (x2 & sw5 & [<- <-]%mret_inv & Hk).
      apply mthen_inv in Hk as (u & sw6 & Hp1%modify_inv & Hk).
      apply mthen_inv in Hk as (u' & sw7 & Hp2%modify_inv & Hk).
      apply mret_inv in Hk as [_ Hsw]. rewrite Hp2, Hp1 in Hsw. injection Hsw as <- _. simpl.
      rewrite !lookup_insert_eq. by split; [eexists|]. }
  destruct (Lookup c a (st1, w1)) as [[e' status] [st2 w2]] eqn:E. exists e', st2, w2.
  apply mthen_inv in E as (found & sw1 & Hf & Hk). apply look_inv in Hf as [-> ->].
  cbn [fst] in Hk. rewrite He1 in Hk. apply mthen_inv in Hk as (blob & sw1 & Hb & Hk).
  apply (find_blob_memory _ _ _ data) in Hb as [-> ->]; [|done..]. rewrite Hv in Hk.
  apply mthen_inv in Hk as (now & sw2 & [_ Hs2]%outside_inv & Hk).
  apply mthen_inv in Hk as (u & sw3 & Hp1%modify_inv & Hk).
  apply mthen_inv in Hk as (x & sw4 & Hx & Hk). unfold persist in Hx. rewrite Hnp in Hx.
  apply mret_inv in Hx as [_ <-]. apply mret_inv in Hk as [[= _ <-] Hsw]. split; [done|].
  rewrite Hp1 in Hsw. injection Hsw as <- _. simpl. by rewrite Hs2.
Qed.

Lemma no_checksum_no_hit a (sw sw' : cstate * W) e status :
  Checksum a = "" → Lookup c a sw = ((e, status), sw') → status ≠ CacheHit.
Proof.
  intros Hc Hl%Lookup_inv. destruct (entries sw.1 !! artifactKey a).
  - destruct Hl as (_ & _ & _ & -> & _). unfold verifyChecksum. by rewrite decide_True.
  - by destruct Hl as [-> _].
Qed.

Lemma Resolve_checksum registry toolID req platform architecture v :
  map_Forall (λ _ t, Forall (λ v, Checksum (Version_Artifact v) = "") (Versions t)) registry →
  Resolve registry toolID req platform architecture = Ok v → Checksum (Version_Artifact v) = "".
Proof.
  intros Hr. unfold Resolve. destruct (registry !! toolID) as [t|] eqn:Ht; [|done].
  specialize (Hr _ _ Ht). simpl in Hr. rewrite Forall_forall in Hr.
  destruct (filter _ (Versions t)) as [|v' l] eqn:Hf; [done|]. intros [= <-].
  apply Hr. assert (v' ∈ filter (λ v, versionMatches (Version v) req = true ∧
    (platform = "" ∨ Platform v = platform) ∧ (architecture = "" ∨ Architecture v = architecture))
    (Versions t)) as Hin by (rewrite Hf; by left).
  by apply list_elem_of_filter in Hin as [_ ?].
Qed.

Lemma dedup_subset seen l r : r ∈ dedup seen l → r ∈ l.
Proof.
  revert seen. induction l as [|v l IH]; intros seen; simpl; [done|].
  case_decide; rewrite ?elem_of_cons; naive_solver.
Qed.

Lemma default_checksums :
  map_Forall (λ _ t, Forall (λ v, Checksum (Version_Artifact v) = "") (Versions t))
    DefaultRegistry.
Proof. apply (bool_decide_eq_true_1 _). vm_compute. reflexivity. Qed.

(** The cache never serves the default registry.  Its artifacts carry no
    checksum, and without one nothing verifies: whatever the manifest and whatever
    the cache and its persistence hold, no resolution is a hit; nor can such an
    artifact be put into the cache. *)
Theorem default_registry_never_hits has_cache platform architecture m (sw sw' : cstate * W) rs :
  ResolveManifest c (Some DefaultRegistry) has_cache platform architecture m sw = (Ok rs, sw') →
  Forall (λ r, Resolution_Cache r ≠ CacheHit ∧
    ∀ data sw1, ∃ e, (Put c (Version_Artifact (Resolution_Version r)) data sw1).1
      = (zero_Entry, Some e)) rs.
Proof.
  intros (all & sw1 & Hall & Hk)%mthen_inv. apply mret_inv in Hk as [Hk _].
  destruct all as [all|]; [|done]. simpl in Hk. injection Hk as <-.
  assert (Forall (λ r, Resolution_Cache r ≠ CacheHit ∧
    Checksum (Version_Artifact (Resolution_Version r)) = "") all) as Hf.
  { clear sw'. revert sw sw1 all Hall.
    induction (requirements m) as [|[req name] reqs IH]; intros sw sw1 all Hall.
    { apply mret_inv in Hall as [[= <-] _]. done. }
    cbn [resolve_all] in Hall. apply mthen_inv in Hall as (r & sw2 & Hr & Hall).
    destruct r as [r|]; [|by apply mret_inv in Hall as [[=] _]].
    apply mthen_inv in Hall as (rs & sw3 & Hrs & Hall). apply mret_inv in Hall as [Hall _].
    destruct rs as [rs|]; [|done]. simpl in Hall. injection Hall as <-.
    constructor; [|by eapply IH]. unfold resolve in Hr.
    destruct (Resolve _ _ _ _ _) as [v|] eqn:Hv; [|by apply mret_inv in Hr as [[=] _]].
    apply Resolve_checksum in Hv; [|apply default_checksums].
    apply mthen_inv in Hr as (status & sw4 & Hs & Hr). apply mret_inv in Hr as [[= <-] _]. simpl.
    split; [|done]. destruct has_cache; [|by apply mret_inv in Hs as [<- _]].
    apply mthen_inv in Hs as ([e st] & sw5 & Hl & Hs). apply mret_inv in Hs as [<- _].
    by eapply no_checksum_no_hit. }
  apply Forall_forall. intros r Hr%dedup_subset. rewrite Forall_forall in Hf.
  destruct (Hf r Hr) as [Hs Hc]. split; [done|]. intros data sw2. unfold Put.
  rewrite decide_True by done. by eexists.
Qed.
End facts.

(** The wildcard is a text prefix: any 20 is a 2.x. *)
Lemma versionMatches_prefix : versionMatches "20.11.0" "2.x" = true.
Proof. vm_compute. reflexivity. Qed.
End sharedinfra.

(** ** Witnesses *)

Section witness.
Import sharedinfra.
#[local] Instance witness_sha : Sha256 := λ s, s.
#[local] Existing Instance strings.ascii_unicode.
Definition memory_cache : Cache unit := mkCacheService (mret 4) None.
Definition example_artifact : Artifact :=
  mkArtifact "a" "a" "1" "linux" "amd64" 2 "sha256:6f6B" "" "" ∅.
Definition filled : cstate := (Put memory_cache example_artifact "ok" (NewCache, tt)).2.1.

Lemma Lookup_verified_witness :
  ∃ e st', Lookup memory_cache example_artifact (filled, tt) = ((e, CacheHit), (st', tt)) ∧
    verifyChecksum (default "" (blobs st' !! artifactKey example_artifact)) "sha256:6f6B" = true.
Proof.
  destruct (Lookup memory_cache example_artifact (filled, tt)) as [[e status] [st' []]] eqn:E.
  assert (status = CacheHit) as -> by (vm_compute in E; by injection E).
  exists e, st'. split; [done|].
  apply (Lookup_verified memory_cache example_artifact filled tt e CacheHit st' tt E). done.
Defined.

Definition node_manifest : environment.Manifest :=
  environment.mkManifest "m" "p" "1" "img" "ubuntu" "amd64" environment.Standard
    [environment.requirement "NodeJS" "2.x" ""] [] [] [] [] [] [] [] [] [] []
    (environment.mkResource 1 1 1 false 0) "" "" 0.

Lemma default_registry_never_hits_witness :
  ∃ r sw', ResolveManifest memory_cache (Some DefaultRegistry) true "linux" "amd64" node_manifest
      (filled, tt) = (Ok [r], sw') ∧ Version (Resolution_Version r) = "20.11.0" ∧
    Resolution_Cache r ≠ CacheHit.
Proof.
  destruct (ResolveManifest memory_cache (Some DefaultRegistry) true "linux" "amd64" node_manifest
    (filled, tt)) as [rs sw'] eqn:E.
  destruct rs as [[|r [|]]|]; try (vm_compute in E; done).
  exists r, sw'. split; [done|]. split; [vm_compute in E; by injection E as <- _|].
  apply default_registry_never_hits in E. apply Forall_cons in E as [[? _] _]. done.
Defined.
End witness.
