(* ===== verification/ProjectComputer.v ===== *)
(** * Project computers

    [src/internal/projectcomputer]: the machine of a project, its lifecycle
    operations, the verification of its capabilities and the readiness made of
    them.  The manager keeps the computers in memory in front of a store; what it
    keeps and the events it has published are its state. *)

From S2P Require Import Prelude GoStrings World Runtime Float ProjIntel Environment.

Module projectcomputer.

(* src: internal/projectcomputer/types.go:12-23 (Status) *)
Inductive Status :=
  | Provisioning | Ready | Degraded | Stopped | Failed | Destroying | Destroyed
  | BlockedByEnvironment | StatusOther (s : string).
#[global] Instance Status_eq_dec : EqDecision Status.
Proof. solve_decision. Defined.

(* src: internal/projectcomputer/types.go:25-34 (Readiness) *)
Inductive Readiness :=
  | CoreReady | AgentReady | BrowserReady | BuildReady | DeployReady | FullyReady
  | ReadinessOther (s : string).
#[global] Instance Readiness_eq_dec : EqDecision Readiness.
Proof. solve_decision. Defined.

(* src: internal/projectcomputer/types.go:36-49 (Capability) *)
Inductive Capability :=
  | Filesystem | Process | Network | Ports | PTY | Browser | Git | Containers | GPU | Snapshots
  | CapabilityOther (s : string).
#[global] Instance Capability_eq_dec : EqDecision Capability.
Proof. solve_decision. Defined.

(* src: internal/projectcomputer/types.go:51-58 (CapabilityStatus) *)
Inductive CapabilityStatus :=
  | Supported | Unsupported | Blocked | CapabilityFailed | CapabilityStatusOther (s : string).
#[global] Instance CapabilityStatus_eq_dec : EqDecision CapabilityStatus.
Proof. solve_decision. Defined.

(* src: internal/projectcomputer/types.go:60-65 (CapabilityCheck) *)
Record CapabilityCheck := mkCheck {
  Check_Capability : Capability;
  Check_Status : CapabilityStatus;
  Evidence : string;
  CheckedAt : Z
}.

(* src: internal/projectcomputer/types.go:66-73 (ResourceSnapshot) *)
Record ResourceSnapshot := mkSnapshot {
  CPU : Z;
  MemoryBytes : Z;
  DiskBytes : Z;
  HasGPU : bool;
  GPUMemoryBytes : Z;
  HasNetwork : bool
}.

(* src: internal/projectcomputer/types.go:74-89 (ProjectComputer) *)
Record ProjectComputer := mkComputer {
  ID : string;
  ProjectID : string;
  RuntimeProvider : string;
  RuntimeID : string;
  Image : string;
  ImageVersion : string;
  Computer_Status : Status;
  Resources : environment.ResourceRequirement;
  EnvironmentFingerprint : string;
  Computer_Readiness : list Readiness;
  Capabilities : list CapabilityCheck;
  CreatedAt : Z;
  UpdatedAt : Z;
  Metadata : gmap string string
}.
#[global] Instance eta_ProjectComputer : Eta ProjectComputer := λ c,
  mkComputer (ID c) (ProjectID c) (RuntimeProvider c) (RuntimeID c) (Image c) (ImageVersion c)
    (Computer_Status c) (Resources c) (EnvironmentFingerprint c) (Computer_Readiness c)
    (Capabilities c) (CreatedAt c) (UpdatedAt c) (Metadata c).
Definition zero_Computer : ProjectComputer :=
  mkComputer "" "" "" "" "" "" (StatusOther "") (environment.mkResource 0 0 0 false 0) "" [] []
    time_zero time_zero ∅.

(* src: internal/projectcomputer/types.go:90-101 (Operation) *)
Inductive Operation :=
  | OpCreate | OpStart | OpStop | OpRestart | OpDestroy | OpRebuild | OpRepair | OpVerify.

(* src: internal/projectcomputer/manager.go:15-23 (Event) *)
Record Event := mkEvent {
  Event_Type : string;
  Event_ProjectID : string;
  ComputerID : string;
  Event_Operation : Operation;
  Event_Status : Status;
  Message : string;
  At : Z
}.

(** ** Pure parts *)

(* src: internal/projectcomputer/manager.go:222-230 (checkResources) *)
Definition checkResources (required : environment.ResourceRequirement)
    (available : ResourceSnapshot) : option goerror :=
  if (CPU available <? environment.CPU required) ||
     (MemoryBytes available <? environment.MemoryBytes required) ||
     (DiskBytes available <? environment.DiskBytes required)
  then Some (ErrorString ("INSUFFICIENT_RESOURCES: required cpu=" +:+
         pretty (environment.CPU required) +:+ " memory=" +:+
         pretty (environment.MemoryBytes required) +:+ " disk=" +:+
         pretty (environment.DiskBytes required) +:+ ", available cpu=" +:+ pretty (CPU available) +:+
         " memory=" +:+ pretty (MemoryBytes available) +:+ " disk=" +:+
         pretty (DiskBytes available)))
  else if environment.GPU required &&
          (negb (HasGPU available) || (GPUMemoryBytes available <? environment.GPUMemoryBytes required))
  then Some (ErrorString "INSUFFICIENT_RESOURCES: required GPU resources are unavailable")
  else None.

Definition has (checks : list CapabilityCheck) (c : Capability) : bool :=
  existsb (λ x, bool_decide (Check_Capability x = c) && bool_decide (Check_Status x = Supported))
    checks.

(* src: internal/projectcomputer/manager.go:231-260 (readiness) *)
Definition readiness (checks : list CapabilityCheck) : list Readiness :=
  let out :=
    (if has checks Filesystem && has checks Process && has checks Git then [CoreReady] else []) ++
    (if has checks Git then [AgentReady] else []) ++
    (if has checks Browser then [BrowserReady] else []) ++
    (if has checks Filesystem then [BuildReady] else []) in
  let out := if (4 <=? length out)%nat then out ++ [DeployReady] else out in
  if (length out =? 5)%nat then out ++ [FullyReady] else out.

(* src: internal/projectcomputer/manager.go:261-268 (hasBlocked) *)
Definition hasBlocked (v : list CapabilityCheck) : bool :=
  existsb (λ c, bool_decide (Check_Status c = Blocked)) v.

(* src: internal/projectcomputer/manager.go:269-276 (hasFailure) *)
Definition hasFailure (v : list CapabilityCheck) : bool :=
  existsb (λ c, bool_decide (Check_Status c = CapabilityFailed) ||
                bool_decide (Check_Status c = Unsupported)) v.

(** The loop compares the slice at each index. *)
(* src: internal/projectcomputer/manager.go:278-285 (contains) *)
Definition contains (s v : string) : bool :=
  existsb (λ i, String.eqb (String.substring i (String.length v) s) v)
    (seq 0 (S (String.length s) - String.length v)).

(* src: internal/projectcomputer/manager.go:277-277 (stringsHasBlocked) *)
Definition stringsHasBlocked (s : string) : bool :=
  (24 <=? String.length s)%nat && contains s "BLOCKED_BY_ENVIRONMENT".

(** ** The manager *)

(* src: internal/projectcomputer/types.go:114-119 (Store) *)
Record Store (W : Type) := mkStore {
  Store_Save : ProjectComputer → M W (option goerror);
  Store_Get : string → M W (ProjectComputer * option goerror);
  Store_List : string → M W (list ProjectComputer * option goerror)
}.
Arguments mkStore {W}.
Arguments Store_Save {W}.
Arguments Store_Get {W}.
Arguments Store_List {W}.

(* src: internal/projectcomputer/manager.go:24-31 (Manager) *)
Record Manager (W : Type) := mkManager {
  Provider : option (runtime.Provider W);
  Manager_Store : option (Store W);
  Events : bool;
  Now : M W Z
}.
Arguments mkManager {W}.
Arguments Provider {W}.
Arguments Manager_Store {W}.
Arguments Events {W}.
Arguments Now {W}.

Record mstate := mkState { computers : gmap string ProjectComputer; published : list Event }.
#[global] Instance eta_mstate : Eta mstate := λ s, mkState (computers s) (published s).

(* src: internal/projectcomputer/manager.go:33-38 (NewManager) *)
Definition NewManager : mstate := mkState ∅ [].

Section manager.
Context {W : Type} (m : Manager W).
Notation C A := (M (mstate * W) A).

(* src: internal/projectcomputer/manager.go:192-196 (publish) *)
Definition publish (c : ProjectComputer) (op : Operation) (typ msg : string) : C unit :=
  if Events m then
    let! now := outside (Now m) in
    modify (λ st, st <| published := published st ++
      [mkEvent typ (ProjectID c) (ID c) op (Computer_Status c) msg now] |>)
  else mskip.

(* src: internal/projectcomputer/manager.go:171-179 (save) *)
Definition save (c : ProjectComputer) : C (option goerror) :=
  let! _ := modify (λ st, st <| computers := <[ID c := c]> (computers st) |>) in
  match Manager_Store m with
  | Some store => outside (Store_Save store c)
  | None => mret None
  end.

(* src: internal/projectcomputer/manager.go:159-170 (get) *)
Definition get (id : string) : C (ProjectComputer * option goerror) :=
  let! found := look (λ st, computers st !! id) in
  match found with
  | Some c => mret (c, None)
  | None =>
      match Manager_Store m with
      | Some store => outside (Store_Get store id)
      | None => mret (zero_Computer, Some (ErrorString "project computer not found"))
      end
  end.

(* src: internal/projectcomputer/manager.go:144-144 (Get) *)
Definition Get (id : string) : C (ProjectComputer * option goerror) := get id.

(* src: internal/projectcomputer/manager.go:145-158 (List) *)
Definition List `{MapOrder} (projectID : string) : C (list ProjectComputer * option goerror) :=
  match Manager_Store m with
  | Some store => outside (Store_List store projectID)
  | None => look (λ st, (filter (λ c, projectID = "" ∨ ProjectID c = projectID)
                          (map_range 0 (computers st)).*2, None))
  end.

(* src: internal/projectcomputer/manager.go:180-191 (fail) *)
Definition fail (c : ProjectComputer) (op : Operation) (err : goerror)
    : C (ProjectComputer * option goerror) :=
  let c := c <| Computer_Status := (if stringsHasBlocked (error_text err)
                                    then BlockedByEnvironment else Failed) |>
             <| Metadata := <["error" := error_text err]> (Metadata c) |> in
  let! now := outside (Now m) in
  let c := c <| UpdatedAt := now |> in
  let! _ := save c in
  let! _ := publish c op "project_computer.failed" (error_text err) in
  mret (c, Some err).

(* src: internal/projectcomputer/manager.go:39-70 (Create) *)
Definition Create (projectID : string) (manifest : environment.Manifest)
    (available : ResourceSnapshot) : C (ProjectComputer * option goerror) :=
  if bool_decide (projectID = "") ||
     negb (bool_decide (environment.Manifest_ProjectID manifest = projectID))
  then mret (zero_Computer, Some (ErrorString "project ownership mismatch"))
  else
    let res := environment.Resources manifest in
    match checkResources res available with
    | Some e => mret (zero_Computer, Some e)
    | None =>
        let! now := outside (Now m) in
        let computer := mkComputer ("pc_" +:+ projectID +:+ "_" +:+ pretty (UnixNano now)) projectID
          "" "" (environment.BaseImage manifest) (environment.Manifest_Version manifest)
          Provisioning res "" [] [] now now
          {["manifest_id" := environment.Manifest_ID manifest]} in
        match Provider m with
        | None =>
            let computer := computer <| Computer_Status := BlockedByEnvironment |> in
            let! _ := save computer in
            let! _ := publish computer OpCreate "project_computer.failed"
                        "RuntimeProvider unavailable" in
            mret (computer, Some (ErrorString "BLOCKED_BY_ENVIRONMENT: RuntimeProvider unavailable"))
        | Some p =>
            let computer := computer <| RuntimeProvider := runtime.Name p |> in
            let! (rt, err) := outside (runtime.Create p
              (runtime.mkSpec ("suda-" +:+ projectID) "" (environment.CPU res)
                 (environment.MemoryBytes res) (environment.DiskBytes res) "controlled")) in
            match err with
            | Some e =>
                let computer := computer <| Computer_Status := BlockedByEnvironment |>
                  <| Metadata := <["evidence" := error_text e]> (Metadata computer) |> in
                let! _ := save computer in
                let! _ := publish computer OpCreate "project_computer.failed" (error_text e) in
                mret (computer, Some (wrap_prefix "BLOCKED_BY_ENVIRONMENT: " e))
            | None =>
                let computer := computer <| RuntimeID := runtime.Runtime_ID rt |>
                  <| Computer_Status := Provisioning |> in
                let! err := save computer in
                match err with
                | Some e => mret (zero_Computer, Some e)
                | None =>
                    let! _ := publish computer OpCreate "project_computer.created"
                                "Project Computer created" in
                    mret (computer, None)
                end
            end
        end
    end.

(** The action is only called when there is a provider. *)
(* src: internal/projectcomputer/manager.go:116-137 (transition) *)
Definition transition (id : string) (op : Operation)
    (action : runtime.Provider W → ProjectComputer → M W (option goerror))
    (success : Status) (event : string) : C (ProjectComputer * option goerror) :=
  let! (c, err) := get id in
  match err with
  | Some e => mret (zero_Computer, Some e)
  | None =>
      if decide (Computer_Status c = Destroyed)
      then mret (c, Some (ErrorString "project computer is destroyed"))
      else match Provider m with
           | None => fail c op (ErrorString
                       "BLOCKED_BY_ENVIRONMENT: RuntimeProvider unavailable")
           | Some p =>
               let! err := outside (action p c) in
               match err with
               | Some e => fail c op e
               | None =>
                   let! now := outside (Now m) in
                   let c := c <| Computer_Status := success |> <| UpdatedAt := now |> in
                   let! err := save c in
                   match err with
                   | Some e => mret (zero_Computer, Some e)
                   | None =>
                       let! _ := publish c op event
                                   "Project Computer lifecycle operation completed" in
                       mret (c, None)
                   end
               end
           end
  end.

(* src: internal/projectcomputer/manager.go:71-78 (Start) *)
Definition Start (id : string) : C (ProjectComputer * option goerror) :=
  transition id OpStart (λ p c,
    if decide (RuntimeID c = "") then mret (Some (ErrorString "runtime is not allocated"))
    else runtime.Start p (RuntimeID c)) Ready "project_computer.ready".

(* src: internal/projectcomputer/manager.go:79-81 (Stop) *)
Definition Stop (id : string) : C (ProjectComputer * option goerror) :=
  transition id OpStop (λ p c, runtime.Stop p (RuntimeID c)) Stopped "project_computer.stopped".

(* src: internal/projectcomputer/manager.go:82-84 (Restart) *)
Definition Restart (id : string) : C (ProjectComputer * option goerror) :=
  transition id OpRestart (λ p c, runtime.Restart p (RuntimeID c)) Ready "project_computer.ready".

(* src: internal/projectcomputer/manager.go:85-87 (Destroy) *)
Definition Destroy (id : string) : C (ProjectComputer * option goerror) :=
  transition id OpDestroy (λ p c, runtime.Destroy p (RuntimeID c)) Destroyed
    "project_computer.destroyed".

(** The shell line of a capability; [None] for those no command can tell. *)
(* src: internal/projectcomputer/manager.go:198-212 (check) *)
Definition probe (cap : Capability) : option string :=
  match cap with
  | Filesystem => Some "test -d /workspace"
  | Process => Some "ps >/dev/null 2>&1"
  | Git => Some "command -v git"
  | Browser => Some "command -v chromium || command -v chromium-browser"
  | Network => Some "getent hosts example.com >/dev/null 2>&1"
  | Ports | PTY | Containers | GPU | Snapshots => None
  | CapabilityOther _ => Some "true"
  end.

(* src: internal/projectcomputer/manager.go:197-221 (check) *)
Definition check (p : runtime.Provider W) (c : ProjectComputer) (cap : Capability)
    : M W (CapabilityStatus * string) :=
  match probe cap with
  | None => mret (Blocked, "capability requires runtime-specific verification")
  | Some line =>
      let! (out, err) := runtime.Exec p None (RuntimeID c)
        (runtime.mkCommand ["sh"; "-lc"; line] "/workspace" [] false 30) in
      mret match err with
           | Some e => (CapabilityFailed, error_text e)
           | None => if decide (runtime.ExitCode out = 0) then (Supported, runtime.Stdout out)
                     else (CapabilityFailed, runtime.Stderr out)
           end
  end.

(* src: internal/projectcomputer/manager.go:96-100 (Verify) *)
Fixpoint check_all (p : runtime.Provider W) (c : ProjectComputer) (caps : list Capability)
    : M W (list CapabilityCheck) :=
  match caps with
  | [] => mret []
  | cap :: caps =>
      let! (status, evidence) := check p c cap in
      let! now := Now m in
      let! rest := check_all p c caps in
      mret (mkCheck cap status evidence now :: rest)
  end.

(* src: internal/projectcomputer/manager.go:88-115 (Verify) *)
Definition Verify (id : string) (caps : list Capability) : C (ProjectComputer * option goerror) :=
  let! (c, err) := get id in
  match err with
  | Some e => mret (zero_Computer, Some e)
  | None =>
      match Provider m with
      | None => fail c OpVerify (ErrorString "BLOCKED_BY_ENVIRONMENT: RuntimeProvider unavailable")
      | Some p =>
          let! checks := outside (check_all p c caps) in
          let c := c <| Capabilities := checks |> <| Computer_Readiness := readiness checks |>
            <| Computer_Status := (if hasBlocked checks then Degraded
                                   else if hasFailure checks then Failed else Ready) |> in
          let! now := outside (Now m) in
          let c := c <| UpdatedAt := now |> in
          let! err := save c in
          match err with
          | Some e => mret (zero_Computer, Some e)
          | None =>
              let! _ := publish c OpVerify "project_computer.ready"
                          "Project Computer verification completed" in
              mret (c, None)
          end
      end
  end.

(** ** Properties *)

Lemma get_memory id c (sw sw' : mstate * W) out :
  computers sw.1 !! id = Some c → get id sw = (out, sw') → out = (c, None) ∧ sw' = sw.
Proof.
  intros Hc (found & sw1 & Hf & Hk)%mthen_inv. apply look_inv in Hf as [-> ->].
  rewrite Hc in Hk. by apply mret_inv in Hk as [<- <-].
Qed.

Lemma publish_computers c op typ msg (sw sw' : mstate * W) u :
  publish c op typ msg sw = (u, sw') → computers sw'.1 = computers sw.1.
Proof.
  unfold publish. destruct (Events m); [|by intros [_ <-]%mret_inv].
  intros (now & sw1 & [_ Hs]%outside_inv & Hp%modify_inv)%mthen_inv. by rewrite Hp, <-Hs.
Qed.

Lemma save_computers c (sw sw' : mstate * W) err :
  save c sw = (err, sw') → computers sw'.1 = <[ID c := c]> (computers sw.1).
Proof.
  intros (u & sw1 & Hp%modify_inv & Hk)%mthen_inv. subst sw1.
  destruct (Manager_Store m); [by apply outside_inv in Hk as [_ ->]|by apply mret_inv in Hk as [_ <-]].
Qed.

Lemma check_all_caps p c caps w checks w' :
  check_all p c caps w = (checks, w') →
  Check_Capability <$> checks = caps ∧
  Forall (λ x, match probe (Check_Capability x) with
               | None => Check_Status x = Blocked
               | Some _ => Check_Status x = Supported ∨ Check_Status x = CapabilityFailed
               end) checks.
Proof.
  revert w checks w'. induction caps as [|cap caps IH]; intros w checks w'; cbn [check_all].
  { by intros [<- _]%mret_inv. }
  intros ([status ev] & w1 & Hc & Hk)%mthen_inv. apply mthen_inv in Hk as (now & w2 & _ & Hk).
  apply mthen_inv in Hk as (rest & w3 & Hr & Hk). apply mret_inv in Hk as [<- _].
  apply IH in Hr as [Hr Hf]. rewrite fmap_cons, Hr. split; [done|]. constructor; [|done]. simpl.
  unfold check in Hc. destruct (probe cap); [|by apply mret_inv in Hc as [[= <- _] _]].
  apply mthen_inv in Hc as ([out err] & w4 & _ & Hc). apply mret_inv in Hc as [Hc _].
  destruct err; [injection Hc as <- _; auto|]. case_decide; injection Hc as <- _; auto.
Qed.

(** A destroyed computer is refused by every lifecycle operation. *)
Lemma destroyed_refused id op action success event (st : mstate) w c :
  computers st !! id = Some c → Computer_Status c = Destroyed →
  transition id op action success event (st, w)
    = ((c, Some (ErrorString "project computer is destroyed")), (st, w)).
Proof.
  intros Hc Hd. unfold transition, mthen at 1.
  destruct (get id (st, w)) as [out sw] eqn:Hg. apply (get_memory _ c) in Hg as [-> ->]; [|done].
  by rewrite decide_True.
Qed.

(** What verification makes of a computer.  A verification that returns has
    one check for each capability asked for, in order, and stores the computer with
    them: as DEGRADED exactly when one of them is a capability no command can tell,
    whatever else failed; else as FAILED exactly when a command failed; else as
    READY.  The status before plays no part, so a destroyed computer, which every
    lifecycle operation refuses, comes back; and with no capability asked for it
    is READY. *)
Theorem computer_verification id caps st w c out st' w' :
  computers st !! id = Some c → ID c = id →
  Verify id caps (st, w) = ((out, None), (st', w')) →
  Check_Capability <$> Capabilities out = caps ∧
  computers st' = <[id := out]> (computers st) ∧
  let failed := ∃ x, x ∈ Capabilities out ∧ Check_Status x = CapabilityFailed in
  let untold := ∃ cap, cap ∈ caps ∧ probe cap = None in
  (Computer_Status out = Degraded ↔ untold) ∧
  (Computer_Status out = Failed ↔ ¬ untold ∧ failed) ∧
  (Computer_Status out = Ready ↔ Forall (λ x, Check_Status x = Supported) (Capabilities out)).
Proof.
  intros Hc Hid Hv. apply mthen_inv in Hv as ([c0 err] & sw1 & Hg & Hk).
  apply (get_memory _ c) in Hg as [[= -> ->] ->]; [|done].
  destruct (Provider m) as [p|].
  2: { unfold fail in Hk. apply mthen_inv in Hk as (now & sw2 & _ & Hk).
       apply mthen_inv in Hk as (? & sw3 & _ & Hk). apply mthen_inv in Hk as (? & sw4 & _ & Hk).
       by apply mret_inv in Hk as [[=] _]. }
  apply mthen_inv in Hk as (checks & sw2 & [Hch Hs2]%outside_inv & Hk).
  apply mthen_inv in Hk as (now & sw3 & [_ Hs3]%outside_inv & Hk).
  apply mthen_inv in Hk as (err & sw4 & Hsave & Hk).
  destruct err; [by apply mret_inv in Hk as [[=] _]|].
  apply mthen_inv in Hk as (u & sw5 & Hpub & Hk). apply mret_inv in Hk as [[= <-] Hsw].
  apply publish_computers in Hpub. apply save_computers in Hsave.
  apply check_all_caps in Hch as [Hcaps Hf]. rewrite Hsw in Hpub. cbn [fst] in Hpub.
  rewrite Hpub, Hsave, Hs3, Hs2. simpl. rewrite Hid. split; [done|]. split; [done|].
  assert (hasBlocked checks = true ↔ ∃ cap, cap ∈ caps ∧ probe cap = None) as Hb.
  { unfold hasBlocked. rewrite existsb_exists. setoid_rewrite bool_decide_eq_true.
    setoid_rewrite <-list_elem_of_In. rewrite <-Hcaps. setoid_rewrite list_elem_of_fmap.
    rewrite Forall_forall in Hf. split.
    - intros (x & Hx & Hs). exists (Check_Capability x). split; [eauto|].
      specialize (Hf x Hx). destruct (probe _); [|done]. rewrite Hs in Hf. by destruct Hf.
    - intros (cap & (x & -> & Hx) & Hp). exists x. split; [done|].
      specialize (Hf x Hx). by rewrite Hp in Hf. }
  assert (hasFailure checks = true ↔ ∃ x, x ∈ checks ∧ Check_Status x = CapabilityFailed) as Hfl.
  { unfold hasFailure. rewrite existsb_exists. setoid_rewrite <-list_elem_of_In.
    setoid_rewrite orb_true_iff. setoid_rewrite bool_decide_eq_true.
    rewrite Forall_forall in Hf. split; intros (x & Hx & Hs); exists x; (split; [done|]); [|auto].
    destruct Hs as [|Hs]; [done|]. specialize (Hf x Hx). rewrite Hs in Hf.
    destruct (probe _); [by destruct Hf|done]. }
  assert (Forall (λ x, Check_Status x = Supported) checks ↔
    hasBlocked checks = false ∧ hasFailure checks = false) as Hall.
  { unfold hasBlocked, hasFailure. clear -Hf. induction Hf as [|x checks Hx _ IH]; [done|].
    rewrite Forall_cons, IH. simpl. rewrite !orb_false_iff, !bool_decide_eq_false.
    destruct (probe _); [destruct Hx as [Hx|Hx]|]; rewrite ?Hx in *; naive_solver. }
  rewrite Hall, <-Hb, <-Hfl.
  destruct (hasBlocked checks), (hasFailure checks); split_and!; naive_solver.
Qed.

(** Ready to deploy and fully ready are the same. *)
Lemma readiness_full checks : DeployReady ∈ readiness checks ↔ FullyReady ∈ readiness checks.
Proof.
  unfold readiness. destruct (has checks Filesystem), (has checks Process), (has checks Git),
    (has checks Browser); simpl; set_solver.
Qed.

(** The marker alone is two characters too short to be found. *)
Lemma blocked_marker_missed :
  stringsHasBlocked "BLOCKED_BY_ENVIRONMENT" = false ∧
  stringsHasBlocked "BLOCKED_BY_ENVIRONMENT: x" = true.
Proof. split; vm_compute; reflexivity. Qed.
End manager.
End projectcomputer.

(** ** Witness *)

Section witness.
Import projectcomputer.
Definition computer_manager : Manager unit :=
  mkManager (Some (runtime.answering runtime.zero_ExecResult)) None true (mret 3).
Definition destroyed_computer : ProjectComputer :=
  zero_Computer <| ID := "pc" |> <| RuntimeID := "rt" |> <| Computer_Status := Destroyed |>.
Definition one_computer : mstate := mkState {["pc" := destroyed_computer]} [].

Lemma computer_verification_witness :
  ∃ out st', Verify computer_manager "pc" [Git] (one_computer, tt) = ((out, None), (st', tt)) ∧
    Computer_Status out = Ready ∧ Computer_Status destroyed_computer = Destroyed.
Proof.
  destruct (Verify computer_manager "pc" [Git] (one_computer, tt)) as [[out err] [st' []]] eqn:E.
  assert (err = None) as -> by (vm_compute in E; by injection E).
  exists out, st'. split; [done|]. split; [|done].
  destruct (computer_verification computer_manager "pc" [Git] one_computer tt destroyed_computer out
    st' tt eq_refl eq_refl E) as (_ & _ & _ & _ & Hready).
  apply Hready. vm_compute in E. injection E as <- _. by repeat constructor.
Defined.
End witness.
