(* ===== verification/Knowledge.v ===== *)
(** * The knowledge graph

    [src/internal/knowledge]: nodes and edges a project knows of, the store that
    keeps them in memory, and the population of a store from a snapshot.  [Store]
    is the interface the product experience uses; the Postgres implementation of
    it is in [ProductStore.v]. *)

From S2P Require Import Prelude GoStrings World.

Module knowledge.

(* src: internal/knowledge/types.go:10-32 (NodeType) *)
Inductive NodeType :=
  | Project | Requirement | Architecture | Module_ | File | Component | Page | API
  | Database | Table | DesignToken | Agent | Task | Test | Bug | Decision_ | Dependency
  | Release | Deployment | NodeTypeOther (s : string).
#[global] Instance NodeType_eq_dec : EqDecision NodeType.
Proof. solve_decision. Defined.

(* src: internal/knowledge/types.go:34-49 (EdgeType) *)
Inductive EdgeType :=
  | Contains | DependsOn | Uses | Calls | Reads | Writes | Implements | Tests | Owns
  | Modifies | GeneratedBy | DeployedAs | EdgeTypeOther (s : string).
#[global] Instance EdgeType_eq_dec : EqDecision EdgeType.
Proof. solve_decision. Defined.

(* src: internal/knowledge/types.go:51-60 (Node) *)
Record Node := mkNode {
  Node_ID : string;
  Node_ProjectID : string;
  Node_Type : NodeType;
  Node_Name : string;
  Node_Path : string;
  Node_Attributes : gmap string string;
  Node_CreatedAt : Z;
  Node_UpdatedAt : Z
}.
#[global] Instance eta_Node : Eta Node := λ n,
  mkNode (Node_ID n) (Node_ProjectID n) (Node_Type n) (Node_Name n) (Node_Path n)
    (Node_Attributes n) (Node_CreatedAt n) (Node_UpdatedAt n).
Definition zero_Node : Node :=
  mkNode "" "" (NodeTypeOther "") "" "" ∅ time_zero time_zero.

(* src: internal/knowledge/types.go:61-69 (Edge) *)
Record Edge := mkEdge {
  Edge_ID : string;
  Edge_ProjectID : string;
  From : string;
  To : string;
  Edge_Type : EdgeType;
  Edge_Attributes : gmap string string;
  Edge_CreatedAt : Z
}.
#[global] Instance eta_Edge : Eta Edge := λ e,
  mkEdge (Edge_ID e) (Edge_ProjectID e) (From e) (To e) (Edge_Type e) (Edge_Attributes e)
    (Edge_CreatedAt e).
Definition zero_Edge : Edge := mkEdge "" "" "" "" (EdgeTypeOther "") ∅ time_zero.

(* src: internal/knowledge/types.go:70-74 (Graph) *)
Record Graph := mkGraph { Graph_ProjectID : string; Nodes : list Node; Edges : list Edge }.
Definition zero_Graph : Graph := mkGraph "" [] [].

(* src: internal/knowledge/types.go:75-80 (Store) *)
Record Store (W : Type) := mkStore {
  UpsertNode : Node → M W (Node * option goerror);
  UpsertEdge : Edge → M W (Edge * option goerror);
  Store_Graph : string → M W (Graph * option goerror);
  Neighbors : string → string → EdgeType → M W (list Node * option goerror)
}.
Arguments mkStore {W}.
Arguments UpsertNode {W}.
Arguments UpsertEdge {W}.
Arguments Store_Graph {W}.
Arguments Neighbors {W}.

(** ** The store in memory *)

(** The maps of the store; its clock is an argument of the operations. *)
(* src: internal/knowledge/store.go:11-16 (MemoryStore) *)
Record MemoryStore := mkMemory { nodes : gmap string Node; edges : gmap string Edge }.
#[global] Instance eta_MemoryStore : Eta MemoryStore := λ s, mkMemory (nodes s) (edges s).

(* src: internal/knowledge/store.go:18-23 (NewMemoryStore) *)
Definition NewMemoryStore : MemoryStore := mkMemory ∅ ∅.

Definition node_complete (n : Node) : Prop :=
  Node_ProjectID n ≠ "" ∧ Node_ID n ≠ "" ∧ Node_Type n ≠ NodeTypeOther "" ∧ Node_Name n ≠ "".
Definition edge_complete (e : Edge) : Prop :=
  Edge_ProjectID e ≠ "" ∧ Edge_ID e ≠ "" ∧ From e ≠ "" ∧ To e ≠ "" ∧
  Edge_Type e ≠ EdgeTypeOther "".
#[global] Instance node_complete_dec n : Decision (node_complete n).
Proof. unfold node_complete. apply _. Defined.
#[global] Instance edge_complete_dec e : Decision (edge_complete e).
Proof. unfold edge_complete. apply _. Defined.

Definition node_less (a b : Node) : bool := String.ltb (Node_ID a) (Node_ID b).
Definition edge_less (a b : Edge) : bool := String.ltb (Edge_ID a) (Edge_ID b).

(** What the store holds of a project, in the order of the identifiers. *)
(* src: internal/knowledge/store.go:60-77 (MemoryStore.Graph) *)
Definition graph_of `{MapOrder} (s : MemoryStore) (project : string) : Graph :=
  mkGraph project
    (sort_by node_less (filter (λ n, Node_ProjectID n = project) (map_range 0 (nodes s)).*2))
    (sort_by edge_less (filter (λ e, Edge_ProjectID e = project) (map_range 1 (edges s)).*2)).

(* src: internal/knowledge/store.go:78-93 (MemoryStore.Neighbors) *)
Definition neighbors_of `{MapOrder} (s : MemoryStore) (project id : string) (typ : EdgeType)
    : list Node :=
  let g := graph_of s project in
  let ids := list_to_set (C := gset string) (To <$> filter (λ e, From e = id ∧
    (typ = EdgeTypeOther "" ∨ Edge_Type e = typ)) (Edges g)) in
  filter (λ n, Node_ID n ∈ ids) (Nodes g).

#[global] Instance memory_world {W} `{World W} : World (MemoryStore * W) :=
  {| time_Now := outside time_Now; ctx_Err := outside ctx_Err |}.

Section memory.
Context `{MapOrder} {W : Type} (now : M W Z).
Notation C A := (M (MemoryStore * W) A).

(* src: internal/knowledge/store.go:24-39 (MemoryStore.UpsertNode) *)
Definition memory_UpsertNode (n : Node) : C (Node * option goerror) :=
  if decide (node_complete n) then
    let! t := outside now in
    let! old := look (λ s, nodes s !! Node_ID n) in
    let n := n <| Node_CreatedAt :=
      match old with Some o => Node_CreatedAt o | None => t end |> <| Node_UpdatedAt := t |> in
    let! _ := modify (λ s, s <| nodes := <[Node_ID n := n]> (nodes s) |>) in
    mret (n, None)
  else mret (zero_Node, Some (ErrorString "node project, id, type, and name are required")).

(* src: internal/knowledge/store.go:40-59 (MemoryStore.UpsertEdge) *)
Definition memory_UpsertEdge (e : Edge) : C (Edge * option goerror) :=
  if decide (edge_complete e) then
    let! source := look (λ s, nodes s !! From e) in
    let! target := look (λ s, nodes s !! To e) in
    match source, target with
    | None, _ => mret (zero_Edge, Some (ErrorString "edge source node not found"))
    | _, None => mret (zero_Edge, Some (ErrorString "edge target node not found"))
    | _, _ =>
        let! old := look (λ s, edges s !! Edge_ID e) in
        let! t := match old with
                  | Some o => mret (Edge_CreatedAt o)
                  | None => outside now
                  end in
        let e := e <| Edge_CreatedAt := t |> in
        let! _ := modify (λ s, s <| edges := <[Edge_ID e := e]> (edges s) |>) in
        mret (e, None)
    end
  else mret (zero_Edge, Some (ErrorString "edge project, id, from, to, and type are required")).

Definition memory_Graph (project : string) : C (Graph * option goerror) :=
  let! g := look (λ s, graph_of s project) in mret (g, None).
Definition memory_Neighbors (project id : string) (typ : EdgeType)
    : C (list Node * option goerror) :=
  let! l := look (λ s, neighbors_of s project id typ) in mret (l, None).

Definition memory_store : Store (MemoryStore * W) :=
  mkStore memory_UpsertNode memory_UpsertEdge memory_Graph memory_Neighbors.
End memory.

(** ** Populating a store *)

(* src: internal/knowledge/populate.go:12-16 (Snapshot) *)
Record Snapshot := mkSnapshot {
  Snapshot_ProjectID : string;
  Snapshot_Nodes : list Node;
  Snapshot_Edges : list Edge
}.

Definition or_project (project id : string) : string := if decide (id = "") then project else id.
Definition or_time (now t : Z) : Z := if IsZero t then now else t.

(** A node of the snapshot as it is stored; [None] if it is invalid. *)
(* src: internal/knowledge/populate.go:26-37 (Populate) *)
Definition populated_node (project : string) (now : Z) (n : Node) : option Node :=
  let n := n <| Node_ProjectID := or_project project (Node_ProjectID n) |> in
  if decide (Node_ProjectID n = project ∧ Node_ID n ≠ "" ∧ Node_Type n ≠ NodeTypeOther "" ∧
             Node_Name n ≠ "")
  then Some (n <| Node_CreatedAt := or_time now (Node_CreatedAt n) |>
               <| Node_UpdatedAt := or_time now (Node_UpdatedAt n) |>)
  else None.

(* src: internal/knowledge/populate.go:43-52 (Populate) *)
Definition populated_edge (project : string) (now : Z) (e : Edge) : option Edge :=
  let e := e <| Edge_ProjectID := or_project project (Edge_ProjectID e) |> in
  if decide (Edge_ProjectID e = project ∧ Edge_ID e ≠ "" ∧ From e ≠ "" ∧ To e ≠ "" ∧
             Edge_Type e ≠ EdgeTypeOther "")
  then Some (e <| Edge_CreatedAt := or_time now (Edge_CreatedAt e) |>)
  else None.

Section populate.
Context {W : Type} `{World W}.

(** A loop that checks and stores the elements one by one and stops at the first
    error. *)
Fixpoint store_all {A B} (check : A → option A) (invalid : goerror)
    (put : A → M W (B * option goerror)) (l : list A) : M W (option goerror) :=
  match l with
  | [] => mret None
  | x :: l =>
      match check x with
      | None => mret (Some invalid)
      | Some x =>
          let! (_, err) := put x in
          match err with
          | Some e => mret (Some e)
          | None => store_all check invalid put l
          end
      end
  end.

(* src: internal/knowledge/populate.go:18-58 (Populate) *)
Definition Populate (store : option (Store W)) (snapshot : Snapshot)
    : M W (Graph * option goerror) :=
  let project := Snapshot_ProjectID snapshot in
  match store with
  | None => mret (zero_Graph, Some (ErrorString "knowledge store is required"))
  | Some store =>
  if decide (project = "") then mret (zero_Graph, Some (ErrorString "project_id is required"))
  else
    let! now := time_Now in
    let! err := store_all (populated_node project now) (ErrorString "invalid knowledge node")
                  (UpsertNode store) (Snapshot_Nodes snapshot) in
    match err with
    | Some e => mret (zero_Graph, Some e)
    | None =>
        let! err := store_all (populated_edge project now) (ErrorString "invalid knowledge edge")
                      (UpsertEdge store) (Snapshot_Edges snapshot) in
        match err with
        | Some e => mret (zero_Graph, Some e)
        | None => Store_Graph store project
        end
    end
  end.
End populate.

(** ** The invariant of the store in memory *)

(** What a memory store always satisfies: entries are filed under their
    identifiers and complete, and the ends of an edge are nodes. *)
Record memory_ok (s : MemoryStore) : Prop := {
  ok_nodes : ∀ k n, nodes s !! k = Some n → Node_ID n = k ∧ node_complete n;
  ok_edges : ∀ k e, edges s !! k = Some e → Edge_ID e = k ∧ edge_complete e;
  ok_ends : ∀ k e, edges s !! k = Some e → is_Some (nodes s !! From e) ∧ is_Some (nodes s !! To e)
}.

Section memory_facts.
Context {W : Type} (now : M W Z).

Inductive store_step : relation MemoryStore :=
  | step_node n st w r st' w' :
      memory_UpsertNode now n (st, w) = (r, (st', w')) → store_step st st'
  | step_edge e st w r st' w' :
      memory_UpsertEdge now e (st, w) = (r, (st', w')) → store_step st st'.

(** A node that is accepted is stored as given, with the time of the call and the
    creation time of the node it replaces. *)
Lemma UpsertNode_ok n st w r st' w' :
  memory_UpsertNode now n (st, w) = ((r, None), (st', w')) →
  node_complete n ∧ ∃ t, r = n <| Node_CreatedAt :=
      match nodes st !! Node_ID n with Some o => Node_CreatedAt o | None => t end |>
      <| Node_UpdatedAt := t |> ∧
    st' = st <| nodes := <[Node_ID n := r]> (nodes st) |>.
Proof.
  unfold memory_UpsertNode. destruct (decide (node_complete n)) as [Hc|]; [|by intros [[=] _]%mret_inv].
  intros (t & [s1 w1] & [_ Hs]%outside_inv & Hk)%mthen_inv. simpl in Hs. subst s1.
  apply mthen_inv in Hk as (old & sw & [-> ->]%look_inv & Hk).
  apply mthen_inv in Hk as (u & sw & ->%modify_inv & Hk). apply mret_inv in Hk as [[= <-] [= <- _]].
  split; [done|]. by exists t.
Qed.

Lemma UpsertNode_err n st w r e st' w' :
  memory_UpsertNode now n (st, w) = ((r, Some e), (st', w')) → st' = st.
Proof.
  unfold memory_UpsertNode. destruct (decide _); [|by intros [_ [= ->]]%mret_inv].
  intros (t & sw & _ & Hk)%mthen_inv. apply mthen_inv in Hk as (? & ? & _ & Hk).
  apply mthen_inv in Hk as (? & ? & _ & Hk). by apply mret_inv in Hk as [[=] _].
Qed.

Lemma UpsertEdge_inv e st w r err st' w' :
  memory_UpsertEdge now e (st, w) = ((r, err), (st', w')) →
  match err with
  | Some _ => st' = st
  | None => edge_complete e ∧ is_Some (nodes st !! From e) ∧ is_Some (nodes st !! To e) ∧
      ∃ t, r = e <| Edge_CreatedAt :=
          match edges st !! Edge_ID e with Some o => Edge_CreatedAt o | None => t end |> ∧
        st' = st <| edges := <[Edge_ID e := r]> (edges st) |>
  end.
Proof.
  unfold memory_UpsertEdge.
  destruct (decide (edge_complete e)) as [Hc|]; [|by intros [[= <- <-] [= -> ->]]%mret_inv].
  intros (source & sw & [Hs ->]%look_inv & Hk)%mthen_inv.
  apply mthen_inv in Hk as (target & sw & [Ht ->]%look_inv & Hk). simpl in Hs, Ht.
  destruct source as [a|]; [|by apply mret_inv in Hk as [[= <- <-] [= -> ->]]].
  destruct target as [b|]; [|by apply mret_inv in Hk as [[= <- <-] [= -> ->]]].
  apply mthen_inv in Hk as (old & sw & [-> ->]%look_inv & Hk). simpl in Hk.
  apply mthen_inv in Hk as (t & [s1 w1] & Ht1 & Hk).
  apply mthen_inv in Hk as (u & sw & ->%modify_inv & Hk).
  apply mret_inv in Hk as [[= <- <-] [= <- _]]. simpl.
  assert (s1 = st ∧ ∃ t0, t = match edges st !! Edge_ID e with
    | Some o => Edge_CreatedAt o | None => t0 end) as [-> [t0 ->]].
  { destruct (edges st !! Edge_ID e).
    - apply mret_inv in Ht1 as [<- [= <- _]]. split; [done|by exists 0].
    - apply outside_inv in Ht1 as [_ Hs1]. simpl in Hs1. split; [done|by exists t]. }
  split; [done|]. rewrite <-Hs, <-Ht. split; [by eexists|]. split; [by eexists|]. by exists t0.
Qed.

Lemma store_step_ok st st' : store_step st st' → memory_ok st → memory_ok st'.
Proof.
  intros [n s w [r [e|]] s' w' Hn|e s w [r err] s' w' He] [On Oe Od].
  - by apply UpsertNode_err in Hn as ->.
  - apply UpsertNode_ok in Hn as (Hc & t & -> & ->). split; simpl; [|done|].
    + intros k m. rewrite lookup_insert. case_decide as Hk; [|apply On].
      subst k. by intros [= <-].
    + intros k m [Ha Hb]%Od. rewrite !lookup_insert. split; by case_decide.
  - apply UpsertEdge_inv in He. destruct err; [by subst|].
    destruct He as (Hc & Ha & Hb & t & -> & ->). split; simpl; [done|..].
    + intros k m. rewrite lookup_insert. case_decide as Hk; [|apply Oe].
      subst k. by intros [= <-].
    + intros k m. rewrite lookup_insert. case_decide as Hk; [|apply Od].
      by intros [= <-].
Qed.

Lemma memory_reachable_ok st : rtc store_step NewMemoryStore st → memory_ok st.
Proof.
  assert (memory_ok NewMemoryStore) as H0 by (split; intros; simpl in *; simplify_map_eq).
  intros Hr. revert H0. induction Hr; eauto using store_step_ok.
Qed.
End memory_facts.

(** ** What the queries return *)

Lemma node_less_asym x y : node_less x y = true → node_less y x = false.
Proof. apply ltb_asym. Qed.
Lemma node_less_negtrans x y z :
  node_less x y = false → node_less y z = false → node_less x z = false.
Proof. apply ltb_negtrans. Qed.

Section queries.
Context `{MapOrder}.

Lemma elem_of_graph_nodes s p n : memory_ok s →
  n ∈ Nodes (graph_of s p) ↔ nodes s !! Node_ID n = Some n ∧ Node_ProjectID n = p.
Proof.
  intros Hok. simpl. rewrite elem_of_sort_by, list_elem_of_filter, list_elem_of_fmap. split.
  - intros [Hp ([k m] & Hnm & Hm%elem_of_map_range)]. simpl in Hnm. subst m.
    by destruct (ok_nodes _ Hok _ _ Hm) as [-> _].
  - intros [Hn Hp]. split; [done|]. exists (Node_ID n, n). split; [done|].
    by apply elem_of_map_range.
Qed.

Lemma elem_of_graph_edges s p e : memory_ok s →
  e ∈ Edges (graph_of s p) ↔ edges s !! Edge_ID e = Some e ∧ Edge_ProjectID e = p.
Proof.
  intros Hok. simpl. rewrite elem_of_sort_by, list_elem_of_filter, list_elem_of_fmap. split.
  - intros [Hp ([k m] & Hnm & Hm%elem_of_map_range)]. simpl in Hnm. subst m.
    by destruct (ok_edges _ Hok _ _ Hm) as [-> _].
  - intros [Hn Hp]. split; [done|]. exists (Edge_ID e, e). split; [done|].
    by apply elem_of_map_range.
Qed.

(** Keys that differ sort strictly, so the order of a query's answer does not depend
    on how the maps were visited. *)
Lemma sorted_ids {A} (key : A → string) (l : list A) :
  NoDup (key <$> l) →
  StronglySorted (λ a b, String.ltb a b = true)
    (key <$> sort_by (λ a b, String.ltb (key a) (key b)) l).
Proof.
  intros Hn. set (less := λ a b, String.ltb (key a) (key b)).
  pose proof (sort_by_sorted less (λ x y, ltb_asym (key x) (key y))
    (λ x y z, ltb_negtrans (key x) (key y) (key z)) l) as Hs.
  assert (NoDup (key <$> sort_by less l)) as Hn2
    by by rewrite (fmap_Permutation key _ _ (sort_by_perm less l)).
  induction Hs as [|a r Hr IH Ha]; [constructor|].
  rewrite fmap_cons in *. apply NoDup_cons in Hn2 as [Hin Hn2].
  constructor; [by apply IH|]. rewrite Forall_fmap. rewrite Forall_forall in Ha |- *.
  intros b Hb. specialize (Ha b Hb). unfold less in Ha. simpl. apply ltb_true. intros Hle.
  apply ltb_false in Ha. apply Hin. apply list_elem_of_fmap. exists b. split; [|done].
  by apply (anti_symm String.le).
Qed.

Lemma graph_nodes_sorted s p : memory_ok s →
  StronglySorted (λ a b, String.ltb a b = true) (Node_ID <$> Nodes (graph_of s p)).
Proof. intros Hok. apply sorted_ids, filed_keys. intros k n Hn. by apply (ok_nodes s Hok). Qed.

Lemma graph_edges_sorted s p : memory_ok s →
  StronglySorted (λ a b, String.ltb a b = true) (Edge_ID <$> Edges (graph_of s p)).
Proof. intros Hok. apply sorted_ids, filed_keys. intros k n Hn. by apply (ok_edges s Hok). Qed.

Lemma elem_of_neighbors s p id typ n : memory_ok s →
  n ∈ neighbors_of s p id typ ↔
  nodes s !! Node_ID n = Some n ∧ Node_ProjectID n = p ∧
  ∃ e, edges s !! Edge_ID e = Some e ∧ Edge_ProjectID e = p ∧ From e = id ∧ To e = Node_ID n ∧
    (typ = EdgeTypeOther "" ∨ Edge_Type e = typ).
Proof.
  intros Hok. unfold neighbors_of.
  rewrite list_elem_of_filter, elem_of_graph_nodes, elem_of_list_to_set, list_elem_of_fmap by done.
  setoid_rewrite list_elem_of_filter. split.
  - intros [(e & He & [Hf Ht] & Hin) [Hn Hp]]. split; [done|]. split; [done|]. exists e.
    by apply elem_of_graph_edges in Hin as [? ?].
  - intros (Hn & Hp & e & He & Hpe & Hf & Ht & Htyp). split; [|done]. exists e.
    rewrite elem_of_graph_edges by done. done.
Qed.
End queries.

(** ** What a population leaves *)

(** An element of a snapshot that may be stored for a project. *)
Definition node_fits (project : string) (n : Node) : Prop :=
  (Node_ProjectID n = "" ∨ Node_ProjectID n = project) ∧ Node_ID n ≠ "" ∧
  Node_Type n ≠ NodeTypeOther "" ∧ Node_Name n ≠ "".
Definition edge_fits (project : string) (e : Edge) : Prop :=
  (Edge_ProjectID e = "" ∨ Edge_ProjectID e = project) ∧ Edge_ID e ≠ "" ∧ From e ≠ "" ∧
  To e ≠ "" ∧ Edge_Type e ≠ EdgeTypeOther "".

(** Equal but for the project and the times. *)
Definition node_like (project : string) (n m : Node) : Prop :=
  Node_ID m = Node_ID n ∧ Node_ProjectID m = project ∧ Node_Type m = Node_Type n ∧
  Node_Name m = Node_Name n ∧ Node_Path m = Node_Path n ∧ Node_Attributes m = Node_Attributes n.
Definition edge_like (project : string) (e f : Edge) : Prop :=
  Edge_ID f = Edge_ID e ∧ Edge_ProjectID f = project ∧ From f = From e ∧ To f = To e ∧
  Edge_Type f = Edge_Type e ∧ Edge_Attributes f = Edge_Attributes e.

(** The snapshot can be stored next to what the store holds. *)
Record snapshot_fits (st : MemoryStore) (snap : Snapshot) : Prop := {
  fits_project : Snapshot_ProjectID snap ≠ "";
  fits_nodes : Forall (node_fits (Snapshot_ProjectID snap)) (Snapshot_Nodes snap);
  fits_edges : Forall (edge_fits (Snapshot_ProjectID snap)) (Snapshot_Edges snap);
  fits_ends : ∀ e, e ∈ Snapshot_Edges snap → ∀ k, k = From e ∨ k = To e →
    is_Some (nodes st !! k) ∨ k ∈ Node_ID <$> Snapshot_Nodes snap
}.

Lemma or_project_eq project id : or_project project id = project ↔ id = "" ∨ id = project.
Proof. unfold or_project. case_decide; naive_solver. Qed.

Lemma populated_node_spec project t n :
  match populated_node project t n with
  | Some n' => node_fits project n ∧ node_like project n n' ∧ (project ≠ "" → node_complete n')
  | None => ¬ node_fits project n
  end.
Proof.
  unfold populated_node, node_fits, node_like, node_complete. simpl.
  case_decide as Hd; rewrite or_project_eq in Hd; [|tauto].
  destruct Hd as (Hp & Hi & Ht & Hn). apply or_project_eq in Hp as Hp2. simpl.
  rewrite Hp2. by split_and!.
Qed.

Lemma populated_edge_spec project t e :
  match populated_edge project t e with
  | Some e' => edge_fits project e ∧ edge_like project e e' ∧ (project ≠ "" → edge_complete e')
  | None => ¬ edge_fits project e
  end.
Proof.
  unfold populated_edge, edge_fits, edge_like, edge_complete. simpl.
  case_decide as Hd; rewrite or_project_eq in Hd; [|tauto].
  destruct Hd as (Hp & Hi & Ht & Hn & Hf). apply or_project_eq in Hp as Hp2. simpl.
  rewrite Hp2. by split_and!.
Qed.

Section populate_facts.
Context `{MapOrder} {W : Type} (now : M W Z) (project : string) (Hproject : project ≠ "") (t : Z).

(** What storing a list of nodes leaves. *)
Record nodes_stored (l : list Node) (st st' : MemoryStore) (err : option goerror) : Prop := {
  ns_edges : edges st' = edges st;
  ns_err : err = None ↔ Forall (node_fits project) l;
  ns_other : ∀ k, k ∉ Node_ID <$> l → nodes st' !! k = nodes st !! k;
  ns_kept : ∀ k, is_Some (nodes st !! k) → is_Some (nodes st' !! k);
  ns_new : err = None → ∀ k, k ∈ Node_ID <$> l → is_Some (nodes st' !! k);
  ns_like : err = None → NoDup (Node_ID <$> l) →
    ∀ n, n ∈ l → ∃ m, nodes st' !! Node_ID n = Some m ∧ node_like project n m
}.

Lemma memory_UpsertNode_complete n st w r err st' w' : node_complete n →
  memory_UpsertNode now n (st, w) = ((r, err), (st', w')) → err = None.
Proof.
  intros Hc. unfold memory_UpsertNode. rewrite decide_True by done.
  intros (? & ? & _ & Hk)%mthen_inv. apply mthen_inv in Hk as (? & ? & _ & Hk).
  apply mthen_inv in Hk as (? & ? & _ & Hk). by apply mret_inv in Hk as [[= _ <-] _].
Qed.

Lemma store_nodes inv l st w err st' w' :
  store_all (populated_node project t) inv (memory_UpsertNode now) l (st, w) = (err, (st', w')) →
  nodes_stored l st st' err.
Proof using Hproject.
  revert st w. induction l as [|n l IH]; intros st w; cbn [store_all].
  { intros [<- [= -> _]]%mret_inv. split; [done|by rewrite Forall_nil|done|done|..]; set_solver. }
  pose proof (populated_node_spec project t n) as Hn. destruct (populated_node project t n) as [n'|].
  2: { intros [<- [= -> _]]%mret_inv. split; try done. rewrite Forall_cons. naive_solver. }
  destruct Hn as (Hfit & Hlike & Hc). specialize (Hc Hproject).
  intros ([r e] & [s1 w1] & Hu & Hk)%mthen_inv.
  pose proof (memory_UpsertNode_complete _ _ _ _ _ _ _ Hc Hu) as ->.
  apply UpsertNode_ok in Hu as (_ & t1 & Hr & ->).
  apply IH in Hk as [He Herr Ho Hkept Hnew Hl]. simpl in *.
  assert (Node_ID n' = Node_ID n) as Hid by apply Hlike.
  assert (Node_ID r = Node_ID n) as Hidr by by subst r.
  assert (node_like project n r) as Hlr by (subst r; apply Hlike).
  rewrite Hid in *. split.
  - done.
  - rewrite Herr, Forall_cons. tauto.
  - intros k Hk. rewrite fmap_cons, not_elem_of_cons in Hk. rewrite Ho by tauto.
    by rewrite lookup_insert_ne by naive_solver.
  - intros k Hk. apply Hkept. rewrite lookup_insert. by case_decide.
  - intros -> k. rewrite fmap_cons, elem_of_cons. intros [->|Hk]; [|by apply Hnew].
    apply Hkept. by rewrite lookup_insert_eq.
  - rewrite fmap_cons, NoDup_cons. intros -> [Hni Hnd] m [->|Hm]%elem_of_cons; [|by apply Hl].
    exists r. by rewrite Ho, lookup_insert_eq.
Qed.

Definition ends_present (st : MemoryStore) (e : Edge) : Prop :=
  is_Some (nodes st !! From e) ∧ is_Some (nodes st !! To e).

(** What storing a list of edges leaves. *)
Record edges_stored (l : list Edge) (st st' : MemoryStore) (err : option goerror) : Prop := {
  es_nodes : nodes st' = nodes st;
  es_err : err = None ↔ Forall (λ e, edge_fits project e ∧ ends_present st e) l;
  es_other : ∀ k, k ∉ Edge_ID <$> l → edges st' !! k = edges st !! k;
  es_like : err = None → NoDup (Edge_ID <$> l) →
    ∀ e, e ∈ l → ∃ f, edges st' !! Edge_ID e = Some f ∧ edge_like project e f
}.

Lemma memory_UpsertEdge_complete e st w r err st' w' : edge_complete e → ends_present st e →
  memory_UpsertEdge now e (st, w) = ((r, err), (st', w')) → err = None.
Proof.
  intros Hc [[a Ha] [b Hb]]. unfold memory_UpsertEdge. rewrite decide_True by done.
  intros (x & sw & [Hx ->]%look_inv & Hk)%mthen_inv.
  apply mthen_inv in Hk as (y & sw & [Hy ->]%look_inv & Hk). simpl in *.
  rewrite Ha in Hx. rewrite Hb in Hy. subst.
  apply mthen_inv in Hk as (? & ? & _ & Hk). apply mthen_inv in Hk as (? & ? & _ & Hk).
  apply mthen_inv in Hk as (? & ? & _ & Hk). by apply mret_inv in Hk as [[= _ <-] _].
Qed.

Lemma store_edges inv l st w err st' w' :
  store_all (populated_edge project t) inv (memory_UpsertEdge now) l (st, w) = (err, (st', w')) →
  edges_stored l st st' err.
Proof using Hproject.
  revert st w. induction l as [|e l IH]; intros st w; cbn [store_all].
  { intros [<- [= -> _]]%mret_inv. split; [done|by rewrite Forall_nil|done|set_solver]. }
  pose proof (populated_edge_spec project t e) as Hn. destruct (populated_edge project t e) as [e'|].
  2: { intros [<- [= -> _]]%mret_inv. split; try done. rewrite Forall_cons. naive_solver. }
  destruct Hn as (Hfit & Hlike & Hc). specialize (Hc Hproject).
  assert (Edge_ID e' = Edge_ID e ∧ From e' = From e ∧ To e' = To e) as (Hid & Hf & Ht)
    by (destruct Hlike as (?&?&?&?&?); done).
  intros ([r err1] & [s1 w1] & Hu & Hk)%mthen_inv.
  destruct err1 as [x|].
  { apply mret_inv in Hk as [<- [= -> ->]].
    assert (¬ ends_present st e) as Hne.
    { intros Hends. assert (ends_present st e') as He' by (unfold ends_present; by rewrite Hf, Ht).
      by pose proof (memory_UpsertEdge_complete _ _ _ _ _ _ _ Hc He' Hu). }
    apply UpsertEdge_inv in Hu as ->. split; try done. rewrite Forall_cons. naive_solver. }
  apply UpsertEdge_inv in Hu as (_ & Ha & Hb & t1 & Hr & ->). rewrite Hf in Ha. rewrite Ht in Hb.
  apply IH in Hk as [He Herr Ho Hl]. simpl in *.
  assert (edge_like project e r) as Hlr by (subst r; apply Hlike).
  rewrite Hid in *. split.
  - done.
  - rewrite Herr, Forall_cons. unfold ends_present in *. simpl. tauto.
  - intros k Hk. rewrite fmap_cons, not_elem_of_cons in Hk. rewrite Ho by tauto.
    by rewrite lookup_insert_ne by naive_solver.
  - rewrite fmap_cons, NoDup_cons. intros -> [Hni Hnd] m [->|Hm]%elem_of_cons; [|by apply Hl].
    exists r. by rewrite Ho, lookup_insert_eq.
Qed.

Lemma store_all_steps {A B} check inv (put : A → M (MemoryStore * W) (B * option goerror)) l
    st w err st' w' :
  (∀ x s u r s' u', put x (s, u) = (r, (s', u')) → store_step now s s') →
  store_all check inv put l (st, w) = (err, (st', w')) → rtc (store_step now) st st'.
Proof.
  intros Hput. revert st w. induction l as [|x l IH]; intros st w; cbn [store_all].
  { by intros [_ [= -> _]]%mret_inv. }
  destruct (check x) as [y|]; [|by intros [_ [= -> _]]%mret_inv].
  intros ([r e] & [s1 w1] & Hu%Hput & Hk)%mthen_inv. eapply rtc_l; [exact Hu|].
  destruct e; [by apply mret_inv in Hk as [_ [= -> _]]|by eapply IH].
Qed.
End populate_facts.

(** Populating a memory store.  The population succeeds exactly when the
    snapshot fits, that is names a project, every element is complete and of that
    project or of none, and every edge joins nodes that are in the store or in the
    snapshot.  Then every node and edge of the snapshot is in the graph that is
    returned, as given but for its times, and whatever the snapshot does not name
    is as it was, also when the population failed. *)
Theorem Populate_correct `{MapOrder} {W} `{World W} (now : M W Z) snap st w g err st' w' :
  memory_ok st → NoDup (Node_ID <$> Snapshot_Nodes snap) → NoDup (Edge_ID <$> Snapshot_Edges snap) →
  Populate (Some (memory_store now)) snap (st, w) = ((g, err), (st', w')) →
  (err = None ↔ snapshot_fits st snap) ∧
  (∀ k, k ∉ Node_ID <$> Snapshot_Nodes snap → nodes st' !! k = nodes st !! k) ∧
  (∀ k, k ∉ Edge_ID <$> Snapshot_Edges snap → edges st' !! k = edges st !! k) ∧
  (err = None → let p := Snapshot_ProjectID snap in
    g = graph_of st' p ∧
    (∀ n, n ∈ Snapshot_Nodes snap → ∃ m, m ∈ Nodes g ∧ node_like p n m) ∧
    (∀ e, e ∈ Snapshot_Edges snap → ∃ f, f ∈ Edges g ∧ edge_like p e f)).
Proof.
  intros Hok Hdn Hde. unfold Populate.
  destruct (decide (Snapshot_ProjectID snap = "")) as [Hp|Hp].
  { intros [[= _ <-] [= -> _]]%mret_inv. split; [|done]. split; [done|]. by intros [? _ _ _]. }
  intros (t & [s1 w1] & [_ Hs1]%outside_inv & Hk)%mthen_inv. simpl in Hs1. subst s1.
  apply mthen_inv in Hk as (e1 & [s1 w2] & Hnodes & Hk).
  pose proof (store_all_steps now _ _ _ _ _ _ _ _ _ (step_node now) Hnodes) as Hr1.
  apply (store_nodes now _ Hp t) in Hnodes as [Ne Nerr No Nk Nn Nl].
  destruct e1 as [x|].
  { apply mret_inv in Hk as [[= _ <-] [= -> _]]. rewrite Ne. split; [|done]. split; [done|].
    intros [_ Hf _ _]. by apply Nerr in Hf. }
  apply mthen_inv in Hk as (e2 & [s2 w3] & Hedges & Hk).
  pose proof (store_all_steps now _ _ _ _ _ _ _ _ _ (step_edge now) Hedges) as Hr2.
  apply (store_edges now _ Hp t) in Hedges as [En Eerr Eo El]. rewrite <-Ne.
  assert (∀ k, is_Some (nodes s1 !! k) ↔
    is_Some (nodes st !! k) ∨ k ∈ Node_ID <$> Snapshot_Nodes snap) as Hdom.
  { intros k. split; [|by intros [?|?]; [apply Nk|apply Nn]]. intros Hk1.
    destruct (decide (k ∈ Node_ID <$> Snapshot_Nodes snap)) as [|Hni]; [by right|left].
    by rewrite <-No. }
  assert (e2 = None ↔ snapshot_fits st snap) as Hfits.
  { rewrite Eerr, Forall_and, (Forall_forall (ends_present s1)). unfold ends_present.
    split.
    - intros [Hf Hends]. split; [done|by apply Nerr|done|]. intros e He k Hk1. rewrite <-Hdom.
      destruct (Hends e He), Hk1; by subst.
    - intros [_ _ Hf Hends]. split; [done|]. intros e He. rewrite !Hdom. split; apply (Hends e He); auto. }
  destruct e2 as [x|].
  { apply mret_inv in Hk as [[= _ <-] [= -> _]]. rewrite En. by split_and!. }
  unfold memory_store, memory_Graph in Hk. simpl in Hk.
  apply mthen_inv in Hk as (g1 & sw & [-> ->]%look_inv & Hk).
  apply mret_inv in Hk as [[= <- <-] [= <- _]]. cbn [fst] in *.
  split; [done|]. split; [by rewrite En|]. split; [done|]. intros _.
  assert (memory_ok s2) as Hok2.
  { assert (rtc (store_step now) st s2) as Hr by by etrans.
    clear - Hr Hok. induction Hr; eauto using store_step_ok. }
  split; [done|]. split.
  - intros n Hn. destruct (Nl (proj2 Nerr (fits_nodes _ _ (proj1 Hfits eq_refl))) Hdn n Hn)
      as (m & Hm & Hlike). exists m. split; [|done].
    apply elem_of_graph_nodes; [done|]. destruct Hlike as (-> & -> & _). by rewrite En.
  - intros e He. destruct (El eq_refl Hde e He) as (f & Hf & Hlike). exists f. split; [|done].
    apply elem_of_graph_edges; [done|]. destruct Hlike as (-> & -> & _). done.
Qed.

(** The memory store.  In every state its operations reach, entries are filed
    under their identifiers and complete and the ends of every edge are nodes; the
    graph of a project then lists exactly the nodes and the edges stored for it,
    strictly sorted by identifier whatever the order the maps are visited in; and
    the neighbours of a node are exactly the project's nodes an edge of the project
    and of the asked type leads to. *)
Theorem memory_store_exact `{MapOrder} {W} (now : M W Z) st p :
  rtc (store_step now) NewMemoryStore st →
  memory_ok st ∧
  (∀ n, n ∈ Nodes (graph_of st p) ↔ nodes st !! Node_ID n = Some n ∧ Node_ProjectID n = p) ∧
  (∀ e, e ∈ Edges (graph_of st p) ↔ edges st !! Edge_ID e = Some e ∧ Edge_ProjectID e = p) ∧
  StronglySorted (λ a b, String.ltb a b = true) (Node_ID <$> Nodes (graph_of st p)) ∧
  StronglySorted (λ a b, String.ltb a b = true) (Edge_ID <$> Edges (graph_of st p)) ∧
  ∀ id typ n, n ∈ neighbors_of st p id typ ↔ n ∈ Nodes (graph_of st p) ∧
    ∃ e, e ∈ Edges (graph_of st p) ∧ From e = id ∧ To e = Node_ID n ∧
      (typ = EdgeTypeOther "" ∨ Edge_Type e = typ).
Proof.
  intros Hok%memory_reachable_ok. split_and!; [done| | |by apply graph_nodes_sorted|
    by apply graph_edges_sorted|]; intros.
  - by apply elem_of_graph_nodes.
  - by apply elem_of_graph_edges.
  - rewrite elem_of_neighbors, elem_of_graph_nodes by done.
    setoid_rewrite (elem_of_graph_edges st p) at 1; [|done]. naive_solver.
Qed.

(** Nodes are filed under their identifier alone: storing a node of another project
    under the same identifier takes it away from the first, whose edges stay. *)
Definition page (project : string) : Node :=
  mkNode "page" project Page "Home" "" ∅ time_zero time_zero.
Definition shared : MemoryStore := mkMemory {["page" := page "a"]}
  {["loop" := mkEdge "loop" "a" "page" "page" Uses ∅ time_zero]}.

Lemma UpsertNode_takes_over :
  let st := (memory_UpsertNode (W := unit) (mret 5) (page "b") (shared, tt)).2.1 in
  Node_ID <$> Nodes (graph_of (H := canonical_order) shared "a") = ["page"] ∧
  Nodes (graph_of (H := canonical_order) st "a") = [] ∧
  Edge_ID <$> Edges (graph_of (H := canonical_order) st "a") = ["loop"].
Proof. by vm_compute. Qed.

(** ** Witnesses *)

#[local] Instance unit_world : World unit := {| time_Now := mret 7; ctx_Err := mret None |}.
Definition page_snapshot : Snapshot :=
  mkSnapshot "a" [page ""] [mkEdge "loop" "" "page" "page" Uses ∅ time_zero].

Lemma Populate_correct_witness :
  let r := Populate (Some (memory_store (H := canonical_order) (W := unit) (mret 5)))
             page_snapshot (NewMemoryStore, tt) in
  r.1.2 = None ∧ snapshot_fits NewMemoryStore page_snapshot ∧
  ∃ m, m ∈ Nodes r.1.1 ∧ node_like "a" (page "") m.
Proof.
  destruct (Populate _ page_snapshot (NewMemoryStore, tt)) as [[g err] [st' []]] eqn:E.
  assert (err = None) as -> by (vm_compute in E; by injection E).
  destruct (Populate_correct (H := canonical_order) (mret 5) page_snapshot NewMemoryStore tt g None
    st' tt) as (Hfits & _ & _ & Hok); [|apply NoDup_singleton..|exact E|].
  { split; intros k x Hk; simpl in Hk; simplify_map_eq. }
  simpl. split; [done|]. split; [by apply Hfits|].
  destruct (Hok eq_refl) as (_ & Hn & _). apply Hn. by left.
Defined.

Lemma memory_store_exact_witness :
  let st := (memory_UpsertNode (W := unit) (mret 5) (page "a") (NewMemoryStore, tt)).2.1 in
  memory_ok st ∧ Node_ID <$> Nodes (graph_of (H := canonical_order) st "a") = ["page"].
Proof.
  intros st. split; [|by vm_compute].
  apply (memory_store_exact (H := canonical_order) (W := unit) (mret 5) st "a").
  apply rtc_once, (step_node _ (page "a") _ tt (memory_UpsertNode (mret 5) (page "a")
    (NewMemoryStore, tt)).1 _ tt). unfold st.
  by destruct (memory_UpsertNode (mret 5) (page "a") (NewMemoryStore, tt)) as [r [st' []]].
Defined.
End knowledge.
