(* ===== verification/Constitution.v ===== *)
(** * Agent constitutions

    [src/internal/constitution]: what an agent of a project may do, and the
    evaluation of an action against it.  The Postgres store is in
    [GovernStore.v]. *)

From S2P Require Import Prelude AgentTypes.

Module constitution.

(* src: internal/constitution/types.go:9-22 (Risk) *)
Inductive Risk :=
  | RiskRead | RiskWrite | RiskExecute | RiskNetwork | RiskInstall | RiskDelete
  | RiskDatabase | RiskDeploy | RiskProduction | RiskCredential | RiskOther (s : string).
#[global] Instance Risk_eq_dec : EqDecision Risk.
Proof. solve_decision. Defined.

(* src: internal/constitution/types.go:24-30 (Effect) *)
Inductive Effect := Allow | Deny | ApprovalRequired | EffectOther (s : string).
#[global] Instance Effect_eq_dec : EqDecision Effect.
Proof. solve_decision. Defined.

(* src: internal/constitution/types.go:32-39 (Action) *)
Record Action := mkAction {
  Action_ProjectID : string;
  Action_AgentID : string;
  Action_Permission : agent.Permission;
  Action_Risk : Risk;
  Resource : string;
  Description : string
}.

(* src: internal/constitution/types.go:40-45 (Decision) *)
Record Decision_ := mkDecision {
  Decision_Effect : Effect;
  Decision_Action : Action;
  Reason : string;
  ApprovalID : string
}.

(* src: internal/constitution/types.go:46-60 (Constitution) *)
Record Constitution := mkConstitution {
  Constitution_ID : string;
  Constitution_ProjectID : string;
  Constitution_AgentID : string;
  Identity : string;
  Mission : string;
  Authority : list string;
  Restrictions : list string;
  DecisionRules : list string;
  ToolRules : gmap string string;
  VerificationRules : list string;
  SecurityRules : list string;
  CollaborationRules : list string;
  Constitution_Policy : agent.PermissionPolicy
}.

(* src: internal/constitution/types.go:78-85 (contains) *)
Definition contains (items : list agent.Permission) (want : agent.Permission) : bool :=
  existsb (λ v, bool_decide (v = want)) items.

(* src: internal/constitution/types.go:63-77 (PolicyEvaluator.Evaluate) *)
Definition Evaluate (c : Constitution) (a : Action) : Decision_ :=
  let policy := Constitution_Policy c in
  let answer effect reason := mkDecision effect a reason "" in
  if negb (bool_decide (Constitution_ProjectID c = Action_ProjectID a)) ||
     negb (bool_decide (Constitution_AgentID c = Action_AgentID a))
  then answer Deny "constitution ownership mismatch"
  else if bool_decide (Action_Risk a = RiskProduction) || bool_decide (Action_Risk a = RiskDatabase)
  then answer Deny "high-risk production/database action requires a specialized approval boundary"
  else if negb (contains (agent.Allowed policy) (Action_Permission a)) &&
          negb (contains (agent.ApprovalRequired policy) (Action_Permission a))
  then answer Deny "permission is not allowed by project policy"
  else if contains (agent.ApprovalRequired policy) (Action_Permission a)
  then answer ApprovalRequired "project policy requires approval for this action"
  else answer Allow "allowed by project policy and constitution".

Definition ErrInvalidConstitution : goerror := ErrorString "invalid agent constitution".

(* src: internal/constitution/types.go:89-97 (Validate) *)
Definition Validate (c : Constitution) : option goerror :=
  if bool_decide (Constitution_ProjectID c = "") || bool_decide (Constitution_AgentID c = "") ||
     bool_decide (Identity c = "") || bool_decide (Mission c = "")
  then Some ErrInvalidConstitution
  else if bool_decide (Authority c = []) || bool_decide (Restrictions c = []) ||
          bool_decide (VerificationRules c = [])
  then Some ErrInvalidConstitution
  else None.

Lemma permissions_contains_iff items want : contains items want = true ↔ want ∈ items.
Proof.
  unfold contains. rewrite existsb_exists. setoid_rewrite bool_decide_eq_true.
  setoid_rewrite list_elem_of_In. naive_solver.
Qed.

(** An action the constitution speaks of: of its project and agent and not of a risk
    that is always refused. *)
Definition in_scope (c : Constitution) (a : Action) : Prop :=
  Constitution_ProjectID c = Action_ProjectID a ∧ Constitution_AgentID c = Action_AgentID a ∧
  Action_Risk a ≠ RiskProduction ∧ Action_Risk a ≠ RiskDatabase.

(** Each effect, on the lists of the policy. *)
Lemma Evaluate_effect c a :
  let p := Action_Permission a in
  let policy := Constitution_Policy c in
  let effect := Decision_Effect (Evaluate c a) in
  (effect = Allow ↔ in_scope c a ∧ p ∈ agent.Allowed policy ∧ p ∉ agent.ApprovalRequired policy) ∧
  (effect = ApprovalRequired ↔ in_scope c a ∧ p ∈ agent.ApprovalRequired policy) ∧
  (effect = Deny ↔ ¬ (in_scope c a ∧
    (p ∈ agent.Allowed policy ∨ p ∈ agent.ApprovalRequired policy))).
Proof.
  cbv zeta. unfold Evaluate, in_scope. rewrite <-!permissions_contains_iff.
  repeat case_bool_decide; simpl;
    destruct (contains (agent.Allowed _) _) eqn:E1, (contains (agent.ApprovalRequired _) _) eqn:E2;
    simpl; naive_solver.
Qed.

(** The decision of the policy.  An action in scope is allowed exactly when its
    permission is allowed and does not require approval, needs approval exactly when
    its permission is listed as requiring it, also when it is listed as allowed, and
    is denied otherwise; an action out of scope is denied whatever the policy. *)
Theorem Evaluate_decides c a :
  let p := Action_Permission a in
  let policy := Constitution_Policy c in
  let effect := Decision_Effect (Evaluate c a) in
  Decision_Action (Evaluate c a) = a ∧
  (effect = Allow ↔ in_scope c a ∧ p ∈ agent.Allowed policy ∧ p ∉ agent.ApprovalRequired policy) ∧
  (effect = ApprovalRequired ↔ in_scope c a ∧ p ∈ agent.ApprovalRequired policy) ∧
  (effect = Deny ↔ ¬ (in_scope c a ∧
    (p ∈ agent.Allowed policy ∨ p ∈ agent.ApprovalRequired policy))).
Proof.
  cbv zeta. split; [|apply Evaluate_effect]. unfold Evaluate. by repeat case_match.
Qed.

(** What [Validate] asks of a constitution. *)
Lemma Validate_none c : Validate c = None ↔
  Constitution_ProjectID c ≠ "" ∧ Constitution_AgentID c ≠ "" ∧ Identity c ≠ "" ∧
  Mission c ≠ "" ∧ Authority c ≠ [] ∧ Restrictions c ≠ [] ∧ VerificationRules c ≠ [].
Proof. unfold Validate. repeat case_bool_decide; naive_solver. Qed.

(** The policy of a constitution names a project and an agent of its own, which the
    evaluation does not look at; and a credential may be taken without approval. *)
Lemma Evaluate_ignores_policy_owner c a policy project agent_id :
  let c2 := mkConstitution (Constitution_ID c) (Constitution_ProjectID c) (Constitution_AgentID c)
    (Identity c) (Mission c) (Authority c) (Restrictions c) (DecisionRules c) (ToolRules c)
    (VerificationRules c) (SecurityRules c) (CollaborationRules c) policy in
  let c3 := mkConstitution (Constitution_ID c) (Constitution_ProjectID c) (Constitution_AgentID c)
    (Identity c) (Mission c) (Authority c) (Restrictions c) (DecisionRules c) (ToolRules c)
    (VerificationRules c) (SecurityRules c) (CollaborationRules c)
    (agent.mkPolicy project agent_id (agent.Allowed policy) (agent.ApprovalRequired policy)) in
  Evaluate c2 a = Evaluate c3 a.
Proof. done. Qed.
End constitution.
