(* ===== verification/Filesystem.v ===== *)
(** * Paths of a project workspace

    [src/internal/filesystem]: confining a requested path to the workspace, by its
    text and after symbolic links.  [filepath] holds what the code uses of package
    [path/filepath] on Unix; reading links is a call to the outside. *)

From Stdlib Require Import Ascii.
From S2P Require Import Prelude GoStrings World.

Module filepath.
Definition is_slash (c : Ascii.ascii) : bool := Ascii.eqb c "/"%char.

(** The elements of a path, empty ones left out. *)
Definition elements (s : string) : list string := strings.FieldsFunc s is_slash.
Definition rooted (s : string) : bool := strings.HasPrefix s "/".

(** What an element does to the elements before it, kept in reverse. *)
Definition clean_step (root : bool) (acc : list string) (e : string) : list string :=
  if decide (e = ".") then acc
  else if decide (e = "..") then
    match acc with
    | [] => if root then [] else [e]
    | x :: r => if decide (x = "..") then e :: acc else r
    end
  else e :: acc.
Definition clean_elements (root : bool) (l : list string) : list string :=
  reverse (foldl (clean_step root) [] l).
Definition render (root : bool) (l : list string) : string :=
  match root, l with
  | true, _ => "/" +:+ strings.Join l "/"
  | false, [] => "."
  | false, _ => strings.Join l "/"
  end.

(** [filepath.Clean], [filepath.Join] of two elements and [filepath.Dir] *)
Definition Clean (s : string) : string :=
  render (rooted s) (clean_elements (rooted s) (elements s)).
Definition Join (a b : string) : string :=
  match a, b with
  | "", "" => ""
  | "", _ => Clean b
  | _, "" => Clean a
  | _, _ => Clean (a +:+ "/" +:+ b)
  end.
(** The path up to its last slash, which is kept. *)
Fixpoint up_to_slash (s : string) : string :=
  match s with
  | EmptyString => EmptyString
  | String c r => if strings.exists_byte is_slash s then String c (up_to_slash r) else EmptyString
  end.
Definition Dir (s : string) : string := Clean (up_to_slash s).

(** ** Facts about elements *)

Definition slash_free (e : string) : Prop := strings.exists_byte is_slash e = false.
Definition proper (e : string) : Prop := e ≠ "" ∧ slash_free e.

Definition slash_width (r : string) : nat :=
  match r with String c _ => if is_slash c then 1%nat else 0%nat | EmptyString => 0%nat end.

Lemma split_slash a b :
  strings.split_by slash_width (a +:+ "/" +:+ b) =
  strings.split_by slash_width a ++ strings.split_by slash_width b.
Proof.
  unfold strings.split_by. induction a as [|c a IH].
  { change ("" +:+ "/" +:+ b) with (String "/"%char b). cbn [strings.pieces].
    change (slash_width (String "/"%char b)) with 1%nat. cbv iota beta.
    by destruct (strings.pieces slash_width 0 b). }
  change (String c a +:+ "/" +:+ b) with (String c (a +:+ "/" +:+ b)). cbn [strings.pieces slash_width].
  destruct (is_slash c); destruct (strings.pieces slash_width 0 (a +:+ "/" +:+ b)) as [p ps];
    destruct (strings.pieces slash_width 0 a) as [q qs]; simpl in *; [by rewrite IH|].
  by injection IH as -> ->.
Qed.

Lemma split_slash_free e : slash_free e → strings.split_by slash_width e = [e].
Proof.
  unfold strings.split_by, slash_free. induction e as [|c e IH]; [done|].
  cbn [strings.exists_byte strings.pieces slash_width]. intros [Hc He]%orb_false_iff.
  rewrite Hc. specialize (IH He). destruct (strings.pieces slash_width 0 e). by simplify_eq.
Qed.

Lemma split_proper s : Forall slash_free (strings.split_by slash_width s).
Proof.
  unfold strings.split_by. induction s as [|c s IH]; [by repeat constructor|].
  cbn [strings.pieces slash_width].
  destruct (is_slash c) eqn:Hc; destruct (strings.pieces slash_width 0 s) as [p ps];
    apply Forall_cons in IH as [Hp Hps].
  - by repeat constructor.
  - constructor; [|done]. unfold slash_free in *. cbn [strings.exists_byte]. by rewrite Hc.
Qed.

Lemma elements_app a b : elements (a +:+ "/" +:+ b) = elements a ++ elements b.
Proof.
  unfold elements, strings.FieldsFunc. rewrite <-filter_app. f_equal. apply split_slash.
Qed.

Lemma elements_proper s : Forall proper (elements s).
Proof.
  apply Forall_forall. unfold elements, strings.FieldsFunc.
  intros e [Hn He]%list_elem_of_filter. split; [done|].
  by pose proof (proj1 (Forall_forall _ _) (split_proper s) e He).
Qed.

Lemma elements_slash s : elements ("/" +:+ s) = elements s.
Proof. exact (elements_app "" s). Qed.

Lemma rooted_slash s : rooted ("/" +:+ s) = true.
Proof. apply strings.HasPrefix_iff. by exists s. Qed.

Lemma rooted_append a b : a ≠ "" → rooted (a +:+ b) = rooted a.
Proof.
  intros Ha. apply eq_true_iff_eq. unfold rooted. rewrite !strings.HasPrefix_iff.
  destruct a as [|c a]; [done|]. split; intros [t Ht]; injection Ht as -> _; by eexists.
Qed.

Lemma elements_one e : proper e → elements e = [e].
Proof.
  intros [Hn Hf]. unfold elements, strings.FieldsFunc. fold slash_width.
  rewrite (split_slash_free e Hf), filter_cons, decide_True by done. done.
Qed.

Lemma Join_cons x y l sep : strings.Join (x :: y :: l) sep = x +:+ sep +:+ strings.Join (y :: l) sep.
Proof. done. Qed.

Lemma elements_Join l : Forall proper l → elements (strings.Join l "/") = l.
Proof.
  induction 1 as [|x l Hx Hl IH]; [done|]. destruct l as [|y l]; [by apply elements_one|].
  by rewrite Join_cons, elements_app, IH, elements_one.
Qed.

Lemma append_assoc (a b c : string) : (a +:+ b) +:+ c = a +:+ (b +:+ c).
Proof. induction a as [|x a IH]; [done|]. exact (f_equal (String x) IH). Qed.

Lemma Join_app l1 l2 sep : l1 ≠ [] → l2 ≠ [] →
  strings.Join (l1 ++ l2) sep = strings.Join l1 sep +:+ sep +:+ strings.Join l2 sep.
Proof.
  intros H1 H2. induction l1 as [|x l1 IH]; [done|].
  destruct l1 as [|y l1]; [by destruct l2|].
  change ((x :: y :: l1) ++ l2) with (x :: y :: (l1 ++ l2)).
  rewrite !Join_cons. change (y :: (l1 ++ l2)) with ((y :: l1) ++ l2).
  rewrite IH by done. by rewrite !append_assoc.
Qed.

(** ** Facts about [Clean] *)

Lemma clean_fold_down root acc l : ".." ∉ l →
  foldl (clean_step root) acc l = reverse (filter (λ e, e ≠ ".") l) ++ acc.
Proof.
  revert acc. induction l as [|e l IH]; intros acc Hl; [done|].
  rewrite not_elem_of_cons in Hl. destruct Hl as [He Hl]. simpl. rewrite IH by done.
  unfold clean_step. rewrite filter_cons. destruct (decide (e = ".")) as [->|Hne].
  - by rewrite decide_False by naive_solver.
  - rewrite (decide_False (P := e = "..")), decide_True by naive_solver.
    by rewrite reverse_cons, <-(assoc_L (++)).
Qed.

Lemma clean_elements_app root l1 l2 : ".." ∉ l2 →
  clean_elements root (l1 ++ l2) = clean_elements root l1 ++ filter (λ e, e ≠ ".") l2.
Proof.
  intros H2. unfold clean_elements.
  by rewrite foldl_app, clean_fold_down, reverse_app, reverse_involutive.
Qed.

Lemma clean_elements_nil root l : ".." ∉ l → clean_elements root l = filter (λ e, e ≠ ".") l.
Proof. intros Hl. by apply (clean_elements_app root [] l). Qed.

(** The elements left are those of the path, without the dots. *)
Lemma clean_elements_sub root l e : e ∈ clean_elements root l → e ∈ l ∧ e ≠ ".".
Proof.
  unfold clean_elements. rewrite elem_of_reverse.
  assert (∀ acc, (∀ e, e ∈ acc → e ∈ l ∧ e ≠ ".") →
    ∀ k, (∀ x, x ∈ k → x ∈ l) → e ∈ foldl (clean_step root) acc k → e ∈ l ∧ e ≠ ".") as Hf.
  { intros acc Ha k. revert acc Ha. induction k as [|x k IH]; intros acc Ha Hk; [apply Ha|].
    simpl. apply IH; [|set_solver]. unfold clean_step.
    repeat case_decide; try done; [|set_solver].
    destruct acc as [|y acc]; [destruct root; set_solver|]. case_decide; set_solver. }
  apply (Hf []); set_solver.
Qed.

Lemma clean_elements_proper root s : Forall proper (clean_elements root (elements s)).
Proof.
  apply Forall_forall. intros e [He _]%clean_elements_sub.
  by apply (proj1 (Forall_forall _ _) (elements_proper s)).
Qed.
End filepath.

Module filesystem.
Import filepath.

Definition ErrPathOutsideWorkspace : goerror := ErrorString "path escapes project workspace".

(** [root] or below it, by the text. *)
Definition within (root p : string) : bool :=
  bool_decide (p = root) || strings.HasPrefix p (root +:+ "/").

(* src: internal/filesystem/service.go:13-33 (Resolve) *)
Definition Resolve (workspace requested : string) : result string :=
  if decide (workspace = "") then Err (ErrorString "workspace is required")
  else
    let requested := strings.TrimSpace requested in
    if decide (".." ∈ elements requested) then Err ErrPathOutsideWorkspace
    else
      let requested := if decide (requested = "") then "." else requested in
      let clean := Clean ("/" +:+ requested) in
      let candidate := Join workspace clean in
      let root := Clean workspace in
      if within root candidate then Ok candidate else Err ErrPathOutsideWorkspace.

Section links.
Context {W : Type} (EvalSymlinks : string → M W (result string)) (IsNotExist : goerror → bool).

(* src: internal/filesystem/symlink.go:11-28 (ResolveExisting) *)
Definition ResolveExisting (workspace requested : string) : M W (result string) :=
  match Resolve workspace requested with
  | Err e => mret (Err e)
  | Ok candidate =>
      let! root := EvalSymlinks (Clean workspace) in
      match root with
      | Err e => mret (Err e)
      | Ok rootReal =>
          let! real := EvalSymlinks candidate in
          match real with
          | Err e => mret (Err e)
          | Ok candidateReal =>
              mret (if within rootReal candidateReal then Ok candidateReal
                    else Err ErrPathOutsideWorkspace)
          end
      end
  end.

(* src: internal/filesystem/symlink.go:31-51 (ValidateParent) *)
Definition ValidateParent (workspace requested : string) : M W (option goerror) :=
  match Resolve workspace requested with
  | Err e => mret (Some e)
  | Ok candidate =>
      let! parent := EvalSymlinks (Dir candidate) in
      match parent with
      | Err e => mret (if IsNotExist e then None else Some e)
      | Ok parentReal =>
          let! root := EvalSymlinks (Clean workspace) in
          match root with
          | Err e => mret (Some e)
          | Ok rootReal =>
              mret (if within rootReal parentReal then None else Some ErrPathOutsideWorkspace)
          end
      end
  end.
End links.

(** ** What [Resolve] confines *)

(** The elements of a request that count. *)
Definition requested_elements (requested : string) : list string :=
  filter (λ e, e ≠ ".") (elements (strings.TrimSpace requested)).

Lemma requested_proper req : Forall proper (requested_elements req).
Proof.
  apply Forall_forall. intros e [_ He]%list_elem_of_filter.
  by apply (proj1 (Forall_forall _ _) (elements_proper (strings.TrimSpace req))).
Qed.

Lemma Join_elements_ne l : Forall proper l → l ≠ [] → strings.Join l "/" ≠ "".
Proof. intros Hl Hn He. apply elements_Join in Hl. rewrite He in Hl. by destruct l. Qed.

(** The path [Resolve] tests. *)
Lemma candidate_eq ws req : ws ≠ "" → ".." ∉ elements (strings.TrimSpace req) →
  let req' := if decide (strings.TrimSpace req = "") then "." else strings.TrimSpace req in
  Join ws (Clean ("/" +:+ req')) =
    render (rooted ws) (clean_elements (rooted ws) (elements ws) ++ requested_elements req).
Proof.
  intros Hws Hup. cbv zeta. set (req' := if decide _ then _ else _).
  assert (filter (λ e, e ≠ ".") (elements req') = requested_elements req ∧
    ".." ∉ elements req') as [Hreq Hup'].
  { unfold requested_elements, req'. case_decide as He; [|done]. rewrite He.
    split; [by vm_compute|]. change (elements ".") with ["."]. set_solver. }
  assert (Clean ("/" +:+ req') = "/" +:+ strings.Join (requested_elements req) "/") as ->.
  { unfold Clean. rewrite rooted_slash. by rewrite elements_slash, clean_elements_nil, Hreq. }
  assert (Join ws ("/" +:+ strings.Join (requested_elements req) "/") =
    Clean (ws +:+ "/" +:+ ("/" +:+ strings.Join (requested_elements req) "/"))) as ->
    by by destruct ws.
  unfold Clean. rewrite elements_app, elements_slash, elements_Join by apply requested_proper.
  assert (rooted (ws +:+ "/" +:+ "/" +:+ strings.Join (requested_elements req) "/") = rooted ws) as ->.
  { by apply rooted_append. }
  rewrite clean_elements_app by (by intros [_ Hd]%list_elem_of_filter).
  unfold requested_elements. by rewrite list_filter_filter_l.
Qed.

Lemma HasPrefix_slash s root :
  strings.HasPrefix s (root +:+ "/") = true ↔ ∃ t, s = root +:+ "/" +:+ t.
Proof.
  rewrite strings.HasPrefix_iff. by setoid_rewrite append_assoc.
Qed.

Lemma Join_no_leading_slash l t : Forall proper l → strings.Join l "/" ≠ "/" +:+ t.
Proof.
  intros Hl Ht. pose proof (elements_Join l Hl) as He. destruct l as [|e l]; [done|].
  apply Forall_cons in Hl as [[Hn Hf] _]. destruct e as [|c e]; [done|].
  assert (∃ u, strings.Join (String c e :: l) "/" = String c u) as [u Hu]
    by (destruct l; [by exists e|by eexists]).
  rewrite Hu in Ht. injection Ht as -> _. done.
Qed.

(** Appending proper elements to a clean path stays within it, by the text, unless
    the path has no element of its own. *)
Lemma within_render r w cs : Forall proper (w ++ cs) → "." ∉ cs →
  within (render r w) (render r (w ++ cs)) = true ↔ cs = [] ∨ w ≠ [].
Proof.
  intros Hp Hdot. unfold within. rewrite orb_true_iff, bool_decide_eq_true, HasPrefix_slash.
  apply Forall_app in Hp as [Hpw Hpc].
  destruct cs as [|c cs]; [rewrite app_nil_r; naive_solver|].
  destruct w as [|x w].
  - (* [/] or [.]: nothing proper is below it *)
    assert (strings.Join (c :: cs) "/" ≠ "") as Hne by by apply Join_elements_ne.
    pose proof (elements_Join (c :: cs) Hpc) as He.
    pose proof (λ t, Join_no_leading_slash (c :: cs) t Hpc) as Hslash.
    unfold render. cbn [app]. remember (strings.Join (c :: cs) "/") as j eqn:Hj.
    split; [|by intros [|]]. intros [Heq|[t Ht]]; exfalso; destruct r.
    + by injection Heq.
    + rewrite Heq in He. change (elements ".") with ["."] in He. injection He as <- <-. set_solver.
    + injection Ht as Ht. by apply (Hslash t).
    + rewrite Ht, elements_app in He. injection He as <- _. set_solver.
  - split; [by right|]. intros _. right. exists (strings.Join (c :: cs) "/").
    unfold render. rewrite (Join_app (x :: w)) by done. by destruct r.
Qed.

(** C29: confinement to the workspace.  [Resolve] fails on an empty workspace, on a
    request with an element [..] and, since it compares texts, on any proper request
    for a workspace that cleans to [/] or [.]; else it gives the clean workspace
    followed by the elements of the request. *)
Theorem Resolve_correct ws req p :
  let r := rooted ws in
  let w := clean_elements r (elements ws) in
  let cs := requested_elements req in
  Resolve ws req = Ok p ↔
  ws ≠ "" ∧ ".." ∉ elements (strings.TrimSpace req) ∧ (cs = [] ∨ w ≠ []) ∧ p = render r (w ++ cs).
Proof.
  cbv zeta. unfold Resolve. case_decide as Hws; [naive_solver|].
  case_decide as Hup; [by split; [|intros (_ & [] & _)]|]. cbv zeta. rewrite candidate_eq by done.
  change (Clean ws) with (render (rooted ws) (clean_elements (rooted ws) (elements ws))).
  pose proof (within_render (rooted ws) (clean_elements (rooted ws) (elements ws))
    (requested_elements req)) as Hw.
  feed Hw.
  { apply Forall_app. split; [apply clean_elements_proper|apply requested_proper]. }
  { by intros [Hd _]%list_elem_of_filter. }
  destruct (within _ _); split.
  - intros [= <-]. by split_and!; [| |apply Hw|].
  - by intros (_ & _ & _ & ->).
  - done.
  - by intros (_ & _ & Hc%Hw & _).
Qed.

(** The real path of an existing file is within the real workspace. *)
Lemma ResolveExisting_ok {W} (ev : string → M W (result string)) ws req w p w' :
  ResolveExisting ev ws req w = (Ok p, w') ↔
  ∃ c root w1, Resolve ws req = Ok c ∧ ev (Clean ws) w = (Ok root, w1) ∧
    ev c w1 = (Ok p, w') ∧ within root p = true.
Proof.
  unfold ResolveExisting, mthen, mret. destruct (Resolve ws req) as [c|e].
  2: { split; [done|]. by intros (? & ? & ? & ? & _). }
  split.
  - destruct (ev (Clean ws) w) as [[root|e] w1] eqn:Hr; [|done].
    destruct (ev c w1) as [[q|e] w2] eqn:Hc; [|done].
    destruct (within root q) eqn:Hw; [|done]. intros [= <- <-]. by exists c, root, w1.
  - intros (c1 & root & w1 & [= <-] & -> & -> & ->). done.
Qed.

(** A parent that does not exist yet is accepted without a look at its ancestors,
    which may be links that lead out of the workspace. *)
Lemma ValidateParent_missing {W} (ev : string → M W (result string)) missing ws req w c e w1 :
  Resolve ws req = Ok c → ev (Dir c) w = (Err e, w1) → missing e = true →
  ValidateParent ev missing ws req w = (None, w1).
Proof. intros Hc He Hm. unfold ValidateParent, mthen, mret. by rewrite Hc, He, Hm. Qed.

Example Resolve_ok : Resolve "/workspace" " src/./main.go/" = Ok "/workspace/src/main.go".
Proof. by vm_compute. Qed.
Example Resolve_up : Resolve "/workspace" "../../etc/passwd" = Err ErrPathOutsideWorkspace.
Proof. by vm_compute. Qed.
Example Resolve_root : Resolve "/" "etc" = Err ErrPathOutsideWorkspace.
Proof. by vm_compute. Qed.
Example Dir_ok : Dir "/a/b/c" = "/a/b" ∧ Dir "/a" = "/" ∧ Dir "a" = ".".
Proof. by vm_compute. Qed.
End filesystem.
