(* ===== verification/Events.v ===== *)
(** * The event bus

    [src/internal/events/bus.go] as a transition system: publishers, subscribers and
    the goroutines that end subscriptions interleave at the sends on the channels.
    A publisher holds the read lock from its first send to its last; subscribing and
    unsubscribing hold the write lock, so they happen when no publisher is under
    way.  What was published, what each channel was offered and what its reader received
    is kept beside the state, for the statements. *)

From S2P Require Import Prelude.
From stdpp Require Import relations.

Module events.

(* src: internal/events/bus.go:8-13 (Event) *)
Record Event := mkEvent {
  Event_Type : string;
  Event_ProjectID : string;
  Event_RuntimeID : string;
  Event_Data : any
}.

(** [make(chan Event, 32)] *)
Definition capacity : nat := 32.
Record channel := mkChannel { buffer : list Event; closed : bool }.

(** The channels are numbered in the order they are made. *)
(* src: internal/events/bus.go:15-18 (Bus) *)
Record Bus := mkBus { subscribers : gset nat; channels : list channel }.
#[global] Instance eta_Bus : Eta Bus := λ b, mkBus (subscribers b) (channels b).

(* src: internal/events/bus.go:20-20 (NewBus) *)
Definition NewBus : Bus := mkBus ∅ [].

(** [select { case ch <- event: default: }]: [None] is the panic of a send on a closed
    channel, and the flag tells whether the event was taken. *)
(* src: internal/events/bus.go:25-28 (Publish) *)
Definition try_send (ch : channel) (e : Event) : option (channel * bool) :=
  if closed ch then None
  else if (length (buffer ch) <? capacity)%nat
  then Some (mkChannel (buffer ch ++ [e]) false, true)
  else Some (ch, false).

(** What a reader does; a closed channel gives what it still holds. *)
Definition receive (ch : channel) : option (Event * channel) :=
  match buffer ch with
  | e :: l => Some (e, mkChannel l (closed ch))
  | [] => None
  end.

(* src: internal/events/bus.go:32-35 (Subscribe) *)
Definition subscribe (b : Bus) : nat * Bus :=
  let id := length (channels b) in
  (id, mkBus (subscribers b ∪ {[id]}) (channels b ++ [mkChannel [] false])).

(** The goroutine of a subscription, once its context is done: [None] is the panic of
    closing a closed channel. *)
(* src: internal/events/bus.go:36-36 (Subscribe) *)
Definition unsubscribe (b : Bus) (id : nat) : option Bus :=
  match channels b !! id with
  | Some ch =>
      if closed ch then None
      else Some (mkBus (subscribers b ∖ {[id]}) (<[id := mkChannel (buffer ch) true]> (channels b)))
  | None => None
  end.

(** A whole [Publish] with nobody in between, [order] being the order the map of the
    subscribers is visited in. *)
(* src: internal/events/bus.go:21-30 (Publish) *)
Fixpoint Publish (order : list nat) (e : Event) (b : Bus) : option Bus :=
  match order with
  | [] => Some b
  | id :: order =>
      match channels b !! id with
      | None => None
      | Some ch =>
          match try_send ch e with
          | None => None
          | Some (ch, _) => Publish order e (b <| channels := <[id := ch]> (channels b) |>)
          end
      end
  end.

(** ** Interleavings *)

(** A publication: its number in the order they began, its event, and the numbers of those
    that were under way when it began. *)
Record publication := mkPublication { Number : nat; What : Event; During : list nat }.
(** The channel was offered the event of a publication when so many events were waiting in
    its buffer, and the event was taken or dropped. *)
Record offer := mkOffer { Of : publication; Waiting : nat; Taken : bool }.

(** What the reader of a channel received and what the channel was offered; [since]
    is how many publications had begun when it was made. *)
Record history := mkHistory { received : list Event; offered : list offer; since : nat }.

(** [publishers] are the publications under way, each with the channels it still has to
    serve, [waiting] the subscriptions whose goroutine has not run, [published] the
    publications in the order they began. *)
Record system := mkSystem {
  bus : Bus;
  publishers : list (publication * list nat);
  waiting : gset nat;
  published : list publication;
  histories : list history;
  panicked : bool
}.
#[global] Instance eta_system : Eta system := λ s,
  mkSystem (bus s) (publishers s) (waiting s) (published s) (histories s) (panicked s).

Definition start : system := mkSystem NewBus [] ∅ [] [] false.

(** A publication serves the next of its channels. *)
Definition serve (s : system) (i : nat) (e : publication) (id : nat) (todo : list nat) : system :=
  match channels (bus s) !! id with
  | Some ch =>
      match try_send ch (What e) with
      | Some (ch', taken) =>
          s <| bus := (bus s) <| channels := <[id := ch']> (channels (bus s)) |> |>
            <| publishers := <[i := (e, todo)]> (publishers s) |>
            <| histories := alter (λ h, mkHistory (received h)
                 (offered h ++ [mkOffer e (length (buffer ch)) taken]) (since h)) id (histories s) |>
      | None => s <| panicked := true |>
      end
  | None => s <| panicked := true |>
  end.

(** A publication begins, which will serve the channels in this order. *)
Definition begin_publication (s : system) (e : Event) (order : list nat) : system :=
  let p := mkPublication (length (published s)) e (Number <$> (publishers s).*1) in
  s <| publishers := publishers s ++ [(p, order)] |> <| published := published s ++ [p] |>.

Inductive bus_step : system → system → Prop :=
  | step_publish s e order :
      order ≡ₚ elements (subscribers (bus s)) →
      bus_step s (begin_publication s e order)
  | step_serve s i e id todo :
      publishers s !! i = Some (e, id :: todo) → bus_step s (serve s i e id todo)
  | step_published s i e :
      publishers s !! i = Some (e, []) →
      bus_step s (s <| publishers := delete i (publishers s) |>)
  | step_subscribe s :
      publishers s = [] →
      let '(id, b) := subscribe (bus s) in
      bus_step s (s <| bus := b |> <| waiting := waiting s ∪ {[id]} |>
                    <| histories := histories s ++ [mkHistory [] [] (length (published s))] |>)
  | step_unsubscribe s id :
      publishers s = [] → id ∈ waiting s →
      bus_step s (match unsubscribe (bus s) id with
                  | Some b => s <| bus := b |> <| waiting := waiting s ∖ {[id]} |>
                  | None => s <| panicked := true |>
                  end)
  | step_receive s id ch e ch' :
      channels (bus s) !! id = Some ch → receive ch = Some (e, ch') →
      bus_step s (s <| bus := (bus s) <| channels := <[id := ch']> (channels (bus s)) |> |>
                    <| histories := alter (λ h, mkHistory (received h ++ [e]) (offered h) (since h))
                                      id (histories s) |>).

(** ** The invariant *)

(** The publications under way that a channel has still to be offered. *)
Definition pending (ps : list (publication * list nat)) (id : nat) : list publication :=
  omap (λ p, if decide (id ∈ p.2) then Some p.1 else None) ps.

(** What a channel took of what it was offered. *)
Definition taken_of (l : list offer) : list Event :=
  (What ∘ Of) <$> filter (λ o, Taken o = true) l.
(** Offers are made in the order their publications began, except that a publication may be
    overtaken by those it was under way with. *)
Definition in_turn (l : list offer) : Prop :=
  ∀ i j a b, l !! i = Some a → l !! j = Some b → (i < j)%nat →
    (Number (Of b) < Number (Of a))%nat → Number (Of b) ∈ During (Of a).

(** A channel [ch] of history [h], that is [open] or not, after the publications
    [pub] of which it has still to be offered [pend]. *)
Record channel_ok (pub pend : list publication) (open : Prop) (ch : channel) (h : history) : Prop := {
  ch_closed : open ↔ closed ch = false;
  ch_room : (length (buffer ch) ≤ capacity)%nat;
  ch_order : received h ++ buffer ch = taken_of (offered h);
  ch_loss : Forall (λ o, Taken o = true ↔ (Waiting o < capacity)%nat) (offered h);
  ch_turn : in_turn (offered h);
  ch_since : (since h ≤ length pub)%nat;
  ch_offered : ∃ n, (Of <$> offered h) ++ pend ≡ₚ take n (drop (since h) pub) ∧
    (open → (length pub ≤ since h + n)%nat)
}.

Record system_ok (s : system) : Prop := {
  sys_calm : panicked s = false;
  sys_waiting : waiting s = subscribers (bus s);
  sys_known : ∀ id, id ∈ subscribers (bus s) → (id < length (channels (bus s)))%nat;
  sys_histories : length (histories s) = length (channels (bus s));
  sys_todo : Forall (λ p, NoDup p.2 ∧ ∀ id, id ∈ p.2 → id ∈ subscribers (bus s)) (publishers s);
  sys_numbers : Number <$> published s = seq 0 (length (published s));
  (* Whatever is under way was so when the later publications began. *)
  sys_during : Forall (λ p, p.1 ∈ published s ∧
    ∀ q, q ∈ published s → (Number p.1 < Number q)%nat → Number p.1 ∈ During q) (publishers s);
  sys_channels : ∀ id ch h, channels (bus s) !! id = Some ch → histories s !! id = Some h →
    channel_ok (published s) (pending (publishers s) id) (id ∈ subscribers (bus s)) ch h
}.

Lemma start_ok : system_ok start.
Proof. split; try done; set_solver. Qed.

(** *** What a step does to a channel *)

(** A publication begins: every open channel has one more event to be offered. *)
Lemma channel_ok_publish pub pend open ch h e :
  channel_ok pub pend open ch h → open → channel_ok (pub ++ [e]) (pend ++ [e]) open ch h.
Proof.
  intros [Hc Hr Ho Hl Ht Hs (n & Hn & Hall)] Hopen. split; try done.
  { rewrite length_app. lia. }
  specialize (Hall Hopen). exists (S (length pub - since h)).
  split; [|rewrite length_app; simpl; lia].
  rewrite drop_app_le by done. rewrite take_ge in Hn by (rewrite length_drop; lia).
  rewrite take_ge by (rewrite length_app, length_drop; simpl; lia).
  by rewrite (assoc_L (++)), Hn.
Qed.

(** A closed channel is not touched by publications. *)
Lemma channel_ok_more pub pend (open : Prop) ch h e :
  channel_ok pub pend open ch h → ¬ open → channel_ok (pub ++ [e]) pend open ch h.
Proof.
  intros [Hc Hr Ho Hl Ht Hs (n & Hn & Hall)] Hopen. split; try done.
  { rewrite length_app. lia. }
  exists (min n (length pub - since h)). split; [|done]. rewrite drop_app_le by done.
  rewrite take_app_le by (rewrite length_drop; lia).
  rewrite Hn. destruct (decide (n ≤ length pub - since h)%nat).
  - by rewrite Nat.min_l.
  - rewrite Nat.min_r by lia. rewrite !take_ge; [done|rewrite length_drop; lia..].
Qed.

Lemma taken_of_app l1 l2 : taken_of (l1 ++ l2) = taken_of l1 ++ taken_of l2.
Proof. unfold taken_of. by rewrite filter_app, fmap_app. Qed.

Lemma in_turn_snoc l o :
  in_turn l → (∀ a, a ∈ l → (Number (Of o) < Number (Of a))%nat → Number (Of o) ∈ During (Of a)) →
  in_turn (l ++ [o]).
Proof.
  intros Hl Ho i j a b Hi Hj Hij Hlt.
  apply lookup_snoc_Some in Hj as [[Hj Hb]|[-> <-]].
  - eapply Hl; [|exact Hb|exact Hij|exact Hlt].
    apply lookup_snoc_Some in Hi as [[_ Hi]|[-> _]]; [done|lia].
  - apply Ho; [|done]. apply lookup_snoc_Some in Hi as [[_ Hi]|[-> _]]; [|lia].
    by eapply list_elem_of_lookup_2.
Qed.

(** A publication of [pend] offers its event. *)
Lemma channel_ok_serve pub pend pend' open ch h e ch' ok :
  channel_ok pub pend open ch h → pend ≡ₚ e :: pend' → try_send ch (What e) = Some (ch', ok) →
  (∀ q, q ∈ pub → (Number e < Number q)%nat → Number e ∈ During q) →
  channel_ok pub pend' open ch'
    (mkHistory (received h) (offered h ++ [mkOffer e (length (buffer ch)) ok]) (since h)).
Proof.
  intros [Hc Hr Ho Hl Ht Hs (n & Hn & Hall)] Hp Hsend Hturn.
  assert (in_turn (offered h ++ [mkOffer e (length (buffer ch)) ok])) as Ht'.
  { apply in_turn_snoc; [done|]. intros a Ha. apply Hturn.
    assert (Of a ∈ take n (drop (since h) pub)) as Hin.
    { rewrite <-Hn. apply elem_of_app. left. by apply list_elem_of_fmap_2. }
    by eapply subseteq_drop, subseteq_take. }
  assert ((Of <$> offered h ++ [mkOffer e (length (buffer ch)) ok]) ++ pend' ≡ₚ
    take n (drop (since h) pub)) as Hn'.
  { rewrite <-Hn, Hp, fmap_app, <-(assoc_L (++)). done. }
  revert Hsend. unfold try_send. destruct (closed ch) eqn:Hcl; [done|].
  destruct (Nat.ltb_spec (length (buffer ch)) capacity);
    intros [= <- <-]; split; simpl; eauto.
  - rewrite length_app. simpl. lia.
  - by rewrite (assoc_L (++)), Ho, taken_of_app.
  - apply Forall_app. split; [done|]. by apply Forall_singleton.
  - by rewrite Hcl.
  - by rewrite Ho, taken_of_app, app_nil_r.
  - apply Forall_app. split; [done|]. apply Forall_singleton. simpl. split; [done|lia].
Qed.

Lemma channel_ok_receive pub pend open ch h e ch' :
  channel_ok pub pend open ch h → receive ch = Some (e, ch') →
  channel_ok pub pend open ch' (mkHistory (received h ++ [e]) (offered h) (since h)).
Proof.
  intros [Hc Hr Ho Hl Ht Hs Hn]. unfold receive. destruct (buffer ch) as [|x l]; [done|].
  intros [= <- <-]. split; simpl in *; try done; [lia|..]; by rewrite <-(assoc_L (++)).
Qed.

Lemma channel_ok_close pub ch h open :
  channel_ok pub [] open ch h → channel_ok pub [] False (mkChannel (buffer ch) true) h.
Proof. intros [Hc Hr Ho Hl Ht Hs (n & Hn & _)]. split; try done. by exists n. Qed.

Lemma channel_ok_new pub : channel_ok pub [] True (mkChannel [] false) (mkHistory [] [] (length pub)).
Proof.
  split; simpl; try done; [lia|]. exists 0%nat. rewrite drop_all. split; [done|]. lia.
Qed.

Lemma channel_ok_iff pub pend (P Q : Prop) ch h :
  (P ↔ Q) → channel_ok pub pend P ch h → channel_ok pub pend Q ch h.
Proof. intros HPQ [Hc Hr Ho Hl Ht Hs (n & Hn & Ha)]. split; try done; [by rewrite <-HPQ|]. exists n. by rewrite <-HPQ. Qed.

(** *** What a step does to what is pending *)

Lemma pending_app l1 l2 id : pending (l1 ++ l2) id = pending l1 id ++ pending l2 id.
Proof. unfold pending. by rewrite omap_app. Qed.

Lemma pending_cons e todo l id :
  pending ((e, todo) :: l) id = (if decide (id ∈ todo) then [e] else []) ++ pending l id.
Proof. unfold pending. simpl. by case_decide. Qed.

Lemma pending_insert ps i e todo e' todo' id : ps !! i = Some (e, todo) →
  pending (<[i := (e', todo')]> ps) id =
  pending (take i ps) id ++ (if decide (id ∈ todo') then [e'] else []) ++ pending (drop (S i) ps) id.
Proof.
  intros Hi. rewrite insert_take_drop by by eapply lookup_lt_Some.
  by rewrite pending_app, pending_cons.
Qed.

Lemma pending_split ps i e todo id : ps !! i = Some (e, todo) →
  pending ps id =
  pending (take i ps) id ++ (if decide (id ∈ todo) then [e] else []) ++ pending (drop (S i) ps) id.
Proof. intros Hi. by rewrite <-(pending_insert ps i e todo), list_insert_id. Qed.

Lemma pending_delete ps i e id : ps !! i = Some (e, []) → pending (delete i ps) id = pending ps id.
Proof.
  intros Hi. rewrite (pending_split ps i e [] id Hi), delete_take_drop, pending_app.
  by rewrite decide_False by set_solver.
Qed.

(** *** Every step keeps the invariant *)

Lemma ok_publish s e order : system_ok s → order ≡ₚ elements (subscribers (bus s)) →
  system_ok (begin_publication s e order).
Proof.
  intros [Hp Hw Hk Hh Ht Hno Hdu Hc] Ho. split; simpl; try done.
  - rewrite Forall_app, Forall_singleton. split; [done|]. simpl. rewrite Ho.
    split; [apply NoDup_elements|]. intros id. by rewrite Ho, elem_of_elements.
  - by rewrite fmap_app, Hno, length_app, Nat.add_1_r, seq_S.
  - assert (∀ q, q ∈ published s → (Number q < length (published s))%nat) as Hlt.
    { intros q Hq. assert (Number q ∈ seq 0 (length (published s))) as Hin
        by (rewrite <-Hno; by apply list_elem_of_fmap_2).
      apply elem_of_seq in Hin. lia. }
    apply Forall_app. split.
    + apply Forall_forall. intros [q todo] Hin. rewrite Forall_forall in Hdu.
      destruct (Hdu _ Hin) as [Hq Hd]. simpl in *. split; [set_solver|].
      intros r [Hr|Hr%list_elem_of_singleton]%elem_of_app Hlt'; [by apply Hd|]. subst r. simpl.
      apply list_elem_of_fmap. exists q. split; [done|]. apply list_elem_of_fmap. by exists (q, todo).
    + apply Forall_singleton. simpl. split; [set_solver|].
      intros r [Hr%Hlt|Hr%list_elem_of_singleton]%elem_of_app; [simpl; lia|]. subst r. simpl. lia.
  - intros id ch h Hch Hhi. rewrite pending_app, pending_cons. simpl.
    specialize (Hc id ch h Hch Hhi). case_decide as Hin; rewrite Ho, elem_of_elements in Hin.
    + by apply channel_ok_publish.
    + rewrite !app_nil_r. by apply channel_ok_more.
Qed.

Lemma ok_serve s i e id todo : system_ok s → publishers s !! i = Some (e, id :: todo) →
  system_ok (serve s i e id todo).
Proof.
  intros [Hp Hw Hk Hh Ht Hno Hdu Hc] Hi.
  destruct (Forall_lookup_1 _ _ _ _ Ht Hi) as [Hnd Hsub].
  destruct (Forall_lookup_1 _ _ _ _ Hdu Hi) as [Hpub Hturn]. simpl in Hnd, Hsub.
  apply NoDup_cons in Hnd as [Hni Hnd].
  assert (id ∈ subscribers (bus s)) as Hid by (apply Hsub; by left).
  destruct (lookup_lt_is_Some_2 _ _ (Hk id Hid)) as [ch Hch].
  assert (is_Some (histories s !! id)) as [h Hhi] by (apply lookup_lt_is_Some; rewrite Hh; eauto).
  assert (pending (publishers s) id ≡ₚ e :: pending (<[i := (e, todo)]> (publishers s)) id) as Hpend.
  { rewrite (pending_split _ _ _ _ id Hi), (pending_insert _ _ _ _ _ _ id Hi).
    rewrite decide_True, decide_False by set_solver. simpl. by rewrite Permutation_middle. }
  unfold serve. rewrite Hch.
  destruct (try_send ch (What e)) as [[ch' ok]|] eqn:Hs.
  2: { unfold try_send in Hs. destruct (ch_closed _ _ _ _ _ (Hc id ch h Hch Hhi)) as [Hopen _].
       rewrite (Hopen Hid) in Hs. by case_match. }
  split; simpl; try done.
  - intros x Hx. rewrite length_insert. by apply Hk.
  - by rewrite length_alter, length_insert.
  - apply Forall_insert; [done|]. split; [done|]. simpl. intros x Hx. apply Hsub. by right.
  - by apply Forall_insert.
  - intros x chx hx. destruct (decide (x = id)) as [->|Hne].
    + rewrite list_lookup_insert_eq by eauto. rewrite list_lookup_alter_eq, Hhi.
      intros [= <-] [= <-]. eapply channel_ok_serve; [by apply Hc|done..].
    + rewrite list_lookup_insert_ne, list_lookup_alter_ne by done. intros Hcx Hhx.
      rewrite (pending_insert _ _ _ _ _ _ x Hi). specialize (Hc x chx hx Hcx Hhx).
      rewrite (pending_split _ _ _ _ x Hi) in Hc.
      destruct (decide (x ∈ todo)), (decide (x ∈ id :: todo)); set_solver.
Qed.

Lemma ok_published s i e : system_ok s → publishers s !! i = Some (e, []) →
  system_ok (s <| publishers := delete i (publishers s) |>).
Proof.
  intros [Hp Hw Hk Hh Ht Hno Hdu Hc] Hi. split; simpl; try done.
  - rewrite delete_take_drop. apply Forall_app. split; [by apply Forall_take|by apply Forall_drop].
  - rewrite delete_take_drop. apply Forall_app. split; [by apply Forall_take|by apply Forall_drop].
  - intros id ch h Hch Hhi. rewrite (pending_delete _ _ _ _ Hi). by apply Hc.
Qed.

Lemma ok_subscribe s : system_ok s → publishers s = [] →
  let '(id, b) := subscribe (bus s) in
  system_ok (s <| bus := b |> <| waiting := waiting s ∪ {[id]} |>
               <| histories := histories s ++ [mkHistory [] [] (length (published s))] |>).
Proof.
  intros [Hp Hw Hk Hh Ht Hno Hdu Hc] Hpub. simpl. split; simpl; try done.
  - by rewrite Hw.
  - intros id. rewrite length_app, elem_of_union, elem_of_singleton. simpl.
    intros [Hid%Hk| ->]; lia.
  - rewrite !length_app. simpl. by rewrite Hh.
  - by rewrite Hpub.
  - intros id ch h. rewrite Hpub, !lookup_snoc_Some, Hh. change (pending [] id) with (@nil publication).
    intros [[Hlt Hch]|[-> <-]] [[Hlt2 Hhi]|[Heq <-]]; try lia.
    + specialize (Hc id ch h Hch Hhi). rewrite Hpub in Hc.
      eapply channel_ok_iff; [|exact Hc]. rewrite elem_of_union, elem_of_singleton.
      split; [by left|]. intros [?|?]; [done|lia].
    + eapply channel_ok_iff; [|apply channel_ok_new]. set_solver.
Qed.

Lemma ok_unsubscribe s id : system_ok s → publishers s = [] → id ∈ waiting s →
  system_ok (match unsubscribe (bus s) id with
             | Some b => s <| bus := b |> <| waiting := waiting s ∖ {[id]} |>
             | None => s <| panicked := true |>
             end).
Proof.
  intros [Hp Hw Hk Hh Ht Hno Hdu Hc] Hpub Hid. rewrite Hw in Hid. unfold unsubscribe.
  destruct (lookup_lt_is_Some_2 _ _ (Hk id Hid)) as [ch Hch]. rewrite Hch.
  assert (is_Some (histories s !! id)) as [h Hhi] by (apply lookup_lt_is_Some; rewrite Hh; eauto).
  rewrite (proj1 (ch_closed _ _ _ _ _ (Hc id ch h Hch Hhi)) Hid).
  split; simpl; try done.
  - by rewrite Hw.
  - intros x Hx. rewrite length_insert. apply Hk. set_solver.
  - by rewrite length_insert.
  - by rewrite Hpub.
  - intros x chx hx. rewrite Hpub. change (pending [] x) with (@nil publication).
    destruct (decide (x = id)) as [->|Hne].
    + rewrite list_lookup_insert_eq by eauto. intros [= <-] Hhx. specialize (Hc id ch hx Hch Hhx). rewrite Hpub in Hc.
      eapply channel_ok_iff; [|eapply channel_ok_close, Hc]. set_solver.
    + rewrite list_lookup_insert_ne by done. intros Hcx Hhx.
      specialize (Hc x chx hx Hcx Hhx). rewrite Hpub in Hc.
      eapply channel_ok_iff; [|exact Hc]. set_solver.
Qed.

Lemma ok_receive s id ch e ch' : system_ok s → channels (bus s) !! id = Some ch →
  receive ch = Some (e, ch') →
  system_ok (s <| bus := (bus s) <| channels := <[id := ch']> (channels (bus s)) |> |>
    <| histories := alter (λ h, mkHistory (received h ++ [e]) (offered h) (since h)) id (histories s) |>).
Proof.
  intros [Hp Hw Hk Hh Ht Hno Hdu Hc] Hch Hr. split; simpl; try done.
  - intros x Hx. rewrite length_insert. by apply Hk.
  - by rewrite length_alter, length_insert.
  - intros x chx hx. destruct (decide (x = id)) as [->|Hne].
    + rewrite list_lookup_insert_eq by by eapply lookup_lt_Some.
      rewrite list_lookup_alter_eq. intros [= <-] [h [Hhi ->]]%fmap_Some.
      eapply channel_ok_receive; [by apply Hc|done].
    + rewrite list_lookup_insert_ne, list_lookup_alter_ne by done. apply Hc.
Qed.

Lemma bus_step_ok s s' : bus_step s s' → system_ok s → system_ok s'.
Proof.
  intros [] Hok; eauto using ok_publish, ok_serve, ok_published, ok_unsubscribe, ok_receive.
  by apply ok_subscribe.
Qed.

Lemma reachable_ok s : rtc bus_step start s → system_ok s.
Proof.
  intros Hr. assert (system_ok start) as H0 by apply start_ok. revert H0.
  induction Hr; eauto using bus_step_ok.
Qed.

(** ** What subscribers see *)

(** Publications in the order of their numbers, all of them among those that were published,
    are a subsequence of them. *)
Lemma numbered_sublist (l pub : list publication) n :
  Number <$> pub = seq n (length pub) →
  StronglySorted (λ p q, (Number p < Number q)%nat) l → (∀ p, p ∈ l → p ∈ pub) →
  l `sublist_of` pub.
Proof.
  revert n l. induction pub as [|p pub IH]; intros n l Hno Hs Hin.
  { destruct l as [|x l]; [done|]. by destruct (not_elem_of_nil x); apply Hin; left. }
  injection Hno as Hp Hno. destruct l as [|x l]; [apply sublist_nil_l|].
  assert (∀ q, q ∈ pub → (S n ≤ Number q)%nat) as Hge.
  { intros q Hq. assert (Number q ∈ seq (S n) (length pub)) as Hi
      by (rewrite <-Hno; by apply list_elem_of_fmap_2). apply elem_of_seq in Hi. lia. }
  apply StronglySorted_inv in Hs as [Hs Hx]. rewrite Forall_forall in Hx.
  pose proof (Hin x ltac:(by left)) as Hxp. apply elem_of_cons in Hxp as [->|Hxp].
  - apply sublist_skip. apply (IH (S n)); [done..|]. intros q Hq.
    pose proof (Hin q ltac:(by right)) as Hqp. apply elem_of_cons in Hqp as [->|?]; [|done].
    specialize (Hx _ Hq). lia.
  - apply sublist_cons. apply (IH (S n)); [done|by constructor; [|apply Forall_forall]|].
    intros q Hq. pose proof (Hin q Hq) as Hqp. apply elem_of_cons in Hqp as [->|?]; [|done].
    apply Hge in Hxp. apply elem_of_cons in Hq as [->|Hq%Hx]; lia.
Qed.

(** When no publication was under way with another, the offers are in the order of the
    publications. *)
Lemma in_turn_sorted l :
  in_turn l → NoDup (Number ∘ Of <$> l) → (∀ a, a ∈ l → During (Of a) = []) →
  StronglySorted (λ p q, (Number p < Number q)%nat) (Of <$> l).
Proof.
  induction l as [|a l IH]; intros Ht Hn Hd; simpl; [constructor|].
  apply NoDup_cons in Hn as [Ha Hn]. constructor.
  - apply IH; [|done|set_solver]. intros i j x y Hi Hj Hij. apply (Ht (S i) (S j)); [done|done|lia].
  - apply Forall_fmap, Forall_forall. intros b Hb. simpl.
    destruct (Nat.lt_trichotomy (Number (Of a)) (Number (Of b))) as [|[Heq|Hlt]]; [done| |].
    + destruct Ha. apply list_elem_of_fmap. exists b. split; [exact Heq|done].
    + apply list_elem_of_lookup in Hb as [j Hj].
      specialize (Ht 0%nat (S j) a b eq_refl Hj ltac:(lia) Hlt).
      rewrite Hd in Ht by (by left). by apply elem_of_nil in Ht.
Qed.

(** What a channel took is a subsequence of the events it was offered. *)
Lemma taken_sublist l : taken_of l `sublist_of` (What ∘ Of) <$> l.
Proof. apply fmap_sublist, sublist_filter. Qed.

(** C26: delivery.  In every interleaving nothing panics: no event is sent on a closed
    channel and none is closed twice.  What a subscriber has received, followed by what its
    channel still holds, at most 32 events, is what the channel was offered and took, in
    that order; and it takes an event it is offered exactly when at that moment fewer than
    32 wait in its buffer, so that only a full buffer loses events.  It is offered only
    publications that began since it was made, none of them twice, and, once no publication
    is under way, all of them (or a first part of them if it was unsubscribed).  They are
    offered in the order they began, except that one may be overtaken by another it was
    under way with; so where publications do not overlap, what is received is a subsequence
    of what was published, in order. *)
Theorem bus_delivery s id ch h :
  rtc bus_step start s → channels (bus s) !! id = Some ch → histories s !! id = Some h →
  let since_then := drop (since h) (published s) in
  panicked s = false ∧ (length (buffer ch) ≤ capacity)%nat ∧
  received h ++ buffer ch = (What ∘ Of) <$> filter (λ o, Taken o = true) (offered h) ∧
  (∀ o, o ∈ offered h → Taken o = true ↔ (Waiting o < 32)%nat) ∧
  (NoDup (Of <$> offered h) ∧ ∀ o, o ∈ offered h → Of o ∈ since_then) ∧
  (∀ i j a b, offered h !! i = Some a → offered h !! j = Some b → (i < j)%nat →
     (Number (Of b) < Number (Of a))%nat → Number (Of b) ∈ During (Of a)) ∧
  ((∀ p, p ∈ published s → During p = []) →
     received h ++ buffer ch `sublist_of` What <$> since_then) ∧
  (publishers s = [] →
    (∃ n, Of <$> offered h ≡ₚ take n since_then) ∧
    (id ∈ subscribers (bus s) → Of <$> offered h ≡ₚ since_then)).
Proof.
  intros Hok%reachable_ok Hch Hh since_then.
  destruct (sys_channels _ Hok id ch h Hch Hh) as [_ Hr Ho Hl Ht Hs (n & Hn & Hall)].
  pose proof (sys_numbers _ Hok) as Hno.
  fold since_then in Hn.
  assert (Number <$> since_then = seq (since h) (length since_then)) as Hnos.
  { unfold since_then. by rewrite fmap_drop, Hno, skipn_seq, length_drop. }
  assert (∀ o, o ∈ offered h → Of o ∈ since_then) as Hin.
  { intros o Hin. apply (subseteq_take n). rewrite <-Hn. apply elem_of_app. left. by apply list_elem_of_fmap_2. }
  assert (NoDup (Number <$> (Of <$> offered h))) as Hnd.
  { assert (NoDup (Number <$> take n since_then)) as Hnd
      by (rewrite fmap_take, Hnos; eapply sublist_NoDup; [apply NoDup_seq|apply sublist_take]).
    rewrite <-Hn, fmap_app in Hnd. by apply NoDup_app in Hnd as []. }
  split_and!; [by destruct Hok|done|done| | |exact Hin|exact Ht| |].
  - by apply Forall_forall.
  - by eapply NoDup_fmap_1.
  - intros Hd. rewrite Ho. etrans; [apply taken_sublist|]. rewrite list_fmap_compose. apply fmap_sublist.
    apply (numbered_sublist _ _ (since h)); [done| |].
    + apply in_turn_sorted; [done|by rewrite list_fmap_compose|].
      intros a Ha%Hin. apply Hd. by eapply subseteq_drop.
    + intros p (o & -> & Hin')%list_elem_of_fmap. by apply Hin.
  - intros Hp. rewrite Hp, app_nil_r in Hn. split; [by exists n|].
    intros Hid%Hall. rewrite take_ge in Hn; [done|].
    unfold since_then. rewrite length_drop. lia.
Qed.

(** ** Publications end *)

Inductive publication_step : system → system → Prop :=
  | pub_serve s i e id todo :
      publishers s !! i = Some (e, id :: todo) → publication_step s (serve s i e id todo)
  | pub_done s i e :
      publishers s !! i = Some (e, []) →
      publication_step s (s <| publishers := delete i (publishers s) |>).

Lemma publication_bus_step s s' : publication_step s s' → bus_step s s'.
Proof. intros []; by econstructor. Qed.

(** The sends and the returns that are left. *)
Definition work (s : system) : nat := sum_list_with (λ p, S (length p.2)) (publishers s).

Lemma sum_list_with_app {A} (f : A → nat) l1 l2 :
  sum_list_with f (l1 ++ l2) = (sum_list_with f l1 + sum_list_with f l2)%nat.
Proof. induction l1 as [|x l1 IH]; simpl; [done|]. rewrite IH. lia. Qed.

Lemma publishers_serve s i e id todo : panicked (serve s i e id todo) = false →
  publishers (serve s i e id todo) = <[i := (e, todo)]> (publishers s) ∧
  published (serve s i e id todo) = published s.
Proof.
  unfold serve. destruct (_ !! id) as [ch|]; [|done]. by destruct (try_send ch (What e)) as [[]|].
Qed.

Lemma publication_step_work s s' : system_ok s → publication_step s s' →
  work s = S (work s') ∧ published s' = published s.
Proof.
  intros Hok Hst. assert (system_ok s') as Hok' by by eapply bus_step_ok, Hok; apply publication_bus_step.
  destruct Hst as [s i e id todo Hi|s i e Hi]; unfold work.
  - destruct (publishers_serve s i e id todo (sys_calm _ Hok')) as [-> ->]. split; [|done].
    rewrite insert_take_drop by by eapply lookup_lt_Some.
    rewrite <-(take_drop_middle _ _ _ Hi) at 1. rewrite !sum_list_with_app. simpl. lia.
  - split; [|done]. simpl. rewrite delete_take_drop.
    rewrite <-(take_drop_middle _ _ _ Hi) at 1. rewrite !sum_list_with_app. simpl. lia.
Qed.

(** C27: publishing never blocks.  Whatever the readers do, a publication that is under
    way can always take its next step, each step brings it nearer to its end, and the
    publications alone end after exactly the sends and returns that are left, so
    whoever waits to subscribe or unsubscribe gets the lock. *)
Theorem publications_end s :
  rtc bus_step start s →
  (∀ p, p ∈ publishers s → ∃ s', publication_step s s') ∧
  (∀ s', publication_step s s' → work s = S (work s')) ∧
  ∃ s', nsteps publication_step (work s) s s' ∧ publishers s' = [] ∧
    published s' = published s ∧ panicked s' = false.
Proof.
  intros Hok%reachable_ok.
  assert (∀ s p, p ∈ publishers s → ∃ s', publication_step s s') as Hprog.
  { intros s0 [e [|id todo]] [i Hi]%list_elem_of_lookup_1; eexists; by econstructor. }
  split; [apply Hprog|]. split; [by intros s' [? _]%publication_step_work|].
  remember (work s) as n eqn:Hn. revert s Hok Hn. induction n as [|n IH]; intros s Hok Hn.
  - exists s. split; [constructor|]. split; [|split; [done|by destruct Hok]].
    unfold work in Hn. by destruct (publishers s).
  - destruct (publishers s) as [|p ps] eqn:Hp; [by unfold work in Hn; rewrite Hp in Hn|].
    destruct (Hprog s p) as [s1 Hs1]; [rewrite Hp; by left|].
    destruct (publication_step_work s s1 Hok Hs1) as [Hw Hpub].
    destruct (IH s1) as (s' & Hst & Hr & Hpub' & Hc);
      [by eapply bus_step_ok, Hok; apply publication_bus_step|lia|].
    exists s'. split; [by econstructor|]. by rewrite Hpub', Hpub.
Qed.

(** A publication nobody interrupts is the function [Publish]. *)
Lemma Publish_refines e order s : system_ok s → publishers s = [(e, order)] →
  ∃ s', rtc publication_step s s' ∧ Publish order (What e) (bus s) = Some (bus s') ∧ publishers s' = [].
Proof.
  revert s. induction order as [|id order IH]; intros s Hok Hp.
  - eexists. split; [apply rtc_once, (pub_done _ 0 e); by rewrite Hp|]. simpl. by rewrite Hp.
  - assert (publication_step s (serve s 0 e id order)) as Hst by (constructor; by rewrite Hp).
    assert (system_ok (serve s 0 e id order)) as Hok'
      by by eapply bus_step_ok, Hok; apply publication_bus_step.
    destruct (publishers_serve s 0 e id order (sys_calm _ Hok')) as [Hps _].
    rewrite Hp in Hps. destruct (IH _ Hok' Hps) as (s' & Hr & Hpub & Hnil).
    exists s'. split; [by eapply rtc_l|]. split; [|done]. simpl.
    pose proof (sys_calm _ Hok') as Hcalm. unfold serve in Hpub, Hcalm.
    destruct (channels (bus s) !! id) as [ch|]; [|done].
    destruct (try_send ch (What e)) as [[ch' ok]|]; [|done]. done.
Qed.

(** ** Witnesses *)

Definition example_event : Event := mkEvent "started" "p" "" AnyNil.
Definition example_publication : publication := mkPublication 0 example_event [].
Definition one_event : system :=
  mkSystem (mkBus {[0%nat]} [mkChannel [] false]) [(example_publication, [0%nat])] {[0%nat]}
    [example_publication] [mkHistory [] [] 0] false.

Lemma one_event_reachable : rtc bus_step start one_event.
Proof.
  eapply rtc_l; [apply (step_subscribe start); done|].
  eapply rtc_l; [apply (step_publish _ example_event [0%nat]); done|]. done.
Qed.

Lemma publications_end_witness :
  rtc bus_step start one_event ∧ work one_event = 2%nat ∧
  ∃ s', nsteps publication_step 2 one_event s' ∧ publishers s' = [].
Proof.
  split; [apply one_event_reachable|]. split; [done|].
  destruct (publications_end one_event one_event_reachable) as (_ & _ & s' & Hs & Hp & _).
  by exists s'.
Defined.

Lemma bus_delivery_witness :
  let s := serve one_event 0 example_publication 0 [] in
  rtc bus_step start s ∧ ∃ ch h, channels (bus s) !! 0%nat = Some ch ∧
    histories s !! 0%nat = Some h ∧ received h ++ buffer ch = [example_event] ∧
    [example_event] `sublist_of` What <$> published s.
Proof.
  intros s. assert (rtc bus_step start s) as Hr.
  { eapply rtc_r; [apply one_event_reachable|]. by apply step_serve. }
  split; [done|]. exists (mkChannel [example_event] false),
    (mkHistory [] [mkOffer example_publication 0 true] 0).
  destruct (bus_delivery s 0 (mkChannel [example_event] false)
    (mkHistory [] [mkOffer example_publication 0 true] 0)) as (_ & _ & Hall & _ & _ & _ & Hsub & _); [done..|].
  split_and!; [done|done|exact Hall|].
  apply Hsub. intros p Hp%list_elem_of_singleton. by rewrite Hp.
Defined.
End events.
