(* ===== verification/DesignIntel.v ===== *)
(** * Design intelligence

    [src/internal/designintelligence]: design systems and the engine that proposes
    one for a product.  The Postgres store is in [GovernStore.v]. *)

From S2P Require Import Prelude GoStrings Float.

Module designintelligence.

(* src: internal/designintelligence/types.go:27-34 (DesignToken) *)
Record DesignToken := mkToken {
  Token_ID : string;
  Token_Name : string;
  Kind : string;
  Value : string;
  Token_Description : string;
  Semantic : bool
}.

(* src: internal/designintelligence/types.go:35-41 (Typography) *)
Record Typography := mkTypography {
  FontFamily : string;
  Heading : string;
  Body : string;
  Caption : string;
  Weights : list Z
}.

(* src: internal/designintelligence/types.go:42-50 (ColorPalette) *)
Record ColorPalette := mkPalette {
  Primary : string;
  Background : string;
  Surface : string;
  Text : string;
  Muted : string;
  Danger : string;
  Success : string
}.

(* src: internal/designintelligence/types.go:54-57 (Breakpoint) *)
Record Breakpoint := mkBreakpoint { Breakpoint_Name : string; MinWidth : Z }.

(* src: internal/designintelligence/types.go:69-73 (ComponentVariant) *)
Record ComponentVariant := mkVariant {
  Variant_Name : string;
  Props : gmap string string;
  Variant_Tokens : list string
}.

(* src: internal/designintelligence/types.go:58-68 (ComponentDefinition) *)
Record ComponentDefinition := mkComponent {
  Component_ID : string;
  Component_Name : string;
  Component_Description : string;
  Component_Tokens : list string;
  Variants : list ComponentVariant;
  Component_Dependencies : list string;
  UsedBy : list string;
  Pages : list string;
  Component_Tests : list string
}.

(* src: internal/designintelligence/types.go:74-80 (Pattern) *)
Record Pattern := mkPattern {
  Pattern_ID : string;
  Pattern_Name : string;
  Pattern_Components : list string;
  Layout : string;
  Accessibility : list string
}.

(* src: internal/designintelligence/types.go:81-86 (LayoutRule) *)
Record LayoutRule := mkLayout {
  Layout_ID : string;
  Layout_Name : string;
  Rule : string;
  AppliesTo : list string
}.

(* src: internal/designintelligence/types.go:87-93 (MotionRule) *)
Record MotionRule := mkMotion {
  Motion_ID : string;
  Motion_Name : string;
  DurationMS : Z;
  Easing : string;
  ReducedMotionBehavior : string
}.

(* src: internal/designintelligence/types.go:94-99 (AccessibilityRule) *)
Record AccessibilityRule := mkAccessibility {
  Accessibility_ID : string;
  Accessibility_Name : string;
  Requirement : string;
  Severity : string
}.

(* src: internal/designintelligence/types.go:7-26 (DesignSystem) *)
Record DesignSystem := mkSystem {
  System_ID : string;
  System_ProjectID : string;
  System_Name : string;
  Version : string;
  Tokens : list DesignToken;
  System_Typography : Typography;
  System_ColorPalette : ColorPalette;
  Spacing : gmap string string;
  Radius : gmap string string;
  Shadows : gmap string string;
  Breakpoints : list Breakpoint;
  Components : list ComponentDefinition;
  Patterns : list Pattern;
  LayoutRules : list LayoutRule;
  MotionRules : list MotionRule;
  AccessibilityRules : list AccessibilityRule;
  System_CreatedAt : Z;
  System_UpdatedAt : Z
}.

(* src: internal/designintelligence/types.go:100-107 (AnalysisInput) *)
Record AnalysisInput := mkInput {
  Input_ProjectID : string;
  ProductDescription : string;
  Audience : string;
  Platform : string;
  Features : list string;
  ExistingComponents : list string
}.

(* src: internal/designintelligence/types.go:108-114 (Analysis) *)
Record Analysis := mkAnalysis {
  Analysis_ProjectID : string;
  Analysis_DesignSystem : DesignSystem;
  Decisions : list string;
  Assumptions : list string;
  Confidence : float64.t
}.

(** ** The system the engine proposes *)

(* src: internal/designintelligence/engine.go:29-29 (Analyze) *)
Definition typography : Typography :=
  mkTypography "Inter, system-ui, sans-serif" "1.75rem/1.15" "1rem/1.6" "0.75rem/1.4"
    [400; 500; 600; 700].
Definition palette : ColorPalette :=
  mkPalette "#74d4b2" "#0b1117" "#101a23" "#e7edf3" "#8ca0ae" "#f26e6e" "#68d391".
Definition spacing : gmap string string :=
  list_to_map [("xs", "4px"); ("sm", "8px"); ("md", "16px"); ("lg", "24px"); ("xl", "40px")].
Definition radius : gmap string string :=
  list_to_map [("sm", "4px"); ("md", "6px"); ("lg", "12px")].
Definition shadows : gmap string string :=
  list_to_map [("sm", "0 2px 8px rgba(0,0,0,.18)"); ("md", "0 8px 24px rgba(0,0,0,.22)")].
Definition breakpoints : list Breakpoint :=
  [mkBreakpoint "mobile" 0; mkBreakpoint "tablet" 768; mkBreakpoint "desktop" 1200].

Definition semantic (name kind value : string) : DesignToken :=
  mkToken name name kind value "" true.

(* src: internal/designintelligence/engine.go:30-30 (Analyze) *)
Definition tokens : list DesignToken := [
  semantic "color.primary" "color" (Primary palette);
  semantic "color.background" "color" (Background palette);
  semantic "color.surface" "color" (Surface palette);
  semantic "color.text" "color" (Text palette);
  semantic "spacing.md" "spacing" (default "" (spacing !! "md"));
  semantic "radius.md" "radius" (default "" (radius !! "md"));
  semantic "typography.heading" "typography" (Heading typography);
  semantic "typography.body" "typography" (Body typography)].

Definition component (id name description : string) (toks : list string)
    (variants : list ComponentVariant) : ComponentDefinition :=
  mkComponent id name description toks variants [] [] [] [].

(* src: internal/designintelligence/engine.go:31-32 (Analyze) *)
Definition components : list ComponentDefinition := [
  component "button" "Button" "Primary interactive action"
    ["color.primary"; "spacing.md"; "radius.md"; "typography.body"]
    [mkVariant "primary" {["tone" := "primary"]} ["color.primary"];
     mkVariant "ghost" {["tone" := "ghost"]} ["color.surface"; "color.text"]];
  component "card" "Card" "Surface container for grouped content"
    ["color.surface"; "spacing.md"; "radius.md"]
    [mkVariant "default" ∅ ["color.surface"]];
  component "input" "Input" "Accessible user input"
    ["color.surface"; "color.text"; "spacing.md"; "radius.md"]
    [mkVariant "default" {["aria" := "required"]} ["color.text"]];
  component "navbar" "Navbar" "Responsive project navigation"
    ["color.background"; "spacing.md"]
    [mkVariant "responsive" {["mobile" := "collapsible"]} ["spacing.md"]]].

(* src: internal/designintelligence/engine.go:33-33 (Analyze) *)
Definition accessibility : list AccessibilityRule := [
  mkAccessibility "keyboard-navigation" "Keyboard navigation"
    "Interactive controls must be keyboard reachable and visibly focused" "REQUIRED";
  mkAccessibility "contrast" "Color contrast"
    "Text and controls must meet the configured contrast threshold" "REQUIRED";
  mkAccessibility "reduced-motion" "Reduced motion"
    "Animations must respect prefers-reduced-motion" "RECOMMENDED"].
(* src: internal/designintelligence/engine.go:34-34 (Analyze) *)
Definition layouts : list LayoutRule := [
  mkLayout "responsive-shell" "Responsive shell"
    "Use mobile, tablet, and desktop breakpoints with progressive disclosure"
    ["page"; "navbar"; "sidebar"]].
(* src: internal/designintelligence/engine.go:35-35 (Analyze) *)
Definition motions : list MotionRule :=
  [mkMotion "standard-transition" "Standard transition" 180 "ease-out" "disable"].
(* src: internal/designintelligence/engine.go:36-36 (Analyze) *)
Definition patterns : list Pattern :=
  [mkPattern "workspace-shell" "Workspace shell" ["navbar"; "card"]
     "responsive two-column shell" ["keyboard-navigation"; "contrast"]].

Section engine.
Context `{strings.GoUnicode}.

(** [now] is the time the engine reads. *)
(* src: internal/designintelligence/engine.go:17-46 (Analyze) *)
Definition Analyze (now : Z) (input : AnalysisInput) : result Analysis :=
  if decide (strings.TrimSpace (Input_ProjectID input) = "")
  then Err (ErrorString "project_id is required")
  else if decide (strings.TrimSpace (ProductDescription input) = "")
  then Err (ErrorString "product description is required")
  else
    let platform := strings.ToLower (Platform input) in
    let platform := if decide (platform = "") then "web" else platform in
    let system := mkSystem ("design_" +:+ Input_ProjectID input) (Input_ProjectID input)
      "SUDA Product System" "1.0.0" tokens typography palette spacing radius shadows breakpoints
      components patterns layouts motions accessibility now now in
    let decisions := ["Use semantic tokens instead of raw visual values";
      "Prioritize responsive layout for " +:+ platform;
      "Keep components reusable and traceable to tokens";
      "Treat accessibility rules as verification requirements"] in
    let assumptions :=
      (if decide (Features input = [])
       then ["Feature list was not supplied; baseline product primitives were selected"] else []) ++
      (if decide (Audience input = "")
       then ["Audience was not supplied; typography and contrast use general-purpose defaults"]
       else []) in
    Ok (mkAnalysis (Input_ProjectID input) system decisions assumptions (float64.lit 78 100)).
End engine.

(** ** Well-formed design systems *)

(** Identifiers are not repeated and every reference names something of the system:
    the tokens of components and variants, the components and the accessibility rules
    of patterns, the components a component depends on; tokens have a value and
    breakpoints ascend. *)
Record well_formed (d : DesignSystem) : Prop := {
  wf_tokens : NoDup (Token_ID <$> Tokens d);
  wf_components : NoDup (Component_ID <$> Components d);
  wf_rules : NoDup (Accessibility_ID <$> AccessibilityRules d);
  wf_values : Forall (λ t, Value t ≠ "") (Tokens d);
  wf_uses : Forall (λ c, Component_Tokens c ⊆ Token_ID <$> Tokens d ∧
      Forall (λ v, Variant_Tokens v ⊆ Token_ID <$> Tokens d) (Variants c) ∧
      Component_Dependencies c ⊆ Component_ID <$> Components d) (Components d);
  wf_patterns : Forall (λ p, Pattern_Components p ⊆ Component_ID <$> Components d ∧
      Accessibility p ⊆ Accessibility_ID <$> AccessibilityRules d) (Patterns d);
  wf_breakpoints : StronglySorted Z.lt (MinWidth <$> Breakpoints d)
}.

(** The analysis.  It fails exactly when the project or the description is blank;
    else it gives a well-formed design system that belongs to the project and is the
    same, but for identifiers and times, whatever the product: the description, the
    features and the components there are already play no part in it. *)
Theorem Analyze_well_formed `{strings.GoUnicode} now input :
  match Analyze now input with
  | Ok a =>
      strings.TrimSpace (Input_ProjectID input) ≠ "" ∧
      strings.TrimSpace (ProductDescription input) ≠ "" ∧
      let d := Analysis_DesignSystem a in
      well_formed d ∧ System_ProjectID d = Input_ProjectID input ∧
      Analysis_ProjectID a = Input_ProjectID input ∧
      ∀ now2 input2 a2, Analyze now2 input2 = Ok a2 →
        Tokens (Analysis_DesignSystem a2) = Tokens d ∧
        Components (Analysis_DesignSystem a2) = Components d ∧
        Patterns (Analysis_DesignSystem a2) = Patterns d
  | Err _ =>
      strings.TrimSpace (Input_ProjectID input) = "" ∨
      strings.TrimSpace (ProductDescription input) = ""
  end.
Proof.
  unfold Analyze at 1. case_decide; [by left|]. case_decide; [by right|].
  split; [done|]. split; [done|]. cbn [Analysis_DesignSystem Analysis_ProjectID System_ProjectID].
  split.
  - split; try by (apply (bool_decide_eq_true_1 _); vm_compute; reflexivity).
  - split; [done|]. split; [done|]. intros now2 input2 a2. unfold Analyze.
    by repeat case_decide; intros [= <-].
Qed.
End designintelligence.
