(* ===== verification/ProductExp.v ===== *)
(** * Product experience: contexts, impact, activity

    [src/internal/productexperience]: the context an agent is given, the recovery of a
    session, the impact of a change in the knowledge graph, the plan of the autonomous
    loop, the activity log and the boundary of visual checks.  The loop itself is in
    the next file; the Postgres store in [ProductStore.v]. *)

From stdpp Require Import relations.
From S2P Require Import Prelude GoStrings World Float Runtime ProjIntel Environment AgentTypes Knowledge Constitution DesignIntel Events ProjectComputer.

Module productexperience.
Import knowledge.

(** ** Data *)

(* src: internal/productexperience/types.go:10-19 (ContextRequest) *)
Record ContextRequest := mkContextRequest {
  Request_ProjectID : string;
  Request_AgentID : string;
  Request_Role : string;
  Request_Task : string;
  Request_CurrentState : gmap string string;
  Request_AvailableTools : list string;
  Request_RuntimeCapabilities : list string;
  Request_VerificationRequirements : list string
}.

(* src: internal/productexperience/types.go:20-33 (AgentContext) *)
Record AgentContext := mkContext {
  CoreConstitution : string;
  SecurityPolicy : list string;
  Role : string;
  ProjectPolicy : constitution.Constitution;
  Context_Task : string;
  Context_Knowledge : Graph;
  Context_DesignSystem : option designintelligence.DesignSystem;
  CurrentState : gmap string string;
  AvailableTools : list string;
  RuntimeCapabilities : list string;
  VerificationRequirements : list string;
  AssembledAt : Z
}.

(* src: internal/productexperience/types.go:34-45 (SessionRecovery) *)
Record SessionRecovery := mkRecovery {
  Recovery_ProjectID : string;
  Recovery_CurrentState : gmap string string;
  Recovery_Knowledge : Graph;
  Decisions : list string;
  Tasks : list string;
  Bugs : list string;
  Recovery_DesignSystem : option designintelligence.DesignSystem;
  GitState : gmap string string;
  VerificationState : gmap string string;
  Summary : string
}.

(* src: internal/productexperience/types.go:46-57 (ImpactAnalysis) *)
Record ImpactAnalysis := mkImpact {
  Impact_ProjectID : string;
  RootNode : string;
  Risk : string;
  Files : list string;
  APIs : list string;
  Components : list string;
  Impact_Tests : list string;
  Impact_Nodes : list Node;
  Impact_ApprovalRequired : bool;
  Reasons : list string
}.

(** A stage is a string in the source, and the key of maps. *)
(* src: internal/productexperience/types.go:58-75 (LoopStage) *)
Definition LoopStage := string.
Definition Intent : LoopStage := "INTENT".
Definition Plan : LoopStage := "PLAN".
Definition Architect : LoopStage := "ARCHITECT".
Definition Design : LoopStage := "DESIGN".
Definition Implement : LoopStage := "IMPLEMENT".
Definition Build : LoopStage := "BUILD".
Definition Test : LoopStage := "TEST".
Definition Verify : LoopStage := "VERIFY".
Definition VisualQA : LoopStage := "VISUAL_QA".
Definition Security : LoopStage := "SECURITY".
Definition Fix : LoopStage := "FIX".
Definition Commit : LoopStage := "COMMIT".
Definition Deploy : LoopStage := "DEPLOY".
Definition PostDeployVerify : LoopStage := "POST_DEPLOY_VERIFY".

(* src: internal/productexperience/types.go:77-86 (LoopPlan) *)
Record LoopPlan := mkPlan {
  Plan_ID : string;
  Goal : string;
  Plan_ProjectID : string;
  Stages : list LoopStage;
  Delegates : gmap string string;
  Plan_Status : string;
  BlockedStages : list LoopStage;
  Plan_CreatedAt : Z
}.
#[global] Instance eta_LoopPlan : Eta LoopPlan := λ p,
  mkPlan (Plan_ID p) (Goal p) (Plan_ProjectID p) (Stages p) (Delegates p) (Plan_Status p)
    (BlockedStages p) (Plan_CreatedAt p).

(* src: internal/productexperience/types.go:87-97 (ActivityState) *)
Inductive ActivityState :=
  | Active | Waiting | Executing | Verifying | Blocked | Completed | Failed
  | ActivityOther (s : string).
#[global] Instance ActivityState_eq_dec : EqDecision ActivityState.
Proof. solve_decision. Defined.

(* src: internal/productexperience/types.go:99-108 (Activity) *)
Record Activity := mkActivity {
  Activity_ID : string;
  Activity_ProjectID : string;
  Activity_Type : string;
  Activity_State : ActivityState;
  Activity_Message : string;
  Progress : option Z;
  Timestamp : Z;
  Data : gmap string any
}.
#[global] Instance eta_Activity : Eta Activity := λ a,
  mkActivity (Activity_ID a) (Activity_ProjectID a) (Activity_Type a) (Activity_State a)
    (Activity_Message a) (Progress a) (Timestamp a) (Data a).

(** ** The service *)

(** What the service reads: the knowledge store and, when there are any, the stores of
    design systems and constitutions. *)
(* src: internal/productexperience/service.go:15-28 (Service) *)
Record Service (W : Type) := mkService {
  Service_Knowledge : Store W;
  DesignStore : option (string → M W (designintelligence.DesignSystem * option goerror));
  ConstitutionStore : option (string → string → M W (constitution.Constitution * option goerror));
  Service_Now : M W Z
}.
Arguments mkService {W}.
Arguments Service_Knowledge {W}.
Arguments DesignStore {W}.
Arguments ConstitutionStore {W}.
Arguments Service_Now {W}.

(** The maps of the service, which what it loads is kept in. *)
Record sstate := mkState {
  DesignSystems : gmap string designintelligence.DesignSystem;
  Constitutions : gmap string constitution.Constitution
}.
#[global] Instance eta_sstate : Eta sstate := λ s, mkState (DesignSystems s) (Constitutions s).

(* src: internal/productexperience/service.go:30-35 (NewService) *)
Definition NewService : sstate := mkState ∅ ∅.

(** ** Impact *)

(** One edge of the inner loop of the search. *)
(* src: internal/productexperience/service.go:98-104 (Impact) *)
Definition visit_edge (id : string) (acc : gset string * list string) (e : Edge)
    : gset string * list string :=
  let '(seen, queue) := acc in
  if negb (bool_decide (From e = id)) || bool_decide (To e ∈ seen) then (seen, queue)
  else (seen ∪ {[To e]}, queue ++ [To e]).

(** [None] is running out of fuel, which [search_reachable] excludes. *)
(* src: internal/productexperience/service.go:95-105 (Impact) *)
Fixpoint search (fuel : nat) (es : list Edge) (seen : gset string) (queue : list string)
    : option (gset string) :=
  match fuel with
  | O => None
  | S fuel =>
      match queue with
      | [] => Some seen
      | id :: queue =>
          let '(seen, queue) := foldl (visit_edge id) (seen, queue) es in
          search fuel es seen queue
      end
  end.

(** Every edge is followed at most once, and the root and the end need a round each. *)
Definition search_fuel (es : list Edge) : nat := S (S (length es)).
Definition affected (es : list Edge) (root : string) : gset string :=
  default ∅ (search (search_fuel es) es {[root]} [root]).

(* src: internal/productexperience/service.go:112-127 (Impact) *)
Definition classify (acc : ImpactAnalysis) (n : Node) : ImpactAnalysis :=
  let '(mkImpact p r risk fs apis cs ts ns ap rs) := acc in
  match Node_Type n with
  | File => mkImpact p r risk (fs ++ [Node_Path n]) apis cs ts ns ap rs
  | API => mkImpact p r risk fs (apis ++ [Node_Name n]) cs ts ns ap rs
  | Component => mkImpact p r risk fs apis (cs ++ [Node_Name n]) ts ns ap rs
  | knowledge.Test => mkImpact p r risk fs apis cs (ts ++ [Node_Name n]) ns ap rs
  | Database | Table =>
      mkImpact p r "HIGH" fs apis cs ts ns true (rs ++ ["database impact requires approval"])
  | _ => acc
  end.

(* src: internal/productexperience/service.go:92-134 (Impact) *)
Definition impact_of (projectID root : string) (g : Graph) : ImpactAnalysis :=
  let seen := affected (Edges g) root in
  let out := filter (λ n, Node_ID n ∈ seen ∧ Node_ID n ≠ root) (Nodes g) in
  let '(mkImpact p r risk fs apis cs ts ns ap rs) :=
    foldl classify (mkImpact projectID root "LOW" [] [] [] [] out false []) out in
  let risk :=
    if (8 <? length fs + length apis + length cs + length ts)%nat && bool_decide (risk = "LOW")
    then "MEDIUM" else risk in
  let rs := match rs with
            | [] => ["impact is derived from structured graph relationships"]
            | _ => rs
            end in
  mkImpact p r risk fs apis cs ts ns ap rs.

Definition zero_Impact : ImpactAnalysis := mkImpact "" "" "" [] [] [] [] [] false [].
Definition zero_Context : AgentContext :=
  mkContext "" [] "" (constitution.mkConstitution "" "" "" "" "" [] [] [] ∅ [] [] []
    (agent.mkPolicy "" "" [] [])) "" zero_Graph None ∅ [] [] [] time_zero.
Definition zero_Recovery : SessionRecovery :=
  mkRecovery "" ∅ zero_Graph [] [] [] None ∅ ∅ "".
Definition zero_Plan : LoopPlan := mkPlan "" "" "" [] ∅ "" [] time_zero.

Section service.
Context `{MapOrder} {W : Type} (s : Service W).
Notation C A := (M (sstate * W) A).

Definition constitution_key (r : ContextRequest) : string :=
  Request_ProjectID r +:+ ":" +:+ Request_AgentID r.

(** The constitution of the agent: kept, or loaded and kept. *)
(* src: internal/productexperience/service.go:40-50 (Assemble) *)
Definition find_constitution (r : ContextRequest) : C (option constitution.Constitution) :=
  let! kept := look (λ st, Constitutions st !! constitution_key r) in
  match kept, ConstitutionStore s with
  | Some c, _ => mret (Some c)
  | None, None => mret None
  | None, Some get =>
      let! (c, err) := outside (get (Request_ProjectID r) (Request_AgentID r)) in
      match err with
      | Some _ => mret None
      | None =>
          let! _ := modify (λ st,
            st <| Constitutions := <[constitution_key r := c]> (Constitutions st) |>) in
          mret (Some c)
      end
  end.

(* src: internal/productexperience/service.go:55-65 (Assemble) *)
Definition find_design (projectID : string) : C (option designintelligence.DesignSystem) :=
  let! kept := look (λ st, DesignSystems st !! projectID) in
  match kept, DesignStore s with
  | Some d, _ => mret (Some d)
  | None, None => mret None
  | None, Some get =>
      let! (d, err) := outside (get projectID) in
      match err with
      | Some _ => mret None
      | None =>
          let! _ := modify (λ st, st <| DesignSystems := <[projectID := d]> (DesignSystems st) |>) in
          mret (Some d)
      end
  end.

(* src: internal/productexperience/service.go:36-67 (Assemble) *)
Definition Assemble (r : ContextRequest) : C (AgentContext * option goerror) :=
  if decide (Request_ProjectID r = "" ∨ Request_Task r = "")
  then mret (zero_Context, Some (ErrorString "project_id and task are required"))
  else
    let! found := find_constitution r in
    match found with
    | None => mret (zero_Context, Some (ErrorString "agent constitution not found"))
    | Some c =>
        let! (g, err) := outside (Store_Graph (Service_Knowledge s) (Request_ProjectID r)) in
        match err with
        | Some e => mret (zero_Context, Some e)
        | None =>
            let! design := find_design (Request_ProjectID r) in
            let! now := outside (Service_Now s) in
            mret (mkContext
              "SUDA FORGE agents act only within project policy, use available tools truthfully, and verify meaningful changes."
              (constitution.SecurityRules c) (Request_Role r) c (Request_Task r) g design
              (Request_CurrentState r) (Request_AvailableTools r) (Request_RuntimeCapabilities r)
              (Request_VerificationRequirements r) now, None)
        end
    end.

Definition names_of (t : NodeType) (ns : list Node) : list string :=
  Node_Name <$> filter (λ n, Node_Type n = t) ns.

(* src: internal/productexperience/service.go:68-86 (Recover) *)
Definition Recover (projectID : string) (r : ContextRequest) : C (SessionRecovery * option goerror) :=
  let! (ctx, err) := Assemble r in
  match err with
  | Some e => mret (zero_Recovery, Some e)
  | None =>
      let ns := Nodes (Context_Knowledge ctx) in
      let decisions := names_of Decision_ ns in
      let tasks := names_of Task ns in
      let bugs := names_of Bug ns in
      let count {A} (l : list A) := pretty (Z.of_nat (length l)) in
      mret (mkRecovery projectID (Request_CurrentState r) (Context_Knowledge ctx) decisions tasks bugs
        (Context_DesignSystem ctx) ∅ ∅
        ("Project " +:+ projectID +:+ " has " +:+ count ns +:+ " knowledge nodes, " +:+
         count decisions +:+ " decisions, " +:+ count tasks +:+ " tasks, and " +:+
         count bugs +:+ " bugs."), None)
  end.

(* src: internal/productexperience/service.go:87-135 (Impact) *)
Definition Impact (projectID root : string) : C (ImpactAnalysis * option goerror) :=
  let! (g, err) := outside (Store_Graph (Service_Knowledge s) projectID) in
  match err with
  | Some e => mret (zero_Impact, Some e)
  | None => mret (impact_of projectID root g, None)
  end.

Definition all_stages : list LoopStage :=
  [Intent; Plan; Architect; Design; Implement; Build; Test; Verify; VisualQA; Security; Fix;
   Commit; Deploy; PostDeployVerify].
Definition delegates : gmap string string := list_to_map
  [(Intent, "projectintelligence.Engine"); (Plan, "orchestration.Orchestrator");
   (Architect, "projectintelligence.Engine"); (Design, "designintelligence.Engine");
   (Implement, "orchestration.Orchestrator"); (Build, "verification.Engine");
   (Test, "verification.Engine"); (Verify, "verification.Engine");
   (VisualQA, "verification.Engine + Project Computer browser capability");
   (Security, "verification.Engine"); (Fix, "verification.RepairLoop");
   (Commit, "orchestration.WorktreeManager"); (Deploy, "deployment.Manager");
   (PostDeployVerify, "verification.Engine + deployment health")].

(* src: internal/productexperience/service.go:136-151 (PlanLoop) *)
Definition PlanLoop (projectID : string) (blocked : gmap string string)
    : C (LoopPlan * option goerror) :=
  if decide (projectID = "") then mret (zero_Plan, Some (ErrorString "project_id is required"))
  else
    let blockedStages := (map_range 0 blocked).*1 in
    let status := match blockedStages with [] => "READY" | _ => "PARTIALLY_BLOCKED" end in
    let! now := outside (Service_Now s) in
    mret (mkPlan ("loop_" +:+ projectID) "" projectID all_stages delegates status blockedStages now,
          None).
End service.

(** ** The activity log *)

(* src: internal/productexperience/activity.go:65-72 (containsActivity) *)
Definition containsActivity (v s : string) : bool := strings.Contains v s.

(* src: internal/productexperience/activity.go:44-56 (AppendEvent) *)
Definition activity_state (typ : string) : ActivityState :=
  if decide (typ = "") then Completed
  else if containsActivity typ "started" || containsActivity typ "running" then Executing
  else if containsActivity typ "failed" || containsActivity typ "error" then Failed
  else if containsActivity typ "blocked" then Blocked
  else if containsActivity typ "waiting" || containsActivity typ "approval" then Waiting
  else Completed.

Section activity.
(** [stamp] formats a time, [save] is the store when there is one. *)
Context {W : Type} (now : M W Z) (stamp : Z → string) (save : option (Activity → M W (option goerror))).
Notation C A := (M (gmap string (list Activity) * W) A).

(* src: internal/productexperience/activity.go:26-42 (Append) *)
Definition Append (a : Activity) : C unit :=
  if decide (Activity_ProjectID a = "") then mret tt
  else
    let! a := if decide (Activity_ID a = "")
              then let! t := outside now in
                   mret (a <| Activity_ID :=
                     "activity_" +:+ Activity_ProjectID a +:+ "_" +:+ stamp t |>)
              else mret a in
    let! a := if IsZero (Timestamp a)
              then let! t := outside now in mret (a <| Timestamp := t |>)
              else mret a in
    let! _ := modify (λ items, <[Activity_ProjectID a :=
      default [] (items !! Activity_ProjectID a) ++ [a]]> items) in
    match save with
    | Some f => let! _ := outside (f a) in mret tt
    | None => mret tt
    end.

(* src: internal/productexperience/activity.go:43-58 (AppendEvent) *)
Definition AppendEvent (e : events.Event) : C unit :=
  Append (mkActivity "" (events.Event_ProjectID e) (events.Event_Type e)
    (activity_state (events.Event_Type e)) (events.Event_Type e) None time_zero
    (<["runtime_id" := AnyString (events.Event_RuntimeID e)]> {["data" := events.Event_Data e]})).

(* src: internal/productexperience/activity.go:59-64 (List) *)
Definition List_ (items : gmap string (list Activity)) (projectID : string) : list Activity :=
  default [] (items !! projectID).
End activity.

(** ** Visual checks *)

(* src: internal/productexperience/visualqa.go:9-16 (VisualQAStatus) *)
Inductive VisualQAStatus :=
  | VisualQAPassed | VisualQAFailed | VisualQABlocked | VisualQAUnsupported
  | VisualQAOther (s : string).

(* src: internal/productexperience/visualqa.go:23-27 (Viewport) *)
Record Viewport := mkViewport { Viewport_Name : string; Width : Z; Height : Z }.

(* src: internal/productexperience/visualqa.go:18-22 (VisualQARequest) *)
Record VisualQARequest := mkVisualRequest {
  Visual_ProjectID : string;
  Visual_ComputerID : string;
  Visual_Viewports : list Viewport
}.

(* src: internal/productexperience/visualqa.go:28-34 (VisualQAResult) *)
Record VisualQAResult := mkVisualResult {
  Visual_Status : VisualQAStatus;
  Visual_Reason : string;
  Result_Viewports : list Viewport;
  Findings : list string;
  Evidence : gmap string string
}.

Section visual.
Import projectcomputer.
Context {W : Type} (Computers : option (string → M W (ProjectComputer * option goerror))).

(** The loop over the capabilities, which returns at the first browser that is not
    supported. *)
(* src: internal/productexperience/visualqa.go:48-58 (VisualQABoundary.Run) *)
Fixpoint visual_result (views : list Viewport) (caps : list CapabilityCheck) : VisualQAResult :=
  let answer status reason := mkVisualResult status reason views [] ∅ in
  match caps with
  | [] => answer VisualQAUnsupported "browser capability was not verified"
  | c :: caps =>
      if decide (Check_Capability c = Browser) then
        if decide (Check_Status c = projectcomputer.Blocked)
        then answer VisualQABlocked (projectcomputer.Evidence c)
        else if decide (Check_Status c = Supported) then visual_result views caps
        else answer VisualQAUnsupported "browser capability is not supported"
      else visual_result views caps
  end.

(* src: internal/productexperience/visualqa.go:40-59 (VisualQABoundary.Run) *)
Definition visual_Run (r : VisualQARequest) : M W (result VisualQAResult) :=
  match Computers with
  | None => mret (Err (ErrorString "project computer capability reader unavailable"))
  | Some get =>
      let! (c, err) := get (Visual_ComputerID r) in
      match err with
      | Some e => mret (Err e)
      | None => mret (Ok (visual_result (Visual_Viewports r) (Capabilities c)))
      end
  end.
End visual.

(** ** The search *)

Definition leads (es : list Edge) (a b : string) : Prop := ∃ e, e ∈ es ∧ From e = a ∧ To e = b.

Lemma visit_edge_fold id es seen queue :
  ∃ new, foldl (visit_edge id) (seen, queue) es = (seen ∪ list_to_set new, queue ++ new) ∧
    NoDup new ∧ ∀ x, x ∈ new ↔ x ∉ seen ∧ leads es id x.
Proof.
  revert seen queue. induction es as [|e es IH]; intros seen queue; cbn [foldl].
  { exists []. rewrite app_nil_r. split; [f_equal; set_solver|]. split; [constructor|].
    intros x. split; [set_solver|]. by intros [_ (? & []%not_elem_of_nil & _)]. }
  unfold visit_edge at 2. destruct (negb _ || _) eqn:Hskip.
  - destruct (IH seen queue) as (new & -> & Hnd & Hnew). exists new. split; [done|].
    split; [done|]. intros x. rewrite Hnew. apply orb_true_iff in Hskip.
    rewrite negb_true_iff, bool_decide_eq_false, bool_decide_eq_true in Hskip.
    unfold leads. setoid_rewrite elem_of_cons. naive_solver.
  - apply orb_false_iff in Hskip as [Hf Ht].
    rewrite negb_false_iff, bool_decide_eq_true in Hf. rewrite bool_decide_eq_false in Ht.
    destruct (IH (seen ∪ {[To e]}) (queue ++ [To e])) as (new & -> & Hnd & Hnew).
    exists (To e :: new). rewrite <-(assoc_L (++)). split; [f_equal; set_solver|].
    split; [constructor; [rewrite Hnew; set_solver|done]|].
    intros x. rewrite elem_of_cons, Hnew, not_elem_of_union, not_elem_of_singleton.
    unfold leads. setoid_rewrite elem_of_cons. destruct (decide (x = To e)); naive_solver.
Qed.

(** The states of the search. *)
Record search_ok (es : list Edge) (root : string) (seen : gset string) (queue : list string)
    : Prop := {
  so_root : root ∈ seen;
  so_queue : ∀ x, x ∈ queue → x ∈ seen;
  so_seen : ∀ x, x ∈ seen → rtc (leads es) root x;
  so_next : ∀ x y, x ∈ seen → x ∉ queue → leads es x y → y ∈ seen
}.

Lemma search_reachable es root fuel seen queue :
  search_ok es root seen queue →
  (length queue + size (list_to_set (To <$> es) ∖ seen) < fuel)%nat →
  ∃ seen', search fuel es seen queue = Some seen' ∧ ∀ x, x ∈ seen' ↔ rtc (leads es) root x.
Proof.
  revert seen queue. induction fuel as [|fuel IH]; intros seen queue [Hr Hq Hs Hn] Hf; [lia|].
  cbn [search]. destruct queue as [|id queue].
  { exists seen. split; [done|]. intros x. split; [apply Hs|]. intros Hx.
    assert (∀ a b, rtc (leads es) a b → a ∈ seen → b ∈ seen) as Hcl.
    { induction 1 as [|a b c Hab _ IHc]; [done|]. intros Ha.
      apply IHc. apply (Hn a b); [done|set_solver|done]. }
    by eapply Hcl. }
  destruct (visit_edge_fold id es seen queue) as (new & -> & Hnd & Hnew).
  apply IH.
  - split; [set_solver|set_solver|..].
    + intros x [Hx|Hx]%elem_of_union; [by apply Hs|]. rewrite elem_of_list_to_set in Hx.
      apply Hnew in Hx as [_ Hx]. eapply rtc_r; [|exact Hx]. apply Hs, Hq. by left.
    + intros x y Hx Hxq Hxy. apply not_elem_of_app in Hxq as [Hxq Hxn].
      apply elem_of_union in Hx as [Hx|Hx]; [|by rewrite elem_of_list_to_set in Hx].
      destruct (decide (x = id)) as [->|Hne].
      * destruct (decide (y ∈ seen)); [set_solver|]. apply elem_of_union_r, elem_of_list_to_set.
        by apply Hnew.
      * apply elem_of_union_l. by apply (Hn x y); [|set_solver|].
  - assert (size (list_to_set (To <$> es) ∖ seen) =
      (size (list_to_set (To <$> es) ∖ (seen ∪ list_to_set new)) + length new)%nat) as Hsize.
    { rewrite <-(size_list_to_set (C := gset string) new) by done.
      rewrite <-size_union by set_solver. f_equal. apply set_eq. intros x.
      destruct (decide (x ∈ new)) as [Hx|Hx]; [|set_solver].
      pose proof (proj1 (Hnew x) Hx) as [Hxs (e & He & _ & Hte)]. split; [set_solver|].
      intros _. apply elem_of_difference. split; [|done].
      apply elem_of_list_to_set, list_elem_of_fmap. by exists e. }
    rewrite length_app. simpl in Hf. lia.
Qed.

Lemma elem_of_affected es root x : x ∈ affected es root ↔ rtc (leads es) root x.
Proof.
  unfold affected. destruct (search_reachable es root (search_fuel es) {[root]} [root])
    as (seen & -> & Hseen); [| |apply Hseen].
  - split; [set_solver|set_solver| |set_solver].
    intros y ->%elem_of_singleton. apply rtc_refl.
  - unfold search_fuel. cbn [length].
    enough (size (list_to_set (C := gset string) (To <$> es) ∖ {[root]}) ≤ length es)%nat by lia.
    etrans; [apply subseteq_size, subseteq_difference_l; reflexivity|].
    rewrite <-(length_fmap To es). generalize (To <$> es). intros l.
    induction l as [|a l IHl]; [done|].
    rewrite list_to_set_cons, size_union_alt, size_singleton. cbn [length].
    enough (size (list_to_set (C := gset string) l ∖ {[a]}) ≤ size (list_to_set (C := gset string) l))%nat
      by lia.
    apply subseteq_size. set_solver.
Qed.

Definition of_type (t : NodeType) (ns : list Node) : list Node := filter (λ n, Node_Type n = t) ns.
Definition is_data (n : Node) : Prop := Node_Type n = Database ∨ Node_Type n = Table.
#[global] Instance is_data_dec n : Decision (is_data n).
Proof. unfold is_data. apply _. Defined.

(** The loop that sorts the affected nodes by type. *)
Lemma classify_fold l a :
  let b := foldl classify a l in
  let touched := existsb (λ n, bool_decide (is_data n)) l in
  Files b = Files a ++ (Node_Path <$> of_type File l) ∧
  APIs b = APIs a ++ (Node_Name <$> of_type API l) ∧
  Components b = Components a ++ (Node_Name <$> of_type Component l) ∧
  Impact_Tests b = Impact_Tests a ++ (Node_Name <$> of_type knowledge.Test l) ∧
  Impact_Nodes b = Impact_Nodes a ∧
  Impact_ApprovalRequired b = Impact_ApprovalRequired a || touched ∧
  Risk b = if touched then "HIGH" else Risk a.
Proof.
  revert a. induction l as [|n l IH]; intros a; cbv zeta.
  { cbn. rewrite !app_nil_r, orb_false_r. done. }
  cbn [foldl existsb]. destruct (IH (classify a n)) as (H1 & H2 & H3 & H4 & H5 & H6 & H7).
  rewrite H1, H2, H3, H4, H5, H6, H7. unfold of_type, is_data. rewrite !filter_cons.
  destruct a, n as [? ? t ? ? ? ? ?], t; cbn; rewrite ?orb_true_r, ?orb_false_r, <-?(assoc_L (++));
    split_and!; try done; by destruct (existsb _ l).
Qed.

(** C28: the impact of a change.  The analysis fails only when the store does.  Else it
    lists, in the order of the graph, exactly the nodes other than the root that a
    path of edges leads to from the root; files, interfaces, components and tests are
    those of these nodes; approval is required and the risk HIGH exactly when a
    database or a table is among them, and the risk is MEDIUM, not LOW, when more
    than eight files, interfaces, components and tests are. *)
Theorem Impact_correct {W} (s : Service W) projectID root st w a err st' w' :
  Impact s projectID root (st, w) = ((a, err), (st', w')) →
  ∃ g, Store_Graph (Service_Knowledge s) projectID w = ((g, err), w') ∧ st' = st ∧
  (err = None →
    let ns := Impact_Nodes a in
    ns `sublist_of` Nodes g ∧
    (∀ n, n ∈ ns ↔ n ∈ Nodes g ∧ Node_ID n ≠ root ∧ rtc (leads (Edges g)) root (Node_ID n)) ∧
    Files a = Node_Path <$> of_type File ns ∧
    APIs a = Node_Name <$> of_type API ns ∧
    Components a = Node_Name <$> of_type Component ns ∧
    Impact_Tests a = Node_Name <$> of_type knowledge.Test ns ∧
    (Impact_ApprovalRequired a = true ↔ ∃ n, n ∈ ns ∧ is_data n) ∧
    Risk a = if Impact_ApprovalRequired a then "HIGH"
             else if (8 <? length (Files a) + length (APIs a) + length (Components a) +
                      length (Impact_Tests a))%nat then "MEDIUM" else "LOW").
Proof.
  unfold Impact. intros ([g e] & [st1 w1] & [Hg Hst]%outside_inv & Hk)%mthen_inv. simpl in *.
  exists g. destruct e as [e|]; apply mret_inv in Hk as [[= <- <-] [= <- <-]].
  { split; [done|]. split; [done|]. done. }
  split; [done|]. split; [done|]. intros _. unfold impact_of.
  set (out := filter _ (Nodes g)).
  destruct (classify_fold out (mkImpact projectID root "LOW" [] [] [] [] out false []))
    as (H1 & H2 & H3 & H4 & H5 & H6 & H7).
  destruct (foldl classify _ out) as [p r risk fs apis cs ts ns ap rs]. simpl in *. subst.
  split; [by apply sublist_filter|]. split.
  { intros n. unfold out. rewrite list_elem_of_filter, elem_of_affected. naive_solver. }
  do 4 (split; [done|]).
  assert (existsb (λ n, bool_decide (is_data n)) out = true ↔ ∃ n, n ∈ out ∧ is_data n) as Hex.
  { rewrite existsb_exists. setoid_rewrite bool_decide_eq_true. by setoid_rewrite list_elem_of_In. }
  split; [done|]. destruct (existsb _ out); [by destruct (8 <? _)%nat|].
  rewrite bool_decide_true by done. by rewrite andb_true_r.
Qed.

(** ** The activity log *)

(** What an appended activity adds to the list of its project, and to no other. *)
Lemma Append_inv {W} (now : M W Z) stamp save a items w u items' w' :
  Append now stamp save a (items, w) = (u, (items', w')) →
  (Activity_ProjectID a = "" ∧ items' = items) ∨
  ∃ b, items' = <[Activity_ProjectID a := List_ items (Activity_ProjectID a) ++ [b]]> items ∧
    Activity_ProjectID b = Activity_ProjectID a ∧ Activity_Type b = Activity_Type a ∧
    Activity_State b = Activity_State a ∧ Activity_ID b ≠ "" ∧
    (IsZero (Timestamp a) = false → Timestamp b = Timestamp a).
Proof.
  unfold Append. case_decide as Hp; [by intros [_ [= -> _]]%mret_inv; left|].
  intros (a1 & [i1 w1] & H1 & Hk)%mthen_inv. right.
  assert (i1 = items ∧ Activity_ID a1 ≠ "" ∧ Activity_ProjectID a1 = Activity_ProjectID a ∧
    Activity_Type a1 = Activity_Type a ∧ Activity_State a1 = Activity_State a ∧
    Timestamp a1 = Timestamp a) as (-> & Hid & E1 & E2 & E3 & E4).
  { case_decide.
    - apply mthen_inv in H1 as (t & sw & [_ Hs]%outside_inv & H1).
      apply mret_inv in H1 as [<- ->]. by simpl in Hs.
    - by apply mret_inv in H1 as [<- [= <- _]]. }
  apply mthen_inv in Hk as (a2 & [i2 w2] & H2 & Hk).
  assert (i2 = items ∧ Activity_ID a2 = Activity_ID a1 ∧ Activity_ProjectID a2 = Activity_ProjectID a1 ∧
    Activity_Type a2 = Activity_Type a1 ∧ Activity_State a2 = Activity_State a1 ∧
    (IsZero (Timestamp a1) = false → Timestamp a2 = Timestamp a1)) as (-> & F0 & F1 & F2 & F3 & F4).
  { destruct (IsZero (Timestamp a1)).
    - apply mthen_inv in H2 as (t & sw & [_ Hs]%outside_inv & H2).
      apply mret_inv in H2 as [<- ->]. by simpl in Hs.
    - by apply mret_inv in H2 as [<- [= <- _]]. }
  apply mthen_inv in Hk as (v & sw & ->%modify_inv & Hk). simpl in Hk.
  exists a2. rewrite F1, E1 in Hk. unfold List_. rewrite F0, F1, F2, F3, E1, E2, E3, <-E4.
  split_and!; try done. destruct save as [f|]; [|by apply mret_inv in Hk as [_ [= <- _]]].
  apply mthen_inv in Hk as (x & sw & [_ Hs]%outside_inv & Hk).
  apply mret_inv in Hk as [_ ->]. by simpl in Hs.
Qed.

(** ** Visual checks *)

(** A visual check never passes.  Whatever the computer can do, the answer is
    BLOCKED or UNSUPPORTED, with no findings and no evidence; when every browser check
    of the computer is supported it is that the browser was not verified. *)
Theorem visual_qa_never_passes {W} (computers : option (string → M W _)) r w q w' :
  visual_Run computers r w = (Ok q, w') →
  (Visual_Status q = VisualQABlocked ∨ Visual_Status q = VisualQAUnsupported) ∧
  Findings q = [] ∧ Evidence q = ∅ ∧
  ∃ get c, computers = Some get ∧ get (Visual_ComputerID r) w = ((c, None), w') ∧
    (Forall (λ k, projectcomputer.Check_Capability k = projectcomputer.Browser →
       projectcomputer.Check_Status k = projectcomputer.Supported) (projectcomputer.Capabilities c) →
     q = mkVisualResult VisualQAUnsupported "browser capability was not verified"
           (Visual_Viewports r) [] ∅).
Proof.
  unfold visual_Run. destruct computers as [get|]; [|by intros [[=] _]%mret_inv].
  intros ([c err] & w1 & Hg & Hk)%mthen_inv. destruct err; [by apply mret_inv in Hk as [[=] _]|].
  apply mret_inv in Hk as [[= <-] <-].
  set (views := Visual_Viewports r). set (caps := projectcomputer.Capabilities c).
  assert (∀ q, q = visual_result views caps →
    (Visual_Status q = VisualQABlocked ∨ Visual_Status q = VisualQAUnsupported) ∧
    Findings q = [] ∧ Evidence q = ∅) as Hany.
  { intros q ->. induction caps as [|k caps IH]; cbn [visual_result]; repeat case_decide; eauto. }
  destruct (Hany _ eq_refl) as (H1 & H2 & H3). do 3 (split; [done|]).
  exists get, c. split; [done|]. split; [done|]. intros Hall. fold caps in Hall.
  clear -Hall. induction Hall as [|k caps Hk Hall IH]; [done|]. cbn [visual_result].
  case_decide as Hb; [|done]. rewrite (Hk Hb). by rewrite decide_False, decide_True.
Qed.

(** ** Witnesses *)

(** A page that writes to a table, and a note nothing leads to. *)
Definition shop : Graph :=
  mkGraph "shop"
    [mkNode "page" "shop" Page "Home" "" ∅ 0 0; mkNode "orders" "shop" Table "orders" "" ∅ 0 0;
     mkNode "note" "shop" Requirement "notes" "" ∅ 0 0]
    [mkEdge "e" "shop" "page" "orders" Uses ∅ 0].
Definition shop_service : Service unit :=
  mkService (mkStore (λ n, mret (n, None)) (λ e, mret (e, None)) (λ _, mret (shop, None))
    (λ _ _ _, mret ([], None))) None None (mret 3).

Lemma Impact_correct_witness :
  let a := (Impact shop_service "shop" "page" (NewService, tt)).1.1 in
  Node_ID <$> Impact_Nodes a = ["orders"] ∧ Risk a = "HIGH" ∧
  rtc (leads (Edges shop)) "page" "orders".
Proof.
  destruct (Impact shop_service "shop" "page" (NewService, tt))
    as [[a err] [st' []]] eqn:E.
  destruct (Impact_correct shop_service "shop" "page" NewService tt a err
    st' tt E) as (g & [= <- <-] & _ & Hok).
  destruct (Hok eq_refl) as (_ & Hin & _ & _ & _ & _ & Happ & Hrisk).
  assert (Node_ID <$> Impact_Nodes a = ["orders"]) as Hn by (vm_compute in E; by injection E as <-).
  assert (mkNode "orders" "shop" Table "orders" "" ∅ 0 0 ∈ Impact_Nodes a) as Ht
    by (vm_compute in E; injection E as <-; by left).
  simpl. split; [exact Hn|]. apply Hin in Ht as Hreach. destruct Hreach as (_ & _ & Hreach).
  split; [|exact Hreach]. rewrite Hrisk.
  assert (Impact_ApprovalRequired a = true) as -> by (apply Happ; eexists; split; [exact Ht|by right]).
  done.
Defined.

Definition browser_works : projectcomputer.ProjectComputer :=
  projectcomputer.zero_Computer <| projectcomputer.Capabilities :=
    [projectcomputer.mkCheck projectcomputer.Browser projectcomputer.Supported "" 0] |>.

Lemma visual_qa_never_passes_witness :
  ∃ q, (visual_Run (W := unit) (Some (λ _, mret (browser_works, None)))
          (mkVisualRequest "p" "c" [mkViewport "desktop" 1440 900]) tt).1 = Ok q ∧
       Visual_Status q = VisualQAUnsupported.
Proof.
  destruct (visual_Run (W := unit) _ (mkVisualRequest "p" "c" [mkViewport "desktop" 1440 900]) tt)
    as [[q|e] []] eqn:E; [|discriminate E].
  exists q. split; [done|].
  destruct (visual_qa_never_passes _ _ _ _ _ E) as (_ & _ & _ & get & c & [= <-] & [= <-] & Hall).
  rewrite Hall; [done|]. by apply Forall_singleton.
Defined.
End productexperience.
