(* ===== verification/ProductLoop.v ===== *)
(** * The autonomous loop

    [src/internal/productexperience/loop_coordinator.go] and [stage_executor.go]: the
    coordinator that runs the stages of a plan one after the other, checkpointing the
    execution in a store, and the executor that delegates stages to the services. *)

From stdpp Require Import relations.
From S2P Require Import Prelude GoStrings World Knowledge ProductExp.

Module productloop.
Import productexperience.

(* src: internal/productexperience/loop_coordinator.go:11-18 (LoopStageResult) *)
Record LoopStageResult := mkStageResult {
  Result_Stage : LoopStage;
  State : string;
  Message : string;
  Result_Data : gmap string any;
  StartedAt : Z;
  EndedAt : Z
}.
#[global] Instance eta_StageResult : Eta LoopStageResult := λ r,
  mkStageResult (Result_Stage r) (State r) (Message r) (Result_Data r) (StartedAt r) (EndedAt r).

(* src: internal/productexperience/loop_coordinator.go:20-26 (LoopExecution) *)
Record LoopExecution := mkExecution {
  Execution_Plan : LoopPlan;
  CurrentStage : LoopStage;
  Results : gmap string LoopStageResult;
  Error : string;
  UpdatedAt : Z
}.
#[global] Instance eta_LoopExecution : Eta LoopExecution := λ e,
  mkExecution (Execution_Plan e) (CurrentStage e) (Results e) (Error e) (UpdatedAt e).
Definition zero_Execution : LoopExecution := mkExecution zero_Plan "" ∅ "" time_zero.
Definition Status (e : LoopExecution) : string := Plan_Status (Execution_Plan e).
Definition with_status (status : string) (e : LoopExecution) : LoopExecution :=
  e <| Execution_Plan := (Execution_Plan e) <| Plan_Status := status |> |>.

(* src: internal/productexperience/loop_coordinator.go:28-32 (LoopStore) *)
Record LoopStore (W : Type) := mkLoopStore {
  SaveLoopExecution : LoopExecution → M W (option goerror);
  GetLoopExecution : string → M W (LoopExecution * option goerror);
  ListRunnableLoopExecutions : M W (list LoopExecution * option goerror)
}.
Arguments mkLoopStore {W}.
Arguments SaveLoopExecution {W}.
Arguments GetLoopExecution {W}.
Arguments ListRunnableLoopExecutions {W}.

(* src: internal/productexperience/loop_coordinator.go:34-36 (StageExecutor) *)
Definition StageExecutor (W : Type) : Type :=
  LoopExecution → LoopStage → M W (LoopStageResult * option goerror).

(** ** The stages of an execution *)

Definition completed (e : LoopExecution) (stage : LoopStage) : bool :=
  match Results e !! stage with
  | Some r => bool_decide (State r = "COMPLETED")
  | None => false
  end.

Section run.
Context {W : Type} (store : LoopStore W) (execute : StageExecutor W) (now : M W Z).

Definition touched (e : LoopExecution) : M W LoopExecution :=
  let! t := now in mret (e <| UpdatedAt := t |>).

(** The last save of a stage that ends the loop, whose error is ignored. *)
Definition abandon (e : LoopExecution) : M W LoopExecution :=
  let! _ := SaveLoopExecution store e in mret e.

(** What follows the call of the executor: the execution, and whether to go on. *)
(* src: internal/productexperience/loop_coordinator.go:127-151 (run) *)
Definition settle (e : LoopExecution) (stage : LoopStage)
    (answer : LoopStageResult * option goerror) : M W (LoopExecution * bool) :=
  let '(r, err) := answer in
  match err with
  | Some x =>
      let! t1 := now in
      let! t2 := now in
      let r := mkStageResult stage "FAILED" (error_text x) ∅ t1 t2 in
      let e := with_status "FAILED" (e <| Error := error_text x |>) in
      let! e := touched (e <| Results := <[stage := r]> (Results e) |>) in
      let! e := abandon e in
      mret (e, false)
  | None =>
      let! e := touched (e <| Results := <[stage := r]> (Results e) |>) in
      if decide (State r = "BLOCKED_BY_ENVIRONMENT" ∨ State r = "BLOCKED")
      then let! e := abandon (with_status "BLOCKED" e) in mret (e, false)
      else if decide (State r ≠ "COMPLETED")
      then let! e := abandon (with_status "FAILED"
             (e <| Error := "stage " +:+ stage +:+ " ended in " +:+ State r |>)) in
           mret (e, false)
      else
        let! err := SaveLoopExecution store e in
        mret (e, bool_decide (err = None))
  end.

(** The loop: the value of [execution] when the function returns, and the stages it
    executed. *)
(* src: internal/productexperience/loop_coordinator.go:119-156 (run) *)
Fixpoint run_stages (stages : list LoopStage) (e : LoopExecution)
    : M W (LoopExecution * list LoopStage) :=
  match stages with
  | [] =>
      let! e := touched (with_status "COMPLETED" (e <| CurrentStage := "" |>)) in
      let! e := abandon e in
      mret (e, [])
  | stage :: stages =>
      if completed e stage then run_stages stages e
      else
        let! e := touched (e <| CurrentStage := stage |>) in
        let! _ := SaveLoopExecution store e in
        let! answer := execute e stage in
        let! (e, go_on) := settle e stage answer in
        if (go_on : bool)
        then let! (e, executed) := run_stages stages e in mret (e, stage :: executed)
        else mret (e, [stage])
  end.
End run.

(** ** The coordinator *)

(* src: internal/productexperience/loop_coordinator.go:38-44 (Coordinator) *)
Record Coordinator (W : Type) := mkCoordinator {
  Coordinator_Store : option (LoopStore W);
  Executor : option (StageExecutor W);
  Coordinator_Now : M W Z
}.
Arguments mkCoordinator {W}.
Arguments Coordinator_Store {W}.
Arguments Executor {W}.
Arguments Coordinator_Now {W}.

(** The executions that run, and the goroutines started and not yet run. *)
Record cstate := mkCState { running : gset string; spawned : list string }.
#[global] Instance eta_cstate : Eta cstate := λ s, mkCState (running s) (spawned s).

(* src: internal/productexperience/loop_coordinator.go:46-51 (NewCoordinator) *)
Definition NewCoordinator : cstate := mkCState ∅ [].

Section coordinator.
Context {W : Type} (c : Coordinator W).
Notation C A := (M (cstate * W) A).

(* src: internal/productexperience/loop_coordinator.go:53-76 (Start) *)
Definition Start (e : LoopExecution) : C (option goerror) :=
  match Coordinator_Store c, Executor c with
  | Some store, Some _ =>
      if decide (Plan_ID (Execution_Plan e) = "" ∨ Plan_ProjectID (Execution_Plan e) = "")
      then mret (Some (ErrorString "loop id and project_id are required"))
      else
        match Stages (Execution_Plan e) with
        | [] => mret (Some (ErrorString "loop requires at least one stage"))
        | first :: _ =>
            let e := if decide (CurrentStage e = "") then e <| CurrentStage := first |> else e in
            let! t := outside (Coordinator_Now c) in
            let e := with_status "RUNNING" e <| UpdatedAt := t |> in
            let! err := outside (SaveLoopExecution store e) in
            match err with
            | Some x => mret (Some x)
            | None =>
                let! _ := modify (λ s,
                  s <| spawned := spawned s ++ [Plan_ID (Execution_Plan e)] |>) in
                mret None
            end
        end
  | _, _ => mret (Some (ErrorString "loop coordinator is unavailable"))
  end.

(* src: internal/productexperience/loop_coordinator.go:78-90 (Resume) *)
Definition Resume (id : string) : C (option goerror) :=
  match Coordinator_Store c with
  | None => mret (Some (ErrorString "loop store is unavailable"))
  | Some store =>
      let! (e, err) := outside (GetLoopExecution store id) in
      match err with
      | Some x => mret (Some x)
      | None => if decide (Status e = "COMPLETED") then mret None else Start e
      end
  end.

Fixpoint resume_all (es : list LoopExecution) : C (option goerror) :=
  match es with
  | [] => mret None
  | e :: es =>
      let! err := Resume (Plan_ID (Execution_Plan e)) in
      match err with Some x => mret (Some x) | None => resume_all es end
  end.

(** The store is not nil here: the source dereferences it. *)
(* src: internal/productexperience/loop_coordinator.go:92-103 (Recover) *)
Definition Recover (store : LoopStore W) : C (option goerror) :=
  let! (es, err) := outside (ListRunnableLoopExecutions store) in
  match err with Some x => mret (Some x) | None => resume_all es end.

(** The body of a goroutine, with nobody in between: the execution it leaves and the
    stages it executed, if it was not refused. *)
(* src: internal/productexperience/loop_coordinator.go:105-157 (run) *)
Definition run (store : LoopStore W) (execute : StageExecutor W) (id : string)
    : C (option (LoopExecution * list LoopStage)) :=
  let! busy := look (λ s, bool_decide (id ∈ running s)) in
  if (busy : bool) then mret None
  else
    let! _ := modify (λ s, s <| running := running s ∪ {[id]} |>) in
    let! (e, err) := outside (GetLoopExecution store id) in
    let! r := match err with
              | Some _ => mret None
              | None =>
                  let! r := outside (run_stages store execute (Coordinator_Now c)
                                       (Stages (Execution_Plan e)) e) in
                  mret (Some r)
              end in
    let! _ := modify (λ s, s <| running := running s ∖ {[id]} |>) in
    mret r.
End coordinator.

(** ** The delegating executor *)

(* src: internal/productexperience/stage_executor.go:70-70 (ErrLoopBlocked) *)
Definition ErrLoopBlocked : goerror := ErrorString "autonomous loop blocked by environment".

(* src: internal/productexperience/stage_executor.go:11-16 (DelegatedStageExecutor) *)
Record DelegatedStageExecutor (W : Type) := mkDelegated {
  Orchestrate : option (LoopExecution → M W (gmap string any * option goerror));
  Delegate_Verify : option (LoopExecution → LoopStage → M W (gmap string any * option goerror));
  RuntimeOK : option (LoopStage → M W bool);
  Delegate_Now : M W Z
}.
Arguments mkDelegated {W}.
Arguments Orchestrate {W}.
Arguments Delegate_Verify {W}.
Arguments RuntimeOK {W}.
Arguments Delegate_Now {W}.

Definition orchestrated : list LoopStage := [Plan; Architect; Implement].
Definition verified : list LoopStage := [Build; Test; Verify; VisualQA; Security; PostDeployVerify].

Section delegated.
Context {W : Type} (d : DelegatedStageExecutor W).

Definition blocked (r : LoopStageResult) (message : string) : LoopStageResult :=
  r <| State := "BLOCKED_BY_ENVIRONMENT" |> <| Message := message |>.

(** The switch: the result so far, the data of the delegate and its error. *)
(* src: internal/productexperience/stage_executor.go:31-51 (ExecuteLoopStage) *)
Definition delegate (e : LoopExecution) (stage : LoopStage) (r : LoopStageResult)
    : M W (LoopStageResult * gmap string any * option goerror) :=
  if decide (stage ∈ orchestrated) then
    match Orchestrate d with
    | None => mret (blocked r "orchestration delegate is unavailable", ∅, None)
    | Some f => let! (data, err) := f e in mret (r, data, err)
    end
  else if decide (stage ∈ verified) then
    match Delegate_Verify d with
    | None => mret (blocked r "verification delegate is unavailable", ∅, None)
    | Some f => let! (data, err) := f e stage in mret (r, data, err)
    end
  else mret (blocked r "stage requires a configured existing product delegate", ∅, None).

Definition zero_Result : LoopStageResult := mkStageResult "" "" "" ∅ time_zero time_zero.
Definition ended (r : LoopStageResult) : M W (LoopStageResult * option goerror) :=
  let! t := Delegate_Now d in mret (r <| EndedAt := t |>, None).

(* src: internal/productexperience/stage_executor.go:18-68 (ExecuteLoopStage) *)
Definition ExecuteLoopStage : StageExecutor W := λ e stage,
  let! started := Delegate_Now d in
  let r := mkStageResult stage "" "" ∅ started time_zero in
  let! ok := match RuntimeOK d with Some f => f stage | None => mret true end in
  if negb ok then ended (blocked r "required runtime capability is unavailable")
  else
    let! (r, data, err) := delegate e stage r in
    match err with
    | Some x =>
        if errors_is x ErrLoopBlocked then ended (blocked r (error_text x))
        else mret (zero_Result, Some x)
    | None =>
        ended (if decide (State r = "") then
                 r <| State := "COMPLETED" |> <| Message := "existing delegate completed stage" |>
                   <| Result_Data := data |>
               else r)
    end.
End delegated.

(** ** What a run of the loop does *)

Lemma touched_inv {W} (now : M W Z) e w e' w' :
  touched now e w = (e', w') → ∃ t, e' = e <| UpdatedAt := t |>.
Proof. intros (t & w1 & _ & [<- _]%mret_inv)%mthen_inv. by exists t. Qed.

Lemma abandon_inv {W} (store : LoopStore W) e w e' w' : abandon store e w = (e', w') → e' = e.
Proof. by intros (u & w1 & _ & [<- _]%mret_inv)%mthen_inv. Qed.

(** What the loop makes of the executor's answer for a stage: its result is recorded;
    the stage completed, and the status is as it was, or it did not, and the status
    is BLOCKED or FAILED; the loop only goes on in the first case. *)
Lemma settle_inv {W} (store : LoopStore W) now e stage answer w e' go w' :
  settle store now e stage answer w = ((e', go), w') →
  (∃ r, Results e' = <[stage := r]> (Results e)) ∧ CurrentStage e' = CurrentStage e ∧
  ((completed e' stage = true ∧ Status e' = Status e) ∨
   (go = false ∧ completed e' stage = false ∧ (Status e' = "BLOCKED" ∨ Status e' = "FAILED"))).
Proof.
  destruct answer as [r [x|]]; cbn [settle].
  - intros (t1 & w1 & _ & Hk)%mthen_inv. apply mthen_inv in Hk as (t2 & w2 & _ & Hk).
    apply mthen_inv in Hk as (e1 & w3 & [t ->]%touched_inv & Hk).
    apply mthen_inv in Hk as (e2 & w4 & ->%abandon_inv & Hk). apply mret_inv in Hk as [[= <- <-] _].
    simpl. split; [by eexists|]. split; [done|]. right. split; [done|].
    split; [|by right]. unfold completed. simpl. by rewrite lookup_insert_eq.
  - intros (e1 & w1 & [t ->]%touched_inv & Hk)%mthen_inv.
    case_decide as Hb; [|case_decide as Hn].
    + apply mthen_inv in Hk as (e2 & w2 & ->%abandon_inv & Hk). apply mret_inv in Hk as [[= <- <-] _].
      split; [by exists r|]. split; [done|]. right. split; [done|].
      split; [|by left]. unfold completed. simpl. rewrite lookup_insert_eq.
      apply bool_decide_eq_false. by destruct Hb as [-> | ->].
    + apply mthen_inv in Hk as (e2 & w2 & ->%abandon_inv & Hk). apply mret_inv in Hk as [[= <- <-] _].
      split; [by exists r|]. split; [done|]. right. split; [done|].
      split; [|by right]. unfold completed. simpl. rewrite lookup_insert_eq.
      by apply bool_decide_eq_false.
    + apply mthen_inv in Hk as (u & w2 & _ & Hk). apply mret_inv in Hk as [[= <- _] _].
      split; [by exists r|]. split; [done|]. left. split; [|done]. unfold completed. simpl.
      rewrite lookup_insert_eq. by apply bool_decide_eq_true.
Qed.

Definition todo (e : LoopExecution) (l : list LoopStage) : list LoopStage :=
  filter (λ s, completed e s = false) l.

(** How a run over the stages [l] may have ended, having executed [ex]. *)
Inductive loop_end (l : list LoopStage) (e e' : LoopExecution) (ex : list LoopStage) : Prop :=
  | loop_finished :
      ex = todo e l → (∀ s, s ∈ l → completed e' s = true) →
      Status e' = "COMPLETED" → CurrentStage e' = "" → loop_end l e e' ex
  | loop_unsaved pre post :
      l = pre ++ post → ex = todo e pre → ex ≠ [] → (∀ s, s ∈ pre → completed e' s = true) →
      Status e' = Status e → loop_end l e e' ex
  | loop_stopped pre s post :
      l = pre ++ s :: post → ex = todo e pre ++ [s] → (∀ x, x ∈ pre → completed e' x = true) →
      completed e s = false → completed e' s = false → CurrentStage e' = s →
      (Status e' = "BLOCKED" ∨ Status e' = "FAILED") → loop_end l e e' ex.

Lemma loop_end_executed l e e' ex : loop_end l e e' ex → ∀ s, s ∈ ex → s ∈ l.
Proof.
  assert (∀ k x, x ∈ todo e k → x ∈ k) as Hk by (intros k x; apply list_elem_of_filter).
  intros [-> |pre post -> ->|pre x post -> ->] s Hs.
  - by apply Hk.
  - apply elem_of_app. left. by apply Hk.
  - apply elem_of_app. apply elem_of_app in Hs as [Hs| ->%list_elem_of_singleton];
      [left; by apply Hk|right; by left].
Qed.

Lemma todo_cons e s l : todo e (s :: l) = (if completed e s then [] else [s]) ++ todo e l.
Proof. unfold todo. rewrite filter_cons. by destruct (completed e s). Qed.

(** One more stage in front that was complete already, or is now. *)
Lemma loop_end_cons s l e e1 e' ex :
  s ∉ l → Status e1 = Status e → (∀ x, x ≠ s → Results e1 !! x = Results e !! x) →
  completed e' s = true → loop_end l e1 e' ex →
  loop_end (s :: l) e e' ((if completed e s then [] else [s]) ++ ex).
Proof.
  intros Hs Hst Hres Hc Hend.
  assert (∀ x, x ∈ l → completed e1 x = completed e x) as Heq.
  { intros x Hx. unfold completed. rewrite Hres; [done|]. by intros ->. }
  assert (∀ k, k ⊆ l → todo e1 k = todo e k) as Htodo.
  { induction k as [|x k IH]; [done|]. intros Hk. rewrite !todo_cons, IH by set_solver.
    by rewrite Heq by set_solver. }
  destruct Hend as [-> Hall Hs' Hcur|pre post -> -> Hne Hall Hs'|pre x post -> -> Hall Hx Hx' Hcur Hs'].
  - apply loop_finished; [by rewrite todo_cons, Htodo| |done|done].
    intros x [->|Hx]%elem_of_cons; [done|by apply Hall].
  - apply (loop_unsaved _ _ _ _ (s :: pre) post); [done| | | |by rewrite Hs', Hst].
    + rewrite todo_cons, Htodo by set_solver. done.
    + intros [_ Hnil]%app_nil. done.
    + intros x [->|Hx]%elem_of_cons; [done|by apply Hall].
  - apply (loop_stopped _ _ _ _ (s :: pre) x post); [done| | | |done|done|done].
    + rewrite todo_cons, Htodo by set_solver. by rewrite <- app_assoc.
    + intros y [->|Hy]%elem_of_cons; [done|by apply Hall].
    + rewrite <- Heq by set_solver. done.
Qed.

(** A run of the loop over pairwise distinct stages executes the stages that were
    not complete, in their order and each at most once, up to the first that does not
    complete: then the execution is BLOCKED or FAILED with that stage as the current
    one. If all complete it is COMPLETED. The only other end is a failed checkpoint of
    a completed stage, which silently leaves the status as it was. The results of
    stages that were not executed stay as they were, whatever the executor, the store
    and the clock do. *)
Lemma run_stages_end {W} (store : LoopStore W) execute now stages e w e' ex w' :
  NoDup stages → run_stages store execute now stages e w = ((e', ex), w') →
  loop_end stages e e' ex ∧ ∀ s, s ∉ ex → Results e' !! s = Results e !! s.
Proof.
  revert e w e' ex w'. induction stages as [|stage l IH]; intros e w e' ex w' Hnd; cbn [run_stages].
  { intros (e1 & w1 & [t ->]%touched_inv & Hk)%mthen_inv.
    apply mthen_inv in Hk as (e2 & w2 & ->%abandon_inv & Hk). apply mret_inv in Hk as [[= <- <-] _].
    split; [|done]. by apply loop_finished; [|intros s Hs%elem_of_nil|..]. }
  apply NoDup_cons in Hnd as [Hn Hnd]. destruct (completed e stage) eqn:Hc.
  - intros [Hend Hres]%IH; [|done]. split; [|done].
    assert (stage ∉ ex) as Hex by (intros H; by eapply Hn, loop_end_executed).
    pose proof (loop_end_cons stage l e e e' ex Hn eq_refl ltac:(done)) as Hcons.
    rewrite Hc in Hcons. apply Hcons; [|done]. unfold completed. by rewrite Hres.
  - intros (e1 & w1 & [t ->]%touched_inv & Hk)%mthen_inv.
    apply mthen_inv in Hk as (u & w2 & _ & Hk). apply mthen_inv in Hk as (answer & w3 & _ & Hk).
    apply mthen_inv in Hk as ([e1 go] & w4 & Hset & Hk).
    apply settle_inv in Hset as ([r Hr] & Hcur & Hgo).
    assert (∀ x, x ≠ stage → Results e1 !! x = Results e !! x) as Hres1.
    { intros x Hx. rewrite Hr. simpl. by apply lookup_insert_ne. }
    destruct go.
    + apply mthen_inv in Hk as ([e2 ex2] & w5 & Hrun & Hk). apply mret_inv in Hk as [[= <- <-] _].
      destruct Hgo as [[Hc1 Hst]|[? _]]; [|done].
      apply IH in Hrun as [Hend Hres]; [|done].
      assert (stage ∉ ex2) as Hex by (intros H; by eapply Hn, loop_end_executed).
      split.
      * pose proof (loop_end_cons stage l e e1 e2 ex2 Hn Hst Hres1) as Hcons.
        rewrite Hc in Hcons. apply Hcons; [|done]. unfold completed in *. by rewrite Hres.
      * intros s Hs. rewrite Hres, Hres1 by set_solver. done.
    + apply mret_inv in Hk as [[= <- <-] _]. split; [|intros s Hs; apply Hres1; set_solver].
      destruct Hgo as [[Hc1 Hst]|(_ & Hc1 & Hst)].
      * apply (loop_unsaved _ _ _ _ [stage] l); try done.
        -- unfold todo. rewrite filter_cons, Hc. done.
        -- by intros s ->%list_elem_of_singleton.
      * apply (loop_stopped _ _ _ _ [] stage l); try done. by intros s ?%elem_of_nil.
Qed.

(** The delegating executor ends a stage that no delegate is asked for blocked. *)
Lemma ExecuteLoopStage_blocked {W} (d : DelegatedStageExecutor W) e stage w :
  stage ∉ orchestrated → stage ∉ verified →
  ∃ r w', ExecuteLoopStage d e stage w = ((r, None), w') ∧ State r = "BLOCKED_BY_ENVIRONMENT".
Proof.
  intros H1 H2. assert (∀ r, ∃ r', delegate d e stage r = mret (r', ∅, None) ∧
    State r' = "BLOCKED_BY_ENVIRONMENT") as Hd.
  { intros r. unfold delegate. rewrite !decide_False by done. by eexists. }
  unfold ExecuteLoopStage, ended, mthen. destruct (Delegate_Now d w) as [t w1].
  destruct (Hd (mkStageResult stage "" "" ∅ t time_zero)) as (r' & -> & Hr).
  destruct (match RuntimeOK d with Some f => f stage | None => mret true end w1) as [[] w2];
    cbn [negb]; unfold mret.
  - rewrite Hr. rewrite decide_False by done. destruct (Delegate_Now d w2) as [t2 w3].
    do 2 eexists. by split.
  - destruct (Delegate_Now d w2) as [t2 w3]. do 2 eexists. by split.
Qed.

(** A loop whose first stage the executor is not asked for ends there. *)
Lemma run_stages_blocked {W} (store : LoopStore W) (d : DelegatedStageExecutor W) now
    stage l e w e' ex w' :
  stage ∉ orchestrated → stage ∉ verified → completed e stage = false →
  run_stages store (ExecuteLoopStage d) now (stage :: l) e w = ((e', ex), w') →
  ex = [stage] ∧ Status e' = "BLOCKED" ∧ CurrentStage e' = stage.
Proof.
  intros H1 H2 Hc. cbn [run_stages]. rewrite Hc.
  intros (e1 & w1 & [t1 ->]%touched_inv & Hk)%mthen_inv. apply mthen_inv in Hk as (u & w2 & _ & Hk).
  apply mthen_inv in Hk as ([r err] & w3 & Hx & Hk).
  destruct (ExecuteLoopStage_blocked d (e <| CurrentStage := stage |> <| UpdatedAt := t1 |>) stage w2
    H1 H2) as (r' & w4 & Hr & Hb).
  rewrite Hr in Hx. injection Hx as <- <- <-.
  apply mthen_inv in Hk as ([e2 go] & w5 & Hset & Hk). cbn [settle] in Hset.
  apply mthen_inv in Hset as (e3 & w6 & [t3 ->]%touched_inv & Hset).
  rewrite decide_True in Hset by by left.
  apply mthen_inv in Hset as (e4 & w7 & ->%abandon_inv & Hset).
  apply mret_inv in Hset as [[= <- <-] _]. by apply mret_inv in Hk as [[= <- <-] _].
Qed.

(** The loop that [PlanLoop] plans never gets past its first stage: INTENT is one of
    the stages the delegating executor has no delegate for, so whatever delegates,
    runtime check, store and clock it is given, a fresh execution of the plan executes
    INTENT only and ends BLOCKED there. *)
Theorem planned_loop_blocks {W} `{MapOrder} s projectID forbidden plan sw sw'
    (store : LoopStore W) (d : DelegatedStageExecutor W) now e w e' ex w' :
  PlanLoop (W:=W) s projectID forbidden sw = ((plan, None), sw') →
  Stages (Execution_Plan e) = Stages plan → Results e = ∅ →
  run_stages store (ExecuteLoopStage d) now (Stages (Execution_Plan e)) e w = ((e', ex), w') →
  ex = [Intent] ∧ Status e' = "BLOCKED" ∧ CurrentStage e' = Intent.
Proof.
  unfold PlanLoop. intros Hp Hs He. case_decide; [by apply mret_inv in Hp as [[=] _]|].
  apply mthen_inv in Hp as (t & ? & _ & Hp). apply mret_inv in Hp as [[= <-] _].
  rewrite Hs. apply run_stages_blocked; [apply (bool_decide_eq_true_1 _); reflexivity..|].
  unfold completed. by rewrite He.
Qed.

(** ** Witnesses *)

(** A store that holds one execution, an executor that stops at the deployment, and the
    delegates of the server. *)
Definition one_store : LoopStore LoopExecution :=
  mkLoopStore (λ e _, (None, e)) (λ _ e, ((e, None), e)) (λ e, (([e], None), e)).
Definition until_deploy : StageExecutor LoopExecution := λ _ stage,
  mret (mkStageResult stage (if decide (stage = productexperience.Deploy) then "BLOCKED" else "COMPLETED")
    "" ∅ 0 0, None).
Definition build_done : LoopExecution :=
  zero_Execution <| Results := {[Build := mkStageResult Build "COMPLETED" "" ∅ 0 0]} |>.

Lemma run_stages_end_witness :
  let r := run_stages one_store until_deploy (mret 9)
    [Plan; Build; VisualQA; productexperience.Deploy; Commit] build_done build_done in
  r.1.2 = [Plan; VisualQA; productexperience.Deploy] ∧
  loop_end [Plan; Build; VisualQA; productexperience.Deploy; Commit] build_done r.1.1 r.1.2 ∧
  Results r.1.1 !! Build = Results build_done !! Build.
Proof.
  intros r. destruct r as [[e' ex] w'] eqn:E. unfold r in E.
  assert (ex = [Plan; VisualQA; productexperience.Deploy]) as -> by (vm_compute in E; by injection E).
  apply run_stages_end in E as [Hend Hres];
    [|apply (bool_decide_eq_true_1 _); reflexivity].
  simpl. split; [done|]. split; [exact Hend|]. apply Hres.
  apply (bool_decide_eq_true_1 _). reflexivity.
Defined.

Definition server_delegates : DelegatedStageExecutor LoopExecution :=
  mkDelegated (Some (λ _, mret (∅, None))) (Some (λ _ _, mret (∅, Some ErrLoopBlocked))) None (mret 9).
Definition loop_service : Service LoopExecution :=
  mkService (knowledge.mkStore (λ n, mret (n, None)) (λ e, mret (e, None))
    (λ _, mret (knowledge.mkGraph "" [] [], None)) (λ _ _ _, mret ([], None))) None None (mret 9).

Lemma planned_loop_blocks_witness :
  let plan := (PlanLoop (H := canonical_order) loop_service "shop" ∅ (NewService, zero_Execution)).1.1 in
  let e := mkExecution plan "" ∅ "" 0 in
  let r := run_stages one_store (ExecuteLoopStage server_delegates) (mret 9) (Stages plan) e e in
  r.1.2 = [Intent] ∧ Status r.1.1 = "BLOCKED".
Proof.
  intros plan e r. destruct r as [[e' ex] w'] eqn:E.
  destruct (PlanLoop (H := canonical_order) loop_service "shop" ∅ (NewService, zero_Execution))
    as [[p err] sw'] eqn:Hp.
  assert (err = None) as -> by (vm_compute in Hp; by injection Hp).
  destruct (planned_loop_blocks (H := canonical_order) loop_service "shop" ∅ p _ sw' one_store
    server_delegates (mret 9) e e e' ex w' Hp) as (H1 & H2 & _); [done|done|exact E|].
  by split.
Defined.
End productloop.
