(* ===== verification/AIFabric.v ===== *)
(** * The AI fabric

    [src/internal/aifabric]: the data model ([types.go]), the registry of runtimes and
    models ([registry.go]), the manager in front of it ([service.go], [model_health.go],
    [events.go]), resources and GPU allocation ([hardware.go], [gpu.go]), capability
    checks ([quality.go]), the project's policy ([policy.go]) and the bridge to the
    router ([routing_bridge.go]).  The HTTP runtimes are in [AIRuntime.v]. *)

From stdpp Require Import relations.
From S2P Require Import Prelude GoStrings World Float RoutingTypes Events.

Module aifabric.

(** ** Data *)

(* src: internal/aifabric/types.go:12-21 (RuntimeStatus) *)
Inductive RuntimeStatus :=
  | RuntimeOnline | RuntimeDegraded | RuntimeOffline | RuntimeStarting | RuntimeStopping
  | RuntimeError | RuntimeStatusOther (s : string).
#[global] Instance RuntimeStatus_eq_dec : EqDecision RuntimeStatus.
Proof. solve_decision. Defined.

(* src: internal/aifabric/types.go:23-35 (ModelLifecycle) *)
Inductive ModelLifecycle :=
  | ModelDiscovered | ModelAvailable | ModelInstalling | ModelInstalled | ModelLoading
  | ModelReady | ModelUnloading | ModelRemoving | ModelFailed | ModelLifecycleOther (s : string).
#[global] Instance ModelLifecycle_eq_dec : EqDecision ModelLifecycle.
Proof. solve_decision. Defined.

(** A capability is the string of its constant. *)
(* src: internal/aifabric/types.go:37-54 (Capability) *)
Definition Capability := string.
Definition CapabilityCoding : Capability := "CODING".
Definition CapabilityReasoning : Capability := "REASONING".
Definition CapabilityArchitecture : Capability := "ARCHITECTURE".
Definition CapabilityFast : Capability := "FAST".
Definition CapabilityVision : Capability := "VISION".
Definition CapabilityLongContext : Capability := "LONG_CONTEXT".
Definition CapabilityAgentic : Capability := "AGENTIC".
Definition CapabilityPrivate : Capability := "PRIVATE".
Definition CapabilityLocal : Capability := "LOCAL".
Definition CapabilityCheap : Capability := "CHEAP".
Definition CapabilityGeneral : Capability := "GENERAL".
Definition CapabilityToolUse : Capability := "TOOL_USE".
Definition CapabilityStructuredOutput : Capability := "STRUCTURED_OUTPUT".
Definition CapabilityEmbedding : Capability := "EMBEDDING".

(* src: internal/aifabric/types.go:56-68 (RuntimeCapabilities) *)
Record RuntimeCapabilities := mkCapabilities {
  Can_Generate : bool;
  Can_Stream : bool;
  Can_Embeddings : bool;
  Can_Install : bool;
  Can_Load : bool;
  Can_Unload : bool;
  Can_Vision : bool;
  Can_StructuredOutput : bool;
  ToolCalling : bool;
  ModelDiscovery : bool;
  OpenAICompatible : bool
}.

(* src: internal/aifabric/types.go:69-76 (RuntimeSpec) *)
Record RuntimeSpec := mkSpec {
  Spec_ID : string;
  Kind : string;
  Spec_Endpoint : string;
  Spec_Local : bool;
  AutoStart : bool;
  Configuration : gmap string string
}.
#[global] Instance eta_RuntimeSpec : Eta RuntimeSpec := λ s,
  mkSpec (Spec_ID s) (Kind s) (Spec_Endpoint s) (Spec_Local s) (AutoStart s) (Configuration s).

(* src: internal/aifabric/types.go:77-91 (RuntimeHealth) *)
Record RuntimeHealth := mkHealth {
  Health_RuntimeID : string;
  Health_Status : RuntimeStatus;
  Health_Version : string;
  Health_Endpoint : string;
  Health_Latency : Z;
  CPU : float64.t;
  Memory : Z;
  GPU : Z;
  GPUMemory : Z;
  LoadedModels : list string;
  AvailableModels : list string;
  LastChecked : Z;
  Health_Error : string
}.
Definition zero_Health : RuntimeHealth :=
  mkHealth "" (RuntimeStatusOther "") "" "" 0 float64.zero 0 0 0 [] [] time_zero "".

(** Byte counts are of type [uint64]. *)
(* src: internal/aifabric/types.go:109-113 (ResourceRequirement) *)
Record ResourceRequirement := mkRequirement {
  MemoryBytes : Z;
  VRAMBytes : Z;
  GPURequired : bool
}.

(* src: internal/aifabric/types.go:92-108 (ModelDescriptor) *)
Record ModelDescriptor := mkModel {
  Model_ID : string;
  Model_ProviderID : string;
  Model_RuntimeID : string;
  DisplayName : string;
  Model_Version : string;
  ContextWindow : Z;
  MaxOutputTokens : Z;
  Capabilities : gmap Capability bool;
  Model_Local : bool;
  Model_Remote : bool;
  PrivacyLevel : string;
  Availability : string;
  Model_Status : ModelLifecycle;
  Model_Latency : Z;
  Model_Resources : ResourceRequirement
}.
#[global] Instance eta_ModelDescriptor : Eta ModelDescriptor := λ m,
  mkModel (Model_ID m) (Model_ProviderID m) (Model_RuntimeID m) (DisplayName m)
    (Model_Version m) (ContextWindow m) (MaxOutputTokens m) (Capabilities m) (Model_Local m)
    (Model_Remote m) (PrivacyLevel m) (Availability m) (Model_Status m) (Model_Latency m)
    (Model_Resources m).
Definition zero_Requirement : ResourceRequirement := mkRequirement 0 0 false.
Definition zero_Model : ModelDescriptor :=
  mkModel "" "" "" "" "" 0 0 ∅ false false "" "" (ModelLifecycleOther "") 0 zero_Requirement.

(* src: internal/aifabric/types.go:114-121 (ModelInstallRequest) *)
Record ModelInstallRequest := mkInstall {
  Install_ModelID : string;
  Install_RuntimeID : string;
  Source : string;
  Quantization : string;
  Revision : string;
  ResourceRequirements : ResourceRequirement
}.

(* src: internal/aifabric/types.go:122-126 (ModelLoadRequest) *)
Record ModelLoadRequest := mkLoad {
  Load_ModelID : string;
  Load_RuntimeID : string;
  Warm : bool
}.

(* src: internal/aifabric/types.go:143-152 (GPUResource) *)
Record GPUResource := mkGPU {
  GPU_ID : string;
  Vendor : string;
  GPU_Model : string;
  GPU_MemoryTotal : Z;
  GPU_MemoryAvailable : Z;
  ComputeCapability : string;
  Driver : string;
  GPU_Runtime : string
}.

(* src: internal/aifabric/types.go:131-142 (HostResources) *)
Record HostResources := mkHost {
  CPUCores : Z;
  MemoryTotal : Z;
  MemoryAvailable : Z;
  DiskTotal : Z;
  DiskAvailable : Z;
  GPUCount : Z;
  GPUMemoryTotal : Z;
  GPUMemoryAvailable : Z;
  GPUs : list GPUResource;
  DetectedAt : Z
}.
#[global] Instance eta_HostResources : Eta HostResources := λ h,
  mkHost (CPUCores h) (MemoryTotal h) (MemoryAvailable h) (DiskTotal h) (DiskAvailable h)
    (GPUCount h) (GPUMemoryTotal h) (GPUMemoryAvailable h) (GPUs h) (DetectedAt h).

(* src: internal/aifabric/types.go:153-160 (GPUAllocation) *)
Record GPUAllocation := mkAllocation {
  Allocation_ID : string;
  Allocation_ProjectID : string;
  Allocation_RuntimeID : string;
  GPUIDs : list string;
  Allocation_MemoryBytes : Z;
  Allocation_Status : string
}.
Definition zero_Allocation : GPUAllocation := mkAllocation "" "" "" [] 0 "".

(* src: internal/aifabric/types.go:162-167 (Message) *)
Record Message := mkMessage {
  Role : string;
  Content : string;
  Message_Name : string;
  ToolCallID : string
}.

(* src: internal/aifabric/types.go:168-172 (ToolDefinition) *)
Record ToolDefinition := mkTool {
  Tool_Name : string;
  Tool_Description : string;
  InputSchema : gmap string any
}.

(* src: internal/aifabric/types.go:173-177 (VisionInput) *)
Record VisionInput := mkVision {
  MIMEType : string;
  Vision_Data : string;
  Vision_URL : string
}.

(* src: internal/aifabric/types.go:178-194 (InferenceRequest) *)
Record InferenceRequest := mkRequest {
  Req_ID : string;
  Req_ProjectID : string;
  Req_AgentID : string;
  Req_TaskID : string;
  Req_ModelID : string;
  Req_RuntimeID : string;
  Messages : list Message;
  SystemPrompt : string;
  Tools : list ToolDefinition;
  Temperature : option float64.t;
  MaxTokens : Z;
  Context : gmap string any;
  Req_StructuredOutput : gmap string any;
  VisionInputs : list VisionInput;
  Req_Stream : bool
}.
#[global] Instance eta_InferenceRequest : Eta InferenceRequest := λ r,
  mkRequest (Req_ID r) (Req_ProjectID r) (Req_AgentID r) (Req_TaskID r) (Req_ModelID r)
    (Req_RuntimeID r) (Messages r) (SystemPrompt r) (Tools r) (Temperature r) (MaxTokens r)
    (Context r) (Req_StructuredOutput r) (VisionInputs r) (Req_Stream r).

(* src: internal/aifabric/types.go:195-199 (ToolCall) *)
Record ToolCall := mkToolCall {
  Call_ID : string;
  Call_Name : string;
  Arguments_ : gmap string any
}.

(* src: internal/aifabric/types.go:200-208 (Usage) *)
Record Usage := mkUsage {
  InputTokens : Z;
  OutputTokens : Z;
  TotalTokens : Z;
  EstimatedCost : float64.t;
  CPUMillis : Z;
  GPUMillis : Z;
  TokensPerSecond : float64.t
}.
Definition zero_Usage : Usage := mkUsage 0 0 0 float64.zero 0 0 float64.zero.

(* src: internal/aifabric/types.go:209-219 (InferenceResponse) *)
Record InferenceResponse := mkResponse {
  Resp_RequestID : string;
  Resp_ModelID : string;
  Resp_RuntimeID : string;
  Resp_Content : string;
  ToolCalls : list ToolCall;
  Resp_Usage : Usage;
  Resp_Latency : Z;
  FinishReason : string;
  RawMetadata : gmap string any
}.
#[global] Instance eta_InferenceResponse : Eta InferenceResponse := λ r,
  mkResponse (Resp_RequestID r) (Resp_ModelID r) (Resp_RuntimeID r) (Resp_Content r)
    (ToolCalls r) (Resp_Usage r) (Resp_Latency r) (FinishReason r) (RawMetadata r).
Definition zero_Response : InferenceResponse :=
  mkResponse "" "" "" "" [] zero_Usage 0 "" ∅.

(* src: internal/aifabric/types.go:220-229 (StreamEvent) *)
Record StreamEvent := mkStreamEvent {
  Stream_RequestID : string;
  Stream_Type : string;
  Delta : string;
  Stream_Message : option Message;
  Stream_ToolCall : option ToolCall;
  Stream_Usage : option Usage;
  Stream_Error : string;
  Done : bool
}.
#[global] Instance eta_StreamEvent : Eta StreamEvent := λ e,
  mkStreamEvent (Stream_RequestID e) (Stream_Type e) (Delta e) (Stream_Message e)
    (Stream_ToolCall e) (Stream_Usage e) (Stream_Error e) (Done e).

(** A [float32] is its bit pattern, and the channel of a stream the events that arrive on
    it until it is closed. *)
Definition float32 := Z.

(* src: internal/aifabric/types.go:235-252 (AIRuntime) *)
Record AIRuntime (W : Type) := mkRuntime {
  Spec : RuntimeSpec;
  Runtime_Discover : M W (list ModelDescriptor * option goerror);
  Runtime_Install : ModelInstallRequest → M W (ModelDescriptor * option goerror);
  Runtime_Remove : string → M W (option goerror);
  Runtime_Start : M W (option goerror);
  Runtime_Stop : M W (option goerror);
  Runtime_Restart : M W (option goerror);
  Runtime_Health : M W (RuntimeHealth * option goerror);
  ListModels : M W (list ModelDescriptor * option goerror);
  LoadModel : ModelLoadRequest → M W (option goerror);
  UnloadModel : ModelLoadRequest → M W (option goerror);
  Runtime_Generate : InferenceRequest → M W (InferenceResponse * option goerror);
  Runtime_Stream : InferenceRequest → M W (list StreamEvent * option goerror);
  Runtime_Embeddings : InferenceRequest → M W (list (list float32) * option goerror);
  Runtime_Capabilities : RuntimeCapabilities;
  Runtime_Resources : M W (HostResources * option goerror)
}.
Arguments mkRuntime {W}.
Arguments Spec {W}.
Arguments Runtime_Discover {W}.
Arguments Runtime_Install {W}.
Arguments Runtime_Remove {W}.
Arguments Runtime_Start {W}.
Arguments Runtime_Stop {W}.
Arguments Runtime_Restart {W}.
Arguments Runtime_Health {W}.
Arguments ListModels {W}.
Arguments LoadModel {W}.
Arguments UnloadModel {W}.
Arguments Runtime_Generate {W}.
Arguments Runtime_Stream {W}.
Arguments Runtime_Embeddings {W}.
Arguments Runtime_Capabilities {W}.
Arguments Runtime_Resources {W}.

(** What the manager publishes. *)
Inductive payload :=
  | PayloadModel (m : ModelDescriptor)
  | PayloadHealth (h : RuntimeHealth)
  | PayloadSpec (s : RuntimeSpec)
  | PayloadInstall (r : ModelInstallRequest)
  | PayloadInstallFailed (r : ModelInstallRequest) (error : string)
  | PayloadLoad (r : ModelLoadRequest)
  | PayloadRequest (r : InferenceRequest)
  | PayloadRequestFailed (id error : string)
  | PayloadResponse (r : InferenceResponse)
  | PayloadStream (e : StreamEvent)
  | PayloadStreamed (id : string).

(* src: internal/aifabric/types.go:254-254 (EventSink) *)
Definition EventSink (W : Type) : Type := string → string → payload → M W unit.

(** ** The registry *)

(* src: internal/aifabric/registry.go:10-10 (ErrRuntimeNotFound) *)
Definition ErrRuntimeNotFound : goerror := ErrorString "ai runtime not found".
(* src: internal/aifabric/registry.go:11-11 (ErrModelNotFound) *)
Definition ErrModelNotFound : goerror := ErrorString "ai model not found".

(* src: internal/aifabric/registry.go:13-17 (RuntimeRegistry) *)
Record RuntimeRegistry (W : Type) := mkRegistry {
  runtimes : gmap string (AIRuntime W);
  models : gmap string ModelDescriptor
}.
Arguments mkRegistry {W}.
Arguments runtimes {W}.
Arguments models {W}.
#[global] Instance eta_Registry {W} : Eta (RuntimeRegistry W) := λ r,
  mkRegistry (runtimes r) (models r).

(* src: internal/aifabric/registry.go:19-21 (NewRuntimeRegistry) *)
Definition NewRuntimeRegistry {W} : RuntimeRegistry W := mkRegistry ∅ ∅.

Section registry.
Context `{MapOrder} {W : Type}.
Implicit Types (r : RuntimeRegistry W) (runtime : AIRuntime W).

(** [None] is a nil runtime. *)
(* src: internal/aifabric/registry.go:22-30 (RegisterRuntime) *)
Definition RegisterRuntime r (runtime : option (AIRuntime W))
    : option goerror * RuntimeRegistry W :=
  match runtime with
  | None => (Some (ErrorString "runtime and runtime id are required"), r)
  | Some runtime =>
      if decide (Spec_ID (Spec runtime) = "")
      then (Some (ErrorString "runtime and runtime id are required"), r)
      else (None, r <| runtimes := <[Spec_ID (Spec runtime) := runtime]> (runtimes r) |>)
  end.

(* src: internal/aifabric/registry.go:31-36 (Runtime) *)
Definition Registry_Runtime r (id : string) : option (AIRuntime W) := runtimes r !! id.

(** The values of a table in the order of their keys. *)
Definition sorted_values {A} (seed : nat) (m : gmap string A) : list A :=
  omap (m !!.) (sort_strings (map_range seed m).*1).

(* src: internal/aifabric/registry.go:37-50 (Runtimes) *)
Definition Registry_Runtimes r : list (AIRuntime W) := sorted_values 0 (runtimes r).

(* src: internal/aifabric/registry.go:51-55 (RegisterModel) *)
Definition RegisterModel r (model : ModelDescriptor) : RuntimeRegistry W :=
  r <| models := <[Model_ID model := model]> (models r) |>.

(* src: internal/aifabric/registry.go:56-61 (Model) *)
Definition Registry_Model r (id : string) : option ModelDescriptor := models r !! id.

(* src: internal/aifabric/registry.go:62-75 (Models) *)
Definition Registry_Models r : list ModelDescriptor := sorted_values 1 (models r).

Definition discover_models (found : list ModelDescriptor) r : RuntimeRegistry W :=
  foldl RegisterModel r found.

(** The loop over the runtimes: the models found and the first error so far. *)
(* src: internal/aifabric/registry.go:79-91 (DiscoverAll) *)
Fixpoint discover_all (todo : list (AIRuntime W)) (first : option goerror)
    (out : list ModelDescriptor)
    : M (RuntimeRegistry W * W) (list ModelDescriptor * option goerror) :=
  match todo with
  | [] => mret (out, first)
  | runtime :: todo =>
      let! (found, err) := outside (Runtime_Discover runtime) in
      match err with
      | Some e => discover_all todo (match first with None => Some e | f => f end) out
      | None =>
          let! _ := modify (discover_models found) in
          discover_all todo first (out ++ found)
      end
  end.

(* src: internal/aifabric/registry.go:76-93 (DiscoverAll) *)
Definition DiscoverAll : M (RuntimeRegistry W * W) (list ModelDescriptor * option goerror) :=
  let! todo := look Registry_Runtimes in discover_all todo None [].
End registry.

(** ** The manager *)

(* src: internal/aifabric/service.go:11-16 (Manager) *)
Record Manager (W : Type) := mkManager {
  Registry : RuntimeRegistry W;
  health : gmap string RuntimeHealth
}.
Arguments mkManager {W}.
Arguments Registry {W}.
Arguments health {W}.
#[global] Instance eta_Manager {W} : Eta (Manager W) := λ m, mkManager (Registry m) (health m).

(* src: internal/aifabric/service.go:18-23 (NewManager) *)
Definition NewManager {W} (registry : option (RuntimeRegistry W)) : Manager W :=
  mkManager (default NewRuntimeRegistry registry) ∅.

(* src: internal/aifabric/model_health.go:8-17 (ModelHealthStatus) *)
Inductive ModelHealthStatus :=
  | ModelHealthAvailable | ModelHealthUnavailable | ModelHealthLoading | ModelHealthLoaded
  | ModelHealthError | ModelHealthUnknown.

(* src: internal/aifabric/model_health.go:19-30 (ModelHealth) *)
Record ModelHealth := mkModelHealth {
  MH_RuntimeID : string;
  MH_ModelID : string;
  MH_Status : ModelHealthStatus;
  MH_LastChecked : Z;
  MH_Latency : Z;
  ErrorCount : Z;
  SuccessfulRequests : Z;
  MH_TokensPerSecond : float64.t;
  ContextLimit : Z;
  MH_Resources : ResourceRequirement
}.

Section manager.
Context `{MapOrder} {W : Type} (Events : option (EventSink W)) (now : M W Z).
Notation C A := (M (Manager W * W) A).

Definition publish (kind id : string) (p : payload) : C unit :=
  match Events with Some sink => outside (sink kind id p) | None => mskip end.
Fixpoint publish_all (events : list (string * string * payload)) : C unit :=
  match events with
  | [] => mskip
  | (kind, id, p) :: events => let! _ := publish kind id p in publish_all events
  end.
(** An operation of the registry. *)
Definition in_registry {A} (c : M (RuntimeRegistry W * W) A) : C A := λ mw,
  let '(a, (r, w)) := c (Registry mw.1, mw.2) in (a, (mw.1 <| Registry := r |>, w)).
Definition register (model : ModelDescriptor) : C unit :=
  modify (λ m, m <| Registry := RegisterModel (Registry m) model |>).

(* src: internal/aifabric/service.go:24-24 (Runtimes) *)
Definition Runtimes (m : Manager W) : list (AIRuntime W) := Registry_Runtimes (Registry m).

(* src: internal/aifabric/service.go:25-31 (Runtime) *)
Definition Runtime (id : string) : C (result (AIRuntime W)) :=
  let! r := look (λ m, Registry_Runtime (Registry m) id) in
  mret (match r with Some r => Ok r | None => Err ErrRuntimeNotFound end).

(** What most operations do: find the runtime or fail. *)
Definition with_runtime {A} (id : string) (zero : A) (k : AIRuntime W → C (A * option goerror))
    : C (A * option goerror) :=
  let! r := Runtime id in
  match r with Ok r => k r | Err e => mret (zero, Some e) end.

(* src: internal/aifabric/service.go:32-40 (Discover) *)
Definition Discover : C (list ModelDescriptor * option goerror) :=
  let! (found, first) := in_registry DiscoverAll in
  let! _ := publish_all
    ((λ m, ("ai.model.discovered", Model_RuntimeID m, PayloadModel m)) <$> found) in
  mret (found, first).

(* src: internal/aifabric/service.go:41-54 (Health) *)
Definition Health (id : string) : C (RuntimeHealth * option goerror) :=
  with_runtime id zero_Health (λ r,
    let! (h, err) := outside (Runtime_Health r) in
    let! _ := modify (λ m, m <| health := <[id := h]> (health m) |>) in
    let! _ := publish "ai.runtime.health_changed" id (PayloadHealth h) in
    mret (h, err)).

Fixpoint health_all (todo : list (AIRuntime W)) (out : gmap string RuntimeHealth)
    : C (gmap string RuntimeHealth) :=
  match todo with
  | [] => mret out
  | r :: todo =>
      let! (h, _) := Health (Spec_ID (Spec r)) in
      health_all todo (<[Spec_ID (Spec r) := h]> out)
  end.

(* src: internal/aifabric/service.go:55-62 (HealthAll) *)
Definition HealthAll : C (gmap string RuntimeHealth) :=
  let! todo := look Runtimes in health_all todo ∅.

(* src: internal/aifabric/service.go:63-71 (CachedHealth) *)
Definition CachedHealth (m : Manager W) : gmap string RuntimeHealth := health m.

(* src: internal/aifabric/service.go:81-93 (lifecycle) *)
Definition lifecycle (id event : string) (fn : AIRuntime W → M W (option goerror))
    : C (option goerror) :=
  let! r := Runtime id in
  match r with
  | Err e => mret (Some e)
  | Ok r =>
      let! err := outside (fn r) in
      match err with
      | Some e => mret (Some e)
      | None =>
          let! _ := publish ("ai.runtime." +:+ event) id (PayloadSpec (Spec r)) in
          mret None
      end
  end.

(* src: internal/aifabric/service.go:72-74 (Start) *)
Definition Start (id : string) : C (option goerror) := lifecycle id "started" Runtime_Start.
(* src: internal/aifabric/service.go:75-77 (Stop) *)
Definition Stop (id : string) : C (option goerror) := lifecycle id "stopped" Runtime_Stop.
(* src: internal/aifabric/service.go:78-80 (Restart) *)
Definition Restart (id : string) : C (option goerror) :=
  lifecycle id "restarted" Runtime_Restart.

(* src: internal/aifabric/service.go:94-118 (Install) *)
Definition Install (req : ModelInstallRequest) : C (ModelDescriptor * option goerror) :=
  with_runtime (Install_RuntimeID req) zero_Model (λ r,
    if Can_Install (Runtime_Capabilities r) then
      let! _ := publish "ai.model.install_started" (Install_RuntimeID req) (PayloadInstall req) in
      let! (model, err) := outside (Runtime_Install r req) in
      match err with
      | Some e =>
          let! _ := publish "ai.model.failed" (Install_RuntimeID req)
            (PayloadInstallFailed req (error_text e)) in
          mret (zero_Model, Some e)
      | None =>
          let model := model <| Model_Status := ModelInstalled |> in
          let! _ := register model in
          let! _ := publish "ai.model.install_completed" (Install_RuntimeID req)
            (PayloadModel model) in
          mret (model, None)
      end
    else mret (zero_Model, Some (ErrorString "runtime does not support installation"))).

(* src: internal/aifabric/service.go:119-142 (Load) *)
Definition Load_ (req : ModelLoadRequest) : C (option goerror) :=
  let! r := Runtime (Load_RuntimeID req) in
  match r with
  | Err e => mret (Some e)
  | Ok r =>
      if Can_Load (Runtime_Capabilities r) then
        let! _ := publish "ai.model.load_started" (Load_RuntimeID req) (PayloadLoad req) in
        let! err := outside (LoadModel r req) in
        match err with
        | Some e => mret (Some e)
        | None =>
            let! model := look (λ m, Registry_Model (Registry m) (Load_ModelID req)) in
            match model with
            | Some model =>
                let model := model <| Model_Status := ModelReady |> in
                let! _ := register model in
                let! _ := publish "ai.model.ready" (Load_RuntimeID req) (PayloadModel model) in
                mret None
            | None => mret None
            end
        end
      else mret (Some (ErrorString "runtime does not support loading"))
  end.

(* src: internal/aifabric/service.go:143-159 (Unload) *)
Definition Unload (req : ModelLoadRequest) : C (option goerror) :=
  let! r := Runtime (Load_RuntimeID req) in
  match r with
  | Err e => mret (Some e)
  | Ok r =>
      let! err := outside (UnloadModel r req) in
      match err with
      | Some e => mret (Some e)
      | None =>
          let! model := look (λ m, Registry_Model (Registry m) (Load_ModelID req)) in
          let! _ := match model with
                    | Some model => register (model <| Model_Status := ModelInstalled |>)
                    | None => mskip
                    end in
          let! _ := publish "ai.model.unloaded" (Load_RuntimeID req) (PayloadLoad req) in
          mret None
      end
  end.

(* src: internal/aifabric/service.go:160-181 (Generate) *)
Definition Generate (req : InferenceRequest) : C (InferenceResponse * option goerror) :=
  with_runtime (Req_RuntimeID req) zero_Response (λ r,
    let! _ := publish "ai.request.started" (Req_ProjectID req) (PayloadRequest req) in
    let! started := outside now in
    let! (response, err) := outside (Runtime_Generate r req) in
    let! ended := outside now in
    let response := response <| Resp_Latency := ended - started |> in
    match err with
    | Some e =>
        let! _ := publish "ai.request.failed" (Req_ProjectID req)
          (PayloadRequestFailed (Req_ID req) (error_text e)) in
        mret (zero_Response, Some e)
    | None =>
        let! _ := publish "ai.request.completed" (Req_ProjectID req) (PayloadResponse response) in
        mret (response, None)
    end).

(** The goroutine of a stream, with a reader that takes every event: what it sends. *)
(* src: internal/aifabric/service.go:193-203 (Stream) *)
Fixpoint forward (req : InferenceRequest) (events : list StreamEvent) : C (list StreamEvent) :=
  match events with
  | [] =>
      let! _ := publish "ai.request.completed" (Req_ProjectID req) (PayloadStreamed (Req_ID req)) in
      mret []
  | event :: events =>
      let event := event <| Stream_RequestID := Req_ID req |> in
      let! _ := (if decide (Stream_Type event = "token")
                 then publish "ai.request.token" (Req_ProjectID req) (PayloadStream event)
                 else mskip) in
      let! sent := forward req events in
      mret (event :: sent)
  end.

(* src: internal/aifabric/service.go:182-206 (Stream) *)
Definition Stream (req : InferenceRequest) : C (list StreamEvent * option goerror) :=
  with_runtime (Req_RuntimeID req) [] (λ r,
    let! (events, err) := outside (Runtime_Stream r req) in
    match err with
    | Some e => mret ([], Some e)
    | None => let! sent := forward req events in mret (sent, None)
    end).

(* src: internal/aifabric/service.go:207-216 (Embeddings) *)
Definition Embeddings (req : InferenceRequest) : C (list (list float32) * option goerror) :=
  with_runtime (Req_RuntimeID req) [] (λ r,
    if Can_Embeddings (Runtime_Capabilities r) then outside (Runtime_Embeddings r req)
    else mret ([], Some (ErrorString "runtime does not support embeddings"))).

Definition health_status (h : option RuntimeHealth) : ModelHealthStatus :=
  match h with
  | None => ModelHealthUnknown
  | Some h =>
      if decide (Health_Status h = RuntimeError) then ModelHealthError
      else if decide (Health_Status h = RuntimeOnline ∨ Health_Status h = RuntimeDegraded)
      then ModelHealthAvailable else ModelHealthUnavailable
  end.

(* src: internal/aifabric/model_health.go:32-49 (Manager.ModelHealth) *)
Definition Manager_ModelHealth (m : Manager W) : list ModelHealth :=
  (λ model,
    let h := CachedHealth m !! Model_RuntimeID model in
    mkModelHealth (Model_RuntimeID model) (Model_ID model) (health_status h)
      (LastChecked (default zero_Health h)) (Health_Latency (default zero_Health h)) 0 0
      float64.zero (ContextWindow model) (Model_Resources model))
  <$> Registry_Models (Registry m).
End manager.

(** The sink that publishes on the event bus of the server: [as_any] is the dynamic
    value that holds a payload.  The runtime of an event is named as its project. *)
(* src: internal/aifabric/events.go:5-11 (BusSink.Publish) *)
Definition BusSink {W} (as_any : payload → any) (bus : option (events.Event → M W unit))
    : EventSink W := λ kind projectID data,
  match bus with
  | Some publish => publish (events.mkEvent kind projectID "" (as_any data))
  | None => mskip
  end.

(** ** Resources *)

(* src: internal/aifabric/hardware.go:68-79 (ResourceSatisfies) *)
Definition ResourceSatisfies (resources : HostResources) (requirement : ResourceRequirement)
    : option goerror :=
  if MemoryAvailable resources <? MemoryBytes requirement
  then Some (ErrorString "insufficient memory")
  else if GPUMemoryAvailable resources <? VRAMBytes requirement
  then Some (ErrorString "insufficient GPU memory")
  else if GPURequired requirement && (GPUCount resources =? 0)
  then Some (ErrorString "GPU is required but unavailable")
  else None.

(** [discover] is the allocator's [Discover]. *)
(* src: internal/aifabric/gpu.go:17-39 (ContractGPUAllocator.Allocate) *)
Definition Allocate {W} (discover : option (M W (HostResources * option goerror)))
    (projectID runtimeID : string) (requirement : ResourceRequirement)
    : M W (GPUAllocation * option goerror) :=
  match discover with
  | None => mret (zero_Allocation, Some (ErrorString "GPU allocation capability is unavailable"))
  | Some discover =>
      let! (resources, err) := discover in
      match err with
      | Some e => mret (zero_Allocation, Some e)
      | None =>
          match ResourceSatisfies resources requirement with
          | Some e => mret (zero_Allocation, Some e)
          | None =>
              if negb (GPURequired requirement)
              then mret (mkAllocation "" projectID runtimeID [] 0 "NOT_REQUIRED", None)
              else
                match GPU_ID <$> GPUs resources with
                | [] => mret (zero_Allocation,
                              Some (ErrorString "GPU allocation blocked by environment"))
                | ids => mret (mkAllocation (projectID +:+ "/" +:+ runtimeID) projectID runtimeID
                                 ids (VRAMBytes requirement) "ALLOCATED_BY_POLICY", None)
                end
          end
      end
  end.

(* src: internal/aifabric/gpu.go:40-40 (ContractGPUAllocator.Release) *)
Definition Release {W} (id : string) : M W (option goerror) := mret None.

(** [strconv.ParseUint(s, 10, 64)] without its error: what does not parse is 0, what does
    not fit the largest value. *)
Definition uint64 (z : Z) : Z := z `mod` 2 ^ 64.
Definition ParseUint (s : string) : Z :=
  if decide (s = "") then 0 else Z.min (2 ^ 64 - 1) (default 0 (strconv.parse_digits 0 s)).

(** The line of [/proc/meminfo]: the memory so far with what it adds. *)
(* src: internal/aifabric/hardware.go:22-32 (DiscoverHostResources) *)
Definition meminfo_line (out : HostResources) (line : string) : HostResources :=
  match strings.Fields line with
  | name :: value :: _ =>
      let value := uint64 (ParseUint value * 1024) in
      if decide (name = "MemTotal:") then out <| MemoryTotal := value |>
      else if decide (name = "MemAvailable:") then out <| MemoryAvailable := value |>
      else out
  | _ => out
  end.

(** A line of the answer of [nvidia-smi]. *)
(* src: internal/aifabric/hardware.go:52-61 (discoverNVIDIA) *)
Definition gpu_line (out : HostResources) (line : string) : HostResources :=
  match strings.Split line "," with
  | index :: name :: total :: free :: driver :: cap :: _ =>
      let total := uint64 (ParseUint (strings.TrimSpace total) * (1024 * 1024)) in
      let free := uint64 (ParseUint (strings.TrimSpace free) * (1024 * 1024)) in
      out <| GPUs := GPUs out ++
               [mkGPU (strings.TrimSpace index) "NVIDIA" (strings.TrimSpace name) total free
                  (strings.TrimSpace cap) (strings.TrimSpace driver) "CUDA"] |>
          <| GPUCount := GPUCount out + 1 |>
          <| GPUMemoryTotal := uint64 (GPUMemoryTotal out + total) |>
          <| GPUMemoryAvailable := uint64 (GPUMemoryAvailable out + free) |>
  | _ => out
  end.

(* src: internal/aifabric/hardware.go:45-64 (discoverNVIDIA) *)
Definition discoverNVIDIA (output : result string) (out : HostResources)
    : HostResources * option goerror :=
  match output with
  | Err e => (out, Some e)
  | Ok raw => (foldl gpu_line out (strings.Split (strings.TrimSpace raw) (strings.bytes [10%nat])), None)
  end.

(* src: internal/aifabric/hardware.go:65-67 (isCommandMissing) *)
Definition isCommandMissing (e : goerror) : bool :=
  strings.Contains (error_text e) "executable file not found".

(** What the host answers: its processors, the lines of [/proc/meminfo] if it can be
    opened, the file system's blocks, free blocks and block size if they can be asked,
    and the output of [nvidia-smi]. *)
(* src: internal/aifabric/hardware.go:16-44 (DiscoverHostResources) *)
Definition DiscoverHostResources (NumCPU now : Z) (meminfo : option (list string))
    (statfs : option (Z * Z * Z)) (nvidia : result string) : HostResources * option goerror :=
  let out := mkHost NumCPU 0 0 0 0 0 0 0 [] now in
  let out := match meminfo with Some lines => foldl meminfo_line out lines | None => out end in
  let out := match statfs with
             | Some (blocks, avail, bsize) =>
                 out <| DiskTotal := uint64 (blocks * uint64 bsize) |>
                     <| DiskAvailable := uint64 (avail * uint64 bsize) |>
             | None => out
             end in
  let '(out, err) := discoverNVIDIA nvidia out in
  match err with
  | Some e => (out, if isCommandMissing e then None else Some e)
  | None => (out, None)
  end.

(** ** Capability checks *)

(* src: internal/aifabric/quality.go:8-16 (BenchmarkResult) *)
Record BenchmarkResult := mkBenchmark {
  Bench_ModelID : string;
  Bench_RuntimeID : string;
  Bench_Latency : Z;
  FirstTokenLatency : Z;
  Bench_TokensPerSecond : float64.t;
  Success : bool;
  Bench_Error : string
}.

(* src: internal/aifabric/quality.go:17-23 (CapabilityVerificationStatus) *)
Inductive CapabilityVerificationStatus :=
  | CapabilityVerified | CapabilityUnverified | CapabilityFailed.

(* src: internal/aifabric/quality.go:25-32 (CapabilityVerification) *)
Record CapabilityVerification := mkVerification {
  Ver_ModelID : string;
  Ver_RuntimeID : string;
  Ver_Capability : Capability;
  Ver_Status : CapabilityVerificationStatus;
  Evidence : gmap string any;
  Ver_CheckedAt : Z
}.
#[global] Instance eta_Verification : Eta CapabilityVerification := λ v,
  mkVerification (Ver_ModelID v) (Ver_RuntimeID v) (Ver_Capability v) (Ver_Status v)
    (Evidence v) (Ver_CheckedAt v).

(* src: internal/aifabric/quality.go:34-46 (Benchmark) *)
Definition Benchmark {W} (now : M W Z) (runtime : AIRuntime W) (request : InferenceRequest)
    : M W BenchmarkResult :=
  let! started := now in
  let! (response, err) := Runtime_Generate runtime request in
  let! ended := now in
  let outcome tokens error :=
    mkBenchmark (Req_ModelID request) (Req_RuntimeID request) (ended - started) 0 tokens
      (bool_decide (err = None)) error in
  mret match err with
       | Some e => outcome float64.zero (error_text e)
       | None =>
           let tokens := TokensPerSecond (Resp_Usage response) in
           outcome (if float64.gtb tokens float64.zero then tokens else float64.zero) ""
       end.

(* src: internal/aifabric/quality.go:47-68 (VerifyCapability) *)
Definition VerifyCapability {W} (now : M W Z) (runtime : AIRuntime W)
    (request : InferenceRequest) (capability : Capability) : M W CapabilityVerification :=
  let! t := now in
  let result := mkVerification (Req_ModelID request) (Req_RuntimeID request) capability
                  CapabilityUnverified ∅ t in
  if decide (capability = CapabilityToolUse) then
    match Tools request with
    | [] => mret (result <| Evidence := {["reason" := AnyString "tool definition required"]} |>)
    | _ =>
        let! (response, err) := Runtime_Generate runtime request in
        mret match err with
             | Some e => result <| Ver_Status := CapabilityFailed |>
                                <| Evidence := {["error" := AnyString (error_text e)]} |>
             | None =>
                 match ToolCalls response with
                 | [] => result <| Evidence := {["reason" := AnyString "no tool call returned"]} |>
                 | _ => result <| Ver_Status := CapabilityVerified |>
                 end
             end
    end
  else mret result.

(** ** The project's policy and the router *)

(* src: internal/aifabric/policy.go:5-16 (ProjectAISettings) *)
Record ProjectAISettings := mkSettings {
  Settings_ProjectID : string;
  PreferredAgent : string;
  PreferredModel : string;
  Settings_RoutingPolicy : routing.RoutingPolicy;
  Settings_PrivacyPolicy : routing.PrivacyClass;
  Settings_LocalOnly : bool;
  Settings_Budget : float64.t;
  AllowedProviders : list string;
  AllowedRuntimes : list string;
  AllowedModels : list string
}.
#[global] Instance eta_Settings : Eta ProjectAISettings := λ s,
  mkSettings (Settings_ProjectID s) (PreferredAgent s) (PreferredModel s)
    (Settings_RoutingPolicy s) (Settings_PrivacyPolicy s) (Settings_LocalOnly s)
    (Settings_Budget s) (AllowedProviders s) (AllowedRuntimes s) (AllowedModels s).

(* src: internal/aifabric/policy.go:37-44 (contains) *)
Definition contains (values : list string) (wanted : string) : bool :=
  existsb (String.eqb wanted) values.

(** The guard of one list: an empty list allows everything. *)
Definition excluded (allowed : list string) (wanted : string) : bool :=
  match allowed with [] => false | _ => negb (contains allowed wanted) end.

(* src: internal/aifabric/policy.go:18-36 (ApplyProjectPolicy) *)
Fixpoint ApplyProjectPolicy (settings : ProjectAISettings) (models : list routing.ModelProfile)
    : list routing.ModelProfile :=
  match models with
  | [] => []
  | model :: models =>
      let out := ApplyProjectPolicy settings models in
      if excluded (AllowedProviders settings) (routing.Model_ProviderID model) then out
      else if excluded (AllowedRuntimes settings) (routing.Model_RuntimeID model) then out
      else if excluded (AllowedModels settings) (routing.Model_ModelID model) then out
      else if Settings_LocalOnly settings && negb (routing.Local model) then out
      else model :: out
  end.

(* src: internal/aifabric/routing_bridge.go:30-35 (latencyClass) *)
Definition latencyClass (d : Z) : string :=
  if (0 <? d) && (d <? 500 * 10 ^ 6) then "fast" else "normal".

Definition capability_pairs : list (Capability * routing.Capability) :=
  [(CapabilityCoding, routing.Coding); (CapabilityReasoning, routing.Reasoning);
   (CapabilityArchitecture, routing.Architecture); (CapabilityVision, routing.Vision);
   (CapabilityToolUse, routing.ToolUse); (CapabilityStructuredOutput, routing.StructuredOutput);
   (CapabilityLongContext, routing.LongContext); (CapabilityFast, routing.FastResponse)].

(* src: internal/aifabric/routing_bridge.go:18-21 (RoutingProfiles) *)
Definition is_healthy (health : gmap string RuntimeHealth) (model : ModelDescriptor) : bool :=
  match health !! Model_RuntimeID model with
  | Some h => bool_decide (Health_Status h = RuntimeOnline ∨ Health_Status h = RuntimeDegraded)
  | None => negb (bool_decide (Model_Status model = ModelFailed))
  end.

(** The profile of one model. *)
(* src: internal/aifabric/routing_bridge.go:11-26 (RoutingProfiles) *)
Definition routing_profile (health : gmap string RuntimeHealth) (model : ModelDescriptor)
    : routing.ModelProfile :=
  let zero := float64.zero in
  let caps := foldl (λ caps pair,
    <[pair.2 := default false (Capabilities model !! pair.1)]> caps) ∅ capability_pairs in
  let healthy := is_healthy health model in
  routing.mkModel (Model_ID model) (Model_ProviderID model) (Model_RuntimeID model)
    (DisplayName model) caps
    (routing.mkPerformance zero zero zero zero zero zero (latencyClass (Model_Latency model)) "" "")
    (routing.mkPricing zero zero "USD" "1M tokens" time_zero)
    (if healthy then routing.Available else routing.Unavailable)
    (Model_Local model) (Model_Remote model) (ContextWindow model) (PrivacyLevel model)
    (routing.mkResources (MemoryBytes (Model_Resources model)) (VRAMBytes (Model_Resources model))
       (GPURequired (Model_Resources model)))
    healthy [].

(* src: internal/aifabric/routing_bridge.go:8-29 (RoutingProfiles) *)
Definition RoutingProfiles (models : list ModelDescriptor) (health : gmap string RuntimeHealth)
    : list routing.ModelProfile := routing_profile health <$> models.

(** ** What the manager keeps *)

(** Runtimes and models are filed by their own identifiers, and what is cached is the
    health of registered runtimes. *)
Record manager_ok {W} (m : Manager W) : Prop := {
  ok_runtimes : map_Forall (λ id r, Spec_ID (Spec r) = id ∧ id ≠ "") (runtimes (Registry m));
  ok_models : map_Forall (λ id d, Model_ID d = id) (models (Registry m));
  ok_health : ∀ id, is_Some (health m !! id) → is_Some (runtimes (Registry m) !! id)
}.

(** The operations, for some sink and clock. *)
Inductive operation `{MapOrder} {W} : ∀ {A}, M (Manager W * W) A → Prop :=
  | op_discover sink : operation (Discover sink)
  | op_health sink id : operation (Health sink id)
  | op_health_all sink : operation (HealthAll sink)
  | op_start sink id : operation (Start sink id)
  | op_stop sink id : operation (Stop sink id)
  | op_restart sink id : operation (Restart sink id)
  | op_install sink req : operation (Install sink req)
  | op_load sink req : operation (Load_ sink req)
  | op_unload sink req : operation (Unload sink req)
  | op_generate sink now req : operation (Generate sink now req)
  | op_stream sink req : operation (Stream sink req)
  | op_embeddings req : operation (Embeddings req).

(** The server registers runtimes and calls the operations. *)
Inductive manager_step `{MapOrder} {W} : Manager W → Manager W → Prop :=
  | step_register runtime m :
      manager_step m (m <| Registry := (RegisterRuntime (Registry m) runtime).2 |>)
  | step_operation {A} (c : M (Manager W * W) A) m w a m' w' :
      operation c → c (m, w) = (a, (m', w')) → manager_step m m'.

Section keeping.
Context `{MapOrder} {W : Type}.
Implicit Types (m : Manager W) (Events : option (EventSink W)).

Lemma keeps_publish (P : Manager W → Prop) Events kind id p :
  keeps P (publish Events kind id p).
Proof. unfold publish. keep_state. Qed.
Lemma keeps_publish_all (P : Manager W → Prop) Events l : keeps P (publish_all Events l).
Proof.
  induction l as [|[[kind id] p] l IH]; cbn [publish_all]; keep_state. apply keeps_publish.
Qed.
Hint Resolve keeps_publish keeps_publish_all : keeps.
Lemma keeps_forward (P : Manager W → Prop) Events req l : keeps P (forward Events req l).
Proof. induction l; cbn [forward]; keep_state; case_decide; keep_state. Qed.
Lemma keeps_Runtime (P : Manager W → Prop) id : keeps P (Runtime id).
Proof. unfold Runtime. keep_state. Qed.
Hint Resolve keeps_forward keeps_Runtime : keeps.

Lemma keeps_with_runtime {A} (P : Manager W → Prop) id (zero : A) k :
  (∀ r, keeps P (k r)) → keeps P (with_runtime id zero k).
Proof. intros Hk. unfold with_runtime. keep_state. Qed.

Lemma models_ok_insert m d :
  manager_ok m → manager_ok (m <| Registry := RegisterModel (Registry m) d |>).
Proof. intros [H1 H2 H3]. split; [done| |done]. by apply map_Forall_insert_2. Qed.

Lemma keeps_register d : keeps manager_ok (register (W := W) d).
Proof. apply keeps_modify. intros m. apply models_ok_insert. Qed.
Hint Resolve keeps_register : keeps.

Lemma discover_models_ok found m :
  manager_ok m → manager_ok (m <| Registry := discover_models found (Registry m) |>).
Proof.
  unfold discover_models. revert m. induction found as [|d l IH]; intros m Hm; [by destruct Hm|].
  exact (IH _ (models_ok_insert m d Hm)).
Qed.

(** What [DiscoverAll] does to the registry. *)
Lemma discover_all_registry todo first out r w found err r' w' :
  discover_all (W := W) todo first out (r, w) = ((found, err), (r', w')) →
  ∃ l, found = out ++ l ∧ r' = discover_models l r.
Proof.
  revert first out r w. induction todo as [|t todo IH]; intros first out r w; cbn [discover_all].
  - intros [[= <- <-] [= <- <-]]%mret_inv. exists []. by rewrite app_nil_r.
  - intros ([l e] & [r1 w1] & [_ Hr]%outside_inv & Hk)%mthen_inv. cbn [fst] in Hr. subst r1.
    destruct e; [by apply IH in Hk|].
    apply mthen_inv in Hk as (u & sw & ->%modify_inv & Hk).
    apply IH in Hk as (l2 & -> & ->). exists (l ++ l2). split; [by rewrite app_assoc|].
    unfold discover_models. by rewrite foldl_app.
Qed.

Lemma Discover_ok Events : keeps manager_ok (Discover (W := W) Events).
Proof.
  unfold Discover. apply keeps_mthen; [|keep_state].
  intros [m w] [found err] [m' w'] Hd Hm. unfold in_registry, DiscoverAll in Hd. cbn [fst snd] in *.
  destruct (mthen _ _ (Registry m, w)) as [a [r w1]] eqn:E. injection Hd as -> <- <-.
  apply mthen_inv in E as (l & sw & [-> ->]%look_inv & E).
  apply discover_all_registry in E as (l & -> & ->). by apply discover_models_ok.
Qed.

Lemma Health_ok Events id : keeps manager_ok (Health (W := W) Events id).
Proof.
  intros [m w] a [m' w'] (r & sw & Hr & Hk)%mthen_inv Hm. cbn [fst] in *.
  apply mthen_inv in Hr as (o & sw1 & [-> ->]%look_inv & [<- <-]%mret_inv). cbn [fst] in Hk.
  destruct (Registry_Runtime (Registry m) id) as [r|] eqn:Hid; [|by apply mret_inv in Hk as [_ [= <- _]]].
  apply mthen_inv in Hk as ([h err] & [m1 w1] & [_ Heq]%outside_inv & Hk). cbn [fst] in Heq. subst m1.
  apply mthen_inv in Hk as (u & sw2 & ->%modify_inv & Hk). cbn [fst snd] in Hk.
  apply mthen_inv in Hk as (u2 & sw3 & Hp & [_ ->]%mret_inv).
  apply (keeps_publish manager_ok _ _ _ _ _ _ _ Hp). destruct Hm as [H1 H2 H3].
  split; [done|done|]. intros id'. cbn. rewrite lookup_insert_is_Some.
  intros [<-|[_ Hs]]; [by exists r|by apply H3].
Qed.
Hint Resolve Health_ok : keeps.

Lemma health_all_ok Events todo out : keeps manager_ok (health_all (W := W) Events todo out).
Proof. revert out. induction todo; intros out; cbn [health_all]; keep_state. Qed.
Hint Resolve health_all_ok : keeps.

Lemma operation_ok {A} (c : M (Manager W * W) A) : operation c → keeps manager_ok c.
Proof.
  intros []; try solve [apply Discover_ok|apply Health_ok]; unfold Start, Stop, Restart, lifecycle, HealthAll, Load_, Unload, Install, Generate,
    Stream, Embeddings; try (apply keeps_with_runtime; intros); keep_state.
Qed.
End keeping.

Lemma publish_inv {W} (sink : option (EventSink W)) kind id p mw u mw' :
  publish sink kind id p mw = (u, mw') → mw'.1 = mw.1.
Proof.
  unfold publish. destruct sink; [by intros [_ ?]%outside_inv|by intros [_ ->]%mret_inv].
Qed.

(** ** Properties *)

(** The tables of the fabric.  In every state the server reaches, whatever the
    runtimes answer, runtimes and models are filed under their own identifiers, no
    runtime has an empty one, and health is cached for registered runtimes only. *)
Theorem fabric_tables `{MapOrder} {W} (m : Manager W) :
  rtc manager_step (NewManager None) m → manager_ok m.
Proof.
  intros Hr. assert (manager_ok (@NewManager W None)) as H0.
  { split; try apply map_Forall_empty. by intros id [h Hh]. }
  revert H0. induction Hr as [|m1 m2 m3 Hs _ IH]; intros H0; [done|].
  apply IH. destruct Hs as [r m|A c m w a m' w' Hop Hc].
  - destruct H0 as [H1 H2 H3]. unfold RegisterRuntime. destruct r as [r|]; [|by split].
    case_decide; [by split|]. split; [by apply map_Forall_insert_2|done|]. intros id Hid. cbn.
    rewrite lookup_insert_is_Some. destruct (decide (Spec_ID (Spec r) = id)); [by left|].
    right. split; [done|]. by apply H3.
  - exact (operation_ok c Hop _ _ _ Hc H0).
Qed.

(** Installing a model.  It fails without touching anything when the runtime is not
    registered or cannot install; otherwise the runtime is asked, and if it succeeds
    the model it answers is recorded as INSTALLED under the identifier it answers,
    which need not be the requested one.  No other model, runtime or health changes,
    and nothing does when it fails. *)
Theorem Install_correct {W} (sink : option (EventSink W)) req m w d err m' w' :
  Install sink req (m, w) = ((d, err), (m', w')) →
  match runtimes (Registry m) !! Install_RuntimeID req with
  | None => d = zero_Model ∧ err = Some ErrRuntimeNotFound ∧ m' = m ∧ w' = w
  | Some r =>
      if Can_Install (Runtime_Capabilities r) then
        ∃ w1 w2 d0, Runtime_Install r req w1 = ((d0, err), w2) ∧
        match err with
        | Some _ => d = zero_Model ∧ m' = m
        | None => d = d0 <| Model_Status := ModelInstalled |> ∧
            runtimes (Registry m') = runtimes (Registry m) ∧ health m' = health m ∧
            models (Registry m') = <[Model_ID d := d]> (models (Registry m))
        end
      else d = zero_Model ∧ m' = m ∧ w' = w ∧
           err = Some (ErrorString "runtime does not support installation")
  end.
Proof.
  intros ([r|e] & sw & Hr & Hk)%mthen_inv;
    apply mthen_inv in Hr as (o & sw1 & [-> ->]%look_inv & [Ho <-]%mret_inv);
    unfold Registry_Runtime in Ho; cbn [fst] in Ho;
    destruct (runtimes (Registry m) !! Install_RuntimeID req) as [r'|]; try discriminate Ho.
  2: { injection Ho as <-. by apply mret_inv in Hk as [[= <- <-] [= <- <-]]. }
  injection Ho as ->. destruct (Can_Install (Runtime_Capabilities r)).
  2: by apply mret_inv in Hk as [[= <- <-] [= <- <-]].
  apply mthen_inv in Hk as (u & [m1 w1] & Hm1%publish_inv & Hk). cbn [fst] in Hm1. subst m1.
  apply mthen_inv in Hk as ([d0 e] & [m2 w2] & [Hi Hm2]%outside_inv & Hk). cbn [fst snd] in *. subst m2.
  exists w1, w2, d0. destruct e as [e|].
  - apply mthen_inv in Hk as (u2 & [m3 w3] & Hm3%publish_inv & Hk).
    apply mret_inv in Hk as [[= <- <-] [= <- _]]. by cbn [fst] in Hm3.
  - apply mthen_inv in Hk as (u1 & sw & ->%modify_inv & Hk).
    apply mthen_inv in Hk as (u2 & [m3 w3] & Hm3%publish_inv & Hk).
    apply mret_inv in Hk as [[= <- <-] [= <- _]]. cbn [fst] in Hm3. by subst m3.
Qed.

(** ** Loading *)

(** Loading marks a model of the registry READY by its identifier alone, also when it
    belongs to another runtime than the one that was asked to load it. *)
Lemma Load_correct {W} (sink : option (EventSink W)) req m w err m' w' :
  Load_ sink req (m, w) = (err, (m', w')) →
  (err ≠ None → m' = m) ∧
  (err = None → is_Some (runtimes (Registry m) !! Load_RuntimeID req) ∧
     m' = match models (Registry m) !! Load_ModelID req with
          | Some d => m <| Registry := RegisterModel (Registry m)
                             (d <| Model_Status := ModelReady |>) |>
          | None => m
          end).
Proof.
  unfold Load_. intros (r & sw & Hr & Hk)%mthen_inv.
  apply mthen_inv in Hr as (o & sw1 & [-> ->]%look_inv & [<- <-]%mret_inv). cbn [fst] in Hk.
  unfold Registry_Runtime in Hk.
  destruct (runtimes (Registry m) !! Load_RuntimeID req) as [r|];
    [|by apply mret_inv in Hk as [<- [= <- _]]].
  destruct (Can_Load (Runtime_Capabilities r)); [|by apply mret_inv in Hk as [<- [= <- _]]].
  apply mthen_inv in Hk as (u & [m1 w1] & Hm1%publish_inv & Hk). cbn [fst] in Hm1. subst m1.
  apply mthen_inv in Hk as (e & [m2 w2] & [_ Hm2]%outside_inv & Hk). cbn [fst] in Hm2. subst m2.
  destruct e; [by apply mret_inv in Hk as [<- [= <- _]]|].
  apply mthen_inv in Hk as (o & sw & [-> ->]%look_inv & Hk). cbn [fst] in Hk. unfold Registry_Model in Hk.
  destruct (models (Registry m) !! Load_ModelID req) as [d|].
  - apply mthen_inv in Hk as (u1 & sw & ->%modify_inv & Hk).
    apply mthen_inv in Hk as (u2 & [m3 w3] & Hm3%publish_inv & Hk).
    apply mret_inv in Hk as [<- [= <- _]]. cbn [fst] in Hm3. subst m3. split; [done|]. by intros _.
  - apply mret_inv in Hk as [<- [= <- _]]. split; [done|]. by intros _.
Qed.

(** ** Resources *)

Lemma uint64_range z : 0 ≤ uint64 z < 2 ^ 64.
Proof. unfold uint64. apply Z.mod_pos_bound. lia. Qed.

(** What [strconv.ParseUint] gives is a [uint64]. *)
Lemma ParseUint_range s : 0 ≤ ParseUint s < 2 ^ 64.
Proof.
  unfold ParseUint. case_decide; [lia|]. destruct (strconv.parse_digits 0 s) as [z|] eqn:Hz; simpl; [|lia].
  apply strconv.parse_digits_nonneg in Hz; lia.
Qed.

Definition sum_of (f : GPUResource → Z) (l : list GPUResource) : Z := foldr (λ g, Z.add (f g)) 0 l.

(** The figures of a host that has been asked: its GPUs are counted and added up. *)
Record host_ok (h : HostResources) : Prop := {
  host_count : GPUCount h = Z.of_nat (length (GPUs h));
  host_gpu_total : GPUMemoryTotal h = uint64 (sum_of GPU_MemoryTotal (GPUs h));
  host_gpu_available : GPUMemoryAvailable h = uint64 (sum_of GPU_MemoryAvailable (GPUs h));
  host_gpus : Forall (λ g, 0 ≤ GPU_MemoryTotal g < 2 ^ 64 ∧ 0 ≤ GPU_MemoryAvailable g < 2 ^ 64) (GPUs h);
  host_memory : 0 ≤ MemoryTotal h < 2 ^ 64 ∧ 0 ≤ MemoryAvailable h < 2 ^ 64;
  host_disk : 0 ≤ DiskTotal h < 2 ^ 64 ∧ 0 ≤ DiskAvailable h < 2 ^ 64
}.

Lemma sum_of_snoc f l g : uint64 (uint64 (sum_of f l) + f g) = uint64 (sum_of f (l ++ [g])).
Proof.
  assert (sum_of f (l ++ [g]) = sum_of f l + f g) as ->.
  { unfold sum_of. induction l; simpl; lia. }
  unfold uint64. by rewrite Z.add_mod_idemp_l.
Qed.

Lemma meminfo_line_ok h line : host_ok h → host_ok (meminfo_line h line).
Proof.
  intros Hh. unfold meminfo_line. destruct (strings.Fields line) as [|n [|v l]]; try done.
  destruct Hh as [? ? ? ? [? ?] ?].
  pose proof (uint64_range (ParseUint v * 1024)).
  case_decide; [|case_decide; [|done]]; by split; simpl.
Qed.

Lemma gpu_line_ok h line : host_ok h → host_ok (gpu_line h line).
Proof.
  intros Hh. unfold gpu_line.
  destruct (strings.Split line ",") as [|a [|b [|c [|d [|e [|f l]]]]]]; try done.
  destruct Hh as [H1 H2 H3 H4 H5 H6]. split; try done; simpl.
  - rewrite H1, length_app. simpl. lia.
  - by rewrite H2, <-sum_of_snoc.
  - by rewrite H3, <-sum_of_snoc.
  - apply Forall_app. split; [done|]. apply Forall_singleton. split; apply uint64_range.
Qed.

Lemma foldl_host_ok f (lines : list string) h :
  (∀ h line, host_ok h → host_ok (f h line)) → host_ok h → host_ok (foldl f h lines).
Proof. intros Hf. revert h. induction lines as [|l ls IH]; intros h Hh; [done|]. by apply IH, Hf. Qed.

(** The figures of the host.  Whatever [/proc/meminfo], the file system and
    [nvidia-smi] say, also when an error is reported, GPUs are counted, their memory is
    added up modulo 2^64, and every amount is a [uint64]. *)
Theorem DiscoverHostResources_ok NumCPU now meminfo statfs nvidia :
  host_ok (DiscoverHostResources NumCPU now meminfo statfs nvidia).1.
Proof.
  unfold DiscoverHostResources.
  assert (host_ok (mkHost NumCPU 0 0 0 0 0 0 0 [] now)) as H0 by (split; simpl; try done; lia).
  set (h0 := mkHost _ _ _ _ _ _ _ _ _ _) in *.
  set (h1 := match meminfo with Some lines => foldl meminfo_line h0 lines | None => h0 end).
  assert (host_ok h1) as H1 by (destruct meminfo; [by apply foldl_host_ok, H0; apply meminfo_line_ok|done]).
  set (h2 := match statfs with Some _ => _ | None => _ end).
  assert (host_ok h2) as H2.
  { unfold h2. destruct statfs as [[[bl av] bs]|]; [|done]. destruct H1. split; try done.
    split; apply uint64_range. }
  unfold discoverNVIDIA. destruct nvidia as [raw|e]; simpl; [|done].
  by apply foldl_host_ok; [apply gpu_line_ok|].
Qed.

Lemma ResourceSatisfies_none h req :
  ResourceSatisfies h req = None ↔
  MemoryBytes req ≤ MemoryAvailable h ∧ VRAMBytes req ≤ GPUMemoryAvailable h ∧
  (GPURequired req = true → GPUCount h ≠ 0).
Proof.
  unfold ResourceSatisfies.
  destruct (Z.ltb_spec (MemoryAvailable h) (MemoryBytes req)); [by split; [|lia]|].
  destruct (Z.ltb_spec (GPUMemoryAvailable h) (VRAMBytes req)); [by split; [|lia]|].
  destruct (GPURequired req), (Z.eqb_spec (GPUCount h) 0) as [Hz|Hz]; cbn [andb]; split; try done.
  intros (_ & _ & Hn). by destruct Hn.
Qed.

(** The allocator gives a request that needs a GPU all of them, whoever has them:
    nothing is recorded, and nothing released. *)
Lemma Allocate_all {W} (discover : M W _) project runtime req w a w' :
  Allocate (Some discover) project runtime req w = ((a, None), w') →
  ∃ h, discover w = ((h, None), w') ∧ ResourceSatisfies h req = None ∧
  GPUIDs a = (if GPURequired req then GPU_ID <$> GPUs h else []) ∧
  (GPURequired req = true → GPUIDs a ≠ []).
Proof.
  unfold Allocate. intros ([h e] & w1 & Hd & Hk)%mthen_inv.
  destruct e; [by apply mret_inv in Hk as [[=] _]|].
  destruct (ResourceSatisfies h req) eqn:Hs; [by apply mret_inv in Hk as [[=] _]|].
  exists h. destruct (GPURequired req); cbn [negb] in Hk.
  - destruct (GPU_ID <$> GPUs h) as [|g l] eqn:Hg; apply mret_inv in Hk as [[=] Hw]; subst.
    by split_and!.
  - apply mret_inv in Hk as [[= <-] <-]. by split_and!.
Qed.

(** ** The project's policy *)

Lemma fabric_contains_iff values wanted : contains values wanted = true ↔ wanted ∈ values.
Proof.
  unfold contains. rewrite existsb_exists. setoid_rewrite String.eqb_eq.
  setoid_rewrite <-list_elem_of_In. naive_solver.
Qed.

Lemma excluded_false allowed wanted :
  excluded allowed wanted = false ↔ allowed = [] ∨ wanted ∈ allowed.
Proof.
  unfold excluded. destruct allowed as [|a l]; [naive_solver|].
  rewrite negb_false_iff, fabric_contains_iff. naive_solver.
Qed.

(** What the settings of a project say of a model. *)
Definition permitted (s : ProjectAISettings) (m : routing.ModelProfile) : Prop :=
  (AllowedProviders s = [] ∨ routing.Model_ProviderID m ∈ AllowedProviders s) ∧
  (AllowedRuntimes s = [] ∨ routing.Model_RuntimeID m ∈ AllowedRuntimes s) ∧
  (AllowedModels s = [] ∨ routing.Model_ModelID m ∈ AllowedModels s) ∧
  (Settings_LocalOnly s = true → routing.Local m = true).
#[global] Instance permitted_dec s m : Decision (permitted s m).
Proof. unfold permitted. apply _. Defined.

Definition refused (s : ProjectAISettings) (m : routing.ModelProfile) : bool :=
  excluded (AllowedProviders s) (routing.Model_ProviderID m) ||
  (excluded (AllowedRuntimes s) (routing.Model_RuntimeID m) ||
   (excluded (AllowedModels s) (routing.Model_ModelID m) ||
    (Settings_LocalOnly s && negb (routing.Local m)))).

Lemma refused_false s m : refused s m = false ↔ permitted s m.
Proof.
  unfold refused, permitted. rewrite !orb_false_iff, !excluded_false.
  by destruct (Settings_LocalOnly s), (routing.Local m); cbn [andb negb]; naive_solver.
Qed.

Lemma ApplyProjectPolicy_filter s models : ApplyProjectPolicy s models = filter (permitted s) models.
Proof.
  induction models as [|m l IH]; [done|]. rewrite filter_cons, <-IH. cbn [ApplyProjectPolicy].
  pose proof (refused_false s m) as Hr. unfold refused in Hr.
  case_decide as Hp.
  - apply Hr in Hp. by apply orb_false_iff in Hp as [-> [-> [-> ->]%orb_false_iff]%orb_false_iff].
  - repeat destruct (excluded _ _); cbn [orb] in Hr; try done.
    destruct (_ && _); [done|]. destruct Hp. by apply Hr.
Qed.

(** A model that failed is offered to the router as healthy as long as its runtime is. *)
Lemma failed_model_healthy health (m : ModelDescriptor) h :
  Model_Status m = ModelFailed → health !! Model_RuntimeID m = Some h →
  Health_Status h = RuntimeOnline →
  routing.Model_RuntimeHealthy (routing_profile health m) = true ∧
  routing.Model_Availability (routing_profile health m) = routing.Available.
Proof.
  intros _ Hh Hs. unfold routing_profile, is_healthy. cbn. rewrite Hh, Hs. done.
Qed.

(** ** Witnesses *)

(** A runtime that installs the model [tiny], whatever is asked for. *)
Definition all_capabilities : RuntimeCapabilities :=
  mkCapabilities true true true true true true true true true true false.
Definition tiny : ModelDescriptor := zero_Model <| Model_ID := "tiny" |> <| Model_RuntimeID := "lab" |>.
Definition lab : AIRuntime unit :=
  mkRuntime (mkSpec "lab" "test" "" true false ∅) (mret ([tiny], None)) (λ _, mret (tiny, None))
    (λ _, mret None) (mret None) (mret None) (mret None) (mret (zero_Health, None))
    (mret ([tiny], None)) (λ _, mret None) (λ _, mret None) (λ _, mret (zero_Response, None))
    (λ _, mret ([], None)) (λ _, mret ([], None)) all_capabilities
    (mret (mkHost 0 0 0 0 0 0 0 0 [] 0, None)).
Definition lab_manager : Manager unit :=
  (NewManager None) <| Registry := (RegisterRuntime NewRuntimeRegistry (Some lab)).2 |>.

Lemma fabric_tables_witness :
  let m := (Discover (H := canonical_order) (W := unit) None (lab_manager, tt)).2.1 in
  manager_ok m ∧ models (Registry m) !! "tiny" = Some tiny.
Proof.
  intros m. split; [|by vm_compute].
  apply (fabric_tables (H := canonical_order)). eapply rtc_l; [apply (step_register (Some lab))|].
  apply rtc_once. apply (step_operation (Discover (H := canonical_order) None) lab_manager tt
    (Discover (H := canonical_order) (W := unit) None (lab_manager, tt)).1 _ tt); [constructor|].
  unfold m. by destruct (Discover (H := canonical_order) None (lab_manager, tt)) as [a [m' []]].
Defined.

Lemma Install_correct_witness :
  let req := mkInstall "big" "lab" "registry/big" "" "" zero_Requirement in
  let r := Install (W := unit) None req (lab_manager, tt) in
  r.1 = (tiny <| Model_Status := ModelInstalled |>, None) ∧
  models (Registry r.2.1) !! "big" = None ∧ is_Some (models (Registry r.2.1) !! "tiny").
Proof.
  intros req r. destruct r as [[d err] [m' []]] eqn:E.
  pose proof (Install_correct None req lab_manager tt d err m' tt E) as Hi. cbn in Hi.
  destruct Hi as (w1 & w2 & d0 & Hd & Hi). injection Hd as <- <- _.
  destruct Hi as (-> & _ & _ & Hm). cbn. rewrite Hm. cbn. by split_and!.
Defined.
End aifabric.
