(* ===== verification/AIRuntime.v ===== *)
(** * The HTTP runtimes of the AI fabric

    [src/internal/aifabric/http_runtime.go]: Ollama, vLLM, llama.cpp and whatever speaks
    the OpenAI protocol, behind the interface of the fabric.  The network is a function
    from requests to responses; the text of JSON is parsed by a parameter, and decoding
    into the structs of the program is written out, for objects that do not repeat a
    key. *)

From stdpp Require Import relations pretty.
From S2P Require Import Prelude GoStrings World Float RoutingTypes Events AIFabric.

(** ** JSON *)

Module json.
Inductive value :=
  | Null
  | Bool (b : bool)
  | Int (z : Z)
  | Float (f : float64.t)
  | Text (s : string)
  | Array (l : list value)
  | Object (fields : list (string * value)).

(** [encoding/json] as far as it is left open: parsing a text ([Unmarshal] the whole,
    [Decoder.Decode] its first value), the error for a value that does not fit its
    target, and rounding a number to [float32]. *)
Class GoJson := {
  Unmarshal : string → result value;
  Decode : string → result value;
  type_error : value → goerror;
  to_float32 : value → option aifabric.float32
}.

Section decoding.
Context `{strings.GoUnicode}.

(** The value of a field: keys are compared without case. *)
Fixpoint field (fields : list (string * value)) (name : string) : value :=
  match fields with
  | [] => Null
  | (k, v) :: fields => if strings.EqualFold k name then v else field fields name
  end.

(** Values of the types the program decodes into; [null] gives the zero value. *)
Definition as_object (v : value) : option (list (string * value)) :=
  match v with Null => Some [] | Object fields => Some fields | _ => None end.
Definition as_string (v : value) : option string :=
  match v with Null => Some "" | Text s => Some s | _ => None end.
Definition as_bool (v : value) : option bool :=
  match v with Null => Some false | Bool b => Some b | _ => None end.
Definition as_int (v : value) : option Z :=
  match v with
  | Null => Some 0
  | Int z => if decide (int64_range z) then Some z else None
  | _ => None
  end.
Definition as_float (v : value) : option float64.t :=
  match v with
  | Null => Some float64.zero | Int z => Some (float64.of_Z z) | Float f => Some f | _ => None
  end.
Definition as_list {A} (f : value → option A) (v : value) : option (list A) :=
  match v with Null => Some [] | Array l => mapM f l | _ => None end.
End decoding.
End json.

Module airuntime.
Import aifabric.

(** ** The network *)

Record request := mkHttpRequest { Method : string; URL : string; Body : option json.value }.
Record response := mkHttpResponse { StatusCode : Z; Payload : string; Lines : list string }.

(** Building and sending a request: its errors are those of [http.NewRequest] and of the
    client.  A response carries its text, and the lines a scanner reads of it. *)
Definition Client (W : Type) : Type := request → M W (result response).

(* src: internal/aifabric/http_runtime.go:16-21 (HTTPRuntime) *)
Record HTTPRuntime := mkHTTP {
  spec : RuntimeSpec;
  caps : RuntimeCapabilities;
  kind : string
}.

Definition with_kind (k : string) (s : RuntimeSpec) : RuntimeSpec :=
  if decide (Kind s = "") then s <| Kind := k |> else s.

(* src: internal/aifabric/http_runtime.go:23-28 (NewOllamaRuntime) *)
Definition NewOllamaRuntime (s : RuntimeSpec) : HTTPRuntime :=
  mkHTTP (with_kind "ollama" s)
    (mkCapabilities true true true true true true false false true true false) "ollama".

(* src: internal/aifabric/http_runtime.go:29-34 (NewOpenAICompatibleRuntime) *)
Definition NewOpenAICompatibleRuntime (s : RuntimeSpec) : HTTPRuntime :=
  mkHTTP (with_kind "openai-compatible" s)
    (mkCapabilities true true true false false false false true true true true) "openai-compatible".

(* src: internal/aifabric/http_runtime.go:35-40 (NewVLLMRuntime) *)
Definition NewVLLMRuntime (s : RuntimeSpec) : HTTPRuntime :=
  NewOpenAICompatibleRuntime (with_kind "vllm" s).

(* src: internal/aifabric/http_runtime.go:41-46 (NewLlamaCPPRuntime) *)
Definition NewLlamaCPPRuntime (s : RuntimeSpec) : HTTPRuntime :=
  NewOpenAICompatibleRuntime (with_kind "llama.cpp" s).

Definition is_ollama (r : HTTPRuntime) : bool := bool_decide (kind r = "ollama").

(* src: internal/aifabric/http_runtime.go:287-294 (lastContent) *)
Definition lastContent (messages : list Message) : string :=
  match filter (λ m, Content m ≠ "") (rev messages) with
  | m :: _ => Content m
  | [] => ""
  end.

Section runtime.
Context `{strings.GoUnicode} `{json.GoJson} {W : Type} (client : Client W) (now : M W Z).
Context (r : HTTPRuntime).

(** [int]s print in base 10. *)
Definition status_text (code : Z) : string := pretty code.

(* src: internal/aifabric/http_runtime.go:260-286 (do) *)
Definition do_ (method path : string) (body : option json.value) : M W (result response) :=
  if decide (Spec_Endpoint (spec r) = "") then mret (Err (ErrorString "runtime endpoint is empty"))
  else
    let! resp := client (mkHttpRequest method
      (strings.TrimRight (Spec_Endpoint (spec r)) "/" +:+ path) body) in
    mret match resp with
         | Err e => Err e
         | Ok resp =>
             if (StatusCode resp <? 200) || (300 <=? StatusCode resp)
             then Err (ErrorString ("runtime " +:+ Spec_ID (spec r) +:+ " returned " +:+
                    status_text (StatusCode resp) +:+ ": " +:+ strings.take 4096 (Payload resp)))
             else Ok resp
         end.

(** Decoding the response into a target of some type. *)
Definition decode {A} (target : json.value → option A) (resp : result response) : result A :=
  match resp with
  | Err e => Err e
  | Ok resp =>
      match json.Decode (Payload resp) with
      | Err e => Err e
      | Ok v => match target v with Some a => Ok a | None => Err (json.type_error v) end
      end
  end.

(* src: internal/aifabric/http_runtime.go:244-251 (get) *)
Definition get {A} (path : string) (target : json.value → option A) : M W (result A) :=
  let! resp := do_ "GET" path None in mret (decode target resp).

(* src: internal/aifabric/http_runtime.go:252-259 (post) *)
Definition post {A} (path : string) (body : json.value) (target : json.value → option A)
    : M W (result A) :=
  let! resp := do_ "POST" path (Some body) in mret (decode target resp).

(** ** Models and health *)

(** An element of the list of models: its [name], [model], [id] and [context_length];
    [owned_by] has to be a string. *)
Definition listed_model (v : json.value) : option (string * string * string * Z) :=
  fields ← json.as_object v;
  name ← json.as_string (json.field fields "name");
  model ← json.as_string (json.field fields "model");
  id ← json.as_string (json.field fields "id");
  context ← json.as_int (json.field fields "context_length");
  _ ← json.as_string (json.field fields "owned_by");
  Some (name, model, id, context).
Definition listed_models (v : json.value) : option (list (string * string * string * Z)) :=
  fields ← json.as_object v; json.as_list listed_model (json.field fields "models").

(* src: internal/aifabric/http_runtime.go:73-80 (ListModels) *)
Definition describe (m : string * string * string * Z) : ModelDescriptor :=
  let '(name, model, id, context) := m in
  let id := if decide (id = "") then name else id in
  let id := if decide (id = "") then model else id in
  let local := Spec_Local (spec r) in
  mkModel id (Spec_ID (spec r)) (Spec_ID (spec r)) id "" context 0
    (<[CapabilityLocal := local]> (<[CapabilityGeneral := true]> (<[CapabilityCoding := true]>
       {[CapabilityToolUse := ToolCalling (caps r)]})))
    local (negb local) "" "AVAILABLE" ModelAvailable 0 zero_Requirement.

(* src: internal/aifabric/http_runtime.go:52-83 (ListModels) *)
Definition HTTP_ListModels : M W (list ModelDescriptor * option goerror) :=
  let! found := get (if is_ollama r then "/api/tags" else "/v1/models") listed_models in
  mret match found with
       | Err e => ([], Some e)
       | Ok l => (describe <$> l, None)
       end.

(* src: internal/aifabric/http_runtime.go:49-51 (Discover) *)
Definition HTTP_Discover : M W (list ModelDescriptor * option goerror) := HTTP_ListModels.

(* src: internal/aifabric/http_runtime.go:84-100 (Health) *)
Definition HTTP_Health : M W (RuntimeHealth * option goerror) :=
  let! started := now in
  let report status latency ids checked error :=
    mkHealth (Spec_ID (spec r)) status "" (Spec_Endpoint (spec r)) latency float64.zero 0 0 0 []
      ids checked error in
  let! data := get (if is_ollama r then "/api/version" else "/v1/models") json.as_object in
  match data with
  | Err e =>
      let! ended := now in
      let! checked := now in
      mret (report RuntimeOffline (ended - started) [] checked (error_text e), Some e)
  | Ok _ =>
      let! (models, _) := HTTP_ListModels in
      let! ended := now in
      let! checked := now in
      mret (report RuntimeOnline (ended - started) (Model_ID <$> models) checked "", None)
  end.

(** ** Lifecycle *)

Definition ErrExternalLifecycle : goerror :=
  ErrorString "runtime process lifecycle is managed externally".
(* src: internal/aifabric/http_runtime.go:101-103 (Start) *)
Definition HTTP_Start : M W (option goerror) := mret (Some ErrExternalLifecycle).
(* src: internal/aifabric/http_runtime.go:104-106 (Stop) *)
Definition HTTP_Stop : M W (option goerror) := mret (Some ErrExternalLifecycle).
(* src: internal/aifabric/http_runtime.go:107-109 (Restart) *)
Definition HTTP_Restart : M W (option goerror) := mret (Some ErrExternalLifecycle).

(* src: internal/aifabric/http_runtime.go:110-130 (Install) *)
Definition HTTP_Install (req : ModelInstallRequest) : M W (ModelDescriptor * option goerror) :=
  if negb (is_ollama r)
  then mret (zero_Model, Some (ErrorString "model installation unsupported by runtime"))
  else
    let! pulled := post "/api/pull" (json.Object [("name", json.Text (Source req))]) json.as_object in
    match pulled with
    | Err e => mret (zero_Model, Some e)
    | Ok _ =>
        let! (models, err) := HTTP_ListModels in
        match err with
        | Some e => mret (zero_Model, Some e)
        | None =>
            mret match filter (λ m, Model_ID m = Source req ∨ Model_ID m = Install_ModelID req)
                         models with
                 | m :: _ => (m <| Model_Status := ModelInstalled |>, None)
                 | [] => (zero_Model <| Model_ID := Install_ModelID req |>
                            <| Model_RuntimeID := Spec_ID (spec r) |>
                            <| Model_ProviderID := Spec_ID (spec r) |>
                            <| Model_Status := ModelInstalled |>
                            <| Model_Local := Spec_Local (spec r) |>, None)
                 end
        end
    end.

(* src: internal/aifabric/http_runtime.go:131-133 (Remove) *)
Definition HTTP_Remove (id : string) : M W (option goerror) :=
  mret (Some (ErrorString "model removal is not exposed by this runtime adapter")).

(* src: internal/aifabric/http_runtime.go:134-140 (LoadModel) *)
Definition HTTP_LoadModel (req : ModelLoadRequest) : M W (option goerror) :=
  if is_ollama r then
    let! shown := post "/api/show" (json.Object [("name", json.Text (Load_ModelID req))])
                    json.as_object in
    mret match shown with Err e => Some e | Ok _ => None end
  else mret None.

(* src: internal/aifabric/http_runtime.go:141-141 (UnloadModel) *)
Definition HTTP_UnloadModel (req : ModelLoadRequest) : M W (option goerror) := mret None.

(** ** Inference *)

Definition ollama_answer (v : json.value) : option (string * Z * Z) :=
  fields ← json.as_object v;
  response ← json.as_string (json.field fields "response");
  _ ← json.as_bool (json.field fields "done");
  prompt ← json.as_int (json.field fields "prompt_eval_count");
  eval ← json.as_int (json.field fields "eval_count");
  _ ← json.as_string (json.field fields "model");
  Some (response, prompt, eval).

Definition as_message (v : json.value) : option Message :=
  fields ← json.as_object v;
  role ← json.as_string (json.field fields "role");
  content ← json.as_string (json.field fields "content");
  name ← json.as_string (json.field fields "name");
  call ← json.as_string (json.field fields "tool_call_id");
  Some (mkMessage role content name call).
Definition as_usage (v : json.value) : option Usage :=
  fields ← json.as_object v;
  input ← json.as_int (json.field fields "input_tokens");
  output ← json.as_int (json.field fields "output_tokens");
  total ← json.as_int (json.field fields "total_tokens");
  cost ← json.as_float (json.field fields "estimated_cost");
  cpu ← json.as_int (json.field fields "cpu_millis");
  gpu ← json.as_int (json.field fields "gpu_millis");
  tokens ← json.as_float (json.field fields "tokens_per_second");
  Some (mkUsage input output total cost cpu gpu tokens).
Definition choice (v : json.value) : option (Message * string) :=
  fields ← json.as_object v;
  message ← as_message (json.field fields "message");
  finish ← json.as_string (json.field fields "finish_reason");
  Some (message, finish).
Definition chat_answer (v : json.value) : option (list (Message * string) * Usage) :=
  fields ← json.as_object v;
  choices ← json.as_list choice (json.field fields "choices");
  usage ← as_usage (json.field fields "usage");
  Some (choices, usage).

Definition unless_empty (name s : string) : list (string * json.value) :=
  if decide (s = "") then [] else [(name, json.Text s)].
Definition message_json (m : Message) : json.value :=
  json.Object ([("role", json.Text (Role m))] ++ unless_empty "content" (Content m) ++
    unless_empty "name" (Message_Name m) ++ unless_empty "tool_call_id" (ToolCallID m)).

(** The bodies, whose keys are sorted; a nil list of messages, which is written [null],
    is not told from an empty one. *)
Definition ollama_body (req : InferenceRequest) (stream : bool) : json.value :=
  json.Object ([("model", json.Text (Req_ModelID req));
                ("prompt", json.Text (lastContent (Messages req)));
                ("stream", json.Bool stream)]).
Definition chat_body (req : InferenceRequest) : json.value :=
  json.Object ((if 0 <? MaxTokens req then [("max_tokens", json.Int (MaxTokens req))] else []) ++
    [("messages", json.Array (message_json <$> Messages req));
     ("model", json.Text (Req_ModelID req)); ("stream", json.Bool false)] ++
    match Temperature req with Some t => [("temperature", json.Float t)] | None => [] end).

(* src: internal/aifabric/http_runtime.go:142-182 (Generate) *)
Definition HTTP_Generate (req : InferenceRequest) : M W (InferenceResponse * option goerror) :=
  let! started := now in
  let answer content finish usage :=
    let! ended := now in
    mret (mkResponse (Req_ID req) (Req_ModelID req) (Req_RuntimeID req) content [] usage
            (ended - started) finish ∅, None) in
  if is_ollama r then
    let body := match ollama_body req false with
                | json.Object fields => json.Object (fields ++ unless_empty "system" (SystemPrompt req))
                | v => v
                end in
    let! out := post "/api/generate" body ollama_answer in
    match out with
    | Err e => mret (zero_Response, Some e)
    | Ok (response, prompt, eval) =>
        answer response "stop" (mkUsage prompt eval (add64 prompt eval) float64.zero 0 0 float64.zero)
    end
  else
    let! out := post "/v1/chat/completions" (chat_body req) chat_answer in
    match out with
    | Err e => mret (zero_Response, Some e)
    | Ok ([], _) => mret (zero_Response, Some (ErrorString "runtime returned no choices"))
    | Ok ((message, finish) :: _, usage) => answer (Content message) finish usage
    end.

(** A type assertion to a map or a slice gives an empty one when it fails. *)
Definition any_field (v : json.value) (name : string) : json.value :=
  match v with
  | json.Object fields => default json.Null (snd <$> head (filter (λ kv, kv.1 = name) fields))
  | _ => json.Null
  end.

(* src: internal/aifabric/http_runtime.go:295-309 (extractDelta) *)
Definition extractDelta (value : json.value) (kind : string) : string :=
  match any_field value "response", bool_decide (kind = "ollama") with
  | json.Text v, true => v
  | _, _ =>
      match any_field value "choices" with
      | json.Array (choice :: _) =>
          match any_field (any_field choice "delta") "content" with
          | json.Text text => text
          | _ => ""
          end
      | _ => ""
      end
  end.

(** What a line of the stream gives: the text of a token, or nothing. *)
(* src: internal/aifabric/http_runtime.go:201-210 (Stream) *)
Definition token_of (line : string) : option string :=
  let line := strings.TrimPrefix (strings.TrimSpace line) "data:" in
  if decide (line = "" ∨ line = "[DONE]") then None
  else match json.Unmarshal line with
       | Ok (json.Object fields) => Some (extractDelta (json.Object fields) (kind r))
       | Ok json.Null => Some ""
       | _ => None
       end.

Definition stream_event (req : InferenceRequest) (typ delta : string) (done : bool) : StreamEvent :=
  mkStreamEvent (Req_ID req) typ delta None None None "" done.

(** The goroutine reads the lines of the response. *)
(* src: internal/aifabric/http_runtime.go:183-216 (Stream) *)
Definition HTTP_Stream (req : InferenceRequest) : M W (list StreamEvent * option goerror) :=
  let '(path, body) :=
    if is_ollama r then ("/api/generate", ollama_body req true)
    else ("/v1/chat/completions",
          json.Object [("messages", json.Array (message_json <$> Messages req));
                       ("model", json.Text (Req_ModelID req)); ("stream", json.Bool true)]) in
  let! raw := do_ "POST" path (Some body) in
  mret match raw with
       | Err e => ([], Some e)
       | Ok raw =>
           (((λ delta, stream_event req "token" delta false) <$> omap token_of (Lines raw)) ++
            [stream_event req "completion" "" true], None)
       end.

Definition embedding (v : json.value) : option (list float32) :=
  fields ← json.as_object v; json.as_list json.to_float32 (json.field fields "embedding").
Definition embeddings (v : json.value) : option (list (list float32)) :=
  fields ← json.as_object v; json.as_list embedding (json.field fields "data").

(* src: internal/aifabric/http_runtime.go:217-240 (Embeddings) *)
Definition HTTP_Embeddings (req : InferenceRequest)
    : M W (list (list float32) * option goerror) :=
  let body key := json.Object
    (if bool_decide (key = "prompt")
     then [("model", json.Text (Req_ModelID req)); (key, json.Text (lastContent (Messages req)))]
     else [(key, json.Text (lastContent (Messages req))); ("model", json.Text (Req_ModelID req))]) in
  if is_ollama r then
    let! out := post "/api/embeddings" (body "prompt") embedding in
    mret match out with Err e => ([], Some e) | Ok v => ([v], None) end
  else
    let! out := post "/v1/embeddings" (body "input") embeddings in
    mret match out with Err e => ([], Some e) | Ok vs => (vs, None) end.

(** The runtime as the fabric sees it; [host] is [DiscoverHostResources]. *)
(* src: internal/aifabric/http_runtime.go:47-48 (Spec, Capabilities) *)
Definition http_runtime (host : M W (HostResources * option goerror)) : AIRuntime W :=
  mkRuntime (spec r) HTTP_Discover HTTP_Install HTTP_Remove HTTP_Start HTTP_Stop HTTP_Restart
    HTTP_Health HTTP_ListModels HTTP_LoadModel HTTP_UnloadModel HTTP_Generate HTTP_Stream
    HTTP_Embeddings (caps r) host.
End runtime.

(** ** What the runtimes do for the manager *)

Section facts.
Context `{strings.GoUnicode} `{json.GoJson} {W : Type} (client : Client W) (now : M W Z).
Implicit Types (r : HTTPRuntime) (req : InferenceRequest).

(** A manager as the server builds it: every runtime is an HTTP runtime. *)
Definition http_only (m : Manager W) : Prop :=
  map_Forall (λ _ rt, ∃ r host, rt = http_runtime client now r host) (runtimes (Registry m)).

(** The server cannot start, stop or restart a runtime.  Every runtime it registers
    is an HTTP runtime, and for those the three operations always fail, for every
    identifier, without a request, an event or a change of the manager. *)
Theorem http_lifecycle_fails (sink : option (EventSink W)) id m w op err mw' :
  http_only m → op ∈ [Start sink id; Stop sink id; Restart sink id] →
  op (m, w) = (err, mw') →
  mw' = (m, w) ∧ err = Some (match runtimes (Registry m) !! id with
                             | Some _ => ErrExternalLifecycle
                             | None => ErrRuntimeNotFound
                             end).
Proof.
  intros Hm Hop Ho.
  assert (∃ event fn, op = lifecycle sink id event fn ∧
    (∀ r host, fn (http_runtime client now r host) = mret (Some ErrExternalLifecycle))) as (ev & fn & -> & Hfn).
  { rewrite !elem_of_cons, elem_of_nil in Hop. destruct Hop as [-> |[-> |[-> |[]]]]; by do 2 eexists. }
  unfold lifecycle in Ho. apply mthen_inv in Ho as (o & sw & Hr & Ho).
  apply mthen_inv in Hr as (o' & sw1 & [-> ->]%look_inv & [<- <-]%mret_inv). cbn [fst] in Ho.
  unfold Registry_Runtime in Ho. destruct (runtimes (Registry m) !! id) as [rt|] eqn:Hid.
  - destruct (Hm _ _ Hid) as (r & host & ->). rewrite Hfn in Ho.
    apply mthen_inv in Ho as (e & [m1 w1] & [He Hm1]%outside_inv & Ho).
    cbn [fst snd] in *. subst m1. apply mret_inv in He as [<- <-]. by apply mret_inv in Ho as [<- <-].
  - by apply mret_inv in Ho as [<- <-].
Qed.

(** The events of a stream: tokens, then one that says it is complete, all of the
    request. *)
Definition streamed req (events : list StreamEvent) : Prop :=
  ∃ deltas, events =
    ((λ delta, stream_event req "token" delta false) <$> deltas) ++ [stream_event req "completion" "" true].

Lemma HTTP_Stream_events r req w events w' :
  HTTP_Stream client r req w = ((events, None), w') → streamed req events.
Proof.
  unfold HTTP_Stream. destruct (if is_ollama r then _ else _) as [path body].
  intros ([raw|e] & w1 & _ & Hk)%mthen_inv; apply mret_inv in Hk as [[=] _]; subst. by eexists.
Qed.

Lemma forward_events (sink : option (EventSink W)) req events mw sent mw' :
  forward sink req events mw = (sent, mw') →
  sent = (λ e, e <| Stream_RequestID := Req_ID req |>) <$> events ∧ mw'.1 = mw.1.
Proof.
  revert mw sent mw'. induction events as [|e l IH]; intros mw sent mw'; cbn [forward].
  - intros (u & mw1 & Hp & [<- <-]%mret_inv)%mthen_inv. apply publish_inv in Hp. by rewrite Hp.
  - intros (u & mw1 & Hp & Hk)%mthen_inv. apply mthen_inv in Hk as (s & mw2 & [-> H2]%IH & [<- <-]%mret_inv).
    split; [done|]. rewrite H2. case_decide; [by apply publish_inv in Hp|].
    by apply mret_inv in Hp as [_ ->].
Qed.

(** Streaming.  What the reader of a stream gets from the manager, when the runtime
    is one of the server's, is tokens in the order of the response followed by exactly
    one completion, all with the identifier of the request, whatever the server
    sends: lines that are not JSON objects are left out, and a stream that breaks off
    ends like a complete one. *)
Theorem Stream_correct (sink : option (EventSink W)) req m w events err m' w' :
  http_only m → Stream sink req (m, w) = ((events, err), (m', w')) →
  m' = m ∧
  match err with
  | None => streamed req events ∧ List.filter Done events = [stream_event req "completion" "" true]
  | Some _ => events = []
  end.
Proof.
  intros Hm (o & sw & Hr & Hk)%mthen_inv.
  apply mthen_inv in Hr as (o' & sw1 & [-> ->]%look_inv & [<- <-]%mret_inv). cbn [fst] in Hk.
  unfold Registry_Runtime in Hk. destruct (runtimes (Registry m) !! Req_RuntimeID req) as [rt|] eqn:Hid;
    [|by apply mret_inv in Hk as [[= <- <-] [= <- _]]].
  destruct (Hm _ _ Hid) as (r & host & ->).
  apply mthen_inv in Hk as ([l e] & [m1 w1] & [Hs Hm1]%outside_inv & Hk). cbn [fst snd] in *. subst m1.
  destruct e; [by apply mret_inv in Hk as [[= <- <-] [= <- _]]|].
  apply HTTP_Stream_events in Hs as [deltas ->].
  apply mthen_inv in Hk as (sent & [m2 w2] & [-> Hm2]%forward_events & Hk).
  apply mret_inv in Hk as [[= <- <-] [= <- _]]. split; [done|].
  assert (∀ ds, (λ e, e <| Stream_RequestID := Req_ID req |>) <$>
    (((λ delta, stream_event req "token" delta false) <$> ds) ++ [stream_event req "completion" "" true])
    = ((λ delta, stream_event req "token" delta false) <$> ds) ++ [stream_event req "completion" "" true]) as ->.
  { intros ds. rewrite fmap_app, <-list_fmap_compose. done. }
  split; [by eexists|]. rewrite List.filter_app. by induction deltas.
Qed.

(** A server that speaks the OpenAI protocol answers an object whose [data] lists the
    models.  The adapter reads [models], so it finds none and reports no error. *)
Lemma openai_lists_nothing r w resp fields w' :
  is_ollama r = false → do_ client r "GET" "/v1/models" None w = (Ok resp, w') →
  json.Decode (Payload resp) = Ok (json.Object fields) →
  json.field fields "models" = json.Null →
  HTTP_ListModels client r w = (([], None), w').
Proof.
  intros Hr Hd Hj Hf. unfold HTTP_ListModels, get, mthen. rewrite Hr, Hd. cbn [decode].
  unfold decode. rewrite Hj. unfold listed_models. cbn. by rewrite Hf.
Qed.
End facts.

(** ** Witnesses *)

(** A parser that knows one text, and a server that streams it between other lines. *)
#[local] Instance one_text : json.GoJson := {|
  json.Unmarshal := λ s, if decide (s = "{hi}")
    then Ok (json.Object [("response", json.Text "hi")]) else Err (ErrorString "syntax");
  json.Decode := λ s, Err (ErrorString "syntax");
  json.type_error := λ _, ErrorString "type";
  json.to_float32 := λ _, None
|}.
Definition one_server : Client unit := λ _,
  mret (Ok (mkHttpResponse 200 "" ["data:{hi}"; ""; ": ping"; " {hi} "])).
Definition ollama : AIRuntime unit :=
  http_runtime (H := strings.ascii_unicode) one_server (mret 0)
    (NewOllamaRuntime (mkSpec "ollama" "" "http://ai:11434/" true false ∅))
    (mret (mkHost 0 0 0 0 0 0 0 0 [] 0, None)).
Definition ollama_manager : Manager unit :=
  (NewManager None) <| Registry := (RegisterRuntime NewRuntimeRegistry (Some ollama)).2 |>.

Lemma ollama_manager_ok : http_only (H := strings.ascii_unicode) one_server (mret 0) ollama_manager.
Proof.
  unfold http_only, ollama_manager. simpl. apply map_Forall_insert_2, map_Forall_empty.
  unfold ollama. by do 2 eexists.
Qed.

Lemma http_lifecycle_fails_witness :
  Start (W := unit) None "ollama" (ollama_manager, tt) =
  (Some ErrExternalLifecycle, (ollama_manager, tt)).
Proof.
  destruct (Start (W := unit) None "ollama" (ollama_manager, tt)) as [err mw'] eqn:E.
  destruct (http_lifecycle_fails (H := strings.ascii_unicode) one_server (mret 0) None "ollama"
    ollama_manager tt _ err mw' ollama_manager_ok ltac:(by left) E) as [-> ->]. done.
Defined.

Definition hello : InferenceRequest :=
  mkRequest "r1" "p" "" "" "m" "ollama" [mkMessage "user" "hi" "" ""] "" [] None 0 ∅ ∅ [] true.
Lemma Stream_correct_witness :
  let r := Stream (W := unit) None hello (ollama_manager, tt) in
  r.1.2 = None ∧ Delta <$> r.1.1 = ["hi"; "hi"; ""] ∧ streamed hello r.1.1.
Proof.
  intros r. destruct r as [[events err] [m' []]] eqn:E. unfold r in E.
  assert (err = None ∧ Delta <$> events = ["hi"; "hi"; ""]) as [-> Hd]
    by (vm_compute in E; by injection E as <- <-).
  split; [done|]. split; [done|].
  by apply (Stream_correct (H := strings.ascii_unicode) one_server (mret 0)) in E
    as (_ & Hs & _); [exact Hs|apply ollama_manager_ok].
Defined.
End airuntime.
