(* ===== verification/ModelRegistry.v ===== *)
(** * The registry of providers and models

    [src/internal/model/registry.go]: the providers and the models of the agents, and
    the configuration of an agent. *)

From stdpp Require Import relations.
From S2P Require Import Prelude AgentTypes.

Module model.
Import agent.

(* src: internal/model/registry.go:10-14 (Registry) *)
Record Registry := mkRegistry { providers : gmap string Provider; models : gmap string Model }.
#[global] Instance eta_Registry : Eta Registry := λ r, mkRegistry (providers r) (models r).

(* src: internal/model/registry.go:16-18 (NewRegistry) *)
Definition NewRegistry : Registry := mkRegistry ∅ ∅.

(* src: internal/model/registry.go:19-30 (RegisterProvider) *)
Definition RegisterProvider (p : Provider) (r : Registry) : option goerror * Registry :=
  if decide (Provider_ID p = "" ∨ Provider_Name p = "")
  then (Some (ErrorString "provider id and name are required"), r)
  else match providers r !! Provider_ID p with
       | Some _ => (Some (ErrorString "provider already registered"), r)
       | None => (None, r <| providers := <[Provider_ID p := p]> (providers r) |>)
       end.

(* src: internal/model/registry.go:31-45 (RegisterModel) *)
Definition RegisterModel (m : Model) (r : Registry) : option goerror * Registry :=
  if decide (Model_ID m = "" ∨ Model_Provider m = "" ∨ Model_Model m = "")
  then (Some (ErrorString "model id, provider id, and model id are required"), r)
  else match providers r !! Model_Provider m with
       | None => (Some (ErrorString "provider not registered"), r)
       | Some _ =>
           match models r !! Model_ID m with
           | Some _ => (Some (ErrorString "model already registered"), r)
           | None => (None, r <| models := <[Model_ID m := m]> (models r) |>)
           end
       end.

Section lists.
Context `{MapOrder}.
(* src: internal/model/registry.go:46-54 (Providers) *)
Definition Providers (r : Registry) : list Provider := (map_range 0 (providers r)).*2.
(* src: internal/model/registry.go:55-63 (Models) *)
Definition Models (r : Registry) : list Model := (map_range 1 (models r)).*2.
(* src: internal/model/registry.go:76-86 (ModelsForProvider) *)
Definition ModelsForProvider (r : Registry) (providerID : string) : list Model :=
  filter (λ m, Model_Provider m = providerID) (map_range 2 (models r)).*2.
End lists.

(* src: internal/model/registry.go:64-69 (Provider) *)
Definition Provider_ (r : Registry) (id : string) : option Provider := providers r !! id.
(* src: internal/model/registry.go:70-75 (Model) *)
Definition Model_ (r : Registry) (id : string) : option Model := models r !! id.

(* src: internal/model/registry.go:88-96 (AgentConfiguration) *)
Record AgentConfiguration := mkConfiguration {
  Configuration_ID : string;
  Configuration_AgentID : string;
  Configuration_Name : string;
  Configuration_Models : list ModelReference;
  DefaultModel : option ModelReference;
  CredentialReferenceID : string;
  Permissions : PermissionPolicy
}.

(** ** The states of the registry *)

Inductive registry_step : Registry → Registry → Prop :=
  | step_provider p r : registry_step r (RegisterProvider p r).2
  | step_model m r : registry_step r (RegisterModel m r).2.

Record registry_ok (r : Registry) : Prop := {
  ok_providers : map_Forall (λ id p, Provider_ID p = id ∧ id ≠ "" ∧ Provider_Name p ≠ "") (providers r);
  ok_models : map_Forall (λ id m, Model_ID m = id ∧ id ≠ "" ∧ Model_Model m ≠ "" ∧
    ∃ p, providers r !! Model_Provider m = Some p ∧ Provider_ID p = Model_Provider m) (models r)
}.

Lemma registry_step_ok r r' : registry_step r r' → registry_ok r →
  registry_ok r' ∧ providers r ⊆ providers r' ∧ models r ⊆ models r'.
Proof.
  intros [p r0|m r0] [Hp Hm].
  - unfold RegisterProvider. case_decide as Hn; [done|].
    destruct (providers r0 !! Provider_ID p) as [q|] eqn:Hq; [done|]. cbn.
    assert (providers r0 ⊆ <[Provider_ID p := p]> (providers r0)) as Hsub by by apply insert_subseteq.
    split; [|done]. split; cbn.
    + apply map_Forall_insert_2; [|done]. naive_solver.
    + intros id m Hid. destruct (Hm id m Hid) as (? & ? & ? & q & Hq' & ?). split_and!; try done.
      exists q. split; [|done]. by eapply lookup_weaken.
  - unfold RegisterModel. case_decide as Hn; [done|].
    destruct (providers r0 !! Model_Provider m) as [q|] eqn:Hq; [|done].
    destruct (models r0 !! Model_ID m) as [m'|] eqn:Hm'; [done|]. cbn.
    split; [|split; [done|by apply insert_subseteq]]. split; cbn; [done|].
    apply map_Forall_insert_2; [|done]. destruct (Hp _ _ Hq) as (Hid & _ & _). naive_solver.
Qed.

(** The registry.  In every state reached from an empty registry by registering
    providers and models, in any order and with any errors, both are filed under their
    own identifiers, none of which is empty, the provider of every model is
    registered, [ModelsForProvider] lists exactly the models of a provider, each once;
    and what has been registered is never changed or removed afterwards. *)
Theorem model_registry_ok `{MapOrder} r r' id :
  rtc registry_step NewRegistry r → rtc registry_step r r' →
  registry_ok r ∧ providers r ⊆ providers r' ∧ models r ⊆ models r' ∧
  NoDup (ModelsForProvider r id) ∧
  (∀ m, m ∈ ModelsForProvider r id ↔ Model_ r (Model_ID m) = Some m ∧ Model_Provider m = id) ∧
  (∀ m, m ∈ ModelsForProvider r id → is_Some (Provider_ r id)).
Proof.
  intros H0 Hr. assert (registry_ok NewRegistry) as Hok by (split; apply map_Forall_empty).
  assert (registry_ok r) as Hr0.
  { clear Hr. induction H0 as [|a b c Hs _ IH]; [done|]. by apply IH, (registry_step_ok _ _ Hs). }
  assert (providers r ⊆ providers r' ∧ models r ⊆ models r') as [Hp Hm].
  { clear H0. induction Hr as [|a b c Hs _ IH]; [done|].
    destruct (registry_step_ok _ _ Hs Hr0) as (Hb & Hp & Hm). destruct (IH Hb).
    split; by etransitivity. }
  assert (∀ m, m ∈ (map_range 2 (models r)).*2 ↔ Model_ r (Model_ID m) = Some m) as Hin.
  { intros m. rewrite list_elem_of_fmap. unfold Model_. split.
    - intros ([k m'] & -> & Hk%elem_of_map_range). cbn. by destruct (ok_models _ Hr0 _ _ Hk) as [-> _].
    - intros Hk. exists (Model_ID m, m). split; [done|]. by apply elem_of_map_range. }
  split; [done|]. split; [done|]. split; [done|]. split; [|split].
  - apply NoDup_filter, NoDup_fmap_2_strong; [|by apply NoDup_fmap_1 with (f := fst), map_range_keys_nodup].
    intros [k1 m1] [k2 m2] H1%elem_of_map_range H2%elem_of_map_range Heq. cbn in Heq. subst m2.
    destruct (ok_models _ Hr0 _ _ H1) as [<- _], (ok_models _ Hr0 _ _ H2) as [<- _]. done.
  - intros m. unfold ModelsForProvider. rewrite list_elem_of_filter, Hin. naive_solver.
  - intros m [Hid Hk%Hin]%list_elem_of_filter.
    destruct (ok_models _ Hr0 _ _ Hk) as (_ & _ & _ & p & Hq & _). exists p.
    unfold Provider_. by rewrite <-Hid.
Qed.

(** ** A witness *)

Definition lab_provider : Provider := mkAgentProvider "lab" "Lab" "" "" "" "" ∅.
Lemma model_registry_ok_witness :
  let r := (RegisterProvider lab_provider NewRegistry).2 in
  registry_ok r ∧ ModelsForProvider (H := canonical_order) r "lab" = [].
Proof.
  intros r. split; [|by vm_compute].
  apply (model_registry_ok (H := canonical_order) r r "lab"); [|done].
  apply rtc_once, step_provider.
Defined.
End model.
