(* ===== verification/AuthUsers.v ===== *)
(** * Users, passwords and memberships

    [src/internal/auth/users.go] and [memberships.go]: hashing and checking passwords,
    the bootstrap of the first administrator and the login, and the tables of users and
    of project memberships that their SQL statements read and write, with the
    constraints of [src/migrations/014_authentication.sql].  The key derivation of
    [golang.org/x/crypto/argon2] is a parameter. *)

From Stdlib Require Import Ascii.
From stdpp Require Import pretty.
From S2P Require Import Prelude GoStrings World Auth.
Import crypto.

Module users.
Import auth.

(* src: internal/auth/users.go:18-18 (ErrUserNotFound) *)
Definition ErrUserNotFound : goerror := ErrorString "user not found".
(* src: internal/auth/users.go:19-19 (ErrBootstrapComplete) *)
Definition ErrBootstrapComplete : goerror := ErrorString "administrator already exists".
(* src: internal/auth/users.go:20-20 (ErrInvalidCredentials) *)
Definition ErrInvalidCredentials : goerror := ErrorString "invalid credentials".

(* src: internal/auth/users.go:24-24 (passwordSaltBytes) *)
Definition passwordSaltBytes : nat := 16.
(* src: internal/auth/users.go:25-25 (passwordKeyBytes) *)
Definition passwordKeyBytes : nat := 32.
(* src: internal/auth/users.go:26-26 (argonTime) *)
Definition argonTime : Z := 3.
(* src: internal/auth/users.go:27-27 (argonMemory) *)
Definition argonMemory : Z := 64 * 1024.
(* src: internal/auth/users.go:28-28 (argonThreads) *)
Definition argonThreads : Z := 2.

(** ** Passwords *)

(** [argon2.IDKey(password, salt, time, memory, threads, keyLen)]: a key of the length
    asked for. *)
Class Argon2 := {
  IDKey : string → string → Z → Z → Z → nat → string;
  IDKey_length p s t m n len : String.length (IDKey p s t m n len) = len
}.

(** [encoding/hex.DecodeString], [None] for its error. *)
Definition unhex_digit (c : ascii) : option nat :=
  let n := nat_of_ascii c in
  if strings.in_range 48 57 c then Some (n - 48)%nat
  else if strings.in_range 97 102 c then Some (n - 87)%nat
  else if strings.in_range 65 70 c then Some (n - 55)%nat
  else None.
Fixpoint hex_DecodeString (s : string) : option string :=
  match s with
  | EmptyString => Some EmptyString
  | String a (String b s) =>
      hi ← unhex_digit a; lo ← unhex_digit b; rest ← hex_DecodeString s;
      Some (String (ascii_of_nat (16 * hi + lo)) rest)
  | String _ EmptyString => None
  end.

(** [%d] of [fmt.Sscanf] for a [uint32] and an ASCII input: spaces, but no newline, then digits; the number
    and the rest of the input. *)
Fixpoint skip_space (s : string) : option string :=
  match s with
  | String c s' =>
      if decide (c = ascii_of_nat 10) then None
      else if strings.ascii_space c then skip_space s' else Some s
  | EmptyString => Some EmptyString
  end.
Fixpoint scan_digits (acc : option Z) (s : string) : option Z * string :=
  match s with
  | String c s' =>
      if strings.in_range 48 57 c
      then scan_digits (Some (default 0 acc * 10 + Z.of_nat (nat_of_ascii c) - 48)) s'
      else (acc, s)
  | EmptyString => (acc, s)
  end.
Definition scan_uint32 (s : string) : option (Z * string) :=
  s ← skip_space s;
  match scan_digits None s with
  | (Some n, rest) => if n <? 2 ^ 32 then Some (n, rest) else None
  | (None, _) => None
  end.
Definition scan_text (pre s : string) : option string :=
  if strings.HasPrefix s pre then Some (strings.drop (String.length pre) s) else None.

(** [fmt.Sscanf(s, "m=%d,t=%d,p=%d", ...)]; what follows is not looked at. *)
Definition scan_params (s : string) : option (Z * Z * Z) :=
  s ← scan_text "m=" s; '(m, s) ← scan_uint32 s;
  s ← scan_text ",t=" s; '(t, s) ← scan_uint32 s;
  s ← scan_text ",p=" s; '(p, _) ← scan_uint32 s;
  Some (m, t, p).

(** The loop that adds up the differences of two keys of the same length. *)
Fixpoint differences (diff : Z) (actual expected : string) : Z :=
  match actual, expected with
  | String a actual, String e expected =>
      differences (Z.lor diff (Z.lxor (Z.of_nat (nat_of_ascii a)) (Z.of_nat (nat_of_ascii e))))
        actual expected
  | _, _ => diff
  end.

(* src: internal/auth/users.go:251-256 (validatePassword) *)
Definition validatePassword (password : string) : option goerror :=
  if (String.length password <? 12)%nat
  then Some (ErrorString "password must be at least 12 characters") else None.

Section passwords.
Context `{Argon2} `{strings.GoUnicode}.

(* src: internal/auth/users.go:258-258 (normalizeEmail) *)
Definition normalizeEmail (email : string) : string := strings.ToLower (strings.TrimSpace email).

(* src: internal/auth/users.go:243-249 (validateEmail) *)
Definition validateEmail (email : string) : option goerror :=
  let email := normalizeEmail email in
  if bool_decide (email = "") || negb (strings.Contains email "@") ||
     strings.ContainsAny email (strings.bytes [13%nat; 10%nat])
  then Some (ErrorString "a valid email is required") else None.

(** The text that is stored for a salt and a key. *)
Definition encode_password (salt key : string) : string :=
  "argon2id$v=19$m=65536,t=3,p=2$" +:+ hex_EncodeToString salt +:+ "$" +:+ hex_EncodeToString key.

(* src: internal/auth/users.go:203-213 (HashPassword) *)
Definition HashPassword {W} `{Random W} (password : string) : M W (result string) :=
  match validatePassword password with
  | Some e => mret (Err e)
  | None =>
      let! salt := rand_Read passwordSaltBytes in
      mret (let? salt := salt in
            Ok (encode_password salt
                  (IDKey password salt argonTime argonMemory argonThreads passwordKeyBytes)))
  end.

(* src: internal/auth/users.go:215-241 (VerifyPassword) *)
Definition VerifyPassword (encoded password : string) : bool :=
  match strings.Split encoded "$" with
  | [p0; p1; p2; p3; p4] =>
      bool_decide (p0 = "argon2id") && bool_decide (p1 = "v=19") &&
      match scan_params p2, hex_DecodeString p3, hex_DecodeString p4 with
      | Some (memory, iterations, threads), Some salt, Some expected =>
          if (memory =? 0) || (iterations =? 0) || (threads =? 0) then false
          else if bool_decide (salt = "") || bool_decide (expected = "") then false
          else
            let actual := IDKey password salt iterations memory (threads mod 2 ^ 8)
                            (String.length expected) in
            if (String.length actual =? String.length expected)%nat
            then differences 0 actual expected =? 0 else false
      | _, _, _ => false
      end
  | _ => false
  end.

(* src: internal/auth/users.go:260-266 (newUserID) *)
Definition newUserID {W} `{World W} `{Random W} : M W string :=
  let! buf := rand_Read 16 in
  match buf with
  | Ok buf => mret ("user-" +:+ hex_EncodeToString buf)
  | Err _ => let! t := time_Now in mret ("user-" +:+ pretty (UnixNano t))
  end.
End passwords.

(** ** The users *)

(* src: internal/auth/users.go:31-37 (UserRepository) *)
Record UserRepository (W : Type) := mkUsers {
  CountUsers : M W (Z * option goerror);
  CreateAdmin : User → string → M W (option goerror);
  FindByEmail : string → M W (User * string * option goerror);
  User_FindByID : string → M W (User * option goerror);
  TouchLogin : string → Z → M W (option goerror)
}.
Arguments mkUsers {W}.
Arguments CountUsers {W}.
Arguments CreateAdmin {W}.
Arguments FindByEmail {W}.
Arguments User_FindByID {W}.
Arguments TouchLogin {W}.

Definition zero_User : User := mkUser "" "" "" (RoleOther "") "" time_zero time_zero None.
#[global] Instance eta_User : Eta User := λ u,
  mkUser (User_ID u) (Email u) (DisplayName u) (Role u) (User_Status u) (User_CreatedAt u)
    (User_UpdatedAt u) (LastLoginAt u).

(** The tables [users] and [password_credentials]: rows in the order they were inserted,
    and the hash of a user. *)
Record user_tables := mkTables { user_rows : list User; credentials : gmap string string }.
#[global] Instance eta_tables : Eta user_tables := λ t, mkTables (user_rows t) (credentials t).

(** What PostgreSQL does with letters, and its errors. *)
Class UserDatabase := { lower : string → string; constraint_violated : goerror }.

Section repository.
Context `{UserDatabase} `{strings.GoUnicode} {W : Type}.
Notation C A := (M (user_tables * W) A).

(* src: internal/auth/users.go:43-50 (PostgresUserRepository.CountUsers) *)
Definition pg_CountUsers : C (Z * option goerror) :=
  look (λ t, (Z.of_nat (length (user_rows t)), None)).

(** One transaction under an advisory lock: nothing is kept unless it commits. *)
(* src: internal/auth/users.go:52-85 (PostgresUserRepository.CreateAdmin) *)
Definition pg_CreateAdmin (user : User) (passwordHash : string) : C (option goerror) :=
  inside (λ t,
    match user_rows t with
    | _ :: _ => (Some ErrBootstrapComplete, t)
    | [] =>
        let row := mkUser (User_ID user) (normalizeEmail (Email user)) (DisplayName user)
          RoleAdmin "active" (micros (User_CreatedAt user)) (micros (User_CreatedAt user)) None in
        match credentials t !! User_ID user with
        | Some _ => (Some constraint_violated, t)
        | None => (None, mkTables [row] (<[User_ID user := passwordHash]> (credentials t)))
        end
    end).

(* src: internal/auth/users.go:87-110 (PostgresUserRepository.FindByEmail) *)
Definition pg_FindByEmail (email : string) : C (User * string * option goerror) :=
  look (λ t,
    match filter (λ u, lower (Email u) = lower (normalizeEmail email)) (user_rows t) with
    | u :: _ => (u, default "" (credentials t !! User_ID u), None)
    | [] => (zero_User, "", Some ErrUserNotFound)
    end).

(* src: internal/auth/users.go:112-125 (PostgresUserRepository.FindByID) *)
Definition pg_FindByID (id : string) : C (User * option goerror) :=
  look (λ t, match filter (λ u, User_ID u = id) (user_rows t) with
             | u :: _ => (u, None)
             | [] => (zero_User, Some ErrUserNotFound)
             end).

(* src: internal/auth/users.go:127-133 (PostgresUserRepository.TouchLogin) *)
Definition pg_TouchLogin (id : string) (now : Z) : C (option goerror) :=
  let! _ := modify (λ t, t <| user_rows := (λ u,
    if decide (User_ID u = id)
    then u <| LastLoginAt := Some (micros now) |> <| User_UpdatedAt := micros now |>
    else u) <$> user_rows t |>) in
  mret None.

(* src: internal/auth/users.go:39-41 (PostgresUserRepository) *)
Definition PostgresUserRepository : UserRepository (user_tables * W) :=
  mkUsers pg_CountUsers pg_CreateAdmin pg_FindByEmail pg_FindByID pg_TouchLogin.
End repository.

(** ** Bootstrap and login *)

Section service.
Context `{Argon2} `{strings.GoUnicode} `{Sha256} {W : Type} `{World W} `{Random W}.
(** The users, the sessions and the clock of an [AuthService]. *)
Variable (Users : option (UserRepository W)) (Sessions : SessionService W) (Now : option (M W Z)).

(* src: internal/auth/users.go:142-147 (AuthService.now) *)
Definition auth_now : M W Z := default time_Now Now.

Definition no_login (e : goerror) : User * Session * string * option goerror :=
  (zero_User, zero_Session, "", Some e).

(* src: internal/auth/users.go:149-176 (Bootstrap) *)
Definition Bootstrap (email displayName password : string) : M W (User * option goerror) :=
  match Users with
  | None => mret (zero_User, Some (ErrorString "user repository is required"))
  | Some users =>
      match validateEmail email, validatePassword password with
      | Some e, _ => mret (zero_User, Some e)
      | None, Some e => mret (zero_User, Some e)
      | None, None =>
          let! (count, err) := CountUsers users in
          match err with
          | Some e => mret (zero_User, Some e)
          | None =>
              if 0 <? count then mret (zero_User, Some ErrBootstrapComplete)
              else
                let! now := auth_now in
                let! id := newUserID in
                let user := mkUser id (normalizeEmail email) (strings.TrimSpace displayName)
                  RoleAdmin "active" now now None in
                let! hashed := HashPassword password in
                match hashed with
                | Err e => mret (zero_User, Some e)
                | Ok passwordHash =>
                    let! err := CreateAdmin users user passwordHash in
                    mret match err with Some e => (zero_User, Some e) | None => (user, None) end
                end
          end
      end
  end.

(* src: internal/auth/users.go:178-194 (Login) *)
Definition Login (email password userAgent ip : string)
    : M W (User * Session * string * option goerror) :=
  match Users with
  | None => mret (no_login (ErrorString "user repository is required"))
  | Some users =>
      let! (user, passwordHash, err) := FindByEmail users email in
      if negb (bool_decide (err = None)) || negb (bool_decide (User_Status user = "active")) ||
         bool_decide (passwordHash = "") || negb (VerifyPassword passwordHash password)
      then mret (no_login ErrInvalidCredentials)
      else
        let! t := auth_now in
        let! err := TouchLogin users (User_ID user) t in
        match err with
        | Some e => mret (no_login e)
        | None =>
            let! (session, token, err) := Create Sessions (mkInput (User_ID user) 0 userAgent ip) in
            mret match err with
                 | Some e => no_login e
                 | None => (user, session, token, None)
                 end
        end
  end.
End service.

(** ** The table of memberships *)

(* src: internal/auth/memberships.go:29-38 (ProjectMember) *)
Record ProjectMember := mkMember {
  Member_ProjectID : string;
  Member_UserID : string;
  Member_Email : string;
  Member_DisplayName : string;
  Member_Role : string;
  Member_Status : string;
  Member_CreatedAt : Z;
  Member_UpdatedAt : Z
}.

(* src: internal/auth/memberships.go:40-46 (MembershipRepository) *)
Record MembershipRepository (W : Type) := mkMemberships {
  Repo_GetMembership : string → string → M W (ProjectMembership * option goerror);
  SetMembership : ProjectMembership → M W (option goerror);
  ListProjectIDs : string → M W (list string * option goerror);
  ListProjectMembers : string → M W (list ProjectMember * option goerror);
  RemoveMembership : string → string → M W (option goerror)
}.
Arguments mkMemberships {W}.
Arguments Repo_GetMembership {W}.
Arguments SetMembership {W}.
Arguments ListProjectIDs {W}.
Arguments ListProjectMembers {W}.
Arguments RemoveMembership {W}.

(** The rows, of which no two have the same project and user, with the projects and the
    users they may refer to. *)
Record membership_table := mkMembershipTable {
  projects : gset string;
  members : list User;
  rows : list ProjectMembership
}.
#[global] Instance eta_membership_table : Eta membership_table := λ t,
  mkMembershipTable (projects t) (members t) (rows t).
#[global] Instance eta_Membership : Eta ProjectMembership := λ m,
  mkMembership (Membership_ProjectID m) (Membership_UserID m) (Membership_Role m)
    (Membership_CreatedAt m) (Membership_UpdatedAt m).

Definition zero_Membership : ProjectMembership := mkMembership "" "" "" time_zero time_zero.
Definition of_pair (project user : string) (m : ProjectMembership) : Prop :=
  Membership_ProjectID m = project ∧ Membership_UserID m = user.
#[global] Instance of_pair_dec project user m : Decision (of_pair project user m).
Proof. unfold of_pair. apply _. Defined.
Definition owns (project : string) (m : ProjectMembership) : Prop :=
  Membership_ProjectID m = project ∧ Membership_Role m = "owner".
#[global] Instance owns_dec project m : Decision (owns project m).
Proof. unfold owns. apply _. Defined.
Definition owners (project : string) (t : membership_table) : list ProjectMembership :=
  filter (owns project) (rows t).

Section memberships.
Context `{UserDatabase} {W : Type}.
Notation C A := (M (membership_table * W) A).

(* src: internal/auth/memberships.go:55-68 (GetMembership) *)
Definition pg_GetMembership (project user : string) : C (ProjectMembership * option goerror) :=
  look (λ t, match filter (of_pair project user) (rows t) with
             | m :: _ => (m, None)
             | [] => (zero_Membership, Some ErrMembershipNotFound)
             end).

(** The constraints of a row: what it refers to exists and its role is one of four. *)
Definition membership_allowed (t : membership_table) (m : ProjectMembership) : bool :=
  bool_decide (Membership_ProjectID m ∈ projects t) &&
  bool_decide (Membership_UserID m ∈ User_ID <$> members t) &&
  bool_decide (Membership_Role m ∈ ["owner"; "editor"; "runner"; "viewer"]).

(* src: internal/auth/memberships.go:70-80 (SetMembership) *)
Definition pg_SetMembership (m : ProjectMembership) : C (option goerror) :=
  inside (λ t,
    let t0 := micros (Membership_CreatedAt m) in
    let pair := of_pair (Membership_ProjectID m) (Membership_UserID m) in
    if negb (membership_allowed t m) then (Some constraint_violated, t)
    else match filter pair (rows t) with
         | [] => (None, t <| rows := rows t ++
                    [m <| Membership_CreatedAt := t0 |> <| Membership_UpdatedAt := t0 |>] |>)
         | _ => (None, t <| rows := (λ r,
                    if decide (pair r)
                    then r <| Membership_Role := Membership_Role m |> <| Membership_UpdatedAt := t0 |>
                    else r) <$> rows t |>)
         end).

(** [ORDER BY CASE pm.role WHEN 'owner' THEN 0 ... END, lower(u.email)] *)
Definition role_rank (role : string) : Z :=
  if decide (role = "owner") then 0 else if decide (role = "editor") then 1
  else if decide (role = "runner") then 2 else 3.
Definition member_before (a b : ProjectMember) : bool :=
  (role_rank (Member_Role a) <? role_rank (Member_Role b)) ||
  (role_rank (Member_Role a) =? role_rank (Member_Role b)) &&
    String.ltb (lower (Member_Email a)) (lower (Member_Email b)).
Definition joined (m : ProjectMembership) (u : User) : ProjectMember :=
  mkMember (Membership_ProjectID m) (Membership_UserID m) (Email u) (DisplayName u)
    (Membership_Role m) (User_Status u) (Membership_CreatedAt m) (Membership_UpdatedAt m).

(* src: internal/auth/memberships.go:82-106 (ListProjectMembers) *)
Definition pg_ListProjectMembers (project : string) : C (list ProjectMember * option goerror) :=
  look (λ t, (sort_by member_before
    (m ← filter (λ m, Membership_ProjectID m = project) (rows t);
     joined m <$> filter (λ u, User_ID u = Membership_UserID m) (members t)), None)).

(* src: internal/auth/memberships.go:108-124 (RemoveMembership) *)
Definition pg_RemoveMembership (project user : string) : C (option goerror) :=
  inside (λ t,
    let last r := bool_decide (Membership_Role r = "owner") && (length (owners project t) <=? 1)%nat in
    match filter (λ r, of_pair project user r ∧ last r = false) (rows t) with
    | [] => (Some ErrMembershipNotFound, t)
    | _ => (None, t <| rows := filter (λ r, ¬ (of_pair project user r ∧ last r = false)) (rows t) |>)
    end).

(* src: internal/auth/memberships.go:126-144 (ListProjectIDs) *)
Definition pg_ListProjectIDs (user : string) : C (list string * option goerror) :=
  look (λ t, (Membership_ProjectID <$> sort_by
    (λ a b, Membership_CreatedAt b <? Membership_CreatedAt a)
    (filter (λ m, Membership_UserID m = user) (rows t)), None)).

(* src: internal/auth/memberships.go:51-53 (PostgresMembershipRepository) *)
Definition PostgresMembershipRepository : MembershipRepository (membership_table * W) :=
  mkMemberships pg_GetMembership pg_SetMembership pg_ListProjectIDs pg_ListProjectMembers
    pg_RemoveMembership.
End memberships.

(** ** Passwords: facts *)

Lemma nat_ascii_bound c : (nat_of_ascii c < 256)%nat.
Proof. apply nat_ascii_bounded. Qed.

Lemma unhex_hex n : (n < 16)%nat → unhex_digit (hex_digit n) = Some n ∧ hex_digit n ≠ "$"%char.
Proof. intros Hn. do 16 (destruct n as [|n]; [by vm_compute|]). lia. Qed.

Lemma hex_roundtrip s : hex_DecodeString (hex_EncodeToString s) = Some s.
Proof.
  induction s as [|c s IH]; [done|]. cbn [hex_EncodeToString hex_DecodeString].
  pose proof (nat_ascii_bound c) as Hc.
  destruct (unhex_hex (nat_of_ascii c / 16)%nat) as [-> _]; [by apply Nat.Div0.div_lt_upper_bound|].
  destruct (unhex_hex (nat_of_ascii c mod 16)%nat) as [-> _]; [by apply Nat.mod_upper_bound|].
  rewrite IH. cbv [mbind option_bind]. by rewrite <-Nat.div_mod_eq, ascii_nat_embedding.
Qed.

Definition no_dollar (s : string) : Prop := strings.forall_bytes (λ c, negb (Ascii.eqb c "$")) s = true.

Lemma hex_no_dollar s : no_dollar (hex_EncodeToString s).
Proof.
  unfold no_dollar. induction s as [|c s IH]; [done|].
  cbn [hex_EncodeToString strings.forall_bytes]. rewrite IH, andb_true_r.
  pose proof (nat_ascii_bound c) as Hc.
  destruct (unhex_hex (nat_of_ascii c / 16)%nat) as [_ H1]; [by apply Nat.Div0.div_lt_upper_bound|].
  destruct (unhex_hex (nat_of_ascii c mod 16)%nat) as [_ H2]; [by apply Nat.mod_upper_bound|].
  apply andb_true_iff. by split; apply negb_true_iff, Ascii.eqb_neq.
Qed.

Definition dollar_width (r : string) : nat :=
  if strings.HasPrefix r "$" then String.length "$" else 0%nat.

Lemma dollar_width_eq c r : dollar_width (String c r) = if Ascii.eqb c "$" then 1%nat else 0%nat.
Proof.
  unfold dollar_width. destruct (strings.HasPrefix (String c r) "$") eqn:Hp.
  - apply strings.HasPrefix_iff in Hp as [t Ht]. injection Ht as -> _. done.
  - destruct (Ascii.eqb_spec c "$") as [->|]; [|done].
    assert (strings.HasPrefix (String "$" r) "$" = true) as Ht; [|by rewrite Ht in Hp].
    apply strings.HasPrefix_iff. by exists r.
Qed.

Lemma pieces_dollar a s : no_dollar a →
  strings.pieces dollar_width 0 (a +:+ s) =
  let '(p, ps) := strings.pieces dollar_width 0 s in (a +:+ p, ps).
Proof.
  unfold no_dollar. induction a as [|c a IH]; cbn [strings.forall_bytes String.append].
  { intros _. destruct (strings.pieces dollar_width 0 s) eqn:E. exact E. }
  intros [Hc Ha]%andb_true_iff. change (String c a +:+ s) with (String c (a +:+ s)).
  cbn [strings.pieces]. rewrite dollar_width_eq.
  apply negb_true_iff in Hc. rewrite Hc, IH by done. by destruct (strings.pieces dollar_width 0 s).
Qed.

Lemma string_app_nil s : s +:+ "" = s.
Proof. induction s as [|c s IH]; [done|].
  change (String c (s +:+ "") = String c s). by rewrite IH.
Qed.

Lemma Split_dollar a s : no_dollar a →
  strings.Split (a +:+ "$" +:+ s) "$" = a :: strings.Split s "$".
Proof.
  intros Ha. unfold strings.Split, strings.split_by. fold dollar_width.
  rewrite pieces_dollar by done. change ("$" +:+ s) with (String "$" s).
  cbn [strings.pieces]. rewrite dollar_width_eq, Ascii.eqb_refl. cbv iota.
  destruct (strings.pieces dollar_width 0 s). cbn. by rewrite string_app_nil.
Qed.

Lemma Split_no_dollar s : no_dollar s → strings.Split s "$" = [s].
Proof.
  intros Hs. unfold strings.Split, strings.split_by. fold dollar_width.
  pose proof (pieces_dollar s "" Hs) as Hp. rewrite string_app_nil in Hp. rewrite Hp.
  cbn [strings.pieces]. by rewrite string_app_nil.
Qed.

Lemma differences_zero d a e : 0 ≤ d → String.length a = String.length e →
  differences d a e = 0 ↔ d = 0 ∧ a = e.
Proof.
  revert d e. induction a as [|c a IH]; intros d [|x e] Hd Hl; try done; cbn [differences].
  { naive_solver. }
  assert (0 ≤ Z.lxor (Z.of_nat (nat_of_ascii c)) (Z.of_nat (nat_of_ascii x))) as Hx
    by (apply Z.lxor_nonneg; lia).
  rewrite IH by (first [by apply Z.lor_nonneg|by injection Hl]).
  rewrite Z.lor_eq_0_iff, Z.lxor_eq_0_iff, Nat2Z.inj_iff. split.
  - intros [[-> Hc] ->]. split; [done|]. f_equal.
    by rewrite <-(ascii_nat_embedding c), Hc, ascii_nat_embedding.
  - by intros [-> [= -> ->]].
Qed.

Lemma string_length_nonempty s n : String.length s = S n → s ≠ "".
Proof. by intros H ->. Qed.

(** What [HashPassword] returns. *)
Lemma HashPassword_spec `{Argon2} {W} `{Random W} password w h w' :
  HashPassword password w = (Ok h, w') →
  (12 ≤ String.length password)%nat ∧ ∃ salt, String.length salt = passwordSaltBytes ∧
  h = encode_password salt (IDKey password salt argonTime argonMemory argonThreads passwordKeyBytes).
Proof.
  unfold HashPassword, validatePassword. destruct (Nat.ltb_spec (String.length password) 12) as [Hl|Hl];
    [by intros [[=] _]%mret_inv|].
  intros (salt & w1 & Hs & Hk)%mthen_inv. destruct salt as [salt|e]; [|by apply mret_inv in Hk as [[=] _]].
  apply mret_inv in Hk as [[= <-] _]. apply rand_Read_length in Hs. split; [done|]. by exists salt.
Qed.

Lemma Verify_encoded `{Argon2} salt password other :
  String.length salt = passwordSaltBytes →
  let key p := IDKey p salt argonTime argonMemory argonThreads passwordKeyBytes in
  VerifyPassword (encode_password salt (key password)) other = true ↔ key other = key password.
Proof.
  intros Hsl. cbv beta zeta. set (key := IDKey password salt argonTime argonMemory argonThreads passwordKeyBytes).
  assert (String.length key = passwordKeyBytes) as Hkl by apply IDKey_length.
  unfold VerifyPassword, encode_password.
  change ("argon2id$v=19$m=65536,t=3,p=2$" +:+ hex_EncodeToString salt +:+ "$" +:+ hex_EncodeToString key)
    with ("argon2id" +:+ "$" +:+ "v=19" +:+ "$" +:+ "m=65536,t=3,p=2" +:+ "$" +:+
          hex_EncodeToString salt +:+ "$" +:+ hex_EncodeToString key).
  rewrite !Split_dollar by (first [apply hex_no_dollar|reflexivity]).
  rewrite Split_no_dollar by apply hex_no_dollar.
  change (scan_params "m=65536,t=3,p=2") with (Some (argonMemory, argonTime, argonThreads)).
  rewrite !hex_roundtrip, Hkl, IDKey_length, !bool_decide_true, !bool_decide_false, Nat.eqb_refl
    by (done || by eapply string_length_nonempty).
  change (argonThreads mod 2 ^ 8) with argonThreads. cbn [orb andb]. cbv iota.
  change ((argonMemory =? 0) || (argonTime =? 0) || (argonThreads =? 0)) with false. cbv iota.
  rewrite Z.eqb_eq, differences_zero by (try done; by rewrite IDKey_length). naive_solver.
Qed.

(** Passwords.  [HashPassword] refuses passwords of fewer than 12 bytes; otherwise it
    draws a salt, and what it returns is accepted by [VerifyPassword] for a password
    exactly when that password derives the same key with the same salt and parameters,
    so in particular for the password that was hashed. *)
Theorem password_roundtrip `{Argon2} {W} `{Random W} password w h w' :
  HashPassword password w = (Ok h, w') →
  (12 ≤ String.length password)%nat ∧ VerifyPassword h password = true ∧
  ∃ salt, String.length salt = passwordSaltBytes ∧
  ∀ other, VerifyPassword h other = true ↔
    IDKey other salt argonTime argonMemory argonThreads passwordKeyBytes =
    IDKey password salt argonTime argonMemory argonThreads passwordKeyBytes.
Proof.
  intros (Hl & salt & Hs & ->)%HashPassword_spec. split; [done|].
  split; [by apply Verify_encoded|]. exists salt. split; [done|]. intros other. by apply Verify_encoded.
Qed.

(** ** The first administrator *)

Section first_admin.
Context `{UserDatabase} `{strings.GoUnicode} `{Argon2} `{Sha256} {W : Type} `{World W} `{Random W}.

#[local] Instance tables_world : World (user_tables * W) :=
  {| time_Now := outside time_Now; ctx_Err := outside ctx_Err |}.
#[local] Instance tables_random : Random (user_tables * W).
Proof.
  refine {| rand_Read n := outside (rand_Read n) |}.
  intros n sw b sw' [Hr _]%outside_inv. by eapply rand_Read_length.
Defined.

Lemma keeps_rand (P : user_tables → Prop) n : keeps P (rand_Read (W := user_tables * W) n).
Proof. apply keeps_outside. Qed.
Lemma keeps_time (P : user_tables → Prop) : keeps P (time_Now (W := user_tables * W)).
Proof. apply keeps_outside. Qed.
Hint Resolve keeps_rand keeps_time : keeps.
Lemma keeps_newUserID (P : user_tables → Prop) : keeps P (newUserID (W := user_tables * W)).
Proof. unfold newUserID. keep_state. Qed.
Lemma keeps_HashPassword (P : user_tables → Prop) p : keeps P (HashPassword (W := user_tables * W) p).
Proof. unfold HashPassword. keep_state. Qed.
Lemma keeps_auth_now (P : user_tables → Prop) (Now : option (M W Z)) :
  keeps P (auth_now (W := user_tables * W) (outside <$> Now)).
Proof. unfold auth_now. destruct Now; apply keeps_outside. Qed.

(** The statements that change the tables of users, in the order they are executed. *)
Inductive users_op := OpCreate (user : User) (hash : string) | OpTouch (id : string) (now : Z).
Definition run_op (op : users_op) : M (user_tables * W) (option goerror) :=
  match op with
  | OpCreate user hash => pg_CreateAdmin user hash
  | OpTouch id now => pg_TouchLogin id now
  end.

(** What the attempts to create an administrator answer. *)
Fixpoint create_answers (ops : list users_op) (tw : user_tables * W) : list (option goerror) :=
  match ops with
  | [] => []
  | op :: ops =>
      let '(err, tw) := run_op op tw in
      match op with
      | OpCreate _ _ => err :: create_answers ops tw
      | OpTouch _ _ => create_answers ops tw
      end
  end.

Definition one_admin (t : user_tables) : Prop :=
  ∃ u, user_rows t = [u] ∧ Role u = RoleAdmin ∧ User_Status u = "active".

Lemma touch_one_admin id now t (w : W) err t' w' :
  pg_TouchLogin id now (t, w) = (err, (t', w')) → one_admin t → one_admin t'.
Proof.
  intros (x & tw & ->%modify_inv & [_ [= <- _]]%mret_inv)%mthen_inv (u & Hu & Hr & Hs). unfold one_admin. cbn.
  rewrite Hu. cbn. eexists. split; [done|]. by case_decide.
Qed.

Lemma answers_with_admin ops t w : one_admin t →
  Forall (λ err, err = Some ErrBootstrapComplete) (create_answers ops (t, w)).
Proof.
  revert t w. induction ops as [|op ops IH]; intros t w Ht; cbn [create_answers]; [constructor|].
  destruct (run_op op (t, w)) as [err [t1 w1]] eqn:E. destruct op as [user hash|id now]; cbn [run_op] in E.
  - destruct Ht as (u & Hu & Hr & Hs). unfold pg_CreateAdmin, inside in E. cbn in E. rewrite Hu in E.
    injection E as <- <- <-. constructor; [done|]. apply IH. by exists u.
  - apply touch_one_admin in E; [|done]. by apply IH.
Qed.

(** There is one administrator by bootstrap.  However the transactions of concurrent
    bootstraps and logins are ordered, starting from empty tables, the first attempt
    to create the administrator succeeds and every other one is told that there is
    one already. *)
Theorem bootstrap_once ops w :
  match create_answers ops (mkTables [] ∅, w) with
  | [] => True
  | first :: others => first = None ∧ Forall (λ err, err = Some ErrBootstrapComplete) others
  end.
Proof.
  induction ops as [|[user hash|id now] ops IH]; cbn [create_answers run_op]; [done| |].
  - unfold pg_CreateAdmin, inside. cbn [fst snd user_rows credentials]. rewrite lookup_empty. cbn [fst snd].
    split; [done|]. apply answers_with_admin. by eexists.
  - exact IH.
Qed.

(** What [Login] does once the user is found and the password is right. *)
Definition logged_in (Sessions : SessionService (user_tables * W)) Now (row : User) ua ip
    : M (user_tables * W) (User * Session * string * option goerror) :=
  let! t := auth_now Now in
  let! _ := pg_TouchLogin (User_ID row) t in
  let! (session, token, err) := Create Sessions (mkInput (User_ID row) 0 ua ip) in
  mret match err with Some e => no_login e | None => (row, session, token, None) end.

Lemma Login_found Sessions Now email other ua ip t w row hash :
  head (filter (λ u, lower (Email u) = lower (normalizeEmail email)) (user_rows t)) = Some row →
  credentials t !! User_ID row = Some hash → User_Status row = "active" → hash ≠ "" →
  Login (Some PostgresUserRepository) Sessions Now email other ua ip (t, w) =
  if VerifyPassword hash other then logged_in Sessions Now row ua ip (t, w)
  else (no_login ErrInvalidCredentials, (t, w)).
Proof.
  intros Hrow Hhash Hactive Hne. unfold Login, logged_in. unfold mthen at 1.
  cbn [FindByEmail PostgresUserRepository]. unfold pg_FindByEmail, look, inside. cbn [fst snd].
  destruct (filter _ (user_rows t)) as [|u l]; [done|]. injection Hrow as ->.
  rewrite Hhash. change (default "" (Some hash)) with hash. rewrite !bool_decide_true, bool_decide_false by done. cbn [negb orb].
  by destruct (VerifyPassword hash other).
Qed.

(** C32: bootstrap, then login.  After a bootstrap that succeeded, which it only does when
    there are no users and with a password of 12 bytes, there is exactly one user, an
    active administrator with the normalized address; a login with that address and
    the password is let in: its login time is recorded and it gets what the session
    service creates; and with any other password the login goes exactly as
    [VerifyPassword] says, a refusal leaving everything as it was.  (The clock does not
    touch the tables, and normalizing an address twice is normalizing it once.) *)
Theorem bootstrap_then_login Sessions Now email name password t w u t' w' :
  normalizeEmail (normalizeEmail email) = normalizeEmail email →
  Bootstrap (Some PostgresUserRepository) (outside <$> Now) email name password (t, w) =
    ((u, None), (t', w')) →
  user_rows t = [] ∧ (12 ≤ String.length password)%nat ∧
  ∃ row hash, user_rows t' = [row] ∧ User_ID row = User_ID u ∧ Email row = normalizeEmail email ∧
    Role row = RoleAdmin ∧ User_Status row = "active" ∧ VerifyPassword hash password = true ∧
    ∀ Now' other ua ip w1,
      Login (Some PostgresUserRepository) Sessions Now' email other ua ip (t', w1) =
      if VerifyPassword hash other then logged_in Sessions Now' row ua ip (t', w1)
      else (no_login ErrInvalidCredentials, (t', w1)).
Proof.
  intros Hnorm. unfold Bootstrap.
  destruct (validateEmail email); [by intros [[=] _]%mret_inv|].
  destruct (validatePassword password); [by intros [[=] _]%mret_inv|].
  intros ([count err] & sw & [Hc ->]%look_inv & Hk)%mthen_inv. cbn [fst] in Hc. injection Hc as -> ->.
  destruct (Z.ltb_spec 0 (Z.of_nat (length (user_rows t)))) as [|Hz]; [by apply mret_inv in Hk as [[=] _]|].
  assert (user_rows t = []) as Ht by (destruct (user_rows t); [done|simpl in Hz; lia]).
  apply mthen_inv in Hk as (now & [t1 w1] & Hnow & Hk).
  pose proof (keeps_auth_now (λ x, x = t) _ _ _ _ Hnow eq_refl) as Ht1. cbn [fst] in Ht1. subst t1.
  apply mthen_inv in Hk as (id & [t1 w2] & Hid & Hk).
  pose proof (keeps_newUserID (λ x, x = t) _ _ _ Hid eq_refl) as Ht1. cbn [fst] in Ht1. subst t1.
  apply mthen_inv in Hk as (hashed & [t1 w3] & Hh & Hk).
  pose proof (keeps_HashPassword (λ x, x = t) _ _ _ _ Hh eq_refl) as Ht1. cbn [fst] in Ht1. subst t1.
  destruct hashed as [hash|e]; [|by apply mret_inv in Hk as [[=] _]].
  apply HashPassword_spec in Hh as (Hl & salt & Hs & Hhash).
  apply mthen_inv in Hk as (err & [t4 w4] & Hca & Hk). cbn in Hca.
  unfold pg_CreateAdmin, inside in Hca. cbn [fst snd] in Hca. rewrite Ht in Hca. cbn [User_ID] in Hca.
  destruct (credentials t !! id); injection Hca as <- <- <-; [by apply mret_inv in Hk as [[=] _]|].
  apply mret_inv in Hk as [[= <-] [= <- <-]]. split; [done|]. split; [done|].
  eexists _, hash. cbn [user_rows Email User_ID Role User_Status]. rewrite Hnorm.
  do 5 (split; [done|]). split; [rewrite Hhash; by apply Verify_encoded|].
  intros Now' other ua ip w1'. apply Login_found; cbn [user_rows credentials User_ID User_Status];
    [|by rewrite lookup_insert_eq|done|by rewrite Hhash].
  rewrite filter_cons, decide_True by done. done.
Qed.
End first_admin.

(** ** Memberships *)

Definition pair_of (m : ProjectMembership) : string * string :=
  (Membership_ProjectID m, Membership_UserID m).

(** No two rows for a project and a user, and every row meets the constraints. *)
Record memberships_ok `{UserDatabase} (t : membership_table) : Prop := {
  ok_pairs : NoDup (pair_of <$> rows t);
  ok_rows : Forall (λ m, membership_allowed t m = true) (rows t)
}.

Section membership_facts.
Context `{UserDatabase} {W : Type}.
Implicit Types (t : membership_table) (w : W).

Lemma of_pair_iff project user m : of_pair project user m ↔ pair_of m = (project, user).
Proof. unfold of_pair, pair_of. split; [by intros [-> ->]|by intros [=]]. Qed.

Lemma SetMembership_ok m t w err t' w' :
  pg_SetMembership m (t, w) = (err, (t', w')) → memberships_ok t → memberships_ok t'.
Proof.
  unfold pg_SetMembership, inside. cbn [fst snd]. intros Hset [Hp Hr].
  destruct (membership_allowed t m) eqn:Ha; cbn [negb] in Hset; [|by injection Hset as _ <- _].
  destruct (filter _ (rows t)) as [|r l] eqn:Hf; injection Hset as _ <- _; split; cbn.
  - rewrite fmap_app. apply NoDup_app. split; [done|]. split; [|apply NoDup_singleton].
    intros k Hk. cbn. rewrite list_elem_of_singleton. intros ->.
    apply list_elem_of_fmap in Hk as (r & Hr1 & Hr2).
    assert (r ∈ filter (of_pair (Membership_ProjectID m) (Membership_UserID m)) (rows t)) as Hin.
    { apply list_elem_of_filter. split; [|done]. by apply of_pair_iff. }
    rewrite Hf in Hin. by apply elem_of_nil in Hin.
  - apply Forall_app. split; [done|]. by apply Forall_singleton.
  - rewrite <-list_fmap_compose. erewrite list_fmap_ext; [exact Hp|].
    intros _ r0 _. cbn. by case_decide.
  - apply Forall_fmap. eapply Forall_impl; [exact Hr|]. intros r0 Hr0. cbn. case_decide as Hd; [|done].
    unfold membership_allowed in *. cbn. apply andb_true_iff in Hr0 as [-> _].
    by apply andb_true_iff in Ha as [_ ->].
Qed.

Lemma filter_ok (P : ProjectMembership → Prop) `{∀ m, Decision (P m)} t :
  memberships_ok t → memberships_ok (t <| rows := filter P (rows t) |>).
Proof.
  intros [Hp Hr]. split; cbn.
  - eapply sublist_NoDup; [exact Hp|]. apply fmap_sublist, sublist_filter.
  - apply Forall_forall. intros m [_ Hm]%list_elem_of_filter. rewrite Forall_forall in Hr. by apply Hr.
Qed.

(** The row that is removed, if any: that of the pair, unless it is the last owner. *)
Definition removable project user t (m : ProjectMembership) : Prop :=
  of_pair project user m ∧ (Membership_Role m = "owner" → (2 ≤ length (owners project t))%nat).

Lemma RemoveMembership_spec project user t w err t' w' :
  pg_RemoveMembership project user (t, w) = (err, (t', w')) →
  w' = w ∧ projects t' = projects t ∧ members t' = members t ∧
  (err = None ↔ ∃ m, m ∈ rows t ∧ removable project user t m) ∧
  (∀ m, m ∈ rows t' ↔ m ∈ rows t ∧ ¬ removable project user t m) ∧
  (err = None ∨ err = Some ErrMembershipNotFound) ∧
  (err ≠ None → t' = t) ∧ (memberships_ok t → memberships_ok t').
Proof.
  unfold pg_RemoveMembership, inside. cbn [fst snd].
  set (last r := bool_decide (Membership_Role r = "owner") && (length (owners project t) <=? 1)%nat).
  assert (∀ m, of_pair project user m ∧ last m = false ↔ removable project user t m) as Hrem.
  { intros m. unfold removable, last. rewrite andb_false_iff, bool_decide_eq_false, Nat.leb_gt.
    split; intros [Hp Ho]; (split; [done|]); [naive_solver lia|].
    destruct (decide (Membership_Role m = "owner")); [right|by left]. specialize (Ho e). lia. }
  destruct (filter _ (rows t)) as [|r l] eqn:Hf; intros [= <- <- <-].
  - assert (∀ m, m ∈ rows t → ¬ removable project user t m) as Hno.
    { intros m Hm Hr%Hrem. assert (m ∈ @nil ProjectMembership) as Hn; [|by apply elem_of_nil in Hn].
      rewrite <-Hf. by apply list_elem_of_filter. }
    split_and!; try done; [|naive_solver|by right]. split; [done|]. intros (m & Hm & Hr). by destruct (Hno m Hm).
  - assert (r ∈ r :: l) as Hr by (by left). rewrite <-Hf in Hr. apply list_elem_of_filter in Hr as [Hr1 Hr2].
    split_and!; try done.
    + split; [|done]. intros _. exists r. split; [done|]. by apply Hrem.
    + intros m. cbn [rows]. rewrite list_elem_of_filter. specialize (Hrem m). split.
      * intros [Hn Hm]. split; [done|]. intros Hx. by apply Hn, Hrem.
      * intros [Hm Hn]. split; [|done]. intros Hx. by apply Hn, Hrem.
    + by left.
    + apply filter_ok.
Qed.

Lemma two_or_more {A} (l : list A) x : NoDup l → x ∈ l →
  (2 ≤ length l)%nat ↔ ∃ y, y ∈ l ∧ y ≠ x.
Proof.
  intros Hnd Hx. destruct l as [|a [|b l]]; [by apply elem_of_nil in Hx| |].
  - apply list_elem_of_singleton in Hx as ->. split; [simpl; lia|].
    by intros (y & ->%list_elem_of_singleton & Hy).
  - split; [intros _|simpl; lia]. apply NoDup_cons in Hnd as [Hab _].
    apply elem_of_cons in Hx as [->|Hx].
    + exists b. split; [by right; left|]. intros ->. apply Hab. by left.
    + exists a. split; [by left|]. by intros ->.
Qed.

Lemma pair_unique t m1 m2 : memberships_ok t → m1 ∈ rows t → m2 ∈ rows t →
  pair_of m1 = pair_of m2 → m1 = m2.
Proof.
  intros [Hp _]. by apply NoDup_key_inj.
Qed.

(** A member's row can be removed unless it is the only owner's. *)
Lemma removable_iff project user t m : memberships_ok t → m ∈ rows t →
  removable project user t m ↔ of_pair project user m ∧
    (Membership_Role m = "owner" → ∃ o, o ∈ rows t ∧ owns project o ∧ o ≠ m).
Proof.
  intros Hok Hm. unfold removable. split; (intros [[Hpr Hu] H2]; split; [done|]).
  all: assert (NoDup (owners project t)) as Hnd
    by (apply NoDup_filter; destruct Hok as [Hp _]; by apply NoDup_fmap_1 in Hp).
  all: intros Ho; specialize (H2 Ho).
  - apply (two_or_more _ m) in H2 as (o & [Hown Ho2]%list_elem_of_filter & Hne); [by exists o|done|].
    by apply list_elem_of_filter.
  - destruct H2 as (o & Ho2 & Hown & Hne). apply (two_or_more _ m); [done|by apply list_elem_of_filter|].
    exists o. split; [by apply list_elem_of_filter|done].
Qed.

Inductive membership_step : membership_table → membership_table → Prop :=
  | step_set m t w err t' w' :
      pg_SetMembership (W := W) m (t, w) = (err, (t', w')) → membership_step t t'
  | step_remove project user t w err t' w' :
      pg_RemoveMembership (W := W) project user (t, w) = (err, (t', w')) → membership_step t t'.

Lemma reachable_memberships_ok t t' : rtc membership_step t t' → memberships_ok t → memberships_ok t'.
Proof.
  induction 1 as [|t1 t2 t3 Hs _ IH]; intros Ht; [done|]. apply IH. destruct Hs.
  - by eapply SetMembership_ok.
  - by eapply RemoveMembership_spec.
Qed.

(** C33: removing a member.  In every table reached from an empty one, [RemoveMembership]
    removes the row of the project and the user, which is unique, and nothing else; it
    refuses, as if there were no such row, when the row is that of the last owner, so a
    project that has an owner keeps one. *)
Theorem RemoveMembership_keeps_owner ps us t project user w err t' w' :
  rtc membership_step (mkMembershipTable ps us []) t →
  pg_RemoveMembership project user (t, w) = (err, (t', w')) →
  memberships_ok t' ∧
  (err = None ∨ err = Some ErrMembershipNotFound) ∧
  (err = None ↔ ∃ m, m ∈ rows t ∧ of_pair project user m ∧
     (Membership_Role m = "owner" → ∃ o, o ∈ rows t ∧ owns project o ∧ o ≠ m)) ∧
  (err = None → ∀ m, m ∈ rows t' ↔ m ∈ rows t ∧ ¬ of_pair project user m) ∧
  (err ≠ None → rows t' = rows t) ∧
  (owners project t ≠ [] → owners project t' ≠ []).
Proof.
  intros Ht Hrem. assert (memberships_ok t) as Hok.
  { eapply reachable_memberships_ok; [exact Ht|]. split; constructor. }
  apply RemoveMembership_spec in Hrem as (_ & _ & _ & Hnone & Hin & Herr & Hsame & Hkeep).
  assert (∀ m m', m ∈ rows t → m' ∈ rows t → of_pair project user m → of_pair project user m' → m = m') as Huniq.
  { intros m m' H1 H2 Hm%of_pair_iff Hm'%of_pair_iff. apply (pair_unique t); try done. by rewrite Hm. }
  split; [by apply Hkeep|]. split; [done|]. split.
  { rewrite Hnone. split; intros (m & Hm & Hr); exists m; (split; [done|]); by apply removable_iff in Hr || by apply removable_iff. }
  split; [|split].
  - intros (m & Hm & Hr)%Hnone m'. rewrite Hin. split; intros [H1 H2]; (split; [done|]); intros H3; apply H2.
    + destruct Hr as [Hr ?]. by rewrite (Huniq m' m).
    + apply H3.
  - by intros ->%Hsame.
  - intros Hown. destruct (decide (err = None)) as [He|He]; [|by rewrite Hsame].
    apply Hnone in He as (m & Hm & Hr). apply removable_iff in Hr as [Hr Hlast]; [|done..].
    assert (∃ o, o ∈ rows t ∧ owns project o ∧ o ≠ m) as (o & Ho & Hoo & Hne).
    { destruct (decide (Membership_Role m = "owner")) as [Hr2|Hr2]; [by apply Hlast|].
      destruct (owners project t) as [|o l] eqn:E; [done|].
      assert (o ∈ owners project t) as [Ho Ho2]%list_elem_of_filter by (rewrite E; by left).
      exists o. split; [done|]. split; [done|]. intros ->. by destruct Ho. }
    assert (o ∈ owners project t') as Hin'; [|intros Hnil; rewrite Hnil in Hin'; by apply elem_of_nil in Hin'].
    apply list_elem_of_filter. split; [done|]. apply Hin. split; [done|]. intros [Hp _]. by apply Hne, Huniq.
Qed.
End membership_facts.

(** ** Witnesses *)

(** A derivation that copies the password, and a source of zeros. *)
Fixpoint copied (password : string) (len : nat) : string :=
  match len, password with
  | O, _ => ""
  | S len, EmptyString => String "0" (copied "" len)
  | S len, String c password => String c (copied password len)
  end.
#[local] Instance copying : Argon2.
Proof.
  refine {| IDKey p s t m n len := copied p len |}. intros p _ _ _ _ len. revert p.
  induction len as [|len IH]; intros [|c p]; simpl; by rewrite ?IH.
Defined.
#[local] Instance no_random : Random unit.
Proof.
  refine {| rand_Read n := mret (Ok (copied "" n)) |}. intros n w b w' [[= <-] _]%mret_inv.
  induction n; simpl; congruence.
Defined.
#[local] Instance still_world : World unit := {| time_Now := mret 5000; ctx_Err := mret None |}.
#[local] Instance plain_database : UserDatabase :=
  {| lower s := s; constraint_violated := ErrorString "violation" |}.
#[local] Instance plain_unicode : strings.GoUnicode := strings.ascii_unicode.
#[local] Instance plain_sha : Sha256 := λ s, s.
#[local] Existing Instance tables_world.
#[local] Existing Instance tables_random.

Lemma password_roundtrip_witness :
  ∃ h, (HashPassword (W := unit) "correct horse battery" tt).1 = Ok h ∧
       VerifyPassword h "correct horse battery" = true ∧ VerifyPassword h "wrong horse battery" = false.
Proof.
  destruct (HashPassword (W := unit) "correct horse battery" tt) as [[h|e] []] eqn:E; [|discriminate E].
  destruct (password_roundtrip _ _ _ _ E) as (_ & Hok & salt & _ & Hall).
  exists h. split; [done|]. split; [exact Hok|].
  apply not_true_iff_false. intros Hw%Hall. vm_compute in Hw. discriminate Hw.
Defined.

Definition first_bootstrap : (User * option goerror) * (user_tables * unit) :=
  Bootstrap (Some PostgresUserRepository) None " Admin@Example.org" "Admin" "correct horse battery"
    (mkTables [] ∅, tt).
Definition no_sessions : SessionService (user_tables * unit) := mkSessions None None 0.

Lemma bootstrap_then_login_witness :
  ∃ u t', first_bootstrap = ((u, None), (t', tt)) ∧
  (Login (Some PostgresUserRepository) no_sessions None " Admin@Example.org" "wrong horse battery" "" ""
     (t', tt)).1 = no_login ErrInvalidCredentials.
Proof.
  destruct first_bootstrap as [[u err] [t' []]] eqn:E.
  assert (err = None) as -> by (vm_compute in E; by injection E).
  exists u, t'. split; [done|].
  destruct (bootstrap_then_login no_sessions None " Admin@Example.org" "Admin" "correct horse battery"
    (mkTables [] ∅) tt u t' tt eq_refl E) as (_ & _ & row & hash & _ & _ & _ & _ & _ & _ & Hlogin).
  rewrite Hlogin. destruct (VerifyPassword hash "wrong horse battery") eqn:Hv; [|done].
  exfalso. specialize (Hlogin None "wrong horse battery" "" "" tt). rewrite Hv in Hlogin.
  vm_compute in E. injection E as <- <-. vm_compute in Hlogin. discriminate Hlogin.
Defined.

Definition shop_members : membership_table :=
  mkMembershipTable {["shop"]} [mkUser "ann" "" "" RoleMember "active" 0 0 None;
                                mkUser "bob" "" "" RoleMember "active" 0 0 None] [].
Definition set_member (user role : string) (t : membership_table) : membership_table :=
  (pg_SetMembership (W := unit) (mkMembership "shop" user role 0 0) (t, tt)).2.1.

Lemma RemoveMembership_keeps_owner_witness :
  let t := set_member "bob" "viewer" (set_member "ann" "owner" shop_members) in
  let r := pg_RemoveMembership (W := unit) "shop" "ann" (t, tt) in
  r.1 = Some ErrMembershipNotFound ∧ owners "shop" r.2.1 ≠ [].
Proof.
  intros t r. destruct r as [err [t' []]] eqn:E. unfold r in E.
  split; [vm_compute in E; by injection E as <- _|].
  refine (proj2 (proj2 (proj2 (proj2 (proj2
    (RemoveMembership_keeps_owner {["shop"]} (members shop_members) t "shop" "ann" tt err t' tt _ E))))) _);
    [|by vm_compute].
  eapply rtc_l; [by eapply (step_set (mkMembership "shop" "ann" "owner" 0 0) shop_members tt _ _ tt)|].
  apply rtc_once. by eapply (step_set (mkMembership "shop" "bob" "viewer" 0 0) _ tt _ _ tt).
Defined.

(** Setting the role of the last owner is not guarded: the project is left without one. *)
Lemma SetMembership_orphans :
  owners "shop" (set_member "ann" "owner" shop_members) ≠ [] ∧
  owners "shop" (set_member "ann" "viewer" (set_member "ann" "owner" shop_members)) = [].
Proof. by vm_compute. Qed.
End users.
