(* ===== verification/PgProjects.v ===== *)
(** * The table of projects

    [src/internal/postgres]: the statements on the table of projects, with the
    constraints of [src/migrations/001_initial.sql], next to the table of memberships of
    [AuthUsers.v], which refers to it.  Times are stored to the microsecond; rows created
    at the same time, whose order the statements leave open, are listed in the order they
    were inserted. *)

From stdpp Require Import relations.
From S2P Require Import Prelude GoStrings World Runtime Auth AuthUsers Project.
Import auth users.

Module pgprojects.
Import project.

(* src: internal/postgres/projects.go:14-14 (ErrNotFound) *)
Definition ErrNotFound : goerror := ErrorString "project not found".

(** The rows of [projects]; the memberships know the identifiers they may refer to. *)
Record project_db := mkDB { table : list Project; access : membership_table }.
#[global] Instance eta_db : Eta project_db := λ d, mkDB (table d) (access d).

(** A project as it is stored. *)
Definition stored (p : Project) : Project :=
  p <| project.CreatedAt := micros (project.CreatedAt p) |>
    <| project.UpdatedAt := micros (project.UpdatedAt p) |>.
(** The text of a role of a user. *)
Definition role_text (r : GlobalRole) : string :=
  match r with
  | RoleAdmin => "admin" | RoleOperator => "operator" | RoleMember => "member"
  | RoleViewer => "viewer" | RoleOther s => s
  end.

Section table.
Context `{UserDatabase} {W : Type}.
Notation C A := (M (project_db * W) A).

(* src: internal/postgres/projects.go:18-21 (Create) *)
Definition pg_Create (p : Project) : C (option goerror) :=
  inside (λ d,
    if existsb (λ q, bool_decide (ID q = ID p) || bool_decide (Slug q = Slug p)) (table d)
    then (Some constraint_violated, d)
    else (None, mkDB (table d ++ [stored p])
                  ((access d) <| projects := {[ID p]} ∪ projects (access d) |>))).

(** The columns an update sets; a project that is not there is no error. *)
Definition updated (p q : Project) : Project :=
  if decide (ID q = ID p)
  then mkProject (ID q) (Name p) (Slug p) (Project_Status p) (RuntimeID p)
         (project.CreatedAt q) (micros (project.UpdatedAt p))
  else q.
(* src: internal/postgres/projects.go:23-26 (Update) *)
Definition pg_Update (p : Project) : C (option goerror) :=
  inside (λ d,
    if existsb (λ q, bool_decide (ID q = ID p)) (table d) &&
       existsb (λ q, bool_decide (ID q ≠ ID p) && bool_decide (Slug q = Slug p)) (table d)
    then (Some constraint_violated, d)
    else (None, d <| table := updated p <$> table d |>)).

Definition newest_first : list Project → list Project :=
  sort_by (λ a b, project.CreatedAt b <? project.CreatedAt a).

(* src: internal/postgres/projects.go:28-47 (List) *)
Definition pg_List : C (list Project * option goerror) :=
  look (λ d, (newest_first (table d), None)).

(* src: internal/postgres/projects.go:49-62 (Get) *)
Definition pg_Get (id : string) : C (result Project) :=
  look (λ d, match filter (λ q, ID q = id) (table d) with
             | q :: _ => Ok q
             | [] => Err ErrNotFound
             end).

(** [$2 IN ('admin', 'operator') OR EXISTS (...)] *)
Definition visible_to (user role : string) (t : membership_table) (p : Project) : bool :=
  bool_decide (role ∈ ["admin"; "operator"]) ||
  existsb (λ m, bool_decide (of_pair (ID p) user m)) (rows t).
(** The pool is not nil here. *)
(* src: internal/postgres/project_visibility.go:12-42 (ListVisible) *)
Definition pg_ListVisible (user role : string) : C (list Project * option goerror) :=
  look (λ d, (newest_first (filter (λ p, visible_to user role (access d) p = true) (table d)), None)).

(* src: internal/postgres/projects.go:16-16 (Projects) *)
Definition pg_Projects : Projects (project_db * W) := mkProjects pg_Create pg_Update pg_Get.

(** A statement on the table of memberships. *)
Definition on_access {A} (c : M (membership_table * W) A) : C A := λ dw,
  let '(a, (t, w)) := c (access dw.1, dw.2) in (a, (mkDB (table dw.1) t, w)).
End table.

(** ** What is always true of the tables *)

Record db_ok `{UserDatabase} (d : project_db) : Prop := {
  ok_ids : NoDup (ID <$> table d);
  ok_slugs : NoDup (Slug <$> table d);
  ok_references : ∀ id, id ∈ projects (access d) ↔ id ∈ ID <$> table d;
  ok_access : memberships_ok (access d)
}.

Section facts.
Context `{UserDatabase} {W : Type}.

Inductive db_step : project_db → project_db → Prop :=
  | db_create p d w err d' w' :
      pg_Create (W := W) p (d, w) = (err, (d', w')) → db_step d d'
  | db_update p d w err d' w' :
      pg_Update (W := W) p (d, w) = (err, (d', w')) → db_step d d'
  | db_set m d w err d' w' :
      on_access (W := W) (pg_SetMembership m) (d, w) = (err, (d', w')) → db_step d d'
  | db_remove project user d w err d' w' :
      on_access (W := W) (pg_RemoveMembership project user) (d, w) = (err, (d', w')) → db_step d d'.

Lemma Create_spec p d (w : W) err d' w' : pg_Create p (d, w) = (err, (d', w')) →
  w' = w ∧ ((err = Some constraint_violated ∧ d' = d) ∨
  (err = None ∧ ID p ∉ ID <$> table d ∧ Slug p ∉ Slug <$> table d ∧
   d' = mkDB (table d ++ [stored p]) ((access d) <| projects := {[ID p]} ∪ projects (access d) |>))).
Proof.
  unfold pg_Create, inside. cbn [fst snd]. destruct (existsb _ _) eqn:E; intros [= <- <- <-]; [by auto|].
  split; [done|]. right. split; [done|].
  assert (∀ q, q ∈ table d → ID q ≠ ID p ∧ Slug q ≠ Slug p) as Hq.
  { intros q Hq. apply not_true_iff_false in E. rewrite existsb_exists in E.
    split; intros Heq; apply E; exists q; (split; [by apply list_elem_of_In|]);
      apply orb_true_iff; [left|right]; by apply bool_decide_eq_true. }
  split_and!; [| |done]; intros (q & Heq & Hin)%list_elem_of_fmap; by destruct (Hq q Hin).
Qed.

Lemma updated_ids p (l : list Project) : ID <$> (updated p <$> l) = ID <$> l.
Proof.
  rewrite <-list_fmap_compose. apply list_fmap_ext. intros _ q _. cbn. unfold updated. by case_decide.
Qed.

Lemma Update_spec p d (w : W) err d' w' : pg_Update p (d, w) = (err, (d', w')) →
  w' = w ∧ ((err = Some constraint_violated ∧ d' = d) ∨
  (err = None ∧ d' = d <| table := updated p <$> table d |> ∧
   (ID p ∈ ID <$> table d → ∀ q, q ∈ table d → Slug q = Slug p → ID q = ID p))).
Proof.
  unfold pg_Update, inside. cbn [fst snd].
  destruct (_ && _) eqn:E; intros [= <- <- <-]; [by auto|].
  split; [done|]. right. split; [done|]. split; [done|].
  intros (q0 & Hq0 & Hin0)%list_elem_of_fmap q Hq Hs. destruct (decide (ID q = ID p)) as [|Hne]; [done|].
  apply not_true_iff_false in E. destruct E. apply andb_true_iff. split; apply existsb_exists.
  - exists q0. split; [by apply list_elem_of_In|]. by apply bool_decide_eq_true.
  - exists q. split; [by apply list_elem_of_In|]. by rewrite !bool_decide_true.
Qed.

Lemma slug_unique d p q : db_ok d → p ∈ table d → q ∈ table d → Slug p = Slug q → p = q.
Proof. intros [_ Hs _ _] Hp Hq Heq. by eapply (NoDup_key_inj Slug). Qed.

Lemma updated_slugs p (l : list Project) : NoDup (ID <$> l) → NoDup (Slug <$> l) →
  (ID p ∈ ID <$> l → ∀ q, q ∈ l → Slug q = Slug p → ID q = ID p) →
  NoDup (Slug <$> (updated p <$> l)).
Proof.
  intros Hi Hs Hp. rewrite <-list_fmap_compose. apply NoDup_fmap_2_strong; [|by apply NoDup_fmap_1 in Hi].
  intros x y Hx Hy. cbn. unfold updated.
  assert (∀ q q', q ∈ l → q' ∈ l → ID q = ID q' → q = q') as Hii
    by (intros; by eapply (NoDup_key_inj ID)).
  assert (∀ q q', q ∈ l → q' ∈ l → Slug q = Slug q' → q = q') as Hss
    by (intros; by eapply (NoDup_key_inj Slug)).
  destruct (decide (ID x = ID p)) as [Hxp|Hxp], (decide (ID y = ID p)) as [Hyp|Hyp]; cbn; intros Heq.
  - apply Hii; congruence.
  - destruct Hyp. apply Hp; [|done..]. rewrite <-Hxp. by apply list_elem_of_fmap_2.
  - destruct Hxp. apply Hp; [|done..]. rewrite <-Hyp. by apply list_elem_of_fmap_2.
  - by apply Hss.
Qed.

Lemma on_access_inv {A} (c : M (membership_table * W) A) d w a d' w' :
  on_access c (d, w) = (a, (d', w')) →
  ∃ t', c (access d, w) = (a, (t', w')) ∧ d' = mkDB (table d) t'.
Proof. unfold on_access. cbn [fst snd]. destruct (c _) as [x [t v]]. intros [= -> <- ->]. by exists t. Qed.

Lemma SetMembership_projects m t (w : W) err t' w' :
  pg_SetMembership m (t, w) = (err, (t', w')) → w' = w ∧ projects t' = projects t ∧ members t' = members t.
Proof.
  unfold pg_SetMembership, inside. cbn [fst snd].
  destruct (negb _); [by intros [= _ <- <-]|]. by destruct (filter _ _); intros [= _ <- <-].
Qed.

Lemma access_ok d t : db_ok d → projects t = projects (access d) → memberships_ok t → db_ok (mkDB (table d) t).
Proof. intros [Hi Hs Hr Ha] Ht Hm. split; cbn; [done..| |done]. by rewrite Ht. Qed.

Lemma projects_step_ok d d' : db_step d d' → db_ok d → db_ok d'.
Proof.
  intros Hstep Hok. destruct Hstep as [p d w err d' w' Hc|p d w err d' w' Hc|m d w err d' w' Hc|pr u d w err d' w' Hc].
  - apply Create_spec in Hc as [_ [[_ ->]|(_ & Hi & Hs & ->)]]; [done|]. destruct Hok as [Hids Hslugs Href Hacc].
    split; cbn.
    + rewrite fmap_app. apply NoDup_app. split; [done|]. split; [|apply NoDup_singleton].
      intros id Hid. cbn. rewrite list_elem_of_singleton. by intros ->.
    + rewrite fmap_app. apply NoDup_app. split; [done|]. split; [|apply NoDup_singleton].
      intros sl Hsl. cbn. rewrite list_elem_of_singleton. by intros ->.
    + intros id. rewrite fmap_app, elem_of_app, elem_of_union, elem_of_singleton, Href. cbn.
      rewrite list_elem_of_singleton. tauto.
    + destruct Hacc as [Hp Hr]. split; cbn; [done|]. eapply Forall_impl; [exact Hr|]. intros m Hm.
      unfold membership_allowed in *. cbn. rewrite !andb_true_iff, !bool_decide_eq_true in *. set_solver.
  - apply Update_spec in Hc as [_ [[_ ->]|(_ & -> & Hp)]]; [done|]. destruct Hok as [Hids Hslugs Href Hacc].
    split; cbn; [by rewrite updated_ids|by apply updated_slugs| |done]. intros id. by rewrite updated_ids.
  - apply on_access_inv in Hc as (t' & Hc & ->).
    apply access_ok; [done|by eapply SetMembership_projects|]. eapply SetMembership_ok, ok_access; [exact Hc|done].
  - apply on_access_inv in Hc as (t' & Hc & ->). apply RemoveMembership_spec in Hc as (_ & Hp & _ & _ & _ & _ & _ & Hk).
    apply access_ok; [done..|]. by apply Hk, ok_access.
Qed.

Definition empty_db (us : list User) : project_db := mkDB [] (mkMembershipTable ∅ us []).
Lemma reachable_db_ok us d : rtc db_step (empty_db us) d → db_ok d.
Proof.
  assert (db_ok (empty_db us)) as Hok by (by split; cbn; [constructor..|set_solver|split; constructor]).
  intros Hr. revert Hok. induction Hr as [|d1 d2 d3 Hs _ IH]; intros Hok; [done|].
  by eapply IH, projects_step_ok.
Qed.

(** ** Who sees which projects *)

(** The access check, over the table of memberships. *)
Definition access_of (sessions : SessionService (project_db * W)) : AuthService (project_db * W) :=
  mkAuth None sessions
    (Some (λ project user,
       let! (m, err) := on_access (pg_GetMembership project user) in
       mret match err with Some e => Err e | None => Ok m end)).

Lemma newest_first_sorted l :
  StronglySorted (λ a b, project.CreatedAt b ≤ project.CreatedAt a) (newest_first l).
Proof.
  eapply StronglySorted_impl; [|apply (sort_by_sorted (λ a b, project.CreatedAt b <? project.CreatedAt a))].
  - intros a b Hab%Z.ltb_ge. lia.
  - intros a b Hab%Z.ltb_lt. apply Z.ltb_ge. lia.
  - intros a b c Hab%Z.ltb_ge Hbc%Z.ltb_ge. apply Z.ltb_ge. lia.
Qed.

Lemma may_read sessions u id (d : project_db) (w : W) : memberships_ok (access d) →
  (RequireProjectAccess (access_of sessions) u id PermissionRead (d, w)).1 = None ↔
  Role u = RoleAdmin ∨ Role u = RoleOperator ∨
  ∃ m, m ∈ rows (access d) ∧ of_pair id (User_ID u) m.
Proof.
  intros [_ Hr]. rewrite Forall_forall in Hr. unfold RequireProjectAccess.
  destruct (bool_decide (Role u = RoleAdmin)) eqn:Ha; cbn [orb].
  { apply bool_decide_eq_true in Ha. naive_solver. }
  destruct (bool_decide (Role u = RoleOperator)) eqn:Ho.
  { apply bool_decide_eq_true in Ho. naive_solver. }
  apply bool_decide_eq_false in Ha, Ho.
  unfold mthen, mret, access_of, on_access, pg_GetMembership, look, inside. cbn.
  destruct (filter (of_pair id (User_ID u)) (rows (access d))) as [|m l] eqn:Hf; cbn.
  - split; [done|]. intros [?|[?|(m & Hm & Hp)]]; [done..|].
    assert (m ∈ filter (of_pair id (User_ID u)) (rows (access d))) as Hin by (by apply list_elem_of_filter).
    rewrite Hf in Hin. by apply elem_of_nil in Hin.
  - assert (m ∈ filter (of_pair id (User_ID u)) (rows (access d))) as [Hp Hm]%list_elem_of_filter
      by (rewrite Hf; by left).
    specialize (Hr m Hm). unfold membership_allowed in Hr.
    apply andb_true_iff in Hr as [_ Hr]. rewrite Hr. split; [|done]. intros _. right. right. by exists m.
Qed.

(** C38: the list of projects.  In every state of the tables, [ListVisible] answers the
    projects, the newest first and each once, for which the access check would let the
    user read: all for administrators and operators, and for others those the user is
    a member of. *)
Theorem ListVisible_agrees us d sessions u (w : W) :
  rtc db_step (empty_db us) d →
  (∀ s, Role u = RoleOther s → s ∉ ["admin"; "operator"]) →
  ∃ l, pg_ListVisible (User_ID u) (role_text (Role u)) (d, w) = ((l, None), (d, w)) ∧
  NoDup (ID <$> l) ∧ StronglySorted (λ a b, project.CreatedAt b ≤ project.CreatedAt a) l ∧
  ∀ p, p ∈ l ↔ p ∈ table d ∧
    (RequireProjectAccess (access_of sessions) u (ID p) PermissionRead (d, w)).1 = None.
Proof.
  intros Hd%reachable_db_ok Hrole. eexists. split; [reflexivity|]. split; [|split].
  - unfold newest_first. rewrite sort_by_perm.
    eapply sublist_NoDup; [apply (ok_ids _ Hd)|]. apply fmap_sublist, sublist_filter.
  - apply newest_first_sorted.
  - intros p. rewrite may_read by apply Hd. unfold newest_first. rewrite elem_of_sort_by, list_elem_of_filter.
    rewrite (comm (∧)). apply and_iff_compat_l. unfold visible_to.
    rewrite orb_true_iff, bool_decide_eq_true, existsb_exists. setoid_rewrite <-list_elem_of_In.
    setoid_rewrite bool_decide_eq_true. rewrite !elem_of_cons, elem_of_nil.
    destruct (Role u) as [| | | |s]; cbn; [naive_solver..|].
    specialize (Hrole s eq_refl). set_solver.
Qed.
End facts.

(** ** A witness *)

Section witness.
#[local] Existing Instance plain_database.
Definition two_people : list User := [mkUser "ann" "" "" RoleMember "active" 0 0 None;
                                      mkUser "bob" "" "" RoleMember "active" 0 0 None].
Definition blog : Project := mkProject "blog" "Blog" "blog" StatusReady "rt" 1000 1000.
Definition shop : Project := mkProject "shop" "Shop" "shop" StatusReady "rt" 2000 2000.
(** Two projects, of which ann may see both and bob one. *)
Definition with_project (p : Project) (d : project_db) : project_db := (pg_Create (W := unit) p (d, tt)).2.1.
Definition with_member (user project : string) (d : project_db) : project_db :=
  (on_access (W := unit) (pg_SetMembership (mkMembership project user "viewer" 0 0)) (d, tt)).2.1.
Definition two_projects : project_db :=
  with_member "bob" "blog" (with_member "ann" "blog" (with_member "ann" "shop"
    (with_project shop (with_project blog (empty_db two_people))))).

Lemma with_project_step p d : db_step (W := unit) d (with_project p d).
Proof. unfold with_project. destruct (pg_Create p (d, tt)) as [err [d' []]] eqn:E. by eapply (db_create p _ tt). Qed.
Lemma with_member_step u p d : db_step (W := unit) d (with_member u p d).
Proof.
  unfold with_member. destruct (on_access _ _) as [err [d' []]] eqn:E.
  by eapply (db_set (mkMembership p u "viewer" 0 0) _ tt).
Qed.

Lemma ListVisible_agrees_witness :
  (pg_ListVisible (W := unit) "ann" "member" (two_projects, tt)).1.1 = [shop; blog] ∧
  ∀ p, p ∈ [blog] ↔ p ∈ table two_projects ∧
    (RequireProjectAccess (access_of (mkSessions None None 0)) (mkUser "bob" "" "" RoleMember "active" 0 0 None)
       (ID p) PermissionRead (two_projects, tt)).1 = None.
Proof.
  split; [by vm_compute|].
  destruct (ListVisible_agrees two_people two_projects (mkSessions None None 0)
    (mkUser "bob" "" "" RoleMember "active" 0 0 None) tt) as (l & Hl & _ & _ & Hall).
  - do 5 (eapply rtc_r; [|first [apply with_member_step|apply with_project_step]]). apply rtc_refl.
  - done.
  - assert (l = [blog]) as <-; [|exact Hall].
    assert ((pg_ListVisible (W := unit) "bob" "member" (two_projects, tt)).1.1 = [blog]) as H by (by vm_compute).
    etrans; [|exact H]. cbn [User_ID Role role_text] in Hl. by rewrite Hl.
Defined.
End witness.
End pgprojects.
