(* ===== verification/PgBase.v ===== *)
(** * What the Postgres stores share

    The SQL statements of the stores are modelled on tables: maps from the primary key to
    the row, with the constraints of [src/migrations].  A statement that reaches the
    database either violates a constraint or is executed; that a connection may fail is
    not modelled, and texts are taken to be valid UTF-8 without a zero byte. *)

From stdpp Require Import gmap.
From S2P Require Import Prelude World Auth.

Module pg.

(** The error of the database for a violated constraint or a value out of range, and the
    order in which it compares texts. *)
Class Database := { violation : goerror; collate : string → string → bool }.

(** What a map of JSON values is read back as from a [jsonb] column: an integer comes back
    as a floating-point number, for one. *)
Class Json := { json_map : gmap string any → gmap string any }.

(** What an [integer] column holds. *)
Definition int4 (z : Z) : bool := (- 2 ^ 31 <=? z) && (z <? 2 ^ 31).
(** A [timestamptz], to the microsecond. *)
Definition timestamptz (t : Z) : Z := auth.micros t.

Section statements.
Context `{Database} {S W : Type}.

(** A statement that is executed or not. *)
Definition execute (allowed : S → bool) (change : S → S) : M (S * W) (option goerror) :=
  inside (λ s, if allowed s then (None, change s) else (Some violation, s)).

Lemma execute_inv allowed change s w err s' w' :
  execute allowed change (s, w) = (err, (s', w')) → w' = w ∧
  (allowed s = true ∧ err = None ∧ s' = change s ∨
   allowed s = false ∧ err = Some violation ∧ s' = s).
Proof. unfold execute, inside. cbn [fst snd]. destruct (allowed s); intros [= <- <- <-]; auto. Qed.

(** A store without a database answers with an error of its own. *)
Definition with_db {A} (DB : bool) (missing : string) (no : goerror → A) (c : M (S * W) A) : M (S * W) A :=
  if DB then c else mret (no (ErrorString missing)).
Lemma with_db_inv {A} DB missing (no : goerror → A) (c : M (S * W) A) sw out : with_db DB missing no c sw = out →
  (∃ e, out = (no e, sw)) ∨ DB = true ∧ c sw = out.
Proof. unfold with_db. destruct DB; [by right|]. intros <-. left. by eexists. Qed.
Lemma keeps_with_db {A} (P : S → Prop) DB missing (no : goerror → A) (c : M (S * W) A) :
  keeps P c → keeps P (with_db DB missing no c).
Proof. intros Hc. unfold with_db. destruct DB; [done|apply keeps_mret]. Qed.

(** Go on unless there was an error. *)
Definition and_then (c k : M (S * W) (option goerror)) : M (S * W) (option goerror) :=
  let! err := c in
  match err with Some e => mret (Some e) | None => k end.
Lemma and_then_inv c k (sw : S * W) err sw' : and_then c k sw = (err, sw') →
  (err ≠ None ∧ c sw = (err, sw')) ∨ ∃ sw1, c sw = (None, sw1) ∧ k sw1 = (err, sw').
Proof.
  intros ([e|] & sw1 & Hc & Hk)%mthen_inv; [|by right; exists sw1].
  left. apply mret_inv in Hk as [<- <-]. done.
Qed.

(** One statement for each element, until one fails. *)
Fixpoint each {A} (f : A → M (S * W) (option goerror)) (l : list A) : M (S * W) (option goerror) :=
  match l with
  | [] => mret None
  | a :: l =>
      let! err := f a in
      match err with Some e => mret (Some e) | None => each f l end
  end.

(** The statements of a list either are all executed, and change the state one after the
    other, or one of them finds a state that does not allow it. *)
Fixpoint all_allowed {A} (allowed : A → S → bool) (change : A → S → S) (l : list A) (s : S) : Prop :=
  match l with
  | [] => True
  | a :: l => allowed a s = true ∧ all_allowed allowed change l (change a s)
  end.

Lemma each_execute {A} (allowed : A → S → bool) (change : A → S → S) l s w err s' w' :
  each (λ a, execute (allowed a) (change a)) l (s, w) = (err, (s', w')) →
  w' = w ∧ (err = None ↔ all_allowed allowed change l s) ∧
  (err = None → s' = foldl (λ s a, change a s) s l).
Proof.
  revert s w. induction l as [|a l IH]; intros s w; cbn [each all_allowed foldl].
  { by intros [<- [= <- <-]]%mret_inv. }
  intros (e & [s1 w1] & (-> & He)%execute_inv & Hk)%mthen_inv.
  destruct He as [(Ha & -> & ->)|(Ha & -> & ->)].
  - apply IH in Hk as (-> & Hn & Hs). split; [done|]. split; [|done].
    rewrite Hn, Ha. naive_solver.
  - apply mret_inv in Hk as [<- [= <- <-]]. rewrite Ha. naive_solver.
Qed.

(** When the changes do not matter to what is allowed, each element has to be allowed. *)
Lemma all_allowed_static {A} (allowed : A → S → bool) (change : A → S → S) l s :
  (∀ a b s, allowed a (change b s) = allowed a s) →
  all_allowed allowed change l s ↔ ∀ a, a ∈ l → allowed a s = true.
Proof.
  intros Hst. revert s. induction l as [|b l IH]; intros s; cbn [all_allowed].
  - split; [by intros _ a ?%elem_of_nil|done].
  - rewrite IH. setoid_rewrite elem_of_cons. setoid_rewrite Hst. naive_solver.
Qed.

Lemma each_static {A} (allowed : A → S → bool) (change : A → S → S) l s w err s' w' :
  (∀ a b s, allowed a (change b s) = allowed a s) →
  each (λ a, execute (allowed a) (change a)) l (s, w) = (err, (s', w')) →
  w' = w ∧ (err = None ↔ ∀ a, a ∈ l → allowed a s = true) ∧
  (err = None → s' = foldl (λ s a, change a s) s l).
Proof. intros Hst (-> & Hn & Hs)%each_execute. by rewrite <-(all_allowed_static _ _ _ _ Hst). Qed.

(** Rows under new and distinct keys are added to a table. *)
Lemma fold_fresh {A B} (table : S → gmap string B) (key : A → string) (row : A → B)
    (put : A → S → S) l s :
  (∀ a s, table s !! key a = None → table (put a s) = <[key a := row a]> (table s)) →
  NoDup (key <$> l) → (∀ a, a ∈ l → table s !! key a = None) →
  map_to_list (table (foldl (λ s a, put a s) s l)) ≡ₚ
    ((λ a, (key a, row a)) <$> l) ++ map_to_list (table s).
Proof.
  intros Hput. revert s. induction l as [|a l IH]; intros s; cbn [foldl]; [done|].
  rewrite fmap_cons. intros [Ha Hnd]%NoDup_cons Hf. assert (table s !! key a = None) as Hnone by (apply Hf; by left).
  rewrite IH; [|done|].
  - rewrite (Hput a s Hnone), map_to_list_insert by done. rewrite fmap_cons. cbn [app]. by rewrite Permutation_middle.
  - intros b Hb. rewrite (Hput a s Hnone). rewrite lookup_insert_ne; [apply Hf; by right|].
    intros Heq. apply Ha. rewrite Heq. by apply list_elem_of_fmap_2.
Qed.

(** A part of the tables that no statement of the list changes. *)
Lemma fold_same {A B} (get : S → B) (put : A → S → S) l s :
  (∀ a s, get (put a s) = get s) → get (foldl (λ s a, put a s) s l) = get s.
Proof. intros Hput. revert s. induction l as [|a l IH]; intros s; cbn [foldl]; [done|]. by rewrite IH. Qed.

Lemma keeps_execute (P : S → Prop) allowed change :
  (∀ s, P s → allowed s = true → P (change s)) → keeps P (execute allowed change : M (S * W) _).
Proof.
  intros Hc [s w] err [s' w'] (_ & [(Ha & _ & ->)|(_ & _ & ->)])%execute_inv Hs; [by apply Hc|done].
Qed.
Lemma keeps_and_then (P : S → Prop) c k : keeps P c → keeps P k → keeps P (and_then c k).
Proof. intros Hc Hk. unfold and_then. keep_state. Qed.
Lemma keeps_each {A} (P : S → Prop) (f : A → M (S * W) (option goerror)) l :
  (∀ a, keeps P (f a)) → keeps P (each f l).
Proof. intros Hf. induction l; cbn [each]; keep_state. Qed.
End statements.
#[export] Hint Resolve keeps_each keeps_and_then keeps_with_db : keeps.

(** The rows of a table. *)
Lemma elem_of_rows {A} (m : gmap string A) x : x ∈ (map_to_list m).*2 ↔ ∃ k, m !! k = Some x.
Proof.
  rewrite list_elem_of_fmap. split.
  - intros ([k y] & -> & Hm%elem_of_map_to_list). by exists k.
  - intros [k Hk]. exists (k, x). by rewrite elem_of_map_to_list.
Qed.
End pg.
