(* ===== verification/OrchStore.v ===== *)
(** * The store of workflows

    [src/internal/orchestration/store.go], [persistence_extra.go] and
    [approval_store.go]: the statements that keep workflows, tasks, runs, approvals and
    events, on the tables of [src/migrations/004_orchestration.sql].  A workflow is saved
    by one statement for its row and, for each task, one for the task and one for each of
    its dependencies, without a transaction. *)

From stdpp Require Import relations.
From S2P Require Import Prelude World OrchTypes OrchGraph PgBase.
Import orchestration graph pg.

Module orchstore.

(* src: internal/orchestration/store.go:14-14 (ErrWorkflowNotFound) *)
Definition ErrWorkflowNotFound : goerror := ErrorString "workflow not found".

(** The tables; [projects] are the projects that workflows and tasks may refer to. *)
Record orch_db := mkDB {
  projects : gset string;
  workflows : gmap string Workflow;
  tasks : gmap string Task;
  dependencies : gset (string * string);
  task_runs : gmap string TaskRun;
  task_artifacts : gmap string TaskArtifact;
  task_approvals : gmap string Approval;
  task_events : gmap string TaskEvent
}.
#[global] Instance eta_db : Eta orch_db := λ d,
  mkDB (projects d) (workflows d) (tasks d) (dependencies d) (task_runs d) (task_artifacts d)
    (task_approvals d) (task_events d).

(** The rows of a workflow and of a task: no graph, no dependencies, and times to the
    microsecond. *)
Definition workflow_row (w : Workflow) : Workflow :=
  w <| Workflow_Graph := mkTaskGraph ∅ ∅ |>
    <| Workflow_CreatedAt := timestamptz (Workflow_CreatedAt w) |>
    <| Workflow_UpdatedAt := timestamptz (Workflow_UpdatedAt w) |>.
Definition task_row (workflow : string) (t : Task) : Task :=
  t <| Task_WorkflowID := workflow |> <| Task_Dependencies := [] |>
    <| Task_Deadline := timestamptz <$> Task_Deadline t |>
    <| Task_CreatedAt := timestamptz (Task_CreatedAt t) |>
    <| Task_StartedAt := timestamptz <$> Task_StartedAt t |>
    <| Task_CompletedAt := timestamptz <$> Task_CompletedAt t |>.

Section store.
Context `{MapOrder} `{Database} {W : Type}.
Notation C A := (M (orch_db * W) A).

(** [INSERT INTO workflows ... ON CONFLICT (id) DO UPDATE SET status, updated_at] *)
Definition workflow_allowed (w : Workflow) (d : orch_db) : bool :=
  int4 (Workflow_MaxParallel w) &&
  (bool_decide (is_Some (workflows d !! Workflow_ID w)) ||
   bool_decide (Workflow_ProjectID w ∈ projects d)).
Definition put_workflow (w : Workflow) (d : orch_db) : orch_db :=
  d <| workflows := <[Workflow_ID w := match workflows d !! Workflow_ID w with
         | Some r => r <| Workflow_Status := Workflow_Status w |>
                       <| Workflow_UpdatedAt := timestamptz (Workflow_UpdatedAt w) |>
         | None => workflow_row w
         end]> (workflows d) |>.

(** [INSERT INTO orchestration_tasks ... ON CONFLICT (id) DO UPDATE SET status, ...] *)
Definition task_allowed (workflow : string) (t : Task) (d : orch_db) : bool :=
  int4 (Task_Priority t) &&
  (bool_decide (is_Some (tasks d !! Task_ID t)) ||
   bool_decide (is_Some (workflows d !! workflow)) &&
   bool_decide (Task_ProjectID t ∈ projects d) &&
   bool_decide (Task_ParentTaskID t = "" ∨ Task_ParentTaskID t = Task_ID t ∨
                is_Some (tasks d !! Task_ParentTaskID t))).
Definition put_task (workflow : string) (t : Task) (d : orch_db) : orch_db :=
  d <| tasks := <[Task_ID t := match tasks d !! Task_ID t with
         | Some r => r <| Task_Status := Task_Status t |> <| Task_AssignedAgent := Task_AssignedAgent t |>
                       <| Task_StartedAt := timestamptz <$> Task_StartedAt t |>
                       <| Task_CompletedAt := timestamptz <$> Task_CompletedAt t |>
         | None => task_row workflow t
         end]> (tasks d) |>.

(** [INSERT INTO task_dependencies ... ON CONFLICT DO NOTHING] *)
Definition dependency_allowed (id dep : string) (d : orch_db) : bool :=
  bool_decide ((id, dep) ∈ dependencies d) ||
  bool_decide (is_Some (tasks d !! id)) && bool_decide (is_Some (tasks d !! dep)).
Definition put_dependency (id dep : string) (d : orch_db) : orch_db :=
  d <| dependencies := {[(id, dep)]} ∪ dependencies d |>.

(* src: internal/orchestration/store.go:22-34 (SaveWorkflow) *)
Definition save_task (w : Workflow) (id : string) : C (option goerror) :=
  let task := task_at (Workflow_Graph w) id in
  let! err := execute (task_allowed (Workflow_ID w) task) (put_task (Workflow_ID w) task) in
  match err with
  | Some e => mret (Some e)
  | None => each (λ dep, execute (dependency_allowed id dep) (put_dependency id dep))
              (deps_at (Workflow_Graph w) id)
  end.

(* src: internal/orchestration/store.go:16-37 (SaveWorkflow) *)
Definition pg_SaveWorkflow (w : Workflow) : C (option goerror) :=
  let! err := execute (workflow_allowed w) (put_workflow w) in
  match err with
  | Some e => mret (Some e)
  | None => each (save_task w) (SortedTaskIDs 0 (Workflow_Graph w))
  end.

(** What is read of a task: the routing request, the constraints and the retries are not. *)
Definition read_task (t : Task) : Task :=
  t <| Task_RoutingRequest := ∅ |> <| Task_Constraints := ∅ |> <| Task_Retry := zero_RetryPolicy |>
    <| Task_Dependencies := [] |>.
(** [ORDER BY task_id, depends_on_task_id] *)
Definition stored_deps (d : orch_db) (id : string) : list string :=
  sort_by collate (filter (λ p, p.1 = id) (elements (dependencies d))).*2.
Definition tasks_of (d : orch_db) (workflow : string) : gmap string Task :=
  filter (λ p, Task_WorkflowID p.2 = workflow) (tasks d).
(* src: internal/orchestration/store.go:38-87 (GetWorkflow) *)
Definition pg_GetWorkflow (project id : string) : C (result Workflow) :=
  look (λ d,
    match workflows d !! id with
    | Some w =>
        if decide (Workflow_ProjectID w = project)
        then Ok (w <| Workflow_Graph := mkTaskGraph
               (map_imap (λ id t, Some ((read_task t) <| Task_Dependencies := stored_deps d id |>))
                  (tasks_of d id))
               (map_imap (λ id _, Some (stored_deps d id)) (tasks_of d id)) |>)
        else Err ErrWorkflowNotFound
    | None => Err ErrWorkflowNotFound
    end).

(* src: internal/orchestration/persistence_extra.go:9-12 (SaveTaskRun) *)
Definition pg_SaveTaskRun (run : TaskRun) : C (option goerror) :=
  execute
    (λ d, int4 (TaskRun_Attempt run) &&
       (bool_decide (is_Some (task_runs d !! TaskRun_ID run)) ||
        bool_decide (is_Some (tasks d !! TaskRun_TaskID run))))
    (λ d, d <| task_runs := <[TaskRun_ID run := match task_runs d !! TaskRun_ID run with
         | Some r => r <| TaskRun_Status := TaskRun_Status run |>
                       <| TaskRun_CompletedAt := timestamptz <$> TaskRun_CompletedAt run |>
                       <| TaskRun_Error := TaskRun_Error run |>
         | None => run <| TaskRun_StartedAt := timestamptz (TaskRun_StartedAt run) |>
                       <| TaskRun_CompletedAt := timestamptz <$> TaskRun_CompletedAt run |>
         end]> (task_runs d) |>).

(* src: internal/orchestration/persistence_extra.go:13-17 (SaveArtifact) *)
Definition pg_SaveArtifact (a : TaskArtifact) : C (option goerror) :=
  execute
    (λ d, bool_decide (task_artifacts d !! Artifact_ID a = None) &&
       bool_decide (Artifact_ProjectID a ∈ projects d) &&
       bool_decide (is_Some (tasks d !! Artifact_TaskID a)) &&
       bool_decide (is_Some (task_runs d !! Artifact_TaskRunID a)))
    (λ d, d <| task_artifacts := <[Artifact_ID a := a]> (task_artifacts d) |>).

(* src: internal/orchestration/persistence_extra.go:18-21 (SaveApproval) *)
Definition pg_SaveApproval (a : Approval) : C (option goerror) :=
  execute
    (λ d, bool_decide (is_Some (task_approvals d !! Approval_ID a)) ||
       bool_decide (is_Some (workflows d !! Approval_WorkflowID a)) &&
       bool_decide (is_Some (tasks d !! Approval_TaskID a)))
    (λ d, d <| task_approvals := <[Approval_ID a := match task_approvals d !! Approval_ID a with
         | Some r => r <| Approval_Status := Approval_Status a |>
                       <| Approval_ResolvedAt := timestamptz <$> Approval_ResolvedAt a |>
         | None => a <| Approval_RequestedAt := timestamptz (Approval_RequestedAt a) |>
                     <| Approval_ResolvedAt := timestamptz <$> Approval_ResolvedAt a |>
         end]> (task_approvals d) |>).

(* src: internal/orchestration/approval_store.go:9-21 (GetApproval) *)
Definition pg_GetApproval (id : string) : C (result Approval) :=
  look (λ d, match task_approvals d !! id with
             | Some a => Ok a
             | None => Err (ErrorString "approval not found")
             end).

(* src: internal/orchestration/persistence_extra.go:22-30 (SaveEvent) *)
Definition pg_SaveEvent (e : TaskEvent) : C (option goerror) :=
  execute
    (λ d, bool_decide (task_events d !! TaskEvent_ID e = None) &&
       bool_decide (is_Some (workflows d !! TaskEvent_WorkflowID e)) &&
       bool_decide (TaskEvent_TaskID e = "" ∨ is_Some (tasks d !! TaskEvent_TaskID e)))
    (λ d, d <| task_events := <[TaskEvent_ID e :=
         e <| TaskEvent_CreatedAt := timestamptz (TaskEvent_CreatedAt e) |>]> (task_events d) |>).

(** [stamp] formats the time. *)
(* src: internal/orchestration/persistence_extra.go:31-33 (NewTaskEvent) *)
Definition NewTaskEvent {W'} `{World W'} (stamp : Z → string) (workflow task typ : string)
    (data : gmap string any) : M W' TaskEvent :=
  let! t1 := time_Now in
  let! t2 := time_Now in
  mret (mkTaskEvent ("evt_" +:+ stamp t1) workflow task typ data t2).
End store.

(** ** What is always true of the tables *)

Record db_ok (d : orch_db) : Prop := {
  ok_workflows : map_Forall (λ id w, Workflow_ID w = id ∧ Workflow_ProjectID w ∈ projects d) (workflows d);
  ok_tasks : map_Forall (λ id t, Task_ID t = id ∧ is_Some (workflows d !! Task_WorkflowID t)) (tasks d);
  ok_dependencies : ∀ id dep, (id, dep) ∈ dependencies d → is_Some (tasks d !! id) ∧ is_Some (tasks d !! dep)
}.
Definition empty_db (ps : gset string) : orch_db := mkDB ps ∅ ∅ ∅ ∅ ∅ ∅ ∅.
Lemma empty_db_ok ps : db_ok (empty_db ps).
Proof. by split; cbn; [apply map_Forall_empty..|set_solver]. Qed.

Section facts.
Context `{MapOrder} `{Database} {W : Type}.

Lemma put_workflow_ok w d : db_ok d → workflow_allowed w d = true → db_ok (put_workflow w d).
Proof.
  intros [Hw Ht Hd] [_ Ha]%andb_true_iff. split; cbn; [| |done].
  - apply map_Forall_insert_2; [|done]. destruct (workflows d !! Workflow_ID w) as [r|] eqn:E.
    + by apply Hw in E.
    + rewrite orb_true_iff, !bool_decide_eq_true in Ha. by destruct Ha as [[? ?]|]; [congruence|].
  - eapply map_Forall_impl; [exact Ht|]. cbn. intros id t [Hi Hs]. split; [done|].
    by apply lookup_insert_is_Some'; right.
Qed.

Lemma put_task_ok wf t d : db_ok d → task_allowed wf t d = true → db_ok (put_task wf t d).
Proof.
  intros [Hw Ht Hd] [_ Ha]%andb_true_iff. split; cbn; [done| |].
  - apply map_Forall_insert_2; [|done]. destruct (tasks d !! Task_ID t) as [r|] eqn:E.
    + by apply Ht in E.
    + rewrite orb_true_iff, !andb_true_iff, !bool_decide_eq_true in Ha.
      by destruct Ha as [[? ?]|[[? _] _]]; [congruence|].
  - intros id dep [H1 H2]%Hd. by split; apply lookup_insert_is_Some'; right.
Qed.

Lemma put_dependency_ok id dep d : db_ok d → dependency_allowed id dep d = true → db_ok (put_dependency id dep d).
Proof.
  intros [Hw Ht Hd] Ha. split; cbn; [done..|]. intros a b. rewrite elem_of_union, elem_of_singleton.
  intros [[= -> ->]|Hab]; [|by apply Hd]. unfold dependency_allowed in Ha.
  rewrite orb_true_iff, andb_true_iff, !bool_decide_eq_true in Ha. destruct Ha as [Ha|]; [by apply Hd|done].
Qed.

Lemma keeps_save_task w id : keeps db_ok (save_task (W := W) w id).
Proof.
  unfold save_task. apply keeps_mthen.
  - apply keeps_execute. intros d Hd Ha. by apply put_task_ok.
  - intros [e|]; [apply keeps_mret|]. apply keeps_each. intros dep. apply keeps_execute.
    intros d Hd Ha. by apply put_dependency_ok.
Qed.
#[local] Hint Resolve keeps_save_task : keeps.

Lemma keeps_SaveWorkflow w : keeps db_ok (pg_SaveWorkflow (W := W) w).
Proof.
  unfold pg_SaveWorkflow. apply keeps_mthen; [|keep_state].
  apply keeps_execute. intros d Hd Ha. by apply put_workflow_ok.
Qed.

(** Every statement that changes the tables. *)
Inductive db_op : M (orch_db * W) (option goerror) → Prop :=
  | op_workflow w : db_op (pg_SaveWorkflow w)
  | op_run r : db_op (pg_SaveTaskRun r)
  | op_artifact a : db_op (pg_SaveArtifact a)
  | op_approval a : db_op (pg_SaveApproval a)
  | op_event e : db_op (pg_SaveEvent e).
Definition db_step (d d' : orch_db) : Prop :=
  ∃ op w err w', db_op op ∧ op (d, w) = (err, (d', w')).

Lemma saved_step_ok d d' : db_step d d' → db_ok d → db_ok d'.
Proof.
  intros (op & w & err & w' & Hop & Hrun) Hok.
  enough (keeps db_ok op) as Hk by (by apply Hk in Hrun; apply Hrun).
  destruct Hop; [apply keeps_SaveWorkflow|apply keeps_execute; intros s [] _; by split..].
Qed.
Lemma reachable_store_ok ps d : rtc db_step (empty_db ps) d → db_ok d.
Proof.
  intros Hr. pose proof (empty_db_ok ps) as Hok. revert Hok.
  induction Hr as [|d1 d2 d3 Hs _ IH]; intros Hok; [done|]. by eapply IH, saved_step_ok.
Qed.

(** ** Saving a workflow *)

(** The task may be saved next to the tasks that are [known]: its numbers fit, its project
    exists, and its parent and its dependencies are there or itself. *)
Definition storable (ps known : gset string) (g : TaskGraph) (id : string) : Prop :=
  let t := task_at g id in
  int4 (Task_Priority t) = true ∧ Task_ProjectID t ∈ ps ∧
  (Task_ParentTaskID t = "" ∨ Task_ParentTaskID t ∈ {[id]} ∪ known) ∧
  ∀ dep, dep ∈ deps_at g id → dep ∈ {[id]} ∪ known.

(** The tables after the tasks [l] were saved. *)
Record saved (w : Workflow) (l : list string) (d d' : orch_db) : Prop := {
  saved_projects : projects d' = projects d;
  saved_workflows : workflows d' = workflows d;
  saved_tasks id : tasks d' !! id =
    if decide (id ∈ l) then Some (task_row (Workflow_ID w) (task_at (Workflow_Graph w) id)) else tasks d !! id;
  saved_dependencies id dep : (id, dep) ∈ dependencies d' ↔
    (id, dep) ∈ dependencies d ∨ id ∈ l ∧ dep ∈ deps_at (Workflow_Graph w) id
}.

Lemma save_dependencies_spec id l d (wd : W) err d' wd' : db_ok d → is_Some (tasks d !! id) →
  each (λ dep, execute (dependency_allowed id dep) (put_dependency id dep)) l (d, wd) = (err, (d', wd')) →
  wd' = wd ∧ (err = None ↔ ∀ dep, dep ∈ l → is_Some (tasks d !! dep)) ∧
  (err = None → projects d' = projects d ∧ workflows d' = workflows d ∧ tasks d' = tasks d ∧
     ∀ a b, (a, b) ∈ dependencies d' ↔ (a, b) ∈ dependencies d ∨ a = id ∧ b ∈ l).
Proof.
  intros Hok Hid (-> & Hn & Hs)%each_execute. split; [done|].
  assert (all_allowed (dependency_allowed id) (put_dependency id) l d ↔
          ∀ dep, dep ∈ l → is_Some (tasks d !! dep)) as Hall.
  { clear Hn Hs. revert d Hok Hid. induction l as [|dep l IH]; intros d Hok Hid; cbn [all_allowed].
    { split; [|done]. intros _ dep ?%elem_of_nil. done. }
    assert (dependency_allowed id dep d = true ↔ is_Some (tasks d !! dep)) as Ha.
    { unfold dependency_allowed. rewrite orb_true_iff, andb_true_iff, !bool_decide_eq_true.
      split; [|by auto]. intros [Hin|[_ ?]]; [by apply (ok_dependencies _ Hok) in Hin as []|done]. }
    split.
    - intros [H1 H2] x [->|Hx]%elem_of_cons; [by apply Ha|].
      rewrite (IH (put_dependency id dep d)) in H2; [by apply H2|by apply put_dependency_ok|done].
    - intros Hx. assert (dependency_allowed id dep d = true) as H1 by (apply Ha, Hx; by left).
      split; [done|].
      rewrite (IH (put_dependency id dep d)); [|by apply put_dependency_ok|done]. intros x Hin. apply Hx. by right. }
  rewrite Hn, Hall. split; [done|]. intros Hx%Hall%Hn%Hs. subst d'. clear.
  revert d. induction l as [|dep l IH]; intros d; cbn [foldl].
  - split_and!; [done..|]. intros a b. set_solver.
  - destruct (IH (put_dependency id dep d)) as (-> & -> & -> & Hd). split_and!; [done..|].
    intros a b. rewrite Hd. cbn. set_solver.
Qed.

Lemma save_task_spec w id d (wd : W) err d' wd' :
  db_ok d → is_Some (workflows d !! Workflow_ID w) → tasks d !! id = None →
  Task_ID (task_at (Workflow_Graph w) id) = id →
  save_task w id (d, wd) = (err, (d', wd')) →
  wd' = wd ∧ (err = None ↔ storable (projects d) (dom (tasks d)) (Workflow_Graph w) id) ∧
  (err = None → saved w [id] d d').
Proof.
  intros Hok Hw Hfresh Hid (e & [d1 wd1] & (-> & He)%execute_inv & Hk)%mthen_inv.
  set (t := task_at (Workflow_Graph w) id) in *.
  assert (∀ x, is_Some (tasks (put_task (Workflow_ID w) t d) !! x) ↔ x ∈ {[id]} ∪ dom (tasks d)) as Hdom.
  { intros x. cbn. rewrite <-elem_of_dom, dom_insert, Hid. set_solver. }
  assert (task_allowed (Workflow_ID w) t d = true ↔ int4 (Task_Priority t) = true ∧
    Task_ProjectID t ∈ projects d ∧
    (Task_ParentTaskID t = "" ∨ Task_ParentTaskID t ∈ {[id]} ∪ dom (tasks d))) as Ha.
  { unfold task_allowed. rewrite Hid, !andb_true_iff, orb_true_iff, !andb_true_iff, !bool_decide_eq_true, Hfresh.
    rewrite elem_of_union, elem_of_singleton, elem_of_dom. split.
    - intros [? [[? [=]]|[[_ ?] ?]]]; done.
    - intros (? & ? & ?). split; [done|]. by right. }
  unfold storable. fold t. destruct He as [(Hal & -> & ->)|(Hal & -> & ->)].
  - eapply save_dependencies_spec in Hk as (-> & Hn & Hs);
      [|by apply put_task_ok|apply Hdom; set_solver].
    split; [done|]. setoid_rewrite Hdom in Hn. apply Ha in Hal. split; [rewrite Hn; tauto|].
    intros Hnone. destruct (Hs Hnone) as (Hp & Hwf & Ht & Hdeps). split; [done|done| |].
    + intros x. rewrite Ht. cbn. rewrite Hid, Hfresh. case_decide as Hx.
      * apply list_elem_of_singleton in Hx as ->. by rewrite lookup_insert_eq.
      * rewrite lookup_insert_ne; [done|]. intros <-. apply Hx. by left.
    + intros a b. rewrite Hdeps. cbn. rewrite list_elem_of_singleton. naive_solver.
  - apply mret_inv in Hk as [<- [= <- <-]]. split; [done|]. apply not_true_iff_false in Hal. rewrite Ha in Hal.
    split; [|done]. split; [done|tauto].
Qed.

(** The conditions on the tasks in the order they are saved. *)
Fixpoint storable_all (ps known : gset string) (g : TaskGraph) (l : list string) : Prop :=
  match l with
  | [] => True
  | id :: l => storable ps known g id ∧ storable_all ps ({[id]} ∪ known) g l
  end.

Lemma save_tasks_spec w l d (wd : W) err d' wd' :
  db_ok d → is_Some (workflows d !! Workflow_ID w) → NoDup l →
  (∀ id, id ∈ l → tasks d !! id = None ∧ Task_ID (task_at (Workflow_Graph w) id) = id) →
  each (save_task w) l (d, wd) = (err, (d', wd')) →
  wd' = wd ∧ (err = None ↔ storable_all (projects d) (dom (tasks d)) (Workflow_Graph w) l) ∧
  (err = None → saved w l d d').
Proof.
  revert d wd. induction l as [|id l IH]; intros d wd Hok Hw Hnd Hl; cbn [each storable_all].
  { intros [<- [= <- <-]]%mret_inv. split; [done|]. split; [done|]. intros _. split; [done..|].
    intros a b. set_solver. }
  apply NoDup_cons in Hnd as [Hnin Hnd]. destruct (Hl id) as [Hfresh Hid]; [by left|].
  intros (e & [d1 wd1] & Hs & Hk)%mthen_inv.
  assert (db_ok d1) as Hok1 by exact (keeps_save_task _ _ _ _ _ Hs Hok).
  apply save_task_spec in Hs as (-> & Hn & Hs); [|done..].
  destruct e as [e|].
  { apply mret_inv in Hk as [<- [= <- <-]]. split; [done|]. split; [|done]. split; [done|].
    by intros [?%Hn _]. }
  destruct (Hs eq_refl) as [Hp1 Hw1 Ht1 Hd1].
  assert (dom (tasks d1) = {[id]} ∪ dom (tasks d)) as Hdom.
  { apply set_eq. intros x. rewrite elem_of_dom, Ht1, elem_of_union, elem_of_singleton, elem_of_dom.
    case_decide as Hx; [apply list_elem_of_singleton in Hx as ->; naive_solver|].
    rewrite list_elem_of_singleton in Hx. naive_solver. }
  apply IH in Hk as (-> & Hn2 & Hs2); [|done|by rewrite Hw1|done|].
  - split; [done|]. split; [rewrite Hn2, Hp1, Hdom; tauto|]. intros Herr.
    destruct (Hs2 Herr) as [Hp2 Hw2 Ht2 Hd2]. split; [congruence|congruence| |].
    + intros x. rewrite Ht2, Ht1. pose proof (elem_of_cons l x id) as Hc. pose proof (list_elem_of_singleton x id) as Hx.
      destruct (decide (x ∈ l)), (decide (x ∈ [id])), (decide (x ∈ id :: l)); tauto.
    + intros a b. rewrite Hd2, Hd1, (elem_of_cons l a id), list_elem_of_singleton. tauto.
  - intros x Hx. rewrite Ht1. destruct (Hl x) as [? ?]; [by right|]. split; [|done].
    case_decide as Hd; [|done]. apply list_elem_of_singleton in Hd as ->. done.
Qed.

Lemma storable_proper ps k1 k2 g id : k1 ⊆ k2 → storable ps k1 g id → storable ps k2 g id.
Proof. intros Hk (? & ? & Hp & Hd). split_and!; [done..|set_solver|set_solver]. Qed.

Lemma storable_all_iff ps known g l :
  storable_all ps known g l ↔
  ∀ pre id post, l = pre ++ id :: post → storable ps (known ∪ list_to_set pre) g id.
Proof.
  revert known. induction l as [|a l IH]; intros known; cbn [storable_all].
  { split; [|done]. by intros _ [|]. }
  rewrite IH. split.
  - intros [Ha Hl] [|b pre] id post [= -> ->]; [by eapply storable_proper; [|exact Ha]; set_solver|].
    eapply storable_proper; [|by eapply Hl]. set_solver.
  - intros Hl. split.
    + eapply storable_proper; [|by apply (Hl [] a l)]. set_solver.
    + intros pre id post ->. eapply storable_proper; [|by apply (Hl (a :: pre) id post)]. set_solver.
Qed.

(** The tasks of the graph that are saved before [id]. *)
Definition earlier (g : TaskGraph) (id : string) : gset string :=
  filter (λ x, String.ltb x id = true) (dom (Tasks g)).

(** In a sorted list the elements in front are the smaller ones. *)
Lemma sorted_prefix l pre (id : string) post x : StronglySorted String.le l → NoDup l →
  l = pre ++ id :: post → x ∈ pre ↔ x ∈ l ∧ String.ltb x id = true.
Proof.
  intros Hs Hnd ->. rewrite ltb_true. split.
  - intros Hx. split; [apply elem_of_app; by left|]. intros Hle.
    apply NoDup_app in Hnd as (_ & Hdis & _). apply (Hdis x Hx).
    apply StronglySorted_app_1_elem_of with (x1 := x) (x2 := id) in Hs; [|done|by left].
    assert (x = id) as -> by (by apply (anti_symm String.le)). by left.
  - intros [Hx Hlt]. apply elem_of_app in Hx as [|Hx]; [done|]. destruct Hlt.
    apply elem_of_cons in Hx as [->|Hx]; [by reflexivity|].
    apply StronglySorted_app_1_r, StronglySorted_cons in Hs as [Hs _].
    by eapply Forall_forall in Hs.
Qed.

(** Every task is where it says it is. *)
Definition filed (g : TaskGraph) : Prop := map_Forall (λ id t, Task_ID t = id) (Tasks g).

(** What is read back of a task. *)
Definition loaded (w : Workflow) (id : string) (ds : list string) : Task :=
  (read_task (task_row (Workflow_ID w) (task_at (Workflow_Graph w) id))) <| Task_Dependencies := ds |>.

Lemma storable_all_sorted ps known g :
  storable_all ps known g (SortedTaskIDs 0 g) ↔
  ∀ id, id ∈ dom (Tasks g) → storable ps (known ∪ earlier g id) g id.
Proof.
  rewrite storable_all_iff.
  assert (∀ pre id post, SortedTaskIDs 0 g = pre ++ id :: post → earlier g id = list_to_set pre) as Hpre.
  { intros pre id post Heq. apply set_eq. intros x. unfold earlier.
    rewrite elem_of_filter, elem_of_list_to_set, elem_of_dom.
    rewrite (sorted_prefix _ _ _ _ x (sort_strings_sorted _) (SortedTaskIDs_NoDup 0 g) Heq).
    change (sort_strings (map_range 0 (Tasks g)).*1) with (SortedTaskIDs 0 g).
    rewrite elem_of_SortedTaskIDs. tauto. }
  split.
  - intros Hall id Hid. assert (id ∈ SortedTaskIDs 0 g) as Hin by (by apply elem_of_SortedTaskIDs, elem_of_dom).
    apply list_elem_of_split in Hin as (pre & post & Heq). rewrite (Hpre _ _ _ Heq). by eapply Hall.
  - intros Hall pre id post Heq. rewrite <-(Hpre _ _ _ Heq). apply Hall.
    apply elem_of_dom, (elem_of_SortedTaskIDs 0). rewrite Heq. apply elem_of_app. right. by left.
Qed.

(** What saving a workflow that is not in the tables does. *)
Lemma SaveWorkflow_spec w d (wd : W) err d' wd' :
  db_ok d → workflows d !! Workflow_ID w = None → filed (Workflow_Graph w) →
  (∀ id, id ∈ dom (Tasks (Workflow_Graph w)) → tasks d !! id = None) →
  pg_SaveWorkflow w (d, wd) = (err, (d', wd')) →
  wd' = wd ∧
  (err = None ↔ int4 (Workflow_MaxParallel w) = true ∧ Workflow_ProjectID w ∈ projects d ∧
     ∀ id, id ∈ dom (Tasks (Workflow_Graph w)) →
       storable (projects d) (dom (tasks d) ∪ earlier (Workflow_Graph w) id) (Workflow_Graph w) id) ∧
  (err = None → saved w (SortedTaskIDs 0 (Workflow_Graph w)) (put_workflow w d) d').
Proof.
  intros Hok Hfresh Hfiled Hnew (e & [d1 wd1] & (-> & He)%execute_inv & Hk)%mthen_inv.
  assert (workflow_allowed w d = true ↔ int4 (Workflow_MaxParallel w) = true ∧ Workflow_ProjectID w ∈ projects d) as Ha.
  { unfold workflow_allowed. rewrite andb_true_iff, orb_true_iff, !bool_decide_eq_true, Hfresh.
    split; [intros [? [[? [=]]|?]]; done|naive_solver]. }
  destruct He as [(Hal & -> & ->)|(Hal & -> & ->)].
  - pose proof Hal as [Hi Hp]%Ha. eapply save_tasks_spec in Hk as (-> & Hn & Hs);
      [|by apply put_workflow_ok|cbn; by rewrite lookup_insert_eq|apply SortedTaskIDs_NoDup|].
    + split; [done|]. rewrite storable_all_sorted in Hn. cbn in Hn. split; [|done].
      rewrite Hn. tauto.
    + intros id Hid. apply elem_of_SortedTaskIDs in Hid. split; [by apply Hnew, elem_of_dom|].
      destruct Hid as [t Ht]. unfold task_at. rewrite Ht. by apply Hfiled in Ht.
  - apply mret_inv in Hk as [<- [= <- <-]]. split; [done|]. split; [|done].
    apply not_true_iff_false in Hal. rewrite Ha in Hal. split; [done|tauto].
Qed.

Lemma dom_imap_all {A B} (f : string → A → B) (m : gmap string A) :
  dom (map_imap (λ k a, Some (f k a)) m) = dom m.
Proof.
  apply dom_imap_L. intros k. rewrite elem_of_dom. split.
  - intros [a Ha]. exists a. split; [done|by eexists].
  - intros (a & Ha & _). by exists a.
Qed.

(** What is in the tables of a saved workflow. *)
Lemma saved_tasks_of w d d' : db_ok d → workflows d !! Workflow_ID w = None →
  saved w (SortedTaskIDs 0 (Workflow_Graph w)) (put_workflow w d) d' →
  ∀ id, tasks_of d' (Workflow_ID w) !! id =
    if decide (id ∈ dom (Tasks (Workflow_Graph w)))
    then Some (task_row (Workflow_ID w) (task_at (Workflow_Graph w) id)) else None.
Proof.
  intros Hok Hfresh [_ _ Ht _] id. unfold tasks_of. apply option_eq. intros t.
  rewrite map_lookup_filter_Some, Ht. cbn.
  assert (id ∈ SortedTaskIDs 0 (Workflow_Graph w) ↔ id ∈ dom (Tasks (Workflow_Graph w))) as Hin
    by (by rewrite elem_of_SortedTaskIDs, elem_of_dom).
  repeat case_decide; try tauto.
  - split; [by intros [? _]|]. by intros [= <-].
  - split; [|done]. intros [Hold Hwf]. apply (ok_tasks _ Hok) in Hold as [_ [x Hx]]. by rewrite Hwf, Hfresh in Hx.
Qed.

Lemma saved_stored_deps w d d' id : db_ok d →
  saved w (SortedTaskIDs 0 (Workflow_Graph w)) (put_workflow w d) d' →
  tasks d !! id = None → id ∈ dom (Tasks (Workflow_Graph w)) →
  NoDup (stored_deps d' id) ∧ ∀ dep, dep ∈ stored_deps d' id ↔ dep ∈ deps_at (Workflow_Graph w) id.
Proof.
  intros Hok [_ _ _ Hd] Hnew Hid. unfold stored_deps. rewrite sort_by_perm. split.
  - apply NoDup_fmap_2_strong; [|apply NoDup_filter, NoDup_elements].
    intros [a x] [b y] [Ha _]%list_elem_of_filter [Hb _]%list_elem_of_filter. cbn in *. by intros ->; subst.
  - intros dep. rewrite elem_of_sort_by, list_elem_of_fmap. split.
    + intros ([a x] & -> & [Ha Hin]%list_elem_of_filter). cbn in *. subst a.
      apply elem_of_elements, Hd in Hin as [[[? Hx] _]%(ok_dependencies _ Hok)|[_ ?]]; [congruence|done].
    + intros Hdep. exists (id, dep). split; [done|]. apply list_elem_of_filter. split; [done|].
      apply elem_of_elements, Hd. right. split; [|done]. by apply elem_of_SortedTaskIDs, elem_of_dom.
Qed.

(** C39: saving workflows.  In every state of the tables, a workflow whose identifier and
    whose tasks are new is saved without an error exactly when its project exists, its
    [MaxParallel] and the priorities of its tasks fit 32 bits, and for each task the project
    exists and the parent and the dependencies are the task itself, in the tables already,
    or tasks of the workflow whose identifiers sort before the task's, which are saved
    before it.  What is saved is read back, but not all of it: tasks under the same
    identifiers, with the same dependencies (each once, in the order of the database), and
    with every field of the saved ones except the routing request, the constraints and the
    retry policy, which come back empty, and with the times to the microsecond. *)
Theorem SaveWorkflow_correct ps d w (wd : W) err d' wd' :
  rtc db_step (empty_db ps) d →
  workflows d !! Workflow_ID w = None → filed (Workflow_Graph w) →
  (∀ id, id ∈ dom (Tasks (Workflow_Graph w)) → tasks d !! id = None) →
  pg_SaveWorkflow w (d, wd) = (err, (d', wd')) →
  (err = None ↔ int4 (Workflow_MaxParallel w) = true ∧ Workflow_ProjectID w ∈ projects d ∧
     ∀ id, id ∈ dom (Tasks (Workflow_Graph w)) →
       storable (projects d) (dom (tasks d) ∪ earlier (Workflow_Graph w) id) (Workflow_Graph w) id) ∧
  (err = None → ∃ g,
     pg_GetWorkflow (Workflow_ProjectID w) (Workflow_ID w) (d', wd') =
       (Ok ((workflow_row w) <| Workflow_Graph := g |>), (d', wd')) ∧
     dom (Tasks g) = dom (Tasks (Workflow_Graph w)) ∧ dom (Dependencies g) = dom (Tasks g) ∧
     ∀ id, id ∈ dom (Tasks g) → Tasks g !! id = Some (loaded w id (deps_at g id)) ∧
       NoDup (deps_at g id) ∧ ∀ dep, dep ∈ deps_at g id ↔ dep ∈ deps_at (Workflow_Graph w) id).
Proof.
  intros Hok%reachable_store_ok Hfresh Hfiled Hnew Hs.
  apply SaveWorkflow_spec in Hs as (-> & Hn & Hs); [|done..]. split; [exact Hn|].
  intros Herr. specialize (Hs Herr). clear Hn Herr.
  assert (workflows d' !! Workflow_ID w = Some (workflow_row w)) as Hrow.
  { rewrite (saved_workflows _ _ _ _ Hs). cbn. by rewrite lookup_insert_eq, Hfresh. }
  pose proof (saved_tasks_of _ _ _ Hok Hfresh Hs) as Ht.
  assert (dom (tasks_of d' (Workflow_ID w)) = dom (Tasks (Workflow_Graph w))) as Hdom.
  { apply set_eq. intros id. rewrite elem_of_dom, Ht. case_decide; [by split|]. split; [by intros []|done]. }
  eexists. split; [|split; [|split]].
  - unfold pg_GetWorkflow, look, inside. cbn [fst snd]. rewrite Hrow.
    change (Workflow_ProjectID (workflow_row w)) with (Workflow_ProjectID w).
    rewrite decide_True by done. reflexivity.
  - cbn [Tasks]. by rewrite dom_imap_all.
  - cbn [Tasks Dependencies]. by rewrite !dom_imap_all.
  - cbn [Tasks]. intros id Hid. rewrite dom_imap_all, Hdom in Hid.
    unfold deps_at at 1 2 3. cbn [Dependencies]. rewrite !map_lookup_imap, Ht, decide_True by done. cbn.
    split; [done|]. apply saved_stored_deps with (d := d); try done. by apply Hnew.
Qed.
End facts.

(** ** A witness *)

Section witness.
#[local] Existing Instance canonical_order.
#[local] Instance plain_pg : Database := {| violation := ErrorString "violation"; collate := String.ltb |}.

Definition small_task (id : string) : Task :=
  zero_Task <| Task_ID := id |> <| Task_ProjectID := "shop" |> <| Task_Status := TaskPending |>
    <| Task_Retry := mkRetryPolicy 3 ["timeout"] |>.
(** Two tasks, of which the first depends on the second. *)
Definition two_tasks (first second : string) : Workflow :=
  mkWorkflow "wf" "shop" "goal" WorkflowPlanned Sequential FailFast 3 7500 7500
    (mkTaskGraph {[first := small_task first; second := small_task second]}
       {[first := [second]; second := []]}).
Definition saving (w : Workflow) := pg_SaveWorkflow (W := unit) w (empty_db {["shop"]}, tt).

Lemma SaveWorkflow_correct_witness :
  (saving (two_tasks "verify" "build")).1 = None ∧
  ∃ g, (pg_GetWorkflow (W := unit) "shop" "wf" (saving (two_tasks "verify" "build")).2).1 =
    Ok ((workflow_row (two_tasks "verify" "build")) <| Workflow_Graph := g |>) ∧
    dom (Tasks g) = dom (Tasks (Workflow_Graph (two_tasks "verify" "build"))).
Proof.
  assert ((saving (two_tasks "verify" "build")).1 = None) as Hnone by (by vm_compute). split; [done|].
  destruct (saving (two_tasks "verify" "build")) as [err [d' []]] eqn:E. cbn in Hnone. subst err.
  destruct (SaveWorkflow_correct {["shop"]} (empty_db {["shop"]}) (two_tasks "verify" "build") tt None d' tt)
    as [_ Hget]; [apply rtc_refl|done| |done|exact E|].
  - apply map_Forall_insert_2; [done|]. by apply map_Forall_singleton.
  - destruct (Hget eq_refl) as (g & Hg & Hdom & _). exists g. split; [|done]. cbn [snd].
    change (Workflow_ProjectID (two_tasks "verify" "build")) with "shop" in Hg.
    change (Workflow_ID (two_tasks "verify" "build")) with "wf" in Hg. by rewrite Hg.
Defined.

(** A dependency whose identifier sorts behind the task's is not there yet when the task is
    saved: the workflow cannot be saved, and since there is no transaction its row and
    the first task stay behind. *)
Lemma dependency_sorts_later :
  (saving (two_tasks "build" "verify")).1 = Some (ErrorString "violation") ∧
  dom (workflows (saving (two_tasks "build" "verify")).2.1) = {["wf"]} ∧
  dom (tasks (saving (two_tasks "build" "verify")).2.1) = {["build"]}.
Proof. split_and!; vm_compute; reflexivity. Qed.

(** The retries of a task are saved, but not read. *)
Lemma retries_not_read :
  match (pg_GetWorkflow (W := unit) "shop" "wf" (saving (two_tasks "verify" "build")).2).1 with
  | Ok w => Retry_MaxAttempts (Task_Retry (task_at (Workflow_Graph w) "build")) = 0
  | Err _ => False
  end.
Proof. vm_compute. reflexivity. Qed.
End witness.
End orchstore.
