(* ===== verification/HttpBase.v ===== *)
(** * What the handlers of the server share

    The ways a handler of [src/internal/httpapi] answers, and the permission check many
    of them make themselves, since the one in front of them is never made
    ([HttpApi.v]).  A handler runs in the state [S] of the component it calls and in the
    world, where the authentication service and the stores are.  It takes the decoded
    body of the request, or the error of decoding it; where the source ignores that error, it
    takes what decoding left in the variable. *)

From S2P Require Import Prelude GoStrings World Auth HttpApi.
Import crypto auth httpapi.

Module httpbase.

Section base.
Context {S W : Type} `{World W} `{Sha256}.
Variable AuthOf : option (AuthService W).
Notation C A := (M (S * W) A).
Notation reply A := (C (Response (Z * A))).

(* src: internal/httpapi/server.go:651-654 (writeJSON) *)
Definition writeJSON {A} (code : Z) (a : A) : reply A := mret (Answer (code, a)).
(* src: internal/httpapi/server.go:655-657 (writeError) *)
Definition writeError {A} (code : Z) (err : goerror) : reply A :=
  mret (Error code (error_text err) false).

(** [json.NewDecoder(r.Body).Decode], with 400 for its error. *)
Definition decoded {A B} (input : result B) (k : B → reply A) : reply A :=
  match input with Err e => writeError 400 e | Ok b => k b end.
(** A service that may be missing. *)
Definition available {A B} (service : option B) (missing : string) (k : B → reply A) : reply A :=
  match service with None => writeError 503 (ErrorString missing) | Some b => k b end.

(** [if !s.requireProjectPermission(...) { return }]. *)
Definition permitted {A} (r : Request) (project : string) (permission : ProjectPermission)
    (k : reply A) : reply A :=
  let! denied := outside (requireProjectPermission AuthOf r project permission) in
  match denied with Some e => mret e | None => k end.

(** The check passes for the caller, and leaves the world at [w']. *)
Definition passes (r : Request) (project : string) (permission : ProjectPermission) (w w' : W) : Prop :=
  requireProjectPermission (A := unit) AuthOf r project permission w = (None, w').

Lemma passes_any A r project permission w w' :
  requireProjectPermission (A := A) AuthOf r project permission w = (None, w') ↔
  passes r project permission w w'.
Proof.
  unfold passes, requireProjectPermission.
  destruct (Principal r), AuthOf; [|split; by intros [[=] _]%mret_inv..].
  unfold mthen. destruct (RequireProjectAccess _ _ _ _ w) as [[e|] w1].
  - split; by intros [[=] _]%mret_inv.
  - split; by intros [_ ->]%mret_inv.
Qed.

Lemma permitted_cases {A} r project permission (k : reply A) s w resp s' w' :
  permitted r project permission k (s, w) = (resp, (s', w')) →
  s' = s ∨ ∃ w1, passes r project permission w w1 ∧ k (s, w1) = (resp, (s', w')).
Proof.
  intros (denied & [s1 w1] & [Hr Hs]%outside_inv & Hk)%mthen_inv. cbn [fst snd] in *. subst s1.
  destruct denied as [e|]; [left; apply mret_inv in Hk as [_ Hk]; by injection Hk|].
  right. exists w1. split; [by apply (passes_any (Z * A)) in Hr|done].
Qed.
End base.

(** ** Events

    What a handler tells the event bus: the type, the project and the data. *)
Section announce.
Context {S W D : Type}.
Variable Bus : option (string → string → D → M W unit).
Definition announce (typ project : string) (data : D) : M (S * W) unit :=
  match Bus with Some publish => outside (publish typ project data) | None => mskip end.
Lemma announce_inv typ project data (sw : S * W) u sw' :
  announce typ project data sw = (u, sw') → sw'.1 = sw.1.
Proof.
  unfold announce. destruct Bus; [by intros [_ ?]%outside_inv|by intros [_ <-]%mret_inv].
Qed.
End announce.
End httpbase.
