(* ===== verification/HttpProjects.v ===== *)
(** * The handlers of projects

    The endpoints of [src/internal/httpapi/server.go] under [/api/v1/projects], over the
    lifecycle service of [Project.v] and the tables of [PgProjects.v]: listing, creating,
    starting and stopping projects, and who owns what was created. *)

From stdpp Require Import relations.
From S2P Require Import Prelude GoStrings World Runtime Auth AuthUsers Project PgProjects HttpApi HttpBase.
Import crypto auth users pgprojects httpapi httpbase.

Module httpprojects.

(** A provider beside the state of a component. *)
Definition lift_provider {S W} (p : runtime.Provider W) : runtime.Provider (S * W) := {|
  runtime.Name := runtime.Name p;
  runtime.Create spec := outside (runtime.Create p spec);
  runtime.Start id := outside (runtime.Start p id);
  runtime.Stop id := outside (runtime.Stop p id);
  runtime.Restart id := outside (runtime.Restart p id);
  runtime.Destroy id := outside (runtime.Destroy p id);
  runtime.GetStatus id := outside (runtime.GetStatus p id);
  runtime.Exec t id c := outside (runtime.Exec p t id c)
|}.

Section handlers.
Context `{UserDatabase} `{strings.GoUnicode} {W : Type} `{World W}.
(** The containers, and the clock of the lifecycle service. *)
Variable Runtime : runtime.Provider W.
Variable Now : M W Z.
(** Whether the server was given a membership service. *)
Variable Memberships : bool.
Notation C A := (M (project_db * W) A).
Notation reply A := (C (Response (Z * A))).

Definition Lifecycle : project.Service (project_db * W) :=
  project.mkService pg_Projects (lift_provider Runtime) (outside Now).

Definition ErrAuthRequired : goerror := ErrorString "authentication required".

(* src: internal/httpapi/server.go:577-589 (listProjects) *)
Definition listProjects (r : Request) : reply (list project.Project) :=
  match Principal r with
  | None => writeError 401 ErrAuthRequired
  | Some principal =>
      let u := Principal_User principal in
      let! (items, err) := pg_ListVisible (User_ID u) (role_text (Role u)) in
      match err with Some e => writeError 500 e | None => writeJSON 200 items end
  end.

(** The project is there before it is known who asked for it. *)
(* src: internal/httpapi/server.go:591-614 (createProject) *)
Definition createProject (r : Request) (input : result string) : reply project.Project :=
  decoded input (λ name,
    let! (p, err) := project.Create Lifecycle name in
    match err with
    | Some e => writeError 500 e
    | None =>
        match Principal r, Memberships with
        | Some principal, true =>
            let! created := outside time_Now in
            let! changed := outside time_Now in
            let! err := on_access (pg_SetMembership
              (mkMembership (project.ID p) (User_ID (Principal_User principal)) "owner" created changed)) in
            match err with Some e => writeError 500 e | None => writeJSON 201 p end
        | _, _ => writeError 500 (ErrorString "membership service unavailable")
        end
    end).

(* src: internal/httpapi/server.go:616-627 (getProject) *)
Definition getProject (r : Request) : reply project.Project :=
  let! found := pg_Get (PathValue r "id") in
  match found with
  | Err e => writeError (if errors_is e ErrNotFound then 404 else 500) e
  | Ok p => writeJSON 200 p
  end.

(* src: internal/httpapi/server.go:636-643 (changeProjectStatus) *)
Definition changeProjectStatus (r : Request) (status : project.Status) : reply project.Project :=
  let! (p, err) := project.ChangeStatus Lifecycle (PathValue r "id") status in
  match err with Some e => writeError 400 e | None => writeJSON 200 p end.
(* src: internal/httpapi/server.go:629-631 (startProject) *)
Definition startProject (r : Request) : reply project.Project :=
  changeProjectStatus r project.StatusRunning.
(* src: internal/httpapi/server.go:632-634 (stopProject) *)
Definition stopProject (r : Request) : reply project.Project :=
  changeProjectStatus r project.StatusStopped.

(** ** Creating a project *)

(** The tables with one more project, of a new identifier and slug. *)
Definition grown (d : project_db) (q : project.Project) (d' : project_db) : Prop :=
  project.ID q ∉ project.ID <$> table d ∧ project.Slug q ∉ project.Slug <$> table d ∧
  d' = mkDB (table d ++ [q]) ((access d) <| projects := {[project.ID q]} ∪ projects (access d) |>).

Lemma grown_update d q d1 p (w : W) err d2 w2 :
  grown d q d1 → project.ID p = project.ID q → project.Slug p = project.Slug q →
  pg_Update p (d1, w) = (err, (d2, w2)) → w2 = w ∧ err = None ∧ grown d (updated p q) d2.
Proof.
  intros (Hi & Hs & ->) Hid Hsl Hu. unfold pg_Update, inside in Hu. cbn [fst snd table access] in Hu.
  assert (updated p <$> table d = table d) as Hsame.
  { rewrite <-(list_fmap_id (table d)) at 2. apply list_fmap_ext. intros j x Hx%list_elem_of_lookup_2. cbn.
    unfold updated. rewrite decide_False; [done|]. intros Heq. apply Hi. rewrite <-Hid, <-Heq.
    by apply list_elem_of_fmap_2. }
  replace (existsb (λ q0, bool_decide (project.ID q0 ≠ project.ID p) && _) (table d ++ [q])) with false in Hu.
  - rewrite andb_false_r in Hu. injection Hu as <- <- <-. split; [done|]. split; [done|].
    unfold grown. assert (project.ID (updated p q) = project.ID q) as ->.
    { unfold updated. by case_decide. }
    assert (project.Slug (updated p q) = project.Slug q) as ->.
    { unfold updated. by case_decide. }
    split_and!; [done..|]. by rewrite fmap_app, Hsame.
  - symmetry. apply not_true_iff_false. rewrite existsb_exists. intros (x & Hx & Hb).
    apply andb_true_iff in Hb as [Hne%bool_decide_eq_true Hse%bool_decide_eq_true].
    apply list_elem_of_In, elem_of_app in Hx as [Hx|Hx%list_elem_of_singleton]; [|by subst x].
    apply Hs. rewrite <-Hsl, <-Hse. by apply list_elem_of_fmap_2.
Qed.

(** The new project is stored again. *)
Lemma grown_stored d q d1 p (w : W) err d2 w2 :
  grown d (stored q) d1 → project.ID p = project.ID q → project.Slug p = project.Slug q →
  project.CreatedAt p = project.CreatedAt q → pg_Update p (d1, w) = (err, (d2, w2)) →
  err = None ∧ grown d (stored p) d2.
Proof.
  intros Hg Hi Hs Hc Hu. eapply grown_update in Hu as (_ & -> & Hg2); [|done..]. split; [done|].
  replace (stored p) with (updated p (stored q)); [done|]. unfold updated. cbn.
  rewrite decide_True by done. destruct p. cbn in *. by subst.
Qed.

(** What the lifecycle service does to the tables, whatever it answers. *)
Lemma Create_tables name d (w : W) p err d' w' :
  project.Create Lifecycle name (d, w) = ((p, err), (d', w')) →
  (err ≠ None ∧ d' = d) ∨
  ∃ q, grown d q d' ∧ (err = None → q = stored p ∧ project.Project_Status p = project.StatusReady) ∧
    (err ≠ None → project.Project_Status q = project.StatusFailed).
Proof.
  intros (now & [d1 w1] & [_ Hd1]%outside_inv & Hk)%mthen_inv. cbn [fst] in Hd1. subst d1.
  unfold project.New in Hk.
  destruct (decide (strings.TrimSpace name = "")); [apply mret_inv in Hk as [[= _ <-] [= <- _]]; by left|].
  match type of Hk with context [project.mkProject ?a ?b ?c ?st ?e ?f ?g] =>
    set (p0 := project.mkProject a b c st e f g) in Hk end.
  apply mthen_inv in Hk as (e1 & [d1 w2] & Hc & Hk).
  apply Create_spec in Hc as [_ [[-> ->]|(-> & Hi & Hs & ->)]];
    [apply mret_inv in Hk as [[= _ <-] [= <- _]]; by left|].
  right. assert (grown d (stored p0) (mkDB (table d ++ [stored p0])
    ((access d) <| projects := {[project.ID p0]} ∪ projects (access d) |>))) as Hg by done.
  revert Hk Hg. generalize (mkDB (table d ++ [stored p0])
    ((access d) <| projects := {[project.ID p0]} ∪ projects (access d) |>)). intros d1 Hk Hg.
  apply mthen_inv in Hk as (t1 & [d2 w3] & [_ Hd2]%outside_inv & Hk). cbn [fst] in Hd2. subst d2.
  cbn [project.Transition project.allowed project.Project_Status p0 negb] in Hk.
  apply mthen_inv in Hk as (e2 & [d2 w4] & Hu & Hk).
  eapply grown_stored in Hu as [-> Hg2]; [|exact Hg|done..]. clear Hg d1.
  apply mthen_inv in Hk as ([rt e3] & [d1 w5] & [_ Hd1]%outside_inv & Hk). cbn [fst] in Hd1. subst d1.
  destruct e3 as [e3|].
  - apply mthen_inv in Hk as (t2 & [d1 w6] & [_ Hd1]%outside_inv & Hk). cbn [fst] in Hd1. subst d1.
    apply mthen_inv in Hk as (e4 & [d3 w7] & Hu & Hk).
    eapply grown_stored in Hu as [-> Hg3]; [|exact Hg2|done..].
    apply mret_inv in Hk as [[= _ <-] [= <- _]]. eexists. split; [exact Hg3|]. by split.
  - apply mthen_inv in Hk as (t2 & [d1 w6] & [_ Hd1]%outside_inv & Hk). cbn [fst] in Hd1. subst d1.
    cbn [project.Transition project.allowed project.Project_Status p0 negb set_field] in Hk.
    apply mthen_inv in Hk as (e4 & [d3 w7] & Hu & Hk).
    eapply grown_stored in Hu as [-> Hg3]; [|exact Hg2|done..].
    apply mret_inv in Hk as [[= <- <-] [= <- _]]. eexists. split; [exact Hg3|]. by split.
Qed.

(** A new project has no members. *)
Lemma grown_rows d q d' m : db_ok d → grown d q d' → m ∈ rows (access d) →
  Membership_ProjectID m ≠ project.ID q.
Proof.
  intros Hok (Hi & _ & _) Hm Heq. apply Hi, (ok_references _ Hok). rewrite <-Heq.
  destruct (ok_access _ Hok) as [_ Hr]. rewrite Forall_forall in Hr. specialize (Hr m Hm).
  unfold membership_allowed in Hr. rewrite !andb_true_iff, bool_decide_eq_true in Hr. by destruct Hr as [[]].
Qed.

(** Its first member. *)
Lemma first_member d q d1 u t1 t2 (w : W) err d' w' : db_ok d → grown d q d1 →
  on_access (pg_SetMembership (mkMembership (project.ID q) u "owner" t1 t2)) (d1, w) = (err, (d', w')) →
  (err = Some constraint_violated ∧ d' = d1) ∨
  (err = None ∧ table d' = table d1 ∧
   rows (access d') = rows (access d) ++ [mkMembership (project.ID q) u "owner" (micros t1) (micros t1)]).
Proof.
  intros Hok Hg (t' & Hset & ->)%on_access_inv. unfold pg_SetMembership, inside in Hset. cbn [fst snd] in Hset.
  destruct (membership_allowed _ _); cbn [negb] in Hset; [|injection Hset as <- <- <-; left; by destruct d1].
  assert (rows (access d1) = rows (access d)) as Hrows by (by destruct Hg as (_ & _ & ->)).
  rewrite Hrows in Hset. cbn in Hset.
  destruct (filter (of_pair (project.ID q) u) (rows (access d))) as [|m l] eqn:Hf.
  - injection Hset as <- <- _. right. by cbn.
  - assert (m ∈ filter (of_pair (project.ID q) u) (rows (access d))) as [[Hp _] Hm]%list_elem_of_filter
      by (rewrite Hf; by left).
    by destruct (grown_rows _ _ _ _ Hok Hg Hm).
Qed.

(** The owner may do everything, and sees the project. *)
Lemma owner_access sessions d u id t d' permission (w : W) :
  rows (access d') = rows (access d) ++ [mkMembership id (User_ID u) "owner" t t] →
  (∀ m, m ∈ rows (access d) → Membership_ProjectID m ≠ id) →
  permission ∈ [PermissionRead; PermissionEdit; PermissionRun; PermissionDeploy] →
  (RequireProjectAccess (access_of sessions) u id permission (d', w)).1 = None.
Proof.
  intros Hr Hnone Hp. unfold RequireProjectAccess. destruct (_ || _); [done|].
  unfold access_of, mthen, mret, on_access, pg_GetMembership, look, inside. cbn. rewrite Hr, filter_app.
  destruct (filter (of_pair id (User_ID u)) (rows (access d))) as [|m l] eqn:Hf.
  - cbn. rewrite decide_True by done. cbn.
    rewrite !elem_of_cons, elem_of_nil in Hp. by destruct Hp as [->|[->|[->|[->|[]]]]].
  - assert (m ∈ filter (of_pair id (User_ID u)) (rows (access d))) as [[Hm1 _] Hm]%list_elem_of_filter
      by (rewrite Hf; by left).
    by destruct (Hnone m Hm).
Qed.

(** C37: who owns a new project.  When creating a project is answered with 201, the table
    has one more project, the one that is shown, READY and with a slug no other project
    has, and one more membership, which makes the caller its owner, its only member so
    far: every access check on the project lets the caller pass, the list of projects
    shows it, and asking for it answers it as it was stored.  Every other answer is an
    error and leaves the memberships alone, but possibly a project that nobody is a
    member of. *)
Theorem createProject_owned us d r input sessions (w : W) resp d' w' :
  rtc (db_step (W := W)) (empty_db us) d →
  createProject r input (d, w) = (resp, (d', w')) →
  (∃ p pr t, resp = Answer (201, p) ∧ Principal r = Some pr ∧
     project.Project_Status p = project.StatusReady ∧
     project.Slug p ∉ project.Slug <$> table d ∧ table d' = table d ++ [stored p] ∧
     rows (access d') = rows (access d) ++
       [mkMembership (project.ID p) (User_ID (Principal_User pr)) "owner" t t] ∧
     (∀ m, m ∈ rows (access d) → Membership_ProjectID m ≠ project.ID p) ∧
     (∀ permission, permission ∈ [PermissionRead; PermissionEdit; PermissionRun; PermissionDeploy] →
        (RequireProjectAccess (access_of sessions) (Principal_User pr) (project.ID p) permission
           (d', w')).1 = None) ∧
     (∃ l, (listProjects r (d', w')).1 = Answer (200, l) ∧ stored p ∈ l) ∧
     ∀ q, PathValue q "id" = project.ID p → (getProject q (d', w')).1 = Answer (200, stored p)) ∨
  ((∃ code msg, resp = Error code msg false) ∧ rows (access d') = rows (access d) ∧
   (d' = d ∨ ∃ q, grown d q d')).
Proof.
  intros Hok%reachable_db_ok Hrun. destruct input as [name|e];
    [|apply mret_inv in Hrun as [<- [= <- _]]; right; split_and!; [by do 2 eexists|done|by left]].
  apply mthen_inv in Hrun as ([p err] & [d1 w1] & Hc & Hk). apply Create_tables in Hc.
  assert (d1 = d ∨ ∃ q, grown d q d1) as Hd1 by naive_solver.
  assert (rows (access d1) = rows (access d)) as Hr1.
  { destruct Hd1 as [->|(q & _ & _ & ->)]; done. }
  destruct err as [e|]; [apply mret_inv in Hk as [<- [= <- _]]; right; split_and!; [by do 2 eexists|done..]|].
  destruct (Principal r) as [pr|] eqn:Hpr, Memberships;
    try (apply mret_inv in Hk as [<- [= <- _]]; right; split_and!; [by do 2 eexists|done..]).
  apply mthen_inv in Hk as (t1 & [d2 w2] & [_ Hd2]%outside_inv & Hk). cbn [fst] in Hd2. subst d2.
  apply mthen_inv in Hk as (t2 & [d2 w3] & [_ Hd2]%outside_inv & Hk). cbn [fst] in Hd2. subst d2.
  apply mthen_inv in Hk as (err & [d2 w4] & Hset & Hk).
  destruct Hc as [[? _]|(q & Hg & Hp & _)]; [done|]. destruct (Hp eq_refl) as [-> Hst].
  apply (first_member d (stored p)) in Hset as [[-> ->]|(-> & Ht & Hr)]; [| |done..].
  { apply mret_inv in Hk as [<- [= <- _]]. right. split_and!; [by do 2 eexists|done..]. }
  apply mret_inv in Hk as [<- [= <- _]]. left. exists p, pr, (micros t1).
  pose proof (λ m, grown_rows _ _ _ m Hok Hg) as Hnone.
  assert (table d2 = table d ++ [stored p]) as Ht2 by (rewrite Ht; by destruct Hg as (_ & _ & ->)).
  split_and!; try done.
  - by destruct Hg as (_ & Hs & _).
  - intros permission. by eapply owner_access.
  - unfold listProjects. rewrite Hpr. eexists. split; [reflexivity|].
    unfold newest_first. rewrite elem_of_sort_by, list_elem_of_filter. split.
    + unfold visible_to. apply orb_true_iff. right. apply existsb_exists. cbn. rewrite Hr.
      eexists. split; [apply in_app_iff; right; by left|]. by apply bool_decide_eq_true.
    + cbn. rewrite Ht2. apply elem_of_app. right. by left.
  - intros q Hq. unfold getProject, pg_Get, look, inside, mthen. cbn. rewrite Ht2, filter_app, Hq.
    destruct (filter _ (table d)) as [|x l] eqn:Hf.
    + cbn. by rewrite decide_True.
    + assert (x ∈ filter (λ q0, project.ID q0 = project.ID p) (table d)) as [Hx Hin]%list_elem_of_filter
        by (rewrite Hf; by left).
      destruct Hg as (Hi & _ & _). destruct Hi. cbn. rewrite <-Hx. by apply list_elem_of_fmap_2.
Qed.
End handlers.

(** ** Witnesses *)

Section witness.
#[local] Existing Instance still_world.
#[local] Existing Instance plain_database.
#[local] Existing Instance plain_unicode.
Definition ann : User := mkUser "ann" "" "" RoleMember "active" 0 0 None.
Definition create_request (u : User) : Request :=
  mkRequest "POST" "/api/v1/projects" None ∅ (Some (mkPrincipal u zero_Session)).
Definition works : runtime.Provider unit := runtime.answering runtime.zero_ExecResult.
(** A host that cannot create containers. *)
Definition full : runtime.Provider unit := {|
  runtime.Name := "full";
  runtime.Create _ := mret (runtime.mkRuntime "" "" runtime.StatusUnknown, Some (ErrorString "disk full"));
  runtime.Start := runtime.Start works; runtime.Stop := runtime.Stop works;
  runtime.Restart := runtime.Restart works; runtime.Destroy := runtime.Destroy works;
  runtime.GetStatus := runtime.GetStatus works; runtime.Exec := runtime.Exec works
|}.
Definition create (p : runtime.Provider unit) (now : Z) (u : User) (name : string) (d : project_db) :=
  createProject p (mret now) true (create_request u) (Ok name) (d, tt).

Lemma createProject_owned_witness :
  ∃ p d', create works 7000 ann "My Shop" (empty_db [ann]) = (Answer (201, p), (d', tt)) ∧
  project.Slug p = "my-shop" ∧ project.Project_Status p = project.StatusReady ∧
  (RequireProjectAccess (access_of (mkSessions None None 0)) ann (project.ID p) PermissionDeploy
     (d', tt)).1 = None.
Proof.
  destruct (create works 7000 ann "My Shop" (empty_db [ann])) as [resp [d' []]] eqn:E.
  destruct (createProject_owned works (mret 7000) true [ann] (empty_db [ann]) (create_request ann) (Ok "My Shop")
    (mkSessions None None 0) tt resp d' tt (rtc_refl _ _) E)
    as [(p & pr & t & -> & [= <-] & Hst & _ & _ & _ & _ & Hacc & _)|((code & msg & ->) & _)].
  - exists p, d'. split; [done|]. split; [|split; [exact Hst|apply (Hacc PermissionDeploy); do 3 right; left]].
    assert (snd <$> (match (create works 7000 ann "My Shop" (empty_db [ann])).1 with
                     | Answer a => Some a | _ => None end) = Some p) as Hp by (by rewrite E).
    vm_compute in Hp. by injection Hp as <-.
  - exfalso. assert (is_Some (match (create works 7000 ann "My Shop" (empty_db [ann])).1 with
                     | Answer a => Some a | _ => None end)) as Hp by (vm_compute; by eexists).
    rewrite E in Hp. by destruct Hp.
Defined.

(** When the container cannot be created, the project stays in the table, FAILED and
    without a member: its slug is taken, and nobody but an administrator or an operator
    can see it, so the same name can never be used again. *)
Lemma failed_creation_takes_slug :
  let d := (create full 7000 ann "My Shop" (empty_db [ann])).2.1 in
  project.Project_Status <$> table d = [project.StatusFailed] ∧
  (pg_ListVisible (W := unit) "ann" "member" (d, tt)).1.1 = [] ∧
  (create works 8000 ann "My Shop" d).1 = Error 500 "violation" false.
Proof. by vm_compute. Qed.

(** A caller whose account was removed meanwhile leaves a project nobody owns. *)
Lemma project_without_owner :
  let d := (create works 7000 ann "My Shop" (empty_db [])).2.1 in
  project.Project_Status <$> table d = [project.StatusReady] ∧ rows (access d) = [].
Proof. by vm_compute. Qed.
End witness.
End httpprojects.
