(* ===== verification/HttpWork.v ===== *)
(** * The handlers of plans, workflows and approvals

    The endpoints of [src/internal/httpapi/server.go] for plans and workflows, over the
    planner of [OrchPlan.v] and the store of [OrchStore.v]. *)

From stdpp Require Import relations.
From S2P Require Import Prelude GoStrings World Auth OrchTypes OrchGraph OrchPlan PgBase OrchStore HttpApi HttpBase.
Import orchestration graph plan pg orchstore httpapi httpbase.

Module httpwork.

(** An orchestrator whose planner may read the clock. *)
Record orchestrator (W : Type) := mkOrchestratorOf {
  PlannerOf : PlannerInput → M W (result TaskPlan);
  NowOf : option (M W Z)
}.
Arguments mkOrchestratorOf {W}.
Arguments PlannerOf {W}.
Arguments NowOf {W}.

(** What the bus is told. *)
Inductive work_event :=
  | WorkflowData (w : Workflow)
  | CancelledData (id : string)
  | ApprovalData (a : Approval).

Section handlers.
Context `{MapOrder} `{Database} {W : Type} `{World W}.
Variable Orchestrator : option (orchestrator W).
(** Whether there is a store, and the bus. *)
Variable WorkflowStore : bool.
Variable Bus : option (string → string → work_event → M W unit).
(** A time in the layout of identifiers. *)
Variable stamp : Z → string.
Notation C A := (M (orch_db * W) A).
Notation reply A := (C (Response (Z * A))).

(** The planner of [Plan], the clock and the orchestrator's own clock, in this order. *)
Definition orchestrate (o : orchestrator W) (input : PlannerInput) : M W (result Workflow) :=
  let! plan := PlannerOf o input in
  match plan with
  | Err e => mret (Err e)
  | Ok p =>
      match ValidatePlan p with
      | Err e => mret (Err e)
      | Ok _ =>
          let! clock := time_Now in
          let! now := match NowOf o with
                      | Some now => let! t := now in mret (Some t)
                      | None => mret None
                      end in
          mret (Plan clock (mkOrchestrator (Some (λ _, Ok p)) now) input)
      end
  end.

(** [DeterministicPlanner] on the clock. *)
Definition deterministic (input : PlannerInput) : M W (result TaskPlan) :=
  if decide (Intent_Goal (Planner_Intent input) = "") then mret (DeterministicPlanner 0 input)
  else let! now := time_Now in mret (DeterministicPlanner now input).

Definition for_project (r : Request) (input : PlannerInput) : PlannerInput :=
  input <| Planner_Intent := (Planner_Intent input) <| Intent_ProjectID := PathValue r "project" |> |>.

(* src: internal/httpapi/server.go:323-344 (createPlan) *)
Definition createPlan (r : Request) (input : result PlannerInput) : reply TaskPlan :=
  available Orchestrator "orchestrator unavailable" (λ o,
    decoded input (λ input,
      let! plan := outside (PlannerOf o (for_project r input)) in
      match plan with
      | Err e => writeError 400 e
      | Ok p =>
          match ValidatePlan p with
          | Err e => writeError 422 e
          | Ok _ => writeJSON 200 p
          end
      end)).

Definition ErrNoOrchestration : string := "orchestration persistence unavailable".
Definition ErrNoStore : string := "workflow store unavailable".
Definition with_store {A} (missing : string) (k : reply A) : reply A :=
  if WorkflowStore then k else writeError 503 (ErrorString missing).

(* src: internal/httpapi/server.go:345-370 (createWorkflow) *)
Definition createWorkflow (r : Request) (input : result PlannerInput) : reply Workflow :=
  available Orchestrator ErrNoOrchestration (λ o, with_store ErrNoOrchestration (
    decoded input (λ input,
      let! made := outside (orchestrate o (for_project r input)) in
      match made with
      | Err e => writeError 422 e
      | Ok workflow =>
          let! err := pg_SaveWorkflow workflow in
          match err with
          | Some e => writeError 500 e
          | None =>
              let! _ := announce Bus "workflow.created" (Workflow_ProjectID workflow) (WorkflowData workflow) in
              writeJSON 201 workflow
          end
      end))).

(* src: internal/httpapi/server.go:371-382 (getWorkflow) *)
Definition getWorkflow (r : Request) : reply Workflow :=
  with_store ErrNoStore (
    let! found := pg_GetWorkflow (PathValue r "project") (PathValue r "workflow") in
    match found with Err e => writeError 404 e | Ok w => writeJSON 200 w end).

(** Whatever the status was. *)
(* src: internal/httpapi/server.go:383-404 (cancelWorkflow) *)
Definition cancelWorkflow (r : Request) : reply Workflow :=
  with_store ErrNoStore (
    let! found := pg_GetWorkflow (PathValue r "project") (PathValue r "workflow") in
    match found with
    | Err e => writeError 404 e
    | Ok w =>
        let! now := outside time_Now in
        let w := w <| Workflow_Status := WorkflowCancelled |> <| Workflow_UpdatedAt := now |> in
        let! err := pg_SaveWorkflow w in
        match err with
        | Some e => writeError 500 e
        | None =>
            let! _ := announce Bus "workflow.cancelled" (Workflow_ProjectID w) (CancelledData (Workflow_ID w)) in
            writeJSON 200 w
        end
    end).

(** The project of the path is only told to the bus. *)
(* src: internal/httpapi/server.go:406-427 (requestApproval) *)
Definition requestApproval (r : Request) (input : result string) : reply Approval :=
  with_store ErrNoStore (
    decoded input (λ permission,
      let! t1 := outside time_Now in
      let! t2 := outside time_Now in
      let approval := mkApproval ("approval_" +:+ stamp t1) (PathValue r "workflow") (PathValue r "task")
        permission "WAITING_FOR_APPROVAL" t2 None in
      let! err := pg_SaveApproval approval in
      match err with
      | Some e => writeError 500 e
      | None =>
          let! _ := announce Bus "task.approval_required" (PathValue r "project") (ApprovalData approval) in
          writeJSON 201 approval
      end)).

(* src: internal/httpapi/server.go:428-461 (resolveApproval) *)
Definition resolveApproval (r : Request) (input : result bool) : reply Approval :=
  with_store ErrNoStore (
    decoded input (λ approved,
      let! found := pg_GetApproval (PathValue r "approval") in
      match found with
      | Err e => writeError 404 e
      | Ok approval =>
          if decide (Approval_WorkflowID approval ≠ PathValue r "workflow")
          then writeError 404 (ErrorString "approval does not belong to workflow")
          else
            let! now := outside time_Now in
            let approval := approval <| Approval_Status := (if (approved : bool) then "APPROVED" else "REJECTED") |>
              <| Approval_ResolvedAt := Some now |> in
            let! err := pg_SaveApproval approval in
            match err with Some e => writeError 500 e | None => writeJSON 200 approval end
      end)).
End handlers.

(** ** The workflows of the deterministic planner *)

Section planned.
Context `{MapOrder}.
Variable input : PlannerInput.
Variable now : Z.
Notation goal := (Intent_Goal (Planner_Intent input)).
Hypothesis Hgoal : goal ≠ "".

Definition planned : TaskPlan :=
  match DeterministicPlanner now input with Ok p => p | Err _ => mkTaskPlan "" [] ∅ Sequential "" end.
Definition chain (id : string) : list string :=
  if decide (id = "implement") then ["analyze"] else if decide (id = "verify") then ["implement"] else [].

Lemma planned_eq : DeterministicPlanner now input = Ok planned.
Proof using Hgoal. unfold planned, DeterministicPlanner. by rewrite decide_False. Qed.

Lemma planned_fields : planned =
  mkTaskPlan goal
    [planned_task input now "analyze" "Analyze request" goal "ARCHITECTURE" [];
     planned_task input now "implement" "Implement solution" goal "CODE" ["analyze"];
     planned_task input now "verify" "Verify implementation" "Run deterministic verification" "TEST" ["implement"]]
    {["analyze" := []; "implement" := ["analyze"]; "verify" := ["implement"]]} DependencyDriven "MEDIUM".
Proof using Hgoal. unfold planned, DeterministicPlanner. by rewrite decide_False. Qed.

Definition planned_keys : list string := ["analyze"; "implement"; "verify"].
Lemma planned_dependency_keys id : is_Some (Plan_Dependencies planned !! id) → id ∈ planned_keys.
Proof using Hgoal.
  rewrite planned_fields. cbn [Plan_Dependencies].
  destruct (decide (id ∈ planned_keys)) as [|Hn]; [done|].
  unfold planned_keys in Hn. rewrite !not_elem_of_cons in Hn. destruct Hn as (H1 & H2 & H3 & _).
  rewrite !lookup_insert_ne, lookup_singleton_ne by done. by intros [].
Qed.
Definition planned_facts (id : string) (t : Task) : Prop :=
  Task_ID t = id ∧ Task_ParentTaskID t = "" ∧ Task_Priority t = 0 ∧
  Task_ProjectID t = Intent_ProjectID (Planner_Intent input) ∧ Task_WorkflowID t = "".
Lemma planned_list t : t ∈ Plan_Tasks planned → Task_ID t ∈ planned_keys ∧ planned_facts (Task_ID t) t.
Proof using Hgoal.
  rewrite planned_fields. cbn [Plan_Tasks]. rewrite !elem_of_cons, elem_of_nil.
  intros [->|[->|[->|[]]]]; (split; [by repeat constructor|done]).
Qed.
Lemma planned_ids : Task_ID <$> Plan_Tasks planned = planned_keys.
Proof using Hgoal. by rewrite planned_fields. Qed.

Lemma planned_lookup id t : Tasks (plan_graph planned) !! id = Some t →
  id ∈ planned_keys ∧ planned_facts id t.
Proof using Hgoal.
  unfold plan_graph. cbn [Tasks]. rewrite lookup_union_Some_raw. intros [Ht|[Hn Ht]].
  - apply elem_of_list_to_map_2, list_elem_of_fmap in Ht as (t' & [= -> ->] & Ht). by apply planned_list.
  - exfalso. apply not_elem_of_list_to_map in Hn. apply Hn. rewrite <-list_fmap_compose.
    change (id ∈ Task_ID <$> Plan_Tasks planned). rewrite planned_ids. apply planned_dependency_keys.
    rewrite lookup_fmap in Ht. apply fmap_Some in Ht as (ds & -> & _). by eexists.
Qed.

Lemma planned_present id : id ∈ planned_keys →
  is_Some (Tasks (plan_graph planned) !! id).
Proof using Hgoal.
  rewrite <-planned_ids. intros (t & -> & Ht)%list_elem_of_fmap. unfold plan_graph. cbn [Tasks].
  apply lookup_union_is_Some. left. apply not_eq_None_Some.
  intros Hn%not_elem_of_list_to_map. apply Hn. rewrite <-list_fmap_compose.
  by apply (list_elem_of_fmap_2 Task_ID).
Qed.

Lemma planned_deps id : deps_at (plan_graph planned) id = chain id.
Proof using Hgoal.
  rewrite planned_fields. unfold deps_at, plan_graph, chain. cbn [Dependencies Plan_Dependencies].
  destruct (decide (id = "implement")) as [->|H1]; [done|].
  destruct (decide (id = "verify")) as [->|H2]; [done|].
  destruct (decide (id = "analyze")) as [->|H3]; [done|].
  by rewrite !lookup_insert_ne, lookup_singleton_ne by done.
Qed.

(** How far a task is from the first. *)
Definition depth (id : string) : nat :=
  if decide (id = "implement") then 1 else if decide (id = "verify") then 2 else 0.
Lemma planned_valid : well_formed (plan_graph planned) ∧ acyclic_graph (plan_graph planned).
Proof using Hgoal.
  split.
  - intros id t Ht. apply planned_lookup in Ht as (Hid & Hti & Hp & _). split; [done|..].
    + rewrite planned_deps. unfold chain. repeat case_decide; repeat constructor; by intros ?%elem_of_nil.
    + intros d. rewrite planned_deps. unfold chain. intros Hd. apply planned_present.
      repeat case_decide; [apply list_elem_of_singleton in Hd as ->..|by apply elem_of_nil in Hd];
        by repeat constructor.
    + by rewrite Hp.
  - intros id _ Htc. assert (∀ a b, tc (dependency (plan_graph planned)) a b → (depth b < depth a)%nat) as Hlt.
    { assert (∀ a b, dependency (plan_graph planned) a b → (depth b < depth a)%nat) as Hone.
      { intros a b. unfold dependency. rewrite planned_deps. unfold chain, depth.
        destruct (decide (a = "implement")) as [->|]; [intros ->%list_elem_of_singleton; simpl; lia|].
        destruct (decide (a = "verify")) as [->|]; [intros ->%list_elem_of_singleton; simpl; lia|].
        by intros ?%elem_of_nil. }
      induction 1 as [a b Hab|a b c Hab _ IH]; [by apply Hone|]. apply Hone in Hab. lia. }
    specialize (Hlt _ _ Htc). lia.
Qed.
End planned.

(** Texts with the same beginning compare as what follows. *)
Lemma ltb_app p a b : String.ltb (p +:+ a) (p +:+ b) = String.ltb a b.
Proof.
  induction p as [|c p IH]; [done|]. unfold String.ltb in *.
  change (String c p +:+ a) with (String c (p +:+ a)). change (String c p +:+ b) with (String c (p +:+ b)).
  cbn [String.compare]. unfold Ascii.compare. by rewrite N.compare_refl.
Qed.

Section kept.
Context `{MapOrder} `{Database} {W : Type} `{World W}.

Lemma orchestrate_deterministic (o : orchestrator W) input w :
  PlannerOf o = deterministic → Intent_Goal (Planner_Intent input) ≠ "" →
  ∃ wf t w1, orchestrate o input w = (Ok wf, w1) ∧
    Workflow_Graph wf = remap (Workflow_ID wf) (plan_graph (planned input t)) ∧
    Workflow_ProjectID wf = Intent_ProjectID (Planner_Intent input) ∧ Workflow_MaxParallel wf = 3.
Proof.
  intros Ho Hgoal. unfold orchestrate. rewrite Ho. unfold deterministic. rewrite decide_False by done.
  unfold mthen at 1. unfold mthen at 1. destruct (time_Now w) as [t w0]. unfold mret at 1.
  rewrite planned_eq by done.
  assert (ValidatePlan (planned input t) = Ok (plan_graph (planned input t))) as Hv.
  { apply ValidatePlan_iff. rewrite validate_none_iff. split_and!; try apply planned_valid; try done;
      rewrite planned_fields by done; cbn; try done. repeat constructor; set_solver. }
  rewrite Hv. unfold mthen at 1. destruct (time_Now w0) as [clock w1].
  lazymatch goal with |- context [mthen ?m ?k w1] =>
    unfold mthen at 1; destruct (m w1) as [now w2] end.
  unfold Plan. cbn [Orchestrator_Planner res_bind]. rewrite Hv. cbn [res_bind].
  eexists _, t, w2. split; [reflexivity|]. by cbn.
Qed.

(** The graph of a planned workflow, and that it can be saved where the project exists. *)
Lemma planned_graph input t wf k : Intent_Goal (Planner_Intent input) ≠ "" → k ∈ planned_keys →
  let g := remap wf (plan_graph (planned input t)) in
  planned_facts input k (default zero_Task (Tasks (plan_graph (planned input t)) !! k)) ∧
  Tasks g !! new_id wf k =
    Some (renamed wf (plan_graph (planned input t)) k (task_at (plan_graph (planned input t)) k)) ∧
  deps_at g (new_id wf k) = new_id wf <$> chain k.
Proof.
  intros Hgoal Hk g. destruct (planned_valid input t Hgoal) as [Hwf _].
  destruct (remap_lookup wf (plan_graph (planned input t)) k Hwf (plan_graph_keys _)) as [Ht Hd].
  destruct (planned_present input t Hgoal k Hk) as [task Htask]. unfold g. rewrite Ht, Hd, planned_deps by done.
  unfold task_at. rewrite Htask. split; [|done]. by eapply planned_lookup in Htask as [_ ?].
Qed.

Lemma planned_dom input t wf id : Intent_Goal (Planner_Intent input) ≠ "" →
  id ∈ dom (Tasks (remap wf (plan_graph (planned input t)))) ↔ ∃ k, k ∈ planned_keys ∧ id = new_id wf k.
Proof.
  intros Hgoal. rewrite elem_of_dom. split.
  - intros (k & [task Hk] & ->)%remap_range. exists k. split; [|done].
    by eapply planned_lookup in Hk as [? _].
  - intros (k & Hk & ->). destruct (planned_graph input t wf k Hgoal Hk) as (_ & -> & _). by eexists.
Qed.

Lemma planned_storable input t wf ps known id : Intent_Goal (Planner_Intent input) ≠ "" →
  let g := remap wf (plan_graph (planned input t)) in
  id ∈ dom (Tasks g) →
  storable ps (known ∪ earlier g id) g id ↔ Intent_ProjectID (Planner_Intent input) ∈ ps.
Proof.
  intros Hgoal g Hid. pose proof Hid as (k & Hk & ->)%planned_dom; [|done].
  destruct (planned_graph input t wf k Hgoal Hk) as ((F1 & F2 & F3 & F4 & F5) & Ht & Hd). fold g in Ht, Hd.
  fold (task_at (plan_graph (planned input t)) k) in F1, F2, F3, F4, F5.
  assert (task_at g (new_id wf k) = renamed wf (plan_graph (planned input t)) k
    (task_at (plan_graph (planned input t)) k)) as Hta by (unfold task_at at 1; by rewrite Ht).
  unfold storable. rewrite Hta, Hd. clear Hta Ht.
  revert F1 F2 F3 F4 F5. generalize (task_at (plan_graph (planned input t)) k).
  intros task F1 F2 F3 F4 F5. cbn. rewrite F2, F3, F4.
  split; [by intros (_ & ? & _)|]. intros Hp. split_and!; [done|done|by left|].
  intros dep (d & -> & Hc)%list_elem_of_fmap.
  assert (d ∈ planned_keys ∧ String.ltb d k = true) as [Hdk Hlt].
  { unfold chain in Hc. destruct (decide (k = "implement")) as [->|].
    { apply list_elem_of_singleton in Hc as ->. split; [left|done]. }
    destruct (decide (k = "verify")) as [->|]; [|by apply elem_of_nil in Hc].
    apply list_elem_of_singleton in Hc as ->. split; [right; left|done]. }
  apply elem_of_union_r, elem_of_union_r. unfold earlier. apply elem_of_filter. split.
  - unfold new_id. by rewrite !ltb_app.
  - apply planned_dom; [done|]. by exists d.
Qed.

(** What is read back of a planned workflow after it was saved. *)
Lemma planned_saved d d' input t wf : db_ok d → Intent_Goal (Planner_Intent input) ≠ "" →
  Workflow_Graph wf = remap (Workflow_ID wf) (plan_graph (planned input t)) →
  workflows d !! Workflow_ID wf = None →
  (∀ id, id ∈ dom (Tasks (Workflow_Graph wf)) → tasks d !! id = None) →
  saved wf (SortedTaskIDs 0 (Workflow_Graph wf)) (put_workflow wf d) d' →
  workflows d' !! Workflow_ID wf = Some (workflow_row wf) ∧
  (∀ id, id ∈ dom (tasks_of d' (Workflow_ID wf)) ↔ ∃ k, k ∈ planned_keys ∧ id = new_id (Workflow_ID wf) k) ∧
  ∀ k, k ∈ planned_keys → stored_deps d' (new_id (Workflow_ID wf) k) = new_id (Workflow_ID wf) <$> chain k.
Proof.
  intros Hok Hgoal Hg Hfresh Hnew Hs. split_and!.
  - rewrite (saved_workflows _ _ _ _ Hs). cbn. by rewrite lookup_insert_eq, Hfresh.
  - intros id. rewrite elem_of_dom, (saved_tasks_of _ _ _ Hok Hfresh Hs), Hg.
    rewrite <-(planned_dom input t (Workflow_ID wf) id Hgoal). case_decide; [by split|]. by split; [intros []|].
  - intros k Hk. assert (new_id (Workflow_ID wf) k ∈ dom (Tasks (Workflow_Graph wf))) as Hid.
    { rewrite Hg. apply planned_dom; [done|]. by exists k. }
    destruct (saved_stored_deps wf d d' _ Hok Hs (Hnew _ Hid) Hid) as [Hnd Hin].
    destruct (planned_graph input t (Workflow_ID wf) k Hgoal Hk) as (_ & _ & Hd). rewrite <-Hg in Hd.
    rewrite Hd in Hin. revert Hnd Hin. generalize (stored_deps d' (new_id (Workflow_ID wf) k)).
    assert (chain k = [] ∨ ∃ x, chain k = [x]) as [->|[x ->]] by (unfold chain; repeat case_decide; eauto).
    + intros [|a l] _ Hin; [done|]. by assert (a ∈ @nil string) as ?%elem_of_nil by (apply Hin; left).
    + cbn. intros [|a l] Hnd Hin; [by assert (new_id (Workflow_ID wf) x ∈ @nil string) as ?%elem_of_nil by (apply Hin; left)|].
      assert (a = new_id (Workflow_ID wf) x) as -> by (apply list_elem_of_singleton, Hin; left). f_equal.
      destruct l as [|b l]; [done|]. apply NoDup_cons in Hnd as [Hb _]. destruct Hb.
      assert (b = new_id (Workflow_ID wf) x) as -> by (apply list_elem_of_singleton, Hin; right; left). left.
Qed.

(** Creating a workflow.  With the deterministic planner, a request without a goal is
    refused and nothing is saved.  A request with a goal always plans a workflow; when its
    identifiers are new, it is created exactly if the project of the path exists, and
    then asking for it answers it with its three tasks, each of which depends on the one
    before. *)
Theorem createWorkflow_kept ps d (o : orchestrator W) Bus r input (w : W) resp d' w' :
  rtc (db_step (W := W)) (empty_db ps) d → PlannerOf o = deterministic →
  createWorkflow (Some o) true Bus r (Ok input) (d, w) = (resp, (d', w')) →
  (Intent_Goal (Planner_Intent input) = "" → resp = Error 422 "goal is required" false ∧ d' = d) ∧
  (Intent_Goal (Planner_Intent input) ≠ "" → ∃ wf w1,
     orchestrate o (for_project r input) w = (Ok wf, w1) ∧
     (workflows d !! Workflow_ID wf = None →
      (∀ id, id ∈ dom (Tasks (Workflow_Graph wf)) → tasks d !! id = None) →
      (PathValue r "project" ∉ projects d → ∃ msg, resp = Error 500 msg false) ∧
      (PathValue r "project" ∈ projects d → resp = Answer (201, wf) ∧
       ∀ q, PathValue q "project" = PathValue r "project" → PathValue q "workflow" = Workflow_ID wf →
       ∃ g, (getWorkflow true q (d', w')).1 = Answer (200, (workflow_row wf) <| Workflow_Graph := g |>) ∧
         (∀ id, id ∈ dom (Tasks g) ↔ ∃ k, k ∈ planned_keys ∧ id = new_id (Workflow_ID wf) k) ∧
         ∀ k, k ∈ planned_keys → deps_at g (new_id (Workflow_ID wf) k) = new_id (Workflow_ID wf) <$> chain k))).
Proof.
  intros Hok%reachable_store_ok Ho Hrun.
  apply mthen_inv in Hrun as (made & [d1 w1] & [Hm Hd1]%outside_inv & Hk).
  cbn [fst snd] in Hm, Hd1. subst d1. set (i := for_project r input) in *.
  assert (Intent_Goal (Planner_Intent i) = Intent_Goal (Planner_Intent input)) as Hgi by done.
  split; intros Hgoal.
  - unfold orchestrate in Hm. rewrite Ho in Hm. unfold deterministic in Hm. rewrite decide_True in Hm by done.
    unfold DeterministicPlanner in Hm. rewrite decide_True in Hm by done.
    injection Hm as <- <-. by apply mret_inv in Hk as [<- [= <- _]].
  - destruct (orchestrate_deterministic o i w Ho Hgoal) as (wf & t & w2 & Hor & Hg & Hp & Hmax).
    rewrite Hor in Hm. injection Hm as <- <-. exists wf, w2. split; [done|]. intros Hfresh Hnew.
    apply mthen_inv in Hk as (err & [d2 w3] & Hsave & Hk).
    apply SaveWorkflow_spec in Hsave as (-> & Hn & Hs); [|exact Hok|exact Hfresh| |exact Hnew].
    + assert (err = None ↔ PathValue r "project" ∈ projects d) as Herr.
      { rewrite Hn, Hmax, Hp. split; [by intros (_ & ? & _)|]. intros Hin. split_and!; [done|done|].
        rewrite Hg. intros id Hid. by apply planned_storable. }
      clear Hn. destruct err as [e|].
      { apply mret_inv in Hk as [<- [= <- _]]. split; [by eexists|]. intros Hin. by apply Herr in Hin. }
      split; [intros Hnin; by destruct Hnin; apply Herr|]. intros _.
      apply mthen_inv in Hk as (u & sw & Hann%announce_inv & Hk). apply mret_inv in Hk as [<- ->].
      cbn [fst] in Hann. subst d'. split; [done|]. intros q Hqp Hqw.
      destruct (planned_saved d d2 i t wf Hok Hgoal Hg Hfresh Hnew (Hs eq_refl)) as (Hrow & Hdom & Hdeps).
      eexists. split.
      { unfold getWorkflow, with_store, pg_GetWorkflow, look, inside, mthen. cbn [fst snd].
        rewrite Hqp, Hqw, Hrow. change (Workflow_ProjectID (workflow_row wf)) with (Workflow_ProjectID wf).
        rewrite decide_True by done. reflexivity. }
      cbn [Tasks]. rewrite dom_imap_all. split; [exact Hdom|]. intros k Hkk.
      unfold deps_at. cbn [Dependencies]. rewrite map_lookup_imap.
      assert (new_id (Workflow_ID wf) k ∈ dom (tasks_of d2 (Workflow_ID wf))) as [task ->]%elem_of_dom
        by (apply Hdom; by exists k).
      by apply Hdeps.
    + intros id task Ht. rewrite Hg in Ht. apply remap_Some in Ht as (k & t0 & Hk0 & -> & ->);
        [done|by apply planned_valid|apply plan_graph_keys].
Qed.
End kept.

(** ** A witness *)

Section witness.
#[local] Existing Instance canonical_order.
#[local] Existing Instance plain_pg.
#[local] Existing Instance ticking.
Definition planner_on_clock : orchestrator clock_world := mkOrchestratorOf deterministic (Some time_Now).
Definition plan_input (goal : string) : PlannerInput :=
  mkPlannerInput (mkUserIntent "" goal ∅) ∅ ∅ [] "".
Definition work_request (values : gmap string string) : Request :=
  mkRequest "POST" "/api/projects/shop/workflows" None values None.
Definition at_seven : clock_world := mkClockWorld 7 None.
Notation creating project := (createWorkflow (Some planner_on_clock) true None
  (work_request {["project" := project]}) (Ok (plan_input "sell")) (empty_db {["shop"]}, at_seven)).

Lemma createWorkflow_kept_witness :
  let q := work_request {["project" := "shop"; "workflow" := "wf_9"]} in
  ∃ wf g, (creating "shop").1 = Answer (201, wf) ∧ Workflow_ID wf = "wf_9" ∧
    (getWorkflow true q (creating "shop").2).1 = Answer (200, (workflow_row wf) <| Workflow_Graph := g |>) ∧
    deps_at g "wf_9_verify" = ["wf_9_implement"].
Proof.
  intros q. destruct (creating "shop") as [resp [d' w']] eqn:E.
  destruct (createWorkflow_kept {["shop"]} (empty_db {["shop"]}) planner_on_clock None
    (work_request {["project" := "shop"]}) (plan_input "sell") at_seven resp d' w'
    (rtc_refl _ _) eq_refl E) as [_ Hk].
  destruct (Hk ltac:(done)) as (wf & w1 & Hor & Hwf).
  assert ((orchestrate planner_on_clock (for_project (work_request {["project" := "shop"]}) (plan_input "sell"))
    at_seven).1 = Ok wf) as Hwf1 by (by rewrite Hor).
  assert (Workflow_ID wf = "wf_9") as Hid by (vm_compute in Hwf1; by injection Hwf1 as <-).
  destruct (Hwf eq_refl ltac:(done)) as [_ Hyes]. destruct Hyes as [-> Hget]; [by vm_compute|].
  destruct (Hget q eq_refl (eq_sym Hid)) as (g & Hg & _ & Hdeps). exists wf, g.
  split; [done|]. split; [done|]. split; [exact Hg|].
  specialize (Hdeps "verify" ltac:(right; right; left)). rewrite Hid in Hdeps. exact Hdeps.
Defined.

(** A workflow that has succeeded can be cancelled. *)
Definition succeeded : Workflow := (two_tasks "verify" "build") <| Workflow_Status := WorkflowSucceeded |>.
Lemma finished_workflow_cancelled :
  let d := (saving succeeded).2.1 in
  let r := work_request {["project" := "shop"; "workflow" := "wf"]} in
  match cancelWorkflow true None r (d, at_seven) with
  | (Answer (code, w), (d', _)) => code = 200 ∧ Workflow_Status w = WorkflowCancelled ∧
      Workflow_Status <$> workflows d' !! "wf" = Some WorkflowCancelled
  | _ => False
  end.
Proof. vm_compute. done. Qed.

(** Approvals are requested and resolved through any project, and an answer can be taken
    back. *)
Definition approve (d : orch_db) (project : string) (approved : bool) :=
  resolveApproval true (work_request {["project" := project; "workflow" := "wf"; "approval" := "approval_now"]})
    (Ok approved) (d, at_seven).
Lemma approval_changed_elsewhere :
  let d := (saving (two_tasks "verify" "build")).2.1 in
  let requested := requestApproval true None (λ _, "now")
    (work_request {["project" := "other"; "workflow" := "wf"; "task" := "build"]}) (Ok "deploy") (d, at_seven) in
  let once := (approve requested.2.1 "other" true).2.1 in
  let twice := (approve once "third" false).2.1 in
  Approval_Status <$> task_approvals once !! "approval_now" = Some "APPROVED" ∧
  Approval_Status <$> task_approvals twice !! "approval_now" = Some "REJECTED".
Proof. vm_compute. done. Qed.
End witness.
End httpwork.
