(* ===== verification/HttpAuth.v ===== *)
(** * The handlers of accounts and members

    [src/internal/httpapi/auth.go] and [project_members.go]: bootstrap, login, logout,
    and the members of a project, over the services of [Auth.v] and [AuthUsers.v] and
    the access check of [HttpApi.v].  A handler takes the decoded body of the request,
    or the error of decoding it. *)

From stdpp Require Import relations.
From S2P Require Import Prelude GoStrings World Float Auth AuthUsers HttpApi.
Import crypto auth users httpapi.

Module httpauth.

(** What a handler does to the session cookie. *)
Inductive cookie_change := KeepCookie | SetCookie (token : string) (expires MaxAge : Z) (secure : bool)
  | ClearCookie (secure : bool).

(** What is shown of a user and a session. *)
(* src: internal/httpapi/auth.go:219-221 (publicAuthResponse) *)
Definition publicAuthResponse (user : User) (session : Session)
    : (string * string * string * GlobalRole * string) * (string * Z) :=
  ((User_ID user, Email user, DisplayName user, Role user, User_Status user),
   (Session_ID session, ExpiresAt session)).

Inductive answer :=
  | BootstrapRequired (b : bool)
  | SignedIn (user : User) (session : Session)
  | Status_ (s : string)
  | Members (l : list ProjectMember)
  | AMember (m : ProjectMember).
Record reply := mkReply { code : Z; body : answer; cookie : cookie_change }.

(** The server, as far as these handlers use it. *)
Record Server (W : Type) := mkServer {
  Users : option (UserRepository W);
  Memberships : option (MembershipRepository W);
  SessionsOf : SessionService W;
  AuthNow : option (M W Z);
  AuthCookieSecure : bool
}.
Arguments mkServer {W}.
Arguments Users {W}.
Arguments Memberships {W}.
Arguments SessionsOf {W}.
Arguments AuthNow {W}.
Arguments AuthCookieSecure {W}.

Section handlers.
Context {W : Type} `{World W} `{Random W} `{Sha256} `{Argon2} `{strings.GoUnicode}.
(** [None] when the authentication service is missing. *)
Variable s : option (Server W).
(** The two limiters, for the address of a request. *)
Variable bootstrap_permit login_permit : string → M W bool.
Notation reply_of := (M W (Response reply)).

Definition answers (code : Z) (body : answer) (cookie : cookie_change) : reply_of :=
  mret (Answer (mkReply code body cookie)).
(* src: internal/httpapi/server.go:655-657 (writeError) *)
Definition writeError (code : Z) (err : goerror) : reply_of := mret (Error code (error_text err) false).

(** The service the access check is made with. *)
Definition access_service : option (AuthService W) :=
  s ← s;
  Some (mkAuth (User_FindByID <$> Users s) (SessionsOf s)
    ((λ repo project user,
       let! (m, err) := Repo_GetMembership repo project user in
       mret match err with Some e => Err e | None => Ok m end) <$> Memberships s)).

(** The access check in front of the rest of a handler. *)
Definition permitted (r : Request) (permission : ProjectPermission) (k : reply_of) : reply_of :=
  let! denied := requireProjectPermission access_service r (PathValue r "project") permission in
  match denied with Some e => mret e | None => k end.

Definition ErrAuthUnavailable : goerror := ErrorString "authentication service unavailable".
Definition ErrMembersUnavailable : goerror := ErrorString "membership service unavailable".
Definition ErrTooMany : goerror := ErrorString "too many requests; retry later".

(* src: internal/httpapi/security.go:107-119 (enforceRateLimit) *)
Definition enforceRateLimit (permit : string → M W bool) (ip : string) (k : reply_of) : reply_of :=
  let! ok := permit ip in if (ok : bool) then k else writeError 429 ErrTooMany.

(** ** Accounts *)

(* src: internal/httpapi/auth.go:203-209 (maxAge) *)
Definition maxAge (now expires : Z) : Z :=
  let seconds := float64.trunc (float64.Seconds (expires - now)) in if seconds <? 1 then 1 else seconds.

(* src: internal/httpapi/auth.go:195-197 (setSessionCookie) *)
Definition setSessionCookie (token : string) (expires : Z) (secure : bool) : M W cookie_change :=
  let! now := time_Now in mret (SetCookie token expires (maxAge now expires) secure).

(* src: internal/httpapi/auth.go:199-201 (clearSessionCookie) *)
Definition clearSessionCookie (secure : bool) : cookie_change := ClearCookie secure.

(* src: internal/httpapi/auth.go:75-86 (authStatus) *)
Definition authStatus : reply_of :=
  match s ≫= Users with
  | None => writeError 503 ErrAuthUnavailable
  | Some users =>
      let! (count, err) := CountUsers users in
      match err with
      | Some e => writeError 500 e
      | None => answers 200 (BootstrapRequired (count =? 0)) KeepCookie
      end
  end.

(* src: internal/httpapi/auth.go:88-121 (authBootstrap) *)
Definition authBootstrap (ip ua : string) (input : result (string * string * string)) : reply_of :=
  enforceRateLimit bootstrap_permit ip
    match s with
    | None => writeError 503 ErrAuthUnavailable
    | Some s =>
        match input with
        | Err e => writeError 400 e
        | Ok (email, displayName, password) =>
            let! (user, err) := Bootstrap (Users s) (AuthNow s) email displayName password in
            match err with
            | Some e => writeError (if errors_is e ErrBootstrapComplete then 409 else 400) e
            | None =>
                let! (session, token, err) := Create (SessionsOf s) (mkInput (User_ID user) 0 ua ip) in
                match err with
                | Some e => writeError 500 e
                | None =>
                    let! c := setSessionCookie token (ExpiresAt session) (AuthCookieSecure s) in
                    answers 201 (SignedIn user session) c
                end
            end
        end
    end.

(* src: internal/httpapi/auth.go:123-150 (authLogin) *)
Definition authLogin (ip ua : string) (input : result (string * string)) : reply_of :=
  enforceRateLimit login_permit ip
    match s with
    | None => writeError 503 ErrAuthUnavailable
    | Some s =>
        match input with
        | Err e => writeError 400 e
        | Ok (email, password) =>
            let! (user, session, token, err) := Login (Users s) (SessionsOf s) (AuthNow s) email password ua ip in
            match err with
            | Some e => writeError (if errors_is e ErrInvalidCredentials then 401 else 500) e
            | None =>
                let! c := setSessionCookie token (ExpiresAt session) (AuthCookieSecure s) in
                answers 200 (SignedIn user session) c
            end
        end
    end.

(* src: internal/httpapi/auth.go:152-160 (authLogout) *)
Definition authLogout (secure : bool) (r : Request) : reply_of :=
  let! _ := match s, Cookie r with
            | Some s, Some token =>
                if decide (token = "") then mret None else Revoke (SessionsOf s) token
            | _, _ => mret None
            end in
  answers 200 (Status_ "logged_out") (clearSessionCookie secure).

(* src: internal/httpapi/auth.go:162-169 (authMe) *)
Definition authMe (r : Request) : reply_of :=
  match Principal r with
  | None => writeError 401 (ErrorString "authentication required")
  | Some p => answers 200 (SignedIn (Principal_User p) (Principal_Session p)) KeepCookie
  end.

(** The service is not nil here: the source dereferences it. *)
(* src: internal/httpapi/auth.go:171-183 (authRevokeAll) *)
Definition authRevokeAll (sv : Server W) (r : Request) : reply_of :=
  match Principal r with
  | None => writeError 401 (ErrorString "authentication required")
  | Some p =>
      let! err := RevokeAll (SessionsOf sv) (User_ID (Principal_User p)) in
      match err with
      | Some e => writeError 500 e
      | None => answers 200 (Status_ "sessions_revoked") (clearSessionCookie (AuthCookieSecure sv))
      end
  end.

(** ** Members *)

(* src: internal/httpapi/project_members.go:12-17 (validProjectMemberRoles) *)
Definition validProjectMemberRoles : list string := ["owner"; "editor"; "runner"; "viewer"].

(* src: internal/httpapi/project_members.go:19-36 (listProjectMembers) *)
Definition listProjectMembers (r : Request) : reply_of :=
  permitted r PermissionRead
    match s ≫= Memberships with
    | None => writeError 503 ErrMembersUnavailable
    | Some repo =>
        let! (members, err) := ListProjectMembers repo (PathValue r "project") in
        match err with
        | Some e => writeError 500 e
        | None => answers 200 (Members members) KeepCookie
        end
    end.

(* src: internal/httpapi/project_members.go:38-84 (setProjectMember) *)
Definition setProjectMember (r : Request) (input : result string) : reply_of :=
  permitted r PermissionDeploy
    match s ≫= Memberships, s ≫= Users with
    | Some repo, Some users =>
        match input with
        | Err e => writeError 400 e
        | Ok input =>
            let role := strings.ToLower (strings.TrimSpace input) in
            if negb (bool_decide (role ∈ validProjectMemberRoles))
            then writeError 400 (ErrorString "role must be owner, editor, runner, or viewer")
            else
              let user := PathValue r "user" in
              let project := PathValue r "project" in
              let! (_, err) := User_FindByID users user in
              match err with
              | Some e =>
                  if errors_is e ErrUserNotFound then writeError 404 (ErrorString "user not found")
                  else writeError 500 e
              | None =>
                  let! now := time_Now in
                  let! err := SetMembership repo (mkMembership project user role now now) in
                  match err with
                  | Some e => writeError 500 e
                  | None =>
                      let! (members, err) := ListProjectMembers repo project in
                      match err with
                      | Some e => writeError 500 e
                      | None =>
                          match filter (λ m, Member_UserID m = user) members with
                          | m :: _ => answers 200 (AMember m) KeepCookie
                          | [] => writeError 500 (ErrorString "membership was not returned after update")
                          end
                      end
                  end
              end
        end
    | _, _ => writeError 503 ErrMembersUnavailable
    end.

(* src: internal/httpapi/project_members.go:86-103 (removeProjectMember) *)
Definition removeProjectMember (r : Request) : reply_of :=
  permitted r PermissionDeploy
    match s ≫= Memberships with
    | None => writeError 503 ErrMembersUnavailable
    | Some repo =>
        let! err := RemoveMembership repo (PathValue r "project") (PathValue r "user") in
        match err with
        | Some e =>
            if errors_is e ErrMembershipNotFound
            then writeError 409 (ErrorString "member not found or cannot remove the last owner")
            else writeError 500 e
        | None => answers 200 (Status_ "removed") KeepCookie
        end
    end.
End handlers.

(** ** Who changes the members of a project *)

Section members.
Context {W : Type} `{World W} `{Sha256} `{strings.GoUnicode} `{UserDatabase}.
Notation T := (membership_table * W)%type.

#[local] Instance members_world : World T :=
  {| time_Now := outside time_Now; ctx_Err := outside ctx_Err |}.

(** The server over the table of memberships; users are kept elsewhere. *)
Definition lifted_users (u : UserRepository W) : UserRepository T :=
  mkUsers (outside (CountUsers u)) (λ x h, outside (CreateAdmin u x h))
    (λ e, outside (FindByEmail u e)) (λ id, outside (User_FindByID u id))
    (λ id t, outside (TouchLogin u id t)).
Definition table_server (users : option (UserRepository W)) (sessions : SessionService T)
    (secure : bool) : Server T :=
  mkServer (lifted_users <$> users) (Some PostgresMembershipRepository) sessions None secure.

(** The user may change the members: an administrator or operator, or an owner of the
    project according to the table. *)
Definition may_change (project : string) (t : membership_table) (u : User) : Prop :=
  Role u = RoleAdmin ∨ Role u = RoleOperator ∨
  ∃ m, m ∈ rows t ∧ of_pair project (User_ID u) m ∧ Membership_Role m = "owner".

(** The access check, over the table: it changes nothing, and lets nobody else pass. *)
Lemma access_checked users sessions secure r (t : membership_table) (w : W) denied t' w' :
  requireProjectPermission (A := reply) (access_service (Some (table_server users sessions secure))) r
    (PathValue r "project") PermissionDeploy (t, w) = (denied, (t', w')) →
  t' = t ∧ w' = w ∧
  (denied = None → ∃ p, Principal r = Some p ∧ may_change (PathValue r "project") t (Principal_User p)).
Proof.
  unfold requireProjectPermission, access_service. cbn [mbind option_bind].
  destruct (Principal r) as [p|]; [|by intros [<- [= <- <-]]%mret_inv].
  intros (err & [t1 w1] & Hreq & [<- [= <- <-]]%mret_inv)%mthen_inv.
  unfold RequireProjectAccess in Hreq. cbn [Auth.auth.GetMembership fmap option_fmap option_map table_server Memberships] in Hreq.
  destruct (bool_decide (Role (Principal_User p) = RoleAdmin)) eqn:Ha;
    [|destruct (bool_decide (Role (Principal_User p) = RoleOperator)) eqn:Ho]; cbn [orb] in Hreq.
  - apply mret_inv in Hreq as [<- [= <- <-]]. split; [done|]. split; [done|]. intros _. exists p.
    split; [done|]. left. by apply bool_decide_eq_true in Ha.
  - apply mret_inv in Hreq as [<- [= <- <-]]. split; [done|]. split; [done|]. intros _. exists p.
    split; [done|]. right. left. by apply bool_decide_eq_true in Ho.
  - apply mthen_inv in Hreq as (m & [t2 w2] & Hget & Hreq).
    apply mthen_inv in Hget as ([m0 e] & sw & [Hm ->]%look_inv & [<- [= <- <-]]%mret_inv).
    apply mret_inv in Hreq as [Herr [= <- <-]]. split; [done|]. split; [done|]. cbn [fst] in Hm.
    destruct (filter _ (rows t)) as [|m1 l] eqn:Hf; injection Hm as -> ->.
    + cbn in Herr. subst err. done.
    + cbn [projectPermissionAllowed] in Herr.
      case_bool_decide as Hrole; subst err; [|by intros [=]]. intros _. exists p. split; [done|]. right. right. exists m1.
      assert (m1 ∈ filter (of_pair (PathValue r "project") (User_ID (Principal_User p))) (rows t))
        as [Hp Hin]%list_elem_of_filter by (rewrite Hf; by left). done.
Qed.

(** A handler behind the check. *)
Lemma permitted_inv users sessions secure r (k : M T (Response reply)) t w resp t' w' :
  permitted (Some (table_server users sessions secure)) r PermissionDeploy k (t, w) = (resp, (t', w')) →
  t' = t ∨ (∃ p, Principal r = Some p ∧ may_change (PathValue r "project") t (Principal_User p)) ∧
           k (t, w) = (resp, (t', w')).
Proof.
  intros (denied & [t1 w1] & (-> & -> & Hd)%access_checked & Hk)%mthen_inv.
  destruct denied; [by apply mret_inv in Hk as [_ [= <- _]]; left|]. right. by split; [apply Hd|].
Qed.

(** What [SetMembership] leaves alone. *)
Lemma SetMembership_others m (t : membership_table) (w : W) err t' w' x :
  pg_SetMembership m (t, w) = (err, (t', w')) →
  ¬ of_pair (Membership_ProjectID m) (Membership_UserID m) x → x ∈ rows t' ↔ x ∈ rows t.
Proof.
  unfold pg_SetMembership, inside. cbn [fst snd]. intros Hset Hx.
  destruct (membership_allowed t m); cbn [negb] in Hset; [|by injection Hset as _ <- _].
  destruct (filter _ (rows t)); injection Hset as _ <- _; cbn.
  - rewrite elem_of_app, list_elem_of_singleton. split; [|by left].
    intros [?| ->]; [done|]. by destruct Hx.
  - rewrite list_elem_of_fmap. split.
    + intros (y & -> & Hy). case_decide as Hd; [|done]. destruct Hx. by destruct Hd.
    + intros Hin. exists x. by rewrite decide_False.
Qed.

(** Who changes the members of a project.  A request to set or to remove a member
    that changes the table was made by a user who is an administrator or an operator,
    or an owner of the project at that time, and it only touches the row of the project
    and the user its path names. *)
Theorem members_changed_by_owner users sessions secure r input op (t : membership_table) (w : W) resp t' w' :
  let srv := Some (table_server users sessions secure) in
  op ∈ [setProjectMember srv r input; removeProjectMember srv r] →
  op (t, w) = (resp, (t', w')) → t' ≠ t →
  (∃ p, Principal r = Some p ∧ may_change (PathValue r "project") t (Principal_User p)) ∧
  ∀ x, ¬ of_pair (PathValue r "project") (PathValue r "user") x → x ∈ rows t' ↔ x ∈ rows t.
Proof.
  intros srv Hop Hrun Hne. rewrite !elem_of_cons, elem_of_nil in Hop.
  destruct Hop as [-> |[-> |[]]]; apply permitted_inv in Hrun as [?|[Hp Hk]]; try done; (split; [done|]).
  - cbn [srv mbind option_bind table_server Memberships HttpAuth.httpauth.Users] in Hk.
    destruct users as [u|]; cbn [fmap option_fmap option_map] in Hk; [|by apply mret_inv in Hk as [_ [= <- _]]].
    destruct input as [role|e]; [|by apply mret_inv in Hk as [_ [= <- _]]].
    destruct (negb _); [by apply mret_inv in Hk as [_ [= <- _]]|].
    apply mthen_inv in Hk as ([x err] & [t1 w1] & [_ Ht]%outside_inv & Hk). cbn [fst] in Ht. subst t1.
    destruct err as [e|]; [by destruct (errors_is _ _); apply mret_inv in Hk as [_ [= <- _]]|].
    apply mthen_inv in Hk as (now & [t1 w2] & [_ Ht]%(outside_inv (S := membership_table)) & Hk).
    cbn [fst] in Ht. subst t1.
    apply mthen_inv in Hk as (err & [t1 w3] & Hset & Hk).
    assert (t' = t1) as ->.
    { destruct err; [by apply mret_inv in Hk as [_ [= <- _]]|].
      apply mthen_inv in Hk as ([l e] & sw & [_ ->]%look_inv & Hk).
      destruct e; [by apply mret_inv in Hk as [_ [= <- _]]|].
      destruct (filter (λ m, Member_UserID m = PathValue r "user") l);
        apply mret_inv in Hk as [_ Heq]; by injection Heq. }
    intros y Hy. exact (SetMembership_others _ _ _ _ _ _ y Hset Hy).
  - cbn [srv mbind option_bind table_server Memberships] in Hk.
    apply mthen_inv in Hk as (err & [t1 w1] & Hrem & Hk).
    assert (t' = t1) as ->.
    { destruct err as [e|]; [by destruct (errors_is _ _); apply mret_inv in Hk as [_ [= <- _]]|].
      by apply mret_inv in Hk as [_ [= <- _]]. }
    apply RemoveMembership_spec in Hrem as (_ & _ & _ & _ & Hin & _).
    intros y Hy. rewrite Hin. split; [by intros []|]. intros Hy2. split; [done|]. by intros [].
Qed.
End members.

(** ** A witness *)

#[local] Existing Instance still_world.
#[local] Existing Instance members_world.
#[local] Existing Instance plain_database.
#[local] Existing Instance plain_unicode.
#[local] Existing Instance plain_sha.
Definition two_users : UserRepository unit :=
  mkUsers (mret (2, None)) (λ _ _, mret None) (λ _, mret (zero_User, "", None))
    (λ _, mret (zero_User, None)) (λ _ _, mret None).
Definition member_request (actor : string) : Request :=
  mkRequest "PUT" "/api/projects/shop/members/bob" None
    (<["project" := "shop"]> {["user" := "bob"]})
    (Some (mkPrincipal (mkUser actor "" "" RoleMember "active" 0 0 None) zero_Session)).
Definition ann_owns : membership_table := set_member "ann" "owner" shop_members.
Definition set_by (actor : string) :=
  setProjectMember (Some (table_server (Some two_users) (mkSessions None None 0) false))
    (member_request actor) (Ok " Editor ") (ann_owns, tt).

Lemma members_changed_by_owner_witness :
  Membership_Role <$> rows (set_by "ann").2.1 = ["owner"; "editor"] ∧ (set_by "bob").2.1 = ann_owns ∧
  may_change "shop" ann_owns (mkUser "ann" "" "" RoleMember "active" 0 0 None).
Proof.
  split; [by vm_compute|]. split; [by vm_compute|].
  destruct (set_by "ann") as [resp [t' []]] eqn:E.
  destruct (members_changed_by_owner (Some two_users) (mkSessions None None 0) false (member_request "ann")
    (Ok " Editor ") _ ann_owns tt resp t' tt ltac:(by left) E) as [(p & [= <-] & Hp) _]; [|exact Hp].
  intros ->. vm_compute in E. discriminate E.
Defined.
End httpauth.
