(* ===== verification/SignIn.v ===== *)
(** * A sign-in, from the login to the last request

    The login of [HttpAuth.v], the sessions of [Auth.v] over their table and the
    authentication in front of the multiplexer of [HttpApi.v], put together as
    [src/cmd/server/main.go] does: what becomes of the cookie a login sets, whatever the
    server is asked in between.  Then the rate limiters in front of the handlers that take
    a password: how many can be tried, whatever is requested. *)

From stdpp Require Import functions.
From S2P Require Import Prelude GoStrings World Float Auth AuthFacts AuthUsers HttpApi HttpAuth.
Import crypto auth httpapi.

Module signin.
Import users httpauth.

(** ** The wiring *)

(** A component that keeps [S] beside the rest of the server. *)
Section beside.
Context {S W : Type} `{Random W}.
#[global] Instance random_beside : Random (S * W).
Proof.
  refine {| rand_Read n := outside (rand_Read n) |}.
  intros n sw b sw' [Hr _]%outside_inv. by eapply rand_Read_length.
Defined.
(** Accounts are in tables beside the one of sessions, and so are members. *)
Definition users_beside (u : UserRepository W) : UserRepository (S * W) :=
  mkUsers (outside (CountUsers u)) (λ x h, outside (CreateAdmin u x h))
    (λ e, outside (FindByEmail u e)) (λ id, outside (User_FindByID u id))
    (λ id t, outside (TouchLogin u id t)).
Definition members_beside (r : MembershipRepository W) : MembershipRepository (S * W) :=
  mkMemberships (λ p u, outside (Repo_GetMembership r p u)) (λ m, outside (SetMembership r m))
    (λ u, outside (ListProjectIDs r u)) (λ p, outside (ListProjectMembers r p))
    (λ p u, outside (RemoveMembership r p u)).
End beside.

Section wiring.
Context {W : Type} `{World W} `{Postgres}.
(** The sessions of the server are kept for the default time. *)
(* src: cmd/server/main.go:67-67 (main) *)
Definition server_sessions : SessionService (database * W) :=
  mkSessions (Some PostgresSessionRepository) (Some (outside time_Now)) 0.
(* src: cmd/server/main.go:64-67 (main) *)
Definition server_accounts (users : UserRepository W) (members : MembershipRepository W) (secure : bool)
    : Server (database * W) :=
  mkServer (Some (users_beside users)) (Some (members_beside members)) server_sessions
    (Some (outside time_Now)) secure.
End wiring.

Section signin.
Context {W : Type} `{World W} `{Random W} `{Postgres} `{Sha256} `{Argon2} `{strings.GoUnicode}.
#[local] Existing Instance world_beside.
Variable userRepository : UserRepository W.
Variable membershipRepository : MembershipRepository W.
Variable secure : bool.
Variable permit : string → M W bool.
Notation srv := (server_accounts userRepository membershipRepository secure).
Notation limited := (λ ip, outside (permit ip)).

(** ** What requests do to the sessions *)

(** A request about sessions, or what else happens: the middleware touches a session, the
    table is cleaned up, or something changes that is not a session. *)
Inductive event :=
  | Login_ (answer : Response reply)
  | Logout_ (token : option string)
  | RevokeAll_ (user : option string)
  | Touch_
  | Cleanup_ (t : Z)
  | Other_.
Inductive happens (sw : database * W) : event → database * W → Prop :=
  | by_login ip ua input answer sw' :
      authLogin (Some srv) limited ip ua input sw = (answer, sw') → happens sw (Login_ answer) sw'
  | by_logout r answer sw' :
      authLogout (Some srv) secure r sw = (answer, sw') → happens sw (Logout_ (Cookie r)) sw'
  | by_revoke r answer sw' :
      authRevokeAll srv r sw = (answer, sw') →
      happens sw (RevokeAll_ (User_ID ∘ Principal_User <$> Principal r)) sw'
  | by_touch id err sw' : Touch server_sessions id sw = (err, sw') → happens sw Touch_ sw'
  | by_cleanup t w1 err sw' :
      time_Now sw.2 = (t, w1) → Cleanup server_sessions sw = (err, sw') → happens sw (Cleanup_ t) sw'
  | by_other d' w' : sessions d' = sessions sw.1 → happens sw Other_ (d', w').
Inductive happened (sw : database * W) : list event → database * W → Prop :=
  | nothing_happened : happened sw [] sw
  | then_happened es e sw1 sw2 : happened sw es sw1 → happens sw1 e sw2 → happened sw (es ++ [e]) sw2.

(** The event ends a session of the user with the token and expiry. *)
Definition ends (token user : string) (expires : Z) (e : event) : Prop :=
  match e with
  | Logout_ (Some t) => strings.TrimSpace t ≠ "" ∧ hashToken t = hashToken token
  | RevokeAll_ (Some u) => strings.TrimSpace u ≠ "" ∧ u = user
  | Cleanup_ t => expires ≤ micros t
  | _ => False
  end.
(** The event issues a token with the hash. *)
Definition issues (token : string) (e : event) : Prop :=
  match e with
  | Login_ (Answer r) => match cookie r with SetCookie t _ _ _ => hashToken t = hashToken token | _ => False end
  | _ => False
  end.

(** ** Each is a statement on the table *)

Lemma pg_create_op session hash d (w : W) err d' w' :
  pg_CreateSession session hash (d, w) = (err, (d', w')) →
  match err with None => d' = apply_op d (AuthFacts.OpCreate session hash) | Some _ => d' = d end.
Proof.
  unfold apply_op. cbn [CreateSession PostgresSessionRepository]. unfold pg_CreateSession, inside. cbn [fst snd].
  destruct (if decide _ then _ else _) as [ip|]; [|by intros [= <- <- _]].
  destruct (insertable _ _); by intros [= <- <- _].
Qed.
Lemma Create_effect input (sw sw' : database * W) session token err :
  Create server_sessions input sw = ((session, token, err), sw') →
  match err with
  | None => sw'.1 = apply_op sw.1 (AuthFacts.OpCreate session (hashToken token))
  | Some _ => sw'.1 = sw.1
  end.
Proof.
  unfold Create. cbn [Repository server_sessions Sessions_Now].
  destruct (decide _); [by intros [[= _ _ <-] <-]%mret_inv|].
  destruct (_ <=? 0); [by intros [[= _ _ <-] <-]%mret_inv|].
  intros (tok & sw1 & Ht & Hk)%mthen_inv.
  assert (sw1.1 = sw.1) as E1.
  { apply mthen_inv in Ht as (b & sw0 & [_ Hs]%outside_inv & [_ <-]%mret_inv). done. }
  destruct tok as [tok|]; [|by apply mret_inv in Hk as [[= _ _ <-] <-]].
  apply mthen_inv in Hk as (t & sw2 & [_ E2]%outside_inv & Hk).
  apply mthen_inv in Hk as (id & sw3 & Hid & Hk).
  assert (sw3.1 = sw2.1) as E3.
  { apply mthen_inv in Hid as (b & sw0 & [_ Hs]%outside_inv & [_ <-]%mret_inv). done. }
  destruct id as [id|]; [|apply mret_inv in Hk as [[= _ _ <-] <-]; congruence].
  apply mthen_inv in Hk as (err1 & [d4 w4] & Hc & Hk). cbn [CreateSession PostgresSessionRepository] in Hc.
  assert (sw3.1 = sw.1) as Hsw by congruence. destruct sw3 as [d3 w3]. cbn [fst] in Hsw. subst d3.
  apply pg_create_op in Hc. by destruct err1; apply mret_inv in Hk as [[= <- <- <-] <-].
Qed.

Lemma Login_effect email password ua ip (sw sw' : database * W) user session token err :
  Login (Some (users_beside userRepository)) server_sessions (Some (outside time_Now)) email password ua ip sw
    = ((user, session, token, err), sw') →
  match err with
  | None => ∃ sw1, sw1.1 = sw.1 ∧ Create server_sessions (mkInput (User_ID user) 0 ua ip) sw1 = ((session, token, None), sw')
  | Some _ => sw'.1 = sw.1
  end.
Proof.
  unfold Login. intros ([[u hash] e] & sw1 & [_ E1]%outside_inv & Hk)%mthen_inv.
  destruct (_ || _); [by apply mret_inv in Hk as [[= _ _ _ <-] <-]|].
  apply mthen_inv in Hk as (t & sw2 & [_ E2]%outside_inv & Hk).
  apply mthen_inv in Hk as (e2 & sw3 & [_ E3]%outside_inv & Hk).
  destruct e2; [apply mret_inv in Hk as [[= _ _ _ <-] <-]; congruence|].
  apply mthen_inv in Hk as ([[session1 token1] e3] & sw4 & Hc & Hk).
  destruct e3 as [e3|]; apply mret_inv in Hk as [[= <- <- <- <-] <-].
  - apply Create_effect in Hc. congruence.
  - exists sw3. split; [congruence|done].
Qed.

(** What a login does: it issues a session and its cookie, or leaves the sessions. *)
Lemma authLogin_effect ip ua input (sw sw' : database * W) answer :
  authLogin (Some srv) limited ip ua input sw = (answer, sw') →
  sw'.1 = sw.1 ∧ (∀ token, ¬ issues token (Login_ answer)) ∨
  ∃ user session token age sw1 sw2,
    answer = Answer (mkReply 200 (SignedIn user session) (SetCookie token (ExpiresAt session) age secure)) ∧
    sw1.1 = sw.1 ∧ Create server_sessions (mkInput (User_ID user) 0 ua ip) sw1 = ((session, token, None), sw2) ∧
    sw'.1 = sw2.1.
Proof.
  unfold authLogin, enforceRateLimit, answers, writeError.
  intros (ok & sw1 & [_ E1]%outside_inv & Hk)%mthen_inv.
  destruct ok; [|apply mret_inv in Hk as [<- <-]; left; split; [done|by intros ? []]].
  destruct input as [[email password]|e]; [|apply mret_inv in Hk as [<- <-]; left; split; [done|by intros ? []]].
  apply mthen_inv in Hk as ([[[user session] token] err] & sw2 & Hl%Login_effect & Hk).
  destruct err as [e|].
  - left. destruct (errors_is _ _); apply mret_inv in Hk as [<- <-]; (split; [congruence|by intros ? []]).
  - right. destruct Hl as (sw3 & E3 & Hc). apply mthen_inv in Hk as (c & sw4 & Hcookie & [<- <-]%mret_inv).
    apply mthen_inv in Hcookie as (t & sw5 & [_ E5]%outside_inv & [<- <-]%mret_inv).
    eexists user, session, token, _, sw3, sw2. split_and!; [done|congruence|done|done].
Qed.

(** The sessions after an event are those after a statement, which spares a session
    unless the event ends it. *)
Lemma happens_op token user expires (sw sw' : database * W) e :
  happens sw e sw' →
  sessions sw'.1 = sessions sw.1 ∧ ¬ ends token user expires e ∨
  ∃ op, sw'.1 = apply_op sw.1 op ∧ (ends token user expires e ↔ ¬ spares (hashToken token) user expires op) ∧
    (¬ issues token e → ¬ reissues (hashToken token) op).
Proof.
  intros [ip ua input answer sw1 Hl|r answer sw1 Hl|r answer sw1 Hl|id err sw1 Hl|t w1 err sw1 Ht Hl|d' w' Hs]; cbn [ends issues].
  - apply authLogin_effect in Hl as [[-> Hno]|(u & session & tok & age & sw2 & sw3 & -> & E2 & Hc & ->)]; [left; split; [done|tauto]|].
    right. exists (AuthFacts.OpCreate session (hashToken tok)). apply Create_effect in Hc. rewrite E2 in Hc. split; [done|].
    cbn. tauto.
  - apply mthen_inv in Hl as (err & sw2 & Hl & [_ <-]%mret_inv).
    destruct (Cookie r) as [tok|]; [|apply mret_inv in Hl as [_ <-]; left; split; [done|tauto]].
    cbn [SessionsOf server_accounts] in Hl. unfold Revoke, with_repository in Hl. cbn [Repository server_sessions] in Hl.
    destruct (decide (tok = "")) as [->|]; [apply mret_inv in Hl as [_ <-]; left; split; [done|by intros [? _]]|].
    destruct (decide (strings.TrimSpace tok = "")); [apply mret_inv in Hl as [_ <-]; left; split; [done|by intros [? _]]|].
    apply mthen_inv in Hl as (t & [d3 w3] & [_ E3]%outside_inv & Hl). cbn [fst] in E3. subst d3.
    right. exists (AuthFacts.OpRevoke (hashToken tok) t).
    apply mthen_inv in Hl as (u & sw4 & ->%modify_inv & [_ <-]%mret_inv). split; [done|]. cbn.
    destruct (decide (hashToken tok = hashToken token)); tauto.
  - unfold authRevokeAll in Hl. destruct (Principal r) as [p|]; [|apply mret_inv in Hl as [_ <-]; left; split; [done|tauto]].
    cbn [fmap option_fmap option_map compose SessionsOf server_accounts] in *.
    apply mthen_inv in Hl as (err & sw2 & Hl & Hk).
    assert (sw2 = sw1) as -> by (by destruct err; apply mret_inv in Hk as [_ <-]).
    unfold RevokeAll, with_repository in Hl. cbn [Repository server_sessions] in Hl.
    destruct (decide (strings.TrimSpace _ = "")); [apply mret_inv in Hl as [_ <-]; left; split; [done|by intros [? _]]|].
    apply mthen_inv in Hl as (t & [d3 w3] & [_ E3]%outside_inv & Hl). cbn [fst] in E3. subst d3.
    right. exists (AuthFacts.OpRevokeAll (User_ID (Principal_User p)) t).
    apply mthen_inv in Hl as (u & sw4 & ->%modify_inv & [_ <-]%mret_inv). split; [done|]. cbn.
    destruct (decide (User_ID (Principal_User p) = user)); tauto.
  - unfold Touch, with_repository in Hl. cbn [Repository server_sessions] in Hl.
    destruct (decide _); [apply mret_inv in Hl as [_ <-]; left; split; [done|tauto]|].
    apply mthen_inv in Hl as (t & [d3 w3] & [_ E3]%outside_inv & Hl). cbn [fst] in E3. subst d3.
    right. exists (AuthFacts.OpTouch id t).
    apply mthen_inv in Hl as (u & sw4 & ->%modify_inv & [_ <-]%mret_inv). split; [done|]. cbn. tauto.
  - apply mthen_inv in Hl as (t' & [d3 w3] & [Et E3]%outside_inv & Hl). cbn [fst snd] in *. subst d3.
    assert (t' = t) as -> by congruence. right. exists (AuthFacts.OpDelete t).
    apply mthen_inv in Hl as (u & sw4 & ->%modify_inv & [_ <-]%mret_inv). split; [done|]. cbn.
    split; [|tauto]. lia.
  - left. split; [done|tauto].
Qed.

Lemma rows_same h d d' : sessions d' = sessions d → AuthFacts.rows h d' = AuthFacts.rows h d.
Proof. unfold AuthFacts.rows. by intros ->. Qed.

(** The session is live as long as nothing has ended it, and dead from then on. *)
Lemma happened_live token id user expires (sw sw' : database * W) es :
  happened sw es sw' → live (hashToken token) id user expires sw.1 → Forall (λ e, ¬ issues token e) es →
  Forall (λ e, ¬ ends token user expires e) es ∧ live (hashToken token) id user expires sw'.1 ∨
  ¬ Forall (λ e, ¬ ends token user expires e) es ∧ dead (hashToken token) sw'.1.
Proof.
  induction 1 as [|es e sw1 sw2 _ IH Hh]; intros Hl; [by left|].
  rewrite !Forall_app, !Forall_singleton. intros [Hes He].
  apply (happens_op token user expires) in Hh as [[Hs Hno]|(op & -> & Hend & Hiss)].
  - destruct (IH Hl Hes) as [[Ha Hb]|[Ha Hb]]; [left|right]; (split; [tauto|]).
    + unfold live. by rewrite (rows_same _ _ _ Hs).
    + unfold dead. by rewrite (rows_same _ _ _ Hs).
  - specialize (Hiss He). destruct (IH Hl Hes) as [[Ha Hb]|[Ha Hb]].
    + destruct (decide (spares (hashToken token) user expires op)) as [Hsp|Hsp].
      * left. split; [tauto|]. by apply live_step.
      * right. split; [tauto|]. by eapply kill_step.
    + right. split; [tauto|]. by apply dead_step.
Qed.

(** ** The request with the cookie *)

(** C2: what a login is good for.  A login over HTTP that is answered with 200 sets a
    cookie.  Let the server be asked anything then, but let it not issue the same token
    again.  A request with the cookie, for a path that needs a session, goes through to the
    multiplexer with the session and the user who logged in, as long as the user is found and is active,
    exactly when no logout came with a token of that hash, the user did not
    revoke all sessions, no clean-up ran past the expiry and the expiry is not reached, to the
    microsecond.  Otherwise it is answered with 401 and the cookie is cleared, and the
    multiplexer is not asked. *)
Theorem sign_in_lasts {A} (mux : Handler (database * W) A) ip ua input sw user session token expires age sec sw0
    es d w r t w2 :
  authLogin (Some srv) limited ip ua input sw
    = (Answer (mkReply 200 (SignedIn user session) (SetCookie token expires age sec)), sw0) →
  happened sw0 es (d, w) → Forall (λ e, ¬ issues token e) es →
  requiresAuthentication r = true → PathValues r = ∅ → Cookie r = Some token → time_Now w = (t, w2) →
  let alive := Forall (λ e, ¬ ends token (User_ID user) (micros expires) e) es ∧ micros t < micros expires in
  (alive → ∃ found, Session_ID found = Session_ID session ∧ Session_UserID found = User_ID user ∧
     ∀ u w3, User_FindByID userRepository (User_ID user) w2 = ((u, None), w3) →
       if decide (User_Status u = "active")
       then ∃ sw4, happens (d, w3) Touch_ sw4 ∧
              handler (access_service (Some srv)) mux r (d, w) = mux (r <| Principal := Some (mkPrincipal u found) |>) sw4
       else handler (access_service (Some srv)) mux r (d, w) = (Error 401 "authentication required" true, (d, w3))) ∧
  (¬ alive → handler (access_service (Some srv)) mux r (d, w) = (Error 401 "authentication required" true, (d, w2))).
Proof.
  intros Hlogin Hes Hiss Hreq Hpv Hcookie Hclock alive.
  apply authLogin_effect in Hlogin as [[_ Hno]|(user' & session' & token' & age' & sw1 & sw2 & Ha & _ & Hc & Hsw)].
  { destruct (Hno token). done. }
  injection Ha as -> -> -> -> -> ->. destruct sw2 as [d2 w4]. cbn [fst] in Hsw.
  apply Create_live in Hc as (Hblank & _ & Hlive); [|done]. rewrite <-Hsw in Hlive.
  cbn [Input_UserID] in Hlive. pose proof (happened_live _ _ _ _ _ _ _ Hes Hlive Hiss) as Hstate. cbn [fst] in Hstate.
  assert (∀ q, PathValues q = ∅ → projectAccessMiddleware (access_service (Some srv)) mux q = mux q) as Hskip.
  { intros q Hq. unfold projectAccessMiddleware, projectIDFromRequest, PathValue. by rewrite Hq, !lookup_empty. }
  unfold handler, authMiddleware. rewrite Hreq, Hcookie. cbn [negb access_service mbind option_bind].
  rewrite decide_False by done. cbn [Auth.auth.Sessions SessionsOf server_accounts].
  destruct Hstate as [[Hall Hl]|[Hended Hd]].
  - destruct (Authenticate_live time_Now server_sessions eq_refl eq_refl _ _ _ _ d t w w2 Hblank Hl Hclock) as (answer & Hauth & Hans).
    rewrite !(mthen_run _ _ _ _ _ Hauth).
    destruct answer as [found|e]; [|destruct Hans as [Hn _]; split; [intros [_ Hx]; by destruct Hn|done]].
    destruct Hans as (Hlt & Hid & Hu). split; [|intros Hdead; destruct Hdead; by split].
    intros _. exists found. split; [done|]. split; [done|]. intros u w3 Hfind.
    assert (CurrentUser (default (mkAuth None server_sessions None) (access_service (Some srv))) found (d, w2) = ((u, None), (d, w3))) as Hcur.
    { unfold CurrentUser, outside. cbn. unfold outside. cbn. by rewrite Hu, Hfind. }
    cbn [access_service mbind option_bind default] in Hcur. rewrite (mthen_run _ _ _ _ _ Hcur).
    rewrite bool_decide_true by done. cbn [andb].
    case_decide as Hact; [rewrite bool_decide_true by done|by rewrite bool_decide_false].
    destruct (Touch server_sessions (Session_ID found) (d, w3)) as [err sw4] eqn:Htouch.
    exists sw4. split; [by eapply by_touch|]. rewrite (mthen_run _ _ _ _ _ Htouch). by rewrite Hskip.
  - pose proof (Authenticate_dead time_Now server_sessions eq_refl eq_refl _ d t w w2 Hblank Hd Hclock) as Hauth.
    rewrite !(mthen_run _ _ _ _ _ Hauth). split; [by intros [? _]|done].
Qed.
End signin.

(** ** A witness: the first administrator logs in, is served, and logs out *)

Section witness.
#[local] Existing Instance copying.
#[local] Existing Instance no_random.
#[local] Existing Instance still_world.
#[local] Existing Instance plain_database.
#[local] Existing Instance plain_unicode.
#[local] Existing Instance plain_sha.
#[local] Existing Instance example_postgres.
#[local] Existing Instance tables_world.
#[local] Existing Instance tables_random.
#[local] Existing Instance world_beside.
Notation repository := (PostgresUserRepository (W := unit)).
Definition no_members : MembershipRepository (user_tables * unit) :=
  mkMemberships (λ _ _, mret (zero_Membership, Some ErrMembershipNotFound)) (λ _, mret None)
    (λ _, mret ([], None)) (λ _, mret ([], None)) (λ _ _, mret None).
Definition admin_id : string := User_ID first_bootstrap.1.1.
Definition first_login : Response reply * (database * (user_tables * unit)) :=
  authLogin (Some (server_accounts repository no_members true)) (λ ip, outside (mret true)) "10.0.0.1" ""
    (Ok ("admin@example.org", "correct horse battery")) (mkDatabase {[admin_id]} [], first_bootstrap.2).
Definition request_with (token : string) : Request := mkRequest "GET" "/api/agents" (Some token) ∅ None.
Definition who : Handler (database * (user_tables * unit)) string :=
  λ r, mret (Answer (from_option (User_ID ∘ Principal_User) "" (Principal r))).

Lemma sign_in_lasts_witness :
  ∃ user session token expires age sw,
    first_login = (Answer (mkReply 200 (SignedIn user session) (SetCookie token expires age true)), sw) ∧
    (let served := handler (access_service (Some (server_accounts repository no_members true))) who in
     (served (request_with token) sw).1 = Answer admin_id ∧
     ∃ sw2, happened repository no_members true (λ _, mret true) sw [Logout_ (Some token)] sw2 ∧
       (served (request_with token) sw2).1 = Error 401 "authentication required" true).
Proof.
  assert (match first_login.1 with
          | Answer (mkReply code (SignedIn user session) (SetCookie token expires age secure)) =>
              code = 200 ∧ secure = true ∧ User_ID user = admin_id ∧ micros 5000 < micros expires ∧ strings.TrimSpace token ≠ ""
          | _ => False
          end) as Hl by (vm_compute; done).
  assert (let u := (User_FindByID repository admin_id first_login.2.2).1 in
    u.2 = None ∧ User_Status u.1 = "active" ∧ User_ID u.1 = admin_id) as Huser by (vm_compute; split_and!; reflexivity).
  destruct first_login as [answer sw] eqn:E. cbn [fst snd] in Hl, Huser.
  destruct answer as [|[code [|user session| | |] [|token expires age sec|]]]; try (exfalso; exact Hl).
  destruct Hl as (-> & -> & Hid & Hexp & Hblank).
  exists user, session, token, expires, age, sw. split; [reflexivity|]. cbv zeta.
  destruct (authLogout (Some (server_accounts repository no_members true)) true (request_with token) sw) as [out sw2] eqn:Eout.
  split.
  - destruct sw as [d w].
    destruct (sign_in_lasts repository no_members true (λ _, mret true) who "10.0.0.1" ""
      (Ok ("admin@example.org", "correct horse battery")) (mkDatabase {[admin_id]} [], first_bootstrap.2)
      user session token expires age true (d, w) [] d w (request_with token) 5000 w E) as [Hs _];
      [apply nothing_happened|constructor|reflexivity|reflexivity|reflexivity|destruct w as [? []]; reflexivity|].
    destruct Hs as (found & _ & _ & Hs); [split; [constructor|exact Hexp]|].
    assert (∃ u, User_FindByID repository (User_ID user) w = ((u, None), w) ∧ User_Status u = "active" ∧ User_ID u = admin_id)
      as (u & Hu & Hact & Huid).
    { rewrite Hid. cbn [snd] in Huser. destruct (User_FindByID repository admin_id w) as [[u err] w'] eqn:Hf.
      destruct Huser as (Herr & Hact & Huid). cbn [fst snd] in *. subst err.
      apply look_inv in Hf as [_ ->]. exists u. split; [reflexivity|]. split; [exact Hact|exact Huid]. }
    specialize (Hs u w Hu). rewrite decide_True in Hs by exact Hact. destruct Hs as (sw4 & _ & ->). unfold who. cbn. rewrite Huid. reflexivity.
  - exists sw2. split.
    + apply (then_happened _ _ _ _ sw [] (Logout_ (Some token)) sw sw2); [apply nothing_happened|].
      exact (by_logout _ _ _ _ sw (request_with token) out sw2 Eout).
    + destruct sw2 as [d2 w2].
      destruct (sign_in_lasts repository no_members true (λ _, mret true) who "10.0.0.1" ""
        (Ok ("admin@example.org", "correct horse battery")) (mkDatabase {[admin_id]} [], first_bootstrap.2)
        user session token expires age true sw [Logout_ (Some token)] d2 w2 (request_with token) 5000 w2 E) as [_ Hs];
        [|constructor; [intros []|constructor]|reflexivity|reflexivity|reflexivity|destruct w2 as [? []]; reflexivity|].
      * apply (then_happened _ _ _ _ sw [] (Logout_ (Some token)) sw (d2, w2)); [apply nothing_happened|].
        exact (by_logout _ _ _ _ sw (request_with token) out (d2, w2) Eout).
      * rewrite Hs; [reflexivity|]. intros [Hend _]. inversion Hend as [|? ? Hx _]. apply Hx. split; [exact Hblank|reflexivity].
Defined.
End witness.
End signin.

(** ** How often passwords can be guessed *)

Module throttle.
Import users httpauth signin.

Inductive limiter_name := LoginLimiter | BootstrapLimiter.
#[global] Instance limiter_name_eq : EqDecision limiter_name.
Proof. solve_decision. Defined.
(** The two limiters of the program, which all requests share. *)
Notation limiters := (limiter_name → fixedWindowLimiter).
Definition new_limiters : limiters := λ k,
  match k with LoginLimiter => loginLimiter | BootstrapLimiter => bootstrapLimiter end.

Section throttle.
Context {W : Type} `{World W} `{Random W} `{Sha256} `{Argon2} `{strings.GoUnicode}.
#[local] Existing Instance world_beside.
Variable server : Server W.

(** ** The limiters beside the server *)

(** Neither the repositories nor the clock touch the limiters. *)
Definition repository_beside (r : SessionRepository W) : SessionRepository (limiters * W) :=
  mkRepository (λ x h, outside (CreateSession r x h)) (λ h t, outside (FindActiveSession r h t))
    (λ id t, outside (TouchSession r id t)) (λ h t, outside (RevokeSession r h t))
    (λ u t, outside (RevokeAllUserSessions r u t)) (λ t, outside (DeleteExpiredSessions r t)).
Definition server_beside : Server (limiters * W) :=
  mkServer (users_beside <$> Users server) (members_beside <$> Memberships server)
    (mkSessions (repository_beside <$> Repository (SessionsOf server))
      (outside <$> Sessions_Now (SessionsOf server)) (TTL (SessionsOf server)))
    (outside <$> AuthNow server) (AuthCookieSecure server).

(* src: internal/httpapi/security.go:107-108 (enforceRateLimit) *)
Definition permit (k : limiter_name) (ip : string) : M (limiters * W) bool := λ '(ls, w),
  let '(now, w) := time_Now w in
  let '((ok, _), l) := allow (ls k) ip now in (ok, (<[k := l]> ls, w)).

(** A request that carries a password: the address it comes from, the user agent and the
    decoded body. *)
Inductive password_request :=
  | LoginRequest (ip ua : string) (input : result (string * string))
  | BootstrapRequest (ip ua : string) (input : result (string * string * string)).
Definition limiter_of (r : password_request) : limiter_name :=
  match r with LoginRequest _ _ _ => LoginLimiter | BootstrapRequest _ _ _ => BootstrapLimiter end.
Definition address_of (r : password_request) : string :=
  match r with LoginRequest ip _ _ | BootstrapRequest ip _ _ => ip end.

(** The handlers with the limiters of the program. *)
(* src: internal/httpapi/server.go:87-88 (Handler) *)
Definition handle (r : password_request) : M (limiters * W) (Response reply) :=
  match r with
  | LoginRequest ip ua input => authLogin (Some server_beside) (permit LoginLimiter) ip ua input
  | BootstrapRequest ip ua input => authBootstrap (Some server_beside) (permit BootstrapLimiter) ip ua input
  end.

(** ** What one request does to the limiters *)

Definition refused (resp : Response reply) : bool :=
  match resp with Error code _ _ => code =? 429 | Answer _ => false end.

(** The rest of a handler neither touches the limiters nor answers as they do. *)
Record rest_ok (c : M (limiters * W) (Response reply)) : Prop := {
  rest_keeps ls : World.keeps (λ ls', ls' = ls) c;
  rest_answers sw : refused (c sw).1 = false
}.

Lemma answers_mthen {A} (m : M (limiters * W) A) k :
  (∀ a sw, refused (k a sw).1 = false) → ∀ sw, refused (mthen m k sw).1 = false.
Proof. intros Hk sw. unfold mthen. destruct (m sw). apply Hk. Qed.

Lemma limited_inv k ip c ls w resp ls' w' :
  rest_ok c → enforceRateLimit (permit k) ip c (ls, w) = (resp, (ls', w')) →
  ∃ wait l, allow (ls k) ip (time_Now w).1 = ((negb (refused resp), wait), l) ∧
    ls' = <[k := l]> ls ∧ (refused resp = true → w' = (time_Now w).2).
Proof.
  intros [Hk Ha]. unfold enforceRateLimit, mthen, permit.
  destruct (time_Now w) as [now w1]. cbn [fst snd].
  destruct (allow (ls k) ip now) as [[ok wait] l].
  destruct ok; intros Hr.
  - pose proof (Hk _ _ _ _ Hr eq_refl) as Hls. specialize (Ha (<[k := l]> ls, w1)).
    rewrite Hr in Ha. cbn [fst snd] in *. exists wait, l. by rewrite Ha.
  - injection Hr as <- <- <-. by exists wait, l.
Qed.

Ltac rest_answered :=
  repeat first
    [ reflexivity
    | progress intros
    | apply answers_mthen
    | match goal with |- context [match ?x with _ => _ end] => destruct x end ].

(** *** What keeps the limiters *)

Section keeps.
Variable P : limiters → Prop.
Notation kept := (World.keeps P).

Lemma kept_clock (o : option (M W Z)) :
  kept (default time_Now ((outside (S := limiters)) <$> o)).
Proof. destruct o; apply keeps_outside. Qed.
Lemma kept_rand n : kept (rand_Read n).
Proof. apply keeps_outside. Qed.
Lemma kept_now : kept time_Now.
Proof. apply keeps_outside. Qed.

Lemma kept_Create input : kept (Create (SessionsOf server_beside) input).
Proof.
  unfold Create, failed, now, randomToken, randomID. cbn [SessionsOf server_beside Repository].
  destruct (Repository (SessionsOf server)); cbn [fmap option_fmap option_map]; [|keep_state].
  keep_state; [apply kept_rand|apply kept_clock|apply kept_rand|apply keeps_outside].
Qed.

Lemma kept_Login email password ua ip :
  kept (Login (Users server_beside) (SessionsOf server_beside) (AuthNow server_beside) email password ua ip).
Proof.
  unfold Login, auth_now. cbn [Users AuthNow server_beside].
  destruct (Users server); cbn [fmap option_fmap option_map]; [|keep_state].
  keep_state; [apply keeps_outside|apply kept_clock|apply keeps_outside|apply kept_Create].
Qed.

Lemma kept_Bootstrap email name password :
  kept (Bootstrap (Users server_beside) (AuthNow server_beside) email name password).
Proof.
  unfold Bootstrap, auth_now, newUserID, HashPassword. cbn [Users AuthNow server_beside].
  destruct (Users server); cbn [fmap option_fmap option_map]; [|keep_state].
  keep_state;
    first [apply kept_clock|apply kept_rand|apply kept_now|apply keeps_outside].
Qed.

Lemma kept_cookie token expires secure : kept (setSessionCookie token expires secure).
Proof. unfold setSessionCookie. keep_state. apply kept_now. Qed.
End keeps.
#[local] Hint Resolve kept_Create kept_Login kept_Bootstrap kept_cookie : keeps.

(** *** The rest of the handlers *)

Definition rest_of (r : password_request) : M (limiters * W) (Response reply) :=
  match r with
  | LoginRequest ip ua input =>
      authLogin (Some server_beside) (λ _, mret true) ip ua input
  | BootstrapRequest ip ua input =>
      authBootstrap (Some server_beside) (λ _, mret true) ip ua input
  end.

Lemma handle_eq r :
  handle r = enforceRateLimit (permit (limiter_of r)) (address_of r) (rest_of r).
Proof. by destruct r. Qed.

Lemma rest_of_ok r : rest_ok (rest_of r).
Proof.
  split; destruct r; unfold rest_of, authLogin, authBootstrap, enforceRateLimit, writeError, answers;
    [intros ls; keep_state..| |]; intros sw;
    rewrite (mthen_run (mret true) _ sw true sw eq_refl); cbv iota; rest_answered.
Qed.

Lemma handle_inv r ls w resp ls' w' :
  handle r (ls, w) = (resp, (ls', w')) →
  ∃ wait l, allow (ls (limiter_of r)) (address_of r) (time_Now w).1 = ((negb (refused resp), wait), l) ∧
    ls' = <[limiter_of r := l]> ls ∧ (refused resp = true → w' = (time_Now w).2).
Proof. rewrite handle_eq. apply limited_inv, rest_of_ok. Qed.

Lemma handle_refused r sw resp sw' :
  handle r sw = (resp, sw') → refused resp = true →
  resp = Error 429 "too many requests; retry later" false.
Proof.
  rewrite handle_eq. unfold enforceRateLimit.
  intros (ok & sw1 & _ & Hc)%mthen_inv Href. destruct ok; [|by injection Hc as <- _].
  pose proof (rest_answers _ (rest_of_ok r) sw1) as Hn.
  rewrite Hc in Hn. cbn [fst] in Hn. congruence.
Qed.

(** ** Histories of requests *)

Record asked := mkAsked { request : password_request; asked_at : Z; said : Response reply }.

(** The requests of a history of the server, with the time the limiter read and the
    answer; in between, anything may happen but to the limiters. *)
Inductive history : limiters * W → list asked → Prop :=
  | no_more sw : history sw []
  | then_asked r resp sw sw' l :
      handle r sw = (resp, sw') → history sw' l →
      history sw (mkAsked r (time_Now sw.2).1 resp :: l)
  | then_other ls w w' l : history (ls, w') l → history (ls, w) l.

(** One request after the other. *)
Fixpoint send (rs : list password_request) (sw : limiters * W) : list asked :=
  match rs with
  | [] => []
  | r :: rs =>
      let '(resp, sw') := handle r sw in mkAsked r (time_Now sw.2).1 resp :: send rs sw'
  end.
Lemma send_history rs sw : history sw (send rs sw).
Proof.
  revert sw. induction rs as [|r rs IH]; intros sw; cbn [send]; [constructor|].
  destruct (handle r sw) as [resp sw'] eqn:Hr. by eapply then_asked.
Qed.

(** The requests that one limiter decided. *)
Definition decided (k : limiter_name) (l : list asked) : list asked :=
  filter (λ x, limiter_of (request x) = k) l.
Definition call_of (x : asked) : string * Z := (address_of (request x), asked_at x).
Definition let_through (x : asked) : bool := negb (refused (said x)).

Lemma history_calls k sw l :
  history sw l → let_through <$> decided k l = calls (sw.1 k) (call_of <$> decided k l).
Proof.
  induction 1 as [sw|r resp [ls w] [ls' w'] l Hh Hl IH|ls w w' l Hl IH]; [done| |done].
  apply handle_inv in Hh as (wait & lim & Ha & -> & _). cbn [fst snd] in *.
  unfold decided in *. rewrite filter_cons. cbn [request]. destruct (decide (limiter_of r = k)) as [<-|Hne].
  - cbn [fmap list_fmap calls call_of request asked_at]. rewrite Ha.
    f_equal. by rewrite IH, fn_lookup_insert.
  - by rewrite IH, fn_lookup_insert_ne.
Qed.

Lemma decided_ordered k from l :
  Forall (λ x, from ≤ asked_at x) l → StronglySorted (λ x y, asked_at x ≤ asked_at y) l →
  times_ordered from (call_of <$> decided k l).
Proof.
  unfold decided. revert from. induction l as [|x l IH]; intros from Hf Hs; [done|].
  apply Forall_cons in Hf as [Hx Hf]. inversion Hs as [|? ? Hl Hall]; subst.
  rewrite filter_cons. case_decide; [|by apply IH]. split; [done|]. by apply IH.
Qed.

(** The passwords tried from an address in an interval. *)
Definition tried (k : limiter_name) (ip : string) (a b : Z) (x : asked) : Prop :=
  limiter_of (request x) = k ∧ address_of (request x) = ip ∧ a ≤ asked_at x < b ∧
  refused (said x) = false.
#[global] Instance tried_dec k ip a b x : Decision (tried k ip a b x).
Proof. unfold tried. apply _. Defined.

Lemma tried_allowed k ip a b l :
  Z.of_nat (length (filter (tried k ip a b) l)) =
  allowed_in ip a b (call_of <$> decided k l) (let_through <$> decided k l).
Proof.
  unfold decided. induction l as [|x l IH]; [done|]. rewrite !filter_cons.
  destruct (decide (tried k ip a b x)) as [(Hk & Hip & Ht & Hr)|Hn].
  - rewrite decide_True by done. cbn [fmap list_fmap call_of allowed_in]. rewrite <-IH.
    unfold let_through at 1. rewrite bool_decide_true, Hr by done.
    rewrite (proj2 (Z.leb_le a _)), (proj2 (Z.ltb_lt _ b)) by lia. cbn [length andb negb]. lia.
  - case_decide as Hk; [|done]. cbn [fmap list_fmap call_of allowed_in]. rewrite <-IH.
    unfold let_through at 1.
    match goal with |- _ = (if ?c then 1 else 0) + _ => destruct c eqn:E end; [|lia].
    destruct Hn. unfold tried.
    rewrite !andb_true_iff, bool_decide_eq_true, negb_true_iff in E. intuition lia.
Qed.

Lemma tried_bound k ip a w l :
  history (new_limiters, w) l → StronglySorted (λ x y, asked_at x ≤ asked_at y) l →
  Z.of_nat (length (filter (tried k ip a (a + window (new_limiters k))) l)) ≤
    2 * Z.max 1 (limit (new_limiters k)).
Proof.
  intros Hh Hs. rewrite tried_allowed, (history_calls k _ _ Hh). cbn [fst].
  assert (∃ from, Forall (λ x, from ≤ asked_at x) l) as [from Hf].
  { destruct l as [|x l]; [by exists 0|]. exists (asked_at x). inversion Hs; subst. by constructor. }
  apply (calls_inv (new_limiters k) ip a (a + window (new_limiters k)) from 0);
    [by destruct k|done|by apply decided_ordered|].
  unfold window_inv. by destruct k; cbn; rewrite lookup_empty.
Qed.
End throttle.

(** ** Property *)

Notation minute := (60 * 10 ^ 9).

(** C4: the number of guesses is bounded.  Whatever requests a server gets since it was
    started and whatever happens to its tables in between, as long as the clock does not
    go back, at most twenty logins from one address have a password checked in any minute,
    and at most six bootstraps in any hour; the other requests are answered 429, and all
    they do is read the clock. *)
Theorem guesses_bounded `{World W, Random W, Sha256, Argon2, strings.GoUnicode}
    (server : Server W) w l ip a :
  history server (new_limiters, w) l →
  StronglySorted (λ x y, asked_at x ≤ asked_at y) l →
  Z.of_nat (length (filter (tried LoginLimiter ip a (a + minute)) l)) ≤ 20 ∧
  Z.of_nat (length (filter (tried BootstrapLimiter ip a (a + 60 * minute)) l)) ≤ 6 ∧
  ∀ r ls w1 resp sw, handle server r (ls, w1) = (resp, sw) → refused resp = true →
    resp = Error 429 "too many requests; retry later" false ∧ sw.2 = (time_Now w1).2.
Proof.
  intros Hh Hs. split_and!.
  - exact (tried_bound server LoginLimiter ip a w l Hh Hs).
  - exact (tried_bound server BootstrapLimiter ip a w l Hh Hs).
  - intros r ls w1 resp [ls' w'] Hr Href.
    pose proof (handle_inv _ _ _ _ _ _ _ Hr) as (_ & _ & _ & _ & Hw).
    split; [|by apply Hw]. by apply (handle_refused server r (ls, w1) resp (ls', w')).
Qed.

(** ** Witness: twelve logins in the same moment *)

Section witness.
#[local] Existing Instance copying.
#[local] Existing Instance no_random.
#[local] Existing Instance still_world.
#[local] Existing Instance plain_database.
#[local] Existing Instance plain_unicode.
#[local] Existing Instance plain_sha.
#[local] Existing Instance example_postgres.
#[local] Existing Instance tables_world.
#[local] Existing Instance tables_random.
#[local] Existing Instance world_beside.
Notation shop_server := (server_accounts PostgresUserRepository no_members true).

Definition wrong_guess : password_request :=
  LoginRequest "10.0.0.9" "" (Ok ("admin@example.org", "password1234")).
Definition guessed : list asked :=
  send shop_server (replicate 12 wrong_guess) (new_limiters, (mkDatabase {[admin_id]} [], first_bootstrap.2)).

Lemma guesses_bounded_witness :
  (λ x, match said x with Error code _ _ => code | Answer _ => 200 end) <$> guessed =
    replicate 10 401 ++ replicate 2 429 ∧
  Z.of_nat (length (filter (tried LoginLimiter "10.0.0.9" 0 (0 + minute)) guessed)) ≤ 20.
Proof.
  split; [vm_compute; reflexivity|].
  refine (proj1 (guesses_bounded shop_server (mkDatabase {[admin_id]} [], first_bootstrap.2)
    guessed "10.0.0.9" 0 _ _)).
  - apply send_history.
  - vm_compute. repeat constructor; discriminate.
Defined.
End witness.
End throttle.
