(* ===== verification/HttpFabric.v ===== *)
(** * The handlers of the AI fabric and of model routing

    [src/internal/httpapi/aifabric.go], and [decideModel] of [server.go], over the
    manager of [AIFabric.v], the router of [Routing.v] and the access check of
    [HttpApi.v].  A handler takes the decoded body of the request, or the error of
    decoding it; the stores are functions that may fail, and are implemented in
    [FabricStore.v]. *)

From S2P Require Import Prelude GoStrings World Float RoutingTypes Routing RoutingFacts Events Auth HttpApi AIFabric AIRuntime.

Module httpfabric.
Import aifabric httpapi.

Definition ErrFabricUnavailable : goerror := ErrorString "ai fabric unavailable".
Definition ErrStoreUnavailable : goerror := ErrorString "ai fabric store unavailable".

(* src: internal/aifabric/store.go:11-11 (Store) *)
Record Store (W : Type) := mkStore {
  SaveRuntime : AIRuntime W → RuntimeHealth → M W (option goerror);
  SaveHardware : HostResources → M W (option goerror);
  SaveUsage : InferenceRequest → InferenceResponse → string → M W (option goerror);
  SaveProjectSettings : ProjectAISettings → M W (option goerror);
  ProjectSettings : string → M W (ProjectAISettings * option goerror)
}.
Arguments mkStore {W}.
Arguments SaveRuntime {W}.
Arguments SaveHardware {W}.
Arguments SaveUsage {W}.
Arguments SaveProjectSettings {W}.
Arguments ProjectSettings {W}.

(** What is shown of a runtime. *)
Record runtime_view := mkView {
  View_Spec : RuntimeSpec;
  View_Capabilities : RuntimeCapabilities;
  View_Health : RuntimeHealth
}.

Section handlers.
Context `{MapOrder} {W : Type} `{World W} `{crypto.Sha256}.
(** Whether there is a manager, its sink and clock, the store, the authentication
    service, and the host. *)
Variable AIManager : bool.
Variable (Events : option (EventSink W)) (now : M W Z) (AIStore : option (Store W)).
Variable (AuthOf : option (auth.AuthService W)).
Variable host : M W (HostResources * option goerror).
Notation C A := (M (Manager W * W) A).
Notation reply A := (C (Response (Z * A))).

Definition answers {A} (code : Z) (a : A) : reply A := mret (Answer (code, a)).
Definition writeError {A} (code : Z) (err : goerror) : reply A :=
  mret (Error code (error_text err) false).
Definition with_manager {A} (k : reply A) : reply A :=
  if AIManager then k else writeError 503 ErrFabricUnavailable.
Definition decoded {A B} (input : result B) (k : B → reply A) : reply A :=
  match input with Err e => writeError 400 e | Ok b => k b end.

Definition view (r : AIRuntime W) : C runtime_view :=
  let! (h, _) := Health Events (Spec_ID (Spec r)) in
  mret (mkView (Spec r) (Runtime_Capabilities r) h).
Fixpoint views (todo : list (AIRuntime W)) : C (list runtime_view) :=
  match todo with
  | [] => mret []
  | r :: todo => let! v := view r in let! vs := views todo in mret (v :: vs)
  end.

(* src: internal/httpapi/aifabric.go:13-24 (aiRuntimes) *)
Definition aiRuntimes : reply (list runtime_view) :=
  with_manager (let! todo := look Runtimes in let! vs := views todo in answers 200 vs).

(* src: internal/httpapi/aifabric.go:25-37 (aiRuntime) *)
Definition aiRuntime (id : string) : reply runtime_view :=
  with_manager (
    let! r := Runtime id in
    match r with
    | Err e => writeError 404 e
    | Ok r => let! v := view r in answers 200 v
    end).

(* src: internal/httpapi/aifabric.go:44-61 (aiRuntimeLifecycle) *)
Definition aiRuntimeLifecycle (id op : string) : reply (string * string) :=
  with_manager (
    let! err := if bool_decide (op = "start") then Start Events id else Stop Events id in
    match err with
    | Some e => writeError 400 e
    | None => answers 200 (op +:+ " requested", id)
    end).
(* src: internal/httpapi/aifabric.go:38-40 (aiRuntimeStart) *)
Definition aiRuntimeStart (id : string) : reply (string * string) := aiRuntimeLifecycle id "start".
(* src: internal/httpapi/aifabric.go:41-43 (aiRuntimeStop) *)
Definition aiRuntimeStop (id : string) : reply (string * string) := aiRuntimeLifecycle id "stop".

(* src: internal/httpapi/aifabric.go:62-78 (aiRuntimeHealth) *)
Definition aiRuntimeHealth (id : string) : reply RuntimeHealth :=
  with_manager (
    let! (health, err) := Health Events id in
    match err with
    | Some _ => answers 200 health
    | None =>
        let! runtime := look (λ m, Registry_Runtime (Registry m) id) in
        let! _ := match AIStore, runtime with
                  | Some store, Some runtime => outside (SaveRuntime store runtime health)
                  | _, _ => mret None
                  end in
        answers 200 health
    end).

(* src: internal/httpapi/aifabric.go:79-85 (aiModels) *)
Definition aiModels : reply (list ModelDescriptor) :=
  with_manager (let! l := look (λ m, Registry_Models (Registry m)) in answers 200 l).

(* src: internal/httpapi/aifabric.go:86-97 (aiModel) *)
Definition aiModel (id : string) : reply ModelDescriptor :=
  with_manager (
    let! model := look (λ m, Registry_Model (Registry m) id) in
    match model with
    | None => writeError 404 ErrModelNotFound
    | Some model => answers 200 model
    end).

(** The models that were found, with the error that makes the list partial. *)
(* src: internal/httpapi/aifabric.go:98-110 (aiModelsDiscover) *)
Definition aiModelsDiscover : reply (list ModelDescriptor * option string) :=
  with_manager (
    let! (models, err) := Discover Events in answers 200 (models, error_text <$> err)).

(* src: internal/httpapi/aifabric.go:111-127 (aiModelInstall) *)
Definition aiModelInstall (input : result ModelInstallRequest) : reply ModelDescriptor :=
  with_manager (decoded input (λ req,
    let! (model, err) := Install Events req in
    match err with Some e => writeError 400 e | None => answers 202 model end)).

(* src: internal/httpapi/aifabric.go:128-143 (aiModelLoad) *)
Definition aiModelLoad (input : result ModelLoadRequest) : reply (string * string) :=
  with_manager (decoded input (λ req,
    let! err := Load_ Events req in
    match err with Some e => writeError 400 e | None => answers 200 (Load_ModelID req, "READY") end)).

(* src: internal/httpapi/aifabric.go:144-159 (aiModelUnload) *)
Definition aiModelUnload (input : result ModelLoadRequest) : reply (string * string) :=
  with_manager (decoded input (λ req,
    let! err := Unload Events req in
    match err with
    | Some e => writeError 400 e
    | None => answers 200 (Load_ModelID req, "INSTALLED")
    end)).

(* src: internal/httpapi/aifabric.go:160-170 (aiHardware) *)
Definition aiHardware : reply HostResources :=
  let! (resources, err) := outside host in
  match err with
  | Some e => writeError 503 e
  | None =>
      let! _ := match AIStore with
                | Some store => outside (SaveHardware store resources)
                | None => mret None
                end in
      answers 200 resources
  end.

(* src: internal/httpapi/aifabric.go:171-178 (aiGPUs) *)
Definition aiGPUs : reply (list GPUResource) :=
  let! (resources, err) := outside host in
  match err with Some e => writeError 503 e | None => answers 200 (GPUs resources) end.

(* src: internal/httpapi/aifabric.go:179-186 (aiHealth) *)
Definition aiHealth : reply (gmap string RuntimeHealth * list ModelDescriptor) :=
  with_manager (
    let! health := HealthAll Events in
    let! models := look (λ m, Registry_Models (Registry m)) in
    answers 200 (health, models)).

Definition default_settings (project : string) : ProjectAISettings :=
  mkSettings project "" "" routing.Balanced routing.Public false float64.zero [] [] [].

(* src: internal/httpapi/aifabric.go:188-198 (aiProjectSettings) *)
Definition aiProjectSettings (project : string) : reply ProjectAISettings :=
  match AIStore with
  | None => writeError 503 ErrStoreUnavailable
  | Some store =>
      let! (settings, err) := outside (ProjectSettings store project) in
      answers 200 (match err with Some _ => default_settings project | None => settings end)
  end.

(* src: internal/httpapi/aifabric.go:199-221 (aiUpdateProjectSettings) *)
Definition aiUpdateProjectSettings (project : string) (input : result ProjectAISettings)
    : reply ProjectAISettings :=
  match AIStore with
  | None => writeError 503 ErrStoreUnavailable
  | Some store =>
      decoded input (λ settings,
        let settings := settings <| Settings_ProjectID := project |> in
        let settings := if decide (Settings_RoutingPolicy settings = routing.RoutingPolicyOther "")
          then settings <| Settings_RoutingPolicy := routing.Balanced |> else settings in
        let settings := if decide (Settings_PrivacyPolicy settings = routing.PrivacyClassOther "")
          then settings <| Settings_PrivacyPolicy := routing.Public |> else settings in
        let! err := outside (SaveProjectSettings store settings) in
        match err with Some e => writeError 500 e | None => answers 200 settings end)
  end.

(** The checks in front of an inference. *)
Definition inference_allowed {A} (r : Request) (input : result InferenceRequest)
    (k : InferenceRequest → reply A) : reply A :=
  with_manager (decoded input (λ req,
    if decide (Req_ProjectID req = "") then writeError 400 (ErrorString "project_id is required")
    else
      let! denied := outside (requireProjectPermission AuthOf r (Req_ProjectID req) auth.PermissionRun) in
      match denied with Some e => mret e | None => k req end)).

(* src: internal/httpapi/aifabric.go:223-253 (aiInference) *)
Definition aiInference (r : Request) (input : result InferenceRequest) : reply InferenceResponse :=
  inference_allowed r input (λ req,
    let! (response, err) := Generate Events now req in
    let status := match err with None => "COMPLETED" | Some _ => "FAILED" end in
    let! _ := match AIStore with
              | Some store => outside (SaveUsage store req response status)
              | None => mret None
              end in
    match err with Some e => writeError 502 e | None => answers 200 response end).

(** The answer is the events that are written, if the connection can be flushed. *)
(* src: internal/httpapi/aifabric.go:254-290 (aiInferenceStream) *)
Definition aiInferenceStream (flusher : bool) (r : Request) (input : result InferenceRequest)
    : reply (list StreamEvent) :=
  inference_allowed r input (λ req,
    let! (stream, err) := Stream Events req in
    match err with
    | Some e => writeError 502 e
    | None => if flusher then answers 200 stream else writeError 500 (ErrorString "streaming unsupported")
    end).

(** A caller without permission to run gets the refusal, and neither a runtime nor the
    usage record is touched. *)
Lemma inference_refused r req (refusal : ∀ A, Response A) w w1 flusher m :
  AIManager = true → Req_ProjectID req ≠ "" →
  (∀ A, requireProjectPermission (A:=A) AuthOf r (Req_ProjectID req) auth.PermissionRun w =
     (Some (refusal A), w1)) →
  aiInference r (Ok req) (m, w) = (refusal _, (m, w1)) ∧
  aiInferenceStream flusher r (Ok req) (m, w) = (refusal _, (m, w1)).
Proof.
  intros Hm Hp Hr. unfold aiInference, aiInferenceStream, inference_allowed, with_manager.
  rewrite Hm. cbn [decoded]. rewrite !decide_False by done.
  unfold mthen, outside, snd, fst. by rewrite !Hr.
Qed.
End handlers.

(** ** Model routing *)

Section routing.
Context `{MapOrder} `{strings.GoUnicode} {W : Type} (Estimator : router.CostEstimator).
(** Whether there is a router and a manager, the models of the server, and what the
    stores do. *)
Variable (Router AIManager : bool) (RoutingModels : list routing.ModelProfile).
Variable AIStore : option (Store W).
Variable SaveDecision : option (routing.RoutingRequest → routing.RoutingDecision → M W (option goerror)).
Notation C A := (M (Manager W * W) A).

(** The models of the request, or all the server has. *)
(* src: internal/httpapi/server.go:289-294 (decideModel) *)
Definition candidates (m : Manager W) (request : routing.RoutingRequest) : list routing.ModelProfile :=
  match routing.Models request with
  | [] => RoutingModels ++
          (if AIManager then RoutingProfiles (Registry_Models (Registry m)) (CachedHealth m) else [])
  | models => models
  end.

(** What the settings of the project make of the request. *)
(* src: internal/httpapi/server.go:297-309 (decideModel) *)
Definition with_settings (settings : ProjectAISettings) (request : routing.RoutingRequest)
    : routing.RoutingRequest :=
  let request := if decide (routing.Req_Policy request = routing.RoutingPolicyOther "")
    then request <| routing.Req_Policy := Settings_RoutingPolicy settings |> else request in
  let request := if decide (routing.PrivacyLimit request = routing.PrivacyClassOther "")
    then request <| routing.PrivacyLimit := Settings_PrivacyPolicy settings |> else request in
  let request := if Settings_LocalOnly settings
    then request <| routing.Req_LocalPolicy := routing.LocalOnly |> else request in
  let request := if float64.eqb (routing.Budget request) float64.zero
    then request <| routing.Budget := Settings_Budget settings |> else request in
  request <| routing.Models := ApplyProjectPolicy settings (routing.Models request) |>.

(** The answer is the decision with its error. *)
(* src: internal/httpapi/server.go:279-322 (decideModel) *)
Definition decideModel (input : result routing.RoutingRequest)
    : C (Response (Z * (routing.RoutingDecision * option goerror))) :=
  if negb Router then writeError 503 (ErrorString "routing engine unavailable")
  else
    decoded input (λ request,
      let! models := look (λ m, candidates m request) in
      let request := request <| routing.Models := models |> in
      let! request :=
        match AIStore with
        | Some store =>
            if decide (routing.Req_ProjectID request = "") then mret request
            else
              let! (settings, err) := outside (ProjectSettings store (routing.Req_ProjectID request)) in
              mret (match err with None => with_settings settings request | Some _ => request end)
        | None => mret request
        end in
      let '(decision, err) := router.DecideWithFallbacks Estimator request in
      let! _ := match SaveDecision with
                | Some save => outside (save request decision)
                | None => mret None
                end in
      answers (match err with Some _ => 422 | None => 200 end) (decision, err)).

(** What the settings demand of the model that is selected: it is one the project
    allows, the hard constraints hold with the project's settings, and if the project
    is local-only, it is local. *)
Definition within_settings (settings : ProjectAISettings) (m : Manager W)
    (request : routing.RoutingRequest) (d : routing.RoutingDecision) : Prop :=
  ∃ p, p ∈ candidates m request ∧ permitted settings p ∧ routing.Selected d = reference p ∧
    compatible Estimator (with_settings settings (request <| routing.Models := candidates m request |>)) p ∧
    (Settings_LocalOnly settings = true → routing.Local p = true) ∧
    (routing.PrivacyLimit request = routing.PrivacyClassOther "" →
     Settings_PrivacyPolicy settings = routing.Private → routing.Local p = true).

Lemma with_settings_local settings request :
  Settings_LocalOnly settings = true →
  routing.Req_LocalPolicy (with_settings settings request) = routing.LocalOnly.
Proof. intros H1. unfold with_settings. rewrite H1. repeat case_match; done. Qed.
Lemma with_settings_privacy settings request :
  routing.PrivacyLimit request = routing.PrivacyClassOther "" →
  routing.PrivacyLimit (with_settings settings request) = Settings_PrivacyPolicy settings.
Proof.
  intros H1. unfold with_settings.
  repeat case_match; simpl in *; congruence.
Qed.
Lemma with_settings_models settings request :
  routing.Models (with_settings settings request) = ApplyProjectPolicy settings (routing.Models request).
Proof. unfold with_settings. repeat case_match; done. Qed.

(** What the router selects with the settings put into the request. *)
Lemma decided_within settings m request d :
  router.DecideWithFallbacks Estimator
    (with_settings settings (request <| routing.Models := candidates m request |>)) = (d, None) →
  within_settings settings m request d.
Proof.
  intros (p & Hp & Hcomp & Hsel & _)%DecideWithFallbacks_selects.
  rewrite with_settings_models, ApplyProjectPolicy_filter in Hp.
  apply list_elem_of_filter in Hp as [Hperm Hp].
  exists p. split; [done|]. split; [done|]. split; [done|]. split; [done|]. split.
  - intros Hl. apply (ok_local_only _ _ _ Hcomp), with_settings_local, Hl.
  - intros Hn Hpr. apply (ok_private_project _ _ _ Hcomp). by rewrite with_settings_privacy.
Qed.

(** C36: routing within the settings of a project.  A decision that is answered for a
    project whose settings can be read selects one of the candidates (the models of the
    request, or else those of the server and of the AI fabric) that the settings allow: its
    provider, runtime and model are on the lists, it meets every hard constraint, and it is
    local if the settings are local-only; settings that are merely private make it local
    only when the request names no privacy limit of its own.  Settings that cannot be read
    do not hold the request back: it is then decided as if the project had none. *)
Theorem decide_within_settings store input request m w d m' w' :
  AIStore = Some store → input = Ok request → routing.Req_ProjectID request ≠ "" →
  decideModel input (m, w) = (Answer (200, (d, None)), (m', w')) →
  m' = m ∧
  match (ProjectSettings store (routing.Req_ProjectID request) w).1 with
  | (settings, None) => within_settings settings m request d
  | (_, Some _) =>
      router.DecideWithFallbacks Estimator
        (request <| routing.Models := candidates m request |>) = (d, None)
  end.
Proof.
  intros Hstore -> Hproject. unfold decideModel. rewrite Hstore.
  destruct Router; cbn [negb]; [|by intros [[=] _]%mret_inv].
  intros (models & sw & [-> ->]%look_inv & Hk)%mthen_inv. cbn [fst] in Hk.
  set (request1 := request <| routing.Models := candidates m request |>) in *.
  assert (routing.Req_ProjectID request1 = routing.Req_ProjectID request) as Hid by done.
  rewrite Hid, decide_False in Hk by done.
  apply mthen_inv in Hk as (request2 & [m2 w2] & Hset & Hk).
  apply mthen_inv in Hset as ([s err] & [m1 w1] & [Hs Hm1]%outside_inv & [Hreq [= <- <-]]%mret_inv).
  cbn [fst snd] in *. subst m1. rewrite Hs. cbn [fst]. subst request2.
  destruct (router.DecideWithFallbacks Estimator _) as [d' err'] eqn:Hd.
  apply mthen_inv in Hk as (x & [m3 w3] & Hsave & Hk). apply mret_inv in Hk as [[= Hc -> ->] [= -> ->]].
  split.
  { destruct SaveDecision; [by apply outside_inv in Hsave as [_ Hsm]|by apply mret_inv in Hsave as [_ [= ->]]]. }
  destruct err as [e|]; [done|]. by apply decided_within.
Qed.
End routing.

(** ** Witnesses *)

Definition example_settings : ProjectAISettings :=
  mkSettings "p" "" "" routing.Best routing.Private false float64.zero ["local"; "cloud"] [] ["small"; "big"].
Definition example_store : Store unit :=
  mkStore (λ _ _, mret None) (λ _, mret None) (λ _ _ _, mret None) (λ _, mret None)
    (λ _, mret (example_settings, None)).
Definition example_public_task : routing.TaskProfile :=
  routing.mkTaskProfile routing.TaskCode "" "" 1 false 10 false false routing.Public "" float64.zero "".
Definition example_request (limit : routing.PrivacyClass) : routing.RoutingRequest :=
  (example_routing example_public_task None) <| routing.PrivacyLimit := limit |>.
(** What is selected, if there is a decision without an error. *)
Definition selected_of (a : Response (Z * (routing.RoutingDecision * option goerror)))
    : option (string * string) :=
  match a with
  | Answer (200, (d, None)) =>
      Some (routing.Ref_ProviderID (routing.Selected d), routing.Ref_ModelID (routing.Selected d))
  | _ => None
  end.
Notation example_decide limit :=
  (decideModel (H:=canonical_order) (H0:=strings.ascii_unicode) router.TokenCostEstimator true true []
     (Some example_store) None (Ok (example_request limit)) (NewManager (W:=unit) None, tt)).

(** The project is private: its runs are to stay on local models.  A request that names
    its own privacy limit is not held to that, and its task is sent to the cloud. *)
Lemma request_overrides_private_project :
  Settings_PrivacyPolicy example_settings = routing.Private ∧
  selected_of (example_decide (routing.PrivacyClassOther "")).1 = Some ("local", "small") ∧
  selected_of (example_decide routing.Public).1 = Some ("cloud", "big").
Proof. split; [done|]. split; vm_compute; reflexivity. Qed.
Lemma decide_within_settings_witness :
  ∃ d p, (example_decide (routing.PrivacyClassOther "")).1 = Answer (200, (d, None)) ∧
    routing.Selected d = reference p ∧ routing.Local p = true.
Proof.
  destruct request_overrides_private_project as (_ & Hsel & _).
  destruct (example_decide (routing.PrivacyClassOther "")) as [a [m w]] eqn:E.
  destruct a as [|[code [d [e|]]]]; cbn [fst selected_of] in Hsel.
  all: repeat case_match; try discriminate. subst.
  destruct (decide_within_settings (H:=canonical_order) (H0:=strings.ascii_unicode) router.TokenCostEstimator
    true true [] (Some example_store) None example_store
    (Ok (example_request (routing.PrivacyClassOther "")))
    (example_request (routing.PrivacyClassOther ""))
    (NewManager None) tt d m w eq_refl eq_refl) as [_ (p & _ & _ & Hs & _ & _ & Hp)].
  - discriminate.
  - exact E.
  - exists d, p. split; [reflexivity|]. split; [exact Hs|]. apply Hp; reflexivity.
Defined.

End httpfabric.
