(* ===== verification/ComputerStore.v ===== *)
(** * The store of project computers

    [src/internal/projectcomputer/store.go] on the tables of
    [src/migrations/009_infrastructure.sql], as the store of the manager of
    [ProjectComputer.v], with the record of an operation and the provider that stands in
    for a missing one. *)

From stdpp Require Import strings.
From S2P Require Import Prelude GoStrings World Runtime Float ProjIntel Environment ProjectComputer PgBase.
Import projectcomputer pg.

Module computerstore.

(* src: internal/projectcomputer/types.go:103-113 (OperationRecord) *)
Record OperationRecord := mkOperation {
  Op_ID : string;
  Op_ComputerID : string;
  Op_ProjectID : string;
  Op_Operation : Operation;
  Op_Status : string;
  Op_RunID : string;
  Op_Error : string;
  Op_StartedAt : Z;
  Op_CompletedAt : option Z
}.

(* src: internal/projectcomputer/manager.go:293-316 (unavailableProvider) *)
Definition unavailableProvider {W} : runtime.Provider W :=
  let no := Some (ErrorString "runtime unavailable") in {|
  runtime.Name := "unavailable";
  runtime.Create _ := mret (runtime.mkRuntime "" "" (runtime.StatusOther ""), no);
  runtime.Start _ := mret no; runtime.Stop _ := mret no; runtime.Restart _ := mret no;
  runtime.Destroy _ := mret no; runtime.GetStatus _ := mret (runtime.StatusUnknown, no);
  runtime.Exec _ _ _ := mret (runtime.zero_ExecResult, no)
|}.
(** [transition] calls it only where there is a provider. *)
(* src: internal/projectcomputer/manager.go:138-143 (provider) *)
Definition provider {W} (m : Manager W) : runtime.Provider W := default unavailableProvider (Provider m).

(** ** The column of resources *)

(** The values of the members of a JSON object, as far as resources are made of them. *)
Inductive member := Number (z : Z) | Boolean (b : bool) | Other_member.
(* src: internal/environment/types.go:46-52 (ResourceRequirement) *)
Definition resources_json (r : environment.ResourceRequirement) : list (string * member) :=
  [("cpu", Number (environment.CPU r)); ("memory_bytes", Number (environment.MemoryBytes r));
   ("disk_bytes", Number (environment.DiskBytes r)); ("gpu", Boolean (environment.GPU r));
   ("gpu_memory_bytes", Number (environment.GPUMemoryBytes r))].
(** The tags of a computer; some are left out when they are empty. *)
Definition computer_json (c : ProjectComputer) : list (string * member) :=
  map (λ key, (key, Other_member))
    (["id"; "project_id"; "runtime_provider"] ++ (if decide (RuntimeID c = "") then [] else ["runtime_id"]) ++
     ["image"; "image_version"; "status"; "resources"] ++
     (if decide (EnvironmentFingerprint c = "") then [] else ["environment_fingerprint"]) ++
     ["readiness"; "capabilities"; "created_at"; "updated_at"] ++
     (if decide (Metadata c = ∅) then [] else ["metadata"])).
(** Unmarshalling looks for the members of the structure and skips the others.  The keys of
    the programme are in lower case already. *)
Definition number (json : list (string * member)) (key : string) : Z :=
  match list_find (λ kv, kv.1 = key) json with Some (_, (_, Number z)) => z | _ => 0 end.
Definition boolean (json : list (string * member)) (key : string) : bool :=
  match list_find (λ kv, kv.1 = key) json with Some (_, (_, Boolean b)) => b | _ => false end.
Definition resources_of (json : list (string * member)) : environment.ResourceRequirement :=
  environment.mkResource (number json "cpu") (number json "memory_bytes") (number json "disk_bytes")
    (boolean json "gpu") (number json "gpu_memory_bytes").

(** What is marshalled as resources is read back, and a computer has no resources at the
    top. *)
Lemma resources_of_json r : resources_of (resources_json r) = r.
Proof. by destruct r. Qed.
Lemma resources_of_computer c : resources_of (computer_json c) = environment.mkResource 0 0 0 false 0.
Proof.
  unfold computer_json. by destruct (decide (RuntimeID c = "")), (decide (EnvironmentFingerprint c = "")), (decide (Metadata c = ∅)).
Qed.

(** ** The tables *)

(** A row: the columns, and the JSON of its resources. *)
Record computer_row := mkRow { Row : ProjectComputer; Row_Resources : list (string * member) }.
Record computer_db := mkComputerDB {
  projects : gset string;
  project_computers : gmap string computer_row;
  computer_operations : gmap string OperationRecord
}.
#[global] Instance eta_computer_db : Eta computer_db := λ d, mkComputerDB (projects d) (project_computers d) (computer_operations d).
#[global] Instance eta_OperationRecord : Eta OperationRecord := λ o,
  mkOperation (Op_ID o) (Op_ComputerID o) (Op_ProjectID o) (Op_Operation o) (Op_Status o) (Op_RunID o) (Op_Error o)
    (Op_StartedAt o) (Op_CompletedAt o).

Section store.
Context `{Database} {W : Type}.
(** Whether there is a database, and whether the driver writes a slice that was never made
    as [NULL], as it documents. *)
Variable (DB nil_is_null : bool).
Notation C A := (M (computer_db * W) A).
Notation with_db := (pg.with_db DB "project computer database unavailable").

(** No column may be null but the runtime.  [Create] makes no capabilities, [Verify] makes
    them, and the endpoints never verify an empty list: no capabilities means never made. *)
Definition capabilities_null (c : ProjectComputer) : bool := nil_is_null && bool_decide (Capabilities c = []).
Definition computer_allowed (c : ProjectComputer) (d : computer_db) : bool :=
  negb (capabilities_null c) &&
  (bool_decide (is_Some (project_computers d !! ID c)) || bool_decide (ProjectID c ∈ projects d)).
(** The project, the provider, the image, the resources and the creation stay those of the
    first row. *)
Definition updated_row (first c : ProjectComputer) : ProjectComputer :=
  mkComputer (ID first) (ProjectID first) (RuntimeProvider first) (RuntimeID c) (Image first) (ImageVersion first)
    (Computer_Status c) (Resources first) (EnvironmentFingerprint c) (Computer_Readiness c) (Capabilities c)
    (CreatedAt first) (timestamptz (UpdatedAt c)) (Metadata c).
Definition put_computer (c : ProjectComputer) (d : computer_db) : computer_db :=
  d <| project_computers := <[ID c := match project_computers d !! ID c with
         | Some r => mkRow (updated_row (Row r) c) (Row_Resources r)
         | None => mkRow (c <| CreatedAt := timestamptz (CreatedAt c) |> <| UpdatedAt := timestamptz (UpdatedAt c) |>)
                     (computer_json c)
         end]> (project_computers d) |>.
(* src: internal/projectcomputer/store.go:13-20 (PostgresStore.Save) *)
Definition pg_SaveComputer (c : ProjectComputer) : C (option goerror) :=
  with_db Some (execute (computer_allowed c) (put_computer c)).
Definition read_row (r : computer_row) : ProjectComputer := (Row r) <| Resources := resources_of (Row_Resources r) |>.
(* src: internal/projectcomputer/store.go:21-36 (PostgresStore.Get) *)
Definition pg_GetComputer (id : string) : C (ProjectComputer * option goerror) :=
  with_db (λ e, (zero_Computer, Some e)) (look (λ d, match project_computers d !! id with
    | Some r => (read_row r, None)
    | None => (zero_Computer, Some (ErrorString "no rows in result set"))
    end)).
(* src: internal/projectcomputer/store.go:37-60 (PostgresStore.List) *)
Definition pg_ListComputers (project : string) : C (list ProjectComputer * option goerror) :=
  with_db (λ e, ([], Some e)) (look (λ d,
    (sort_by (λ a b, CreatedAt b <? CreatedAt a)
       (filter (λ c, ProjectID c = project) (read_row <$> (map_to_list (project_computers d)).*2)), None))).
(** The computer, the project and the operation of the first row stay. *)
(* src: internal/projectcomputer/store.go:61-67 (PostgresStore.SaveOperation) *)
Definition pg_SaveOperation (o : OperationRecord) : C (option goerror) :=
  with_db Some (execute
    (λ d, bool_decide (is_Some (computer_operations d !! Op_ID o)) ||
       bool_decide (is_Some (project_computers d !! Op_ComputerID o)) && bool_decide (Op_ProjectID o ∈ projects d))
    (λ d, d <| computer_operations := <[Op_ID o := match computer_operations d !! Op_ID o with
         | Some first => first <| Op_Status := Op_Status o |> <| Op_Error := Op_Error o |>
                           <| Op_CompletedAt := timestamptz <$> Op_CompletedAt o |>
         | None => o <| Op_StartedAt := timestamptz (Op_StartedAt o) |>
                     <| Op_CompletedAt := timestamptz <$> Op_CompletedAt o |>
         end]> (computer_operations d) |>)).
(* src: internal/projectcomputer/store.go:11-11 (PostgresStore) *)
Definition pg_computers : Store (computer_db * W) := mkStore pg_SaveComputer pg_GetComputer pg_ListComputers.
End store.

(** ** What is kept *)

Section kept.
Context `{Database} {W : Type}.
Variables (DB nil_is_null : bool).

(** The columns that an update writes. *)
Record same_state (c' c : ProjectComputer) : Prop := mkSame {
  same_runtime : RuntimeID c' = RuntimeID c;
  same_status : Computer_Status c' = Computer_Status c;
  same_fingerprint : EnvironmentFingerprint c' = EnvironmentFingerprint c;
  same_readiness : Computer_Readiness c' = Computer_Readiness c;
  same_capabilities : Capabilities c' = Capabilities c;
  same_metadata : Metadata c' = Metadata c;
  same_updated : UpdatedAt c' = timestamptz (UpdatedAt c)
}.

(** Every row has the resources of a whole computer: none. *)
Definition rows_whole (d : computer_db) : Prop :=
  map_Forall (λ _ r, ∃ c, Row_Resources r = computer_json c) (project_computers d).
Lemma put_computer_whole c d : rows_whole d → rows_whole (put_computer c d).
Proof.
  intros Hd. apply map_Forall_insert_2; [|done].
  destruct (project_computers d !! ID c) as [r|] eqn:Hr; [exact (Hd _ _ Hr)|by eexists].
Qed.
Lemma pg_SaveComputer_whole c : keeps rows_whole (pg_SaveComputer (W := W) DB nil_is_null c).
Proof. apply keeps_with_db, keeps_execute. intros d Hd _. by apply put_computer_whole. Qed.

Lemma pg_SaveComputer_inv c d (w : W) d' w' : pg_SaveComputer DB nil_is_null c (d, w) = (None, (d', w')) →
  DB = true ∧ w' = w ∧ computer_allowed nil_is_null c d = true ∧ d' = put_computer c d.
Proof.
  unfold pg_SaveComputer. intros [[e [=]]|[-> Hx]]%with_db_inv. by apply execute_inv in Hx as (-> & [(Ha & _ & ->)|(_ & [=] & _)]).
Qed.
Lemma put_computer_read c d : rows_whole d →
  ∃ r, project_computers (put_computer c d) !! ID c = Some r ∧ same_state (read_row r) c ∧
    Resources (read_row r) = environment.mkResource 0 0 0 false 0.
Proof.
  intros Hd. unfold put_computer. cbn. rewrite lookup_insert_eq. eexists. split; [done|].
  destruct (project_computers d !! ID c) as [r|] eqn:Hr.
  - split; [by constructor|]. destruct (Hd _ _ Hr) as [c1 Hc1]. unfold read_row. cbn. rewrite Hc1. apply resources_of_computer.
  - split; [by constructor|]. unfold read_row. cbn. apply resources_of_computer.
Qed.

(** A runtime provider and a clock that know nothing of the tables. *)
Definition beside (p : runtime.Provider W) : runtime.Provider (computer_db * W) := {|
  runtime.Name := runtime.Name p;
  runtime.Create spec := outside (runtime.Create p spec);
  runtime.Start id := outside (runtime.Start p id);
  runtime.Stop id := outside (runtime.Stop p id);
  runtime.Restart id := outside (runtime.Restart p id);
  runtime.Destroy id := outside (runtime.Destroy p id);
  runtime.GetStatus id := outside (runtime.GetStatus p id);
  runtime.Exec limit id cmd := outside (runtime.Exec p limit id cmd)
|}.
(** The manager as the server makes it. *)
Variables (p : option (runtime.Provider W)) (events : bool) (now : M W Z).
(* src: cmd/server/main.go:138-142 (main) *)
Definition manager : Manager (computer_db * W) :=
  mkManager (beside <$> p) (Some (pg_computers DB nil_is_null)) events (outside now).

(** What the manager of a server that was just started reads. *)
Definition read_again (d : computer_db) (c c' : ProjectComputer) : Prop :=
  ∀ w, get manager (ID c) (NewManager, (d, w)) = ((c', None), (NewManager, (d, w))).
Definition restored (d : computer_db) (c : ProjectComputer) : Prop := rows_whole d ∧
  ∃ c', read_again d c c' ∧ same_state c' c ∧ Resources c' = environment.mkResource 0 0 0 false 0.

Lemma save_kept c st d w st' d' w' : rows_whole d → save manager c (st, (d, w)) = (None, (st', (d', w'))) →
  restored d' c.
Proof.
  intros Hd (u & sw1 & Hp%modify_inv & Hk)%mthen_inv. subst sw1. apply outside_inv in Hk as [Hk _].
  split; [exact (pg_SaveComputer_whole c _ _ _ Hk Hd)|].
  apply pg_SaveComputer_inv in Hk as (HDB & _ & _ & Hd'). cbn [fst snd] in Hd'. rewrite Hd'.
  destruct (put_computer_read c d Hd) as (r & Hr & Hsame & Hres). exists (read_row r). split; [|done].
  intros w1. unfold get, mthen, look, inside, outside. cbn [fst snd NewManager computers Manager_Store manager]. rewrite lookup_empty.
  cbn [Store_Get pg_computers]. unfold pg_GetComputer, pg.with_db, look, inside. rewrite HDB. cbn [fst snd]. by rewrite Hr.
Qed.
Lemma publish_tables c op typ msg st d w u st' d' w' :
  publish manager c op typ msg (st, (d, w)) = (u, (st', (d', w'))) → d' = d.
Proof.
  unfold publish. cbn [Events manager Now]. destruct events; [|by intros [_ [= _ <- _]]%mret_inv].
  intros (n & [d1 w1] & [_ Hd]%outside_inv & Hk%modify_inv)%outside_then. cbn in *. congruence.
Qed.

(** Saving and publishing end every operation that succeeds. *)
Lemma saved_kept c op event msg sd out st' d' w' : rows_whole sd.2.1 →
  (let! err := save manager c in
   match err with
   | Some e => mret (zero_Computer, Some e)
   | None => let! _ := publish manager c op event msg in mret (c, None)
   end) sd = ((out, None), (st', (d', w'))) →
  restored d' out.
Proof.
  destruct sd as [st [d w]]. intros Hd (err & [st1 [d1 w1]] & Hsave & Hk)%mthen_inv.
  destruct err; [by apply mret_inv in Hk as [[=] _]|].
  apply mthen_inv in Hk as (u & [st2 [d2 w2]] & Hpub & Hk). apply mret_inv in Hk as [[= <-] [= _ <- _]].
  apply publish_tables in Hpub as ->. by apply (save_kept c) in Hsave.
Qed.
Lemma fail_fails c op err sd out sd' : fail manager c op err sd = (out, sd') → out.2 = Some err.
Proof.
  unfold fail. intros (n & sd1 & _ & Hk)%mthen_inv. apply mthen_inv in Hk as (? & sd2 & _ & Hk).
  apply mthen_inv in Hk as (? & sd3 & _ & Hk). by apply mret_inv in Hk as [<- _].
Qed.
Lemma get_tables id st dw out sd' : get manager id (st, dw) = (out, sd') → sd' = (st, dw).
Proof.
  unfold get. intros (found & sd & [-> ->]%look_inv & Hk)%mthen_inv. cbn [fst] in Hk.
  destruct (computers st !! id); [by apply mret_inv in Hk as [_ <-]|]. cbn [Manager_Store manager] in Hk.
  apply outside_inv in Hk as [Hk Hs]. destruct sd' as [st' dw']. cbn [fst snd] in *. subst st'.
  cbn [Store_Get pg_computers] in Hk. unfold pg_GetComputer in Hk.
  by apply with_db_inv in Hk as [[e [= _ ->]]|[_ [_ ->]%look_inv]].
Qed.
Lemma transition_kept id op action success event st d w c st' d' w' : rows_whole d →
  (∀ q c dw err dw', action (beside q) c dw = (err, dw') → dw'.1 = dw.1) →
  transition manager id op action success event (st, (d, w)) = ((c, None), (st', (d', w'))) → restored d' c.
Proof.
  intros Hd Ha ([c0 err] & sd1 & ->%get_tables & Hk)%mthen_inv.
  destruct err; [by apply mret_inv in Hk as [[=] _]|]. case_decide; [by apply mret_inv in Hk as [[=] _]|].
  cbn [Provider manager] in Hk. destruct p as [q|]; cbn [fmap option_fmap option_map] in Hk; [|by apply fail_fails in Hk].
  apply mthen_inv in Hk as (err & sd2 & [Hact%Ha Hs]%outside_inv & Hk).
  destruct err; [by apply fail_fails in Hk|].
  apply mthen_inv in Hk as (n & sd3 & [Hn _]%outside_inv & Hk). apply outside_inv in Hn as [_ Hn].
  apply saved_kept in Hk; [done|]. by rewrite Hn, Hact.
Qed.
Lemma check_all_tables q c caps dw checks dw' :
  check_all manager (beside q) c caps dw = (checks, dw') → dw'.1 = dw.1.
Proof.
  revert dw checks dw'. induction caps as [|cap caps IH]; intros dw checks dw'; cbn [check_all].
  { by intros [_ <-]%mret_inv. }
  intros ([status ev] & dw1 & Hc & Hk)%mthen_inv. apply mthen_inv in Hk as (n & dw2 & [_ Hn]%outside_inv & Hk).
  apply mthen_inv in Hk as (rest & dw3 & Hr%IH & Hk). apply mret_inv in Hk as [_ <-]. rewrite Hr, Hn.
  unfold check in Hc. destruct (probe cap); [|by apply mret_inv in Hc as [_ <-]].
  apply mthen_inv in Hc as ([out err] & dw4 & [_ Hx]%outside_inv & Hk). apply mret_inv in Hk as [_ <-]. exact Hx.
Qed.

(** What an operation on a computer that succeeds makes of it is there after a restart of
    the server: a manager with nothing in memory reads from the tables a computer with the
    same runtime, status, readiness, capabilities and metadata - but without the resources
    it was created with: the column holds the whole computer, in which the reader finds none. *)
Theorem computer_restored op id caps st d w c st' d' w' :
  rows_whole d →
  op ∈ [Start manager; Stop manager; Restart manager; Destroy manager; λ id, Verify manager id caps] →
  op id (st, (d, w)) = ((c, None), (st', (d', w'))) →
  rows_whole d' ∧ ∃ c', read_again d' c c' ∧ same_state c' c ∧ Resources c' = environment.mkResource 0 0 0 false 0.
Proof.
  intros Hd Hop. rewrite !elem_of_cons, elem_of_nil in Hop. destruct Hop as [->|[->|[->|[->|[->|[]]]]]].
  - apply transition_kept; [done|]. intros q c0 dw err dw'. case_decide; [by intros [_ <-]%mret_inv|by intros [_ Hx]%outside_inv].
  - apply transition_kept; [done|]. by intros q c0 dw err dw' [_ Hx]%outside_inv.
  - apply transition_kept; [done|]. by intros q c0 dw err dw' [_ Hx]%outside_inv.
  - apply transition_kept; [done|]. by intros q c0 dw err dw' [_ Hx]%outside_inv.
  - intros ([c0 err] & sd1 & ->%get_tables & Hk)%mthen_inv.
    destruct err; [by apply mret_inv in Hk as [[=] _]|].
    cbn [Provider manager] in Hk. destruct p as [q|]; cbn [fmap option_fmap option_map] in Hk; [|by apply fail_fails in Hk].
    apply mthen_inv in Hk as (checks & sd2 & [Hch%check_all_tables _]%outside_inv & Hk).
    apply mthen_inv in Hk as (n & sd3 & [Hn _]%outside_inv & Hk). apply outside_inv in Hn as [_ Hn].
    apply saved_kept in Hk; [done|]. by rewrite Hn, Hch.
Qed.

(** A computer is created without capabilities, which the driver writes as NULL: with the
    database every creation fails, whatever the runtime did, and no row names it. *)
Lemma save_refused c sd err sd' : nil_is_null = true → Capabilities c = [] →
  save manager c sd = (err, sd') → err ≠ None ∧ sd'.2.1 = sd.2.1.
Proof.
  intros Hnil Hc (u & sd1 & ->%modify_inv & Hk)%mthen_inv. apply outside_inv in Hk as [Hk _].
  cbn [Manager_Store manager Store_Save pg_computers fst snd] in Hk. destruct sd as [st [d w]], sd' as [st' [d' w']].
  unfold pg_SaveComputer in Hk. apply with_db_inv in Hk as [[e [= -> -> ->]]|[_ Hk]]; [done|].
  apply execute_inv in Hk as (_ & [(Ha & _)|(_ & -> & ->)]); [|done].
  unfold computer_allowed, capabilities_null in Ha. by rewrite Hnil, Hc, bool_decide_true in Ha.
Qed.
Lemma unsaved_published (c c' : ProjectComputer) op event msg (e : goerror) sd out sd' : nil_is_null = true → Capabilities c = [] →
  (let! _ := save manager c in let! _ := publish manager c op event msg in mret (c', Some e)) sd = (out, sd') →
  out.2 ≠ None ∧ sd'.2.1 = sd.2.1.
Proof.
  intros Hnil Hc (err & [st1 [d1 w1]] & [_ Hd]%save_refused & Hk)%mthen_inv; [|done..].
  apply mthen_inv in Hk as (u & [st2 [d2 w2]] & ->%publish_tables & Hk). by apply mret_inv in Hk as [<- <-].
Qed.
Theorem creation_never_succeeds project manifest available sd out sd' :
  nil_is_null = true → Create manager project manifest available sd = (out, sd') → out.2 ≠ None ∧ sd'.2.1 = sd.2.1.
Proof.
  intros Hnil. destruct sd as [st [d w]]. unfold Create. destruct (_ || _); [by intros [<- <-]%mret_inv|].
  destruct (checkResources _ _); [by intros [<- <-]%mret_inv|].
  intros (n & [d1 w1] & [_ Hd1]%outside_inv & Hk)%outside_then. cbn [fst snd] in *. subst d1.
  cbn [Provider manager] in Hk. destruct p as [q|]; cbn [fmap option_fmap option_map] in Hk.
  2: by apply unsaved_published in Hk.
  apply outside_then in Hk as ([rt err] & [d2 w2] & [_ Hd2]%outside_inv & Hk). cbn [fst snd] in *. subst d2.
  destruct err as [e|]; [by apply unsaved_published in Hk|].
  apply mthen_inv in Hk as (err & sd2 & [Herr Hd2]%save_refused & Hk); [|done..].
  destruct err; [|done]. apply mret_inv in Hk as [<- <-]. by cbn [fst snd] in Hd2.
Qed.
End kept.

(** ** Witnesses *)

#[local] Instance example_database : Database := { violation := ErrorString "violates"; collate := String.ltb }.
Definition example_manager : Manager (computer_db * unit) :=
  manager true true (Some (runtime.answering runtime.zero_ExecResult)) true (mret 3000).
Definition example_computer : ProjectComputer :=
  mkComputer "pc" "shop" "answering" "rt" "ubuntu" "24.04" Stopped (environment.mkResource 2 4096 8192 false 0) "" []
    [mkCheck Git Supported "" 1000] 1000 1000 ∅.
Definition example_tables : computer_db :=
  put_computer example_computer (mkComputerDB {["shop"; "p"]} ∅ ∅).

Lemma computer_restored_witness :
  let d' := (Start example_manager "pc" (NewManager, (example_tables, tt))).2.2.1 in
  (Computer_Status (get example_manager "pc" (NewManager, (d', tt))).1.1 = Ready) ∧
  environment.CPU (Resources (get example_manager "pc" (NewManager, (d', tt))).1.1) = 0.
Proof.
  intros d'. assert (let c := (Start example_manager "pc" (NewManager, (example_tables, tt))).1 in
    (c.2, ID c.1, Computer_Status c.1) = (None, "pc", Ready)) as Hc by (vm_compute; reflexivity).
  destruct (Start example_manager "pc" (NewManager, (example_tables, tt))) as [[c err] [st1 [d1 []]]] eqn:E.
  cbn [fst snd] in Hc. injection Hc as -> Hid Hs.
  destruct (computer_restored true true (Some (runtime.answering runtime.zero_ExecResult)) true (mret 3000)
    (Start example_manager) "pc" [] NewManager example_tables tt c st1 d1 tt) as (_ & c' & Hread & Hsame & Hres).
  - apply put_computer_whole. apply map_Forall_empty.
  - left.
  - exact E.
  - unfold read_again in Hread. rewrite Hid in Hread. subst d'. cbn [fst snd].
    unfold example_manager. rewrite (Hread tt). cbn [fst]. rewrite Hres, (same_status _ _ Hsame). done.
Defined.

(** What happens to the first computer of a project: the runtime is made, the answer is an
    error, and no row has the computer. *)
Lemma creation_never_succeeds_witness :
  (Create example_manager "p" example_manifest (mkSnapshot 2 4096 8192 false 0 true)
     (NewManager, (example_tables, tt))).1.2 ≠ None.
Proof.
  destruct (Create example_manager "p" example_manifest (mkSnapshot 2 4096 8192 false 0 true)
     (NewManager, (example_tables, tt))) as [out sd] eqn:E.
  exact (proj1 (creation_never_succeeds true true _ true _ _ _ _ _ _ _ eq_refl E)).
Defined.
End computerstore.
