(* ===== verification/HttpComputers.v ===== *)
(** * The handlers of project computers, tools and the cache

    [src/internal/httpapi/infrastructure.go], over the manager of [ProjectComputer.v], with
    the store of [ComputerStore.v] where the tables matter, and the registry, the cache and the resolver of [SharedInfra.v]. *)

From stdpp Require Import relations strings.
From S2P Require Import Prelude GoStrings World Runtime Float ProjIntel Environment PgBase ProjectComputer ComputerStore SharedInfra Auth HttpApi HttpBase.
Import crypto auth httpapi httpbase.

(** ** Project computers *)

Module httpcomputers.
Import projectcomputer computerstore pg.

Definition ErrNoComputers : string := "project computer service unavailable".

Section computers.
Context `{MapOrder} {W : Type} `{World W} `{Sha256}.
Variable AuthOf : option (AuthService W).
Variable ProjectComputers : option (Manager W).
Notation C A := (M (mstate * W) A).
Notation reply A := (C (Response (Z * A))).
Notation permitted := (permitted AuthOf).

(** A computer, next to the error that goes with it. *)
Definition outcome : Type := ProjectComputer * option string.
Definition conflict_or (code conflict : Z) (answer : ProjectComputer * option goerror) : reply outcome :=
  match answer with
  | (c, Some e) => writeJSON conflict (c, Some (error_text e))
  | (c, None) => writeJSON code (c, None)
  end.

(* src: internal/httpapi/infrastructure.go:16-34 (listProjectComputers) *)
Definition listProjectComputers (r : Request) (project_id : string) : reply (list ProjectComputer) :=
  available ProjectComputers ErrNoComputers (λ m,
    if decide (project_id = "") then writeError 400 (ErrorString "project_id is required")
    else
      permitted r project_id PermissionRead (
        let! (items, err) := List m project_id in
        match err with Some e => writeError 500 e | None => writeJSON 200 items end)).

(** What is assumed of the host when a request names no resources. *)
Definition default_available : ResourceSnapshot :=
  mkSnapshot 2 (4 * 2 ^ 30) (20 * 2 ^ 30) false 0 true.

(* src: internal/httpapi/infrastructure.go:35-65 (createProjectComputer) *)
Definition createProjectComputer (r : Request)
    (input : result (string * environment.Manifest * ResourceSnapshot)) : reply outcome :=
  available ProjectComputers ErrNoComputers (λ m,
    decoded input (λ '(project_id, manifest, free),
      permitted r project_id PermissionEdit (
        let free := if CPU free =? 0 then default_available else free in
        let! (computer, err) := Create m project_id manifest free in
        let conflict := match err with
          | Some e => if strings.Contains (error_text e) "INSUFFICIENT_RESOURCES" then 422 else 409
          | None => 409
          end in
        conflict_or 201 conflict (computer, err)))).

(** The computer of the path, for a caller who has the permission in its project. *)
Definition with_computer {A} (r : Request) (permission : ProjectPermission)
    (k : Manager W → ProjectComputer → reply A) : reply A :=
  available ProjectComputers ErrNoComputers (λ m,
    let! (c, err) := Get m (PathValue r "id") in
    match err with
    | Some e => writeError 404 e
    | None => permitted r (ProjectID c) permission (k m c)
    end).

(* src: internal/httpapi/infrastructure.go:66-80 (getProjectComputer) *)
Definition getProjectComputer (r : Request) : reply ProjectComputer :=
  with_computer r PermissionRead (λ _ c, writeJSON 200 c).

(* src: internal/httpapi/infrastructure.go:101-120 (lifecycleComputer) *)
Definition lifecycleComputer (r : Request) (permission : ProjectPermission)
    (fn : Manager W → string → C (ProjectComputer * option goerror)) : reply outcome :=
  with_computer r permission (λ m _,
    let! answer := fn m (PathValue r "id") in conflict_or 200 409 answer).

(* src: internal/httpapi/infrastructure.go:81-85 (startProjectComputer) *)
Definition startProjectComputer (r : Request) : reply outcome :=
  lifecycleComputer r PermissionRun Start.
(* src: internal/httpapi/infrastructure.go:86-90 (stopProjectComputer) *)
Definition stopProjectComputer (r : Request) : reply outcome :=
  lifecycleComputer r PermissionRun Stop.
(* src: internal/httpapi/infrastructure.go:91-95 (restartProjectComputer) *)
Definition restartProjectComputer (r : Request) : reply outcome :=
  lifecycleComputer r PermissionRun Restart.
(* src: internal/httpapi/infrastructure.go:96-100 (destroyProjectComputer) *)
Definition destroyProjectComputer (r : Request) : reply outcome :=
  lifecycleComputer r PermissionEdit Destroy.

Definition default_capabilities (more caps : list Capability) : list Capability :=
  if decide (caps = []) then [Filesystem; Process; Git] ++ more else caps.

(* src: internal/httpapi/infrastructure.go:121-147 (verifyProjectComputer) *)
Definition verifyProjectComputer (r : Request) (capabilities : list Capability) : reply outcome :=
  with_computer r PermissionRun (λ m _,
    let! answer := Verify m (PathValue r "id") (default_capabilities [] capabilities) in
    conflict_or 200 409 answer).

(* src: internal/httpapi/infrastructure.go:148-167 (rebuildProjectComputer) *)
Definition rebuildProjectComputer (r : Request) : reply (string * string) :=
  with_computer r PermissionEdit (λ m _,
    let! (_, err) := Destroy m (PathValue r "id") in
    match err with
    | Some e => writeError 409 e
    | None => writeJSON 202 ("REBUILD_REQUIRES_MANIFEST", PathValue r "id")
    end).

(** The two environment endpoints name the computer in the body. *)
Definition verify_named (code : Z) (more : list Capability) (input : result (string * list Capability))
    : reply outcome :=
  available ProjectComputers ErrNoComputers (λ m,
    decoded input (λ '(computer_id, capabilities),
      if decide (computer_id = "") then writeError 400 (ErrorString "computer_id is required")
      else
        let! answer := Verify m computer_id (default_capabilities more capabilities) in
        conflict_or code 409 answer)).
(* src: internal/httpapi/infrastructure.go:231-257 (verifyProjectEnvironment) *)
Definition verifyProjectEnvironment (input : result (string * list Capability)) : reply outcome :=
  verify_named 200 [Browser] input.
(* src: internal/httpapi/infrastructure.go:259-285 (repairProjectEnvironment) *)
Definition repairProjectEnvironment (input : result (string * list Capability)) : reply outcome :=
  verify_named 202 [] input.

(** A computer is made only for a caller who may edit the project it is made for. *)
Lemma create_guarded r input st w resp st' w' :
  createProjectComputer r input (st, w) = (resp, (st', w')) → st' ≠ st →
  ∃ project manifest free w1, input = Ok (project, manifest, free) ∧
    passes AuthOf r project PermissionEdit w w1.
Proof.
  unfold createProjectComputer, available.
  destruct ProjectComputers as [m|]; [|by intros [_ [= <- _]]%mret_inv].
  destruct input as [[[project manifest] free]|e]; [|by intros [_ [= <- _]]%mret_inv].
  intros [|(w1 & Hp & _)]%permitted_cases Hne; [done|]. by exists project, manifest, free, w1.
Qed.
End computers.

(** ** Who changes a computer

    On the server as it is wired: the manager keeps the computers in memory in front of
    their tables, its provider and its clock and the check of permissions are beside both. *)

(** The accounts, next to the tables of computers. *)
Definition sessions_beside {S W} (r : SessionRepository W) : SessionRepository (S * W) :=
  mkRepository (λ s t, outside (CreateSession r s t)) (λ t n, outside (FindActiveSession r t n))
    (λ s n, outside (TouchSession r s n)) (λ s n, outside (RevokeSession r s n))
    (λ s n, outside (RevokeAllUserSessions r s n)) (λ n, outside (DeleteExpiredSessions r n)).
Definition auth_beside {S W} (s : AuthService W) : AuthService (S * W) :=
  mkAuth ((λ find id, outside (find id)) <$> FindByID s)
    (mkSessions (sessions_beside <$> Repository (Sessions s)) (outside <$> Sessions_Now (Sessions s))
       (TTL (Sessions s)))
    ((λ get project user, outside (get project user)) <$> GetMembership s).

Lemma check_beside {S W A} (AuthOf : option (AuthService W)) r project permission (s : S) w x s' w' :
  requireProjectPermission (A := A) (auth_beside <$> AuthOf) r project permission (s, w) = (x, (s', w')) →
  s' = s ∧ requireProjectPermission (A := A) AuthOf r project permission w = (x, w').
Proof.
  unfold requireProjectPermission.
  destruct (Principal r) as [pr|], AuthOf as [a|]; cbn [fmap option_fmap option_map];
    [|by intros [= <- <- <-]..].
  intros (err & [s1 w1] & Hr & Hk)%mthen_inv. apply mret_inv in Hk as [<- [= <- <-]].
  enough (s1 = s ∧ RequireProjectAccess a (Principal_User pr) project permission w = (err, w1)) as [-> Hra].
  { split; [done|]. unfold mthen. by rewrite Hra. }
  unfold RequireProjectAccess in *. destruct (_ || _); [by apply mret_inv in Hr as [<- [= <- <-]]|].
  cbn [auth_beside GetMembership] in Hr.
  destruct (GetMembership a) as [get|]; cbn [fmap option_fmap option_map] in Hr;
    [|by apply mret_inv in Hr as [<- [= <- <-]]].
  apply outside_then in Hr as (m & w2 & Hg & Hr). apply mret_inv in Hr as [<- [= <- <-]].
  split; [done|]. unfold mthen. by rewrite Hg.
Qed.

(** The endpoints of a computer, with the permission each asks for. *)
Inductive computer_endpoint {W} (AuthOf : option (AuthService W)) (m : option (Manager W))
    (r : Request) (caps : list Capability)
    : ∀ {A}, ProjectPermission → M (mstate * W) (Response (Z * A)) → Prop :=
  | endpoint_get :
      computer_endpoint AuthOf m r caps PermissionRead (getProjectComputer AuthOf m r)
  | endpoint_start :
      computer_endpoint AuthOf m r caps PermissionRun (startProjectComputer AuthOf m r)
  | endpoint_stop :
      computer_endpoint AuthOf m r caps PermissionRun (stopProjectComputer AuthOf m r)
  | endpoint_restart :
      computer_endpoint AuthOf m r caps PermissionRun (restartProjectComputer AuthOf m r)
  | endpoint_destroy :
      computer_endpoint AuthOf m r caps PermissionEdit (destroyProjectComputer AuthOf m r)
  | endpoint_verify :
      computer_endpoint AuthOf m r caps PermissionRun (verifyProjectComputer AuthOf m r caps)
  | endpoint_rebuild :
      computer_endpoint AuthOf m r caps PermissionEdit (rebuildProjectComputer AuthOf m r).

Section wired.
Context `{Database} {W : Type}.
Variables (DB nil_is_null : bool) (p : option (runtime.Provider W)) (events : bool) (now : M W Z).
Notation m := (computerstore.manager DB nil_is_null p events now).
Notation S := (mstate * (computer_db * W))%type.

(** One call of the clock, or of the provider about one runtime. *)
Inductive runtime_call (rid : string) (w w' : W) : Prop :=
  | call_clock t : now w = (t, w') → runtime_call rid w w'
  | call_start q e : p = Some q → runtime.Start q rid w = (e, w') → runtime_call rid w w'
  | call_stop q e : p = Some q → runtime.Stop q rid w = (e, w') → runtime_call rid w w'
  | call_restart q e : p = Some q → runtime.Restart q rid w = (e, w') → runtime_call rid w w'
  | call_destroy q e : p = Some q → runtime.Destroy q rid w = (e, w') → runtime_call rid w w'
  | call_exec q limit cmd x : p = Some q → runtime.Exec q limit rid cmd w = (x, w') → runtime_call rid w w'.

(** Computers are filed under their identifiers, in memory and in the tables. *)
Definition filed (s : S) : Prop :=
  map_Forall (λ id c, ID c = id) (computers s.1) ∧
  map_Forall (λ id r, ID (Row r) = id) (project_computers s.2.1).

(** What happens concerns one computer and its runtime: no other computer in memory, no
    other row changes, the events are about the computer, and the provider is called about
    the runtime only. *)
Record touches (id rid : string) (s s' : S) : Prop := mkTouches {
  touch_filed : filed s → filed s';
  touch_memory : ∀ id', id' ≠ id → computers s'.1 !! id' = computers s.1 !! id';
  touch_events : ∃ l, published s'.1 = published s.1 ++ l ∧ Forall (λ e, ComputerID e = id) l;
  touch_rows : ∀ id', id' ≠ id → project_computers s'.2.1 !! id' = project_computers s.2.1 !! id';
  touch_projects : projects s'.2.1 = projects s.2.1;
  touch_operations : computer_operations s'.2.1 = computer_operations s.2.1;
  touch_runtime : rtc (runtime_call rid) s.2.2 s'.2.2
}.
#[local] Instance touches_preorder id rid : PreOrder (touches id rid).
Proof.
  split.
  - intros s. split; try done. exists []. by rewrite app_nil_r.
  - intros s1 s2 s3 [F1 M1 (l1 & E1 & L1) R1 P1 O1 C1] [F2 M2 (l2 & E2 & L2) R2 P2 O2 C2].
    split; [by auto| | | |congruence..|by etrans].
    + intros id' Hne. by rewrite M2, M1.
    + exists (l1 ++ l2). rewrite E2, E1, (assoc_L (++)). split; [done|by apply Forall_app].
    + intros id' Hne. by rewrite R2, R1.
Qed.

(** A computation all of whose runs are so. *)
Definition confined {A} (id rid : string) (c : M S A) : Prop :=
  ∀ s a s', c s = (a, s') → touches id rid s s'.

Lemma confined_mret {A} id rid (a : A) : confined id rid (mret a).
Proof. by intros s b s' [_ <-]%mret_inv. Qed.
Lemma confined_mthen {A B} id rid (c : M S A) (k : A → M S B) :
  confined id rid c → (∀ a, confined id rid (k a)) → confined id rid (mthen c k).
Proof. intros Hc Hk s b s' (a & s1 & H1 & H2)%mthen_inv. etrans; [by eapply Hc|by eapply Hk]. Qed.

(** A call of the world. *)
Lemma confined_call {A} id rid (c : M W A) :
  (∀ w a w', c w = (a, w') → rtc (runtime_call rid) w w') → confined id rid (outside (outside c)).
Proof.
  intros Hc [st [d w]] a [st' [d' w']] [[Hw Hd]%outside_inv Hs]%outside_inv. cbn in *. subst st' d'.
  split; try done; [exists []; by rewrite app_nil_r|]. by eapply Hc.
Qed.
Lemma confined_now id rid : confined id rid (outside (Now m)).
Proof. apply confined_call. intros w t w' Hw. apply rtc_once. by eapply call_clock. Qed.

Lemma confined_save id rid c : ID c = id → confined id rid (save m c).
Proof.
  intros <- s err s' (u & s1 & Hp%modify_inv & Hk)%mthen_inv. subst s1.
  cbn [Manager_Store computerstore.manager] in Hk.
  destruct s as [st [d w]], s' as [st' [d' w']]. apply outside_inv in Hk as [Hk Hs]. cbn in Hk, Hs. subst st'.
  unfold pg_SaveComputer in Hk.
  assert (w' = w ∧ (d' = d ∨ d' = put_computer c d)) as [-> Hd].
  { apply pg.with_db_inv in Hk as [[e [= _ -> ->]]|[_ Hk]]; [by auto|].
    apply pg.execute_inv in Hk as (-> & [(_ & _ & ->)|(_ & _ & ->)]); auto. }
  split; cbn.
  - intros [Hm Hr]. split; cbn in *; [by apply map_Forall_insert_2|].
    destruct Hd as [->| ->]; [done|]. apply map_Forall_insert_2; [|done].
    destruct (project_computers d !! ID c) as [x|] eqn:E; [exact (Hr _ _ E)|done].
  - intros id' Hne. by rewrite lookup_insert_ne.
  - exists []. by rewrite app_nil_r.
  - intros id' Hne. destruct Hd as [->| ->]; [done|]. cbn. by rewrite lookup_insert_ne.
  - by destruct Hd as [->| ->].
  - by destruct Hd as [->| ->].
  - done.
Qed.
Lemma confined_publish id rid c op typ msg : ID c = id → confined id rid (publish m c op typ msg).
Proof.
  intros Hid. unfold publish. destruct (Events m); [|apply confined_mret].
  apply confined_mthen; [apply confined_now|]. intros t s u s' ->%modify_inv.
  split; try done. eexists. split; [done|]. by repeat constructor.
Qed.

(** The cases of a computation on a computer with the identifier [id] and the runtime [rid]. *)
Ltac confine :=
  repeat first
    [ apply confined_mret | apply confined_now
    | apply confined_save; done | apply confined_publish; done
    | apply confined_mthen | progress intros
    | match goal with |- confined _ _ (match ?x with _ => _ end) => destruct x end ].

Lemma confined_fail id rid c op err : ID c = id → confined id rid (fail m c op err).
Proof. intros Hid. unfold fail. confine. Qed.

(** *** The computer an operation finds *)

(** In memory, or else in the tables. *)
Definition found (st : mstate) (d : computer_db) (id : string) (c : ProjectComputer) : Prop :=
  computers st !! id = Some c ∨
  computers st !! id = None ∧ DB = true ∧
    ∃ row, project_computers d !! id = Some row ∧ c = read_row row.

Lemma get_found id st d w c s' :
  get m id (st, (d, w)) = ((c, None), s') → found st d id c.
Proof.
  unfold get. intros (o & sd & [-> ->]%look_inv & Hk)%mthen_inv. cbn [fst] in Hk.
  destruct (computers st !! id) as [x|] eqn:E; [left; by apply mret_inv in Hk as [[= ->] _]|right].
  split; [done|]. cbn [Manager_Store computerstore.manager] in Hk.
  apply outside_inv in Hk as [Hk _]. cbn [Store_Get pg_computers fst snd] in Hk. unfold pg_GetComputer in Hk.
  apply pg.with_db_inv in Hk as [[e [=]]|[Hdb [Hk _]%look_inv]]. split; [done|].
  cbn [fst] in Hk. destruct (project_computers d !! id) as [row|]; [|done]. exists row. by injection Hk as ->.
Qed.
Lemma found_id st d w id c : filed (st, (d, w)) → found st d id c → ID c = id.
Proof.
  intros [Hm Hr] [Hc|(_ & _ & row & Hrow & ->)]; [by apply Hm in Hc|]. by apply Hr in Hrow.
Qed.
(** The answer is the same whatever happened in the world meanwhile. *)
Lemma get_again id st d w w1 out :
  get m id (st, (d, w)) = (out, (st, (d, w))) → get m id (st, (d, w1)) = (out, (st, (d, w1))).
Proof.
  unfold get, mthen, look, inside, outside. cbn. destruct (computers st !! id); [by intros [= <-]|].
  unfold pg_GetComputer, pg.with_db, look, inside, mret. destruct DB; cbn; by intros [= <-].
Qed.

(** The operations, from a state in which they find the computer [c]. *)
Definition confined_from {A} (id : string) (c : ProjectComputer) (s : S) (op : M S A) : Prop :=
  ∀ a s', op s = (a, s') → touches id (RuntimeID c) s s'.

Lemma from_get {A} id c s (k : ProjectComputer * option goerror → M S A) :
  get m id s = ((c, None), s) → confined id (RuntimeID c) (k (c, None)) →
  confined_from id c s (mthen (get m id) k).
Proof.
  intros Hg Hk a s' (o & s1 & Hg1 & Hrun)%mthen_inv. rewrite Hg in Hg1. injection Hg1 as <- <-. by eapply Hk.
Qed.
Lemma transition_confined id op action success event c s :
  get m id s = ((c, None), s) → ID c = id →
  (∀ q, p = Some q → confined (A := option goerror) id (RuntimeID c) (outside (action (beside q) c))) →
  confined_from id c s (transition m id op action success event).
Proof.
  intros Hg Hid Ha. apply from_get; [done|]. case_decide; [apply confined_mret|].
  cbn [Provider computerstore.manager]. destruct p as [q|] eqn:Hp; cbn [fmap option_fmap option_map].
  - apply confined_mthen; [by apply Ha|]. intros [e|]; [by apply confined_fail|]. confine.
  - by apply confined_fail.
Qed.
Lemma check_all_calls q c caps w checks dw d :
  p = Some q → check_all m (beside q) c caps (d, w) = (checks, dw) →
  dw.1 = d ∧ rtc (runtime_call (RuntimeID c)) w dw.2.
Proof.
  intros Hp. revert w checks dw. induction caps as [|cap caps IH]; intros w checks dw; cbn [check_all].
  { by intros [_ <-]%mret_inv. }
  intros ([status ev] & [d1 w1] & Hc & Hk)%mthen_inv.
  apply mthen_inv in Hk as (n & [d2 w2] & [Hn Hd]%outside_inv & Hk). cbn in Hn, Hd. subst d2.
  apply mthen_inv in Hk as (rest & dw3 & Hr & Hk). apply mret_inv in Hk as [_ <-].
  assert (d1 = d ∧ rtc (runtime_call (RuntimeID c)) w w1) as [-> Hw].
  { unfold check in Hc. destruct (probe cap); [|by apply mret_inv in Hc as [_ [= <- <-]]].
    apply mthen_inv in Hc as ([out err] & [d4 w4] & [Hx Hd]%outside_inv & Hk). apply mret_inv in Hk as [_ [= <- <-]].
    cbn in Hx, Hd. subst d4. split; [done|]. apply rtc_once. by eapply call_exec. }
  apply IH in Hr as [-> Hr]. split; [done|]. etrans; [exact Hw|].
  eapply rtc_l; [|exact Hr]. by eapply call_clock.
Qed.
Lemma Verify_confined id caps c s :
  get m id s = ((c, None), s) → ID c = id → confined_from id c s (Verify m id caps).
Proof.
  intros Hg Hid. apply from_get; [done|].
  cbn [Provider computerstore.manager]. destruct p as [q|] eqn:Hp; cbn [fmap option_fmap option_map];
    [|by apply confined_fail].
  apply confined_mthen; [|intros checks; confine].
  intros [st [d w]] a [st' dw'] [Hc Hs]%outside_inv. cbn [fst snd] in *. subst st'.
  apply check_all_calls in Hc as [Hd Hw]; [|exact Hp]. destruct dw' as [d' w']. cbn in *. subst d'.
  split; try done. exists []. by rewrite app_nil_r.
Qed.
Variable AuthOf : option (AuthService W).
Notation auth := (auth_beside <$> AuthOf).

Lemma from_then {A B} id c s (op : M S A) (k : A → M S B) :
  confined_from id c s op → (∀ a, confined id (RuntimeID c) (k a)) → confined_from id c s (mthen op k).
Proof. intros Hop Hk b s' (a & s1 & H1%Hop & H2%Hk)%mthen_inv. by etrans. Qed.
Lemma conflict_confined id rid code conflict answer : confined id rid (conflict_or (W := computer_db * W) code conflict answer).
Proof. destruct answer as [c [e|]]; apply confined_mret. Qed.

(** Each endpoint is [with_computer], around something that is confined. *)
Lemma endpoint_inv r caps A permission (op : M S (Response (Z * A))) :
  computer_endpoint auth (Some m) r caps permission op →
  ∃ k, op = with_computer auth (Some m) r permission k ∧
    ∀ c s, get m (PathValue r "id") s = ((c, None), s) → ID c = PathValue r "id" →
      confined_from (PathValue r "id") c s (k m c).
Proof.
  assert (∀ id rid (q : runtime.Provider W) (call : M W (option goerror)),
    (∀ w e w', call w = (e, w') → runtime_call rid w w') →
    confined id rid (outside (S := mstate) (outside (S := computer_db) call))) as Hcall.
  { intros id rid q call Hc. apply confined_call. intros w e w' Hw. by eapply rtc_once, Hc. }
  intros []; (eexists; split; [reflexivity|]); cbv beta; intros c s Hg Hid.
  - intros a s' [_ <-]%mret_inv. reflexivity.
  - apply from_then; [|intros; apply conflict_confined]. apply transition_confined; [done|done|].
    intros q Hq. case_decide; [intros s1 a s2 [[_ H2]%mret_inv Hs]%outside_inv|apply (Hcall _ _ q)].
    + destruct s1, s2; cbn in *; subst; reflexivity.
    + intros. by eapply call_start.
  - apply from_then; [|intros; apply conflict_confined]. apply transition_confined; [done|done|].
    intros q Hq. apply (Hcall _ _ q). intros. by eapply call_stop.
  - apply from_then; [|intros; apply conflict_confined]. apply transition_confined; [done|done|].
    intros q Hq. apply (Hcall _ _ q). intros. by eapply call_restart.
  - apply from_then; [|intros; apply conflict_confined]. apply transition_confined; [done|done|].
    intros q Hq. apply (Hcall _ _ q). intros. by eapply call_destroy.
  - apply from_then; [|intros; apply conflict_confined]. by apply Verify_confined.
  - apply from_then; [|intros [x [e|]]; apply confined_mret]. apply transition_confined; [done|done|].
    intros q Hq. apply (Hcall _ _ q). intros. by eapply call_destroy.
Qed.

(** C40: who changes a project computer.  An endpoint of a computer finds the computer of
    its path in memory or else in the tables (so also after a restart).  Either it changes
    neither memory nor tables, and at most the check of the permission was made; or the
    check let the caller pass for the project the computer belongs to (to run it for
    starting, stopping, restarting and verifying it, to edit it for destroying and
    rebuilding it, to read it for reading it), and then no other computer in memory and no
    other row is changed, the events are about that computer, and the runtime provider is
    called about that computer's runtime only.  Computers are filed under their identifiers
    in memory and in the tables, and stay so.  (The two environment endpoints, which name a
    computer in their body, are not among these: they check nothing.) *)
Theorem computers_guarded r caps A permission (op : M S (Response (Z * A))) st d w resp st' d' w' :
  computer_endpoint auth (Some m) r caps permission op →
  filed (st, (d, w)) →
  op (st, (d, w)) = (resp, (st', (d', w'))) →
  (st' = st ∧ d' = d ∧
    (w' = w ∨ ∃ c denied, found st d (PathValue r "id") c ∧
       requireProjectPermission (A := Z * A) AuthOf r (ProjectID c) permission w = (Some denied, w'))) ∨
  (∃ c w1, found st d (PathValue r "id") c ∧ passes AuthOf r (ProjectID c) permission w w1 ∧
    touches (PathValue r "id") (RuntimeID c) (st, (d, w1)) (st', (d', w'))).
Proof.
  intros (k & -> & Hk)%endpoint_inv Hf. unfold with_computer, available, Get.
  intros ([c err] & s1 & Hg & Hrun)%mthen_inv.
  assert (s1 = (st, (d, w))) as -> by (by eapply computerstore.get_tables).
  destruct err as [e|]; [left; apply mret_inv in Hrun as [_ [= -> -> ->]]; auto|].
  pose proof (get_found _ _ _ _ _ _ Hg) as Hc. pose proof (found_id _ _ _ _ _ Hf Hc) as Hid.
  apply outside_then in Hrun as (denied & [d1 w1] & [-> Hp]%check_beside & Hrun).
  destruct denied as [x|].
  - left. apply mret_inv in Hrun as [_ [= <- <- <-]]. split; [done|]. split; [done|]. right. by exists c, x.
  - right. exists c, w1. split; [done|]. split; [by apply (passes_any AuthOf (Z * A))|].
    eapply Hk; [|exact Hid|exact Hrun]. by apply (get_again _ _ _ w).
Qed.
End wired.

(** ** Witness *)

Section witness.
#[local] Instance computers_world : World unit := {| time_Now := mret 0; ctx_Err := mret None |}.
#[local] Instance computers_sha : Sha256 := λ s, s.

Definition shop_computer : ProjectComputer :=
  zero_Computer <| ID := "pc" |> <| ProjectID := "shop" |> <| RuntimeID := "rt" |>
    <| Computer_Status := Stopped |>.
Definition shop_computers : mstate := mkState {["pc" := shop_computer]} [].
(** Who asks: nobody, or a user with a role. *)
Definition computer_request (role : option GlobalRole) : Request :=
  mkRequest "POST" "/api/project-computers/pc/start" None {["id" := "pc"]}
    ((λ role, mkPrincipal (mkUser "u" "" "" role "active" 0 0 None) their_session) <$> role).
Definition status_after {A} (op : M (mstate * unit) A) : option Status :=
  Computer_Status <$> computers (op (shop_computers, tt)).2.1 !! "pc".

(** The server that has just been started: the computer is in the tables only. *)
#[local] Instance computers_pg : Database := {| violation := ErrorString "violation"; collate := String.ltb |}.
Definition stored_computer : computer_db :=
  mkComputerDB {["shop"]} {["pc" := mkRow (shop_computer <| Capabilities := [mkCheck Git Supported "" 0] |>) []]} ∅.
Definition server_computers : Manager (computer_db * unit) :=
  computerstore.manager true true (Some (runtime.answering runtime.zero_ExecResult)) true (mret 3).

Lemma computers_guarded_witness :
  ∃ resp st' d', startProjectComputer (auth_beside <$> Some no_members) (Some server_computers)
      (computer_request (Some RoleAdmin)) (NewManager, (stored_computer, tt)) = (resp, (st', (d', tt))) ∧
    (Computer_Status ∘ Row) <$> project_computers d' !! "pc" = Some Ready ∧
    (∃ w1, passes (Some no_members) (computer_request (Some RoleAdmin)) "shop" PermissionRun tt w1) ∧
    projects d' = {["shop"]}.
Proof.
  destruct (startProjectComputer (auth_beside <$> Some no_members) (Some server_computers)
    (computer_request (Some RoleAdmin)) (NewManager, (stored_computer, tt))) as [resp [st' [d' []]]] eqn:E.
  assert ((Computer_Status ∘ Row) <$> project_computers d' !! "pc" = Some Ready) as Hd.
  { vm_compute in E. injection E as _ _ <-. vm_compute. reflexivity. }
  exists resp, st', d'. split; [reflexivity|]. split; [exact Hd|].
  destruct (computers_guarded true true (Some (runtime.answering runtime.zero_ExecResult)) true (mret 3)
    (Some no_members) (computer_request (Some RoleAdmin)) [] outcome PermissionRun _ NewManager stored_computer tt
    resp st' d' tt (endpoint_start _ _ _ _)) as [(_ & -> & _)|(c & w1 & Hc & Hp & Ht)].
  - split; [apply map_Forall_empty|by apply map_Forall_singleton].
  - exact E.
  - vm_compute in Hd. discriminate Hd.
  - destruct Hc as [Hc|(_ & _ & row & Hrow & ->)]; [discriminate Hc|]. injection Hrow as <-.
    split; [by exists w1|]. exact (touch_projects _ _ _ _ _ _ Ht).
Defined.

(** The endpoints of the environment take the computer from the body and make no check:
    whoever is logged in brings a stopped computer of any project to READY, which the
    endpoint of the computer refuses. *)
Lemma environment_verify_unguarded :
  Computer_Status shop_computer = Stopped ∧
  status_after (verifyProjectEnvironment (Some computer_manager) (Ok ("pc", [Git]))) = Some Ready ∧
  status_after (verifyProjectComputer (Some no_members) (Some computer_manager)
    (computer_request None) [Git]) = Some Stopped.
Proof. split; [done|]. split; vm_compute; reflexivity. Qed.
End witness.
End httpcomputers.

(** ** Tools and the cache *)

Module httptools.
Import sharedinfra.

Definition ErrNoTools : string := "tool registry unavailable".

(** The data of the events of a resolution. *)
Inductive resolve_event :=
  | ResolveStarted (manifest_id : string)
  | ResolveFailed (error : string)
  | Resolved (resolutions : list Resolution).

Section tools.
Context `{MapOrder} {W : Type} `{Sha256} `{strings.GoUnicode}.
Variable ToolRegistry : option (gmap string Tool).
Notation C A := (M (cstate * W) A).
Notation reply A := (C (Response (Z * A))).

(* src: internal/httpapi/infrastructure.go:168-174 (listSharedTools) *)
Definition listSharedTools : reply (list Tool) :=
  available ToolRegistry ErrNoTools (λ t, writeJSON 200 (Registry_List t)).
Definition shared_tool {A} (id : string) (k : Tool → A) : reply A :=
  available ToolRegistry ErrNoTools (λ t,
    match Registry_Get t id with
    | None => writeError 404 (ErrorString "tool not found")
    | Some t => writeJSON 200 (k t)
    end).
(* src: internal/httpapi/infrastructure.go:175-186 (getSharedTool) *)
Definition getSharedTool (id : string) : reply Tool := shared_tool id (λ t, t).
(* src: internal/httpapi/infrastructure.go:187-198 (listSharedToolVersions) *)
Definition listSharedToolVersions (id : string) : reply (list ToolVersion) := shared_tool id Versions.

Variable GlobalCache : option (Cache W).
(* src: internal/httpapi/infrastructure.go:199-205 (cacheOverview) *)
Definition cacheOverview : reply (string * gmap string Z) :=
  available GlobalCache "global cache unavailable" (λ _,
    let! stats := look Stats in writeJSON 200 ("SUDA_FORGE", stats)).
(* src: internal/httpapi/infrastructure.go:206-206 (cacheStats) *)
Definition cacheStats : reply (string * gmap string Z) := cacheOverview.

(** The resolver of the server: its registry, whether it has a cache, and the platform. *)
Variable c : Cache W.
Variable (Registry : option (gmap string Tool)) (has_cache : bool) (Platform Architecture : string).
Variable Bus : option (string → string → resolve_event → M W unit).

(* src: internal/httpapi/infrastructure.go:207-229 (resolveEnvironment) *)
Definition resolveEnvironment (project : string) (input : result environment.Manifest)
    : reply (string * list Resolution) :=
  decoded input (λ m,
    let m := m <| environment.Manifest_ProjectID := project |> in
    let! _ := announce Bus "environment.resolve.started" project
                (ResolveStarted (environment.Manifest_ID m)) in
    let! res := ResolveManifest c Registry has_cache Platform Architecture m in
    match res with
    | Err e =>
        let! _ := announce Bus "environment.resolve.completed" project (ResolveFailed (error_text e)) in
        writeError 422 e
    | Ok res =>
        let! _ := announce Bus "environment.resolve.completed" project (Resolved res) in
        writeJSON 200 (project, res)
    end).
End tools.
End httptools.
