(* ===== verification/DeployInfra.v ===== *)
(** * Deployment infrastructure: hostnames, domains, routes, discovery, storage

    [src/internal/deployment/catalog.go], the rest of [infrastructure.go] and
    [providers.go]: what a hostname must be, the catalogue of domains, certificates and
    previews, the discovery of services in a runtime, the routes of the Caddy proxy and
    the local storage of volumes.  [net] holds what the code uses of package [net]; HTTP
    requests and the file system are calls to the outside. *)

From Stdlib Require Import Ascii.
From S2P Require Import Prelude GoStrings World Runtime Filesystem Deployment.

(** ** Addresses *)

Module net.
Definition has (c : ascii) (s : string) : bool := strings.exists_byte (Ascii.eqb c) s.

(** What is before and after the first and the last [c]. *)
Fixpoint split_first (c : ascii) (s : string) : option (string * string) :=
  match s with
  | EmptyString => None
  | String x r =>
      if Ascii.eqb x c then Some (EmptyString, r)
      else match split_first c r with Some (a, b) => Some (String x a, b) | None => None end
  end.
Fixpoint split_last (c : ascii) (s : string) : option (string * string) :=
  match s with
  | EmptyString => None
  | String x r =>
      match split_last c r with
      | Some (a, b) => Some (String x a, b)
      | None => if Ascii.eqb x c then Some (EmptyString, r) else None
      end
  end.

(** [net.SplitHostPort]: the host and the port, or an error. *)
Definition SplitHostPort (hostport : string) : option (string * string) :=
  match split_last ":" hostport with
  | None => None
  | Some (before, port) =>
      match hostport with
      | String "["%char rest =>
          match split_first "]" rest with
          | Some (host, after) =>
              if bool_decide (after = ":" +:+ port) && negb (has "[" rest) && negb (has "]" after)
              then Some (host, port) else None
          | None => None
          end
      | _ =>
          if has ":" before || has "[" hostport || has "]" hostport then None
          else Some (before, port)
      end
  end.

(** One field of a dotted address: digits, no leading zero, at most 255. *)
Definition octet (s : string) : bool :=
  match s with
  | EmptyString => false
  | String c r =>
      (negb (Ascii.eqb c "0") || bool_decide (r = "")) &&
      match strconv.parse_digits 0 s with Some v => v <=? 255 | None => false end
  end.
Definition parseIPv4 (s : string) : bool :=
  match strings.Split s "." with
  | [a; b; c; d] => octet a && octet b && octet c && octet d
  | _ => false
  end.

Definition hex_char (c : ascii) : bool :=
  strings.in_range 48 57 c || strings.in_range 97 102 c || strings.in_range 65 70 c.
(** The hexadecimal digits a string starts with, and what follows them. *)
Fixpoint span_hex (s : string) : string * string :=
  match s with
  | EmptyString => (EmptyString, EmptyString)
  | String c r => if hex_char c then let '(h, t) := span_hex r in (String c h, t)
                  else (EmptyString, s)
  end.

(** The groups of an IPv6 address, [left] of the eight still to come, after an ellipsis
    or not.  The address may end in a dotted one, which takes the place of two. *)
Fixpoint groups (left : nat) (ellipsis : bool) (s : string) : bool :=
  match left with
  | O => false
  | S more =>
      let '(h, rest) := span_hex s in
      if bool_decide (h = "") || (4 <? String.length h)%nat then false
      else match rest with
           | EmptyString => if (more =? 0)%nat then negb ellipsis else ellipsis
           | String "."%char _ =>
               parseIPv4 s && (if (left =? 2)%nat then negb ellipsis
                               else ellipsis && (2 <? left)%nat)
           | String ":"%char EmptyString => false
           | String ":"%char (String ":"%char r) =>
               if ellipsis then false
               else if decide (r = "") then negb (more =? 0)%nat else groups more true r
           | String ":"%char r => groups more ellipsis r
           | _ => false
           end
  end.
Definition parseIPv6 (s : string) : bool :=
  if strings.HasPrefix s "::" then
    let r := strings.drop 2 s in bool_decide (r = "") || groups 8 true r
  else groups 8 false s.

(** [net.ParseIP(s) != nil]; an address with a zone is none. *)
Definition ParseIP (s : string) : bool :=
  if has "%" s then false
  else match split_first "." s, split_first ":" s with
       | None, None => false
       | Some _, None => parseIPv4 s
       | None, Some _ => parseIPv6 s
       | Some (a, _), Some (b, _) =>
           if (String.length a <? String.length b)%nat then parseIPv4 s else parseIPv6 s
       end.

Example ParseIP_ok :
  ParseIP <$> ["127.0.0.1"; "::"; "::1"; "1:2:3:4:5:6:7:8"; "2001:db8::ff00:42:8329"; "::ffff:1.2.3.4";
    "1:2:3:4:5:6:1.2.3.4"; "1::"] = replicate 8 true ∧
  ParseIP <$> ["example.com"; "1.2.3"; "01.2.3.4"; "256.1.1.1"; "1:2:3:4:5:6:7"; "1:2:3:4:5:6:7:8::";
    "fe80::1%eth0"; "::12345"; "1:::2"; "1::2::3"; "1:2:3:4:5:6:7:1.2.3.4"; "1:"; "cafe"] = replicate 13 false.
Proof. split; vm_compute; reflexivity. Qed.

Example SplitHostPort_ok :
  SplitHostPort <$> ["0.0.0.0:80"; "[::]:8080"; "*:22"; ":9"; "[::1]"; "::1:80"; "host"; "[a]b:1"; "a]:1"] =
  [Some ("0.0.0.0", "80"); Some ("::", "8080"); Some ("*", "22"); Some ("", "9"); None; None; None; None; None].
Proof. vm_compute. reflexivity. Qed.
End net.

Module deployinfra.
Import deployment.

(** ** Hostnames *)

(* src: internal/deployment/infrastructure.go:119-130 (ValidateHostname) *)
Definition ValidateHostname `{strings.GoUnicode} (hostname : string) : option goerror :=
  if bool_decide (hostname = "") || (253 <? String.length hostname)%nat
  then Some (ErrorString "invalid hostname")
  else if strings.Contains hostname "/" || strings.Contains hostname "\" ||
          strings.Contains hostname ".." || strings.EqualFold hostname "localhost"
  then Some (ErrorString "unsafe hostname")
  else if net.ParseIP hostname then Some (ErrorString "IP hostnames are not allowed")
  else None.

(** ** Targets

    [url.Parse] is a parameter, for the scheme and the host of an address;
    [Hostname] is what package [net/url] makes of the host. *)

Section target.
Context `{strings.GoUnicode}.
Variable url_Parse : string → option (string * string).

Definition digit (c : ascii) : bool := (48 <=? nat_of_ascii c)%nat && (nat_of_ascii c <=? 57)%nat.

(** [URL.Hostname]: without a port, and without the brackets of an IPv6 address. *)
Definition Hostname_of (host : string) : string :=
  let host := match net.split_last ":" host with
              | Some (before, port) =>
                  if negb (strings.exists_byte (λ c, negb (digit c)) port) then before else host
              | None => host
              end in
  if strings.HasPrefix host "[" && strings.HasSuffix host "]"
  then strings.TrimSuffix (strings.TrimPrefix host "[") "]" else host.

(* src: internal/deployment/infrastructure.go:137-139 (ValidateTargetURL) *)
Definition refused_host (host : string) : bool :=
  bool_decide (host = "localhost") || bool_decide (host = "127.0.0.1") ||
  bool_decide (host = "::1") || strings.HasPrefix host "10." ||
  strings.HasPrefix host "192.168." || strings.HasPrefix host "169.254." ||
  strings.HasSuffix host ".internal".

(* src: internal/deployment/infrastructure.go:131-141 (ValidateTargetURL) *)
Definition ValidateTargetURL (raw : string) : option goerror :=
  match url_Parse raw with
  | None => Some ErrInvalidRouteTarget
  | Some (scheme, host) =>
      if negb (bool_decide (scheme = "http")) && negb (bool_decide (scheme = "https"))
      then Some ErrInvalidRouteTarget
      else if refused_host (strings.ToLower (Hostname_of host))
      then Some ErrInvalidRouteTarget else None
  end.
End target.

(** ** The catalogue *)

(* src: internal/deployment/types.go:77-88 (Domain) *)
Record Domain := mkDomain {
  Domain_ID : string;
  Domain_ProjectID : string;
  Hostname : string;
  Domain_ServiceID : string;
  Domain_Environment : Environment;
  Domain_Status : string;
  TLSStatus : string;
  VerificationStatus : string;
  Domain_CreatedAt : Z;
  Domain_UpdatedAt : Z
}.
#[global] Instance eta_Domain : Eta Domain := λ d,
  mkDomain (Domain_ID d) (Domain_ProjectID d) (Hostname d) (Domain_ServiceID d)
    (Domain_Environment d) (Domain_Status d) (TLSStatus d) (VerificationStatus d)
    (Domain_CreatedAt d) (Domain_UpdatedAt d).
Definition zero_Domain : Domain :=
  mkDomain "" "" "" "" (EnvironmentOther "") "" "" "" time_zero time_zero.

(* src: internal/deployment/types.go:89-98 (Certificate) *)
Record Certificate := mkCertificate {
  Certificate_ID : string;
  DomainID : string;
  Certificate_Status : string;
  Issuer : string;
  ExpiresAt : option Z;
  Certificate_Error : string;
  Certificate_CreatedAt : Z;
  Certificate_UpdatedAt : Z
}.
#[global] Instance eta_Certificate : Eta Certificate := λ c,
  mkCertificate (Certificate_ID c) (DomainID c) (Certificate_Status c) (Issuer c) (ExpiresAt c)
    (Certificate_Error c) (Certificate_CreatedAt c) (Certificate_UpdatedAt c).
Definition zero_Certificate : Certificate := mkCertificate "" "" "" "" None "" time_zero time_zero.

#[global] Instance eta_Preview : Eta Preview := λ p,
  mkPreview (Preview_ID p) (Preview_ProjectID p) (Preview_ServiceID p) (Preview_Environment p)
    (Preview_Hostname p) (Preview_URL p) (Preview_Status p) (AccessPolicy p) (Preview_CreatedAt p)
    (Preview_UpdatedAt p).

(** What issues certificates. *)
(* src: internal/deployment/types.go:228-232 (CertificateProvider) *)
Record CertificateProvider (W : Type) := mkCertificates {
  Issue : Domain → M W (Certificate * option goerror);
  Renew : Certificate → M W (Certificate * option goerror);
  GetCertificate : Certificate → M W (Certificate * option goerror)
}.
Arguments mkCertificates {W}.
Arguments Issue {W}.
Arguments Renew {W}.
Arguments GetCertificate {W}.

(** The maps of environments and snapshots are never used. *)
(* src: internal/deployment/catalog.go:10-19 (Catalog) *)
Record Catalog := mkCatalog {
  domains : gmap string Domain;
  certificates : gmap string Certificate;
  previews : gmap string Preview
}.
#[global] Instance eta_Catalog : Eta Catalog := λ c, mkCatalog (domains c) (certificates c) (previews c).
(* src: internal/deployment/catalog.go:21-23 (NewCatalog) *)
Definition NewCatalog : Catalog := mkCatalog ∅ ∅ ∅.

Section catalog.
Context `{MapOrder} `{strings.GoUnicode} {W : Type} `{World W}.
Variable Certificates : option (CertificateProvider W).
Notation C A := (M (Catalog * W) A).

(* src: internal/deployment/catalog.go:24-45 (SaveDomain) *)
Definition SaveDomain (d : Domain) : C (Domain * option goerror) :=
  match ValidateHostname (Hostname d) with
  | Some e => mret (zero_Domain, Some e)
  | None =>
      let d := if decide (Domain_ID d = "")
        then d <| Domain_ID := "domain_" +:+ Domain_ProjectID d +:+ "_" +:+ Hostname d |> else d in
      let! d := (if IsZero (Domain_CreatedAt d)
                 then let! now := outside time_Now in mret (d <| Domain_CreatedAt := now |>)
                 else mret d) in
      let d := d <| Domain_UpdatedAt := Domain_CreatedAt d |> in
      let d := if decide (Domain_Status d = "") then d <| Domain_Status := "PENDING" |> else d in
      let d := if decide (TLSStatus d = "") then d <| TLSStatus := "NOT_REQUESTED" |> else d in
      let! _ := modify (λ c, c <| domains := <[Domain_ID d := d]> (domains c) |>) in
      mret (d, None)
  end.

(* src: internal/deployment/catalog.go:46-56 (Domains) *)
Definition Domains (project : string) (c : Catalog) : list Domain :=
  filter (λ d, Domain_ProjectID d = project) (map_range 0 (domains c)).*2.

(* src: internal/deployment/catalog.go:57-69 (IssueCertificate) *)
Definition IssueCertificate (d : Domain) : C (Certificate * option goerror) :=
  match Certificates with
  | None => mret (zero_Certificate, Some (ErrorString "certificate provider unavailable"))
  | Some p =>
      let! (certificate, err) := outside (Issue p d) in
      match err with
      | Some e => mret (zero_Certificate, Some e)
      | None =>
          let! _ := modify (λ c, c <| certificates :=
            <[Certificate_ID certificate := certificate]> (certificates c) |>) in
          mret (certificate, None)
      end
  end.

(* src: internal/deployment/catalog.go:70-78 (SavePreview) *)
Definition SavePreview (p : Preview) : C (Preview * option goerror) :=
  let p := if decide (Preview_ID p = "")
    then p <| Preview_ID := "preview_" +:+ Preview_ProjectID p +:+ "_" +:+ Preview_Hostname p |> else p in
  let! _ := modify (λ c, c <| previews := <[Preview_ID p := p]> (previews c) |>) in
  mret (p, None).

(* src: internal/deployment/catalog.go:79-89 (Previews) *)
Definition Previews (project : string) (c : Catalog) : list Preview :=
  filter (λ p, Preview_ProjectID p = project) (map_range 0 (previews c)).*2.
End catalog.

(** ** Discovery *)

Section discovery.
Context {W : Type} `{World W}.

Fixpoint listeners (runtimeID : string) (lines : list string) : M W (list Service) :=
  match lines with
  | [] => mret []
  | line :: lines =>
      match strings.Fields line with
      | _ :: _ :: _ :: address :: _ =>
          match net.SplitHostPort address with
          | None => listeners runtimeID lines
          | Some (host, port) =>
              let! now := time_Now in
              let! rest := listeners runtimeID lines in
              mret (mkService "" "" "" runtimeID "" "tcp" host (strconv.Atoi port) "" ServiceRunning
                      Development ∅ time_zero now :: rest)
          end
      | _ => listeners runtimeID lines
      end
  end.

(* src: internal/deployment/infrastructure.go:20-47 (RuntimeServiceDiscovery.Discover) *)
Definition Discover (p : option (runtime.Provider W)) (runtimeID : string)
    : M W (list Service * option goerror) :=
  match p with
  | None => mret ([], Some (ErrorString "runtime provider unavailable"))
  | Some p =>
      let! (out, err) := runtime.Exec p None runtimeID
        (runtime.mkCommand ["sh"; "-lc"; "ss -ltnH"] "/workspace" [] false 10) in
      match err with
      | Some e => mret ([], Some e)
      | None =>
          if decide (runtime.ExitCode out = 0) then
            let! found := listeners runtimeID (strings.Split (runtime.Stdout out) "
") in mret (found, None)
          else mret ([], Some (ErrorString ("service discovery failed: " +:+ runtime.Stderr out)))
      end
  end.
End discovery.

(** ** Routes of the Caddy proxy *)

(** The body of a route: the host it matches and where it leads. *)
Record route := mkRoute { route_host : list string; route_dial : string }.

(* src: internal/deployment/types.go:222-227 (ProxyProvider) *)
Record ProxyProvider (W : Type) := mkProxy {
  CreateRoute : Preview → M W (option goerror);
  UpdateRoute : Preview → M W (option goerror);
  DeleteRoute : string → M W (option goerror);
  URL : Preview → string
}.
Arguments mkProxy {W}.
Arguments CreateRoute {W}.
Arguments UpdateRoute {W}.
Arguments DeleteRoute {W}.
Arguments URL {W}.

Section caddy.
Context {W : Type} `{World W} `{strings.GoUnicode}.
(** A request is sent: its method, URL and body; the answer has a status. *)
Variable Do : string → string → option route → M W (result Z).
Variable AdminURL : string.

(* src: internal/deployment/providers.go:42-70 (request) *)
Definition caddy_request (method path : string) (body : option route) : M W (option goerror) :=
  if decide (AdminURL = "") then mret (Some (ErrorString "caddy admin endpoint is not configured"))
  else
    let! resp := Do method (strings.TrimRight AdminURL "/" +:+ path) body in
    mret match resp with
         | Err e => Some e
         | Ok status =>
             if (status <? 200) || (300 <=? status)
             then Some (ErrorString ("caddy returned status " +:+ pretty status)) else None
         end.

Definition route_path (id : string) : string := "/config/apps/http/servers/suda/routes/" +:+ id.
(* src: internal/deployment/providers.go:29-31 (CaddyProxy.CreateRoute) *)
Definition caddy_CreateRoute (p : Preview) : M W (option goerror) :=
  caddy_request "PUT" (route_path (Preview_ID p))
    (Some (mkRoute [Preview_Hostname p] (Preview_ServiceID p))).
(* src: internal/deployment/providers.go:35-37 (CaddyProxy.DeleteRoute) *)
Definition caddy_DeleteRoute (id : string) : M W (option goerror) :=
  caddy_request "DELETE" (route_path id) None.
(* src: internal/deployment/providers.go:32-41 (CaddyProxy) *)
Definition CaddyProxy : ProxyProvider W :=
  mkProxy caddy_CreateRoute caddy_CreateRoute caddy_DeleteRoute
    (λ p, "https://" +:+ Preview_Hostname p).

(* src: internal/deployment/providers.go:74-79 (CaddyCertificate.Issue) *)
Definition caddy_Issue (d : Domain) : M W (Certificate * option goerror) :=
  match ValidateHostname (Hostname d) with
  | Some e => mret (zero_Certificate, Some e)
  | None =>
      let! created := time_Now in
      let! updated := time_Now in
      mret (mkCertificate ("cert_" +:+ Domain_ID d) (Domain_ID d) "REQUESTED" "Caddy/Let's Encrypt"
              None "" created updated, None)
  end.
(* src: internal/deployment/providers.go:80-84 (CaddyCertificate.Renew) *)
Definition caddy_Renew (c : Certificate) : M W (Certificate * option goerror) :=
  let! now := time_Now in
  mret (c <| Certificate_Status := "RENEWAL_REQUESTED" |> <| Certificate_UpdatedAt := now |>, None).
(* src: internal/deployment/providers.go:85-87 (CaddyCertificate) *)
Definition CaddyCertificate : CertificateProvider W :=
  mkCertificates caddy_Issue caddy_Renew (λ c, mret (c, None)).
End caddy.

(** ** Local storage *)

Module storage.
Import filepath.

Definition unsafe_part (part : string) : bool :=
  bool_decide (part ∈ [""; "."; ".."]) || strings.ContainsAny part "/\".

(** [filepath.Join] of any number of elements. *)
Definition Join_all (l : list string) : string :=
  match filter (λ e, e ≠ "") l with [] => "" | l => Clean (strings.Join l "/") end.

Section storage.
Context {W : Type} `{World W}.
Variable Getwd : M W (result string).
(** [os.MkdirAll] and [os.Rename]. *)
Variable (MkdirAll : string → M W (option goerror)) (Rename : string → string → M W (option goerror)).
Variable Root : string.

(** [filepath.Abs] *)
Definition Abs (path : string) : M W (result string) :=
  if rooted path then mret (Ok (Clean path))
  else let! wd := Getwd in mret (let? wd := wd in Ok (Join wd path)).

(* src: internal/deployment/providers.go:149-170 (safeChild) *)
Definition safeChild (root : string) (parts : list string) : M W (result string) :=
  if decide (root = "") then mret (Err (ErrorString "storage root is empty"))
  else if existsb unsafe_part parts then mret (Err (ErrorString "unsafe storage path"))
  else
    let! base := Abs root in
    match base with
    | Err e => mret (Err e)
    | Ok base =>
        let! path := Abs (Join_all (base :: parts)) in
        mret (let? path := path in
              if filesystem.within base path then Ok path
              else Err (ErrorString "storage path escapes root"))
    end.

(* src: internal/deployment/providers.go:117-126 (LocalStorage.CreateVolume) *)
Definition CreateVolume (projectID name : string) : M W (result string) :=
  let! path := safeChild Root [projectID; name] in
  match path with
  | Err e => mret (Err e)
  | Ok path =>
      let! err := MkdirAll path in
      mret match err with Some e => Err e | None => Ok path end
  end.

(* src: internal/deployment/types.go:197-205 (Snapshot) *)
Record Snapshot := mkSnapshot {
  Snapshot_ID : string;
  Snapshot_ProjectID : string;
  Kind : string;
  Reference : string;
  Source : string;
  Snapshot_Status : string;
  Snapshot_CreatedAt : Z
}.

(* src: internal/deployment/providers.go:127-142 (LocalStorage.Snapshot) *)
Definition TakeSnapshot (source reference : string) : M W (result Snapshot) :=
  if bool_decide (source = "") || bool_decide (reference = "")
  then mret (Err (ErrorString "source and reference are required"))
  else
    let! target := safeChild Root ["snapshots"; reference] in
    match target with
    | Err e => mret (Err e)
    | Ok target =>
        let! err := MkdirAll (Dir target) in
        match err with
        | Some e => mret (Err e)
        | None =>
            let! err := Rename source target in
            match err with
            | Some e => mret (Err e)
            | None =>
                let! now := time_Now in
                mret (Ok (mkSnapshot ("snapshot_" +:+ reference) "" "local" reference source "CREATED" now))
            end
        end
    end.

(* src: internal/deployment/providers.go:143-148 (LocalStorage.Restore) *)
Definition RestoreSnapshot (s : Snapshot) : M W (option goerror) :=
  mret (if bool_decide (Reference s = "") || bool_decide (Source s = "")
        then Some (ErrorString "invalid snapshot") else None).
End storage.

(** ** Where volumes and snapshots go *)

Section facts.
Context {W : Type} `{World W} (Getwd : M W (result string)).
Notation safeChild := (safeChild Getwd).
Notation Abs := (Abs Getwd).

Lemma unsafe_part_false part :
  unsafe_part part = false →
  proper part ∧ part ≠ "." ∧ part ≠ "..".
Proof.
  unfold unsafe_part, proper, slash_free. intros [Hn Hc]%orb_false_iff.
  rewrite bool_decide_eq_false, !elem_of_cons in Hn.
  assert (strings.exists_byte is_slash part = false) as Hs.
  { clear Hn. induction part as [|c part IH]; [done|].
    unfold strings.ContainsAny in Hc. cbn [strings.exists_byte] in Hc |- *.
    apply orb_false_iff in Hc as [Hc Hr]. rewrite (IH Hr), orb_false_r.
    unfold is_slash. by apply orb_false_iff in Hc as [Hc _]. }
  naive_solver.
Qed.

Lemma clean_no_up l : ".." ∉ clean_elements true l.
Proof.
  unfold clean_elements. rewrite elem_of_reverse.
  assert (∀ acc, ".." ∉ acc → ".." ∉ foldl (clean_step true) acc l) as Hf; [|by apply Hf, not_elem_of_nil].
  induction l as [|e l IH]; intros acc Hacc; [done|]. simpl. apply IH. unfold clean_step.
  case_decide; [done|]. case_decide; [|set_solver].
  destruct acc as [|x acc]; [done|]. case_decide; set_solver.
Qed.

(** What [Abs] gives, the working directory being an absolute path. *)
Lemma Abs_ok path w base w' :
  (∀ w d w', Getwd w = (Ok d, w') → rooted d = true) →
  Abs path w = (Ok base, w') →
  rooted base = true ∧ base = render true (elements base) ∧
  ".." ∉ elements base ∧ "." ∉ elements base ∧ base ≠ "".
Proof.
  intros Hwd Habs.
  assert (∃ x, rooted x = true ∧ base = Clean x) as (x & Hx & ->).
  { unfold Abs in Habs. destruct (rooted path) eqn:Hp; [apply mret_inv in Habs as [[= <-] _]; eauto|].
    apply mthen_inv in Habs as ([d|e] & w1 & Hd & [Hj _]%mret_inv); [|done]. injection Hj as <-.
    apply Hwd in Hd. destruct d as [|c d]; [done|]. destruct path as [|c' path]; [by eexists|].
    eexists. split; [|reflexivity]. by rewrite rooted_append. }
  unfold Clean. rewrite Hx.
  pose proof (clean_elements_proper true x) as Hp.
  assert (elements (render true (clean_elements true (elements x))) = clean_elements true (elements x)) as He.
  { unfold render. by rewrite elements_slash, elements_Join. }
  rewrite He. split_and!; [apply rooted_slash|done|apply clean_no_up| |done].
  by intros [_ Hd]%clean_elements_sub.
Qed.

Lemma clean_plain root l : "." ∉ l → ".." ∉ l → clean_elements root l = l.
Proof.
  intros Hd Hu. rewrite clean_elements_nil by done.
  clear Hu. induction l as [|x l IH]; [done|].
  rewrite filter_cons, decide_True, IH by set_solver. done.
Qed.

Lemma Clean_render l : Forall proper l → "." ∉ l → ".." ∉ l → Clean (render true l) = render true l.
Proof.
  intros Hp Hd Hu. unfold Clean, render. rewrite rooted_slash.
  by rewrite elements_slash, elements_Join, clean_plain.
Qed.

Lemma Join_all_below base parts : base ≠ "" → rooted base = true → Forall proper parts →
  "." ∉ elements base ++ parts → ".." ∉ elements base ++ parts →
  Join_all (base :: parts) = render true (elements base ++ parts).
Proof.
  intros Hb Hr Hp Hd Hu. unfold Join_all. rewrite filter_cons, decide_True by done.
  assert (filter (λ e, e ≠ "") parts = parts) as ->.
  { clear -Hp. induction Hp as [|x l [Hx _] _ IH]; [done|]. by rewrite filter_cons, decide_True, IH. }
  unfold Clean.
  assert (rooted (strings.Join (base :: parts) "/") = true ∧
    elements (strings.Join (base :: parts) "/") = elements base ++ parts) as [-> ->];
    [|by rewrite clean_plain].
  destruct parts as [|x parts]; [by rewrite app_nil_r|].
  by rewrite Join_cons, elements_app, elements_Join, rooted_append.
Qed.

Lemma safe_parts parts : Forall (λ part, unsafe_part part = false) parts →
  Forall proper parts ∧ "." ∉ parts ∧ ".." ∉ parts.
Proof.
  rewrite !Forall_forall. intros Hsafe. split_and!.
  - intros x Hx. by apply unsafe_part_false, Hsafe.
  - intros Hx. by apply Hsafe, unsafe_part_false in Hx as (_ & [] & _).
  - intros Hx. by apply Hsafe, unsafe_part_false in Hx as (_ & _ & []).
Qed.

Lemma existsb_unsafe parts :
  existsb unsafe_part parts = false ↔ Forall (λ part, unsafe_part part = false) parts.
Proof.
  induction parts as [|x l IH]; [done|]. simpl. by rewrite orb_false_iff, Forall_cons, IH.
Qed.

(** Storage stays under its root.  [safeChild] gives a path exactly when the root is
    named and every part is one path element that is neither a dot nor two dots; the
    path is the absolute root followed by the parts.  It needs a root other than [/],
    which has no child by the comparison of texts. *)
Theorem safeChild_correct root parts p w w' :
  (∀ w d w', Getwd w = (Ok d, w') → rooted d = true) →
  safeChild root parts w = (Ok p, w') ↔
  root ≠ "" ∧ Forall (λ part, unsafe_part part = false) parts ∧
  ∃ base, Abs root w = (Ok base, w') ∧ (parts = [] ∨ elements base ≠ []) ∧
    p = render true (elements base ++ parts).
Proof.
  intros Hwd. unfold safeChild. case_decide as Hroot; [by split; [intros [[=] _]%mret_inv|intros []]|].
  rewrite <-existsb_unsafe. destruct (existsb unsafe_part parts) eqn:Hun.
  { split; [by intros [[=] _]%mret_inv|]. by intros (_ & [=] & _). }
  apply existsb_unsafe, safe_parts in Hun as (Hp & Hpd & Hpu).
  unfold mthen at 1. destruct (Abs root w) as [[base|e] w1] eqn:Habs.
  2: { split; [by intros [[=] _]%mret_inv|by intros (_ & _ & ? & [=] & _)]. }
  destruct (Abs_ok _ _ _ _ Hwd Habs) as (Hr & Hb & Hup & Hdot & Hne).
  assert ("." ∉ elements base ++ parts ∧ ".." ∉ elements base ++ parts) as [Hd Hu]
    by (rewrite !elem_of_app; naive_solver).
  assert (Forall proper (elements base ++ parts)) as Hall
    by (apply Forall_app; split; [apply elements_proper|done]).
  rewrite Join_all_below by done. unfold Abs at 1.
  assert (rooted (render true (elements base ++ parts)) = true) as -> by apply rooted_slash.
  rewrite Clean_render by done.
  pose proof (filesystem.within_render true (elements base) parts Hall Hpd) as Hw. rewrite <-Hb in Hw.
  unfold mthen, mret. cbn [res_bind]. destruct (filesystem.within _ _).
  - split; [intros [= <- <-]|].
    + split; [done|]. split; [done|]. exists base. split; [done|]. split; [by apply Hw|done].
    + by intros (_ & _ & ? & [= <- <-] & _ & ->).
  - split; [done|]. intros (_ & _ & ? & [= <- _] & Hc%Hw & _). done.
Qed.

End facts.

(** A snapshot is the source itself, moved away; restoring it does nothing. *)
Lemma TakeSnapshot_moves {W} `{World W} Getwd MkdirAll Rename Root source reference w r w' :
  TakeSnapshot (W := W) Getwd MkdirAll Rename Root source reference w = (Ok r, w') →
  ∃ target w1 w2, Rename source target w1 = (None, w2) ∧
    ∀ w3 : W, RestoreSnapshot r w3 = (None, w3).
Proof.
  unfold TakeSnapshot. destruct (bool_decide (source = "") || bool_decide (reference = "")) eqn:Hn;
    [by intros [[=] _]%mret_inv|].
  intros ([target|e] & w1 & _ & Hk)%mthen_inv; [|by apply mret_inv in Hk as [[=] _]].
  apply mthen_inv in Hk as ([e|] & w2 & _ & Hk); [by apply mret_inv in Hk as [[=] _]|].
  apply mthen_inv in Hk as ([e|] & w3 & Hr & Hk); [by apply mret_inv in Hk as [[=] _]|].
  apply mthen_inv in Hk as (now & w4 & _ & Hk). apply mret_inv in Hk as [[= <-] _].
  exists target, w2, w3. split; [done|]. intros w5. unfold RestoreSnapshot. cbn [Reference Source].
  by rewrite orb_comm, Hn.
Qed.

Lemma safeChild_correct_witness :
  safeChild (W := unit) (mret (Ok "/srv")) "data" ["shop"; "uploads"] tt
    = (Ok "/srv/data/shop/uploads", tt) ∧
  (safeChild (W := unit) (mret (Ok "/srv")) "data" ["shop"; "../../etc"] tt).1
    = Err (ErrorString "unsafe storage path").
Proof.
  split; [|reflexivity].
  refine (proj2 (safeChild_correct (W := unit) (mret (Ok "/srv")) "data" ["shop"; "uploads"]
    "/srv/data/shop/uploads" tt tt _) _).
  - intros w d w' [[= <-] _]%mret_inv. reflexivity.
  - split; [discriminate|]. split; [by repeat constructor|]. exists "/srv/data".
    split; [reflexivity|]. split; [by right|reflexivity].
Defined.
End storage.

(** ** What the catalogue lists *)

(** The catalogues the server reaches. *)
Section catalogs.
Context `{MapOrder} `{strings.GoUnicode} {W : Type} `{World W}.
Inductive catalog_step : relation Catalog :=
  | step_domain d w r c c' w' : SaveDomain (W := W) d (c, w) = (r, (c', w')) → catalog_step c c'
  | step_certificate ps d w r c c' w' :
      IssueCertificate (W := W) ps d (c, w) = (r, (c', w')) → catalog_step c c'
  | step_preview p w r c c' w' : SavePreview (W := W) p (c, w) = (r, (c', w')) → catalog_step c c'.

(** A domain that is kept has a hostname that was accepted, under its identifier. *)
Definition domain_ok (id : string) (d : Domain) : Prop :=
  Domain_ID d = id ∧ id ≠ "" ∧ ValidateHostname (Hostname d) = None.
Record catalog_ok (c : Catalog) : Prop := {
  ok_domains : map_Forall domain_ok (domains c);
  ok_certificates : map_Forall (λ id x, Certificate_ID x = id) (certificates c);
  ok_previews : map_Forall (λ id p, Preview_ID p = id ∧ id ≠ "") (previews c)
}.

Lemma SaveDomain_inv d c w r err c' w' :
  SaveDomain (W := W) d (c, w) = ((r, err), (c', w')) →
  match err with
  | Some e => c' = c ∧ ValidateHostname (Hostname d) = Some e
  | None => c' = c <| domains := <[Domain_ID r := r]> (domains c) |> ∧
      domain_ok (Domain_ID r) r ∧ Hostname r = Hostname d ∧ Domain_ProjectID r = Domain_ProjectID d ∧
      (Domain_ID d ≠ "" → Domain_ID r = Domain_ID d)
  end.
Proof.
  unfold SaveDomain. destruct (ValidateHostname (Hostname d)) as [e|] eqn:Hv.
  { by intros [[= <- <-] [= <- _]]%mret_inv. }
  intros (d1 & [c1 w1] & Hd1 & Hk)%mthen_inv.
  assert (c1 = c ∧ Hostname d1 = Hostname d ∧ Domain_ProjectID d1 = Domain_ProjectID d ∧
    Domain_ID d1 ≠ "" ∧ (Domain_ID d ≠ "" → Domain_ID d1 = Domain_ID d)) as (-> & Hh & Hp & Hne & Hid).
  { destruct (IsZero _).
    - apply mthen_inv in Hd1 as (now & sw & [_ Hs]%outside_inv & [<- ->]%mret_inv). cbn [fst] in Hs.
      subst c1. by destruct (decide (Domain_ID d = "")); split_and!.
    - apply mret_inv in Hd1 as [<- [= <- <-]].
      by destruct (decide (Domain_ID d = "")); split_and!. }
  apply mthen_inv in Hk as (u & sw & Hm%modify_inv & [[= <- <-] ->]%mret_inv). injection Hm as -> _.
  unfold domain_ok. repeat case_decide; simpl in *; rewrite ?Hh; naive_solver.
Qed.

Lemma catalog_step_ok c c' : catalog_step c c' → catalog_ok c → catalog_ok c'.
Proof.
  intros Hs [Ho1 Ho2 Ho3]. destruct Hs as [d w [r [e|]] c c' w' Hs|ps d w r c c' w' Hs|p w r c c' w' Hs].
  - by apply SaveDomain_inv in Hs as [-> _].
  - apply SaveDomain_inv in Hs as (-> & Hr & _). split; [|done..]. by apply map_Forall_insert_2.
  - unfold IssueCertificate in Hs. destruct ps as [ps|]; [|by apply mret_inv in Hs as [_ [= <- _]]].
    apply mthen_inv in Hs as ([x [e|]] & [c1 w1] & [_ Hc]%outside_inv & Hk); cbn [fst] in Hc; subst c1;
      [by apply mret_inv in Hk as [_ [= <- _]]|].
    apply mthen_inv in Hk as (u & sw & Hm%modify_inv & [_ ->]%mret_inv). injection Hm as -> _.
    split; [done| |done]. by apply map_Forall_insert_2.
  - unfold SavePreview in Hs. apply mthen_inv in Hs as (u & sw & Hm%modify_inv & [_ ->]%mret_inv).
    injection Hm as -> _. split; [done..|]. apply map_Forall_insert_2; [|done]. by case_decide.
Qed.

(** The catalogue.  In every state it reaches, [Domains] and [Previews] list exactly
    the entries of a project, each once, a domain of the catalogue has a hostname that
    [ValidateHostname] accepts, and the entries are filed under their identifiers. *)
Theorem catalog_exact c project :
  rtc catalog_step NewCatalog c →
  catalog_ok c ∧
  NoDup (Domains project c) ∧ NoDup (Previews project c) ∧
  (∀ d, d ∈ Domains project c ↔ domains c !! Domain_ID d = Some d ∧ Domain_ProjectID d = project) ∧
  (∀ p, p ∈ Previews project c ↔ previews c !! Preview_ID p = Some p ∧ Preview_ProjectID p = project) ∧
  (∀ d, d ∈ Domains project c → ValidateHostname (Hostname d) = None).
Proof.
  intros Hr. assert (catalog_ok c) as Hok.
  { assert (catalog_ok NewCatalog) as Hnew by (split; apply map_Forall_empty).
    clear -Hr Hnew. induction Hr as [|c1 c2 c3 Hs _ IH]; [done|]. by apply IH, (catalog_step_ok _ _ Hs). }
  assert (∀ k d, domains c !! k = Some d → Domain_ID d = k) as Hd
    by (intros k d Hk; by apply (ok_domains c Hok) in Hk as []).
  assert (∀ k p, previews c !! k = Some p → Preview_ID p = k) as Hp
    by (intros k p Hk; by apply (ok_previews c Hok) in Hk as []).
  split; [done|]. unfold Domains, Previews. split_and!.
  - eapply NoDup_fmap_1, filed_keys, Hd.
  - eapply NoDup_fmap_1, filed_keys, Hp.
  - intros d. by apply (elem_of_filed Domain_ID).
  - intros p. by apply (elem_of_filed Preview_ID).
  - intros d [Hk _]%(elem_of_filed Domain_ID); [|done]. by apply (ok_domains c Hok) in Hk as (_ & _ & ?).
Qed.

End catalogs.

(** ** Witness and a finding *)

Section witness.
#[local] Instance infra_world : World unit := {| time_Now := mret 5; ctx_Err := mret None |}.
#[local] Instance infra_unicode : strings.GoUnicode := strings.ascii_unicode.
#[local] Instance infra_order : MapOrder := canonical_order.

Definition shop_domain : Domain :=
  zero_Domain <| Domain_ProjectID := "shop" |> <| Hostname := "shop.example.com" |>.
Definition one_domain : Catalog := (SaveDomain shop_domain (NewCatalog, tt)).2.1.

(** Addresses without a path. *)
Definition plain_Parse (raw : string) : option (string * string) :=
  if strings.HasPrefix raw "http://" then Some ("http", strings.TrimPrefix raw "http://")
  else if strings.HasPrefix raw "https://" then Some ("https", strings.TrimPrefix raw "https://")
  else None.

(** What is refused is refused with any port and in any case, but the other addresses
    of the loopback network, the unspecified one and the private network 172.16.0.0/12
    pass. *)
Example ValidateTargetURL_gaps :
  let refused raw := bool_decide (ValidateTargetURL plain_Parse raw = Some ErrInvalidRouteTarget) in
  (refused <$> ["http://127.0.0.1:8080"; "https://LocalHost"; "http://[::1]:80"; "http://10.0.3.7";
     "http://169.254.169.254"; "http://db.internal:5432"; "ftp://example.com"]) = replicate 7 true ∧
  (refused <$> ["http://example.com"; "http://127.0.0.2:8080"; "http://0.0.0.0:8080"; "http://172.16.0.9";
     "http://[fe80::1]:80"]) = replicate 5 false.
Proof. split; vm_compute; reflexivity. Qed.

Lemma catalog_exact_witness :
  Hostname <$> Domains "shop" one_domain = ["shop.example.com"] ∧ NoDup (Domains "shop" one_domain).
Proof.
  split; [vm_compute; reflexivity|].
  apply (catalog_exact (W := unit) one_domain "shop"). eapply rtc_once.
  apply (step_domain shop_domain tt (SaveDomain shop_domain (NewCatalog, tt)).1 NewCatalog one_domain tt).
  vm_compute. reflexivity.
Defined.

(** The identifier of a domain may be chosen by the request, and the catalogue does not
    look at whose it is: another project takes the domain over. *)
Lemma domain_taken_over :
  let taken := zero_Domain <| Domain_ID := "domain_shop_shop.example.com" |>
    <| Domain_ProjectID := "thief" |> <| Hostname := "thief.example.com" |> in
  let c := (SaveDomain taken (one_domain, tt)).2.1 in
  Domains "shop" c = [] ∧ Hostname <$> Domains "thief" c = ["thief.example.com"].
Proof. split; vm_compute; reflexivity. Qed.
End witness.
End deployinfra.
