(* ===== verification/HttpDeploy.v ===== *)
(** * The handlers of deployments

    [src/internal/httpapi/deployment.go], over the manager of [Deployment.v] and the
    catalogue of [DeployInfra.v].  The Postgres store, the port registry, the discovery
    of services and the proxy are interfaces of the source; [DeployStore.v] implements the
    first two. *)

From S2P Require Import Prelude GoStrings World Runtime Float Deployment DeployInfra Auth HttpApi HttpBase.
Import crypto httpapi httpbase.

Module httpdeploy.
Import deployment deployinfra.

#[global] Instance eta_Service : Eta Service := λ s,
  mkService (Service_ID s) (Service_ProjectID s) (Service_Name s) (Service_RuntimeID s)
    (ProcessIdentity s) (Service_Protocol s) (Host s) (Port s) (HealthEndpoint s) (Service_Status s)
    (Service_Environment s) (Service_Metadata s) (Service_CreatedAt s) (Service_UpdatedAt s).

(* src: internal/deployment/store.go:11-11 (Store) *)
Record Store (W : Type) := mkStore {
  SaveService : Service → M W (option goerror);
  Services : string → M W (list Service * option goerror);
  SavePort : PortBinding → M W (option goerror);
  SaveRelease : deployment.Release → M W (option goerror);
  SaveDeployment : Deployment → M W (option goerror);
  Deployments : string → M W (list Deployment * option goerror)
}.
Arguments mkStore {W}.
Arguments SaveService {W}.
Arguments Services {W}.
Arguments SavePort {W}.
Arguments SaveRelease {W}.
Arguments SaveDeployment {W}.
Arguments Deployments {W}.

(* src: internal/deployment/types.go:209-213 (PortRegistry) *)
Record PortRegistry (W : Type) := mkRegistry {
  Registry_Reserve : PortBinding → M W (PortBinding * option goerror);
  Registry_Release : string → M W (option goerror);
  Registry_List : string → M W (list PortBinding * option goerror)
}.
Arguments mkRegistry {W}.
Arguments Registry_Reserve {W}.
Arguments Registry_Release {W}.
Arguments Registry_List {W}.

(** The data of the events. *)
Inductive deploy_event :=
  | DiscoveredServices (l : list Service)
  | PreviewEvent (p : Preview)
  | PreviewDeleted (id : string)
  | DomainEvent (d : Domain)
  | CertificateEvent (c : Certificate)
  | HealthPassed (c : HealthCheck).

(** The result of a service that gives a value next to its error. *)
Definition settled {S W A} (code failure : Z) (c : M (S * W) (A * option goerror))
    : M (S * W) (Response (Z * A)) :=
  let! (a, err) := c in
  match err with Some e => writeError failure e | None => writeJSON code a end.

(** ** Services, ports and previews *)

Section services.
Context {S W : Type} `{World W} `{strings.GoUnicode}.
Variable DeploymentStore : option (Store W).
Variable Ports : option (PortRegistry W).
Variable ServiceDiscovery : option (string → M W (list Service * option goerror)).
Variable Proxy : option (ProxyProvider W).
Variable Bus : option (string → string → deploy_event → M W unit).
Notation reply A := (M (S * W) (Response (Z * A))).

Definition ErrNoStore : string := "deployment store unavailable".
Definition ErrNoPorts : string := "port registry unavailable".
Definition ErrNoProxy : string := "proxy provider unavailable".

(** [_ = s.DeploymentStore.Save...], when there is a store. *)
Definition saved (save : Store W → M W (option goerror)) : M (S * W) unit :=
  match DeploymentStore with
  | Some store => let! _ := outside (save store) in mskip
  | None => mskip
  end.

(* src: internal/httpapi/deployment.go:16-27 (deploymentServices) *)
Definition deploymentServices (r : Request) : reply (list Service) :=
  available DeploymentStore ErrNoStore (λ store,
    settled 200 500 (outside (Services store (PathValue r "project")))).

(* src: internal/httpapi/deployment.go:28-39 (deploymentPorts) *)
Definition deploymentPorts (r : Request) : reply (list PortBinding) :=
  available Ports ErrNoPorts (λ ports,
    settled 200 500 (outside (Registry_List ports (PathValue r "project")))).

(* src: internal/httpapi/deployment.go:40-66 (deploymentReservePort) *)
Definition deploymentReservePort (r : Request) (input : result PortBinding) : reply PortBinding :=
  available Ports ErrNoPorts (λ ports,
    decoded input (λ binding,
      let binding := binding <| Binding_ProjectID := PathValue r "project" |> in
      let binding := if decide (Binding_Protocol binding = "")
        then binding <| Binding_Protocol := "tcp" |> else binding in
      let binding := match Exposure binding with
        | ExposureOther "" => binding <| Exposure := Internal |>
        | _ => binding
        end in
      let! (item, err) := outside (Registry_Reserve ports binding) in
      match err with
      | Some e => writeError 409 e
      | None => let! _ := saved (λ store, SavePort store item) in writeJSON 201 item
      end)).

(** A discovered service, as one of the project. *)
Definition adopted (project : string) (s : Service) : Service :=
  s <| Service_ProjectID := project |>
    <| Service_ID := project +:+ "/" +:+ Service_RuntimeID s +:+ "/" +:+ pretty (Port s) |>.
Fixpoint save_services (l : list Service) : M (S * W) unit :=
  match l with
  | [] => mskip
  | s :: l => let! _ := saved (λ store, SaveService store s) in save_services l
  end.
(* src: internal/httpapi/deployment.go:67-96 (deploymentDiscoverServices) *)
Definition deploymentDiscoverServices (r : Request) (runtime_id : string) : reply (list Service) :=
  available ServiceDiscovery "service discovery unavailable" (λ discover,
    if decide (runtime_id = "") then writeError 400 (ErrorString "runtime_id is required")
    else
      let! (items, err) := outside (discover runtime_id) in
      match err with
      | Some e => writeError 502 e
      | None =>
          let items := adopted (PathValue r "project") <$> items in
          let! _ := save_services items in
          let! _ := announce Bus "service.discovered" (PathValue r "project") (DiscoveredServices items) in
          writeJSON 200 items
      end).

(* src: internal/httpapi/deployment.go:97-108 (deploymentList) *)
Definition deploymentList (r : Request) : reply (list Deployment) :=
  available DeploymentStore ErrNoStore (λ store,
    settled 200 500 (outside (Deployments store (PathValue r "project")))).

(* src: internal/httpapi/deployment.go:205-239 (previewCreate) *)
Definition previewCreate (r : Request) (input : result Preview) : reply Preview :=
  decoded input (λ p,
    let p := p <| Preview_ProjectID := PathValue r "project" |> in
    match ValidateHostname (Preview_Hostname p) with
    | Some e => writeError 400 e
    | None =>
        let p := if decide (Preview_Environment p = EnvironmentOther "")
          then p <| Preview_Environment := PreviewEnv |> else p in
        let p := if decide (Preview_Status p = "") then p <| Preview_Status := "PENDING" |> else p in
        let! p := (if IsZero (Preview_CreatedAt p)
                   then let! now := outside time_Now in mret (p <| Preview_CreatedAt := now |>)
                   else mret p) in
        let p := p <| Preview_UpdatedAt := Preview_CreatedAt p |> in
        available Proxy ErrNoProxy (λ proxy,
          let! err := outside (CreateRoute proxy p) in
          match err with
          | Some e => writeError 502 e
          | None =>
              let p := p <| Preview_URL := URL proxy p |> in
              let! _ := announce Bus "preview.created" (Preview_ProjectID p) (PreviewEvent p) in
              writeJSON 201 p
          end)
    end).

(* src: internal/httpapi/deployment.go:240-253 (previewDelete) *)
Definition previewDelete (r : Request) : reply unit :=
  available Proxy ErrNoProxy (λ proxy,
    let! err := outside (DeleteRoute proxy (PathValue r "preview")) in
    match err with
    | Some e => writeError 502 e
    | None =>
        let! _ := announce Bus "preview.deleted" (PathValue r "project")
                    (PreviewDeleted (PathValue r "preview")) in
        writeJSON 204 tt
    end).
End services.

(** ** Deployments *)

(** The body of a request for a deployment. *)
Record create_input := mkCreate {
  In_Environment : Environment;
  In_Version : string;
  In_SourceRevision : string;
  In_RuntimeTarget : string;
  In_ReleaseID : string;
  In_Strategy : DeploymentStrategy;
  In_Metadata : gmap string any
}.

Section deployments.
Context `{MapOrder} {W : Type}.
Variable DeploymentManager : option (Manager W).
Variable DeploymentStore : option (Store W).
Variable Bus : option (string → string → deploy_event → M W unit).
Notation C A := (M (mstate * W) A).
Notation reply A := (C (Response (Z * A))).
Notation saved := (saved DeploymentStore).

Definition ErrNoManager : string := "deployment manager unavailable".

(* src: internal/httpapi/deployment.go:109-124 (deploymentGet) *)
Definition deploymentGet (r : Request) : reply Deployment :=
  available DeploymentManager ErrNoManager (λ m,
    let! (item, err) := GetDeployment (PathValue r "deployment") in
    match err with
    | Some e => writeError 404 e
    | None =>
        if decide (Deployment_ProjectID item = PathValue r "project") then writeJSON 200 item
        else writeError 404 (ErrorString "deployment not found")
    end).

(** The goroutine of a deployment. *)
(* src: internal/httpapi/deployment.go:175-180 (deploymentCreate) *)
Definition deploy_created (m : Manager W) (created : Deployment) (rel : deployment.Release) : C unit :=
  let! (final, _) := Deploy m (Deployment_ID created) rel
    (mkConfig (Deployment_ProjectID created) (Deployment_Environment created) ∅ [] 0 0 0 ∅) in
  saved (λ store, SaveDeployment store final).

(** The answer, and the goroutine that is left running.  [CreateRelease] and
    [CreateDeployment] never fail. *)
(* src: internal/httpapi/deployment.go:125-182 (deploymentCreate) *)
Definition deploymentCreate (r : Request) (input : result create_input) : reply (Deployment * C unit) :=
  available DeploymentManager ErrNoManager (λ m,
    decoded input (λ input,
      let project := PathValue r "project" in
      let environment := if decide (In_Environment input = EnvironmentOther "")
        then Development else In_Environment input in
      let strategy := if decide (In_Strategy input = StrategyOther "")
        then StrategyRecreate else In_Strategy input in
      if decide (In_SourceRevision input = "") then writeError 400 (ErrorString "source_revision is required")
      else match In_Metadata input !! "verification_run_id" with
      | None => writeError 400 (ErrorString "verification_run_id is required")
      | Some _ =>
          let! release := CreateRelease m (mkRelease "" project (In_SourceRevision input) []
            {["version" := AnyString (In_Version input)]} environment "" "" ReleaseCreated time_zero) in
          let! item := CreateDeployment m (mkDeployment "" project environment (In_Version input)
            (In_SourceRevision input) (In_RuntimeTarget input) (Release_ID release) strategy
            (DeploymentStatusOther "") "" "" (In_Metadata input) time_zero None None) in
          let! _ := saved (λ store, SaveRelease store release) in
          let! _ := saved (λ store, SaveDeployment store item) in
          writeJSON 202 (item, deploy_created m item release)
      end)).

(* src: internal/httpapi/deployment.go:183-197 (deploymentRollback) *)
Definition deploymentRollback (r : Request) : reply Deployment :=
  available DeploymentManager ErrNoManager (λ m,
    let! (item, err) := Rollback m (PathValue r "project") (PathValue r "deployment") in
    match err with
    | Some e => writeError 409 e
    | None => let! _ := saved (λ store, SaveDeployment store item) in writeJSON 200 item
    end).

(* src: internal/httpapi/deployment.go:198-204 (releaseList) *)
Definition releaseList (r : Request) : reply (list deployment.Release) :=
  available DeploymentManager ErrNoManager (λ m,
    let! l := look (λ st, Releases st (PathValue r "project")) in writeJSON 200 l).

(* src: internal/httpapi/deployment.go:319-343 (healthCheckRun) *)
Definition healthCheckRun (r : Request) (input : result HealthCheck) : reply HealthCheck :=
  available (m ← DeploymentManager; Manager_Health m) "health checker unavailable" (λ check,
    decoded input (λ c,
      let c := c <| Check_ProjectID := PathValue r "project" |> in
      if bool_decide (Check_RuntimeID c = "") || bool_decide (Target c = "")
      then writeError 400 (ErrorString "runtime_id and target are required")
      else
        let! (result, err) := outside (check c) in
        match err with
        | Some _ => writeJSON 502 result
        | None =>
            let! _ := announce Bus "health.passed" (Check_ProjectID c) (HealthPassed result) in
            writeJSON 200 result
        end)).
End deployments.

(** ** Domains *)

Section domains.
Context `{MapOrder} `{strings.GoUnicode} {W : Type} `{World W}.
Variable Infrastructure : bool.
Variable Certificates : option (CertificateProvider W).
Variable Bus : option (string → string → deploy_event → M W unit).
Notation C A := (M (Catalog * W) A).
Notation reply A := (C (Response (Z * A))).

Definition with_catalog {A} (k : reply A) : reply A :=
  if Infrastructure then k else writeError 503 (ErrorString "infrastructure catalog unavailable").

(* src: internal/httpapi/deployment.go:254-254 (normalizeHostname) *)
Definition normalizeHostname (hostname : string) : string :=
  strings.ToLower (strings.TrimSpace hostname).

(* src: internal/httpapi/deployment.go:256-262 (previewList) *)
Definition previewList (r : Request) : reply (list Preview) :=
  with_catalog (let! l := look (Previews (PathValue r "project")) in writeJSON 200 l).

(* src: internal/httpapi/deployment.go:263-284 (domainCreate) *)
Definition domainCreate (r : Request) (input : result Domain) : reply Domain :=
  with_catalog (decoded input (λ d,
    let d := d <| Domain_ProjectID := PathValue r "project" |>
               <| Hostname := normalizeHostname (Hostname d) |> in
    let! (saved, err) := SaveDomain d in
    match err with
    | Some e => writeError 400 e
    | None =>
        let! _ := announce Bus "domain.created" (Domain_ProjectID d) (DomainEvent saved) in
        writeJSON 201 saved
    end)).

(* src: internal/httpapi/deployment.go:285-291 (domainList) *)
Definition domainList (r : Request) : reply (list Domain) :=
  with_catalog (let! l := look (Domains (PathValue r "project")) in writeJSON 200 l).

(** The first domain of the project with the identifier, if it is not empty. *)
(* src: internal/httpapi/deployment.go:292-317 (certificateIssue) *)
Definition certificateIssue (r : Request) : reply Certificate :=
  with_catalog (
    let! found := look (λ c, head (filter (λ d, Domain_ID d = PathValue r "domain")
                                     (Domains (PathValue r "project") c))) in
    let domain := default zero_Domain found in
    if decide (Domain_ID domain = "") then writeError 404 (ErrorString "domain not found")
    else
      let! (certificate, err) := IssueCertificate Certificates domain in
      match err with
      | Some e => writeError 502 e
      | None =>
          let! _ := announce Bus "domain.tls_ready" (Domain_ProjectID domain)
                      (CertificateEvent certificate) in
          writeJSON 202 certificate
      end).
End domains.

(** ** What a request for a deployment leaves *)

Section facts.
Context {W : Type}.
Notation C A := (M (mstate * W) A).

Lemma saved_inv (store : option (Store W)) save (sw sw' : mstate * W) u :
  saved store save sw = (u, sw') → sw'.1 = sw.1.
Proof.
  unfold saved. destruct store; [|by intros [_ <-]%mret_inv].
  by intros (e & sw1 & [_ Hs]%outside_inv & [_ <-]%mret_inv)%mthen_inv.
Qed.

Lemma CreateRelease_inv (m : Manager W) rel st w rel' st' w' :
  Release_ID rel = "" → Release_Status rel = ReleaseCreated →
  CreateRelease m rel (st, w) = (rel', (st', w')) →
  Release_ProjectID rel' = Release_ProjectID rel ∧ GitRevision rel' = GitRevision rel ∧
  Release_Status rel' = ReleaseCreated ∧ Release_ID rel' ≠ "" ∧
  st' = st <| releases := <[Release_ID rel' := rel']> (releases st) |>.
Proof.
  intros Hid Hst (r1 & [st1 w1] & H1 & Hk)%mthen_inv. rewrite decide_True in H1 by done.
  apply mthen_inv in H1 as (now & [st2 w2] & [_ Hs]%outside_inv & [<- [= <- <-]]%mret_inv).
  cbn [fst] in Hs. subst st2.
  apply mthen_inv in Hk as (r2 & [st3 w3] & H2 & Hk).
  assert (st3 = st ∧ Release_ProjectID r2 = Release_ProjectID rel ∧ GitRevision r2 = GitRevision rel ∧
    Release_Status r2 = ReleaseCreated ∧ Release_ID r2 ≠ "") as (-> & Hp & Hg & Hs2 & Hne).
  { destruct (IsZero _).
    - apply mthen_inv in H2 as (t & sw & [_ Hs]%outside_inv & [<- ->]%mret_inv). by cbn [fst] in Hs; subst st3.
    - by apply mret_inv in H2 as [<- [= <- <-]]. }
  apply mthen_inv in Hk as (u & sw & Hm%modify_inv & [<- ->]%mret_inv). injection Hm as -> _.
  rewrite Hs2. by rewrite decide_False.
Qed.

Lemma emit_fields (m : Manager W) kind d (sw sw' : mstate * W) u :
  emit m kind d sw = (u, sw') →
  releases sw'.1 = releases sw.1 ∧ active sw'.1 = active sw.1 ∧ deployments sw'.1 = deployments sw.1.
Proof.
  unfold emit. destruct (Manager_Events m); [by intros ->%modify_inv|by intros [_ <-]%mret_inv].
Qed.

Lemma CreateDeployment_inv (m : Manager W) d st w d' st' w' :
  Deployment_ID d = "" → Deployment_Status d = DeploymentStatusOther "" →
  CreateDeployment m d (st, w) = (d', (st', w')) →
  Deployment_ProjectID d' = Deployment_ProjectID d ∧ SourceRevision d' = SourceRevision d ∧
  ReleaseID d' = ReleaseID d ∧ Deployment_Metadata d' = Deployment_Metadata d ∧
  Deployment_Status d' = DeploymentPending ∧ Deployment_ID d' ≠ "" ∧
  deployments st' = <[Deployment_ID d' := d']> (deployments st) ∧
  releases st' = releases st ∧ active st' = active st.
Proof.
  intros Hid Hst (d1 & [st1 w1] & H1 & Hk)%mthen_inv. rewrite decide_True in H1 by done.
  apply mthen_inv in H1 as (now & [st2 w2] & [_ Hs]%outside_inv & [<- [= <- <-]]%mret_inv).
  cbn [fst] in Hs. subst st2.
  apply mthen_inv in Hk as (t & [st3 w3] & [_ Hs]%outside_inv & Hk). cbn [fst] in Hs. subst st3.
  cbv zeta in Hk. lazymatch type of Hk with
  | context [put_deployment _ ?x] => assert (Deployment_ProjectID x = Deployment_ProjectID d ∧
      SourceRevision x = SourceRevision d ∧ ReleaseID x = ReleaseID d ∧
      Deployment_Metadata x = Deployment_Metadata d ∧ Deployment_Status x = DeploymentPending ∧
      Deployment_ID x ≠ "") as Hx by (cbn; by rewrite Hst); revert Hx Hk; generalize x; intros d2 Hx Hk
  end.
  apply mthen_inv in Hk as (u & sw4 & Hput%modify_inv & Hk). subst sw4.
  apply mthen_inv in Hk as (u2 & [st5 w5] & Hemit%emit_fields & [<- [= <- <-]]%mret_inv).
  cbn [fst] in Hemit. destruct Hemit as (-> & -> & ->), Hx as (? & ? & ? & ? & ? & ?). by split_and!.
Qed.

(** What an accepted request filed. *)
Record filed (mgr : Manager W) store (r : Request) (body : create_input) (st st' : mstate)
    (d : Deployment) (background : C unit) (rel : deployment.Release) (run : any) : Prop := {
  filed_revision : In_SourceRevision body ≠ "";
  filed_run : In_Metadata body !! "verification_run_id" = Some run;
  filed_project : Deployment_ProjectID d = PathValue r "project";
  filed_status : Deployment_Status d = DeploymentPending;
  filed_source : SourceRevision d = In_SourceRevision body;
  filed_metadata : Deployment_Metadata d = In_Metadata body;
  filed_release : ReleaseID d = Release_ID rel;
  filed_release_project : Release_ProjectID rel = PathValue r "project";
  filed_git : GitRevision rel = In_SourceRevision body;
  filed_deployments : deployments st' = <[Deployment_ID d := d]> (deployments st);
  filed_releases : releases st' = <[Release_ID rel := rel]> (releases st);
  filed_active : active st' = active st;
  filed_background : background = deploy_created store mgr d rel
}.
Lemma deploymentCreate_cases (m : option (Manager W)) store (r : Request) input st w resp st' w' :
  deploymentCreate m store r input (st, w) = (resp, (st', w')) →
  match resp with
  | Error _ _ _ => st' = st
  | Answer (code, (d, background)) => ∃ mgr body rel run,
      m = Some mgr ∧ input = Ok body ∧ code = 202 ∧ filed mgr store r body st st' d background rel run
  end.
Proof.
  unfold deploymentCreate, available, decoded. destruct m as [m|]; [|by intros [<- [= <- _]]%mret_inv].
  destruct input as [body|e]; [|by intros [<- [= <- _]]%mret_inv]. cbv zeta.
  case_decide as Hrev; [by intros [<- [= <- _]]%mret_inv|].
  destruct (In_Metadata body !! "verification_run_id") as [run|] eqn:Hrun; [|by intros [<- [= <- _]]%mret_inv].
  intros (rel & [st1 w1] & Hrel & Hk)%mthen_inv.
  apply CreateRelease_inv in Hrel as (Hp & Hg & _ & _ & ->); [|done..].
  apply mthen_inv in Hk as (item & [st2 w2] & Hd & Hk).
  apply CreateDeployment_inv in Hd as (Hdp & Hds & Hdr & Hdm & Hdst & _ & Hdep & Hrels & Hact); [|done..].
  apply mthen_inv in Hk as (u & [st3 w3] & Hs1%saved_inv & Hk).
  apply mthen_inv in Hk as (u2 & [st4 w4] & Hs2%saved_inv & Hk). cbn [fst] in Hs1, Hs2. subst st4 st3.
  apply mret_inv in Hk as [<- [= <- <-]].
  exists m, body, rel, run. split_and!; [done..|by split].
Qed.

(** A request for a deployment.  When it is accepted, the request named a revision and
    a verification run; the release of that revision and a PENDING deployment of it are
    filed for the project of the path, the deployment with the release and the
    verification run of the request, and nothing else has changed in the manager; the
    goroutine that is started deploys what was filed. *)
Theorem deploymentCreate_correct (m : option (Manager W)) store (r : Request) input st w code d background st' w' :
  deploymentCreate m store r input (st, w) = (Answer (code, (d, background)), (st', w')) →
  ∃ mgr body rel run, m = Some mgr ∧ input = Ok body ∧ code = 202 ∧
    In_SourceRevision body ≠ "" ∧ In_Metadata body !! "verification_run_id" = Some run ∧
    Deployment_ProjectID d = PathValue r "project" ∧ Deployment_Status d = DeploymentPending ∧
    SourceRevision d = In_SourceRevision body ∧ Deployment_Metadata d = In_Metadata body ∧
    ReleaseID d = Release_ID rel ∧ Release_ProjectID rel = PathValue r "project" ∧
    GitRevision rel = In_SourceRevision body ∧
    deployments st' = <[Deployment_ID d := d]> (deployments st) ∧
    releases st' = <[Release_ID rel := rel]> (releases st) ∧ active st' = active st ∧
    background = deploy_created store mgr d rel.
Proof.
  intros (mgr & body & rel & run & -> & -> & -> & [])%deploymentCreate_cases.
  exists mgr, body, rel, run. by split_and!.
Qed.

(** A deployment is shown under its own project only. *)
Lemma deploymentGet_own (m : option (Manager W)) (r : Request) st w code d st' w' :
  deploymentGet m r (st, w) = (Answer (code, d), (st', w')) →
  deployments st !! PathValue r "deployment" = Some d ∧ Deployment_ProjectID d = PathValue r "project".
Proof.
  unfold deploymentGet, available. destruct m as [m|]; [|by intros [[=] _]%mret_inv].
  intros ([item err] & sw & [Hg _]%look_inv & Hk)%mthen_inv. cbn [fst] in Hg.
  destruct (deployments st !! _) as [d'|]; injection Hg as -> ->; [|by apply mret_inv in Hk as [[=] _]].
  case_decide; [|by apply mret_inv in Hk as [[=] _]]. by apply mret_inv in Hk as [[= <- <-] _].
Qed.
End facts.

(** ** Witness and findings *)

Section witness.
(** The commands that were run: where, and their words. *)
Definition commands_run : Type := list (string * list string).
Definition recording : runtime.Provider commands_run :=
  runtime.mkProvider commands_run "recording" (λ _, mret (runtime.mkRuntime "" "" runtime.StatusRunning, None))
    (λ _, mret None) (λ _, mret None) (λ _, mret None) (λ _, mret None)
    (λ _, mret (runtime.StatusRunning, None))
    (λ _ id c w, ((runtime.zero_ExecResult, None), w ++ [(id, runtime.Argv c)])).
#[local] Instance deploy_world : World commands_run := {| time_Now := mret 5; ctx_Err := mret None |}.
Definition recording_manager : Manager commands_run :=
  mkManager (Some recording) (Some (RuntimeDeploymentProvider (Some recording)))
    (Some (runtime_Check (Some recording))) None true (mret 7).
Definition deploy_request (project deployment : string) : Request :=
  mkRequest "POST" "" None {["project" := project; "deployment" := deployment]} None.
Definition shop_input : create_input :=
  mkCreate (EnvironmentOther "") "1" "abc" "rt-shop" "" (StrategyOther "")
    {["verification_run_id" := AnyString "run"]}.
Notation shop_deployed := (deploymentCreate (Some recording_manager) None
  (deploy_request "shop" "") (Ok shop_input) (NewManager, [])).

Lemma deploymentCreate_correct_witness :
  ∃ d background st w, shop_deployed = (Answer (202, (d, background)), (st, w)) ∧
    Deployment_ProjectID d = "shop" ∧ ReleaseID d ≠ "".
Proof.
  assert (match shop_deployed.1 with
          | Answer (_, (d, _)) => ReleaseID d ≠ "" | Error _ _ _ => False
          end) as Hs by (vm_compute; discriminate).
  destruct shop_deployed as [a [st w]] eqn:E. cbn [fst] in Hs.
  destruct a as [|[code [d background]]]; [destruct Hs|].
  destruct (deploymentCreate_correct (Some recording_manager) None (deploy_request "shop" "") (Ok shop_input)
    NewManager [] code d background st w E) as (mgr & body & rel & run & _ & _ & -> & _ & _ & Hp & _).
  exists d, background, st, w. split; [reflexivity|]. split; [exact Hp|exact Hs].
Defined.

(** The project of the path plays no part in a rollback: through any project, the active
    deployment of another one is deployed again and marked as rolled back. *)
Definition shop_active : mstate :=
  mkState ∅ {["d" := zero_Deployment <| Deployment_ID := "d" |> <| Deployment_ProjectID := "shop" |>
    <| Deployment_Status := DeploymentActive |>]} {["shop" := "d"]} [].
Lemma rollback_crosses_projects :
  match deploymentRollback (Some recording_manager) None (deploy_request "thief" "d") (shop_active, []) with
  | (Answer (200, d), _) => Deployment_ProjectID d = "shop" ∧ Deployment_Status d = DeploymentRolledBack
  | _ => False
  end.
Proof. split; vm_compute; reflexivity. Qed.

(** A health check is a shell command in a runtime, both named by the request. *)
Lemma health_check_runs_anything :
  let check := mkCheck "" "rt-shop" "" "" HealthHTTP "rm -rf /workspace" 0 0 0 0 0 "" "" time_zero in
  (healthCheckRun (Some recording_manager) None (deploy_request "thief" "") (Ok check) (NewManager, [])).2.2
    = [("rt-shop", ["sh"; "-lc"; "rm -rf /workspace"])].
Proof. vm_compute. reflexivity. Qed.

(** A preview is deleted by its identifier alone, through any project; and the identifier
    a request gives a preview is put into the URL of the proxy's administration as it is. *)
Definition caddy : ProxyProvider commands_run :=
  CaddyProxy (λ method url _ w, (Ok 200, w ++ [(method, [url])])) "http://caddy:2019".
Lemma preview_deleted_through_any_project :
  (previewDelete (S := unit) (Some caddy) None
    (mkRequest "DELETE" "" None {["project" := "thief"; "preview" := "shop"]} None) (tt, [])).2.2
    = [("DELETE", ["http://caddy:2019/config/apps/http/servers/suda/routes/shop"])].
Proof. vm_compute. reflexivity. Qed.
Lemma preview_identifier_in_url :
  let preview := mkPreview "../../../../../load" "" "" PreviewEnv "x.example.com" "" "" "" time_zero time_zero in
  (previewCreate (S := unit) (H0 := strings.ascii_unicode) (Some caddy) None (deploy_request "thief" "")
    (Ok preview) (tt, [])).2.2
    = [("PUT", ["http://caddy:2019/config/apps/http/servers/suda/routes/../../../../../load"])].
Proof. vm_compute. reflexivity. Qed.
End witness.
End httpdeploy.
