(* ===== verification/HttpProduct.v ===== *)
(** * The handlers of the product experience

    [src/internal/httpapi/product_experience.go]: design, knowledge, impact, contexts,
    the autonomous loop, governance, activity and visual checks.  The server and the
    product service share the maps of design systems and constitutions ([sstate] of
    [ProductExp.v]), as the commands wire them. *)

From S2P Require Import Prelude GoStrings World Runtime Float ProjIntel Environment ProjectComputer AgentTypes Knowledge Constitution DesignIntel Events ProductExp ProductLoop HttpApi HttpBase.
Import httpapi httpbase.

Module httpproduct.
Import productexperience productloop.

#[global] Instance eta_Input : Eta designintelligence.AnalysisInput := λ i,
  designintelligence.mkInput (designintelligence.Input_ProjectID i) (designintelligence.ProductDescription i)
    (designintelligence.Audience i) (designintelligence.Platform i) (designintelligence.Features i)
    (designintelligence.ExistingComponents i).
#[global] Instance eta_Constitution : Eta constitution.Constitution := λ c,
  constitution.mkConstitution (constitution.Constitution_ID c) (constitution.Constitution_ProjectID c)
    (constitution.Constitution_AgentID c) (constitution.Identity c) (constitution.Mission c)
    (constitution.Authority c) (constitution.Restrictions c) (constitution.DecisionRules c)
    (constitution.ToolRules c) (constitution.VerificationRules c) (constitution.SecurityRules c)
    (constitution.CollaborationRules c) (constitution.Constitution_Policy c).
#[global] Instance eta_ContextRequest : Eta ContextRequest := λ r,
  mkContextRequest (Request_ProjectID r) (Request_AgentID r) (Request_Role r) (Request_Task r)
    (Request_CurrentState r) (Request_AvailableTools r) (Request_RuntimeCapabilities r)
    (Request_VerificationRequirements r).
#[global] Instance eta_VisualRequest : Eta VisualQARequest := λ r,
  mkVisualRequest (Visual_ProjectID r) (Visual_ComputerID r) (Visual_Viewports r).

Definition ErrNoProduct : string := "product experience unavailable".
Definition ErrNoLoop : string := "autonomous loop unavailable".

(** ** Design, contexts and governance *)

Section product.
Context `{MapOrder} `{strings.GoUnicode} {W : Type} `{World W}.
(** Whether there is a design engine, the product service, and the stores. *)
Variable DesignIntelligence : bool.
Variable ProductExperience : option (Service W).
Variable SaveDesign : option (designintelligence.DesignSystem → M W (option goerror)).
Variable SaveLoop : option (LoopPlan → M W (option goerror)).
Variable SaveConstitution : option (constitution.Constitution → M W (option goerror)).
Variable GetConstitution : option (string → string → M W (constitution.Constitution * option goerror)).
Notation C A := (M (sstate * W) A).
Notation reply A := (C (Response (Z * A))).

(* src: internal/httpapi/product_experience.go:13-37 (analyzeDesign) *)
Definition analyzeDesign (r : Request) (input : result designintelligence.AnalysisInput)
    : reply designintelligence.Analysis :=
  if DesignIntelligence then
    decoded input (λ i,
      let i := i <| designintelligence.Input_ProjectID := PathValue r "project" |> in
      let! now := outside time_Now in
      match designintelligence.Analyze now i with
      | Err e => writeError 422 e
      | Ok out =>
          let system := designintelligence.Analysis_DesignSystem out in
          let! _ := modify (λ st, st <| DesignSystems := <[PathValue r "project" := system]> (DesignSystems st) |>) in
          let! _ := match SaveDesign with
                    | Some save => let! _ := outside (save system) in mskip
                    | None => mskip
                    end in
          writeJSON 200 out
      end)
  else writeError 503 (ErrorString "design intelligence unavailable").

(* src: internal/httpapi/product_experience.go:38-44 (getDesign) *)
Definition getDesign (r : Request) : reply designintelligence.DesignSystem :=
  let! found := look (λ st, DesignSystems st !! PathValue r "project") in
  match found with
  | Some d => writeJSON 200 d
  | None => writeError 404 (ErrorString "design system not found")
  end.

Definition settled {A} (failure code : Z) (c : C (A * option goerror)) : reply A :=
  let! (out, err) := c in
  match err with Some e => writeError failure e | None => writeJSON code out end.

(* src: internal/httpapi/product_experience.go:93-111 (analyzeImpact) *)
Definition analyzeImpact (r : Request) (input : result string) : reply ImpactAnalysis :=
  available ProductExperience ErrNoProduct (λ s,
    decoded input (λ root, settled 422 200 (Impact s (PathValue r "project") root))).

(** The body is what decoding left, next to its error, which a GET may have; the query
    fills in the agent and the task. *)
(* src: internal/httpapi/product_experience.go:112-135 (getAgentContext) *)
Definition getAgentContext (r : Request) (input : ContextRequest * option goerror)
    (agent_id task : string) : reply AgentContext :=
  available ProductExperience ErrNoProduct (λ s,
    let '(i, err) := input in
    match (if decide (Method r = "GET") then None else err) with
    | Some e => writeError 400 e
    | None =>
        let i := i <| Request_ProjectID := PathValue r "project" |> in
        let i := if decide (Request_AgentID i = "") then i <| Request_AgentID := agent_id |> else i in
        let i := if decide (Request_Task i = "") then i <| Request_Task := task |> else i in
        settled 422 200 (Assemble s i)
    end).

(* src: internal/httpapi/product_experience.go:136-157 (planAutonomousLoop) *)
Definition planAutonomousLoop (r : Request) (blocked : gmap string string) : reply LoopPlan :=
  available ProductExperience ErrNoProduct (λ s,
    let! (out, err) := PlanLoop s (PathValue r "project") blocked in
    match err, SaveLoop with
    | Some e, _ => writeError 422 e
    | None, None => writeJSON 200 out
    | None, Some save =>
        let! err := outside (save out) in
        match err with Some e => writeError 500 e | None => writeJSON 200 out end
    end).

(* src: internal/httpapi/product_experience.go:214-225 (evaluateGovernance) *)
Definition evaluateGovernance (input : result (constitution.Constitution * constitution.Action))
    : reply constitution.Decision_ :=
  decoded input (λ '(c, a), writeJSON 200 (constitution.Evaluate c a)).

(** The key of both maps of constitutions. *)
Definition key_of (project agent : string) : string := project +:+ ":" +:+ agent.

(* src: internal/httpapi/product_experience.go:285-308 (createConstitution) *)
Definition createConstitution (r : Request) (input : result constitution.Constitution)
    : reply constitution.Constitution :=
  decoded input (λ c,
    let c := c <| constitution.Constitution_ProjectID := PathValue r "project" |> in
    let agent := constitution.Constitution_AgentID c in
    let c := if decide (constitution.Constitution_ID c = "")
      then c <| constitution.Constitution_ID := "constitution_" +:+ PathValue r "project" +:+ "_" +:+ agent |>
      else c in
    match constitution.Validate c with
    | Some e => writeError 422 e
    | None =>
        let! _ := modify (λ st, st <| Constitutions :=
          <[key_of (PathValue r "project") agent := c]> (Constitutions st) |>) in
        let! _ := match SaveConstitution with
                  | Some save => let! _ := outside (save c) in mskip
                  | None => mskip
                  end in
        writeJSON 201 c
    end).

Definition not_found : reply constitution.Constitution :=
  writeError 404 (ErrorString "constitution not found").
(* src: internal/httpapi/product_experience.go:309-323 (getConstitution) *)
Definition getConstitution (r : Request) : reply constitution.Constitution :=
  let key := key_of (PathValue r "project") (PathValue r "agent") in
  let! kept := look (λ st, Constitutions st !! key) in
  match kept, GetConstitution with
  | Some c, _ => writeJSON 200 c
  | None, None => not_found
  | None, Some get =>
      let! (c, err) := outside (get (PathValue r "project") (PathValue r "agent")) in
      match err with
      | Some _ => not_found
      | None =>
          let! _ := modify (λ st, st <| Constitutions := <[key := c]> (Constitutions st) |>) in
          writeJSON 200 c
      end
  end.

(** ** The autonomous loop *)

Variable LoopCoordinator : option (Coordinator (sstate * W)).
Variable GetLoop : option (string → M (sstate * W) (LoopExecution * option goerror)).
Notation L A := (M (cstate * (sstate * W)) A).
Notation loop_reply A := (L (Response (Z * A))).

(** The goal and the blocked stages; an empty body is the zero value. *)
(* src: internal/httpapi/product_experience.go:158-183 (startAutonomousLoop) *)
Definition startAutonomousLoop (r : Request) (input : result (string * gmap string string))
    : loop_reply LoopExecution :=
  match ProductExperience, LoopCoordinator with
  | Some s, Some c =>
      decoded input (λ '(goal, blocked),
        let! (plan, err) := outside (PlanLoop s (PathValue r "project") blocked) in
        match err with
        | Some e => writeError 422 e
        | None =>
            let execution := mkExecution (plan <| Goal := goal |>) "" ∅ "" time_zero in
            let! err := Start c execution in
            match err with Some e => writeError 500 e | None => writeJSON 202 execution end
        end)
  | _, _ => writeError 503 (ErrorString ErrNoLoop)
  end.

(* src: internal/httpapi/product_experience.go:185-200 (getAutonomousLoop) *)
Definition getAutonomousLoop (r : Request) : loop_reply LoopExecution :=
  available GetLoop "product experience store unavailable" (λ get,
    let! (e, err) := outside (get (PathValue r "loop")) in
    match err with
    | Some x => writeError 404 x
    | None =>
        if decide (Plan_ProjectID (Execution_Plan e) = PathValue r "project") then writeJSON 200 e
        else writeError 404 (ErrorString "loop does not belong to project")
    end).

(* src: internal/httpapi/product_experience.go:202-212 (resumeAutonomousLoop) *)
Definition resumeAutonomousLoop (r : Request) : loop_reply (string * string) :=
  available LoopCoordinator ErrNoLoop (λ c,
    let! err := Resume c (PathValue r "loop") in
    match err with
    | Some e => writeError 409 e
    | None => writeJSON 202 ("RESUMING", PathValue r "loop")
    end).
End product.

(** ** Knowledge *)

Section knowledge_handlers.
Import knowledge.
Context {S W : Type}.
Variable KnowledgeStore : option (Store W).
Notation reply A := (M (S * W) (Response (Z * A))).
Definition ErrNoKnowledge : string := "knowledge graph unavailable".

Definition stored {A} (failure code : Z) (c : M W (A * option goerror)) : reply A :=
  let! (out, err) := outside c in
  match err with Some e => writeError failure e | None => writeJSON code out end.

(* src: internal/httpapi/product_experience.go:45-56 (getKnowledge) *)
Definition getKnowledge (r : Request) : reply Graph :=
  available KnowledgeStore ErrNoKnowledge (λ s, stored 500 200 (Store_Graph s (PathValue r "project"))).
(* src: internal/httpapi/product_experience.go:57-74 (upsertKnowledgeNode) *)
Definition upsertKnowledgeNode (r : Request) (input : result Node) : reply Node :=
  available KnowledgeStore ErrNoKnowledge (λ s,
    decoded input (λ n, stored 422 201 (UpsertNode s (n <| Node_ProjectID := PathValue r "project" |>)))).
(* src: internal/httpapi/product_experience.go:75-92 (upsertKnowledgeEdge) *)
Definition upsertKnowledgeEdge (r : Request) (input : result Edge) : reply Edge :=
  available KnowledgeStore ErrNoKnowledge (λ s,
    decoded input (λ e, stored 422 201 (UpsertEdge s (e <| Edge_ProjectID := PathValue r "project" |>)))).
End knowledge_handlers.

(** ** Activity and visual checks *)

Section activity.
Context {W : Type} (ActivityLog : bool).
Notation reply A := (M (gmap string (list Activity) * W) (Response (Z * A))).

(* src: internal/httpapi/product_experience.go:227-233 (getProjectActivity) *)
Definition getProjectActivity (r : Request) : reply (list Activity) :=
  if ActivityLog then
    let! l := look (λ items, List_ items (PathValue r "project")) in writeJSON 200 l
  else writeError 503 (ErrorString "activity projection unavailable").

(** What is written for the events the subscriber receives, [Marshal] being the text of an
    event in JSON. *)
Variable Marshal : events.Event → string.
Definition newline : string := "
".
(* src: internal/httpapi/product_experience.go:249-256 (projectActivityStream) *)
Definition activity_lines (project : string) (received : list events.Event) : list string :=
  (λ e, "event: " +:+ events.Event_Type e +:+ newline +:+ "data: " +:+ Marshal e +:+ newline +:+ newline) <$>
  filter (λ e, events.Event_ProjectID e = "" ∨ events.Event_ProjectID e = project) received.
(* src: internal/httpapi/product_experience.go:235-257 (projectActivityStream) *)
Definition projectActivityStream (bus flusher : bool) (r : Request) (received : list events.Event)
    : Response (Z * list string) :=
  if bus then
    if flusher then Answer (200, activity_lines (PathValue r "project") received)
    else httpapi.Error 500 "streaming unsupported" false
  else httpapi.Error 503 "event stream unavailable" false.
End activity.

Section visual.
Context {S W : Type}.
Variable Computers : option (string → M W (projectcomputer.ProjectComputer * option goerror)).
Definition default_viewports : list Viewport :=
  [mkViewport "mobile" 390 844; mkViewport "tablet" 1024 768; mkViewport "desktop" 1440 900].
(* src: internal/httpapi/product_experience.go:259-283 (runVisualQA) *)
Definition runVisualQA (r : Request) (input : result VisualQARequest)
    : M (S * W) (Response (Z * VisualQAResult)) :=
  decoded input (λ i,
    let i := i <| Visual_ProjectID := PathValue r "project" |> in
    if decide (Visual_ComputerID i = "") then writeError 400 (ErrorString "computer_id is required")
    else
      let i := match Visual_Viewports i with
               | [] => i <| Visual_Viewports := default_viewports |>
               | _ => i
               end in
      let! out := outside (visual_Run Computers i) in
      match out with
      | Err e => writeError 409 e
      | Ok out =>
          writeJSON (match Visual_Status out with
                     | VisualQABlocked | VisualQAUnsupported => 422
                     | _ => 200
                     end) out
      end).
End visual.

(** ** What is created is what is shown *)

Section facts.
Context `{MapOrder} `{strings.GoUnicode} {W : Type} `{World W}.

(** A constitution that is accepted is kept under its key and given to the store. *)
Lemma createConstitution_inv save r input st w code c st' w' :
  createConstitution (W := W) save r input (st, w) = (Answer (code, c), (st', w')) →
  code = 201 ∧ constitution.Validate c = None ∧
  constitution.Constitution_ProjectID c = PathValue r "project" ∧ constitution.Constitution_ID c ≠ "" ∧
  st' = st <| Constitutions := <[key_of (PathValue r "project") (constitution.Constitution_AgentID c) := c]>
                                 (Constitutions st) |> ∧
  match save with Some f => ∃ err, f c w = (err, w') | None => w' = w end.
Proof.
  unfold createConstitution, decoded. destruct input as [c0|e]; [|by intros [[=] _]%mret_inv]. cbv zeta.
  match goal with |- context [constitution.Validate ?x] =>
    assert (constitution.Constitution_ProjectID x = PathValue r "project" ∧
      constitution.Constitution_AgentID x = constitution.Constitution_AgentID c0 ∧
      constitution.Constitution_ID x ≠ "") as Hx by (cbn; by case_decide); revert Hx; generalize x end.
  intros c1 (Hp & Ha & Hid). destruct (constitution.Validate c1) as [e|] eqn:Hv; [by intros [[=] _]%mret_inv|].
  intros (u & [st1 w1] & Hm%modify_inv & Hk)%mthen_inv. injection Hm as -> ->.
  apply mthen_inv in Hk as (u2 & [st2 w2] & Hs & [[= <- <-] [= <- <-]]%mret_inv). rewrite Ha.
  do 4 (split; [done|]). destruct save as [f|]; [|by apply mret_inv in Hs as [_ [= <- <-]]].
  apply outside_then in Hs as (err & w3 & Hf & [_ [= <- <-]]%mret_inv). split; [done|by exists err].
Qed.

(** Constitutions.  A constitution that is accepted is valid, belongs to the project of
    the path and has an identifier; it is kept under the project and the agent, whatever
    the store says, and until that key is written again every request for the agent of
    the project gets exactly it, without a look at the store. *)
Theorem constitution_roundtrip save get r input st w code c st' w' :
  createConstitution (W := W) save r input (st, w) = (Answer (code, c), (st', w')) →
  code = 201 ∧ constitution.Validate c = None ∧
  constitution.Constitution_ProjectID c = PathValue r "project" ∧ constitution.Constitution_ID c ≠ "" ∧
  DesignSystems st' = DesignSystems st ∧
  (∀ key, key ≠ key_of (PathValue r "project") (constitution.Constitution_AgentID c) →
    Constitutions st' !! key = Constitutions st !! key) ∧
  ∀ r2 st2 w2, PathValue r2 "project" = PathValue r "project" →
    PathValue r2 "agent" = constitution.Constitution_AgentID c →
    (let key := key_of (PathValue r "project") (constitution.Constitution_AgentID c) in
     Constitutions st2 !! key = Constitutions st' !! key) →
    getConstitution (W := W) get r2 (st2, w2) = (Answer (200, c), (st2, w2)).
Proof.
  intros (-> & Hv & Hp & Hid & -> & _)%createConstitution_inv. do 5 (split; [done|]). split.
  - intros key Hkey. by apply lookup_insert_ne.
  - intros r2 st2 w3 Hrp Hra. cbn. rewrite lookup_insert_eq. intros Hst2.
    unfold getConstitution, mthen, look, inside. cbn [fst snd]. by rewrite Hrp, Hra, Hst2.
Qed.

(** The design of a project is the last one that was analysed for it. *)
Lemma design_roundtrip engine save r input st w code a st' w' :
  analyzeDesign (W := W) engine save r input (st, w) = (Answer (code, a), (st', w')) →
  ∀ r2 w2, PathValue r2 "project" = PathValue r "project" →
    getDesign (W := W) r2 (st', w2) = (Answer (200, designintelligence.Analysis_DesignSystem a), (st', w2)).
Proof.
  unfold analyzeDesign, decoded. destruct engine; [|by intros [[=] _]%mret_inv].
  destruct input as [i|e]; [|by intros [[=] _]%mret_inv].
  intros (now & [st1 w1] & [_ Hs]%outside_inv & Hk)%mthen_inv. cbn [fst] in Hs. subst st1.
  destruct (designintelligence.Analyze now _) as [out|e]; [|by apply mret_inv in Hk as [[=] _]].
  apply mthen_inv in Hk as (u & [st1 w2] & Hm%modify_inv & Hk). injection Hm as -> ->.
  apply mthen_inv in Hk as (u2 & [st2 w2] & Hs & [[= <- <-] [= <- <-]]%mret_inv).
  intros r2 w4 Hr. assert (DesignSystems st2 !! PathValue r "project" =
    Some (designintelligence.Analysis_DesignSystem out)) as Hd.
  { destruct save.
    - apply mthen_inv in Hs as (x & [st3 w3] & [_ Hs]%outside_inv & [_ [= <- _]]%mret_inv).
      cbn [fst] in Hs. subst. apply lookup_insert_eq.
    - apply mret_inv in Hs as [_ [= <- _]]. apply lookup_insert_eq. }
  unfold getDesign, mthen, look, inside. cbn [fst snd]. by rewrite Hr, Hd.
Qed.

(** An event without a project is shown to every project, and one of another project to
    none. *)
Lemma activity_lines_shown (Marshal : events.Event → string) project e :
  activity_lines Marshal project [e] ≠ [] ↔
  events.Event_ProjectID e = "" ∨ events.Event_ProjectID e = project.
Proof.
  unfold activity_lines. rewrite filter_cons. case_decide; [naive_solver|].
  split; [intros []; reflexivity|done].
Qed.
End facts.

(** ** Witness and findings *)

Section witness.
#[local] Instance product_world : World unit := {| time_Now := mret 5; ctx_Err := mret None |}.

Definition path (project agent loop : string) : Request :=
  mkRequest "GET" "" None {["project" := project; "agent" := agent; "loop" := loop]} None.
Definition rules (agent mission : string) : constitution.Constitution :=
  constitution.mkConstitution "" "" agent "builder" mission ["build"] ["deploy"] [] ∅ ["test"] [] []
    (agent.mkPolicy "" "" [] []).
Definition created (project agent mission : string) (sw : sstate * unit) :=
  createConstitution None (path project "" "") (Ok (rules agent mission)) sw.
Definition mission_of (a : Response (Z * constitution.Constitution)) : option string :=
  match a with Answer (_, c) => Some (constitution.Mission c) | _ => None end.

Lemma constitution_roundtrip_witness :
  let sw := (created "shop" "ann" "ship" (NewService, tt)).2 in
  mission_of (getConstitution None (path "shop" "ann" "") sw).1 = Some "ship".
Proof.
  cbv zeta. destruct (created "shop" "ann" "ship" (NewService, tt)) as [a [st' []]] eqn:E.
  assert (match a with Answer (_, c) => constitution.Mission c = "ship" ∧ constitution.Constitution_AgentID c = "ann"
    | httpapi.Error _ _ _ => False end) as Ha.
  { assert (a = (created "shop" "ann" "ship" (NewService, tt)).1) as -> by by rewrite E.
    vm_compute. by split. }
  destruct a as [|[code c]]; [destruct Ha|]. destruct Ha as [Hmission Hagent].
  destruct (constitution_roundtrip (W := unit) None None (path "shop" "" "") (Ok (rules "ann" "ship"))
    NewService tt code c st' tt E) as (_ & _ & _ & _ & _ & _ & Hget).
  cbn [snd]. rewrite (Hget (path "shop" "ann" "") st' tt); [by rewrite <-Hmission|reflexivity| |reflexivity].
  by rewrite Hagent.
Defined.

(** The project and the agent are joined by a colon, which either may contain: agent
    [b:c] of project [a] and agent [c] of project [a:b] have one constitution. *)
Lemma constitutions_collide :
  let sw := (created "a" "b:c" "first" (NewService, tt)).2 in
  let sw := (created "a:b" "c" "second" sw).2 in
  mission_of (getConstitution None (path "a" "b:c" "") sw).1 = Some "second".
Proof. vm_compute. reflexivity. Qed.

(** The loop of a project has one identifier; a second start replaces the stored
    execution, with its results, while the first may still run. *)
Definition loop_world : Type := sstate * LoopExecution.
Definition loop_coordinator : Coordinator loop_world :=
  mkCoordinator (Some (mkLoopStore (λ e, outside (λ _, (None, e))) (λ _, outside (λ e, ((e, None), e)))
    (outside (λ e, (([e], None), e))))) (Some (λ _ stage, mret (mkStageResult stage "COMPLETED" "" ∅ 0 0, None)))
    (mret 9).
#[local] Instance loop_order : MapOrder := canonical_order.
Definition half_done : LoopExecution :=
  mkExecution (mkPlan "loop_shop" "sell" "shop" [Plan] ∅ "RUNNING" [] 0) Plan
    {["PLAN" := mkStageResult Plan "COMPLETED" "" ∅ 0 0]} "" 0.
Lemma restart_forgets_results :
  let '(a, (st, (_, stored))) := startAutonomousLoop (Some loop_service) (Some loop_coordinator)
    (path "shop" "" "") (Ok ("sell", ∅)) (mkCState {["loop_shop"]} [], (NewService, half_done)) in
  (match a with Answer (code, _) => code | _ => 0 end) = 202 ∧ Plan_ID (Execution_Plan stored) = "loop_shop" ∧
  Results stored !! "PLAN" = None ∧ spawned st = ["loop_shop"].
Proof. vm_compute. by split_and!. Qed.

(** Reading a loop asks for its project; resuming it does not. *)
Lemma resume_crosses_projects :
  let sw := (NewCoordinator, (NewService, half_done)) in
  (getAutonomousLoop (Some (λ _, outside (λ e, ((e, None), e)))) (path "thief" "" "loop_shop") sw).1
    = httpapi.Error 404 "loop does not belong to project" false ∧
  (resumeAutonomousLoop (Some loop_coordinator) (path "thief" "" "loop_shop") sw).1
    = Answer (202, ("RESUMING", "loop_shop")) ∧
  spawned (resumeAutonomousLoop (Some loop_coordinator) (path "thief" "" "loop_shop") sw).2.1 = ["loop_shop"].
Proof. split_and!; vm_compute; reflexivity. Qed.
End witness.
End httpproduct.
