(* ===== verification/HttpServer.v ===== *)
(** * The server: routes and middlewares

    [Handler] of [src/internal/httpapi/server.go]: the table of routes, the multiplexer of
    [net/http] as far as these patterns use it, and the chain of middlewares in front of
    it, with [observability.go] and the rest of [security.go].  A handler is given whether
    the connection can be flushed; the middlewares of [HttpApi.v] are its core. *)

From S2P Require Import Prelude GoStrings World Runtime Events Auth HttpApi HttpProduct.
Import crypto auth httpapi.

Module httpserver.

(** ** Routes *)

Inductive segment := Literal (s : string) | Wildcard (name : string).
#[global] Instance segment_eq_dec : EqDecision segment.
Proof. solve_decision. Defined.

(** The segments of a pattern. *)
Definition parse_segment (s : string) : segment :=
  if strings.HasPrefix s "{" && strings.HasSuffix s "}"
  then Wildcard (strings.TrimSuffix (strings.TrimPrefix s "{") "}")
  else Literal s.
Record route := mkRoute { Route_Method : string; Pattern : list segment; Name : string }.
#[global] Instance route_eq_dec : EqDecision route.
Proof. solve_decision. Defined.
Definition parse_route (e : string * string * string) : route :=
  let '(method, pattern, name) := e in
  mkRoute method (parse_segment <$> tail (strings.Split pattern "/")) name.

(* src: internal/httpapi/server.go:86-219 (Handler) *)
Definition registered : list (string * string * string) :=
  [("GET", "/auth/status", "authStatus");
   ("POST", "/auth/bootstrap", "authBootstrap");
   ("POST", "/auth/login", "authLogin");
   ("POST", "/auth/logout", "authLogout");
   ("GET", "/auth/me", "authMe");
   ("POST", "/auth/sessions/revoke-all", "authRevokeAll");
   ("GET", "/healthz", "healthz");
   ("GET", "/health", "health");
   ("GET", "/ready", "ready");
   ("GET", "/api/v1/events", "events");
   ("GET", "/api/agents", "listAgents");
   ("GET", "/api/providers", "listProviders");
   ("GET", "/api/models", "listModels");
   ("GET", "/api/models/{id}", "getModel");
   ("GET", "/api/providers/{id}", "getProvider");
   ("POST", "/api/model-routing/decide", "decideModel");
   ("POST", "/api/projects/{project}/intelligence/analyze", "analyzeProject");
   ("POST", "/api/projects/{project}/environment/manifests", "createEnvironmentManifest");
   ("POST", "/api/projects/{project}/provisioning/plans", "planProvisioning");
   ("POST", "/api/provisioning/{run}/start", "startProvisioning");
   ("GET", "/api/provisioning/{run}", "getProvisioning");
   ("POST", "/api/provisioning/{run}/cancel", "cancelProvisioning");
   ("POST", "/api/provisioning/{run}/resume", "resumeProvisioning");
   ("POST", "/api/provisioning/{run}/cleanup", "cleanupProvisioning");
   ("GET", "/api/project-computers", "listProjectComputers");
   ("POST", "/api/project-computers", "createProjectComputer");
   ("GET", "/api/project-computers/{id}", "getProjectComputer");
   ("POST", "/api/project-computers/{id}/start", "startProjectComputer");
   ("POST", "/api/project-computers/{id}/stop", "stopProjectComputer");
   ("POST", "/api/project-computers/{id}/restart", "restartProjectComputer");
   ("POST", "/api/project-computers/{id}/verify", "verifyProjectComputer");
   ("POST", "/api/project-computers/{id}/rebuild", "rebuildProjectComputer");
   ("DELETE", "/api/project-computers/{id}", "destroyProjectComputer");
   ("GET", "/api/tools", "listSharedTools");
   ("GET", "/api/tools/{id}", "getSharedTool");
   ("GET", "/api/tools/{id}/versions", "listSharedToolVersions");
   ("GET", "/api/cache", "cacheOverview");
   ("GET", "/api/cache/artifacts", "cacheOverview");
   ("GET", "/api/cache/stats", "cacheStats");
   ("POST", "/api/projects/{project}/environment/resolve", "resolveEnvironment");
   ("POST", "/api/projects/{project}/environment/verify", "verifyProjectEnvironment");
   ("POST", "/api/projects/{project}/environment/repair", "repairProjectEnvironment");
   ("POST", "/api/projects/{project}/design/analyze", "analyzeDesign");
   ("GET", "/api/projects/{project}/design", "getDesign");
   ("GET", "/api/projects/{project}/knowledge", "getKnowledge");
   ("GET", "/api/projects/{project}/knowledge/graph", "getKnowledge");
   ("POST", "/api/projects/{project}/knowledge/nodes", "upsertKnowledgeNode");
   ("POST", "/api/projects/{project}/knowledge/edges", "upsertKnowledgeEdge");
   ("POST", "/api/projects/{project}/impact/analyze", "analyzeImpact");
   ("GET", "/api/projects/{project}/agent-context", "getAgentContext");
   ("POST", "/api/projects/{project}/autonomous-loop/plan", "planAutonomousLoop");
   ("POST", "/api/projects/{project}/autonomous-loop/start", "startAutonomousLoop");
   ("GET", "/api/projects/{project}/autonomous-loop/{loop}", "getAutonomousLoop");
   ("POST", "/api/projects/{project}/autonomous-loop/{loop}/resume", "resumeAutonomousLoop");
   ("POST", "/api/projects/{project}/governance/evaluate", "evaluateGovernance");
   ("POST", "/api/projects/{project}/constitutions", "createConstitution");
   ("GET", "/api/projects/{project}/constitutions/{agent}", "getConstitution");
   ("GET", "/api/projects/{project}/activity", "getProjectActivity");
   ("GET", "/api/projects/{project}/activity/stream", "projectActivityStream");
   ("GET", "/api/projects/{project}/audit", "listProjectAudit");
   ("GET", "/api/projects/{project}/members", "listProjectMembers");
   ("PUT", "/api/projects/{project}/members/{user}", "setProjectMember");
   ("DELETE", "/api/projects/{project}/members/{user}", "removeProjectMember");
   ("POST", "/api/projects/{project}/visual-qa", "runVisualQA");
   ("POST", "/api/projects/{project}/plans", "createPlan");
   ("POST", "/api/projects/{project}/workflows", "createWorkflow");
   ("GET", "/api/projects/{project}/workflows/{workflow}", "getWorkflow");
   ("POST", "/api/projects/{project}/workflows/{workflow}/cancel", "cancelWorkflow");
   ("POST", "/api/verifications", "createVerification");
   ("GET", "/api/verifications/{id}", "getVerification");
   ("POST", "/api/verifications/{id}/cancel", "cancelVerification");
   ("POST", "/api/verifications/{id}/repair", "repairVerification");
   ("GET", "/api/verifications/{id}/artifacts", "verificationArtifacts");
   ("GET", "/api/ai/runtimes", "aiRuntimes");
   ("GET", "/api/ai/runtimes/{id}", "aiRuntime");
   ("POST", "/api/ai/runtimes/{id}/start", "aiRuntimeStart");
   ("POST", "/api/ai/runtimes/{id}/stop", "aiRuntimeStop");
   ("POST", "/api/ai/runtimes/{id}/health", "aiRuntimeHealth");
   ("GET", "/api/ai/models", "aiModels");
   ("GET", "/api/ai/models/{id}", "aiModel");
   ("POST", "/api/ai/models/discover", "aiModelsDiscover");
   ("POST", "/api/ai/models/install", "aiModelInstall");
   ("POST", "/api/ai/models/load", "aiModelLoad");
   ("POST", "/api/ai/models/unload", "aiModelUnload");
   ("GET", "/api/ai/hardware", "aiHardware");
   ("GET", "/api/ai/gpus", "aiGPUs");
   ("GET", "/api/ai/health", "aiHealth");
   ("POST", "/api/ai/inference", "aiInference");
   ("POST", "/api/ai/inference/stream", "aiInferenceStream");
   ("GET", "/api/projects/{project}/ai-settings", "aiProjectSettings");
   ("GET", "/api/projects/{project}/services", "deploymentServices");
   ("POST", "/api/projects/{project}/services/discover", "deploymentDiscoverServices");
   ("GET", "/api/projects/{project}/ports", "deploymentPorts");
   ("POST", "/api/projects/{project}/ports", "deploymentReservePort");
   ("GET", "/api/projects/{project}/deployments", "deploymentList");
   ("POST", "/api/projects/{project}/deployments", "deploymentCreate");
   ("GET", "/api/projects/{project}/deployments/{deployment}", "deploymentGet");
   ("POST", "/api/projects/{project}/deployments/{deployment}/rollback", "deploymentRollback");
   ("GET", "/api/projects/{project}/releases", "releaseList");
   ("POST", "/api/projects/{project}/health-checks", "healthCheckRun");
   ("POST", "/api/projects/{project}/previews", "previewCreate");
   ("DELETE", "/api/projects/{project}/previews/{preview}", "previewDelete");
   ("GET", "/api/projects/{project}/previews", "previewList");
   ("POST", "/api/projects/{project}/domains", "domainCreate");
   ("GET", "/api/projects/{project}/domains", "domainList");
   ("POST", "/api/projects/{project}/domains/{domain}/certificate", "certificateIssue");
   ("PUT", "/api/projects/{project}/ai-settings", "aiUpdateProjectSettings");
   ("GET", "/api/tasks/{id}/verifications", "taskVerifications");
   ("POST", "/api/projects/{project}/workflows/{workflow}/tasks/{task}/approvals", "requestApproval");
   ("POST", "/api/projects/{project}/workflows/{workflow}/approvals/{approval}/resolve", "resolveApproval");
   ("GET", "/api/projects/{project}/agents", "listAgents");
   ("POST", "/api/projects/{project}/agent-sessions", "createAgentSession");
   ("GET", "/api/projects/{project}/agent-sessions", "listAgentSessions");
   ("POST", "/api/projects/{project}/agent-sessions/{session}/start", "startAgentSession");
   ("POST", "/api/projects/{project}/agent-sessions/{session}/messages", "sendAgentMessage");
   ("POST", "/api/projects/{project}/agent-sessions/{session}/cancel", "cancelAgentSession");
   ("GET", "/api/projects/{project}/agent-sessions/{session}/events", "listAgentEvents");
   ("GET", "/api/v1/projects", "listProjects");
   ("POST", "/api/v1/projects", "createProject");
   ("GET", "/api/v1/projects/{id}", "getProject");
   ("POST", "/api/v1/projects/{id}/start", "startProject");
   ("POST", "/api/v1/projects/{id}/stop", "stopProject")].
Definition routes : list route := parse_route <$> registered.

(** The values of the wildcards when the segments of a path match a pattern. *)
Fixpoint match_segments (p : list segment) (path : list string) : option (gmap string string) :=
  match p, path with
  | [], [] => Some ∅
  | Literal s :: p, x :: path => if decide (s = x) then match_segments p path else None
  | Wildcard name :: p, x :: path =>
      if decide (x = "") then None else insert name x <$> match_segments p path
  | _, _ => None
  end.
(** A pattern for GET is one for HEAD too. *)
Definition method_matches (r : route) (method : string) : bool :=
  bool_decide (Route_Method r = method) ||
  bool_decide (Route_Method r = "GET") && bool_decide (method = "HEAD").

(** The routes for a method and the segments of a path, with the values of the wildcards. *)
Definition matching (method : string) (path : list string) : list (route * gmap string string) :=
  omap (λ r, if method_matches r method then (r,.) <$> match_segments (Pattern r) path else None) routes.
Definition path_known (path : list string) : bool :=
  existsb (λ r, bool_decide (is_Some (match_segments (Pattern r) path))) routes.

(** ** The chain of handlers *)

(** [url.Parse]: the scheme and the host of a text it accepts, and the text a segment of a
    path stands for. *)
Class URLs := { url_Parse : string → option (string * string); PathUnescape : string → string }.

(** A request with its headers and the segments of its path as they were sent. *)
Record incoming := mkIncoming {
  Req : Request;
  Segments : list string;
  Header : string → string;
  Host : string;
  TLS : bool
}.
(** The decoded segments, which patterns are matched with. *)
Definition decoded_path `{URLs} (i : incoming) : list string := PathUnescape <$> Segments i.
(** As the server receives it. *)
Definition received `{URLs} (i : incoming) : Prop :=
  Path (Req i) = "/" +:+ strings.Join (decoded_path i) "/" ∧ PathValues (Req i) = ∅ ∧ Principal (Req i) = None.

(** The headers of the response, and whether the connection is an [http.Flusher]. *)
Record writer := mkWriter { headers : gmap string string; can_flush : bool }.

Section chain.
Context {W A : Type} `{World W} `{Sha256} `{URLs} `{strings.GoUnicode}.
Variable Server_Auth : option (AuthService W).
(** The routed handlers by their names, given whether the connection can be flushed. *)
Variable handlers : string → bool → Handler W A.
(** The code of an answer, the counter of requests and the log. *)
Variable code_of : A → Z.
Variable next_sequence : M W Z.
Variable log : string → string → string → Z → Z → M W unit.
Definition stage : Type := writer → incoming → M W (writer * Response A).

(** A path with empty or dotted segments is redirected. *)
Definition unclean (path : list string) : bool :=
  existsb (λ s, bool_decide (s ∈ ["."; ".."])) path ||
  existsb (λ s, bool_decide (s = "")) (removelast path).
Definition serve_mux (flusher : bool) (path : list string) : Handler W A := λ r,
  let decoded := PathUnescape <$> path in
  if negb (bool_decide (Method r = "CONNECT")) && unclean path then mret (Error 301 "" false)
  else match matching (Method r) decoded with
       | (rt, values) :: _ => handlers (Name rt) flusher (r <| PathValues := values |>)
       | [] => mret (if path_known decoded then Error 405 "Method Not Allowed" false
                     else Error 404 "404 page not found" false)
       end.

Definition set_header (k v : string) (w : writer) : writer := mkWriter (<[k := v]> (headers w)) (can_flush w).

(* src: internal/httpapi/server.go:645-650 (withJSON) *)
Definition withJSON (next : stage) : stage := λ w, next (set_header "Content-Type" "application/json" w).

(* src: internal/httpapi/security.go:51-59 (securityHeaders) *)
Definition securityHeaders (next : stage) : stage := λ w,
  next (set_header "Permissions-Policy" "camera=(), microphone=(), geolocation=()"
         (set_header "Referrer-Policy" "strict-origin-when-cross-origin"
           (set_header "X-Frame-Options" "DENY" (set_header "X-Content-Type-Options" "nosniff" w)))).

(** [strings.TrimSpace(strings.Split(v, ",")[0])] *)
Definition first_of (v : string) : string := strings.TrimSpace (default "" (head (strings.Split v ","))).
(* src: internal/httpapi/security.go:85-105 (requestOriginMatches) *)
Definition requestOriginMatches (i : incoming) (origin : string) : bool :=
  match url_Parse origin with
  | None => false
  | Some (oscheme, ohost) =>
      if bool_decide (oscheme = "") || bool_decide (ohost = "") then false
      else
        let scheme := first_of (Header i "X-Forwarded-Proto") in
        let scheme := if decide (scheme = "") then (if TLS i then "https" else "http") else scheme in
        let host := first_of (Header i "X-Forwarded-Host") in
        let host := if decide (host = "") then Host i else host in
        strings.EqualFold oscheme scheme && strings.EqualFold ohost host
  end.

(* src: internal/httpapi/security.go:64-77 (sameOriginGuard) *)
Definition sameOriginGuard (next : stage) : stage := λ w i,
  if bool_decide (Method (Req i) ∈ ["GET"; "HEAD"; "OPTIONS"]) then next w i
  else
    let origin := strings.TrimSpace (Header i "Origin") in
    if negb (bool_decide (origin = "")) && negb (requestOriginMatches i origin)
    then mret (w, Error 403 "cross-origin request rejected" false)
    else next w i.

Definition status_of (resp : Response A) : Z :=
  match resp with Error code _ _ => code | Answer a => code_of a end.

(** The writer the next handlers get has only the methods of [http.ResponseWriter]. *)
(* src: internal/httpapi/observability.go:12-15 (statusResponseWriter) *)
Definition statusResponseWriter (w : writer) : writer := mkWriter (headers w) false.

(** What it notes of the calls of a handler: the status for the log, and the calls it
    passes on to the writer below, a status or a part of the body each. *)
Record noted := mkNoted { noted_status : Z; passed_on : list (Z + string) }.
(* src: internal/httpapi/observability.go:17-20 (WriteHeader) *)
Definition WriteHeader (status : Z) (n : noted) : noted :=
  mkNoted status (passed_on n ++ [inl status]).
(* src: internal/httpapi/observability.go:22-27 (Write) *)
Definition Write (body : string) (n : noted) : noted :=
  let n := if noted_status n =? 0 then WriteHeader 200 n else n in
  mkNoted (noted_status n) (passed_on n ++ [inr body]).
(** The status of the log, after the handler is done. *)
(* src: internal/httpapi/observability.go:41-44 (requestLogger) *)
Definition logged_status (n : noted) : Z := if noted_status n =? 0 then 200 else noted_status n.

(** A handler that gives a status at most once, before the body, is logged with the
    status that the client was sent, 200 when the handler gave none. *)
Lemma logged_status_sent (code : option Z) (bodies : list string) :
  code ≠ Some 0 →
  let n := foldl (λ n b, Write b n) (default (λ n, n) (WriteHeader <$> code) (mkNoted 0 [])) bodies in
  logged_status n = default 200 code ∧
  (passed_on n = [] ∨ head (passed_on n) = Some (inl (default 200 code))).
Proof.
  intros Hc. cbn zeta.
  assert (∀ l n c, noted_status n = c → c ≠ 0 → head (passed_on n) = Some (inl c) →
    let n' := foldl (λ n b, Write b n) n l in
    noted_status n' = c ∧ head (passed_on n') = Some (inl c)) as Hw.
  { induction l as [|b l IH]; intros n c Hn Hz Hh; [done|]. cbn [foldl]. apply IH; [|done|];
      unfold Write; rewrite Hn; destruct (Z.eqb_spec c 0); try done.
    cbn [passed_on]. by destruct (passed_on n). }
  assert (∀ l n c, noted_status n = c → c ≠ 0 → head (passed_on n) = Some (inl c) →
    let n' := foldl (λ n b, Write b n) n l in
    logged_status n' = c ∧ (passed_on n' = [] ∨ head (passed_on n') = Some (inl c))) as Hl.
  { intros l n c Hn Hz Hh n'. destruct (Hw l n c Hn Hz Hh) as [E1 E2]. split; [|by right].
    unfold logged_status, n'. rewrite E1. by destruct (Z.eqb_spec c 0). }
  destruct code as [c|]; [apply Hl; [done|naive_solver|done]|].
  destruct bodies as [|b bodies]; [by split; [|left]|].
  by apply (Hl bodies (Write b (mkNoted 0 []))).
Qed.

(* src: internal/httpapi/observability.go:31-55 (requestLogger) *)
Definition requestLogger (next : stage) : stage := λ w i,
  let given := Header i "X-Request-ID" in
  let! id := if bool_decide (given = "") || (128 <? String.length given)%nat
             then let! t := time_Now in
                  let! n := next_sequence in
                  mret ("req_" +:+ pretty (UnixNano t) +:+ "_" +:+ pretty n)
             else mret given in
  let! started := time_Now in
  let! (w, resp) := next (statusResponseWriter (set_header "X-Request-ID" id w)) i in
  let! ended := time_Now in
  let! _ := log id (Method (Req i)) (Path (Req i)) (status_of resp) ((ended - started) `quot` 10 ^ 6) in
  mret (w, resp).

Definition routed : stage := λ w i,
  let! resp := handler Server_Auth (serve_mux (can_flush w) (Segments i)) (Req i) in mret (w, resp).
(* src: internal/httpapi/server.go:220-220 (Handler) *)
Definition serve : stage := requestLogger (securityHeaders (sameOriginGuard (withJSON routed))).
End chain.

(** ** The routes do not overlap *)

(** Some path matches both patterns. *)
Fixpoint overlap (p q : list segment) : bool :=
  match p, q with
  | [], [] => true
  | Literal s :: p, Literal t :: q => bool_decide (s = t) && overlap p q
  | _ :: p, _ :: q => overlap p q
  | _, _ => false
  end.
(** Some method matches both routes. *)
Definition methods_overlap (r1 r2 : route) : bool :=
  bool_decide (Route_Method r1 = Route_Method r2) ||
  bool_decide (Route_Method r1 = "GET") && bool_decide (Route_Method r2 = "HEAD") ||
  bool_decide (Route_Method r1 = "HEAD") && bool_decide (Route_Method r2 = "GET").

Lemma match_nil path : is_Some (match_segments [] path) → path = [].
Proof. destruct path; [done|]. by intros [? [=]]. Qed.
Lemma match_cons a p path : is_Some (match_segments (a :: p) path) →
  ∃ x path', path = x :: path' ∧ (∀ s, a = Literal s → s = x) ∧ is_Some (match_segments p path').
Proof.
  destruct path as [|x path]; [by destruct a; intros [? [=]]|]. intros Hm. exists x, path. split; [done|].
  destruct a as [s|n]; cbn [match_segments] in Hm; case_decide; try by destruct Hm.
  - split; [by intros ? [= <-]|done].
  - split; [done|]. destruct Hm as [v Hv]. apply fmap_Some in Hv as (? & ? & _). by eexists.
Qed.

Lemma match_overlap p q path :
  is_Some (match_segments p path) → is_Some (match_segments q path) → overlap p q = true.
Proof.
  revert q path. induction p as [|a p IH]; intros q path Hp Hq.
  - apply match_nil in Hp as ->. destruct q as [|b q]; [done|]. by apply match_cons in Hq as (? & ? & [=] & _).
  - apply match_cons in Hp as (x & path' & -> & Ha & Hp).
    destruct q as [|b q]; [by apply match_nil in Hq|]. apply match_cons in Hq as (y & path2 & [= <- <-] & Hb & Hq).
    specialize (IH q path' Hp Hq). destruct a as [s|n], b as [t|m]; cbn [overlap]; try done.
    rewrite (Ha s), (Hb t) by done. by rewrite bool_decide_true.
Qed.

Lemma methods_overlap_true r1 r2 method :
  method_matches r1 method = true → method_matches r2 method = true → methods_overlap r1 r2 = true.
Proof.
  unfold method_matches, methods_overlap.
  rewrite !orb_true_iff, !andb_true_iff, !bool_decide_eq_true. intuition congruence.
Qed.

Lemma routes_disjoint :
  forallb (λ r1, forallb (λ r2, negb (methods_overlap r1 r2 && overlap (Pattern r1) (Pattern r2)) ||
                                bool_decide (r1 = r2)) routes) routes = true.
Proof. vm_compute. reflexivity. Qed.
Lemma routes_nodup : NoDup routes.
Proof. apply (bool_decide_unpack (NoDup routes)). vm_compute. exact I. Qed.

Lemma route_unique r1 r2 method path : r1 ∈ routes → r2 ∈ routes →
  method_matches r1 method = true → method_matches r2 method = true →
  is_Some (match_segments (Pattern r1) path) → is_Some (match_segments (Pattern r2) path) → r1 = r2.
Proof.
  intros H1 H2 Hm1 Hm2 Hp1 Hp2. pose proof routes_disjoint as Hd.
  rewrite forallb_forall in Hd. specialize (Hd r1 (proj1 (list_elem_of_In _ _) H1)).
  rewrite forallb_forall in Hd. specialize (Hd r2 (proj1 (list_elem_of_In _ _) H2)).
  rewrite (methods_overlap_true _ _ method), (match_overlap _ _ path) in Hd by done.
  by apply bool_decide_eq_true in Hd.
Qed.

Lemma elem_of_matching method path r v :
  (r, v) ∈ matching method path ↔
  r ∈ routes ∧ method_matches r method = true ∧ match_segments (Pattern r) path = Some v.
Proof.
  unfold matching. rewrite list_elem_of_omap. split.
  - intros (r' & Hr & Hm). destruct (method_matches r' method) eqn:E; [|done].
    apply fmap_Some in Hm as (v' & Hv & [= -> ->]). done.
  - intros (Hr & Hm & Hv). exists r. rewrite Hm, Hv. done.
Qed.

(** ** Who reaches a handler *)

(** The handlers in front of which nobody has to sign in. *)
Definition public : list string :=
  ["authStatus"; "authBootstrap"; "authLogin"; "authLogout"; "healthz"; "health"; "ready"].
(** The pattern begins with what the middleware asks a session for. *)
Definition protected (p : list segment) : bool :=
  match p with
  | Literal s :: _ :: _ => bool_decide (s = "api") ||
      bool_decide (p ∈ [[Literal "auth"; Literal "me"];
                        [Literal "auth"; Literal "sessions"; Literal "revoke-all"]])
  | _ => false
  end.
Lemma routes_protected :
  forallb (λ r, bool_decide (Name r ∈ public) || protected (Pattern r)) routes = true.
Proof. vm_compute. reflexivity. Qed.

Lemma protected_requires p path v r : protected p = true → match_segments p path = Some v →
  Path r = "/" +:+ strings.Join path "/" → requiresAuthentication r = true.
Proof.
  destruct p as [|[s|n] [|q p]]; cbn [protected]; try done.
  rewrite orb_true_iff, !bool_decide_eq_true. intros Hp Hm Hpath.
  destruct Hp as [->|Hp].
  - cbn [match_segments] in Hm. destruct path as [|x [|y path]]; [done|by destruct (decide _), q|].
    destruct (decide ("api" = x)) as [<-|]; [|done]. unfold requiresAuthentication. rewrite Hpath.
    change (strings.Join ("api" :: y :: path) "/") with ("api" +:+ "/" +:+ strings.Join (y :: path) "/").
    generalize (strings.Join (y :: path) "/"). intros rest.
    assert (strings.HasPrefix ("/" +:+ "api" +:+ "/" +:+ rest) "/api/" = true) as ->
      by (apply strings.HasPrefix_iff; by exists rest).
    rewrite !bool_decide_false; [done|..]; rewrite !not_elem_of_cons; split_and!; by intros [=] || apply not_elem_of_nil.
  - rewrite !elem_of_cons, elem_of_nil in Hp.
    destruct Hp as [[= -> -> ->]|[[= -> -> ->]|[]]]; cbn [match_segments] in Hm;
      destruct path as [|x [|y [|z [|]]]]; try done; repeat (case_decide; try done); subst;
      unfold requiresAuthentication; rewrite Hpath; by vm_compute.
Qed.

Section gate.
Context {W A : Type} `{World W} `{Sha256} `{URLs} `{strings.GoUnicode}.
Variable Server_Auth : option (AuthService W).
Variable handlers : string → bool → Handler W A.
Variable code_of : A → Z.
Variable next_sequence : M W Z.
Variable log : string → string → string → Z → Z → M W unit.

(** The browser's check: a request that may change something comes from the same origin,
    or does not say where it comes from. *)
Definition origin_accepted (i : incoming) : Prop :=
  Method (Req i) ∈ ["GET"; "HEAD"; "OPTIONS"] ∨ strings.TrimSpace (Header i "Origin") = "" ∨
  requestOriginMatches i (strings.TrimSpace (Header i "Origin")) = true.

(** The request carries the token of a live session of an active user, which was looked up
    between [w1] and [w2]. *)
Definition signed_in (i : incoming) (p : AuthPrincipal) (w1 w2 : W) : Prop :=
  ∃ s token w3 w4 e, Server_Auth = Some s ∧ Cookie (Req i) = Some token ∧
    Authenticate (Sessions s) token w1 = (Ok (Principal_Session p), w3) ∧
    CurrentUser s (Principal_Session p) w3 = ((Principal_User p, None), w4) ∧
    User_Status (Principal_User p) = "active" ∧
    Touch (Sessions s) (Session_ID (Principal_Session p)) w4 = (e, w2).

Lemma serve_mux_answer flusher path r w a w' :
  serve_mux handlers flusher path r w = (Answer a, w') →
  ∃ rt values, rt ∈ routes ∧ method_matches rt (Method r) = true ∧
    match_segments (Pattern rt) (PathUnescape <$> path) = Some values ∧
    handlers (Name rt) flusher (r <| PathValues := values |>) w = (Answer a, w').
Proof.
  unfold serve_mux. destruct (_ && _); [by intros [[=] _]%mret_inv|].
  set (decoded := PathUnescape <$> path).
  destruct (matching (Method r) decoded) as [|[rt values] l] eqn:Hm;
    [intros [Hx _]%mret_inv; by destruct (path_known decoded)|].
  intros Hh. exists rt, values.
  assert ((rt, values) ∈ matching (Method r) decoded) as (? & ? & ?)%elem_of_matching by (rewrite Hm; left).
  done.
Qed.

Lemma access_unmatched (mux : Handler W A) r w : PathValues r = ∅ →
  projectAccessMiddleware Server_Auth mux r w = mux r w.
Proof.
  intros Hpv. unfold projectAccessMiddleware, projectIDFromRequest, PathValue.
  by rewrite Hpv, !lookup_empty.
Qed.

(** What the authentication in front of the multiplexer lets through. *)
Lemma handler_answer (mux : Handler W A) i w a w' : received i →
  handler Server_Auth mux (Req i) w = (Answer a, w') →
  (requiresAuthentication (Req i) = false ∧ mux (Req i) w = (Answer a, w')) ∨
  ∃ p w1, signed_in i p w w1 ∧ mux ((Req i) <| Principal := Some p |>) w1 = (Answer a, w').
Proof.
  intros (_ & Hpv & _). unfold handler, authMiddleware.
  destruct (requiresAuthentication (Req i)) eqn:Hreq; cbn [negb]; [|by rewrite access_unmatched; auto].
  destruct Server_Auth as [s|] eqn:Hs; [|by intros [[=] _]%mret_inv].
  destruct (Cookie (Req i)) as [token|] eqn:Hc; [|by intros [[=] _]%mret_inv].
  destruct (decide _); [by intros [[=] _]%mret_inv|].
  intros (auth & w1 & Ha & Hk)%mthen_inv. destruct auth as [session|]; [|by apply mret_inv in Hk as [[=] _]].
  apply mthen_inv in Hk as ([user err] & w2 & Hu & Hk).
  destruct (bool_decide (err = None)) eqn:He; [|by apply mret_inv in Hk as [[=] _]].
  destruct (bool_decide (User_Status user = "active")) eqn:Hst; [|by apply mret_inv in Hk as [[=] _]].
  apply bool_decide_eq_true in He as ->. apply bool_decide_eq_true in Hst.
  apply mthen_inv in Hk as (e & w3 & Ht & Hk).
  right. exists (mkPrincipal user session), w3. split.
  - exists s, token, w1, w2, e. by rewrite Hs.
  - rewrite <-Hs in Hk. rewrite access_unmatched in Hk; done.
Qed.

(** The chain, step by step. *)
Lemma serve_answers i w (wd : W) w' a wd' :
  received i →
  serve Server_Auth handlers code_of next_sequence log w i wd = ((w', Answer a), wd') →
  ∃ rt values p wd1 wd2, rt ∈ routes ∧ method_matches rt (Method (Req i)) = true ∧
    match_segments (Pattern rt) (decoded_path i) = Some values ∧
    (∀ rt2, rt2 ∈ routes → method_matches rt2 (Method (Req i)) = true →
       is_Some (match_segments (Pattern rt2) (decoded_path i)) → rt2 = rt) ∧
    origin_accepted i ∧
    (Name rt ∈ public ∨ ∃ pr wd0, p = Some pr ∧ signed_in i pr wd0 wd1) ∧
    handlers (Name rt) false ((Req i) <| Principal := p |> <| PathValues := values |>) wd1 = (Answer a, wd2).
Proof.
  intros Hrec Hrun. apply mthen_inv in Hrun as (id & u1 & _ & Hk).
  apply mthen_inv in Hk as (t1 & u2 & _ & Hk). apply mthen_inv in Hk as ([w1 resp] & u3 & Hin & Hk).
  apply mthen_inv in Hk as (t2 & u4 & _ & Hk). apply mthen_inv in Hk as (u & u5 & _ & Hk).
  apply mret_inv in Hk as [[= -> ->] ->]. unfold securityHeaders, sameOriginGuard in Hin.
  assert (origin_accepted i ∧ ∃ w2, can_flush w2 = false ∧
    routed Server_Auth handlers w2 i u2 = ((w', Answer a), u3)) as (Hso & w2 & Hflush & Hrt).
  { unfold origin_accepted. case_bool_decide as Hm.
    - split; [by left|]. eexists. split; [|exact Hin]. done.
    - destruct (bool_decide (strings.TrimSpace (Header i "Origin") = "")) eqn:Ho; cbn [negb andb] in Hin.
      + apply bool_decide_eq_true in Ho. split; [by right; left|]. eexists. split; [|exact Hin]. done.
      + destruct (requestOriginMatches i _) eqn:Hmo; cbn [negb] in Hin; [|by apply mret_inv in Hin as [[=] _]].
        split; [by right; right|]. eexists. split; [|exact Hin]. done. }
  apply mthen_inv in Hrt as (resp & u6 & Hh & Hr). apply mret_inv in Hr as [[= _ ->] ->].
  rewrite Hflush in Hh. pose proof Hrec as (Hpath & Hpv & Hpr).
  apply handler_answer in Hh as [[Hreq Hh]|(p & w3 & Hsig & Hh)]; [| |done];
    apply serve_mux_answer in Hh as (rt & values & Hin1 & Hm & Hv & Hh); cbn in Hm.
  - exists rt, values, None, u2, u3. split_and!; try done.
    + intros rt2 Hin2 Hm2 Hp2. eapply route_unique; [done|done|exact Hm2|exact Hm|exact Hp2|by eexists].
    + left. pose proof routes_protected as Hall. rewrite forallb_forall in Hall.
      specialize (Hall rt (proj1 (list_elem_of_In _ _) Hin1)). apply orb_true_iff in Hall as [Hall|Hall];
        [by apply bool_decide_eq_true in Hall|].
      by rewrite (protected_requires _ _ _ _ Hall Hv Hpath) in Hreq.
    + replace ((Req i) <| Principal := None |>) with (Req i); [done|]. destruct (Req i). cbn in *. by subst.
  - exists rt, values, (Some p), w3, u3. split_and!; try done.
    + intros rt2 Hin2 Hm2 Hp2. eapply route_unique; [done|done|exact Hm2|exact Hm|exact Hp2|by eexists].
    + right. by exists p, u2.
Qed.

(** A state-changing request that names another origin is turned away in front of the
    handlers, which have no part in what the server does. *)
Lemma serve_refuses i w (wd : W) handlers2 :
  ¬ origin_accepted i →
  (serve Server_Auth handlers code_of next_sequence log w i wd).1.2 =
    Error 403 "cross-origin request rejected" false ∧
  serve Server_Auth handlers2 code_of next_sequence log w i wd =
    serve Server_Auth handlers code_of next_sequence log w i wd.
Proof.
  intros Ho.
  assert (∀ (next : stage (W:=W) (A:=A)) w2, sameOriginGuard next w2 i =
    mret (w2, Error 403 "cross-origin request rejected" false)) as Hg.
  { intros next w2. unfold sameOriginGuard, origin_accepted in *.
    rewrite bool_decide_eq_false_2 by tauto.
    destruct (decide (strings.TrimSpace (Header i "Origin") = "")) as [Hb|Hb]; [tauto|].
    rewrite bool_decide_eq_false_2 by done.
    destruct (requestOriginMatches i _); [tauto|done]. }
  assert (∀ hs, ∃ w3 wd3, serve Server_Auth hs code_of next_sequence log w i wd =
    ((w3, Error 403 "cross-origin request rejected" false), wd3) ∧
    ∀ hs2, serve Server_Auth hs2 code_of next_sequence log w i wd =
      ((w3, Error 403 "cross-origin request rejected" false), wd3)) as Hs.
  { intros hs.
    assert (∃ r : (writer * Response A) * W, ∀ hs2, serve Server_Auth hs2 code_of next_sequence log w i wd = r ∧
      r.1.2 = Error 403 "cross-origin request rejected" false) as ([[w3 resp] wd3] & Hr).
    { unfold serve, requestLogger, securityHeaders, mthen at 1.
      match goal with |- context [let '(_, _) := ?m wd in _] => destruct (m wd) as [id u1] end.
      unfold mthen at 1.
      destruct (time_Now u1) as [t1 u2]. eexists. intros hs2. unfold mthen at 1. rewrite Hg.
      unfold mret at 1. split; [reflexivity|]. unfold mthen.
      destruct (time_Now u2) as [t2 u3]. by destruct (log _ _ _ _ _ u3). }
    exists w3, wd3. destruct (Hr hs) as [_ [= ->]]. split; [apply Hr|]. intros hs2. apply Hr. }
  destruct (Hs handlers) as (w3 & wd3 & E & Hall). by rewrite E, Hall.
Qed.

(** C22: who reaches a handler.  Whatever a routed handler answers, the request matched
    exactly one of the routes; it could not change anything, or had no [Origin] header (or
    a blank one), or one that matches the server; and, but for the handlers of signing in
    and of health, it carried the token of a live session of an active user, whom the
    handler is told; the path values are those of the route.  No handler is ever given a
    connection it could flush.  A request that may change something and names another
    origin is answered 403 whatever the handlers are: they have no part in it. *)
Theorem serve_guarded i w (wd : W) :
  received i →
  (∀ w' a wd', serve Server_Auth handlers code_of next_sequence log w i wd = ((w', Answer a), wd') →
    ∃ rt values p wd1 wd2, rt ∈ routes ∧ method_matches rt (Method (Req i)) = true ∧
      match_segments (Pattern rt) (decoded_path i) = Some values ∧
      (∀ rt2, rt2 ∈ routes → method_matches rt2 (Method (Req i)) = true →
         is_Some (match_segments (Pattern rt2) (decoded_path i)) → rt2 = rt) ∧
      origin_accepted i ∧
      (Name rt ∈ public ∨ ∃ pr wd0, p = Some pr ∧ signed_in i pr wd0 wd1) ∧
      handlers (Name rt) false ((Req i) <| Principal := p |> <| PathValues := values |>) wd1 = (Answer a, wd2)) ∧
  (¬ origin_accepted i →
    (serve Server_Auth handlers code_of next_sequence log w i wd).1.2 =
      Error 403 "cross-origin request rejected" false ∧
    ∀ handlers2, serve Server_Auth handlers2 code_of next_sequence log w i wd =
      serve Server_Auth handlers code_of next_sequence log w i wd).
Proof.
  intros Hr. split; [intros w' a wd'; by apply serve_answers|].
  intros Ho. split; [by apply (serve_refuses i w wd handlers)|].
  intros hs. by apply serve_refuses.
Qed.
End gate.

(** ** The handlers of health and of events *)

Section status.
(** What [runtime.HostReadiness] reads. *)
Variable (virt : option string) (usernet : bool).
(* src: internal/httpapi/server.go:223-225 (health) *)
Definition health : Response (Z * runtime.Readiness) := Answer (200, runtime.HostReadiness virt usernet).
(* src: internal/httpapi/server.go:226-233 (ready) *)
Definition ready : Response (Z * runtime.Readiness) :=
  let status := runtime.HostReadiness virt usernet in
  if negb (bool_decide (runtime.Runtime_ready status = "READY")) then Answer (503, status)
  else Answer (200, status).
End status.

Section event_stream.
Variable Marshal : events.Event → string.
(** The format escapes its backslashes: a backslash and an n are written for a line end. *)
(* src: internal/httpapi/server.go:249-251 (events) *)
Definition event_text (e : events.Event) : string :=
  "event: " +:+ events.Event_Type e +:+ "\ndata: " +:+ Marshal e +:+ "\n\n".
(** What is written for the events the subscriber receives. *)
(* src: internal/httpapi/server.go:235-253 (events) *)
Definition events (bus flusher : bool) (received : list events.Event) : Response (Z * list string) :=
  if bus then
    if flusher then Answer (200, event_text <$> received)
    else httpapi.Error 500 "streaming unsupported" false
  else httpapi.Error 503 "event stream unavailable" false.
End event_stream.

(* src: internal/httpapi/auth.go:211-217 (remoteIP) *)
Definition remoteIP (SplitHostPort : string → option (string * string)) (addr : string) : string :=
  match SplitHostPort addr with Some (host, _) => host | None => addr end.

(** A server whose streams are served by these handlers and that answers everything else
    with [other]. *)
Section streams.
Context {W : Type} `{World W} `{Sha256} `{URLs} `{strings.GoUnicode}.
Variable Marshal : events.Event → string.
Variable bus : bool.
Variable occurring : list events.Event.
Variable other : string → bool → Handler W (Z * list string).
Definition stream_handlers (name : string) (flusher : bool) : Handler W (Z * list string) := λ r,
  if decide (name = "events") then mret (events Marshal bus flusher occurring)
  else if decide (name = "projectActivityStream")
  then mret (httpproduct.projectActivityStream Marshal bus flusher r occurring)
  else other name flusher r.

(** Neither stream is ever opened: the logger's writer cannot be flushed. *)
Lemma streams_never_open Server_Auth next_sequence log w i wd w' a wd' name :
  name ∈ ["events"; "projectActivityStream"] →
  (∀ rt, rt ∈ routes → method_matches rt (Method (Req i)) = true →
     is_Some (match_segments (Pattern rt) (decoded_path i)) → Name rt = name) →
  received i →
  serve Server_Auth stream_handlers fst next_sequence log w i wd ≠ ((w', Answer a), wd').
Proof.
  intros Hname Hroute Hrec Hrun.
  destruct (serve_answers _ _ _ _ _ _ _ _ _ _ _ Hrec Hrun)
    as (rt & values & p & wd1 & wd2 & Hin & Hm & Hv & _ & _ & _ & Hh).
  rewrite (Hroute rt Hin Hm (mk_is_Some _ _ Hv)) in Hh.
  rewrite !elem_of_cons, elem_of_nil in Hname. destruct Hname as [->|[->|[]]];
    apply mret_inv in Hh as [Hh _]; unfold events, httpproduct.projectActivityStream in Hh; by destruct bus.
Qed.
End streams.
End httpserver.

(** ** Witnesses *)

Section witness.
Import httpserver.
#[local] Instance server_world : World unit := {| time_Now := mret 0; ctx_Err := mret None |}.
#[local] Instance server_sha : Sha256 := λ s, s.
#[local] Instance server_unicode : strings.GoUnicode := strings.ascii_unicode.
#[local] Instance server_urls : URLs := {| url_Parse _ := Some ("https", "forge.example"); PathUnescape s := s |}.

Definition member : User := mkUser "u" "" "" RoleViewer "active" 0 0 None.
Definition live_session : Session := mkSession "s" "u" 0 1 None None "" "".
Definition server_auth : AuthService unit :=
  mkAuth (Some (λ _, mret (member, None)))
    (mkSessions (Some (mkRepository (λ _ _, mret None) (λ _ _, mret (Ok live_session)) (λ _ _, mret None)
      (λ _ _, mret None) (λ _ _, mret None) (λ _, mret None))) None 0)
    (Some (λ _ _, mret (Err ErrMembershipNotFound))).
Definition create_request : incoming :=
  mkIncoming (mkRequest "POST" "/api/projects/p1/workflows" (Some "token") ∅ None)
    ["api"; "projects"; "p1"; "workflows"]
    (λ name, if decide (name = "Origin") then "https://forge.example" else "")
    "forge.example" true.
(** A handler that says which it is, and for which project. *)
Definition echo (name : string) (_ : bool) : Handler unit (string * string) :=
  λ r, mret (Answer (name, PathValue r "project")).
Definition no_log (_ _ _ : string) (_ _ : Z) : M unit unit := mret tt.
Notation run i := (serve (Some server_auth) echo (λ _, 200) (mret 1) no_log (mkWriter ∅ true) i tt).

Lemma serve_guarded_witness :
  (run create_request).1.2 = Answer ("createWorkflow", "p1") ∧
  ∃ rt values p wd1 wd2, Name rt = "createWorkflow" ∧ rt ∈ routes ∧
    match_segments (Pattern rt) (decoded_path create_request) = Some values ∧
    origin_accepted create_request ∧
    (Name rt ∈ public ∨ ∃ pr wd0, p = Some pr ∧ signed_in (Some server_auth) create_request pr wd0 wd1) ∧
    echo (Name rt) false ((Req create_request) <| Principal := p |> <| PathValues := values |>) wd1
      = (Answer ("createWorkflow", "p1"), wd2).
Proof.
  assert ((run create_request).1.2 = Answer ("createWorkflow", "p1")) as Ha by (vm_compute; reflexivity).
  split; [exact Ha|]. destruct (run create_request) as [[w' resp] wd'] eqn:E. cbn in Ha. subst resp.
  destruct (proj1 (serve_guarded (Some server_auth) echo (λ _, 200) (mret 1) no_log create_request
    (mkWriter ∅ true) tt ltac:(split_and!; reflexivity)) w' ("createWorkflow", "p1") wd' E)
    as (rt & values & p & wd1 & wd2 & Hin & _ & Hv & _ & Hso & Hs & Hh).
  exists rt, values, p, wd1, wd2. split_and!; [|exact Hin|exact Hv|exact Hso|exact Hs|exact Hh].
  apply mret_inv in Hh as [Hh _]. injection Hh. done.
Defined.
End witness.
