(* ===== verification/VerStore.v ===== *)
(** * The store of verification runs

    [src/internal/verification/store.go], on the tables of
    [src/migrations/005_verification.sql].  A run is saved by one statement for its row and
    one for each result, failure, artifact and repair, without a transaction. *)

From stdpp Require Import relations.
From S2P Require Import Prelude World VerTypes VerEngine VerFacts PgBase.
Import verification engine pg.

Module verstore.

#[global] Instance eta_Artifact : Eta VerificationArtifact := λ a,
  mkArtifact (VArtifact_ID a) (VArtifact_ProjectID a) (VArtifact_TaskID a) (VArtifact_RunID a)
    (VArtifact_CheckID a) (VArtifact_Kind a) (VArtifact_Path a) (VArtifact_Metadata a).

(** A row of [verification_failures]: the run and the report. *)
Record failure_row := mkFailureRow { Row_RunID : string; Report : FailureReport }.

(** The tables.  The rows of checks, whose key is the run and the check, are kept by run;
    each has the check and its result. *)
Record ver_db := mkVerDB {
  runs : gmap string VerificationRun;
  checks : gmap string (gmap string (VerificationCheck * VerificationResult));
  failures : gmap string failure_row;
  repairs : gmap string RepairAttempt;
  artifacts : gmap string VerificationArtifact
}.
#[global] Instance eta_ver_db : Eta ver_db := λ d,
  mkVerDB (runs d) (checks d) (failures d) (repairs d) (artifacts d).

Section rows.
Context `{Json}.

(** What is read back of the values kept as JSON.  The struct tag of the failure report
    names its output, its error output and its stack trace alike, and fields of one name
    are left out. *)
(* src: internal/verification/types.go:138-150 (FailureReport) *)
Definition json_failure (f : FailureReport) : FailureReport :=
  f <| Failure_Stdout := "" |> <| Failure_Stderr := "" |> <| StackTrace := "" |>.
Definition json_check (c : VerificationCheck) : VerificationCheck :=
  c <| Configuration := json_map (Configuration c) |>.
Definition json_profile (p : VerificationProfile) : VerificationProfile :=
  mkProfile (Profile_Name p) (Profile_Policy p) (json_check <$> Profile_Checks p).
Definition json_evidence (e : Evidence) : Evidence :=
  mkEvidence (Evidence_ExitCode e) (Evidence_Stdout e) (Evidence_Stderr e) (Evidence_Duration e)
    (TestCount e) (PassedTests e) (FailedTests e) (SkippedTests e) (HTTPStatus e) (Evidence_URL e)
    (ArtifactPath e) (Evidence_CommitSHA e) (json_map (Structured e)).

Definition run_row (run : VerificationRun) : VerificationRun :=
  run <| Run_StartedAt := timestamptz (Run_StartedAt run) |>
      <| Run_CompletedAt := timestamptz <$> Run_CompletedAt run |>
      <| Run_Profile := json_profile (Run_Profile run) |>
      <| Run_Checks := [] |> <| Run_Results := [] |> <| Run_Failures := [] |>
      <| Run_Repairs := [] |> <| Run_Artifacts := [] |>.
Definition result_row (r : VerificationResult) : VerificationResult :=
  r <| Result_Evidence := json_evidence (Result_Evidence r) |>
    <| Result_Failure := json_failure <$> Result_Failure r |>
    <| Result_StartedAt := timestamptz (Result_StartedAt r) |>
    <| Result_CompletedAt := timestamptz (Result_CompletedAt r) |>.
(** The row of a check keeps its type, name, weight and configuration. *)
(* src: internal/verification/store.go:24-32 (Store.Save) *)
Definition check_row (cs : list VerificationCheck) (r : VerificationResult)
    : VerificationCheck * VerificationResult :=
  let check := findCheck cs (Result_CheckID r) in
  (mkCheck (Result_CheckID r) (Check_Type check) (Check_Name check) "" (Required check) 0 0
     (json_map (Configuration check)) [] [], result_row r).
Definition repair_row (run : string) (r : RepairAttempt) : RepairAttempt :=
  r <| Repair_RunID := run |>
    <| Repair_StartedAt := timestamptz (Repair_StartedAt r) |>
    <| Repair_CompletedAt := timestamptz <$> Repair_CompletedAt r |>.
End rows.

Section store.
Context `{Json} `{Database} {W : Type}.
(** Whether the store has a database. *)
Variable DB : bool.
Notation C A := (M (ver_db * W) A).
Definition unavailable : goerror := ErrorString "verification database unavailable".

(** [INSERT INTO verification_runs ... ON CONFLICT(id) DO UPDATE SET status, ...] *)
(* src: internal/verification/store.go:20-22 (Store.Save) *)
Definition put_run (run : VerificationRun) (d : ver_db) : ver_db :=
  d <| runs := <[Run_ID run := match runs d !! Run_ID run with
         | Some r => r <| Run_Status := Run_Status run |>
                       <| Run_CompletedAt := timestamptz <$> Run_CompletedAt run |>
                       <| Run_Summary := Run_Summary run |>
                       <| Run_Profile := json_profile (Run_Profile run) |>
                       <| Run_State := Run_State run |>
         | None => run_row run
         end]> (runs d) |>.

(** The tables have the run that a row refers to. *)
Definition refers (run : string) (d : ver_db) : bool := bool_decide (is_Some (runs d !! run)).
Definition checks_at (d : ver_db) (run : string) : gmap string (VerificationCheck * VerificationResult) :=
  default ∅ (checks d !! run).
(** [INSERT INTO verification_checks ... ON CONFLICT(verification_run_id,id) DO UPDATE ...] *)
(* src: internal/verification/store.go:24-35 (Store.Save) *)
Definition put_check (run : VerificationRun) (r : VerificationResult) (d : ver_db) : ver_db :=
  let '(c, row) := check_row (Run_Checks run) r in
  d <| checks := <[Run_ID run :=
         <[Result_CheckID r := match checks_at d (Run_ID run) !! Result_CheckID r with
           | Some (c0, r0) => (c0, r0 <| Result_Status := Result_Status row |>
               <| Result_Evidence := Result_Evidence row |> <| Result_Failure := Result_Failure row |>
               <| Result_CompletedAt := Result_CompletedAt row |>)
           | None => (c, row)
           end]> (checks_at d (Run_ID run))]> (checks d) |>.

(** [INSERT INTO verification_failures ... ON CONFLICT(id) DO UPDATE SET report] *)
(* src: internal/verification/store.go:36-41 (Store.Save) *)
Definition put_failure (run : string) (f : FailureReport) (d : ver_db) : ver_db :=
  d <| failures := <[Failure_ID f := mkFailureRow
         match failures d !! Failure_ID f with Some r => Row_RunID r | None => run end
         (json_failure f)]> (failures d) |>.

(** [INSERT INTO verification_artifacts ... ON CONFLICT(id) DO UPDATE SET path, metadata] *)
(* src: internal/verification/store.go:42-47 (Store.Save) *)
Definition put_artifact (a : VerificationArtifact) (d : ver_db) : ver_db :=
  d <| artifacts := <[VArtifact_ID a := match artifacts d !! VArtifact_ID a with
         | Some r => r | None => a
         end <| VArtifact_Path := VArtifact_Path a |>
             <| VArtifact_Metadata := json_map (VArtifact_Metadata a) |>]> (artifacts d) |>.

(** [INSERT INTO verification_repairs ... ON CONFLICT(id) DO UPDATE SET status, error, ...] *)
(* src: internal/verification/store.go:48-53 (Store.Save) *)
Definition put_repair (run : string) (r : RepairAttempt) (d : ver_db) : ver_db :=
  d <| repairs := <[Repair_ID r := match repairs d !! Repair_ID r with
         | Some x => x <| Repair_Status := Repair_Status r |> <| Repair_Error := Repair_Error r |>
                       <| Repair_CompletedAt := timestamptz <$> Repair_CompletedAt r |>
         | None => repair_row run r
         end]> (repairs d) |>.

(* src: internal/verification/store.go:14-60 (Store.Save) *)
Definition Save (run : VerificationRun) : C (option goerror) :=
  if negb DB then mret (Some unavailable) else
  and_then (execute (λ _, true) (put_run run))
  (and_then (each (λ r, execute (refers (Run_ID run)) (put_check run r)) (Run_Results run))
  (and_then (each (λ f, execute (refers (Run_ID run)) (put_failure (Run_ID run) f)) (Run_Failures run))
  (and_then (each (λ a, execute (refers (VArtifact_RunID a)) (put_artifact a)) (Run_Artifacts run))
  (each (λ r, execute (λ d, int4 (Repair_Attempt r) && refers (Run_ID run) d) (put_repair (Run_ID run) r))
     (Run_Repairs run))))).

(** [ORDER BY id], and [ORDER BY attempt]: the order of rows with the same attempt is not
    fixed. *)
Definition checks_of (d : ver_db) (run : string) : list (VerificationCheck * VerificationResult) :=
  sort_by (λ a b, collate (Check_ID a.1) (Check_ID b.1)) (map_to_list (checks_at d run)).*2.
Definition repairs_of (d : ver_db) (run : string) : list RepairAttempt :=
  sort_by (λ a b, Repair_Attempt a <? Repair_Attempt b)
    (filter (λ r, Repair_RunID r = run) (map_to_list (repairs d)).*2).

(** A run with what is read of its results and repairs: the failures are those of the
    results, and there are no artifacts. *)
Definition reread (run : VerificationRun) (rows : list (VerificationCheck * VerificationResult))
    (rs : list RepairAttempt) : VerificationRun :=
  (run_row run) <| Run_Checks := rows.*1 |> <| Run_Results := rows.*2 |>
    <| Run_Failures := omap Result_Failure rows.*2 |> <| Run_Repairs := rs |>.
(* src: internal/verification/store.go:83-121 (Store.Get) *)
Definition load (d : ver_db) (run : VerificationRun) : VerificationRun :=
  let rows := checks_of d (Run_ID run) in
  run <| Run_Checks := rows.*1 |> <| Run_Results := rows.*2 |>
      <| Run_Failures := omap Result_Failure rows.*2 |> <| Run_Repairs := repairs_of d (Run_ID run) |>.

(* src: internal/verification/store.go:61-122 (Store.Get) *)
Definition Get (id : string) : C (result VerificationRun) :=
  if negb DB then mret (Err unavailable) else
  look (λ d, match runs d !! id with
             | Some run => Ok (load d run)
             | None => Err (ErrorString "verification run not found")
             end).

(** Rows without a task are not found under the empty name: they hold no text. *)
(* src: internal/verification/store.go:123-146 (Store.ListForTask) *)
Definition ListForTask (task : string) : C (result (list VerificationRun)) :=
  if negb DB then mret (Err unavailable) else
  look (λ d, Ok (load d <$> sort_by (λ a b, Run_StartedAt b <? Run_StartedAt a)
    (filter (λ run, Run_TaskID run = task ∧ task ≠ "") (map_to_list (runs d)).*2))).

(* src: internal/verification/store.go:147-166 (Store.Artifacts) *)
Definition Artifacts (run : string) : C (result (list VerificationArtifact)) :=
  if negb DB then mret (Err unavailable) else
  look (λ d, Ok (sort_by (λ a b, collate (VArtifact_ID a) (VArtifact_ID b))
    (filter (λ a, VArtifact_RunID a = run) (map_to_list (artifacts d)).*2))).
End store.

(** ** What is always true of the tables *)

Record ver_ok (d : ver_db) : Prop := {
  ok_runs : map_Forall (λ id run, Run_ID run = id) (runs d);
  ok_checks : map_Forall (λ id _, is_Some (runs d !! id)) (checks d);
  ok_repairs : map_Forall (λ id r, Repair_ID r = id ∧ is_Some (runs d !! Repair_RunID r)) (repairs d)
}.
Definition no_runs : ver_db := mkVerDB ∅ ∅ ∅ ∅ ∅.
Lemma no_runs_ok : ver_ok no_runs.
Proof. split; apply map_Forall_empty. Qed.

Section facts.
Context `{Json} `{Database} {W : Type}.
Notation C A := (M (ver_db * W) A).

Lemma put_run_ok run d : ver_ok d → ver_ok (put_run run d).
Proof.
  intros [Hr Hc Hp].
  assert (∀ id, is_Some (runs d !! id) → is_Some (runs (put_run run d) !! id)) as Hmono
    by (intros id Hid; cbn; by apply lookup_insert_is_Some'; right).
  split; cbn.
  - apply map_Forall_insert_2; [|done]. destruct (runs d !! Run_ID run) eqn:E; [by apply Hr in E|done].
  - eapply map_Forall_impl; [exact Hc|]. intros id x. apply Hmono.
  - eapply map_Forall_impl; [exact Hp|]. intros id x [Hid Hx]. split; [done|]. by apply Hmono.
Qed.
Lemma put_check_ok run r d : ver_ok d → refers (Run_ID run) d = true → ver_ok (put_check run r d).
Proof.
  intros [Hr Hc Hp] Hf%bool_decide_eq_true. split; cbn; [done| |done]. by apply map_Forall_insert_2.
Qed.
Lemma put_repair_ok run r d : ver_ok d → refers run d = true → ver_ok (put_repair run r d).
Proof.
  intros [Hr Hc Hp] Hf%bool_decide_eq_true. split; cbn; [done|done|]. apply map_Forall_insert_2; [|done].
  destruct (repairs d !! Repair_ID r) as [x|] eqn:E; [by apply Hp in E|done].
Qed.

Lemma keeps_Save DB run : keeps ver_ok (Save (W := W) DB run).
Proof.
  unfold Save. destruct DB; cbn [negb]; [|apply keeps_mret].
  repeat apply keeps_and_then; [|apply keeps_each; intros x..]; apply keeps_execute; intros d Hd.
  - intros _. by apply put_run_ok.
  - by apply put_check_ok.
  - intros _. by destruct Hd.
  - intros _. by destruct Hd.
  - intros [_ Hf]%andb_true_iff. by apply put_repair_ok.
Qed.

(** The tables after some runs were saved, or were tried to. *)
Definition save_step (d d' : ver_db) : Prop :=
  ∃ DB run (w : W) err w', Save DB run (d, w) = (err, (d', w')).
Lemma reachable_runs_ok d : rtc save_step no_runs d → ver_ok d.
Proof.
  intros Hr. pose proof no_runs_ok as Hok. revert Hok. induction Hr as [|d1 d2 d3 Hs _ IH]; intros Hok; [done|].
  apply IH. destruct Hs as (DB & run & w & err & w' & Hs). by apply keeps_Save in Hs; apply Hs.
Qed.

(** ** Saving a run *)

Lemma refers_same run d d' : runs d' = runs d → refers run d' = refers run d.
Proof. unfold refers. by intros ->. Qed.

(** The tables after the results, the failures, the artifacts and the repairs of a run. *)
Definition save_results (run : VerificationRun) : ver_db → ver_db :=
  λ d, foldl (λ d r, put_check run r d) d (Run_Results run).
Definition save_failures (run : VerificationRun) : ver_db → ver_db :=
  λ d, foldl (λ d f, put_failure (Run_ID run) f d) d (Run_Failures run).
Definition save_artifacts (run : VerificationRun) : ver_db → ver_db :=
  λ d, foldl (λ d a, put_artifact a d) d (Run_Artifacts run).
Definition save_repairs (run : VerificationRun) : ver_db → ver_db :=
  λ d, foldl (λ d r, put_repair (Run_ID run) r d) d (Run_Repairs run).

(** The artifacts are of runs that are known, and the numbers of the repairs fit. *)
Definition savable (run : VerificationRun) (d : ver_db) : Prop :=
  (∀ a, a ∈ Run_Artifacts run → VArtifact_RunID a = Run_ID run ∨ is_Some (runs d !! VArtifact_RunID a)) ∧
  ∀ r, r ∈ Run_Repairs run → int4 (Repair_Attempt r) = true.

Lemma put_run_refers run d id :
  refers id (put_run run d) = true ↔ id = Run_ID run ∨ is_Some (runs d !! id).
Proof. unfold refers. rewrite bool_decide_eq_true. cbn. rewrite lookup_insert_is_Some'. naive_solver. Qed.

Lemma save_results_same run d : runs (save_results run d) = runs d ∧ repairs (save_results run d) = repairs d.
Proof. split; unfold save_results; by rewrite fold_same. Qed.
Lemma save_failures_same run d :
  runs (save_failures run d) = runs d ∧ checks (save_failures run d) = checks d ∧
  repairs (save_failures run d) = repairs d.
Proof. split_and!; unfold save_failures; by rewrite fold_same. Qed.
Lemma save_artifacts_same run d :
  runs (save_artifacts run d) = runs d ∧ checks (save_artifacts run d) = checks d ∧
  repairs (save_artifacts run d) = repairs d.
Proof. split_and!; unfold save_artifacts; by rewrite fold_same. Qed.
Lemma save_repairs_same run d : runs (save_repairs run d) = runs d ∧ checks (save_repairs run d) = checks d.
Proof. split; unfold save_repairs; by rewrite fold_same. Qed.

(** What saving a run does. *)
Lemma Save_spec run d (w : W) err d' w' :
  Save true run (d, w) = (err, (d', w')) → w' = w ∧ (err = None ↔ savable run d) ∧
  (err = None → d' = save_repairs run (save_artifacts run (save_failures run (save_results run (put_run run d))))).
Proof.
  unfold Save. cbn [negb].
  assert (∀ f : ver_db → ver_db, (∀ d, runs (f d) = runs d) → ∀ id d, refers id (f d) = refers id d) as Hst
    by (intros f Hf id s; by apply refers_same).
  intros [[Herr Hr]|([d1 w1] & Hr & Hk)]%and_then_inv;
    apply execute_inv in Hr as (-> & [(_ & ? & ->)|([=] & _)]); [done|].
  assert (refers (Run_ID run) (put_run run d) = true) as Hrun by (apply put_run_refers; by left).
  apply and_then_inv in Hk as [[Herr Hr]|([d1 w1] & Hr & Hk)];
    apply each_static in Hr as (-> & [_ Hn] & Hs); try (intros; by apply Hst); [by destruct Herr; apply Hn|].
  rewrite (Hs eq_refl) in Hk. clear Hs Hn. fold (save_results run (put_run run d)) in Hk.
  rewrite <-(Hst _ (λ d, proj1 (save_results_same run d))) in Hrun.
  apply and_then_inv in Hk as [[Herr Hr]|([d2 w2] & Hr & Hk)];
    apply each_static in Hr as (-> & [_ Hn] & Hs); try (intros; by apply Hst); [by destruct Herr; apply Hn|].
  rewrite (Hs eq_refl) in Hk. clear Hs Hn. fold (save_failures run (save_results run (put_run run d))) in Hk.
  rewrite <-(Hst _ (λ d, proj1 (save_failures_same run d))) in Hrun.
  assert (∀ id, refers id (save_failures run (save_results run (put_run run d))) = true ↔
    id = Run_ID run ∨ is_Some (runs d !! id)) as Hart.
  { intros id. rewrite (Hst _ (λ d, proj1 (save_failures_same run d))),
      (Hst _ (λ d, proj1 (save_results_same run d))). apply put_run_refers. }
  set (dd := save_failures _ _) in *.
  apply and_then_inv in Hk as [[Herr Hr]|([d3 w3] & Hr & Hk)];
    apply each_static in Hr as (-> & Hn & Hs); try (intros; by apply Hst); setoid_rewrite Hart in Hn.
  { split; [done|]. split; [|done]. split; [done|]. intros [Ha _]. by apply Hn. }
  rewrite (Hs eq_refl) in Hk. clear Hs. fold (save_artifacts run dd) in Hk.
  rewrite <-(Hst _ (λ d, proj1 (save_artifacts_same run d))) in Hrun.
  apply each_static in Hk as (-> & Hn2 & Hs); [|intros; f_equal; by apply Hst].
  split; [done|]. split; [|done]. rewrite Hn2. setoid_rewrite Hrun. setoid_rewrite andb_true_r.
  unfold savable. tauto.
Qed.

(** The rows of the checks and of the repairs after a run was saved. *)
Lemma save_results_rows run d :
  NoDup (Result_CheckID <$> Run_Results run) → checks_at d (Run_ID run) = ∅ →
  (map_to_list (checks_at (save_results run d) (Run_ID run))).*2 ≡ₚ check_row (Run_Checks run) <$> Run_Results run.
Proof.
  intros Hnd Hnone. unfold save_results.
  rewrite (fold_fresh (λ d, checks_at d (Run_ID run)) Result_CheckID (check_row (Run_Checks run)) (put_check run)).
  - by rewrite Hnone, map_to_list_empty, app_nil_r, <-list_fmap_compose.
  - intros r s Hr. unfold put_check, checks_at at 1. cbn. by rewrite lookup_insert_eq, Hr.
  - done.
  - intros r _. by rewrite Hnone.
Qed.
Lemma save_results_others run d id : id ≠ Run_ID run →
  checks_at (save_results run d) id = checks_at d id.
Proof.
  intros Hid. unfold save_results. apply (fold_same (λ d, checks_at d id)).
  intros r s. unfold put_check, checks_at at 1. cbn. by rewrite lookup_insert_ne.
Qed.
Lemma save_repairs_rows run d :
  NoDup (Repair_ID <$> Run_Repairs run) → (∀ r, r ∈ Run_Repairs run → repairs d !! Repair_ID r = None) →
  (map_to_list (repairs (save_repairs run d))).*2 ≡ₚ
    (repair_row (Run_ID run) <$> Run_Repairs run) ++ (map_to_list (repairs d)).*2.
Proof.
  intros Hnd Hnone. unfold save_repairs.
  rewrite (fold_fresh repairs Repair_ID (repair_row (Run_ID run)) (put_repair (Run_ID run))); [|..|done|done].
  - by rewrite fmap_app, <-list_fmap_compose.
  - intros r s Hr. cbn. by rewrite Hr.
Qed.

Lemma saved_tables run d :
  let d' := save_repairs run (save_artifacts run (save_failures run (save_results run (put_run run d)))) in
  ∃ d3, d' = save_repairs run d3 ∧ repairs d3 = repairs d ∧ runs d' = runs (put_run run d) ∧
    ∀ id, checks_at d' id = checks_at (save_results run (put_run run d)) id.
Proof.
  intros d'. eexists. split; [reflexivity|]. unfold d', checks_at.
  set (d0 := put_run run d). destruct (save_results_same run d0) as [Hr1 Hp1].
  generalize dependent (save_results run d0). intros d1 Hr1 Hp1.
  destruct (save_failures_same run d1) as (Hr2 & Hc2 & Hp2). generalize dependent (save_failures run d1). intros d2 Hr2 Hc2 Hp2.
  destruct (save_artifacts_same run d2) as (Hr3 & Hc3 & Hp3). generalize dependent (save_artifacts run d2). intros d3 Hr3 Hc3 Hp3.
  destruct (save_repairs_same run d3) as [Hr4 Hc4]. split_and!; [by rewrite Hp3, Hp2|congruence|].
  intros id. by rewrite Hc4, Hc3, Hc2.
Qed.

(** The repairs of the table that were of another run, or all of them. *)
Lemma filter_repairs_of_run run (l : list RepairAttempt) id :
  filter (λ r, Repair_RunID r = id) (repair_row run <$> l) = if decide (run = id) then repair_row run <$> l else [].
Proof.
  induction l as [|r l IH]; [by destruct (decide _)|]. rewrite fmap_cons, filter_cons, IH. cbn.
  by destruct (decide (run = id)).
Qed.
Lemma no_repairs_of d id : ver_ok d → runs d !! id = None →
  filter (λ r, Repair_RunID r = id) (map_to_list (repairs d)).*2 = [].
Proof.
  intros Hok Hnone. apply elem_of_nil_inv. intros r [Hid Hr]%list_elem_of_filter.
  apply list_elem_of_fmap in Hr as ([k x] & -> & Hr%elem_of_map_to_list). cbn in Hid.
  apply (ok_repairs _ Hok) in Hr as [_ [y Hy]]. by rewrite Hid, Hnone in Hy.
Qed.
Lemma no_checks_at d id : ver_ok d → runs d !! id = None → checks_at d id = ∅.
Proof.
  intros Hok Hnone. unfold checks_at. destruct (checks d !! id) eqn:E; [|done].
  apply (ok_checks _ Hok) in E as [y Hy]. congruence.
Qed.

(** Saving and reading a run.  In every state of the tables, a run whose identifier and
    whose repairs are new, with one result for a check, is saved without an error exactly
    when its artifacts are its own or of known runs and the numbers of its repairs fit.  It
    is then read back with the same verdict, with a check and a result for each result,
    without what [check_row] leaves out, and with its repairs; and what is read of the
    other runs stays. *)
Theorem Save_Get d run (w : W) err d' w' :
  rtc save_step no_runs d → runs d !! Run_ID run = None →
  NoDup (Result_CheckID <$> Run_Results run) → NoDup (Repair_ID <$> Run_Repairs run) →
  (∀ r, r ∈ Run_Repairs run → repairs d !! Repair_ID r = None) →
  Save true run (d, w) = (err, (d', w')) →
  (err = None ↔ savable run d) ∧
  (err = None → ∃ rows rs,
     Get true (Run_ID run) (d', w') = (Ok (reread run rows rs), (d', w')) ∧
     rows ≡ₚ check_row (Run_Checks run) <$> Run_Results run ∧
     rs ≡ₚ repair_row (Run_ID run) <$> Run_Repairs run ∧
     TaskVerified (reread run rows rs) = TaskVerified run ∧
     ∀ id, id ≠ Run_ID run → runs d' !! id = runs d !! id ∧ checks_of d' id = checks_of d id ∧
       repairs_of d' id ≡ₚ repairs_of d id).
Proof.
  intros Hok%reachable_runs_ok Hfresh Hres Hrep Hnew (-> & Hn & Hs)%Save_spec. split; [exact Hn|].
  intros Herr. specialize (Hs Herr). destruct (saved_tables run d) as (d3 & Hd3 & Hreps & Hruns & Hchecks).
  rewrite <-Hs in Hd3, Hruns, Hchecks. clear Hs. assert (∀ r, r ∈ Run_Repairs run → repairs d3 !! Repair_ID r = None) as Hnew3
    by (by rewrite Hreps).
  pose proof (save_repairs_rows run d3 Hrep Hnew3) as Hrows. rewrite Hreps, <-Hd3 in Hrows.
  exists (checks_of d' (Run_ID run)), (repairs_of d' (Run_ID run)). split_and!.
  - unfold Get, look, inside. cbn [negb fst snd].
    assert (runs d' !! Run_ID run = Some (run_row run)) as -> by (rewrite Hruns; cbn; by rewrite lookup_insert_eq, Hfresh).
    unfold load, reread. change (Run_ID (run_row run)) with (Run_ID run). reflexivity.
  - unfold checks_of. rewrite sort_by_perm, Hchecks. apply save_results_rows; [done|]. exact (no_checks_at d _ Hok Hfresh).
  - unfold repairs_of. rewrite sort_by_perm, Hrows, filter_app, filter_repairs_of_run, decide_True, no_repairs_of by done. by rewrite app_nil_r.
  - done.
  - intros id Hid. split_and!.
    + rewrite Hruns. cbn. by rewrite lookup_insert_ne.
    + unfold checks_of. by rewrite Hchecks, save_results_others.
    + unfold repairs_of. rewrite !sort_by_perm.
      by rewrite Hrows, filter_app, filter_repairs_of_run, decide_False.
Qed.
End facts.

(** ** A witness *)

Section witness.
#[local] Instance plain_json : Json := {| json_map m := m |}.
#[local] Instance plain_pg : Database := {| violation := ErrorString "violation"; collate := String.ltb |}.

Definition stored_check (id : string) (deps : list string) : VerificationCheck :=
  mkCheck id UnitTest id "" true 0 2 ∅ [] deps.
Definition failed (id output : string) : VerificationResult :=
  mkResult id Failed zero_Evidence
    (Some (mkFailure ("failure_" +:+ id) TestFailure id "" [] (Some 1) output "" "" [] "exit status 1" "high" true)) 7500 7500.
Definition passed (id : string) : VerificationResult := mkResult id Passed zero_Evidence None 7500 7500.
Definition failed_run (id output : string) : VerificationRun :=
  mkRun id "shop" "" "" "" Failed 7500 (Some 9000) (mkSummary 1 1 0 0 0) (mkProfile "" Standard [])
    [stored_check "build" []; stored_check "test" ["build"]] [passed "build"; failed "test" output]
    (omap Result_Failure [passed "build"; failed "test" output]) [] [] (mkProjectState "" "" []).
Definition saved_run (run : VerificationRun) (d : ver_db) : ver_db := (Save (W := unit) true run (d, tt)).2.1.
Notation first := (failed_run "vr_1" "first output").
Notation second := (failed_run "vr_2" "second output").

Lemma Save_Get_witness :
  (Save (W := unit) true second (saved_run first no_runs, tt)).1 = None ∧
  ∃ rows rs, (Get (W := unit) true "vr_2" (saved_run second (saved_run first no_runs), tt)).1 =
      Ok (reread second rows rs) ∧
    rows ≡ₚ check_row (Run_Checks second) <$> Run_Results second.
Proof.
  assert ((Save (W := unit) true second (saved_run first no_runs, tt)).1 = None) as Hnone by (vm_compute; reflexivity).
  split; [exact Hnone|]. unfold saved_run at 1.
  destruct (Save true second (saved_run first no_runs, tt)) as [err [d' []]] eqn:E. cbn in Hnone. subst err.
  destruct (Save_Get (saved_run first no_runs) second tt None d' tt) as [_ Hget];
    [|vm_compute; reflexivity| | |by intros r ?%elem_of_nil|exact E|].
  - apply rtc_once. unfold saved_run. destruct (Save true first (no_runs, tt)) as [e [d1 []]] eqn:E1.
    by exists true, first, tt, e, tt.
  - apply (bool_decide_unpack _). vm_compute. exact I.
  - constructor.
  - destruct (Hget eq_refl) as (rows & rs & Hg & Hrows & _). exists rows, rs. split; [|exact Hrows].
    cbn [snd fst]. change "vr_2" with (Run_ID second). by rewrite Hg.
Defined.

(** The checks of a run come back without their dependencies and retries, so that
    repeating them repeats them in another way. *)
Lemma dependencies_forgotten :
  match (Get (W := unit) true "vr_1" (saved_run first no_runs, tt)).1 with
  | Ok run => (λ c, (Check_ID c, Check_Dependencies c, Check_MaxAttempts c)) <$> Run_Checks run
      = [("build", [], 0); ("test", [], 0)]
  | Err _ => False
  end.
Proof. vm_compute. reflexivity. Qed.

(** The reports of failures are kept under the check alone: the report of the second run
    replaces the one of the first, whose run it stays with. *)
Lemma failure_reports_collide :
  let d := saved_run second (saved_run first no_runs) in
  dom (failures d) = {["failure_test"]} ∧ (Row_RunID <$> failures d !! "failure_test") = Some "vr_1".
Proof. split; vm_compute; reflexivity. Qed.

(** What a failed check has printed is not in the report that is kept. *)
Lemma failure_output_lost :
  match (Get (W := unit) true "vr_1" (saved_run first no_runs, tt)).1 with
  | Ok run => Failure_Stdout <$> Run_Failures run = [""] ∧
      Failure_Stdout <$> Run_Failures first = ["first output"]
  | Err _ => False
  end.
Proof. vm_compute. done. Qed.
End witness.
End verstore.
