(* ===== verification/HttpVerify.v ===== *)
(** * The handlers of verification runs

    [src/internal/httpapi/verification.go], over the engine of [VerEngine.v], the repair
    loop of [VerRepair.v] and the store of [VerStore.v].  What the engine and the loop tell
    the bus is in their results there. *)

From stdpp Require Import relations.
From S2P Require Import Prelude GoStrings World Runtime VerTypes VerGraph VerAdapters VerEngine VerFacts VerRepair PgBase VerStore Auth HttpApi HttpBase.
Import crypto auth verification checkgraph adapters engine pg verstore httpapi httpbase.

Module httpverify.

#[global] Instance eta_CheckRequest : Eta CheckRequest := λ r,
  mkCheckRequest (Request_ProjectID r) (Request_WorkflowID r) (Request_TaskID r) (Request_TaskRunID r)
    (Request_RuntimeID r) (Request_Workspace r) (Request_Profile r) (Request_Policy r) (Request_Checks r).

Section handlers.
Context `{MapOrder} `{strings.GoUnicode} `{Json} `{Database} {W : Type} `{World W} `{Sha256}.
Variable AuthOf : option (AuthService W).
(** The store, if there is one, may have a database. *)
Variable VerificationStore : option bool.
Variable VerificationEngine : option (Engine W).
Variable RepairLoop : option (repair.RepairLoop W).
Variable RuntimeProvider : option (runtime.Provider W).
Variable Bus : option (string → string → VerificationRun → M W unit).
Notation C A := (M (ver_db * W) A).
Notation reply A := (C (Response (Z * A))).

Definition project_of (project runtime_id workspace : string) : ProjectContext W :=
  mkProject project runtime_id RuntimeProvider workspace "" "" [].
Definition with_store {A} (k : bool → reply A) : reply A :=
  available VerificationStore "verification store unavailable" k.
(** [Get] the run of the path, and go on if the caller has the permission on its project. *)
Definition permitted_run {A} (DB : bool) (r : Request) (permission : ProjectPermission)
    (k : VerificationRun → reply A) : reply A :=
  let! found := Get DB (PathValue r "id") in
  match found with
  | Err e => writeError 404 e
  | Ok run => permitted AuthOf r (Run_ProjectID run) permission (k run)
  end.

(** [Query] is the parameter [project_id] of the URL.  Without a project nothing is
    written, which is the answer 200 without a body. *)
(* src: internal/httpapi/verification.go:14-41 (createVerification) *)
Definition createVerification (r : Request) (Query : string) (input : result CheckRequest)
    : reply (option VerificationRun) :=
  match VerificationEngine, VerificationStore with
  | Some e, Some DB =>
      decoded input (λ req,
        let project := if decide (Request_ProjectID req = "") then Query else Request_ProjectID req in
        if decide (project = "") then mret (Answer (200, None))
        else permitted AuthOf r project PermissionRun
          (let req := req <| Request_ProjectID := project |> in
           let! done := outside (Run e req (project_of project (Request_RuntimeID req) (Request_Workspace req))) in
           match done with
           | Err err => writeError 400 err
           | Ok (run, _) =>
               let! err := Save DB run in
               match err with Some err => writeError 500 err | None => writeJSON 201 (Some run) end
           end))
  | _, _ => writeError 503 (ErrorString "verification service unavailable")
  end.

(* src: internal/httpapi/verification.go:42-56 (getVerification) *)
Definition getVerification (r : Request) : reply VerificationRun :=
  with_store (λ DB, permitted_run DB r PermissionRead (writeJSON 200)).

(** The runs whose project the user may read.  A principal is only ever set by the
    authentication service, so that there is one. *)
Fixpoint visible_runs (user : User) (l : list VerificationRun) : M W (list VerificationRun) :=
  match l with
  | [] => mret []
  | run :: l =>
      let! shown := if decide (Role user = RoleAdmin) then mret true
                    else match AuthOf with
                         | Some s => let! err := RequireProjectAccess s user (Run_ProjectID run) PermissionRead in
                                     mret (bool_decide (err = None))
                         | None => mret false
                         end in
      let! rest := visible_runs user l in
      mret (if (shown : bool) then run :: rest else rest)
  end.
(* src: internal/httpapi/verification.go:57-79 (taskVerifications) *)
Definition taskVerifications (r : Request) : reply (list VerificationRun) :=
  with_store (λ DB,
    let! listed := ListForTask DB (PathValue r "id") in
    match listed with
    | Err e => writeError 500 e
    | Ok runs =>
        match Principal r with
        | None => writeError 401 (ErrorString "authentication required")
        | Some p => let! visible := outside (visible_runs (Principal_User p) runs) in writeJSON 200 visible
        end
    end).

(* src: internal/httpapi/verification.go:80-99 (verificationArtifacts) *)
Definition verificationArtifacts (r : Request) : reply (list VerificationArtifact) :=
  with_store (λ DB, permitted_run DB r PermissionRead (λ _,
    let! items := Artifacts DB (PathValue r "id") in
    match items with Err e => writeError 500 e | Ok items => writeJSON 200 items end)).

(* src: internal/httpapi/verification.go:100-126 (cancelVerification) *)
Definition cancelVerification (r : Request) : reply VerificationRun :=
  with_store (λ DB, permitted_run DB r PermissionRun (λ run,
    if decide (Run_Status run = Pending ∨ Run_Status run = Running) then
      let! now := outside time_Now in
      let run := run <| Run_Status := Cancelled |> <| Run_CompletedAt := Some now |> in
      let! err := Save DB run in
      match err with
      | Some e => writeError 500 e
      | None => let! _ := announce Bus "verification.cancelled" (Run_ProjectID run) run in writeJSON 200 run
      end
    else writeJSON 200 run)).

(** What decoding the body of a repair left: the runtime, the workspace and the number of
    attempts. *)
Definition repair_request (run : VerificationRun) (runtime_id workspace : string) : CheckRequest :=
  mkCheckRequest (Run_ProjectID run) (Run_WorkflowID run) (Run_TaskID run) (Run_TaskRunID run)
    runtime_id workspace (Profile_Name (Run_Profile run)) (Profile_Policy (Run_Profile run)) (Run_Checks run).
(* src: internal/httpapi/verification.go:127-165 (repairVerification) *)
Definition repairVerification (r : Request) (body : string * string * Z) : reply VerificationRun :=
  match VerificationStore, RepairLoop with
  | Some DB, Some loop =>
      permitted_run DB r PermissionEdit (λ run,
        if decide (Run_Status run = Passed) then writeJSON 200 run
        else
          let '(runtime_id, workspace, max) := body in
          let loop := if 0 <? max
            then repair.mkRepairLoop (repair.Loop_Engine loop) (repair.Loop_Analyzer loop)
                   (repair.Loop_Executor loop) max (repair.Loop_Events loop)
            else loop in
          let! (updated, err, _) := outside (repair.Run loop (repair_request run runtime_id workspace)
            (project_of (Run_ProjectID run) runtime_id workspace)
            (mkTaskContext (Run_WorkflowID run) (Run_TaskID run) (Run_TaskRunID run) "")) in
          match err with
          | Some e => writeError 500 e
          | None =>
              let! err := Save DB updated in
              match err with Some e => writeError 500 e | None => writeJSON 200 updated end
          end)
  | _, _ => writeError 503 (ErrorString "repair service unavailable")
  end.
End handlers.

(** ** The runs of the engine *)

Definition finished (run : VerificationRun) : Prop := Run_Status run ≠ Pending ∧ Run_Status run ≠ Running.
Definition own_artifacts (run : VerificationRun) : Prop :=
  ∀ a, a ∈ Run_Artifacts run → VArtifact_RunID a = Run_ID run.
(** A run while its checks are made. *)
Record under_way (project : string) (run : VerificationRun) : Prop := {
  uw_status : Run_Status run = Running ∨ Run_Status run = Cancelled ∨ Run_Status run = TimedOut;
  uw_project : Run_ProjectID run = project;
  uw_artifacts : own_artifacts run
}.

Section engine_runs.
Context `{MapOrder} `{strings.GoUnicode} {W : Type} `{World W}.

Lemma publish_under_way (e : Engine W) kind pid data project s :
  under_way project (loop_run s) → under_way project (loop_run (publish e kind pid data s)).
Proof. by rewrite publish_run. Qed.
Lemma record_result_under_way c r project s :
  under_way project (loop_run s) → under_way project (loop_run (record_result c r s)).
Proof. by intros [Hu1 Hu2 Hu3]; split. Qed.
Lemma set_status_under_way st project s : st = Cancelled ∨ st = TimedOut →
  under_way project (loop_run s) → under_way project (loop_run (set_status st s)).
Proof. intros Hst [Hu1 Hu2 Hu3]. split; [by right|done|done]. Qed.
Lemma record_artifact_under_way request c r project s :
  under_way project (loop_run s) → under_way project (loop_run (record_artifact request c r s)).
Proof.
  unfold record_artifact. case_decide; [done|]. intros [Hu1 Hu2 Hu3]. split; [done|done|].
  intros a. cbn. rewrite elem_of_app, list_elem_of_singleton. intros [Ha| ->]; [by apply Hu3|done].
Qed.
#[local] Hint Resolve publish_under_way record_result_under_way record_artifact_under_way : core.

Lemma check_loop_under_way (e : Engine W) registry request project now checks pid s w s' w' :
  check_loop e registry request project now checks s w = (s', w') →
  under_way pid (loop_run s) → under_way pid (loop_run s').
Proof.
  revert s w. induction checks as [|c checks IH]; intros s w; cbn [check_loop].
  { by intros [-> _]%mret_inv. }
  intros (cerr & w1 & _ & Hk)%mthen_inv Hs. destruct cerr as [err|].
  { apply mret_inv in Hk as [<- _]. apply set_status_under_way; [apply interrupted_cases|done]. }
  destruct (is_blocked (loop_results s) c).
  { apply mthen_inv in Hk as (t & w2 & _ & Hk). apply IH in Hk; auto. }
  apply mthen_inv in Hk as ([r executed] & w2 & _ & Hk).
  destruct executed; cbn [negb] in Hk; [|apply IH in Hk; auto].
  apply mthen_inv in Hk as (cerr & w3 & _ & Hk). destruct cerr as [err|]; [|apply IH in Hk; auto].
  apply mthen_inv in Hk as (st & w4 & Hst & Hk). apply mret_inv in Hk as [<- _].
  apply set_status_under_way; [|auto]. pose proof (interruption_cases w3) as Hc. by rewrite Hst in Hc.
Qed.

Lemma conclude_same run :
  Run_ID (conclude run) = Run_ID run ∧ Run_ProjectID (conclude run) = Run_ProjectID run ∧
  Run_Artifacts (conclude run) = Run_Artifacts run.
Proof. unfold conclude. case_decide; cbv zeta; destruct (0 <? _); done. Qed.

(** The engine only ever returns a run that has ended, of the project that was asked for. *)
Lemma Run_finished (e : Engine W) request project w run events w' :
  Run e request project w = (Ok (run, events), w') →
  finished run ∧ own_artifacts run ∧ Run_ProjectID run = Request_ProjectID request ∧
  Request_ProjectID request ≠ "".
Proof.
  unfold Run. case_decide as Hpid; [by intros [? _]%mret_inv|].
  intros (now0 & w1 & _ & Hr)%mthen_inv. apply mthen_inv in Hr as (now & w2 & _ & Hr).
  destruct (ValidateChecks _); [by apply mret_inv in Hr as [? _]|].
  apply mthen_inv in Hr as (project' & w3 & _ & Hr).
  apply mthen_inv in Hr as (s & w4 & Hloop & Hr).
  apply mthen_inv in Hr as (completed & w5 & _ & [Hrun _]%mret_inv). injection Hrun as <- _.
  apply (check_loop_under_way _ _ _ _ _ _ (Request_ProjectID request)) in Hloop as [Hst Hp Ha].
  - destruct (conclude_same (loop_run s)) as (Hid & Hpr & Har). destruct (conclude_spec (loop_run s)) as (_ & _ & _ & Hcs).
    split_and!; [|intros a; cbn; rewrite Har, Hid; by apply Ha|cbn; by rewrite Hpr|done].
    unfold finished. cbn. rewrite Hcs. destruct (0 <? _); [done|]. case_decide; [done|]. destruct Hst as [?|[->| ->]]; done.
  - rewrite publish_run. split; [by left|done|]. by intros a ?%elem_of_nil.
Qed.

(** The results of a run are of different checks. *)
Lemma Run_results_distinct (e : Engine W) request project w run events w' :
  LawfulRegistry (default DefaultRegistry (Registry e)) →
  Run e request project w = (Ok (run, events), w') → NoDup (Result_CheckID <$> Run_Results run).
Proof.
  intros Hreg Hrun. apply Run_has_trace in Hrun as (_ & tr & b & st & [Hv Ht Hr _ _ _ _]); [|done].
  rewrite Hr, (trace_results_ids _ _ _ _ _ Ht). destruct (trace_checks _ _ _ _ _ Ht) as [[l Hl] _].
  pose proof (vc_nodup _ Hv) as Hnd. rewrite <-(sort_by_perm check_less (Run_Checks run)), Hl, fmap_app in Hnd.
  by apply NoDup_app in Hnd as [? _].
Qed.

(** So does the repair loop. *)
Lemma repair_rounds_finished l e analyze rep request project task n attempt run log (w : W) run' log' w' :
  repair.repair_rounds l e analyze rep request project task n attempt run log w = ((run', None, log'), w') →
  finished run ∧ own_artifacts run ∧ Run_ProjectID run = Request_ProjectID request →
  finished run' ∧ own_artifacts run' ∧ Run_ProjectID run' = Request_ProjectID request.
Proof.
  revert attempt run log w. induction n as [|n IH]; intros attempt run log w; cbn [repair.repair_rounds].
  { by intros [[= -> _] _]%mret_inv. }
  case_decide; [by intros [[= -> _] _]%mret_inv|].
  intros ([r log1] & w1 & _ & Hk)%mthen_inv Hrun.
  case_decide; [by apply mret_inv in Hk as [[= <- _] _]|].
  apply mthen_inv in Hk as (again & w2 & He & Hk). destruct again as [[run2 ev]|err]; [|by apply mret_inv in Hk as [[=] _]].
  apply Run_finished in He as (? & ? & ? & _). by apply IH in Hk.
Qed.
Lemma repair_finished l request project task (w : W) run log w' :
  repair.Run l request project task w = ((run, None, log), w') →
  finished run ∧ own_artifacts run ∧ Run_ProjectID run = Request_ProjectID request.
Proof.
  unfold repair.Run. destruct (repair.Loop_Engine l) as [e|]; [|by intros [[=] _]%mret_inv].
  intros (first & w1 & He & Hk)%mthen_inv. destruct first as [[run0 ev]|err]; [|by apply mret_inv in Hk as [[=] _]].
  apply Run_finished in He as (? & ? & ? & _). case_decide; [by apply mret_inv in Hk as [[= -> _] _]|].
  destruct (repair.Loop_Executor l) as [rep|]; [|by apply mret_inv in Hk as [[= -> _] _]].
  apply mthen_inv in Hk as ([[run1 err] log1] & w2 & Hr & Hk).
  destruct err; apply mret_inv in Hk as [[=] _]. subst. by apply repair_rounds_finished in Hr.
Qed.
End engine_runs.

(** ** The handlers and the tables *)

Definition all_finished (d : ver_db) : Prop := map_Forall (λ _ run, finished run) (runs d).

Section facts.
Context `{MapOrder} `{strings.GoUnicode} `{Json} `{Database} {W : Type} `{World W} `{Sha256}.
Variable AuthOf : option (AuthService W).
Variable VerificationStore : option bool.
Variable VerificationEngine : option (Engine W).
Variable RepairLoop : option (repair.RepairLoop W).
Variable RuntimeProvider : option (runtime.Provider W).
Variable Bus : option (string → string → VerificationRun → M W unit).
Notation C A := (M (ver_db * W) A).
Notation reply A := (C (Response (Z * A))).

Lemma Save_keeps_finished DB run : finished run → keeps all_finished (Save (W := W) DB run).
Proof.
  intros Hfin. unfold Save. destruct DB; cbn [negb]; [|apply keeps_mret].
  repeat apply keeps_and_then; [|apply keeps_each; intros x..]; apply keeps_execute; intros d Hd _; try exact Hd.
  unfold all_finished. cbn. apply map_Forall_insert_2; [|exact Hd].
  by destruct (runs d !! Run_ID run).
Qed.

(** What a handler of one run does when it gets to it. *)
Lemma permitted_run_cases {A} DB r permission (k : VerificationRun → reply A) d w resp d' w' :
  permitted_run AuthOf DB r permission k (d, w) = (resp, (d', w')) →
  d' = d ∨ ∃ run w1, DB = true ∧ runs d !! PathValue r "id" = Some run ∧
    passes AuthOf r (Run_ProjectID run) permission w w1 ∧ k (load d run) (d, w1) = (resp, (d', w')).
Proof.
  unfold permitted_run. intros (found & [d1 w1] & Hg & Hk)%mthen_inv. unfold Get in Hg.
  destruct DB; cbn [negb] in Hg; [|apply mret_inv in Hg as [<- [= <- <-]]; apply mret_inv in Hk as [_ [= <- _]]; by left].
  unfold look, inside in Hg. cbn [fst snd] in Hg. injection Hg as <- <- <-.
  destruct (runs d !! PathValue r "id") as [run|] eqn:Hr; [|apply mret_inv in Hk as [_ [= <- _]]; by left].
  apply permitted_cases in Hk as [?|(w2 & Hp & Hk)]; [by left|]. right. by exists run, w2.
Qed.

(** Nothing can be cancelled: no run of the tables is under way. *)
Lemma cancel_finished r d w resp d' w' : all_finished d →
  cancelVerification AuthOf VerificationStore Bus r (d, w) = (resp, (d', w')) → d' = d.
Proof.
  intros Hall. unfold cancelVerification, with_store, available.
  destruct VerificationStore as [DB|]; [|by intros [_ [= <- _]]%mret_inv].
  intros [?|(run & w1 & _ & Hr & _ & Hk)]%permitted_run_cases; [done|].
  apply Hall in Hr as [Hn1 Hn2]. rewrite decide_False in Hk by (intros [?|?]; done).
  by apply mret_inv in Hk as [_ [= <- _]].
Qed.

(** The request that the engine is given: its project, or else the one of the URL. *)
Definition in_project (Query : string) (req : CheckRequest) : CheckRequest :=
  req <| Request_ProjectID := if decide (Request_ProjectID req = "") then Query else Request_ProjectID req |>.
Lemma create_cases r query input d w resp d' w' :
  createVerification AuthOf VerificationStore VerificationEngine RuntimeProvider r query input (d, w)
    = (resp, (d', w')) →
  (d' = d ∧ ∀ a, resp ≠ Answer (201, a)) ∨
  ∃ e DB body run events w1 w2 err, let req := in_project query body in
    VerificationEngine = Some e ∧ VerificationStore = Some DB ∧ input = Ok body ∧
    passes AuthOf r (Request_ProjectID req) PermissionRun w w1 ∧
    Run e req (project_of RuntimeProvider (Request_ProjectID req) (Request_RuntimeID req) (Request_Workspace req)) w1
      = (Ok (run, events), w2) ∧
    Save DB run (d, w2) = (err, (d', w')) ∧
    resp = match err with Some err => Error 500 (error_text err) false | None => Answer (201, Some run) end.
Proof.
  unfold createVerification.
  destruct VerificationEngine as [e|], VerificationStore as [DB|]; try by (intros [<- [= <- _]]%mret_inv; left).
  destruct input as [req|err]; cbn [decoded]; [|intros [<- [= <- _]]%mret_inv; by left].
  destruct (decide (_ = "")); [intros [<- [= <- _]]%mret_inv; by left|].
  set (project := if decide _ then query else _) in *. unfold permitted.
  intros (denied & [s1 w1] & [Hr Hs]%outside_inv & Hk)%mthen_inv. cbn [fst snd] in *. subst s1.
  destruct denied as [resp'|].
  { left. apply mret_inv in Hk as [<- [= <- _]]. split; [done|]. intros a ->.
    unfold requireProjectPermission in Hr. destruct (Principal r), AuthOf; try by apply mret_inv in Hr as [[=] _].
    apply mthen_inv in Hr as ([err|] & w2 & _ & [Hr _]%mret_inv); [|done]. injection Hr. by case_match. }
  apply (passes_any AuthOf) in Hr.
  apply mthen_inv in Hk as (done & [s2 w2] & [Hrun Hs]%outside_inv & Hk). cbn [fst snd] in *. subst s2.
  destruct done as [[run ev]|err]; [|left; by apply mret_inv in Hk as [<- [= <- _]]].
  apply mthen_inv in Hk as (err & [d3 w3] & Hsave & Hk). right.
  exists e, DB, req, run, ev, w1, w2, err. split_and!; try done.
  - destruct err; by apply mret_inv in Hk as [_ [= <- <-]].
  - by destruct err; apply mret_inv in Hk as [<- _].
Qed.

Lemma repair_cases r body d w resp d' w' :
  repairVerification AuthOf VerificationStore RepairLoop RuntimeProvider r body (d, w) = (resp, (d', w')) →
  d' = d ∨ ∃ DB run w1 err, finished run ∧ Save DB run (d, w1) = (err, (d', w')).
Proof.
  unfold repairVerification.
  destruct VerificationStore as [DB|], RepairLoop as [loop|]; try by (intros [_ [= <- _]]%mret_inv; left).
  intros [?|(run & w1 & _ & _ & _ & Hk)]%permitted_run_cases; [by left|].
  case_decide; [apply mret_inv in Hk as [_ [= <- _]]; by left|]. destruct body as [[rid ws] max].
  apply mthen_inv in Hk as ([[updated err] log] & [s2 w2] & [Hrun Hs]%outside_inv & Hk). cbn [fst snd] in *. subst s2.
  destruct err as [e|]; [apply mret_inv in Hk as [_ [= <- _]]; by left|].
  apply repair_finished in Hrun as (Hfin & _). apply mthen_inv in Hk as (err & [d3 w3] & Hsave & Hk).
  right. exists DB, updated, w2, err. split; [done|]. destruct err; by apply mret_inv in Hk as [_ [= <- <-]].
Qed.

(** The requests that may change the tables, with whatever the server is made of. *)
Inductive ver_step (d d' : ver_db) : Prop :=
  | step_create r query input w resp w' :
      createVerification AuthOf VerificationStore VerificationEngine RuntimeProvider r query input (d, w)
        = (resp, (d', w')) → ver_step d d'
  | step_cancel r w resp w' :
      cancelVerification AuthOf VerificationStore Bus r (d, w) = (resp, (d', w')) → ver_step d d'
  | step_repair r body w resp w' :
      repairVerification AuthOf VerificationStore RepairLoop RuntimeProvider r body (d, w) = (resp, (d', w')) →
      ver_step d d'.

(** Each of them saves at most one run, which has ended. *)
Lemma ver_step_saves d d' : all_finished d → ver_step d d' →
  d' = d ∨ ∃ DB run (w : W) err w', finished run ∧ Save DB run (d, w) = (err, (d', w')).
Proof.
  intros Hall [r query input w resp w' Hs|r w resp w' Hs|r body w resp w' Hs].
  - apply create_cases in Hs as [[? _]|(e & DB & req & run & ev & w1 & w2 & err & _ & _ & _ & _ & Hrun & Hsave & _)]; [by left|].
    apply Run_finished in Hrun as [Hfin _]. right. by exists DB, run, w2, err, w'.
  - apply cancel_finished in Hs; [by left|done].
  - apply repair_cases in Hs as [?|(DB & run & w1 & err & Hfin & Hsave)]; [by left|]. right.
    by exists DB, run, w1, err, w'.
Qed.
Lemma reachable_finished d : rtc ver_step no_runs d → all_finished d ∧ rtc (save_step (W := W)) no_runs d.
Proof.
  apply (rtc_ind_r (λ d, all_finished d ∧ rtc (save_step (W := W)) no_runs d)).
  { split; [apply map_Forall_empty|apply rtc_refl]. }
  intros d1 d2 _ Hs [Hf Hrtc].
  apply ver_step_saves in Hs as [->|(DB & run & w & err & w' & Hfin & Hsave)]; [done| |done].
  split; [exact (Save_keeps_finished DB run Hfin _ _ _ Hsave Hf)|]. eapply rtc_r; [exact Hrtc|]. by exists DB, run, w, err, w'.
Qed.

(** No request for cancelling a run ever changes anything. *)
Lemma cancel_never r d (w : W) resp d' w' : rtc ver_step no_runs d →
  cancelVerification AuthOf VerificationStore Bus r (d, w) = (resp, (d', w')) → d' = d.
Proof. intros [Hf _]%reachable_finished. by apply cancel_finished. Qed.

(** C34: a run that is created.  In every state of the tables, the answer 201 carries the
    run that the engine made for the project, by a caller who may run in it; the run has
    ended; and when its identifier is new it is kept: it is read back with its verdict and
    with a check and a result for each of its results, and what is read of other runs
    stays. *)
Theorem createVerification_kept e r query input d (w : W) a d' w' :
  VerificationEngine = Some e → LawfulRegistry (default DefaultRegistry (Registry e)) →
  rtc ver_step no_runs d →
  createVerification AuthOf VerificationStore VerificationEngine RuntimeProvider r query input (d, w)
    = (Answer (201, a), (d', w')) →
  ∃ req run events w1,
    a = Some run ∧ Request_ProjectID req ≠ "" ∧ Run_ProjectID run = Request_ProjectID req ∧
    passes AuthOf r (Request_ProjectID req) PermissionRun w w1 ∧
    Run e req (project_of RuntimeProvider (Request_ProjectID req) (Request_RuntimeID req) (Request_Workspace req)) w1
      = (Ok (run, events), w') ∧
    finished run ∧
    (runs d !! Run_ID run = None → ∃ rows,
       (Get true (Run_ID run) (d', w')).1 = Ok (reread run rows []) ∧
       rows ≡ₚ check_row (Run_Checks run) <$> Run_Results run ∧
       TaskVerified (reread run rows []) = TaskVerified run ∧
       ∀ id, id ≠ Run_ID run → runs d' !! id = runs d !! id ∧ checks_of d' id = checks_of d id ∧
         repairs_of d' id ≡ₚ repairs_of d id).
Proof.
  intros He Hreg [_ Hreach]%reachable_finished
    [[_ Hno]|(e' & DB & body & run & ev & w1 & w2 & err & He' & _ & _ & Hp & Hrun & Hsave & Hresp)]%create_cases; [by destruct (Hno a)|].
  rewrite He in He'. injection He' as <-. destruct err as [err|]; [done|]. injection Hresp as ->.
  destruct (Run_finished _ _ _ _ _ _ _ Hrun) as (Hfin & _ & Hpr & Hne).
  assert (DB = true) as -> by (destruct DB; [done|]; by apply mret_inv in Hsave as [[=] _]).
  pose proof (repair.engine_run_repairs _ _ _ _ _ _ _ Hrun) as Hrep.
  pose proof Hsave as Hw. apply Save_spec in Hw as (-> & _).
  exists (in_project query body), run, ev, w1. split_and!; try done. intros Hfresh.
  apply Save_Get in Hsave as [_ Hg]; [|done|done|by eapply Run_results_distinct|rewrite Hrep; constructor|
    rewrite Hrep; by intros x ?%elem_of_nil].
  destruct (Hg eq_refl) as (rows & rs & Hget & Hrows & Hrs & Hv & Ho).
  rewrite Hrep in Hrs. apply Permutation_nil_r in Hrs as ->. exists rows. by rewrite Hget.
Qed.
End facts.

(** ** A witness *)

Section witness.
#[local] Existing Instance canonical_order.
#[local] Existing Instance ticking.
#[local] Existing Instance plain_json.
#[local] Existing Instance plain_pg.
#[local] Instance verify_unicode : strings.GoUnicode := strings.ascii_unicode.
#[local] Instance verify_sha : Sha256 := λ s, s.

Definition root_user : User := mkUser "u" "" "" RoleAdmin "active" 0 0 None.
Definition verify_auth : AuthService clock_world := mkAuth None (mkSessions None None 0) None.
Definition verify_request (values : gmap string string) : Request :=
  mkRequest "POST" "/api/verifications" None values
    (Some (mkPrincipal root_user (mkSession "s" "u" 0 1 None None "" ""))).
Definition plain_engine : Engine clock_world := mkEngine None true None.
Definition containers : option (runtime.Provider clock_world) :=
  Some (runtime.answering (runtime.mkExecResult 0 "" "")).
Definition two_checks : CheckRequest :=
  mkCheckRequest "shop" "" "" "" "rt" "/w" "" Standard [early_check; late_check false].
Notation creating := (createVerification (Some verify_auth) (Some true) (Some plain_engine) containers
  (verify_request ∅) "" (Ok two_checks) (no_runs, mkClockWorld 0 None)).

Lemma createVerification_kept_witness :
  ∃ run rows d' w', creating = (Answer (201, Some run), (d', w')) ∧
    (Get (W := clock_world) true (Run_ID run) (d', w')).1 = Ok (reread run rows []) ∧
    length (Run_Results run) = 2%nat ∧ TaskVerified (reread run rows []) = true.
Proof.
  assert (match creating.1 with
          | Answer (code, Some run) => code = 201 ∧ length (Run_Results run) = 2%nat ∧ TaskVerified run = true
          | _ => False
          end) as Hrun by (vm_compute; done).
  destruct creating as [resp [d' w']] eqn:E. cbn [fst] in Hrun.
  destruct resp as [code msg clears|[code [run|]]]; [destruct Hrun| |destruct Hrun].
  destruct Hrun as (-> & Hlen & Hok).
  destruct (createVerification_kept (Some verify_auth) (Some true) (Some plain_engine) None containers None
    plain_engine (verify_request ∅) "" (Ok two_checks) no_runs (mkClockWorld 0 None) (Some run) d' w')
    as (req & run' & ev & w1 & Hrun & _ & _ & _ & _ & _ & Hk);
    [reflexivity|exact (@DefaultRegistry_lawful _ _ _)|apply rtc_refl|exact E|].
  injection Hrun as <-. destruct (Hk eq_refl) as (rows & Hg & _ & Hv & _). exists run, rows, d', w'.
  split; [reflexivity|]. split; [exact Hg|]. split; [exact Hlen|]. rewrite Hv. exact Hok.
Defined.

(** A request that names no project is answered with 200 and nothing, not with an error. *)
Lemma nothing_answered :
  (createVerification (Some verify_auth) (Some true) (Some plain_engine) containers (verify_request ∅) ""
    (Ok (two_checks <| Request_ProjectID := "" |>)) (no_runs, mkClockWorld 0 None)).1 = Answer (200, None).
Proof. vm_compute. reflexivity. Qed.
End witness.
End httpverify.
