(* ===== verification/AgentStore.v ===== *)
(** * The store of agent sessions

    [PostgresStore] of [src/internal/agent/store.go], on the tables of
    [src/migrations/002_agent_fabric.sql], as the store of the service of [Agent.v]: the
    service runs on the tables and the world, its adapters, guard and clock on the world
    alone. *)

From stdpp Require Import relations.
From S2P Require Import Prelude World AgentTypes Agent PgBase.
Import agent agents pg.

Module agentstore.

(** The tables; of the projects, the agents and their configurations, only the keys that
    sessions refer to. *)
Record agent_db := mkAgentDB {
  projects : gset string;
  agent_definitions : gset string;
  agent_configurations : gset string;
  sessions : gmap string Session;
  session_events : gmap string Event
}.
#[global] Instance eta_agent_db : Eta agent_db := λ d,
  mkAgentDB (projects d) (agent_definitions d) (agent_configurations d) (sessions d) (session_events d).

(* src: internal/agent/store.go:13-13 (ErrSessionNotFound) *)
Definition ErrSessionNotFound : goerror := ErrorString "agent session not found".

Section store.
Context `{Json} `{Database} {W : Type}.
Notation C A := (M (agent_db * W) A).

Definition session_row (s : Session) : Session :=
  s <| Session_CreatedAt := timestamptz (Session_CreatedAt s) |>
    <| Session_UpdatedAt := timestamptz (Session_UpdatedAt s) |>.
Definition session_allowed (s : Session) (d : agent_db) : bool :=
  bool_decide (sessions d !! Session_ID s = None) && bool_decide (Session_ProjectID s ∈ projects d) &&
  bool_decide (Session_AgentID s ∈ agent_definitions d) &&
  bool_decide (ConfigurationID (Session_Model s) = "" ∨
               ConfigurationID (Session_Model s) ∈ agent_configurations d).
(* src: internal/agent/store.go:25-28 (PostgresStore.CreateSession) *)
Definition pg_CreateSession (s : Session) : C (option goerror) :=
  execute (session_allowed s)
    (λ d, d <| sessions := <[Session_ID s := session_row s]> (sessions d) |>).

(** The session of the project under the identifier. *)
Definition session_at (d : agent_db) (project id : string) : option Session :=
  s ← sessions d !! id; if decide (Session_ProjectID s = project) then Some s else None.
(* src: internal/agent/store.go:29-44 (PostgresStore.GetSession) *)
Definition pg_GetSession (project id : string) : C (result Session) :=
  look (λ d, match session_at d project id with Some s => Ok s | None => Err ErrSessionNotFound end).

(** Sessions of the same time come in any order. *)
(* src: internal/agent/store.go:45-64 (PostgresStore.ListSessions) *)
Definition pg_ListSessions (project : string) : C (result (list Session)) :=
  look (λ d, Ok (sort_by (λ a b, Session_CreatedAt b <? Session_CreatedAt a)
    (filter (λ s, Session_ProjectID s = project) (map_to_list (sessions d)).*2))).

(* src: internal/agent/store.go:65-74 (PostgresStore.UpdateSession) *)
Definition pg_UpdateSession (s : Session) : C (option goerror) :=
  inside (λ d,
    match session_at d (Session_ProjectID s) (Session_ID s) with
    | Some row => (None, d <| sessions := <[Session_ID s :=
        row <| Session_Status := Session_Status s |>
            <| Session_UpdatedAt := timestamptz (Session_UpdatedAt s) |>]> (sessions d) |>)
    | None => (Some ErrSessionNotFound, d)
    end).

Definition event_row (e : Event) : Event :=
  e <| Normalized := json_map (Normalized e) |> <| Raw := json_map (Raw e) |>
    <| Timestamp := timestamptz (Timestamp e) |>.
(* src: internal/agent/store.go:75-81 (PostgresStore.AppendEvent) *)
Definition pg_AppendEvent (e : Event) : C (option goerror) :=
  execute
    (λ d, bool_decide (session_events d !! Event_ID e = None) &&
       bool_decide (is_Some (sessions d !! Event_SessionID e)))
    (λ d, d <| session_events := <[Event_ID e := event_row e]> (session_events d) |>).

(* src: internal/agent/store.go:82-108 (PostgresStore.ListEvents) *)
Definition pg_ListEvents (project session : string) : C (result (list Event)) :=
  look (λ d, Ok match session_at d project session with
    | Some _ => sort_by (λ a b, Timestamp a <? Timestamp b)
        (filter (λ e, Event_SessionID e = session) (map_to_list (session_events d)).*2)
    | None => []
    end).

(* src: internal/agent/store.go:23-23 (PostgresStore) *)
Definition PostgresStore : Store (agent_db * W) :=
  mkStore pg_CreateSession pg_GetSession pg_UpdateSession pg_AppendEvent.

(** The service on the tables. *)
Definition on_tables (a : Adapter W) : Adapter (agent_db * W) :=
  mkAgentAdapter (Adapter_ID a) (λ s, outside (Adapter_Start a s)) (λ id, outside (Adapter_Stop a id))
    (λ s, outside (Adapter_Resume a s)) (λ id m, outside (Adapter_SendMessage a id m))
    (λ id, outside (Adapter_Cancel a id)) (λ id, outside (Adapter_Status a id)) (Adapter_Capabilities a).
Definition registry_on_tables (r : Registry W) : Registry (agent_db * W) :=
  mkAgentRegistry (on_tables <$> adapters r) (agents.definitions r).
Definition service (r : Registry W) (guard : option (Session → Permission → M W (option goerror)))
    (now : M W Z) : Service (agent_db * W) :=
  mkService PostgresStore (registry_on_tables r) ((λ g s p, outside (g s p)) <$> guard) (outside now).

(** [stamp] formats the time. *)
(* src: internal/agent/store.go:109-111 (NewSession) *)
Definition NewSession (stamp : Z → string) (project agent : string) (model : ModelReference)
    (runtime_id directory : string) (now : Z) : Session :=
  mkSession ("sess_" +:+ stamp now) project agent model runtime_id directory SessionCreated now now.
End store.

(** ** How the sessions of the tables change *)

Definition agent_ok (d : agent_db) : Prop := map_Forall (λ id s, Session_ID s = id) (sessions d).
(** The session went on along the transitions, and is otherwise the same. *)
Definition moved (s s' : Session) : Prop :=
  rtc session_step (Session_Status s) (Session_Status s') ∧
  ∃ t, s' = s <| Session_Status := Session_Status s' |> <| Session_UpdatedAt := t |>.
(** The sessions of the project went on, and there may be new ones; the others stay. *)
Record progress (project : string) (d d' : agent_db) : Prop := {
  pr_moved id s : sessions d !! id = Some s →
    ∃ s', sessions d' !! id = Some s' ∧ moved s s' ∧ (Session_ProjectID s ≠ project → s' = s);
  pr_new id s' : sessions d !! id = None → sessions d' !! id = Some s' →
    Session_ProjectID s' = project ∧ rtc session_step SessionCreated (Session_Status s')
}.

Lemma moved_refl s : moved s s.
Proof. split; [apply rtc_refl|]. exists (Session_UpdatedAt s). by destruct s. Qed.
Lemma moved_trans s1 s2 s3 : moved s1 s2 → moved s2 s3 → moved s1 s3.
Proof.
  intros [H12 [t1 E12]] [H23 [t2 E23]]. split; [by etrans|]. exists t2.
  rewrite E23, E12. by destruct s1.
Qed.
Lemma moved_project s s' : moved s s' → Session_ProjectID s' = Session_ProjectID s.
Proof. intros [_ [t ->]]. done. Qed.
Lemma moved_id s s' : moved s s' → Session_ID s' = Session_ID s.
Proof. intros [_ [t ->]]. done. Qed.

#[global] Instance progress_preorder project : PreOrder (progress project).
Proof.
  split.
  - intros d. split.
    + intros id s Hs. exists s. split; [done|]. split; [apply moved_refl|done].
    + intros id s' -> [=].
  - intros d1 d2 d3 [M12 N12] [M23 N23]. split.
    + intros id s (s2 & H2 & Hm2 & Ho2)%M12. apply M23 in H2 as (s3 & H3 & Hm3 & Ho3).
      exists s3. split; [done|]. split; [by eapply moved_trans|].
      intros Hne. rewrite Ho3, Ho2; [done|done|]. by rewrite (moved_project _ _ Hm2).
    + intros id s3 H1 H3. destruct (sessions d2 !! id) as [s2|] eqn:H2; [|by eapply N23].
      destruct (N12 _ _ H1 H2) as [Hp Hr]. apply M23 in H2 as (s3' & H3' & Hm3 & _).
      rewrite H3 in H3'. injection H3' as <-. rewrite (moved_project _ _ Hm3).
      split; [done|]. etrans; [exact Hr|exact (proj1 Hm3)].
Qed.

Section facts.
Context `{Json} `{Database} {W : Type}.

Lemma session_at_Some d project id s :
  session_at d project id = Some s ↔ sessions d !! id = Some s ∧ Session_ProjectID s = project.
Proof.
  unfold session_at. destruct (sessions d !! id) as [x|]; cbn; [case_decide|]; naive_solver.
Qed.

(** A statement that leaves the sessions as they are. *)
Lemma same_sessions project d d' : sessions d' = sessions d → agent_ok d →
  agent_ok d' ∧ progress project d d'.
Proof.
  intros Hs Hok. split; [by unfold agent_ok; rewrite Hs|].
  assert (progress project d d) as [Hm Hn] by reflexivity. by split; rewrite Hs.
Qed.

Lemma AppendEvent_progress project e d (w : W) err d' w' : agent_ok d →
  pg_AppendEvent e (d, w) = (err, (d', w')) → agent_ok d' ∧ progress project d d' ∧ sessions d' = sessions d.
Proof.
  unfold pg_AppendEvent. intros Hok (_ & Hr)%execute_inv. assert (sessions d' = sessions d) as Hs by (by destruct Hr as [(_ & _ & ->)|(_ & _ & ->)]).
  destruct (same_sessions project _ _ Hs Hok). done.
Qed.

Lemma CreateSession_progress s d (w : W) err d' w' : agent_ok d → Session_Status s = SessionCreated →
  pg_CreateSession s (d, w) = (err, (d', w')) → agent_ok d' ∧ progress (Session_ProjectID s) d d'.
Proof.
  unfold pg_CreateSession. intros Hok Hst (_ & [(Ha & _ & ->)|(_ & _ & ->)])%execute_inv; [|by apply same_sessions].
  unfold session_allowed in Ha. rewrite !andb_true_iff, !bool_decide_eq_true in Ha.
  destruct Ha as [[[Hnone _] _] _]. split; [by apply map_Forall_insert_2|]. split; cbn.
  - intros id x Hx. exists x. rewrite lookup_insert_ne by (intros <-; congruence).
    split; [done|]. split; [apply moved_refl|done].
  - intros id s' Hid [[<- <-]|[_ ?]]%lookup_insert_Some; [|congruence]. cbn. by rewrite Hst.
Qed.

(** Updating a session that was read and has made a transition. *)
Lemma UpdateSession_progress project id row next t d (w : W) err d' w' :
  agent_ok d → session_at d project id = Some row → validTransition (Session_Status row) next = true →
  pg_UpdateSession (row <| Session_Status := next |> <| Session_UpdatedAt := t |>) (d, w) = (err, (d', w')) →
  err = None ∧ agent_ok d' ∧ progress project d d' ∧
  session_at d' project id = Some (row <| Session_Status := next |> <| Session_UpdatedAt := timestamptz t |>).
Proof.
  intros Hok Hat Hv. unfold pg_UpdateSession, inside. cbn [fst snd].
  pose proof Hat as [Hs Hp]%session_at_Some. pose proof (Hok _ _ Hs) as Hid. cbn in Hid.
  cbn. rewrite Hp, Hid, Hat. intros [= <- <- <-]. split; [done|].
  split; [by apply map_Forall_insert_2|]. split; [split; cbn|].
  - intros i x Hx. destruct (decide (i = id)) as [->|Hne].
    + rewrite Hs in Hx. injection Hx as <-. rewrite lookup_insert_eq. eexists. split; [done|].
      split; [|done]. split; cbn; [by apply rtc_once|]. by eexists.
    + rewrite lookup_insert_ne by done. exists x. split; [done|]. split; [apply moved_refl|done].
  - intros i s' Hnone [[<- <-]|[_ ?]]%lookup_insert_Some; congruence.
  - apply session_at_Some. cbn. by rewrite lookup_insert_eq, Hp, Hid.
Qed.

(** ** The service on the tables *)

Variable (reg : Registry W) (guard : option (Session → Permission → M W (option goerror))) (now : M W Z).
Notation svc := (service reg guard now).

Lemma append_event_progress project id typ data d (w : W) err d' w' : agent_ok d →
  append_event svc id typ data (d, w) = (err, (d', w')) → agent_ok d' ∧ progress project d d'.
Proof.
  intros Hok (t1 & w1 & _ & Hk)%outside_then.
  apply mthen_inv in Hk as (t2 & [d2 w2] & [_ Hd2]%outside_inv & Hk). cbn [fst] in Hd2. subst d2.
  apply (AppendEvent_progress project) in Hk as (? & ? & _); done.
Qed.

Lemma service_CreateSession_progress s d (w : W) err d' w' : agent_ok d → Session_Status s = SessionCreated →
  CreateSession svc s (d, w) = (err, (d', w')) → agent_ok d' ∧ progress (Session_ProjectID s) d d'.
Proof.
  intros Hok Hst. unfold CreateSession. destruct (_ || _ || _).
  { intros [_ [= <- _]]%mret_inv. by apply same_sessions. }
  rewrite Hst. cbn. intros (e & [d1 w1] & Hc & Hk)%mthen_inv.
  apply CreateSession_progress in Hc as [Hok1 Hp1]; [|done|done]. cbn in Hp1.
  destruct e as [e|]; [apply mret_inv in Hk as [_ [= <- _]]; done|].
  apply (append_event_progress (Session_ProjectID s)) in Hk as [Hok2 Hp2]; [|done]. split; [done|]. by etrans.
Qed.

(** An update after a transition, and what follows it. *)
Lemma update_then project id row next t d (w : W) (k : M (agent_db * W) (Session * option goerror)) out d' w' :
  agent_ok d → session_at d project id = Some row → validTransition (Session_Status row) next = true →
  orElse (pg_UpdateSession (row <| Session_Status := next |> <| Session_UpdatedAt := t |>)) k (d, w)
    = (out, (d', w')) →
  ∃ d1 w1, agent_ok d1 ∧ progress project d d1 ∧
    session_at d1 project id = Some (row <| Session_Status := next |> <| Session_UpdatedAt := timestamptz t |>) ∧
    k (d1, w1) = (out, (d', w')).
Proof.
  intros Hok Hat Hv (e & [d1 w1] & Hu & Hk)%mthen_inv.
  eapply UpdateSession_progress in Hu as (-> & Hok1 & Hp1 & Hat1); [|done..]. by exists d1, w1.
Qed.

Lemma started_progress project id d (w : W) (s : Session) out d' w' : agent_ok d →
  (let! _ := append_event svc id EventSessionStarted ∅ in mret (s, @None goerror)) (d, w) = (out, (d', w')) →
  agent_ok d' ∧ progress project d d'.
Proof.
  intros Hok (e & [d1 w1] & Ha & Hk)%mthen_inv. apply mret_inv in Hk as [_ [= <- _]].
  by eapply append_event_progress.
Qed.

(** What the registry on the tables finds is an adapter of the world. *)
Lemma Get_on_tables id a : Get (registry_on_tables reg) id = Some a → ∃ a0, a = on_tables a0.
Proof.
  unfold Get. cbn. rewrite lookup_fmap, fmap_Some. intros (a0 & _ & ->). by exists a0.
Qed.

(** Reading the session, and finding its adapter. *)
Lemma GetSession_inv project id d (w : W) got d1 w1 :
  Store_GetSession PostgresStore project id (d, w) = (got, (d1, w1)) →
  d1 = d ∧ w1 = w ∧ ∀ s, got = Ok s → session_at d project id = Some s.
Proof.
  cbn. unfold pg_GetSession, look, inside. cbn [fst snd]. intros [= <- <- <-]. split; [done|]. split; [done|].
  intros s. destruct (session_at d project id); by intros [= ->].
Qed.

Lemma Start_progress project id d (w : W) out d' w' : agent_ok d →
  Start svc project id (d, w) = (out, (d', w')) → agent_ok d' ∧ progress project d d'.
Proof.
  intros Hok (got & [d1 w1] & Hg & Hk)%mthen_inv. apply GetSession_inv in Hg as (-> & -> & Hat).
  assert (∀ r : Session * option goerror, mret r (d, w) = (out, (d', w')) → agent_ok d' ∧ progress project d d') as Hsame
    by (intros r [_ [= <- _]]%mret_inv; by apply same_sessions).
  destruct got as [s0|e]; [|by apply Hsame in Hk]. specialize (Hat s0 eq_refl). change (Service_Adapters svc) with (registry_on_tables reg) in Hk.
  destruct (Get (registry_on_tables reg) (Session_AgentID s0)) as [a|] eqn:Ha; [|by apply Hsame in Hk].
  apply Get_on_tables in Ha as [a0 ->]. clear Hsame.
  apply outside_then in Hk as (t1 & w1 & _ & Hk).
  apply mthen_inv in Hk as (err & [d1 w2] & Hgd & Hk).
  assert (d1 = d) as ->.
  { cbn in Hgd. destruct guard; [by apply outside_inv in Hgd as [_ ?]|by apply mret_inv in Hgd as [_ [= ?]]]. }
  destruct err as [e|]; [apply mret_inv in Hk as [_ [= <- _]]; by apply same_sessions|].
  unfold Transition in Hk. destruct (validTransition (Session_Status s0) SessionStarting) eqn:Hv; cbn [negb] in Hk;
    [|apply mret_inv in Hk as [_ [= <- _]]; by apply same_sessions].
  eapply update_then in Hk as (d3 & w3 & Hok3 & Hp3 & Hat3 & Hk); [|done..].
  set (row := s0 <| Session_Status := SessionStarting |> <| Session_UpdatedAt := timestamptz t1 |>) in Hat3.
  apply outside_then in Hk as (err & w4 & _ & Hk).
  destruct err as [e|].
  - apply outside_then in Hk as (t2 & w5 & _ & Hk).
    apply mthen_inv in Hk as (e2 & [d5 w6] & Hu & Hk). apply mret_inv in Hk as [_ [= <- _]].
    eapply (UpdateSession_progress project id row SessionFailed t2) in Hu as (_ & Hok5 & Hp5 & _); [|done|exact Hat3|done].
    split; [done|]. by etrans.
  - apply outside_then in Hk as (t2 & w5 & _ & Hk).
    cbn in Hk. eapply (update_then project id row SessionRunning t2) in Hk as (d5 & w6 & Hok5 & Hp5 & _ & Hk);
      [|done|exact Hat3|done].
    apply (started_progress project) in Hk as [Hok6 Hp6]; [|done]. split; [done|]. etrans; [exact Hp3|]. by etrans.
Qed.

Lemma Cancel_progress project id d (w : W) out d' w' : agent_ok d →
  Cancel svc project id (d, w) = (out, (d', w')) → agent_ok d' ∧ progress project d d'.
Proof.
  intros Hok (got & [d1 w1] & Hg & Hk)%mthen_inv. apply GetSession_inv in Hg as (-> & -> & Hat).
  assert (∀ r : Session * option goerror, mret r (d, w) = (out, (d', w')) → agent_ok d' ∧ progress project d d') as Hsame
    by (intros r [_ [= <- _]]%mret_inv; by apply same_sessions).
  destruct got as [s0|e]; [|by apply Hsame in Hk]. specialize (Hat s0 eq_refl). change (Service_Adapters svc) with (registry_on_tables reg) in Hk.
  destruct (Get (registry_on_tables reg) (Session_AgentID s0)) as [a|] eqn:Ha; [|by apply Hsame in Hk].
  apply Get_on_tables in Ha as [a0 ->]. clear Hsame.
  apply outside_then in Hk as (err & w1 & _ & Hk).
  destruct err as [e|]; [apply mret_inv in Hk as [_ [= <- _]]; by apply same_sessions|].
  apply outside_then in Hk as (t & w2 & _ & Hk).
  unfold Transition in Hk. destruct (validTransition (Session_Status s0) SessionCancelled) eqn:Hv; cbn [negb] in Hk;
    [|apply mret_inv in Hk as [_ [= <- _]]; by apply same_sessions].
  eapply update_then in Hk as (d3 & w3 & Hok3 & Hp3 & _ & Hk); [|done..].
  apply mthen_inv in Hk as (e & [d4 w4] & He & Hk). apply mret_inv in Hk as [_ [= <- _]].
  apply (append_event_progress project) in He as [Hok4 Hp4]; [|done]. split; [done|]. by etrans.
Qed.
End facts.
End agentstore.
