(* ===== verification/HttpAgents.v ===== *)
(** * The handlers of agents, providers and models

    The endpoints of [src/internal/httpapi/server.go] for agent sessions, over the service
    of [Agent.v] on the tables of [AgentStore.v], and for the agents, providers and models
    that are registered. *)

From stdpp Require Import relations.
From S2P Require Import Prelude GoStrings World ModelRegistry AgentTypes Agent PgBase AgentStore Auth HttpApi HttpBase.
Import crypto auth agent agents pg agentstore httpapi httpbase.

Module httpagents.

(** The body of a request for a session. *)
(* src: internal/httpapi/server.go:490-497 (createAgentSession) *)
Record session_input := mkSessionInput {
  In_AgentID : string;
  In_RuntimeID : string;
  In_WorkingDirectory : string;
  In_ProviderID : string;
  In_ModelID : string;
  In_ConfigurationID : string
}.

Section registered.
Context `{MapOrder} {S W : Type}.
Variable AgentRegistry : option (Registry W).
Variable ModelRegistry : option model.Registry.
Notation reply A := (M (S * W) (Response (Z * A))).
Definition with_models {A} (k : model.Registry → reply A) : reply A :=
  available ModelRegistry "model registry unavailable" k.
(** An entry of the registry, if it is there. *)
Definition registered {A} (missing : string) (found : option A) : reply A :=
  match found with Some a => writeJSON 200 a | None => writeError 404 (ErrorString missing) end.

(* src: internal/httpapi/server.go:255-266 (getProvider) *)
Definition getProvider (r : Request) : reply agent.Provider :=
  with_models (λ reg, registered "provider not found" (model.Provider_ reg (PathValue r "id"))).
(* src: internal/httpapi/server.go:267-278 (getModel) *)
Definition getModel (r : Request) : reply agent.Model :=
  with_models (λ reg, registered "model not found" (model.Model_ reg (PathValue r "id"))).
(* src: internal/httpapi/server.go:463-469 (listProviders) *)
Definition listProviders (_ : Request) : reply (list agent.Provider) :=
  with_models (λ reg, writeJSON 200 (model.Providers reg)).
(* src: internal/httpapi/server.go:470-476 (listModels) *)
Definition listModels (_ : Request) : reply (list agent.Model) :=
  with_models (λ reg, writeJSON 200 (model.Models reg)).
(* src: internal/httpapi/server.go:478-484 (listAgents) *)
Definition listAgents (_ : Request) : reply (list AgentDefinition) :=
  available AgentRegistry "agent registry unavailable" (λ reg, writeJSON 200 (Definitions reg)).
End registered.

Section sessions.
Context `{Json} `{Database} {W : Type} `{World W}.
(** Whether there is a service, and what it is made of next to the store. *)
Variable AgentService : bool.
Variable Adapters : Registry W.
Variable ExecutionGuard : option (Session → Permission → M W (option goerror)).
Variable Now : M W Z.
(** A time in the layout of identifiers. *)
Variable stamp : Z → string.
Notation C A := (M (agent_db * W) A).
Notation reply A := (C (Response (Z * A))).
Notation svc := (service Adapters ExecutionGuard Now).
Definition with_service {A} (k : reply A) : reply A :=
  if AgentService then k else writeError 503 (ErrorString "agent service unavailable").
(** The session of a service's call, or its error. *)
Definition session_or_error (c : C (Session * option goerror)) : reply Session :=
  let! (session, err) := c in
  match err with Some e => writeError 400 e | None => writeJSON 200 session end.

(* src: internal/httpapi/server.go:485-509 (createAgentSession) *)
Definition createAgentSession (r : Request) (input : result session_input) : reply Session :=
  with_service (decoded input (λ i,
    let! now := outside time_Now in
    let session := NewSession stamp (PathValue r "project") (In_AgentID i)
      (mkModelReference (In_ProviderID i) (In_ModelID i) (In_ConfigurationID i))
      (In_RuntimeID i) (In_WorkingDirectory i) now in
    let! err := CreateSession svc session in
    match err with Some e => writeError 400 e | None => writeJSON 201 session end)).

(* src: internal/httpapi/server.go:510-521 (listAgentSessions) *)
Definition listAgentSessions (r : Request) : reply (list Session) :=
  with_service (
    let! listed := pg_ListSessions (PathValue r "project") in
    match listed with Err e => writeError 500 e | Ok l => writeJSON 200 l end).

(* src: internal/httpapi/server.go:522-533 (startAgentSession) *)
Definition startAgentSession (r : Request) : reply Session :=
  with_service (session_or_error (Start svc (PathValue r "project") (PathValue r "session"))).

(* src: internal/httpapi/server.go:534-551 (sendAgentMessage) *)
Definition sendAgentMessage (r : Request) (input : result string) : reply (gmap string string) :=
  with_service (
    match input with
    | Err _ | Ok "" => writeError 400 (ErrorString "message is required")
    | Ok message =>
        let! err := SendMessage svc (PathValue r "project") (PathValue r "session") message in
        match err with Some e => writeError 400 e | None => writeJSON 202 {["status" := "accepted"]} end
    end).

(* src: internal/httpapi/server.go:552-563 (cancelAgentSession) *)
Definition cancelAgentSession (r : Request) : reply Session :=
  with_service (session_or_error (Cancel svc (PathValue r "project") (PathValue r "session"))).

(* src: internal/httpapi/server.go:564-575 (listAgentEvents) *)
Definition listAgentEvents (r : Request) : reply (list Event) :=
  with_service (
    let! listed := pg_ListEvents (PathValue r "project") (PathValue r "session") in
    match listed with Err e => writeError 500 e | Ok l => writeJSON 200 l end).

(** ** How requests change the sessions *)

(** The requests about agent sessions that change the tables. *)
Inductive agent_step (r : Request) (d d' : agent_db) : Prop :=
  | step_create input w resp w' : createAgentSession r input (d, w) = (resp, (d', w')) → agent_step r d d'
  | step_start w resp w' : startAgentSession r (d, w) = (resp, (d', w')) → agent_step r d d'
  | step_message input w resp w' : sendAgentMessage r input (d, w) = (resp, (d', w')) → agent_step r d d'
  | step_cancel w resp w' : cancelAgentSession r (d, w) = (resp, (d', w')) → agent_step r d d'.
Definition no_sessions (ps agents configurations : gset string) : agent_db :=
  mkAgentDB ps agents configurations ∅ ∅.

Lemma session_or_error_inv c d (w : W) resp sw' : session_or_error c (d, w) = (resp, sw') →
  ∃ out, c (d, w) = (out, sw').
Proof.
  intros ([s err] & sw & Hc & Hk)%mthen_inv. exists (s, err).
  destruct err; apply mret_inv in Hk as [_ <-]; done.
Qed.

Lemma agent_step_progress r d d' : agent_ok d → agent_step r d d' →
  agent_ok d' ∧ progress (PathValue r "project") d d'.
Proof.
  intros Hok [input w resp w' Hs|w resp w' Hs|input w resp w' Hs|w resp w' Hs];
    unfold createAgentSession, startAgentSession, sendAgentMessage, cancelAgentSession, with_service in Hs;
    destruct AgentService; try (apply mret_inv in Hs as [_ [= <- _]]; by apply same_sessions).
  - destruct input as [i|e]; [|apply mret_inv in Hs as [_ [= <- _]]; by apply same_sessions].
    apply outside_then in Hs as (now & w1 & _ & Hs). apply mthen_inv in Hs as (err & [d1 w2] & Hc & Hs).
    apply service_CreateSession_progress in Hc as [Hok1 Hp1]; [|done|done].
    destruct err; by apply mret_inv in Hs as [_ [= <- _]].
  - apply session_or_error_inv in Hs as [out Hs]. by apply Start_progress in Hs.
  - assert (d' = d) as ->; [|by apply same_sessions].
    destruct input as [message|e]; [|by apply mret_inv in Hs as [_ [= <- _]]].
    destruct (decide (message = "")) as [->|Hne]; [by apply mret_inv in Hs as [_ [= <- _]]|].
    destruct message as [|c m]; [done|].
    apply mthen_inv in Hs as (err & [d1 w1] & Hm & Hs). assert (d1 = d) as ->.
    { apply mthen_inv in Hm as (got & [d2 w2] & Hg & Hm). apply GetSession_inv in Hg as (-> & -> & _).
      destruct got as [s0|e]; [|by apply mret_inv in Hm as [_ [= <- _]]].
      change (Service_Adapters svc) with (registry_on_tables Adapters) in Hm.
      destruct (Get (registry_on_tables Adapters) _) as [a|] eqn:Ha; [|by apply mret_inv in Hm as [_ [= <- _]]].
      apply Get_on_tables in Ha as [a0 ->]. by apply outside_inv in Hm as [_ ?]. }
    destruct err; by apply mret_inv in Hs as [_ [= <- _]].
  - apply session_or_error_inv in Hs as [out Hs]. by apply Cancel_progress in Hs.
Qed.

Lemma agent_steps_ok d d' : rtc (λ d d', ∃ r, agent_step r d d') d d' → agent_ok d → agent_ok d'.
Proof.
  induction 1 as [|d1 d2 d3 [r Hs] _ IH]; [done|]. intros Hok. apply IH. by eapply agent_step_progress.
Qed.

(** C24: the life of agent sessions.  In every state of the tables that requests lead to, a
    request about the sessions of one project leaves those of the others as they are, takes
    those of its own only along the transitions of a session, changing nothing of them but
    the status and the time of the update, removes none, and new ones are of its project and
    begin as created. *)
Theorem sessions_follow_transitions ps agents configurations d r d' :
  rtc (λ d d', ∃ r, agent_step r d d') (no_sessions ps agents configurations) d →
  agent_step r d d' →
  (∀ id s, sessions d !! id = Some s →
     ∃ s', sessions d' !! id = Some s' ∧
       rtc session_step (Session_Status s) (Session_Status s') ∧
       (∃ t, s' = s <| Session_Status := Session_Status s' |> <| Session_UpdatedAt := t |>) ∧
       (Session_ProjectID s ≠ PathValue r "project" → s' = s)) ∧
  (∀ id s', sessions d !! id = None → sessions d' !! id = Some s' →
     Session_ProjectID s' = PathValue r "project" ∧
     rtc session_step SessionCreated (Session_Status s')).
Proof.
  intros Hr Hs. apply agent_steps_ok in Hr; [|apply map_Forall_empty].
  apply agent_step_progress in Hs as [_ [Hm Hn]]; [|done]. split; [|exact Hn].
  intros id s (s' & Hs' & [Hst Heq] & Ho)%Hm. by exists s'.
Qed.
End sessions.

(** ** A witness *)

Section witness.
#[local] Existing Instance ticking.
#[local] Instance agent_json : Json := {| json_map m := m |}.
#[local] Instance agent_pg : Database := {| violation := ErrorString "violation"; collate := String.ltb |}.

Definition shop_request (values : gmap string string) : Request :=
  mkRequest "POST" "/api/projects/shop/agent-sessions" None values None.
Definition one_adapter : Registry clock_world := mkAgentRegistry {["codex" := example_adapter]} ∅.
Definition at_five : clock_world := mkClockWorld 5 None.
Definition tables : agent_db := no_sessions {["shop"]} {["codex"]} ∅.
Notation create := (createAgentSession true one_adapter None time_Now pretty (shop_request {["project" := "shop"]})
  (Ok (mkSessionInput "codex" "rt" "/w" "" "" ""))).
Notation start := (startAgentSession true one_adapter None time_Now
  (shop_request {["project" := "shop"; "session" := "sess_5"]})).
Definition with_session : agent_db := (create (tables, at_five)).2.1.
Definition with_running : agent_db := (start (with_session, at_five)).2.1.

Lemma sessions_follow_transitions_witness :
  (Session_Status <$> sessions with_session !! "sess_5") = Some SessionCreated ∧
  ∃ s', sessions with_running !! "sess_5" = Some s' ∧ Session_Status s' = SessionRunning ∧
    rtc session_step SessionCreated (Session_Status s').
Proof.
  assert ((Session_Status <$> sessions with_session !! "sess_5") = Some SessionCreated) as Hc by (vm_compute; reflexivity).
  assert ((Session_Status <$> sessions with_running !! "sess_5") = Some SessionRunning) as Hs by (vm_compute; reflexivity).
  split; [exact Hc|]. apply fmap_Some in Hc as (s & Hlook & Hst).
  destruct (sessions_follow_transitions true one_adapter None time_Now pretty {["shop"]} {["codex"]} ∅
    with_session (shop_request {["project" := "shop"; "session" := "sess_5"]}) with_running) as [Hk _].
  - apply rtc_once. exists (shop_request {["project" := "shop"]}). unfold with_session.
    destruct (create (tables, at_five)) as [resp [d' w']] eqn:E. by eapply step_create.
  - unfold with_running. destruct (start (with_session, at_five)) as [resp [d' w']] eqn:E. by eapply step_start.
  - destruct (Hk "sess_5" s Hlook) as (s' & Hs' & Hr & _). exists s'. rewrite Hs' in Hs. injection Hs as Hs.
    split; [exact Hs'|]. split; [exact Hs|]. by rewrite Hst.
Defined.
End witness.
End httpagents.
