(* ===== verification/ProvStore.v ===== *)
(** * The stores of project intelligence, environments and provisioning

    [src/internal/projectintelligence/store.go], [src/internal/environment/store.go] and
    [src/internal/provisioning/store.go], on the tables of
    [src/migrations/008_project_intelligence.sql], with the cache of
    [src/internal/provisioning/cache.go].  Analyses, manifests and runs are kept whole as
    JSON as well; what is kept so is taken to be read back as it was. *)

From stdpp Require Import relations.
From S2P Require Import Prelude GoStrings World Float Runtime ProjIntel Environment Provisioning PgBase.
Import projectintelligence environment provisioning pg.

Module provstore.

#[global] Instance eta_Intent : Eta ProjectIntent := λ i,
  mkIntent (Intent_ProjectID i) (UserPrompt i) (TargetAudience i) (Platforms i) (Constraints i)
    (Preferences i) (Intent_Budget i).
#[global] Instance eta_Requirement : Eta ProjectRequirement := λ r,
  projectintelligence.mkRequirement (projectintelligence.Requirement_ID r) (projectintelligence.Requirement_ProjectID r) (projectintelligence.Category r) (projectintelligence.Description r)
    (projectintelligence.Requirement_Priority r) (projectintelligence.Requirement_Required r) (projectintelligence.Requirement_Source r) (projectintelligence.Requirement_Confidence r).
#[global] Instance eta_Stack : Eta TechnologyStack := λ s,
  mkStack (Language s) (Framework s) (Stack_Runtime s) (PackageManager s) (BuildSystem s) (TestFramework s)
    (E2EFramework s) (Stack_Database s) (Infrastructure s).

(** The rows whose other columns repeat what is in the JSON.  A decision keeps the project,
    the override and the time it was inserted with, a manifest the project and the version
    and a run the project and the start. *)
Record decision_row := mkDecisionRow { DRow_ProjectID : string; DRow_Override : string; DRow_CreatedAt : Z; DRow_Analysis : Analysis }.
Record manifest_row := mkManifestRow { MRow_ProjectID : string; MRow_Version : string; MRow_Manifest : Manifest }.
Record run_row := mkRunRow { RRow_ProjectID : string; RRow_StartedAt : Z; RRow_Run : Run }.

Record prov_db := mkProvDB {
  projects : gset string;
  intents : gmap string ProjectIntent;
  requirements : gmap string ProjectRequirement;
  stacks : gmap string (string * TechnologyStack);
  decisions : gmap string decision_row;
  manifests : gmap string manifest_row;
  prov_runs : gmap string run_row
}.
#[global] Instance eta_prov_db : Eta prov_db := λ d,
  mkProvDB (projects d) (intents d) (requirements d) (stacks d) (decisions d) (manifests d) (prov_runs d).

Section stores.
Context `{Database} {W : Type}.
(** Whether the store has a database. *)
Variable DB : bool.
Notation C A := (M (prov_db * W) A).
Notation with_db := (pg.with_db DB).

(** ** Analyses *)

(** A row is there, or its project is known. *)
Definition placed {A} (table : gmap string A) (id project : string) (d : prov_db) : bool :=
  bool_decide (is_Some (table !! id)) || bool_decide (project ∈ projects d).
(* src: internal/projectintelligence/store.go:20-23 (Store.SaveAnalysis) *)
Definition put_intent (a : Analysis) (d : prov_db) : prov_db :=
  let id := Decision_ID (Decision_of a) +:+ "/intent" in
  d <| intents := <[id := match intents d !! id with
         | Some i => i <| UserPrompt := UserPrompt (Analysis_Intent a) |>
         | None => Analysis_Intent a
         end]> (intents d) |>.
(** Requirements are numbered within their analysis, and kept under that number. *)
(* src: internal/projectintelligence/store.go:24-28 (Store.SaveAnalysis) *)
Definition put_requirement (r : ProjectRequirement) (d : prov_db) : prov_db :=
  d <| requirements := <[Requirement_ID r := match requirements d !! Requirement_ID r with
         | Some x => x <| Description := Description r |>
         | None => r
         end]> (requirements d) |>.
(* src: internal/projectintelligence/store.go:29-35 (Store.SaveAnalysis) *)
Definition put_stack (dec : ArchitectureDecision) (d : prov_db) : prov_db :=
  let id := Decision_ID dec +:+ "/stack" in
  d <| stacks := <[id := match stacks d !! id with
         | Some (p, s) => (p, s <| Framework := Framework (Selected dec) |>)
         | None => (Decision_ProjectID dec, Selected dec)
         end]> (stacks d) |>.
(* src: internal/projectintelligence/store.go:36-40 (Store.SaveAnalysis) *)
Definition put_decision (a : Analysis) (d : prov_db) : prov_db :=
  let dec := Decision_of a in
  d <| decisions := <[Decision_ID dec := match decisions d !! Decision_ID dec with
         | Some r => mkDecisionRow (DRow_ProjectID r) (DRow_Override r) (DRow_CreatedAt r) a
         | None => mkDecisionRow (Decision_ProjectID dec) (Override dec) (timestamptz (Decision_CreatedAt dec)) a
         end]> (decisions d) |>.

(* src: internal/projectintelligence/store.go:13-41 (Store.SaveAnalysis) *)
Definition SaveAnalysis (a : Analysis) : C (option goerror) :=
  let dec := Decision_of a in
  with_db "intelligence database unavailable" Some
  (and_then (execute (λ d, placed (intents d) (Decision_ID dec +:+ "/intent") (Intent_ProjectID (Analysis_Intent a)) d)
     (put_intent a))
  (and_then (each (λ r, execute (λ d, placed (requirements d) (Requirement_ID r) (Requirement_ProjectID r) d)
     (put_requirement r)) (Requirements a))
  (and_then (execute (λ d, placed (stacks d) (Decision_ID dec +:+ "/stack") (Decision_ProjectID dec) d) (put_stack dec))
  (execute (λ d, placed (decisions d) (Decision_ID dec) (Decision_ProjectID dec) d) (put_decision a))))).

(** ** Manifests *)

(** [UNIQUE(project_id, version)] *)
Definition version_taken (m : Manifest) (d : prov_db) : bool :=
  existsb (λ p, bool_decide (MRow_ProjectID p.2 = Manifest_ProjectID m) &&
                bool_decide (MRow_Version p.2 = Manifest_Version m)) (map_to_list (manifests d)).
Definition manifest_allowed (m : Manifest) (d : prov_db) : bool :=
  bool_decide (is_Some (manifests d !! Manifest_ID m)) ||
  bool_decide (Manifest_ProjectID m ∈ projects d) && bool_decide (is_Some (decisions d !! DecisionID m)) &&
  negb (version_taken m d).
Definition put_manifest (m : Manifest) (d : prov_db) : prov_db :=
  d <| manifests := <[Manifest_ID m := match manifests d !! Manifest_ID m with
         | Some r => mkManifestRow (MRow_ProjectID r) (MRow_Version r) m
         | None => mkManifestRow (Manifest_ProjectID m) (Manifest_Version m) m
         end]> (manifests d) |>.
(* src: internal/environment/store.go:13-20 (Store.SaveManifest) *)
Definition SaveManifest (m : Manifest) : C (option goerror) :=
  with_db "environment database unavailable" Some (execute (manifest_allowed m) (put_manifest m)).

(** ** Runs *)

Definition run_allowed (r : Run) (d : prov_db) : bool :=
  bool_decide (is_Some (prov_runs d !! Run_ID r)) ||
  bool_decide (Run_ProjectID r ∈ projects d) && bool_decide (is_Some (manifests d !! Manifest_ID (Run_Manifest r))).
Definition put_prov_run (r : Run) (d : prov_db) : prov_db :=
  d <| prov_runs := <[Run_ID r := match prov_runs d !! Run_ID r with
         | Some x => mkRunRow (RRow_ProjectID x) (RRow_StartedAt x) r
         | None => mkRunRow (Run_ProjectID r) (timestamptz (Run_StartedAt r)) r
         end]> (prov_runs d) |>.
(* src: internal/provisioning/store.go:13-23 (PostgresStore.Save) *)
Definition pg_Save (r : Run) : C (option goerror) :=
  with_db "provisioning database unavailable" Some (execute (run_allowed r) (put_prov_run r)).
(* src: internal/provisioning/store.go:24-36 (PostgresStore.Get) *)
Definition pg_GetRun (id : string) : C (result Run) :=
  with_db "provisioning database unavailable" Err
    (look (λ d, match prov_runs d !! id with
                | Some x => Ok (RRow_Run x)
                | None => Err (ErrorString "no rows in result set")
                end)).
(** Runs of the same start come in any order. *)
(* src: internal/provisioning/store.go:37-59 (PostgresStore.List) *)
Definition pg_List (project : string) : C (result (list Run)) :=
  with_db "provisioning database unavailable" Err
    (look (λ d, Ok (RRow_Run <$> sort_by (λ a b, RRow_StartedAt b <? RRow_StartedAt a)
       (filter (λ x, RRow_ProjectID x = project) (map_to_list (prov_runs d)).*2)))).
(* src: internal/provisioning/store.go:11-11 (PostgresStore) *)
Definition PostgresStore : RunStore (prov_db * W) := mkRunStore pg_Save pg_GetRun.
End stores.

(** ** The cache in memory *)

(* src: internal/provisioning/cache.go:8-11 (MemoryCache) *)
Record MemoryCache := mkCache { values : gmap string string }.
(* src: internal/provisioning/cache.go:13-13 (NewMemoryCache) *)
Definition NewMemoryCache : MemoryCache := mkCache ∅.
(* src: internal/provisioning/cache.go:14-19 (MemoryCache.Get) *)
Definition Cache_Get (c : MemoryCache) (key : string) : option string := values c !! key.
(* src: internal/provisioning/cache.go:20-24 (MemoryCache.Put) *)
Definition Cache_Put (c : MemoryCache) (key value : string) : MemoryCache := mkCache (<[key := value]> (values c)).
Lemma Cache_Get_Put c k v k' : Cache_Get (Cache_Put c k v) k' = if decide (k = k') then Some v else Cache_Get c k'.
Proof. unfold Cache_Get, Cache_Put. cbn. case_decide; subst; by simplify_map_eq. Qed.

(** ** What is always true of the tables *)

(** Rows are where they say; a manifest's row has its project, and no project has two of the
    same version. *)
Record prov_ok (d : prov_db) : Prop := {
  ok_prov_runs : map_Forall (λ id x, Run_ID (RRow_Run x) = id) (prov_runs d);
  ok_versions : ∀ i j x y, manifests d !! i = Some x → manifests d !! j = Some y →
    MRow_ProjectID x = MRow_ProjectID y → MRow_Version x = MRow_Version y → i = j
}.
Definition empty_tables (ps : gset string) : prov_db := mkProvDB ps ∅ ∅ ∅ ∅ ∅ ∅.
Lemma empty_tables_ok ps : prov_ok (empty_tables ps).
Proof. split; [apply map_Forall_empty|]. by intros i j x y [=]. Qed.

Section facts.
Context `{Database} {W : Type}.

Lemma version_taken_iff m d :
  version_taken m d = true ↔
  ∃ i x, manifests d !! i = Some x ∧ MRow_ProjectID x = Manifest_ProjectID m ∧ MRow_Version x = Manifest_Version m.
Proof.
  unfold version_taken. rewrite existsb_exists. split.
  - intros ([i x] & Hin & Hb). apply list_elem_of_In, elem_of_map_to_list in Hin.
    rewrite andb_true_iff, !bool_decide_eq_true in Hb. by exists i, x.
  - intros (i & x & Hx & Hb). exists (i, x). split; [by apply list_elem_of_In, elem_of_map_to_list|].
    by rewrite andb_true_iff, !bool_decide_eq_true.
Qed.

Lemma put_manifest_ok m d : prov_ok d → manifest_allowed m d = true → prov_ok (put_manifest m d).
Proof.
  intros [Hr Hv] Ha. split; cbn; [done|]. intros i j x y Hx Hy Hp Hver.
  destruct (manifests d !! Manifest_ID m) as [r|] eqn:E.
  - apply lookup_insert_Some in Hx as [[<- <-]|[Hi Hx]]; apply lookup_insert_Some in Hy as [[<- <-]|[Hj Hy]];
      cbn in *; [done|by eapply Hv|by eapply Hv|by eapply Hv].
  - unfold manifest_allowed in Ha. rewrite E in Ha. rewrite bool_decide_false in Ha by (by intros []).
    cbn [orb] in Ha. apply andb_true_iff in Ha as [_ Hn]. apply negb_true_iff, not_true_iff_false in Hn.
    rewrite version_taken_iff in Hn.
    apply lookup_insert_Some in Hx as [[<- <-]|[Hi Hx]]; apply lookup_insert_Some in Hy as [[<- <-]|[Hj Hy]]; cbn in *;
      [done|destruct Hn; by exists j, y|destruct Hn; by exists i, x|by eapply Hv].
Qed.

Lemma keeps_SaveManifest DB m : keeps prov_ok (SaveManifest (W := W) DB m).
Proof.
  unfold SaveManifest, pg.with_db. destruct DB; [|apply keeps_mret]. apply keeps_execute. intros d Hd Ha.
  by apply put_manifest_ok.
Qed.
Lemma keeps_SaveAnalysis DB a : keeps prov_ok (SaveAnalysis (W := W) DB a).
Proof.
  unfold SaveAnalysis, pg.with_db. destruct DB; [|apply keeps_mret].
  repeat apply keeps_and_then; [|apply keeps_each; intros x| |]; apply keeps_execute; intros d [] _; by split.
Qed.
Lemma keeps_pg_Save DB r : keeps prov_ok (pg_Save (W := W) DB r).
Proof.
  unfold pg_Save, pg.with_db. destruct DB; [|apply keeps_mret]. apply keeps_execute. intros d [Hr Hv] _.
  split; cbn; [|done]. apply map_Forall_insert_2; [|done]. by destruct (prov_runs d !! Run_ID r).
Qed.

(** What was saved is found, until it is saved again. *)
Lemma Save_then_Get r d (w : W) d' w' : pg_Save true r (d, w) = (None, (d', w')) →
  pg_GetRun true (Run_ID r) (d', w') = (Ok r, (d', w')) ∧ ∀ id, id ≠ Run_ID r → prov_runs d' !! id = prov_runs d !! id.
Proof.
  unfold pg_Save, pg_GetRun, pg.with_db. intros (-> & [(_ & _ & ->)|(_ & [=] & _)])%execute_inv. split.
  - unfold look, inside. cbn. rewrite lookup_insert_eq. by destruct (prov_runs d !! Run_ID r).
  - intros id Hid. cbn. by rewrite lookup_insert_ne.
Qed.
End facts.
End provstore.
