(* ===== verification/HttpProvision.v ===== *)
(** * The handlers of project intelligence and provisioning

    [src/internal/httpapi/project_intelligence.go] and [requireProvisioningAccess] of
    [project_access.go], over the engine of [ProjIntel.v], the manifests of
    [Environment.v], the manager of [Provisioning.v] and the stores of [ProvStore.v].
    These handlers write their errors as a single text where the others write a code with
    it, and the answers 409 carry the run as well; only code and text are modelled. *)

From stdpp Require Import relations.
From S2P Require Import Prelude GoStrings World Float Runtime ProjIntel Environment Provisioning ProvisioningFacts PgBase ProvStore Auth HttpApi HttpBase.
Import crypto auth projectintelligence environment provisioning pg provstore httpapi httpbase.

Module httpprovision.

(** What the handlers keep: the runs in the manager's memory, what it has published and the
    tables. *)
Record prov_server := mkProvServer {
  Memory : gmap string Run;
  Announced : list Event;
  Tables : prov_db
}.
#[global] Instance eta_prov_server : Eta prov_server := λ s,
  mkProvServer (Memory s) (Announced s) (Tables s).

(** The body of a request for a manifest. *)
(* src: internal/httpapi/project_intelligence.go:50-54 (createEnvironmentManifest) *)
Record manifest_input := mkManifestInput {
  In_Intent : ProjectIntent;
  In_Override : string;
  In_Profile : Profile
}.

Section lifting.
Context {W : Type}.
(** A computation on the tables, and one of the manager. *)
Definition on_tables {A} (c : M (prov_db * W) A) : M (prov_server * W) A := λ sw,
  let '(a, (d, w)) := c (Tables sw.1, sw.2) in (a, ((sw.1) <| Tables := d |>, w)).
Definition managed {A} (c : M (mstate (prov_db * W)) A) : M (prov_server * W) A := λ sw,
  let '(a, st) := c (mkState (Memory sw.1) (Announced sw.1) (Tables sw.1, sw.2)) in
  (a, (mkProvServer (runs st) (published st) (outer st).1, (outer st).2)).
(** The runtime of the manager does not touch the tables. *)
Definition over_tables (p : runtime.Provider W) : runtime.Provider (prov_db * W) := {|
  runtime.Name := runtime.Name p;
  runtime.Create spec := World.outside (runtime.Create p spec);
  runtime.Start id := World.outside (runtime.Start p id);
  runtime.Stop id := World.outside (runtime.Stop p id);
  runtime.Restart id := World.outside (runtime.Restart p id);
  runtime.Destroy id := World.outside (runtime.Destroy p id);
  runtime.GetStatus id := World.outside (runtime.GetStatus p id);
  runtime.Exec t id c := World.outside (runtime.Exec p t id c)
|}.
End lifting.

Section handlers.
Context `{Database} `{strings.GoUnicode} `{Digest} {W : Type} `{World W} `{Sha256}.
Variable AuthOf : option (AuthService W).
(** The engine, if there is one, may have a clock of its own; the stores, if there are any,
    may have a database. *)
Variable Intelligence : option (option (M W Z)).
Variable IntelligenceStore EnvironmentStore : option bool.
(** The manager, with its store, its runtime, whether it has a sink and its clock. *)
Variable Provisioning : bool.
Variable RunsStore : option bool.
Variable Runtime : option (runtime.Provider W).
Variable Sink : bool.
Variable Now : M W Z.
Notation C A := (M (prov_server * W) A).
Notation reply A := (C (Response (Z * A))).

Definition manager : Manager (prov_db * W) :=
  mkManager (over_tables <$> Runtime) (PostgresStore <$> RunsStore) Sink (World.outside Now).

(** [Engine.Analyze], which reads the clock when the intent is complete. *)
Definition analyze (clock : option (M W Z)) (intent : ProjectIntent) (override : string) : M W (result Analysis) :=
  if bool_decide (strings.TrimSpace (Intent_ProjectID intent) = "") ||
     bool_decide (strings.TrimSpace (UserPrompt intent) = "")
  then mret (Analyze 0 intent override)
  else let! now := default time_Now clock in mret (Analyze now intent override).
Definition of_path (r : Request) (intent : ProjectIntent) : ProjectIntent :=
  intent <| Intent_ProjectID := PathValue r "project" |>.

(** [Save...] of a store, if there is one. *)
Definition save_in {A} (store : option bool) (save : bool → M (prov_db * W) (option goerror)) (k : reply A)
    : reply A :=
  match store with
  | Some DB =>
      let! err := on_tables (save DB) in
      match err with Some e => writeError 500 e | None => k end
  | None => k
  end.

(** [Override] is the parameter of the URL. *)
(* src: internal/httpapi/project_intelligence.go:22-45 (analyzeProject) *)
Definition analyzeProject (r : Request) (Override : string) (input : result ProjectIntent) : reply Analysis :=
  available Intelligence "project intelligence unavailable" (λ clock,
    decoded input (λ intent,
      let! analysis := World.outside (analyze clock (of_path r intent) Override) in
      match analysis with
      | Err e => writeError 422 e
      | Ok a => save_in IntelligenceStore (λ DB, SaveAnalysis DB a) (writeJSON 200 a)
      end)).

(* src: internal/httpapi/project_intelligence.go:46-84 (createEnvironmentManifest) *)
Definition createEnvironmentManifest (r : Request) (input : result manifest_input) : reply (Analysis * Manifest) :=
  available Intelligence "project intelligence unavailable" (λ clock,
    decoded input (λ i,
      let! analysis := World.outside (analyze clock (of_path r (In_Intent i)) (In_Override i)) in
      match analysis with
      | Err e => writeError 422 e
      | Ok a =>
          let! now := World.outside time_Now in
          match FromDecision (Decision_of a) (In_Profile i) now with
          | Err e => writeError 422 e
          | Ok m =>
              save_in IntelligenceStore (λ DB, SaveAnalysis DB a)
                (save_in EnvironmentStore (λ DB, SaveManifest DB m) (writeJSON 200 (a, m)))
          end
      end)).

(** The manager's answer: a run or an error. *)
Definition run_or_error (code failure : Z) (c : M (mstate (prov_db * W)) (Run * option goerror)) : reply Run :=
  let! (run, err) := managed c in
  match err with Some e => writeError failure e | None => writeJSON code run end.

(** The manifest and the runtime of the body; a body without a manifest is one itself, with
    what decoding it as one gives. *)
(* src: internal/httpapi/project_intelligence.go:85-113 (planProvisioning) *)
Definition planProvisioning (r : Request) (input : result (Manifest * string * result Manifest)) : reply Run :=
  if Provisioning then
    decoded input (λ '(m, runtime_id, whole),
      let plan m := run_or_error 201 422 (PlanWithRuntime manager (PathValue r "project") m runtime_id) in
      if decide (Manifest_ID m = "") then decoded whole plan else plan m)
  else writeError 503 (ErrorString "provisioning unavailable").

(* src: internal/httpapi/project_access.go:29-43 (requireProvisioningAccess) *)
Definition requireProvisioningAccess {A} (r : Request) (permission : ProjectPermission) (k : Run → reply A)
    : reply A :=
  match Provisioning, RunsStore with
  | true, Some DB =>
      let! found := on_tables (pg_GetRun DB (PathValue r "run")) in
      match found with
      | Err e => writeError 404 e
      | Ok run => permitted AuthOf r (Run_ProjectID run) permission (k run)
      end
  | _, _ => writeError 503 (ErrorString "provisioning persistence unavailable")
  end.

(* src: internal/httpapi/project_intelligence.go:114-124 (startProvisioning) *)
Definition startProvisioning (r : Request) : reply Run :=
  requireProvisioningAccess r PermissionRun (λ _, run_or_error 200 409 (Provision manager (PathValue r "run"))).
(* src: internal/httpapi/project_intelligence.go:125-131 (getProvisioning) *)
Definition getProvisioning (r : Request) : reply Run :=
  requireProvisioningAccess r PermissionRead (writeJSON 200).
(* src: internal/httpapi/project_intelligence.go:132-142 (cancelProvisioning) *)
Definition cancelProvisioning (r : Request) : reply Run :=
  requireProvisioningAccess r PermissionRun (λ _, run_or_error 202 409 (RequestCancel manager (PathValue r "run"))).
(* src: internal/httpapi/project_intelligence.go:143-153 (resumeProvisioning) *)
Definition resumeProvisioning (r : Request) : reply Run :=
  requireProvisioningAccess r PermissionRun (λ _, run_or_error 200 409 (Resume manager (PathValue r "run"))).
(* src: internal/httpapi/project_intelligence.go:154-163 (cleanupProvisioning) *)
Definition cleanupProvisioning (r : Request) : reply string :=
  requireProvisioningAccess r PermissionRun (λ _,
    let! err := managed (Cleanup manager (PathValue r "run")) in
    match err with Some e => writeError 409 e | None => writeJSON 202 "CLEANUP_REQUESTED" end).

(** ** What is kept of a plan *)

Lemma managed_inv {A} (c : M (mstate (prov_db * W)) A) s w a s' w' :
  managed c (s, w) = (a, (s', w')) →
  ∃ st, c (mkState (Memory s) (Announced s) (Tables s, w)) = (a, st) ∧ Tables s' = (outer st).1 ∧ w' = (outer st).2.
Proof.
  unfold managed. cbn [fst snd]. destruct (c _) as [x st]. intros [= -> <- <-]. by exists st.
Qed.

(** A plan that the manager answers was saved. *)
Lemma PlanWithRuntime_saved DB project m runtime_id mem ann d w run st :
  RunsStore = Some DB →
  PlanWithRuntime manager project m runtime_id (mkState mem ann (d, w)) = ((run, None), st) →
  project ≠ "" ∧ Run_ProjectID run = project ∧ Run_Manifest run = m ∧ Manifest_ProjectID m = project ∧
  Run_Status run = Planned ∧ Steps run = DefaultSteps ∧ RuntimeID run = runtime_id ∧
  ∃ w1 : W, pg_Save DB run (d, w1) = (None, ((outer st).1, w1)).
Proof.
  intros Hst. unfold PlanWithRuntime. destruct (bool_decide (project = "")) eqn:Hp; [by intros [[=] _]%mret_inv|].
  destruct (bool_decide (Manifest_ProjectID m = project)) eqn:Hm; cbn [orb negb]; [|by intros [[=] _]%mret_inv].
  apply bool_decide_eq_false in Hp. apply bool_decide_eq_true in Hm.
  destruct (provisioning.ValidateGraph DefaultSteps); [by intros [[=] _]%mret_inv|].
  intros (now & st1 & Hnow & Hk)%mthen_inv. cbn in Hnow. unfold provisioning.outside, World.outside in Hnow. cbn in Hnow.
  destruct (Now w) as [t w1] eqn:Ht. injection Hnow as <- <-. cbn [outer fst snd runs published] in *.
  apply mthen_inv in Hk as (err & st2 & Hs & Hk). destruct err as [e|]; [by apply mret_inv in Hk as [[=] _]|].
  apply mthen_inv in Hs as (u & st3 & Hu & Hs). unfold put_run in Hu. cbn in Hu. injection Hu as _ <-.
  unfold manager in Hs at 1. rewrite Hst in Hs. cbn in Hs. unfold provisioning.outside in Hs. cbn in Hs.
  destruct (pg_Save DB _ (d, w1)) as [err [d2 w2]] eqn:Hsave. injection Hs as -> <-.
  apply mthen_inv in Hk as (v & st4 & Hemit & Hk). apply mret_inv in Hk as [Hrun <-]. injection Hrun as <-.
  split_and!; try done. exists w1.
  assert (w2 = w1) as ->.
  { unfold pg_Save, pg.with_db in Hsave. destruct DB; [|by apply mret_inv in Hsave as [[=] _]].
    by apply execute_inv in Hsave as [-> _]. }
  assert ((outer st4).1 = d2) as ->; [|done].
  unfold emit in Hemit. destruct (Events manager); [|by apply mret_inv in Hemit as [_ <-]].
  apply mthen_inv in Hemit as (t2 & st5 & Hn & Hpub). unfold publish in Hpub. injection Hpub as _ <-. cbn.
  unfold provisioning.outside, manager, World.outside in Hn. cbn in Hn. destruct (Now w1). by injection Hn as _ <-.
Qed.

(** The manifest a plan is made of: the one of the body, which is all of it when the part
    for the manifest names none. *)
Definition manifest_of_body (body : Manifest * string * result Manifest) (m : Manifest) : Prop :=
  let '(part, _, whole) := body in
  if decide (Manifest_ID part = "") then whole = Ok m else m = part.

(** What stands behind the answer 201. *)
Lemma planProvisioning_run r input s w run s' w' :
  planProvisioning r input (s, w) = (Answer (201, run), (s', w')) →
  Provisioning = true ∧ ∃ st m rid,
    PlanWithRuntime manager (PathValue r "project") m rid (mkState (Memory s) (Announced s) (Tables s, w))
      = ((run, None), st) ∧ Tables s' = (outer st).1.
Proof.
  unfold planProvisioning. destruct Provisioning; [|by intros [[=] _]%mret_inv].
  destruct input as [[[m rid] whole]|e]; cbn [decoded]; [|by intros [[=] _]%mret_inv].
  intros Hk. split; [done|].
  assert (∃ m', run_or_error 201 422 (PlanWithRuntime manager (PathValue r "project") m' rid) (s, w)
    = (Answer (201, run), (s', w'))) as [m' Hplan].
  { case_decide; [|by exists m].
    destruct whole as [m'|e]; cbn [decoded] in Hk; [by exists m'|by apply mret_inv in Hk as [[=] _]]. }
  apply mthen_inv in Hplan as ([run' err] & [s1 w1] & Hm & Hk').
  destruct err as [e|]; [by apply mret_inv in Hk' as [[=] _]|]. apply mret_inv in Hk' as [[= ->] [= -> ->]].
  apply managed_inv in Hm as (st & Hp & Ht & _). by exists st, m', rid.
Qed.

(** C35: a plan is kept.  The answer 201 carries a plan for the project of the path, of the
    manifest and the runtime of the body, with the ten steps to be taken.  The manifest says
    it is the project's; when the run's identifier is new, the project is known and some
    manifest is stored under that manifest's identifier (what is stored there is not
    compared with the body).  The run is written over no other, and whoever may read the
    project gets exactly that run, also when the server has lost its memory. *)
Theorem planned_run_kept DB r input s w run s' w' :
  RunsStore = Some DB →
  planProvisioning r input (s, w) = (Answer (201, run), (s', w')) →
  PathValue r "project" ≠ "" ∧ Run_ProjectID run = PathValue r "project" ∧
  Run_Status run = Planned ∧ Steps run = DefaultSteps ∧
  (∃ body, input = Ok body ∧ manifest_of_body body (Run_Manifest run) ∧ RuntimeID run = body.1.2) ∧
  Manifest_ProjectID (Run_Manifest run) = PathValue r "project" ∧
  (prov_runs (Tables s) !! Run_ID run = None →
     PathValue r "project" ∈ projects (Tables s) ∧ is_Some (manifests (Tables s) !! Manifest_ID (Run_Manifest run))) ∧
  (∀ id, id ≠ Run_ID run → prov_runs (Tables s') !! id = prov_runs (Tables s) !! id) ∧
  ∀ q mem w1 w2, PathValue q "run" = Run_ID run →
    passes AuthOf q (PathValue r "project") PermissionRead w1 w2 →
    getProvisioning q (s' <| Memory := mem |>, w1) = (Answer (200, run), (s' <| Memory := mem |>, w2)).
Proof.
  intros Hst. unfold planProvisioning. destruct Provisioning eqn:Hpv; [|by intros [[=] _]%mret_inv].
  destruct input as [[[m rid] whole]|e]; cbn [decoded]; [|by intros [[=] _]%mret_inv].
  intros Hk. assert (∃ m', manifest_of_body (m, rid, whole) m' ∧
    run_or_error 201 422 (PlanWithRuntime manager (PathValue r "project") m' rid) (s, w)
    = (Answer (201, run), (s', w'))) as (m' & Hbody & Hplan).
  { unfold manifest_of_body. case_decide; [|by exists m].
    destruct whole as [m'|e]; cbn [decoded] in Hk; [by exists m'|by apply mret_inv in Hk as [[=] _]]. }
  clear Hk. apply mthen_inv in Hplan as ([run' err] & [s1 w1] & Hm & Hk).
  destruct err as [e|]; [by apply mret_inv in Hk as [[=] _]|]. apply mret_inv in Hk as [[= ->] [= -> ->]].
  apply managed_inv in Hm as (st & Hp & Ht & _).
  apply (PlanWithRuntime_saved DB) in Hp as (Hne & Hpr & Hman & Hmp & Hstat & Hsteps & Hrid & w3 & Hsave); [|done].
  rewrite <-Ht in Hsave. split_and!; try done.
  - exists (m, rid, whole). by rewrite Hman.
  - by rewrite Hman.
  - intros Hnew. unfold pg_Save, pg.with_db in Hsave. destruct DB; [|by apply mret_inv in Hsave as [[=] _]].
    apply execute_inv in Hsave as (_ & [(Ha & _)|(_ & [=] & _)]). unfold run_allowed in Ha.
    rewrite orb_true_iff, andb_true_iff, !bool_decide_eq_true, Hnew, Hpr in Ha. by destruct Ha as [[? [=]]|].
  - intros id Hid. assert (DB = true) as -> by (destruct DB; [done|]; by apply mret_inv in Hsave as [[=] _]).
    apply Save_then_Get in Hsave as [_ Ho]. by apply Ho.
  - intros q mem v1 v2 Hq Hpass. unfold getProvisioning, requireProvisioningAccess. rewrite Hpv, Hst.
    assert (DB = true) as -> by (destruct DB; [done|]; by apply mret_inv in Hsave as [[=] _]).
    apply Save_then_Get in Hsave as [Hg _]. unfold pg_GetRun, pg.with_db, look, inside in Hg. cbn [fst snd] in Hg.
    unfold mthen at 1, on_tables, pg_GetRun, pg.with_db, look, inside. cbn. rewrite Hq.
    destruct (prov_runs (Tables s') !! Run_ID run) as [x|]; [|done]. injection Hg as ->.
    rewrite Hpr. unfold permitted, mthen, World.outside. cbn. apply (passes_any AuthOf (Z * Run)) in Hpass. rewrite Hpass. by destruct s'.
Qed.

(** *** Carrying out a plan *)

(** The tables have the run. *)
Definition stored (run : Run) (d : prov_db) : Prop :=
  ∃ x, prov_runs d !! Run_ID run = Some x ∧ RRow_Run x = run.

(** The manager of the server can rely on its store: a run whose row is there can always be
    saved again, and is what is read. *)
Lemma server_dependable p : RunsStore = Some true → Runtime = Some p → healthy p →
  dependable manager (over_tables p) (λ run dw, stored run dw.1).
Proof.
  intros Hst Hrt Hh. split; unfold manager; cbn; rewrite ?Hst, ?Hrt; cbn; [done| | | | | | |].
  - split.
    + intros spec [d w]. destruct (proj1 Hh spec w) as (rt & w' & Hx).
      exists rt, (d, w'). cbn. unfold World.outside. cbn. by rewrite Hx.
    + intros t id c [d w]. destruct (proj2 Hh t id c w) as (x & w' & Hx & Hz).
      exists x, (d, w'). cbn. unfold World.outside. cbn. by rewrite Hx.
  - intros spec run [d w]. cbn. unfold World.outside. cbn. by destruct (runtime.Create p spec w).
  - intros t id c run [d w]. cbn. unfold World.outside. cbn. by destruct (runtime.Exec p t id c w).
  - intros run [d w]. cbn. unfold World.outside. cbn. by destruct (Now w).
  - intros run [d w] [d' w'] Hs. apply Save_then_Get in Hs as [Hg _].
    unfold pg_GetRun, pg.with_db, look, inside in Hg. cbn in *. unfold stored.
    destruct (prov_runs d' !! Run_ID run) as [x|]; [|done]. exists x. by injection Hg as ->.
  - intros r0 run [d w] (x & Hx & _) Hid. unfold pg_Save, pg.with_db, execute, inside, run_allowed. cbn in *.
    by rewrite Hid, Hx.
  - intros run [d w] (x & Hx & Hr). exists (d, w). unfold pg_GetRun, pg.with_db, look, inside. cbn in *.
    rewrite Hx, Hr. split; [done|]. by exists x.
Qed.

(** C18: a plan can be carried out.  On the server as it is wired, with the runs in Postgres
    and a runtime that creates containers and whose commands succeed, starting a planned run
    takes it to READY with every one of its ten steps passed: the loop over the ready steps
    ends by itself.  The request may be of anybody who may run things in the project, and
    the server may have been restarted since the plan was made; the finished run is in the
    tables. *)
Theorem Plan_then_Provision p DB r input s w run s' w' :
  RunsStore = Some DB → Runtime = Some p → healthy p →
  planProvisioning r input (s, w) = (Answer (201, run), (s', w')) →
  ∀ q mem w1 w2, PathValue q "run" = Run_ID run →
    passes AuthOf q (PathValue r "project") PermissionRun w1 w2 →
    ∃ out s2 w3, startProvisioning q (s' <| Memory := mem |>, w1) = (Answer (200, out), (s2, w3)) ∧
      Run_ID out = Run_ID run ∧ Run_Status out = Ready ∧
      Step_ID <$> Steps out = Step_ID <$> DefaultSteps ∧
      Forall (λ s, Step_Status s = StepPassed) (Steps out) ∧ stored out (Tables s2).
Proof.
  intros Hst Hrt Hh Hplan q mem w1 w2 Hq Hpass.
  apply planProvisioning_run in Hplan as (Hpv & st & m & rid & Hp & Ht).
  assert (DB = true) as ->.
  { apply (PlanWithRuntime_saved DB) in Hp as (_ & _ & _ & _ & _ & _ & _ & w3 & Hsave); [|done].
    by destruct DB; [|apply mret_inv in Hsave as [[=] _]]. }
  pose proof (server_dependable p Hst Hrt Hh) as Hdep.
  pose proof (PlanWithRuntime_saved true _ _ _ _ _ _ _ _ _ Hst Hp) as (_ & Hproj & _).
  apply (PlanWithRuntime_known _ _ _ Hdep) in Hp as ((Hs & _) & Hstat & Hsteps & Hcan).
  rewrite <-Ht in Hs. pose proof Hs as (x & Hx & Hxr).
  destruct (planned_succeeds manager _ _ run (mkState mem (Announced s') (Tables s', w2)) Hdep)
    as (out & st2 & Ho & Hid & Hout & Hready & Hsteps2 & Hpassed); [|done..|].
  { split; [exact Hs|]. unfold manager. by rewrite Hst. }
  unfold startProvisioning, requireProvisioningAccess. rewrite Hpv, Hst.
  unfold mthen at 1, on_tables, pg_GetRun, pg.with_db, look, inside. cbn. rewrite Hq, Hx, Hxr.
  unfold permitted, mthen at 1, World.outside. cbn. rewrite Hproj.
  apply (passes_any AuthOf (Z * Run)) in Hpass. rewrite Hpass. cbn.
  unfold run_or_error, mthen at 1, managed. cbn. rewrite Ho.
  do 3 eexists. split; [reflexivity|]. by split_and!.
Qed.

(** ** One manifest *)

Lemma FromDecision_first dec profile now m : FromDecision dec profile now = Ok m →
  Manifest_Version m = "1" ∧ Manifest_ProjectID m = Decision_ProjectID dec.
Proof.
  unfold FromDecision. destruct (bool_decide _ || bool_decide _); [done|]. intros [= <-]. done.
Qed.
Lemma consider_project candidates acc :
  Decision_ProjectID (foldl consider acc candidates).2 = Decision_ProjectID acc.2.
Proof.
  revert acc. induction candidates as [|c l IH]; intros [best dec]; cbn [foldl]; [done|]. rewrite IH.
  unfold consider. by destruct (float64.gtb _ _); case_decide.
Qed.
Lemma selectArchitecture_project i c candidates override now dec :
  selectArchitecture i c candidates override now = Ok dec → Decision_ProjectID dec = Intent_ProjectID i.
Proof.
  unfold selectArchitecture. case_decide.
  - intros [= <-]. cbn. by rewrite consider_project.
  - destruct (head _); [|done]. by intros [= <-].
Qed.
Lemma Analyze_project now intent override a : Analyze now intent override = Ok a →
  Decision_ProjectID (Decision_of a) = Intent_ProjectID intent.
Proof.
  unfold Analyze. destruct (bool_decide _ || bool_decide _); [done|].
  destruct (selectArchitecture _ _ _ _ _) as [dec|e] eqn:Hsel; [|done]. intros [= <-]. cbn.
  by eapply selectArchitecture_project.
Qed.

Lemma on_tables_inv {A} (c : M (prov_db * W) A) s w a s' w' : on_tables c (s, w) = (a, (s', w')) →
  ∃ d, c (Tables s, w) = (a, (d, w')) ∧ s' = s <| Tables := d |>.
Proof. unfold on_tables. cbn [fst snd]. destruct (c _) as [x [d w1]]. intros [= -> <- <-]. by exists d. Qed.

Lemma SaveAnalysis_manifests DB a d (w : W) err d' w' :
  SaveAnalysis DB a (d, w) = (err, (d', w')) → manifests d' = manifests d.
Proof.
  intros Hs. assert (keeps (λ x, manifests x = manifests d) (SaveAnalysis (W := W) DB a)) as Hk;
    [|by apply Hk in Hs; apply Hs].
  unfold SaveAnalysis, pg.with_db. destruct DB; [|apply keeps_mret].
  repeat apply keeps_and_then; [|apply keeps_each; intros x| |]; by apply keeps_execute.
Qed.

(** A project gets a manifest once: when the request is answered, the project had none of
    the version that every manifest has, or the identifier was there already, and now it
    has one.  From then on the version is taken. *)
Lemma manifest_only_once r input s w a m s' w' :
  EnvironmentStore = Some true →
  createEnvironmentManifest r input (s, w) = (Answer (200, (a, m)), (s', w')) →
  Manifest_ProjectID m = PathValue r "project" ∧ Manifest_Version m = "1" ∧
  (manifests (Tables s) !! Manifest_ID m = None → version_taken m (Tables s) = false) ∧
  (manifests (Tables s) !! Manifest_ID m = None → version_taken m (Tables s') = true).
Proof.
  intros Hst. unfold createEnvironmentManifest, available. destruct Intelligence as [clock|]; [|by intros [[=] _]%mret_inv].
  destruct input as [i|e]; cbn [decoded]; [|by intros [[=] _]%mret_inv].
  intros (analysis & w1 & Han & Hk)%outside_then. destruct analysis as [a0|e]; [|by apply mret_inv in Hk as [[=] _]].
  apply outside_then in Hk as (now & w2 & _ & Hk).
  destruct (FromDecision (Decision_of a0) (In_Profile i) now) as [m0|e] eqn:Hm; [|by apply mret_inv in Hk as [[=] _]].
  assert (∃ s1 w3, manifests (Tables s1) = manifests (Tables s) ∧
    save_in EnvironmentStore (λ DB, SaveManifest DB m0) (writeJSON 200 (a0, m0)) (s1, w3)
      = (Answer (200, (a, m)), (s', w'))) as (s1 & w3 & Hsame & Hsave).
  { unfold save_in at 1 in Hk. destruct IntelligenceStore as [DB|]; [|by exists s, w2].
    apply mthen_inv in Hk as (err & [s1 w3] & Hs1 & Hk). apply on_tables_inv in Hs1 as (d1 & Hs1 & ->).
    destruct err as [e|]; [by apply mret_inv in Hk as [[=] _]|]. eexists _, w3. split; [|exact Hk].
    by apply SaveAnalysis_manifests in Hs1. }
  unfold save_in in Hsave. rewrite Hst in Hsave. apply mthen_inv in Hsave as (err & [s2 w4] & Hs2 & Hsave).
  apply on_tables_inv in Hs2 as (d2 & Hs2 & ->). destruct err as [e|]; [by apply mret_inv in Hsave as [[=] _]|].
  apply mret_inv in Hsave as [[= -> ->] [= <- _]].
  apply FromDecision_first in Hm as [Hver Hproj].
  assert (Manifest_ProjectID m = PathValue r "project") as Hpid.
  { rewrite Hproj. unfold analyze in Han. destruct (_ || _) eqn:Hb in Han.
    - apply mret_inv in Han as [Han _]. unfold Analyze in Han. by rewrite Hb in Han.
    - apply mthen_inv in Han as (t & w5 & _ & [Han _]%mret_inv). by apply Analyze_project in Han. }
  unfold SaveManifest, pg.with_db in Hs2. apply execute_inv in Hs2 as (_ & [(Ha & _ & ->)|(_ & [=] & _)]).
  split_and!; [done|done| |]; intros Hnew; rewrite <-Hsame in Hnew.
  - unfold manifest_allowed in Ha. rewrite Hnew in Ha. rewrite bool_decide_false in Ha by (by intros []).
    cbn [orb] in Ha. apply andb_true_iff in Ha as [_ Hn]. apply negb_true_iff in Hn.
    unfold version_taken in *. by rewrite Hsame in Hn.
  - apply version_taken_iff. exists (Manifest_ID m). eexists. split; [cbn; by rewrite lookup_insert_eq, Hnew|]. done.
Qed.
End handlers.

(** ** Witnesses *)

Section witness.
#[local] Existing Instance ticking.
#[local] Instance prov_pg : Database := {| violation := ErrorString "violation"; collate := String.ltb |}.
#[local] Instance prov_unicode : strings.GoUnicode := strings.ascii_unicode.
#[local] Instance prov_digest : Digest := λ _, "digest".
#[local] Instance prov_sha : Sha256 := λ s, s.

(** A runner of the project shop, and of no other. *)
Definition runner : User := mkUser "u" "" "" RoleMember "active" 0 0 None.
Definition runner_auth : AuthService clock_world :=
  mkAuth None (mkSessions None None 0)
    (Some (λ project _, mret (if decide (project = "shop") then Ok (mkMembership "shop" "u" "runner" 0 0)
                              else Err ErrMembershipNotFound))).
Definition prov_request (values : gmap string string) : Request :=
  mkRequest "POST" "/api" None values (Some (mkPrincipal runner (mkSession "s" "u" 0 1 None None "" ""))).
Definition empty_server : prov_server := mkProvServer ∅ [] (empty_tables {["shop"]}).
Notation manifest_for n := (createEnvironmentManifest (Some None) (Some true) (Some true)
  (prov_request {["project" := "shop"]}) (Ok (mkManifestInput example_intent "" Standard)) n).
Definition with_manifest : prov_server := (manifest_for (empty_server, mkClockWorld 7 None)).2.1.
Definition shop_manifest : Manifest :=
  match (manifest_for (empty_server, mkClockWorld 7 None)).1 with
  | Answer (_, (_, m)) => m
  | Error _ _ _ => zero_Manifest
  end.
Notation planning := (planProvisioning true (Some true) None false (mret 9) (prov_request {["project" := "shop"]})
  (Ok (shop_manifest, "container-of-another-project", Ok shop_manifest)) (with_manifest, mkClockWorld 9 None)).

Lemma planned_run_kept_witness :
  ∃ run s' w', planning = (Answer (201, run), (s', w')) ∧ Run_ID run = "prov_shop_9" ∧
    getProvisioning (Some runner_auth) true (Some true) (prov_request {["run" := "prov_shop_9"]})
      (s' <| Memory := ∅ |>, w') = (Answer (200, run), (s' <| Memory := ∅ |>, w')).
Proof.
  assert (match planning.1 with Answer (code, run) => code = 201 ∧ Run_ID run = "prov_shop_9" | _ => False end)
    as Hrun by (vm_compute; done).
  destruct planning as [resp [s' w']] eqn:E. cbn [fst] in Hrun.
  destruct resp as [code msg clears|[code run]]; [destruct Hrun|]. destruct Hrun as [-> Hid].
  destruct (planned_run_kept (Some runner_auth) true (Some true) None false (mret 9) true
    (prov_request {["project" := "shop"]}) _ _ _ run s' w' eq_refl E) as (_ & _ & _ & _ & _ & _ & _ & _ & Hget).
  exists run, s', w'. split; [reflexivity|]. split; [exact Hid|].
  apply Hget; [by rewrite Hid|reflexivity].
Defined.

(** A runtime on which everything succeeds; the plan names no runtime, so one is created. *)
Definition sound_runtime : runtime.Provider clock_world := {|
  runtime.Name := "sound";
  runtime.Create _ := mret (runtime.mkRuntime "rt" "sound" runtime.StatusRunning, None);
  runtime.Start _ := mret None; runtime.Stop _ := mret None; runtime.Restart _ := mret None;
  runtime.Destroy _ := mret None; runtime.GetStatus _ := mret (runtime.StatusRunning, None);
  runtime.Exec _ _ _ := mret (runtime.mkExecResult 0 "" "", None)
|}.
Lemma sound_runtime_healthy : healthy sound_runtime.
Proof. split; [intros spec w; by do 2 eexists|]. intros t id c w. by do 2 eexists. Qed.
Notation planning_on p := (planProvisioning true (Some true) (Some p) true (mret 9) (prov_request {["project" := "shop"]})
  (Ok (shop_manifest, "", Ok shop_manifest)) (with_manifest, mkClockWorld 9 None)).

Lemma Plan_then_Provision_witness :
  ∃ run out s2 w3, (planning_on sound_runtime).1 = Answer (201, run) ∧
    startProvisioning (Some runner_auth) true (Some true) (Some sound_runtime) true (mret 9)
      (prov_request {["run" := "prov_shop_9"]})
      ((planning_on sound_runtime).2.1 <| Memory := ∅ |>, mkClockWorld 20 None) = (Answer (200, out), (s2, w3)) ∧
    Run_Status out = Ready ∧ Forall (λ s, Step_Status s = StepPassed) (Steps out).
Proof.
  assert (match (planning_on sound_runtime).1 with
          | Answer (code, run) => code = 201 ∧ Run_ID run = "prov_shop_9" | _ => False end)
    as Hrun by (vm_compute; done).
  destruct (planning_on sound_runtime) as [resp [s' w']] eqn:E. cbn [fst] in Hrun.
  destruct resp as [code msg clears|[code run]]; [destruct Hrun|]. destruct Hrun as [-> Hid].
  destruct (Plan_then_Provision (Some runner_auth) true (Some true) (Some sound_runtime) true (mret 9)
    sound_runtime true (prov_request {["project" := "shop"]}) _ _ _ run s' w' eq_refl eq_refl sound_runtime_healthy E
    (prov_request {["run" := "prov_shop_9"]}) ∅ (mkClockWorld 20 None) (mkClockWorld 20 None))
    as (out & s2 & w3 & Ho & _ & Hr & _ & Hp & _).
  - rewrite Hid. reflexivity.
  - reflexivity.
  - exists run, out, s2, w3. split; [reflexivity|]. split; [exact Ho|]. split; [exact Hr|exact Hp].
Defined.

(** Every manifest has the version 1, of which a project can have one: the second request
    for a manifest of a project fails. *)
Lemma second_manifest_fails :
  (manifest_for (empty_server, mkClockWorld 7 None)).1 ≠ Error 500 "violation" false ∧
  (manifest_for (with_manifest, mkClockWorld 8 None)).1 = Error 500 "violation" false.
Proof. split; [vm_compute; discriminate|vm_compute; reflexivity]. Qed.

(** The requirements of all projects are kept under the same numbers: those of a second
    project are not stored, and change the descriptions of the first's. *)
Lemma requirements_collide :
  let intent p text := example_intent <| Intent_ProjectID := p |> <| UserPrompt := text |> in
  let analyze_for p text n := (analyzeProject (Some None) (Some true) (prov_request {["project" := p]}) ""
    (Ok (intent p text)) n).2 in
  let '(s, _) := analyze_for "b" "A shop" (analyze_for "a" "A chess club"
    (mkProvServer ∅ [] (empty_tables {["a"; "b"]}), mkClockWorld 7 None)) in
  (λ r, (Requirement_ProjectID r, Description r)) <$> requirements (Tables s) !! "req_1" = Some ("a", "A shop").
Proof. vm_compute. reflexivity. Qed.

(** The runtime of a plan is what the body names: cleaning up destroys it, whosever it is. *)
Definition recording : runtime.Provider clock_world := {|
  runtime.Name := "recording";
  runtime.Create _ := mret (runtime.mkRuntime "rt" "recording" runtime.StatusRunning, None);
  runtime.Start _ := mret None; runtime.Stop _ := mret None; runtime.Restart _ := mret None;
  runtime.Destroy id := mret (Some (ErrorString ("destroyed " +:+ id)));
  runtime.GetStatus _ := mret (runtime.StatusRunning, None);
  runtime.Exec _ _ _ := mret (runtime.zero_ExecResult, None)
|}.
Lemma cleanup_destroys_any_runtime :
  (cleanupProvisioning (Some runner_auth) true (Some true) (Some recording) false (mret 9)
    (prov_request {["run" := "prov_shop_9"]}) planning.2).1
  = Error 409 "destroyed container-of-another-project" false.
Proof. vm_compute. reflexivity. Qed.
End witness.
End httpprovision.
