(* ===== verification/SharedStore.v ===== *)
(** * The store of shared tools and of the cache

    [src/internal/sharedinfra/store.go], on the tables of
    [src/migrations/009_infrastructure.sql] and [013_global_cache_blobs.sql], as the
    persistence of the cache of [SharedInfra.v]; and what [main] makes of it when the server
    starts. *)

From stdpp Require Import relations.
From S2P Require Import Prelude GoStrings World Environment Auth SharedInfra PgBase.
Import crypto sharedinfra pg.

Module sharedstore.

#[global] Instance eta_ToolVersion : Eta ToolVersion := λ v,
  mkVersion (Version v) (Platform v) (Architecture v) (Version_Dependencies v) (Version_Artifact v)
    (InstallationMethod v) (VerificationMethod v) (Compatibility v).
#[global] Instance eta_Tool : Eta Tool := λ t,
  mkTool (Tool_ID t) (Tool_Name t) (Category t) (Versions t) (Platforms t) (Tool_Dependencies t)
    (Capabilities t) (InstallStrategy t) (VerificationStrategy t) (ArtifactIdentity t) (Tool_Metadata t).
#[global] Instance eta_Artifact : Eta Artifact := λ a,
  mkArtifact (Artifact_ID a) (Artifact_Name a) (Artifact_Version a) (Artifact_Platform a)
    (Artifact_Architecture a) (Size a) (Checksum a) (Source a) (StorageLocation a) (Artifact_Metadata a).

(** The tables.  A row of a version names its artifact; the rows of versions are kept under
    the tool and the version, platform and architecture. *)
Record shared_db := mkSharedDB {
  tools : gmap string Tool;
  versions : gmap string (gmap (string * string * string) (ToolVersion * string));
  artifacts : gmap string Artifact;
  cache_entries : gmap string CacheEntry;
  cache_blobs : gmap string (string * string)
}.
#[global] Instance eta_shared_db : Eta shared_db := λ d,
  mkSharedDB (tools d) (versions d) (artifacts d) (cache_entries d) (cache_blobs d).

Section store.
Context `{Database} `{Sha256} `{strings.GoUnicode} {W : Type}.
(** Whether the store has a database. *)
Variable DB : bool.
Notation C A := (M (shared_db * W) A).
Notation with_db := (pg.with_db DB "shared infrastructure database unavailable").

(** ** Tools *)

Definition versions_at (d : shared_db) (tool : string) := default ∅ (versions d !! tool).
Definition put_version (tool : string) (v : ToolVersion) (d : shared_db) : shared_db :=
  let key := (Version v, Platform v, Architecture v) in
  d <| versions := <[tool := <[key := match versions_at d tool !! key with
         | Some (x, _) => (x <| Compatibility := Compatibility v |>, Artifact_ID (Version_Artifact v))
         | None => (v <| Version_Artifact := zero_Artifact |>, Artifact_ID (Version_Artifact v))
         end]> (versions_at d tool)]> (versions d) |>.
(* src: internal/sharedinfra/store.go:32-37 (PostgresStore.SaveVersion) *)
Definition SaveVersion (tool : string) (v : ToolVersion) : C (option goerror) :=
  execute (λ d, bool_decide (is_Some (tools d !! tool))) (put_version tool v).
Definition put_tool (t : Tool) (d : shared_db) : shared_db :=
  d <| tools := <[Tool_ID t := match tools d !! Tool_ID t with
         | Some x => x <| Tool_Name := Tool_Name t |> <| Category := Category t |> <| Platforms := Platforms t |>
                       <| Tool_Dependencies := Tool_Dependencies t |> <| Capabilities := Capabilities t |>
         | None => t <| Versions := [] |>
         end]> (tools d) |>.
(* src: internal/sharedinfra/store.go:14-31 (PostgresStore.SaveTool) *)
Definition SaveTool (t : Tool) : C (option goerror) :=
  with_db Some (and_then (execute (λ _, true) (put_tool t)) (each (SaveVersion (Tool_ID t)) (Versions t))).

(* src: internal/sharedinfra/store.go:103-116 (loadArtifact) *)
Definition loadArtifact (d : shared_db) (id : string) : option Artifact :=
  if decide (id = "") then None else artifacts d !! id.
(** [ORDER BY version], which compares texts. *)
(* src: internal/sharedinfra/store.go:79-99 (PostgresStore.LoadTools) *)
Definition load_versions (d : shared_db) (tool : string) : list ToolVersion :=
  (λ p, match loadArtifact d p.2 with Some a => p.1 <| Version_Artifact := a |> | None => p.1 end) <$>
    sort_by (λ a b, collate (Version a.1) (Version b.1)) (map_to_list (versions_at d tool)).*2.
(* src: internal/sharedinfra/store.go:57-102 (PostgresStore.LoadTools) *)
Definition LoadTools : C (result (list Tool)) :=
  with_db Err (look (λ d, Ok ((λ t, t <| Versions := load_versions d (Tool_ID t) |>) <$>
    sort_by (λ a b, collate (Tool_ID a) (Tool_ID b)) (map_to_list (tools d)).*2))).

(** ** Artifacts and the cache *)

(** [UNIQUE(name,version,platform,architecture,checksum)] *)
Definition artifact_taken (a : Artifact) (d : shared_db) : bool :=
  existsb (λ p, bool_decide ((Artifact_Name p.2, Artifact_Version p.2, Artifact_Platform p.2,
      Artifact_Architecture p.2, Checksum p.2) =
    (Artifact_Name a, Artifact_Version a, Artifact_Platform a, Artifact_Architecture a, Checksum a)))
    (map_to_list (delete (Artifact_ID a) (artifacts d))).
Definition put_artifact (a : Artifact) (d : shared_db) : shared_db :=
  d <| artifacts := <[Artifact_ID a := match artifacts d !! Artifact_ID a with
         | Some x => x <| Checksum := Checksum a |> <| StorageLocation := StorageLocation a |>
         | None => a
         end]> (artifacts d) |>.
(** The row that would be there has to be unique. *)
(* src: internal/sharedinfra/store.go:38-45 (PostgresStore.SaveArtifact) *)
Definition SaveArtifact (a : Artifact) : C (option goerror) :=
  with_db Some (execute
    (λ d, negb (artifact_taken (default a (artifacts (put_artifact a d) !! Artifact_ID a)) d)) (put_artifact a)).

Definition refers (id : string) (d : shared_db) : bool := bool_decide (is_Some (artifacts d !! id)).
Definition put_cache_entry (e : CacheEntry) (d : shared_db) : shared_db :=
  d <| cache_entries := <[Artifact_ID (Entry_Artifact e) :=
         e <| VerifiedAt := timestamptz <$> VerifiedAt e |> <| LastUsedAt := timestamptz <$> LastUsedAt e |>]>
       (cache_entries d) |>.
(* src: internal/sharedinfra/store.go:52-55 (PostgresStore.SaveCacheEntryRaw) *)
Definition SaveCacheEntryRaw (e : CacheEntry) : C (option goerror) :=
  execute
    (λ d, int4 (RefCount e) &&
       (bool_decide (is_Some (cache_entries d !! Artifact_ID (Entry_Artifact e))) ||
        refers (Artifact_ID (Entry_Artifact e)) d))
    (put_cache_entry e).
(* src: internal/sharedinfra/store.go:46-51 (PostgresStore.SaveCacheEntry) *)
Definition pg_SaveCacheEntry (e : CacheEntry) : C (option goerror) := with_db Some (SaveCacheEntryRaw e).

(* src: internal/sharedinfra/store.go:118-124 (PostgresStore.SaveCacheBlob) *)
Definition pg_SaveCacheBlob (a : Artifact) (data : string) : C (option goerror) :=
  with_db Some (execute
    (λ d, bool_decide (is_Some (cache_blobs d !! Artifact_ID a)) || refers (Artifact_ID a) d)
    (λ d, d <| cache_blobs := <[Artifact_ID a := (Checksum a, data)]> (cache_blobs d) |>)).
(* src: internal/sharedinfra/store.go:126-143 (PostgresStore.LoadCacheBlob) *)
Definition pg_LoadCacheBlob (a : Artifact) : C (string * bool * option goerror) :=
  with_db (λ e, ("", false, Some e)) (look (λ d,
    match cache_blobs d !! Artifact_ID a with
    | Some (checksum, data) =>
        if negb (bool_decide (checksum = Checksum a)) || negb (verifyChecksum data (Checksum a))
        then ("", false, None) else (data, true, None)
    | None => ("", false, None)
    end)).
(* src: internal/sharedinfra/store.go:145-151 (PostgresStore.DeleteCacheBlob) *)
Definition pg_DeleteCacheBlob (a : Artifact) : C (option goerror) :=
  with_db Some (execute (λ _, true) (λ d, d <| cache_blobs := delete (Artifact_ID a) (cache_blobs d) |>)).
(** The artifact of an entry is the one of its table. *)
(* src: internal/sharedinfra/store.go:153-175 (PostgresStore.LoadCacheEntries) *)
Definition pg_LoadCacheEntries : C (result (list CacheEntry)) :=
  with_db Err (look (λ d, Ok (sort_by (λ a b, collate (Artifact_ID (Entry_Artifact a)) (Artifact_ID (Entry_Artifact b)))
    (omap (λ p, a ← artifacts d !! p.1; Some (p.2 <| Entry_Artifact := a |>)) (map_to_list (cache_entries d)))))).
(* src: internal/sharedinfra/store.go:12-12 (PostgresStore) *)
Definition PostgresStore : CachePersistence (shared_db * W) :=
  mkPersistence pg_SaveCacheBlob pg_LoadCacheBlob pg_DeleteCacheBlob pg_SaveCacheEntry pg_LoadCacheEntries.

(** ** The start of the server *)

(** The registry is loaded from the tables or, when there is nothing, saved in them. *)
(* src: cmd/server/main.go:143-162 (main) *)
Definition start_registry `{MapOrder} : C (result (gmap string Tool)) :=
  let! loaded := LoadTools in
  match loaded with
  | Err e => mret (Err e)
  | Ok [] =>
      let! err := each SaveTool (Registry_List DefaultRegistry) in
      mret (match err with Some e => Err e | None => Ok DefaultRegistry end)
  | Ok l => let '(r, err) := Load DefaultRegistry l in
            mret (match err with Some e => Err e | None => Ok r end)
  end.
(** The cache of the server. *)
(* src: cmd/server/main.go:163-168 (main) *)
Definition server_cache (now : M W Z) : Cache (shared_db * W) :=
  mkCacheService (outside now) (Some PostgresStore).

(** ** Properties *)

(** The tables of artifacts and of the cache, and the cache in memory, are empty. *)
Definition unfilled (sw : cstate * (shared_db * W)) : Prop :=
  entries sw.1 = ∅ ∧ artifacts sw.2.1 = ∅ ∧ cache_entries sw.2.1 = ∅ ∧ cache_blobs sw.2.1 = ∅.

(** The operations of the server on the cache. *)
Inductive cache_op :=
  | OpLookup (a : Artifact) | OpPut (a : Artifact) (data : string) | OpInvalidate (a : Artifact) | OpHydrate.
Definition run_op (c : Cache (shared_db * W)) (op : cache_op) : M (cstate * (shared_db * W)) unit :=
  match op with
  | OpLookup a => let! _ := Lookup c a in mret tt
  | OpPut a data => let! _ := Put c a data in mret tt
  | OpInvalidate a => Invalidate c a
  | OpHydrate => let! _ := Hydrate c in mret tt
  end.

(** A statement that the tables do not allow is refused. *)
Lemma refused {allowed} {change : shared_db → shared_db} (dw : shared_db * W) err dw' :
  with_db Some (execute allowed change) dw = (err, dw') → allowed dw.1 = false →
  err ≠ None ∧ dw' = dw.
Proof.
  destruct dw as [d w], dw' as [d' w'].
  intros [[e [= -> -> ->]]|[_ (-> & [(Ha & _)|(_ & -> & ->)])%execute_inv]]%with_db_inv; [done| |done].
  cbn [fst]. congruence.
Qed.

(** A row of an empty table is not there. *)
Lemma not_there {A} (m : gmap string A) id : m = ∅ → bool_decide (is_Some (m !! id)) = false.
Proof. intros ->. apply bool_decide_eq_false_2. rewrite lookup_empty. by intros [? ?]. Qed.

Lemma blob_refused sw a data err dw' : unfilled sw →
  pg_SaveCacheBlob a data sw.2 = (err, dw') → err ≠ None ∧ dw' = sw.2.
Proof.
  intros (_ & Ha & _ & Hb) Hs. eapply refused; [exact Hs|]. unfold refers. by rewrite !not_there.
Qed.

Variable now : M W Z.
Notation c := (server_cache now).

Lemma unfilled_look {A} (f : cstate → A) sw a sw' :
  look f sw = (a, sw') → unfilled sw → unfilled sw' ∧ a = f sw.1.
Proof. by intros [-> ->]%look_inv. Qed.

Lemma unfilled_Put a data sw r err sw' : unfilled sw →
  Put c a data sw = (r, err, sw') → err ≠ None ∧ unfilled sw'.
Proof.
  intros Hu. unfold Put. case_decide; [by intros [[= <- <-] <-]%mret_inv|].
  destruct (negb _); [by intros [[= <- <-] <-]%mret_inv|].
  intros (found & sw1 & [-> ->]%look_inv & Hk)%mthen_inv. rewrite (proj1 Hu), lookup_empty in Hk.
  apply mthen_inv in Hk as (u & sw2 & ->%modify_inv & Hk).
  apply mthen_inv in Hk as (t & sw3 & [[Hn Hd]%outside_inv Hs3]%outside_inv & Hk). cbn [fst snd] in *.
  assert (unfilled sw3) as Hu3. { unfold unfilled. rewrite Hs3, Hd. exact Hu. }
  apply mthen_inv in Hk as (e & sw4 & [Hb Hs4]%outside_inv & Hk). apply (blob_refused sw3) in Hb as [He Hb]; [|done].
  destruct e as [e|]; [|done]. apply mret_inv in Hk as [[= <- <-] <-]. split; [done|].
  unfold unfilled. by rewrite Hs4, Hb.
Qed.

Lemma unfilled_Lookup a sw r sw' : unfilled sw →
  Lookup c a sw = (r, sw') → r.2 = CacheMiss ∧ unfilled sw'.
Proof.
  intros Hu (found & sw1 & [-> ->]%look_inv & Hk)%mthen_inv. rewrite (proj1 Hu), lookup_empty in Hk.
  by apply mret_inv in Hk as [<- <-].
Qed.

Lemma unfilled_Hydrate sw r sw' : unfilled sw → Hydrate c sw = (r, sw') → unfilled sw'.
Proof.
  intros Hu (l & sw1 & [Hl Hs1]%outside_inv & Hk)%mthen_inv.
  assert (sw1.2 = sw.2 ∧ ∀ es, l = Ok es → es = []) as [Hd Hes].
  { apply with_db_inv in Hl as [[e [= -> ->]]|[_ [Hl ->]%look_inv]]; [done|]. split; [done|].
    subst l. intros es [= <-]. destruct Hu as (_ & _ & Hc & _). by rewrite Hc. }
  assert (unfilled sw1) as Hu1. { unfold unfilled. by rewrite Hs1, Hd. }
  destruct l as [es|e]; [|by apply mret_inv in Hk as [_ <-]]. rewrite (Hes es) in Hk by done.
  apply mthen_inv in Hk as (u & sw2 & ->%modify_inv & Hk). by apply mret_inv in Hk as [_ <-].
Qed.

Lemma unfilled_Invalidate a sw r sw' : unfilled sw → Invalidate c a sw = (r, sw') → sw' = sw.
Proof.
  intros Hu (found & sw1 & [-> ->]%look_inv & Hk)%mthen_inv. rewrite (proj1 Hu), lookup_empty in Hk.
  by apply mret_inv in Hk as [_ <-].
Qed.

Definition cache_step (sw sw' : cstate * (shared_db * W)) : Prop := ∃ op, (run_op c op sw).2 = sw'.

Lemma unfilled_step sw sw' : cache_step sw sw' → unfilled sw → unfilled sw'.
Proof.
  intros [op Hop] Hu. destruct (run_op c op sw) as [u sw1] eqn:E. cbn [snd] in Hop. subst sw1.
  destruct op; cbn [run_op] in E;
    [apply mthen_inv in E as ([] & sw1 & E & [_ <-]%mret_inv); by apply unfilled_Lookup in E as [_ ?]
    |apply mthen_inv in E as ([] & sw1 & E & [_ <-]%mret_inv); by apply unfilled_Put in E as [_ ?]
    |by apply unfilled_Invalidate in E as ->
    |apply mthen_inv in E as (? & sw1 & E & [_ <-]%mret_inv); by eapply unfilled_Hydrate].
Qed.

(** The global cache is never filled.  A row of the cache refers to the table of artifacts,
    which nothing in the program writes (its [SaveArtifact] is not called): so, starting from
    empty tables, whatever the server does with the cache, every [Put] ends on an error and
    every [Lookup] is a miss. *)
Theorem cache_never_fills d w sw :
  artifacts d = ∅ → cache_entries d = ∅ → cache_blobs d = ∅ →
  rtc cache_step (NewCache, (d, w)) sw →
  ∀ a, (∀ data, (Put c a data sw).1.2 ≠ None) ∧ (Lookup c a sw).1.2 = CacheMiss.
Proof.
  intros Ha Hc Hb Hrun. assert (unfilled sw) as Hu.
  { assert (unfilled (NewCache, (d, w))) as Hu by done. clear Ha Hc Hb.
    induction Hrun; [done|eauto using unfilled_step]. }
  intros a. split.
  - intros data. destruct (Put c a data sw) as [[r err] sw'] eqn:E. by apply unfilled_Put in E as [? _].
  - destruct (Lookup c a sw) as [r sw'] eqn:E. by apply unfilled_Lookup in E as [? _].
Qed.
End store.

(** ** Witnesses *)

#[local] Instance texts : Database := {| violation := ErrorString "violates"; collate := String.leb |}.
#[local] Instance registry_order : MapOrder := canonical_order.
#[local] Instance shared_sha : Sha256 := λ s, s.
#[local] Instance shared_unicode : strings.GoUnicode := strings.ascii_unicode.

Definition no_tables : shared_db := mkSharedDB ∅ ∅ ∅ ∅ ∅.

(** A lookup and a [Put] of the artifact [go] before the next operations. *)
Definition go_artifact : Artifact := zero_Artifact <| Artifact_ID := "go@1.23.0" |> <| Checksum := hex_EncodeToString "go" |>.
Lemma cache_never_fills_witness :
  let cache := server_cache (W := unit) true (mret 0) in
  let sw := (run_op cache (OpPut go_artifact "go") (NewCache, (no_tables, tt))).2 in
  blobs sw.1 !! artifactKey go_artifact = Some "go" ∧
  (Put cache go_artifact "go" sw).1.2 ≠ None ∧ (Lookup cache go_artifact sw).1.2 = CacheMiss.
Proof.
  intros cache sw. split; [vm_compute; reflexivity|].
  assert (rtc (cache_step true (mret 0)) (NewCache, (no_tables, tt)) sw) as Hrun.
  { apply rtc_once. by exists (OpPut go_artifact "go"). }
  destruct (cache_never_fills true (mret 0) no_tables tt sw eq_refl eq_refl eq_refl Hrun go_artifact) as [Hp Hl].
  split; [apply Hp|exact Hl].
Defined.

(** A restart changes what a project gets.  The registry the server starts with the first
    time has the versions of [pnpm] in the order [DefaultRegistry] lists them; the second
    time it has them in the order of their texts, in which 10.0.0 comes before 9.15.0, and
    the first one of them is what ["latest-compatible"] resolves to.  The artifacts of the
    versions are gone, too. *)
Definition pnpm_of (r : result (gmap string Tool)) : option (string * string) :=
  match r with
  | Ok r => match Resolve r "pnpm" "latest-compatible" "linux" "amd64" with
            | Ok v => Some (Version v, Artifact_ID (Version_Artifact v))
            | Err _ => None
            end
  | Err _ => None
  end.
Theorem restart_changes_registry :
  let first := start_registry (W := unit) true (no_tables, tt) in
  let second := start_registry true first.2 in
  pnpm_of first.1 = Some ("9.15.0", "pnpm@9.15.0") ∧ pnpm_of second.1 = Some ("10.0.0", "").
Proof. split; vm_compute; reflexivity. Qed.
End sharedstore.
