(* ===== verification/ProductStore.v ===== *)
(** * The stores of knowledge and of the product experience

    [src/internal/knowledge/postgres.go] and [src/internal/productexperience/store.go], on
    the tables of [src/migrations/010_product_experience.sql] and
    [012_autonomous_loop_execution.sql]: the implementations of [knowledge.Store] and of
    [LoopStore] the server runs with.  What is kept as JSON is read back as it was, but for
    the data of a stage ([json_map]). *)

From stdpp Require Import relations.
From S2P Require Import Prelude GoStrings World Knowledge Constitution ProductExp ProductLoop PgBase.
Import knowledge productexperience productloop pg.

Module productstore.

#[global] Instance eta_Impact : Eta ImpactAnalysis := λ a,
  mkImpact (Impact_ProjectID a) (RootNode a) (Risk a) (Files a) (APIs a) (Components a) (Impact_Tests a)
    (Impact_Nodes a) (Impact_ApprovalRequired a) (Reasons a).

(** The tables.  A row of a context keeps the project, the agent and the task it was
    inserted with. *)
Record context_row := mkContextRow {
  CRow_ProjectID : string; CRow_AgentID : string; CRow_Task : string; CRow_Context : AgentContext }.
Record product_db := mkProductDB {
  projects : gset string;
  knowledge_nodes : gmap string Node;
  knowledge_edges : gmap string Edge;
  activities : gmap string Activity;
  contexts : gmap string context_row;
  impacts : gmap string ImpactAnalysis;
  loops : gmap string LoopExecution
}.
#[global] Instance eta_product_db : Eta product_db := λ d,
  mkProductDB (projects d) (knowledge_nodes d) (knowledge_edges d) (activities d) (contexts d) (impacts d) (loops d).

Section stores.
Context `{Database} `{Json} {W : Type} `{World W}.
(** Whether the store has a database. *)
Variable DB : bool.
Notation C A := (M (product_db * W) A).
Notation with_db := (pg.with_db DB).
(** A row is there, or its project is known. *)
Definition placed {A} (table : gmap string A) (id project : string) (d : product_db) : bool :=
  bool_decide (is_Some (table !! id)) || bool_decide (project ∈ projects d).

(** ** Knowledge *)

Definition no_knowledge : string := "knowledge database unavailable".

(** A node that is there keeps its project, its type and its creation. *)
Definition put_node (n : Node) (d : product_db) : product_db :=
  d <| knowledge_nodes := <[Node_ID n := match knowledge_nodes d !! Node_ID n with
         | Some x => x <| Node_Name := Node_Name n |> <| Node_Path := Node_Path n |>
                       <| Node_Attributes := Node_Attributes n |>
                       <| Node_UpdatedAt := timestamptz (Node_UpdatedAt n) |>
         | None => n <| Node_CreatedAt := timestamptz (Node_CreatedAt n) |>
                     <| Node_UpdatedAt := timestamptz (Node_UpdatedAt n) |>
         end]> (knowledge_nodes d) |>.
(* src: internal/knowledge/postgres.go:14-21 (PostgresStore.UpsertNode) *)
Definition pg_UpsertNode (n : Node) : C (Node * option goerror) :=
  with_db no_knowledge (λ e, (zero_Node, Some e))
    (let! err := execute (λ d, placed (knowledge_nodes d) (Node_ID n) (Node_ProjectID n) d) (put_node n) in
     mret (n, err)).

(** [UNIQUE(project_id,from_node,to_node,edge_type)] *)
Definition edge_key (e : Edge) : string * string * string * EdgeType :=
  (Edge_ProjectID e, From e, To e, Edge_Type e).
Definition same_edge (e : Edge) (d : product_db) : option Edge :=
  head (filter (λ x, edge_key x = edge_key e) (map_to_list (knowledge_edges d)).*2).
Definition put_edge (e : Edge) (d : product_db) : product_db :=
  match same_edge e d with
  | Some x => d <| knowledge_edges := <[Edge_ID x := x <| Edge_Attributes := Edge_Attributes e |>]> (knowledge_edges d) |>
  | None => d <| knowledge_edges := <[Edge_ID e := e <| Edge_CreatedAt := timestamptz (Edge_CreatedAt e) |>]> (knowledge_edges d) |>
  end.
Definition edge_allowed (e : Edge) (d : product_db) : bool :=
  match same_edge e d with
  | Some _ => true
  | None => bool_decide (knowledge_edges d !! Edge_ID e = None) && bool_decide (Edge_ProjectID e ∈ projects d) &&
      bool_decide (is_Some (knowledge_nodes d !! From e)) && bool_decide (is_Some (knowledge_nodes d !! To e))
  end.
(** The identifier and the creation are those of the row. *)
(* src: internal/knowledge/postgres.go:22-29 (PostgresStore.UpsertEdge) *)
Definition pg_UpsertEdge (e : Edge) : C (Edge * option goerror) :=
  with_db no_knowledge (λ x, (zero_Edge, Some x))
    (let! err := execute (edge_allowed e) (put_edge e) in
     match err with
     | Some _ => mret (e, err)
     | None =>
         let! row := look (same_edge e) in
         mret (match row with
               | Some x => e <| Edge_ID := Edge_ID x |> <| Edge_CreatedAt := Edge_CreatedAt x |>
               | None => e
               end, None)
     end).

Definition by_id {A} (id : A → string) (a b : A) : bool := collate (id a) (id b).
Definition pg_graph (project : string) (d : product_db) : Graph :=
  mkGraph project
    (sort_by (by_id Node_ID) (filter (λ n, Node_ProjectID n = project) (map_to_list (knowledge_nodes d)).*2))
    (sort_by (by_id Edge_ID) (filter (λ e, Edge_ProjectID e = project) (map_to_list (knowledge_edges d)).*2)).
(* src: internal/knowledge/postgres.go:30-65 (PostgresStore.Graph) *)
Definition pg_Graph (project : string) : C (Graph * option goerror) :=
  with_db no_knowledge (λ x, (zero_Graph, Some x)) (look (λ d, (pg_graph project d, None))).

(** One row for each edge. *)
Definition pg_neighbors (project id : string) (typ : EdgeType) (d : product_db) : list Node :=
  sort_by (by_id Node_ID)
    (filter (λ n, Node_ProjectID n = project)
      (omap (λ e, knowledge_nodes d !! To e)
        (filter (λ e, Edge_ProjectID e = project ∧ From e = id ∧ (typ = EdgeTypeOther "" ∨ Edge_Type e = typ))
          (map_to_list (knowledge_edges d)).*2))).
(* src: internal/knowledge/postgres.go:66-93 (PostgresStore.Neighbors) *)
Definition pg_Neighbors (project id : string) (typ : EdgeType) : C (list Node * option goerror) :=
  with_db no_knowledge (λ x, ([], Some x)) (look (λ d, (pg_neighbors project id typ d, None))).
(* src: internal/knowledge/postgres.go:12-12 (PostgresStore) *)
Definition pg_knowledge : knowledge.Store (product_db * W) :=
  knowledge.mkStore pg_UpsertNode pg_UpsertEdge pg_Graph pg_Neighbors.

(** ** Activities, contexts and impacts *)

Definition no_product : string := "product experience database unavailable".

Definition put_activity (a : Activity) (d : product_db) : product_db :=
  d <| activities := <[Activity_ID a := match activities d !! Activity_ID a with
         | Some x => x <| Activity_State := Activity_State a |> <| Activity_Message := Activity_Message a |>
                       <| Progress := Progress a |> <| Data := json_map (Data a) |>
         | None => a <| Data := json_map (Data a) |> <| Timestamp := timestamptz (Timestamp a) |>
         end]> (activities d) |>.
(* src: internal/productexperience/store.go:14-21 (PostgresStore.SaveActivity) *)
Definition SaveActivity (a : Activity) : C (option goerror) :=
  with_db no_product Some (execute
    (λ d, match Progress a with Some p => int4 p | None => true end &&
          placed (activities d) (Activity_ID a) (Activity_ProjectID a) d)
    (put_activity a)).

(* src: internal/productexperience/store.go:22-29 (PostgresStore.SaveContext) *)
Definition SaveContext (id : string) (c : AgentContext) : C (option goerror) :=
  let project := constitution.Constitution_ProjectID (ProjectPolicy c) in
  with_db no_product Some (execute (λ d, placed (contexts d) id project d)
    (λ d, d <| contexts := <[id := match contexts d !! id with
       | Some r => mkContextRow (CRow_ProjectID r) (CRow_AgentID r) (CRow_Task r) c
       | None => mkContextRow project (constitution.Constitution_AgentID (ProjectPolicy c)) (Context_Task c) c
       end]> (contexts d) |>)).

(* src: internal/productexperience/store.go:30-42 (PostgresStore.SaveImpact) *)
Definition SaveImpact (id : string) (a : ImpactAnalysis) : C (option goerror) :=
  with_db no_product Some (execute
    (λ d, bool_decide (impacts d !! id = None) && bool_decide (Impact_ProjectID a ∈ projects d))
    (λ d, d <| impacts := <[id := a]> (impacts d) |>)).

(** ** The loop *)

Definition loop_at (d : product_db) (id : string) : option LoopExecution := loops d !! id.
(** What is kept of the results. *)
Definition kept_results (e : LoopExecution) : gmap string LoopStageResult :=
  (λ r, r <| Result_Data := json_map (Result_Data r) |>) <$> Results e.
(** The row of a loop keeps its project, its goal and its creation. *)
Definition put_loop (created updated : Z) (e : LoopExecution) (d : product_db) : product_db :=
  let p := Execution_Plan e in
  d <| loops := <[Plan_ID p :=
         let row := mkExecution (p <| Plan_CreatedAt := timestamptz created |>) (CurrentStage e) (kept_results e)
                      (Error e) (timestamptz updated) in
         match loop_at d (Plan_ID p) with
         | Some x => row <| Execution_Plan := p <| Goal := Goal (Execution_Plan x) |>
                       <| Plan_ProjectID := Plan_ProjectID (Execution_Plan x) |>
                       <| Plan_CreatedAt := Plan_CreatedAt (Execution_Plan x) |> |>
         | None => row
         end]> (loops d) |>.
(* src: internal/productexperience/store.go:47-65 (PostgresStore.SaveLoopExecution) *)
Definition pg_SaveLoopExecution (e : LoopExecution) : C (option goerror) :=
  let p := Execution_Plan e in
  with_db no_product Some
    (let! created := (if IsZero (Plan_CreatedAt p) then outside time_Now else mret (Plan_CreatedAt p)) in
     let updated := if IsZero (UpdatedAt e) then created else UpdatedAt e in
     execute (λ d, placed (loops d) (Plan_ID p) (Plan_ProjectID p) d) (put_loop created updated e)).
(* src: internal/productexperience/store.go:43-46 (PostgresStore.SaveLoop) *)
Definition pg_SaveLoop (l : LoopPlan) : C (option goerror) :=
  pg_SaveLoopExecution (mkExecution l "" ∅ "" (Plan_CreatedAt l)).
Definition loop_or_error (id : string) (d : product_db) : LoopExecution * option goerror :=
  match loop_at d id with
  | Some e => (e, None)
  | None => (zero_Execution, Some (ErrorString "no rows in result set"))
  end.
(* src: internal/productexperience/store.go:66-92 (PostgresStore.GetLoopExecution) *)
Definition pg_GetLoopExecution (id : string) : C (LoopExecution * option goerror) :=
  with_db no_product (λ x, (zero_Execution, Some x)) (look (loop_or_error id)).
(** Executions of the same time come in any order. *)
(* src: internal/productexperience/store.go:93-115 (PostgresStore.ListRunnableLoopExecutions) *)
Definition pg_ListRunnable : C (list LoopExecution * option goerror) :=
  with_db no_product (λ x, ([], Some x)) (look (λ d,
    (sort_by (λ a b, UpdatedAt a <? UpdatedAt b)
       (filter (λ e, Status e ∈ ["RUNNING"; "BLOCKED"]) (map_to_list (loops d)).*2), None))).
(* src: internal/productexperience/store.go:12-12 (PostgresStore) *)
Definition pg_loops : LoopStore (product_db * W) :=
  mkLoopStore pg_SaveLoopExecution pg_GetLoopExecution pg_ListRunnable.

(** ** The tables of knowledge *)

(** Rows are filed under their identifiers, an edge joins nodes that are there, and there is
    one edge of a type from a node to another in a project. *)
Record knowledge_ok (d : product_db) : Prop := {
  kn_nodes : ∀ k n, knowledge_nodes d !! k = Some n → Node_ID n = k;
  kn_edges : ∀ k e, knowledge_edges d !! k = Some e → Edge_ID e = k;
  kn_ends : ∀ k e, knowledge_edges d !! k = Some e →
    is_Some (knowledge_nodes d !! From e) ∧ is_Some (knowledge_nodes d !! To e);
  kn_unique : ∀ k1 e1 k2 e2, knowledge_edges d !! k1 = Some e1 → knowledge_edges d !! k2 = Some e2 →
    edge_key e1 = edge_key e2 → k1 = k2
}.

Lemma same_edge_Some e d x : same_edge e d = Some x →
  (∃ k, knowledge_edges d !! k = Some x) ∧ edge_key x = edge_key e.
Proof.
  unfold same_edge. intros Hx%head_Some_elem_of. apply list_elem_of_filter in Hx as [Hk Hx].
  by apply elem_of_rows in Hx.
Qed.
Lemma same_edge_None e d k x : same_edge e d = None → knowledge_edges d !! k = Some x → edge_key x ≠ edge_key e.
Proof.
  unfold same_edge. intros Hn%head_None Hx Hk.
  assert (x ∈ filter (λ x, edge_key x = edge_key e) (map_to_list (knowledge_edges d)).*2) as Hin.
  { apply list_elem_of_filter. split; [done|]. apply elem_of_rows. by exists k. }
  rewrite Hn in Hin. by apply elem_of_nil in Hin.
Qed.

Lemma put_node_ok n d : knowledge_ok d → knowledge_ok (put_node n d).
Proof.
  intros [Hn He Hends Hu]. split; cbn [put_node knowledge_nodes knowledge_edges set_field].
  - intros k x. rewrite lookup_insert. case_decide as Hk; [|apply Hn]. subst k. intros [= <-].
    destruct (knowledge_nodes d !! Node_ID n) as [y|] eqn:Hy; [|done]. apply (Hn _ _ Hy).
  - apply He.
  - intros k e [Ha Hb]%Hends. rewrite !lookup_insert. split; by case_decide.
  - apply Hu.
Qed.

Lemma put_edge_ok e d : edge_allowed e d = true → knowledge_ok d → knowledge_ok (put_edge e d).
Proof.
  unfold edge_allowed, put_edge. intros Hal [Hn He Hends Hu]. destruct (same_edge e d) as [x|] eqn:Hs.
  - apply same_edge_Some in Hs as [[k Hk] _]. pose proof (He _ _ Hk) as Hid. subst k.
    split; cbn [knowledge_nodes knowledge_edges set_field]; [done|..].
    + intros k y. rewrite lookup_insert. case_decide; [by intros [= <-]|apply He].
    + intros k y. rewrite lookup_insert. case_decide; [intros [= <-]; apply (Hends _ _ Hk)|apply Hends].
    + intros k1 e1 k2 e2. rewrite !lookup_insert.
      case_decide as Hc1; case_decide as Hc2; intros He1 He2; simplify_eq; [done|..|by eapply Hu].
      * intros Heq. by eapply (Hu _ _ _ _ Hk He2).
      * intros Heq. by eapply (Hu _ _ _ _ He1 Hk).
  - apply andb_true_iff in Hal as [Hal Hto%bool_decide_eq_true]. apply andb_true_iff in Hal as [Hal Hfrom%bool_decide_eq_true].
    apply andb_true_iff in Hal as [Hfree%bool_decide_eq_true _].
    split; cbn [knowledge_nodes knowledge_edges set_field]; [done|..].
    + intros k y. rewrite lookup_insert. case_decide; [by intros [= <-]|apply He].
    + intros k y. rewrite lookup_insert. case_decide; [by intros [= <-]|apply Hends].
    + intros k1 e1 k2 e2. rewrite !lookup_insert.
      case_decide as Hc1; case_decide as Hc2; intros He1 He2; simplify_eq; [done|..|by eapply Hu].
      * intros Heq. by destruct (same_edge_None _ _ _ _ Hs He2).
      * intros Heq. by destruct (same_edge_None _ _ _ _ Hs He1).
Qed.

Inductive knowledge_step : relation product_db :=
  | step_node n d w r d' w' : pg_UpsertNode n (d, w) = (r, (d', w')) → knowledge_step d d'
  | step_edge e d w r d' w' : pg_UpsertEdge e (d, w) = (r, (d', w')) → knowledge_step d d'.

Lemma UpsertNode_keeps n : keeps knowledge_ok (pg_UpsertNode n).
Proof.
  unfold pg_UpsertNode, pg.with_db. keep_state. apply keeps_execute. intros d Hok _. by apply put_node_ok.
Qed.
Lemma UpsertEdge_keeps e : keeps knowledge_ok (pg_UpsertEdge e).
Proof.
  unfold pg_UpsertEdge, pg.with_db. keep_state. apply keeps_execute. intros d Hok Ha. by apply put_edge_ok.
Qed.
Lemma knowledge_reachable_ok d d' : rtc knowledge_step d d' → knowledge_ok d → knowledge_ok d'.
Proof.
  induction 1 as [|d d1 d' Hstep _ IH]; [done|]. intros Hok. apply IH.
  destruct Hstep as [n d w r d1 w1 Hs|e d w r d1 w1 Hs]; [apply (UpsertNode_keeps n _ _ _ Hs Hok)|apply (UpsertEdge_keeps e _ _ _ Hs Hok)].
Qed.
End stores.

(** ** The tables and the store in memory *)

(** Two lists in the strict order of their keys are equal when they have the same elements. *)
Lemma sorted_keys_unique {A} (key : A → string) l l' :
  StronglySorted (λ a b, String.ltb a b = true) (key <$> l) →
  StronglySorted (λ a b, String.ltb a b = true) (key <$> l') → (∀ x, x ∈ l ↔ x ∈ l') → l = l'.
Proof.
  assert (∀ k : string, String.ltb k k ≠ true) as Hirr.
  { intros k Hk. by pose proof (ltb_asym k k Hk) as Hk2; rewrite Hk in Hk2. }
  revert l'. induction l as [|a l IH]; intros [|b l']; rewrite ?fmap_nil, ?fmap_cons; intros Hl Hl' Heq; [done|..].
  { destruct (proj1 (elem_of_nil b)). apply Heq. by left. }
  { destruct (proj1 (elem_of_nil a)). apply Heq. by left. }
  apply StronglySorted_inv in Hl as [Hl Ha]. apply StronglySorted_inv in Hl' as [Hl' Hb].
  rewrite Forall_fmap, Forall_forall in Ha, Hb.
  assert (a = b) as <-.
  { assert (a ∈ b :: l') as [|Hab]%elem_of_cons by (apply Heq; by left); [done|].
    assert (b ∈ a :: l) as [|Hba]%elem_of_cons by (apply Heq; by left); [done|].
    apply Hb in Hab. apply Ha in Hba. apply ltb_asym in Hab. unfold compose in *. congruence. }
  f_equal. apply IH; [done..|]. intros x. specialize (Heq x). rewrite !elem_of_cons in Heq. split; intros Hx.
  - destruct (proj1 Heq (or_intror Hx)) as [->|]; [|done]. by destruct (Hirr _ (Ha _ Hx)).
  - destruct (proj2 Heq (or_intror Hx)) as [->|]; [|done]. by destruct (Hirr _ (Hb _ Hx)).
Qed.

Lemma sorted_filter {A} (P : A → Prop) `{∀ x, Decision (P x)} (key : A → string) l :
  StronglySorted (λ a b, String.ltb a b = true) (key <$> l) →
  StronglySorted (λ a b, String.ltb a b = true) (key <$> filter P l).
Proof.
  induction l as [|a l IH]; [done|]. rewrite fmap_cons, filter_cons. intros [Hl Ha]%StronglySorted_inv.
  case_decide; [|by apply IH]. rewrite fmap_cons. constructor; [by apply IH|].
  rewrite Forall_fmap, Forall_forall in Ha |- *. intros x [_ Hx]%list_elem_of_filter. by apply Ha.
Qed.

(** Rows that are filed under their identifiers have different ones. *)
Lemma rows_keys {A} (key : A → string) (m : gmap string A) : (∀ k x, m !! k = Some x → key x = k) →
  NoDup (key <$> (map_to_list m).*2).
Proof.
  intros Hf. assert (key <$> (map_to_list m).*2 = (map_to_list m).*1) as ->; [|apply NoDup_fst_map_to_list].
  rewrite <-list_fmap_compose. apply list_fmap_ext. intros i [k x] Hi. cbn. apply Hf.
  apply elem_of_map_to_list. by eapply list_elem_of_lookup_2.
Qed.

Section agreement.
Context `{Database} `{MapOrder}.
(** The database compares identifiers byte by byte. *)
Hypothesis Hcollate : collate = String.ltb.

Definition as_memory (d : product_db) : MemoryStore := mkMemory (knowledge_nodes d) (knowledge_edges d).

Lemma NoDup_filter_keys {A} (P : A → Prop) `{∀ x, Decision (P x)} (key : A → string) l :
  NoDup (key <$> l) → NoDup (key <$> filter P l).
Proof. intros Hn. eapply sublist_NoDup; [exact Hn|apply fmap_sublist, sublist_filter]. Qed.

Lemma part_agrees {A} (P : A → Prop) `{∀ x, Decision (P x)} (key : A → string) n (m : gmap string A) :
  (∀ k x, m !! k = Some x → key x = k) →
  sort_by (by_id key) (filter P (map_to_list m).*2) =
  sort_by (λ a b, String.ltb (key a) (key b)) (filter P (map_range n m).*2).
Proof using Hcollate.
  intros Hf. unfold by_id. rewrite Hcollate. apply (sorted_keys_unique key).
  - apply sorted_ids, NoDup_filter_keys, rows_keys, Hf.
  - apply sorted_ids, filed_keys, Hf.
  - intros x. rewrite !elem_of_sort_by, (elem_of_filed key), list_elem_of_filter, elem_of_rows by done. split.
    + intros (HP & k & Hx). by rewrite (Hf _ _ Hx).
    + intros [Hx HP]. split; [done|by eexists].
Qed.

Lemma graph_agrees p d : knowledge_ok d → pg_graph p d = graph_of (as_memory d) p.
Proof using Hcollate.
  intros [Hn He _ _]. unfold pg_graph, graph_of. f_equal; by apply part_agrees.
Qed.

Lemma elem_of_pg_neighbors p id typ d n : knowledge_ok d →
  n ∈ pg_neighbors p id typ d ↔ n ∈ neighbors_of (as_memory d) p id typ.
Proof using Hcollate.
  intros Hok. unfold pg_neighbors, neighbors_of. rewrite <-graph_agrees by done. cbn [Nodes Edges pg_graph].
  rewrite elem_of_sort_by, !list_elem_of_filter, list_elem_of_omap, elem_of_sort_by, list_elem_of_filter, elem_of_rows,
    elem_of_list_to_set, list_elem_of_fmap.
  setoid_rewrite list_elem_of_filter. setoid_rewrite elem_of_sort_by. setoid_rewrite list_elem_of_filter.
  split.
  - intros (Hp & e & ((Hpe & Hf & Ht) & He) & Hn). pose proof (kn_nodes _ Hok _ _ Hn) as Hid.
    split_and!; [|done|by eexists]. exists e. by split_and!.
  - intros ((e & Hto & (Hf & Ht) & Hpe & He) & Hp & k & Hn). split; [done|].
    exists e. pose proof (kn_nodes _ Hok _ _ Hn) as Hid. by rewrite <-Hto, Hid.
Qed.

(** With a type there is one edge from a node to another. *)
Lemma pg_neighbors_once p id typ d : knowledge_ok d → typ ≠ EdgeTypeOther "" →
  NoDup (Node_ID <$> pg_neighbors p id typ d).
Proof.
  intros Hok Htyp. unfold pg_neighbors. rewrite (fmap_Permutation Node_ID _ _ (sort_by_perm _ _)).
  apply NoDup_filter_keys.
  set (l := filter _ (map_to_list (knowledge_edges d)).*2).
  assert (∀ e, e ∈ l → ∃ n, knowledge_nodes d !! To e = Some n ∧ Node_ID n = To e) as Hl.
  { intros e [_ [k He]%elem_of_rows]%list_elem_of_filter. destruct (kn_ends _ Hok _ _ He) as [_ [n Hn]].
    exists n. split; [done|apply (kn_nodes _ Hok _ _ Hn)]. }
  assert (NoDup (To <$> l)) as Hnd.
  { apply NoDup_fmap_2_strong; [|eapply NoDup_fmap_1, NoDup_filter_keys, rows_keys, Hok].
    intros e1 e2 [(Hp1 & Hf1 & Ht1) [k1 He1]%elem_of_rows]%list_elem_of_filter
      [(Hp2 & Hf2 & Ht2) [k2 He2]%elem_of_rows]%list_elem_of_filter Hto.
    assert (k1 = k2) as <-; [|congruence].
    apply (kn_unique _ Hok _ _ _ _ He1 He2). unfold edge_key.
    destruct Ht1 as [|Ht1]; [done|]. destruct Ht2 as [|Ht2]; [done|]. congruence. }
  revert Hl Hnd. generalize l as l'. induction l' as [|e l' IH]; [intros; constructor|].
  intros Hl. rewrite fmap_cons. intros [He Hnd]%NoDup_cons.
  destruct (Hl e) as (n & Hn & Hid); [by left|]. cbn [omap list_omap]. rewrite Hn, fmap_cons, Hid.
  apply NoDup_cons. split; [|apply IH; [|done]; intros x Hx; apply Hl; by right].
  rewrite list_elem_of_fmap. intros (m & Hm & (e2 & He2 & Hm2)%list_elem_of_omap).
  apply He. destruct (Hl e2) as (m' & Hm' & Hid2); [by right|]. rewrite Hm2 in Hm'. injection Hm' as <-.
  rewrite Hm, Hid2. by apply list_elem_of_fmap_2.
Qed.

Lemma neighbors_agree p id typ d : knowledge_ok d → typ ≠ EdgeTypeOther "" →
  pg_neighbors p id typ d = neighbors_of (as_memory d) p id typ.
Proof using Hcollate.
  intros Hok Htyp. apply (sorted_keys_unique Node_ID).
  - pose proof (pg_neighbors_once p id typ d Hok Htyp) as Hnd. unfold pg_neighbors in Hnd |- *.
    rewrite (fmap_Permutation Node_ID _ _ (sort_by_perm _ _)) in Hnd. unfold by_id. rewrite Hcollate.
    by apply sorted_ids.
  - apply sorted_filter. apply sorted_ids, filed_keys, (kn_nodes _ Hok).
  - intros n. by apply elem_of_pg_neighbors.
Qed.

(** *** Up to the times

    The store in memory takes the times of its own clock, the tables those of the node or
    the edge: what they keep is compared without them. *)

Definition timeless (n : Node) : Node := n <| Node_CreatedAt := 0 |> <| Node_UpdatedAt := 0 |>.
Definition timeless_edge (e : Edge) : Edge := e <| Edge_CreatedAt := 0 |>.
Definition timeless_graph (g : Graph) : Graph :=
  mkGraph (Graph_ProjectID g) (timeless <$> Nodes g) (timeless_edge <$> Edges g).
Definition timeless_store (s : MemoryStore) : MemoryStore :=
  mkMemory (timeless <$> nodes s) (timeless_edge <$> edges s).

(** What is listed of a table, mapped, is what is listed of the mapped table. *)
Lemma part_fmap {A} (f : A → A) (P : A → Prop) `{∀ x, Decision (P x)} (key : A → string) n (m : gmap string A) :
  (∀ k x, m !! k = Some x → key x = k) → (∀ x, key (f x) = key x) → (∀ x, P (f x) ↔ P x) →
  sort_by (λ a b, String.ltb (key a) (key b)) (filter P (map_range n (f <$> m)).*2) =
  f <$> sort_by (λ a b, String.ltb (key a) (key b)) (filter P (map_range n m).*2).
Proof.
  intros Hf Hkey HP.
  assert (∀ k x, (f <$> m) !! k = Some x → key x = k) as Hf'.
  { intros k x. rewrite lookup_fmap. intros (y & Hy & ->)%fmap_Some. rewrite Hkey. by apply Hf. }
  apply (sorted_keys_unique key).
  - apply sorted_ids, filed_keys, Hf'.
  - rewrite <-list_fmap_compose. rewrite (list_fmap_ext (key ∘ f) key) by (intros; apply Hkey).
    apply sorted_ids, filed_keys, Hf.
  - intros x. rewrite elem_of_sort_by, (elem_of_filed key), lookup_fmap, list_elem_of_fmap by done.
    setoid_rewrite elem_of_sort_by. setoid_rewrite (elem_of_filed key); [|done]. split.
    + intros [(y & Hy & ->)%fmap_Some HPx]. exists y. rewrite Hkey in Hy. by rewrite <-HP.
    + intros (y & -> & Hy & HPy). rewrite Hkey, Hy. by rewrite HP.
Qed.

Definition filed_store (s : MemoryStore) : Prop :=
  (∀ k n, nodes s !! k = Some n → Node_ID n = k) ∧ (∀ k e, edges s !! k = Some e → Edge_ID e = k).

Lemma timeless_graph_of s p : filed_store s → graph_of (timeless_store s) p = timeless_graph (graph_of s p).
Proof.
  intros [Hn He]. unfold graph_of, timeless_graph. cbn [nodes edges timeless_store Graph_ProjectID Nodes Edges].
  f_equal; by apply part_fmap.
Qed.
Lemma filter_fmap {A B} (f : A → B) (P : B → Prop) `{∀ x, Decision (P x)} (l : list A) :
  filter P (f <$> l) = f <$> filter (λ x, P (f x)) l.
Proof.
  induction l as [|x l IH]; [done|]. rewrite fmap_cons, !filter_cons, IH. by repeat case_decide.
Qed.
Lemma timeless_neighbors_of s p id typ : filed_store s →
  neighbors_of (timeless_store s) p id typ = timeless <$> neighbors_of s p id typ.
Proof.
  intros Hs. unfold neighbors_of. rewrite timeless_graph_of by done. cbn [Nodes Edges timeless_graph].
  by rewrite !filter_fmap, <-list_fmap_compose.
Qed.

(** Two stores that agree up to the times answer the same up to the times. *)
Lemma agree_answers s1 s2 p id typ : filed_store s1 → filed_store s2 → timeless_store s1 = timeless_store s2 →
  timeless_graph (graph_of s1 p) = timeless_graph (graph_of s2 p) ∧
  timeless <$> neighbors_of s1 p id typ = timeless <$> neighbors_of s2 p id typ.
Proof.
  intros H1 H2 Heq. rewrite <-!timeless_graph_of, <-!timeless_neighbors_of by done. by rewrite Heq.
Qed.

(** *** The same writes on both *)

Inductive upsert := PutNode (n : Node) | PutEdge (e : Edge).
(** The writes in order, with the errors they are answered with. *)
Fixpoint all_upserts {V} (store : knowledge.Store V) (ops : list upsert) : M V (list (option goerror)) :=
  match ops with
  | [] => mret []
  | op :: ops =>
      let! err := match op with
        | PutNode n => let! (_, err) := UpsertNode store n in mret err
        | PutEdge e => let! (_, err) := UpsertEdge store e in mret err
        end in
      let! errs := all_upserts store ops in
      mret (err :: errs)
  end.

(** What is written is complete and of a known project; a node keeps its project and its
    type, and edges have the same identifier when they join the same nodes in the same way. *)
Record consistent (ps : gset string) (ops : list upsert) : Prop := {
  cs_node n : PutNode n ∈ ops → node_complete n ∧ Node_ProjectID n ∈ ps;
  cs_edge e : PutEdge e ∈ ops → edge_complete e ∧ Edge_ProjectID e ∈ ps;
  cs_nodes n1 n2 : PutNode n1 ∈ ops → PutNode n2 ∈ ops → Node_ID n1 = Node_ID n2 →
    Node_ProjectID n1 = Node_ProjectID n2 ∧ Node_Type n1 = Node_Type n2;
  cs_edges e1 e2 : PutEdge e1 ∈ ops → PutEdge e2 ∈ ops →
    (Edge_ID e1 = Edge_ID e2 ↔ edge_key e1 = edge_key e2)
}.

(** The tables and the store in memory after the same writes, of which the rows come. *)
Record in_step (ops : list upsert) (d : product_db) (st : MemoryStore) : Prop := {
  is_tables : knowledge_ok d;
  is_memory : memory_ok st;
  is_same : timeless_store (as_memory d) = timeless_store st;
  is_nodes k n : knowledge_nodes d !! k = Some n → ∃ n', PutNode n' ∈ ops ∧
    Node_ID n' = Node_ID n ∧ Node_ProjectID n' = Node_ProjectID n ∧ Node_Type n' = Node_Type n;
  is_edges k e : knowledge_edges d !! k = Some e → ∃ e', PutEdge e' ∈ ops ∧
    Edge_ID e' = Edge_ID e ∧ edge_key e' = edge_key e
}.

Lemma same_nodes d st : timeless_store (as_memory d) = timeless_store st →
  ∀ k, timeless <$> knowledge_nodes d !! k = timeless <$> nodes st !! k.
Proof. intros [= Hn _] k. by rewrite <-!lookup_fmap, Hn. Qed.
Lemma same_nodes_there d st k : timeless_store (as_memory d) = timeless_store st →
  is_Some (knowledge_nodes d !! k) ↔ is_Some (nodes st !! k).
Proof.
  intros Heq. pose proof (same_nodes d st Heq k) as Hk.
  destruct (knowledge_nodes d !! k), (nodes st !! k); by split; intros [].
Qed.

Lemma node_in_step {W V} now ops n d (w : W) err d' w' st (v : V) err2 st' v' :
  consistent (projects d) ops → PutNode n ∈ ops → in_step ops d st →
  pg_UpsertNode true n (d, w) = (err, (d', w')) →
  memory_UpsertNode now n (st, v) = (err2, (st', v')) →
  err.2 = None ∧ err2.2 = None ∧ in_step ops d' st' ∧ projects d' = projects d.
Proof.
  intros Hc Hin Hs Hpg Hmem. destruct (cs_node _ _ Hc n Hin) as [Hcomp Hproj].
  destruct err2 as [r err2].
  pose proof (memory_UpsertNode_complete _ _ _ _ _ _ _ _ Hcomp Hmem) as ->.
  assert (memory_ok st') as Hok' by (eapply store_step_ok, (is_memory _ _ _ Hs); by econstructor).
  apply UpsertNode_ok in Hmem as (_ & t & -> & ->).
  apply mthen_inv in Hpg as (e & sw & Hx & Hk). apply mret_inv in Hk as [<- ->].
  apply execute_inv in Hx as (-> & [(_ & -> & ->)|(Hno & _)]).
  2: { unfold placed in Hno. by rewrite (bool_decide_eq_true_2 _ Hproj), orb_true_r in Hno. }
  split; [done|]. split; [done|]. split; [|done].
  destruct Hs as [Hok Hmok Hsame Hn He]. split; [by apply put_node_ok|done| | |exact He].
  - unfold timeless_store, as_memory in *. injection Hsame as Hsn Hse.
    cbn [put_node knowledge_nodes knowledge_edges nodes edges set_field]. rewrite Hse, !fmap_insert, Hsn. do 2 f_equal.
    destruct (knowledge_nodes d !! Node_ID n) as [x|] eqn:Hx; [|done].
    destruct (Hn _ _ Hx) as (n' & Hin' & Hid & Hp & Ht). pose proof (kn_nodes _ Hok _ _ Hx) as Hxid.
    destruct (cs_nodes _ _ Hc n n' Hin Hin') as [Hpp Htt]; [congruence|].
    destruct n, x. cbn in *. unfold timeless. cbn. congruence.
  - intros k y. cbn [put_node knowledge_nodes set_field]. rewrite lookup_insert. case_decide; [|apply Hn].
    intros [= <-]. destruct (knowledge_nodes d !! Node_ID n) as [x|] eqn:Hx; [|by exists n].
    destruct (Hn _ _ Hx) as (n' & Hin' & Hid & Hp & Ht). by exists n'.
Qed.

Lemma memory_edge_accepted {V} now e st (v : V) : edge_complete e →
  (memory_UpsertEdge now e (st, v)).1.2 = None ↔ is_Some (nodes st !! From e) ∧ is_Some (nodes st !! To e).
Proof.
  intros Hc. unfold memory_UpsertEdge. rewrite decide_True by done. unfold mthen, look, inside, modify, outside, mret.
  cbn [fst snd]. destruct (nodes st !! From e), (nodes st !! To e); cbn [fst snd].
  2-4: split; [done|by intros [[? [=]] [? [=]]]].
  destruct (edges st !! Edge_ID e); cbn; [|destruct (now v)]; (split; [by split; eexists|done]).
Qed.

Lemma edge_in_step {W V} now ops e d (w : W) err d' w' st (v : V) err2 st' v' :
  consistent (projects d) ops → PutEdge e ∈ ops → in_step ops d st →
  pg_UpsertEdge true e (d, w) = (err, (d', w')) →
  memory_UpsertEdge now e (st, v) = (err2, (st', v')) →
  (err.2 = None ↔ err2.2 = None) ∧ in_step ops d' st' ∧ projects d' = projects d.
Proof.
  intros Hc Hin Hs Hpg Hmem. destruct (cs_edge _ _ Hc e Hin) as [Hcomp Hproj].
  pose proof (memory_edge_accepted now e st v Hcomp) as Hacc. rewrite Hmem in Hacc. cbn [fst] in Hacc.
  assert (memory_ok st') as Hok' by (eapply store_step_ok, (is_memory _ _ _ Hs); by econstructor).
  destruct err2 as [r err2]. apply UpsertEdge_inv in Hmem.
  destruct Hs as [Hok Hmok Hsame Hn He].
  assert (edge_allowed e d = true ↔ is_Some (nodes st !! From e) ∧ is_Some (nodes st !! To e)) as Hal.
  { rewrite <-!(same_nodes_there d st) by done. unfold edge_allowed.
    destruct (same_edge e d) as [x|] eqn:Hx.
    - apply same_edge_Some in Hx as [[k Hk] Hkey]. split; [intros _|done].
      destruct (kn_ends _ Hok _ _ Hk) as [Hf Ht]. unfold edge_key in Hkey. split; congruence.
    - rewrite !andb_true_iff, !bool_decide_eq_true. split; [tauto|]. intros [Hf Ht]. split_and!; try done.
      destruct (knowledge_edges d !! Edge_ID e) as [y|] eqn:Hy; [|done].
      destruct (He _ _ Hy) as (e' & Hin' & Hid & Hkey). pose proof (kn_edges _ Hok _ _ Hy) as Hyid.
      destruct (same_edge_None _ _ _ _ Hx Hy). rewrite <-Hkey.
      apply (cs_edges _ _ Hc e' e Hin' Hin). congruence. }
  assert (err.2 = None ∧ edge_allowed e d = true ∧ d' = put_edge e d ∨
          err.2 ≠ None ∧ edge_allowed e d = false ∧ d' = d) as Hd.
  { apply mthen_inv in Hpg as (x & [d1 w1] & Hx & Hk).
    apply execute_inv in Hx as (-> & [(Ha & -> & ->)|(Ha & -> & ->)]).
    - left. apply mthen_inv in Hk as (row & sw & [_ ->]%look_inv & Hk). apply mret_inv in Hk as [<- [= <- _]].
      split; [done|]. by split.
    - right. apply mret_inv in Hk as [<- [= <- _]]. by split_and!. }
  destruct Hd as [(Herr & Ha & ->)|(Herr & Ha & ->)].
  - pose proof (proj2 Hacc (proj1 Hal Ha)) as Herr2. cbn [snd] in Herr2. subst err2.
    destruct Hmem as (_ & _ & _ & t & -> & ->). split; [done|].
    split; [|unfold put_edge; by destruct (same_edge e d)].
    split; [by apply put_edge_ok|done| | |].
    + unfold timeless_store, as_memory in *. injection Hsame as Hsn Hse. cbn [nodes edges set_field] in *.
      unfold put_edge. destruct (same_edge e d) as [x|] eqn:Hx; cbn [knowledge_nodes knowledge_edges set_field];
        rewrite Hsn, !fmap_insert, Hse; [|done].
      apply same_edge_Some in Hx as [[k Hk] Hkey]. destruct (He _ _ Hk) as (e' & Hin' & Hid & Hkey').
      assert (Edge_ID e' = Edge_ID e) as Hide by (apply (cs_edges _ _ Hc e' e Hin' Hin); congruence).
      unfold edge_key in Hkey. destruct e, x. cbn in *. unfold timeless_edge. cbn. do 2 f_equal; [congruence|].
      f_equal; congruence.
    + unfold put_edge. by destruct (same_edge e d).
    + intros k y. unfold put_edge. destruct (same_edge e d) as [x|] eqn:Hx; cbn [knowledge_edges set_field];
        rewrite lookup_insert; case_decide; try apply He; intros [= <-]; [|by exists e].
      apply same_edge_Some in Hx as [[k' Hk] _]. by apply (He _ _ Hk).
  - assert (err2 ≠ None) as Herr2.
    { intros Hno. apply Hacc, Hal in Hno. congruence. }
    destruct err2 as [x|]; [|done]. subst st'. split; [by split|]. done.
Qed.

(** Writing one after the other keeps the two in step. *)
Lemma upserts_in_step {W V} (now : M V Z) all ops d (w : W) errs d' w' st (v : V) errs2 st' v' :
  consistent (projects d) all → ops ⊆ all → in_step all d st →
  all_upserts (pg_knowledge true) ops (d, w) = (errs, (d', w')) →
  all_upserts (memory_store now) ops (st, v) = (errs2, (st', v')) →
  (λ err, bool_decide (err = None)) <$> errs = (λ err, bool_decide (err = None)) <$> errs2 ∧
  in_step all d' st'.
Proof.
  revert d w errs d' w' st v errs2 st' v'. induction ops as [|op ops IH];
    intros d w errs d' w' st v errs2 st' v' Hc Hsub Hs; cbn [all_upserts].
  { intros [<- [= <- _]]%mret_inv [<- [= <- _]]%mret_inv. done. }
  intros (e1 & [d1 w1] & H1 & Hk1)%mthen_inv (e2 & [st1 v1] & H2 & Hk2)%mthen_inv.
  apply mthen_inv in Hk1 as (l1 & [d2 w2] & Hr1 & Hk1). apply mret_inv in Hk1 as [<- [= <- <-]].
  apply mthen_inv in Hk2 as (l2 & [st2 v2] & Hr2 & Hk2). apply mret_inv in Hk2 as [<- [= <- <-]].
  assert ((e1 = None ↔ e2 = None) ∧ in_step all d1 st1 ∧ projects d1 = projects d) as (He & Hs1 & Hp).
  { assert (op ∈ all) as Hop by (apply Hsub; by left).
    destruct op as [n|e]; apply mthen_inv in H1 as ([x1 y1] & sw1 & H1 & Hm1), H2 as ([x2 y2] & sw2 & H2 & Hm2);
      apply mret_inv in Hm1 as [<- ->], Hm2 as [<- ->].
    - by destruct (node_in_step _ _ _ _ _ _ _ _ _ _ _ _ _ Hc Hop Hs H1 H2) as (Ha & Hb & ?); cbn in Ha, Hb; subst.
    - by destruct (edge_in_step _ _ _ _ _ _ _ _ _ _ _ _ _ Hc Hop Hs H1 H2). }
  destruct (IH d1 w1 l1 d2 w2 st1 v1 l2 st2 v2) as [Hl Hs2]; [by rewrite Hp|set_solver|done|done|done|].
  split; [|done]. rewrite !fmap_cons, Hl. f_equal. by apply bool_decide_ext.
Qed.

End agreement.

(** ** What is kept of a loop *)

Section loops.
Context `{Database} `{Json} {W : Type} `{World W}.

(** A row that stands for an execution. *)
Record stands_for (l e : LoopExecution) : Prop := {
  sf_id : Plan_ID (Execution_Plan l) = Plan_ID (Execution_Plan e);
  sf_stages : Stages (Execution_Plan l) = Stages (Execution_Plan e);
  sf_status : Status l = Status e;
  sf_current : CurrentStage l = CurrentStage e;
  sf_completed : ∀ s, completed l s = completed e s
}.
Definition on_record (d : product_db) (e : LoopExecution) : Prop :=
  ∃ l, loops d !! Plan_ID (Execution_Plan e) = Some l ∧ stands_for l e.

Lemma kept_completed e l s : Results l = kept_results e → completed l s = completed e s.
Proof. unfold completed. intros ->. unfold kept_results. rewrite lookup_fmap. by destruct (Results e !! s). Qed.

Lemma put_loop_record created updated e d : on_record (put_loop created updated e d) e.
Proof.
  eexists. cbn. split; [apply lookup_insert_eq|]. split; intros; try by destruct (loop_at d _).
  apply kept_completed. by destruct (loop_at d _).
Qed.

(** An execution with a row, or of a known project, is saved. *)
Lemma SaveLoop_record e d w err d' w' :
  pg_SaveLoopExecution true e (d, w) = (err, (d', w')) →
  placed (loops d) (Plan_ID (Execution_Plan e)) (Plan_ProjectID (Execution_Plan e)) d = true →
  err = None ∧ on_record d' e.
Proof.
  intros Hs Hp.
  apply mthen_inv in Hs as (created & [d1 w1] & Hc & (-> & [(_ & -> & ->)|(Hno & _)])%execute_inv);
    [split; [done|apply put_loop_record]|].
  assert (d1 = d) as ->.
  { destruct (IsZero _); [apply outside_inv in Hc as [_ Hd]; done|by apply mret_inv in Hc as [_ [= -> _]]]. }
  congruence.
Qed.
Lemma Save_on_record e d w err d' w' :
  pg_SaveLoopExecution true e (d, w) = (err, (d', w')) → is_Some (loops d !! Plan_ID (Execution_Plan e)) →
  err = None ∧ on_record d' e.
Proof. intros Hs Hp. eapply SaveLoop_record; [exact Hs|]. unfold placed. by rewrite bool_decide_true. Qed.

(** The identity and the stages of an execution. *)
Definition same_loop (e e' : LoopExecution) : Prop :=
  Plan_ID (Execution_Plan e') = Plan_ID (Execution_Plan e) ∧
  Stages (Execution_Plan e') = Stages (Execution_Plan e).

Variables (now : M W Z) (x : StageExecutor W).
Notation store := (pg_loops true).
Notation execute := (λ e s, outside (x e s)).

Lemma now_then {A} (k : Z → M (product_db * W) A) d w out :
  mthen (outside now) k (d, w) = out → ∃ t w1, k t (d, w1) = out.
Proof. intros (t & w1 & _ & Hk)%outside_then. by exists t, w1. Qed.
Lemma touched_then {A} (k : LoopExecution → M (product_db * W) A) e d w out :
  mthen (touched (outside now) e) k (d, w) = out → ∃ t w1, k (e <| UpdatedAt := t |>) (d, w1) = out.
Proof.
  destruct out as [b dw]. intros (e1 & dw1 & (t & w1 & Ht)%now_then & Hk)%mthen_inv.
  apply mret_inv in Ht as [<- <-]. by exists t, w1.
Qed.
Lemma abandon_record e d w e' d' w' : abandon store e (d, w) = (e', (d', w')) →
  is_Some (loops d !! Plan_ID (Execution_Plan e)) → e' = e ∧ on_record d' e.
Proof.
  intros (err & [d1 w1] & Hs & [<- [= <- <-]]%mret_inv)%mthen_inv Hrow.
  by apply Save_on_record in Hs as [_ ?].
Qed.

Lemma settle_record e stage answer d w e' go d' w' :
  settle store (outside now) e stage answer (d, w) = ((e', go), (d', w')) →
  is_Some (loops d !! Plan_ID (Execution_Plan e)) → on_record d' e' ∧ same_loop e e'.
Proof.
  intros Hs Hrow. destruct answer as [r [err|]]; cbn [settle] in Hs.
  - apply now_then in Hs as (t1 & w1 & Hs). apply now_then in Hs as (t2 & w2 & Hs).
    apply touched_then in Hs as (t & w3 & Hs). apply mthen_inv in Hs as (e1 & [d1 w4] & Ha & [[= <- <-] [= <- <-]]%mret_inv).
    by apply abandon_record in Ha as [-> Ha].
  - apply touched_then in Hs as (t & w3 & Hs). case_decide as Hb; [|case_decide as Hn].
    1,2: apply mthen_inv in Hs as (e1 & [d1 w4] & Ha & [[= <- <-] [= <- <-]]%mret_inv);
      by apply abandon_record in Ha as [-> Ha].
    apply mthen_inv in Hs as (err & [d1 w4] & Ha & [[= <- <-] [= <- <-]]%mret_inv).
    by apply Save_on_record in Ha as [_ Ha].
Qed.

Lemma on_record_row d e : on_record d e → is_Some (loops d !! Plan_ID (Execution_Plan e)).
Proof. intros (l & -> & _). by eexists. Qed.

(** Whatever a run ends with is on record. *)
Lemma run_stages_record stages e d w e' ex d' w' :
  run_stages store execute (outside now) stages e (d, w) = ((e', ex), (d', w')) →
  is_Some (loops d !! Plan_ID (Execution_Plan e)) → on_record d' e' ∧ same_loop e e'.
Proof.
  revert e d w e' ex d' w'. induction stages as [|stage stages IH]; intros e d w e' ex d' w'; cbn [run_stages].
  { intros (t & w1 & Hs)%touched_then Hrow. apply mthen_inv in Hs as (e1 & [d1 w4] & Ha & [[= <- <-] [= <- <-]]%mret_inv).
    by apply abandon_record in Ha as [-> Ha]. }
  destruct (completed e stage); [by apply IH|].
  intros (t & w1 & Hs)%touched_then Hrow. apply mthen_inv in Hs as (u & [d1 w2] & Hsave & Hs).
  apply Save_on_record in Hsave as [_ Hrow1%on_record_row]; [|done].
  apply outside_then in Hs as (answer & w3 & _ & Hs).
  apply mthen_inv in Hs as ([e1 go] & [d2 w4] & [Hrec Hsame]%settle_record & Hs); [|done].
  destruct go; [|by apply mret_inv in Hs as [[= <- <-] [= <- <-]]].
  apply mthen_inv in Hs as ([e2 ex2] & [d3 w5] & Hrun & [[= <- <-] [= <- <-]]%mret_inv).
  apply IH in Hrun as [Hrec2 [Hid Hst]]; [|by apply on_record_row].
  split; [done|]. destruct Hsame as [Hid1 Hst1]. split; [by rewrite Hid, Hid1|by rewrite Hst, Hst1].
Qed.

Lemma loop_end_prefix l e e' ex : loop_end l e e' ex → ex `prefix_of` todo e l.
Proof.
  unfold todo. intros [-> |pre post -> ->|pre s post -> -> Hpre Hs]; [done| |]; rewrite filter_app; [by eexists|].
  rewrite filter_cons, decide_True by done. exists (filter (λ s, completed e s = false) post).
  by rewrite <-app_assoc.
Qed.
Lemma todo_ext e1 e2 l : (∀ s, completed e1 s = completed e2 s) → todo e1 l = todo e2 l.
Proof. intros Heq. unfold todo. apply list_filter_iff. intros s. by rewrite Heq. Qed.

Notation coordinator := (mkCoordinator (Some store) (Some execute) (outside now)).

Lemma SaveLoop_ok e d w d' w' : pg_SaveLoopExecution true e (d, w) = (None, (d', w')) → on_record d' e.
Proof.
  intros (created & [d1 w1] & Hc & (-> & [(_ & _ & ->)|(_ & [=] & _)])%execute_inv)%mthen_inv. apply put_loop_record.
Qed.

Lemma Start_record e st d w st' d' w' :
  Start coordinator e (st, (d, w)) = (None, (st', (d', w'))) →
  ∃ e', on_record d' e' ∧ same_loop e e' ∧ Results e' = Results e.
Proof.
  unfold Start. cbn [Coordinator_Store Executor Coordinator_Now]. case_decide; [by intros [[=] _]%mret_inv|].
  destruct (Stages (Execution_Plan e)) as [|first l] eqn:Hst; [by intros [[=] _]%mret_inv|].
  intros (t & [d1 w1] & [_ Hd]%outside_inv & Hk)%outside_then. cbn [fst] in Hd. subst d1.
  apply outside_then in Hk as (err & [d2 w2] & Hs & Hk). destruct err as [err|]; [by apply mret_inv in Hk as [[=] _]|].
  apply mthen_inv in Hk as (u & sw & ->%modify_inv & [_ [= <- <- <-]]%mret_inv). apply SaveLoop_ok in Hs.
  eexists. split; [exact Hs|]. by case_decide.
Qed.

Lemma Get_record e d (w : W) r err dw : on_record d e →
  pg_GetLoopExecution true (Plan_ID (Execution_Plan e)) (d, w) = (r, err, dw) →
  err = None ∧ dw = (d, w) ∧ stands_for r e.
Proof.
  intros (l & Hl & Hsf) Hg. apply look_inv in Hg as [Hg ->].
  unfold loop_or_error, loop_at in Hg. cbn [fst] in Hg. rewrite Hl in Hg. by injection Hg as -> ->.
Qed.

(** A run picks up the execution on record, and leaves on record what it ends with. *)
Lemma run_record e st d w r st' d' w' : on_record d e →
  run coordinator store execute (Plan_ID (Execution_Plan e)) (st, (d, w)) = (Some r, (st', (d', w'))) →
  NoDup (Stages (Execution_Plan e)) →
  on_record d' r.1 ∧ same_loop e r.1 ∧ r.2 `prefix_of` todo e (Stages (Execution_Plan e)) ∧
  ∀ s, completed e s = true → completed r.1 s = true.
Proof.
  intros Hrec Hr Hnd. apply mthen_inv in Hr as (busy & sw & [_ ->]%look_inv & Hr).
  destruct busy; [by apply mret_inv in Hr as [[=] _]|].
  apply mthen_inv in Hr as (u & sw & ->%modify_inv & Hr). cbn [fst snd] in Hr.
  apply outside_then in Hr as ([l err] & dw & (-> & -> & Hsf)%(Get_record _ _ _ _ _ _ Hrec) & Hr).
  apply mthen_inv in Hr as (r1 & [st1 [d1 w1]] & Hrun & Hr).
  apply mthen_inv in Hr as (u2 & sw & ->%modify_inv & [-> [= <- <- <-]]%mret_inv).
  apply outside_then in Hrun as ([e' ex] & [d2 w2] & Hrun & [[= <-] [= <- <- <-]]%mret_inv).
  pose proof Hsf as [Hid Hst _ _ Hco]. cbn [fst snd]. rewrite <-Hst in Hnd |- *.
  assert (is_Some (loops d !! Plan_ID (Execution_Plan l))) as Hrow.
  { rewrite Hid. destruct Hrec as (l0 & -> & _). by eexists. }
  pose proof (run_stages_record _ _ _ _ _ _ _ _ Hrun Hrow) as [Hrec' [Hid' Hst']].
  apply run_stages_end in Hrun as [Hend Hres]; [|done].
  split; [done|]. split; [by split; congruence|]. rewrite <-(todo_ext l e) by done.
  pose proof (loop_end_prefix _ _ _ _ Hend) as Hpre. split; [done|].
  intros s. rewrite <-Hco. intros Hs. unfold completed. rewrite Hres; [exact Hs|].
  destruct Hpre as [k Hk]. intros Hin. assert (s ∈ todo l (Stages (Execution_Plan l))) as [Hn _]%list_elem_of_filter.
  { rewrite Hk. apply elem_of_app. by left. }
  congruence.
Qed.

Lemma Resume_record e st d w err st' d' w' : on_record d e →
  Resume coordinator (Plan_ID (Execution_Plan e)) (st, (d, w)) = (err, (st', (d', w'))) →
  err = None →
  ∃ e', on_record d' e' ∧ same_loop e e' ∧ ∀ s, completed e' s = completed e s.
Proof.
  intros Hrec Hr ->.
  apply outside_then in Hr as ([l err] & dw & (-> & -> & Hsf)%(Get_record _ _ _ _ _ _ Hrec) & Hr).
  pose proof Hsf as [Hid Hst Hstat _ Hco].
  case_decide; [apply mret_inv in Hr as [_ [= <- <- <-]]; by exists e|].
  apply Start_record in Hr as (e' & Hrec' & [Hid' Hst'] & Hres). exists e'. split; [done|].
  split; [by split; congruence|]. intros s. unfold completed in *. by rewrite Hres.
Qed.
End loops.

(** C25: A loop goes on where it stopped.  A loop over pairwise distinct stages is started,
    run, and, whatever became of the server and of its state in memory in between, resumed
    from the tables and run again, possibly by another executor and by another clock.  Then
    the first run executes stages that were not complete, in their order, up to where it
    stopped, and so does the second: no stage that the first run completed is executed
    again, all of them stay complete, and what the second run ends with is on record. *)
Theorem loop_resumes `{Database} `{Json} {W} `{World W} now1 now2 (x1 x2 : StageExecutor W)
    e d w st1 d1 w1 e1 ex1 st2 d2 w2 st3 w3 st4 d3 w4 st5 w5 e2 ex2 st6 d4 w6 :
  let coordinator now x := mkCoordinator (Some (pg_loops true)) (Some (λ e s, outside (x e s))) (outside now) in
  let id := Plan_ID (Execution_Plan e) in
  let stages := Stages (Execution_Plan e) in
  NoDup stages →
  Start (coordinator now1 x1) e (NewCoordinator, (d, w)) = (None, (st1, (d1, w1))) →
  run (coordinator now1 x1) (pg_loops true) (λ e s, outside (x1 e s)) id (st1, (d1, w1)) =
    (Some (e1, ex1), (st2, (d2, w2))) →
  Resume (coordinator now2 x2) id (st3, (d2, w3)) = (None, (st4, (d3, w4))) →
  run (coordinator now2 x2) (pg_loops true) (λ e s, outside (x2 e s)) id (st5, (d3, w5)) =
    (Some (e2, ex2), (st6, (d4, w6))) →
  ex1 `prefix_of` todo e stages ∧ ex2 `prefix_of` todo e1 stages ∧
  (∀ s, completed e1 s = true → s ∉ ex2 ∧ completed e2 s = true) ∧ on_record d4 e2.
Proof.
  intros coordinator id stages Hnd Hstart Hrun1 Hresume Hrun2.
  apply Start_record in Hstart as (e0 & Hrec0 & [Hid0 Hst0] & Hres0). subst id stages.
  rewrite <-Hid0 in Hrun1. rewrite <-Hst0 in Hnd |- *.
  apply run_record in Hrun1 as (Hrec1 & [Hid1 Hst1] & Hex1 & _); [|done..]. cbn [fst snd] in *.
  rewrite <-Hid0, <-Hid1 in Hresume, Hrun2. rewrite <-Hst1 in Hnd.
  apply Resume_record in Hresume as (e3 & Hrec3 & [Hid3 Hst3] & Hco); [|done..].
  rewrite <-Hid3 in Hrun2. rewrite <-Hst3 in Hnd.
  apply run_record in Hrun2 as (Hrec2 & _ & Hex2 & Hkept); [|done..]. cbn [fst snd] in *.
  rewrite (todo_ext e3 e1), Hst3, Hst1 in Hex2 by done.
  split. { rewrite (todo_ext e e0); [done|]. intros s. unfold completed. by rewrite Hres0. }
  split; [done|]. split; [|done]. intros s Hs. split; [|apply Hkept; by rewrite Hco].
  destruct Hex2 as [k Hk]. intros Hin. assert (s ∈ todo e1 (Stages (Execution_Plan e0))) as [Hn _]%list_elem_of_filter.
  { rewrite Hk. apply elem_of_app. by left. }
  congruence.
Qed.

(** ** Witnesses and findings *)

#[local] Instance product_texts : Database := {| violation := ErrorString "violates"; collate := String.ltb |}.
#[local] Instance product_json : Json := {| json_map := id |}.
#[local] Instance product_order : MapOrder := canonical_order.
#[local] Instance unit_world : World unit := {| time_Now := mret 7; ctx_Err := mret None |}.

Definition two_projects : product_db := mkProductDB {["shop"; "thief"]} ∅ ∅ ∅ ∅ ∅ ∅.
Definition with_page : product_db := (pg_UpsertNode (W := unit) true (page "shop") (two_projects, tt)).2.1.
Definition link (id : string) (typ : EdgeType) : Edge := mkEdge id "shop" "page" "page" typ ∅ 0.
Definition with_loops : product_db :=
  (pg_UpsertEdge (W := unit) true (link "l2" Calls)
    ((pg_UpsertEdge (W := unit) true (link "l1" Uses) (with_page, tt)).2.1, tt)).2.1.

(** A page, two links, and one to a node that is not there. *)
Definition some_writes : list upsert :=
  [PutNode (page "shop"); PutEdge (link "l1" Uses); PutEdge (link "l2" Calls);
   PutEdge (mkEdge "l3" "shop" "page" "ghost" Uses ∅ 0)].
Lemma some_writes_consistent : consistent {["shop"; "thief"]} some_writes.
Proof.
  split; unfold some_writes.
  - intros n Hn. rewrite !elem_of_cons, elem_of_nil in Hn. destruct_or!; simplify_eq. by vm_compute.
  - intros e He. rewrite !elem_of_cons, elem_of_nil in He. destruct_or!; simplify_eq; by vm_compute.
  - intros n1 n2 H1 H2 _. rewrite !elem_of_cons, elem_of_nil in H1, H2. destruct_or!; by simplify_eq.
  - intros e1 e2 H1 H2. rewrite !elem_of_cons, elem_of_nil in H1, H2.
    destruct_or!; simplify_eq; (split; [by intros [=]|by intros [=]]).
Qed.


(** Over the edges of every type a neighbour comes once for each edge, from the tables; the
    store in memory has it once. *)
Theorem neighbours_repeated :
  Node_ID <$> pg_neighbors "shop" "page" (EdgeTypeOther "") with_loops = ["page"; "page"] ∧
  Node_ID <$> neighbors_of (as_memory with_loops) "shop" "page" (EdgeTypeOther "") = ["page"].
Proof. split; vm_compute; reflexivity. Qed.

(** A node is found by its identifier alone: a request for another project changes the
    node of the first, and is answered with a node of its own that nothing holds. *)
Theorem node_changed_elsewhere :
  let r := pg_UpsertNode (W := unit) true ((page "thief") <| Node_Name := "Mine" |>) (with_page, tt) in
  (Node_ProjectID r.1.1, Node_Name r.1.1, r.1.2) = ("thief", "Mine", None) ∧
  Node_Name <$> Nodes (pg_graph "shop" r.2.1) = ["Mine"] ∧ Nodes (pg_graph "thief" r.2.1) = [].
Proof. split_and!; vm_compute; reflexivity. Qed.

(** The tables accept what the store in memory refuses. *)
Theorem nameless_node_stored :
  let nameless := zero_Node <| Node_ProjectID := "shop" |> in
  (memory_UpsertNode (mret 7) nameless (NewMemoryStore, tt)).1.2 =
    Some (ErrorString "node project, id, type, and name are required") ∧
  (pg_UpsertNode (W := unit) true nameless (two_projects, tt)).1.2 = None.
Proof. split; vm_compute; reflexivity. Qed.

Definition stages_until (stop : LoopStage) : StageExecutor unit := λ _ stage,
  mret (mkStageResult stage (if decide (stage = stop) then "BLOCKED" else "COMPLETED") "" ∅ 0 0, None).
Definition shop_loop (goal : string) : LoopExecution :=
  mkExecution (mkPlan "loop_shop" goal "shop" [Plan; Build; Test; productexperience.Deploy] ∅ "PLANNED" [] 5) "" ∅ "" 5.
Definition shop_coordinator (stop : LoopStage) : Coordinator (product_db * unit) :=
  mkCoordinator (Some (pg_loops true)) (Some (λ e s, outside (stages_until stop e s))) (outside (mret 9)).
Definition shop_run (stop : LoopStage) :=
  run (shop_coordinator stop) (pg_loops true) (λ e s, outside (stages_until stop e s)) "loop_shop".

(** The first run stops at the tests; the second one, after a restart, executes these and
    the deployment. *)
Lemma loop_resumes_witness :
  let r0 := Start (shop_coordinator Test) (shop_loop "sell") (NewCoordinator, (two_projects, tt)) in
  let r1 := shop_run Test r0.2 in
  let r2 := Resume (shop_coordinator "") "loop_shop" (NewCoordinator, r1.2.2) in
  let r3 := shop_run "" r2.2 in
  snd <$> r1.1 = Some [Plan; Build; Test] ∧ snd <$> r3.1 = Some [Test; productexperience.Deploy] ∧
  ∀ s, (∃ e1, fst <$> r1.1 = Some e1 ∧ completed e1 s = true) → ∃ ex2, snd <$> r3.1 = Some ex2 ∧ s ∉ ex2.
Proof.
  intros r0 r1 r2 r3. assert (r0.1 = None ∧ r2.1 = None) as [Hr0 Hr2] by (split; vm_compute; reflexivity).
  split; [vm_compute; reflexivity|]. split; [vm_compute; reflexivity|].
  assert (snd <$> r1.1 = Some [Plan; Build; Test] ∧ snd <$> r3.1 = Some [Test; productexperience.Deploy]) as [Hs1 Hs3]
    by (split; vm_compute; reflexivity).
  destruct r0 as [o0 [st0 [d0 []]]] eqn:E0. destruct r1 as [[[e1 ex1]|] [st1 [d1 []]]] eqn:E1; [|done].
  destruct r2 as [o2 [st2 [d2 []]]] eqn:E2. destruct r3 as [[[e3 ex3]|] [st3 [d3 []]]] eqn:E3; [|done].
  cbn [fst] in Hr0, Hr2. subst o0 o2. intros s (e & [= <-] & Hs). exists ex3. split; [done|].
  destruct (loop_resumes (mret 9) (mret 9) (stages_until Test) (stages_until "") (shop_loop "sell") two_projects tt
    st0 d0 tt e1 ex1 st1 d1 tt NewCoordinator tt st2 d2 tt st2 tt e3 ex3 st3 d3 tt) as (_ & _ & Hdone & _);
    [apply (bool_decide_eq_true_1 _); reflexivity|exact E0|exact E1|exact E2|exact E3|].
  by apply Hdone.
Defined.

(** The goal of a loop is written once, with its first row.  A loop that was planned before
    it is started, which saves it without a goal, is started with one, and the run works on
    none; and one that is started again works on the goal of the first start. *)
Theorem goal_of_first_row :
  let planned := pg_SaveLoop true (Execution_Plan (shop_loop "")) (two_projects, tt) in
  let first := Start (shop_coordinator "") (shop_loop "sell") (NewCoordinator, planned.2) in
  let second := Start (shop_coordinator "") (shop_loop "buy") (Start (shop_coordinator "") (shop_loop "sell") (NewCoordinator, (two_projects, tt))).2 in
  planned.1 = None ∧ first.1 = None ∧ second.1 = None ∧
  ((λ r, Goal (Execution_Plan r.1)) <$> (shop_run "" first.2).1) = Some "" ∧
  ((λ r, Goal (Execution_Plan r.1)) <$> (shop_run "" second.2).1) = Some "sell".
Proof. split_and!; vm_compute; reflexivity. Qed.

(** Saving the plan of a loop that runs takes the results it has so far. *)
Theorem plan_forgets_results :
  let r0 := Start (shop_coordinator Test) (shop_loop "sell") (NewCoordinator, (two_projects, tt)) in
  let r1 := shop_run Test r0.2 in
  let r2 := pg_SaveLoop true (Execution_Plan (shop_loop "sell")) r1.2.2 in
  ((λ l, completed l Build) <$> loops r1.2.2.1 !! "loop_shop") = Some true ∧ r2.1 = None ∧
  ((λ l, completed l Build) <$> loops r2.2.1 !! "loop_shop") = Some false.
Proof. split_and!; vm_compute; reflexivity. Qed.
End productstore.
