(* ===== verification/GovernStore.v ===== *)
(** * Governance: design systems and constitutions in the tables, and the guard of agents

    [src/internal/designintelligence/store.go] and [load.go], [src/internal/constitution/store.go],
    on the tables of [src/migrations/010_product_experience.sql], and, of the command,
    [constitution_guard.go] and [product_activity_events.go]. *)

From stdpp Require Import strings.
From S2P Require Import Prelude GoStrings World AgentTypes Agent Knowledge Constitution DesignIntel Events ProductExp HttpApi HttpBase HttpProduct PgBase.
Import httpapi httpbase httpproduct pg.

Module governstore.
Import constitution designintelligence.

#[global] Instance eta_Token : Eta DesignToken := λ t,
  mkToken (Token_ID t) (Token_Name t) (Kind t) (Value t) (Token_Description t) (Semantic t).
#[global] Instance eta_Component : Eta ComponentDefinition := λ c,
  mkComponent (Component_ID c) (Component_Name c) (Component_Description c) (Component_Tokens c) (Variants c)
    (Component_Dependencies c) (UsedBy c) (Pages c) (Component_Tests c).
#[global] Instance eta_System : Eta DesignSystem := λ d,
  mkSystem (System_ID d) (System_ProjectID d) (System_Name d) (Version d) (Tokens d) (System_Typography d)
    (System_ColorPalette d) (Spacing d) (Radius d) (Shadows d) (Breakpoints d) (Components d) (Patterns d)
    (LayoutRules d) (MotionRules d) (AccessibilityRules d) (System_CreatedAt d) (System_UpdatedAt d).

(** The tables: a row of a system has neither tokens, nor components, nor rules, and a row of
    a component neither tokens nor variants; the variants are a table of their own, whose rows
    have nothing but a number. *)
Record govern_db := mkGovernDB {
  projects : gset string;
  systems : gmap string DesignSystem;
  tokens_of : gmap string (gmap string DesignToken);
  components_of : gmap string (gmap string ComponentDefinition);
  variant_rows : list (string * string * ComponentVariant);
  constitutions : gmap string Constitution
}.
#[global] Instance eta_govern_db : Eta govern_db := λ d,
  mkGovernDB (projects d) (systems d) (tokens_of d) (components_of d) (variant_rows d) (constitutions d).

Section stores.
Context `{Database} {W : Type}.
(** Whether the store has a database. *)
Variable DB : bool.
Notation C A := (M (govern_db * W) A).
Notation with_db := (pg.with_db DB).

(** ** Design systems *)

Definition no_design : string := "design intelligence database unavailable".
(** The row of a new system. *)
Definition without_parts (s : DesignSystem) : DesignSystem :=
  mkSystem (System_ID s) (System_ProjectID s) (System_Name s) (Version s) [] (System_Typography s)
    (System_ColorPalette s) (Spacing s) (Radius s) (Shadows s) (Breakpoints s) [] [] [] [] []
    (timestamptz (System_CreatedAt s)) (timestamptz (System_UpdatedAt s)).
(* src: internal/designintelligence/store.go:23-23 (PostgresStore.Save) *)
Definition put_system (s : DesignSystem) (d : govern_db) : govern_db :=
  d <| systems := <[System_ID s := match systems d !! System_ID s with
         | Some x => x <| Version := Version s |> <| System_Typography := System_Typography s |>
                       <| System_ColorPalette := System_ColorPalette s |> <| Spacing := Spacing s |>
                       <| Radius := Radius s |> <| Shadows := Shadows s |> <| Breakpoints := Breakpoints s |>
                       <| System_UpdatedAt := timestamptz (System_UpdatedAt s) |>
         | None => without_parts s
         end]> (systems d) |>.

Definition system_there (system : string) (d : govern_db) : bool := bool_decide (is_Some (systems d !! system)).
Definition tokens_at (d : govern_db) (system : string) := default ∅ (tokens_of d !! system).
Definition put_token (system : string) (t : DesignToken) (d : govern_db) : govern_db :=
  d <| tokens_of := <[system := <[Token_ID t := match tokens_at d system !! Token_ID t with
         | Some x => x <| Value := Value t |> <| Token_Description := Token_Description t |> <| Semantic := Semantic t |>
         | None => t
         end]> (tokens_at d system)]> (tokens_of d) |>.
(* src: internal/designintelligence/store.go:41-44 (PostgresStore.saveToken) *)
Definition saveToken (system : string) (t : DesignToken) : C (option goerror) :=
  execute (system_there system) (put_token system t).

Definition components_at (d : govern_db) (system : string) := default ∅ (components_of d !! system).
Definition put_component (system : string) (c : ComponentDefinition) (d : govern_db) : govern_db :=
  d <| components_of := <[system := <[Component_ID c := c <| Component_Tokens := [] |> <| Variants := [] |>]>
         (components_at d system)]> (components_of d) |>.
Definition component_there (system id : string) (d : govern_db) : bool :=
  bool_decide (is_Some (components_at d system !! id)).
Definition put_variant (system id : string) (v : ComponentVariant) (d : govern_db) : govern_db :=
  d <| variant_rows := variant_rows d ++ [(id, system, v)] |>.
(** The row of a component that is there is replaced: every column but the keys is written. *)
(* src: internal/designintelligence/store.go:45-61 (PostgresStore.saveComponent) *)
Definition saveComponent (system : string) (c : ComponentDefinition) : C (option goerror) :=
  and_then (execute (system_there system) (put_component system c))
    (each (λ v, execute (component_there system (Component_ID c)) (put_variant system (Component_ID c) v)) (Variants c)).

(* src: internal/designintelligence/store.go:13-40 (PostgresStore.Save) *)
Definition design_Save (s : DesignSystem) : C (option goerror) :=
  with_db no_design Some
  (and_then (execute (λ d, system_there (System_ID s) d || bool_decide (System_ProjectID s ∈ projects d)) (put_system s))
  (and_then (each (saveToken (System_ID s)) (Tokens s)) (each (saveComponent (System_ID s)) (Components s)))).

(** The last system of the project; of several of the same time, any. *)
Definition latest (project : string) (d : govern_db) : option DesignSystem :=
  head (sort_by (λ a b, System_UpdatedAt b <? System_UpdatedAt a)
    (filter (λ s, System_ProjectID s = project) (map_to_list (systems d)).*2)).
Definition by_id {A} (id : A → string) (a b : A) : bool := collate (id a) (id b).
(* src: internal/designintelligence/load.go:9-57 (PostgresStore.Get) *)
Definition design_Get (project : string) : C (result DesignSystem) :=
  with_db no_design Err (look (λ d, match latest project d with
    | None => Err (ErrorString "no rows in result set")
    | Some s =>
        Ok (s <| Tokens := sort_by (by_id Token_ID) (map_to_list (tokens_at d (System_ID s))).*2 |>
              <| Components := sort_by (by_id Component_ID) (map_to_list (components_at d (System_ID s))).*2 |>)
    end)).

(** ** Constitutions *)

Definition no_constitution : string := "constitution database unavailable".
(** [UNIQUE(project_id,agent_id)] *)
Definition same_agent (project agent : string) (d : govern_db) : option Constitution :=
  head (filter (λ c, Constitution_ProjectID c = project ∧ Constitution_AgentID c = agent)
    (map_to_list (constitutions d)).*2).
(** The row of the agent keeps its identifier. *)
Definition put_constitution (c : Constitution) (d : govern_db) : govern_db :=
  let c := match same_agent (Constitution_ProjectID c) (Constitution_AgentID c) d with
           | Some x => c <| Constitution_ID := Constitution_ID x |>
           | None => c
           end in
  d <| constitutions := <[Constitution_ID c := c]> (constitutions d) |>.
Definition constitution_allowed (c : Constitution) (d : govern_db) : bool :=
  bool_decide (is_Some (same_agent (Constitution_ProjectID c) (Constitution_AgentID c) d)) ||
  bool_decide (constitutions d !! Constitution_ID c = None) && bool_decide (Constitution_ProjectID c ∈ projects d).
(* src: internal/constitution/store.go:12-26 (PostgresStore.Save) *)
Definition constitution_Save (c : Constitution) : C (option goerror) :=
  with_db no_constitution Some (execute (constitution_allowed c) (put_constitution c)).
(* src: internal/constitution/store.go:27-46 (PostgresStore.Get) *)
Definition constitution_Get (project agent : string) : C (result Constitution) :=
  with_db no_constitution Err (look (λ d, match same_agent project agent d with
    | Some c => Ok c
    | None => Err (ErrorString "no rows in result set")
    end)).
End stores.

(** ** The guard of agent sessions *)

(* src: internal/constitution/types.go:24-30 (Effect) *)
Definition effect_text (e : Effect) : string :=
  match e with
  | Allow => "ALLOW" | Deny => "DENY" | ApprovalRequired => "APPROVAL_REQUIRED" | EffectOther s => s
  end.
Definition execution (s : agent.Session) (p : agent.Permission) : Action :=
  mkAction (agent.Session_ProjectID s) (agent.Session_AgentID s) p
    (if decide (p = agent.PermissionFilesystemRead) then RiskRead else RiskExecute) "" "start agent execution".

Section guard.
Context `{Database} {W : Type}.
Variable DB : bool.
Notation C A := (M (productexperience.sstate * (govern_db * W)) A).

(** The decision on a constitution. *)
(* src: cmd/server/constitution_guard.go:26-34 (constitutionGuard.Authorize) *)
Definition judged (c : Constitution) (s : agent.Session) (p : agent.Permission) : option goerror :=
  let d := Evaluate c (execution s p) in
  if decide (Decision_Effect d = Allow) then None
  else Some (ErrorString ("governance " +:+ effect_text (Decision_Effect d) +:+ ": " +:+ Reason d)).

(** The map is the one of the product service, which the server and the guard share. *)
(* src: cmd/server/constitution_guard.go:15-35 (constitutionGuard.Authorize) *)
Definition Authorize (s : agent.Session) (p : agent.Permission) : C (option goerror) :=
  let key := agent.Session_ProjectID s +:+ ":" +:+ agent.Session_AgentID s in
  let! kept := look (λ st, productexperience.Constitutions st !! key) in
  match kept with
  | Some c => mret (judged c s p)
  | None =>
      let! loaded := outside (constitution_Get DB (agent.Session_ProjectID s) (agent.Session_AgentID s)) in
      match loaded with
      | Err e => mret (Some (wrap_prefix "governance constitution unavailable: " e))
      | Ok c =>
          let! _ := modify (λ st, st <| productexperience.Constitutions := <[key := c]> (productexperience.Constitutions st) |>) in
          mret (judged c s p)
      end
  end.
End guard.

(** ** Activity of the projects *)

Section forward.
Context {W : Type} (now : M W Z) (stamp : Z → string) (save : option (productexperience.Activity → M W (option goerror))).
Notation C A := (M (gmap string (list productexperience.Activity) * W) A).
(** The events the subscription of the server delivers, one after the other, until it is
    closed; without a bus or a log there is none. *)
(* src: cmd/server/product_activity_events.go:9-25 (forwardProductActivity) *)
Fixpoint forwardProductActivity (bus log : bool) (delivered : list events.Event) : C unit :=
  if negb bus || negb log then mret tt
  else match delivered with
       | [] => mret tt
       | e :: delivered =>
           let! _ := productexperience.AppendEvent now stamp save e in
           forwardProductActivity bus log delivered
       end.
End forward.

(** ** Constitutions in the tables *)

(** Rows are filed under their identifiers, one for each agent of a project. *)
Record govern_ok (d : govern_db) : Prop := {
  go_filed : ∀ k c, constitutions d !! k = Some c → Constitution_ID c = k;
  go_unique : ∀ k1 c1 k2 c2, constitutions d !! k1 = Some c1 → constitutions d !! k2 = Some c2 →
    Constitution_ProjectID c1 = Constitution_ProjectID c2 → Constitution_AgentID c1 = Constitution_AgentID c2 → k1 = k2
}.

Section constitution_facts.
Context `{Database} {W : Type}.

(** The row of an agent is the only one. *)
Lemma same_agent_iff d project agent c : govern_ok d →
  same_agent project agent d = Some c ↔
  ∃ k, constitutions d !! k = Some c ∧ Constitution_ProjectID c = project ∧ Constitution_AgentID c = agent.
Proof.
  intros [_ Hu]. unfold same_agent. set (l := filter _ _).
  assert (∀ x, x ∈ l ↔ ∃ k, constitutions d !! k = Some x ∧ Constitution_ProjectID x = project ∧
    Constitution_AgentID x = agent) as Hl.
  { intros x. unfold l. rewrite list_elem_of_filter, elem_of_rows. naive_solver. }
  split; [by intros Hc%head_Some_elem_of%Hl|]. intros (k & Hk & Hp & Ha).
  assert (c ∈ l) as Hin by (apply Hl; eauto). destruct l as [|x l0] eqn:El; [by apply elem_of_nil in Hin|].
  destruct (proj1 (Hl x)) as (k2 & Hk2 & Hp2 & Ha2); [by left|]. cbn [head].
  assert (k2 = k) as -> by (eapply Hu; [done..|congruence|congruence]). congruence.
Qed.
Lemma same_agent_None d project agent k c : same_agent project agent d = None → constitutions d !! k = Some c →
  ¬ (Constitution_ProjectID c = project ∧ Constitution_AgentID c = agent).
Proof.
  unfold same_agent. intros Hn%head_None Hc Hpa. apply (elem_of_nil c). rewrite <-Hn.
  apply list_elem_of_filter. split; [done|]. apply elem_of_rows. by exists k.
Qed.

Lemma put_constitution_ok c d : constitution_allowed c d = true → govern_ok d →
  govern_ok (put_constitution c d) ∧ ∃ x, Evaluate x = Evaluate c ∧
    same_agent (Constitution_ProjectID c) (Constitution_AgentID c) (put_constitution c d) = Some x.
Proof.
  intros Hal Hok. pose proof Hok as [Hf Hu]. unfold constitution_allowed in Hal. unfold put_constitution.
  set (row := match same_agent _ _ d with Some x => _ | None => c end).
  assert (Constitution_ProjectID row = Constitution_ProjectID c ∧ Constitution_AgentID row = Constitution_AgentID c ∧
    Evaluate row = Evaluate c) as (Hp & Ha & He) by (unfold row; by destruct (same_agent _ _ d)).
  assert (∀ k x, k ≠ Constitution_ID row → constitutions d !! k = Some x →
    ¬ (Constitution_ProjectID x = Constitution_ProjectID c ∧ Constitution_AgentID x = Constitution_AgentID c)) as Hother.
  { intros k x Hk Hx [Hxp Hxa]. unfold row in Hk. destruct (same_agent _ _ d) as [y|] eqn:Hs.
    - apply same_agent_iff in Hs as (k2 & Hy & Hyp & Hya); [|done].
      rewrite <-(Hf _ _ Hy) in Hy. apply Hk. cbn. eapply Hu; [exact Hx|exact Hy|congruence..].
    - by eapply same_agent_None. }
  clearbody row. clear Hal.
  assert (govern_ok (d <| constitutions := <[Constitution_ID row := row]> (constitutions d) |>)) as Hok2.
  { split; cbn [constitutions set_field].
    - intros k x. rewrite lookup_insert. case_decide; [by intros [= <-]|apply Hf].
    - intros k1 c1 k2 c2. rewrite !lookup_insert. case_decide as Hc1; case_decide as Hc2; intros He1 He2 Hep Hea;
        simplify_eq; [done|..|by eapply Hu].
      + destruct (Hother k2 c2); [congruence|done|split; congruence].
      + destruct (Hother k1 c1); [congruence|done|split; congruence]. }
  split; [done|]. exists row. split; [done|]. apply same_agent_iff; [done|]. exists (Constitution_ID row).
  cbn. by rewrite lookup_insert_eq.
Qed.

Lemma constitution_Save_keeps DB c : keeps govern_ok (constitution_Save (W := W) DB c).
Proof.
  unfold constitution_Save, pg.with_db. keep_state. apply keeps_execute. intros d Hok Ha. by apply put_constitution_ok.
Qed.
End constitution_facts.

(** ** Governed sessions *)

Section governed.
Context `{Database} `{strings.GoUnicode} {W : Type}.

(** What is judged is what the policy says, whatever else the constitution says. *)
Lemma judged_None c s p :
  judged c s p = None ↔
  Constitution_ProjectID c = agent.Session_ProjectID s ∧ Constitution_AgentID c = agent.Session_AgentID s ∧
  p ∈ agent.Allowed (Constitution_Policy c) ∧ p ∉ agent.ApprovalRequired (Constitution_Policy c).
Proof.
  assert (Action_Risk (execution s p) ≠ RiskProduction ∧ Action_Risk (execution s p) ≠ RiskDatabase) as [Hr1 Hr2].
  { cbn. by destruct (decide (p = agent.PermissionFilesystemRead)). }
  destruct (Evaluate_effect c (execution s p)) as [Hallow _]. unfold judged, in_scope in *.
  cbn [Action_ProjectID Action_AgentID Action_Permission execution] in *. case_decide; naive_solver.
Qed.

Lemma Authorize_kept DB s p (st : productexperience.sstate) (dw : govern_db * W) c :
  productexperience.Constitutions st !! key_of (agent.Session_ProjectID s) (agent.Session_AgentID s) = Some c →
  (Authorize DB s p (st, dw)).1 = judged c s p.
Proof. intros Hc. unfold Authorize, mthen, look, inside. cbn [fst snd]. unfold key_of in Hc. by rewrite Hc. Qed.

Lemma Authorize_loaded s p (st : productexperience.sstate) d (w : W) c :
  productexperience.Constitutions st !! key_of (agent.Session_ProjectID s) (agent.Session_AgentID s) = None →
  same_agent (agent.Session_ProjectID s) (agent.Session_AgentID s) d = Some c →
  (Authorize true s p (st, (d, w))).1 = judged c s p.
Proof.
  intros Hn Hc. unfold Authorize, mthen, look, inside. cbn [fst snd]. unfold key_of in Hn. rewrite Hn.
  unfold outside, constitution_Get, pg.with_db, look, inside. cbn [fst snd]. by rewrite Hc.
Qed.

(** A session that the guard refuses is not started: neither is anything stored, nor is the
    adapter called. *)
Lemma Start_refused (svc : agents.Service (productexperience.sstate * (govern_db * W))) DB project id s st dw0 dw1 dw2 now :
  agents.Guard svc = Some (Authorize DB) →
  agents.Store_GetSession (agents.Service_Store svc) project id (st, dw0) = (Ok s, (st, dw1)) →
  agents.Service_Now svc (st, dw1) = (now, (st, dw2)) →
  (Authorize DB s agent.PermissionTerminalExecute (st, dw2)).1 ≠ None →
  is_Some (productexperience.Constitutions st !! key_of (agent.Session_ProjectID s) (agent.Session_AgentID s)) →
  ∃ e dw3, dw3 ∈ [dw1; dw2] ∧ agents.Start svc project id (st, dw0) = ((agents.zero_Session, Some e), (st, dw3)).
Proof.
  intros Hg Hget Hnow Hno [c Hc]. unfold agents.Start, mthen at 1. rewrite Hget.
  destruct (agents.Get _ _) as [adapter|]; [|by eexists _, dw1; split; [left|]].
  unfold mthen at 1. rewrite Hnow, Hg. unfold agents.orElse, mthen at 1.
  assert (Authorize DB s agent.PermissionTerminalExecute (st, dw2) =
    (judged c s agent.PermissionTerminalExecute, (st, dw2))) as Ha.
  { unfold Authorize, mthen at 1, look, inside. cbn [fst snd]. unfold key_of in Hc. by rewrite Hc. }
  rewrite Ha in *. cbn [fst] in Hno. destruct (judged _ _ _) as [e|]; [|done].
  eexists e, dw2. split; [right; by left|done].
Qed.

(** C31: The rules of an agent govern its sessions.  Once a constitution was accepted for
    the agent of a project, the guard's [Authorize] answers nil for a session of that agent
    exactly when the policy of the constitution allows the permission and does not ask for
    an approval of it; and when the tables accepted the constitution it is so after a
    restart of the server, which finds nothing in memory, as well.  A service with this
    guard answers an error when it is asked to start a session whose agent the policy does
    not let execute in a terminal, and stores nothing. *)
Theorem constitution_governs DB r input st d (w : W) code c st' d' w' s p :
  createConstitution (Some (constitution_Save DB)) r input (st, (d, w)) = (Answer (code, c), (st', (d', w'))) →
  govern_ok d → agent.Session_ProjectID s = PathValue r "project" →
  agent.Session_AgentID s = Constitution_AgentID c →
  let permitted := p ∈ agent.Allowed (Constitution_Policy c) ∧ p ∉ agent.ApprovalRequired (Constitution_Policy c) in
  (∀ dw : govern_db * W, (Authorize DB s p (st', dw)).1 = None ↔ permitted) ∧
  (DB = true → constitution_allowed c d = true → ∀ w2 : W,
    (Authorize DB s p (productexperience.NewService, (d', w2))).1 = None ↔ permitted) ∧
  (p = agent.PermissionTerminalExecute → ¬ permitted →
   ∀ (svc : agents.Service (productexperience.sstate * (govern_db * W))) project id dw0 dw1 dw2 now,
    agents.Guard svc = Some (Authorize DB) →
    agents.Store_GetSession (agents.Service_Store svc) project id (st', dw0) = (Ok s, (st', dw1)) →
    agents.Service_Now svc (st', dw1) = (now, (st', dw2)) →
    ∃ e dw3, dw3 ∈ [dw1; dw2] ∧
      agents.Start svc project id (st', dw0) = ((agents.zero_Session, Some e), (st', dw3))).
Proof.
  intros (_ & _ & Hpc & _ & -> & err & Hsave)%createConstitution_inv Hok Hp Ha permitted.
  assert (∀ dw : govern_db * W, (Authorize DB s p (st <| productexperience.Constitutions :=
    <[key_of (PathValue r "project") (Constitution_AgentID c) := c]> (productexperience.Constitutions st) |>, dw)).1
    = None ↔ permitted) as Hnow.
  { intros dw. rewrite (Authorize_kept _ _ _ _ _ c); [|by cbn; rewrite Hp, Ha, lookup_insert_eq].
    rewrite judged_None. unfold permitted. rewrite Hpc, Hp, Ha. naive_solver. }
  split; [exact Hnow|split].
  - intros -> Hal w2. apply execute_inv in Hsave as (_ & [(_ & _ & ->)|(Hno & _)]); [|congruence].
    destruct (put_constitution_ok c d Hal Hok) as (_ & x & Hx & Hs). rewrite Hpc, <-Hp, <-Ha in Hs.
    rewrite (Authorize_loaded _ _ _ _ _ x); [|done|exact Hs].
    assert (judged x s p = judged c s p) as -> by (unfold judged; by rewrite Hx).
    rewrite judged_None. unfold permitted. rewrite Hpc, Hp, Ha. naive_solver.
  - intros -> Hno svc project id dw0 dw1 dw2 t Hg Hget Ht. eapply Start_refused; [exact Hg|exact Hget|exact Ht| |].
    + by rewrite Hnow.
    + rewrite Hp, Ha. cbn. rewrite lookup_insert_eq. by eexists.
Qed.
End governed.

(** ** Activities *)

Section activity_facts.
Context {W : Type} (now : M W Z) (stamp : Z → string) (save : option (productexperience.Activity → M W (option goerror))).
Import productexperience.

(** The activity of a project.  What the log shows of a project, beyond what it showed
    before, are the events of the project that were delivered, in their order. *)
Theorem activity_follows_events delivered items w u items' w' project :
  forwardProductActivity now stamp save true true delivered (items, w) = (u, (items', w')) → project ≠ "" →
  ∃ l, List_ items' project = List_ items project ++ l ∧
    (λ a, (Activity_ProjectID a, Activity_Type a)) <$> l =
    (λ e, (project, events.Event_Type e)) <$> filter (λ e, events.Event_ProjectID e = project) delivered.
Proof.
  revert items w. induction delivered as [|e delivered IH]; intros items w Hf Hp; cbn in Hf.
  { apply mret_inv in Hf as [_ [= -> _]]. exists []. by rewrite app_nil_r. }
  apply mthen_inv in Hf as (v & [items1 w1] & Ha%Append_inv & Hf). apply IH in Hf as (l & Hl & Hlf); [|done].
  cbn [Activity_ProjectID Activity_Type] in Ha. rewrite filter_cons.
  destruct Ha as [[He ->]|(b & -> & Hbp & Hbt & _)].
  - rewrite decide_False by congruence. by exists l.
  - case_decide as He.
    + exists (b :: l). subst project. rewrite Hl, !fmap_cons, Hlf, Hbp, Hbt. split; [|done].
      unfold List_ at 1. rewrite lookup_insert_eq. cbn [default from_option id]. by rewrite <-app_assoc.
    + exists l. split; [|done]. rewrite Hl. unfold List_ at 1. by rewrite lookup_insert_ne.
Qed.
End activity_facts.

(** ** Design systems in the tables *)

Section design_facts.
Context `{Database} {W : Type}.

Lemma foldl_there {A} (put : A → govern_db → govern_db) l d system :
  (∀ a d, systems (put a d) = systems d) → system_there system (foldl (λ d a, put a d) d l) = system_there system d.
Proof. intros Hput. unfold system_there. by rewrite (fold_same systems). Qed.

Lemma saveTokens_ok system l d (w : W) err d' w' : system_there system d = true →
  each (saveToken system) l (d, w) = (err, (d', w')) →
  err = None ∧ w' = w ∧ d' = foldl (λ d t, put_token system t d) d l.
Proof.
  intros Hs Hk. apply (each_static (λ _, system_there system) (put_token system)) in Hk as (-> & Hn & Hd); [|done].
  assert (err = None) as -> by by apply Hn. split; [done|]. split; [done|]. by apply Hd.
Qed.

Definition put_whole (system : string) (c : ComponentDefinition) (d : govern_db) : govern_db :=
  foldl (λ d v, put_variant system (Component_ID c) v d) (put_component system c d) (Variants c).
Lemma put_whole_same {B} (get : govern_db → B) system c d :
  (∀ v d, get (put_variant system (Component_ID c) v d) = get d) →
  get (put_whole system c d) = get (put_component system c d).
Proof. intros Hget. apply (fold_same get). apply Hget. Qed.

Lemma saveComponent_ok system c d (w : W) err d' w' : system_there system d = true →
  saveComponent system c (d, w) = (err, (d', w')) → err = None ∧ w' = w ∧ d' = put_whole system c d.
Proof.
  intros Hs [[Hne [_ [(_ & -> & _)|(Hno & _)]]%execute_inv]|([d1 w1] & [-> [(_ & _ & ->)|(_ & [=] & _)]]%execute_inv & Hk)]%and_then_inv;
    [done|congruence|].
  apply (each_static (λ _, component_there system (Component_ID c)) (put_variant system (Component_ID c)))
    in Hk as (-> & Hn & Hd); [|done].
  assert (err = None) as ->. { apply Hn. intros v _. unfold component_there, components_at. cbn.
    rewrite lookup_insert_eq. cbn. by rewrite lookup_insert_eq. }
  split; [done|]. split; [done|]. by apply Hd.
Qed.

Lemma saveComponents_ok system l d (w : W) err d' w' : system_there system d = true →
  each (saveComponent system) l (d, w) = (err, (d', w')) →
  err = None ∧ w' = w ∧ d' = foldl (λ d c, put_whole system c d) d l.
Proof.
  revert d w. induction l as [|c l IH]; intros d w Hs; cbn [each foldl]; [by intros [<- [= <- <-]]%mret_inv|].
  intros (e & [d1 w1] & (-> & -> & ->)%saveComponent_ok & Hk)%mthen_inv; [|done]. apply IH in Hk; [done|].
  unfold system_there. by rewrite (put_whole_same systems).
Qed.

Definition stripped (c : ComponentDefinition) : ComponentDefinition := c <| Component_Tokens := [] |> <| Variants := [] |>.
Lemma tokens_at_put system t d : tokens_at d system !! Token_ID t = None →
  tokens_at (put_token system t d) system = <[Token_ID t := t]> (tokens_at d system).
Proof. intros Hn. unfold tokens_at at 1. cbn. rewrite lookup_insert_eq. cbn. by rewrite Hn. Qed.
Lemma components_at_put system c d :
  components_at (put_whole system c d) system = <[Component_ID c := stripped c]> (components_at d system).
Proof.
  rewrite (put_whole_same (λ d, components_at d system)) by done.
  unfold components_at at 1. cbn. by rewrite lookup_insert_eq.
Qed.

(** The only system of a project is its latest. *)
Lemma latest_only project d s : systems d !! System_ID s = Some s → System_ProjectID s = project →
  (∀ k x, systems d !! k = Some x → System_ProjectID x = project → k = System_ID s) → latest project d = Some s.
Proof.
  intros Hs Hp Hother. unfold latest. set (l := filter _ _).
  assert (l ≡ₚ [s]) as Hl.
  { unfold l. rewrite <-(insert_delete_id _ _ _ Hs), map_to_list_insert by apply lookup_delete_eq.
    cbn [fmap list_fmap snd]. rewrite filter_cons, decide_True by done. constructor.
    apply Permutation_nil_r. apply elem_of_nil_inv. intros x [Hxp [k Hk]%elem_of_rows]%list_elem_of_filter.
    apply lookup_delete_Some in Hk as [Hne Hk]. by destruct Hne; symmetry; eapply Hother. }
  rewrite <-(sort_by_perm (λ a b, System_UpdatedAt b <? System_UpdatedAt a)) in Hl.
  apply Permutation_singleton_r in Hl. by rewrite Hl.
Qed.

Lemma parts_reset s ts cs :
  (without_parts s) <| Tokens := ts |> <| Components := cs |> <| Tokens := [] |> <| Components := [] |> = without_parts s.
Proof. reflexivity. Qed.

(** What a save leaves. *)
Definition put_design (s : DesignSystem) (d : govern_db) : govern_db :=
  foldl (λ d c, put_whole (System_ID s) c d)
    (foldl (λ d t, put_token (System_ID s) t d) (put_system s d) (Tokens s)) (Components s).

Lemma design_Save_ok s d (w : W) err d' w' :
  design_Save true s (d, w) = (err, (d', w')) →
  system_there (System_ID s) d || bool_decide (System_ProjectID s ∈ projects d) = true →
  err = None ∧ d' = put_design s d.
Proof.
  intros Hs Hal. unfold design_Save, pg.with_db in Hs.
  apply and_then_inv in Hs as [[Hne [_ [(_ & -> & _)|(Hno & _)]]%execute_inv]|([d1 w1] & [-> [(_ & _ & ->)|(_ & [=] & _)]]%execute_inv & Hs)];
    [done|congruence|].
  assert (system_there (System_ID s) (put_system s d) = true) as Hthere.
  { unfold system_there, put_system. cbn. rewrite lookup_insert_eq. by apply bool_decide_eq_true_2. }
  apply and_then_inv in Hs as [[Hne Hk]|([d2 w2] & Hk & Hs)]; apply saveTokens_ok in Hk as (Hnone & -> & ->); try done.
  apply saveComponents_ok in Hs as (-> & _ & ->); [done|by rewrite (foldl_there (put_token (System_ID s)))].
Qed.

Lemma put_design_systems s d : systems (put_design s d) = systems (put_system s d).
Proof.
  unfold put_design. rewrite (fold_same systems) by (intros; by apply (put_whole_same systems)).
  by rewrite (fold_same systems).
Qed.

Lemma put_design_tokens s d : tokens_at d (System_ID s) = ∅ → NoDup (Token_ID <$> Tokens s) →
  (map_to_list (tokens_at (put_design s d) (System_ID s))).*2 ≡ₚ Tokens s.
Proof.
  intros Hempty Hnt. unfold put_design.
  rewrite (fold_same (λ d, tokens_at d (System_ID s)))
    by (intros; by apply (put_whole_same (λ d, tokens_at d (System_ID s)))).
  pose proof (fold_fresh (λ d, tokens_at d (System_ID s)) Token_ID (λ t, t) (put_token (System_ID s)) (Tokens s)
    (put_system s d) (λ t d, tokens_at_put (System_ID s) t d) Hnt) as Hf. cbn beta in Hf.
  change (tokens_at (put_system s d)) with (tokens_at d) in Hf. rewrite Hempty in Hf.
  rewrite Hf, map_to_list_empty, app_nil_r, <-list_fmap_compose by (intros; apply lookup_empty).
  by rewrite list_fmap_id.
Qed.

Lemma put_design_components s d : components_at d (System_ID s) = ∅ → NoDup (Component_ID <$> Components s) →
  (map_to_list (components_at (put_design s d) (System_ID s))).*2 ≡ₚ stripped <$> Components s.
Proof.
  intros Hempty Hnc. unfold put_design. set (d1 := foldl _ _ (Tokens s)).
  assert (components_at d1 (System_ID s) = ∅) as Hempty1.
  { unfold d1. by rewrite (fold_same (λ d, components_at d (System_ID s))). }
  pose proof (fold_fresh (λ d, components_at d (System_ID s)) Component_ID stripped (put_whole (System_ID s))
    (Components s) d1 (λ c d _, components_at_put (System_ID s) c d) Hnc) as Hf. cbn beta in Hf. rewrite Hempty1 in Hf.
  by rewrite Hf, map_to_list_empty, app_nil_r, <-list_fmap_compose by (intros; apply lookup_empty).
Qed.

(** A design system in the tables.  The first design system of a project, whose tokens
    and components have different identifiers, is accepted, and what is then loaded for the
    project is it, to the microsecond and with its tokens and components in the order of
    their identifiers, but without its patterns and rules and without the tokens and the
    variants of its components. *)
Theorem design_kept s d (w : W) err d' w' :
  design_Save true s (d, w) = (err, (d', w')) →
  System_ProjectID s ∈ projects d → systems d !! System_ID s = None →
  tokens_at d (System_ID s) = ∅ → components_at d (System_ID s) = ∅ →
  (∀ k x, systems d !! k = Some x → System_ProjectID x ≠ System_ProjectID s) →
  NoDup (Token_ID <$> Tokens s) → NoDup (Component_ID <$> Components s) →
  err = None ∧ ∃ r, (∀ w2 : W, design_Get true (System_ProjectID s) (d', w2) = (Ok r, (d', w2))) ∧
    r <| Tokens := [] |> <| Components := [] |> = without_parts s ∧
    Tokens r ≡ₚ Tokens s ∧ Components r ≡ₚ stripped <$> Components s.
Proof.
  intros Hs Hp Hnew Ht Hc Hother Hnt Hnc.
  apply design_Save_ok in Hs as [-> ->]; [|by rewrite (bool_decide_true (System_ProjectID s ∈ _)), orb_true_r].
  split; [done|].
  assert (systems (put_design s d) = <[System_ID s := without_parts s]> (systems d)) as Hsys.
  { rewrite put_design_systems. unfold put_system. cbn. by rewrite Hnew. }
  assert (latest (System_ProjectID s) (put_design s d) = Some (without_parts s)) as Hlatest.
  { apply latest_only; [by rewrite Hsys, lookup_insert_eq|done|]. intros k x.
    rewrite Hsys, lookup_insert. case_decide; [by subst|]. intros Hx Hxp. by destruct (Hother _ _ Hx). }
  exists ((without_parts s)
    <| Tokens := sort_by (by_id Token_ID) (map_to_list (tokens_at (put_design s d) (System_ID s))).*2 |>
    <| Components := sort_by (by_id Component_ID) (map_to_list (components_at (put_design s d) (System_ID s))).*2 |>).
  split.
  { intros w2. unfold design_Get, pg.with_db, look, inside. cbn [fst snd]. rewrite Hlatest. reflexivity. }
  split; [exact (parts_reset s _ _)|]. cbn [Tokens Components set_field]. rewrite !sort_by_perm.
  split; [by apply put_design_tokens|by apply put_design_components].
Qed.


End design_facts.

(** ** Witnesses and findings *)

#[local] Instance govern_texts : Database := {| violation := ErrorString "violates"; collate := String.ltb |}.
#[local] Instance govern_unicode : strings.GoUnicode := strings.ascii_unicode.
#[local] Instance unit_world : World unit := {| time_Now := mret 7; ctx_Err := mret None |}.

Definition some_projects : govern_db := mkGovernDB {["shop"; "a"; "a_b"]} ∅ ∅ ∅ [] ∅.
Definition allowing (agent : string) (p : agent.Permission) : Constitution :=
  (rules agent "ship") <| Constitution_Policy := agent.mkPolicy "" "" [p] [] |>.
Definition accepted (project agent : string) (p : agent.Permission) (sw : productexperience.sstate * (govern_db * unit)) :=
  createConstitution (Some (constitution_Save true)) (path project "" "") (Ok (allowing agent p)) sw.
Definition started (project agent : string) : agent.Session :=
  agents.zero_Session <| agent.Session_ProjectID := project |> <| agent.Session_AgentID := agent |>.

Lemma constitution_governs_witness :
  let r := accepted "shop" "ann" agent.PermissionTerminalExecute (productexperience.NewService, (some_projects, tt)) in
  (Authorize true (started "shop" "ann") agent.PermissionTerminalExecute (productexperience.NewService, r.2.2)).1 = None ∧
  (Authorize true (started "shop" "ann") agent.PermissionGitPush r.2).1 ≠ None.
Proof.
  intros r. destruct r as [a [st' [d' []]]] eqn:E. cbn [snd].
  assert (a = Answer (201, (allowing "ann" agent.PermissionTerminalExecute) <| Constitution_ProjectID := "shop" |>
    <| Constitution_ID := "constitution_shop_ann" |>)) as ->.
  { assert (a = r.1) as -> by by rewrite E. vm_compute. reflexivity. }
  destruct (constitution_governs true (path "shop" "" "") (Ok (allowing "ann" agent.PermissionTerminalExecute))
    productexperience.NewService some_projects tt 201 _ st' d' tt (started "shop" "ann") agent.PermissionTerminalExecute E)
    as (_ & Hrestart & _); [split; intros; simplify_map_eq|reflexivity..|].
  destruct (constitution_governs true (path "shop" "" "") (Ok (allowing "ann" agent.PermissionTerminalExecute))
    productexperience.NewService some_projects tt 201 _ st' d' tt (started "shop" "ann") agent.PermissionGitPush E)
    as (Hnow & _ & _); [split; intros; simplify_map_eq|reflexivity..|].
  split.
  - apply Hrestart; [reflexivity|vm_compute; reflexivity|]. split; [by left|apply not_elem_of_nil].
  - intros [Hin%list_elem_of_singleton _]%Hnow. discriminate Hin.
Defined.

(** The identifier that is made for a constitution joins the project and the agent by an
    underscore, which either may contain: the tables refuse the second one, the request is
    answered with 201 all the same, and after a restart the sessions of that agent do not
    start any more. *)
Theorem constitution_not_kept :
  let r1 := accepted "a_b" "c" agent.PermissionTerminalExecute (productexperience.NewService, (some_projects, tt)) in
  let r2 := accepted "a" "b_c" agent.PermissionTerminalExecute r1.2 in
  (match r2.1 with Answer (code, _) => code | _ => 0 end) = 201 ∧
  (Authorize true (started "a" "b_c") agent.PermissionTerminalExecute r2.2).1 = None ∧
  error_text <$> (Authorize true (started "a" "b_c") agent.PermissionTerminalExecute (productexperience.NewService, r2.2.2)).1 =
    Some "governance constitution unavailable: no rows in result set".
Proof. split_and!; vm_compute; reflexivity. Qed.

Definition analysed (now : Z) : DesignSystem :=
  match Analyze now (mkInput "shop" "a shop" "" "" [] []) with
  | Ok a => Analysis_DesignSystem a
  | Err _ => mkSystem "" "" "" "" [] typography palette ∅ ∅ ∅ [] [] [] [] [] [] 0 0
  end.

Lemma design_kept_witness :
  ∃ r, (∀ w2 : unit, design_Get true "shop" ((design_Save true (analysed 5000) (some_projects, tt)).2.1, w2) =
      (Ok r, ((design_Save true (analysed 5000) (some_projects, tt)).2.1, w2))) ∧
    Tokens r ≡ₚ tokens ∧ Component_ID <$> Components r ≡ₚ ["button"; "card"; "input"; "navbar"] ∧ Patterns r = [].
Proof.
  destruct (design_Save true (analysed 5000) (some_projects, tt)) as [err [d' []]] eqn:E.
  destruct (design_kept (analysed 5000) some_projects tt err d' tt E) as (_ & r & Hget & Hrest & Htok & Hcomp).
  1-3,6,7: apply (bool_decide_eq_true_1 _); vm_compute; reflexivity.
  1: reflexivity.
  1: done.
  exists r. split; [exact Hget|]. split; [exact Htok|]. split; [by rewrite Hcomp|].
  change (Patterns r) with (Patterns (r <| Tokens := [] |> <| Components := [] |>)). by rewrite Hrest.
Defined.

(** Each analysis of a project saves the variants of its components once more; nothing
    reads them. *)
Theorem variants_pile_up :
  let r1 := design_Save true (analysed 5000) (some_projects, tt) in
  let r2 := design_Save true (analysed 6000) r1.2 in
  length (variant_rows r1.2.1) = 5%nat ∧ length (variant_rows r2.2.1) = 10%nat.
Proof. split; vm_compute; reflexivity. Qed.

Definition of_project (project typ : string) : events.Event :=
  events.mkEvent typ project "" (AnyString "").
Lemma activity_follows_events_witness :
  let r := forwardProductActivity (W := unit) (mret 7) (λ _, "7") None true true
    [of_project "shop" "build.started"; of_project "other" "x"; of_project "" "y"; of_project "shop" "build.done"] (∅, tt) in
  productexperience.Activity_Type <$> productexperience.List_ r.2.1 "shop" = ["build.started"; "build.done"].
Proof.
  intros r. destruct r as [u [items []]] eqn:E. cbn [fst snd].
  destruct (activity_follows_events (mret 7) (λ _, "7") None _ _ _ _ _ _ "shop" E) as (l & -> & Hl); [done|].
  apply (f_equal (fmap snd)) in Hl. rewrite <-!list_fmap_compose in Hl.
  unfold productexperience.List_. rewrite lookup_empty. exact Hl.
Defined.
End governstore.
