(* ===== verification/DeployStore.v ===== *)
(** * The store of deployments and the registry of ports in Postgres

    [src/internal/deployment/store.go] and [port_store.go], on the tables of
    [src/migrations/007_deployment.sql] and [010_product_experience.sql], as the store and the
    registry of the handlers of [HttpDeploy.v].  A reservation is two statements; requests
    of others may come between them. *)

From stdpp Require Import relations strings.
From S2P Require Import Prelude GoStrings World Runtime Deployment DeployInfra HttpDeploy PgBase.
Import deployment pg.

Module deploystore.

(** The tables. *)
Record deploy_db := mkDeployDB {
  projects : gset string;
  service_rows : gmap string Service;
  port_rows : gmap string PortBinding;
  release_rows : gmap string Release;
  deployment_rows : gmap string Deployment;
  port_bindings : gmap string PortBinding
}.
#[global] Instance eta_deploy_db : Eta deploy_db := λ d,
  mkDeployDB (projects d) (service_rows d) (port_rows d) (release_rows d) (deployment_rows d) (port_bindings d).

Section store.
Context `{Database} `{Json} {W : Type} `{World W}.
(** Whether there is a database. *)
Variable DB : bool.
Notation C A := (M (deploy_db * W) A).
Notation with_db := (pg.with_db DB "deployment database unavailable").
Definition placed {A} (table : gmap string A) (id project : string) (d : deploy_db) : bool :=
  bool_decide (is_Some (table !! id)) || bool_decide (project ∈ projects d).
(** [NULLIF($n,'')] of a column that refers to a table. *)
Definition null_or_there {A} (table : gmap string A) (id : string) : bool :=
  bool_decide (id = "") || bool_decide (is_Some (table !! id)).

(** ** Services *)

Definition put_service (s : Service) (d : deploy_db) : deploy_db :=
  d <| service_rows := <[Service_ID s := match service_rows d !! Service_ID s with
         | Some x => x <| Service_Status := Service_Status s |> <| Port := Port s |>
                       <| HealthEndpoint := HealthEndpoint s |>
                       <| Service_Metadata := json_map (Service_Metadata s) |>
                       <| Service_UpdatedAt := timestamptz (Service_UpdatedAt s) |>
         | None => s <| Service_Metadata := json_map (Service_Metadata s) |>
                     <| Service_CreatedAt := timestamptz (Service_CreatedAt s) |>
                     <| Service_UpdatedAt := timestamptz (Service_UpdatedAt s) |>
         end]> (service_rows d) |>.
(* src: internal/deployment/store.go:13-20 (Store.SaveService) *)
Definition pg_SaveService (s : Service) : C (option goerror) :=
  with_db Some (execute (λ d, int4 (Port s) && placed (service_rows d) (Service_ID s) (Service_ProjectID s) d)
    (put_service s)).
(* src: internal/deployment/store.go:21-41 (Store.Services) *)
Definition pg_Services (project : string) : C (list Service * option goerror) :=
  with_db (λ e, ([], Some e)) (look (λ d,
    (sort_by (λ a b, Service_CreatedAt a <? Service_CreatedAt b)
       (filter (λ s, Service_ProjectID s = project) (map_to_list (service_rows d)).*2), None))).

(** ** Ports, releases and deployments *)

(** Nobody reads this table. *)
Definition port_taken (b : PortBinding) (rows : gmap string PortBinding) : bool :=
  existsb (λ p, bool_decide (Binding_Protocol p.2 = Binding_Protocol b) &&
                bool_decide (ExternalPort p.2 = ExternalPort b)) (map_to_list rows).
(* src: internal/deployment/store.go:42-48 (Store.SavePort) *)
Definition pg_SavePort (b : PortBinding) : C (option goerror) :=
  with_db Some (execute
    (λ d, int4 (InternalPort b) && int4 (ExternalPort b) &&
       (bool_decide (is_Some (port_rows d !! Binding_ID b)) ||
        bool_decide (Binding_ProjectID b ∈ projects d) && null_or_there (service_rows d) (Binding_ServiceID b) &&
        negb (port_taken b (port_rows d))))
    (λ d, d <| port_rows := <[Binding_ID b := match port_rows d !! Binding_ID b with
       | Some x => x <| Binding_Status := Binding_Status b |> <| Binding_Health := Binding_Health b |>
                     <| Binding_UpdatedAt := timestamptz (Binding_UpdatedAt b) |>
       | None => b <| Binding_CreatedAt := timestamptz (Binding_CreatedAt b) |>
                   <| Binding_UpdatedAt := timestamptz (Binding_UpdatedAt b) |>
       end]> (port_rows d) |>)).

Definition put_release (r : Release) (d : deploy_db) : deploy_db :=
  d <| release_rows := <[Release_ID r := match release_rows d !! Release_ID r with
         | Some x => x <| Release_Status := Release_Status r |> <| BuildMetadata := json_map (BuildMetadata r) |>
         | None => r <| BuildMetadata := json_map (BuildMetadata r) |>
                     <| Release_CreatedAt := timestamptz (Release_CreatedAt r) |>
         end]> (release_rows d) |>.
(* src: internal/deployment/store.go:49-57 (Store.SaveRelease) *)
Definition pg_SaveRelease (r : Release) : C (option goerror) :=
  with_db Some (execute (λ d, placed (release_rows d) (Release_ID r) (Release_ProjectID r) d) (put_release r)).

(** The columns that a row keeps are those of the first save. *)
Definition put_deployment (x : Deployment) (d : deploy_db) : deploy_db :=
  d <| deployment_rows := <[Deployment_ID x := match deployment_rows d !! Deployment_ID x with
         | Some y => y <| Deployment_Status := Deployment_Status x |> <| HealthStatus := HealthStatus x |>
                       <| FailureReason := FailureReason x |>
                       <| Deployment_Metadata := json_map (Deployment_Metadata x) |>
                       <| Deployment_StartedAt := timestamptz <$> Deployment_StartedAt x |>
                       <| Deployment_CompletedAt := timestamptz <$> Deployment_CompletedAt x |>
         | None => x <| Deployment_Metadata := json_map (Deployment_Metadata x) |>
                     <| Deployment_CreatedAt := timestamptz (Deployment_CreatedAt x) |>
                     <| Deployment_StartedAt := timestamptz <$> Deployment_StartedAt x |>
                     <| Deployment_CompletedAt := timestamptz <$> Deployment_CompletedAt x |>
         end]> (deployment_rows d) |>.
(* src: internal/deployment/store.go:58-65 (Store.SaveDeployment) *)
Definition pg_SaveDeployment (x : Deployment) : C (option goerror) :=
  with_db Some (execute
    (λ d, bool_decide (is_Some (deployment_rows d !! Deployment_ID x)) ||
       bool_decide (Deployment_ProjectID x ∈ projects d) && null_or_there (release_rows d) (ReleaseID x))
    (put_deployment x)).
(* src: internal/deployment/store.go:66-86 (Store.Deployments) *)
Definition pg_Deployments (project : string) : C (list Deployment * option goerror) :=
  with_db (λ e, ([], Some e)) (look (λ d,
    (sort_by (λ a b, Deployment_CreatedAt b <? Deployment_CreatedAt a)
       (filter (λ x, Deployment_ProjectID x = project) (map_to_list (deployment_rows d)).*2), None))).
(* src: internal/deployment/store.go:11-11 (Store) *)
Definition pg_deploy : httpdeploy.Store (deploy_db * W) :=
  httpdeploy.mkStore pg_SaveService pg_Services pg_SavePort pg_SaveRelease pg_SaveDeployment pg_Deployments.
End store.

(** ** The registry of ports *)

Section ports.
Context `{Database} {W : Type} `{World W}.
Variable DB : bool.
Notation C A := (M (deploy_db * W) A).
Notation with_db := (pg.with_db DB "deployment port database unavailable").

Definition zero_Binding : PortBinding :=
  mkBinding "" "" "" "" 0 0 "" (ExposureOther "") "" "" time_zero time_zero.
(** [UNIQUE(protocol,external_port)] *)
Definition port_key (b : PortBinding) : string * Z := (Binding_Protocol b, ExternalPort b).
Definition port_owner (b : PortBinding) (d : deploy_db) : option PortBinding :=
  head (filter (λ x, port_key x = port_key b) (map_to_list (port_bindings d)).*2).
(** The first statement: whether another binding has the port. *)
(* src: internal/deployment/port_store.go:17-20 (PostgresPortRegistry.Reserve) *)
Definition taken_by_other (b : PortBinding) (d : deploy_db) : bool :=
  match port_owner b d with
  | Some x => negb (bool_decide (Binding_ID x = "")) && negb (bool_decide (Binding_ID x = Binding_ID b))
  | None => false
  end.
(* src: internal/deployment/port_store.go:21-29 (PostgresPortRegistry.Reserve) *)
Definition reserved (b : PortBinding) (now : Z) : PortBinding :=
  let b := if decide (Binding_ID b = "")
           then b <| Binding_ID := "port_" +:+ Binding_ProjectID b +:+ "_" +:+ pretty (ExternalPort b) |> else b in
  let b := if IsZero (Binding_CreatedAt b) then b <| Binding_CreatedAt := now |> else b in
  b <| Binding_UpdatedAt := now |> <| Binding_Status := "RESERVED" |>.
(** The second statement: it inserts the binding, or updates the row of the port when that
    has the same identifier; when it has another one nothing happens, and that is no error. *)
Definition insert_allowed (b : PortBinding) (d : deploy_db) : bool :=
  int4 (InternalPort b) && int4 (ExternalPort b) &&
  match port_owner b d with
  | Some x => negb (bool_decide (Binding_ID x = Binding_ID b)) || bool_decide (Binding_ProjectID b ∈ projects d)
  | None => bool_decide (port_bindings d !! Binding_ID b = None) && bool_decide (Binding_ProjectID b ∈ projects d)
  end.
Definition put_binding (b : PortBinding) (d : deploy_db) : deploy_db :=
  let row x := d <| port_bindings := <[Binding_ID b := x <| Binding_UpdatedAt := timestamptz (Binding_UpdatedAt b) |>]> (port_bindings d) |> in
  match port_owner b d with
  | None => row (b <| Binding_CreatedAt := timestamptz (Binding_CreatedAt b) |>)
  | Some x => if decide (Binding_ID x = Binding_ID b)
              then row (b <| Binding_CreatedAt := Binding_CreatedAt x |>) else d
  end.
(* src: internal/deployment/port_store.go:30-33 (PostgresPortRegistry.Reserve) *)
Definition insert_binding (b : PortBinding) : C (PortBinding * option goerror) :=
  let! err := execute (insert_allowed b) (put_binding b) in
  mret (match err with
        | Some e => (zero_Binding, Some (wrap_prefix "reserve port: " e))
        | None => (b, None)
        end).
(* src: internal/deployment/port_store.go:13-35 (PostgresPortRegistry.Reserve) *)
Definition pg_Reserve (b : PortBinding) : C (PortBinding * option goerror) :=
  with_db (λ e, (zero_Binding, Some e))
    (let! taken := look (taken_by_other b) in
     if (taken : bool) then mret (zero_Binding, Some ErrPortConflict)
     else let! now := outside time_Now in insert_binding (reserved b now)).
(* src: internal/deployment/port_store.go:36-48 (PostgresPortRegistry.Release) *)
Definition pg_Release (id : string) : C (option goerror) :=
  with_db Some (inside (λ d, match port_bindings d !! id with
    | Some _ => (None, d <| port_bindings := delete id (port_bindings d) |>)
    | None => (Some (ErrorString "port binding not found"), d)
    end)).
(* src: internal/deployment/port_store.go:49-67 (PostgresPortRegistry.List) *)
Definition pg_ListPorts (project : string) : C (list PortBinding * option goerror) :=
  with_db (λ e, ([], Some e)) (look (λ d,
    (sort_by (λ a b, ExternalPort a <? ExternalPort b)
       (filter (λ b, Binding_ProjectID b = project) (map_to_list (port_bindings d)).*2), None))).
(* src: internal/deployment/port_store.go:69-69 (PostgresPortRegistry) *)
Definition pg_ports : httpdeploy.PortRegistry (deploy_db * W) :=
  httpdeploy.mkRegistry pg_Reserve pg_Release pg_ListPorts.

End ports.

(** ** What the registry keeps *)

Section port_facts.
Context `{Database} {W : Type} `{World W}.


(** Rows are filed under their identifiers, which are not empty, one for each protocol and
    port. *)
Record ports_ok (d : deploy_db) : Prop := {
  po_filed : ∀ k b, port_bindings d !! k = Some b → Binding_ID b = k;
  po_named : port_bindings d !! "" = None;
  po_unique : ∀ k1 b1 k2 b2, port_bindings d !! k1 = Some b1 → port_bindings d !! k2 = Some b2 →
    port_key b1 = port_key b2 → k1 = k2
}.

Lemma port_owner_Some d b x : ports_ok d →
  port_owner b d = Some x ↔ port_bindings d !! Binding_ID x = Some x ∧ port_key x = port_key b.
Proof.
  intros Hok. unfold port_owner. set (l := filter _ _).
  assert (∀ y, y ∈ l ↔ port_bindings d !! Binding_ID y = Some y ∧ port_key y = port_key b) as Hl.
  { intros y. unfold l. rewrite list_elem_of_filter, elem_of_rows. split.
    - intros [Hk [k Hy]]. by rewrite (po_filed _ Hok _ _ Hy).
    - intros [Hy Hk]. split; [done|by eexists]. }
  split; [by intros Hx%head_Some_elem_of%Hl|]. intros Hx. apply Hl in Hx as Hin.
  destruct l as [|y l0]; [by apply elem_of_nil in Hin|]. cbn.
  destruct (proj1 (Hl y)) as [Hy Hky]; [by left|]. destruct Hx as [Hx Hkx].
  assert (Binding_ID y = Binding_ID x) as Heq by (eapply (po_unique _ Hok); [done..|congruence]). congruence.
Qed.
Lemma port_owner_None d b k x : port_owner b d = None → port_bindings d !! k = Some x → port_key x ≠ port_key b.
Proof.
  unfold port_owner. intros Hn%head_None Hx Hk. apply (elem_of_nil x). rewrite <-Hn.
  apply list_elem_of_filter. split; [done|]. apply elem_of_rows. by exists k.
Qed.

(** What a binding becomes in the table. *)
Definition stored (b : PortBinding) (created : Z) : PortBinding :=
  b <| Binding_CreatedAt := created |> <| Binding_UpdatedAt := timestamptz (Binding_UpdatedAt b) |>.

(** Filing a row under its identifier, when no other row has its port. *)
Lemma filed_ok d x : ports_ok d →
  (∀ k b, port_bindings d !! k = Some b → port_key b = port_key x → k = Binding_ID x) → Binding_ID x ≠ "" →
  ports_ok (d <| port_bindings := <[Binding_ID x := x]> (port_bindings d) |>).
Proof.
  intros [Hf Hn Hu] Hx Hne. split; cbn [port_bindings set_field].
  - intros k b. rewrite lookup_insert. case_decide; [by intros [= <-]|apply Hf].
  - by rewrite lookup_insert_ne.
  - intros k1 b1 k2 b2. rewrite !lookup_insert. case_decide as Hc1; case_decide as Hc2; intros He1 He2;
      simplify_eq; intros Hk; [done|..|by eapply Hu].
    + symmetry. by eapply Hx.
    + by eapply Hx.
Qed.

Lemma put_binding_spec b d : ports_ok d → Binding_ID b ≠ "" →
  ports_ok (put_binding b d) ∧
  match port_owner b d with
  | Some x => if decide (Binding_ID x = Binding_ID b)
              then put_binding b d = d <| port_bindings := <[Binding_ID b := stored b (Binding_CreatedAt x)]> (port_bindings d) |>
              else put_binding b d = d
  | None => put_binding b d = d <| port_bindings := <[Binding_ID b := stored b (timestamptz (Binding_CreatedAt b))]> (port_bindings d) |>
  end.
Proof.
  intros Hok Hne. unfold put_binding. destruct (port_owner b d) as [x|] eqn:Ho.
  - case_decide as Hid; [|done]. split; [|done]. apply (filed_ok d (stored b (Binding_CreatedAt x))); [done| |done].
    apply port_owner_Some in Ho as [Hx Hk]; [|done]. intros k c Hc Hkc.
    change (Binding_ID (stored b (Binding_CreatedAt x))) with (Binding_ID b). rewrite <-Hid.
    eapply (po_unique _ Hok); [done..|]. by rewrite Hkc, Hk.
  - split; [|done]. apply (filed_ok d (stored b (timestamptz (Binding_CreatedAt b)))); [done| |done].
    intros k c Hc Hkc. by destruct (port_owner_None _ _ _ _ Ho Hc).
Qed.

Lemma insert_binding_inv b d (w : W) r err d' w' : insert_binding b (d, w) = (r, err, (d', w')) →
  err = None ∧ r = b ∧ insert_allowed b d = true ∧ d' = put_binding b d ∨ err ≠ None ∧ err ≠ Some ErrPortConflict ∧ d' = d.
Proof.
  intros (e & [d1 w1] & (-> & He)%execute_inv & Hk)%mthen_inv. apply mret_inv in Hk as [Hk [= <- <-]].
  destruct He as [(Ha & -> & ->)|(_ & -> & ->)]; injection Hk as <- <-; [by left|by right].
Qed.

Lemma reserved_fields b now : Binding_ID (reserved b now) ≠ "" ∧ port_key (reserved b now) = port_key b ∧
  (Binding_ID b ≠ "" → Binding_ID (reserved b now) = Binding_ID b).
Proof. unfold reserved. split_and!; repeat case_decide; try done; by destruct (IsZero _). Qed.

(** The registry and the reservations under way, which have found their port free. *)
Inductive ports_step : relation (deploy_db * list PortBinding) :=
  | step_chosen b now d p : taken_by_other b d = false → ports_step (d, p) (d, reserved b now :: p)
  | step_inserted b d p1 p2 (w : W) out d' w' : insert_binding b (d, w) = (out, (d', w')) →
      ports_step (d, p1 ++ b :: p2) (d', p1 ++ p2)
  | step_released id d p (w : W) out d' w' : pg_Release true id (d, w) = (out, (d', w')) → ports_step (d, p) (d', p).

Definition registry_ok (s : deploy_db * list PortBinding) : Prop :=
  ports_ok s.1 ∧ Forall (λ b, Binding_ID b ≠ "") s.2.

Lemma ports_step_ok s s' : ports_step s s' → registry_ok s → registry_ok s'.
Proof.
  intros Hs [Hok Hp]. destruct Hs as [b now d p _|b d p1 p2 w [r err] d' w' Hi|id d p w out d' w' Hr]; cbn [fst snd] in *.
  - split; [done|]. constructor; [apply reserved_fields|done].
  - apply Forall_app in Hp as [Hp1 [Hb Hp2]%Forall_cons]. split; [|by apply Forall_app].
    apply insert_binding_inv in Hi as [(_ & _ & _ & ->)|(_ & _ & ->)]; [by apply put_binding_spec|done].
  - split; [|done]. unfold pg_Release, pg.with_db, inside in Hr. cbn [fst snd] in Hr.
    destruct (port_bindings d !! id); injection Hr as <- <- <-; [|done]. destruct Hok as [Hf Hn Hu].
    split; cbn [fst port_bindings set_field].
    + intros k b [_ Hb]%lookup_delete_Some. by apply Hf.
    + apply lookup_delete_None. by right.
    + intros k1 b1 k2 b2 [_ H1']%lookup_delete_Some [_ H2']%lookup_delete_Some. by eapply Hu.
Qed.

(** C21: Ports in Postgres are exclusive.  In every state the registry reaches, however the
    statements of reservations and releases come between one another, rows are filed under
    their identifiers and no two have the same protocol and port.  A reservation that no
    other comes between is refused as a conflict exactly when another binding has the port;
    if it succeeds the binding it answers is the row of its identifier and no other row has
    changed, and if it fails nothing has. *)
Theorem pg_ports_exclusive d0 d p b (w : W) r err d' w' :
  port_bindings d0 = ∅ → rtc ports_step (d0, []) (d, p) →
  pg_Reserve true b (d, w) = (r, err, (d', w')) →
  ports_ok d ∧
  (err = Some ErrPortConflict ↔ ∃ k x, port_bindings d !! k = Some x ∧ port_key x = port_key b ∧ k ≠ Binding_ID b) ∧
  match err with
  | Some _ => d' = d
  | None => port_key r = port_key b ∧ (Binding_ID b ≠ "" → Binding_ID r = Binding_ID b) ∧
      (∃ created, port_bindings d' !! Binding_ID r = Some (stored r created)) ∧
      ∀ k, k ≠ Binding_ID r → port_bindings d' !! k = port_bindings d !! k
  end.
Proof.
  intros Hempty Hrun Hres. assert (registry_ok (d, p)) as [Hok _].
  { assert (registry_ok (d0, [])) as Hok0.
    { split; [|done]. split; cbn [fst]; rewrite Hempty; [|apply lookup_empty|]; intros; simplify_map_eq. }
    clear Hempty Hres. remember (d, p) as s' eqn:Es. clear Es. induction Hrun; eauto using ports_step_ok. }
  cbn [fst] in Hok. split; [done|]. assert (taken_by_other b d = true ↔
    ∃ k x, port_bindings d !! k = Some x ∧ port_key x = port_key b ∧ k ≠ Binding_ID b) as Htaken.
  { unfold taken_by_other. split.
    - destruct (port_owner b d) as [x|] eqn:Ho; [|done]. intros [_ Hne%negb_true_iff%bool_decide_eq_false]%andb_true_iff.
      apply port_owner_Some in Ho as [Hx Hk]; [|done]. by exists (Binding_ID x), x.
    - intros (k & x & Hx & Hk & Hne). pose proof (po_filed _ Hok _ _ Hx) as Hid. subst k.
      rewrite (proj2 (port_owner_Some d b x Hok)) by done. rewrite (bool_decide_false (_ = Binding_ID b)) by done.
      rewrite bool_decide_false; [done|]. intros He. rewrite He, (po_named _ Hok) in Hx. done. }
  unfold pg_Reserve, pg.with_db in Hres. apply mthen_inv in Hres as (taken & dw & [Ht ->]%look_inv & Hres).
  cbn [fst] in Ht. subst taken. destruct (taken_by_other b d) eqn:Ht.
  { apply mret_inv in Hres as [[= _ <-] [= <- _]]. split; [|done]. split; [by intros _; apply Htaken|done]. }
  apply outside_then in Hres as (now & w1 & _ & Hins). destruct (reserved_fields b now) as (Hne & Hkey & Hid).
  apply insert_binding_inv in Hins as [(-> & -> & _ & ->)|(He & Hc & ->)].
  2: { split; [|by destruct err]. split; [done|]. intros Hex. by apply Htaken in Hex. }
  split. { split; [done|]. intros Hex. by apply Htaken in Hex. }
  split; [done|]. split; [done|].
  destruct (put_binding_spec (reserved b now) d Hok Hne) as [_ Hput].
  destruct (port_owner (reserved b now) d) as [x|] eqn:Ho.
  - apply port_owner_Some in Ho as [Hx Hk]; [|done]. rewrite Hkey in Hk.
    destruct (decide (Binding_ID x = Binding_ID (reserved b now))) as [Hxid|Hxid].
    + rewrite Hput. cbn [port_bindings set_field]. rewrite lookup_insert_eq. split; [by eexists|].
      intros k Hkn. by apply lookup_insert_ne.
    + exfalso. apply diff_false_true, Htaken. exists (Binding_ID x), x. split; [done|]. split; [done|].
      intros Hb. apply Hxid. destruct (decide (Binding_ID b = "")) as [He|He]; [|by rewrite Hid].
      rewrite Hb, He, (po_named _ Hok) in Hx. done.
  - rewrite Hput. cbn [port_bindings set_field]. rewrite lookup_insert_eq. split; [by eexists|].
    intros k Hkn. by apply lookup_insert_ne.
Qed.
End port_facts.

(** ** What is listed of a project *)

Section deployment_facts.
Context `{Database} `{Json} {W : Type}.

(** A new deployment of a known project, of no release or of one that is stored, is
    accepted, and is then listed for its project, to the microsecond, next to what was
    listed before; the lists of other projects are as they were. *)
Theorem SaveDeployment_listed x d (w : W) err d' w' :
  pg_SaveDeployment true x (d, w) = (err, (d', w')) → deployment_rows d !! Deployment_ID x = None →
  Deployment_ProjectID x ∈ projects d → null_or_there (release_rows d) (ReleaseID x) = true →
  err = None ∧ ∃ y, deployment_rows d' !! Deployment_ID x = Some y ∧
    (Deployment_ID y, Deployment_ProjectID y, Deployment_Status y, SourceRevision y, ReleaseID y) =
    (Deployment_ID x, Deployment_ProjectID x, Deployment_Status x, SourceRevision x, ReleaseID x) ∧
    ∀ project w2, ∃ l l' : list Deployment,
      pg_Deployments true project (d, w2) = ((l, None), (d, w2 : W)) ∧
      pg_Deployments true project (d', w2) = ((l', None), (d', w2)) ∧
      l' ≡ₚ (if decide (Deployment_ProjectID x = project) then [y] else []) ++ l.
Proof.
  intros Hs Hnew Hp Hr. unfold pg_SaveDeployment, pg.with_db in Hs. apply execute_inv in Hs as (_ & [(_ & -> & ->)|(Hno & _)]).
  2: { rewrite Hr, (bool_decide_true (_ ∈ _)), orb_true_r in Hno by done. done. }
  split; [done|].
  assert (∃ y, deployment_rows (put_deployment x d) = <[Deployment_ID x := y]> (deployment_rows d) ∧
    (Deployment_ID y, Deployment_ProjectID y, Deployment_Status y, SourceRevision y, ReleaseID y) =
    (Deployment_ID x, Deployment_ProjectID x, Deployment_Status x, SourceRevision x, ReleaseID x)) as (y & Hrows & Hy).
  { unfold put_deployment. rewrite Hnew. eexists. split; reflexivity. }
  exists y. rewrite Hrows. split; [by rewrite lookup_insert_eq|]. split; [done|]. intros project w2. do 2 eexists.
  split; [reflexivity|]. split; [reflexivity|]. cbn [fst].
  rewrite !sort_by_perm, Hrows, map_to_list_insert by done. cbn [fmap list_fmap snd]. rewrite filter_cons.
  injection Hy as _ -> _ _ _. by case_decide.
Qed.
End deployment_facts.

(** ** Witnesses and findings *)

#[local] Instance deploy_texts : Database := {| violation := ErrorString "violates"; collate := String.ltb |}.
#[local] Instance deploy_json : Json := {| json_map := id |}.
#[local] Instance unit_world : World unit := {| time_Now := mret 7000; ctx_Err := mret None |}.

Definition no_deployments : deploy_db := mkDeployDB {["shop"; "thief"]} ∅ ∅ ∅ ∅ ∅.
Definition web (id project protocol : string) : PortBinding :=
  zero_Binding <| Binding_ID := id |> <| Binding_ProjectID := project |> <| Binding_Protocol := protocol |>
    <| ExternalPort := 80 |>.
Definition with_web : deploy_db := (pg_Reserve (W := unit) true (web "web" "shop" "tcp") (no_deployments, tt)).2.1.

Lemma pg_ports_exclusive_witness :
  (pg_Reserve true (web "other" "thief" "tcp") (with_web, tt)).1.2 = Some ErrPortConflict.
Proof.
  destruct (pg_Reserve true (web "other" "thief" "tcp") (with_web, tt)) as [[r err] [d' []]] eqn:E.
  assert (rtc (ports_step (W := unit)) (no_deployments, []) (with_web, [])) as Hrun.
  { eapply rtc_l; [by apply (step_chosen (web "web" "shop" "tcp") 7000)|]. apply rtc_once.
    apply (step_inserted (reserved (web "web" "shop" "tcp") 7000) no_deployments [] [] tt
      (insert_binding (reserved (web "web" "shop" "tcp") 7000) (no_deployments, tt)).1 with_web tt).
    vm_compute. reflexivity. }
  destruct (pg_ports_exclusive no_deployments with_web [] (web "other" "thief" "tcp") tt r err d' tt eq_refl Hrun E)
    as (_ & Hconflict & _).
  cbn [fst snd]. apply Hconflict. exists "web", (default zero_Binding (port_bindings with_web !! "web")).
  split_and!; [vm_compute; reflexivity|reflexivity|discriminate].
Defined.

(** Two reservations of one port that both find it free are both answered with success, and
    only the first has the port. *)
Theorem reservation_lost :
  let first := web "web" "shop" "tcp" in
  let second := web "other" "thief" "tcp" in
  let r1 := insert_binding (reserved first 7000) (no_deployments, tt) in
  let r2 := insert_binding (reserved second 7000) r1.2 in
  taken_by_other first no_deployments = false ∧ taken_by_other second no_deployments = false ∧
  r1.1.2 = None ∧ r2.1.2 = None ∧ Binding_ID r2.1.1 = "other" ∧
  port_bindings r2.2.1 !! "other" = None ∧ (Binding_ProjectID <$> port_bindings r2.2.1 !! "web") = Some "shop".
Proof. cbv zeta. split_and!; vm_compute; reflexivity. Qed.

(** A binding is found by its identifier alone: who names the identifier of another
    project's binding takes its port. *)
Theorem port_taken_over :
  let r := pg_Reserve true (web "web" "thief" "tcp") (with_web, tt) in
  (Binding_ProjectID <$> port_bindings with_web !! "web") = Some "shop" ∧ r.1.2 = None ∧
  (Binding_ProjectID <$> port_bindings r.2.1 !! "web") = Some "thief".
Proof. split_and!; vm_compute; reflexivity. Qed.

(** The identifier that is made for a binding leaves out the protocol: a project cannot
    reserve the same port for a second protocol without naming the binding. *)
Theorem second_protocol_refused :
  let r1 := pg_Reserve true (web "" "shop" "tcp") (no_deployments, tt) in
  let r2 := pg_Reserve true (web "" "shop" "udp") r1.2 in
  r1.1.2 = None ∧ error_text <$> r2.1.2 = Some "reserve port: violates".
Proof. split; vm_compute; reflexivity. Qed.

Lemma SaveDeployment_listed_witness :
  let x := zero_Deployment <| Deployment_ID := "d1" |> <| Deployment_ProjectID := "shop" |> in
  Deployment_ID <$> (pg_Deployments true "shop" (pg_SaveDeployment true x (no_deployments, tt)).2).1.1 = ["d1"].
Proof.
  intros x. destruct (pg_SaveDeployment true x (no_deployments, tt)) as [err [d' []]] eqn:E.
  destruct (SaveDeployment_listed x no_deployments tt err d' tt E) as (_ & y & _ & Hy & Hl);
    [reflexivity|apply (bool_decide_eq_true_1 _); reflexivity|reflexivity|].
  destruct (Hl "shop" tt) as (l & l' & Hl0 & Hl1 & Hperm). cbn [snd]. rewrite Hl1. cbn [fst].
  injection Hl0 as <-. rewrite decide_True in Hperm by reflexivity.
  apply Permutation_singleton_r in Hperm. rewrite Hperm. cbn. by injection Hy as ->.
Defined.
End deploystore.
