(* ===== verification/FabricStore.v ===== *)
(** * The stores of the AI fabric and of model routing

    [src/internal/aifabric/store.go] and [src/internal/routing/store.go], on the tables of
    [src/migrations/006_ai_fabric.sql] and [003_model_routing.sql], as the stores of the
    handlers of [HttpFabric.v].  Snapshots are kept whole as JSON. *)

From stdpp Require Import strings.
From S2P Require Import Prelude GoStrings World Float RoutingTypes Routing Auth HttpApi AIFabric HttpFabric PgBase.
Import aifabric pg.

Module fabricstore.

(** The tables.  An empty text in a column that may be null is read back as empty. *)
Record runtime_row := mkRuntimeRow { Row_Spec : RuntimeSpec; Row_Capabilities : RuntimeCapabilities; Row_Status : RuntimeStatus }.
Record request_row := mkRequestRow {
  RRow_ProjectID : string; RRow_AgentID : string; RRow_TaskID : string; RRow_ModelID : string;
  RRow_RuntimeID : string; RRow_Status : string }.
Record usage_row := mkUsageRow { URow_Usage : Usage; URow_Millis : Z; URow_Local : bool }.
Record decision_row := mkDecisionRow {
  DRow_Request : routing.RoutingRequest; DRow_Decision : routing.RoutingDecision; DRow_CreatedAt : Z }.
Record event_row := mkEventRow { ERow_Session : string; ERow_Usage : routing.UsageEvent; ERow_Millis : Z; ERow_CreatedAt : Z }.
Record fabric_db := mkFabricDB {
  projects : gset string;
  ai_runtimes : gmap string runtime_row;
  ai_runtime_health : gmap string RuntimeHealth;
  ai_hardware : gmap string HostResources;
  ai_gpus : gmap string (string * GPUResource);
  ai_requests : gmap string request_row;
  ai_usage : gmap string usage_row;
  ai_settings : gmap string ProjectAISettings;
  routing_decisions : gmap string decision_row;
  model_usage : gmap string event_row
}.
#[global] Instance eta_fabric_db : Eta fabric_db := λ d,
  mkFabricDB (projects d) (ai_runtimes d) (ai_runtime_health d) (ai_hardware d) (ai_gpus d) (ai_requests d)
    (ai_usage d) (ai_settings d) (routing_decisions d) (model_usage d).
#[global] Instance eta_Usage : Eta Usage := λ u,
  mkUsage (InputTokens u) (OutputTokens u) (TotalTokens u) (EstimatedCost u) (CPUMillis u) (GPUMillis u) (TokensPerSecond u).
#[global] Instance eta_request_row : Eta request_row := λ r,
  mkRequestRow (RRow_ProjectID r) (RRow_AgentID r) (RRow_TaskID r) (RRow_ModelID r) (RRow_RuntimeID r) (RRow_Status r).

(** [Duration.Milliseconds] *)
Definition Milliseconds (d : Z) : Z := Z.quot d (10 ^ 6).

Section store.
Context `{Database} {W : Type} `{World W}.
(** Whether there is a database, and how a time is written as [20060102150405]. *)
Variable (DB : bool) (stamp : Z → string).
Notation C A := (M (fabric_db * W) A).
Notation with_db := (pg.with_db DB "ai fabric database unavailable").

(* src: internal/aifabric/store.go:13-27 (Store.SaveRuntime) *)
Definition pg_SaveRuntime (runtime : AIRuntime (fabric_db * W)) (health : RuntimeHealth) : C (option goerror) :=
  let spec := Spec runtime in
  with_db Some (and_then
    (execute (λ _, true) (λ d, d <| ai_runtimes := <[Spec_ID spec :=
       mkRuntimeRow spec (Runtime_Capabilities runtime) (Health_Status health)]> (ai_runtimes d) |>))
    (execute (λ d, bool_decide (is_Some (ai_runtimes d !! Spec_ID spec)))
       (λ d, d <| ai_runtime_health := <[Spec_ID spec := health]> (ai_runtime_health d) |>))).

(** The identifier is the second of the detection. *)
(* src: internal/aifabric/store.go:29-45 (Store.SaveHardware) *)
Definition pg_SaveHardware (resources : HostResources) : C (option goerror) :=
  let id := "hardware_" +:+ stamp (DetectedAt resources) in
  with_db Some (and_then
    (execute (λ d, bool_decide (ai_hardware d !! id = None))
       (λ d, d <| ai_hardware := <[id := resources]> (ai_hardware d) |>))
    (each (λ gpu, execute (λ _, true) (λ d, d <| ai_gpus := <[GPU_ID gpu :=
       (match ai_gpus d !! GPU_ID gpu with Some (first, _) => first | None => id end, gpu)]> (ai_gpus d) |>))
       (GPUs resources))).

Definition put_request (req : InferenceRequest) (status : string) (d : fabric_db) : fabric_db :=
  d <| ai_requests := <[Req_ID req := match ai_requests d !! Req_ID req with
         | Some r => r <| RRow_Status := status |>
         | None => mkRequestRow (Req_ProjectID req) (Req_AgentID req) (Req_TaskID req) (Req_ModelID req)
                     (Req_RuntimeID req) status
         end]> (ai_requests d) |>.
(** [local] is what the table of runtimes says, and must not be null. *)
Definition usage_allowed (req : InferenceRequest) (u : Usage) (d : fabric_db) : bool :=
  int4 (InputTokens u) && int4 (OutputTokens u) && int4 (TotalTokens u) &&
  bool_decide (is_Some (ai_runtimes d !! Req_RuntimeID req)).
Definition put_usage (req : InferenceRequest) (response : InferenceResponse) (d : fabric_db) : fabric_db :=
  let u := Resp_Usage response in
  let millis := Milliseconds (Resp_Latency response) in
  d <| ai_usage := <[Req_ID req := match ai_usage d !! Req_ID req with
         | Some r => mkUsageRow ((URow_Usage r) <| InputTokens := InputTokens u |> <| OutputTokens := OutputTokens u |>
                       <| TotalTokens := TotalTokens u |> <| EstimatedCost := EstimatedCost u |>) millis (URow_Local r)
         | None => mkUsageRow u millis (match ai_runtimes d !! Req_RuntimeID req with
                                        | Some r => Spec_Local (Row_Spec r) | None => false end)
         end]> (ai_usage d) |>.
(* src: internal/aifabric/store.go:47-58 (Store.SaveUsage) *)
Definition pg_SaveUsage (req : InferenceRequest) (response : InferenceResponse) (status : string) : C (option goerror) :=
  with_db Some (and_then (execute (λ _, true) (put_request req status))
    (execute (usage_allowed req (Resp_Usage response)) (put_usage req response))).

(** Every column but the key is written. *)
(* src: internal/aifabric/store.go:60-69 (Store.SaveProjectSettings) *)
Definition pg_SaveProjectSettings (s : ProjectAISettings) : C (option goerror) :=
  with_db Some (execute (λ _, true) (λ d, d <| ai_settings := <[Settings_ProjectID s := s]> (ai_settings d) |>)).
Definition zero_Settings : ProjectAISettings :=
  mkSettings "" "" "" (routing.RoutingPolicyOther "") (routing.PrivacyClassOther "") false float64.zero [] [] [].
(* src: internal/aifabric/store.go:70-84 (Store.ProjectSettings) *)
Definition pg_ProjectSettings (project : string) : C (ProjectAISettings * option goerror) :=
  with_db (λ e, (zero_Settings, Some e)) (look (λ d, match ai_settings d !! project with
    | Some s => (s, None)
    | None => (zero_Settings, Some (ErrorString "no rows in result set"))
    end)).
(* src: internal/aifabric/store.go:11-11 (Store) *)
Definition pg_fabric : httpfabric.Store (fabric_db * W) :=
  httpfabric.mkStore pg_SaveRuntime pg_SaveHardware pg_SaveUsage pg_SaveProjectSettings pg_ProjectSettings.

(** ** Routing *)

(* src: internal/routing/store.go:25-25 (DecisionID) *)
Definition DecisionID (now : Z) : string := "routing_" +:+ pretty (UnixNano now).
(** The server always has the database that this store does not ask for. *)
(* src: internal/routing/store.go:14-20 (Store.SaveDecision) *)
Definition pg_SaveDecision (id : string) (request : routing.RoutingRequest) (decision : routing.RoutingDecision)
    : C (option goerror) :=
  let! now := outside time_Now in
  execute (λ d, bool_decide (routing_decisions d !! id = None) && bool_decide (routing.Req_ProjectID request ∈ projects d))
    (λ d, d <| routing_decisions := <[id := mkDecisionRow request decision (timestamptz now)]> (routing_decisions d) |>).
(* src: internal/routing/store.go:21-24 (Store.SaveUsage) *)
Definition pg_SaveModelUsage (id session : string) (usage : routing.UsageEvent) : C (option goerror) :=
  let! now := outside time_Now in
  execute (λ d, bool_decide (model_usage d !! id = None) && int4 (routing.InputTokens usage) && int4 (routing.OutputTokens usage))
    (λ d, d <| model_usage := <[id := mkEventRow session usage (Milliseconds (routing.Usage_Duration usage)) (timestamptz now)]>
                (model_usage d) |>).
End store.
(** ** The settings of a project *)

Section settings.
Context `{Database} {W : Type}.
Variables (DB : bool) (stamp : Z → string).
Notation fabric := (Some (pg_fabric (W := W) DB stamp)).

(** Project AI settings survive the round trip through the database: settings that an
    update answers with are those of the project of the path, with a routing policy and a
    privacy policy, every later reading of that project's settings answers with exactly
    them, and the settings of no other project change. *)
Theorem settings_kept project input m d w s d' w' :
  httpfabric.aiUpdateProjectSettings fabric project (Ok input) (m, (d, w)) = (httpapi.Answer (200, s), (m, (d', w'))) →
  Settings_ProjectID s = project ∧
  Settings_RoutingPolicy s ≠ routing.RoutingPolicyOther "" ∧ Settings_PrivacyPolicy s ≠ routing.PrivacyClassOther "" ∧
  (∀ m1 w1, httpfabric.aiProjectSettings fabric project (m1, (d', w1)) = (httpapi.Answer (200, s), (m1, (d', w1)))) ∧
  ∀ q, q ≠ project → ai_settings d' !! q = ai_settings d !! q.
Proof.
  unfold httpfabric.aiUpdateProjectSettings, httpfabric.decoded, httpfabric.aiProjectSettings.
  cbn [httpfabric.SaveProjectSettings httpfabric.ProjectSettings pg_fabric].
  set (s1 := input <| Settings_ProjectID := project |>).
  set (s2 := if decide (Settings_RoutingPolicy s1 = _) then _ else s1).
  set (s3 := if decide (Settings_PrivacyPolicy s2 = _) then _ else s2).
  assert (Settings_ProjectID s3 = project ∧ Settings_RoutingPolicy s3 ≠ routing.RoutingPolicyOther "" ∧
          Settings_PrivacyPolicy s3 ≠ routing.PrivacyClassOther "") as (Hp & Hr & Hv).
  { subst s3 s2. destruct (decide (Settings_RoutingPolicy s1 = _)); destruct (decide (Settings_PrivacyPolicy _ = _)); done. }
  clearbody s3. intros (err & [d1 w1] & Hsave & Hk)%outside_then.
  unfold pg_SaveProjectSettings in Hsave.
  apply with_db_inv in Hsave as [[e [= -> ->]]|[-> Hsave]]; [by unfold httpfabric.writeError in Hk|].
  apply execute_inv in Hsave as [-> [(_ & -> & ->)|(? & _)]]; [|done].
  injection Hk as <- <- <-. split_and!; [done..| |].
  - intros m1 w1. unfold pg_ProjectSettings, pg.with_db, mthen, outside, look, inside. cbn.
    by rewrite Hp, lookup_insert_eq.
  - intros q Hq. cbn. by rewrite Hp, lookup_insert_ne.
Qed.
End settings.

Definition no_fabric : fabric_db := mkFabricDB ∅ ∅ ∅ ∅ ∅ ∅ ∅ ∅ ∅ ∅.
#[local] Instance example_database : Database := { violation := ErrorString "violates"; collate := String.ltb }.

Lemma settings_kept_witness :
  let store := Some (pg_fabric (W := unit) true (λ _, "20260101000000")) in
  let input := zero_Settings <| Settings_PrivacyPolicy := routing.Private |> <| Settings_LocalOnly := true |> in
  let m := NewManager (W := fabric_db * unit) None in
  (httpfabric.aiProjectSettings store "shop"
     (httpfabric.aiUpdateProjectSettings store "shop" (Ok input) (m, (no_fabric, tt))).2).1 =
  httpapi.Answer (200, input <| Settings_ProjectID := "shop" |> <| Settings_RoutingPolicy := routing.Balanced |>).
Proof.
  intros store input m.
  destruct (settings_kept true (λ _, "20260101000000") "shop" input m no_fabric tt _ _ _ eq_refl) as (_ & _ & _ & Hread & _).
  exact (f_equal fst (Hread m tt)).
Defined.

(** ** The record of usage *)

(** The usage of a request on a runtime that was never saved is not recorded: [local] is
    read from the table of runtimes and must not be null.  Only a request for the health of
    the runtime saves it. *)
Theorem usage_not_recorded `{Database} {W} req response status d (w : W) :
  ai_runtimes d !! Req_RuntimeID req = None →
  ∃ d', pg_SaveUsage true req response status (d, w) = (Some violation, (d', w)) ∧ ai_usage d' = ai_usage d.
Proof.
  intros Hnone. unfold pg_SaveUsage, pg.with_db, and_then, execute, inside, mthen. cbn [fst snd].
  replace (usage_allowed _ _ _) with false; [by eexists|].
  unfold usage_allowed. cbn. rewrite Hnone, bool_decide_false by (intros [? [=]]). by rewrite !andb_false_r.
Qed.

Definition lab_spec : RuntimeSpec := mkSpec "lab" "ollama" "http://localhost" true false ∅.
Definition with_lab : fabric_db :=
  no_fabric <| ai_runtimes := {[ "lab" := mkRuntimeRow lab_spec (mkCapabilities true true true true true true true true true true true) RuntimeOnline ]} |>.
Definition ask (id project : string) : InferenceRequest :=
  mkRequest id project "" "" "small" "lab" [] "" [] None 0 ∅ ∅ [] false.
Definition spent (id : string) (tokens : Z) : InferenceResponse :=
  mkResponse id "small" "lab" "" [] (zero_Usage <| TotalTokens := tokens |>) 0 "stop" ∅.

(** The caller chooses the identifier of a request, and no identifier is one too: a request
    of another project with the identifier of an earlier one replaces its usage, and the
    request it is recorded under stays that of the first project. *)
Theorem usage_taken_over :
  let d1 := (pg_SaveUsage (W := unit) true (ask "" "shop") (spent "" 900) "COMPLETED" (with_lab, tt)).2 in
  let d2 := (pg_SaveUsage true (ask "" "thief") (spent "" 1) "COMPLETED" d1).2.1 in
  RRow_ProjectID <$> ai_requests d2 !! "" = Some "shop" ∧
  (TotalTokens ∘ URow_Usage) <$> ai_usage d1.1 !! "" = Some 900 ∧
  (TotalTokens ∘ URow_Usage) <$> ai_usage d2 !! "" = Some 1 ∧
  size (ai_usage d2) = 1%nat.
Proof. split_and!; vm_compute; reflexivity. Qed.

Lemma usage_not_recorded_witness :
  (pg_SaveUsage true (ask "r1" "shop") (spent "r1" 900) "COMPLETED" (no_fabric, tt)).1 = Some violation.
Proof. by destruct (usage_not_recorded (ask "r1" "shop") (spent "r1" 900) "COMPLETED" no_fabric tt eq_refl) as (d' & -> & _). Defined.

(** Two looks at the hardware within a second have one identifier, and the second is not kept. *)
Theorem hardware_of_a_second `{Database} {W} stamp resources d (w : W) :
  is_Some (ai_hardware d !! ("hardware_" +:+ stamp (DetectedAt resources))) →
  pg_SaveHardware true stamp resources (d, w) = (Some violation, (d, w)).
Proof.
  intros [h Hh]. unfold pg_SaveHardware, pg.with_db, and_then, execute, inside, mthen. cbn [fst snd].
  by rewrite Hh.
Qed.
End fabricstore.
