(* ===== verification/AuditStore.v ===== *)
(** * The audit

    [src/internal/audit/store.go] on the table of [src/migrations/014_authentication.sql],
    the endpoint that lists the audit of a project ([src/internal/httpapi/audit.go]), and the
    sink of the deployments that writes their events down
    ([src/internal/deployment/audit.go]). *)

From Stdlib Require Import Ascii Sorted.
From stdpp Require Import strings.
From S2P Require Import Prelude GoStrings World Auth HttpApi HttpBase PgBase.
Import crypto auth httpapi httpbase pg.

Module auditstore.

(* src: internal/audit/store.go:12-23 (Event) *)
Record Event := mkEvent {
  Event_ID : string;
  ActorUserID : option string;
  Action : string;
  ResourceType : string;
  ResourceID : option string;
  Event_ProjectID : option string;
  Outcome : string;
  Event_Metadata : gmap string any;
  IPAddress : option string;
  Event_CreatedAt : Z
}.
#[global] Instance eta_Event : Eta Event := λ e,
  mkEvent (Event_ID e) (ActorUserID e) (Action e) (ResourceType e) (ResourceID e) (Event_ProjectID e) (Outcome e)
    (Event_Metadata e) (IPAddress e) (Event_CreatedAt e).
(* src: internal/audit/store.go:25-27 (Store) *)
Record Store (W : Type) := mkStore { ListProject : string → Z → M W (list Event * option goerror) }.
Arguments mkStore {W}.
Arguments ListProject {W}.

(** A row, and whether its metadata can be read as those of an event: other JSON than an
    object or [null] cannot. *)
Record audit_row := mkRow { Row : Event; Is_object : bool }.
Record audit_db := mkAuditDB { audit_events : gmap string audit_row }.

Section store.
Context `{Database} {W : Type}.
Variable DB : bool.
Notation C A := (M (audit_db * W) A).
Notation with_db := (pg.with_db DB "audit database unavailable").
Notation newer := (λ a b, Event_CreatedAt (Row b) <? Event_CreatedAt (Row a)).

Definition of_project (project : string) (d : audit_db) : list audit_row :=
  filter (λ r, Event_ProjectID (Row r) = Some project) (map_to_list (audit_events d)).*2.
(* src: internal/audit/store.go:35-37 (PostgresStore.ListProject) *)
Definition limited (limit : Z) : Z := if (limit <? 1) || (200 <? limit) then 100 else limit.
(* src: internal/audit/store.go:31-62 (PostgresStore.ListProject) *)
Definition pg_ListProject (project : string) (limit : Z) : C (list Event * option goerror) :=
  with_db (λ e, ([], Some e)) (look (λ d,
    let rows := take (Z.to_nat (limited limit)) (sort_by newer (of_project project d)) in
    if forallb Is_object rows then (Row <$> rows, None)
    else ([], Some (ErrorString "json: cannot unmarshal into Go value")))).
(* src: internal/audit/store.go:29-29 (PostgresStore) *)
Definition pg_audit : Store (audit_db * W) := mkStore pg_ListProject.
End store.

(** ** The endpoint *)

(** [strconv.Atoi], with its error. *)
Definition Atoi (s : string) : option Z :=
  let digits s := if decide (s = "") then None else strconv.parse_digits 0 s in
  let z := match s with
           | String "-"%char s => Z.opp <$> digits s
           | String "+"%char s => digits s
           | _ => digits s
           end in
  match z with Some z => if (- 2 ^ 63 <=? z) && (z <? 2 ^ 63) then Some z else None | None => None end.

Section handler.
Context {W : Type} `{World W} `{Sha256}.
Variables (AuthOf : option (AuthService W)).
Notation C A := (M (audit_db * W) A).
Notation reply A := (C (Response (Z * A))).
Variable AuditStore : option (Store (audit_db * W)).

(** The number of events that the query asks for. *)
(* src: internal/httpapi/audit.go:20-28 (listProjectAudit) *)
Definition asked (limit : string) : option Z :=
  if decide (limit = "") then Some 100
  else match Atoi limit with
       | Some n => if (n <? 1) || (200 <? n) then None else Some n
       | None => None
       end.
(* src: internal/httpapi/audit.go:11-35 (listProjectAudit) *)
Definition listProjectAudit (r : Request) (limit : string) : reply (list Event) :=
  let project := PathValue r "project" in
  permitted AuthOf r project PermissionRead (
    available AuditStore "audit store unavailable" (λ store,
    match asked limit with
    | None => writeError 400 (ErrorString "limit must be between 1 and 200")
    | Some n =>
        let! (items, err) := ListProject store project n in
        match err with Some e => writeError 500 e | None => writeJSON 200 items end
    end)).

(** A request that is answered was permitted. *)
Lemma permitted_answer {A} r project permission (k : reply A) s w a s' w' :
  permitted AuthOf r project permission k (s, w) = (Answer a, (s', w')) →
  ∃ w1, passes AuthOf r project permission w w1 ∧ k (s, w1) = (Answer a, (s', w')).
Proof.
  intros (denied & w1 & Hr & Hk)%outside_then. destruct denied as [e|].
  - exfalso. apply mret_inv in Hk as [-> _]. revert Hr. unfold requireProjectPermission.
    destruct (Principal r), AuthOf; [|by intros [[=] _]%mret_inv..].
    intros ([err|] & w2 & _ & [[= Hx] _]%mret_inv)%mthen_inv. by destruct (_ || _).
  - exists w1. by split; [apply (passes_any AuthOf (Z * A)) in Hr|].
Qed.

Lemma asked_bounds limit n : asked limit = Some n → 1 ≤ n ≤ 200 ∧ limited n = n.
Proof.
  unfold asked, limited. case_decide; [intros [= <-]; split; [lia|done]|].
  destruct (Atoi limit) as [z|]; [|done]. destruct (_ || _) eqn:Hz; intros [= <-]. rewrite Hz.
  apply orb_false_iff in Hz. lia.
Qed.

(** The audit of a project goes to callers who may read it, changes nothing, and shows the
    newest events of the project and of no other, the newest first: as many as were asked
    for, between 1 and 200 and 100 by default, or all there are. *)
Theorem audit_newest `{Database} DB r limit d w items d' w' :
  AuditStore = Some (pg_audit DB) →
  listProjectAudit r limit (d, w) = (Answer (200, items), (d', w')) →
  d' = d ∧ passes AuthOf r (PathValue r "project") PermissionRead w w' ∧
  ∃ n rest, asked limit = Some n ∧ 1 ≤ n ≤ 200 ∧ Z.of_nat (length items) ≤ n ∧ (rest ≠ [] → Z.of_nat (length items) = n) ∧
    items ++ rest ≡ₚ Row <$> of_project (PathValue r "project") d ∧
    StronglySorted (λ a b, Event_CreatedAt b ≤ Event_CreatedAt a) (items ++ rest).
Proof.
  intros Hstore (w1 & Hp & Hk)%permitted_answer. rewrite Hstore in Hk. cbn [available] in Hk.
  destruct (asked limit) as [n|] eqn:Hn; [|done]. destruct (asked_bounds _ _ Hn) as [Hb Hl].
  apply mthen_inv in Hk as ([l err] & [d1 w2] & Hlist & Hk). destruct err; [done|].
  unfold writeJSON in Hk. apply mret_inv in Hk as [[= ->] [= -> ->]].
  cbn [ListProject pg_audit] in Hlist. unfold pg_ListProject in Hlist.
  apply with_db_inv in Hlist as [[e [=]]|[_ [Hx [= -> ->]]%look_inv]].
  split; [done|]. split; [done|]. revert Hx. rewrite Hl. set (all := sort_by _ _). cbn zeta.
  destruct (forallb _ _); intros [= ->]. exists n, (Row <$> drop (Z.to_nat n) all).
  rewrite <-fmap_app, take_drop, length_fmap, length_take. split_and!; [done|lia|lia|lia| | |].
  - intros Hrest. assert (drop (Z.to_nat n) all ≠ []) as Hne by (intros E; by rewrite E in Hrest).
    destruct (decide (length all <= Z.to_nat n)%nat) as [Hle|]; [by rewrite drop_ge in Hne|lia].
  - unfold all. by rewrite sort_by_perm.
  - assert (StronglySorted (λ a b, Event_CreatedAt (Row b) ≤ Event_CreatedAt (Row a)) all) as Hs.
    { eapply StronglySorted_impl; [|apply sort_by_sorted]; cbn; intros; lia. }
    clear -Hs. induction Hs as [|row rows _ IH Hrow]; [constructor|]. rewrite fmap_cons. constructor; [done|].
    by apply Forall_fmap.
Qed.
End handler.

(** ** The events of deployments *)

Section composite.
Context `{Database} {W D : Type}.
(** The bus and the database, each of which may be missing, and whether the data can be
    written as JSON. *)
Variables (Bus : option (string → string → D → M W unit)) (DB : bool) (marshals : D → bool).
(** The rows of [deployment_events], the latest last. *)
Record logged := mkLogged { Logged_Project : string; Logged_Type : string; Logged_Payload : D }.
(** The error of the statement is ignored. *)
(* src: internal/deployment/audit.go:16-24 (CompositeAuditSink.Publish) *)
Definition Composite_Publish (kind project : string) (data : D) : M (list logged * W) unit :=
  let! _ := announce Bus kind project data in
  if DB then let! _ := execute (λ _, marshals data) (λ rows, rows ++ [mkLogged project kind data]) in mret tt
  else mret tt.
End composite.

(** ** Witness *)

#[local] Instance example_database : Database := { violation := ErrorString "violates"; collate := String.ltb }.
Definition event (id : string) (at_ : Z) : Event :=
  mkEvent id None "project.start" "project" (Some "shop") (Some "shop") "success" ∅ None at_.
Definition three_events : audit_db :=
  mkAuditDB {[ "e1" := mkRow (event "e1" 5) true; "e2" := mkRow (event "e2" 9) true; "e3" := mkRow (event "e3" 7) true ]}.
#[local] Instance audit_world : World unit := {| time_Now := mret 0; ctx_Err := mret None |}.
#[local] Instance audit_sha : Sha256 := λ s, s.
Definition an_admin : User := mkUser "ann" "" "" RoleAdmin "active" 0 0 None.
Definition audit_request : Request :=
  mkRequest "GET" "/api/projects/shop/audit" None {["project" := "shop"]} (Some (mkPrincipal an_admin their_session)).
Definition audit_of (limit : string) := listProjectAudit (Some no_members) (Some (pg_audit true)) audit_request limit.

Lemma audit_newest_witness :
  (audit_of "2" (three_events, tt)).1 = Answer (200, [event "e2" 9; event "e3" 7]) ∧
  StronglySorted (λ a b, Event_CreatedAt b ≤ Event_CreatedAt a) [event "e2" 9; event "e3" 7].
Proof.
  assert (audit_of "2" (three_events, tt) = (Answer (200, [event "e2" 9; event "e3" 7]), (three_events, tt))) as E
    by (vm_compute; reflexivity).
  split; [by rewrite E|].
  destruct (audit_newest (Some no_members) (Some (pg_audit true)) true audit_request "2" three_events tt _ _ _ eq_refl E)
    as (_ & _ & n & rest & _ & _ & _ & _ & _ & Hs).
  apply StronglySorted_inv in Hs as [Hs Hf]. constructor; [by repeat constructor|]. constructor; [done|constructor].
Defined.

(** A limit outside the bounds is refused, and is no error of the store. *)
Example limits_refused :
  (λ s, (audit_of s (three_events, tt)).1) <$> ["0"; "201"; "ten"; "-"; "99999999999999999999"] =
  replicate 5 (Error 400 "limit must be between 1 and 200" false).
Proof. vm_compute. reflexivity. Qed.
End auditstore.
