(* ===== verification/LXC.v ===== *)
(** * The LXC provider

    [src/adapters/runtimes/lxc/provider.go]: the implementation of the runtime interface of
    [Runtime.v] the server uses.  It runs the tools of LXC; how a binary is run with its
    arguments, and what its output and error are, is a parameter. *)

From Stdlib Require Import Ascii.
From stdpp Require Import strings.
From S2P Require Import Prelude GoStrings World Runtime.

Module lxc.

(* src: adapters/runtimes/lxc/provider.go:15-23 (Provider) *)
Record Provider := mkProvider {
  LXCPath : string;
  CreateBinary : string;
  StartBinary : string;
  StopBinary : string;
  InfoBinary : string;
  AttachBinary : string;
  DestroyBinary : string
}.
#[global] Instance eta_Provider : Eta Provider := λ p,
  mkProvider (LXCPath p) (CreateBinary p) (StartBinary p) (StopBinary p) (InfoBinary p) (AttachBinary p) (DestroyBinary p).
(* src: adapters/runtimes/lxc/provider.go:25-27 (New) *)
Definition New : Provider :=
  mkProvider "" "lxc-create" "lxc-start" "lxc-stop" "lxc-info" "lxc-attach" "lxc-destroy".
(* src: adapters/runtimes/lxc/provider.go:28-28 (Provider.Name) *)
Definition Name : string := "lxc".

(* src: adapters/runtimes/lxc/provider.go:116-121 (wrap) *)
Definition wrap (id operation : string) (err : option goerror) : option goerror :=
  wrap_prefix ("lxc " +:+ operation +:+ " " +:+ id +:+ ": ") <$> err.
(* src: adapters/runtimes/lxc/provider.go:123-132 (commandError) *)
Definition commandError (id operation output : string) (err : option goerror) : option goerror :=
  match err with
  | None => None
  | Some e =>
      let message := strings.TrimSpace output in
      if decide (message = "") then wrap id operation err
      else Some (WrapError ("lxc " +:+ operation +:+ " " +:+ id +:+ ": " +:+ error_text e +:+ ": " +:+ message) e)
  end.

Section provider.
Context `{strings.GoUnicode} {W : Type} (p : Provider).
(** [exec.CommandContext(ctx, binary, args...).CombinedOutput()] *)
Variable exec_output : string → list string → M W (string * option goerror).

(* src: adapters/runtimes/lxc/provider.go:106-111 (Provider.withPath) *)
Definition withPath (args : list string) : list string :=
  if decide (LXCPath p = "") then args else ["-P"; LXCPath p] ++ args.
(* src: adapters/runtimes/lxc/provider.go:113-115 (Provider.run) *)
Definition run (binary : string) (args : list string) : M W (string * option goerror) := exec_output binary args.

(* src: adapters/runtimes/lxc/provider.go:58-61 (Provider.Start) *)
Definition Start (id : string) : M W (option goerror) :=
  let! (_, err) := run (StartBinary p) (withPath ["-n"; id; "-d"]) in mret (wrap id "start" err).
(* src: adapters/runtimes/lxc/provider.go:62-65 (Provider.Stop) *)
Definition Stop (id : string) : M W (option goerror) :=
  let! (_, err) := run (StopBinary p) (withPath ["-n"; id; "-k"]) in mret (wrap id "stop" err).
(* src: adapters/runtimes/lxc/provider.go:66-71 (Provider.Restart) *)
Definition Restart (id : string) : M W (option goerror) :=
  let! err := Stop id in
  match err with Some e => mret (Some e) | None => Start id end.
(* src: adapters/runtimes/lxc/provider.go:72-75 (Provider.Destroy) *)
Definition Destroy (id : string) : M W (option goerror) :=
  let! (_, err) := run (DestroyBinary p) (withPath ["-n"; id]) in mret (wrap id "destroy" err).

Definition zero_Runtime : runtime.Runtime := runtime.mkRuntime "" "" (runtime.StatusOther "").
(* src: adapters/runtimes/lxc/provider.go:30-57 (Provider.Create) *)
Definition Create (spec : runtime.Spec) : M W (runtime.Runtime * option goerror) :=
  let name := runtime.Spec_Name spec in
  let failed err := mret (zero_Runtime, err) in
  if decide (strings.TrimSpace name = "") then failed (Some (ErrorString "runtime name is required"))
  else
    let! (output, err) := run (CreateBinary p)
      (withPath ["-n"; name; "-t"; "download"; "--"; "-d"; "ubuntu"; "-r"; "jammy"; "-a"; "amd64"]) in
    if err : option goerror then failed (commandError name "create" output err)
    else
      let! err := Start name in
      if err : option goerror then let! _ := Destroy name in failed err
      else
        let! (output, err) := run (AttachBinary p) (withPath ["-n"; name; "--"; "mkdir"; "-p"; "/workspace"]) in
        if err : option goerror then
          let! _ := Stop name in let! _ := Destroy name in failed (commandError name "workspace-init" output err)
        else
          let! err := Stop name in
          if err : option goerror then let! _ := Destroy name in failed err
          else
            let! (output, err) := if 0 <? runtime.Spec_CPU spec
              then run "lxc-cgroup" (withPath ["-n"; name; "cpuset.cpus"; "0-" +:+ pretty (runtime.Spec_CPU spec - 1)])
              else mret ("", None) in
            if err : option goerror then failed (commandError name "cpu-limit" output err)
            else mret (runtime.mkRuntime name Name runtime.StatusStopped, None).

(* src: adapters/runtimes/lxc/provider.go:76-89 (Provider.Status) *)
Definition GetStatus (id : string) : M W (runtime.Status * option goerror) :=
  let! (out, err) := run (InfoBinary p) (withPath ["-n"; id]) in
  mret (match err with
        | Some _ => (runtime.StatusUnknown, wrap id "status" err)
        | None =>
            let text := strings.ToLower out in
            if strings.Contains text "state: running" then (runtime.StatusRunning, None)
            else if strings.Contains text "state: stopped" then (runtime.StatusStopped, None)
            else (runtime.StatusUnknown, None)
        end).
(** The limit of time is the one of the context, which ends the process. *)
(* src: adapters/runtimes/lxc/provider.go:90-105 (Provider.Exec) *)
Definition Exec (limit : option Z) (id : string) (cmd : runtime.Command) : M W (runtime.ExecResult * option goerror) :=
  if decide (runtime.Argv cmd = []) then mret (runtime.zero_ExecResult, Some (ErrorString "command is required"))
  else
    let dir := if decide (runtime.WorkingDir cmd = "") then [] else ["--cwd"; runtime.WorkingDir cmd] in
    let! (out, err) := run (AttachBinary p) (withPath ["-n"; id] ++ dir ++ ["--"] ++ runtime.Argv cmd) in
    mret (match err with
          | Some _ => (runtime.mkExecResult 1 "" out, wrap id "exec" err)
          | None => (runtime.mkExecResult 0 out "", None)
          end).

(** As a runtime provider. *)
Definition provider : runtime.Provider W := {|
  runtime.Name := Name; runtime.Create := Create; runtime.Start := Start; runtime.Stop := Stop;
  runtime.Restart := Restart; runtime.Destroy := Destroy; runtime.GetStatus := GetStatus; runtime.Exec := Exec
|}.
End provider.

(** ** Creating a container *)

Section created.
Context `{strings.GoUnicode} {W : Type} (p : Provider) (exec_output : string → list string → M W (string * option goerror)).
Notation call := (string * list string)%type.

(** The tools, with the calls that were made. *)
Definition traced (binary : string) (args : list string) : M (list call * W) (string * option goerror) :=
  let! _ := modify (λ calls, calls ++ [(binary, args)]) in outside (exec_output binary args).
Lemma traced_inv binary args calls w out calls' w' :
  traced binary args (calls, w) = (out, (calls', w')) → calls' = calls ++ [(binary, args)].
Proof. intros (u & sw & ->%modify_inv & [_ Hc]%outside_inv)%mthen_inv. exact Hc. Qed.

(** A tool, and what is made of its error. *)
Lemma tool_inv id operation binary args calls w err calls' w' :
  (let! (_, err) := run traced binary args in mret (wrap id operation err)) (calls, w) = (err, (calls', w')) →
  calls' = calls ++ [(binary, args)].
Proof.
  intros ([out e] & [calls1 w1] & ->%traced_inv & Hk)%mthen_inv. by apply mret_inv in Hk as [_ [= <- _]].
Qed.

Definition create_call (name : string) : call :=
  (CreateBinary p, withPath p ["-n"; name; "-t"; "download"; "--"; "-d"; "ubuntu"; "-r"; "jammy"; "-a"; "amd64"]).
Definition start_call (name : string) : call := (StartBinary p, withPath p ["-n"; name; "-d"]).
Definition init_call (name : string) : call := (AttachBinary p, withPath p ["-n"; name; "--"; "mkdir"; "-p"; "/workspace"]).
Definition stop_call (name : string) : call := (StopBinary p, withPath p ["-n"; name; "-k"]).
Definition destroy_call (name : string) : call := (DestroyBinary p, withPath p ["-n"; name]).
Definition limit_call (name : string) (cpu : Z) : call :=
  ("lxc-cgroup", withPath p ["-n"; name; "cpuset.cpus"; "0-" +:+ pretty (cpu - 1)]).

(** A container is answered only when it was created, started, given its workspace,
    stopped and, when there is a limit of processors, limited, in this order and with
    nothing else run; it is then stopped, and has the name that was asked for.  A failure
    after the container exists ends in destroying it, stopped first if it runs - but for
    that of the limit, which leaves the container there.  A blank name runs nothing. *)
Theorem Create_correct spec calls w rt err calls' w' :
  Create p traced spec (calls, w) = ((rt, err), (calls', w')) →
  let name := runtime.Spec_Name spec in
  let cpu := runtime.Spec_CPU spec in
  let made := [create_call name; start_call name; init_call name; stop_call name] in
  ∃ new, calls' = calls ++ new ∧
  match err with
  | None => strings.TrimSpace name ≠ "" ∧ rt = runtime.mkRuntime name "lxc" runtime.StatusStopped ∧
      new = made ++ (if 0 <? cpu then [limit_call name cpu] else [])
  | Some _ => rt = zero_Runtime ∧
      (strings.TrimSpace name = "" ∧ new = [] ∨
       new = take 1 made ∨
       new = take 2 made ++ [destroy_call name] ∨
       new = take 3 made ++ [stop_call name; destroy_call name] ∨
       new = take 4 made ++ [destroy_call name] ∨
       0 < cpu ∧ new = made ++ [limit_call name cpu])
  end.
Proof.
  unfold Create. cbn zeta. case_decide as Hname.
  { intros [[= <- <-] [= <- _]]%mret_inv. exists []. rewrite app_nil_r. auto. }
  intros ([out e1] & [c1 w1] & H1%traced_inv & Hk)%mthen_inv.
  destruct e1 as [e1|].
  { apply mret_inv in Hk as [[= <- <-] [= <- _]]. eexists. split; [exact H1|]. unfold commandError. case_decide; naive_solver. }
  apply mthen_inv in Hk as (e2 & [c2 w2] & H2%tool_inv & Hk). subst c1 c2. rewrite <-!app_assoc in Hk.
  destruct e2 as [e2|].
  { apply mthen_inv in Hk as (e & [c3 w3] & H3%tool_inv & Hk). apply mret_inv in Hk as [[= <- <-] [= <- _]].
    rewrite H3, <-!app_assoc. eexists. split; [done|]. naive_solver. }
  apply mthen_inv in Hk as ([out2 e3] & [c3 w3] & H3%traced_inv & Hk). subst c3. rewrite <-!app_assoc in Hk.
  destruct e3 as [e3|].
  { apply mthen_inv in Hk as (e & [c4 w4] & H4%tool_inv & Hk). apply mthen_inv in Hk as (e' & [c5 w5] & H5%tool_inv & Hk).
    apply mret_inv in Hk as [[= <- <-] [= <- _]]. rewrite H5, H4, <-!app_assoc. eexists. split; [done|].
    unfold commandError. case_decide; naive_solver. }
  apply mthen_inv in Hk as (e4 & [c4 w4] & H4%tool_inv & Hk). subst c4. rewrite <-!app_assoc in Hk.
  destruct e4 as [e4|].
  { apply mthen_inv in Hk as (e & [c5 w5] & H5%tool_inv & Hk). apply mret_inv in Hk as [[= <- <-] [= <- _]].
    rewrite H5, <-!app_assoc. eexists. split; [done|]. naive_solver. }
  apply mthen_inv in Hk as ([out3 e5] & [c5 w5] & H5 & Hk). destruct (0 <? runtime.Spec_CPU spec) eqn:Hcpu.
  - apply traced_inv in H5. subst c5. rewrite <-!app_assoc in Hk.
    destruct e5; apply mret_inv in Hk as [[= <- <-] [= <- _]]; (eexists; split; [done|]).
    + unfold commandError. apply Z.ltb_lt in Hcpu. case_decide; naive_solver.
    + naive_solver.
  - apply mret_inv in H5 as [[= <- <-] [= <- _]]. apply mret_inv in Hk as [[= <- <-] [= <- _]].
    eexists. split; [done|]. naive_solver.
Qed.
End created.

(** ** Running commands *)

Section commands.
Context `{strings.GoUnicode} {W : Type} (p : Provider) (exec_output : string → list string → M W (string * option goerror)).

(** Only the program, its arguments and the directory reach the container: the environment,
    the limit of time and the terminal that a command asks for do not. *)
Theorem Exec_ignores limit limit' id argv dir env env' tty tty' secs secs' :
  Exec p exec_output limit id (runtime.mkCommand argv dir env tty secs) =
  Exec p exec_output limit' id (runtime.mkCommand argv dir env' tty' secs').
Proof. done. Qed.

(** Whoever asks the provider for the exit code never learns it: a command that ends with
    another code than 0 is an error, with the code 1 and its output as that of errors, and
    without an error the code is 0. *)
Theorem Exec_exit_code limit id cmd w r err w' :
  Exec p exec_output limit id cmd w = ((r, err), w') →
  match err with
  | None => runtime.ExitCode r = 0 ∧ runtime.Stderr r = ""
  | Some _ => runtime.Stdout r = "" ∧ (runtime.Argv cmd = [] ∨ runtime.ExitCode r = 1)
  end.
Proof.
  unfold Exec. case_decide; [intros [[= <- <-] _]%mret_inv; auto|].
  intros ([out e] & w1 & _ & Hk)%mthen_inv. by destruct e; apply mret_inv in Hk as [[= <- <-] _]; auto.
Qed.

(** [lxc-info] writes the states in a column of their own, padded with spaces: neither text
    that is looked for is ever there. *)
Theorem padded_status_unknown id w w' :
  exec_output (InfoBinary p) (withPath p ["-n"; id]) w = (("Name:           p" +:+ String "010"%char "State:          RUNNING", None), w') →
  GetStatus p exec_output id w = ((runtime.StatusUnknown, None), w').
Proof. intros Hrun. unfold GetStatus, run, mthen. rewrite Hrun. reflexivity. Qed.
End commands.

(** ** Witnesses *)

#[local] Instance plain_unicode : strings.GoUnicode := {|
  strings.unicode_lower := id; strings.unicode_upper := id; strings.unicode_fold := String.eqb
|}.
(** Tools of which one fails. *)
Definition failing (broken : string) (binary : string) (args : list string) : M unit (string * option goerror) :=
  mret (if bool_decide (binary = broken) then ("no space left", Some (ErrorString "exit status 1")) else ("", None)).
Definition a_spec (cpu : Z) : runtime.Spec := runtime.mkSpec "shop" "" cpu 0 0 "".

(** The container whose limit could not be set stays. *)
Lemma Create_correct_witness :
  let r := Create New (traced (failing "lxc-cgroup")) (a_spec 2) ([], tt) in
  r.1 = (zero_Runtime, Some (WrapError "lxc cpu-limit shop: exit status 1: no space left" (ErrorString "exit status 1"))) ∧
  destroy_call New "shop" ∉ r.2.1.
Proof.
  intros r. assert (r.1 = (zero_Runtime, Some (WrapError "lxc cpu-limit shop: exit status 1: no space left" (ErrorString "exit status 1")))
    ∧ (length r.2.1, last r.2.1.*1) = (5%nat, Some "lxc-cgroup")) as [Hr Hlen] by (split; vm_compute; reflexivity).
  destruct (Create New (traced (failing "lxc-cgroup")) (a_spec 2) ([], tt)) as [[rt err] [calls' []]] eqn:E. subst r.
  cbn [fst snd] in *. injection Hr as -> ->. split; [done|].
  destruct (Create_correct New (failing "lxc-cgroup") (a_spec 2) [] tt _ _ _ _ E) as (new & Hnew & _ & Hcases).
  cbn [app] in Hnew. subst calls'. destruct Hcases as [[_ ->]|[->|[->|[->|[->|[_ ->]]]]]]; try discriminate Hlen.
  apply (bool_decide_eq_true_1 _); vm_compute; reflexivity.
Defined.
Lemma Exec_exit_code_witness :
  runtime.ExitCode (Exec New (failing "lxc-attach") None "shop" (runtime.mkCommand ["false"] "" [] false 0) tt).1.1 = 1.
Proof.
  destruct (Exec New (failing "lxc-attach") None "shop" (runtime.mkCommand ["false"] "" [] false 0) tt) as [[r err] []] eqn:E.
  pose proof (Exec_exit_code New (failing "lxc-attach") None "shop" (runtime.mkCommand ["false"] "" [] false 0) tt r err tt E) as Hx.
  destruct err; [by destruct Hx as [_ [Hx|Hx]]|by apply (f_equal (λ x, x.1.2)) in E].
Defined.
End lxc.
