(* ===== verification/AgentAdapters.v ===== *)
(** * The adapters of agents

    The rest of [src/internal/agent/cli_adapter.go] - the adapter as one of the registry,
    the adapters of the three programs, and the stream of events - and the adapter for tests
    of [src/internal/agent/adapter.go], over the registry and the service of [Agent.v]. *)

From Stdlib Require Import Ascii.
From stdpp Require Import strings.
From S2P Require Import Prelude GoStrings World Runtime AgentTypes Agent.
Import agent agents.

Module agentadapters.

(** ** Command-line adapters *)

Section cli.
Context {W : Type}.

(* src: internal/agent/cli_adapter.go:22-24 (NewCLIAdapter) *)
Definition NewCLIAdapter (name binary : string) (process : option (ProcessManager W)) (capabilities : list Capability) : CLIAdapter W :=
  mkCLI name binary process capabilities ∅.
Definition base_capabilities : list Capability :=
  [CapabilityTerminal; CapabilityFilesystem; CapabilityGit; CapabilityStreaming; CapabilityInteractive].
(* src: internal/agent/cli_adapter.go:101-103 (NewCodexAdapter) *)
Definition NewCodexAdapter (process : option (ProcessManager W)) : CLIAdapter W :=
  NewCLIAdapter "codex" "codex" process base_capabilities.
(* src: internal/agent/cli_adapter.go:104-106 (NewClaudeCodeAdapter) *)
Definition NewClaudeCodeAdapter (process : option (ProcessManager W)) : CLIAdapter W :=
  NewCLIAdapter "claude-code" "claude" process (base_capabilities ++ [CapabilityToolCalling]).
(* src: internal/agent/cli_adapter.go:107-109 (NewKimiAdapter) *)
Definition NewKimiAdapter (process : option (ProcessManager W)) : CLIAdapter W :=
  NewCLIAdapter "kimi" "kimi" process base_capabilities.
(* src: internal/agent/cli_adapter.go:25-25 (CLIAdapter.ID) *)
Definition CLI_ID (a : CLIAdapter W) : string := CLI_Name a.
(* src: internal/agent/cli_adapter.go:26-28 (CLIAdapter.Capabilities) *)
Definition CLI_Capabilities (a : CLIAdapter W) : list Capability := CapabilitiesList a.

(** [output] are the lines of a process until it ends, or the error of the process manager;
    each becomes an event at the time it arrives. *)
Fixpoint normalized `{World W} (unmarshal : string → option (list (string * any))) (id name : string)
    (lines : list string) : M W (list Event) :=
  match lines with
  | [] => mret []
  | line :: lines =>
      let! now := time_Now in
      let! events := normalized unmarshal id name lines in
      mret (Normalize unmarshal id name line now :: events)
  end.
(* src: internal/agent/cli_adapter.go:54-73 (CLIAdapter.StreamEvents) *)
Definition CLI_StreamEvents `{World W} (unmarshal : string → option (list (string * any)))
    (output : string → M W (result (list string))) (a : CLIAdapter W) (id : string) : M W (result (list Event)) :=
  with_process a id (Err ErrNoProcess) (λ _ p,
    let! lines := output p in
    match lines with
    | Err e => mret (Err e)
    | Ok lines => let! events := normalized unmarshal id (CLI_Name a) lines in mret (Ok events)
    end).

(** An adapter is shared: the state has the adapters of the program, by name. *)
Notation shared := (gmap string (CLIAdapter W) * W)%type.
Definition at_name (name : string) (s : gmap string (CLIAdapter W)) : CLIAdapter W :=
  default (NewCLIAdapter name "" None []) (s !! name).
Definition calls {A} (name : string) (f : CLIAdapter W → M W A) : M shared A := λ sw,
  let '(r, w) := f (at_name name sw.1) sw.2 in (r, (sw.1, w)).
(* src: internal/agent/cli_adapter.go:42-43 (CLIAdapter.Stop) *)
Definition as_adapter (a : CLIAdapter W) : Adapter shared :=
  let name := CLI_Name a in
  let start session := λ sw : shared,
    let '(a', err, w) := CLI_Start (at_name name sw.1) session sw.2 in (err, (<[name := a']> sw.1, w)) in
  mkAgentAdapter name start (λ id, calls name (λ a, CLI_stop a id)) start
    (λ id message, calls name (λ a, CLI_SendMessage a id message)) (λ id, calls name (λ a, CLI_stop a id))
    (λ id, calls name (λ a, CLI_Status a id)) (CLI_Capabilities a).
End cli.

(** ** The adapter for tests *)

(** The events channel of a session is buffered; when it is full a send waits for a reader,
    with the mutex of the adapter held. *)
(* src: internal/agent/adapter.go:100-104 (MockAdapter) *)
Record MockAdapter := mkMock { mock_sessions : gmap string SessionStatus; mock_events : gmap string (list Event) }.
#[global] Instance eta_MockAdapter : Eta MockAdapter := λ m, mkMock (mock_sessions m) (mock_events m).
(* src: internal/agent/adapter.go:106-108 (NewMockAdapter) *)
Definition NewMockAdapter : MockAdapter := mkMock ∅ ∅.
(* src: internal/agent/adapter.go:109-109 (MockAdapter.ID) *)
Definition Mock_ID : string := "mock-test-only".
(* src: internal/agent/adapter.go:110-112 (MockAdapter.Capabilities) *)
Definition Mock_Capabilities : list Capability :=
  [CapabilityStreaming; CapabilityInteractive; CapabilityToolCalling].
Definition channel_size : nat := 8.
Definition send (e : Event) (ch : list Event) : option (list Event) :=
  if (length ch <? channel_size)%nat then Some (ch ++ [e]) else None.
Definition mock_event (id : string) (typ : EventType) (now : Z) (text : option string) : Event :=
  mkEvent "" id typ now (match text with Some t => {["text" := AnyString t]} | None => ∅ end) ∅ None false.
(** An operation that never returns is [None]. *)
(* src: internal/agent/adapter.go:113-122 (MockAdapter.Start) *)
Definition Mock_Start (s : Session) (t1 t2 : Z) (m : MockAdapter) : option (MockAdapter * option goerror) :=
  let id := Session_ID s in
  ch ← send (mock_event id EventSessionStarted t1 None) [];
  ch ← send (mock_event id EventMessage t2 (Some "TEST ONLY mock agent started")) ch;
  Some (mkMock (<[id := SessionRunning]> (mock_sessions m)) (<[id := ch]> (mock_events m)), None).
(* src: internal/agent/adapter.go:127-134 (MockAdapter.SendMessage) *)
Definition Mock_SendMessage (id message : string) (now : Z) (m : MockAdapter) : option (MockAdapter * option goerror) :=
  match mock_events m !! id with
  | None => Some (m, None)
  | Some ch =>
      ch ← send (mock_event id EventMessage now (Some message)) ch;
      Some (m <| mock_events := <[id := ch]> (mock_events m) |>, None)
  end.
(* src: internal/agent/adapter.go:156-167 (MockAdapter.set) *)
Definition Mock_set (id : string) (status : SessionStatus) (now : Z) (m : MockAdapter) : option (MockAdapter * option goerror) :=
  match mock_sessions m !! id with
  | None => Some (m, Some (ErrorString "session not found"))
  | Some _ =>
      let m := m <| mock_sessions := <[id := status]> (mock_sessions m) |> in
      match mock_events m !! id with
      | None => Some (m, None)
      | Some ch =>
          ch ← send (mock_event id EventSessionCompleted now None) ch;
          Some (m <| mock_events := <[id := ch]> (mock_events m) |>, None)
      end
  end.
(* src: internal/agent/adapter.go:123-123 (MockAdapter.Stop) *)
Definition Mock_Stop (id : string) := Mock_set id SessionCompleted.
(* src: internal/agent/adapter.go:124-126 (MockAdapter.Resume) *)
Definition Mock_Resume (s : Session) := Mock_set (Session_ID s) SessionRunning.
(* src: internal/agent/adapter.go:144-146 (MockAdapter.Cancel) *)
Definition Mock_Cancel (id : string) := Mock_set id SessionCancelled.
(* src: internal/agent/adapter.go:135-143 (MockAdapter.StreamEvents) *)
Definition Mock_StreamEvents (id : string) (m : MockAdapter) : result (list Event) :=
  match mock_events m !! id with Some ch => Ok ch | None => Err (ErrorString "session not found") end.
(* src: internal/agent/adapter.go:147-155 (MockAdapter.Status) *)
Definition Mock_Status (id : string) (m : MockAdapter) : result SessionStatus :=
  match mock_sessions m !! id with Some s => Ok s | None => Err (ErrorString "session not found") end.
(** A reader of the events takes the first. *)
Definition receive (id : string) (m : MockAdapter) : option (Event * MockAdapter) :=
  match mock_events m !! id with
  | Some (e :: ch) => Some (e, m <| mock_events := <[id := ch]> (mock_events m) |>)
  | _ => None
  end.

(** The messages to a session nobody reads from: six are taken, the seventh is never
    answered - nor anything after it, since the mutex is held. *)
Fixpoint send_all (id : string) (messages : list string) (now : Z) (m : MockAdapter) : option MockAdapter :=
  match messages with
  | [] => Some m
  | message :: messages => '(m, _) ← Mock_SendMessage id message now m; send_all id messages now m
  end.
Lemma send_all_length id messages now m ch : mock_events m !! id = Some ch → (length ch ≤ channel_size)%nat →
  is_Some (send_all id messages now m) ↔ (length ch + length messages ≤ channel_size)%nat.
Proof.
  revert m ch. induction messages as [|msg messages IH]; intros m ch Hch Hlen; cbn [send_all length].
  { rewrite Nat.add_0_r. split; [done|by eexists]. }
  unfold Mock_SendMessage. rewrite Hch. unfold send.
  destruct (Nat.ltb_spec (length ch) channel_size) as [Hlt|Hge]; cbn [mbind option_bind].
  - rewrite (IH _ (ch ++ [mock_event id EventMessage now (Some msg)])); cbn [mock_events set_field].
    + rewrite length_app. cbn [length]. lia.
    + by rewrite lookup_insert_eq.
    + rewrite length_app. cbn [length]. lia.
  - split; [by intros []|lia].
Qed.
(** The adapter for tests takes six messages to a session whose events nobody reads; with
    a seventh it hangs. *)
Theorem mock_blocks s t1 t2 now messages m m' err :
  Mock_Start s t1 t2 m = Some (m', err) →
  is_Some (send_all (Session_ID s) messages now m') ↔ (length messages ≤ 6)%nat.
Proof.
  intros [= <- _]. rewrite send_all_length; [|cbn; apply lookup_insert_eq|cbn; unfold channel_size; lia].
  cbn [length]. unfold channel_size. lia.
Qed.
End agentadapters.
