(* ===== verification/System.v ===== *)
(** * The server as a whole

    Verification runs, their repairs and deployments meet in the server: the engine fills
    the tables of runs ([VerEngine.v], [HttpVerify.v]), a request for a deployment names
    one of them ([HttpDeploy.v]) and the manager of deployments looks it up before it
    deploys ([Deployment.v], through the gate of [ServerMain.v]).  Here they are put together as
    [src/cmd/server/main.go] does, and run: a step is a request that is answered, a
    goroutine of a deployment that is run to its end, a restart, or the world moving on.
    What a handler does is one step; the goroutines are run in any order. *)

From stdpp Require Import relations.
From S2P Require Import Prelude GoStrings World Runtime OrchTypes VerTypes VerGraph VerAdapters VerEngine VerFacts VerRepair Deployment DeploymentFacts DeploymentFrame PgBase VerStore Auth HttpApi HttpBase HttpVerify HttpDeploy ServerMain.
Import crypto auth verification adapters engine pg verstore httpapi httpbase httpverify servermain.

Module system.

(** ** Components beside the tables *)

Section beside.
Context {V W : Type}.
(** A runtime provider knows nothing of the tables [V]. *)
Definition beside (p : runtime.Provider W) : runtime.Provider (V * W) :=
  runtime.mkProvider (V * W) (runtime.Name p) (λ spec, outside (runtime.Create p spec))
    (λ id, outside (runtime.Start p id)) (λ id, outside (runtime.Stop p id))
    (λ id, outside (runtime.Restart p id)) (λ id, outside (runtime.Destroy p id))
    (λ id, outside (runtime.GetStatus p id)) (λ limit id c, outside (runtime.Exec p limit id c)).
(** The tables of deployments are others. *)
Definition store_beside (s : httpdeploy.Store W) : httpdeploy.Store (V * W) :=
  httpdeploy.mkStore (λ x, outside (httpdeploy.SaveService s x)) (λ x, outside (httpdeploy.Services s x))
    (λ x, outside (httpdeploy.SavePort s x)) (λ x, outside (httpdeploy.SaveRelease s x))
    (λ x, outside (httpdeploy.SaveDeployment s x)) (λ x, outside (httpdeploy.Deployments s x)).
End beside.

(** ** The wiring *)

Section wiring.
Context `{Json} `{Database} {W : Type} `{World W}.
#[local] Existing Instance world_beside.
(* src: cmd/server/main.go:108-127 (main) *)
Definition deploymentManager (runtimeProvider : runtime.Provider W) : deployment.Manager (ver_db * W) :=
  let provider := beside runtimeProvider in
  deployment.mkManager (Some provider) (Some (deployment.RuntimeDeploymentProvider (Some provider)))
    (Some (deployment.runtime_Check (Some provider)))
    (Some (deployment.adapter_Verify (Some verified_run))) true time_Now.
End wiring.

(** ** What a computation leaves of the tables *)

(** The tables of [V], beside the world of a component, are as they were. *)
Definition leaves {S V W A} (c : M (S * (V * W)) A) : Prop :=
  ∀ sw a sw', c sw = (a, sw') → sw'.2.1 = sw.2.1.
Definition harmless {V W A} (c : M (V * W) A) : Prop := ∀ v, World.keeps (eq v) c.

Section leaves.
Context {S V W : Type}.
Lemma leaves_mret {A} (a : A) : leaves (mret (W := S * (V * W)) a).
Proof. by intros sw b sw' [_ <-]%mret_inv. Qed.
Lemma leaves_mskip : leaves (mskip (W := S * (V * W))).
Proof. apply leaves_mret. Qed.
Lemma leaves_look {A} (f : S → A) : leaves (look (W := V * W) f).
Proof. by intros sw b sw' [_ ->]%look_inv. Qed.
Lemma leaves_modify (f : S → S) : leaves (modify (W := V * W) f).
Proof. by intros sw b sw' ->%modify_inv. Qed.
Lemma leaves_outside {A} (c : M (V * W) A) : harmless c → leaves (outside (S := S) c).
Proof. intros Hc sw a sw' [Hx _]%outside_inv. by rewrite <-(Hc sw.2.1 _ _ _ Hx eq_refl). Qed.
Lemma leaves_mthen {A B} (m : M (S * (V * W)) A) (k : A → M (S * (V * W)) B) :
  leaves m → (∀ a, leaves (k a)) → leaves (mthen m k).
Proof. intros Hm Hk sw b sw' (a & sw1 & H1%Hm & H2%Hk)%mthen_inv. congruence. Qed.
End leaves.
Create HintDb leaves.
#[export] Hint Resolve leaves_mret leaves_mskip leaves_look leaves_modify : leaves.
Ltac leave_tables :=
  repeat first
    [ progress intros
    | solve [eauto with leaves]
    | match goal with |- leaves (let _ := _ in _) => cbv zeta end
    | match goal with |- leaves (mthen _ _) => apply leaves_mthen end
    | match goal with |- leaves (outside _) => apply leaves_outside; first [solve [eauto with leaves]|intros ?; keep_state] end
    | match goal with |- leaves (match ?x with _ => _ end) => destruct x end ].

Section manager.
Context `{Json} `{Database} {W : Type} `{World W}.
Variable runtimeProvider : runtime.Provider W.
Notation m := (deploymentManager runtimeProvider).
Import deployment.

Lemma harmless_verify d : harmless (adapter_Verify (W := ver_db * W) (Some verified_run) d).
Proof. intros v [vd w] err sw' Hk. apply server_gate in Hk as [-> _]. done. Qed.

Lemma harmless_Now : harmless (Now m).
Proof. intros v. apply keeps_outside. Qed.
Lemma harmless_Exec limit id c : harmless (runtime.Exec (beside (V := ver_db) runtimeProvider) limit id c).
Proof. intros v. apply keeps_outside. Qed.
#[local] Hint Resolve harmless_Now harmless_Exec : leaves.
Lemma leaves_emit kind d : leaves (emit m kind d).
Proof. unfold emit, put_deployment. leave_tables. Qed.
#[local] Hint Resolve leaves_emit : leaves.
Lemma leaves_fail id e : leaves (fail m id e).
Proof. unfold fail, put_deployment. leave_tables. Qed.
Lemma leaves_transition id status : leaves (transition m id status).
Proof. unfold transition, put_deployment. leave_tables. Qed.
#[local] Hint Resolve leaves_fail leaves_transition : leaves.
Lemma leaves_exec d name argv : leaves (exec m d name argv).
Proof. unfold exec. cbn [Manager_Runtime deploymentManager]. leave_tables. Qed.
#[local] Hint Resolve leaves_exec : leaves.
Lemma leaves_run_steps id steps : Forall (leaves ∘ snd) steps → leaves (run_steps m id steps).
Proof.
  induction 1 as [|[status run] steps Hrun _ IH]; cbn [run_steps]; [unfold GetDeployment|]; leave_tables.
Qed.
Lemma leaves_Deploy id r e : leaves (Deploy m id r e).
Proof.
  unfold Deploy. leave_tables. apply leaves_run_steps. repeat (apply List.Forall_cons; [cbn [compose snd]|]); [..|constructor].
  - unfold prepare. leave_tables.
  - unfold execConfigured. leave_tables.
  - unfold execConfigured. leave_tables.
  - apply leaves_outside, harmless_verify.
  - unfold deploy_step. cbn. unfold runtime_Deploy. leave_tables.
  - unfold health_step. cbn. unfold runtime_Check. leave_tables.
  - unfold activate. leave_tables.
Qed.

(** The gate that was passed by a world with these tables. *)
Lemma gate_of d vd (w : W) sw :
  gate_passed m d (vd, w) sw → sw.1 = vd ∧ ∃ run row,
    Deployment_Metadata d !! "verification_run_id" = Some (AnyString run) ∧ run ≠ "" ∧
    runs vd !! run = Some row ∧ Run_Status row = Passed.
Proof.
  unfold gate_passed. cbn [Manager_Verify deploymentManager]. intros Hg.
  apply server_gate in Hg as [-> [Hg _]]. split; [done|].
  destruct (Hg eq_refl) as (run & row & ? & ? & ? & ?). by exists run, row.
Qed.

Lemma clocks_same (sw sw' : ver_db * W) : clocks m sw sw' → sw'.1 = sw.1.
Proof.
  induction 1 as [|x y z [t Hx] _ IH]; [done|]. rewrite IH.
  cbn [Now deploymentManager time_Now world_beside] in Hx. by apply outside_inv in Hx as [_ ?].
Qed.
Lemma ran_same d name (sw sw' : ver_db * W) : ran m d name sw sw' → sw'.1 = sw.1.
Proof.
  intros (p & argv & r & [= <-] & _ & Hx & _). by apply outside_inv in Hx as [_ ?].
Qed.

(** What the goroutine of a deployment does to the manager: no plan changes, and when a
    deployment has become the active one of a project, the tables had a passed run
    that its metadata name. *)
Lemma Deploy_effect id rel e mg v (w : W) out err mg' v' w' :
  keyed mg → Deploy m id rel e (mg, (v, w)) = ((out, err), (mg', (v', w'))) →
  v' = v ∧ evolves mg mg' ∧
  (active mg' = active mg ∨ ∃ d run row, deployments mg !! id = Some d ∧
     active mg' = <[Deployment_ProjectID d := id]> (active mg) ∧
     Deployment_Metadata d !! "verification_run_id" = Some (AnyString run) ∧ run ≠ "" ∧
     runs v !! run = Some row ∧ Run_Status row = Passed).
Proof.
  intros Hkey Hd. split; [exact (leaves_Deploy id rel e _ _ _ Hd)|]. split; [by apply Deploy_evolves in Hd|].
  destruct err as [err|].
  - left. destruct (deployments mg !! id) as [d|] eqn:Hid.
    + apply Deploy_error with (d := d) in Hd as (sw2 & Ha & Hf); [|done..].
      apply fail_inv in Hf as (_ & _ & _ & _ & Hf). cbn [fst] in Hf. congruence.
    + unfold Deploy in Hd. apply mthen_inv in Hd as (found & sw1 & Hl & Hk). apply look_inv in Hl as [-> ->].
      cbn [fst] in Hk. rewrite Hid in Hk. by apply mret_inv in Hk as [_ [= <- _ _]].
  - right. apply Deploy_ok in Hd as (d & Hid & _ & Ht & _ & _ & _ & _ & Ha); [|done].
    destruct Ht as (x1 & x2 & Hc1 & [-> _] & x3 & x4 & Hc2 & Hb & x5 & x6 & Hc3 & Htest & x7 & x8 & Hc4 & Hg & _).
    apply clocks_same in Hc1, Hc2, Hc3, Hc4. apply ran_same in Hb, Htest. destruct x7 as [v7 w7].
    apply gate_of in Hg as [_ (run & row & Hm & Hne & Hr & Hp)]. cbn [fst] in *.
    assert (v7 = v) as -> by congruence. by exists d, run, row.
Qed.
Lemma saved_leaves store save :
  (∀ st : httpdeploy.Store W, harmless (save (store_beside (V := ver_db) st))) →
  leaves (httpdeploy.saved (S := mstate) (store_beside <$> store) save).
Proof. intros Hsave. unfold httpdeploy.saved. destruct store; cbn; leave_tables. Qed.
Lemma leaves_create store r input :
  leaves (httpdeploy.deploymentCreate (Some m) (store_beside <$> store) r input).
Proof.
  unfold httpdeploy.deploymentCreate, available, decoded, writeError, writeJSON, CreateRelease, CreateDeployment, put_deployment.
  leave_tables; apply saved_leaves; intros st v; apply keeps_outside.
Qed.
Lemma leaves_rollback store r :
  leaves (httpdeploy.deploymentRollback (Some m) (store_beside <$> store) r).
Proof.
  unfold httpdeploy.deploymentRollback, available, writeError, writeJSON, Rollback, GetDeployment.
  cbn [Deployer deploymentManager RuntimeDeploymentProvider Provider_Deploy]. unfold runtime_Deploy. cbn [runtime.Exec beside].
  leave_tables; apply saved_leaves; intros st v; apply keeps_outside.
Qed.
Lemma rollback_evolves store r (sw sw' : mstate * (ver_db * W)) resp :
  httpdeploy.deploymentRollback (Some m) store r sw = (resp, sw') →
  evolves sw.1 sw'.1 ∧ active sw'.1 = active sw.1.
Proof.
  unfold httpdeploy.deploymentRollback, available.
  intros ([item err] & sw1 & Hr%Rollback_evolves & Hk)%mthen_inv.
  destruct err; [by apply mret_inv in Hk as [_ <-]|].
  apply mthen_inv in Hk as (u & sw2 & Hs%httpdeploy.saved_inv & [_ <-]%mret_inv). by rewrite Hs.
Qed.
Lemma goroutine_effect store d rel mg v (w : W) u mg' v' w' :
  keyed mg → httpdeploy.deploy_created (store_beside <$> store) m d rel (mg, (v, w)) = (u, (mg', (v', w'))) →
  v' = v ∧ evolves mg mg' ∧
  (active mg' = active mg ∨ ∃ d0 run row, deployments mg !! Deployment_ID d = Some d0 ∧
     active mg' = <[Deployment_ProjectID d0 := Deployment_ID d]> (active mg) ∧
     Deployment_Metadata d0 !! "verification_run_id" = Some (AnyString run) ∧ run ≠ "" ∧
     runs v !! run = Some row ∧ Run_Status row = Passed).
Proof.
  intros Hkey ([out err] & [mg1 [v1 w1]] & Hd & Hs)%mthen_inv. apply Deploy_effect in Hd; [|done].
  pose proof (httpdeploy.saved_inv _ _ _ _ _ Hs) as Hs1. cbn [fst] in Hs1. subst mg1.
  enough (v' = v1) as -> by done. revert Hs. unfold httpdeploy.saved. destruct store as [st|]; cbn.
  - intros (x & [mg2 [v2 w2]] & [Hx _]%outside_inv & Hs)%mthen_inv. apply mret_inv in Hs as [_ [= _ <- _]].
    by apply outside_inv in Hx as [_ ?].
  - by intros [_ [= <- _]]%mret_inv.
Qed.
End manager.

(** ** The server *)

Section server.
Context `{MapOrder} `{strings.GoUnicode} `{Json} `{Database} {W : Type} `{World W} `{Sha256}.
Variable AuthOf : option (AuthService W).
Variable runtimeProvider : runtime.Provider W.
Variable DeploymentStore : option (httpdeploy.Store W).
Variable Bus : option (string → string → VerificationRun → M W unit).

Notation goroutine := (M (deployment.mstate * (ver_db * W)) unit).
(** The manager is in memory and so are the goroutines; the tables are not. *)
Record server := mkServer {
  manager : deployment.mstate;
  tables : ver_db;
  world : W;
  goroutines : list goroutine
}.
Definition started (w : W) : server := mkServer deployment.NewManager no_runs w [].

(** What happened, with what a request about a run or an accepted request for a deployment
    carried. *)
Inductive event :=
  | Verifying (r : Request) (query : string) (input : result CheckRequest)
  | Repairing (r : Request) (body : string * string * Z)
  | Cancelling (r : Request)
  | Accepted (r : Request) (body : httpdeploy.create_input)
  | Refused (r : Request)
  | Deploying
  | RollingBack (r : Request)
  | Restarting
  | Elsewhere.

Notation m := (deploymentManager runtimeProvider).
Notation store := (store_beside <$> DeploymentStore).
Inductive step (s : server) : event → server → Prop :=
  | step_verify r query input resp v' w' :
      createVerification AuthOf (Some true) (Some verificationEngine) (Some runtimeProvider) r query input
        (tables s, world s) = (resp, (v', w')) →
      step s (Verifying r query input) (mkServer (manager s) v' w' (goroutines s))
  | step_repair r body resp v' w' :
      repairVerification AuthOf (Some true) (Some (repairLoop verificationEngine)) (Some runtimeProvider) r body
        (tables s, world s) = (resp, (v', w')) →
      step s (Repairing r body) (mkServer (manager s) v' w' (goroutines s))
  | step_cancel r resp v' w' :
      cancelVerification AuthOf (Some true) Bus r (tables s, world s) = (resp, (v', w')) →
      step s (Cancelling r) (mkServer (manager s) v' w' (goroutines s))
  | step_accept r body code d background mg' v' w' :
      httpdeploy.deploymentCreate (Some m) store r (Ok body) (manager s, (tables s, world s))
        = (Answer (code, (d, background)), (mg', (v', w'))) →
      step s (Accepted r body) (mkServer mg' v' w' (goroutines s ++ [background]))
  | step_refuse r input code text clears mg' v' w' :
      httpdeploy.deploymentCreate (Some m) store r input (manager s, (tables s, world s))
        = (Error code text clears, (mg', (v', w'))) →
      step s (Refused r) (mkServer mg' v' w' (goroutines s))
  | step_goroutine before background after u mg' v' w' :
      goroutines s = before ++ background :: after →
      background (manager s, (tables s, world s)) = (u, (mg', (v', w'))) →
      step s Deploying (mkServer mg' v' w' (before ++ after))
  | step_rollback r resp mg' v' w' :
      httpdeploy.deploymentRollback (Some m) store r (manager s, (tables s, world s)) = (resp, (mg', (v', w'))) →
      step s (RollingBack r) (mkServer mg' v' w' (goroutines s))
  | step_restart w' : step s Restarting (mkServer deployment.NewManager (tables s) w' [])
  | step_elsewhere w' : step s Elsewhere (mkServer (manager s) (tables s) w' (goroutines s)).

(** The steps that led to a state, each with the state it was made in. *)
Inductive history : list (server * event) → server → Prop :=
  | history_start w : history [] (started w)
  | history_step h s e s' : history h s → step s e s' → history (h ++ [(s, e)]) s'.

(** ** What has been verified *)

(** A run that passed, made for the request between [w] and [w']: it has the checks of the
    request, each check has one result, and for each required check the server's runtime
    provider ran its command in the runtime and the workspace of the request, which exited
    with 0. *)
Record passed_run (req : CheckRequest) (w w' : W) (run : VerificationRun) : Prop := {
  pr_status : Run_Status run = Passed;
  pr_checks : Run_Checks run =
    Profile_Checks (Profile (Request_Profile req) (Request_Policy req) (Request_Checks req));
  pr_complete : Result_CheckID <$> Run_Results run ≡ₚ Check_ID <$> Run_Checks run;
  pr_required : ∀ c, c ∈ Run_Checks run → Required c = true →
    ran_command runtimeProvider (Request_RuntimeID req) (Request_Workspace req) c w w' ∧
    ∃ r, r ∈ Run_Results run ∧ Result_CheckID r = Check_ID c ∧ Result_Status r = Passed ∧
      Evidence_ExitCode (Result_Evidence r) = Some 0
}.
(** The request for a run that a request makes in the state [s], and the permission that it
    needs: a caller names the checks, or the stored run whose checks are to be repeated. *)
Definition asked (s : server) (e : event) : option (Request * ProjectPermission * CheckRequest) :=
  match e with
  | Verifying r query (Ok body) => Some (r, PermissionRun, in_project query body)
  | Repairing r (runtime_id, workspace, _) =>
      row ← runs (tables s) !! PathValue r "id";
      Some (r, PermissionEdit, repair_request (load (tables s) row) runtime_id workspace)
  | _ => None
  end.
(** In the state [s] the event had the engine carry out the run, over the server's
    provider, for a caller with the permission in its project; and the run passed. *)
Definition carried_out (s : server) (e : event) (run : VerificationRun) : Prop :=
  ∃ r permission req w1 events w2,
    asked s e = Some (r, permission, req) ∧
    passes AuthOf r (Request_ProjectID req) permission (world s) w1 ∧
    Run verificationEngine req
      (project_of (Some runtimeProvider) (Request_ProjectID req) (Request_RuntimeID req) (Request_Workspace req)) w1
      = (Ok (run, events), w2) ∧
    passed_run req w1 w2 run.
Definition made (s : server) (e : event) (id : string) : Prop := ∃ run, carried_out s e run ∧ Run_ID run = id.
Definition verified (h : list (server * event)) (id : string) : Prop := ∃ s e, (s, e) ∈ h ∧ made s e id.
(** A request for a deployment of the project with the metadata was accepted. *)
Definition requested (h : list (server * event)) (project : string) (metadata : gmap string any) : Prop :=
  ∃ s r body, (s, Accepted r body) ∈ h ∧ PathValue r "project" = project ∧
    httpdeploy.In_Metadata body = metadata.
(** A goroutine was run after a request for a deployment of the project and after a passed
    run, which the request named. *)
Definition backed (h : list (server * event)) (project : string) : Prop :=
  ∃ h1 s h2 metadata run, h = h1 ++ (s, Deploying) :: h2 ∧ requested h1 project metadata ∧
    metadata !! "verification_run_id" = Some (AnyString run) ∧ run ≠ "" ∧ verified h1 run.

Lemma verified_mono h h' id : verified h id → verified (h ++ h') id.
Proof. intros (s & e & Hin & Hm). exists s, e. rewrite elem_of_app. auto. Qed.
Lemma requested_mono h h' project metadata : requested h project metadata → requested (h ++ h') project metadata.
Proof. intros (s & r & body & Hin & Hr). exists s, r, body. rewrite elem_of_app. naive_solver. Qed.
Lemma backed_mono h h' project : backed h project → backed (h ++ h') project.
Proof.
  intros (h1 & s & h2 & metadata & run & -> & Hb). exists h1, s, (h2 ++ h'), metadata, run.
  by rewrite <-(assoc_L (++)).
Qed.

Lemma engine_passed req (w : W) run events w' :
  Run verificationEngine req
    (project_of (Some runtimeProvider) (Request_ProjectID req) (Request_RuntimeID req) (Request_Workspace req)) w
    = (Ok (run, events), w') → Run_Status run = Passed → passed_run req w w' run.
Proof.
  intros Hrun Hp. pose proof Hrun as Ht. apply Run_has_trace in Ht as (Hc & tr & b & st & Ht); [|apply DefaultRegistry_lawful].
  pose proof (rt_status _ _ _ _ _ _ _ _ Ht) as Hs. pose proof (rt_final _ _ _ _ _ _ _ _ Ht) as Hf.
  rewrite Hp in Hs. destruct (0 <? _); [done|]. destruct b; [|destruct Hf; congruence].
  split; [done|done|by eapply run_trace_complete|]. intros c Hin Hreq.
  eapply Run_required with (p := runtimeProvider) in Hrun; [exact Hrun|done| |done..]. by intros clock [= <-].
Qed.

(** Every passed run of the tables is one of [P]. *)
Definition passing (P : string → Prop) (d : ver_db) : Prop :=
  map_Forall (λ id run, Run_Status run = Passed → P id) (runs d).
Lemma Save_passing P run DB : (Run_Status run = Passed → P (Run_ID run)) →
  World.keeps (passing P) (Save (W := W) DB run).
Proof.
  intros HP. unfold Save. destruct DB; cbn [negb]; [|apply keeps_mret].
  repeat apply keeps_and_then; [|apply keeps_each; intros x..]; apply keeps_execute; intros d Hd _; try exact Hd.
  unfold passing. cbn. apply map_Forall_insert_2; [|exact Hd]. by destruct (runs d !! Run_ID run).
Qed.

Lemma verify_passing (P : string → Prop) r query input (s : server) resp v' w' :
  createVerification AuthOf (Some true) (Some verificationEngine) (Some runtimeProvider) r query input
    (tables s, world s) = (resp, (v', w')) →
  (∀ id, made s (Verifying r query input) id → P id) → passing P (tables s) → passing P v'.
Proof.
  intros [[-> _]|(e & DB & body & run & ev & w1 & w2 & err & [= <-] & _ & -> & Hp & Hrun & Hsave & _)]%create_cases Hmade Hpass; [done|].
  refine (Save_passing P run DB _ _ _ _ Hsave Hpass). intros Hst. apply Hmade.
  exists run. split; [|done]. exists r, PermissionRun, (in_project query body), w1, ev, w2.
  split_and!; [done..|by eapply engine_passed].
Qed.

Lemma cancel_passing P r (s : server) resp v' w' :
  cancelVerification AuthOf (Some true) Bus r (tables s, world s) = (resp, (v', w')) →
  passing P (tables s) → passing P v'.
Proof.
  unfold cancelVerification, with_store, available. intros [->|(run & w1 & _ & _ & _ & Hk)]%permitted_run_cases Hp; [done|].
  case_decide; [|by apply mret_inv in Hk as [_ [= <- _]]].
  apply outside_then in Hk as (now & w2 & _ & Hk). apply mthen_inv in Hk as (err & [v2 w3] & Hsave & Hk).
  apply (Save_passing P) in Hsave; [|done]. specialize (Hsave Hp). cbn [fst] in Hsave.
  destruct err; [by apply mret_inv in Hk as [_ [= <- _]]|].
  apply mthen_inv in Hk as (u & sw4 & Ha%announce_inv & [_ Hs]%mret_inv). subst sw4. cbn [fst] in Ha. by rewrite Ha.
Qed.

Lemma repair_passing (P : string → Prop) r body (s : server) resp v' w' :
  repairVerification AuthOf (Some true) (Some (repairLoop verificationEngine)) (Some runtimeProvider) r body
    (tables s, world s) = (resp, (v', w')) →
  (∀ id, made s (Repairing r body) id → P id) → passing P (tables s) → passing P v'.
Proof.
  unfold repairVerification. intros [->|(run & w1 & _ & Hrow & Hperm & Hk)]%permitted_run_cases Hmade Hp; [done|].
  case_decide; [by apply mret_inv in Hk as [_ [= <- _]]|]. destruct body as [[rid ws] max]. cbv zeta in Hk.
  apply outside_then in Hk as ([[updated err] log] & w2 & Hrun & Hk).
  destruct err as [e|]; [by apply mret_inv in Hk as [_ [= <- _]]|].
  apply mthen_inv in Hk as (err & [v2 w3] & Hsave & Hk).
  assert (v' = v2) as -> by (destruct err; by apply mret_inv in Hk as [_ [= <- _]]).
  refine (Save_passing P updated true _ _ _ _ Hsave Hp). intros Hst. apply Hmade.
  assert (∃ n, (if 0 <? max then repair.mkRepairLoop (repair.Loop_Engine (repairLoop verificationEngine))
    (repair.Loop_Analyzer (repairLoop verificationEngine)) (repair.Loop_Executor (repairLoop verificationEngine)) max
    (repair.Loop_Events (repairLoop verificationEngine)) else repairLoop verificationEngine)
    = repair_loop_of (W := W) verificationEngine n) as [n Hn] by (destruct (0 <? max); by eexists).
  rewrite Hn in Hrun. apply server_repairs_nothing in Hrun as (first & events & w4 & Hf & Hcases).
  destruct Hcases as [(_ & -> & _)|(Hno & rep & _ & ->)]; [|done].
  exists first. split; [|done]. exists r, PermissionEdit, (repair_request (load (tables s) run) rid ws), w1, events, w4.
  split_and!; [by cbn [asked]; rewrite Hrow|exact Hperm|exact Hf|by eapply engine_passed].
Qed.

(** ** The invariant *)

(** What holds of the server after the history [h]. *)
Record sound (h : list (server * event)) (s : server) : Prop := {
  sound_runs : passing (verified h) (tables s);
  sound_keyed : keyed (manager s);
  sound_plans : map_Forall (λ _ d, requested h (deployment.Deployment_ProjectID d) (deployment.Deployment_Metadata d))
    (deployment.deployments (manager s));
  sound_goroutines : ∀ g, g ∈ goroutines s → ∃ d rel, g = httpdeploy.deploy_created store m d rel;
  sound_active : ∀ project id, deployment.active (manager s) !! project = Some id → backed h project
}.

(** The tables of runs and the plans may change, and the active deployments stay. *)
Lemma sound_next h s e mg v w gs :
  sound h s → passing (verified (h ++ [(s, e)])) v → keyed mg →
  map_Forall (λ _ d, requested (h ++ [(s, e)]) (deployment.Deployment_ProjectID d) (deployment.Deployment_Metadata d))
    (deployment.deployments mg) →
  (∀ g, g ∈ gs → g ∈ goroutines s ∨ ∃ d rel, g = httpdeploy.deploy_created store m d rel) →
  (∀ project id, deployment.active mg !! project = Some id →
     deployment.active (manager s) !! project = Some id ∨ backed (h ++ [(s, e)]) project) →
  sound (h ++ [(s, e)]) (mkServer mg v w gs).
Proof.
  intros [_ _ _ Hg Ha] Hv Hk Hp Hgs Hact. split; [done..| |].
  - intros g [Hin|?]%Hgs; [by apply Hg|done].
  - intros project id [Hold|?]%Hact; [|done]. by eapply backed_mono, Ha.
Qed.
Lemma plans_mono h h' (mg : deployment.mstate) :
  map_Forall (λ _ d, requested h (deployment.Deployment_ProjectID d) (deployment.Deployment_Metadata d)) (deployment.deployments mg) →
  map_Forall (λ _ d, requested (h ++ h') (deployment.Deployment_ProjectID d) (deployment.Deployment_Metadata d)) (deployment.deployments mg).
Proof. intros Hp id d Hd. by eapply requested_mono, Hp. Qed.
Lemma passing_mono h h' v : passing (verified h) v → passing (verified (h ++ h')) v.
Proof. intros Hp id run Hr Hs. by eapply verified_mono, Hp. Qed.
#[local] Hint Resolve plans_mono passing_mono : core.

Lemma now_verified h s e id : made s e id → verified (h ++ [(s, e)]) id.
Proof. intros Hm. exists s, e. rewrite elem_of_app, list_elem_of_singleton. auto. Qed.

(** A request about runs. *)
Lemma sound_verify h s e v w :
  sound h s → (∀ P : string → Prop, (∀ id, made s e id → P id) → passing P (tables s) → passing P v) →
  sound (h ++ [(s, e)]) (mkServer (manager s) v w (goroutines s)).
Proof.
  intros Hs Hv. pose proof Hs as [Hr Hk Hp _ _]. eapply sound_next; [done| |done|auto..].
  apply Hv; [|auto]. intros id. apply now_verified.
Qed.
(** A step that leaves the runs and the plans. *)
Lemma sound_evolves h s e mg w gs :
  sound h s → evolves (manager s) mg → (∀ g, g ∈ gs → g ∈ goroutines s) →
  (∀ project id, deployment.active mg !! project = Some id →
     deployment.active (manager s) !! project = Some id ∨ backed (h ++ [(s, e)]) project) →
  sound (h ++ [(s, e)]) (mkServer mg (tables s) w gs).
Proof.
  intros Hs He Hg Ha. pose proof Hs as [Hr Hk Hp _ _]. eapply sound_next; [done|auto|by eapply evolves_keyed| |auto|done].
  eapply (evolves_plans (requested _)); [exact He|auto].
Qed.

Lemma sound_goroutine h s before g after u mg v w :
  sound h s → goroutines s = before ++ g :: after →
  g (manager s, (tables s, world s)) = (u, (mg, (v, w))) →
  sound (h ++ [(s, Deploying)]) (mkServer mg v w (before ++ after)).
Proof.
  intros Hs Hgs Hg. destruct (sound_goroutines h s Hs g) as (d & rel & ->).
  { rewrite Hgs, elem_of_app. right. by left. }
  apply goroutine_effect in Hg as (-> & He & Ha); [|apply Hs]. apply sound_evolves; [done|done| |].
  { intros g'. rewrite Hgs, !elem_of_app, elem_of_cons. naive_solver. }
  destruct Ha as [-> |(d0 & run & row & Hd0 & -> & Hm & Hne & Hrow & Hp)]; [by left|].
  intros project id [[<- <-]|[_ ?]]%lookup_insert_Some; [right|by left].
  exists h, s, [], (deployment.Deployment_Metadata d0), run. split_and!; [done| |done|done|].
  - by apply (sound_plans h s Hs _ _ Hd0).
  - by apply (sound_runs h s Hs _ _ Hrow).
Qed.

Lemma sound_accept h s r body d background mg v w rel run :
  sound h s → v = tables s →
  httpdeploy.filed m store r body (manager s) mg d background rel run →
  sound (h ++ [(s, Accepted r body)]) (mkServer mg v w (goroutines s ++ [background])).
Proof.
  intros Hs -> Hf. pose proof Hs as [Hr Hk Hp _ _]. eapply sound_next; [done|auto| | | |].
  - unfold keyed. rewrite (httpdeploy.filed_deployments _ _ _ _ _ _ _ _ _ _ Hf). by apply map_Forall_insert_2.
  - rewrite (httpdeploy.filed_deployments _ _ _ _ _ _ _ _ _ _ Hf). apply map_Forall_insert_2; [|by apply plans_mono].
    exists s, r, body. rewrite elem_of_app, list_elem_of_singleton.
    by rewrite (httpdeploy.filed_project _ _ _ _ _ _ _ _ _ _ Hf), (httpdeploy.filed_metadata _ _ _ _ _ _ _ _ _ _ Hf); auto.
  - intros g. rewrite elem_of_app, list_elem_of_singleton. intros [?| ->]; [by left|]. right.
    rewrite (httpdeploy.filed_background _ _ _ _ _ _ _ _ _ _ Hf). by eexists _, _.
  - rewrite (httpdeploy.filed_active _ _ _ _ _ _ _ _ _ _ Hf). by left.
Qed.

Lemma sound_step h s e s' : sound h s → step s e s' → sound (h ++ [(s, e)]) s'.
Proof.
  intros Hs [r query input resp v' w' Hx|r body resp v' w' Hx|r resp v' w' Hx
    |r body code d background mg' v' w' Hx|r input code text clears mg' v' w' Hx|before g after u mg' v' w' Hgs Hx
    |r resp mg' v' w' Hx|w'|w'].
  - apply sound_verify; [done|]. intros P. by apply (verify_passing P r query input s resp v' w').
  - apply sound_verify; [done|]. intros P. by apply (repair_passing P r body s resp v' w').
  - eapply sound_next; [done| |apply Hs|apply plans_mono, Hs|auto..].
    eapply cancel_passing; [exact Hx|]. apply passing_mono, Hs.
  - pose proof (leaves_create _ _ _ _ _ _ _ Hx) as Hv. apply httpdeploy.deploymentCreate_cases in Hx as (mgr & b & rel & run & [= <-] & [= <-] & _ & Hf).
    by eapply sound_accept.
  - pose proof (leaves_create _ _ _ _ _ _ _ Hx) as Hv. apply httpdeploy.deploymentCreate_cases in Hx as ->.
    cbn [fst snd] in Hv. subst v'. by apply sound_evolves; [| |auto..].
  - by eapply sound_goroutine.
  - pose proof (leaves_rollback _ _ _ _ _ _ Hx) as Hv. apply rollback_evolves in Hx as [He Ha].
    cbn [fst snd] in Hv, He, Ha. subst v'. apply sound_evolves; [done|done|auto|]. rewrite Ha. by left.
  - eapply sound_next; [done|apply passing_mono, Hs|apply map_Forall_empty|apply map_Forall_empty| |].
    + by intros g ?%elem_of_nil.
    + intros project id. cbn. by rewrite lookup_empty.
  - by apply sound_evolves; [| |auto..].
Qed.
Lemma history_sound h s : history h s → sound h s.
Proof.
  induction 1 as [w|h s e s' _ IH Hs]; [|by eapply sound_step].
  split; cbn; [apply map_Forall_empty|apply map_Forall_empty|apply map_Forall_empty|by intros g ?%elem_of_nil|].
  intros project id. by rewrite lookup_empty.
Qed.

(** C1: what stands behind an active deployment.  In every state the server comes to, and
    however its requests, goroutines and restarts are ordered: a project has an active
    deployment only after a goroutine was run which came after an accepted request for a
    deployment of that project, whose metadata name a verification run.  Before that
    goroutine a request had made the engine carry out that run, over the server's own
    runtime provider: a request by a caller with the permission to run in the project that
    it names, for the checks of its body, or by one with the permission to edit, for those
    of a stored run.  For each required check of the request the engine called the
    provider, during that request, with the command of the check, in the runtime and
    the workspace of the request, and it exited with 0; and each check has one result.  Every
    stored run that passed was carried out so. *)
Theorem active_deployment_verified h s :
  history h s →
  (∀ project id, deployment.active (manager s) !! project = Some id →
     ∃ h1 s1 h2 metadata run, h = h1 ++ (s1, Deploying) :: h2 ∧ requested h1 project metadata ∧
       metadata !! "verification_run_id" = Some (AnyString run) ∧ run ≠ "" ∧ verified h1 run) ∧
  (∀ id run, runs (tables s) !! id = Some run → Run_Status run = Passed → verified h id).
Proof.
  intros Hs%history_sound. split.
  - intros project id Ha. exact (sound_active h s Hs project id Ha).
  - intros id run Hr Hp. exact (sound_runs h s Hs id run Hr Hp).
Qed.
End server.

(** ** A witness: a run, a request that names it, and the goroutine *)

Section witness.
#[local] Existing Instance canonical_order.
#[local] Existing Instance ticking.
#[local] Existing Instance plain_json.
#[local] Existing Instance plain_pg.
#[local] Instance system_unicode : strings.GoUnicode := strings.ascii_unicode.
#[local] Instance system_sha : Sha256 := λ s, s.
Definition quiet : runtime.Provider clock_world := runtime.answering (runtime.mkExecResult 0 "" "").
Definition s0 : server := started (mkClockWorld 0 None).
Definition run_request : Request := verify_request {["project" := "shop"]}.
Definition verify_out :=
  createVerification (Some verify_auth) (Some true) (Some verificationEngine) (Some quiet) run_request ""
    (Ok two_checks) (tables s0, world s0).
Definition s1 : server := mkServer (manager s0) verify_out.2.1 verify_out.2.2 [].
Definition shop_body : httpdeploy.create_input :=
  httpdeploy.mkCreate (deployment.EnvironmentOther "") "1" "abc" "rt-shop" "" (deployment.StrategyOther "")
    (list_to_map [("verification_run_id", AnyString "vr_1"); ("build_argv", AnyStrings ["make"]);
       ("test_argv", AnyStrings ["make"; "test"]); ("health_target", AnyString "curl localhost")]).
Definition accept_out :=
  httpdeploy.deploymentCreate (Some (deploymentManager quiet)) None run_request (Ok shop_body)
    (manager s1, (tables s1, world s1)).
Definition job := match accept_out.1 with Answer (_, (_, background)) => background | Error _ _ _ => mskip end.
Definition s2 : server := mkServer accept_out.2.1 accept_out.2.2.1 accept_out.2.2.2 [job].
Definition job_out := job (manager s2, (tables s2, world s2)).
Definition s3 : server := mkServer job_out.2.1 job_out.2.2.1 job_out.2.2.2 [].
Definition shop_history : list (server * event) :=
  [(s0, Verifying run_request "" (Ok two_checks)); (s1, Accepted run_request shop_body); (s2, Deploying)].
Notation history := (history (Some verify_auth) quiet None None).

Lemma components2 {A B C} (x : A * (B * C)) : x = (x.1, (x.2.1, x.2.2)).
Proof. by destruct x as [? [? ?]]. Qed.
Lemma components3 {A B C D} (x : A * (B * (C * D))) : x = (x.1, (x.2.1, (x.2.2.1, x.2.2.2))).
Proof. by destruct x as [? [? [? ?]]]. Qed.
Lemma accepted : ∃ code d, accept_out.1 = Answer (code, (d, job)).
Proof.
  assert (match accept_out.1 with Answer _ => True | Error _ _ _ => False end) as Ha by (vm_compute; exact I).
  unfold job. destruct (accept_out.1) as [|[code [d background]]]; [destruct Ha|]. by exists code, d.
Qed.
Lemma shop_history_ok : history shop_history s3.
Proof.
  change shop_history with (([] ++ [(s0, Verifying run_request "" (Ok two_checks))]) ++ [(s1, Accepted run_request shop_body)] ++ [(s2, Deploying)]).
  rewrite (assoc_L (++)). eapply history_step; [eapply history_step; [eapply history_step; [apply history_start|]|]|].
  - apply (step_verify _ _ _ _ s0 run_request "" (Ok two_checks) verify_out.1 verify_out.2.1 verify_out.2.2).
    apply components2.
  - destruct accepted as (code & d & Ha).
    apply (step_accept _ _ _ _ s1 run_request shop_body code d job accept_out.2.1 accept_out.2.2.1 accept_out.2.2.2).
    rewrite <-Ha. apply components3.
  - apply (step_goroutine _ _ _ _ s2 [] job [] job_out.1 job_out.2.1 job_out.2.2.1 job_out.2.2.2); [reflexivity|].
    apply components3.
Qed.

Lemma active_deployment_verified_witness :
  is_Some (deployment.active (manager s3) !! "shop") ∧
  ∃ h1 s2 h2 metadata run, shop_history = h1 ++ (s2, Deploying) :: h2 ∧ requested h1 "shop" metadata ∧
    metadata !! "verification_run_id" = Some (AnyString run) ∧ run ≠ "" ∧ verified (Some verify_auth) quiet h1 run.
Proof.
  assert (bool_decide (is_Some (deployment.active (manager s3) !! "shop")) = true) as Hs by (vm_compute; reflexivity).
  apply bool_decide_eq_true in Hs. split; [exact Hs|]. destruct Hs as [id Hid].
  exact (proj1 (active_deployment_verified (Some verify_auth) quiet None None shop_history s3 shop_history_ok) "shop" id Hid).
Defined.
End witness.
End system.
