(* ===== verification/Boundary.v ===== *)
(** * The bearer boundary

    [src/internal/auth/boundary.go]: a middleware that lets a request through with a token
    that a validator accepts.  The server does not use it. *)

From stdpp Require Import strings.
From S2P Require Import Prelude GoStrings World HttpApi.
Import httpapi.

Module boundary.

(* src: internal/auth/boundary.go:10-13 (Principal) *)
Record Principal := mkPrincipal { Subject : string; Roles : list string }.
(* src: internal/auth/boundary.go:14-16 (Validator) *)
Definition Validator (W : Type) : Type := string → M W (result Principal).
(* src: internal/auth/boundary.go:20-23 (Boundary) *)
Record Boundary (W : Type) := mkBoundary { Boundary_Validator : option (Validator W); Enabled : bool }.
Arguments mkBoundary {W}.
Arguments Boundary_Validator {W}.
Arguments Enabled {W}.

(** A request: its header and the principal of its context. *)
Record request := mkBearer { Authorization : string; from_context : option Principal }.
#[global] Instance eta_request : Eta request := λ r, mkBearer (Authorization r) (from_context r).
(* src: internal/auth/boundary.go:44-47 (PrincipalFromContext) *)
Definition PrincipalFromContext (r : request) : Principal * bool :=
  match from_context r with Some p => (p, true) | None => (mkPrincipal "" [], false) end.

Section middleware.
Context {W A : Type} (b : Boundary W) (next : request → M W (Response A)).
Definition unauthorized : Response A := Error 401 "unauthorized" false.
(* src: internal/auth/boundary.go:25-43 (Boundary.Middleware) *)
Definition Middleware (r : request) : M W (Response A) :=
  if negb (Enabled b) then next r
  else
    let header := Authorization r in
    match Boundary_Validator b with
    | Some Validate =>
        if negb (strings.HasPrefix header "Bearer ") then mret unauthorized
        else
          let! principal := Validate (strings.TrimPrefix header "Bearer ") in
          match principal with
          | Err _ => mret unauthorized
          | Ok principal => next (r <| from_context := Some principal |>)
          end
    | None => mret unauthorized
    end.

(** An enabled boundary asks the validator about the token of the header, and hands the
    request on, with the principal it names, exactly when it accepts it; without a token or a
    validator the answer is 401 and nobody is asked. *)
Theorem Middleware_correct r w :
  Enabled b = true →
  (∃ Validate token, Boundary_Validator b = Some Validate ∧ Authorization r = "Bearer " +:+ token ∧
     Middleware r w = match Validate token w with
                      | (Ok p, w1) => next (r <| from_context := Some p |>) w1
                      | (Err _, w1) => (unauthorized, w1)
                      end) ∨
  (Boundary_Validator b = None ∨ strings.HasPrefix (Authorization r) "Bearer " = false) ∧ Middleware r w = (unauthorized, w).
Proof.
  intros He. unfold Middleware. rewrite He. cbn [negb].
  destruct (Boundary_Validator b) as [V|]; [|by right; auto].
  destruct (strings.HasPrefix (Authorization r) "Bearer ") eqn:Hp; cbn [negb]; [|by right; auto].
  left. unfold strings.TrimPrefix. rewrite Hp. apply strings.HasPrefix_iff in Hp as [token Ht].
  exists V, token. split; [done|]. split; [done|]. rewrite Ht.
  replace (strings.drop _ _) with token by (by destruct token). unfold mthen. destruct (V token w) as [[p|e] w1]; reflexivity.
Qed.
End middleware.
End boundary.
